(* ===== verification/_CoqProject ===== *)
-Q . S2P
Prelude.v
AesConst.v
Alias.v
Aes.v
AesSpec.v
AesProofs.v
Ghash.v
GhashSpec.v
Gcm.v
GcmSpec.v
GcmNonces.v
Common.v
CipherSuites.v
CipherSuitesProofs.v
HalfConn.v
HalfConnProofs.v
RecordProofs.v
RecordAead.v
Conn.v
ConnProofs.v
Cryptobyte.v
Hello.v
Messages.v
WireProofs.v
MessagesProofs.v
HelloProofs.v
WireTheorems.v
Kdf.v
KdfProofs.v
Negotiation.v
NegotiationProofs.v
Auth.v
KeyAgreement.v
Hpke.v
HpkeProofs.v
Reality.v
RealityAuth.v
RealityScan.v
RealitySystem.v
Ticket.v
TicketProofs.v
CertCache.v
SessionCache.v
RealityHandshake.v
Post.v
Client.v
Client13.v
Client12.v
ClientHandshake.v
StreamProofs.v
RealitySilent.v
RealityFlight.v
RealityMessages.v
RealityStages.v
Steady.v
ClientStages.v
ClientAuth.v
PostProofs.v
RealityTheorems.v
RealityRun.v
Ech.v
Server.v
Server12.v
Server13.v
ServerStages.v
Server12Stages.v
Server12Proofs.v
Server13Proofs.v
ClientMake.v
Server13Hello.v
ServerCertificates.v
EchProofs.v
EchAccept.v
EchConfigs.v
ClientRun.v
EchRun.v
ServerRun.v
Listener.v
KeyPair.v
Quic.v
