(* ===== verification/Prelude.v ===== *)
(** * Verification of electricity, a Go server implementation of REALITY

    The repository is a fork of crypto/tls (package [reality]).  Its server
    hides behind another web site, the target: a connection is mirrored to the
    target until the ClientHello has been read; if this one proves that its
    sender knows the server's key, the server answers in the target's place,
    with records of the lengths that the target has used; otherwise the bytes
    are forwarded.  This library models the Go code as executable functions and
    states what makes it correct.

    ** Parts, and the files that model them

    The order is that of the dependencies.

    - This file: [outcome] (a value, an error or a panic of Go), the bytes and
      big-endian integers of the code, tactics and hints.
    - aes/, alias/, gcm/: [AesConst], [Alias], [Aes], [Ghash], [Gcm],
      [GcmNonces].  [AesSpec], [GhashSpec] and [GcmSpec] hold the standards
      (FIPS-197, SP 800-38D); [AesProofs], [GhashSpec] and [GcmSpec] the
      refinements.
    - common.go, alert.go, cipher_suites.go: [Common], [CipherSuites],
      [CipherSuitesProofs].
    - conn.go, the record layer: [HalfConn] is one direction (halfConn),
      [Conn] the connection with its reads, writes, alerts and flights,
      [Post] what comes after the handshake (Read, KeyUpdate, Handshake);
      [HalfConnProofs], [RecordProofs], [RecordAead], [ConnProofs],
      [StreamProofs], [PostProofs], [Steady].
    - handshake_messages.go: [Cryptobyte] (the interface of the third-party
      parser and builder), [Hello], [Messages]; [WireProofs],
      [MessagesProofs], [HelloProofs], [WireTheorems].
    - tls12/, tls13/, prf.go, key_schedule.go: [Kdf], [KdfProofs].
    - Choices of versions, suites, curves, protocols: [Negotiation],
      [NegotiationProofs].  auth.go: [Auth].  key_agreement.go:
      [KeyAgreement].  hpke/: [Hpke], [HpkeProofs].
    - tls.go: [Reality] (authentication of a client, the scan of the target's
      flight), [RealitySystem] (the two goroutines of Server as a transition
      system); [RealityAuth], [RealityScan].
    - handshake_server_tls13.go as Server runs it: [RealityHandshake];
      [RealityMessages], [RealityStages], [RealityFlight], [RealitySilent],
      [RealityTheorems], [RealityRun].
    - ticket.go and the ticket keys of common.go: [Ticket], [TicketProofs].
      The client's session cache: [SessionCache].
    - handshake_client.go, handshake_client_tls13.go: [Client], [Client13],
      [Client12], [ClientHandshake]; [ClientStages], [ClientAuth],
      [ClientMake], [ClientRun].
    - cache.go: [CertCache].
    - handshake_server.go, the choice of a certificate (common.go) and
      handshake_server_tls13.go as a server of its own: [Server],
      [Server12], [Server13]; [ServerStages], [Server12Stages],
      [Server12Proofs], [Server13Proofs], [Server13Hello],
      [ServerCertificates], and [ServerRun] with runs of a client and a
      server against each other.  The Server of tls.go runs REALITY
      instead; nothing calls serverHandshake at this commit.
    - ech.go: [Ech], [EchProofs], [EchAccept], [EchConfigs], [EchRun].
    - tls.go, the listener and the key pairs: [Listener], [KeyPair].
    - quic.go: [Quic] (the methods of QUICConn against a handshake that is
      any program over what quic.go gives it).

    ** How the code is read

    A function that may fail is a function to [outcome].  The methods of
    [*Conn] and of the handshake states are functions of the state to an
    outcome and the new state (the monads [M] of [Conn] and [CM] of
    [Client]), so that what an operation changes before an error is part of
    its meaning.  The network is the list of the results of the coming reads
    and writes, and the bytes written; [config.rand()] is a function of the
    number of its uses.  Two goroutines that share a connection are
    transitions between the points where the mutex may change hands.
    Integers are [Z] with the wrap-around of their type written out, lengths
    and indices are [nat] where the code cannot make them negative.  Bytes are
    [Z]; lemmas ask for [is_byte] where it matters.

    What is not under src/ is a parameter: the classes [Stream], [CbcMode],
    [MacFun] and [RecordAEAD] for the objects of the ciphers,
    [CryptoString] and [Builder] for cryptobyte, [Hashes], [X509],
    [CertificateChains], [EcdhCurves], [Decapsulation], [Verifiers] for the
    standard library.  What the theorems need of them are classes of laws with
    instances that satisfy them ([plain_Builder], the AES-GCM of [Gcm] itself);
    the witnesses run the code with such instances.

    ** What is shown

    REALITY: which clients are accepted ([RealityAuth.authenticate_correct]),
    that only these get an answer of the server's own
    ([RealitySystem.handshake_authenticated]), that a relayed connection is
    not altered ([RealitySystem.relay_transparent]) and is connected in the end
    in every run in which no goroutine that can go on is left alone for ever, the
    mutex being part of the state ([RealitySystem.unaccepted_connected]), that
    the answer consists of records of the target's lengths and tells an
    authenticated client the truth ([RealityTheorems.server_imitates_target],
    [client_reads_flight]; for a configuration that asks for no client
    certificate and has its session tickets off, since the padding damages or
    refuses the messages that the target has not sent), and that a failed
    handshake sends nothing ([RealitySilent.handshake_silent]).

    Handshakes: what a client has checked when its handshake ends
    ([ClientAuth.client_authenticates]) and what a server has checked of a
    client ([Server12Proofs.server_authenticates],
    [Server13Proofs.resumption_sound]), the well-formedness of what a client
    sends and of what the server answers ([Server13Hello.hello_answered]),
    that the chosen certificate can be used, the agreement on a version and
    the detection of a downgrade, on a signature scheme and a secret, the
    round trip of every message and the equality of the two transcripts,
    tickets and their keys, Encrypted Client Hello.

    Goroutines: the listener hands every connection over once
    ([Listener.accept_delivers]), a QUIC transport gets every event and the
    handshake every byte in order ([Quic.quic_in_order]), the cache of
    certificates counts its handles ([CertCache.certCache_interned]).

    The record layer: [decrypt] inverts [encrypt] for every cipher and with
    REALITY's padding, but for the record that the padding writes over
    ([RecordProofs.decrypt_encrypt] says what is delivered then), the reading loop ends and drops only what it may, a
    connection is a byte stream, key updates keep the ends in step, the
    handshake runs once.

    Cryptography: AES, GHASH and GCM compute the standards; no nonce is used
    twice; the PRFs are those of the RFCs and the labels of the key schedule
    are separated; HPKE round-trips.

    ** Loops and fuel

    A loop that does not recurse on its data has fuel, and a result to give
    when it runs out ([stuck]); a lemma says that the result does not depend
    on it.  The parsers consume a byte a pass, so the length is enough
    ([WireTheorems.parser_loops_end], [EchConfigs.configList_ends], which also
    has the list on which the code does not end).  [Conn.readRecordOrCCS] drops
    at most [maxUselessRecords] records ([ConnProofs.readRecord_progress]);
    [writeRecordLocked] and [Write] consume a byte of data a pass.  [pHash]
    writes a block a pass ([KdfProofs.prf_is_P_hash]).  [Read] has
    [read_fuel], which counts the bytes and the records that can still come.
    [Quic.post_messages] takes a message a pass
    ([Quic.post_messages_enough]); [KeyPair.certificates] and
    [key_block] go forward in their input ([KeyPair.key_block_spec]).

    ** Not modelled

    The branches of the handshakes for a connection with a QUIC transport:
    [Client13] and [Server13] are of TCP, and [Quic] takes the handshake as
    any program.  Dialers and Listen, which only call the standard library;
    the copies and the defaults of Config.  common_string.go and
    generate_cert.go are generated code and a tool; fips140tls is a flag that
    the model takes as an argument.  Timing, deadlines and, but for QUIC,
    the cancellation of contexts are left out, and so is the constant-time
    discipline of comparisons. *)

From Stdlib Require Export ZArith Lia List.
From stdpp Require Export base list numbers strings.
Export ListNotations.

#[export] Set Default Goal Selector "!".
Open Scope Z_scope.

(** The bitwise operators of Go on non-negative integers. *)
Infix "⊕" := Z.lxor (at level 50, left associativity) : Z_scope.
Infix "|||" := Z.lor (at level 50, left associativity) : Z_scope.
Infix "&&&" := Z.land (at level 40, left associativity) : Z_scope.

(** ** Outcomes of Go code *)

(** A Go call returns a value, returns a non-nil [error], or panics. *)
Inductive outcome (E A : Type) : Type :=
| Ret (a : A)
| Err (e : E)
| Panic (why : string).
Arguments Ret {E A} a.
Arguments Err {E A} e.
Arguments Panic {E A} why.

(** The run-time panic of an index or slice expression out of range. *)
Definition index_out_of_range : string := "index out of range".


Lemma Ret_inj {E A} (a b : A) : Ret (E:=E) a = Ret b -> a = b.
Proof. congruence. Qed.

Definition obind {E A B} (m : outcome E A) (k : A -> outcome E B) : outcome E B :=
  match m with
  | Ret a => k a
  | Err e => Err e
  | Panic w => Panic w
  end.

Declare Scope go_scope.
Delimit Scope go_scope with go.
Notation "'let!' x := m 'in' k" := (obind m (fun x => k))
  (at level 10, x pattern, m at level 100, k at level 200) : go_scope.

(** The value of an outcome when there is one. *)
Definition ret_opt {E A} (m : outcome E A) : option A :=
  match m with Ret a => Some a | _ => None end.

(** ** Counted loops: [for i := from; i < to; i++ { s = body i s }] *)

Definition for_range {S : Type} (from to : nat) (body : nat -> S -> S) (s : S) : S :=
  fold_left (fun s i => body i s) (seq from (to - from)) s.

Lemma for_range_ge {S} (from to : nat) (body : nat -> S -> S) s :
  (to <= from)%nat -> for_range from to body s = s.
Proof. intros H. unfold for_range. by replace (to - from)%nat with 0%nat by lia. Qed.

Lemma for_range_lt {S} (from to : nat) (body : nat -> S -> S) s :
  (from < to)%nat ->
  for_range from to body s = for_range (Datatypes.S from) to body (body from s).
Proof.
  intros H. unfold for_range.
  replace (to - from)%nat with (Datatypes.S (to - Datatypes.S from)) by lia.
  reflexivity.
Qed.

Lemma for_range_last {S} (from to : nat) (body : nat -> S -> S) s :
  (from <= to)%nat ->
  for_range from (Datatypes.S to) body s = body to (for_range from to body s).
Proof.
  intros H. unfold for_range.
  replace (Datatypes.S to - from)%nat with (Datatypes.S (to - from)) by lia.
  rewrite seq_S, fold_left_app. simpl. do 2 f_equal. lia.
Qed.

(** The loop rule: an invariant indexed by the counter. *)
Lemma for_range_ind {S} (P : nat -> S -> Prop) (from to : nat) body s :
  (from <= to)%nat ->
  P from s ->
  (forall i s, (from <= i < to)%nat -> P i s -> P (Datatypes.S i) (body i s)) ->
  P to (for_range from to body s).
Proof.
  intros Hle H0 Hstep.
  assert (Hgen : forall n, (from + n <= to)%nat ->
            P (from + n)%nat (for_range from (from + n) body s)).
  { induction n as [|n IH]; intros Hn.
    - rewrite Nat.add_0_r, for_range_ge by lia. done.
    - rewrite Nat.add_succ_r, for_range_last by lia.
      apply Hstep; [lia|]. apply IH. lia. }
  replace to with (from + (to - from))%nat by lia. apply Hgen. lia.
Qed.

(** ** Bit-level extensionality *)

(** [bits_simpl] pushes [Z.testbit] through the bitwise operations;
    [bits_ext] proves equalities of words bit by bit. *)
Create Rewrite HintDb bits.
#[export] Hint Rewrite Z.lxor_spec Z.land_spec Z.lor_spec Z.ldiff_spec
  Z.testbit_0_l : bits.
#[export] Hint Rewrite Z.shiftr_spec Z.shiftl_spec using lia : bits.

Ltac bits_simpl := repeat (autorewrite with bits in *; cbv beta).

(** Case analysis on every bit left in the goal. *)
Ltac bits_cases :=
  repeat match goal with
  | |- context [Z.testbit ?x ?i] => destruct (Z.testbit x i)
  end; try reflexivity.

Ltac bits_ext := apply Z.bits_inj'; intros ? ?; bits_simpl; bits_cases.

(** Equalities between XOR-sums, by the bits. *)
Ltac xor_solve :=
  apply Z.bits_inj'; intros ? ?; rewrite ?Z.lxor_spec, ?Z.testbit_0_l;
  repeat match goal with |- context [Z.testbit ?x ?i] =>
    destruct (Z.testbit x i) end; reflexivity.

Lemma testbit_high (x n i : Z) : 0 <= x < 2 ^ n -> n <= i -> Z.testbit x i = false.
Proof.
  intros Hx Hi. destruct (decide (n < 0)).
  { rewrite Z.pow_neg_r in Hx by lia. lia. }
  destruct (decide (x = 0)) as [->|Hx0]; [apply Z.testbit_0_l|].
  apply Z.bits_above_log2; [lia|].
  apply Z.lt_le_trans with n; [|lia]. apply Z.log2_lt_pow2; lia.
Qed.

Lemma range_of_testbit (x n : Z) :
  0 <= x -> 0 <= n -> (forall i, n <= i -> Z.testbit x i = false) -> x < 2 ^ n.
Proof.
  intros Hx Hn Hb. destruct (decide (x = 0)) as [->|Hx0].
  { apply Z.pow_pos_nonneg; lia. }
  apply Z.log2_lt_pow2; [lia|].
  destruct (decide (Z.log2 x < n)) as [|Hge]; [done|].
  pose proof (Hb (Z.log2 x) ltac:(lia)) as H.
  rewrite Z.bit_log2 in H by lia. discriminate.
Qed.

Lemma lxor_range (x y n : Z) :
  0 <= n -> 0 <= x < 2 ^ n -> 0 <= y < 2 ^ n -> 0 <= Z.lxor x y < 2 ^ n.
Proof.
  intros Hn Hx Hy. assert (0 <= Z.lxor x y) by (apply Z.lxor_nonneg; lia).
  split; [done|]. apply range_of_testbit; [done..|].
  intros i Hi. rewrite Z.lxor_spec, !(testbit_high _ n); done || lia.
Qed.

Lemma lor_range (x y n : Z) :
  0 <= n -> 0 <= x < 2 ^ n -> 0 <= y < 2 ^ n -> 0 <= Z.lor x y < 2 ^ n.
Proof.
  intros Hn Hx Hy. assert (0 <= Z.lor x y) by (apply Z.lor_nonneg; lia).
  split; [done|]. apply range_of_testbit; [done..|].
  intros i Hi. rewrite Z.lor_spec, !(testbit_high _ n); done || lia.
Qed.

Lemma land_range_l (x y n : Z) :
  0 <= n -> 0 <= x < 2 ^ n -> 0 <= y -> 0 <= Z.land x y < 2 ^ n.
Proof.
  intros Hn Hx Hy. assert (0 <= Z.land x y) by (apply Z.land_nonneg; lia).
  split; [done|]. apply range_of_testbit; [done..|].
  intros i Hi. rewrite Z.land_spec, (testbit_high x n); done || lia.
Qed.

Lemma shiftr_range (x n k : Z) :
  0 <= k <= n -> 0 <= x < 2 ^ n -> 0 <= Z.shiftr x k < 2 ^ (n - k).
Proof.
  intros Hk Hx. rewrite Z.shiftr_div_pow2 by lia.
  assert (0 < 2 ^ k) by (apply Z.pow_pos_nonneg; lia).
  split; [apply Z.div_pos; lia|].
  apply Z.div_lt_upper_bound; [lia|]. rewrite <- Z.pow_add_r by lia.
  replace (k + (n - k)) with n by lia. lia.
Qed.

Lemma land_ones_id (x n : Z) : 0 <= n -> 0 <= x < 2 ^ n -> Z.land x (Z.ones n) = x.
Proof. intros Hn Hx. rewrite Z.land_ones by done. by apply Z.mod_small. Qed.

Lemma lor_shiftl_add (a b n : Z) : 0 <= n -> 0 <= b < 2 ^ n -> (a ≪ n) ||| b = a * 2 ^ n + b.
Proof.
  intros Hn Hb. assert (Hl : (a ≪ n) &&& b = 0).
  { apply Z.bits_inj'. intros i Hi. rewrite Z.land_spec, Z.testbit_0_l.
    destruct (decide (i < n)).
    - rewrite Z.shiftl_spec_low by lia. done.
    - rewrite (testbit_high b n i) by lia. apply andb_false_r. }
  rewrite <- Z.shiftl_mul_pow2, Z.add_nocarry_lxor, Z.lxor_lor by done. done.
Qed.

(** ** Machine words: the wrap-around of Go's unsigned integers *)

Definition u8 (x : Z) : Z := x mod 2 ^ 8.
Definition u16 (x : Z) : Z := x mod 2 ^ 16.
Definition u32 (x : Z) : Z := x mod 2 ^ 32.
Definition u64 (x : Z) : Z := x mod 2 ^ 64.

Abbreviation is_u8 x := (0 <= x < 2 ^ 8) (only parsing).
Abbreviation is_u16 x := (0 <= x < 2 ^ 16) (only parsing).
Abbreviation is_u24 x := (0 <= x < 2 ^ 24) (only parsing).
Abbreviation is_u32 x := (0 <= x < 2 ^ 32) (only parsing).
Abbreviation is_u64 x := (0 <= x < 2 ^ 64) (only parsing).

(** ** Byte strings *)

(** A [[]byte] or a Go string is the list of its bytes. *)
Abbreviation bytes := (list Z).
Definition is_byte (b : Z) : Prop := is_u8 b.
Abbreviation bytes_ok := (Forall is_byte).

#[export] Instance is_byte_dec b : Decision (is_byte b).
Proof. unfold is_byte. solve_decision. Defined.

(** Prove a decidable proposition by evaluating its decision procedure. *)
Ltac compute_decide := apply (bool_decide_unpack _); vm_compute; exact I.

(** [s[i:j]] *)
Definition slice {A} (i j : nat) (l : list A) : list A := take (j - i) (drop i l).

Lemma take_S_insert {A} (l : list A) i x :
  (i < length l)%nat -> take (S i) (<[i := x]> l) = take i l ++ [x].
Proof.
  intros H. rewrite (take_S_r _ _ x) by (by apply list_lookup_insert_eq).
  by rewrite take_insert_ge by lia.
Qed.

Lemma fold_left_cons {A B} (f : A -> B -> A) x l a :
  fold_left f (x :: l) a = fold_left f l (f a x).
Proof. reflexivity. Qed.

(** ** Big-endian integers ([encoding/binary.BigEndian]) *)

Fixpoint be_put (n : nat) (v : Z) : bytes :=
  match n with
  | O => []
  | S n => u8 (v ≫ (8 * Z.of_nat n)) :: be_put n v
  end.

Definition be_get (bs : bytes) : Z := fold_left (fun a b => a * 256 + b) bs 0.

(** [binary.BigEndian.Uint16/Uint32/Uint64] read a prefix and panic when the
    slice is shorter; the callers below establish the length first. *)
Definition Uint16 (b : bytes) : Z := be_get (take 2 b).
Definition Uint32 (b : bytes) : Z := be_get (take 4 b).
Definition Uint64 (b : bytes) : Z := be_get (take 8 b).
Definition PutUint16 (v : Z) : bytes := be_put 2 v.
Definition PutUint32 (v : Z) : bytes := be_put 4 v.
Definition PutUint64 (v : Z) : bytes := be_put 8 v.

Lemma length_be_put n v : length (be_put n v) = n.
Proof. induction n; simpl; congruence. Qed.

Lemma be_put_ok n v : bytes_ok (be_put n v).
Proof.
  induction n; simpl; constructor; [|done].
  unfold is_byte, u8. apply Z.mod_pos_bound. lia.
Qed.

Lemma be_get_from a bs :
  fold_left (fun a b => a * 256 + b) bs a = a * 256 ^ Z.of_nat (length bs) + be_get bs.
Proof.
  unfold be_get. revert a. induction bs as [|b bs IH]; intros a; simpl length; simpl fold_left.
  { rewrite Z.pow_0_r. lia. }
  rewrite (IH (a * 256 + b)), (IH (0 * 256 + b)), Nat2Z.inj_succ, Z.pow_succ_r by lia. ring.
Qed.

Lemma be_get_cons b bs : be_get (b :: bs) = b * 256 ^ Z.of_nat (length bs) + be_get bs.
Proof. unfold be_get at 1. simpl. by rewrite be_get_from. Qed.

Lemma be_get_app a b : be_get (a ++ b) = be_get a * 256 ^ Z.of_nat (length b) + be_get b.
Proof. unfold be_get at 1. rewrite fold_left_app. apply be_get_from. Qed.

Lemma be_get_range bs : bytes_ok bs -> 0 <= be_get bs < 256 ^ Z.of_nat (length bs).
Proof.
  induction 1 as [|b bs Hb _ IH]; [done|].
  rewrite be_get_cons. simpl length. rewrite Nat2Z.inj_succ, Z.pow_succ_r by lia.
  unfold is_byte in Hb. nia.
Qed.

Lemma be_get_put n v : be_get (be_put n v) = v mod 256 ^ Z.of_nat n.
Proof.
  induction n as [|n IH].
  { simpl. by rewrite Z.mod_1_r. }
  cbn [be_put]. rewrite be_get_cons, length_be_put, IH, Nat2Z.inj_succ, Z.pow_succ_r by lia.
  unfold u8. rewrite Z.shiftr_div_pow2 by lia. change (2 ^ 8) with 256.
  replace (2 ^ (8 * Z.of_nat n)) with (256 ^ Z.of_nat n)
    by (change 256 with (2 ^ 8); rewrite <- Z.pow_mul_r by lia; done).
  assert (0 < 256 ^ Z.of_nat n) by (apply Z.pow_pos_nonneg; lia).
  rewrite (Z.mul_comm 256), Z.rem_mul_r by lia. lia.
Qed.

Lemma be_put_mod n v : be_put n (v mod 256 ^ Z.of_nat n) = be_put n v.
Proof.
  assert (Hg : forall m k, (m <= k)%nat -> be_put m (v mod 256 ^ Z.of_nat k) = be_put m v).
  { intros m k Hm. induction m as [|m IH]; [done|]. cbn [be_put].
    rewrite IH by lia. f_equal.
    apply Z.bits_inj'. intros i Hi. unfold u8.
    change 256 with (2 ^ 8). rewrite <- Z.pow_mul_r by lia.
    rewrite !Z.testbit_mod_pow2 by lia.
    destruct (decide (i < 8)); [|by rewrite (proj2 (Z.ltb_ge i 8)) by lia].
    rewrite !Z.shiftr_spec by lia. rewrite Z.testbit_mod_pow2 by lia.
    rewrite (proj2 (Z.ltb_lt (i + 8 * Z.of_nat m) (8 * Z.of_nat k))) by lia. done. }
  by apply Hg.
Qed.

Lemma be_put_add_mul n a v : be_put n (a * 256 ^ Z.of_nat n + v) = be_put n v.
Proof.
  rewrite <- be_put_mod, <- (be_put_mod n v). f_equal.
  rewrite Z.add_comm. apply Z.mod_add. apply Z.pow_nonzero; lia.
Qed.

Lemma be_put_get bs : bytes_ok bs -> be_put (length bs) (be_get bs) = bs.
Proof.
  induction 1 as [|b bs Hb Hbs IH]; [done|].
  simpl length. cbn [be_put]. rewrite be_get_cons. f_equal.
  - unfold u8. rewrite Z.shiftr_div_pow2 by lia.
    replace (2 ^ (8 * Z.of_nat (length bs))) with (256 ^ Z.of_nat (length bs))
      by (change 256 with (2 ^ 8); rewrite <- Z.pow_mul_r by lia; done).
    pose proof (be_get_range bs Hbs).
    rewrite Z.div_add_l by lia. rewrite Z.div_small by lia.
    rewrite Z.add_0_r. by apply Z.mod_small.
  - rewrite be_put_add_mul. done.
Qed.

Lemma be_put_app n m a b :
  0 <= a < 256 ^ Z.of_nat n -> 0 <= b < 256 ^ Z.of_nat m ->
  be_put n a ++ be_put m b = be_put (n + m) (a * 256 ^ Z.of_nat m + b).
Proof.
  intros Ha Hb. assert (Hok : bytes_ok (be_put n a ++ be_put m b))
    by (apply Forall_app; split; apply be_put_ok).
  rewrite <- (be_put_get _ Hok), be_get_app, !be_get_put, length_app, !length_be_put.
  by rewrite !Z.mod_small.
Qed.

(** Appending a low part is an XOR. *)
Lemma mul_pow2_add_lxor (a b n : Z) : 0 <= n -> 0 <= b < 2 ^ n -> a * 2 ^ n + b = (a ≪ n) ⊕ b.
Proof.
  intros Hn Hb. rewrite <- (lor_shiftl_add a b n Hn Hb).
  apply Z.bits_inj'. intros i Hi. rewrite Z.lor_spec, Z.lxor_spec.
  destruct (decide (i < n)).
  - rewrite Z.shiftl_spec_low by lia. by destruct (Z.testbit b i).
  - rewrite (testbit_high b n i) by lia. by destruct (Z.testbit _ i).
Qed.

Lemma be_get_zip_lxor (a b : bytes) : bytes_ok a -> bytes_ok b -> length a = length b ->
  be_get (zip_with Z.lxor a b) = be_get a ⊕ be_get b.
Proof.
  intros Ha. revert b. induction Ha as [|x a Hx Ha IH]; intros [|y b] Hb Hl; try done.
  apply Forall_cons in Hb as [Hy Hb]. injection Hl as Hl. simpl zip_with.
  rewrite !be_get_cons, length_zip_with, Hl, Nat.min_id, IH by done.
  pose proof (be_get_range a Ha) as Ra. pose proof (be_get_range b Hb) as Rb. rewrite Hl in Ra.
  set (n := 8 * Z.of_nat (length b)).
  assert (E : 256 ^ Z.of_nat (length b) = 2 ^ n)
    by (unfold n; change 256 with (2 ^ 8); rewrite <- Z.pow_mul_r by lia; done).
  rewrite E in *. assert (0 <= n) by lia.
  rewrite !mul_pow2_add_lxor by (try apply lxor_range; lia).
  rewrite Z.shiftl_lxor. xor_solve.
Qed.
