(* ===== verification/Alias.v ===== *)
(** * alias/alias.go: memory aliasing tests

    A slice is modelled by the address of its first element, its contents and
    the memory behind it up to its capacity; only the address and the length
    matter here. *)

From S2P Require Import Prelude.

Record Slice := mkSlice {
  ptr : Z;        (* address of element 0 *)
  data : bytes;   (* the elements, [len] of them *)
  spare : bytes   (* the memory from [len] up to [cap] *)
}.

(** [cap(x)] *)
Definition scap (x : Slice) : nat := length (data x) + length (spare x).

Abbreviation slen x := (Z.of_nat (length (data x))) (only parsing).

(** [AnyOverlap]: [&x[0] <= &y[len(y)-1] && &y[0] <= &x[len(x)-1]]. *)
Definition AnyOverlap (x y : Slice) : bool :=
  (0 <? slen x) && (0 <? slen y)
  && (ptr x <=? ptr y + (slen y - 1))
  && (ptr y <=? ptr x + (slen x - 1)).

Definition InexactOverlap (x y : Slice) : bool :=
  if (slen x =? 0) || (slen y =? 0) || (ptr x =? ptr y) then false
  else AnyOverlap x y.

(** [x] and [y] hold the same byte of memory at their indices [i] and [j]. *)
Definition shares (x y : Slice) (i j : Z) : Prop :=
  0 <= i < slen x /\ 0 <= j < slen y /\ ptr x + i = ptr y + j.

Lemma AnyOverlap_spec x y : AnyOverlap x y = true <-> exists i j, shares x y i j.
Proof.
  unfold AnyOverlap, shares. rewrite !andb_true_iff, !Z.ltb_lt, !Z.leb_le. split.
  - intros [[[Hx Hy] Hxy] Hyx]. destruct (decide (ptr x <= ptr y)).
    + exists (ptr y - ptr x), 0. lia.
    + exists 0, (ptr x - ptr y). lia.
  - intros (i & j & Hi & Hj & He). lia.
Qed.

(** [InexactOverlap] reports exactly that some byte of memory is shared at
    non-corresponding indices, as its comment promises. *)
Theorem InexactOverlap_spec x y :
  InexactOverlap x y = true <-> exists i j, shares x y i j /\ i <> j.
Proof.
  unfold InexactOverlap.
  destruct ((slen x =? 0) || (slen y =? 0) || (ptr x =? ptr y)) eqn:E.
  - split; [done|]. intros (i & j & (Hi & Hj & He) & Hne).
    rewrite !orb_true_iff, !Z.eqb_eq in E. lia.
  - rewrite AnyOverlap_spec. rewrite !orb_false_iff, !Z.eqb_neq in E.
    split; [|by intros (i & j & H & _); exists i, j].
    intros (i & j & H). exists i, j. split; [done|]. unfold shares in H. lia.
Qed.
