(* ===== verification/Aes.v ===== *)
(** * aes/aes.go, aes/aes_generic.go, aes/aes_noasm.go: the AES block cipher

    The generic (table-driven) implementation, operation by operation: key
    expansion into the two word arrays of [blockExpanded], the encryption and
    decryption of one block with the [te]/[td] tables, and the exported
    [New]/[Encrypt]/[Decrypt] with their guards.  [int] sizes and array
    indices are [nat]; [uint32] words are [Z]. *)

From S2P Require Import Prelude AesConst Alias.

(** Table lookup.  Every index below is a [uint8] (or a [uint32] shifted down
    to 8 bits) into a table of 256 entries, except [powx], whose index
    [i/nk-1] is at most 9: no lookup is out of range. *)
Definition tbl (t : list Z) (i : Z) : Z := nth (Z.to_nat i) t 0.

(** Four values [s0, s1, s2, s3]. *)
Record quad (A : Type) := Q { q0 : A; q1 : A; q2 : A; q3 : A }.
Arguments Q {A} q0 q1 q2 q3.
Arguments q0 {A} q.
Arguments q1 {A} q.
Arguments q2 {A} q.
Arguments q3 {A} q.

(** [xk[k]] of a [[60]uint32]. *)
Definition word_at (xk : list Z) (k : nat) : Z := nth k xk 0.

Definition aes_BlockSize : nat := 16.

Record blockExpanded := mkBlockExpanded {
  rounds : nat;
  enc : list Z;
  dec : list Z
}.

Definition aes128KeySize : nat := 16.
Definition aes192KeySize : nat := 24.
Definition aes256KeySize : nat := 32.
Definition aes128Rounds : nat := 10.
Definition aes192Rounds : nat := 12.
Definition aes256Rounds : nat := 14.

(** The zero value [Block{}]. *)
Definition zeroBlock : blockExpanded :=
  {| rounds := 0; enc := replicate 60 0; dec := replicate 60 0 |}.

Definition roundKeysSize (b : blockExpanded) : nat := (rounds b + 1) * (128 / 32).

(** [uint32(a)<<24 | uint32(b)<<16 | uint32(c)<<8 | uint32(d)] *)
Definition pack4 (a b c d : Z) : Z := (a ≪ 24) ||| (b ≪ 16) ||| (c ≪ 8) ||| d.

(** The loads, the middle rounds, the last round and the stores of
    [encryptBlockGeneric]. *)
Definition load_words (src : bytes) : quad Z :=
  Q (Uint32 (slice 0 4 src)) (Uint32 (slice 4 8 src))
    (Uint32 (slice 8 12 src)) (Uint32 (slice 12 16 src)).

Definition xor_key (s : quad Z) (xk : list Z) (k : nat) : quad Z :=
  Q (q0 s ⊕ word_at xk (k + 0)) (q1 s ⊕ word_at xk (k + 1))
    (q2 s ⊕ word_at xk (k + 2)) (q3 s ⊕ word_at xk (k + 3)).

Definition enc_round (xk : list Z) (k : nat) (s : quad Z) : quad Z :=
  let '(Q s0 s1 s2 s3) := s in
  Q (word_at xk (k + 0) ⊕ tbl te0 (u8 (s0 ≫ 24)) ⊕ tbl te1 (u8 (s1 ≫ 16)) ⊕ tbl te2 (u8 (s2 ≫ 8)) ⊕ tbl te3 (u8 s3))
    (word_at xk (k + 1) ⊕ tbl te0 (u8 (s1 ≫ 24)) ⊕ tbl te1 (u8 (s2 ≫ 16)) ⊕ tbl te2 (u8 (s3 ≫ 8)) ⊕ tbl te3 (u8 s0))
    (word_at xk (k + 2) ⊕ tbl te0 (u8 (s2 ≫ 24)) ⊕ tbl te1 (u8 (s3 ≫ 16)) ⊕ tbl te2 (u8 (s0 ≫ 8)) ⊕ tbl te3 (u8 s1))
    (word_at xk (k + 3) ⊕ tbl te0 (u8 (s3 ≫ 24)) ⊕ tbl te1 (u8 (s0 ≫ 16)) ⊕ tbl te2 (u8 (s1 ≫ 8)) ⊕ tbl te3 (u8 s2)).

Definition enc_last (t : quad Z) : quad Z :=
  let '(Q t0 t1 t2 t3) := t in
  Q (pack4 (tbl sbox0 (t0 ≫ 24)) (tbl sbox0 ((t1 ≫ 16) &&& 0xff)) (tbl sbox0 ((t2 ≫ 8) &&& 0xff)) (tbl sbox0 (t3 &&& 0xff)))
    (pack4 (tbl sbox0 (t1 ≫ 24)) (tbl sbox0 ((t2 ≫ 16) &&& 0xff)) (tbl sbox0 ((t3 ≫ 8) &&& 0xff)) (tbl sbox0 (t0 &&& 0xff)))
    (pack4 (tbl sbox0 (t2 ≫ 24)) (tbl sbox0 ((t3 ≫ 16) &&& 0xff)) (tbl sbox0 ((t0 ≫ 8) &&& 0xff)) (tbl sbox0 (t1 &&& 0xff)))
    (pack4 (tbl sbox0 (t3 ≫ 24)) (tbl sbox0 ((t0 ≫ 16) &&& 0xff)) (tbl sbox0 ((t1 ≫ 8) &&& 0xff)) (tbl sbox0 (t2 &&& 0xff))).

Definition store_words (s : quad Z) (dst : bytes) : bytes :=
  PutUint32 (q0 s) ++ PutUint32 (q1 s) ++ PutUint32 (q2 s) ++ PutUint32 (q3 s)
  ++ drop 16 dst.

(** The loop carries [k], [s] and [t]; [t] is zero if the loop never runs. *)
Definition rounds_body (step : nat -> quad Z -> quad Z) (r : nat)
    (kst : nat * quad Z * quad Z) : nat * quad Z * quad Z :=
  let '(k, s, _) := kst in let t := step k s in ((k + 4)%nat, t, t).

Definition rounds_loop (step : nat -> quad Z -> quad Z) (n : nat) (s : quad Z)
  : nat * quad Z * quad Z :=
  for_range 0 n (rounds_body step) (4%nat, s, Q 0 0 0 0).

Definition encryptBlockGeneric {E} (c : blockExpanded) (dst src : bytes) : outcome E bytes :=
  let xk := enc c in
  if (length src <? 16)%nat then Panic index_out_of_range else
  let s := xor_key (load_words src) xk 0 in
  let '(k, _, t) := rounds_loop (enc_round xk) (rounds c - 1) s in
  let s := xor_key (enc_last t) xk k in
  if (length dst <? 16)%nat then Panic index_out_of_range else
  Ret (store_words s dst).

Definition dec_round (xk : list Z) (k : nat) (s : quad Z) : quad Z :=
  let '(Q s0 s1 s2 s3) := s in
  Q (word_at xk (k + 0) ⊕ tbl td0 (u8 (s0 ≫ 24)) ⊕ tbl td1 (u8 (s3 ≫ 16)) ⊕ tbl td2 (u8 (s2 ≫ 8)) ⊕ tbl td3 (u8 s1))
    (word_at xk (k + 1) ⊕ tbl td0 (u8 (s1 ≫ 24)) ⊕ tbl td1 (u8 (s0 ≫ 16)) ⊕ tbl td2 (u8 (s3 ≫ 8)) ⊕ tbl td3 (u8 s2))
    (word_at xk (k + 2) ⊕ tbl td0 (u8 (s2 ≫ 24)) ⊕ tbl td1 (u8 (s1 ≫ 16)) ⊕ tbl td2 (u8 (s0 ≫ 8)) ⊕ tbl td3 (u8 s3))
    (word_at xk (k + 3) ⊕ tbl td0 (u8 (s3 ≫ 24)) ⊕ tbl td1 (u8 (s2 ≫ 16)) ⊕ tbl td2 (u8 (s1 ≫ 8)) ⊕ tbl td3 (u8 s0)).

Definition dec_last (t : quad Z) : quad Z :=
  let '(Q t0 t1 t2 t3) := t in
  Q (pack4 (tbl sbox1 (t0 ≫ 24)) (tbl sbox1 ((t3 ≫ 16) &&& 0xff)) (tbl sbox1 ((t2 ≫ 8) &&& 0xff)) (tbl sbox1 (t1 &&& 0xff)))
    (pack4 (tbl sbox1 (t1 ≫ 24)) (tbl sbox1 ((t0 ≫ 16) &&& 0xff)) (tbl sbox1 ((t3 ≫ 8) &&& 0xff)) (tbl sbox1 (t2 &&& 0xff)))
    (pack4 (tbl sbox1 (t2 ≫ 24)) (tbl sbox1 ((t1 ≫ 16) &&& 0xff)) (tbl sbox1 ((t0 ≫ 8) &&& 0xff)) (tbl sbox1 (t3 &&& 0xff)))
    (pack4 (tbl sbox1 (t3 ≫ 24)) (tbl sbox1 ((t2 ≫ 16) &&& 0xff)) (tbl sbox1 ((t1 ≫ 8) &&& 0xff)) (tbl sbox1 (t0 &&& 0xff))).

Definition decryptBlockGeneric {E} (c : blockExpanded) (dst src : bytes) : outcome E bytes :=
  let xk := dec c in
  if (length src <? 16)%nat then Panic index_out_of_range else
  let s := xor_key (load_words src) xk 0 in
  let '(k, _, t) := rounds_loop (dec_round xk) (rounds c - 1) s in
  let s := xor_key (dec_last t) xk k in
  if (length dst <? 16)%nat then Panic index_out_of_range else
  Ret (store_words s dst).

(** ** Key expansion *)

Definition subw (w : Z) : Z :=
  pack4 (tbl sbox0 (w ≫ 24)) (tbl sbox0 ((w ≫ 16) &&& 0xff))
        (tbl sbox0 ((w ≫ 8) &&& 0xff)) (tbl sbox0 (w &&& 0xff)).

Definition rotw (w : Z) : Z := u32 (w ≪ 8) ||| (w ≫ 24).

(** The body of the second loop: the new word [enc[i]]. *)
Definition next_word (nk i : nat) (e : list Z) : Z :=
  let t := word_at e (i - 1) in
  let t :=
    if (i mod nk =? 0)%nat then subw (rotw t) ⊕ (tbl powx (Z.of_nat (i / nk - 1)) ≪ 24)
    else if (6 <? nk)%nat && (i mod nk =? 4)%nat then subw t
    else t in
  word_at e (i - nk) ⊕ t.

(** The decryption word derived from [x], a word of a middle round key. *)
Definition inv_mix_word (x : Z) : Z :=
  tbl td0 (tbl sbox0 (x ≫ 24)) ⊕ tbl td1 (tbl sbox0 ((x ≫ 16) &&& 0xff))
  ⊕ tbl td2 (tbl sbox0 ((x ≫ 8) &&& 0xff)) ⊕ tbl td3 (tbl sbox0 (x &&& 0xff)).

(** One iteration [i = 4*m] of the loop that fills [dec]. *)
Definition dec_keys_step (n : nat) (e : list Z) (m : nat) (d : list Z) : list Z :=
  let i := (4 * m)%nat in
  let ei := (n - i - 4)%nat in
  for_range 0 4 (fun j d =>
    let x := word_at e (ei + j) in
    let x := if (0 <? i)%nat && (i + 4 <? n)%nat then inv_mix_word x else x in
    <[(i + j)%nat := x]> d) d.

Definition expandKeyGeneric (c : blockExpanded) (key : bytes) : blockExpanded :=
  let nk := (length key / 4)%nat in
  let n := roundKeysSize c in
  let e := for_range 0 nk (fun i e => <[i := Uint32 (drop (4 * i) key)]> e) (enc c) in
  let e := for_range nk n (fun i e => <[i := next_word nk i e]> e) e in
  let d := for_range 0 (n / 4) (dec_keys_step n e) (dec c) in
  {| rounds := rounds c; enc := e; dec := d |}.

Definition newBlockExpanded (c : blockExpanded) (key : bytes) : blockExpanded :=
  let r :=
    if (length key =? aes128KeySize)%nat then aes128Rounds
    else if (length key =? aes192KeySize)%nat then aes192Rounds
    else if (length key =? aes256KeySize)%nat then aes256Rounds
    else rounds c in
  expandKeyGeneric {| rounds := r; enc := enc c; dec := dec c |} key.

(** [KeySizeError] *)
Inductive KeySizeError := mkKeySizeError (k : nat).

Definition newBlock (c : blockExpanded) (key : bytes) : blockExpanded :=
  newBlockExpanded c key.

(** [New], with [newOutlined] applied to a fresh zero [Block]. *)
Definition newOutlined (b : blockExpanded) (key : bytes) : outcome KeySizeError blockExpanded :=
  if (length key =? aes128KeySize)%nat || (length key =? aes192KeySize)%nat
     || (length key =? aes256KeySize)%nat
  then Ret (newBlock b key)
  else Err (mkKeySizeError (length key)).

Definition aes_New (key : bytes) : outcome KeySizeError blockExpanded :=
  newOutlined zeroBlock key.

(** ** The exported block operations *)

Definition encryptBlock {E} := @encryptBlockGeneric E.
Definition decryptBlock {E} := @decryptBlockGeneric E.

(** [dst[:BlockSize]] and [src[:BlockSize]] as seen by the aliasing test. *)
Definition block_prefix (s : Slice) : Slice :=
  {| ptr := ptr s; data := take aes_BlockSize (data s);
     spare := drop aes_BlockSize (data s) ++ spare s |}.

(** The guards shared by [Encrypt] and [Decrypt]. *)
Definition check_block_args {E} (dst src : Slice) : outcome E unit :=
  if (length (data src) <? aes_BlockSize)%nat then Panic "crypto/aes: input not full block"
  else if (length (data dst) <? aes_BlockSize)%nat then Panic "crypto/aes: output not full block"
  else if InexactOverlap (block_prefix dst) (block_prefix src)
       then Panic "crypto/aes: invalid buffer overlap"
  else Ret tt.

(** They return the new contents of [dst]. *)
Definition Encrypt {E} (c : blockExpanded) (dst src : Slice) : outcome E bytes :=
  (let! _ := check_block_args dst src in encryptBlock c (data dst) (data src))%go.

Definition Decrypt {E} (c : blockExpanded) (dst src : Slice) : outcome E bytes :=
  (let! _ := check_block_args dst src in decryptBlock c (data dst) (data src))%go.

(** [EncryptBlockInternal], on a full 16-byte block. *)
Definition EncryptBlockInternal {E} (c : blockExpanded) (dst src : bytes) : outcome E bytes :=
  encryptBlock c dst src.

(** ** FIPS-197 appendix C test vectors *)

Definition fips_key (n : nat) : bytes := Z.of_nat <$> seq 0 n.
Definition fips_plain : bytes := (fun i => Z.of_nat i * 0x11) <$> seq 0 16.

Definition fips_run (nkey : nat) : option bytes :=
  match aes_New (fips_key nkey) with
  | Ret c => ret_opt (E:=unit) (encryptBlockGeneric c (replicate 16 0) fips_plain)
  | _ => None
  end.

Example fips_c1 : fips_run 16 =
  Some [0x69; 0xc4; 0xe0; 0xd8; 0x6a; 0x7b; 0x04; 0x30; 0xd8; 0xcd; 0xb7; 0x80; 0x70; 0xb4; 0xc5; 0x5a].
Proof. vm_compute. reflexivity. Qed.
Example fips_c2 : fips_run 24 =
  Some [0xdd; 0xa9; 0x7c; 0xa4; 0x86; 0x4c; 0xdf; 0xe0; 0x6e; 0xaf; 0x70; 0xa0; 0xec; 0x0d; 0x71; 0x91].
Proof. vm_compute. reflexivity. Qed.
Example fips_c3 : fips_run 32 =
  Some [0x8e; 0xa2; 0xb7; 0xca; 0x51; 0x67; 0x45; 0xbf; 0xea; 0xfc; 0x49; 0x90; 0x4b; 0x49; 0x60; 0x89].
Proof. vm_compute. reflexivity. Qed.
