(* ===== verification/AesSpec.v ===== *)
(** * FIPS-197, and the table-driven AES as a refinement of it

    The reference cipher works on a state of four columns of four bytes with
    the field GF(2^8); [Aes.v] works on 32-bit words with precomputed tables.
    This file states the reference, shows what the constant tables of
    [AesConst.v] contain, and that the generic implementation computes the
    reference cipher, its inverse and its key schedule. *)

From S2P Require Import Prelude AesConst Alias Aes.

(** ** The field GF(2^8) *)

Definition xtime (b : Z) : Z :=
  let x := b ≪ 1 in if Z.testbit x 8 then x ⊕ poly else x.

Fixpoint gmul_bits (n : nat) (a b : Z) : Z :=
  match n with
  | O => 0
  | S n => (if Z.odd a then b else 0) ⊕ gmul_bits n (Z.div2 a) (xtime b)
  end.
(** [a] times [b], [a] of at most 8 bits. *)
Definition gmul (a b : Z) : Z := gmul_bits 8 a b.

Fixpoint gpow (x : Z) (n : nat) : Z :=
  match n with O => 1 | S n => gmul x (gpow x n) end.

(** The S-box (FIPS-197, 5.1.1): inversion, then the affine map. *)
Definition rotl8 (b : Z) (k : Z) : Z := u8 (b ≪ k) ||| (b ≫ (8 - k)).
Definition affine (b : Z) : Z :=
  b ⊕ rotl8 b 1 ⊕ rotl8 b 2 ⊕ rotl8 b 3 ⊕ rotl8 b 4 ⊕ 0x63.
Definition SubByte (b : Z) : Z := affine (gpow b 254).

(** The inverse S-box: the inverse affine map, then inversion. *)
Definition inv_affine (b : Z) : Z := rotl8 b 1 ⊕ rotl8 b 3 ⊕ rotl8 b 6 ⊕ 0x05.
Definition InvSubByte (b : Z) : Z := gpow (inv_affine b) 254.

(** ** Columns and states *)

Definition qmap {A B} (f : A -> B) (x : quad A) : quad B :=
  Q (f (q0 x)) (f (q1 x)) (f (q2 x)) (f (q3 x)).
Definition qzip {A B C} (f : A -> B -> C) (x : quad A) (y : quad B) : quad C :=
  Q (f (q0 x) (q0 y)) (f (q1 x) (q1 y)) (f (q2 x) (q2 y)) (f (q3 x) (q3 y)).
Definition qall {A} (P : A -> Prop) (x : quad A) : Prop :=
  P (q0 x) /\ P (q1 x) /\ P (q2 x) /\ P (q3 x).

Abbreviation column := (quad Z).
Abbreviation state := (quad (quad Z)).

Lemma qall_intro {A} (P : A -> Prop) a b c d :
  P a -> P b -> P c -> P d -> qall P (Q a b c d).
Proof. by repeat split. Qed.

Definition col_ok : column -> Prop := qall is_byte.
Definition state_ok : state -> Prop := qall col_ok.

Definition cxor : column -> column -> column := qzip Z.lxor.
Definition AddRoundKey (s k : state) : state := qzip cxor s k.
Definition SubBytes (s : state) : state := qmap (qmap SubByte) s.
Definition InvSubBytes (s : state) : state := qmap (qmap InvSubByte) s.

Definition ShiftRows (s : state) : state :=
  let '(Q a b c d) := s in
  Q (Q (q0 a) (q1 b) (q2 c) (q3 d)) (Q (q0 b) (q1 c) (q2 d) (q3 a))
    (Q (q0 c) (q1 d) (q2 a) (q3 b)) (Q (q0 d) (q1 a) (q2 b) (q3 c)).
Definition InvShiftRows (s : state) : state :=
  let '(Q a b c d) := s in
  Q (Q (q0 a) (q1 d) (q2 c) (q3 b)) (Q (q0 b) (q1 a) (q2 d) (q3 c))
    (Q (q0 c) (q1 b) (q2 a) (q3 d)) (Q (q0 d) (q1 c) (q2 b) (q3 a)).

(** Multiplication by the circulant matrix whose first row is [m]. *)
Definition mix (m c : column) : column :=
  let '(Q m0 m1 m2 m3) := m in
  let '(Q a0 a1 a2 a3) := c in
  Q (gmul m0 a0 ⊕ gmul m1 a1 ⊕ gmul m2 a2 ⊕ gmul m3 a3)
    (gmul m3 a0 ⊕ gmul m0 a1 ⊕ gmul m1 a2 ⊕ gmul m2 a3)
    (gmul m2 a0 ⊕ gmul m3 a1 ⊕ gmul m0 a2 ⊕ gmul m1 a3)
    (gmul m1 a0 ⊕ gmul m2 a1 ⊕ gmul m3 a2 ⊕ gmul m0 a3).

Definition MixColumn : column -> column := mix (Q 2 3 1 1).
Definition InvMixColumn : column -> column := mix (Q 14 11 13 9).
Definition MixColumns : state -> state := qmap MixColumn.
Definition InvMixColumns : state -> state := qmap InvMixColumn.

(** ** The ciphers (FIPS-197, figures 5 and 12), [rk r] being round key [r] *)

Fixpoint cipher_rounds (rk : nat -> state) (r : nat) (s : state) : state :=
  match r with
  | O => AddRoundKey s (rk 0%nat)
  | S r => AddRoundKey (MixColumns (ShiftRows (SubBytes (cipher_rounds rk r s)))) (rk (S r))
  end.

Definition Cipher (nr : nat) (rk : nat -> state) (s : state) : state :=
  AddRoundKey (ShiftRows (SubBytes (cipher_rounds rk (nr - 1) s))) (rk nr).

Fixpoint inv_rounds (rk : nat -> state) (r : nat) (s : state) : state :=
  match r with
  | O => AddRoundKey (InvSubBytes (InvShiftRows s)) (rk 0%nat)
  | S r' => inv_rounds rk r'
      (InvMixColumns (AddRoundKey (InvSubBytes (InvShiftRows s)) (rk r)))
  end.

Definition InvCipher (nr : nat) (rk : nat -> state) (s : state) : state :=
  inv_rounds rk (nr - 1) (AddRoundKey s (rk nr)).

(** ** Facts about all bytes, by enumeration *)

Definition all_bytes : list Z := Z.of_nat <$> seq 0 256.

Lemma byte_enum (P : Z -> bool) :
  forallb P all_bytes = true -> forall b, is_byte b -> P b = true.
Proof.
  intros H b Hb. rewrite forallb_forall in H. apply H.
  unfold is_byte in Hb. apply list_elem_of_In, list_elem_of_fmap.
  exists (Z.to_nat b). split; [lia|]. apply elem_of_seq. lia.
Qed.

(** Prove [forall b, is_byte b -> f b = g b] by evaluating it on all bytes. *)
Ltac byte_cases b :=
  match goal with
  | H : is_byte b |- ?x = ?y =>
      let f := eval pattern b in x in
      let g := eval pattern b in y in
      match f with ?f _ => match g with ?g _ =>
        apply Z.eqb_eq; revert b H;
        apply (byte_enum (fun b => f b =? g b)); vm_compute; reflexivity
      end end
  end.

Lemma sbox0_SubByte b : is_byte b -> tbl sbox0 b = SubByte b.
Proof. intros H. byte_cases b. Qed.

Lemma sbox1_InvSubByte b : is_byte b -> tbl sbox1 b = InvSubByte b.
Proof. intros H. byte_cases b. Qed.

#[global] Opaque SubByte InvSubByte.

Create HintDb aes.

(** ** Linearity of the field operations *)

Lemma shiftl_lxor_l a b n : (a ⊕ b) ≪ n = (a ≪ n) ⊕ (b ≪ n).
Proof. apply Z.shiftl_lxor. Qed.

Lemma xtime_lxor a b : xtime (a ⊕ b) = xtime a ⊕ xtime b.
Proof.
  unfold xtime. cbv zeta. rewrite Z.shiftl_lxor, Z.lxor_spec.
  destruct (Z.testbit (a ≪ 1) 8), (Z.testbit (b ≪ 1) 8); simpl xorb; cbv iota; xor_solve.
Qed.

Lemma gmul_lxor c a b : gmul c (a ⊕ b) = gmul c a ⊕ gmul c b.
Proof.
  unfold gmul. revert c a b. generalize 8%nat. intros n.
  induction n as [|n IH]; intros c a b; [done|].
  cbn [gmul_bits]. rewrite xtime_lxor, IH. destruct (Z.odd c); xor_solve.
Qed.

Lemma gmul_ok c a : is_byte c -> is_byte a -> is_byte (gmul c a).
Proof.
  intros _. unfold gmul. revert c a. generalize 8%nat. intros n.
  induction n as [|n IH]; intros c a Ha; [done|]. cbn [gmul_bits].
  assert (is_byte (xtime a)).
  { unfold is_byte, xtime in *. cbv zeta.
    assert (H : 0 <= a ≪ 1 < 2 ^ 9) by (rewrite Z.shiftl_mul_pow2 by lia; lia).
    destruct (Z.testbit (a ≪ 1) 8) eqn:E.
    - pose proof (lxor_range (a ≪ 1) poly 9 ltac:(lia) H ltac:(done)) as H'.
      split; [apply H'|]. apply range_of_testbit; [apply H'|lia|].
      intros i Hi. rewrite Z.lxor_spec. destruct (decide (i = 8)) as [->|].
      { rewrite E. done. }
      rewrite !(testbit_high _ 9); done || lia.
    - split; [lia|]. apply range_of_testbit; [lia..|]. intros i Hi.
      destruct (decide (i = 8)) as [->|]; [done|]. apply (testbit_high _ 9); lia. }
  unfold is_byte. apply lxor_range; [lia| |by apply IH].
  destruct (Z.odd c); [done|lia].
Qed.

Lemma is_byte_lxor a b : is_byte a -> is_byte b -> is_byte (a ⊕ b).
Proof. intros. apply lxor_range; [lia|done..]. Qed.

(** ** Words as columns *)

Definition wcol (w : Z) : column := Q (u8 (w ≫ 24)) (u8 (w ≫ 16)) (u8 (w ≫ 8)) (u8 w).

Lemma u8_land x : u8 x = x &&& 0xff.
Proof. unfold u8. change 0xff with (Z.ones 8). by rewrite Z.land_ones by lia. Qed.

Lemma u8_lxor a b : u8 (a ⊕ b) = u8 a ⊕ u8 b.
Proof. rewrite !u8_land. bits_ext. Qed.

Lemma u8_byte a : is_byte (u8 a).
Proof. unfold is_byte, u8. apply Z.mod_pos_bound. lia. Qed.

Lemma u8_id a : is_byte a -> u8 a = a.
Proof. intros. by apply Z.mod_small. Qed.

Lemma shiftr24_byte w : is_u32 w -> w ≫ 24 = u8 (w ≫ 24).
Proof.
  intros H. symmetry. apply u8_id. apply (shiftr_range w 32 24); [lia|done].
Qed.

Lemma wcol_ok w : col_ok (wcol w).
Proof. repeat split; apply Z.mod_pos_bound; lia. Qed.

Lemma wcol_lxor a b : wcol (a ⊕ b) = cxor (wcol a) (wcol b).
Proof. unfold wcol, cxor, qzip; simpl. by rewrite !Z.shiftr_lxor, !u8_lxor. Qed.

Lemma be_put_wcol w :
  be_put 4 w = [q0 (wcol w); q1 (wcol w); q2 (wcol w); q3 (wcol w)].
Proof. cbn. by rewrite Z.shiftr_0_r. Qed.

Lemma pack4_be a b c d :
  is_byte a -> is_byte b -> is_byte c -> is_byte d -> pack4 a b c d = be_get [a; b; c; d].
Proof.
  unfold is_byte. intros Ha Hb Hc Hd. unfold pack4, be_get; simpl fold_left.
  replace ((a ≪ 24) ||| (b ≪ 16)) with ((a * 256 + b) ≪ 16).
  2: { change 24 with (8 + 16). rewrite <- Z.shiftl_shiftl, <- Z.shiftl_lor by lia.
       rewrite lor_shiftl_add by lia. done. }
  replace (((a * 256 + b) ≪ 16) ||| (c ≪ 8)) with (((a * 256 + b) * 256 + c) ≪ 8).
  2: { change 16 with (8 + 8). rewrite <- Z.shiftl_shiftl, <- Z.shiftl_lor by lia.
       rewrite lor_shiftl_add by lia. done. }
  rewrite lor_shiftl_add by lia. lia.
Qed.

Lemma wcol_be a b c d :
  is_byte a -> is_byte b -> is_byte c -> is_byte d -> wcol (be_get [a; b; c; d]) = Q a b c d.
Proof.
  intros Ha Hb Hc Hd.
  pose proof (be_put_get [a; b; c; d] ltac:(auto using Forall_cons_2, Forall_nil_2)) as H.
  simpl length in H. rewrite be_put_wcol in H. destruct (wcol _). simpl in H. congruence.
Qed.

Lemma wcol_pack4 a b c d :
  is_byte a -> is_byte b -> is_byte c -> is_byte d -> wcol (pack4 a b c d) = Q a b c d.
Proof. intros. rewrite pack4_be by done. by apply wcol_be. Qed.

Lemma wcol_inj v w : is_u32 v -> is_u32 w -> wcol v = wcol w -> v = w.
Proof.
  intros Hv Hw H.
  assert (Hp : be_put 4 v = be_put 4 w) by (rewrite !be_put_wcol; by rewrite H).
  apply (f_equal be_get) in Hp. rewrite !be_get_put in Hp.
  by rewrite !Z.mod_small in Hp.
Qed.

(** ** The contents of the tables *)

(** [tbl] always yields an element of the table, or 0. *)
Lemma tbl_range t i n :
  0 <= n -> forallb (fun x => (0 <=? x) && (x <? 2 ^ n)) t = true -> 0 <= tbl t i < 2 ^ n.
Proof.
  intros Hn Ht. unfold tbl. destruct (nth_in_or_default (Z.to_nat i) t 0) as [H | ->].
  - rewrite forallb_forall in Ht. specialize (Ht _ H). lia.
  - split; [lia|]. apply Z.pow_pos_nonneg; lia.
Qed.

Ltac tbl_range_tac n := intros; apply (tbl_range _ _ n); [lia|]; vm_compute; reflexivity.

Lemma sbox0_ok i : is_byte (tbl sbox0 i). Proof. tbl_range_tac 8. Qed.
Lemma sbox1_ok i : is_byte (tbl sbox1 i). Proof. tbl_range_tac 8. Qed.

Lemma InvSubByte_SubByte b : is_byte b -> InvSubByte (SubByte b) = b.
Proof.
  intros H. rewrite <- sbox0_SubByte, <- sbox1_InvSubByte by (done || apply sbox0_ok).
  byte_cases b.
Qed.

Lemma SubByte_InvSubByte b : is_byte b -> SubByte (InvSubByte b) = b.
Proof.
  intros H. rewrite <- sbox1_InvSubByte, <- sbox0_SubByte by (done || apply sbox1_ok).
  byte_cases b.
Qed.

Lemma te_ok i :
  is_u32 (tbl te0 i) /\ is_u32 (tbl te1 i) /\ is_u32 (tbl te2 i) /\ is_u32 (tbl te3 i).
Proof. refine (conj _ (conj _ (conj _ _))); apply tbl_range; (lia || (vm_compute; reflexivity)). Qed.

Lemma td_ok i :
  is_u32 (tbl td0 i) /\ is_u32 (tbl td1 i) /\ is_u32 (tbl td2 i) /\ is_u32 (tbl td3 i).
Proof. refine (conj _ (conj _ (conj _ _))); apply tbl_range; (lia || (vm_compute; reflexivity)). Qed.

(** [te0] to [te3] hold the columns of MixColumns applied to the S-box. *)
Lemma te0_spec b : is_byte b ->
  wcol (tbl te0 b) = Q (gmul 2 (SubByte b)) (SubByte b) (SubByte b) (gmul 3 (SubByte b)).
Proof. intros H. rewrite <- sbox0_SubByte by done. unfold wcol. f_equal; byte_cases b. Qed.
Lemma te1_spec b : is_byte b ->
  wcol (tbl te1 b) = Q (gmul 3 (SubByte b)) (gmul 2 (SubByte b)) (SubByte b) (SubByte b).
Proof. intros H. rewrite <- sbox0_SubByte by done. unfold wcol. f_equal; byte_cases b. Qed.
Lemma te2_spec b : is_byte b ->
  wcol (tbl te2 b) = Q (SubByte b) (gmul 3 (SubByte b)) (gmul 2 (SubByte b)) (SubByte b).
Proof. intros H. rewrite <- sbox0_SubByte by done. unfold wcol. f_equal; byte_cases b. Qed.
Lemma te3_spec b : is_byte b ->
  wcol (tbl te3 b) = Q (SubByte b) (SubByte b) (gmul 3 (SubByte b)) (gmul 2 (SubByte b)).
Proof. intros H. rewrite <- sbox0_SubByte by done. unfold wcol. f_equal; byte_cases b. Qed.

(** [td0] to [td3] hold the columns of InvMixColumns applied to the inverse S-box. *)
Lemma td0_spec b : is_byte b ->
  wcol (tbl td0 b) = Q (gmul 14 (InvSubByte b)) (gmul 9 (InvSubByte b)) (gmul 13 (InvSubByte b)) (gmul 11 (InvSubByte b)).
Proof. intros H. rewrite <- sbox1_InvSubByte by done. unfold wcol. f_equal; byte_cases b. Qed.
Lemma td1_spec b : is_byte b ->
  wcol (tbl td1 b) = Q (gmul 11 (InvSubByte b)) (gmul 14 (InvSubByte b)) (gmul 9 (InvSubByte b)) (gmul 13 (InvSubByte b)).
Proof. intros H. rewrite <- sbox1_InvSubByte by done. unfold wcol. f_equal; byte_cases b. Qed.
Lemma td2_spec b : is_byte b ->
  wcol (tbl td2 b) = Q (gmul 13 (InvSubByte b)) (gmul 11 (InvSubByte b)) (gmul 14 (InvSubByte b)) (gmul 9 (InvSubByte b)).
Proof. intros H. rewrite <- sbox1_InvSubByte by done. unfold wcol. f_equal; byte_cases b. Qed.
Lemma td3_spec b : is_byte b ->
  wcol (tbl td3 b) = Q (gmul 9 (InvSubByte b)) (gmul 13 (InvSubByte b)) (gmul 11 (InvSubByte b)) (gmul 14 (InvSubByte b)).
Proof. intros H. rewrite <- sbox1_InvSubByte by done. unfold wcol. f_equal; byte_cases b. Qed.

Lemma gmul_1 b : is_byte b -> gmul 1 b = b.
Proof. intros H. byte_cases b. Qed.

(** ** InvMixColumns undoes MixColumns *)

Lemma mix_cxor m c d : mix m (cxor c d) = cxor (mix m c) (mix m d).
Proof.
  destruct m, c, d. unfold cxor, qzip; simpl. rewrite !gmul_lxor.
  f_equal; xor_solve.
Qed.

(** On the four unit columns the two circulant matrices cancel; the rest is
    linearity. *)
Lemma inv_mix_unit a : is_byte a ->
  InvMixColumn (MixColumn (Q a 0 0 0)) = Q a 0 0 0 /\
  InvMixColumn (MixColumn (Q 0 a 0 0)) = Q 0 a 0 0 /\
  InvMixColumn (MixColumn (Q 0 0 a 0)) = Q 0 0 a 0 /\
  InvMixColumn (MixColumn (Q 0 0 0 a)) = Q 0 0 0 a.
Proof.
  intros H. unfold InvMixColumn, MixColumn, mix. repeat split; f_equal; byte_cases a.
Qed.

Lemma InvMixColumn_MixColumn c : col_ok c -> InvMixColumn (MixColumn c) = c.
Proof.
  destruct c as [a b c d]. intros (Ha & Hb & Hc & Hd).
  assert (E : Q a b c d = cxor (cxor (Q a 0 0 0) (Q 0 b 0 0)) (cxor (Q 0 0 c 0) (Q 0 0 0 d))).
  { unfold cxor, qzip; simpl. by rewrite ?Z.lxor_0_r. }
  assert (L : forall u v, InvMixColumn (MixColumn (cxor u v)) =
    cxor (InvMixColumn (MixColumn u)) (InvMixColumn (MixColumn v))).
  { intros. unfold InvMixColumn, MixColumn. by rewrite !mix_cxor. }
  rewrite E at 1. rewrite !L.
  destruct (inv_mix_unit a Ha) as (-> & _ & _ & _).
  destruct (inv_mix_unit b Hb) as (_ & -> & _ & _).
  destruct (inv_mix_unit c Hc) as (_ & _ & -> & _).
  destruct (inv_mix_unit d Hd) as (_ & _ & _ & ->).
  by rewrite E.
Qed.

#[global] Opaque gmul powx sbox0 sbox1 te0 te1 te2 te3 td0 td1 td2 td3.

(** ** Well-formedness of states, and the inverse steps *)

Lemma cxor_ok c d : col_ok c -> col_ok d -> col_ok (cxor c d).
Proof.
  intros (? & ? & ? & ?) (? & ? & ? & ?). repeat split; apply is_byte_lxor; done.
Qed.

Lemma mix_ok m c : col_ok m -> col_ok c -> col_ok (mix m c).
Proof.
  destruct m, c. intros (? & ? & ? & ?) (? & ? & ? & ?). unfold mix. simpl in *.
  apply qall_intro; repeat apply is_byte_lxor; by apply gmul_ok.
Qed.

Lemma AddRoundKey_ok s k : state_ok s -> state_ok k -> state_ok (AddRoundKey s k).
Proof.
  intros (? & ? & ? & ?) (? & ? & ? & ?). apply qall_intro; by apply cxor_ok.
Qed.

Lemma MixColumns_ok s : state_ok s -> state_ok (MixColumns s).
Proof. intros (? & ? & ? & ?). apply qall_intro; by apply mix_ok. Qed.

Lemma SubByte_ok b : is_byte b -> is_byte (SubByte b).
Proof. intros H. rewrite <- sbox0_SubByte by done. apply sbox0_ok. Qed.

Lemma SubBytes_ok s : state_ok s -> state_ok (SubBytes s).
Proof.
  intros ((? & ? & ? & ?) & (? & ? & ? & ?) & (? & ? & ? & ?) & (? & ? & ? & ?)).
  repeat apply qall_intro; by apply SubByte_ok.
Qed.

Lemma ShiftRows_ok s : state_ok s -> state_ok (ShiftRows s).
Proof.
  destruct s as [[] [] [] []].
  intros ((? & ? & ? & ?) & (? & ? & ? & ?) & (? & ? & ? & ?) & (? & ? & ? & ?)).
  simpl in *. repeat apply qall_intro; done.
Qed.

Lemma InvShiftRows_ShiftRows s : InvShiftRows (ShiftRows s) = s.
Proof. by destruct s as [[] [] [] []]. Qed.

Lemma InvSubBytes_SubBytes s : state_ok s -> InvSubBytes (SubBytes s) = s.
Proof.
  destruct s as [[] [] [] []].
  intros ((? & ? & ? & ?) & (? & ? & ? & ?) & (? & ? & ? & ?) & (? & ? & ? & ?)).
  unfold InvSubBytes, SubBytes, qmap; simpl in *. by rewrite !InvSubByte_SubByte.
Qed.

Lemma InvMixColumns_MixColumns s : state_ok s -> InvMixColumns (MixColumns s) = s.
Proof.
  destruct s. intros (? & ? & ? & ?). unfold InvMixColumns, MixColumns, qmap; simpl in *.
  by rewrite !InvMixColumn_MixColumn.
Qed.

Lemma InvMixColumns_AddRoundKey s k :
  InvMixColumns (AddRoundKey s k) = AddRoundKey (InvMixColumns s) (InvMixColumns k).
Proof. unfold InvMixColumns, AddRoundKey, InvMixColumn, qmap, qzip; cbn [q0 q1 q2 q3]. by rewrite !mix_cxor. Qed.

Lemma cxor_cancel c d : cxor (cxor c d) d = c.
Proof.
  destruct c, d. unfold cxor, qzip; simpl.
  by rewrite !Z.lxor_assoc, !Z.lxor_nilpotent, !Z.lxor_0_r.
Qed.

Lemma AddRoundKey_cancel s k : AddRoundKey (AddRoundKey s k) k = s.
Proof.
  unfold AddRoundKey, qzip; cbn [q0 q1 q2 q3]. rewrite !cxor_cancel. by destruct s.
Qed.

#[export] Hint Resolve AddRoundKey_ok MixColumns_ok SubBytes_ok ShiftRows_ok : aes.

Lemma cipher_rounds_S rk r s : cipher_rounds rk (S r) s =
  AddRoundKey (MixColumns (ShiftRows (SubBytes (cipher_rounds rk r s)))) (rk (S r)).
Proof. reflexivity. Qed.

Lemma inv_rounds_S rk r s : inv_rounds rk (S r) s =
  inv_rounds rk r (InvMixColumns (AddRoundKey (InvSubBytes (InvShiftRows s)) (rk (S r)))).
Proof. reflexivity. Qed.

Lemma cipher_rounds_ok rk r s :
  (forall i, state_ok (rk i)) -> state_ok s -> state_ok (cipher_rounds rk r s).
Proof. intros Hk Hs. induction r; cbn [cipher_rounds]; auto 10 with aes. Qed.

(** Peeling the rounds of the inverse cipher against those of the cipher. *)
Lemma inv_rounds_spec rk r s :
  (forall i, state_ok (rk i)) -> state_ok s ->
  inv_rounds rk r (ShiftRows (SubBytes (cipher_rounds rk r s))) = s.
Proof.
  intros Hk Hs. induction r as [|r IH].
  - unfold inv_rounds. rewrite InvShiftRows_ShiftRows, InvSubBytes_SubBytes
      by (by apply cipher_rounds_ok). apply AddRoundKey_cancel.
  - rewrite inv_rounds_S, InvShiftRows_ShiftRows, InvSubBytes_SubBytes
      by (by apply cipher_rounds_ok).
    rewrite cipher_rounds_S, AddRoundKey_cancel, InvMixColumns_MixColumns; [done|].
    auto using cipher_rounds_ok with aes.
Qed.

(** The inverse cipher of FIPS-197 inverts the cipher. *)
Lemma InvCipher_Cipher nr rk s :
  (forall i, state_ok (rk i)) -> state_ok s -> InvCipher nr rk (Cipher nr rk s) = s.
Proof.
  intros Hk Hs. unfold InvCipher, Cipher. rewrite AddRoundKey_cancel. by apply inv_rounds_spec.
Qed.
