(* ===== verification/AesProofs.v ===== *)
(** * The table-driven AES implements FIPS-197

    [encryptBlockGeneric] computes [Cipher], [decryptBlockGeneric] computes
    [InvCipher], [expandKeyGeneric] computes the FIPS key schedule and the
    decryption schedule derived from it; hence [Decrypt] undoes [Encrypt] for
    every key that [New] accepts. *)

From S2P Require Import Prelude AesConst Alias Aes AesSpec.

(** ** Bytes, words and states *)

Definition wstate (s : quad Z) : state := qmap wcol s.

(** Round key [r] of an expanded key. *)
Definition round_key (xk : list Z) (r : nat) : state :=
  wstate (Q (word_at xk (4 * r + 0)) (word_at xk (4 * r + 1))
            (word_at xk (4 * r + 2)) (word_at xk (4 * r + 3))).

(** FIPS-197, 3.4: byte [r + 4c] of a block is row [r] of column [c]. *)
Definition block_state (b : bytes) : state :=
  let at_ i := nth i b 0 in
  Q (Q (at_ 0%nat) (at_ 1%nat) (at_ 2%nat) (at_ 3%nat))
    (Q (at_ 4%nat) (at_ 5%nat) (at_ 6%nat) (at_ 7%nat))
    (Q (at_ 8%nat) (at_ 9%nat) (at_ 10%nat) (at_ 11%nat))
    (Q (at_ 12%nat) (at_ 13%nat) (at_ 14%nat) (at_ 15%nat)).

Definition col_bytes (c : column) : bytes := [q0 c; q1 c; q2 c; q3 c].
Definition state_block (s : state) : bytes :=
  col_bytes (q0 s) ++ col_bytes (q1 s) ++ col_bytes (q2 s) ++ col_bytes (q3 s).

(** A list of at least 16 elements, spelled out. *)
Lemma at_least_16 {A} (l : list A) : (16 <= length l)%nat ->
  exists a b c d e f g h i j k m n o p q r,
    l = [a; b; c; d; e; f; g; h; i; j; k; m; n; o; p; q] ++ r.
Proof.
  intros H. do 16 (destruct l as [|? l]; [simpl in H; lia|]).
  repeat eexists.
Qed.

Lemma load_words_state src : (16 <= length src)%nat -> bytes_ok src ->
  wstate (load_words src) = block_state src.
Proof.
  intros Hl Hok. destruct (at_least_16 src Hl) as
    (a & b & c & d & e & f & g & h & i & j & k & m & n & o & p & q & r & ->).
  rewrite Forall_app in Hok. destruct Hok as [Hok _].
  rewrite !Forall_cons in Hok. unfold load_words, wstate, qmap, slice, Uint32; simpl.
  by rewrite !wcol_be by tauto.
Qed.

Lemma block_state_ok b : bytes_ok b -> state_ok (block_state b).
Proof.
  intros H. assert (Hn : forall i, is_byte (nth i b 0)).
  { intros i. destruct (nth_in_or_default i b 0) as [Hi | ->]; [|done].
    rewrite Forall_forall in H. apply H. by apply list_elem_of_In. }
  repeat apply qall_intro; apply Hn.
Qed.

Lemma block_state_block s : state_ok s -> block_state (state_block s) = s.
Proof. by destruct s as [[] [] [] []]. Qed.

Lemma state_block_state b r : length b = 16%nat -> state_block (block_state (b ++ r)) = b.
Proof.
  intros H. do 16 (destruct b as [|? b]; [done|]). by destruct b.
Qed.

Lemma length_state_block s : length (state_block s) = 16%nat.
Proof. done. Qed.

Lemma store_words_state s dst : store_words s dst = state_block (wstate s) ++ drop 16 dst.
Proof.
  unfold store_words, PutUint32. rewrite !be_put_wcol. reflexivity.
Qed.

(** ** Word ranges *)

Definition words_ok : list Z -> Prop := Forall (fun w => is_u32 w).
Definition quad_ok : quad Z -> Prop := qall (fun w => is_u32 w).

Lemma word_at_ok xk k : words_ok xk -> is_u32 (word_at xk k).
Proof.
  intros H. unfold word_at. destruct (nth_in_or_default k xk 0) as [Hi | ->]; [|done].
  unfold words_ok in H. rewrite Forall_forall in H. apply H. by apply list_elem_of_In.
Qed.

Lemma round_key_ok xk r : state_ok (round_key xk r).
Proof. repeat apply qall_intro; apply u8_byte. Qed.

Lemma u32_lxor a b : is_u32 a -> is_u32 b -> is_u32 (a ⊕ b).
Proof. apply lxor_range. lia. Qed.

Create HintDb words.
#[export] Hint Resolve word_at_ok u32_lxor : words.
#[export] Hint Extern 1 (is_u32 (tbl te0 _)) => apply te_ok : words.
#[export] Hint Extern 1 (is_u32 (tbl te1 _)) => apply te_ok : words.
#[export] Hint Extern 1 (is_u32 (tbl te2 _)) => apply te_ok : words.
#[export] Hint Extern 1 (is_u32 (tbl te3 _)) => apply te_ok : words.
#[export] Hint Extern 1 (is_u32 (tbl td0 _)) => apply td_ok : words.
#[export] Hint Extern 1 (is_u32 (tbl td1 _)) => apply td_ok : words.
#[export] Hint Extern 1 (is_u32 (tbl td2 _)) => apply td_ok : words.
#[export] Hint Extern 1 (is_u32 (tbl td3 _)) => apply td_ok : words.

Lemma enc_round_ok xk k s : words_ok xk -> quad_ok (enc_round xk k s).
Proof. intros H. destruct s. apply qall_intro; auto 10 with words. Qed.

Lemma dec_round_ok xk k s : words_ok xk -> quad_ok (dec_round xk k s).
Proof. intros H. destruct s. apply qall_intro; auto 10 with words. Qed.

(** ** One round *)

Create Rewrite HintDb aes_tables.
#[export] Hint Rewrite te0_spec te1_spec te2_spec te3_spec
  td0_spec td1_spec td2_spec td3_spec using (apply u8_byte) : aes_tables.
#[export] Hint Rewrite wcol_lxor : aes_tables.

Lemma enc_round_spec xk r s :
  wstate (enc_round xk (4 * r) s) =
  AddRoundKey (MixColumns (ShiftRows (SubBytes (wstate s)))) (round_key xk r).
Proof.
  destruct s as [s0 s1 s2 s3].
  unfold enc_round, wstate, round_key, wstate, qmap; cbn [q0 q1 q2 q3].
  autorewrite with aes_tables.
  unfold AddRoundKey, MixColumns, MixColumn, ShiftRows, SubBytes, mix, cxor, qzip, qmap, wcol.
  cbn [q0 q1 q2 q3]. rewrite !gmul_1 by apply SubByte_ok, u8_byte.
  f_equal; f_equal; xor_solve.
Qed.

Lemma dec_round_spec xk r s :
  wstate (dec_round xk (4 * r) s) =
  AddRoundKey (InvMixColumns (InvSubBytes (InvShiftRows (wstate s)))) (round_key xk r).
Proof.
  destruct s as [s0 s1 s2 s3].
  unfold dec_round, wstate, round_key, wstate, qmap; cbn [q0 q1 q2 q3].
  autorewrite with aes_tables.
  unfold AddRoundKey, InvMixColumns, InvMixColumn, InvShiftRows, InvSubBytes, mix, cxor,
    qzip, qmap, wcol.
  cbn [q0 q1 q2 q3]. f_equal; f_equal; xor_solve.
Qed.

Lemma xor_key_spec s xk r :
  wstate (xor_key s xk (4 * r)) = AddRoundKey (wstate s) (round_key xk r).
Proof.
  destruct s as [s0 s1 s2 s3]. unfold xor_key, wstate, round_key, wstate, qmap; cbn [q0 q1 q2 q3].
  by rewrite !wcol_lxor.
Qed.

Lemma enc_last_spec t : quad_ok t -> wstate (enc_last t) = ShiftRows (SubBytes (wstate t)).
Proof.
  destruct t as [t0 t1 t2 t3]. intros (H0 & H1 & H2 & H3); simpl in H0, H1, H2, H3.
  unfold enc_last, wstate, qmap; cbn [q0 q1 q2 q3].
  rewrite !wcol_pack4 by apply sbox0_ok. rewrite <- !u8_land.
  rewrite (shiftr24_byte t0), (shiftr24_byte t1), (shiftr24_byte t2), (shiftr24_byte t3) by done.
  by rewrite !sbox0_SubByte by apply u8_byte.
Qed.

Lemma dec_last_spec t : quad_ok t ->
  wstate (dec_last t) = InvSubBytes (InvShiftRows (wstate t)).
Proof.
  destruct t as [t0 t1 t2 t3]. intros (H0 & H1 & H2 & H3); simpl in H0, H1, H2, H3.
  unfold dec_last, wstate, qmap; cbn [q0 q1 q2 q3].
  rewrite !wcol_pack4 by apply sbox1_ok. rewrite <- !u8_land.
  rewrite (shiftr24_byte t0), (shiftr24_byte t1), (shiftr24_byte t2), (shiftr24_byte t3) by done.
  by rewrite !sbox1_InvSubByte by apply u8_byte.
Qed.

(** ** The loop over the middle rounds *)

Fixpoint iter_rounds (step : nat -> quad Z -> quad Z) (n : nat) (s : quad Z) : quad Z :=
  match n with
  | O => s
  | S n => step (4 * S n)%nat (iter_rounds step n s)
  end.

Lemma rounds_loop_spec step n s :
  rounds_loop step (S n) s =
  (4 * S (S n), iter_rounds step (S n) s, iter_rounds step (S n) s)%nat.
Proof.
  unfold rounds_loop. rewrite for_range_last by lia.
  assert (H : exists t, for_range 0 n (rounds_body step) (4%nat, s, Q 0 0 0 0)
     = ((4 * S n)%nat, iter_rounds step n s, t)).
  { clear. induction n as [|n [t IH]].
    - exists (Q 0 0 0 0). done.
    - rewrite for_range_last, IH by lia. eexists. unfold rounds_body.
      f_equal. f_equal. lia. }
  destruct H as [t ->]. unfold rounds_body.
  replace (4 * S n + 4)%nat with (4 * S (S n))%nat by lia. done.
Qed.

Lemma iter_enc_rounds xk n s :
  wstate (iter_rounds (enc_round xk) n (xor_key s xk 0)) =
  cipher_rounds (round_key xk) n (wstate s).
Proof.
  induction n as [|n IH]; cbn [iter_rounds].
  - apply (xor_key_spec s xk 0).
  - rewrite enc_round_spec, IH. by rewrite cipher_rounds_S.
Qed.

(** [encryptBlockGeneric] is the FIPS-197 cipher. *)
Lemma encryptBlockGeneric_Cipher {E} c dst src :
  words_ok (enc c) -> (2 <= rounds c)%nat ->
  (16 <= length src)%nat -> (16 <= length dst)%nat -> bytes_ok src ->
  encryptBlockGeneric (E:=E) c dst src =
  Ret (state_block (Cipher (rounds c) (round_key (enc c)) (block_state src)) ++ drop 16 dst).
Proof.
  intros Hk Hr Hs Hd Hok. unfold encryptBlockGeneric.
  rewrite (proj2 (Nat.ltb_ge _ _) Hs), (proj2 (Nat.ltb_ge _ _) Hd).
  destruct (rounds c) as [|[|n]] eqn:Er; [lia..|].
  replace (S (S n) - 1)%nat with (S n) by lia.
  rewrite rounds_loop_spec, store_words_state, xor_key_spec, enc_last_spec
    by (by apply enc_round_ok).
  rewrite iter_enc_rounds, load_words_state by done.
  unfold Cipher. by replace (S (S n) - 1)%nat with (S n) by lia.
Qed.

(** ** Decryption, given the decryption schedule *)

(** [dec] holds the equivalent-inverse-cipher schedule of [enc]: the round
    keys in reverse order, InvMixColumns applied to all but the two ends. *)
Definition dec_schedule (nr : nat) (e d : list Z) : Prop :=
  forall r, (r <= nr)%nat ->
    round_key d r =
    if (0 <? r)%nat && (r <? nr)%nat then InvMixColumns (round_key e (nr - r))
    else round_key e (nr - r).

Lemma iter_dec_rounds nr e d s n :
  dec_schedule nr e d -> (n < nr)%nat ->
  inv_rounds (round_key e) (nr - 1 - n)
    (wstate (iter_rounds (dec_round d) n (xor_key s d 0))) =
  InvCipher nr (round_key e) (wstate s).
Proof.
  intros Hd. induction n as [|n IH]; intros Hn; cbn [iter_rounds].
  - change (xor_key s d 0) with (xor_key s d (4 * 0)).
    rewrite xor_key_spec, (Hd 0%nat) by lia.
    cbn [Nat.ltb Nat.leb andb]. unfold InvCipher. by rewrite !Nat.sub_0_r.
  - rewrite <- IH by lia. replace (nr - 1 - n)%nat with (S (nr - 1 - S n)) by lia.
    rewrite inv_rounds_S, dec_round_spec, (Hd (S n)) by lia.
    rewrite (proj2 (Nat.ltb_lt (S n) nr)) by lia. cbn [Nat.ltb Nat.leb andb].
    rewrite InvMixColumns_AddRoundKey.
    by replace (nr - S n)%nat with (S (nr - 1 - S n)) by lia.
Qed.

(** [decryptBlockGeneric] is the FIPS-197 inverse cipher. *)
Lemma decryptBlockGeneric_InvCipher {E} c dst src :
  words_ok (dec c) -> dec_schedule (rounds c) (enc c) (dec c) -> (2 <= rounds c)%nat ->
  (16 <= length src)%nat -> (16 <= length dst)%nat -> bytes_ok src ->
  decryptBlockGeneric (E:=E) c dst src =
  Ret (state_block (InvCipher (rounds c) (round_key (enc c)) (block_state src)) ++ drop 16 dst).
Proof.
  intros Hk Hsch Hr Hs Hd Hok. unfold decryptBlockGeneric.
  rewrite (proj2 (Nat.ltb_ge _ _) Hs), (proj2 (Nat.ltb_ge _ _) Hd).
  destruct (rounds c) as [|[|n]] eqn:Er; [lia..|].
  replace (S (S n) - 1)%nat with (S n) by lia.
  rewrite rounds_loop_spec, store_words_state, xor_key_spec, dec_last_spec
    by (by apply dec_round_ok).
  rewrite (Hsch (S (S n))), Nat.ltb_irrefl, andb_false_r, Nat.sub_diag by lia.
  rewrite <- load_words_state by done.
  rewrite <- (iter_dec_rounds _ _ _ _ (S n) Hsch) by lia.
  by replace (S (S n) - 1 - S n)%nat with 0%nat by lia.
Qed.

(** ** Key expansion *)

Lemma u8_testbit x i : Z.testbit (u8 x) i = (i <? 8) && Z.testbit x i.
Proof.
  destruct (decide (i < 0)) as [Hn|Hn].
  { rewrite !Z.testbit_neg_r by lia. by rewrite andb_false_r. }
  unfold u8. rewrite Z.testbit_mod_pow2 by lia. done.
Qed.

Lemma u32_testbit x i : Z.testbit (u32 x) i = (i <? 32) && Z.testbit x i.
Proof.
  destruct (decide (i < 0)) as [Hn|Hn].
  { rewrite !Z.testbit_neg_r by lia. by rewrite andb_false_r. }
  unfold u32. rewrite Z.testbit_mod_pow2 by lia. done.
Qed.

(** FIPS-197, 5.2, on columns. *)
Definition RotWord (c : column) : column := Q (q1 c) (q2 c) (q3 c) (q0 c).
Definition SubWord (c : column) : column := qmap SubByte c.
Definition Rcon (j : nat) : column := Q (gpow 2 (j - 1)) 0 0 0.

(** The word that follows the words [w]. *)
Definition fips_next (nk : nat) (w : list column) : column :=
  let i := length w in
  let temp := nth (i - 1) w (Q 0 0 0 0) in
  let temp :=
    if (i mod nk =? 0)%nat then cxor (SubWord (RotWord temp)) (Rcon (i / nk))
    else if (6 <? nk)%nat && (i mod nk =? 4)%nat then SubWord temp
    else temp in
  cxor (nth (i - nk) w (Q 0 0 0 0)) temp.

Fixpoint fips_expand (nk : nat) (w : list column) (n : nat) : list column :=
  match n with
  | O => w
  | S n => fips_expand nk (w ++ [fips_next nk w]) n
  end.

(** The columns of a byte string, four bytes each. *)
Fixpoint columns (b : bytes) : list column :=
  match b with
  | b0 :: b1 :: b2 :: b3 :: b => Q b0 b1 b2 b3 :: columns b
  | _ => []
  end.

Definition KeyExpansion (key : bytes) (nr : nat) : list column :=
  let nk := (length key / 4)%nat in
  fips_expand nk (columns key) (4 * (nr + 1) - nk).

Lemma rotw_ok w : is_u32 w -> is_u32 (rotw w).
Proof.
  intros H. apply lor_range; [lia|apply Z.mod_pos_bound; lia|].
  pose proof (shiftr_range w 32 24 ltac:(lia) H). lia.
Qed.

Lemma wcol_rotw w : is_u32 w -> wcol (rotw w) = RotWord (wcol w).
Proof.
  intros H. unfold wcol, RotWord, rotw; cbn [q0 q1 q2 q3].
  f_equal; apply Z.bits_inj'; intros i Hi;
    rewrite !u8_testbit, ?Z.shiftr_spec, Z.lor_spec, ?u32_testbit by lia;
    destruct (Z.ltb_spec i 8); try done; rewrite ?andb_true_l;
    rewrite Z.shiftr_spec by lia;
    repeat match goal with
    | |- context [?a <? 32] => rewrite (proj2 (Z.ltb_lt a 32)) by lia
    end; rewrite ?andb_true_l.
  1-3: rewrite Z.shiftl_spec, (testbit_high w 32 (_ + 24)) by lia;
       rewrite orb_false_r; f_equal; lia.
  rewrite Z.shiftl_spec_low by lia. done.
Qed.

Lemma subw_ok w : is_u32 (subw w).
Proof.
  unfold subw. rewrite pack4_be by apply sbox0_ok. apply (be_get_range [_; _; _; _]).
  repeat apply Forall_cons_2; try apply sbox0_ok. apply Forall_nil_2.
Qed.

Lemma wcol_subw w : is_u32 w -> wcol (subw w) = SubWord (wcol w).
Proof.
  intros H. unfold subw, SubWord, qmap. rewrite wcol_pack4 by apply sbox0_ok.
  rewrite <- !u8_land, shiftr24_byte by done. unfold wcol; cbn [q0 q1 q2 q3].
  by rewrite !sbox0_SubByte by apply u8_byte.
Qed.

Lemma powx_spec j : (j < 16)%nat -> tbl powx (Z.of_nat j) = gpow 2 j /\ is_byte (tbl powx (Z.of_nat j)).
Proof. intros H. do 16 (destruct j as [|j]; [split; [vm_compute; reflexivity|vm_compute; split; congruence]|]). lia. Qed.

Lemma wcol_rcon b : is_byte b -> is_u32 (b ≪ 24) /\ wcol (b ≪ 24) = Q b 0 0 0.
Proof.
  intros H. assert (E : b ≪ 24 = be_get [b; 0; 0; 0])
    by (rewrite Z.shiftl_mul_pow2 by lia; unfold be_get; simpl; lia).
  rewrite E. split; [|by apply wcol_be].
  unfold is_byte in H. unfold be_get; simpl. lia.
Qed.

(** One iteration of the expansion loop is one step of the FIPS schedule. *)
Lemma next_word_spec nk i e :
  (0 < nk <= i)%nat -> (i / nk <= 16)%nat -> (i <= length e)%nat -> words_ok e ->
  is_u32 (next_word nk i e) /\
  wcol (next_word nk i e) = fips_next nk (wcol <$> take i e).
Proof.
  intros Hnk Hdiv Hlen Hok.
  assert (Hdiv0 : (0 < i / nk)%nat) by (apply Nat.div_str_pos; lia).
  assert (Hat : forall k, (k < i)%nat ->
            nth k (wcol <$> take i e) (Q 0 0 0 0) = wcol (word_at e k)).
  { intros k Hk. unfold word_at. change (Q 0 0 0 0) with (wcol 0).
    change (wcol <$> take i e) with (map wcol (take i e)).
    rewrite map_nth, nth_firstn. by rewrite (proj2 (Nat.ltb_lt _ _) Hk). }
  unfold next_word, fips_next.
  rewrite length_fmap, length_take_le, !Hat by lia.
  pose proof (word_at_ok e (i - 1) Hok) as Hw.
  pose proof (word_at_ok e (i - nk) Hok) as Hw'.
  destruct (powx_spec (i / nk - 1) ltac:(lia)) as [Hp Hpb].
  destruct (wcol_rcon _ Hpb) as [Hr32 Hrc].
  destruct (i mod nk =? 0)%nat; [|destruct ((6 <? nk)%nat && (i mod nk =? 4)%nat)].
  - split; [auto using subw_ok with words|].
    by rewrite !wcol_lxor, wcol_subw, wcol_rotw, Hrc, Hp by (done || by apply rotw_ok).
  - split; [auto using subw_ok with words|]. by rewrite wcol_lxor, wcol_subw.
  - split; [auto with words|]. by rewrite wcol_lxor.
Qed.

Lemma fips_expand_snoc nk w n :
  fips_expand nk w (S n) = fips_expand nk w n ++ [fips_next nk (fips_expand nk w n)].
Proof.
  revert w. induction n as [|n IH]; intros w; [done|].
  change (fips_expand nk w (S (S n))) with (fips_expand nk (w ++ [fips_next nk w]) (S n)).
  by rewrite IH.
Qed.

Lemma columns_lookup key i : bytes_ok key -> (4 * i + 4 <= length key)%nat ->
  columns key !! i = Some (wcol (Uint32 (drop (4 * i) key))) /\
  is_u32 (Uint32 (drop (4 * i) key)).
Proof.
  revert key. induction i as [|i IH]; intros key Hok Hl;
    do 4 (destruct key as [|? key]; [simpl in Hl; lia|]);
    rewrite !Forall_cons in Hok; destruct Hok as (? & ? & ? & ? & Hok).
  - unfold Uint32; simpl. rewrite wcol_be by done. split; [done|].
    apply (be_get_range [_; _; _; _]). auto using Forall_cons_2, Forall_nil_2.
  - simpl in Hl. destruct (IH key Hok ltac:(lia)) as [IH1 IH2].
    replace (4 * S i)%nat with (S (S (S (S (4 * i))))) by lia.
    cbn [columns drop]. done.
Qed.

Lemma length_columns key nk : length key = (4 * nk)%nat -> length (columns key) = nk.
Proof.
  revert key. induction nk as [|nk IH]; intros key H.
  - by destruct key.
  - do 4 (destruct key as [|? key]; [simpl in H; lia|]). simpl in *. f_equal. apply IH. lia.
Qed.

Lemma words_ok_insert e i w : words_ok e -> is_u32 w -> words_ok (<[i := w]> e).
Proof. intros. by apply Forall_insert. Qed.

(** The loops that fill [enc]. *)
Lemma enc_loops_spec key nk n e0 :
  length key = (4 * nk)%nat -> (0 < nk <= n)%nat -> (n <= 60)%nat -> (n <= 16 * nk)%nat ->
  bytes_ok key -> length e0 = 60%nat -> words_ok e0 ->
  let e := for_range 0 nk (fun i e => <[i := Uint32 (drop (4 * i) key)]> e) e0 in
  let e := for_range nk n (fun i e => <[i := next_word nk i e]> e) e in
  length e = 60%nat /\ words_ok e /\ wcol <$> take n e = fips_expand nk (columns key) (n - nk).
Proof.
  intros Hk Hnk Hn Hn16 Hok Hl0 Hw0. cbv zeta.
  apply (for_range_ind (fun i e => length e = 60%nat /\ words_ok e /\
           wcol <$> take i e = fips_expand nk (columns key) (i - nk))); [lia| |].
  - rewrite Nat.sub_diag. cbn [fips_expand].
    cut (forall m, (m <= nk)%nat ->
      let e := for_range 0 m (fun i e => <[i := Uint32 (drop (4 * i) key)]> e) e0 in
      length e = 60%nat /\ words_ok e /\ wcol <$> take m e = take m (columns key)).
    { intros H. destruct (H nk) as (? & ? & ->); [lia|].
      by rewrite take_ge by (rewrite (length_columns _ nk Hk); lia). }
    intros m Hm. cbv zeta.
    apply (for_range_ind (fun i e => length e = 60%nat /\ words_ok e /\
             wcol <$> take i e = take i (columns key))); [lia|done|].
    intros i e Hi (Hl & Hw & IH).
    destruct (columns_lookup key i Hok ltac:(lia)) as [Hc Hr].
    split; [by rewrite length_insert|]. split; [by apply words_ok_insert|].
    rewrite take_S_insert, fmap_app, IH by lia. symmetry. by apply take_S_r.
  - intros i e Hi (Hl & Hw & IH).
    destruct (next_word_spec nk i e) as [Hr Hs]; [lia| |lia|done|].
    { apply Nat.Div0.div_le_upper_bound. lia. }
    split; [by rewrite length_insert|]. split; [by apply words_ok_insert|].
    rewrite take_S_insert, fmap_app by lia.
    replace (S i - nk)%nat with (S (i - nk)) by lia.
    rewrite fips_expand_snoc, IH, <- IH. simpl. by rewrite Hs.
Qed.

(** ** The decryption schedule *)

Lemma word_at_insert e i k w : (i < length e)%nat ->
  word_at (<[i := w]> e) k = if decide (k = i) then w else word_at e k.
Proof.
  intros H. unfold word_at. rewrite !nth_lookup. case_decide as Hk.
  - subst. by rewrite list_lookup_insert_eq.
  - by rewrite list_lookup_insert_ne.
Qed.

Definition dec_word (n : nat) (e : list Z) (r j : nat) : Z :=
  let x := word_at e (n - 4 * r - 4 + j) in
  if (0 <? 4 * r)%nat && (4 * r + 4 <? n)%nat then inv_mix_word x else x.

Lemma inv_mix_word_ok x : is_u32 (inv_mix_word x).
Proof. unfold inv_mix_word. auto 10 with words. Qed.

Lemma wcol_inv_mix_word x : is_u32 x -> wcol (inv_mix_word x) = InvMixColumn (wcol x).
Proof.
  intros H. unfold inv_mix_word. rewrite <- !u8_land, shiftr24_byte by done.
  rewrite !wcol_lxor, td0_spec, td1_spec, td2_spec, td3_spec by apply sbox0_ok.
  rewrite !sbox0_SubByte, !InvSubByte_SubByte by apply u8_byte.
  unfold InvMixColumn, mix, cxor, qzip, wcol; cbn [q0 q1 q2 q3]. done.
Qed.

Lemma dec_keys_step_spec n e m d :
  (4 * m + 4 <= length d)%nat -> words_ok e -> words_ok d ->
  let d' := dec_keys_step n e m d in
  length d' = length d /\ words_ok d' /\
  (forall k, (k < 4 * m)%nat -> word_at d' k = word_at d k) /\
  (forall j, (j < 4)%nat -> word_at d' (4 * m + j) = dec_word n e m j).
Proof.
  intros Hl He Hd. cbv zeta. unfold dec_keys_step.
  apply (for_range_ind (fun j d' => length d' = length d /\ words_ok d' /\
    (forall k, (k < 4 * m)%nat -> word_at d' k = word_at d k) /\
    (forall j', (j' < j)%nat -> word_at d' (4 * m + j') = dec_word n e m j'))); [lia| |].
  { split; [done|]. split; [done|]. split; [done|]. lia. }
  intros j d' Hj (Hl' & Hd' & Hlo & Hhi). fold (dec_word n e m j).
  split; [by rewrite length_insert|]. split.
  { apply words_ok_insert; [done|]. unfold dec_word. case_match; auto using inv_mix_word_ok with words. }
  split; intros k Hk; rewrite word_at_insert by lia; (case_decide; [|by auto with lia]).
  - lia.
  - by replace k with j by lia.
Qed.

Lemma dec_loop_spec n e d0 nr :
  n = (4 * (nr + 1))%nat -> (n <= length d0)%nat -> words_ok e -> words_ok d0 ->
  let d := for_range 0 (n / 4) (dec_keys_step n e) d0 in
  words_ok d /\ dec_schedule nr e d.
Proof.
  intros Hn Hl He Hd. cbv zeta.
  assert (Hn4 : (n / 4)%nat = (nr + 1)%nat)
    by (rewrite Hn, Nat.mul_comm; apply Nat.div_mul; lia).
  rewrite Hn4.
  assert (H : let d := for_range 0 (nr + 1) (dec_keys_step n e) d0 in
    length d = length d0 /\ words_ok d /\
    (forall r j, (r < nr + 1)%nat -> (j < 4)%nat -> word_at d (4 * r + j) = dec_word n e r j)).
  { cbv zeta. apply (for_range_ind (fun m d => length d = length d0 /\ words_ok d /\
    (forall r j, (r < m)%nat -> (j < 4)%nat -> word_at d (4 * r + j) = dec_word n e r j)));
      [lia| |].
    { split; [done|]. split; [done|]. lia. }
    intros m d Hm (Hl' & Hd' & IH).
    destruct (dec_keys_step_spec n e m d) as (Hl2 & Hd2 & Hlo & Hhi); [lia|done..|].
    split; [congruence|]. split; [done|]. intros r j Hr Hj.
    destruct (decide (r = m)) as [->|]; [by apply Hhi|]. rewrite Hlo by lia. apply IH; lia. }
  destruct H as (_ & Hd' & Hw). split; [done|]. intros r Hr.
  unfold round_key at 1. rewrite !Hw by lia. unfold dec_word.
  replace (0 <? 4 * r)%nat with (0 <? r)%nat by (destruct r; done).
  replace (4 * r + 4 <? n)%nat with (r <? nr)%nat
    by (apply eq_bool_prop_intro; rewrite !Is_true_true, !Nat.ltb_lt; lia).
  replace (n - 4 * r - 4)%nat with (4 * (nr - r))%nat by lia.
  unfold round_key. destruct ((0 <? r)%nat && (r <? nr)%nat); [|done].
  unfold wstate, InvMixColumns, qmap; cbn [q0 q1 q2 q3].
  rewrite !wcol_inv_mix_word by (by apply word_at_ok). done.
Qed.

(** ** The main theorems *)

Definition valid_key (key : bytes) : Prop :=
  bytes_ok key /\ (length key = 16 \/ length key = 24 \/ length key = 32)%nat.

(** The FIPS number of rounds for a key (figure 4). *)
Definition fips_rounds (key : bytes) : nat := (length key / 4 + 6)%nat.

(** What [New] establishes about the [Block] it returns. *)
Record block_wf (key : bytes) (c : blockExpanded) : Prop := {
  wf_rounds : rounds c = fips_rounds key;
  wf_rounds_pos : (10 <= rounds c <= 14)%nat;
  wf_enc_len : length (enc c) = 60%nat;
  wf_enc : words_ok (enc c);
  wf_dec : words_ok (dec c);
  wf_enc_fips : wcol <$> take (4 * (rounds c + 1)) (enc c) = KeyExpansion key (rounds c);
  wf_dec_sched : dec_schedule (rounds c) (enc c) (dec c)
}.

Lemma expandKeyGeneric_wf key nr :
  bytes_ok key -> (10 <= nr <= 14)%nat -> nr = fips_rounds key ->
  length key = (4 * (nr - 6))%nat ->
  block_wf key (expandKeyGeneric {| rounds := nr; enc := replicate 60 0; dec := replicate 60 0 |} key).
Proof.
  intros Hok Hnr Hf Hl.
  assert (Hz : words_ok (replicate 60 0)) by (apply Forall_replicate; lia).
  assert (Hdiv : (length key / 4)%nat = (nr - 6)%nat)
    by (rewrite Hl, Nat.mul_comm; apply Nat.div_mul; lia).
  unfold expandKeyGeneric, roundKeysSize; cbn [rounds enc dec].
  change (128 / 32)%nat with 4%nat. rewrite Hdiv, (Nat.mul_comm (nr + 1) 4).
  destruct (enc_loops_spec key (nr - 6) (4 * (nr + 1)) (replicate 60 0))
    as (He1 & He2 & He3); [done|lia..|done|done|done|].
  match goal with |- context [dec_keys_step _ ?e] => set (ee := e) in * end.
  destruct (dec_loop_spec (4 * (nr + 1)) ee (replicate 60 0) nr)
    as (Hd1 & Hd2); [done|rewrite length_replicate; lia|done..|].
  constructor; cbn [rounds enc dec]; try done.
  rewrite He3. unfold KeyExpansion. by rewrite Hdiv.
Qed.

Lemma aes_New_wf key : valid_key key -> exists c, aes_New key = Ret c /\ block_wf key c.
Proof.
  intros [Hok Hl].
  unfold aes_New, newOutlined, newBlock, newBlockExpanded, zeroBlock; cbn [rounds enc dec].
  unfold aes128KeySize, aes192KeySize, aes256KeySize, aes128Rounds, aes192Rounds, aes256Rounds.
  destruct Hl as [Hl|[Hl|Hl]]; rewrite !Hl; simpl; eexists; (split; [done|]);
    apply expandKeyGeneric_wf; try lia; try done; unfold fips_rounds; by rewrite Hl.
Qed.

(** ** AES as a function of the key bytes *)

(** Round key [r] of the FIPS-197 key schedule of [key]. *)
Definition fips_round_key (key : bytes) (r : nat) : state :=
  let w i := nth (4 * r + i) (KeyExpansion key (fips_rounds key)) (Q 0 0 0 0) in
  Q (w 0%nat) (w 1%nat) (w 2%nat) (w 3%nat).

Definition fips_encrypt (key b : bytes) : bytes :=
  state_block (Cipher (fips_rounds key) (fips_round_key key) (block_state b)).
Definition fips_decrypt (key b : bytes) : bytes :=
  state_block (InvCipher (fips_rounds key) (fips_round_key key) (block_state b)).

Lemma cipher_rounds_ext rk rk' r s :
  (forall i, (i <= r)%nat -> rk i = rk' i) -> cipher_rounds rk r s = cipher_rounds rk' r s.
Proof.
  induction r as [|r IH]; intros H.
  - unfold cipher_rounds. by rewrite H.
  - rewrite !cipher_rounds_S, IH, (H (S r)) by auto with lia. done.
Qed.

Lemma inv_rounds_ext rk rk' r s :
  (forall i, (i <= r)%nat -> rk i = rk' i) -> inv_rounds rk r s = inv_rounds rk' r s.
Proof.
  revert s. induction r as [|r IH]; intros s H.
  - unfold inv_rounds. by rewrite H.
  - rewrite !inv_rounds_S, (H (S r)), IH by auto with lia. done.
Qed.

Lemma wf_round_key key c r : block_wf key c -> (r <= rounds c)%nat ->
  round_key (enc c) r = fips_round_key key r.
Proof.
  intros Hwf Hr. unfold fips_round_key. rewrite <- (wf_rounds _ _ Hwf), <- (wf_enc_fips _ _ Hwf).
  pose proof (wf_enc_len _ _ Hwf). pose proof (wf_rounds_pos _ _ Hwf).
  assert (Hat : forall i, (i < 4)%nat ->
    nth (4 * r + i) (wcol <$> take (4 * (rounds c + 1)) (enc c)) (Q 0 0 0 0) =
    wcol (word_at (enc c) (4 * r + i))).
  { intros i Hi. change (Q 0 0 0 0) with (wcol 0).
    change (wcol <$> ?l) with (map wcol l). rewrite map_nth, nth_firstn.
    by rewrite (proj2 (Nat.ltb_lt _ _)) by lia. }
  rewrite !Hat by lia. done.
Qed.

Lemma wf_encrypt {E} key c dst src :
  block_wf key c -> bytes_ok src -> (16 <= length src)%nat -> (16 <= length dst)%nat ->
  encryptBlockGeneric (E:=E) c dst src = Ret (fips_encrypt key src ++ drop 16 dst).
Proof.
  intros Hwf Hok Hs Hd. pose proof (wf_rounds_pos _ _ Hwf).
  rewrite encryptBlockGeneric_Cipher by (done || lia || by apply (wf_enc key)).
  unfold fips_encrypt, Cipher. rewrite <- (wf_rounds _ _ Hwf).
  rewrite (wf_round_key key c) by (done || lia).
  rewrite (cipher_rounds_ext _ (fips_round_key key)); [done|].
  intros i Hi. apply wf_round_key; [done|lia].
Qed.

Lemma wf_decrypt {E} key c dst src :
  block_wf key c -> bytes_ok src -> (16 <= length src)%nat -> (16 <= length dst)%nat ->
  decryptBlockGeneric (E:=E) c dst src = Ret (fips_decrypt key src ++ drop 16 dst).
Proof.
  intros Hwf Hok Hs Hd. pose proof (wf_rounds_pos _ _ Hwf).
  rewrite decryptBlockGeneric_InvCipher
    by (done || lia || by apply (wf_dec key) || by apply (wf_dec_sched key)).
  unfold fips_decrypt, InvCipher. rewrite <- (wf_rounds _ _ Hwf).
  rewrite (wf_round_key key c) by (done || lia).
  rewrite (inv_rounds_ext _ (fips_round_key key)); [done|].
  intros i Hi. apply wf_round_key; [done|lia].
Qed.

Lemma Cipher_ok nr rk s :
  (forall i, state_ok (rk i)) -> state_ok s -> state_ok (Cipher nr rk s).
Proof. intros. unfold Cipher. auto using cipher_rounds_ok with aes. Qed.

(** Byte strings of 16 bytes that are states. *)
Lemma state_block_ok s : state_ok s -> bytes_ok (state_block s).
Proof.
  intros ((? & ? & ? & ?) & (? & ? & ? & ?) & (? & ? & ? & ?) & (? & ? & ? & ?)).
  unfold state_block, col_bytes. simpl. auto 20 using Forall_cons_2, Forall_nil_2.
Qed.

(** The round keys as a total function of the expanded words: the cipher only
    reads the first [nr + 1]. *)
Lemma fips_encrypt_Cipher key c b : block_wf key c ->
  fips_encrypt key b = state_block (Cipher (rounds c) (round_key (enc c)) (block_state b)).
Proof.
  intros Hwf. unfold fips_encrypt, Cipher. rewrite <- (wf_rounds _ _ Hwf).
  rewrite (wf_round_key key c) by (done || lia).
  rewrite <- (cipher_rounds_ext (round_key (enc c))); [done|].
  intros i Hi. apply wf_round_key; [done|lia].
Qed.

Lemma fips_decrypt_Cipher key c b : block_wf key c ->
  fips_decrypt key b = state_block (InvCipher (rounds c) (round_key (enc c)) (block_state b)).
Proof.
  intros Hwf. unfold fips_decrypt, InvCipher. rewrite <- (wf_rounds _ _ Hwf).
  rewrite (wf_round_key key c) by (done || lia).
  rewrite <- (inv_rounds_ext (round_key (enc c))); [done|].
  intros i Hi. apply wf_round_key; [done|lia].
Qed.

Lemma length_fips_encrypt key b : length (fips_encrypt key b) = 16%nat.
Proof. done. Qed.

Lemma fips_encrypt_ok key b : valid_key key -> bytes_ok b -> bytes_ok (fips_encrypt key b).
Proof.
  intros Hk Hb. destruct (aes_New_wf key Hk) as (c & _ & Hwf).
  rewrite (fips_encrypt_Cipher key c) by done. apply state_block_ok, Cipher_ok.
  - intros i. apply round_key_ok.
  - by apply block_state_ok.
Qed.

(** FIPS-197 decryption undoes FIPS-197 encryption. *)
Lemma fips_decrypt_encrypt key b : valid_key key -> bytes_ok b -> length b = 16%nat ->
  fips_decrypt key (fips_encrypt key b) = b.
Proof.
  intros Hk Hb Hl. destruct (aes_New_wf key Hk) as (c & _ & Hwf).
  rewrite (fips_encrypt_Cipher key c), (fips_decrypt_Cipher key c) by done.
  assert (Hrk : forall i, state_ok (round_key (enc c) i)) by (intros; apply round_key_ok).
  rewrite block_state_block by (apply Cipher_ok; [done|by apply block_state_ok]).
  rewrite InvCipher_Cipher by (done || by apply block_state_ok).
  rewrite <- (app_nil_r b) at 1. by apply state_block_state.
Qed.

(** ** Properties of the package *)

(** The arguments of [Encrypt]/[Decrypt] that pass the guards. *)
Definition block_args (dst src : Slice) : Prop :=
  bytes_ok (data src) /\ (16 <= length (data src))%nat /\ (16 <= length (data dst))%nat /\
  InexactOverlap (block_prefix dst) (block_prefix src) = false.

Lemma check_block_args_pass {E} dst src :
  block_args dst src -> check_block_args (E:=E) dst src = Ret tt.
Proof.
  intros (_ & Hs & Hd & Ho). unfold check_block_args, aes_BlockSize.
  by rewrite (proj2 (Nat.ltb_ge _ _) Hs), (proj2 (Nat.ltb_ge _ _) Hd), Ho.
Qed.

Lemma New_ret_wf key c : bytes_ok key -> aes_New key = Ret c -> valid_key key /\ block_wf key c.
Proof.
  intros Hok H. assert (Hv : valid_key key).
  { split; [done|]. unfold aes_New, newOutlined in H. case_match eqn:E; [|done].
    rewrite !orb_true_iff, !Nat.eqb_eq in E. unfold aes128KeySize, aes192KeySize, aes256KeySize in E.
    tauto. }
  split; [done|]. destruct (aes_New_wf key Hv) as (c' & Hc & Hwf). congruence.
Qed.

(** C40: for every key that [New] accepts, [Encrypt] writes the FIPS-197 cipher
    of the first source block into the first 16 bytes of [dst] and leaves the
    rest of [dst] as it was: the table-driven code implements the standard
    (field arithmetic, S-box, rows, columns and key schedule included). *)
Theorem Encrypt_is_FIPS197 (E : Type) (key : bytes) (c : blockExpanded) (dst src : Slice) :
  bytes_ok key -> aes_New key = Ret c -> block_args dst src ->
  Encrypt (E:=E) c dst src =
  Ret (fips_encrypt key (data src) ++ drop 16 (data dst)).
Proof.
  intros Hok Hc Ha. destruct (New_ret_wf key c Hok Hc) as [_ Hwf].
  unfold Encrypt. rewrite check_block_args_pass by done. cbn [obind].
  destruct Ha as (? & ? & ? & _). by apply wf_encrypt.
Qed.

(** Decrypting what [Encrypt] produced, with the same key and any
    admissible buffers, gives back the plaintext block. *)
Theorem Decrypt_Encrypt (E : Type) (key : bytes) (c : blockExpanded)
    (dst src dst' src' : Slice) (ct : bytes) :
  bytes_ok key -> aes_New key = Ret c -> block_args dst src ->
  Encrypt (E:=E) c dst src = Ret ct ->
  take 16 (data src') = take 16 ct -> block_args dst' src' ->
  Decrypt (E:=E) c dst' src' = Ret (take 16 (data src) ++ drop 16 (data dst')).
Proof.
  intros Hok Hc Ha He Hsrc' Ha'. destruct (New_ret_wf key c Hok Hc) as [Hv Hwf].
  unfold Encrypt in He. rewrite check_block_args_pass in He by done. cbn [obind] in He.
  unfold Decrypt. rewrite check_block_args_pass by done. cbn [obind].
  destruct Ha as (Hs & Hsl & Hdl & _), Ha' as (Hs' & Hsl' & Hdl' & _).
  unfold encryptBlock, decryptBlock in *. rewrite (wf_encrypt key) in He by done.
  rewrite (wf_decrypt key) by done. apply Ret_inj in He as <-.
  do 2 f_equal.
  assert (Hpre : forall b, (16 <= length b)%nat -> block_state b = block_state (take 16 b)).
  { intros b Hb. destruct (at_least_16 b Hb) as
      (? & ? & ? & ? & ? & ? & ? & ? & ? & ? & ? & ? & ? & ? & ? & ? & ? & ->). done. }
  unfold fips_decrypt. rewrite (Hpre (data src')) by done.
  rewrite Hsrc', take_app_length' by (symmetry; apply length_fips_encrypt).
  unfold fips_encrypt. rewrite (Hpre (data src)) by done.
  apply (fips_decrypt_encrypt key); [done|by apply Forall_take|].
  rewrite length_take. lia.
Qed.

(** [New] fails exactly on the key lengths other than 16, 24 and 32, with
    [KeySizeError(len(key))]; otherwise the block it returns holds the
    FIPS-197 key schedule in [enc] and the schedule of the equivalent inverse
    cipher in [dec], all words within [uint32]. *)
Theorem New_expands_key (key : bytes) :
  bytes_ok key ->
  match aes_New key with
  | Ret c =>
      (length key = 16 \/ length key = 24 \/ length key = 32)%nat /\
      rounds c = fips_rounds key /\
      wcol <$> take (4 * (rounds c + 1)) (enc c) = KeyExpansion key (rounds c) /\
      dec_schedule (rounds c) (enc c) (dec c) /\
      words_ok (enc c) /\ words_ok (dec c)
  | Err e => e = mkKeySizeError (length key) /\ ~ valid_key key
  | Panic _ => False
  end.
Proof.
  intros Hok. destruct (aes_New key) as [c|e|w] eqn:H.
  - destruct (New_ret_wf key c Hok H) as [[_ Hl] Hwf].
    destruct Hwf. by repeat apply conj.
  - unfold aes_New, newOutlined in H. case_match eqn:E; [done|].
    injection H as <-. split; [done|]. intros [_ Hl].
    rewrite !orb_false_iff, !Nat.eqb_neq in E.
    unfold aes128KeySize, aes192KeySize, aes256KeySize in E. lia.
  - unfold aes_New, newOutlined in H. case_match; done.
Qed.

(** The constant tables are what FIPS-197 says: [sbox0]/[sbox1] are the
    S-box and its inverse as computed in GF(2^8), they are mutually inverse,
    the [te]/[td] tables are the MixColumns/InvMixColumns columns of them, and
    [powx] holds the powers of x. *)
Theorem tables_are_FIPS197 (b : Z) (j : nat) :
  is_byte b -> (j < 16)%nat ->
  tbl sbox0 b = SubByte b /\ tbl sbox1 b = InvSubByte b /\
  tbl sbox1 (tbl sbox0 b) = b /\ tbl sbox0 (tbl sbox1 b) = b /\
  wcol (tbl te0 b) = MixColumn (Q (SubByte b) 0 0 0) /\
  wcol (tbl te1 b) = MixColumn (Q 0 (SubByte b) 0 0) /\
  wcol (tbl te2 b) = MixColumn (Q 0 0 (SubByte b) 0) /\
  wcol (tbl te3 b) = MixColumn (Q 0 0 0 (SubByte b)) /\
  wcol (tbl td0 b) = InvMixColumn (Q (InvSubByte b) 0 0 0) /\
  wcol (tbl td1 b) = InvMixColumn (Q 0 (InvSubByte b) 0 0) /\
  wcol (tbl td2 b) = InvMixColumn (Q 0 0 (InvSubByte b) 0) /\
  wcol (tbl td3 b) = InvMixColumn (Q 0 0 0 (InvSubByte b)) /\
  tbl powx (Z.of_nat j) = gpow 2 j.
Proof.
  intros Hb Hj.
  assert (H0 : forall c, gmul c 0 = 0).
  { intros c. pose proof (gmul_lxor c 0 0) as H. rewrite Z.lxor_0_r in H.
    by rewrite Z.lxor_nilpotent in H. }
  rewrite te0_spec, te1_spec, te2_spec, te3_spec, td0_spec, td1_spec, td2_spec, td3_spec by done.
  rewrite (sbox0_SubByte b), (sbox1_InvSubByte b), (sbox1_InvSubByte (SubByte b)),
    (sbox0_SubByte (InvSubByte b)), InvSubByte_SubByte, SubByte_InvSubByte
    by (done || by apply SubByte_ok || (rewrite <- sbox1_InvSubByte by done; apply sbox1_ok)).
  unfold MixColumn, InvMixColumn, mix.
  rewrite !H0, !Z.lxor_0_r, !Z.lxor_0_l, !gmul_1 by (by apply SubByte_ok).
  repeat apply conj; try done. by apply powx_spec.
Qed.

(** ** Witnesses *)

Definition w_key : bytes := fips_key 16.
Definition w_block : blockExpanded :=
  match aes_New w_key with Ret c => c | _ => zeroBlock end.
Definition w_src : Slice := {| ptr := 0x1000; data := fips_plain; spare := [] |}.
Definition w_dst : Slice := {| ptr := 0x2000; data := replicate 20 7; spare := [] |}.

Lemma w_args : block_args w_dst w_src.
Proof. repeat apply conj; [compute_decide|vm_compute; lia..|vm_compute; reflexivity]. Qed.

Lemma Encrypt_is_FIPS197_witness :
  Encrypt (E:=unit) w_block w_dst w_src =
  Ret (fips_encrypt w_key (data w_src) ++ drop 16 (data w_dst)).
Proof.
  apply (Encrypt_is_FIPS197 unit w_key w_block w_dst w_src);
    [compute_decide|vm_compute; reflexivity|apply w_args].
Defined.

Definition w_ct : bytes :=
  match Encrypt (E:=unit) w_block w_dst w_src with Ret ct => ct | _ => [] end.

Lemma Decrypt_Encrypt_witness :
  Decrypt (E:=unit) w_block w_dst {| ptr := 0x3000; data := w_ct; spare := [] |} =
  Ret (fips_plain ++ [7; 7; 7; 7]).
Proof.
  apply (Decrypt_Encrypt unit w_key w_block w_dst w_src w_dst _ w_ct);
    [compute_decide|vm_compute; reflexivity|apply w_args|vm_compute; reflexivity|reflexivity|].
  repeat apply conj; [compute_decide|vm_compute; lia..|vm_compute; reflexivity].
Defined.

Lemma New_expands_key_witness :
  length w_key = 16%nat /\ rounds w_block = fips_rounds w_key /\
  wcol <$> take 44 (enc w_block) = KeyExpansion w_key 10.
Proof.
  pose proof (New_expands_key w_key ltac:(compute_decide)) as H.
  change (aes_New w_key) with (Ret (E:=KeySizeError) w_block) in H.
  destruct H as (_ & H1 & H2 & _). split; [reflexivity|]. split; [exact H1|exact H2].
Defined.

Lemma tables_are_FIPS197_witness :
  tbl sbox0 0x53 = SubByte 0x53 /\ tbl powx 9 = gpow 2 9.
Proof.
  pose proof (tables_are_FIPS197 0x53 9 ltac:(compute_decide) ltac:(lia)) as H.
  split; [apply H|apply H].
Defined.
