(* ===== verification/Ghash.v ===== *)
(** * gcm/ghash.go: GHASH with 4-bit tables

    The field element is the pair of [uint64]s of the code; multiplication by
    the key goes through the 16-entry product table and the 4-bit reduction
    table.  [GhashSpec.v] relates it to the bit-serial multiplication of
    NIST SP 800-38D. *)

From S2P Require Import Prelude.

Definition gcmBlockSize : nat := 16.

Record gcmFieldElement := mkElt { low : Z; high : Z }.

Definition zeroElt : gcmFieldElement := mkElt 0 0.

Definition reverseBits (i : Z) : Z :=
  let i := ((i ≪ 2) &&& 0xc) ||| ((i ≫ 2) &&& 0x3) in
  ((i ≪ 1) &&& 0xa) ||| ((i ≫ 1) &&& 0x5).

Definition ghashAdd (x y : gcmFieldElement) : gcmFieldElement :=
  mkElt (low x ⊕ low y) (high x ⊕ high y).

Definition ghashDouble (x : gcmFieldElement) : gcmFieldElement :=
  let msbSet := high x &&& 1 =? 1 in
  let dhigh := high x ≫ 1 in
  let dhigh := dhigh ||| u64 (low x ≪ 63) in
  let dlow := low x ≫ 1 in
  let dlow := if msbSet then dlow ⊕ 0xe100000000000000 else dlow in
  mkElt dlow dhigh.

Definition ghashReductionTable : list Z :=
  [0x0000; 0x1c20; 0x3840; 0x2460; 0x7080; 0x6ca0; 0x48c0; 0x54e0;
   0xe100; 0xfd20; 0xd940; 0xc560; 0x9180; 0x8da0; 0xa9c0; 0xb5e0].

(** [productTable[i]]; the index is always a 4-bit value. *)
Definition elt_at (t : list gcmFieldElement) (i : Z) : gcmFieldElement :=
  nth (Z.to_nat i) t zeroElt.

(** One iteration of the inner loop of [ghashMul]. *)
Definition ghashMul_step (productTable : list gcmFieldElement)
    (zw : gcmFieldElement * Z) : gcmFieldElement * Z :=
  let '(z, word) := zw in
  let msw := high z &&& 0xf in
  let zhigh := high z ≫ 4 in
  let zhigh := zhigh ||| u64 (low z ≪ 60) in
  let zlow := low z ≫ 4 in
  let zlow := zlow ⊕ (nth (Z.to_nat msw) ghashReductionTable 0 ≪ 48) in
  let t := elt_at productTable (word &&& 0xf) in
  (mkElt (zlow ⊕ low t) (zhigh ⊕ high t), word ≫ 4).

(** The 16 iterations [j = 0, 4, ..., 60] over one word. *)
Definition ghashMul_word (productTable : list gcmFieldElement) (z : gcmFieldElement) (word : Z)
  : gcmFieldElement :=
  fst (for_range 0 16 (fun _ => ghashMul_step productTable) (z, word)).

Definition ghashMul (productTable : list gcmFieldElement) (y : gcmFieldElement) : gcmFieldElement :=
  let z := ghashMul_word productTable zeroElt (high y) in
  ghashMul_word productTable z (low y).

(** The loop [for len(blocks) > 0]; each iteration consumes 16 bytes, so
    [length blocks] is enough fuel.  A trailing partial block is out of range. *)
Fixpoint updateBlocks_loop {E} (fuel : nat) (productTable : list gcmFieldElement)
    (y : gcmFieldElement) (blocks : bytes) : outcome E gcmFieldElement :=
  if (length blocks =? 0)%nat then Ret y else
  match fuel with
  | O => Panic "out of fuel"
  | S fuel =>
      if (length blocks <? 16)%nat then Panic index_out_of_range else
      let y := mkElt (low y ⊕ Uint64 blocks) (high y ⊕ Uint64 (drop 8 blocks)) in
      let y := ghashMul productTable y in
      updateBlocks_loop fuel productTable y (drop gcmBlockSize blocks)
  end.

Definition updateBlocks {E} (productTable : list gcmFieldElement) (y : gcmFieldElement)
    (blocks : bytes) : outcome E gcmFieldElement :=
  updateBlocks_loop (length blocks) productTable y blocks.

Definition ghashUpdate {E} (productTable : list gcmFieldElement) (y : gcmFieldElement)
    (d : bytes) : outcome E gcmFieldElement :=
  let fullBlocks := Z.to_nat ((Z.of_nat (length d) ≫ 4) ≪ 4) in
  (let! y := updateBlocks productTable y (take fullBlocks d) in
   if negb (length d =? fullBlocks)%nat then
     (* copy(partialBlock[:], data[fullBlocks:]) into a zeroed block *)
     let rest := take gcmBlockSize (drop fullBlocks d) in
     let partialBlock := rest ++ replicate (gcmBlockSize - length rest) 0 in
     updateBlocks productTable y partialBlock
   else Ret y)%go.

(** The table of the products of [H]: entry [reverseBits i] holds [i * H]. *)
Definition productTable_of (H : bytes) : list gcmFieldElement :=
  let x := mkElt (Uint64 (take 8 H)) (Uint64 (drop 8 H)) in
  let at_ t i := elt_at t (reverseBits i) in
  let put t i v := <[Z.to_nat (reverseBits i) := v]> t in
  let t := put (replicate 16 zeroElt) 1 x in
  for_range 1 8 (fun m t =>
    let i := 2 * Z.of_nat m in
    let t := put t i (ghashDouble (at_ t (i / 2))) in
    put t (i + 1) (ghashAdd (at_ t i) x)) t.

Fixpoint ghash_inputs {E} (productTable : list gcmFieldElement) (y : gcmFieldElement)
    (inputs : list bytes) : outcome E gcmFieldElement :=
  match inputs with
  | [] => Ret y
  | input :: inputs =>
      (let! y := ghashUpdate productTable y input in ghash_inputs productTable y inputs)%go
  end.

(** [ghash]: the new contents of [out]. *)
Definition ghash {E} (H : bytes) (inputs : list bytes) : outcome E bytes :=
  let productTable := productTable_of H in
  (let! y := ghash_inputs productTable zeroElt inputs in
   Ret (PutUint64 (low y) ++ PutUint64 (high y)))%go.

Definition GHASH {E} (key : bytes) (inputs : list bytes) : outcome E bytes := ghash key inputs.
