(* ===== verification/GhashSpec.v ===== *)
(** * GHASH as defined by NIST SP 800-38D, and the table code as a refinement

    A block is the 128-bit integer of its bytes, most significant bit first
    being the coefficient of x^0; [mulx] multiplies by x modulo
    x^128 + x^7 + x^2 + x + 1.  [nist_mul] is algorithm 1 of the standard, one
    bit of the multiplier at a time. *)

From S2P Require Import Prelude Ghash.

(** ** The field GF(2^128) *)

Definition gcm_R : Z := 0xe1 ≪ 120.

Definition mulx (v : Z) : Z := if Z.odd v then (v ≫ 1) ⊕ gcm_R else v ≫ 1.

(** Bits [n-1, ..., 0] of [X] remain, [v] is the current multiple. *)
Fixpoint nist_loop (n : nat) (X z v : Z) : Z :=
  match n with
  | O => z
  | S n => nist_loop n X (if Z.testbit X (Z.of_nat n) then z ⊕ v else z) (mulx v)
  end.
Definition nist_mul (X Y : Z) : Z := nist_loop 128 X 0 Y.

(** GHASH_H of a sequence of blocks (SP 800-38D, algorithm 2). *)
Definition nist_ghash (H : Z) (blocks : list Z) (y : Z) : Z :=
  fold_left (fun y x => nist_mul (y ⊕ x) H) blocks y.

(** The 16-byte blocks of a string, the last one padded with zeros. *)
Fixpoint pad_blocks_fuel (fuel : nat) (b : bytes) : list Z :=
  match fuel, b with
  | O, _ | _, [] => []
  | S fuel, _ =>
      be_get (take 16 b ++ replicate (16 - length (take 16 b)) 0)
      :: pad_blocks_fuel fuel (drop 16 b)
  end.
Definition pad_blocks (b : bytes) : list Z := pad_blocks_fuel (length b) b.

Definition nist_GHASH (H : bytes) (inputs : list bytes) : bytes :=
  be_put 16 (nist_ghash (be_get H) (concat (pad_blocks <$> inputs)) 0).

(** ** Linearity *)

Lemma mulx_lxor a b : mulx (a ⊕ b) = mulx a ⊕ mulx b.
Proof.
  unfold mulx. rewrite <- !Z.bit0_odd, Z.lxor_spec, Z.shiftr_lxor.
  destruct (Z.testbit a 0), (Z.testbit b 0); simpl xorb; cbv iota; bits_ext.
Qed.

Lemma mulx_0 : mulx 0 = 0. Proof. reflexivity. Qed.

(** Horner's form of the product. *)
Fixpoint horner (n : nat) (X v : Z) : Z :=
  match n with
  | O => 0
  | S n => (if Z.testbit X (Z.of_nat n) then v else 0) ⊕ mulx (horner n X v)
  end.

Lemma horner_mulx n X v : horner n X (mulx v) = mulx (horner n X v).
Proof.
  induction n as [|n IH]; [done|]. cbn [horner]. rewrite IH, mulx_lxor.
  by destruct (Z.testbit X (Z.of_nat n)).
Qed.

Lemma nist_loop_horner n X z v : nist_loop n X z v = z ⊕ horner n X v.
Proof.
  revert z v. induction n as [|n IH]; intros z v; cbn [nist_loop horner].
  - by rewrite Z.lxor_0_r.
  - rewrite IH, horner_mulx. destruct (Z.testbit X (Z.of_nat n)).
    + by rewrite Z.lxor_assoc.
    + by rewrite Z.lxor_0_l.
Qed.

Lemma nist_mul_horner X Y : nist_mul X Y = horner 128 X Y.
Proof. unfold nist_mul. by rewrite nist_loop_horner, Z.lxor_0_l. Qed.

#[global] Opaque nist_mul.

Definition mulx4 (v : Z) : Z := mulx (mulx (mulx (mulx v))).

Lemma mulx4_lxor a b : mulx4 (a ⊕ b) = mulx4 a ⊕ mulx4 b.
Proof. unfold mulx4. by rewrite !mulx_lxor. Qed.

Lemma mulx_shift v : mulx (v ≪ 1) = v.
Proof.
  unfold mulx. rewrite <- Z.bit0_odd, Z.shiftl_spec_low by lia.
  rewrite Z.shiftr_shiftl_l by lia. by rewrite Z.shiftl_0_r.
Qed.

Lemma mulx4_shift v : mulx4 (v ≪ 4) = v.
Proof.
  unfold mulx4. replace (v ≪ 4) with ((((v ≪ 1) ≪ 1) ≪ 1) ≪ 1)
    by (rewrite !Z.shiftl_shiftl by lia; done).
  by rewrite !mulx_shift.
Qed.

(** A finite case analysis over the 4-bit values. *)
Lemma nibble_enum (P : Z -> bool) :
  forallb P (Z.of_nat <$> seq 0 16) = true -> forall b, 0 <= b < 16 -> P b = true.
Proof.
  intros H b Hb. rewrite forallb_forall in H. apply H.
  apply list_elem_of_In, list_elem_of_fmap. exists (Z.to_nat b).
  split; [lia|]. apply elem_of_seq. lia.
Qed.

Lemma land15_range v : 0 <= v -> 0 <= v &&& 0xf < 16.
Proof.
  intros H. change 0xf with (Z.ones 4). rewrite Z.land_ones by lia. apply Z.mod_pos_bound. lia.
Qed.

Lemma nibble_split v : 0 <= v -> v = ((v ≫ 4) ≪ 4) ⊕ (v &&& 0xf).
Proof.
  intros H. change 0xf with (Z.ones 4). apply Z.bits_inj'. intros i Hi.
  rewrite Z.lxor_spec, Z.land_spec, Z.testbit_ones_nonneg by lia.
  destruct (Z.ltb_spec i 4).
  - rewrite Z.shiftl_spec_low by lia. by rewrite andb_true_r, xorb_false_l.
  - rewrite Z.shiftl_spec, Z.shiftr_spec by lia.
    rewrite andb_false_r, xorb_false_r. f_equal. lia.
Qed.

(** The reduction table holds the four-fold multiples of the low bits. *)
Lemma reduction_table_spec m : 0 <= m < 16 ->
  mulx4 m = nth (Z.to_nat m) ghashReductionTable 0 ≪ 112.
Proof.
  intros H. apply Z.eqb_eq. revert m H.
  apply (nibble_enum (fun m => mulx4 m =? nth (Z.to_nat m) ghashReductionTable 0 ≪ 112)).
  vm_compute. reflexivity.
Qed.

Lemma reduction_table_range m : 0 <= m < 16 ->
  0 <= nth (Z.to_nat m) ghashReductionTable 0 < 2 ^ 16.
Proof.
  intros H. set (f := fun m => (0 <=? nth (Z.to_nat m) ghashReductionTable 0) &&
    (nth (Z.to_nat m) ghashReductionTable 0 <? 2 ^ 16)).
  assert (Hf : f m = true) by (revert m H; apply nibble_enum; vm_compute; reflexivity).
  unfold f in Hf. lia.
Qed.

Lemma mulx4_reduce v : 0 <= v ->
  mulx4 v = (v ≫ 4) ⊕ (nth (Z.to_nat (v &&& 0xf)) ghashReductionTable 0 ≪ 112).
Proof.
  intros H. rewrite (nibble_split v) at 1 by done. rewrite mulx4_lxor, mulx4_shift.
  f_equal. apply reduction_table_spec. by apply land15_range.
Qed.

(** ** Field elements as 128-bit integers *)

Definition elt_ok (x : gcmFieldElement) : Prop := is_u64 (low x) /\ is_u64 (high x).
Definition val (x : gcmFieldElement) : Z := (low x ≪ 64) ⊕ high x.

Lemma val_testbit x i : is_u64 (high x) -> 0 <= i ->
  Z.testbit (val x) i = if i <? 64 then Z.testbit (high x) i else Z.testbit (low x) (i - 64).
Proof.
  intros Hh Hi. unfold val. rewrite Z.lxor_spec. destruct (Z.ltb_spec i 64).
  - rewrite Z.shiftl_spec_low by lia. done.
  - rewrite (testbit_high (high x) 64) by lia. rewrite Z.shiftl_spec by lia.
    apply xorb_false_r.
Qed.

Lemma val_nonneg x : elt_ok x -> 0 <= val x.
Proof. intros [? ?]. apply Z.lxor_nonneg. rewrite Z.shiftl_nonneg. lia. Qed.

Lemma val_xor_low l c h : val (mkElt (l ⊕ c) h) = val (mkElt l h) ⊕ (c ≪ 64).
Proof. unfold val; simpl. rewrite Z.shiftl_lxor. bits_ext. Qed.

Lemma val_add x y : val (ghashAdd x y) = val x ⊕ val y.
Proof. unfold val, ghashAdd; simpl. rewrite Z.shiftl_lxor. bits_ext. Qed.

Lemma u64_testbit x i : Z.testbit (u64 x) i = (i <? 64) && Z.testbit x i.
Proof.
  destruct (decide (i < 0)) as [Hn|Hn].
  { rewrite !Z.testbit_neg_r by lia. by rewrite andb_false_r. }
  unfold u64. by rewrite Z.testbit_mod_pow2 by lia.
Qed.

(** The two-word right shift of the code. *)
Definition shiftr2 (x : gcmFieldElement) (k : Z) : gcmFieldElement :=
  mkElt (low x ≫ k) ((high x ≫ k) ||| u64 (low x ≪ (64 - k))).

Lemma shiftr2_ok x k : elt_ok x -> 0 < k < 64 -> elt_ok (shiftr2 x k).
Proof.
  intros [Hl Hh] Hk.
  pose proof (shiftr_range (low x) 64 k ltac:(lia) Hl).
  pose proof (shiftr_range (high x) 64 k ltac:(lia) Hh).
  assert (2 ^ (64 - k) < 2 ^ 64) by (apply Z.pow_lt_mono_r; lia).
  split; simpl; [lia|]. apply lor_range; [lia|lia|]. apply Z.mod_pos_bound. lia.
Qed.

Lemma val_shiftr2 x k : elt_ok x -> 0 < k < 64 -> val (shiftr2 x k) = val x ≫ k.
Proof.
  intros Hx Hk. destruct Hx as [Hl Hh] eqn:E. clear E.
  apply Z.bits_inj'. intros i Hi.
  rewrite val_testbit by (lia || by apply shiftr2_ok).
  rewrite Z.shiftr_spec, val_testbit by lia. unfold shiftr2; simpl.
  destruct (Z.ltb_spec i 64), (Z.ltb_spec (i + k) 64); try lia.
  - rewrite Z.lor_spec, u64_testbit, Z.shiftr_spec by lia.
    rewrite Z.shiftl_spec_low by lia. by rewrite andb_false_r, orb_false_r.
  - rewrite Z.lor_spec, u64_testbit, Z.shiftr_spec, (testbit_high (high x) 64) by lia.
    rewrite (proj2 (Z.ltb_lt i 64)), Z.shiftl_spec by lia. simpl. f_equal. lia.
  - rewrite Z.shiftr_spec by lia. f_equal. lia.
Qed.

Lemma elt_ok_xor_low l c h : elt_ok (mkElt l h) -> is_u64 c -> elt_ok (mkElt (l ⊕ c) h).
Proof. intros [? ?] ?. split; simpl in *; [by apply lxor_range|done]. Qed.

Lemma elt_ok_add x y : elt_ok x -> elt_ok y -> elt_ok (ghashAdd x y).
Proof. intros [? ?] [? ?]. split; by apply lxor_range. Qed.

(** [ghashDouble] multiplies by x. *)
Lemma ghashDouble_spec x : elt_ok x ->
  elt_ok (ghashDouble x) /\ val (ghashDouble x) = mulx (val x).
Proof.
  intros Hx.
  pose proof (val_shiftr2 x 1 Hx ltac:(lia)) as Hv.
  pose proof (shiftr2_ok x 1 Hx ltac:(lia)) as Ho.
  unfold shiftr2 in Hv, Ho. change (64 - 1) with 63 in Hv, Ho.
  assert (Hb : (high x &&& 1 =? 1) = Z.odd (val x)).
  { rewrite <- Z.bit0_odd, val_testbit by (lia || apply Hx).
    change (0 <? 64) with true. cbv iota. rewrite Z.bit0_odd. change 1 with (Z.ones 1) at 1. rewrite Z.land_ones by lia.
    change (2 ^ 1) with 2. rewrite Zmod_odd. by destruct (Z.odd (high x)). }
  unfold ghashDouble, mulx. rewrite Hb. destruct (Z.odd (val x)).
  - split; [by apply elt_ok_xor_low|]. rewrite val_xor_low, Hv. done.
  - done.
Qed.

(** One step of [ghashMul]: multiply by x^4 and add a table entry. *)
Lemma ghashMul_step_spec pt z word :
  elt_ok z -> elt_ok (elt_at pt (word &&& 0xf)) ->
  exists z', ghashMul_step pt (z, word) = (z', word ≫ 4) /\ elt_ok z' /\
    val z' = mulx4 (val z) ⊕ val (elt_at pt (word &&& 0xf)).
Proof.
  intros Hz Ht. eexists. split; [reflexivity|].
  pose proof (val_shiftr2 z 4 Hz ltac:(lia)) as Hv.
  pose proof (shiftr2_ok z 4 Hz ltac:(lia)) as Ho.
  unfold shiftr2 in Hv, Ho. change (64 - 4) with 60 in Hv, Ho.
  set (r := nth (Z.to_nat (high z &&& 0xf)) ghashReductionTable 0).
  assert (Hr : 0 <= r < 2 ^ 16)
    by (apply reduction_table_range, land15_range, Hz).
  assert (Hr64 : is_u64 (r ≪ 48)) by (rewrite Z.shiftl_mul_pow2 by lia; lia).
  pose proof (elt_ok_xor_low _ (r ≪ 48) _ Ho Hr64) as Ho'.
  split; [by apply (elt_ok_add (mkElt _ _))|].
  transitivity (val (ghashAdd (mkElt ((low z ≫ 4) ⊕ (r ≪ 48))
    ((high z ≫ 4) ||| u64 (low z ≪ 60))) (elt_at pt (word &&& 0xf)))); [done|].
  rewrite val_add. f_equal. rewrite val_xor_low, Hv, mulx4_reduce by (by apply val_nonneg).
  rewrite Z.shiftl_shiftl by lia. f_equal. f_equal. unfold r. do 2 f_equal.
  apply Z.bits_inj'. intros i Hi. rewrite !Z.land_spec, val_testbit by (done || apply Hz).
  destruct (Z.ltb_spec i 64); [done|]. change 0xf with (Z.ones 4).
  rewrite Z.ones_spec_high by lia. by rewrite !andb_false_r.
Qed.

(** ** The 4-bit multiplication is the bit-serial one *)

Lemma horner_ext n X X' v :
  (forall i, 0 <= i < Z.of_nat n -> Z.testbit X i = Z.testbit X' i) -> horner n X v = horner n X' v.
Proof.
  induction n as [|n IH]; intros H; [done|]. cbn [horner].
  rewrite IH by (intros; apply H; lia). by rewrite H by lia.
Qed.

Lemma horner_split m k X v :
  horner (m + k) X v = Nat.iter k mulx (horner m X v) ⊕ horner k (X ≫ Z.of_nat m) v.
Proof.
  induction k as [|k IH].
  - rewrite Nat.add_0_r. cbn. by rewrite Z.lxor_0_r.
  - rewrite Nat.add_succ_r. cbn [horner Nat.iter]. rewrite IH, mulx_lxor.
    rewrite Z.shiftr_spec, (Z.add_comm (Z.of_nat k)), <- Nat2Z.inj_add by lia.
    rewrite <- !Z.lxor_assoc. f_equal. apply Z.lxor_comm.
Qed.

(** What the product table of [V] holds. *)
Definition table_ok (pt : list gcmFieldElement) (V : Z) : Prop :=
  forall n, 0 <= n < 16 -> elt_ok (elt_at pt n) /\ val (elt_at pt n) = horner 4 n V.

Lemma ghashMul_word_spec pt V z w X m :
  table_ok pt V -> elt_ok z -> is_u64 w -> val z = horner m X V ->
  (forall i, 0 <= i < 64 -> Z.testbit w i = Z.testbit X (Z.of_nat m + i)) ->
  elt_ok (ghashMul_word pt z w) /\ val (ghashMul_word pt z w) = horner (m + 64) X V.
Proof.
  intros Hpt Hz Hw Hv HX. unfold ghashMul_word.
  assert (H : exists z', for_range 0 16 (fun _ => ghashMul_step pt) (z, w) = (z', w ≫ 64) /\
     elt_ok z' /\ val z' = horner (m + 64) X V).
  2: { destruct H as (z' & -> & H). done. }
  apply (for_range_ind (fun j zw => exists z', zw = (z', w ≫ (4 * Z.of_nat j)) /\
     elt_ok z' /\ val z' = horner (m + 4 * j) X V)); [lia| |].
  - exists z. rewrite Nat.add_0_r. by rewrite Z.shiftr_0_r.
  - intros j zw Hj (z1 & -> & Hz1 & Hv1).
    set (n := (w ≫ (4 * Z.of_nat j)) &&& 0xf).
    assert (Hn : 0 <= n < 16) by (apply land15_range, Z.shiftr_nonneg; lia).
    destruct (Hpt n Hn) as [Hto Htv].
    destruct (ghashMul_step_spec pt z1 (w ≫ (4 * Z.of_nat j)) Hz1 Hto) as (z2 & -> & Hz2 & Hv2).
    exists z2. split; [|split; [done|]].
    { rewrite Z.shiftr_shiftr by lia. do 2 f_equal. lia. }
    rewrite Hv2, Hv1. fold n. rewrite Htv.
    replace (m + 4 * S j)%nat with (m + 4 * j + 4)%nat by lia.
    rewrite (horner_split (m + 4 * j) 4). unfold mulx4. cbn [Nat.iter]. f_equal.
    apply horner_ext. intros i Hi. unfold n.
    rewrite Z.land_spec, !Z.shiftr_spec by lia. change 0xf with (Z.ones 4).
    rewrite Z.ones_spec_low, andb_true_r, HX by lia. f_equal. lia.
Qed.

Lemma ghashMul_spec pt V y :
  table_ok pt V -> elt_ok y ->
  elt_ok (ghashMul pt y) /\ val (ghashMul pt y) = nist_mul (val y) V.
Proof.
  intros Hpt [Hl Hh]. unfold ghashMul.
  destruct (ghashMul_word_spec pt V zeroElt (high y) (val y) 0) as [Hz Hv];
    [exact Hpt|by split|exact Hh|reflexivity| |].
  { intros i Hi. rewrite val_testbit by (done || lia).
    rewrite (proj2 (Z.ltb_lt _ 64)) by lia. reflexivity. }
  revert Hz Hv. generalize (ghashMul_word pt zeroElt (high y)). intros z1 Hz Hv. change (0 + 64)%nat with 64%nat in Hv.
  destruct (ghashMul_word_spec pt V z1 (low y) (val y) 64) as [Hz' Hv'];
    [exact Hpt|exact Hz|exact Hl|exact Hv| |].
  { intros i Hi. rewrite val_testbit by (done || lia).
    rewrite (proj2 (Z.ltb_ge _ 64)) by lia. f_equal. lia. }
  split; [exact Hz'|]. rewrite Hv', nist_mul_horner. reflexivity.
Qed.

(** ** The product table *)

(** The construction of the table, with doubling and addition abstract. *)
Lemma table_symbolic (dbl : gcmFieldElement -> gcmFieldElement)
    (add : gcmFieldElement -> gcmFieldElement -> gcmFieldElement) x :
  let at_ t i := elt_at t (reverseBits i) in
  let put t i v := <[Z.to_nat (reverseBits i) := v]> t in
  for_range 1 8 (fun m t =>
    let i := 2 * Z.of_nat m in
    let t := put t i (dbl (at_ t (i / 2))) in
    put t (i + 1) (add (at_ t i) x)) (put (replicate 16 zeroElt) 1 x) =
  let m2 := dbl x in let m3 := add m2 x in
  let m4 := dbl m2 in let m5 := add m4 x in
  let m6 := dbl m3 in let m7 := add m6 x in
  let m8 := dbl m4 in let m10 := dbl m5 in let m12 := dbl m6 in let m14 := dbl m7 in
  [zeroElt; m8; m4; m12; m2; m10; m6; m14; x; add m8 x; m5; add m12 x; m3; add m10 x; m7;
   add m14 x].
Proof. vm_compute. reflexivity. Qed.

(** Evaluate the bits of literals and normalise the sums of multiples. *)
Ltac horner_norm :=
  cbn [horner];
  repeat match goal with
  | |- context [Z.testbit ?a ?b] =>
      let v := eval vm_compute in (Z.testbit a b) in change (Z.testbit a b) with v
  end;
  cbv iota;
  repeat (rewrite ?mulx_lxor, ?mulx_0, ?Z.lxor_0_r, ?Z.lxor_0_l).

(** [e] is entry [n] of the table of [V]. *)
Definition entry_ok (V n : Z) (e : gcmFieldElement) : Prop := elt_ok e /\ val e = horner 4 n V.

Lemma entry_dbl V n n' e : entry_ok V n e -> horner 4 n' V = mulx (horner 4 n V) ->
  entry_ok V n' (ghashDouble e).
Proof.
  intros [Ho Hv] Hn. destruct (ghashDouble_spec e Ho) as [Ho' Hv'].
  split; [done|]. by rewrite Hv', Hv, Hn.
Qed.

Lemma entry_add V n n' e x : entry_ok V n e -> elt_ok x -> val x = V ->
  horner 4 n' V = horner 4 n V ⊕ V -> entry_ok V n' (ghashAdd e x).
Proof.
  intros [Ho Hv] Hx HV Hn. split; [by apply elt_ok_add|]. by rewrite val_add, Hv, HV, Hn.
Qed.

Lemma productTable_spec H x :
  x = mkElt (Uint64 (take 8 H)) (Uint64 (drop 8 H)) -> elt_ok x ->
  table_ok (productTable_of H) (val x).
Proof.
  intros Ex Hx. unfold productTable_of. cbv zeta. rewrite <- Ex.
  pose proof (table_symbolic ghashDouble ghashAdd x) as Ht. cbv zeta in Ht. rewrite Ht. clear Ht Ex.
  set (V := val x). assert (HV : val x = V) by done.
  assert (E1 : entry_ok V 8 x) by (split; [done|]; horner_norm; done).
  pose proof (fun n n' e He => entry_dbl V n n' e He) as D.
  pose proof (fun n n' e He => entry_add V n n' e x He Hx HV) as A.
  assert (E2 : entry_ok V 4 (ghashDouble x)) by (apply (D 8); [done|]; horner_norm; done).
  assert (E3 : entry_ok V 12 (ghashAdd (ghashDouble x) x))
    by (apply (A 4); [done|]; horner_norm; xor_solve).
  revert E2 E3. generalize (ghashDouble x). intros m2 E2.
  generalize (ghashAdd m2 x). intros m3 E3.
  pose proof (D 4 2 m2 E2 ltac:(horner_norm; done)) as E4.
  revert E4. generalize (ghashDouble m2). intros m4 E4.
  pose proof (A 2 10 m4 E4 ltac:(horner_norm; xor_solve)) as E5.
  pose proof (D 12 6 m3 E3 ltac:(horner_norm; done)) as E6.
  revert E5 E6. generalize (ghashAdd m4 x), (ghashDouble m3). intros m5 m6 E5 E6.
  pose proof (A 6 14 m6 E6 ltac:(horner_norm; xor_solve)) as E7.
  pose proof (D 2 1 m4 E4 ltac:(horner_norm; done)) as E8.
  pose proof (D 10 5 m5 E5 ltac:(horner_norm; done)) as E10.
  pose proof (D 6 3 m6 E6 ltac:(horner_norm; done)) as E12.
  revert E7 E8 E10 E12.
  generalize (ghashAdd m6 x), (ghashDouble m4), (ghashDouble m5), (ghashDouble m6).
  intros m7 m8 m10 m12 E7 E8 E10 E12.
  pose proof (D 14 7 m7 E7 ltac:(horner_norm; done)) as E14.
  revert E14. generalize (ghashDouble m7). intros m14 E14.
  pose proof (A 1 9 m8 E8 ltac:(horner_norm; xor_solve)) as E9.
  pose proof (A 5 13 m10 E10 ltac:(horner_norm; xor_solve)) as E13.
  pose proof (A 3 11 m12 E12 ltac:(horner_norm; xor_solve)) as E11.
  pose proof (A 7 15 m14 E14 ltac:(horner_norm; xor_solve)) as E15.
  assert (E0 : entry_ok V 0 zeroElt) by (split; [by split|]; horner_norm; done).
  intros n Hn. assert (Hc : exists k, n = Z.of_nat k /\ (k < 16)%nat) by (exists (Z.to_nat n); lia).
  destruct Hc as (k & -> & Hk).
  do 16 (destruct k as [|k]; [assumption|]). lia.
Qed.

(** ** Absorbing bytes *)

Lemma val_add_mul x : is_u64 (high x) -> val x = low x * 2 ^ 64 + high x.
Proof.
  intros H. rewrite <- lor_shiftl_add by lia. unfold val. apply Z.lxor_lor.
  apply Z.bits_inj'. intros i Hi. rewrite Z.land_spec, Z.testbit_0_l.
  destruct (decide (i < 64)).
  - by rewrite Z.shiftl_spec_low by lia.
  - rewrite (testbit_high (high x) 64) by lia. apply andb_false_r.
Qed.

Lemma Uint64_ok b : bytes_ok b -> is_u64 (Uint64 b).
Proof.
  intros H. unfold Uint64.
  pose proof (be_get_range (take 8 b) (Forall_take _ _ _ H)) as Hr.
  rewrite length_take in Hr. split; [apply Hr|].
  apply Z.lt_le_trans with (1 := proj2 Hr). change (2 ^ 64) with (256 ^ 8).
  apply Z.pow_le_mono_r; lia.
Qed.

Lemma block_val b : bytes_ok b -> (16 <= length b)%nat ->
  elt_ok (mkElt (Uint64 b) (Uint64 (drop 8 b))) /\
  val (mkElt (Uint64 b) (Uint64 (drop 8 b))) = be_get (take 16 b).
Proof.
  intros Hb Hl.
  assert (Ho : elt_ok (mkElt (Uint64 b) (Uint64 (drop 8 b))))
    by (split; apply Uint64_ok; [done|by apply Forall_drop]).
  split; [done|]. rewrite val_add_mul by apply Ho. simpl.
  replace (take 16 b) with (take 8 b ++ take 8 (drop 8 b))
    by apply (take_take_drop b 8 8).
  rewrite be_get_app, length_take, length_drop.
  replace (8 `min` (length b - 8))%nat with 8%nat by lia. done.
Qed.

Lemma pad_blocks_fuel_enough f b : (length b <= f)%nat -> pad_blocks_fuel f b = pad_blocks b.
Proof.
  unfold pad_blocks. revert f b.
  assert (H : forall n f g b, (length b <= n)%nat -> (length b <= f)%nat -> (length b <= g)%nat ->
            pad_blocks_fuel f b = pad_blocks_fuel g b).
  { induction n as [|n IH]; intros f g b Hn Hf Hg.
    - destruct b; [by destruct f, g|simpl in Hn; lia].
    - destruct b as [|x b]; [by destruct f, g|].
      destruct f as [|f], g as [|g]; [simpl in *; lia..|].
      cbn [pad_blocks_fuel]. f_equal.
      apply IH; rewrite length_drop; simpl in *; lia. }
  intros f b Hf. by apply (H (length b)).
Qed.

Lemma pad_blocks_cons b : b <> [] ->
  pad_blocks b = be_get (take 16 b ++ replicate (16 - length (take 16 b)) 0) :: pad_blocks (drop 16 b).
Proof.
  intros Hb. destruct b as [|x b]; [done|]. unfold pad_blocks at 1. cbn [length pad_blocks_fuel].
  f_equal. apply pad_blocks_fuel_enough. rewrite length_drop. simpl. lia.
Qed.

Lemma pad_blocks_full b : (16 <= length b)%nat ->
  pad_blocks b = be_get (take 16 b) :: pad_blocks (drop 16 b).
Proof.
  intros Hb. rewrite pad_blocks_cons by (destruct b; simpl in Hb; [lia|done]).
  rewrite length_take_le by done. by rewrite app_nil_r.
Qed.

Lemma pad_blocks_short b : b <> [] -> (length b < 16)%nat ->
  pad_blocks b = [be_get (b ++ replicate (16 - length b) 0)].
Proof.
  intros Hb Hl. rewrite pad_blocks_cons by done. rewrite take_ge by lia.
  by rewrite drop_ge by lia.
Qed.

Lemma pad_blocks_app a b n : length a = (16 * n)%nat ->
  pad_blocks (a ++ b) = pad_blocks a ++ pad_blocks b.
Proof.
  revert a. induction n as [|n IH]; intros a Ha.
  - by destruct a.
  - rewrite !(pad_blocks_full (_ ++ _)), !(pad_blocks_full a) by (rewrite ?length_app; lia).
    rewrite take_app_le, drop_app_le, IH by (rewrite ?length_drop; lia). done.
Qed.

Lemma nist_ghash_cons H x b y :
  nist_ghash H (x :: b) y = nist_ghash H b (nist_mul (y ⊕ x) H).
Proof. exact (fold_left_cons (fun y x => nist_mul (y ⊕ x) H) x b y). Qed.

Lemma nist_ghash_app H a b y : nist_ghash H (a ++ b) y = nist_ghash H b (nist_ghash H a y).
Proof. apply fold_left_app. Qed.

Section absorb.
Context (pt : list gcmFieldElement) (V : Z) (Hpt : table_ok pt V).

(** [absorbs m blocks]: the computation [m y] absorbs [blocks] into [y]. *)
Definition absorbs {E} (m : gcmFieldElement -> outcome E gcmFieldElement) (blocks : list Z) : Prop :=
  forall y, elt_ok y ->
    exists y', m y = Ret y' /\ elt_ok y' /\ val y' = nist_ghash V blocks (val y).

Lemma absorbs_seq {E} (m m' : gcmFieldElement -> outcome E gcmFieldElement) a b :
  absorbs m a -> absorbs m' b -> absorbs (fun y => obind (m y) m') (a ++ b).
Proof.
  intros Hm Hm' y Hy. destruct (Hm y Hy) as (y1 & E1 & Ho1 & Hv1).
  destruct (Hm' y1 Ho1) as (y2 & E2 & Ho2 & Hv2). exists y2.
  rewrite E1. cbn [obind]. split; [done|]. split; [done|].
  by rewrite nist_ghash_app, <- Hv1.
Qed.

Lemma updateBlocks_loop_spec {E} n fuel blocks :
  bytes_ok blocks -> length blocks = (16 * n)%nat -> (n <= fuel)%nat ->
  absorbs (E:=E) (fun y => updateBlocks_loop fuel pt y blocks) (pad_blocks blocks).
Proof.
  revert fuel blocks. induction n as [|n IH]; intros fuel blocks Hb Hl Hf y Hy.
  - destruct blocks; [|simpl in Hl; lia]. exists y. by destruct fuel.
  - destruct fuel as [|fuel]; [lia|]. cbn [updateBlocks_loop].
    rewrite (proj2 (Nat.eqb_neq _ _)), (proj2 (Nat.ltb_ge _ _)) by lia.
    destruct (block_val blocks Hb ltac:(lia)) as [Hbo Hbv].
    pose proof (elt_ok_add _ _ Hy Hbo) as Ho. 
    pose proof (val_add y (mkElt (Uint64 blocks) (Uint64 (drop 8 blocks)))) as Hv.
    change (mkElt (low y ⊕ Uint64 blocks) (high y ⊕ Uint64 (drop 8 blocks)))
      with (ghashAdd y (mkElt (Uint64 blocks) (Uint64 (drop 8 blocks)))).
    destruct (ghashMul_spec pt V _ Hpt Ho) as [Hmo Hmv].
    destruct (IH fuel (drop gcmBlockSize blocks) (Forall_drop _ _ _ Hb)
                ltac:(rewrite length_drop; unfold gcmBlockSize; lia) ltac:(lia) _ Hmo)
      as (y' & -> & Ho' & Hv').
    exists y'. split; [done|]. split; [done|].
    rewrite Hv', Hmv, Hv, Hbv, (pad_blocks_full blocks), nist_ghash_cons by lia. reflexivity.
Qed.

Lemma updateBlocks_spec {E} n blocks :
  bytes_ok blocks -> length blocks = (16 * n)%nat ->
  absorbs (E:=E) (fun y => updateBlocks pt y blocks) (pad_blocks blocks).
Proof. intros. apply (updateBlocks_loop_spec n); [done|done|lia]. Qed.

Lemma ghashUpdate_spec {E} d : bytes_ok d ->
  absorbs (E:=E) (fun y => ghashUpdate pt y d) (pad_blocks d).
Proof.
  intros Hd. unfold ghashUpdate.
  assert (Hfull : Z.to_nat ((Z.of_nat (length d) ≫ 4) ≪ 4) = (16 * (length d / 16))%nat).
  { rewrite Z.shiftl_mul_pow2, Z.shiftr_div_pow2 by lia.
    rewrite Z.mul_comm, Z2Nat.inj_mul by (try apply Z.div_pos; lia).
    f_equal. rewrite Z2Nat.inj_div by lia. by rewrite Nat2Z.id. }
  rewrite Hfull. set (n := (length d / 16)%nat).
  assert (Hn : (16 * n <= length d < 16 * n + 16)%nat).
  { pose proof (Nat.div_mod_eq (length d) 16). pose proof (Nat.mod_upper_bound (length d) 16).
    fold n in H. lia. }
  assert (Htl : length (take (16 * n) d) = (16 * n)%nat) by (apply length_take_le; lia).
  assert (Hpad : pad_blocks d = pad_blocks (take (16 * n) d) ++ pad_blocks (drop (16 * n) d))
    by (rewrite <- (pad_blocks_app _ _ n), take_drop; done).
  rewrite Hpad. clear Hpad.
  apply (absorbs_seq (fun y => updateBlocks pt y (take (16 * n) d))).
  { apply (updateBlocks_spec n); [by apply Forall_take|done]. }
  destruct (length d =? 16 * n)%nat eqn:El; simpl negb; cbv iota.
  - apply Nat.eqb_eq in El. rewrite drop_ge by lia. intros y Hy. by exists y.
  - apply Nat.eqb_neq in El.
    assert (Hdl : length (drop (16 * n) d) = (length d - 16 * n)%nat) by apply length_drop.
    rewrite (take_ge (drop _ _)) by (rewrite Hdl; unfold gcmBlockSize; lia).
    set (rest := drop (16 * n) d) in *.
    assert (Hr : bytes_ok rest) by by apply Forall_drop.
    rewrite pad_blocks_short by (try lia; intros ->; simpl in Hdl; lia).
    assert (Hpl : length (rest ++ replicate (gcmBlockSize - length rest) 0) = (16 * 1)%nat)
      by (rewrite length_app, length_replicate; unfold gcmBlockSize; lia).
    pose proof (updateBlocks_spec (E:=E) 1 (rest ++ replicate (gcmBlockSize - length rest) 0)) as Hu.
    rewrite (pad_blocks_full (rest ++ _)), take_ge, drop_ge in Hu by lia.
    apply Hu; [|done]. apply Forall_app. split; [done|]. apply Forall_replicate. done.
Qed.
End absorb.

Lemma ghash_inputs_spec {E} pt V inputs :
  table_ok pt V -> Forall (fun d => bytes_ok d) inputs ->
  absorbs V (E:=E) (fun y => ghash_inputs pt y inputs) (concat (pad_blocks <$> inputs)).
Proof.
  intros Hpt. induction 1 as [|d inputs Hd _ IH].
  - intros y Hy. by exists y.
  - apply (absorbs_seq V (fun y => ghashUpdate pt y d)); [|done].
    by apply ghashUpdate_spec.
Qed.

Lemma ghash_is_nist_lemma {E} (H : bytes) (inputs : list bytes) :
  bytes_ok H -> length H = 16%nat -> Forall (fun d => bytes_ok d) inputs ->
  ghash (E:=E) H inputs = Ret (nist_GHASH H inputs).
Proof.
  intros HH Hl Hin. unfold ghash.
  destruct (block_val H HH ltac:(lia)) as [Hxo Hxv].
  set (x := mkElt (Uint64 H) (Uint64 (drop 8 H))) in *.
  assert (Ex : x = mkElt (Uint64 (take 8 H)) (Uint64 (drop 8 H))).
  { unfold x, Uint64. by rewrite take_take. }
  rewrite take_ge in Hxv by lia.
  pose proof (productTable_spec H x Ex Hxo) as Hpt. rewrite Hxv in Hpt.
  destruct (ghash_inputs_spec (E:=E) _ _ inputs Hpt Hin zeroElt ltac:(by split))
    as (y' & -> & Ho & Hv). cbn [obind].
  change (val zeroElt) with 0 in Hv.
  unfold nist_GHASH. rewrite <- Hv, val_add_mul by apply Ho.
  do 1 f_equal. apply (be_put_app 8 8); apply Ho.
Qed.

(** The 4-bit-table GHASH of the code is the GHASH of NIST SP 800-38D, on
    any key block and any inputs (each padded to a block boundary), and it
    never reads out of range. *)
Theorem ghash_is_nist (E : Type) (H : bytes) (inputs : list bytes) :
  bytes_ok H -> length H = 16%nat -> Forall (fun d => bytes_ok d) inputs ->
  ghash (E:=E) H inputs = Ret (nist_GHASH H inputs).
Proof. apply ghash_is_nist_lemma. Qed.

(** SP 800-38D, via the GCM test case 2 of the AES-GCM proposal: the hash key
    is AES-128 of zero under the zero key. *)
Lemma ghash_is_nist_witness :
  let H := be_put 16 0x66e94bd4ef8a2c3b884cfa59ca342b2e in
  let C := be_put 16 0x0388dace60b6a392f328c2b971b2fe78 in
  let L := be_put 16 128 in
  ghash (E:=unit) H [[]; C; L] = Ret (nist_GHASH H [[]; C; L]) /\
  ghash (E:=unit) H [[]; C; L] = Ret (be_put 16 0xf38cbb1ad69223dcc3457ae5b6b0f885).
Proof.
  split; [|vm_compute; reflexivity].
  apply ghash_is_nist; [compute_decide|reflexivity|compute_decide].
Defined.
