(* ===== verification/Gcm.v ===== *)
(** * gcm/gcm.go, gcm/gcm_generic.go, gcm/gcm_noasm.go: AES-GCM

    The counter mode, the authentication tag, [Seal] and [Open] with every
    guard, panic and error.  Buffers are [Slice]s where the code tests them
    for overlap and byte lists elsewhere; a function that writes a buffer
    returns its new contents.  [alloc] is the address [make] returns when
    [sliceForAppend] has to allocate. *)

From S2P Require Import Prelude Alias Aes Ghash.

Open Scope go_scope.

Definition gcmTagSize : Z := 16.
Definition gcmMinimumTagSize : Z := 12.
Definition gcmStandardNonceSize : Z := 12.

Record GCM := mkGCM {
  cipher : blockExpanded;
  nonceSize : Z;
  tagSize : Z
}.

Inductive gcm_error :=
| errTagSize        (* cipher: incorrect tag size given to GCM *)
| errNonceSize      (* cipher: the nonce can't have zero length *)
| errBlockSize      (* cipher: NewGCM requires 128-bit block cipher *)
| errOpen.          (* cipher: message authentication failed *)

Definition newGCM (cipher : blockExpanded) (nonceSize tagSize : Z) : outcome gcm_error GCM :=
  if (tagSize <? gcmMinimumTagSize) || (Z.of_nat gcmBlockSize <? tagSize) then Err errTagSize
  else if nonceSize <=? 0 then Err errNonceSize
  else if negb (aes_BlockSize =? gcmBlockSize)%nat then Err errBlockSize
  else Ret {| cipher := cipher; nonceSize := nonceSize; tagSize := tagSize |}.

Definition gcm_New (cipher : blockExpanded) (nonceSize tagSize : Z) : outcome gcm_error GCM :=
  newGCM cipher nonceSize tagSize.

Definition NonceSize (g : GCM) : Z := nonceSize g.
Definition Overhead (g : GCM) : Z := tagSize g.

(** ** Standard library: [crypto/subtle] and [copy] *)

Definition XORBytes {E} (dst x y : bytes) : outcome E bytes :=
  let n := min (length x) (length y) in
  if (length dst <? n)%nat then Panic "subtle.XORBytes: dst too short"
  else Ret (zip_with Z.lxor (take n x) (take n y) ++ drop n dst).

Definition ConstantTimeCompare (x y : bytes) : Z :=
  if bool_decide (x = y) then 1 else 0.

(** [copy(dst, src)] *)
Definition copy (dst src : bytes) : bytes :=
  let n := min (length dst) (length src) in take n src ++ drop n dst.

(** ** Counter mode *)

Definition zeroBlock16 : bytes := replicate gcmBlockSize 0.

Definition gcmInc32 (counterBlock : bytes) : bytes :=
  let i := (length counterBlock - 4)%nat in
  let ctr := drop i counterBlock in
  take i counterBlock ++ PutUint32 (u32 (Uint32 ctr + 1)).

(** The loop and the final partial block: the new contents of [out] and of
    [counter].  Every iteration consumes 16 bytes of [src]. *)
Fixpoint gcmCounterCrypt_loop {E} (fuel : nat) (b : blockExpanded) (out src counter : bytes)
  : outcome E (bytes * bytes) :=
  if (gcmBlockSize <=? length src)%nat then
    match fuel with
    | O => Panic "out of fuel"
    | S fuel =>
        let! mask := EncryptBlockInternal b zeroBlock16 counter in
        let counter := gcmInc32 counter in
        let! out := XORBytes out src mask in
        if (length out <? gcmBlockSize)%nat then Panic index_out_of_range else
        let! (rest, counter) :=
          gcmCounterCrypt_loop fuel b (drop gcmBlockSize out) (drop gcmBlockSize src) counter in
        Ret (take gcmBlockSize out ++ rest, counter)
    end
  else if (0 <? length src)%nat then
    let! mask := EncryptBlockInternal b zeroBlock16 counter in
    let counter := gcmInc32 counter in
    let! out := XORBytes out src mask in
    Ret (out, counter)
  else Ret (out, counter).

Definition gcmCounterCryptGeneric {E} (b : blockExpanded) (out src counter : bytes)
  : outcome E (bytes * bytes) :=
  gcmCounterCrypt_loop (length src) b out src counter.

(** The new contents of [counter], which is all zeros on entry. *)
Definition deriveCounterGeneric {E} (H counter nonce : bytes) : outcome E bytes :=
  if Z.of_nat (length nonce) =? gcmStandardNonceSize then
    Ret (<[(gcmBlockSize - 1)%nat := 1]> (copy counter nonce))
  else
    let lenBlock := replicate 8 0 ++ PutUint64 (u64 (Z.of_nat (length nonce) * 8)) in
    ghash H [nonce; lenBlock].

Definition gcmAuthGeneric {E} (out H tagMask ciphertext additionalData : bytes) : outcome E bytes :=
  let lenBlock := PutUint64 (u64 (Z.of_nat (length additionalData) * 8))
                  ++ PutUint64 (u64 (Z.of_nat (length ciphertext) * 8)) in
  let! digest := ghash H [additionalData; ciphertext; lenBlock] in
  XORBytes out digest tagMask.

(** ** Sealing and opening *)

(** [H], [counter] and [tagMask] as both directions compute them, with the
    counter already advanced past the tag mask. *)
Definition setup_counter {E} (g : GCM) (nonce : bytes) : outcome E (bytes * bytes * bytes) :=
  let! H := EncryptBlockInternal (cipher g) zeroBlock16 zeroBlock16 in
  let! counter := deriveCounterGeneric H zeroBlock16 nonce in
  let! (tagMask, counter) := gcmCounterCryptGeneric (cipher g) zeroBlock16 zeroBlock16 counter in
  Ret (H, tagMask, counter).

(** The new contents of [out]. *)
Definition sealGeneric {E} (out : bytes) (g : GCM) (nonce plaintext additionalData : bytes)
  : outcome E bytes :=
  let! (H, tagMask, counter) := setup_counter g nonce in
  let! (out, _) := gcmCounterCryptGeneric (cipher g) out plaintext counter in
  if (length out <? length plaintext)%nat then Panic index_out_of_range else
  let! tag := gcmAuthGeneric zeroBlock16 H tagMask (take (length plaintext) out) additionalData in
  Ret (take (length plaintext) out ++ copy (drop (length plaintext) out) tag).

Definition seal {E} := @sealGeneric E.

Definition openGeneric (out : bytes) (g : GCM) (nonce ciphertext additionalData : bytes)
  : outcome gcm_error bytes :=
  let! (H, tagMask, counter) := setup_counter g nonce in
  let n := Z.of_nat (length ciphertext) - tagSize g in
  if n <? 0 then Panic index_out_of_range else
  let tag := drop (Z.to_nat n) ciphertext in
  let ciphertext := take (Z.to_nat n) ciphertext in
  let! expectedTag := gcmAuthGeneric zeroBlock16 H tagMask ciphertext additionalData in
  if negb (ConstantTimeCompare (take (Z.to_nat (tagSize g)) expectedTag) tag =? 1) then Err errOpen
  else
    let! (out, _) := gcmCounterCryptGeneric (cipher g) out ciphertext counter in
    Ret out.

Definition open := openGeneric.

(** [sliceForAppend]: the head is [in] extended by [n] bytes, in place when
    the capacity suffices and in fresh zeroed memory otherwise. *)
Definition sliceForAppend (alloc : Z) (in_ : Slice) (n : nat) : Slice * Slice :=
  let total := (length (data in_) + n)%nat in
  let head :=
    if (total <=? scap in_)%nat
    then {| ptr := ptr in_; data := data in_ ++ take n (spare in_); spare := drop n (spare in_) |}
    else {| ptr := alloc; data := copy (replicate total 0) (data in_); spare := [] |} in
  let tail := {| ptr := ptr head + slen in_; data := drop (length (data in_)) (data head);
                 spare := spare head |} in
  (head, tail).

(** The longest message: [((1<<32)-2)*gcmBlockSize]. *)
Definition gcmMaxPlaintext : Z := (2 ^ 32 - 2) * 16.

(** [Seal]: the contents of the returned slice. *)
Definition sealAfterIndicator {E} (alloc : Z) (g : GCM) (dst : Slice) (nonce : bytes)
    (plaintext additionalData : Slice) : outcome E bytes :=
  if negb (Z.of_nat (length nonce) =? nonceSize g) then
    Panic "crypto/cipher: incorrect nonce length given to GCM"
  else if nonceSize g =? 0 then Panic "crypto/cipher: incorrect GCM nonce size"
  else if gcmMaxPlaintext <? slen plaintext then Panic "crypto/cipher: message too large for GCM"
  else
    let '(ret, out) := sliceForAppend alloc dst (length (data plaintext) + Z.to_nat (tagSize g)) in
    if InexactOverlap out plaintext then
      Panic "crypto/cipher: invalid buffer overlap of output and input"
    else if AnyOverlap out additionalData then
      Panic "crypto/cipher: invalid buffer overlap of output and additional data"
    else
      let! out' := seal (data out) g nonce (data plaintext) (data additionalData) in
      Ret (take (length (data dst)) (data ret) ++ out').

Definition Seal {E} := @sealAfterIndicator E.

(** [Open]: the result, and the contents of the output buffer afterwards when
    it was reached ([clear(out)] zeroes it on a failed authentication). *)
Definition Open (alloc : Z) (g : GCM) (dst : Slice) (nonce : bytes)
    (ciphertext additionalData : Slice) : outcome gcm_error bytes * option bytes :=
  if negb (Z.of_nat (length nonce) =? nonceSize g) then
    (Panic "crypto/cipher: incorrect nonce length given to GCM", None)
  else if tagSize g <? gcmMinimumTagSize then
    (Panic "crypto/cipher: incorrect GCM tag size", None)
  else if slen ciphertext <? tagSize g then (Err errOpen, None)
  else if gcmMaxPlaintext + tagSize g <? slen ciphertext then (Err errOpen, None)
  else
    let '(ret, out) :=
      sliceForAppend alloc dst (Z.to_nat (slen ciphertext - tagSize g)) in
    if InexactOverlap out ciphertext then
      (Panic "crypto/cipher: invalid buffer overlap of output and input", None)
    else if AnyOverlap out additionalData then
      (Panic "crypto/cipher: invalid buffer overlap of output and additional data", None)
    else
      match open (data out) g nonce (data ciphertext) (data additionalData) with
      | Ret out' => (Ret (take (length (data dst)) (data ret) ++ out'), Some out')
      | Err e => (Err e, Some (replicate (length (data out)) 0))
      | Panic w => (Panic w, None)
      end.

(** ** Test case 4 of the GCM specification (AES-128, with additional data) *)

Definition of_hex (n : nat) (v : Z) : bytes := be_put n v.
Definition tc4_key : bytes := of_hex 16 0xfeffe9928665731c6d6a8f9467308308.
Definition tc4_nonce : bytes := of_hex 12 0xcafebabefacedbaddecaf888.
Definition tc4_plain : bytes := of_hex 60
  0xd9313225f88406e5a55909c5aff5269a86a7a9531534f7da2e4c303d8a318a721c3c0c95956809532fcf0e2449a6b525b16aedf5aa0de657ba637b39.
Definition tc4_aad : bytes := of_hex 20 0xfeedfacedeadbeeffeedfacedeadbeefabaddad2.
Definition tc4_out : bytes := of_hex 76
  0x42831ec2217774244b7221b784d0d49ce3aa212f2c02a4e035c17e2329aca12e21d514b25466931c7d8f6a5aac84aa051ba30b396a0aac973d58e0915bc94fbc3221a5db94fae95ae7121a47.

Definition tc4_gcm : option GCM :=
  match aes_New tc4_key with
  | Ret c => ret_opt (gcm_New c 12 16)
  | _ => None
  end.

Example tc4_seal :
  (g ← tc4_gcm; ret_opt (sealGeneric (E:=unit) (replicate 76 0) g tc4_nonce tc4_plain tc4_aad))
  = Some tc4_out.
Proof. vm_compute. reflexivity. Qed.

Example tc4_open :
  (g ← tc4_gcm; ret_opt (openGeneric (replicate 60 0) g tc4_nonce tc4_out tc4_aad))
  = Some tc4_plain.
Proof. vm_compute. reflexivity. Qed.
