(* ===== verification/GcmSpec.v ===== *)
(** * AES-GCM of NIST SP 800-38D, and [Seal]/[Open] as a refinement

    The specification is a function of the key, the nonce, the additional data
    and the message; the theorems state that the code computes it, that
    [Open] accepts exactly the outputs of [Seal], that a failed authentication
    releases nothing, and that no counter block is used twice in a message. *)

From S2P Require Import Prelude Alias Aes AesSpec AesProofs Ghash GhashSpec Gcm.

(** ** The specification *)

Section spec.
(** The block cipher under a fixed key. *)
Variable E_K : bytes -> bytes.

Definition inc32 (X : bytes) : bytes :=
  take 12 X ++ be_put 4 (be_get (drop 12 X) + 1).

Fixpoint keystream (n : nat) (cb : bytes) : bytes :=
  match n with
  | O => []
  | S n => E_K cb ++ keystream n (inc32 cb)
  end.

(** Number of 16-byte blocks of a message, the last one possibly partial. *)
Definition nblocks (x : bytes) : nat := ((length x + 15) / 16)%nat.

Definition gctr (icb x : bytes) : bytes := zip_with Z.lxor x (keystream (nblocks x) icb).

Definition spec_H : bytes := E_K (replicate 16 0).
Definition spec_J0 (nonce : bytes) : bytes :=
  if (length nonce =? 12)%nat then nonce ++ [0; 0; 0; 1]
  else nist_GHASH spec_H
    [nonce; replicate 8 0 ++ be_put 8 (8 * Z.of_nat (length nonce))].
Definition spec_tag (nonce aad ct : bytes) : bytes :=
  zip_with Z.lxor
    (nist_GHASH spec_H
      [aad; ct; be_put 8 (8 * Z.of_nat (length aad)) ++ be_put 8 (8 * Z.of_nat (length ct))])
    (E_K (spec_J0 nonce)).
Definition spec_ct (nonce pt : bytes) : bytes := gctr (inc32 (spec_J0 nonce)) pt.
Definition spec_seal (t : nat) (nonce pt aad : bytes) : bytes :=
  spec_ct nonce pt ++ take t (spec_tag nonce aad (spec_ct nonce pt)).
End spec.

(** ** XOR of byte strings *)

Lemma zip_xor_cancel (x k : bytes) : (length x <= length k)%nat ->
  zip_with Z.lxor (zip_with Z.lxor x k) k = x.
Proof.
  revert k. induction x as [|a x IH]; intros [|b k] H; simpl in *; try done; try lia.
  by rewrite Z.lxor_assoc, Z.lxor_nilpotent, Z.lxor_0_r, IH by lia.
Qed.

Lemma zip_xor_ok (x k : bytes) : bytes_ok x -> bytes_ok k -> bytes_ok (zip_with Z.lxor x k).
Proof.
  intros Hx. revert k. induction Hx as [|a x Ha Hx IH]; intros k Hk; [constructor|].
  destruct Hk; simpl; constructor; [by apply is_byte_lxor|by apply IH].
Qed.

Lemma zip_take_r (x k : bytes) n : length x = n ->
  zip_with Z.lxor x (take n k) = zip_with Z.lxor x k.
Proof.
  intros <-. revert k. induction x as [|a x IH]; intros [|b k]; simpl; try done. by rewrite IH.
Qed.

Section with_key.
Context (key : bytes) (c : blockExpanded) (Hwf : block_wf key c) (Hkey : valid_key key).
Abbreviation E_K := (fips_encrypt key).

Lemma E_K_ok b : bytes_ok b -> bytes_ok (E_K b).
Proof. by apply fips_encrypt_ok. Qed.

Lemma EncryptBlockInternal_spec {E} b : bytes_ok b -> length b = 16%nat ->
  EncryptBlockInternal (E:=E) c zeroBlock16 b = Ret (E_K b).
Proof.
  intros Hb Hl. unfold EncryptBlockInternal, encryptBlock.
  rewrite (wf_encrypt key) by (done || lia).
  rewrite drop_ge by done. by rewrite app_nil_r.
Qed.

Lemma gcmInc32_inc32 b : bytes_ok b -> length b = 16%nat ->
  gcmInc32 b = inc32 b /\ bytes_ok (inc32 b) /\ length (inc32 b) = 16%nat.
Proof.
  intros Hb Hl. unfold gcmInc32, inc32. rewrite Hl.
  change (16 - 4)%nat with 12%nat. split; [|split].
  - f_equal. unfold PutUint32, Uint32. rewrite take_ge by (rewrite length_drop; lia).
    unfold u32. change (2 ^ 32) with (256 ^ Z.of_nat 4). apply be_put_mod.
  - apply Forall_app. split; [by apply Forall_take|apply be_put_ok].
  - rewrite length_app, length_be_put, length_take. lia.
Qed.

Lemma length_keystream n cb : length (keystream E_K n cb) = (16 * n)%nat.
Proof.
  revert cb. induction n as [|n IH]; intros cb; [done|]. cbn [keystream].
  rewrite length_app, length_fips_encrypt, IH. lia.
Qed.

Lemma keystream_ok n cb : bytes_ok cb -> length cb = 16%nat -> bytes_ok (keystream E_K n cb).
Proof.
  revert cb. induction n as [|n IH]; intros cb Hb Hl; [constructor|]. cbn [keystream].
  apply Forall_app. destruct (gcmInc32_inc32 cb Hb Hl) as (_ & Hb' & Hl').
  split; [by apply E_K_ok|by apply IH].
Qed.

Lemma nblocks_bound x : (length x <= 16 * nblocks x < length x + 16)%nat.
Proof.
  unfold nblocks. pose proof (Nat.div_mod_eq (length x + 15) 16).
  pose proof (Nat.mod_upper_bound (length x + 15) 16). lia.
Qed.

Lemma nblocks_step x : (16 <= length x)%nat -> nblocks x = S (nblocks (drop 16 x)).
Proof.
  intros H. pose proof (nblocks_bound x). pose proof (nblocks_bound (drop 16 x)).
  rewrite length_drop in *. lia.
Qed.

Lemma length_gctr cb x : length (gctr E_K cb x) = length x.
Proof.
  unfold gctr. rewrite length_zip_with, length_keystream. pose proof (nblocks_bound x). lia.
Qed.

Lemma gctr_ok cb x : bytes_ok cb -> length cb = 16%nat -> bytes_ok x -> bytes_ok (gctr E_K cb x).
Proof. intros. apply zip_xor_ok; [done|by apply keystream_ok]. Qed.

(** Counter mode is an involution. *)
Lemma gctr_gctr cb x : gctr E_K cb (gctr E_K cb x) = x.
Proof.
  unfold gctr at 1. unfold nblocks. rewrite length_gctr. fold (nblocks x).
  apply zip_xor_cancel. rewrite length_keystream. pose proof (nblocks_bound x). lia.
Qed.

(** The counter after a message of [n] blocks. *)
Definition inc_n (n : nat) (cb : bytes) : bytes := Nat.iter n inc32 cb.

Lemma inc_n_S n cb : inc_n (S n) cb = inc_n n (inc32 cb).
Proof. unfold inc_n. apply Nat.iter_succ_r. Qed.

Lemma gctr_step cb x : (16 <= length x)%nat ->
  gctr E_K cb x = zip_with Z.lxor (take 16 x) (E_K cb) ++ gctr E_K (inc32 cb) (drop 16 x).
Proof.
  intros H. unfold gctr. rewrite nblocks_step by done. cbn [keystream].
  rewrite <- (take_drop 16 x) at 1. rewrite zip_with_app; [done|].
  rewrite length_take, length_fips_encrypt. lia.
Qed.

Lemma gctr_last cb x : (0 < length x < 16)%nat ->
  gctr E_K cb x = zip_with Z.lxor x (take (length x) (E_K cb)).
Proof.
  intros H. unfold gctr. replace (nblocks x) with 1%nat
    by (pose proof (nblocks_bound x); lia).
  cbn [keystream]. rewrite app_nil_r. by rewrite zip_take_r.
Qed.

Lemma gcmCounterCrypt_loop_spec {E} n fuel out src cb :
  (length src <= 16 * n)%nat -> (n <= fuel)%nat -> (length src <= length out)%nat ->
  bytes_ok src -> bytes_ok cb -> length cb = 16%nat ->
  gcmCounterCrypt_loop (E:=E) fuel c out src cb =
  Ret (gctr E_K cb src ++ drop (length src) out, inc_n (nblocks src) cb).
Proof.
  revert fuel out src cb. induction n as [|n IH]; intros fuel out src cb Hn Hf Ho Hs Hc Hl.
  { destruct src; [|simpl in Hn; lia]. by destruct fuel. }
  destruct (gcmInc32_inc32 cb Hc Hl) as (Hinc & Hc' & Hl').
  destruct fuel as [|fuel]; [lia|]. cbn [gcmCounterCrypt_loop]. unfold gcmBlockSize.
  destruct (Nat.leb_spec 16 (length src)) as [Hge|Hlt].
  - rewrite EncryptBlockInternal_spec by done. cbn [obind]. rewrite Hinc.
    unfold XORBytes. rewrite length_fips_encrypt, Nat.min_r by lia.
    rewrite (proj2 (Nat.ltb_ge _ _)) by lia. cbn [obind].
    assert (Hzl : length (zip_with Z.lxor (take 16 src) (take 16 (E_K cb))) = 16%nat)
      by (rewrite length_zip_with, !length_take, length_fips_encrypt; lia).
    rewrite (proj2 (Nat.ltb_ge _ _)) by (rewrite length_app, Hzl; lia).
    rewrite drop_app_length', take_app_length' by done.
    rewrite IH; try done; try (rewrite ?length_drop; lia); [|by apply Forall_drop].
    cbn [obind]. rewrite (gctr_step cb src), (nblocks_step src), inc_n_S by done.
    rewrite zip_take_r by (rewrite length_take; lia).
    rewrite <- app_assoc, drop_drop, length_drop.
    replace (16 + (length src - 16))%nat with (length src) by lia. done.
  - destruct (Nat.ltb_spec 0 (length src)) as [Hpos|Hz].
    + rewrite EncryptBlockInternal_spec by done. cbn [obind]. rewrite Hinc.
      unfold XORBytes. rewrite length_fips_encrypt, Nat.min_l by lia.
      rewrite (proj2 (Nat.ltb_ge _ _)) by lia. cbn [obind].
      rewrite (take_ge src), gctr_last by lia.
      replace (nblocks src) with 1%nat by (pose proof (nblocks_bound src); lia). done.
    + destruct src; [|simpl in Hz; lia]. done.
Qed.

Lemma gcmCounterCrypt_spec {E} out src cb :
  (length src <= length out)%nat -> bytes_ok src -> bytes_ok cb -> length cb = 16%nat ->
  gcmCounterCryptGeneric (E:=E) c out src cb =
  Ret (gctr E_K cb src ++ drop (length src) out, inc_n (nblocks src) cb).
Proof. intros. apply (gcmCounterCrypt_loop_spec (length src)); done || lia. Qed.
(** ** The pieces of [sealGeneric] and [openGeneric] *)

Lemma zeros_ok : bytes_ok zeroBlock16.
Proof. apply Forall_replicate. done. Qed.

Lemma nist_GHASH_block H inputs :
  bytes_ok (nist_GHASH H inputs) /\ length (nist_GHASH H inputs) = 16%nat.
Proof. split; [apply be_put_ok|apply length_be_put]. Qed.

Lemma spec_H_ok : bytes_ok (spec_H E_K) /\ length (spec_H E_K) = 16%nat.
Proof. split; [apply E_K_ok, zeros_ok|apply length_fips_encrypt]. Qed.

Lemma be_put_u64 v : be_put 8 (u64 v) = be_put 8 v.
Proof. unfold u64. change (2 ^ 64) with (256 ^ Z.of_nat 8). apply be_put_mod. Qed.

Lemma len_block_ok a b : bytes_ok (be_put 8 a ++ be_put 8 b).
Proof. apply Forall_app. split; apply be_put_ok. Qed.

Lemma deriveCounter_spec {E} nonce : bytes_ok nonce ->
  deriveCounterGeneric (E:=E) (spec_H E_K) zeroBlock16 nonce = Ret (spec_J0 E_K nonce) /\
  bytes_ok (spec_J0 E_K nonce) /\ length (spec_J0 E_K nonce) = 16%nat.
Proof.
  intros Hn. unfold deriveCounterGeneric, spec_J0, gcmStandardNonceSize.
  replace (Z.of_nat (length nonce) =? 12) with (length nonce =? 12)%nat
    by (apply eq_bool_prop_intro; rewrite !Is_true_true, Nat.eqb_eq, Z.eqb_eq; lia).
  destruct (Nat.eqb_spec (length nonce) 12) as [Hl|Hl].
  - do 12 (destruct nonce as [|? nonce]; [done|]). destruct nonce; [|done].
    split; [done|]. split; [|done]. apply Forall_app. split; [done|]. compute_decide.
  - destruct spec_H_ok. rewrite ghash_is_nist_lemma; try done.
    + split; [|apply nist_GHASH_block]. unfold PutUint64. rewrite be_put_u64.
      by rewrite (Z.mul_comm _ 8).
    + apply Forall_cons_2; [done|]. apply Forall_cons_2; [|apply Forall_nil_2].
      apply Forall_app. split; [by apply Forall_replicate|apply be_put_ok].
Qed.

Lemma setup_counter_spec {E} g nonce : cipher g = c -> bytes_ok nonce ->
  setup_counter (E:=E) g nonce =
  Ret (spec_H E_K, E_K (spec_J0 E_K nonce), inc32 (spec_J0 E_K nonce)).
Proof.
  intros Hg Hn. unfold setup_counter. rewrite Hg.
  rewrite EncryptBlockInternal_spec by (done || apply zeros_ok). cbn [obind].
  change (E_K zeroBlock16) with (spec_H E_K).
  destruct (deriveCounter_spec (E:=E) nonce Hn) as (-> & Hj & Hjl).
  cbn [obind]. rewrite gcmCounterCrypt_spec by (done || apply zeros_ok). cbn [obind].
  rewrite drop_ge, app_nil_r by done.
  assert (Hz : gctr E_K (spec_J0 E_K nonce) zeroBlock16 = E_K (spec_J0 E_K nonce)).
  { unfold gctr. change (nblocks zeroBlock16) with 1%nat. cbn [keystream].
    rewrite app_nil_r. pose proof (length_fips_encrypt key (spec_J0 E_K nonce)) as Hl.
    revert Hl. generalize (E_K (spec_J0 E_K nonce)). intros l Hl.
    do 16 (destruct l as [|? l]; [done|]). by destruct l. }
  by rewrite Hz.
Qed.

Lemma gcmAuth_spec {E} nonce ct aad : bytes_ok nonce -> bytes_ok ct -> bytes_ok aad ->
  gcmAuthGeneric (E:=E) zeroBlock16 (spec_H E_K) (E_K (spec_J0 E_K nonce)) ct aad =
  Ret (spec_tag E_K nonce aad ct).
Proof.
  intros Hn Hc Ha. unfold gcmAuthGeneric. destruct spec_H_ok.
  unfold PutUint64. rewrite !be_put_u64, ghash_is_nist_lemma; try done.
  - cbn [obind]. unfold XORBytes, spec_tag.
    rewrite !(Z.mul_comm _ 8).
    destruct (nist_GHASH_block (spec_H E_K) [aad; ct; be_put 8 (8 * Z.of_nat (length aad)) ++
      be_put 8 (8 * Z.of_nat (length ct))]) as [_ Hl].
    rewrite Hl, length_fips_encrypt, (take_ge (nist_GHASH _ _)), (take_ge (E_K _)),
      drop_ge, app_nil_r by (rewrite ?Hl, ?length_fips_encrypt; done). done.
  - apply Forall_cons_2; [done|]. apply Forall_cons_2; [done|].
    apply Forall_cons_2; [apply len_block_ok|apply Forall_nil_2].
Qed.

Lemma length_spec_tag nonce aad ct : length (spec_tag E_K nonce aad ct) = 16%nat.
Proof.
  unfold spec_tag. rewrite length_zip_with, length_fips_encrypt.
  match goal with |- context [nist_GHASH ?h ?l] => rewrite (proj2 (nist_GHASH_block h l)) end.
  done.
Qed.

Lemma length_spec_ct nonce pt : length (spec_ct E_K nonce pt) = length pt.
Proof. apply length_gctr. Qed.

Lemma J0_inc_ok nonce : bytes_ok nonce ->
  bytes_ok (inc32 (spec_J0 E_K nonce)) /\ length (inc32 (spec_J0 E_K nonce)) = 16%nat.
Proof.
  intros Hn. destruct (deriveCounter_spec (E:=unit) nonce Hn) as (_ & Hj & Hjl).
  by apply gcmInc32_inc32.
Qed.

Lemma spec_ct_ok nonce pt : bytes_ok nonce -> bytes_ok pt -> bytes_ok (spec_ct E_K nonce pt).
Proof. intros. apply gctr_ok; [by apply J0_inc_ok..|done]. Qed.

Lemma spec_ct_involutive nonce pt : spec_ct E_K nonce (spec_ct E_K nonce pt) = pt.
Proof. apply gctr_gctr. Qed.

Lemma sealGeneric_spec {E} g out nonce pt aad t :
  cipher g = c -> (t <= 16)%nat -> length out = (length pt + t)%nat ->
  bytes_ok nonce -> bytes_ok pt -> bytes_ok aad ->
  sealGeneric (E:=E) out g nonce pt aad = Ret (spec_seal E_K t nonce pt aad).
Proof.
  intros Hg Ht Hl Hn Hp Ha. unfold sealGeneric.
  rewrite setup_counter_spec by done. cbn [obind]. rewrite Hg.
  destruct (J0_inc_ok nonce Hn).
  rewrite gcmCounterCrypt_spec by (done || lia). cbn [obind]. fold (spec_ct E_K nonce pt).
  pose proof (length_spec_ct nonce pt) as Hcl.
  rewrite (proj2 (Nat.ltb_ge _ _)) by (rewrite length_app; lia).
  rewrite take_app_length', drop_app_length' by done.
  rewrite gcmAuth_spec by (done || by apply spec_ct_ok). cbn [obind].
  unfold spec_seal, copy. rewrite length_drop, length_spec_tag.
  replace (min (length out - length pt) 16) with t by lia.
  rewrite (drop_ge (drop _ _)), app_nil_r by (rewrite length_drop; lia). done.
Qed.

Lemma openGeneric_spec g out nonce ct tag aad t :
  cipher g = c -> tagSize g = Z.of_nat t -> length tag = t -> (t <= 16)%nat ->
  length out = length ct -> bytes_ok nonce -> bytes_ok ct -> bytes_ok aad ->
  openGeneric out g nonce (ct ++ tag) aad =
  if decide (take t (spec_tag E_K nonce aad ct) = tag) then Ret (spec_ct E_K nonce ct)
  else Err errOpen.
Proof.
  intros Hg Ht Htl Ht16 Hl Hn Hc Ha. unfold openGeneric.
  rewrite setup_counter_spec by done. cbn [obind]. rewrite length_app, Ht, Htl.
  replace (Z.of_nat (length ct + t) - Z.of_nat t) with (Z.of_nat (length ct)) by lia.
  rewrite (proj2 (Z.ltb_ge _ _)), !Nat2Z.id, drop_app_length, take_app_length by lia.
  rewrite gcmAuth_spec by done. cbn [obind]. unfold ConstantTimeCompare.
  destruct (decide (take t (spec_tag E_K nonce aad ct) = tag)) as [He|He].
  - rewrite bool_decide_true by done. simpl negb. cbv iota. rewrite Hg.
    destruct (J0_inc_ok nonce Hn).
    rewrite gcmCounterCrypt_spec by (done || lia). cbn [obind].
    rewrite drop_ge, app_nil_r by lia. done.
  - by rewrite bool_decide_false.
Qed.
End with_key.

(** ** [GCM] values, and the arguments that pass the guards *)

(** A [GCM] made by [New] from a [Block] made by [aes.New] with [key]. *)
Definition gcm_made (key : bytes) (g : GCM) : Prop :=
  bytes_ok key /\ exists c ns ts, aes_New key = Ret c /\ gcm_New c ns ts = Ret g.

Record gcm_wf (key : bytes) (g : GCM) : Prop := {
  gwf_key : valid_key key;
  gwf_block : block_wf key (cipher g);
  gwf_nonce : 0 < nonceSize g;
  gwf_tag : 12 <= tagSize g <= 16
}.

Lemma gcm_made_wf key g : gcm_made key g -> gcm_wf key g.
Proof.
  intros (Hok & c & ns & ts & Hc & Hg). destruct (New_ret_wf key c Hok Hc) as [Hv Hwf].
  unfold gcm_New, newGCM, gcmMinimumTagSize, gcmBlockSize in Hg.
  change (aes_BlockSize =? 16)%nat with true in Hg. cbn [negb] in Hg.
  repeat case_match; try done. apply Ret_inj in Hg as <-.
  rewrite orb_false_iff, !Z.ltb_ge, ?Z.leb_gt in *.
  constructor; simpl; try done; lia.
Qed.

Definition seal_out (alloc : Z) (g : GCM) (dst plaintext : Slice) : Slice :=
  snd (sliceForAppend alloc dst (length (data plaintext) + Z.to_nat (tagSize g))).
Definition open_out (alloc : Z) (g : GCM) (dst ciphertext : Slice) : Slice :=
  snd (sliceForAppend alloc dst (Z.to_nat (slen ciphertext - tagSize g))).

Definition seal_args (alloc : Z) (g : GCM) (dst : Slice) (nonce : bytes)
    (plaintext aad : Slice) : Prop :=
  bytes_ok nonce /\ bytes_ok (data plaintext) /\ bytes_ok (data aad) /\
  Z.of_nat (length nonce) = nonceSize g /\ slen plaintext <= gcmMaxPlaintext /\
  InexactOverlap (seal_out alloc g dst plaintext) plaintext = false /\
  AnyOverlap (seal_out alloc g dst plaintext) aad = false.

Definition open_args (alloc : Z) (g : GCM) (dst : Slice) (nonce : bytes)
    (ciphertext aad : Slice) : Prop :=
  bytes_ok nonce /\ bytes_ok (data ciphertext) /\ bytes_ok (data aad) /\
  Z.of_nat (length nonce) = nonceSize g /\
  tagSize g <= slen ciphertext <= gcmMaxPlaintext + tagSize g /\
  InexactOverlap (open_out alloc g dst ciphertext) ciphertext = false /\
  AnyOverlap (open_out alloc g dst ciphertext) aad = false.

(** [sliceForAppend] keeps the contents and yields a tail of [n] bytes. *)
Lemma sliceForAppend_spec alloc in_ n :
  let '(head, tail) := sliceForAppend alloc in_ n in
  take (length (data in_)) (data head) = data in_ /\ length (data tail) = n /\
  data head = data in_ ++ data tail /\ ptr tail = ptr head + slen in_.
Proof.
  unfold sliceForAppend. cbv zeta.
  destruct (Nat.leb_spec (length (data in_) + n) (scap in_)) as [H|H]; simpl.
  - unfold scap in H. rewrite take_app_length, drop_app_length, length_take.
    split; [done|]. split; [lia|]. done.
  - unfold copy. rewrite length_replicate, Nat.min_r, (take_ge (data in_)) by lia.
    rewrite take_app_length, drop_app_length, length_drop, length_replicate.
    split; [done|]. split; [lia|]. done.
Qed.

Section gcm.
Context (key : bytes) (g : GCM) (Hg : gcm_wf key g).
Abbreviation E_K := (fips_encrypt key).
Abbreviation t := (Z.to_nat (tagSize g)).

Lemma Seal_spec {E} alloc dst nonce pt aad : seal_args alloc g dst nonce pt aad ->
  Seal (E:=E) alloc g dst nonce pt aad =
  Ret (data dst ++ spec_seal E_K t nonce (data pt) (data aad)).
Proof.
  intros (Hn & Hp & Ha & Hl & Hmax & Ho1 & Ho2). destruct Hg as [Hv Hb Hns Ht].
  unfold Seal, sealAfterIndicator. rewrite Hl, Z.eqb_refl.
  rewrite (proj2 (Z.eqb_neq _ _)), (proj2 (Z.ltb_ge _ _)) by lia. simpl negb. cbv iota.
  unfold seal_out in *.
  pose proof (sliceForAppend_spec alloc dst (length (data pt) + t)) as Hs.
  destruct (sliceForAppend alloc dst (length (data pt) + t)) as [ret out].
  destruct Hs as (Hh & Hlo & _ & _). simpl in Ho1, Ho2. rewrite Ho1, Ho2. unfold seal.
  rewrite (sealGeneric_spec key (cipher g) Hb Hv g (data out) nonce (data pt) (data aad) t)
    by (done || lia). cbn [obind]. by rewrite Hh.
Qed.

(** [Open] on admissible arguments: the tag decides. *)
Lemma Open_spec alloc dst nonce ct aad : open_args alloc g dst nonce ct aad ->
  let n := (length (data ct) - t)%nat in
  let body := take n (data ct) in
  Open alloc g dst nonce ct aad =
  if decide (take t (spec_tag E_K nonce (data aad) body) = drop n (data ct))
  then (Ret (data dst ++ spec_ct E_K nonce body), Some (spec_ct E_K nonce body))
  else (Err errOpen, Some (replicate n 0)).
Proof.
  intros (Hn & Hc & Ha & Hl & Hlen & Ho1 & Ho2). cbv zeta. destruct Hg as [Hv Hb Hns Ht].
  unfold Open. rewrite Hl, Z.eqb_refl. unfold gcmMinimumTagSize.
  rewrite !(proj2 (Z.ltb_ge _ _)) by lia. simpl negb. cbv iota. unfold open_out in *.
  replace (Z.to_nat (slen ct - tagSize g)) with (length (data ct) - t)%nat in * by lia.
  pose proof (sliceForAppend_spec alloc dst (length (data ct) - t)) as Hs.
  destruct (sliceForAppend alloc dst (length (data ct) - t)) as [ret out].
  destruct Hs as (Hh & Hlo & _ & _). simpl in Ho1, Ho2. rewrite Ho1, Ho2, Hlo.
  rewrite <- (take_drop (length (data ct) - t) (data ct)) at 1. unfold open.
  rewrite (openGeneric_spec key (cipher g) Hb Hv g _ _ _ _ _ t);
    try done; try lia; try by apply Forall_take.
  - case_decide; [by rewrite Hh|done].
  - rewrite length_drop. lia.
  - rewrite length_take. lia.
Qed.
End gcm.

(** C32: [Seal] computes the authenticated encryption of NIST SP 800-38D:
    appended to [dst] it returns the counter-mode ciphertext followed by the
    truncated GHASH tag, for every key, nonce size and tag size [New] accepts. *)
Theorem Seal_is_nist (E : Type) (key : bytes) (g : GCM) (alloc : Z) (dst : Slice)
    (nonce : bytes) (pt aad : Slice) :
  gcm_made key g -> seal_args alloc g dst nonce pt aad ->
  Seal (E:=E) alloc g dst nonce pt aad =
  Ret (data dst ++
       spec_seal (fips_encrypt key) (Z.to_nat (tagSize g)) nonce (data pt) (data aad)).
Proof. intros Hm Ha. apply Seal_spec; [by apply gcm_made_wf|done]. Qed.

(** Sealing determines the ciphertext body and tag. *)
Lemma spec_seal_split key t nonce pt aad ct :
  (t <= 16)%nat ->
  spec_seal (fips_encrypt key) t nonce pt aad = ct <->
  (length ct = length pt + t)%nat /\
  take (length ct - t) ct = spec_ct (fips_encrypt key) nonce pt /\
  drop (length ct - t) ct =
    take t (spec_tag (fips_encrypt key) nonce aad (spec_ct (fips_encrypt key) nonce pt)).
Proof.
  intros Ht. unfold spec_seal.
  pose proof (length_spec_ct key nonce pt) as Hcl.
  pose proof (length_spec_tag key nonce aad (spec_ct (fips_encrypt key) nonce pt)) as Htl.
  split.
  - intros <-. rewrite length_app, length_take, Htl, Hcl.
    replace (length pt + min t 16 - t)%nat with (length pt) by lia.
    split; [lia|]. by rewrite take_app_length', drop_app_length' by done.
  - intros (Hl & H1 & H2). rewrite <- H2, <- H1. apply take_drop.
Qed.

(** C33: [Open] accepts exactly what [Seal] produces: on admissible arguments it
    returns [dst] extended by [pt] if and only if sealing [pt] under the same
    nonce and additional data yields this ciphertext; in every other case it
    fails with [errOpen] and leaves an output buffer of zeros, so that no
    unauthenticated plaintext is released. *)
Theorem Open_iff_Seal (E : Type) (key : bytes) (g : GCM) (alloc alloc' : Z)
    (dst dst' : Slice) (nonce : bytes) (ct aad pt aad' : Slice) :
  gcm_made key g ->
  open_args alloc g dst nonce ct aad ->
  seal_args alloc' g dst' nonce pt aad' -> data aad' = data aad ->
  (fst (Open alloc g dst nonce ct aad) = Ret (data dst ++ data pt) <->
   Seal (E:=E) alloc' g dst' nonce pt aad' = Ret (data dst' ++ data ct)) /\
  ((forall r, fst (Open alloc g dst nonce ct aad) <> Ret r) ->
   Open alloc g dst nonce ct aad =
   (Err errOpen, Some (replicate (length (data ct) - Z.to_nat (tagSize g)) 0))).
Proof.
  intros Hm Ho Hs Haad. pose proof (gcm_made_wf key g Hm) as Hg.
  rewrite (Open_spec key g Hg alloc dst nonce ct aad Ho).
  rewrite (Seal_spec key g Hg alloc' dst' nonce pt aad' Hs), Haad.
  destruct Ho as (Hn & Hc & Ha & Hl & Hlen & _). destruct Hg as [Hv Hb _ Ht].
  set (t := Z.to_nat (tagSize g)) in *. assert (Ht16 : (t <= 16)%nat) by lia.
  assert (Hinj : forall (d a b : bytes), Ret (E:=E) (d ++ a) = Ret (d ++ b) <-> a = b).
  { intros d a b. split; [|congruence]. intros H. apply Ret_inj in H. by apply app_inv_head in H. }
  rewrite Hinj, (spec_seal_split key t) by done.
  set (n := (length (data ct) - t)%nat).
  assert (Hbl : length (take n (data ct)) = n) by (rewrite length_take; lia).
  case_decide as Hd; simpl fst.
  - split; [|intros Hr; by destruct (Hr (data dst ++ spec_ct (fips_encrypt key) nonce (take n (data ct))))].
    split.
    + intros H. apply Ret_inj, app_inv_head in H. rewrite <- H.
      rewrite length_spec_ct, Hbl, spec_ct_involutive. split; [lia|]. done.
    + intros (_ & H & _). rewrite H, spec_ct_involutive. done.
  - split; [|done]. split; [done|]. intros (_ & H1 & H2). destruct Hd. by rewrite H1, H2.
Qed.

(** ** No counter block is used twice *)

Lemma iter_gcmInc32 (J : bytes) (i : nat) : bytes_ok J -> length J = 16%nat ->
  Nat.iter i gcmInc32 J = take 12 J ++ be_put 4 (be_get (drop 12 J) + Z.of_nat i).
Proof.
  intros Hok Hl. induction i as [|i IH].
  { change (Z.of_nat 0) with 0. rewrite Z.add_0_r.
    assert (Hd : length (drop 12 J) = 4%nat) by (rewrite length_drop; lia).
    pose proof (be_put_get (drop 12 J) ltac:(by apply Forall_drop)) as Hp.
    rewrite Hd in Hp. rewrite Hp. by rewrite take_drop. }
  cbn [Nat.iter nat_rect]. change (nat_rect _ J (fun _ => gcmInc32) i) with (Nat.iter i gcmInc32 J).
  rewrite IH. unfold gcmInc32. cbv zeta.
  assert (Ht : length (take 12 J) = 12%nat) by (rewrite length_take; lia).
  rewrite length_app, length_be_put, Ht. change (12 + 4 - 4)%nat with 12%nat.
  rewrite take_app_length', drop_app_length' by done. f_equal.
  unfold Uint32, PutUint32, u32. rewrite take_ge by (rewrite length_be_put; lia).
  rewrite be_get_put. change (2 ^ 32) with (256 ^ Z.of_nat 4).
  rewrite be_put_mod, <- be_put_mod, Zplus_mod_idemp_l, be_put_mod. f_equal. lia.
Qed.

(** The counter blocks of one message never repeat: the block that masks
    the tag and those that encrypt the plaintext are pairwise distinct for
    every plaintext within the length [Seal] admits. *)
Theorem counter_blocks_distinct (J0 pt : bytes) :
  bytes_ok J0 -> length J0 = 16%nat -> Z.of_nat (length pt) <= gcmMaxPlaintext ->
  forall i j, (i < j <= nblocks pt)%nat -> Nat.iter i gcmInc32 J0 <> Nat.iter j gcmInc32 J0.
Proof.
  intros Hok Hl Hmax i j Hij. rewrite !iter_gcmInc32 by done. intros He.
  apply app_inv_head in He. apply (f_equal be_get) in He. rewrite !be_get_put in He.
  pose proof (nblocks_bound pt) as Hb. unfold gcmMaxPlaintext in Hmax.
  change (256 ^ Z.of_nat 4) with (2 ^ 32) in He.
  set (c := be_get (drop 12 J0)) in *.
  assert (H0 : ((c + Z.of_nat j) - (c + Z.of_nat i)) mod 2 ^ 32 = 0)
    by (rewrite Zminus_mod, He, Z.sub_diag; done).
  rewrite Z.mod_small in H0 by lia. lia.
Qed.

(** ** Witnesses: test case 4 of the GCM specification *)

Definition w_gcm : GCM :=
  match tc4_gcm with Some g => g | None => {| cipher := zeroBlock; nonceSize := 0; tagSize := 0 |} end.
Definition w_slice (p : Z) (b : bytes) : Slice := {| ptr := p; data := b; spare := [] |}.

Lemma w_gcm_made : gcm_made tc4_key w_gcm.
Proof.
  split; [compute_decide|].
  exists (match aes_New tc4_key with Ret c => c | _ => zeroBlock end), 12, 16.
  split; vm_compute; reflexivity.
Qed.

Lemma w_seal_args :
  seal_args 0x9000 w_gcm (w_slice 0x1000 [1; 2]) tc4_nonce (w_slice 0x2000 tc4_plain) (w_slice 0x3000 tc4_aad).
Proof. split_and!; first [compute_decide | vm_compute; (reflexivity || discriminate)]. Qed.

Lemma w_open_args :
  open_args 0x9000 w_gcm (w_slice 0x1000 []) tc4_nonce (w_slice 0x2000 tc4_out) (w_slice 0x3000 tc4_aad).
Proof.
  split_and!; first [compute_decide | vm_compute; (reflexivity || discriminate)].
Qed.

Lemma Seal_is_nist_witness :
  Seal (E:=unit) 0x9000 w_gcm (w_slice 0x1000 [1; 2]) tc4_nonce (w_slice 0x2000 tc4_plain) (w_slice 0x3000 tc4_aad)
  = Ret ([1; 2] ++ spec_seal (fips_encrypt tc4_key) 16 tc4_nonce tc4_plain tc4_aad).
Proof. exact (Seal_is_nist unit tc4_key w_gcm _ _ _ _ _ w_gcm_made w_seal_args). Defined.

Lemma Open_iff_Seal_witness :
  fst (Open 0x9000 w_gcm (w_slice 0x1000 []) tc4_nonce (w_slice 0x2000 tc4_out) (w_slice 0x3000 tc4_aad))
    = Ret tc4_plain <->
  Seal (E:=unit) 0x9000 w_gcm (w_slice 0x1000 [1; 2]) tc4_nonce (w_slice 0x2000 tc4_plain) (w_slice 0x3000 tc4_aad)
    = Ret ([1; 2] ++ tc4_out).
Proof.
  exact (proj1 (Open_iff_Seal unit tc4_key w_gcm _ _ _ _ _ _ _ _ _
    w_gcm_made w_open_args w_seal_args eq_refl)).
Defined.

Lemma counter_blocks_distinct_witness :
  Nat.iter 1 gcmInc32 (tc4_nonce ++ [255; 255; 255; 255]) <>
  Nat.iter 3 gcmInc32 (tc4_nonce ++ [255; 255; 255; 255]).
Proof.
  apply (counter_blocks_distinct _ (replicate 40 0)); [compute_decide|reflexivity|vm_compute; discriminate|].
  change (nblocks (replicate 40 0)) with 3%nat. lia.
Defined.
