(* ===== verification/GcmNonces.v ===== *)
(** * gcm/gcm_nonces.go: AES-GCM that enforces its nonces

    The four AEADs that refuse a repeated or decreasing counter, each with its
    state and its [Seal] as a state transition that also records what is
    mutated before a panic; the interface [CounterAEAD] they all implement; and
    the theorems: no sequence of calls seals twice under one nonce, and the
    nonce sequence the record layer uses is accepted. *)

From Stdlib Require Import Sorted.
From S2P Require Import Prelude Alias Aes AesProofs Ghash Gcm.

Open Scope go_scope.

Definition MaxUint64 : Z := 2 ^ 64 - 1.

(** [counter := binary.BigEndian.Uint64(nonce[len(nonce)-8:])] *)
Definition nonce_counter (nonce : bytes) : Z := Uint64 (drop (length nonce - 8) nonce).
(** [binary.BigEndian.Uint32(nonce[:4])] *)
Definition nonce_name (nonce : bytes) : Z := Uint32 (take 4 nonce).

(** "Ensure the counter is monotonically increasing": the new [g.next]. *)
Definition advance {E} (next counter : Z) : outcome E Z :=
  if counter =? MaxUint64 then Panic "crypto/cipher: counter wrapped"
  else if counter <? next then Panic "crypto/cipher: counter decreased"
  else Ret (u64 (counter + 1)).

(** The arguments of one call of [Seal]. *)
Record call := mkCall {
  c_alloc : Z;
  c_dst : Slice;
  c_nonce : bytes;
  c_plaintext : Slice;
  c_data : Slice
}.

Definition seal_call {E} (g : GCM) (c : call) : outcome E bytes :=
  sealAfterIndicator (c_alloc c) g (c_dst c) (c_nonce c) (c_plaintext c) (c_data c).

Definition bad_nonce_length {E A} : outcome E A :=
  Panic "crypto/cipher: incorrect nonce length given to GCM".

Definition newGCM_std (cipher : blockExpanded) : outcome gcm_error GCM :=
  newGCM cipher gcmStandardNonceSize gcmTagSize.

(** ** [GCMWithCounterNonce] *)

Module WithCounterNonce.
Record t := mk { g : GCM; ready : bool; fixedName : Z; start : Z; next : Z }.

Definition New (cipher : blockExpanded) : outcome gcm_error t :=
  let! g := newGCM_std cipher in
  Ret {| g := g; ready := false; fixedName := 0; start := 0; next := 0 |}.

Definition NonceSize (s : t) : Z := gcmStandardNonceSize.
Definition Overhead (s : t) : Z := gcmTagSize.

Definition Seal {E} (s : t) (c : call) : outcome E bytes * t :=
  let nonce := c_nonce c in
  if negb (Z.of_nat (length nonce) =? gcmStandardNonceSize) then (bad_nonce_length, s) else
  let counter := nonce_counter nonce in
  let s := if ready s then s
           else {| g := g s; ready := true; fixedName := nonce_name nonce;
                   start := counter; next := next s |} in
  if negb (fixedName s =? nonce_name nonce) then
    (Panic "crypto/cipher: incorrect module name given to GCMWithCounterNonce", s)
  else
    let counter := u64 (counter - start s) in
    match advance (next s) counter with
    | Ret n =>
        let s := {| g := g s; ready := ready s; fixedName := fixedName s;
                    start := start s; next := n |} in
        (seal_call (g s) c, s)
    | Err e => (Err e, s)
    | Panic w => (Panic w, s)
    end.

Definition Open (s : t) (alloc : Z) (dst : Slice) (nonce : bytes) (ciphertext data : Slice) :=
  Gcm.Open alloc (g s) dst nonce ciphertext data.
End WithCounterNonce.

(** ** [GCMForTLS12] *)

Module ForTLS12.
Record t := mk { g : GCM; next : Z }.

Definition New (cipher : blockExpanded) : outcome gcm_error t :=
  let! g := newGCM_std cipher in Ret {| g := g; next := 0 |}.

Definition NonceSize (s : t) : Z := gcmStandardNonceSize.
Definition Overhead (s : t) : Z := gcmTagSize.

Definition Seal {E} (s : t) (c : call) : outcome E bytes * t :=
  let nonce := c_nonce c in
  if negb (Z.of_nat (length nonce) =? gcmStandardNonceSize) then (bad_nonce_length, s) else
  let counter := nonce_counter nonce in
  match advance (next s) counter with
  | Ret n => let s := {| g := g s; next := n |} in (seal_call (g s) c, s)
  | Err e => (Err e, s)
  | Panic w => (Panic w, s)
  end.

Definition Open (s : t) (alloc : Z) (dst : Slice) (nonce : bytes) (ciphertext data : Slice) :=
  Gcm.Open alloc (g s) dst nonce ciphertext data.
End ForTLS12.

(** ** [GCMForTLS13] *)

Module ForTLS13.
Record t := mk { g : GCM; ready : bool; mask : Z; next : Z }.

Definition New (cipher : blockExpanded) : outcome gcm_error t :=
  let! g := newGCM_std cipher in Ret {| g := g; ready := false; mask := 0; next := 0 |}.

Definition NonceSize (s : t) : Z := gcmStandardNonceSize.
Definition Overhead (s : t) : Z := gcmTagSize.

Definition Seal {E} (s : t) (c : call) : outcome E bytes * t :=
  let nonce := c_nonce c in
  if negb (Z.of_nat (length nonce) =? gcmStandardNonceSize) then (bad_nonce_length, s) else
  let counter := nonce_counter nonce in
  let s := if ready s then s
           else {| g := g s; ready := true; mask := counter; next := next s |} in
  let counter := counter ⊕ mask s in
  match advance (next s) counter with
  | Ret n =>
      let s := {| g := g s; ready := ready s; mask := mask s; next := n |} in
      (seal_call (g s) c, s)
  | Err e => (Err e, s)
  | Panic w => (Panic w, s)
  end.

Definition Open (s : t) (alloc : Z) (dst : Slice) (nonce : bytes) (ciphertext data : Slice) :=
  Gcm.Open alloc (g s) dst nonce ciphertext data.
End ForTLS13.

(** ** [GCMForSSH] *)

Module ForSSH.
Record t := mk { g : GCM; ready : bool; start : Z; next : Z }.

Definition New (cipher : blockExpanded) : outcome gcm_error t :=
  let! g := newGCM_std cipher in Ret {| g := g; ready := false; start := 0; next := 0 |}.

Definition NonceSize (s : t) : Z := gcmStandardNonceSize.
Definition Overhead (s : t) : Z := gcmTagSize.

Definition Seal {E} (s : t) (c : call) : outcome E bytes * t :=
  let nonce := c_nonce c in
  if negb (Z.of_nat (length nonce) =? gcmStandardNonceSize) then (bad_nonce_length, s) else
  let counter := nonce_counter nonce in
  let s := if ready s then s
           else {| g := g s; ready := true; start := counter; next := next s |} in
  let counter := u64 (counter - start s) in
  match advance (next s) counter with
  | Ret n =>
      let s := {| g := g s; ready := ready s; start := start s; next := n |} in
      (seal_call (g s) c, s)
  | Err e => (Err e, s)
  | Panic w => (Panic w, s)
  end.

Definition Open (s : t) (alloc : Z) (dst : Slice) (nonce : bytes) (ciphertext data : Slice) :=
  Gcm.Open alloc (g s) dst nonce ciphertext data.
End ForSSH.

(** ** The interface: an AEAD that orders its nonces *)

(** [stamp s n] is the counter the state [s] reads off the nonce [n]. *)
Class CounterOps (T : Type) := {
  aead_seal {E} : T -> call -> outcome E bytes * T;
  aead_gcm : T -> GCM;
  aead_next : T -> Z;
  stamp : T -> bytes -> Z;
  aead_inv : T -> Prop
}.

Definition call_ok (c : call) : Prop := bytes_ok (c_nonce c).

Class CounterAEAD (T : Type) `{CounterOps T} := {
  seal_inv {E} s c : aead_inv s -> call_ok c -> aead_inv (snd (aead_seal (E:=E) s c));
  seal_gcm {E} s c : aead_gcm (snd (aead_seal (E:=E) s c)) = aead_gcm s;
  seal_next_mono {E} s c : aead_inv s -> call_ok c ->
    aead_next s <= aead_next (snd (aead_seal (E:=E) s c));
  seal_stamp_fixed {E} s c n : aead_inv s -> call_ok c -> 0 < aead_next s ->
    stamp (snd (aead_seal (E:=E) s c)) n = stamp s n;
  seal_ret {E} s c o : aead_inv s -> call_ok c -> fst (aead_seal (E:=E) s c) = Ret o ->
    let s' := snd (aead_seal (E:=E) s c) in
    (0 <= aead_next s /\ aead_next s <= stamp s' (c_nonce c) < aead_next s') /\
    seal_call (E:=E) (aead_gcm s) c = Ret o
}.

(** The successive calls on one AEAD, each with its outcome. *)
Fixpoint run {E T} `{CounterOps T} (s : T) (calls : list call) : list (call * outcome E bytes) :=
  match calls with
  | [] => []
  | c :: calls =>
      let '(r, s') := aead_seal (E:=E) s c in (c, r) :: run s' calls
  end.

Definition sealed_nonce {E} (cr : call * outcome E bytes) : option bytes :=
  match cr with (c, Ret _) => Some (c_nonce c) | _ => None end.

(** The nonces under which something was sealed, in order. *)
Definition sealed_nonces {E T} `{CounterOps T} (s : T) (calls : list call) : list bytes :=
  omap sealed_nonce (run (E:=E) s calls).

Section trace.
Context {T : Type} `{HC : CounterAEAD T}.

Lemma sealed_sorted {E} (s : T) calls :
  aead_inv s -> Forall call_ok calls ->
  exists f : bytes -> Z,
    (0 < aead_next s -> forall n, f n = stamp s n) /\
    StronglySorted Z.lt (f <$> sealed_nonces (E:=E) s calls) /\
    Forall (Z.le (aead_next s)) (f <$> sealed_nonces (E:=E) s calls).
Proof.
  intros Hs Hc. revert s Hs. induction Hc as [|c calls Hc _ IH]; intros s Hs.
  { exists (stamp s). split; [done|]. split; constructor. }
  pose proof (seal_inv (E:=E) s c Hs Hc) as Hi.
  pose proof (seal_next_mono (E:=E) s c Hs Hc) as Hm.
  pose proof (fun n => seal_stamp_fixed (E:=E) s c n Hs Hc) as Hf.
  pose proof (fun o => seal_ret (E:=E) s c o Hs Hc) as Hr.
  unfold sealed_nonces. cbn [run]. destruct (aead_seal s c) as [r s']. simpl in *.
  destruct (IH s' Hi) as (f & Hf' & Hso & Hle). exists f.
  split. { intros Hp n. rewrite Hf' by lia. by apply Hf. }
  destruct r as [o| |]; simpl.
  - destruct (Hr o eq_refl) as ((H0 & H1 & H2) & _).
    assert (Hp : 0 < aead_next s') by lia. rewrite <- (Hf' Hp) in H1, H2.
    split; constructor; try done.
    + eapply Forall_impl; [exact Hle|]. simpl. lia.
    + eapply Forall_impl; [exact Hle|]. simpl. lia.
  - split; [done|]. eapply Forall_impl; [exact Hle|]. simpl. lia.
  - split; [done|]. eapply Forall_impl; [exact Hle|]. simpl. lia.
Qed.

Lemma StronglySorted_lt_NoDup (l : list Z) : StronglySorted Z.lt l -> NoDup l.
Proof.
  induction 1 as [|x l _ IH Hx]; [constructor|]. constructor; [|done].
  intros Hin. rewrite Forall_forall in Hx. specialize (Hx x Hin). lia.
Qed.

Lemma sealed_NoDup {E} (s : T) calls :
  aead_inv s -> Forall call_ok calls -> NoDup (sealed_nonces (E:=E) s calls).
Proof.
  intros Hs Hc. destruct (sealed_sorted (E:=E) s calls Hs Hc) as (f & _ & Hso & _).
  apply NoDup_fmap_1 with f. by apply StronglySorted_lt_NoDup.
Qed.
End trace.

(** ** The implementations *)

Lemma nonce_counter_range n : bytes_ok n -> is_u64 (nonce_counter n).
Proof.
  intros Hn. unfold nonce_counter, Uint64.
  assert (Hok : bytes_ok (take 8 (drop (length n - 8) n))) by by apply Forall_take, Forall_drop.
  pose proof (be_get_range _ Hok) as Hr.
  assert (length (take 8 (drop (length n - 8) n)) <= 8)%nat by (rewrite length_take; lia).
  assert (256 ^ Z.of_nat (length (take 8 (drop (length n - 8) n))) <= 256 ^ 8)
    by (apply Z.pow_le_mono_r; lia). change (256 ^ 8) with (2 ^ 64) in *. lia.
Qed.

Lemma u64_range x : is_u64 (u64 x).
Proof. apply Z.mod_pos_bound. lia. Qed.

Lemma advance_ret {E} next c n : is_u64 c -> advance (E:=E) next c = Ret n ->
  next <= c < n /\ n = c + 1 /\ is_u64 n.
Proof.
  unfold advance, MaxUint64. intros Hc H. destruct (Z.eqb_spec c (2 ^ 64 - 1)); [done|].
  destruct (Z.ltb_spec c next); [done|]. apply Ret_inj in H as <-.
  unfold u64. rewrite Z.mod_small by lia. lia.
Qed.

Lemma advance_no_err {E} next c e : advance (E:=E) next c <> Err e.
Proof. unfold advance. by repeat case_match. Qed.

#[export] Instance WithCounterNonce_ops : CounterOps WithCounterNonce.t := {|
  aead_seal E := WithCounterNonce.Seal;
  aead_gcm := WithCounterNonce.g;
  aead_next := WithCounterNonce.next;
  stamp s n := u64 (nonce_counter n - WithCounterNonce.start s);
  aead_inv s := is_u64 (WithCounterNonce.next s) /\
    (0 < WithCounterNonce.next s -> WithCounterNonce.ready s = true)
|}.

#[export] Instance ForTLS12_ops : CounterOps ForTLS12.t := {|
  aead_seal E := ForTLS12.Seal;
  aead_gcm := ForTLS12.g;
  aead_next := ForTLS12.next;
  stamp s n := nonce_counter n;
  aead_inv s := is_u64 (ForTLS12.next s)
|}.

#[export] Instance ForTLS13_ops : CounterOps ForTLS13.t := {|
  aead_seal E := ForTLS13.Seal;
  aead_gcm := ForTLS13.g;
  aead_next := ForTLS13.next;
  stamp s n := nonce_counter n ⊕ ForTLS13.mask s;
  aead_inv s := is_u64 (ForTLS13.next s) /\ is_u64 (ForTLS13.mask s) /\
    (0 < ForTLS13.next s -> ForTLS13.ready s = true)
|}.

#[export] Instance ForSSH_ops : CounterOps ForSSH.t := {|
  aead_seal E := ForSSH.Seal;
  aead_gcm := ForSSH.g;
  aead_next := ForSSH.next;
  stamp s n := u64 (nonce_counter n - ForSSH.start s);
  aead_inv s := is_u64 (ForSSH.next s) /\ (0 < ForSSH.next s -> ForSSH.ready s = true)
|}.

(** Every branch of a [Seal], with the facts about the counter. *)
Ltac seal_cases :=
  repeat case_match; simplify_eq/=; unfold seal_call in *;
  repeat match goal with
  | H : advance _ _ = Ret _ |- _ =>
      apply advance_ret in H; [|first [apply u64_range | assumption]]
  | H : advance _ _ = Err _ |- _ => by apply advance_no_err in H
  end;
  intuition (try done; try congruence; try lia).

Ltac solve_counter_aead :=
  split; intros E s c; intros;
  repeat match goal with
  | H : call_ok ?c |- _ => apply nonce_counter_range in H
  | H : aead_inv _ |- _ => simpl in H
  end; simpl in *.

#[export] Instance WithCounterNonce_AEAD : CounterAEAD WithCounterNonce.t.
Proof. solve_counter_aead; unfold WithCounterNonce.Seal in *; seal_cases. Qed.

#[export] Instance ForTLS12_AEAD : CounterAEAD ForTLS12.t.
Proof. solve_counter_aead; unfold ForTLS12.Seal in *; seal_cases. Qed.

#[export] Instance ForSSH_AEAD : CounterAEAD ForSSH.t.
Proof. solve_counter_aead; unfold ForSSH.Seal in *; seal_cases. Qed.

#[export] Instance ForTLS13_AEAD : CounterAEAD ForTLS13.t.
Proof.
  solve_counter_aead; unfold ForTLS13.Seal in *;
    repeat match goal with H : _ /\ _ |- _ => destruct H end;
    try (assert (is_u64 (nonce_counter (c_nonce c) ⊕ ForTLS13.mask s))
           by (apply lxor_range; lia));
    try (assert (is_u64 (nonce_counter (c_nonce c) ⊕ nonce_counter (c_nonce c)))
           by (apply lxor_range; lia));
    seal_cases.
Qed.

(** ** No nonce is used twice *)

Lemma WithCounterNonce_New_inv c s : WithCounterNonce.New c = Ret s -> aead_inv s.
Proof. unfold WithCounterNonce.New. destruct (newGCM_std c); intros H; [|done..]. by apply Ret_inj in H as <-. Qed.
Lemma ForTLS12_New_inv c s : ForTLS12.New c = Ret s -> aead_inv s.
Proof. unfold ForTLS12.New. destruct (newGCM_std c); intros H; [|done..]. by apply Ret_inj in H as <-. Qed.
Lemma ForTLS13_New_inv c s : ForTLS13.New c = Ret s -> aead_inv s.
Proof. unfold ForTLS13.New. destruct (newGCM_std c); intros H; [|done..]. by apply Ret_inj in H as <-. Qed.
Lemma ForSSH_New_inv c s : ForSSH.New c = Ret s -> aead_inv s.
Proof. unfold ForSSH.New. destruct (newGCM_std c); intros H; [|done..]. by apply Ret_inj in H as <-. Qed.

(** C31: whatever calls are made on an AEAD of gcm_nonces.go, in any order and
    with any arguments, panicking ones included, no two of them seal something
    under the same nonce. *)
Theorem nonces_never_reused (E : Type) (cipher : blockExpanded) (calls : list call) :
  Forall call_ok calls ->
  (forall s, WithCounterNonce.New cipher = Ret s -> NoDup (sealed_nonces (E:=E) s calls)) /\
  (forall s, ForTLS12.New cipher = Ret s -> NoDup (sealed_nonces (E:=E) s calls)) /\
  (forall s, ForTLS13.New cipher = Ret s -> NoDup (sealed_nonces (E:=E) s calls)) /\
  (forall s, ForSSH.New cipher = Ret s -> NoDup (sealed_nonces (E:=E) s calls)).
Proof.
  intros Hc. split_and!; intros s Hs; apply sealed_NoDup; try done.
  - by apply (WithCounterNonce_New_inv cipher).
  - by apply (ForTLS12_New_inv cipher).
  - by apply (ForTLS13_New_inv cipher).
  - by apply (ForSSH_New_inv cipher).
Qed.

(** ** Witness *)

Definition w_call (n : bytes) : call := {|
  c_alloc := 0x9000;
  c_dst := {| ptr := 0x1000; data := []; spare := [] |};
  c_nonce := n;
  c_plaintext := {| ptr := 0x2000; data := tc4_plain; spare := [] |};
  c_data := {| ptr := 0x3000; data := tc4_aad; spare := [] |}
|}.
Definition w_iv : bytes := tc4_nonce.
Definition w_calls : list call :=
  w_call <$> [w_iv; [1; 2; 3]; w_iv; take 11 w_iv ++ [0x89]; take 11 w_iv ++ [0x8a]; take 11 w_iv ++ [0x89]].
Definition w_block : blockExpanded :=
  match aes_New tc4_key with Ret c => c | _ => zeroBlock end.
Definition w_tls13 : ForTLS13.t :=
  match ForTLS13.New w_block with
  | Ret s => s
  | _ => ForTLS13.mk {| cipher := zeroBlock; nonceSize := 0; tagSize := 0 |} false 0 0
  end.

Lemma nonces_never_reused_witness :
  NoDup (sealed_nonces (E:=unit) w_tls13 w_calls) /\
  sealed_nonces (E:=unit) w_tls13 w_calls =
    [w_iv; take 11 w_iv ++ [0x89]; take 11 w_iv ++ [0x8a]].
Proof.
  split; [|vm_compute; reflexivity].
  assert (Hc : Forall call_ok w_calls) by (repeat constructor; unfold call_ok; compute_decide).
  destruct (nonces_never_reused unit w_block w_calls Hc) as (_ & _ & H & _).
  apply H. vm_compute. reflexivity.
Defined.
