(* ===== verification/Common.v ===== *)
(** * common.go, alert.go: the constants of the protocol

    Versions, limits of the record layer, types of records, messages and
    extensions, groups, signature schemes and alerts. *)

From S2P Require Import Prelude.

Open Scope go_scope.

(** ** Versions *)

Definition VersionTLS10 : Z := 0x0301.
Definition VersionTLS11 : Z := 0x0302.
Definition VersionTLS12 : Z := 0x0303.
Definition VersionTLS13 : Z := 0x0304.
Definition VersionSSL30 : Z := 0x0300.

(** ** Record layer limits *)

Definition maxPlaintext : Z := 16384.
Definition maxCiphertext : Z := 16384 + 2048.
Definition maxCiphertextTLS13 : Z := 16384 + 256.
Definition recordHeaderLen : Z := 5.
Definition maxHandshake : Z := 65536.
Definition maxHandshakeCertificateMsg : Z := 262144.
Definition maxUselessRecords : Z := 16.

(** ** Record types *)

Definition recordTypeChangeCipherSpec : Z := 20.
Definition recordTypeAlert : Z := 21.
Definition recordTypeHandshake : Z := 22.
Definition recordTypeApplicationData : Z := 23.

(** ** Handshake message types *)

Definition typeHelloRequest : Z := 0.
Definition typeClientHello : Z := 1.
Definition typeServerHello : Z := 2.
Definition typeNewSessionTicket : Z := 4.
Definition typeEndOfEarlyData : Z := 5.
Definition typeEncryptedExtensions : Z := 8.
Definition typeCertificate : Z := 11.
Definition typeServerKeyExchange : Z := 12.
Definition typeCertificateRequest : Z := 13.
Definition typeServerHelloDone : Z := 14.
Definition typeCertificateVerify : Z := 15.
Definition typeClientKeyExchange : Z := 16.
Definition typeFinished : Z := 20.
Definition typeCertificateStatus : Z := 22.
Definition typeKeyUpdate : Z := 24.
Definition typeMessageHash : Z := 254.

(** ** Extensions *)

Definition extensionServerName : Z := 0.
Definition extensionStatusRequest : Z := 5.
Definition extensionSupportedCurves : Z := 10.
Definition extensionSupportedPoints : Z := 11.
Definition extensionSignatureAlgorithms : Z := 13.
Definition extensionALPN : Z := 16.
Definition extensionSCT : Z := 18.
Definition extensionExtendedMasterSecret : Z := 23.
Definition extensionSessionTicket : Z := 35.
Definition extensionPreSharedKey : Z := 41.
Definition extensionEarlyData : Z := 42.
Definition extensionSupportedVersions : Z := 43.
Definition extensionCookie : Z := 44.
Definition extensionPSKModes : Z := 45.
Definition extensionCertificateAuthorities : Z := 47.
Definition extensionSignatureAlgorithmsCert : Z := 50.
Definition extensionKeyShare : Z := 51.
Definition extensionQUICTransportParameters : Z := 57.
Definition extensionRenegotiationInfo : Z := 0xff01.
Definition extensionECHOuterExtensions : Z := 0xfd00.
Definition extensionEncryptedClientHello : Z := 0xfe0d.

(** ** Other code points *)

Definition scsvRenegotiation : Z := 0x00ff.
Definition pskModePlain : Z := 0.
Definition pskModeDHE : Z := 1.
Definition pointFormatUncompressed : Z := 0.
Definition statusTypeOCSP : Z := 1.

Definition compressionNone : Z := 0.
Definition certTypeRSASign : Z := 1.
Definition certTypeECDSASign : Z := 64.

(** ** Curves *)

Definition CurveP256 : Z := 23.
Definition CurveP384 : Z := 24.
Definition CurveP521 : Z := 25.
Definition X25519 : Z := 29.
Definition X25519MLKEM768 : Z := 4588.

(** ** Signature schemes *)

Definition PKCS1WithSHA256 : Z := 0x0401.
Definition PKCS1WithSHA384 : Z := 0x0501.
Definition PKCS1WithSHA512 : Z := 0x0601.
Definition PSSWithSHA256 : Z := 0x0804.
Definition PSSWithSHA384 : Z := 0x0805.
Definition PSSWithSHA512 : Z := 0x0806.
Definition ECDSAWithP256AndSHA256 : Z := 0x0403.
Definition ECDSAWithP384AndSHA384 : Z := 0x0503.
Definition ECDSAWithP521AndSHA512 : Z := 0x0603.
Definition Ed25519 : Z := 0x0807.
Definition PKCS1WithSHA1 : Z := 0x0201.
Definition ECDSAWithSHA1 : Z := 0x0203.

Definition signaturePKCS1v15 : Z := 225.
Definition signatureRSAPSS : Z := 226.
Definition signatureECDSA : Z := 227.
Definition signatureEd25519 : Z := 228.

(** ** Alerts *)

Definition alertLevelWarning : Z := 1.
Definition alertLevelError : Z := 2.
Definition alertCloseNotify : Z := 0.
Definition alertUnexpectedMessage : Z := 10.
Definition alertBadRecordMAC : Z := 20.
Definition alertDecryptionFailed : Z := 21.
Definition alertRecordOverflow : Z := 22.
Definition alertDecompressionFailure : Z := 30.
Definition alertHandshakeFailure : Z := 40.
Definition alertBadCertificate : Z := 42.
Definition alertUnsupportedCertificate : Z := 43.
Definition alertCertificateRevoked : Z := 44.
Definition alertCertificateExpired : Z := 45.
Definition alertCertificateUnknown : Z := 46.
Definition alertIllegalParameter : Z := 47.
Definition alertUnknownCA : Z := 48.
Definition alertAccessDenied : Z := 49.
Definition alertDecodeError : Z := 50.
Definition alertDecryptError : Z := 51.
Definition alertExportRestriction : Z := 60.
Definition alertProtocolVersion : Z := 70.
Definition alertInsufficientSecurity : Z := 71.
Definition alertInternalError : Z := 80.
Definition alertInappropriateFallback : Z := 86.
Definition alertUserCanceled : Z := 90.
Definition alertNoRenegotiation : Z := 100.
Definition alertMissingExtension : Z := 109.
Definition alertUnsupportedExtension : Z := 110.
Definition alertCertificateUnobtainable : Z := 111.
Definition alertUnrecognizedName : Z := 112.
Definition alertBadCertificateStatusResponse : Z := 113.
Definition alertBadCertificateHashValue : Z := 114.
Definition alertUnknownPSKIdentity : Z := 115.
Definition alertCertificateRequired : Z := 116.
Definition alertNoApplicationProtocol : Z := 120.
Definition alertECHRequired : Z := 121.
