(* ===== verification/CipherSuites.v ===== *)
(** * cipher_suites.go: the cipher suites and the nonce-managing AEADs

    The suite tables with the function pointers as enumerations, the selection
    functions, and the two wrappers [prefixNonceAEAD] (TLS 1.2) and
    [xorNonceAEAD] (TLS 1.3) over any implementation of Go's [cipher.AEAD],
    here the class [AEAD].  ChaCha20-Poly1305 is a package outside the
    repository and enters only as such an implementation. *)

From S2P Require Import Prelude Common Alias Aes AesProofs Ghash Gcm GcmNonces.

Open Scope go_scope.

(** ** Identifiers *)

Definition TLS_RSA_WITH_RC4_128_SHA : Z := 0x0005.
Definition TLS_RSA_WITH_3DES_EDE_CBC_SHA : Z := 0x000a.
Definition TLS_RSA_WITH_AES_128_CBC_SHA : Z := 0x002f.
Definition TLS_RSA_WITH_AES_256_CBC_SHA : Z := 0x0035.
Definition TLS_RSA_WITH_AES_128_CBC_SHA256 : Z := 0x003c.
Definition TLS_RSA_WITH_AES_128_GCM_SHA256 : Z := 0x009c.
Definition TLS_RSA_WITH_AES_256_GCM_SHA384 : Z := 0x009d.
Definition TLS_ECDHE_ECDSA_WITH_RC4_128_SHA : Z := 0xc007.
Definition TLS_ECDHE_ECDSA_WITH_AES_128_CBC_SHA : Z := 0xc009.
Definition TLS_ECDHE_ECDSA_WITH_AES_256_CBC_SHA : Z := 0xc00a.
Definition TLS_ECDHE_RSA_WITH_RC4_128_SHA : Z := 0xc011.
Definition TLS_ECDHE_RSA_WITH_3DES_EDE_CBC_SHA : Z := 0xc012.
Definition TLS_ECDHE_RSA_WITH_AES_128_CBC_SHA : Z := 0xc013.
Definition TLS_ECDHE_RSA_WITH_AES_256_CBC_SHA : Z := 0xc014.
Definition TLS_ECDHE_ECDSA_WITH_AES_128_CBC_SHA256 : Z := 0xc023.
Definition TLS_ECDHE_RSA_WITH_AES_128_CBC_SHA256 : Z := 0xc027.
Definition TLS_ECDHE_RSA_WITH_AES_128_GCM_SHA256 : Z := 0xc02f.
Definition TLS_ECDHE_ECDSA_WITH_AES_128_GCM_SHA256 : Z := 0xc02b.
Definition TLS_ECDHE_RSA_WITH_AES_256_GCM_SHA384 : Z := 0xc030.
Definition TLS_ECDHE_ECDSA_WITH_AES_256_GCM_SHA384 : Z := 0xc02c.
Definition TLS_ECDHE_RSA_WITH_CHACHA20_POLY1305 : Z := 0xcca8.
Definition TLS_ECDHE_ECDSA_WITH_CHACHA20_POLY1305 : Z := 0xcca9.
Definition TLS_AES_128_GCM_SHA256 : Z := 0x1301.
Definition TLS_AES_256_GCM_SHA384 : Z := 0x1302.
Definition TLS_CHACHA20_POLY1305_SHA256 : Z := 0x1303.
Definition TLS_FALLBACK_SCSV : Z := 0x5600.

(** ** The tables *)

(** [keyAgreement] constructors, and the cipher, MAC and AEAD constructors. *)
Inductive ka_fn := rsaKA | ecdheRSAKA | ecdheECDSAKA.
Inductive cipher_fn := cipherRC4 | cipher3DES | cipherAES.
Inductive mac_fn := macSHA1 | macSHA256.
Inductive aead_fn := fnAESGCM | fnAESGCMTLS13 | fnChaCha20Poly1305.
Inductive crypto_hash := SHA256 | SHA384.

#[export] Instance crypto_hash_eq_dec : EqDecision crypto_hash.
Proof. solve_decision. Defined.
#[export] Instance aead_fn_eq_dec : EqDecision aead_fn.
Proof. solve_decision. Defined.

Definition suiteECDHE : Z := 1.
Definition suiteECSign : Z := 2.
Definition suiteTLS12 : Z := 4.
Definition suiteSHA384 : Z := 8.

Record cipherSuite := mkSuite {
  id : Z;
  keyLen : Z;
  macLen : Z;
  ivLen : Z;
  ka : ka_fn;
  flags : Z;
  cs_cipher : option cipher_fn;
  cs_mac : option mac_fn;
  cs_aead : option aead_fn
}.

Definition cipherSuites : list cipherSuite := [
  mkSuite TLS_ECDHE_RSA_WITH_CHACHA20_POLY1305 32 0 12 ecdheRSAKA (suiteECDHE ||| suiteTLS12) None None (Some fnChaCha20Poly1305);
  mkSuite TLS_ECDHE_ECDSA_WITH_CHACHA20_POLY1305 32 0 12 ecdheECDSAKA (suiteECDHE ||| suiteECSign ||| suiteTLS12) None None (Some fnChaCha20Poly1305);
  mkSuite TLS_ECDHE_RSA_WITH_AES_128_GCM_SHA256 16 0 4 ecdheRSAKA (suiteECDHE ||| suiteTLS12) None None (Some fnAESGCM);
  mkSuite TLS_ECDHE_ECDSA_WITH_AES_128_GCM_SHA256 16 0 4 ecdheECDSAKA (suiteECDHE ||| suiteECSign ||| suiteTLS12) None None (Some fnAESGCM);
  mkSuite TLS_ECDHE_RSA_WITH_AES_256_GCM_SHA384 32 0 4 ecdheRSAKA (suiteECDHE ||| suiteTLS12 ||| suiteSHA384) None None (Some fnAESGCM);
  mkSuite TLS_ECDHE_ECDSA_WITH_AES_256_GCM_SHA384 32 0 4 ecdheECDSAKA (suiteECDHE ||| suiteECSign ||| suiteTLS12 ||| suiteSHA384) None None (Some fnAESGCM);
  mkSuite TLS_ECDHE_RSA_WITH_AES_128_CBC_SHA256 16 32 16 ecdheRSAKA (suiteECDHE ||| suiteTLS12) (Some cipherAES) (Some macSHA256) None;
  mkSuite TLS_ECDHE_RSA_WITH_AES_128_CBC_SHA 16 20 16 ecdheRSAKA suiteECDHE (Some cipherAES) (Some macSHA1) None;
  mkSuite TLS_ECDHE_ECDSA_WITH_AES_128_CBC_SHA256 16 32 16 ecdheECDSAKA (suiteECDHE ||| suiteECSign ||| suiteTLS12) (Some cipherAES) (Some macSHA256) None;
  mkSuite TLS_ECDHE_ECDSA_WITH_AES_128_CBC_SHA 16 20 16 ecdheECDSAKA (suiteECDHE ||| suiteECSign) (Some cipherAES) (Some macSHA1) None;
  mkSuite TLS_ECDHE_RSA_WITH_AES_256_CBC_SHA 32 20 16 ecdheRSAKA suiteECDHE (Some cipherAES) (Some macSHA1) None;
  mkSuite TLS_ECDHE_ECDSA_WITH_AES_256_CBC_SHA 32 20 16 ecdheECDSAKA (suiteECDHE ||| suiteECSign) (Some cipherAES) (Some macSHA1) None;
  mkSuite TLS_RSA_WITH_AES_128_GCM_SHA256 16 0 4 rsaKA suiteTLS12 None None (Some fnAESGCM);
  mkSuite TLS_RSA_WITH_AES_256_GCM_SHA384 32 0 4 rsaKA (suiteTLS12 ||| suiteSHA384) None None (Some fnAESGCM);
  mkSuite TLS_RSA_WITH_AES_128_CBC_SHA256 16 32 16 rsaKA suiteTLS12 (Some cipherAES) (Some macSHA256) None;
  mkSuite TLS_RSA_WITH_AES_128_CBC_SHA 16 20 16 rsaKA 0 (Some cipherAES) (Some macSHA1) None;
  mkSuite TLS_RSA_WITH_AES_256_CBC_SHA 32 20 16 rsaKA 0 (Some cipherAES) (Some macSHA1) None;
  mkSuite TLS_ECDHE_RSA_WITH_3DES_EDE_CBC_SHA 24 20 8 ecdheRSAKA suiteECDHE (Some cipher3DES) (Some macSHA1) None;
  mkSuite TLS_RSA_WITH_3DES_EDE_CBC_SHA 24 20 8 rsaKA 0 (Some cipher3DES) (Some macSHA1) None;
  mkSuite TLS_RSA_WITH_RC4_128_SHA 16 20 0 rsaKA 0 (Some cipherRC4) (Some macSHA1) None;
  mkSuite TLS_ECDHE_RSA_WITH_RC4_128_SHA 16 20 0 ecdheRSAKA suiteECDHE (Some cipherRC4) (Some macSHA1) None;
  mkSuite TLS_ECDHE_ECDSA_WITH_RC4_128_SHA 16 20 0 ecdheECDSAKA (suiteECDHE ||| suiteECSign) (Some cipherRC4) (Some macSHA1) None
].

Record cipherSuiteTLS13 := mkSuite13 {
  id13 : Z;
  keyLen13 : Z;
  aead13 : aead_fn;
  hash13 : crypto_hash
}.

Definition cipherSuitesTLS13 : list cipherSuiteTLS13 := [
  mkSuite13 TLS_AES_128_GCM_SHA256 16 fnAESGCMTLS13 SHA256;
  mkSuite13 TLS_CHACHA20_POLY1305_SHA256 32 fnChaCha20Poly1305 SHA256;
  mkSuite13 TLS_AES_256_GCM_SHA384 32 fnAESGCMTLS13 SHA384
].

Definition cipherSuitesPreferenceOrder : list Z := [
  TLS_ECDHE_ECDSA_WITH_AES_128_GCM_SHA256; TLS_ECDHE_RSA_WITH_AES_128_GCM_SHA256;
  TLS_ECDHE_ECDSA_WITH_AES_256_GCM_SHA384; TLS_ECDHE_RSA_WITH_AES_256_GCM_SHA384;
  TLS_ECDHE_ECDSA_WITH_CHACHA20_POLY1305; TLS_ECDHE_RSA_WITH_CHACHA20_POLY1305;
  TLS_ECDHE_ECDSA_WITH_AES_128_CBC_SHA; TLS_ECDHE_RSA_WITH_AES_128_CBC_SHA;
  TLS_ECDHE_ECDSA_WITH_AES_256_CBC_SHA; TLS_ECDHE_RSA_WITH_AES_256_CBC_SHA;
  TLS_RSA_WITH_AES_128_GCM_SHA256; TLS_RSA_WITH_AES_256_GCM_SHA384;
  TLS_RSA_WITH_AES_128_CBC_SHA; TLS_RSA_WITH_AES_256_CBC_SHA;
  TLS_ECDHE_RSA_WITH_3DES_EDE_CBC_SHA; TLS_RSA_WITH_3DES_EDE_CBC_SHA;
  TLS_ECDHE_ECDSA_WITH_AES_128_CBC_SHA256; TLS_ECDHE_RSA_WITH_AES_128_CBC_SHA256;
  TLS_RSA_WITH_AES_128_CBC_SHA256;
  TLS_ECDHE_ECDSA_WITH_RC4_128_SHA; TLS_ECDHE_RSA_WITH_RC4_128_SHA;
  TLS_RSA_WITH_RC4_128_SHA
].

Definition cipherSuitesPreferenceOrderNoAES : list Z := [
  TLS_ECDHE_ECDSA_WITH_CHACHA20_POLY1305; TLS_ECDHE_RSA_WITH_CHACHA20_POLY1305;
  TLS_ECDHE_ECDSA_WITH_AES_128_GCM_SHA256; TLS_ECDHE_RSA_WITH_AES_128_GCM_SHA256;
  TLS_ECDHE_ECDSA_WITH_AES_256_GCM_SHA384; TLS_ECDHE_RSA_WITH_AES_256_GCM_SHA384;
  TLS_ECDHE_ECDSA_WITH_AES_128_CBC_SHA; TLS_ECDHE_RSA_WITH_AES_128_CBC_SHA;
  TLS_ECDHE_ECDSA_WITH_AES_256_CBC_SHA; TLS_ECDHE_RSA_WITH_AES_256_CBC_SHA;
  TLS_RSA_WITH_AES_128_GCM_SHA256; TLS_RSA_WITH_AES_256_GCM_SHA384;
  TLS_RSA_WITH_AES_128_CBC_SHA; TLS_RSA_WITH_AES_256_CBC_SHA;
  TLS_ECDHE_RSA_WITH_3DES_EDE_CBC_SHA; TLS_RSA_WITH_3DES_EDE_CBC_SHA;
  TLS_ECDHE_ECDSA_WITH_AES_128_CBC_SHA256; TLS_ECDHE_RSA_WITH_AES_128_CBC_SHA256;
  TLS_RSA_WITH_AES_128_CBC_SHA256;
  TLS_ECDHE_ECDSA_WITH_RC4_128_SHA; TLS_ECDHE_RSA_WITH_RC4_128_SHA;
  TLS_RSA_WITH_RC4_128_SHA
].

(** The [map[uint16]bool]s, all of whose values are [true]. *)
Definition disabledCipherSuites : list Z := [
  TLS_ECDHE_ECDSA_WITH_AES_128_CBC_SHA256; TLS_ECDHE_RSA_WITH_AES_128_CBC_SHA256;
  TLS_RSA_WITH_AES_128_CBC_SHA256;
  TLS_ECDHE_ECDSA_WITH_RC4_128_SHA; TLS_ECDHE_RSA_WITH_RC4_128_SHA;
  TLS_RSA_WITH_RC4_128_SHA
].
Definition rsaKexCiphers : list Z := [
  TLS_RSA_WITH_RC4_128_SHA; TLS_RSA_WITH_3DES_EDE_CBC_SHA;
  TLS_RSA_WITH_AES_128_CBC_SHA; TLS_RSA_WITH_AES_256_CBC_SHA;
  TLS_RSA_WITH_AES_128_CBC_SHA256;
  TLS_RSA_WITH_AES_128_GCM_SHA256; TLS_RSA_WITH_AES_256_GCM_SHA384
].
Definition tdesCiphers : list Z := [
  TLS_ECDHE_RSA_WITH_3DES_EDE_CBC_SHA; TLS_RSA_WITH_3DES_EDE_CBC_SHA
].
Definition aesgcmCiphers : list Z := [
  TLS_ECDHE_RSA_WITH_AES_128_GCM_SHA256; TLS_ECDHE_RSA_WITH_AES_256_GCM_SHA384;
  TLS_ECDHE_ECDSA_WITH_AES_128_GCM_SHA256; TLS_ECDHE_ECDSA_WITH_AES_256_GCM_SHA384;
  TLS_AES_128_GCM_SHA256; TLS_AES_256_GCM_SHA384
].

(** ** Selection *)

(** [slices.Contains], and lookup in a [map[uint16]bool]. *)
Definition contains (ids : list Z) (x : Z) : bool := bool_decide (x ∈ ids).

Definition cipherSuiteByID (i : Z) : option cipherSuite :=
  List.find (fun c => id c =? i) cipherSuites.

Definition cipherSuiteTLS13ByID (i : Z) : option cipherSuiteTLS13 :=
  List.find (fun c => id13 c =? i) cipherSuitesTLS13.

Fixpoint selectCipherSuite (ids supportedIDs : list Z) (ok : cipherSuite -> bool)
  : option cipherSuite :=
  match ids with
  | [] => None
  | i :: ids =>
      match cipherSuiteByID i with
      | None => selectCipherSuite ids supportedIDs ok
      | Some candidate =>
          if negb (ok candidate) then selectCipherSuite ids supportedIDs ok
          else if existsb (fun suppID => i =? suppID) supportedIDs then Some candidate
          else selectCipherSuite ids supportedIDs ok
      end
  end.

Fixpoint mutualCipherSuite (have : list Z) (want : Z) : option cipherSuite :=
  match have with
  | [] => None
  | i :: have => if i =? want then cipherSuiteByID i else mutualCipherSuite have want
  end.

Fixpoint mutualCipherSuiteTLS13 (have : list Z) (want : Z) : option cipherSuiteTLS13 :=
  match have with
  | [] => None
  | i :: have => if i =? want then cipherSuiteTLS13ByID i else mutualCipherSuiteTLS13 have want
  end.

(** [hw] is [hasAESGCMHardwareSupport]. *)
Fixpoint isAESGCMPreferred_loop (ciphers : list Z) : bool :=
  match ciphers with
  | [] => false
  | cID :: ciphers =>
      match cipherSuiteByID cID with
      | Some _ => contains aesgcmCiphers cID
      | None =>
          match cipherSuiteTLS13ByID cID with
          | Some _ => contains aesgcmCiphers cID
          | None => isAESGCMPreferred_loop ciphers
          end
      end
  end.

Definition isAESGCMPreferred (hw : bool) (ciphers : list Z) : bool :=
  if negb hw then false else isAESGCMPreferred_loop ciphers.

(** ** [cipher.AEAD] and the wrappers that build its nonces *)

(** The operations of Go's [cipher.AEAD], on an implementation with state [T]. *)
Class AEAD (T : Type) := {
  AEAD_error : Type;
  AEAD_Overhead : T -> Z;
  AEAD_Seal {E} : T -> call -> outcome E bytes * T;
  AEAD_Open : T -> call -> outcome AEAD_error bytes * T
}.

(** [Open] takes the arguments of a [call], with the ciphertext as its text. *)
#[export] Instance ForTLS12_is_AEAD : AEAD ForTLS12.t := {|
  AEAD_error := gcm_error;
  AEAD_Overhead := ForTLS12.Overhead;
  AEAD_Seal E := ForTLS12.Seal;
  AEAD_Open s c :=
    (fst (ForTLS12.Open s (c_alloc c) (c_dst c) (c_nonce c) (c_plaintext c) (c_data c)), s)
|}.

#[export] Instance ForTLS13_is_AEAD : AEAD ForTLS13.t := {|
  AEAD_error := gcm_error;
  AEAD_Overhead := ForTLS13.Overhead;
  AEAD_Seal E := ForTLS13.Seal;
  AEAD_Open s c :=
    (fst (ForTLS13.Open s (c_alloc c) (c_dst c) (c_nonce c) (c_plaintext c) (c_data c)), s)
|}.

Definition aeadNonceLength : Z := 12.
Definition noncePrefixLength : Z := 4.

Definition with_nonce (c : call) (n : bytes) : call := {|
  c_alloc := c_alloc c; c_dst := c_dst c; c_nonce := n;
  c_plaintext := c_plaintext c; c_data := c_data c
|}.

Module prefixNonceAEAD.
Record t (T : Type) := mk { nonce : bytes; aead : T }.
Arguments mk {T} nonce aead.
Arguments nonce {T} t.
Arguments aead {T} t.

Definition NonceSize {T} (f : t T) : Z := aeadNonceLength - noncePrefixLength.
Definition Overhead {T} `{AEAD T} (f : t T) : Z := AEAD_Overhead (aead f).
Definition explicitNonceLen {T} (f : t T) : Z := NonceSize f.

(** [copy(f.nonce[4:], nonce)] *)
Definition set_nonce {T} (f : t T) (n : bytes) : bytes :=
  take 4 (nonce f) ++ copy (drop 4 (nonce f)) n.

Definition Seal {T} `{AEAD T} {E} (f : t T) (c : call) : outcome E bytes * t T :=
  let n := set_nonce f (c_nonce c) in
  let '(r, a) := AEAD_Seal (aead f) (with_nonce c n) in (r, mk n a).

Definition Open {T} `{AEAD T} (f : t T) (c : call) : outcome AEAD_error bytes * t T :=
  let n := set_nonce f (c_nonce c) in
  let '(r, a) := AEAD_Open (aead f) (with_nonce c n) in (r, mk n a).
End prefixNonceAEAD.

Module xorNonceAEAD.
Record t (T : Type) := mk { nonceMask : bytes; aead : T }.
Arguments mk {T} nonceMask aead.
Arguments nonceMask {T} t.
Arguments aead {T} t.

Definition NonceSize {T} (f : t T) : Z := 8.
Definition Overhead {T} `{AEAD T} (f : t T) : Z := AEAD_Overhead (aead f).
Definition explicitNonceLen {T} (f : t T) : Z := 0.

(** [for i, b := range nonce { f.nonceMask[4+i] ^= b }]: the new mask, and
    whether every index was in range. *)
Fixpoint xor_nonce (i : nat) (mask n : bytes) : bytes * bool :=
  match n with
  | [] => (mask, true)
  | b :: n =>
      match mask !! (4 + i)%nat with
      | None => (mask, false)
      | Some x => xor_nonce (S i) (<[(4 + i)%nat := x ⊕ b]> mask) n
      end
  end.

(** The mask is XORed, used and XORed back; a panic leaves it as it is. *)
Definition around {T A E'} (f : t T) (n : bytes)
    (op : bytes -> outcome E' A * T) : outcome E' A * t T :=
  let '(mask, ok) := xor_nonce 0 (nonceMask f) n in
  if negb ok then (Panic index_out_of_range, mk mask (aead f)) else
  let '(r, a) := op mask in
  match r with
  | Panic w => (Panic w, mk mask a)
  | _ =>
      let '(mask, ok) := xor_nonce 0 mask n in
      if negb ok then (Panic index_out_of_range, mk mask a) else (r, mk mask a)
  end.

Definition Seal {T} `{AEAD T} {E} (f : t T) (c : call) : outcome E bytes * t T :=
  around f (c_nonce c) (fun mask => AEAD_Seal (aead f) (with_nonce c mask)).

Definition Open {T} `{AEAD T} (f : t T) (c : call) : outcome AEAD_error bytes * t T :=
  around f (c_nonce c) (fun mask => AEAD_Open (aead f) (with_nonce c mask)).
End xorNonceAEAD.

(** The constructors.  [err] of [aes.New] and of [NewGCMFor...] is a panic. *)
Definition panic_on_err {E E' A} (m : outcome E A) : outcome E' A :=
  match m with
  | Ret a => Ret a
  | Err _ => Panic "err"
  | Panic w => Panic w
  end.

Definition wrong_nonce_length : string := "tls: internal error: wrong nonce length".

Definition aeadAESGCM {E} (key noncePrefix : bytes)
  : outcome E (prefixNonceAEAD.t ForTLS12.t) :=
  if negb (Z.of_nat (length noncePrefix) =? noncePrefixLength) then Panic wrong_nonce_length else
  let! aes := panic_on_err (aes_New key) in
  let! aead := panic_on_err (ForTLS12.New aes) in
  Ret (prefixNonceAEAD.mk (copy (replicate 12 0) noncePrefix) aead).

Definition aeadAESGCMTLS13 {E} (key nonceMask : bytes)
  : outcome E (xorNonceAEAD.t ForTLS13.t) :=
  if negb (Z.of_nat (length nonceMask) =? aeadNonceLength) then Panic wrong_nonce_length else
  let! aes := panic_on_err (aes_New key) in
  let! aead := panic_on_err (ForTLS13.New aes) in
  Ret (xorNonceAEAD.mk (copy (replicate 12 0) nonceMask) aead).

(** [chacha_new] is [chacha20poly1305.New]. *)
Definition aeadChaCha20Poly1305 {E E' T} (chacha_new : bytes -> outcome E' T)
    (key nonceMask : bytes) : outcome E (xorNonceAEAD.t T) :=
  if negb (Z.of_nat (length nonceMask) =? aeadNonceLength) then Panic wrong_nonce_length else
  let! aead := panic_on_err (chacha_new key) in
  Ret (xorNonceAEAD.mk (copy (replicate 12 0) nonceMask) aead).
