(* ===== verification/CipherSuitesProofs.v ===== *)
(** * Theorems about cipher_suites.go

    The record nonces: the TLS 1.3 AEAD applied to the sequence numbers 0, 1,
    2, ... seals under [iv XOR seq], and the nonce check of gcm_nonces.go never
    stands in the way.  The tables: every suite is complete and the preference
    lists cover them.  The selection functions. *)

From S2P Require Import Prelude Common Alias Aes AesProofs Ghash Gcm GcmSpec GcmNonces CipherSuites.

Open Scope go_scope.

(** ** [xor_nonce] *)

(** [iv] with [n] XORed into its tail. *)
Definition xor_iv (iv n : bytes) : bytes := take 4 iv ++ zip_with Z.lxor (drop 4 iv) n.

Lemma insert_drop_head {A} (l : list A) i x y : l !! i = Some x ->
  take (S i) (<[i := y]> l) = take i l ++ [y] /\ drop (S i) (<[i := y]> l) = drop (S i) l.
Proof.
  intros H. apply lookup_lt_Some in H. split; [by apply take_S_insert|].
  apply drop_insert_lt. lia.
Qed.

Lemma xor_nonce_spec i mask n : (4 + i + length n = length mask)%nat ->
  xorNonceAEAD.xor_nonce i mask n =
  (take (4 + i) mask ++ zip_with Z.lxor (drop (4 + i) mask) n, true).
Proof.
  revert i mask. induction n as [|b n IH]; intros i mask Hl; cbn [xorNonceAEAD.xor_nonce].
  { cbn [length] in Hl. rewrite zip_with_nil_r, take_ge, app_nil_r by lia. done. }
  cbn [length] in Hl.
  destruct (lookup_lt_is_Some_2 mask (4 + i)) as [x Hx]; [lia|]. rewrite Hx.
  rewrite IH by (rewrite length_insert; lia).
  change (4 + S i)%nat with (S (4 + i)).
  destruct (insert_drop_head mask (4 + i) x (x ⊕ b) Hx) as [-> ->].
  rewrite (drop_S mask x (4 + i) Hx). cbn [zip_with]. by rewrite <- app_assoc.
Qed.

Lemma length_xor_iv iv n : length iv = 12%nat -> length n = 8%nat -> length (xor_iv iv n) = 12%nat.
Proof.
  intros Hi Hn. unfold xor_iv. rewrite length_app, length_take, length_zip_with, length_drop. lia.
Qed.

Lemma xor_nonce_iv iv n : length iv = 12%nat -> length n = 8%nat ->
  xorNonceAEAD.xor_nonce 0 iv n = (xor_iv iv n, true).
Proof. intros Hi Hn. apply xor_nonce_spec. lia. Qed.

Lemma xor_iv_involutive iv n : length iv = 12%nat -> length n = 8%nat ->
  xor_iv (xor_iv iv n) n = iv.
Proof.
  intros Hi Hn. unfold xor_iv at 1 2.
  assert (H4 : length (take 4 iv) = 4%nat) by (rewrite length_take; lia).
  rewrite take_app_length', drop_app_length' by done.
  rewrite zip_xor_cancel by (rewrite length_drop; lia). by apply take_drop.
Qed.

Lemma xor_iv_ok iv n : bytes_ok iv -> bytes_ok n -> bytes_ok (xor_iv iv n).
Proof.
  intros Hi Hn. apply Forall_app. split; [by apply Forall_take|].
  apply zip_xor_ok; [by apply Forall_drop|done].
Qed.

(** The counter of the nonce of record [k]. *)
Lemma nonce_counter_xor_iv iv k : bytes_ok iv -> length iv = 12%nat -> is_u64 k ->
  nonce_counter (xor_iv iv (PutUint64 k)) = be_get (drop 4 iv) ⊕ k.
Proof.
  intros Hok Hl Hk. unfold nonce_counter, PutUint64.
  rewrite length_xor_iv by (done || by rewrite length_be_put).
  change (12 - 8)%nat with 4%nat. unfold xor_iv, Uint64.
  assert (H4 : length (take 4 iv) = 4%nat) by (rewrite length_take; lia).
  rewrite drop_app_length' by done.
  assert (Hd : length (drop 4 iv) = 8%nat) by (rewrite length_drop; lia).
  rewrite take_ge by (rewrite length_zip_with, length_be_put; lia).
  rewrite be_get_zip_lxor;
    [|by apply Forall_drop|apply be_put_ok|by rewrite length_be_put].
  rewrite be_get_put. by rewrite Z.mod_small.
Qed.

(** ** The AEADs on the record sequence numbers *)

(** The outcomes of successive [Seal]s. *)
Fixpoint seal_run {T A} (seal : T -> call -> A * T) (s : T) (cs : list call) : list A :=
  match cs with
  | [] => []
  | c :: cs => let '(r, s') := seal s c in r :: seal_run seal s' cs
  end.

(** What a record is sealed to: AES-GCM of SP 800-38D under nonce [n]. *)
Definition sealed_as (key : bytes) (n : bytes) (c : call) : bytes :=
  data (c_dst c) ++
  spec_seal (fips_encrypt key) 16 n (data (c_plaintext c)) (data (c_data c)).

(** The arguments of the call under nonce [n] pass the guards of [GCM.Seal]. *)
Definition call_admissible (g : GCM) (n : bytes) (c : call) : Prop :=
  seal_args (c_alloc c) g (c_dst c) n (c_plaintext c) (c_data c).

Lemma advance_next {E} k : 0 <= k < MaxUint64 -> advance (E:=E) k k = Ret (k + 1).
Proof.
  unfold MaxUint64. intros Hk. unfold advance, MaxUint64.
  rewrite (proj2 (Z.eqb_neq _ _)), Z.ltb_irrefl by lia. unfold u64.
  by rewrite Z.mod_small by lia.
Qed.

Definition std_gcm (key : bytes) (g : GCM) : Prop := gcm_wf key g /\ tagSize g = 16 /\ nonceSize g = 12.

Lemma seal_call_spec {E} key g n c : std_gcm key g -> call_admissible g n c ->
  seal_call (E:=E) g (with_nonce c n) = Ret (sealed_as key n c).
Proof.
  intros (Hg & Ht & _) Ha. unfold seal_call, with_nonce. cbn.
  change sealAfterIndicator with (@Seal E). rewrite (Seal_spec key g Hg) by done.
  by rewrite Ht.
Qed.

Section tls13.
Context (key iv : bytes) (g : GCM) (Hg : std_gcm key g).
Context (Hiv : bytes_ok iv) (Hlen : length iv = 12%nat).

Definition rec_nonce (k : Z) : bytes := xor_iv iv (PutUint64 k).

(** The state after [k] records. *)
Definition state13 (k : Z) : xorNonceAEAD.t ForTLS13.t :=
  xorNonceAEAD.mk iv
    (if k =? 0 then ForTLS13.mk g false 0 0 else ForTLS13.mk g true (be_get (drop 4 iv)) k).

Lemma Seal13_step {E} k c : 0 <= k < MaxUint64 -> c_nonce c = PutUint64 k ->
  call_admissible g (rec_nonce k) c ->
  xorNonceAEAD.Seal (E:=E) (state13 k) c =
  (Ret (sealed_as key (rec_nonce k) c), state13 (k + 1)).
Proof.
  intros Hk Hc Ha. unfold MaxUint64 in Hk.
  assert (H8 : length (PutUint64 k) = 8%nat) by apply length_be_put.
  unfold xorNonceAEAD.Seal, xorNonceAEAD.around, state13 at 1. cbn [xorNonceAEAD.nonceMask].
  rewrite Hc, xor_nonce_iv by done. fold (rec_nonce k). cbn [negb].
  unfold AEAD_Seal, ForTLS13_is_AEAD, ForTLS13.Seal.
  change (c_nonce (with_nonce c (rec_nonce k))) with (rec_nonce k).
  assert (Hln : length (rec_nonce k) = 12%nat) by by apply length_xor_iv.
  rewrite Hln. change (Z.of_nat 12 =? gcmStandardNonceSize) with true. cbn [negb].
  assert (Hctr : nonce_counter (rec_nonce k) = be_get (drop 4 iv) ⊕ k)
    by (apply nonce_counter_xor_iv; done || lia).
  assert (Hback : xorNonceAEAD.xor_nonce 0 (rec_nonce k) (PutUint64 k) = (iv, true)).
  { unfold rec_nonce. rewrite xor_nonce_iv by (done || by apply length_xor_iv).
    by rewrite xor_iv_involutive. }
  rewrite Hctr. unfold state13. cbn [xorNonceAEAD.aead].
  rewrite (proj2 (Z.eqb_neq (k + 1) 0)) by lia.
  destruct (Z.eqb_spec k 0) as [->|Hk0]; cbn [ForTLS13.ready ForTLS13.mask ForTLS13.next ForTLS13.g].
  - rewrite Z.lxor_0_r, Z.lxor_nilpotent, (advance_next 0) by (unfold MaxUint64; lia).
    cbn [ForTLS13.ready ForTLS13.mask ForTLS13.next ForTLS13.g].
    rewrite (seal_call_spec key) by done. by rewrite Hback.
  - rewrite Z.lxor_comm, <- Z.lxor_assoc, Z.lxor_nilpotent, Z.lxor_0_l, (advance_next k)
      by (unfold MaxUint64; lia).
    cbn [ForTLS13.ready ForTLS13.mask ForTLS13.next ForTLS13.g].
    rewrite (seal_call_spec key) by done. by rewrite Hback.
Qed.

Lemma Seal13_run {E} k calls : 0 <= k -> k + Z.of_nat (length calls) <= MaxUint64 ->
  (forall i c, calls !! i = Some c -> c_nonce c = PutUint64 (k + Z.of_nat i) /\
     call_admissible g (rec_nonce (k + Z.of_nat i)) c) ->
  seal_run (xorNonceAEAD.Seal (E:=E)) (state13 k) calls =
  imap (fun i c => Ret (sealed_as key (rec_nonce (k + Z.of_nat i)) c)) calls.
Proof.
  revert k. induction calls as [|c calls IH]; intros k Hk Hn Hc; [done|].
  cbn [length] in Hn. pose proof (Hc 0%nat c eq_refl) as [H1 H2].
  rewrite Z.add_0_r in H1, H2.
  cbn [seal_run]. rewrite Seal13_step by (done || lia). rewrite imap_cons, Z.add_0_r.
  f_equal. rewrite IH; [|lia..|].
  - apply imap_ext. intros i x _. unfold compose.
    by replace (k + 1 + Z.of_nat i) with (k + Z.of_nat (S i)) by lia.
  - intros i x Hx. specialize (Hc (S i) x Hx).
    by replace (k + 1 + Z.of_nat i) with (k + Z.of_nat (S i)) by lia.
Qed.
End tls13.

Section tls12.
Context (key prefix : bytes) (g : GCM) (Hg : std_gcm key g).
Context (Hlen : length prefix = 4%nat).

Definition rec_nonce12 (k : Z) : bytes := prefix ++ PutUint64 k.

Definition in_state12 (k : Z) (f : prefixNonceAEAD.t ForTLS12.t) : Prop :=
  length (prefixNonceAEAD.nonce f) = 12%nat /\ take 4 (prefixNonceAEAD.nonce f) = prefix /\
  prefixNonceAEAD.aead f = ForTLS12.mk g k.

Lemma Seal12_step {E} k f c : 0 <= k < MaxUint64 -> in_state12 k f -> c_nonce c = PutUint64 k ->
  call_admissible g (rec_nonce12 k) c ->
  fst (prefixNonceAEAD.Seal (E:=E) f c) = Ret (sealed_as key (rec_nonce12 k) c) /\
  in_state12 (k + 1) (snd (prefixNonceAEAD.Seal (E:=E) f c)).
Proof.
  intros Hk (Hl & Ht & Hs) Hc Ha. unfold MaxUint64 in Hk.
  assert (H8 : length (PutUint64 k) = 8%nat) by apply length_be_put.
  assert (Hn : prefixNonceAEAD.set_nonce f (c_nonce c) = rec_nonce12 k).
  { unfold prefixNonceAEAD.set_nonce, rec_nonce12, copy. rewrite Ht, Hc, H8, length_drop, Hl.
    change (min (12 - 4) 8) with 8%nat. rewrite (take_ge (PutUint64 k)) by lia.
    rewrite drop_ge, app_nil_r by (rewrite length_drop; lia). done. }
  unfold prefixNonceAEAD.Seal. rewrite Hn, Hs.
  unfold AEAD_Seal, ForTLS12_is_AEAD, ForTLS12.Seal.
  change (c_nonce (with_nonce c (rec_nonce12 k))) with (rec_nonce12 k).
  assert (Hln : length (rec_nonce12 k) = 12%nat) by (unfold rec_nonce12; rewrite length_app; lia).
  rewrite Hln. change (Z.of_nat 12 =? gcmStandardNonceSize) with true. cbn [negb].
  assert (Hctr : nonce_counter (rec_nonce12 k) = k).
  { unfold nonce_counter. rewrite Hln. change (12 - 8)%nat with 4%nat. unfold rec_nonce12, Uint64.
    rewrite drop_app_length', take_ge by lia. unfold PutUint64. rewrite be_get_put.
    apply Z.mod_small. change (256 ^ Z.of_nat 8) with (2 ^ 64). lia. }
  rewrite Hctr. cbn [ForTLS12.next ForTLS12.g]. rewrite (advance_next k) by (unfold MaxUint64; lia).
  rewrite (seal_call_spec key) by done. split; [done|]. unfold in_state12. cbn.
  split; [done|]. split; [|done]. unfold rec_nonce12. by apply take_app_length'.
Qed.

Lemma Seal12_run {E} k f calls : 0 <= k -> k + Z.of_nat (length calls) <= MaxUint64 ->
  in_state12 k f ->
  (forall i c, calls !! i = Some c -> c_nonce c = PutUint64 (k + Z.of_nat i) /\
     call_admissible g (rec_nonce12 (k + Z.of_nat i)) c) ->
  seal_run (prefixNonceAEAD.Seal (E:=E)) f calls =
  imap (fun i c => Ret (sealed_as key (rec_nonce12 (k + Z.of_nat i)) c)) calls.
Proof.
  revert k f. induction calls as [|c calls IH]; intros k f Hk Hn Hf Hc; [done|].
  cbn [length] in Hn. pose proof (Hc 0%nat c eq_refl) as [H1 H2].
  rewrite Z.add_0_r in H1, H2. cbn [seal_run].
  destruct (Seal12_step (E:=E) k f c ltac:(lia) Hf H1 H2) as [H3 H4].
  destruct (prefixNonceAEAD.Seal f c) as [r f']. simpl in H3, H4. subst r.
  rewrite imap_cons, Z.add_0_r. f_equal. rewrite (IH (k + 1)); [|lia|lia|done|].
  - apply imap_ext. intros i x _. unfold compose.
    by replace (k + 1 + Z.of_nat i) with (k + Z.of_nat (S i)) by lia.
  - intros i x Hx. specialize (Hc (S i) x Hx).
    by replace (k + 1 + Z.of_nat i) with (k + Z.of_nat (S i)) by lia.
Qed.
End tls12.

Lemma newGCM_std_ret key c g : bytes_ok key -> aes_New key = Ret c -> newGCM_std c = Ret g ->
  std_gcm key g.
Proof.
  intros Hok Hc Hg. split.
  - apply gcm_made_wf. split; [done|]. by exists c, gcmStandardNonceSize, gcmTagSize.
  - unfold newGCM_std, newGCM in Hg. vm_compute in Hg. apply Ret_inj in Hg as <-. done.
Qed.

Lemma aeadAESGCMTLS13_ret {E} key iv f : bytes_ok key ->
  aeadAESGCMTLS13 (E:=E) key iv = Ret f ->
  length iv = 12%nat /\ exists g, std_gcm key g /\ f = state13 iv g 0.
Proof.
  intros Hok. unfold aeadAESGCMTLS13, aeadNonceLength.
  destruct (Z.eqb_spec (Z.of_nat (length iv)) 12) as [Hl|]; [|done]. cbn [negb].
  destruct (aes_New key) as [c| |] eqn:Hc; [|done..]. cbn [panic_on_err obind].
  unfold ForTLS13.New. destruct (newGCM_std c) as [g| |] eqn:Hg; [|done..].
  cbn [panic_on_err obind]. intros H. apply Ret_inj in H as <-. split; [lia|].
  exists g. split; [by apply (newGCM_std_ret key c)|]. unfold state13. f_equal.
  unfold copy. rewrite length_replicate. replace (length iv) with 12%nat by lia.
  rewrite take_ge, drop_ge, app_nil_r; [done|rewrite length_replicate; lia|lia].
Qed.

Lemma aeadAESGCM_ret {E} key prefix f : bytes_ok key ->
  aeadAESGCM (E:=E) key prefix = Ret f ->
  length prefix = 4%nat /\ exists g, std_gcm key g /\ in_state12 prefix g 0 f.
Proof.
  intros Hok. unfold aeadAESGCM, noncePrefixLength.
  destruct (Z.eqb_spec (Z.of_nat (length prefix)) 4) as [Hl|]; [|done]. cbn [negb].
  destruct (aes_New key) as [c| |] eqn:Hc; [|done..]. cbn [panic_on_err obind].
  unfold ForTLS12.New. destruct (newGCM_std c) as [g| |] eqn:Hg; [|done..].
  cbn [panic_on_err obind]. intros H. apply Ret_inj in H as <-. split; [lia|].
  exists g. split; [by apply (newGCM_std_ret key c)|]. unfold in_state12. cbn [prefixNonceAEAD.nonce prefixNonceAEAD.aead].
  assert (Hp : length prefix = 4%nat) by lia.
  unfold copy. rewrite length_replicate, Hp. change (min 12 4) with 4%nat.
  rewrite (take_ge prefix) by lia. split; [|split; [|done]].
  - rewrite length_app, Hp. done.
  - by apply take_app_length'.
Qed.

(** The GCM inside the AEADs. *)
Definition gcm_of13 (f : xorNonceAEAD.t ForTLS13.t) : GCM := ForTLS13.g (xorNonceAEAD.aead f).
Definition gcm_of12 (f : prefixNonceAEAD.t ForTLS12.t) : GCM := ForTLS12.g (prefixNonceAEAD.aead f).

(** The TLS 1.3 AEAD on the record sequence: for every key, every IV and
    fewer than 2^64 - 1 records with sequence numbers 0, 1, 2, ..., each
    [Seal] returns the AES-GCM encryption of its record under the nonce
    [iv XOR seq] of RFC 8446 5.3; the check for repeated nonces learns the
    mask and never panics. *)
Theorem tls13_records_sealed (E : Type) (key iv : bytes)
    (f : xorNonceAEAD.t ForTLS13.t) (calls : list call) :
  bytes_ok key -> bytes_ok iv -> aeadAESGCMTLS13 (E:=E) key iv = Ret f ->
  Z.of_nat (length calls) <= MaxUint64 ->
  (forall i c, calls !! i = Some c -> c_nonce c = PutUint64 (Z.of_nat i) /\
     call_admissible (gcm_of13 f) (xor_iv iv (PutUint64 (Z.of_nat i))) c) ->
  seal_run (xorNonceAEAD.Seal (E:=E)) f calls =
  imap (fun i c => Ret (sealed_as key (xor_iv iv (PutUint64 (Z.of_nat i))) c)) calls.
Proof.
  intros Hk Hiv Hf Hn Hc. apply aeadAESGCMTLS13_ret in Hf as (Hl & g & Hg & ->); [|done].
  rewrite (Seal13_run key iv g Hg Hiv Hl 0 calls); [done|lia|lia|].
  intros i c Hic. apply (Hc i c Hic).
Qed.

(** The TLS 1.2 AEAD on the record sequence: each [Seal] returns the
    AES-GCM encryption under the nonce formed by the fixed prefix and the
    explicit sequence number, as RFC 5288 asks. *)
Theorem tls12_records_sealed (E : Type) (key prefix : bytes)
    (f : prefixNonceAEAD.t ForTLS12.t) (calls : list call) :
  bytes_ok key -> aeadAESGCM (E:=E) key prefix = Ret f ->
  Z.of_nat (length calls) <= MaxUint64 ->
  (forall i c, calls !! i = Some c -> c_nonce c = PutUint64 (Z.of_nat i) /\
     call_admissible (gcm_of12 f) (prefix ++ PutUint64 (Z.of_nat i)) c) ->
  seal_run (prefixNonceAEAD.Seal (E:=E)) f calls =
  imap (fun i c => Ret (sealed_as key (prefix ++ PutUint64 (Z.of_nat i)) c)) calls.
Proof.
  intros Hk Hf Hn Hc. apply aeadAESGCM_ret in Hf as (Hl & g & Hg & Hs); [|done].
  rewrite (Seal12_run key prefix g Hg Hl 0 f calls); [done|lia|lia|done|].
  intros i c Hic. destruct (Hc i c Hic) as [H1 H2]. split; [done|].
  unfold gcm_of12 in H2. destruct Hs as (_ & _ & Hs). by rewrite Hs in H2.
Qed.

(** ** The tables and the selection functions *)

Lemma find_Some_iff {A} (f : A -> Z) (l : list A) i c :
  NoDup (f <$> l) -> (List.find (fun c => f c =? i) l = Some c <-> c ∈ l /\ f c = i).
Proof.
  intros Hnd. split.
  - intros H. apply find_some in H as [H1 H2]. split; [by apply list_elem_of_In|lia].
  - intros [Hin Hi]. induction l as [|x l IH]; [by apply not_elem_of_nil in Hin|].
    apply NoDup_cons in Hnd as [Hx Hnd]. simpl. destruct (Z.eqb_spec (f x) i) as [He|He].
    + apply elem_of_cons in Hin as [->|Hin]; [done|]. destruct Hx. rewrite He, <- Hi.
      by apply list_elem_of_fmap_2.
    + apply elem_of_cons in Hin as [->|Hin]; [done|]. by apply IH.
Qed.

(** What each suite must provide for the key derivation and the record layer. *)
Definition suite_complete (c : cipherSuite) : bool :=
  match cs_aead c, cs_cipher c, cs_mac c with
  | Some fnAESGCM, None, None => (ivLen c =? 4) && (macLen c =? 0) && contains [16; 32] (keyLen c)
  | Some fnChaCha20Poly1305, None, None => (ivLen c =? 12) && (macLen c =? 0) && (keyLen c =? 32)
  | None, Some cipherAES, Some _ => (ivLen c =? 16) && contains [16; 32] (keyLen c)
  | None, Some cipher3DES, Some _ => (ivLen c =? 8) && (keyLen c =? 24)
  | None, Some cipherRC4, Some _ => (ivLen c =? 0) && (keyLen c =? 16)
  | _, _, _ => false
  end &&
  match cs_mac c with
  | Some macSHA1 => macLen c =? 20
  | Some macSHA256 => (macLen c =? 32) && negb (flags c &&& suiteTLS12 =? 0)
  | None => negb (flags c &&& suiteTLS12 =? 0)
  end &&
  match ka c with
  | rsaKA => (flags c &&& suiteECDHE =? 0) && (flags c &&& suiteECSign =? 0)
             && contains rsaKexCiphers (id c)
  | ecdheRSAKA => negb (flags c &&& suiteECDHE =? 0) && (flags c &&& suiteECSign =? 0)
  | ecdheECDSAKA => negb (flags c &&& suiteECDHE =? 0) && negb (flags c &&& suiteECSign =? 0)
  end.

(** Every cipher suite of the table is complete: an AEAD with the IV and
    key length its constructor demands, or a cipher with its block-sized IV and
    a MAC of its length; the flags agree with the key agreement, and AEAD and
    SHA-256 suites are restricted to TLS 1.2.  The two preference orders list
    exactly the implemented suites, each once. *)
Theorem cipherSuites_complete :
  (forall c, c ∈ cipherSuites -> suite_complete c = true) /\
  NoDup (id <$> cipherSuites) /\ NoDup (id13 <$> cipherSuitesTLS13) /\
  Permutation cipherSuitesPreferenceOrder (id <$> cipherSuites) /\
  Permutation cipherSuitesPreferenceOrderNoAES (id <$> cipherSuites).
Proof.
  assert (Hnd : forall l : list Z, bool_decide (NoDup l) = true -> NoDup l)
    by (intros l; apply bool_decide_eq_true).
  assert (Hp : forall l k : list Z, bool_decide (NoDup l) = true -> bool_decide (NoDup k) = true ->
    forallb (fun x => contains k x) l = true -> forallb (fun x => contains l x) k = true ->
    Permutation l k).
  { intros l k Hl Hk H1 H2. apply NoDup_Permutation; [by apply Hnd|by apply Hnd|].
    rewrite forallb_forall in H1, H2. unfold contains in *.
    intros x. split; intros Hx; apply list_elem_of_In in Hx.
    - apply H1 in Hx. by apply bool_decide_eq_true in Hx.
    - apply H2 in Hx. by apply bool_decide_eq_true in Hx. }
  split; [|split_and!; first [apply Hnd|apply Hp]; vm_compute; reflexivity].
  intros c Hc. apply list_elem_of_In in Hc. revert c Hc. apply forallb_forall.
  vm_compute. reflexivity.
Qed.

Lemma cipherSuiteByID_spec i c : cipherSuiteByID i = Some c <-> c ∈ cipherSuites /\ id c = i.
Proof. apply (find_Some_iff id). compute_decide. Qed.

Lemma existsb_eqb i l : existsb (fun x => i =? x) l = true <-> i ∈ l.
Proof.
  rewrite existsb_exists. split.
  - intros (x & Hx & He). apply list_elem_of_In in Hx. apply Z.eqb_eq in He. by subst.
  - intros H. exists i. split; [by apply list_elem_of_In|apply Z.eqb_refl].
Qed.

(** An identifier that [selectCipherSuite] may pick. *)
Definition selectable (supportedIDs : list Z) (ok : cipherSuite -> bool) (i : Z) (c : cipherSuite) : Prop :=
  cipherSuiteByID i = Some c /\ ok c = true /\ i ∈ supportedIDs.

(** [selectCipherSuite] returns the suite of the first identifier of the
    preference list that is implemented, passes the filter and is offered by
    the peer, and nothing only when there is no such identifier. *)
Theorem selectCipherSuite_first (ids supportedIDs : list Z) (ok : cipherSuite -> bool) :
  match selectCipherSuite ids supportedIDs ok with
  | Some c => exists pre i post, ids = pre ++ i :: post /\ selectable supportedIDs ok i c /\
      forall j, j ∈ pre -> forall c', ~ selectable supportedIDs ok j c'
  | None => forall j, j ∈ ids -> forall c', ~ selectable supportedIDs ok j c'
  end.
Proof.
  induction ids as [|i ids IH]; [by intros j Hj; apply not_elem_of_nil in Hj|].
  assert (Hskip : (forall c', ~ selectable supportedIDs ok i c') ->
    match selectCipherSuite ids supportedIDs ok with
    | Some c => exists pre i' post, i :: ids = pre ++ i' :: post /\ selectable supportedIDs ok i' c /\
        forall j, j ∈ pre -> forall c', ~ selectable supportedIDs ok j c'
    | None => forall j, j ∈ i :: ids -> forall c', ~ selectable supportedIDs ok j c'
    end).
  { intros Hi. destruct (selectCipherSuite ids supportedIDs ok) as [c|].
    - destruct IH as (pre & i' & post & -> & Hs & Hpre). exists (i :: pre), i', post.
      split; [done|]. split; [done|]. intros j Hj. apply elem_of_cons in Hj as [->|Hj]; auto.
    - intros j Hj. apply elem_of_cons in Hj as [->|Hj]; auto. }
  cbn [selectCipherSuite]. destruct (cipherSuiteByID i) as [c|] eqn:Hc.
  2:{ apply Hskip. intros c' (H & _). congruence. }
  destruct (ok c) eqn:Hok; cbn [negb].
  2:{ apply Hskip. intros c' (H & H' & _). congruence. }
  destruct (existsb _ supportedIDs) eqn:He.
  2:{ apply Hskip. intros c' (_ & _ & H). apply existsb_eqb in H. congruence. }
  exists [], i, ids. split; [done|]. split.
  - split; [done|]. split; [done|]. by apply existsb_eqb.
  - intros j Hj. by apply not_elem_of_nil in Hj.
Qed.

(** ** Witnesses *)

Definition w_rec (k : Z) : call := {|
  c_alloc := 0x9000;
  c_dst := {| ptr := 0x1000; data := [0x17; 3; 3; 0; 76]; spare := [] |};
  c_nonce := PutUint64 k;
  c_plaintext := {| ptr := 0x2000; data := tc4_plain; spare := [] |};
  c_data := {| ptr := 0x3000; data := [0x17; 3; 3; 0; 76]; spare := [] |}
|}.
Definition w_recs : list call := [w_rec 0; w_rec 1; w_rec 2].
Definition w_f13 : xorNonceAEAD.t ForTLS13.t :=
  match aeadAESGCMTLS13 (E:=unit) tc4_key tc4_nonce with
  | Ret f => f | _ => xorNonceAEAD.mk [] (ForTLS13.mk w_gcm false 0 0) end.
Definition w_f12 : prefixNonceAEAD.t ForTLS12.t :=
  match aeadAESGCM (E:=unit) tc4_key [1; 2; 3; 4] with
  | Ret f => f | _ => prefixNonceAEAD.mk [] (ForTLS12.mk w_gcm 0) end.

Lemma w_admissible g n k : tagSize g = 16 -> nonceSize g = 12 -> bytes_ok n -> length n = 12%nat ->
  call_admissible g n (w_rec k).
Proof.
  intros Ht Hn Hok Hl. unfold call_admissible, seal_args, seal_out. rewrite Ht, Hn, Hl.
  cbn [w_rec c_alloc c_dst c_plaintext c_data].
  split_and!; first [done | compute_decide | vm_compute; (reflexivity || discriminate)].
Qed.

Ltac w_rec_cases :=
  intros i c Hi; unfold w_recs in Hi;
  do 3 (destruct i as [|i]; [injection Hi as <-; split; [reflexivity|apply w_admissible;
    [vm_compute; reflexivity|vm_compute; reflexivity|compute_decide|reflexivity]]|]);
  discriminate Hi.

Lemma tls13_records_sealed_witness :
  seal_run (xorNonceAEAD.Seal (E:=unit)) w_f13 w_recs =
  imap (fun i c => Ret (sealed_as tc4_key (xor_iv tc4_nonce (PutUint64 (Z.of_nat i))) c)) w_recs.
Proof.
  apply (tls13_records_sealed unit tc4_key tc4_nonce w_f13 w_recs);
    [compute_decide|compute_decide|vm_compute; reflexivity|vm_compute; discriminate|].
  w_rec_cases.
Defined.

Lemma tls12_records_sealed_witness :
  seal_run (prefixNonceAEAD.Seal (E:=unit)) w_f12 w_recs =
  imap (fun i c => Ret (sealed_as tc4_key ([1; 2; 3; 4] ++ PutUint64 (Z.of_nat i)) c)) w_recs.
Proof.
  apply (tls12_records_sealed unit tc4_key [1; 2; 3; 4] w_f12 w_recs);
    [compute_decide|vm_compute; reflexivity|vm_compute; discriminate|].
  w_rec_cases.
Defined.
