(* ===== verification/HalfConn.v ===== *)
(** * conn.go: one direction of the record layer ([halfConn])

    The sequence number, the cipher state changes, the CBC padding check, and
    record protection: [encrypt] and [decrypt] over the four kinds of cipher
    the code distinguishes (none, [cipher.Stream], [aead], [cbcMode]), with the
    padding REALITY adds so that its handshake records have the lengths of the
    target's.

    The cipher objects are implementations of Go interfaces and enter as
    classes: [Stream], [CbcMode], [RecordAEAD].  A [hash.Hash] made by [hmac.New] is its
    key and the bytes written since the last [Reset]; [mac_sum] is the MAC
    function.  A method returns its result with the new state of the object,
    also when it fails or panics. *)

From S2P Require Import Prelude Common.

Open Scope go_scope.

Inductive conn_error :=
| EAlert (a : Z)                      (* an [alert] used as error *)
| ERand                               (* [io.ReadFull(rand, ...)] failed *)
| EPadding (first padding : Z)        (* "payload[0]: %v, padding: %v" *)
| EEOF                                (* [io.EOF] *)
| EUnexpectedEOF                      (* [io.ErrUnexpectedEOF] *)
| ENet (temporary : bool)             (* a [net.Error] of the transport *)
| ELocal (a : Z)                      (* [net.OpError] "local error" with an alert *)
| ERemote (a : Z)                     (* [net.OpError] "remote error" with an alert *)
| ERecordHeader (msg : string)        (* [RecordHeaderError] *)
| EText (msg : string).               (* [errors.New] *)

(** [permanentError]: a [net.Error] that is never temporary. *)
Definition permanentError (e : conn_error) : conn_error :=
  match e with ENet _ => ENet false | _ => e end.

(** ** The interfaces of the cipher objects *)

(** [cipher.Stream] *)
Class Stream (T : Type) := XORKeyStream : T -> bytes -> bytes * T.

(** [cbcMode]: [cipher.BlockMode] with [SetIV]. *)
Class CbcMode (T : Type) := {
  BlockSize : T -> nat;
  SetIV : T -> bytes -> T;
  CryptBlocks : T -> bytes -> bytes * T
}.

(** [aead]: [Seal] returns what it appends to [dst]; a failed [Open] is [Err]. *)
Class RecordAEAD (T : Type) := {
  ra_Overhead : T -> nat;
  ra_explicitNonceLen : T -> nat;
  ra_Seal : T -> bytes -> bytes -> bytes -> outcome conn_error bytes * T;
  ra_Open : T -> bytes -> bytes -> bytes -> outcome unit bytes * T
}.

(** A MAC function with keys [K]. *)
Class MacFun (K : Type) := {
  mac_sum : K -> bytes -> bytes;
  mac_size : K -> nat
}.

Record Hash (K : Type) := mkHash { h_key : K; h_written : bytes }.
Arguments mkHash {K} h_key h_written.
Arguments h_key {K} h.
Arguments h_written {K} h.

Definition Reset {K} (h : Hash K) : Hash K := mkHash (h_key h) [].
Definition Write {K} (h : Hash K) (p : bytes) : Hash K := mkHash (h_key h) (h_written h ++ p).
Definition Sum {K} `{MacFun K} (h : Hash K) (b : bytes) : bytes :=
  b ++ mac_sum (h_key h) (h_written h).

(** [tls10MAC]; [extra = nil] and an empty [extra] write the same. *)
Definition tls10MAC {K} `{MacFun K} (h : Hash K) (out seq header data_ : bytes)
    (extra : option bytes) : bytes * Hash K :=
  let h := Reset h in
  let h := Write h seq in
  let h := Write h header in
  let h := Write h data_ in
  let res := Sum h out in
  (res, match extra with Some e => Write h e | None => h end).

(** ** Signed conversions used by the constant-time code *)

Definition signed (w : Z) (x : Z) : Z :=
  let y := x mod 2 ^ w in if y <? 2 ^ (w - 1) then y else y - 2 ^ w.
Definition int32 : Z -> Z := signed 32.
Definition int8 : Z -> Z := signed 8.

(** [byte(int32(^t) >> 31)]: 255 if bit 31 of [t] is clear and 0 otherwise. *)
Definition msb_clear_mask (t : Z) : Z := u8 (int32 (Z.lnot t) ≫ 31).

(** [subtle.ConstantTimeSelect(v, x, y)] and [int(uint32(n) >> 31)] *)
Definition ConstantTimeSelect (v x y : Z) : Z := if v =? 1 then x else y.
Definition ConstantTimeCompare (x y : bytes) : Z := if bool_decide (x = y) then 1 else 0.

Definition nth_byte (b : bytes) (i : nat) : Z := nth i b 0.

(** The loop body of [extractPadding] on the [i]-th byte from the end. *)
Definition padding_step (payload : bytes) (paddingLen : Z) (i : nat) (good : Z) : Z :=
  let t := u64 (paddingLen - Z.of_nat i) in
  let mask := msb_clear_mask t in
  let b := nth_byte payload (length payload - 1 - i) in
  Z.ldiff good ((mask &&& paddingLen) ⊕ (mask &&& b)).

Definition extractPadding (payload : bytes) : Z * Z :=
  if (length payload <? 1)%nat then (0, 0) else
  let paddingLen := nth_byte payload (length payload - 1) in
  let t := u64 (Z.of_nat (length payload - 1) - paddingLen) in
  let good := msb_clear_mask t in
  let toCheck := min 256 (length payload) in
  let good := for_range 0 toCheck (padding_step payload paddingLen) good in
  let good := good &&& u8 (good ≪ 4) in
  let good := good &&& u8 (good ≪ 2) in
  let good := good &&& u8 (good ≪ 1) in
  let good := u8 (int8 good ≫ 7) in
  let paddingLen := paddingLen &&& good in
  (paddingLen + 1, good).

Definition roundUp (a b : nat) : nat := (a + (b - a mod b) mod b)%nat.

(** ** [halfConn] *)

Inductive cipher_state (S A C : Type) :=
| CStream (s : S)
| CAead (a : A)
| CCbc (c : C).
Arguments CStream {S A C} s.
Arguments CAead {S A C} a.
Arguments CCbc {S A C} c.

Record halfConn (S A C K : Type) := mkHalfConn {
  handshakeLen : list Z;                 (* [7]int *)
  hc_err : option conn_error;
  version : Z;
  hc_cipher : option (cipher_state S A C);
  hc_mac : option (Hash K);
  seq : bytes;                           (* [8]byte *)
  nextCipher : option (cipher_state S A C);
  nextMac : option (Hash K);
  level : Z;
  trafficSecret : bytes
}.
Arguments mkHalfConn {S A C K}.
Arguments handshakeLen {S A C K} h.
Arguments hc_err {S A C K} h.
Arguments version {S A C K} h.
Arguments hc_cipher {S A C K} h.
Arguments hc_mac {S A C K} h.
Arguments seq {S A C K} h.
Arguments nextCipher {S A C K} h.
Arguments nextMac {S A C K} h.
Arguments level {S A C K} h.
Arguments trafficSecret {S A C K} h.

Section halfconn.
Context {S A C K : Type}.
Context `{Stream S} `{RecordAEAD A} `{CbcMode C} `{MacFun K}.
Abbreviation hconn := (halfConn S A C K).

(** Field updates. *)
Definition set_err (e : option conn_error) (h : hconn) : hconn :=
  mkHalfConn (handshakeLen h) (option_map permanentError e) (version h) (hc_cipher h) (hc_mac h) (seq h)
    (nextCipher h) (nextMac h) (level h) (trafficSecret h).
Definition set_cipher (c : option (cipher_state S A C)) (h : hconn) : hconn :=
  mkHalfConn (handshakeLen h) (hc_err h) (version h) c (hc_mac h) (seq h)
    (nextCipher h) (nextMac h) (level h) (trafficSecret h).
Definition set_mac (m : option (Hash K)) (h : hconn) : hconn :=
  mkHalfConn (handshakeLen h) (hc_err h) (version h) (hc_cipher h) m (seq h)
    (nextCipher h) (nextMac h) (level h) (trafficSecret h).
Definition set_seq (s : bytes) (h : hconn) : hconn :=
  mkHalfConn (handshakeLen h) (hc_err h) (version h) (hc_cipher h) (hc_mac h) s
    (nextCipher h) (nextMac h) (level h) (trafficSecret h).
Definition set_handshakeLen (l : list Z) (h : hconn) : hconn :=
  mkHalfConn l (hc_err h) (version h) (hc_cipher h) (hc_mac h) (seq h)
    (nextCipher h) (nextMac h) (level h) (trafficSecret h).

Definition zero_seq : bytes := replicate 8 0.

(** [setErrorLocked] *)
Definition setErrorLocked (e : conn_error) (h : hconn) : hconn := set_err (Some e) h.

Definition prepareCipherSpec (v : Z) (c : cipher_state S A C) (m : option (Hash K)) (h : hconn)
  : hconn :=
  mkHalfConn (handshakeLen h) (hc_err h) v (hc_cipher h) (hc_mac h) (seq h)
    (Some c) m (level h) (trafficSecret h).

Definition changeCipherSpec (h : hconn) : outcome conn_error unit * hconn :=
  match nextCipher h with
  | None => (Err (EAlert alertInternalError), h)
  | Some c =>
      if version h =? VersionTLS13 then (Err (EAlert alertInternalError), h)
      else (Ret tt, mkHalfConn (handshakeLen h) (hc_err h) (version h) (Some c) (nextMac h)
                      zero_seq None None (level h) (trafficSecret h))
  end.

(** [setTrafficSecret]: [suite] provides the key derivation and the AEAD. *)
Definition setTrafficSecret (trafficKey : bytes -> bytes * bytes) (mk_aead : bytes -> bytes -> A)
    (lvl : Z) (secret : bytes) (h : hconn) : hconn :=
  let '(key, iv) := trafficKey secret in
  mkHalfConn (handshakeLen h) (hc_err h) (version h) (Some (CAead (mk_aead key iv))) (hc_mac h)
    zero_seq (nextCipher h) (nextMac h) lvl secret.

(** The loop of [incSeq] from index [i - 1] down to 0. *)
Fixpoint incSeq_loop (i : nat) (s : bytes) : outcome conn_error unit * bytes :=
  match i with
  | O => (Panic "TLS: sequence number wraparound", s)
  | Datatypes.S i =>
      let s := <[i := u8 (nth_byte s i + 1)]> s in
      if negb (nth_byte s i =? 0) then (Ret tt, s) else incSeq_loop i s
  end.

Definition incSeq (h : hconn) : outcome conn_error unit * hconn :=
  let '(r, s) := incSeq_loop 8 (seq h) in (r, set_seq s h).

Definition explicitNonceLen (h : hconn) : nat :=
  match hc_cipher h with
  | None => 0
  | Some (CStream _) => 0
  | Some (CAead a) => ra_explicitNonceLen a
  | Some (CCbc c) => if VersionTLS11 <=? version h then BlockSize c else 0
  end.

(** ** [decrypt] *)

(** The scan for the content type from the end of a TLS 1.3 inner plaintext;
    [i] counts down from the length.  An empty plaintext keeps [typ]. *)
Fixpoint strip_inner (plaintext : bytes) (typ : Z) (i : nat) : outcome conn_error (bytes * Z) :=
  match i with
  | O => Ret (plaintext, typ)
  | Datatypes.S i =>
      if negb (nth_byte plaintext i =? 0) then Ret (take i plaintext, nth_byte plaintext i)
      else if (i =? 0)%nat then Err (EAlert alertUnexpectedMessage)
      else strip_inner plaintext typ i
  end.

(** What the cipher switch leaves: [plaintext], [payload], [paddingLen] and
    [paddingGood]. *)
Record deciphered := mkDeciphered {
  d_plaintext : bytes; d_payload : bytes; d_paddingLen : Z; d_paddingGood : Z }.

Definition additionalData12 (h : hconn) (record payload : bytes) (overhead : nat) : bytes :=
  let n := Z.of_nat (length payload) - Z.of_nat overhead in
  seq h ++ take 3 record ++ [u8 (n ≫ 8); u8 n].

(** [c.Open(payload[:0], ...)] decrypts in place: [payload] then starts with
    the plaintext. *)
Definition decipher_aead (a : A) (record payload : bytes) (h : hconn)
  : outcome conn_error deciphered * hconn :=
  let enl := explicitNonceLen h in
  if (length payload <? enl)%nat then (Err (EAlert alertBadRecordMAC), h) else
  let nonce := take enl payload in
  let nonce := if (length nonce =? 0)%nat then seq h else nonce in
  let payload := drop enl payload in
  let additionalData :=
    if version h =? VersionTLS13 then take 5 record
    else additionalData12 h record payload (ra_Overhead a) in
  let '(r, a) := ra_Open a nonce payload additionalData in
  let h := set_cipher (Some (CAead a)) h in
  match r with
  | Ret p => (Ret (mkDeciphered p (p ++ drop (length p) payload) 0 255), h)
  | Err _ => (Err (EAlert alertBadRecordMAC), h)
  | Panic w => (Panic w, h)
  end.

Definition decipher_cbc (c : C) (payload : bytes) (h : hconn)
  : outcome conn_error deciphered * hconn :=
  let enl := explicitNonceLen h in
  let blockSize := BlockSize c in
  match hc_mac h with
  | None => (Panic "nil hash.Hash", h)
  | Some m =>
      let minPayload := (enl + roundUp (mac_size (h_key m) + 1) blockSize)%nat in
      if negb (length payload mod blockSize =? 0)%nat || (length payload <? minPayload)%nat
      then (Err (EAlert alertBadRecordMAC), h) else
      let c := if (0 <? enl)%nat then SetIV c (take enl payload) else c in
      let payload := drop enl payload in
      let '(payload, c) := CryptBlocks c payload in
      let '(paddingLen, paddingGood) := extractPadding payload in
      (Ret (mkDeciphered [] payload paddingLen paddingGood), set_cipher (Some (CCbc c)) h)
  end.

Definition decipher (record payload : bytes) (h : hconn) : outcome conn_error deciphered * hconn :=
  match hc_cipher h with
  | None => (Ret (mkDeciphered payload payload 0 255), h)
  | Some (CStream s) =>
      let '(payload, s) := XORKeyStream s payload in
      (Ret (mkDeciphered [] payload 0 255), set_cipher (Some (CStream s)) h)
  | Some (CAead a) => decipher_aead a record payload h
  | Some (CCbc c) => decipher_cbc c payload h
  end.

(** The TLS 1.3 part: the checks on the inner plaintext and its content type. *)
Definition inner_type (h : hconn) (typ : Z) (plaintext : bytes) : outcome conn_error (bytes * Z) :=
  match hc_cipher h with
  | None => Ret (plaintext, typ)
  | Some _ =>
      if version h =? VersionTLS13 then
        if negb (typ =? recordTypeApplicationData) then Err (EAlert alertUnexpectedMessage)
        else if maxPlaintext + 1 <? Z.of_nat (length plaintext) then Err (EAlert alertRecordOverflow)
        else strip_inner plaintext typ (length plaintext)
      else Ret (plaintext, typ)
  end.

(** The MAC check of the stream and CBC modes. *)
Definition check_mac (record plaintext payload : bytes) (paddingLen paddingGood : Z) (h : hconn)
  : outcome conn_error bytes * hconn :=
  match hc_mac h with
  | None => (Ret plaintext, h)
  | Some m =>
      let macSize := mac_size (h_key m) in
      if (length payload <? macSize)%nat then (Err (EAlert alertBadRecordMAC), h) else
      let n := Z.of_nat (length payload) - Z.of_nat macSize - paddingLen in
      let n := ConstantTimeSelect (u32 n ≫ 31) 0 n in
      let header := take 3 record ++ [u8 (n ≫ 8); u8 n] in
      let n := Z.to_nat n in
      let remoteMAC := slice n (n + macSize) payload in
      let '(localMAC, m) := tls10MAC m [] (seq h) header (take n payload)
                              (Some (drop (n + macSize) payload)) in
      let h := set_mac (Some m) h in
      if negb (ConstantTimeCompare localMAC remoteMAC &&& paddingGood =? 1)
      then (Err (EAlert alertBadRecordMAC), h)
      else (Ret (take n payload), h)
  end.

(** The plaintext and the record type. *)
Definition decrypt (record : bytes) (h : hconn) : outcome conn_error (bytes * Z) * hconn :=
  if (length record <? 5)%nat then (Panic index_out_of_range, h) else
  let typ := nth_byte record 0 in
  let payload := drop 5 record in
  if (version h =? VersionTLS13) && (typ =? recordTypeChangeCipherSpec)
  then (Ret (payload, typ), h) else
  let '(r, h) := decipher record payload h in
  match r with
  | Err e => (Err e, h)
  | Panic w => (Panic w, h)
  | Ret d =>
      match inner_type h typ (d_plaintext d) with
      | Err e => (Err e, h)
      | Panic w => (Panic w, h)
      | Ret (plaintext, typ) =>
          let '(r, h) := check_mac record plaintext (d_payload d) (d_paddingLen d) (d_paddingGood d) h in
          match r with
          | Err e => (Err e, h)
          | Panic w => (Panic w, h)
          | Ret plaintext =>
              let '(r, h) := incSeq h in
              match r with
              | Ret _ => (Ret (plaintext, typ), h)
              | Err e => (Err e, h)
              | Panic w => (Panic w, h)
              end
          end
      end
  end.

(** ** [encrypt] *)

(** The length bytes [record[3]], [record[4]]. *)
Definition set_length (record : bytes) (n : nat) : bytes :=
  <[4%nat := u8 (Z.of_nat n)]> (<[3%nat := u8 (Z.of_nat n ≫ 8)]> record).

(** The index into [handshakeLen] of a padded handshake message. *)
Definition padded_index (typ : Z) : option nat :=
  if typ =? typeEncryptedExtensions then Some 2%nat
  else if typ =? typeCertificate then Some 3%nat
  else if typ =? typeCertificateVerify then Some 4%nat
  else if typ =? typeFinished then Some 5%nat
  else if typ =? typeNewSessionTicket then Some 6%nat
  else None.

Definition empty_size : Z := 8192.

Definition nth_len (l : list Z) (i : nat) : Z := nth i l 0.

(** REALITY's padding of [record], which holds the header, [payload] and the
    content type: the padded record and the new [handshakeLen]. *)
Definition pad_record (overhead : nat) (lens : list Z) (record payload : bytes)
  : outcome conn_error bytes * list Z :=
  if (nth_byte record 0 =? recordTypeHandshake) && negb (nth_len lens 1 =? 0) then
    match payload with
    | [] => (Panic index_out_of_range, lens)
    | first :: _ =>
        let '(padding, lens) :=
          match padded_index first with
          | Some i => (nth_len lens i, <[i := 0]> lens)
          | None => (0, lens)
          end in
        let record :=
          if first =? typeNewSessionTicket
          then <[6%nat := 0]> (<[5%nat := recordTypeApplicationData]> record) else record in
        let padding := padding - Z.of_nat (length record + overhead) in
        if padding <? 0 then (Err (EPadding first padding), lens)
        else if empty_size <? padding then (Panic index_out_of_range, lens)
        else (Ret (record ++ replicate (Z.to_nat padding) 0), lens)
    end
  else (Ret record, lens).

(** The explicit nonce or IV: the sequence number or randomness.
    [rand n] is the result of [io.ReadFull(rand, ...)] on [n] bytes. *)
Definition explicit_nonce (rand : nat -> option bytes) (h : hconn) : outcome conn_error bytes :=
  let enl := explicitNonceLen h in
  if (0 <? enl)%nat then
    let isCBC := match hc_cipher h with Some (CCbc _) => true | _ => false end in
    if negb isCBC && (enl <? 16)%nat then
      let n := min enl (length (seq h)) in
      Ret (take n (seq h) ++ replicate (enl - n) 0)
    else match rand enl with Some b => Ret b | None => Err ERand end
  else Ret [].

Definition seal_aead (a : A) (record explicitNonce payload : bytes) (h : hconn)
  : outcome conn_error bytes * hconn :=
  let nonce := if (length explicitNonce =? 0)%nat then seq h else explicitNonce in
  if version h =? VersionTLS13 then
    let hdr_type := nth_byte record 0 in
    let record := record ++ payload in
    let record := record ++ [hdr_type] in
    let '(r, lens) := pad_record (ra_Overhead a) (handshakeLen h) record payload in
    let h := set_handshakeLen lens h in
    match r with
    | Err e => (Err e, h)
    | Panic w => (Panic w, h)
    | Ret record =>
        let record := <[0%nat := recordTypeApplicationData]> record in
        let n := (length record + ra_Overhead a - 5)%nat in
        let record := set_length record n in
        let '(r, a) := ra_Seal a nonce (drop 5 record) (take 5 record) in
        let h := set_cipher (Some (CAead a)) h in
        match r with
        | Ret ct => (Ret (take 5 record ++ ct), h)
        | Err e => (Err e, h)
        | Panic w => (Panic w, h)
        end
    end
  else
    let additionalData := seq h ++ take 5 record in
    let '(r, a) := ra_Seal a nonce payload additionalData in
    let h := set_cipher (Some (CAead a)) h in
    match r with
    | Ret ct => (Ret (record ++ ct), h)
    | Err e => (Err e, h)
    | Panic w => (Panic w, h)
    end.

Definition seal_stream (s : S) (record payload : bytes) (h : hconn)
  : outcome conn_error bytes * hconn :=
  match hc_mac h with
  | None => (Panic "nil hash.Hash", h)
  | Some m =>
      let '(mac, m) := tls10MAC m [] (seq h) (take 5 record) payload None in
      let '(b1, s) := XORKeyStream s payload in
      let '(b2, s) := XORKeyStream s mac in
      (Ret (record ++ b1 ++ b2), set_cipher (Some (CStream s)) (set_mac (Some m) h))
  end.

Definition seal_cbc (c : C) (record explicitNonce payload : bytes) (h : hconn)
  : outcome conn_error bytes * hconn :=
  match hc_mac h with
  | None => (Panic "nil hash.Hash", h)
  | Some m =>
      let '(mac, m) := tls10MAC m [] (seq h) (take 5 record) payload None in
      let blockSize := BlockSize c in
      let plaintextLen := (length payload + length mac)%nat in
      let paddingLen := (blockSize - plaintextLen mod blockSize)%nat in
      let dst := payload ++ mac ++ replicate paddingLen (u8 (Z.of_nat paddingLen - 1)) in
      let c := if (0 <? length explicitNonce)%nat then SetIV c explicitNonce else c in
      let '(dst, c) := CryptBlocks c dst in
      (Ret (record ++ dst), set_cipher (Some (CCbc c)) (set_mac (Some m) h))
  end.

Definition encrypt (rand : nat -> option bytes) (record payload : bytes) (h : hconn)
  : outcome conn_error bytes * hconn :=
  match hc_cipher h with
  | None => (Ret (record ++ payload), h)
  | Some c =>
      match explicit_nonce rand h with
      | Err e => (Err e, h)
      | Panic w => (Panic w, h)
      | Ret explicitNonce =>
          let record := record ++ explicitNonce in
          let '(r, h) :=
            match c with
            | CStream s => seal_stream s record payload h
            | CAead a => seal_aead a record explicitNonce payload h
            | CCbc c => seal_cbc c record explicitNonce payload h
            end in
          match r with
          | Err e => (Err e, h)
          | Panic w => (Panic w, h)
          | Ret record =>
              let record := set_length record (length record - 5) in
              let '(r, h) := incSeq h in
              match r with
              | Ret _ => (Ret record, h)
              | Err e => (Err e, h)
              | Panic w => (Panic w, h)
              end
          end
      end
  end.
End halfconn.
