(* ===== verification/HalfConnProofs.v ===== *)
(** * Theorems about [halfConn]

    The sequence number counts, the constant-time padding check is the plain
    one, and [decrypt] inverts [encrypt] between two ends whose ciphers
    correspond, for every kind of cipher and with REALITY's padding.  The
    correspondence of two cipher objects and what it guarantees are the classes
    [StreamPair], [CbcPair] and [AeadPair]. *)

From S2P Require Import Prelude Common HalfConn.

Open Scope go_scope.

(** ** Enumeration of bytes *)

Definition all_bytes : list Z := Z.of_nat <$> List.seq 0 256.

Lemma byte_cases (f : Z -> bool) : forallb f all_bytes = true -> forall b, is_byte b -> f b = true.
Proof.
  rewrite forallb_forall. intros Hf b Hb. apply Hf. unfold is_byte in Hb.
  apply list_elem_of_In, list_elem_of_fmap. exists (Z.to_nat b). split; [lia|].
  apply elem_of_seq. lia.
Qed.

Lemma byte_cases2 (f : Z -> Z -> bool) :
  forallb (fun a => forallb (f a) all_bytes) all_bytes = true ->
  forall a b, is_byte a -> is_byte b -> f a b = true.
Proof.
  intros Hf a b Ha Hb. apply (byte_cases (f a)); [|done].
  by apply (byte_cases (fun a => forallb (f a) all_bytes)).
Qed.

(** ** The sequence number *)

Lemma incSeq_loop_spec (i : nat) (s : bytes) : bytes_ok s -> (i <= length s)%nat ->
  let '(r, s') := incSeq_loop i s in
  length s' = length s /\ bytes_ok s' /\ drop i s' = drop i s /\
  if be_get (take i s) =? 256 ^ Z.of_nat i - 1
  then r = Panic "TLS: sequence number wraparound"
  else r = Ret tt /\ be_get (take i s') = be_get (take i s) + 1.
Proof.
  revert s. induction i as [|i IH]; intros s Hok Hl; [done|].
  destruct (lookup_lt_is_Some_2 s i) as [x Hx]; [lia|].
  assert (Hnx : nth_byte s i = x) by (unfold nth_byte; by apply nth_lookup_Some).
  assert (Hxb : is_byte x) by by eapply Forall_lookup_1.
  unfold is_byte in Hxb.
  cbn [incSeq_loop]. rewrite Hnx.
  set (y := u8 (x + 1)). assert (Hy : is_byte y) by (apply Z.mod_pos_bound; lia).
  assert (Hok' : bytes_ok (<[i := y]> s)) by by apply Forall_insert.
  assert (Hny : nth_byte (<[i := y]> s) i = y).
  { unfold nth_byte. apply nth_lookup_Some, list_lookup_insert_eq. lia. }
  rewrite Hny, (take_S_r _ _ x Hx), be_get_app.
  assert (Hlt : length (take i s) = i) by (rewrite length_take; lia).
  assert (Hr : 0 <= be_get (take i s) < 256 ^ Z.of_nat i).
  { pose proof (be_get_range (take i s) ltac:(by apply Forall_take)) as Hr. by rewrite Hlt in Hr. }
  rewrite (be_get_cons x []), Nat2Z.inj_succ, Z.pow_succ_r by lia. cbn [length].
  change (256 ^ Z.of_nat 0) with 1. change (256 ^ Z.of_nat 1) with 256. change (be_get []) with 0.
  destruct (Z.eqb_spec y 0) as [Hy0|Hy0]; cbn [negb].
  - assert (Hx255 : x = 255) by (unfold y, u8 in Hy0; destruct (decide (x = 255)); [done|];
      rewrite Z.mod_small in Hy0; lia). subst x.
    specialize (IH (<[i := y]> s) Hok' ltac:(rewrite length_insert; lia)).
    destruct (incSeq_loop i (<[i := y]> s)) as [r s'].
    rewrite length_insert, take_insert_ge in IH by lia. destruct IH as (H1 & H2 & H3 & H4).
    assert (Hd : drop i s' = y :: drop (S i) s).
    { rewrite H3. rewrite (drop_S _ y i) by (by rewrite list_lookup_insert_eq by lia).
      by rewrite drop_insert_lt by lia. }
    split; [done|]. split; [done|]. split.
    { rewrite <- Nat.add_1_r, <- drop_drop, Hd. rewrite Nat.add_1_r. done. }
    assert (Hs' : be_get (take (S i) s') = be_get (take i s') * 256 + 0).
    { assert (Hyi : s' !! i = Some y).
      { rewrite <- (Nat.add_0_r i), <- lookup_drop, Hd. done. }
      rewrite (take_S_r _ _ y Hyi), be_get_app, be_get_cons, Hy0. cbn [length].
      change (256 ^ Z.of_nat 0) with 1. change (256 ^ Z.of_nat 1) with 256.
      change (be_get []) with 0. lia. }
    destruct (Z.eqb_spec (be_get (take i s)) (256 ^ Z.of_nat i - 1)) as [He|He].
    + rewrite (proj2 (Z.eqb_eq _ _)) by lia. done.
    + rewrite (proj2 (Z.eqb_neq _ _)) by lia. destruct H4 as [-> H4]. split; [done|]. lia.
  - rewrite length_insert. split; [done|]. split; [done|].
    split; [by apply drop_insert_lt; lia|].
    assert (Hx255 : x <> 255) by (intros ->; by apply Hy0).
    rewrite (proj2 (Z.eqb_neq _ _)) by lia. split; [done|].
    rewrite take_S_insert, be_get_app, be_get_cons by lia. cbn [length].
    change (256 ^ Z.of_nat 0) with 1. change (256 ^ Z.of_nat 1) with 256. change (be_get []) with 0.
    unfold y, u8. rewrite Z.mod_small by lia. lia.
Qed.

Definition seq_ok (s : bytes) : Prop := bytes_ok s /\ length s = 8%nat.

Definition seq_val (s : bytes) : Z := be_get s.

Lemma incSeq_loop_8 (s : bytes) : seq_ok s ->
  let '(r, s') := incSeq_loop 8 s in
  seq_ok s' /\
  (seq_val s = 2 ^ 64 - 1 -> r = Panic "TLS: sequence number wraparound") /\
  (seq_val s <> 2 ^ 64 - 1 -> r = Ret tt /\ seq_val s' = seq_val s + 1).
Proof.
  intros [Hok Hl]. pose proof (incSeq_loop_spec 8 s Hok ltac:(lia)) as Hs.
  destruct (incSeq_loop 8 s) as [r s']. destruct Hs as (H1 & H2 & _ & H4).
  rewrite !take_ge in H4 by lia. change (256 ^ Z.of_nat 8) with (2 ^ 64) in H4.
  unfold seq_val. split; [split; [done|congruence]|].
  destruct (Z.eqb_spec (be_get s) (2 ^ 64 - 1)) as [E|E]; split; intros H; done || lia.
Qed.

(** ** The CBC padding check *)

Lemma msb_clear_mask_spec t : 0 <= t ->
  msb_clear_mask t = if Z.testbit t 31 then 0 else 255.
Proof.
  intros Ht. unfold msb_clear_mask, int32, signed.
  assert (Hb : Z.testbit (Z.lnot t mod 2 ^ 32) 31 = negb (Z.testbit t 31)).
  { rewrite Z.testbit_mod_pow2 by lia. rewrite Z.lnot_spec by lia. done. }
  pose proof (Z.mod_pos_bound (Z.lnot t) (2 ^ 32) ltac:(lia)) as Hy.
  set (y := Z.lnot t mod 2 ^ 32) in *. change (32 - 1) with 31.
  rewrite Z.testbit_eqb in Hb by lia.
  destruct (Z.ltb_spec y (2 ^ 31)) as [Hlt|Hge].
  - rewrite Z.div_small in Hb by lia. destruct (Z.testbit t 31); [|done].
    rewrite Z.shiftr_div_pow2, Z.div_small by lia. done.
  - replace (y / 2 ^ 31) with 1 in Hb.
    2:{ apply Z.div_unique with (y - 2 ^ 31); lia. }
    destruct (Z.testbit t 31); [done|].
    rewrite Z.shiftr_div_pow2 by lia.
    replace ((y - 2 ^ 32) / 2 ^ 31) with (-1); [done|].
    apply Z.div_unique with (y - 2 ^ 31); lia.
Qed.

(** The difference of two small numbers as [uint]s. *)
Lemma msb_clear_mask_sub a b : 0 <= a < 2 ^ 31 -> 0 <= b < 2 ^ 31 ->
  msb_clear_mask (u64 (a - b)) = if b <=? a then 255 else 0.
Proof.
  intros Ha Hb. pose proof (Z.mod_pos_bound (a - b) (2 ^ 64) ltac:(lia)).
  rewrite msb_clear_mask_spec by (unfold u64; lia). unfold u64.
  destruct (Z.leb_spec b a) as [Hle|Hgt].
  - rewrite Z.mod_small by lia. by rewrite (testbit_high _ 31) by lia.
  - replace (Z.testbit ((a - b) mod 2 ^ 64) 31) with true; [done|].
    replace ((a - b) mod 2 ^ 64) with (2 ^ 64 + (a - b))
      by (apply Z.mod_unique with (-1); lia).
    rewrite Z.testbit_eqb by lia. symmetry. apply Z.eqb_eq.
    replace (2 ^ 64 + (a - b)) with ((2 ^ 33 - 1) * 2 ^ 31 + (2 ^ 31 + (a - b))) by lia.
    rewrite Z.div_add_l, Z.div_small by lia. done.
Qed.

Lemma ldiff_255 g x : is_byte g -> is_byte x -> is_byte (Z.ldiff g x) /\
  (Z.ldiff g x = 255 <-> g = 255 /\ x = 0).
Proof.
  intros Hg Hx.
  set (f := fun g x => let l := Z.ldiff g x in
    (0 <=? l) && (l <? 256) && Bool.eqb (l =? 255) ((g =? 255) && (x =? 0))).
  assert (Hf : f g x = true) by (apply (byte_cases2 f); [vm_compute; reflexivity|done..]).
  unfold f in Hf. rewrite !andb_true_iff, eqb_true_iff, Z.leb_le, Z.ltb_lt in Hf.
  destruct Hf as [[H1 H2] H3]. split; [unfold is_byte; lia|].
  rewrite <- !Z.eqb_eq, H3, andb_true_iff. done.
Qed.

(** The final folding of the bits of [good]. *)
Definition fold_good (good : Z) : Z :=
  let good := good &&& u8 (good ≪ 4) in
  let good := good &&& u8 (good ≪ 2) in
  let good := good &&& u8 (good ≪ 1) in
  u8 (int8 good ≫ 7).

Lemma fold_good_spec g : is_byte g -> fold_good g = if g =? 255 then 255 else 0.
Proof.
  intros Hg. apply Z.eqb_eq.
  apply (byte_cases (fun g => fold_good g =? if g =? 255 then 255 else 0)); [|done].
  vm_compute. reflexivity.
Qed.

Lemma land_255 b : is_byte b -> 255 &&& b = b.
Proof. intros Hb. rewrite Z.land_comm. change 255 with (Z.ones 8). by apply land_ones_id. Qed.

Lemma nth_byte_ok b i : bytes_ok b -> is_byte (nth_byte b i).
Proof.
  intros Hb. unfold nth_byte. destruct (decide (i < length b)%nat) as [Hi|Hi].
  - rewrite Forall_nth in Hb. by apply Hb.
  - rewrite nth_overflow by lia. done.
Qed.

(** The last [p + 1] bytes all equal [p]. *)
Definition padded_with (payload : bytes) (p : Z) : Prop :=
  p < Z.of_nat (length payload) /\
  forall j : nat, Z.of_nat j <= p -> nth_byte payload (length payload - 1 - j) = p.

Lemma padding_loop_spec payload p good n : bytes_ok payload -> is_byte p -> is_byte good ->
  (n <= 256)%nat ->
  let g := for_range 0 n (padding_step payload p) good in
  is_byte g /\
  (g = 255 <-> good = 255 /\
     forall j : nat, (j < n)%nat -> Z.of_nat j <= p -> nth_byte payload (length payload - 1 - j) = p).
Proof.
  intros Hok Hp Hg Hn. cbv zeta. revert Hn.
  apply (for_range_ind (fun n g => (n <= 256)%nat -> is_byte g /\
    (g = 255 <-> good = 255 /\
     forall j : nat, (j < n)%nat -> Z.of_nat j <= p -> nth_byte payload (length payload - 1 - j) = p)));
    [lia| |].
  { intros _. split; [done|]. split; [|by intros [H _]]. intros H. split; [done|]. intros j Hj. lia. }
  intros i g Hi IH Hi'. destruct IH as [Hgb IH]; [lia|].
  unfold padding_step. unfold is_byte in Hp. rewrite msb_clear_mask_sub by lia.
  pose proof (nth_byte_ok payload (length payload - 1 - i) Hok) as Hb.
  set (b := nth_byte payload (length payload - 1 - i)) in *.
  destruct (Z.leb_spec (Z.of_nat i) p) as [Hle|Hgt].
  - rewrite !land_255 by done.
    assert (Hx : is_byte (p ⊕ b)) by (apply lxor_range; done || lia).
    destruct (ldiff_255 g (p ⊕ b) Hgb Hx) as [H1 H2]. split; [done|]. rewrite H2, IH.
    rewrite Z.lxor_eq_0_iff. split.
    + intros [[H3 H4] H5]. split; [done|]. intros j Hj Hjp.
      destruct (decide (j = i)) as [->|]; [by rewrite H5|]. apply H4; lia.
    + intros [H3 H4]. split; [split; [done|]|].
      * intros j Hj Hjp. apply H4; lia.
      * symmetry. apply H4; lia.
  - rewrite !Z.land_0_l, Z.lxor_0_l, Z.ldiff_0_r. split; [done|]. rewrite IH.
    split; intros [H3 H4]; split; try done; intros j Hj Hjp; apply H4; lia.
Qed.

(** [extractPadding] is the plain padding check: on a non-empty payload
    with last byte [p] it returns [p + 1] bytes to remove and 255 when the last
    [p + 1] bytes exist and all equal [p], and 1 and 0 otherwise. *)
Theorem extractPadding_spec (payload : bytes) (p : Z) :
  bytes_ok payload -> Z.of_nat (length payload) < 2 ^ 31 -> last payload = Some p ->
  (padded_with payload p -> extractPadding payload = (p + 1, 255)) /\
  (~ padded_with payload p -> extractPadding payload = (1, 0)).
Proof.
  intros Hok Hl Hlast.
  assert (Hlen : (0 < length payload)%nat) by (destruct payload; [done|simpl; lia]).
  assert (Hpn : nth_byte payload (length payload - 1) = p).
  { unfold nth_byte. apply nth_lookup_Some. rewrite <- Hlast, last_lookup. f_equal. lia. }
  assert (Hp : is_byte p) by (rewrite <- Hpn; by apply nth_byte_ok).
  unfold extractPadding. rewrite (proj2 (Nat.ltb_ge _ _)) by lia. rewrite Hpn.
  assert (Hp' := Hp). unfold is_byte in Hp'. rewrite msb_clear_mask_sub by lia.
  set (good := if p <=? Z.of_nat (length payload - 1) then 255 else 0).
  assert (Hgood : is_byte good) by (unfold good; case_match; done).
  destruct (padding_loop_spec payload p good (min 256 (length payload)) Hok Hp Hgood ltac:(lia))
    as [Hb Hiff].
  set (g := for_range 0 (min 256 (length payload)) (padding_step payload p) good) in *.
  cbv zeta. fold (fold_good g). rewrite fold_good_spec by done.
  assert (Heq : g = 255 <-> padded_with payload p).
  { rewrite Hiff. unfold padded_with, good. split.
    - intros [H1 H2]. destruct (Z.leb_spec p (Z.of_nat (length payload - 1))) as [H3|]; [|done].
      split; [lia|]. intros j Hj. apply H2; lia.
    - intros [H1 H2]. rewrite (proj2 (Z.leb_le _ _)) by lia. split; [done|].
      intros j _ Hj. by apply H2. }
  split; intros H.
  - rewrite (proj2 (Z.eqb_eq g 255)) by tauto. by rewrite Z.land_comm, land_255.
  - rewrite (proj2 (Z.eqb_neq g 255)) by tauto. by rewrite Z.land_0_r.
Qed.

Lemma extractPadding_spec_witness :
  extractPadding [1; 2; 3; 2; 2; 2] = (3, 255) /\ extractPadding [1; 2; 3; 9; 2; 2] = (1, 0).
Proof.
  split.
  - apply (extractPadding_spec [1; 2; 3; 2; 2; 2] 2); [compute_decide|reflexivity|reflexivity|].
    split; [reflexivity|]. intros j Hj. do 3 (destruct j as [|j]; [reflexivity|]). lia.
  - apply (extractPadding_spec [1; 2; 3; 9; 2; 2] 2); [compute_decide|reflexivity|reflexivity|].
    intros [_ Hp]. specialize (Hp 2%nat ltac:(lia)). discriminate Hp.
Defined.

(** ** Sequence numbers count records *)

Section seqs.
Context {S A C K : Type}.
Context `{Stream S} `{RecordAEAD A} `{CbcMode C} `{MacFun K}.
Abbreviation hconn := (halfConn S A C K).

Lemma decipher_frame record payload (h : hconn) :
  let '(r, h') := decipher record payload h in
  seq h' = seq h /\ version h' = version h /\ hc_err h' = hc_err h /\
  forall e, r = Err e -> e = EAlert alertBadRecordMAC.
Proof.
  unfold decipher, decipher_aead, decipher_cbc.
  repeat case_match; simplify_eq/=; split_and!; try done; intros; by simplify_eq.
Qed.

Lemma inner_type_err (h : hconn) typ p e : inner_type h typ p = Err e -> exists a, e = EAlert a.
Proof.
  unfold inner_type. repeat case_match; intros Heq; simplify_eq/=; try by eexists.
  generalize dependent e. generalize (length p). intros n. induction n as [|n IH]; intros e; cbn [strip_inner].
  - done.
  - repeat case_match; intros Heq; simplify_eq; [by eexists|]. by apply IH.
Qed.

Lemma check_mac_frame record plaintext payload pl pg (h : hconn) :
  let '(r, h') := check_mac record plaintext payload pl pg h in
  seq h' = seq h /\ version h' = version h /\ hc_err h' = hc_err h /\
  forall e, r = Err e -> e = EAlert alertBadRecordMAC.
Proof.
  unfold check_mac, tls10MAC. cbv zeta. destruct (hc_mac h) as [m|]; [|by split_and!].
  destruct (_ <? _)%nat; [split_and!; [done..|congruence]|].
  destruct (negb _); split_and!; done || congruence.
Qed.

Lemma incSeq_frame (h : hconn) : seq_ok (seq h) ->
  let '(r, h') := incSeq h in
  seq_ok (seq h') /\ version h' = version h /\
  ((r = Ret tt /\ seq_val (seq h') = seq_val (seq h) + 1) \/
   (r = Panic "TLS: sequence number wraparound" /\ seq_val (seq h) = 2 ^ 64 - 1)).
Proof.
  intros Hs. unfold incSeq. pose proof (incSeq_loop_8 (seq h) Hs) as Hl.
  destruct (incSeq_loop 8 (seq h)) as [r s]. destruct Hl as (H1' & H2' & H3').
  cbn [seq set_seq version]. split; [done|]. split; [done|].
  destruct (decide (seq_val (seq h) = 2 ^ 64 - 1)); [right|left]; auto.
Qed.

(** [decrypt] and the sequence number: a returned record advances it by
    exactly one (but for a TLS 1.3 change_cipher_spec, which is passed through),
    it never wraps around silently, and a rejected record leaves it alone.
    Every error is an [alert], so the caller's assertion [err.(alert)] holds. *)
Theorem decrypt_seq (record : bytes) (h : hconn) : seq_ok (seq h) ->
  let '(r, h') := decrypt record h in
  match r with
  | Ret (p, typ) =>
      (version h = VersionTLS13 /\ typ = recordTypeChangeCipherSpec /\ p = drop 5 record /\ h' = h) \/
      (seq_ok (seq h') /\ seq_val (seq h') = seq_val (seq h) + 1)
  | Err e => seq h' = seq h /\ exists a, e = EAlert a
  | Panic w => True
  end.
Proof.
  intros Hs. unfold decrypt. destruct (length record <? 5)%nat; [done|].
  destruct (_ && _) eqn:Hccs.
  { apply andb_true_iff in Hccs as [Hv Ht]. apply Z.eqb_eq in Hv, Ht. by left. }
  pose proof (decipher_frame record (drop 5 record) h) as Hd.
  destruct (decipher record (drop 5 record) h) as [[D| |] h1]; [| |done];
    destruct Hd as (Hs1 & Hv1 & _ & He1).
  2:{ split; [done|]. eexists. by apply He1. }
  destruct (inner_type h1 _ _) as [[p t]| |] eqn:Hi; [| |done].
  2:{ split; [done|]. by apply inner_type_err in Hi. }
  pose proof (check_mac_frame record p (d_payload D) (d_paddingLen D) (d_paddingGood D) h1) as Hm.
  destruct (check_mac record p _ _ _ h1) as [[p'| |] h2]; [| |done];
    destruct Hm as (Hs2 & Hv2 & _ & He2).
  2:{ split; [congruence|]. eexists. by apply He2. }
  pose proof (incSeq_frame h2) as Hq. rewrite Hs2, Hs1 in Hq. specialize (Hq Hs).
  destruct (incSeq h2) as [[u| |] h3]; [| |done]; destruct Hq as (Hq1 & _ & [[Hq2 Hq3]|[Hq2 _]]); try done.
  right. done.
Qed.

(** REALITY's [encrypt] refuses every TLS 1.3 handshake record whose first
    message is none of the five padded kinds, once a target's lengths are
    recorded: a KeyUpdate can never be sent on such a connection. *)
Theorem other_handshake_refused rand (record payload : bytes) (h : hconn) a first :
  version h = VersionTLS13 -> hc_cipher h = Some (CAead a) -> ra_explicitNonceLen a = 0%nat ->
  nth_len (handshakeLen h) 1 <> 0 -> length record = 5%nat -> nth_byte record 0 = recordTypeHandshake ->
  head payload = Some first -> padded_index first = None ->
  exists n, encrypt rand record payload h = (Err (EPadding first n), h) /\ n < 0.
Proof.
  intros Hv Hc Hx Hl Hr Ht Hf Hp. unfold encrypt, explicit_nonce, explicitNonceLen. rewrite Hc, Hx.
  change (0 <? 0)%nat with false. cbv iota. rewrite app_nil_r.
  unfold seal_aead. rewrite Hv, Z.eqb_refl. unfold pad_record.
  assert (Hb : nth_byte ((record ++ payload) ++ [nth_byte record 0]) 0 = recordTypeHandshake).
  { rewrite <- app_assoc. unfold nth_byte. rewrite app_nth1 by lia. exact Ht. }
  rewrite Hb, Z.eqb_refl, (proj2 (Z.eqb_neq _ _)) by done. cbn [negb andb].
  destruct payload as [|x payload]; [done|]. injection Hf as ->. rewrite Hp.
  assert (Hns : (first =? typeNewSessionTicket) = false).
  { apply Z.eqb_neq. intros ->. by vm_compute in Hp. }
  rewrite Hns. set (n := 0 - _). exists n.
  assert (Hn : n < 0) by (unfold n; rewrite length_app; simpl; lia).
  rewrite (proj2 (Z.ltb_lt _ _)) by done. split; [|done]. f_equal. by destruct h.
Qed.
End seqs.
