(* ===== verification/RecordProofs.v ===== *)
(** * Record protection: [decrypt] inverts [encrypt]

    Two ends of a connection direction correspond ([hc_pair]) when their cipher
    objects do; what corresponding objects guarantee is stated by the classes
    [StreamPair], [CbcPair], [AeadPair] and [MacLaws].  The theorems: a record
    that one end encrypts is decrypted by the other to the same payload and
    type, and both ends correspond again; REALITY's padded records have exactly
    the target's lengths. *)

From S2P Require Import Prelude Common HalfConn HalfConnProofs.

Open Scope go_scope.

(** ** What two corresponding cipher objects guarantee *)

Class StreamPair (T : Type) `{Stream T} := {
  stream_pair : T -> T -> Prop;
  stream_app e p1 p2 : let '(c1, e1) := XORKeyStream e p1 in
    let '(c2, e2) := XORKeyStream e1 p2 in XORKeyStream e (p1 ++ p2) = (c1 ++ c2, e2);
  stream_inv e d p : stream_pair e d ->
    let '(c, e') := XORKeyStream e p in
    exists d', XORKeyStream d c = (p, d') /\ stream_pair e' d'
}.

Class CbcPair (T : Type) `{CbcMode T} := {
  cbc_pair : T -> T -> Prop;
  cbc_size e d : cbc_pair e d -> BlockSize e = BlockSize d /\ (0 < BlockSize d <= 256)%nat;
  cbc_set e d iv : cbc_pair e d -> cbc_pair (SetIV e iv) (SetIV d iv);
  cbc_set_size e iv : BlockSize (SetIV e iv) = BlockSize e;
  cbc_inv e d p : cbc_pair e d -> (length p mod BlockSize e = 0)%nat ->
    let '(c, e') := CryptBlocks e p in
    length c = length p /\ exists d', CryptBlocks d c = (p, d') /\ cbc_pair e' d'
}.

Class AeadPair (T : Type) `{RecordAEAD T} := {
  aead_pair : T -> T -> Prop;
  aead_sizes e d : aead_pair e d -> ra_Overhead e = ra_Overhead d /\
    ra_explicitNonceLen e = ra_explicitNonceLen d /\
    (ra_explicitNonceLen e = 0%nat \/ ra_explicitNonceLen e = 8%nat) /\
    (ra_Overhead e < 256)%nat;
  aead_seal_sizes e nonce p ad : let '(_, e') := ra_Seal e nonce p ad in
    ra_Overhead e' = ra_Overhead e /\ ra_explicitNonceLen e' = ra_explicitNonceLen e;
  aead_inv e d nonce p ad c e' : length nonce = 8%nat -> bytes_ok nonce -> bytes_ok p -> bytes_ok ad ->
    aead_pair e d -> ra_Seal e nonce p ad = (Ret c, e') ->
    length c = (length p + ra_Overhead e)%nat /\
    exists d', ra_Open d nonce c ad = (Ret p, d') /\ aead_pair e' d'
}.

Class MacLaws (K : Type) `{MacFun K} := {
  mac_sum_length k m : length (mac_sum k m) = mac_size k;
  mac_sum_ok k m : bytes_ok (mac_sum k m);
  mac_size_bound k : Z.of_nat (mac_size k) <= 64
}.

Definition rand_ok (rand : nat -> option bytes) : Prop :=
  forall n b, rand n = Some b -> length b = n /\ bytes_ok b.

(** ** Generic facts *)

Lemma nth_byte_app_r a b i : (length a <= i)%nat -> nth_byte (a ++ b) i = nth_byte b (i - length a).
Proof. intros Hi. unfold nth_byte. by apply app_nth2. Qed.

Lemma nth_byte_app_l a b i : (i < length a)%nat -> nth_byte (a ++ b) i = nth_byte a i.
Proof. intros Hi. unfold nth_byte. by apply app_nth1. Qed.

Lemma nth_byte_replicate n x i : (i < n)%nat -> nth_byte (replicate n x) i = x.
Proof. intros Hi. unfold nth_byte. apply nth_lookup_Some. by apply lookup_replicate_2. Qed.

Lemma set_length_app (h b : bytes) n : length h = 5%nat ->
  set_length (h ++ b) n = take 3 h ++ [u8 (Z.of_nat n ≫ 8); u8 (Z.of_nat n)] ++ b.
Proof. intros Hh. do 5 (destruct h as [|? h]; [done|]). by destruct h. Qed.

(** The padding CBC appends is the padding [extractPadding] removes. *)
Lemma extractPadding_replicate (p : bytes) (n : nat) : bytes_ok p -> (0 < n <= 256)%nat ->
  Z.of_nat (length p + n) < 2 ^ 31 ->
  extractPadding (p ++ replicate n (u8 (Z.of_nat n - 1))) = (Z.of_nat n, 255).
Proof.
  intros Hp Hn Hl. unfold u8. rewrite Z.mod_small by lia.
  set (x := Z.of_nat n - 1). set (q := p ++ replicate n x).
  assert (Hx : is_byte x) by (unfold is_byte, x; lia).
  assert (Hlen : length q = (length p + n)%nat) by (unfold q; by rewrite length_app, length_replicate).
  assert (Hnth : forall j : nat, Z.of_nat j <= x -> nth_byte q (length q - 1 - j) = x).
  { intros j Hj. unfold q at 1. unfold x in Hj. rewrite nth_byte_app_r by lia.
    apply nth_byte_replicate. lia. }
  destruct (extractPadding_spec q x) as [H1 _].
  - apply Forall_app. split; [done|]. by apply Forall_replicate.
  - lia.
  - unfold q. destruct n as [|n]; [lia|]. rewrite replicate_S_end, app_assoc. apply last_snoc.
  - rewrite H1; [unfold x; f_equal; lia|]. split; [unfold x; lia|done].
Qed.

Lemma strip_inner_spec p t typ n : t <> 0 ->
  strip_inner (p ++ [t] ++ replicate n 0) typ (length (p ++ [t] ++ replicate n 0)) = Ret (p, t).
Proof.
  intros Ht. set (q := p ++ [t] ++ replicate n 0).
  assert (Hlen : length q = (length p + 1 + n)%nat)
    by (unfold q; rewrite !length_app, length_replicate; simpl; lia).
  assert (Hg : forall m, (m <= n)%nat -> strip_inner q typ (length p + 1 + m) = Ret (p, t)).
  { induction m as [|m IH]; intros Hm.
    - rewrite Nat.add_0_r, Nat.add_1_r. cbn [strip_inner].
      assert (E : nth_byte q (length p) = t).
      { unfold q. rewrite nth_byte_app_r by lia. by rewrite Nat.sub_diag. }
      rewrite E, (proj2 (Z.eqb_neq t 0)) by done. cbn [negb]. unfold q.
      by rewrite take_app_length.
    - rewrite Nat.add_succ_r. cbn [strip_inner].
      assert (E : nth_byte q (length p + 1 + m) = 0).
      { unfold q. rewrite app_assoc, nth_byte_app_r by (rewrite length_app; simpl; lia).
        rewrite length_app. apply nth_byte_replicate. simpl. lia. }
      rewrite E. cbn [negb Z.eqb]. rewrite (proj2 (Nat.eqb_neq _ 0)) by lia. apply IH. lia. }
  rewrite Hlen. by apply Hg.
Qed.

Section pair.
Context {S A C K : Type}.
Context `{StreamPair S} `{AeadPair A} `{CbcPair C} `{MacLaws K}.
Abbreviation hconn := (halfConn S A C K).

Definition mac_pair (m m' : option (Hash K)) : Prop :=
  exists h h', m = Some h /\ m' = Some h' /\ h_key h = h_key h'.

Definition cipher_pair (e d : hconn) : Prop :=
  match hc_cipher e, hc_cipher d with
  | Some (CStream a), Some (CStream b) =>
      stream_pair a b /\ version e <> VersionTLS13 /\ mac_pair (hc_mac e) (hc_mac d)
  | Some (CCbc a), Some (CCbc b) =>
      cbc_pair a b /\ version e <> VersionTLS13 /\ mac_pair (hc_mac e) (hc_mac d)
  | Some (CAead a), Some (CAead b) =>
      aead_pair a b /\ (version e = VersionTLS13 -> ra_explicitNonceLen a = 0%nat) /\
      hc_mac e = None /\ hc_mac d = None
  | _, _ => False
  end.

(** [e] encrypts what [d] decrypts. *)
Definition hc_pair (e d : hconn) : Prop :=
  version e = version d /\ seq e = seq d /\ seq_ok (seq e) /\ cipher_pair e d.

(** [decrypt] up to the increment of the sequence number. *)
Definition decrypt_body (record : bytes) (h : hconn) : outcome conn_error (bytes * Z) * hconn :=
  let typ := nth_byte record 0 in
  let '(r, h) := decipher record (drop 5 record) h in
  match r with
  | Err e => (Err e, h)
  | Panic w => (Panic w, h)
  | Ret d =>
      match inner_type h typ (d_plaintext d) with
      | Err e => (Err e, h)
      | Panic w => (Panic w, h)
      | Ret (plaintext, typ) =>
          let '(r, h) := check_mac record plaintext (d_payload d) (d_paddingLen d) (d_paddingGood d) h in
          match r with
          | Err e => (Err e, h)
          | Panic w => (Panic w, h)
          | Ret plaintext => (Ret (plaintext, typ), h)
          end
      end
  end.

Lemma decrypt_body_eq record h : (5 <= length record)%nat ->
  (version h =? VersionTLS13) && (nth_byte record 0 =? recordTypeChangeCipherSpec) = false ->
  decrypt record h =
  let '(r, h) := decrypt_body record h in
  match r with
  | Ret pt => let '(r, h) := incSeq h in
              match r with Ret _ => (Ret pt, h) | Err e => (Err e, h) | Panic w => (Panic w, h) end
  | Err e => (Err e, h)
  | Panic w => (Panic w, h)
  end.
Proof.
  intros Hl Hccs. unfold decrypt, decrypt_body. rewrite (proj2 (Nat.ltb_ge _ _)), Hccs by lia.
  destruct (decipher record (drop 5 record) h) as [[D| |] h1]; try done.
  destruct (inner_type h1 _ _) as [[p t]| |]; try done.
  destruct (check_mac record p _ _ _ h1) as [[p'| |] h2]; done.
Qed.

(** The header [writeRecordLocked] puts before the payload. *)
Definition header (typ v1 v2 : Z) (payload : bytes) : bytes :=
  [typ; v1; v2; u8 (Z.of_nat (length payload) ≫ 8); u8 (Z.of_nat (length payload))].

Lemma header_ok typ v1 v2 payload : is_byte typ -> is_byte v1 -> is_byte v2 ->
  bytes_ok (header typ v1 v2 payload).
Proof.
  intros Ht H1' H2'. assert (Hu : forall x, is_byte (u8 x)) by (intros x; apply Z.mod_pos_bound; lia).
  by repeat (apply Forall_cons_2; [done|]).
Qed.

(** ** The MAC check accepts the MAC of the sender *)
Lemma check_mac_spec typ v1 v2 b4 b5 rest payload pad n0 (h : hconn) m plaintext :
  hc_mac h = Some m -> Z.of_nat (length payload) + Z.of_nat n0 + Z.of_nat (mac_size (h_key m)) < 2 ^ 31 ->
  length pad = n0 ->
  let mac := mac_sum (h_key m) (seq h ++ header typ v1 v2 payload ++ payload) in
  exists m', h_key m' = h_key m /\
  check_mac ([typ; v1; v2; b4; b5] ++ rest) plaintext (payload ++ mac ++ pad) (Z.of_nat n0) 255 h =
  (Ret payload, set_mac (Some m') h).
Proof.
  intros Hm Hl Hp mac. unfold check_mac. rewrite Hm.
  assert (Hml : length mac = mac_size (h_key m)) by apply mac_sum_length.
  assert (Hln : length (payload ++ mac ++ pad) = (length payload + mac_size (h_key m) + n0)%nat)
    by (rewrite !length_app; lia).
  rewrite (proj2 (Nat.ltb_ge _ _)) by lia. rewrite Hln.
  replace (Z.of_nat (length payload + mac_size (h_key m) + n0) - Z.of_nat (mac_size (h_key m)) - Z.of_nat n0)
    with (Z.of_nat (length payload)) by lia.
  assert (Hsel : ConstantTimeSelect (u32 (Z.of_nat (length payload)) ≫ 31) 0 (Z.of_nat (length payload))
                 = Z.of_nat (length payload)).
  { unfold ConstantTimeSelect, u32. rewrite Z.mod_small by lia.
    rewrite Z.shiftr_div_pow2, Z.div_small by lia. done. }
  rewrite Hsel, Nat2Z.id. cbn [take app].
  change (typ :: v1 :: v2 :: [u8 (Z.of_nat (length payload) ≫ 8); u8 (Z.of_nat (length payload))])
    with (header typ v1 v2 payload).
  unfold tls10MAC, Sum, Write, Reset. cbn [h_key h_written app].
  rewrite take_app_length.
  assert (Hrem : slice (length payload) (length payload + mac_size (h_key m)) (payload ++ mac ++ pad) = mac).
  { unfold slice. rewrite drop_app_length, <- Hml.
    replace (length payload + length mac - length payload)%nat with (length mac) by lia.
    apply take_app_length. }
  rewrite Hrem, <- app_assoc. fold mac. unfold ConstantTimeCompare.
  rewrite bool_decide_true by done. change (negb (1 &&& 255 =? 1)) with false. cbn [negb].
  eexists. split; [|reflexivity]. done.
Qed.

(** What the receiver must reach before counting the record. *)
Definition body_ok (rec payload : bytes) (typ : Z) (e1 d : hconn) : Prop :=
  exists d1, decrypt_body rec d = (Ret (payload, typ), d1) /\
    version e1 = version d1 /\ seq e1 = seq d1 /\ cipher_pair e1 d1.

Lemma stream_body typ v1 v2 payload e d s s' e1 rec :
  version e = version d -> seq e = seq d -> hc_cipher e = Some (CStream s) ->
  hc_cipher d = Some (CStream s') -> cipher_pair e d -> Z.of_nat (length payload) < 2 ^ 30 ->
  seal_stream s (header typ v1 v2 payload) payload e = (Ret rec, e1) ->
  seq e1 = seq e /\ (5 <= length rec)%nat /\ nth_byte rec 0 = typ /\
  body_ok (set_length rec (length rec - 5)) payload typ e1 d.
Proof.
  intros Hv Hs He Hd Hp Hl. unfold cipher_pair in Hp. rewrite He, Hd in Hp.
  destruct Hp as (Hp & H13 & m & m' & Hm & Hm' & Hk). unfold seal_stream. rewrite Hm.
  unfold tls10MAC, Sum, Write, Reset. cbn [h_key h_written app].
  change (take 5 (header typ v1 v2 payload)) with (header typ v1 v2 payload).
  set (mac := mac_sum (h_key m) ((seq e ++ header typ v1 v2 payload) ++ payload)).
  pose proof (stream_app s payload mac) as Happ.
  pose proof (stream_inv s s' (payload ++ mac) Hp) as Hinv.
  destruct (XORKeyStream s payload) as [c1 s1]. destruct (XORKeyStream s1 mac) as [c2 s2].
  rewrite Happ in Hinv. destruct Hinv as (s2' & Hdec & Hp').
  intros Heq. apply pair_equal_spec in Heq as [Hr <-]. apply Ret_inj in Hr as <-. cbn [seq set_cipher set_mac].
  split; [done|]. split; [rewrite length_app; simpl; lia|]. split; [done|].
  rewrite set_length_app by done. set (N := (length _ - 5)%nat). clearbody N.
  set (b3 := u8 (Z.of_nat N ≫ 8)). set (b4 := u8 (Z.of_nat N)).
  change (take 3 (header typ v1 v2 payload) ++ [b3; b4] ++ c1 ++ c2)
    with ([typ; v1; v2; b3; b4] ++ c1 ++ c2).
  unfold body_ok, decrypt_body, decipher. rewrite Hd.
  change (drop 5 ([typ; v1; v2; b3; b4] ++ c1 ++ c2)) with (c1 ++ c2). rewrite Hdec.
  change (nth_byte ([typ; v1; v2; b3; b4] ++ c1 ++ c2) 0) with typ.
  cbn [d_plaintext d_payload d_paddingLen d_paddingGood].
  unfold inner_type. cbn [hc_cipher set_cipher version].
  rewrite <- Hv, (proj2 (Z.eqb_neq _ _)) by done.
  destruct (check_mac_spec typ v1 v2 b3 b4 (c1 ++ c2)
    payload [] 0 (set_cipher (Some (CStream s2')) d) m' []) as (m'' & Hk'' & Hcm);
    [done|pose proof (mac_size_bound (h_key m')); lia|done|].
  rewrite app_nil_r in Hcm. cbn [seq set_cipher] in Hcm.
  rewrite <- Hs, <- Hk in Hcm. rewrite (app_assoc (seq e)) in Hcm. fold mac in Hcm.
  change (Z.of_nat 0) with 0 in Hcm. rewrite Hcm.
  eexists. split; [reflexivity|]. cbn [version seq set_cipher set_mac]. split; [done|]. split; [done|].
  unfold cipher_pair. cbn [hc_cipher set_cipher set_mac hc_mac version]. split; [done|]. split; [done|].
  eexists _, _. split; [reflexivity|]. split; [reflexivity|]. cbn [h_key]. congruence.
Qed.

Lemma roundUp_le a b n : (0 < b)%nat -> (n mod b = 0)%nat -> (a <= n)%nat -> (roundUp a b <= n)%nat.
Proof.
  intros Hb Hn Ha. unfold roundUp.
  pose proof (Nat.div_mod_eq a b) as E1. pose proof (Nat.mod_upper_bound a b ltac:(lia)).
  pose proof (Nat.div_mod_eq n b) as E2. rewrite Hn in E2.
  destruct (decide (a mod b = 0)%nat) as [Hz|Hz].
  - rewrite Hz, Nat.sub_0_r, Nat.Div0.mod_same. lia.
  - rewrite (Nat.mod_small (b - a mod b)) by lia.
    assert (a / b < n / b)%nat by nia. nia.
Qed.

Lemma cbc_pad_mod n b : (0 < b)%nat -> ((n + (b - n mod b)) mod b = 0)%nat.
Proof.
  intros Hb. pose proof (Nat.div_mod_eq n b) as E. pose proof (Nat.mod_upper_bound n b ltac:(lia)).
  replace (n + (b - n mod b))%nat with ((n / b + 1) * b)%nat by nia. apply Nat.Div0.mod_mul.
Qed.

Lemma cbc_body typ v1 v2 payload iv e d c c' e1 rec :
  version e = version d -> seq e = seq d -> hc_cipher e = Some (CCbc c) ->
  hc_cipher d = Some (CCbc c') -> cipher_pair e d -> bytes_ok payload ->
  Z.of_nat (length payload) < 2 ^ 30 -> length iv = explicitNonceLen e ->
  seal_cbc c (header typ v1 v2 payload ++ iv) iv payload e = (Ret rec, e1) ->
  seq e1 = seq e /\ (5 <= length rec)%nat /\ nth_byte rec 0 = typ /\
  body_ok (set_length rec (length rec - 5)) payload typ e1 d.
Proof.
  intros Hv Hs He Hd Hp Hok Hl Hiv. unfold cipher_pair in Hp. rewrite He, Hd in Hp.
  destruct Hp as (Hp & H13 & m & m' & Hm & Hm' & Hk). unfold seal_cbc. rewrite Hm.
  unfold tls10MAC, Sum, Write, Reset. cbn [h_key h_written].
  rewrite (take_app_length' (header typ v1 v2 payload) iv 5) by done.
  rewrite !app_nil_l. set (mac := mac_sum (h_key m) ((seq e ++ header typ v1 v2 payload) ++ payload)).
  assert (Hml : length mac = mac_size (h_key m)) by apply mac_sum_length.
  destruct (cbc_size c c' Hp) as [Hbs Hbs'].
  set (pl := (BlockSize c - (length payload + length mac) mod BlockSize c)%nat).
  assert (Hplr : (0 < pl <= 256)%nat).
  { pose proof (Nat.mod_upper_bound (length payload + length mac) (BlockSize c) ltac:(lia)). unfold pl. lia. }
  set (pad := replicate pl (u8 (Z.of_nat pl - 1))).
  set (dst := payload ++ mac ++ pad).
  assert (Hdl : length dst = (length payload + length mac + pl)%nat)
    by (unfold dst, pad; rewrite !length_app, length_replicate; lia).
  assert (Hdm : (length dst mod BlockSize c = 0)%nat) by (rewrite Hdl; apply cbc_pad_mod; lia).
  assert (Hex : explicitNonceLen e = explicitNonceLen d)
    by (unfold explicitNonceLen; by rewrite He, Hd, Hv, Hbs).
  set (c0 := if (0 <? length iv)%nat then SetIV c iv else c).
  set (c0' := if (0 <? length iv)%nat then SetIV c' iv else c').
  assert (Hp0 : cbc_pair c0 c0' /\ BlockSize c0 = BlockSize c).
  { unfold c0, c0'. destruct (0 <? length iv)%nat; [|done].
    split; [by apply cbc_set|apply cbc_set_size]. }
  destruct Hp0 as [Hp0 Hb0].
  pose proof (cbc_inv c0 c0' dst Hp0 ltac:(by rewrite Hb0)) as Hinv.
  destruct (CryptBlocks c0 dst) as [ct c1]. destruct Hinv as (Hctl & c1' & Hdec & Hp1).
  intros Heq. apply pair_equal_spec in Heq as [Hr <-]. apply Ret_inj in Hr as <-.
  cbn [seq set_cipher set_mac].
  split; [done|]. split; [rewrite !length_app; simpl; lia|]. split; [done|].
  rewrite <- (app_assoc _ iv ct). rewrite set_length_app by done.
  set (N := (length _ - 5)%nat). clearbody N.
  set (b3 := u8 (Z.of_nat N ≫ 8)). set (b4 := u8 (Z.of_nat N)).
  change (take 3 (header typ v1 v2 payload) ++ [b3; b4] ++ iv ++ ct)
    with ([typ; v1; v2; b3; b4] ++ iv ++ ct).
  unfold body_ok, decrypt_body, decipher. rewrite Hd.
  change (drop 5 ([typ; v1; v2; b3; b4] ++ iv ++ ct)) with (iv ++ ct).
  change (nth_byte ([typ; v1; v2; b3; b4] ++ iv ++ ct) 0) with typ.
  unfold decipher_cbc. rewrite Hm', <- Hex, <- Hiv, <- Hk, <- Hml, <- Hbs.
  assert (Hivm : (length iv mod BlockSize c = 0)%nat).
  { rewrite Hiv. unfold explicitNonceLen. rewrite He.
    destruct (VersionTLS11 <=? version e); [apply Nat.Div0.mod_same|apply Nat.Div0.mod_0_l]. }
  assert (Hlen : (length (iv ++ ct) mod BlockSize c = 0)%nat).
  { rewrite length_app, Nat.Div0.add_mod, Hivm, Hctl, Hdm. apply Nat.Div0.mod_0_l. }
  rewrite Hlen. cbn [Nat.eqb negb orb].
  assert (Hmin : (roundUp (length mac + 1) (BlockSize c) <= length dst)%nat)
    by (apply roundUp_le; [lia|done|lia]).
  rewrite (proj2 (Nat.ltb_ge _ _)) by (rewrite length_app; lia).
  rewrite take_app_length, drop_app_length. fold c0'. rewrite Hdec.
  assert (Hpad : extractPadding dst = (Z.of_nat pl, 255)).
  { unfold dst, pad. rewrite app_assoc. pose proof (mac_size_bound (h_key m)).
    apply extractPadding_replicate; [|done|rewrite length_app; lia].
    apply Forall_app. split; [done|apply mac_sum_ok]. }
  rewrite Hpad. cbn [d_plaintext d_payload d_paddingLen d_paddingGood].
  unfold inner_type. cbn [hc_cipher set_cipher version].
  rewrite <- Hv, (proj2 (Z.eqb_neq _ _)) by done.
  destruct (check_mac_spec typ v1 v2 b3 b4 (iv ++ ct)
    payload pad pl (set_cipher (Some (CCbc c1')) d) m' []) as (m'' & Hk'' & Hcm);
    [done|pose proof (mac_size_bound (h_key m')); lia|apply length_replicate|].
  cbn [seq set_cipher] in Hcm. rewrite <- Hs, <- Hk, (app_assoc (seq e)) in Hcm. fold mac in Hcm.
  unfold dst. rewrite Hcm.
  eexists. split; [reflexivity|]. cbn [version seq set_cipher set_mac]. split; [done|]. split; [done|].
  unfold cipher_pair. cbn [hc_cipher set_cipher set_mac hc_mac version]. split; [done|]. split; [done|].
  eexists _, _. split; [reflexivity|]. split; [reflexivity|]. cbn [h_key]. congruence.
Qed.

Lemma aead12_body typ v1 v2 payload nonce e d a a' e1 rec :
  version e = version d -> seq e = seq d -> hc_cipher e = Some (CAead a) ->
  hc_cipher d = Some (CAead a') -> cipher_pair e d -> version e <> VersionTLS13 ->
  seq_ok (seq e) -> bytes_ok nonce -> bytes_ok payload -> bytes_ok (header typ v1 v2 payload) ->
  length nonce = ra_explicitNonceLen a ->
  seal_aead a (header typ v1 v2 payload ++ nonce) nonce payload e = (Ret rec, e1) ->
  seq e1 = seq e /\ (5 <= length rec)%nat /\ nth_byte rec 0 = typ /\
  body_ok (set_length rec (length rec - 5)) payload typ e1 d.
Proof.
  intros Hv Hs He Hd Hp H13 [Hsok Hs8] Hnok Hpok Hhok Hn. unfold cipher_pair in Hp. rewrite He, Hd in Hp.
  destruct Hp as (Hp & _ & Hm & Hm'). destruct (aead_sizes a a' Hp) as (Hov & Hex & He8 & _).
  unfold seal_aead. rewrite (proj2 (Z.eqb_neq _ _)) by done.
  rewrite (take_app_length' (header typ v1 v2 payload) nonce 5) by done.
  set (nn := if (length nonce =? 0)%nat then seq e else nonce).
  destruct (ra_Seal a nn payload (seq e ++ header typ v1 v2 payload)) as [r a1] eqn:Hseal.
  destruct r as [ct| |]; [|done..].
  assert (Hnnok : bytes_ok nn) by (unfold nn; case_match; done).
  assert (Hnn8 : length nn = 8%nat)
    by (unfold nn; destruct (Nat.eqb_spec (length nonce) 0); lia).
  assert (Hadok : bytes_ok (seq e ++ header typ v1 v2 payload)) by by apply Forall_app.
  destruct (aead_inv a a' nn payload _ ct a1 Hnn8 Hnnok Hpok Hadok Hp Hseal) as (Hctl & a1' & Hopen & Hp1).
  intros Heq. apply pair_equal_spec in Heq as [Hr <-]. apply Ret_inj in Hr as <-.
  cbn [seq set_cipher].
  split; [done|]. split; [rewrite !length_app; simpl; lia|]. split; [done|].
  rewrite <- (app_assoc _ nonce ct). rewrite set_length_app by done.
  set (N := (length _ - 5)%nat). clearbody N.
  set (b3 := u8 (Z.of_nat N ≫ 8)). set (b4 := u8 (Z.of_nat N)).
  change (take 3 (header typ v1 v2 payload) ++ [b3; b4] ++ nonce ++ ct)
    with ([typ; v1; v2; b3; b4] ++ nonce ++ ct).
  unfold body_ok, decrypt_body, decipher. rewrite Hd.
  change (drop 5 ([typ; v1; v2; b3; b4] ++ nonce ++ ct)) with (nonce ++ ct).
  change (nth_byte ([typ; v1; v2; b3; b4] ++ nonce ++ ct) 0) with typ.
  unfold decipher_aead, explicitNonceLen. rewrite Hd, <- Hex, <- Hn.
  rewrite (proj2 (Nat.ltb_ge _ _)) by (rewrite length_app; lia).
  rewrite take_app_length, drop_app_length, <- Hv, <- Hs, (proj2 (Z.eqb_neq _ _)) by done.
  fold nn. unfold additionalData12. rewrite <- Hov, <- Hs.
  replace (Z.of_nat (length ct) - Z.of_nat (ra_Overhead a)) with (Z.of_nat (length payload)) by lia.
  change (take 3 ([typ; v1; v2; b3; b4] ++ nonce ++ ct) ++
    [u8 (Z.of_nat (length payload) ≫ 8); u8 (Z.of_nat (length payload))])
    with (header typ v1 v2 payload).
  rewrite Hopen. cbn [d_plaintext d_payload d_paddingLen d_paddingGood].
  unfold inner_type. cbn [hc_cipher set_cipher version].
  rewrite <- Hv, (proj2 (Z.eqb_neq _ _)) by done.
  unfold check_mac. cbn [hc_mac set_cipher]. rewrite Hm'.
  eexists. split; [reflexivity|]. cbn [version seq set_cipher]. split; [done|]. split; [done|].
  unfold cipher_pair. cbn [hc_cipher set_cipher hc_mac version]. split; [done|]. by split.
Qed.

(** The outer header of a TLS 1.3 record whose ciphertext has [n] bytes. *)
Definition outer_header (v1 v2 : Z) (n : nat) : bytes :=
  [recordTypeApplicationData; v1; v2; u8 (Z.of_nat n ≫ 8); u8 (Z.of_nat n)].

(** A sealed inner plaintext [p ++ [t] ++ 0...0] opens to [p] of type [t]. *)
Lemma aead13_body v1 v2 p t n e d a a' ct a1 e1 :
  version e = version d -> seq e = seq d -> hc_cipher e = Some (CAead a) ->
  hc_cipher d = Some (CAead a') -> cipher_pair e d -> version e = VersionTLS13 -> t <> 0 ->
  let inner := p ++ [t] ++ replicate n 0 in
  Z.of_nat (length inner) <= maxPlaintext + 1 ->
  let hdr := outer_header v1 v2 (length inner + ra_Overhead a) in
  seq_ok (seq e) -> bytes_ok inner -> bytes_ok hdr ->
  ra_Seal a (seq e) inner hdr = (Ret ct, a1) ->
  version e1 = version e -> seq e1 = seq e -> hc_cipher e1 = Some (CAead a1) -> hc_mac e1 = None ->
  ra_explicitNonceLen a1 = ra_explicitNonceLen a ->
  body_ok (hdr ++ ct) p t e1 d.
Proof.
  intros Hv Hs He Hd Hp H13 Ht inner Hil hdr [Hsok Hs8] Hiok Hhok Hseal Hv1 Hs1 Hc1 Hm1 Hex1.
  unfold cipher_pair in Hp. rewrite He, Hd in Hp. destruct Hp as (Hp & Hx & _ & Hm').
  destruct (aead_sizes a a' Hp) as (Hov & Hex & _). specialize (Hx H13).
  destruct (aead_inv a a' (seq e) inner hdr ct a1 Hs8 Hsok Hiok Hhok Hp Hseal) as (Hctl & a1' & Hopen & Hp1).
  unfold body_ok, decrypt_body, decipher. rewrite Hd.
  change (drop 5 (hdr ++ ct)) with ct.
  change (nth_byte (hdr ++ ct) 0) with recordTypeApplicationData.
  unfold decipher_aead, explicitNonceLen. rewrite Hd, <- Hex, Hx. cbn [Nat.ltb Nat.leb take drop].
  change (length (take 0 ct) =? 0)%nat with true. cbv iota.
  rewrite <- Hv, H13, Z.eqb_refl, <- Hs.
  rewrite (take_app_length' hdr ct 5) by done.
  rewrite drop_0, Hopen. cbn [d_plaintext d_payload d_paddingLen d_paddingGood].
  unfold inner_type. cbn [hc_cipher set_cipher version].
  rewrite <- Hv, H13, Z.eqb_refl, Z.eqb_refl. cbn [negb].
  rewrite (proj2 (Z.ltb_ge _ _)) by lia. unfold inner. rewrite strip_inner_spec by done.
  unfold check_mac. cbn [hc_mac set_cipher]. rewrite Hm'.
  eexists. split; [reflexivity|]. cbn [version seq set_cipher].
  split; [congruence|]. split; [congruence|].
  unfold cipher_pair. cbn [hc_cipher set_cipher hc_mac version]. rewrite Hc1.
  split; [done|]. split; [intros _; congruence|]. by split.
Qed.

(** The record REALITY sends in the place of the target's session ticket. *)
Definition nst_record (e : hconn) (typ : Z) (payload : bytes) : Prop :=
  typ = recordTypeHandshake /\ nth_len (handshakeLen e) 1 <> 0 /\
  head payload = Some typeNewSessionTicket.

#[export] Instance nst_record_dec e typ payload : Decision (nst_record e typ payload).
Proof. unfold nst_record. apply _. Defined.

(** What its reader gets: the two bytes behind the header have been
    overwritten; with the single byte that REALITY means it for, they are the type
    of the record and the padding. *)
Definition overwritten (typ : Z) (payload : bytes) : bytes * Z :=
  match payload with
  | _ :: _ :: rest => (recordTypeApplicationData :: 0 :: rest, typ)
  | _ => ([], recordTypeApplicationData)
  end.
Definition delivered (e : hconn) (typ : Z) (payload : bytes) : bytes * Z :=
  if decide (version e = VersionTLS13 /\ nst_record e typ payload) then overwritten typ payload else (payload, typ).

(** A handshake record that is padded, and to which length. *)
Definition padded_to (e : hconn) (typ : Z) (payload : bytes) (n : Z) : Prop :=
  typ = recordTypeHandshake /\ nth_len (handshakeLen e) 1 <> 0 /\
  exists first i, head payload = Some first /\ padded_index first = Some i /\
    n = nth_len (handshakeLen e) i.

Lemma pad_record_shape ov (e : hconn) hdr payload typ r lens' :
  length hdr = 5%nat -> nth_byte hdr 0 = typ ->
  pad_record ov (handshakeLen e) ((hdr ++ payload) ++ [typ]) payload = (Ret r, lens') ->
  exists n,
    (~ nst_record e typ payload -> r = hdr ++ payload ++ [typ] ++ replicate n 0) /\
    (nst_record e typ payload -> r = hdr ++ (overwritten typ payload).1 ++ [(overwritten typ payload).2] ++ replicate n 0) /\
    (forall m, padded_to e typ payload m -> Z.of_nat (length r + ov) = m).
Proof.
  intros Hh Ht. unfold pad_record.
  assert (Hn0 : nth_byte ((hdr ++ payload) ++ [typ]) 0 = typ)
    by (rewrite <- app_assoc, nth_byte_app_l by lia; done).
  rewrite Hn0. set (rec := (hdr ++ payload) ++ [typ]).
  assert (Hno : ((typ =? recordTypeHandshake) && negb (nth_len (handshakeLen e) 1 =? 0)) = false ->
    forall P : Prop, (typ = recordTypeHandshake /\ nth_len (handshakeLen e) 1 <> 0 /\ P) -> False).
  { intros Hf P (-> & Hl1 & _). rewrite Z.eqb_refl in Hf. apply Z.eqb_neq in Hl1. by rewrite Hl1 in Hf. }
  destruct ((typ =? recordTypeHandshake) && negb (nth_len (handshakeLen e) 1 =? 0)) eqn:Hc.
  2:{ intros Heq. apply pair_equal_spec in Heq as [Hr _]. apply Ret_inj in Hr as <-. exists 0%nat.
      split; [intros _; unfold rec; by rewrite app_nil_r, <- app_assoc|].
      split; [intros Hn; by apply (Hno eq_refl) in Hn|intros m Hm; by apply (Hno eq_refl) in Hm]. }
  clear Hno. apply andb_true_iff in Hc as [Htyp Hl1]. apply Z.eqb_eq in Htyp.
  apply negb_true_iff, Z.eqb_neq in Hl1. destruct payload as [|first rest]; [done|].
  destruct (match padded_index first with Some i => _ | None => _ end) as [padding lens1] eqn:Hpad.
  set (rec' := if first =? typeNewSessionTicket then _ else rec).
  assert (Hrl : length rec' = length rec).
  { unfold rec'. destruct (first =? typeNewSessionTicket). all: by rewrite ?length_insert. }
  destruct (Z.ltb_spec (padding - Z.of_nat (length rec' + ov)) 0) as [|Hge]; [done|].
  destruct (Z.ltb_spec empty_size (padding - Z.of_nat (length rec' + ov))); [done|].
  intros Heq. apply pair_equal_spec in Heq as [Hr _]. apply Ret_inj in Hr as <-.
  set (n := Z.to_nat (padding - Z.of_nat (length rec' + ov))).
  exists (if decide (nst_record e typ (first :: rest)) then match rest with [] => Datatypes.S n | _ => n end else n). split; [|split].
  - intros Hn. rewrite decide_False by done. unfold rec'. rewrite (proj2 (Z.eqb_neq first typeNewSessionTicket)).
    + unfold rec. by rewrite <- !app_assoc.
    + intros ->. apply Hn. by split_and!.
  - intros Hn. rewrite decide_True by done. destruct Hn as (_ & _ & [= ->]). unfold rec'. rewrite Z.eqb_refl. unfold rec.
    do 5 (destruct hdr as [|? hdr]; [done|]). destruct hdr; [|done]. destruct rest as [|y rest]; [done|].
    cbn. by rewrite <- !app_assoc.
  - intros m (_ & _ & f & i & Hf & Hi & ->). injection Hf as <-. rewrite Hi in Hpad.
    injection Hpad as <- _. rewrite length_app, length_replicate. unfold n. lia.
Qed.

Lemma pad_record_ok ov lens rec payload r lens' : bytes_ok rec ->
  pad_record ov lens rec payload = (Ret r, lens') -> bytes_ok r.
Proof.
  intros Hok. unfold pad_record. repeat case_match; intros Heq; simplify_eq/=; try done.
  all: apply Forall_app; split; [|apply Forall_replicate; done].
  all: try done; by repeat apply Forall_insert.
Qed.

Lemma seal13_body typ v1 v2 payload e d a a' e1 rec :
  version e = version d -> seq e = seq d -> hc_cipher e = Some (CAead a) ->
  hc_cipher d = Some (CAead a') -> cipher_pair e d -> version e = VersionTLS13 -> typ <> 0 ->
  is_byte typ -> is_byte v1 -> is_byte v2 -> bytes_ok payload -> seq_ok (seq e) ->
  seal_aead a (header typ v1 v2 payload ++ []) [] payload e = (Ret rec, e1) ->
  Z.of_nat (length rec) <= 5 + Z.of_nat (ra_Overhead a) + maxPlaintext + 1 ->
  seq e1 = seq e /\ (5 <= length rec)%nat /\ nth_byte rec 0 = recordTypeApplicationData /\
  (~ nst_record e typ payload -> body_ok (set_length rec (length rec - 5)) payload typ e1 d) /\
  (nst_record e typ payload ->
   body_ok (set_length rec (length rec - 5)) (overwritten typ payload).1 (overwritten typ payload).2 e1 d) /\
  (forall m, padded_to e typ payload m -> Z.of_nat (length rec) = m).
Proof.
  intros Hv Hs He Hd Hp H13 Ht Htb Hv1 Hv2 Hok Hsok. assert (Hp' := Hp). unfold cipher_pair in Hp'.
  rewrite He, Hd in Hp'. destruct Hp' as (Hap & _ & Hm & _).
  unfold seal_aead. rewrite app_nil_r, H13, Z.eqb_refl.
  change (length (@nil Z) =? 0)%nat with true. cbv iota.
  change (nth_byte (header typ v1 v2 payload) 0) with typ.
  destruct (pad_record (ra_Overhead a) (handshakeLen e) _ payload) as [[r| |] lens'] eqn:Hpad; [|done..].
  destruct (pad_record_shape _ e (header typ v1 v2 payload) payload typ r lens' eq_refl eq_refl Hpad)
    as (n & Hr1 & Hr2 & Hlen).
  assert (Hsh : exists inner, r = header typ v1 v2 payload ++ inner).
  { assert (Hpre : take 5 r = header typ v1 v2 payload).
    { unfold pad_record in Hpad. repeat case_match; simplify_eq/=; done. }
    exists (drop 5 r). rewrite <- Hpre. symmetry. apply take_drop. }
  destruct Hsh as [inner ->]. assert (Hiok : bytes_ok inner).
  { assert (Hrok : bytes_ok (header typ v1 v2 payload ++ inner)).
    { apply pad_record_ok in Hpad; [done|]. rewrite <- app_assoc.
      apply Forall_app. split; [by apply header_ok|]. apply Forall_app. by split; [|constructor]. }
    by apply Forall_app in Hrok as [_ ?]. }
  set (ov := ra_Overhead a) in *.
  change (<[0%nat := recordTypeApplicationData]> (header typ v1 v2 payload ++ inner))
    with ([recordTypeApplicationData; v1; v2; u8 (Z.of_nat (length payload) ≫ 8); u8 (Z.of_nat (length payload))] ++ inner).
  rewrite set_length_app by done. rewrite length_app.
  replace (_ + length inner + ov - 5)%nat with (length inner + ov)%nat by (simpl; lia).
  change (take 3 _ ++ [u8 (Z.of_nat (length inner + ov) ≫ 8); u8 (Z.of_nat (length inner + ov))] ++ inner)
    with (outer_header v1 v2 (length inner + ov) ++ inner).
  set (hdr := outer_header v1 v2 (length inner + ov)).
  assert (Hhok : bytes_ok hdr).
  { assert (Hu : forall x, is_byte (u8 x)) by (intros x; apply Z.mod_pos_bound; lia).
    by repeat (apply Forall_cons_2; [done|]). }
  rewrite (drop_app_length' hdr inner 5), (take_app_length' hdr inner 5) by done.
  change (seq (set_handshakeLen lens' e)) with (seq e).
  pose proof (aead_seal_sizes a (seq e) inner hdr) as Hsz.
  destruct (ra_Seal a (seq e) inner hdr) as [[ct| |] a1] eqn:Hseal; [|done..].
  destruct (aead_inv a a' _ _ _ _ _ (proj2 Hsok) (proj1 Hsok) Hiok Hhok Hap Hseal) as (Hctl & _). fold ov in Hctl.
  intros Heq. apply pair_equal_spec in Heq as [Hr <-]. apply Ret_inj in Hr as <-.
  intros Hbound. rewrite length_app in Hbound. change (length hdr) with 5%nat in Hbound.
  assert (Hset : set_length (hdr ++ ct) (length (hdr ++ ct) - 5) = hdr ++ ct).
  { rewrite set_length_app, length_app by done. change (length hdr) with 5%nat.
    replace (5 + length ct - 5)%nat with (length inner + ov)%nat by lia. done. }
  rewrite Hset. cbn [seq set_cipher set_handshakeLen].
  split; [done|]. split; [rewrite length_app; simpl; lia|]. split; [done|].
  assert (Hb : forall p t m, inner = p ++ [t] ++ replicate m 0 -> t <> 0 ->
    body_ok (hdr ++ ct) p t (set_cipher (Some (CAead a1)) (set_handshakeLen lens' e)) d).
  { intros p t m Hi Ht'. unfold hdr. subst inner.
    apply (aead13_body v1 v2 p t m e d a a' ct a1); try done; [lia|apply Hsz]. }
  split; [|split].
  - intros Hn. apply (Hb payload typ n); [|done]. specialize (Hr1 Hn). by apply app_inv_head in Hr1.
  - intros Hn. apply (Hb _ _ n); [|by destruct payload as [|? [|]]].
    specialize (Hr2 Hn). by apply app_inv_head in Hr2.
  - intros m Hm'. rewrite <- (Hlen m Hm'), !length_app. change (length hdr) with 5%nat.
    change (length (header typ v1 v2 payload)) with 5%nat. lia.
Qed.

Lemma explicit_nonce_length rand (e : hconn) n : rand_ok rand -> seq_ok (seq e) ->
  explicit_nonce rand e = Ret n -> length n = explicitNonceLen e /\ bytes_ok n.
Proof.
  intros Hr [Hok Hs]. unfold explicit_nonce. rewrite Hs.
  destruct (Nat.ltb_spec 0 (explicitNonceLen e)) as [Hp|Hp].
  - destruct (negb _ && _).
    + intros Hn. apply Ret_inj in Hn as <-. rewrite length_app, length_take, length_replicate.
      split; [lia|]. apply Forall_app. split; [by apply Forall_take|by apply Forall_replicate].
    + destruct (rand (explicitNonceLen e)) as [b|] eqn:Hb; [|done].
      intros Hn. apply Ret_inj in Hn as <-. by apply Hr in Hb.
  - intros Hn. apply Ret_inj in Hn as <-. simpl. split; [lia|constructor].
Qed.

(** The two increments agree. *)
Lemma incSeq_agree (e d : hconn) : seq e = seq d -> cipher_pair e d -> version e = version d ->
  seq_ok (seq e) -> forall u e', incSeq e = (Ret u, e') ->
  exists d', incSeq d = (Ret u, d') /\ hc_pair e' d'.
Proof.
  intros Hs Hp Hv Hl u e'. unfold incSeq. rewrite <- Hs.
  pose proof (incSeq_loop_8 (seq e) Hl) as Hlen.
  destruct (incSeq_loop 8 (seq e)) as [r s']. destruct Hlen as [Hlen _].
  intros Heq. apply pair_equal_spec in Heq as [-> <-]. eexists. split; [reflexivity|].
  unfold hc_pair. cbn [version seq set_seq]. split; [done|]. split; [done|]. by split.
Qed.

(** The bound on what one record may carry. *)
Definition record_fits (e : hconn) (rec : bytes) : Prop :=
  forall a, hc_cipher e = Some (CAead a) -> version e = VersionTLS13 ->
  Z.of_nat (length rec) <= 5 + Z.of_nat (ra_Overhead a) + maxPlaintext + 1.

(** Every mode: the receiver reaches the payload and the type. *)
Lemma encrypt_body rand typ v1 v2 payload e d c r e1 nonce :
  rand_ok rand -> hc_pair e d -> bytes_ok payload -> Z.of_nat (length payload) < 2 ^ 30 ->
  typ <> 0 -> is_byte typ -> is_byte v1 -> is_byte v2 ->
  hc_cipher e = Some c -> explicit_nonce rand e = Ret nonce ->
  let rec0 := header typ v1 v2 payload ++ nonce in
  match c with
  | CStream s => seal_stream s rec0 payload e
  | CAead a => seal_aead a rec0 nonce payload e
  | CCbc c => seal_cbc c rec0 nonce payload e
  end = (Ret r, e1) ->
  record_fits e r ->
  seq e1 = seq e /\ (5 <= length r)%nat /\
  ((version e =? VersionTLS13) && (nth_byte r 0 =? recordTypeChangeCipherSpec) = false) /\
  body_ok (set_length r (length r - 5)) (delivered e typ payload).1 (delivered e typ payload).2 e1 d /\
  (version e = VersionTLS13 -> forall m, padded_to e typ payload m -> Z.of_nat (length r) = m).
Proof.
  intros Hr (Hv & Hs & Hsl & Hp) Hok Hl Ht Htb Hv1 Hv2 Hc Hn rec0 Hseal Hfit.
  assert (Hp' := Hp). unfold cipher_pair in Hp'. rewrite Hc in Hp'.
  destruct (explicit_nonce_length rand e nonce Hr Hsl Hn) as [Hnl Hnok].
  assert (Hsok : bytes_ok (seq e)) by apply Hsl.
  assert (Hlegacy : version e <> VersionTLS13 ->
    seq e1 = seq e /\ (5 <= length r)%nat /\ nth_byte r 0 = typ /\
      body_ok (set_length r (length r - 5)) payload typ e1 d ->
    seq e1 = seq e /\ (5 <= length r)%nat /\
    ((version e =? VersionTLS13) && (nth_byte r 0 =? recordTypeChangeCipherSpec) = false) /\
    body_ok (set_length r (length r - 5)) (delivered e typ payload).1 (delivered e typ payload).2 e1 d /\
    (version e = VersionTLS13 -> forall m, padded_to e typ payload m -> Z.of_nat (length r) = m)).
  { intros H13 (Q1 & Q2 & Q3 & Q4). unfold delivered. rewrite (decide_False (P:=version e = VersionTLS13 /\ _)) by (by intros [? _]).
    rewrite (proj2 (Z.eqb_neq _ _)) by done. by split_and!. }
  destruct c as [s|a|c].
  - destruct (hc_cipher d) as [[s'|?|?]|] eqn:Hd; try done. destruct Hp' as (_ & H13 & _).
    apply Hlegacy; [done|]. assert (nonce = []) as ->.
    { apply length_zero_iff_nil. rewrite Hnl. unfold explicitNonceLen. by rewrite Hc. }
    unfold rec0 in Hseal. rewrite app_nil_r in Hseal. by eapply stream_body.
  - destruct (hc_cipher d) as [[?|a'|?]|] eqn:Hd; try done. destruct Hp' as (_ & Hx & _).
    assert (Hnl' : length nonce = ra_explicitNonceLen a)
      by (rewrite Hnl; unfold explicitNonceLen; by rewrite Hc).
    destruct (decide (version e = VersionTLS13)) as [H13|H13].
    + assert (nonce = []) as -> by (apply length_zero_iff_nil; rewrite Hnl'; auto).
      destruct (seal13_body typ v1 v2 payload e d a a' e1 r Hv Hs Hc Hd Hp H13 Ht Htb Hv1 Hv2 Hok Hsl Hseal
        (Hfit a Hc H13)) as (Q1 & Q2 & Q3 & Q4 & Q5 & Q6).
      split; [done|]. split; [done|]. split; [rewrite Q3; apply andb_false_r|].
      split; [|done]. unfold delivered. destruct (decide _) as [[_ Hnst]|Hnst]; [by apply Q5|apply Q4; auto].
    + apply Hlegacy; [done|]. apply (aead12_body typ v1 v2 payload nonce e d a a'); try done.
      by apply header_ok.
  - destruct (hc_cipher d) as [[?|?|c']|] eqn:Hd; try done. destruct Hp' as (_ & H13 & _).
    apply Hlegacy; [done|]. by eapply cbc_body.
Qed.

(** The whole of [encrypt] and [decrypt] around the bodies. *)
Lemma encrypt_delivers rand typ v1 v2 payload e d rec e' :
  rand_ok rand -> hc_pair e d -> bytes_ok payload -> Z.of_nat (length payload) < 2 ^ 30 ->
  typ <> 0 -> is_byte typ -> is_byte v1 -> is_byte v2 ->
  encrypt rand (header typ v1 v2 payload) payload e = (Ret rec, e') -> record_fits e rec ->
  (exists d', decrypt rec d = (Ret (delivered e typ payload), d') /\ hc_pair e' d') /\
  (version e = VersionTLS13 -> forall m, padded_to e typ payload m -> Z.of_nat (length rec) = m).
Proof.
  intros Hr Hpair Hok Hl Ht Htb Hv1 Hv2. unfold encrypt.
  destruct (hc_cipher e) as [c|] eqn:Hc.
  2:{ destruct Hpair as (_ & _ & _ & Hp). unfold cipher_pair in Hp. by rewrite Hc in Hp. }
  destruct (explicit_nonce rand e) as [nonce| |] eqn:Hn; [|done..].
  destruct (match c with CStream s => _ | CAead a => _ | CCbc c => _ end) as [[r| |] e1] eqn:Hseal;
    [|done..].
  destruct (incSeq e1) as [[u| |] e2] eqn:Hinc; [|done..].
  intros Heq. apply pair_equal_spec in Heq as [Hrec <-]. apply Ret_inj in Hrec as <-. intros Hfit.
  assert (Hsl : length (set_length r (length r - 5)) = length r)
    by (unfold set_length; by rewrite !length_insert).
  assert (Hfit' : record_fits e r) by (intros a Ha H13; rewrite <- Hsl; by apply Hfit).
  destruct (encrypt_body rand typ v1 v2 payload e d c r e1 nonce Hr Hpair Hok Hl Ht Htb Hv1 Hv2 Hc Hn Hseal Hfit')
    as (Q1 & Q2 & Q3 & Q4 & Q6).
  destruct Hpair as (Hv & Hs & Hlen & _).
  assert (Hfin : forall p t, body_ok (set_length r (length r - 5)) p t e1 d ->
    exists d', decrypt (set_length r (length r - 5)) d = (Ret (p, t), d') /\ hc_pair e2 d').
  { intros p t (d1 & Hb & Hve1 & Hs1 & Hp1). rewrite decrypt_body_eq, Hb; [|lia|].
    - destruct (incSeq_agree e1 d1 Hs1 Hp1 Hve1 ltac:(by rewrite Q1) u e2 Hinc) as (d' & -> & Hp2).
      by exists d'.
    - rewrite <- Hv. rewrite <- Q3. f_equal. f_equal. unfold set_length, nth_byte.
      do 5 (destruct r as [|? r]; [simpl in Q2; lia|]). done. }
  split; [|by rewrite Hsl]. destruct (delivered e typ payload) as [p t]. by apply Hfin.
Qed.

Lemma encrypt_decrypt rand typ v1 v2 payload e d rec e' :
  rand_ok rand -> hc_pair e d -> bytes_ok payload -> Z.of_nat (length payload) < 2 ^ 30 ->
  typ <> 0 -> is_byte typ -> is_byte v1 -> is_byte v2 ->
  encrypt rand (header typ v1 v2 payload) payload e = (Ret rec, e') -> record_fits e rec ->
  (version e <> VersionTLS13 \/ ~ nst_record e typ payload ->
   exists d', decrypt rec d = (Ret (payload, typ), d') /\ hc_pair e' d') /\
  (version e = VersionTLS13 -> nst_record e typ payload -> payload = [typeNewSessionTicket] ->
   exists d', decrypt rec d = (Ret ([], recordTypeApplicationData), d') /\ hc_pair e' d') /\
  (version e = VersionTLS13 -> forall m, padded_to e typ payload m -> Z.of_nat (length rec) = m).
Proof.
  intros Hr Hp Hok Hl Ht Htb Hv1 Hv2 He Hf.
  destruct (encrypt_delivers rand typ v1 v2 payload e d rec e' Hr Hp Hok Hl Ht Htb Hv1 Hv2 He Hf) as [Hd Hm].
  unfold delivered in Hd. split_and!; [|intros H13 Hn ->; by rewrite decide_True in Hd|done].
  intros [Hn|Hn]; by rewrite decide_False in Hd by tauto.
Qed.

(** A protected TLS 1.3 record: its header, and its length by that of the
    padded plaintext. *)
Lemma encrypt_frame rand typ v1 v2 payload e d rec e' :
  rand_ok rand -> hc_pair e d -> bytes_ok payload -> is_byte typ -> is_byte v1 -> is_byte v2 -> version e = VersionTLS13 ->
  encrypt rand (header typ v1 v2 payload) payload e = (Ret rec, e') ->
  let n := Z.of_nat (length rec) - recordHeaderLen in
  take 5 rec = [recordTypeApplicationData; v1; v2; u8 (n ≫ 8); u8 n] /\
  exists a r lens', hc_cipher e = Some (CAead a) /\ length rec = (length r + ra_Overhead a)%nat /\
    pad_record (ra_Overhead a) (handshakeLen e) ((header typ v1 v2 payload ++ payload) ++ [typ]) payload = (Ret r, lens').
Proof.
  intros Hr (Hv & Hs & Hsq & Hp) Hok Ht Hv1 Hv2 H13 He. unfold cipher_pair in Hp. unfold encrypt in He.
  destruct (hc_cipher e) as [[s|a|c]|] eqn:Ha; [| | |done];
    (destruct (hc_cipher d) as [[?|a'|?]|] eqn:Hd; try done); [by destruct Hp as (_ & ? & _)| |by destruct Hp as (_ & ? & _)].
  destruct Hp as (Hp & Hx & _). destruct (explicit_nonce rand e) as [nonce| |] eqn:Hn; [|done..].
  destruct (explicit_nonce_length rand e nonce Hr Hsq Hn) as [Hnl _].
  unfold explicitNonceLen in Hnl. rewrite Ha, (Hx H13) in Hnl. apply length_zero_iff_nil in Hnl as ->.
  rewrite app_nil_r in He. unfold seal_aead in He. rewrite H13, Z.eqb_refl in He.
  change (length (@nil Z) =? 0)%nat with true in He. cbv iota in He.
  change (nth_byte (header typ v1 v2 payload) 0) with typ in He.
  destruct (pad_record _ _ _ payload) as [[out| |] lens'] eqn:Hout; [|done..].
  assert (Hpre : take 5 out = header typ v1 v2 payload).
  { unfold pad_record in Hout. repeat case_match; simplify_eq/=; done. }
  assert (Hook : bytes_ok out).
  { apply pad_record_ok in Hout; [done|]. rewrite <- app_assoc. apply Forall_app. split; [by apply header_ok|].
    apply Forall_app. by split; [|constructor]. }
  rewrite <- (take_drop 5 out), Hpre in He. set (inner := drop 5 out) in *. set (N := (length _ + ra_Overhead a - 5)%nat) in He.
  assert (Hu : forall x, is_byte (u8 x)) by (intros x; apply Z.mod_pos_bound; lia).
  cbn [header app insert list_insert] in He. unfold set_length in He. cbn [insert list_insert] in He.
  change (drop 5 (?x0 :: ?x1 :: ?x2 :: ?x3 :: ?x4 :: ?l)) with l in He. change (take 5 (?x0 :: ?x1 :: ?x2 :: ?x3 :: ?x4 :: ?l)) with [x0; x1; x2; x3; x4] in He.
  change (seq (set_handshakeLen lens' e)) with (seq e) in He.
  assert (Hh5 : bytes_ok [recordTypeApplicationData; v1; v2; u8 (Z.of_nat N ≫ 8); u8 (Z.of_nat N)]).
  { apply Forall_cons_2; [unfold is_byte, recordTypeApplicationData; lia|]. do 2 (apply Forall_cons_2; [assumption|]).
    do 2 (apply Forall_cons_2; [apply Hu|]). constructor. }
  assert (Hin : bytes_ok inner) by by apply Forall_drop.
  destruct (ra_Seal a (seq e) _ _) as [[ct| |] a1] eqn:Hseal; [|done..].
  destruct (aead_inv a a' _ _ _ _ _ (proj2 Hsq) (proj1 Hsq) Hin Hh5 Hp Hseal) as [Hct _].
  match type of He with context [incSeq ?h] => destruct (incSeq h) as [[u| |] e2]; [|done..] end.
  apply pair_equal_spec in He as [Hrec ->]. apply Ret_inj in Hrec as <-.
  assert (Hlo : length out = (5 + length inner)%nat).
  { rewrite <- (take_drop 5 out), Hpre, length_app. done. }
  split; [|exists a, out, lens'; split; [done|split; [|done]]].
  - cbn [length app take insert list_insert]. unfold recordHeaderLen. rewrite take_0.
    match goal with |- context [Z.of_nat ?n - 5] => replace (Z.of_nat n - 5) with (Z.of_nat (n - 5)) by lia end. reflexivity.
  - cbn [length app insert list_insert]. lia.
Qed.

(** What one record may carry, padded or not. *)
Lemma encrypt_record_fits rand typ v1 v2 payload e d rec e' :
  rand_ok rand -> hc_pair e d -> bytes_ok payload -> is_byte typ -> is_byte v1 -> is_byte v2 ->
  Z.of_nat (length payload) <= maxPlaintext -> (forall i, nth_len (handshakeLen e) i <= empty_size) ->
  encrypt rand (header typ v1 v2 payload) payload e = (Ret rec, e') -> record_fits e rec.
Proof.
  intros Hr Hp Hok Ht Hv1 Hv2 Hl Hsz He a Ha H13.
  destruct (encrypt_frame rand typ v1 v2 payload e d rec e' Hr Hp Hok Ht Hv1 Hv2 H13 He) as (_ & a' & r & lens' & Ha' & -> & Hpad).
  rewrite Ha in Ha'. injection Ha' as <-. revert Hpad. unfold pad_record.
  destruct (_ && _); [|intros Q; apply pair_equal_spec in Q as [Q _]; apply Ret_inj in Q as <-; rewrite !length_app; cbn [length header]; lia].
  destruct payload as [|first payload]; [done|].
  destruct (match padded_index first with Some i => _ | None => _ end) as [padding lens1] eqn:Hpi.
  assert (Hpb : padding <= empty_size) by (destruct (padded_index first); injection Hpi as <- _; [apply Hsz|unfold empty_size; lia]).
  set (x := if first =? typeNewSessionTicket then _ else _). clearbody x.
  destruct (Z.ltb_spec (padding - Z.of_nat (length x + ra_Overhead a)) 0); [done|].
  destruct (Z.ltb_spec empty_size (padding - Z.of_nat (length x + ra_Overhead a))); [done|].
  intros Q. apply pair_equal_spec in Q as [Q _]. apply Ret_inj in Q as <-.
  rewrite length_app, length_replicate. unfold empty_size, maxPlaintext in *. lia.
Qed.

(** C29: what one end encrypts, the corresponding end decrypts to the same
    payload and record type, for every cipher kind and protocol version and with
    REALITY's padding, and afterwards both ends correspond again, so whole
    conversations decrypt.  There is one exception, the record that begins with the
    type of a session ticket while TLS 1.3 records are padded: [encrypt] writes
    over its first two bytes, so that the reader of the single byte that REALITY
    sends in the place of the target's ticket gets empty application data, and the
    reader of a real ticket a message that is none.  (The payload is no longer
    than what [writeRecordLocked] puts in one record, and no recorded length is longer
    than the buffer of the target's records.) *)
Theorem decrypt_encrypt rand typ v1 v2 payload e d rec e' :
  rand_ok rand -> hc_pair e d -> bytes_ok payload -> Z.of_nat (length payload) <= maxPlaintext ->
  (forall i, nth_len (handshakeLen e) i <= empty_size) ->
  typ <> 0 -> is_byte typ -> is_byte v1 -> is_byte v2 ->
  encrypt rand (header typ v1 v2 payload) payload e = (Ret rec, e') ->
  exists d', hc_pair e' d' /\ decrypt rec d =
    (Ret (if decide (version e = VersionTLS13 /\ nst_record e typ payload)
          then match payload with _ :: _ :: rest => (recordTypeApplicationData :: 0 :: rest, typ) | _ => ([], recordTypeApplicationData) end
          else (payload, typ)), d').
Proof.
  intros Hr Hp Hok Hl Hsz Ht Htb Hv1 Hv2 He.
  pose proof (encrypt_record_fits rand typ v1 v2 payload e d rec e' Hr Hp Hok Htb Hv1 Hv2 Hl Hsz He) as Hf.
  assert (Hl' : Z.of_nat (length payload) < 2 ^ 30) by (unfold maxPlaintext in Hl; lia).
  destruct (encrypt_delivers rand typ v1 v2 payload e d rec e' Hr Hp Hok Hl' Ht Htb Hv1 Hv2 He Hf) as [(d' & Hd & Hp') _].
  by exists d'.
Qed.

(** REALITY's camouflage: a TLS 1.3 handshake record of a padded kind has
    exactly the length recorded from the target, and the record sent in the
    place of the target's session ticket is, to the client, an empty
    application data record. *)
Theorem reality_record_length rand v1 v2 payload e d rec e' m :
  rand_ok rand -> hc_pair e d -> bytes_ok payload -> Z.of_nat (length payload) < 2 ^ 30 ->
  is_byte v1 -> is_byte v2 -> version e = VersionTLS13 ->
  encrypt rand (header recordTypeHandshake v1 v2 payload) payload e = (Ret rec, e') ->
  record_fits e rec ->
  padded_to e recordTypeHandshake payload m ->
  Z.of_nat (length rec) = m /\
  (payload = [typeNewSessionTicket] ->
   exists d', decrypt rec d = (Ret ([], recordTypeApplicationData), d') /\ hc_pair e' d').
Proof.
  intros Hr Hp Hok Hl Hv1 Hv2 H13 He Hf Hm.
  destruct (encrypt_decrypt rand recordTypeHandshake v1 v2 payload e d rec e') as (_ & Q2 & Q3);
    [done..|].
  split; [by apply Q3|]. intros Hpl. apply Q2; [done| |done]. subst payload.
  by destruct Hm as (_ & ? & _).
Qed.

(** ** Conversations *)

(** A message to send: record type and payload. *)
Definition msg : Type := Z * bytes.
Definition msg_ok (m : msg) : Prop :=
  fst m <> 0 /\ is_byte (fst m) /\ bytes_ok (snd m) /\ Z.of_nat (length (snd m)) < 2 ^ 30 /\
  ~ (fst m = recordTypeHandshake /\ head (snd m) = Some typeNewSessionTicket).

(** The records of successive [encrypt]s, when all succeed and fit. *)
Fixpoint send_all (v1 v2 : Z) (e : hconn) (ms : list msg) (recs : list bytes) (e_end : hconn) : Prop :=
  match ms, recs with
  | [], [] => e_end = e
  | (typ, payload) :: ms, rec :: recs =>
      exists rand e', rand_ok rand /\
        encrypt rand (header typ v1 v2 payload) payload e = (Ret rec, e') /\
        record_fits e rec /\ send_all v1 v2 e' ms recs e_end
  | _, _ => False
  end.

(** The results of successive [decrypt]s. *)
Fixpoint receive_all (d : hconn) (recs : list bytes) : list (outcome conn_error (bytes * Z)) :=
  match recs with
  | [] => []
  | rec :: recs => let '(r, d) := decrypt rec d in r :: receive_all d recs
  end.

Lemma send_receive v1 v2 e d ms recs e_end :
  is_byte v1 -> is_byte v2 -> hc_pair e d -> Forall msg_ok ms ->
  send_all v1 v2 e ms recs e_end ->
  receive_all d recs = (fun m => Ret (snd m, fst m)) <$> ms.
Proof.
  intros Hv1 Hv2 Hp Hms. revert e d recs Hp.
  induction Hms as [|[typ payload] ms (Ht & Htb & Hok & Hl & Hn) _ IH];
    intros e d [|rec recs] Hp Hs; try done.
  destruct Hs as (rand & e' & Hr & He & Hf & Hs). cbn [fst snd] in *.
  destruct (encrypt_decrypt rand typ v1 v2 payload e d rec e' Hr Hp Hok Hl Ht Htb Hv1 Hv2 He Hf)
    as (Q & _).
  destruct Q as (d' & Hd & Hp').
  { right. intros (Q1 & _ & Q2). by apply Hn. }
  cbn [receive_all fmap list_fmap fst snd]. rewrite Hd. f_equal. by apply (IH e').
Qed.

(** A conversation: whatever messages one end sends, in any number, the
    corresponding end receives exactly these payloads and types in order. *)
Theorem conversation v1 v2 e d ms recs e_end :
  is_byte v1 -> is_byte v2 -> hc_pair e d -> Forall msg_ok ms ->
  send_all v1 v2 e ms recs e_end ->
  receive_all d recs = (fun m => Ret (snd m, fst m)) <$> ms.
Proof. apply send_receive. Qed.
End pair.
