(* ===== verification/RecordAead.v ===== *)
(** * The AEADs of cipher_suites.go in the record layer

    [xorNonceAEAD] over [GCMForTLS13] and [prefixNonceAEAD] over [GCMForTLS12]
    implement the interface [RecordAEAD] of the record layer, with the buffers
    laid out as [encrypt] and [decrypt] pass them, and satisfy its contract
    [AeadPair]: two objects made from the same key and IV open what the other
    seals.  With this the record theorems hold for the real ciphers. *)

From S2P Require Import Prelude Common Alias Aes AesProofs Ghash GhashSpec Gcm GcmSpec GcmNonces.
From S2P Require Import CipherSuites CipherSuitesProofs HalfConn HalfConnProofs RecordProofs.

Open Scope go_scope.

(** ** The buffers *)

(** TLS 1.3 [encrypt]: [c.Seal(record[:5], nonce, record[5:], record[:5])]: the
    header and, behind it, the plaintext that is overwritten. *)
Definition rec_base : Z := 0x10000.
Definition other_base : Z := 0x100000000000.
Definition alloc_base : Z := 0x200000000000.

Definition seal13_call (nonce p ad : bytes) : call := {|
  c_alloc := alloc_base;
  c_dst := {| ptr := rec_base; data := ad; spare := p ++ replicate 16 0 |};
  c_nonce := nonce;
  c_plaintext := {| ptr := rec_base + Z.of_nat (length ad); data := p; spare := replicate 16 0 |};
  c_data := {| ptr := rec_base; data := ad; spare := p ++ replicate 16 0 |}
|}.

(** TLS 1.2 [encrypt]: [c.Seal(record, nonce, payload, additionalData)] with the
    payload and the additional data in buffers of their own. *)
Definition seal12_call (nonce p ad : bytes) : call := {|
  c_alloc := alloc_base;
  c_dst := {| ptr := rec_base; data := []; spare := replicate (length p + 16) 0 |};
  c_nonce := nonce;
  c_plaintext := {| ptr := other_base; data := p; spare := [] |};
  c_data := {| ptr := rec_base - Z.of_nat (length ad); data := ad; spare := [] |}
|}.

(** [decrypt]: [c.Open(payload[:0], nonce, payload, additionalData)]. *)
Definition open_call (nonce c ad : bytes) : call := {|
  c_alloc := alloc_base;
  c_dst := {| ptr := rec_base; data := []; spare := c |};
  c_nonce := nonce;
  c_plaintext := {| ptr := rec_base; data := c; spare := [] |};
  c_data := {| ptr := rec_base - Z.of_nat (length ad); data := ad; spare := c |}
|}.

(** The bytes appended to [dst]. *)
Definition appended {E A} (n : nat) (r : outcome E bytes * A) : outcome E bytes * A :=
  (match fst r with Ret b => Ret (drop n b) | Err e => Err e | Panic w => Panic w end, snd r).

(** The error of [Open] is discarded by [decrypt]. *)
Definition forget_err {E A B} (r : outcome E B * A) : outcome unit B * A :=
  (match fst r with Ret b => Ret b | Err _ => Err tt | Panic w => Panic w end, snd r).

#[export] Instance TLS13_RecordAEAD : RecordAEAD (xorNonceAEAD.t ForTLS13.t) := {|
  ra_Overhead f := Z.to_nat (xorNonceAEAD.Overhead f);
  ra_explicitNonceLen f := Z.to_nat (xorNonceAEAD.explicitNonceLen f);
  ra_Seal f nonce p ad :=
    appended (length ad) (xorNonceAEAD.Seal f (seal13_call nonce p ad));
  ra_Open f nonce c ad := forget_err (xorNonceAEAD.Open f (open_call nonce c ad))
|}.

#[export] Instance TLS12_RecordAEAD : RecordAEAD (prefixNonceAEAD.t ForTLS12.t) := {|
  ra_Overhead f := Z.to_nat (prefixNonceAEAD.Overhead f);
  ra_explicitNonceLen f := Z.to_nat (prefixNonceAEAD.explicitNonceLen f);
  ra_Seal f nonce p ad :=
    appended 0 (prefixNonceAEAD.Seal f (seal12_call nonce p ad));
  ra_Open f nonce c ad := forget_err (prefixNonceAEAD.Open f (open_call nonce c ad))
|}.

(** ** The layouts pass the overlap checks *)

Lemma tail_of_spare alloc dst n : (n <= length (spare dst))%nat ->
  ptr (snd (sliceForAppend alloc dst n)) = ptr dst + slen dst /\
  length (data (snd (sliceForAppend alloc dst n))) = n.
Proof.
  intros Hn. unfold sliceForAppend. rewrite (proj2 (Nat.leb_le _ _)) by (unfold scap; lia).
  cbn [snd ptr data]. split; [done|]. rewrite drop_app_length, length_take. lia.
Qed.

Section layouts.
Context (key : bytes) (g : GCM) (Hg : std_gcm key g).
Context (n p ad : bytes) (Hn : bytes_ok n) (Hp : bytes_ok p) (Had : bytes_ok ad).
Context (Hnl : length n = 12%nat) (Hmax : Z.of_nat (length p) <= gcmMaxPlaintext).

Lemma seal13_admissible nonce : call_admissible g n (seal13_call nonce p ad).
Proof.
  destruct Hg as (Hw & Ht & Hns). unfold call_admissible, seal_args, seal13_call.
  cbn [c_alloc c_dst c_plaintext c_data data]. rewrite Hnl, Hns.
  unfold seal_out. cbn [data]. rewrite Ht. change (Z.to_nat 16) with 16%nat.
  set (dst := {| ptr := rec_base; data := ad; spare := p ++ replicate 16 0 |}).
  destruct (tail_of_spare alloc_base dst (length p + 16)) as [Hptr Hlen].
  { unfold dst. cbn [spare]. rewrite length_app, length_replicate. lia. }
  split_and!; try done.
  - unfold InexactOverlap. cbn [ptr data]. rewrite Hptr. cbn [ptr data dst].
    rewrite Z.eqb_refl, !orb_true_r. done.
  - unfold AnyOverlap. cbn [ptr data]. rewrite Hptr, Hlen. cbn [ptr data dst].
    apply not_true_is_false. rewrite !andb_true_iff, !Z.leb_le. lia.
Qed.

Lemma seal12_admissible nonce : call_admissible g n (seal12_call nonce p ad).
Proof.
  destruct Hg as (Hw & Ht & Hns). unfold call_admissible, seal_args, seal12_call.
  cbn [c_alloc c_dst c_plaintext c_data data]. rewrite Hnl, Hns.
  unfold seal_out. cbn [data]. rewrite Ht. change (Z.to_nat 16) with 16%nat.
  set (dst := {| ptr := rec_base; data := []; spare := replicate (length p + 16) 0 |}).
  destruct (tail_of_spare alloc_base dst (length p + 16)) as [Hptr Hlen].
  { unfold dst. cbn [spare]. rewrite length_replicate. lia. }
  unfold gcmMaxPlaintext in *.
  split_and!; try done; unfold InexactOverlap, AnyOverlap; cbn [ptr data]; rewrite Hptr, Hlen;
    cbn [ptr data dst length]; unfold rec_base, other_base, alloc_base in *.
  - destruct (_ || _); [done|]. apply not_true_is_false. rewrite !andb_true_iff, !Z.leb_le. lia.
  - apply not_true_is_false. rewrite !andb_true_iff, !Z.leb_le. lia.
Qed.

(** Opening what was sealed, in the layout of [decrypt]. *)
Lemma open_sealed nonce ct : ct = spec_seal (fips_encrypt key) 16 n p ad -> bytes_ok ct ->
  fst (Open alloc_base g (c_dst (open_call nonce ct ad)) n
         (c_plaintext (open_call nonce ct ad)) (c_data (open_call nonce ct ad))) = Ret p.
Proof.
  intros Hct Hok. destruct Hg as (Hw & Ht & Hns). symmetry in Hct.
  apply spec_seal_split in Hct as (Hl & H1 & H2); [|lia].
  assert (Ho : open_args alloc_base g (c_dst (open_call nonce ct ad)) n
    (c_plaintext (open_call nonce ct ad)) (c_data (open_call nonce ct ad))).
  { unfold open_args, open_call, open_out. cbn [c_dst c_plaintext c_data data]. rewrite Hnl, Hns, Ht.
    set (dst := {| ptr := rec_base; data := []; spare := ct |}).
    destruct (tail_of_spare alloc_base dst (Z.to_nat (Z.of_nat (length ct) - 16))) as [Hptr Hlen].
    { unfold dst. cbn [spare]. lia. }
    split_and!; try done; [lia|lia| |].
    - unfold InexactOverlap. rewrite Hptr. cbn [ptr data dst length]. rewrite Z.add_0_r, Z.eqb_refl.
      by rewrite !orb_true_r.
    - unfold AnyOverlap. rewrite Hptr, Hlen. cbn [ptr data dst length].
      apply not_true_is_false. rewrite !andb_true_iff, !Z.leb_le. lia. }
  rewrite (Open_spec key g Hw _ _ _ _ _ Ho). rewrite Ht. cbn [c_dst c_plaintext c_data open_call data].
  change (Z.to_nat 16) with 16%nat. rewrite H1, H2. rewrite decide_True by done.
  rewrite spec_ct_involutive. done.
Qed.
End layouts.

(** ** What a returning [Seal] did *)

Lemma ForTLS13_Seal_ret {E} s c o s' : ForTLS13.Seal (E:=E) s c = (Ret o, s') ->
  seal_call (E:=E) (ForTLS13.g s) c = Ret o /\ ForTLS13.g s' = ForTLS13.g s.
Proof. unfold ForTLS13.Seal. intros Hs. repeat case_match; simplify_eq/=; done. Qed.

Lemma ForTLS13_Seal_g {E} s c : ForTLS13.g (snd (ForTLS13.Seal (E:=E) s c)) = ForTLS13.g s.
Proof. unfold ForTLS13.Seal. by repeat case_match. Qed.

Lemma ForTLS12_Seal_ret {E} s c o s' : ForTLS12.Seal (E:=E) s c = (Ret o, s') ->
  seal_call (E:=E) (ForTLS12.g s) c = Ret o /\ ForTLS12.g s' = ForTLS12.g s.
Proof. unfold ForTLS12.Seal. intros Hs. repeat case_match; simplify_eq/=; done. Qed.

Lemma seal_call_max {E} g c o : seal_call (E:=E) g c = Ret o ->
  slen (c_plaintext c) <= gcmMaxPlaintext.
Proof.
  unfold seal_call, sealAfterIndicator. repeat case_match; try done. intros _.
  match goal with Hlt : (gcmMaxPlaintext <? _) = false |- _ => apply Z.ltb_ge in Hlt end. done.
Qed.

Lemma with_nonce_max {E} g c n o : seal_call (E:=E) g (with_nonce c n) = Ret o ->
  slen (c_plaintext c) <= gcmMaxPlaintext.
Proof. apply seal_call_max. Qed.

Lemma length_spec_seal key n p ad : length (spec_seal (fips_encrypt key) 16 n p ad) = (length p + 16)%nat.
Proof.
  unfold spec_seal. rewrite length_app, length_take, length_spec_ct, length_spec_tag. lia.
Qed.

Lemma spec_seal_ok key n p ad : valid_key key -> bytes_ok n -> bytes_ok p ->
  bytes_ok (spec_seal (fips_encrypt key) 16 n p ad).
Proof.
  intros Hk Hn Hp. destruct (deriveCounter_spec key Hk (E:=unit) n Hn) as (_ & HJ & _).
  apply Forall_app. split; [by apply spec_ct_ok|]. apply Forall_take. unfold spec_tag. apply zip_xor_ok.
  - match goal with |- context [nist_GHASH ?h ?l] => apply (nist_GHASH_block h l) end.
  - by apply fips_encrypt_ok.
Qed.

(** ** The contract *)

Definition pair13 (e d : xorNonceAEAD.t ForTLS13.t) : Prop :=
  exists key g iv, std_gcm key g /\ bytes_ok iv /\ length iv = 12%nat /\
    xorNonceAEAD.nonceMask e = iv /\ xorNonceAEAD.nonceMask d = iv /\
    ForTLS13.g (xorNonceAEAD.aead e) = g /\ ForTLS13.g (xorNonceAEAD.aead d) = g.

Definition pair12 (e d : prefixNonceAEAD.t ForTLS12.t) : Prop :=
  exists key g prefix, std_gcm key g /\ bytes_ok prefix /\ length prefix = 4%nat /\
    length (prefixNonceAEAD.nonce e) = 12%nat /\ length (prefixNonceAEAD.nonce d) = 12%nat /\
    take 4 (prefixNonceAEAD.nonce e) = prefix /\ take 4 (prefixNonceAEAD.nonce d) = prefix /\
    ForTLS12.g (prefixNonceAEAD.aead e) = g /\ ForTLS12.g (prefixNonceAEAD.aead d) = g.

Lemma seal13_inv e nonce p ad c e' key g iv :
  std_gcm key g -> bytes_ok iv -> length iv = 12%nat -> xorNonceAEAD.nonceMask e = iv ->
  ForTLS13.g (xorNonceAEAD.aead e) = g -> length nonce = 8%nat -> bytes_ok nonce ->
  bytes_ok p -> bytes_ok ad -> ra_Seal e nonce p ad = (Ret c, e') ->
  Z.of_nat (length p) <= gcmMaxPlaintext /\
  c = spec_seal (fips_encrypt key) 16 (xor_iv iv nonce) p ad /\
  xorNonceAEAD.nonceMask e' = iv /\ ForTLS13.g (xorNonceAEAD.aead e') = g.
Proof.
  intros Hg Hivok Hivl Hm HgE Hn8 Hnok Hp Had. unfold ra_Seal, TLS13_RecordAEAD, appended.
  unfold xorNonceAEAD.Seal, xorNonceAEAD.around. rewrite Hm.
  change (c_nonce (seal13_call nonce p ad)) with nonce. rewrite xor_nonce_iv by done. cbn [negb].
  unfold AEAD_Seal, ForTLS13_is_AEAD.
  destruct (ForTLS13.Seal (xorNonceAEAD.aead e) (with_nonce (seal13_call nonce p ad) (xor_iv iv nonce)))
    as [[o| |] s'] eqn:Hs; [| |by intros Heq].
  2:{ rewrite xor_nonce_iv by (done || by apply length_xor_iv). by intros Heq. }
  apply ForTLS13_Seal_ret in Hs as [Hs Hg']. rewrite HgE in Hs, Hg'.
  rewrite xor_nonce_iv by (done || by apply length_xor_iv). cbn [negb fst snd].
  rewrite xor_iv_involutive by done.
  intros Heq. apply pair_equal_spec in Heq as [Hc <-]. apply Ret_inj in Hc as <-.
  cbn [xorNonceAEAD.nonceMask xorNonceAEAD.aead].
  pose proof (with_nonce_max _ _ _ _ Hs) as Hmax. split; [exact Hmax|]. split; [|done].
  rewrite (seal_call_spec key) in Hs; [|done|].
  - apply Ret_inj in Hs as <-. unfold sealed_as. by rewrite drop_app_length.
  - apply (seal13_admissible key); try done; [by apply xor_iv_ok|by apply length_xor_iv].
Qed.

Lemma open13_inv d nonce p ad key g iv :
  std_gcm key g -> bytes_ok iv -> length iv = 12%nat -> xorNonceAEAD.nonceMask d = iv ->
  ForTLS13.g (xorNonceAEAD.aead d) = g -> length nonce = 8%nat -> bytes_ok nonce ->
  bytes_ok p -> bytes_ok ad -> Z.of_nat (length p) <= gcmMaxPlaintext ->
  ra_Open d nonce (spec_seal (fips_encrypt key) 16 (xor_iv iv nonce) p ad) ad =
  (Ret p, xorNonceAEAD.mk iv (xorNonceAEAD.aead d)).
Proof.
  intros Hg Hivok Hivl Hm HgD Hn8 Hnok Hp Had Hmax. set (c := spec_seal _ _ _ _ _).
  assert (Hcok : bytes_ok c) by (apply spec_seal_ok; [apply Hg|by apply xor_iv_ok|done]).
  unfold ra_Open, TLS13_RecordAEAD, forget_err, xorNonceAEAD.Open, xorNonceAEAD.around. rewrite Hm.
  change (c_nonce (open_call nonce c ad)) with nonce. rewrite xor_nonce_iv by done. cbn [negb].
  unfold AEAD_Open, ForTLS13_is_AEAD, ForTLS13.Open. rewrite HgD.
  assert (Ho : fst (Open alloc_base g (c_dst (open_call nonce c ad)) (xor_iv iv nonce)
    (c_plaintext (open_call nonce c ad)) (c_data (open_call nonce c ad))) = Ret p).
  { apply (open_sealed key g Hg); try done; [by apply xor_iv_ok|by apply length_xor_iv]. }
  unfold with_nonce. cbn [c_alloc c_dst c_nonce c_plaintext c_data].
  change (c_alloc (open_call nonce c ad)) with alloc_base.
  change (c_dst (with_nonce (open_call nonce c ad) (xor_iv iv nonce))) with (c_dst (open_call nonce c ad)).
  rewrite Ho. rewrite xor_nonce_iv by (done || by apply length_xor_iv). cbn [negb fst snd].
  by rewrite xor_iv_involutive.
Qed.

Lemma set_nonce_eq (f : prefixNonceAEAD.t ForTLS12.t) prefix nonce : length (prefixNonceAEAD.nonce f) = 12%nat ->
  take 4 (prefixNonceAEAD.nonce f) = prefix -> length nonce = 8%nat ->
  prefixNonceAEAD.set_nonce f nonce = prefix ++ nonce.
Proof.
  intros Hl Ht Hn. unfold prefixNonceAEAD.set_nonce, copy. rewrite Ht, Hn, length_drop, Hl.
  change (min (12 - 4) 8) with 8%nat. rewrite (take_ge nonce) by lia.
  by rewrite drop_ge, app_nil_r by (rewrite length_drop; lia).
Qed.

Lemma seal12_inv (e : prefixNonceAEAD.t ForTLS12.t) nonce p ad c e' key g prefix :
  std_gcm key g -> bytes_ok prefix -> length prefix = 4%nat ->
  length (prefixNonceAEAD.nonce e) = 12%nat -> take 4 (prefixNonceAEAD.nonce e) = prefix ->
  ForTLS12.g (prefixNonceAEAD.aead e) = g -> length nonce = 8%nat -> bytes_ok nonce ->
  bytes_ok p -> bytes_ok ad -> ra_Seal e nonce p ad = (Ret c, e') ->
  Z.of_nat (length p) <= gcmMaxPlaintext /\
  c = spec_seal (fips_encrypt key) 16 (prefix ++ nonce) p ad /\
  prefixNonceAEAD.nonce e' = prefix ++ nonce /\ ForTLS12.g (prefixNonceAEAD.aead e') = g.
Proof.
  intros Hg Hpok Hpl Hnl Ht HgE Hn8 Hnok Hp Had. unfold ra_Seal, TLS12_RecordAEAD, appended.
  unfold prefixNonceAEAD.Seal. change (c_nonce (seal12_call nonce p ad)) with nonce.
  rewrite (set_nonce_eq e prefix nonce) by done.
  unfold AEAD_Seal, ForTLS12_is_AEAD.
  destruct (ForTLS12.Seal (prefixNonceAEAD.aead e) (with_nonce (seal12_call nonce p ad) (prefix ++ nonce)))
    as [[o| |] s'] eqn:Hs; [|by intros Heq..].
  apply ForTLS12_Seal_ret in Hs as [Hs Hg']. rewrite HgE in Hs, Hg'. cbn [fst snd].
  intros Heq. apply pair_equal_spec in Heq as [Hc <-]. apply Ret_inj in Hc as <-.
  cbn [prefixNonceAEAD.nonce prefixNonceAEAD.aead].
  pose proof (with_nonce_max _ _ _ _ Hs) as Hmax. split; [exact Hmax|]. split; [|done].
  rewrite (seal_call_spec key) in Hs; [|done|].
  - apply Ret_inj in Hs as <-. done.
  - apply (seal12_admissible key); try done; [by apply Forall_app|rewrite length_app; lia].
Qed.

Lemma open12_inv (d : prefixNonceAEAD.t ForTLS12.t) nonce p ad key g prefix :
  std_gcm key g -> bytes_ok prefix -> length prefix = 4%nat ->
  length (prefixNonceAEAD.nonce d) = 12%nat -> take 4 (prefixNonceAEAD.nonce d) = prefix ->
  ForTLS12.g (prefixNonceAEAD.aead d) = g -> length nonce = 8%nat -> bytes_ok nonce ->
  bytes_ok p -> bytes_ok ad -> Z.of_nat (length p) <= gcmMaxPlaintext ->
  ra_Open d nonce (spec_seal (fips_encrypt key) 16 (prefix ++ nonce) p ad) ad =
  (Ret p, prefixNonceAEAD.mk (prefix ++ nonce) (prefixNonceAEAD.aead d)).
Proof.
  intros Hg Hpok Hpl Hnl Ht HgD Hn8 Hnok Hp Had Hmax. set (c := spec_seal _ _ _ _ _).
  assert (Hcok : bytes_ok c) by (apply spec_seal_ok; [apply Hg|by apply Forall_app|done]).
  unfold ra_Open, TLS12_RecordAEAD, forget_err, prefixNonceAEAD.Open.
  change (c_nonce (open_call nonce c ad)) with nonce. rewrite (set_nonce_eq d prefix nonce) by done.
  unfold AEAD_Open, ForTLS12_is_AEAD, ForTLS12.Open. rewrite HgD.
  assert (Ho : fst (Open alloc_base g (c_dst (open_call nonce c ad)) (prefix ++ nonce)
    (c_plaintext (open_call nonce c ad)) (c_data (open_call nonce c ad))) = Ret p).
  { apply (open_sealed key g Hg); try done; [by apply Forall_app|rewrite length_app; lia]. }
  unfold with_nonce. cbn [c_alloc c_dst c_nonce c_plaintext c_data].
  change (c_alloc (open_call nonce c ad)) with alloc_base. rewrite Ho. done.
Qed.

#[export] Instance TLS13_AeadPair : AeadPair (xorNonceAEAD.t ForTLS13.t).
Proof.
  refine {| aead_pair := pair13 |}.
  - intros e d _. split; [done|]. split; [done|]. split; [by left|]. vm_compute. lia.
  - intros e nonce p ad. destruct (ra_Seal e nonce p ad). done.
  - intros e d nonce p ad c e' Hn8 Hnok Hp Had (key & g & iv & Hg & Hiv & Hl & He & Hd & HgE & HgD) Hs.
    destruct (seal13_inv e nonce p ad c e' key g iv) as (Hmax & -> & He' & HgE'); try done.
    split; [by apply length_spec_seal|].
    exists (xorNonceAEAD.mk iv (xorNonceAEAD.aead d)). split; [by apply (open13_inv d nonce p ad key g)|].
    by exists key, g, iv.
Defined.

#[export] Instance TLS12_AeadPair : AeadPair (prefixNonceAEAD.t ForTLS12.t).
Proof.
  refine {| aead_pair := pair12 |}.
  - intros e d _. split; [done|]. split; [done|]. split; [by right|]. vm_compute. lia.
  - intros e nonce p ad. destruct (ra_Seal e nonce p ad). done.
  - intros e d nonce p ad c e' Hn8 Hnok Hp Had
      (key & g & prefix & Hg & Hpf & Hl & He & Hd & Hte & Htd & HgE & HgD) Hs.
    destruct (seal12_inv e nonce p ad c e' key g prefix) as (Hmax & -> & He' & HgE'); try done.
    split; [by apply length_spec_seal|].
    exists (prefixNonceAEAD.mk (prefix ++ nonce) (prefixNonceAEAD.aead d)).
    split; [by apply (open12_inv d nonce p ad key g)|].
    exists key, g, prefix. rewrite He'. cbn [prefixNonceAEAD.nonce prefixNonceAEAD.aead].
    assert (H12 : length (prefix ++ nonce) = 12%nat) by (rewrite length_app; lia).
    assert (Ht : take 4 (prefix ++ nonce) = prefix) by by apply take_app_length'.
    by split_and!.
Defined.

(** ** Both ends of a TLS 1.3 direction *)

(** Two ends that install the same traffic secret correspond. *)
Lemma setTrafficSecret_pair {S C K} `{StreamPair S} `{CbcPair C} `{MacLaws K}
    (trafficKey : bytes -> bytes * bytes) lvl secret key iv f
    (e d : halfConn S (xorNonceAEAD.t ForTLS13.t) C K) :
  trafficKey secret = (key, iv) -> bytes_ok key -> bytes_ok iv ->
  aeadAESGCMTLS13 (E:=unit) key iv = Ret f ->
  version e = VersionTLS13 -> version d = VersionTLS13 -> hc_mac e = None -> hc_mac d = None ->
  let mk k i := match aeadAESGCMTLS13 (E:=unit) k i with Ret a => a | _ => f end in
  hc_pair (setTrafficSecret trafficKey mk lvl secret e) (setTrafficSecret trafficKey mk lvl secret d).
Proof.
  intros Htk Hk Hiv Hf Hve Hvd Hme Hmd mk. unfold setTrafficSecret. rewrite Htk.
  assert (Hmk : mk key iv = f) by (unfold mk; by rewrite Hf). rewrite Hmk.
  apply aeadAESGCMTLS13_ret in Hf as (Hl & g & Hg & ->); [|done].
  unfold hc_pair. cbn [version seq]. split; [congruence|]. split; [done|].
  split; [split; [compute_decide|done]|]. unfold cipher_pair. cbn [hc_cipher hc_mac version].
  split; [by exists key, g, iv|]. split; [done|]. by split.
Qed.

(** ** Witnesses *)

(** A stream, a block mode and a MAC to instantiate the other ciphers. *)
Inductive xor_stream := XorStream (k : Z).
#[export] Instance xor_stream_Stream : Stream xor_stream :=
  fun s p => let '(XorStream k) := s in (Z.lxor k <$> p, s).
#[export] Instance xor_stream_pair : StreamPair xor_stream.
Proof.
  refine {| stream_pair := eq |}.
  - intros [k] p1 p2. cbn. by rewrite fmap_app.
  - intros [k] d p <-. cbn. eexists. split; [|done]. f_equal. rewrite <- list_fmap_compose.
    rewrite <- (list_fmap_id p) at 2. apply list_fmap_ext. intros i x _. unfold compose.
    by rewrite <- Z.lxor_assoc, Z.lxor_nilpotent.
Defined.

Inductive xor_cbc := XorCbc (iv : bytes).
#[export] Instance xor_cbc_CbcMode : CbcMode xor_cbc := {|
  BlockSize _ := 16%nat;
  SetIV _ iv := XorCbc iv;
  CryptBlocks c p := let '(XorCbc iv) := c in (Z.lxor (nth 0 iv 0) <$> p, c)
|}.
#[export] Instance xor_cbc_pair : CbcPair xor_cbc.
Proof.
  refine {| cbc_pair := eq |}.
  - intros e d ->. split; [done|]. simpl. lia.
  - by intros e d iv ->.
  - done.
  - intros [iv] d p <- _. cbn. split; [apply length_fmap|]. eexists. split; [|done].
    f_equal. rewrite <- list_fmap_compose. rewrite <- (list_fmap_id p) at 2.
    apply list_fmap_ext. intros i x _. unfold compose.
    by rewrite <- Z.lxor_assoc, Z.lxor_nilpotent.
Defined.

#[export] Instance sum_mac : MacFun Z := {|
  mac_sum k m := be_put 20 (fold_left Z.add m k);
  mac_size _ := 20%nat
|}.
#[export] Instance sum_mac_laws : MacLaws Z.
Proof. split; [by intros; apply length_be_put|intros; apply be_put_ok|simpl; lia]. Qed.

Abbreviation w_conn := (halfConn xor_stream (xorNonceAEAD.t ForTLS13.t) xor_cbc Z).
Definition w_rand (n : nat) : option bytes := Some (replicate n 7).
Lemma w_rand_ok : rand_ok w_rand.
Proof. intros n b [= <-]. split; [apply length_replicate|by apply Forall_replicate]. Qed.

Definition w_fresh (v : Z) (lens : list Z) : w_conn :=
  mkHalfConn lens None v None None zero_seq None None 0 [].
Definition w_trafficKey (s : bytes) : bytes * bytes := (tc4_key, tc4_nonce).
Definition w_mk (k i : bytes) : xorNonceAEAD.t ForTLS13.t :=
  match aeadAESGCMTLS13 (E:=unit) k i with Ret a => a | _ => w_f13 end.
Definition w_lens : list Z := [122; 6; 64; 0; 0; 70; 90].
(** Both ends after installing the same traffic secret. *)
Definition w_e : w_conn :=
  setTrafficSecret w_trafficKey w_mk 0 [1; 2; 3] (w_fresh VersionTLS13 w_lens).
Definition w_d : w_conn :=
  setTrafficSecret w_trafficKey w_mk 0 [1; 2; 3] (w_fresh VersionTLS13 (replicate 7 0)).

Lemma w_pair : hc_pair w_e w_d.
Proof.
  apply (setTrafficSecret_pair w_trafficKey 0 [1; 2; 3] tc4_key tc4_nonce w_f13);
    [done|compute_decide|compute_decide|vm_compute; reflexivity|done..].
Qed.

(** A legacy end: CBC with an HMAC, TLS 1.2. *)
Definition w_cbc_end : w_conn :=
  mkHalfConn (replicate 7 0) None VersionTLS12 (Some (CCbc (XorCbc (replicate 16 3))))
    (Some (mkHash 9 [])) zero_seq None None 0 [].
Lemma w_cbc_pair : hc_pair w_cbc_end w_cbc_end.
Proof.
  split; [done|]. split; [done|]. split; [split; [compute_decide|done]|].
  unfold cipher_pair. cbn. split; [done|]. split; [done|]. by eexists _, _.
Qed.

Definition ret_rec {A} (r : outcome conn_error bytes * A) : bytes :=
  match fst r with Ret b => b | _ => [] end.

Ltac w_byte := vm_compute; split; [discriminate|reflexivity].
Ltac w_fits := intros a Ha Hv; first [vm_compute in Hv; discriminate Hv
  | vm_compute in Ha; injection Ha as <-; vm_compute; discriminate].

Definition w_payload : bytes := [0x68; 0x65; 0x6c; 0x6c; 0x6f].
Definition w_hdr (typ : Z) (p : bytes) : bytes := header typ 3 3 p.

Lemma w_lens_small i : nth_len (handshakeLen w_e) i <= empty_size.
Proof. do 7 (destruct i as [|i]; [vm_compute; discriminate|]). vm_compute. by destruct i. Qed.
Lemma w_cbc_lens_small i : nth_len (handshakeLen w_cbc_end) i <= empty_size.
Proof. do 7 (destruct i as [|i]; [vm_compute; discriminate|]). vm_compute. by destruct i. Qed.

Lemma decrypt_encrypt_witness :
  (exists d', hc_pair (snd (encrypt w_rand (w_hdr 23 w_payload) w_payload w_e)) d' /\
     decrypt (ret_rec (encrypt w_rand (w_hdr 23 w_payload) w_payload w_e)) w_d = (Ret (w_payload, 23), d')) /\
  (exists d', hc_pair (snd (encrypt w_rand (w_hdr 22 w_payload) w_payload w_cbc_end)) d' /\
     decrypt (ret_rec (encrypt w_rand (w_hdr 22 w_payload) w_payload w_cbc_end)) w_cbc_end = (Ret (w_payload, 22), d')) /\
  (exists d', hc_pair (snd (encrypt w_rand (w_hdr 22 [4]) [4] w_e)) d' /\
     decrypt (ret_rec (encrypt w_rand (w_hdr 22 [4]) [4] w_e)) w_d = (Ret ([], 23), d')).
Proof.
  split; [|split].
  - destruct (decrypt_encrypt w_rand 23 3 3 w_payload w_e w_d (ret_rec (encrypt w_rand (w_hdr 23 w_payload) w_payload w_e))
      (snd (encrypt w_rand (w_hdr 23 w_payload) w_payload w_e))) as (d' & Hp & Hd);
      [apply w_rand_ok|apply w_pair|compute_decide|vm_compute; discriminate|exact w_lens_small|discriminate|w_byte|w_byte|w_byte
      |vm_compute; reflexivity|].
    exists d'. split; [exact Hp|]. rewrite Hd. rewrite decide_False by (by intros [_ [? _]]). reflexivity.
  - destruct (decrypt_encrypt w_rand 22 3 3 w_payload w_cbc_end w_cbc_end (ret_rec (encrypt w_rand (w_hdr 22 w_payload) w_payload w_cbc_end))
      (snd (encrypt w_rand (w_hdr 22 w_payload) w_payload w_cbc_end))) as (d' & Hp & Hd);
      [apply w_rand_ok|apply w_cbc_pair|compute_decide|vm_compute; discriminate|exact w_cbc_lens_small|discriminate|w_byte|w_byte|w_byte
      |vm_compute; reflexivity|].
    exists d'. split; [exact Hp|]. rewrite Hd. rewrite decide_False by (by intros [? _]). reflexivity.
  - destruct (decrypt_encrypt w_rand 22 3 3 [4] w_e w_d (ret_rec (encrypt w_rand (w_hdr 22 [4]) [4] w_e))
      (snd (encrypt w_rand (w_hdr 22 [4]) [4] w_e))) as (d' & Hp & Hd);
      [apply w_rand_ok|apply w_pair|compute_decide|vm_compute; discriminate|exact w_lens_small|discriminate|w_byte|w_byte|w_byte
      |vm_compute; reflexivity|].
    exists d'. split; [exact Hp|]. rewrite Hd. rewrite decide_True by (split; [reflexivity|split; [reflexivity|split; [discriminate|reflexivity]]]).
    reflexivity.
Defined.

Lemma reality_record_length_witness :
  Z.of_nat (length (ret_rec (encrypt w_rand (w_hdr 22 [4]) [4] w_e))) = 90 /\
  exists d', decrypt (ret_rec (encrypt w_rand (w_hdr 22 [4]) [4] w_e)) w_d = (Ret ([], 23), d') /\
    hc_pair (snd (encrypt w_rand (w_hdr 22 [4]) [4] w_e)) d'.
Proof.
  destruct (reality_record_length w_rand 3 3 [4] w_e w_d
    (ret_rec (encrypt w_rand (w_hdr 22 [4]) [4] w_e)) (snd (encrypt w_rand (w_hdr 22 [4]) [4] w_e)) 90)
    as [H1 H2];
    [apply w_rand_ok|apply w_pair|compute_decide|vm_compute; reflexivity|w_byte|w_byte|reflexivity
    |vm_compute; reflexivity|w_fits| |].
  - split; [done|]. split; [discriminate|]. by exists 4, 6%nat.
  - split; [exact H1|]. by apply H2.
Defined.

Definition w_msgs : list msg := [(23, w_payload); (22, [20; 0; 0; 1; 9]); (21, [1; 0])].
Definition w_e1 : w_conn := snd (encrypt w_rand (w_hdr 23 w_payload) w_payload w_e).
Definition w_e2 : w_conn :=
  snd (encrypt w_rand (w_hdr 22 [20; 0; 0; 1; 9]) [20; 0; 0; 1; 9] w_e1).
Definition w_e3 : w_conn := snd (encrypt w_rand (w_hdr 21 [1; 0]) [1; 0] w_e2).
Definition w_rec1 : bytes := ret_rec (encrypt w_rand (w_hdr 23 w_payload) w_payload w_e).
Definition w_rec2 : bytes :=
  ret_rec (encrypt w_rand (w_hdr 22 [20; 0; 0; 1; 9]) [20; 0; 0; 1; 9] w_e1).
Definition w_rec3 : bytes := ret_rec (encrypt w_rand (w_hdr 21 [1; 0]) [1; 0] w_e2).

Lemma conversation_witness :
  receive_all w_d [w_rec1; w_rec2; w_rec3] =
  [Ret (w_payload, 23); Ret ([20; 0; 0; 1; 9], 22); Ret ([1; 0], 21)].
Proof.
  apply (conversation 3 3 w_e w_d w_msgs _ w_e3);
    [w_byte|w_byte|apply w_pair| |].
  - repeat apply Forall_cons_2; [..|constructor];
      (split; [discriminate|]; split; [w_byte|]; split; [compute_decide|]; split; [vm_compute; reflexivity|]);
      intros [H1 H2]; discriminate.
  - exists w_rand, w_e1. split; [apply w_rand_ok|]. split; [vm_compute; reflexivity|]. split; [w_fits|].
    exists w_rand, w_e2. split; [apply w_rand_ok|]. split; [vm_compute; reflexivity|]. split; [w_fits|].
    exists w_rand, w_e3. split; [apply w_rand_ok|]. split; [vm_compute; reflexivity|]. split; [w_fits|]. reflexivity.
Defined.

Lemma w_d_seq_ok : seq_ok (seq w_d).
Proof. split; [compute_decide|reflexivity]. Qed.

(** A rejected record: its last byte is changed. *)
Definition w_bad : bytes := removelast w_rec1 ++ [0].

Lemma decrypt_seq_witness :
  fst (decrypt w_bad w_d) = Err (EAlert alertBadRecordMAC) /\
  seq (snd (decrypt w_bad w_d)) = seq w_d.
Proof.
  assert (Hf : fst (decrypt w_bad w_d) = Err (EAlert alertBadRecordMAC)) by (vm_compute; reflexivity).
  split; [exact Hf|].
  pose proof (decrypt_seq w_bad w_d w_d_seq_ok) as H.
  destruct (decrypt w_bad w_d) as [r h']. simpl in Hf. rewrite Hf in H. apply H.
Defined.

Lemma other_handshake_refused_witness :
  exists n, encrypt w_rand (w_hdr 22 [typeKeyUpdate; 0; 0; 1; 0]) [typeKeyUpdate; 0; 0; 1; 0] w_e =
    (Err (EPadding typeKeyUpdate n), w_e) /\ n < 0.
Proof.
  apply (other_handshake_refused w_rand _ _ w_e
    (match hc_cipher w_e with Some (CAead a) => a | _ => w_f13 end));
    vm_compute; first [reflexivity | discriminate].
Defined.
