(* ===== verification/Conn.v ===== *)
(** * conn.go: the connection's record layer

    Writing: record sizing, fragmentation, alerts, flights of handshake
    messages; reading: records, their checks and the handling of every record
    type, with the bound on useless records; and the application interface
    [Read], [Write], [Close].

    The model is of a connection without a QUIC transport ([c.quic == nil]).
    The network is the list of results of the coming [Read] calls ([net_in];
    when it is used up, [Read] reports EOF), the list of results of the coming
    [Write] calls ([net_w]; when it is used up they succeed) and the bytes
    written so far ([net_out]).  A method of [*Conn] is a function of the
    connection to its result and the new connection; a Go [error] result that
    may be [nil] is an [option]. *)

From S2P Require Import Prelude Common HalfConn.

Open Scope go_scope.

Inductive write_result := WriteFails (n : nat) (e : conn_error) | WriteOk.

Record Conn (S A C K : Type) := mkConn {
  vers : Z;
  haveVers : bool;
  isHandshakeComplete : bool;
  cin : halfConn S A C K;
  cout : halfConn S A C K;
  handshakeBuf : option bytes;          (* [c.out.handshakeBuf] *)
  rawInput : bytes;
  input : bytes;
  hand : bytes;
  buffering : bool;
  sendBuf : bytes;
  bytesSent : Z;
  packetsSent : Z;
  retryCount : Z;
  activeCall : Z;
  closeNotifySent : bool;
  closeNotifyErr : option conn_error;
  handshakes : Z;
  handshakeErr : option conn_error;
  (* the environment *)
  net_in : list (bytes * option conn_error);
  net_w : list write_result;
  net_out : bytes;
  net_closed : bool;
  rand_calls : nat
}.
Arguments mkConn {S A C K}.
Arguments vers {S A C K} c.
Arguments haveVers {S A C K} c.
Arguments isHandshakeComplete {S A C K} c.
Arguments cin {S A C K} c.
Arguments cout {S A C K} c.
Arguments handshakeBuf {S A C K} c.
Arguments rawInput {S A C K} c.
Arguments input {S A C K} c.
Arguments hand {S A C K} c.
Arguments buffering {S A C K} c.
Arguments sendBuf {S A C K} c.
Arguments bytesSent {S A C K} c.
Arguments packetsSent {S A C K} c.
Arguments retryCount {S A C K} c.
Arguments activeCall {S A C K} c.
Arguments closeNotifySent {S A C K} c.
Arguments closeNotifyErr {S A C K} c.
Arguments handshakes {S A C K} c.
Arguments handshakeErr {S A C K} c.
Arguments net_in {S A C K} c.
Arguments net_w {S A C K} c.
Arguments net_out {S A C K} c.
Arguments net_closed {S A C K} c.
Arguments rand_calls {S A C K} c.

Section conn.
Context {S A C K : Type}.
Context `{Stream S} `{RecordAEAD A} `{CbcMode C} `{MacFun K}.
Abbreviation hconn := (halfConn S A C K).
Abbreviation cn := (Conn S A C K).

(** ** Field updates *)

Definition with_vers (x : Z) (c : cn) : cn :=
  mkConn x (haveVers c) (isHandshakeComplete c) (cin c) (cout c) (handshakeBuf c) (rawInput c)
    (input c) (hand c) (buffering c) (sendBuf c) (bytesSent c) (packetsSent c) (retryCount c)
    (activeCall c) (closeNotifySent c) (closeNotifyErr c) (handshakes c) (handshakeErr c) (net_in c)
    (net_w c) (net_out c) (net_closed c) (rand_calls c).
Definition with_haveVers (x : bool) (c : cn) : cn :=
  mkConn (vers c) x (isHandshakeComplete c) (cin c) (cout c) (handshakeBuf c) (rawInput c) (input c)
    (hand c) (buffering c) (sendBuf c) (bytesSent c) (packetsSent c) (retryCount c) (activeCall c)
    (closeNotifySent c) (closeNotifyErr c) (handshakes c) (handshakeErr c) (net_in c) (net_w c)
    (net_out c) (net_closed c) (rand_calls c).
Definition with_isHandshakeComplete (x : bool) (c : cn) : cn :=
  mkConn (vers c) (haveVers c) x (cin c) (cout c) (handshakeBuf c) (rawInput c) (input c) (hand c)
    (buffering c) (sendBuf c) (bytesSent c) (packetsSent c) (retryCount c) (activeCall c)
    (closeNotifySent c) (closeNotifyErr c) (handshakes c) (handshakeErr c) (net_in c) (net_w c)
    (net_out c) (net_closed c) (rand_calls c).
Definition with_cin (x : hconn) (c : cn) : cn :=
  mkConn (vers c) (haveVers c) (isHandshakeComplete c) x (cout c) (handshakeBuf c) (rawInput c)
    (input c) (hand c) (buffering c) (sendBuf c) (bytesSent c) (packetsSent c) (retryCount c)
    (activeCall c) (closeNotifySent c) (closeNotifyErr c) (handshakes c) (handshakeErr c) (net_in c)
    (net_w c) (net_out c) (net_closed c) (rand_calls c).
Definition with_cout (x : hconn) (c : cn) : cn :=
  mkConn (vers c) (haveVers c) (isHandshakeComplete c) (cin c) x (handshakeBuf c) (rawInput c)
    (input c) (hand c) (buffering c) (sendBuf c) (bytesSent c) (packetsSent c) (retryCount c)
    (activeCall c) (closeNotifySent c) (closeNotifyErr c) (handshakes c) (handshakeErr c) (net_in c)
    (net_w c) (net_out c) (net_closed c) (rand_calls c).
Definition with_handshakeBuf (x : option bytes) (c : cn) : cn :=
  mkConn (vers c) (haveVers c) (isHandshakeComplete c) (cin c) (cout c) x (rawInput c) (input c)
    (hand c) (buffering c) (sendBuf c) (bytesSent c) (packetsSent c) (retryCount c) (activeCall c)
    (closeNotifySent c) (closeNotifyErr c) (handshakes c) (handshakeErr c) (net_in c) (net_w c)
    (net_out c) (net_closed c) (rand_calls c).
Definition with_rawInput (x : bytes) (c : cn) : cn :=
  mkConn (vers c) (haveVers c) (isHandshakeComplete c) (cin c) (cout c) (handshakeBuf c) x (input c)
    (hand c) (buffering c) (sendBuf c) (bytesSent c) (packetsSent c) (retryCount c) (activeCall c)
    (closeNotifySent c) (closeNotifyErr c) (handshakes c) (handshakeErr c) (net_in c) (net_w c)
    (net_out c) (net_closed c) (rand_calls c).
Definition with_input (x : bytes) (c : cn) : cn :=
  mkConn (vers c) (haveVers c) (isHandshakeComplete c) (cin c) (cout c) (handshakeBuf c) (rawInput
    c) x (hand c) (buffering c) (sendBuf c) (bytesSent c) (packetsSent c) (retryCount c) (activeCall
    c) (closeNotifySent c) (closeNotifyErr c) (handshakes c) (handshakeErr c) (net_in c) (net_w c)
    (net_out c) (net_closed c) (rand_calls c).
Definition with_hand (x : bytes) (c : cn) : cn :=
  mkConn (vers c) (haveVers c) (isHandshakeComplete c) (cin c) (cout c) (handshakeBuf c) (rawInput
    c) (input c) x (buffering c) (sendBuf c) (bytesSent c) (packetsSent c) (retryCount c)
    (activeCall c) (closeNotifySent c) (closeNotifyErr c) (handshakes c) (handshakeErr c) (net_in c)
    (net_w c) (net_out c) (net_closed c) (rand_calls c).
Definition with_buffering (x : bool) (c : cn) : cn :=
  mkConn (vers c) (haveVers c) (isHandshakeComplete c) (cin c) (cout c) (handshakeBuf c) (rawInput
    c) (input c) (hand c) x (sendBuf c) (bytesSent c) (packetsSent c) (retryCount c) (activeCall c)
    (closeNotifySent c) (closeNotifyErr c) (handshakes c) (handshakeErr c) (net_in c) (net_w c)
    (net_out c) (net_closed c) (rand_calls c).
Definition with_sendBuf (x : bytes) (c : cn) : cn :=
  mkConn (vers c) (haveVers c) (isHandshakeComplete c) (cin c) (cout c) (handshakeBuf c) (rawInput
    c) (input c) (hand c) (buffering c) x (bytesSent c) (packetsSent c) (retryCount c) (activeCall
    c) (closeNotifySent c) (closeNotifyErr c) (handshakes c) (handshakeErr c) (net_in c) (net_w c)
    (net_out c) (net_closed c) (rand_calls c).
Definition with_bytesSent (x : Z) (c : cn) : cn :=
  mkConn (vers c) (haveVers c) (isHandshakeComplete c) (cin c) (cout c) (handshakeBuf c) (rawInput
    c) (input c) (hand c) (buffering c) (sendBuf c) x (packetsSent c) (retryCount c) (activeCall c)
    (closeNotifySent c) (closeNotifyErr c) (handshakes c) (handshakeErr c) (net_in c) (net_w c)
    (net_out c) (net_closed c) (rand_calls c).
Definition with_packetsSent (x : Z) (c : cn) : cn :=
  mkConn (vers c) (haveVers c) (isHandshakeComplete c) (cin c) (cout c) (handshakeBuf c) (rawInput
    c) (input c) (hand c) (buffering c) (sendBuf c) (bytesSent c) x (retryCount c) (activeCall c)
    (closeNotifySent c) (closeNotifyErr c) (handshakes c) (handshakeErr c) (net_in c) (net_w c)
    (net_out c) (net_closed c) (rand_calls c).
Definition with_retryCount (x : Z) (c : cn) : cn :=
  mkConn (vers c) (haveVers c) (isHandshakeComplete c) (cin c) (cout c) (handshakeBuf c) (rawInput
    c) (input c) (hand c) (buffering c) (sendBuf c) (bytesSent c) (packetsSent c) x (activeCall c)
    (closeNotifySent c) (closeNotifyErr c) (handshakes c) (handshakeErr c) (net_in c) (net_w c)
    (net_out c) (net_closed c) (rand_calls c).
Definition with_activeCall (x : Z) (c : cn) : cn :=
  mkConn (vers c) (haveVers c) (isHandshakeComplete c) (cin c) (cout c) (handshakeBuf c) (rawInput
    c) (input c) (hand c) (buffering c) (sendBuf c) (bytesSent c) (packetsSent c) (retryCount c) x
    (closeNotifySent c) (closeNotifyErr c) (handshakes c) (handshakeErr c) (net_in c) (net_w c)
    (net_out c) (net_closed c) (rand_calls c).
Definition with_closeNotifySent (x : bool) (c : cn) : cn :=
  mkConn (vers c) (haveVers c) (isHandshakeComplete c) (cin c) (cout c) (handshakeBuf c) (rawInput
    c) (input c) (hand c) (buffering c) (sendBuf c) (bytesSent c) (packetsSent c) (retryCount c)
    (activeCall c) x (closeNotifyErr c) (handshakes c) (handshakeErr c) (net_in c) (net_w c)
    (net_out c) (net_closed c) (rand_calls c).
Definition with_closeNotifyErr (x : option conn_error) (c : cn) : cn :=
  mkConn (vers c) (haveVers c) (isHandshakeComplete c) (cin c) (cout c) (handshakeBuf c) (rawInput
    c) (input c) (hand c) (buffering c) (sendBuf c) (bytesSent c) (packetsSent c) (retryCount c)
    (activeCall c) (closeNotifySent c) x (handshakes c) (handshakeErr c) (net_in c) (net_w c)
    (net_out c) (net_closed c) (rand_calls c).
Definition with_handshakes (x : Z) (c : cn) : cn :=
  mkConn (vers c) (haveVers c) (isHandshakeComplete c) (cin c) (cout c) (handshakeBuf c) (rawInput
    c) (input c) (hand c) (buffering c) (sendBuf c) (bytesSent c) (packetsSent c) (retryCount c)
    (activeCall c) (closeNotifySent c) (closeNotifyErr c) x (handshakeErr c) (net_in c) (net_w c)
    (net_out c) (net_closed c) (rand_calls c).
Definition with_handshakeErr (x : option conn_error) (c : cn) : cn :=
  mkConn (vers c) (haveVers c) (isHandshakeComplete c) (cin c) (cout c) (handshakeBuf c) (rawInput
    c) (input c) (hand c) (buffering c) (sendBuf c) (bytesSent c) (packetsSent c) (retryCount c)
    (activeCall c) (closeNotifySent c) (closeNotifyErr c) (handshakes c) x (net_in c) (net_w c)
    (net_out c) (net_closed c) (rand_calls c).
Definition with_net_in (x : list (bytes * option conn_error)) (c : cn) : cn :=
  mkConn (vers c) (haveVers c) (isHandshakeComplete c) (cin c) (cout c) (handshakeBuf c) (rawInput
    c) (input c) (hand c) (buffering c) (sendBuf c) (bytesSent c) (packetsSent c) (retryCount c)
    (activeCall c) (closeNotifySent c) (closeNotifyErr c) (handshakes c) (handshakeErr c) x (net_w
    c) (net_out c) (net_closed c) (rand_calls c).
Definition with_net_w (x : list write_result) (c : cn) : cn :=
  mkConn (vers c) (haveVers c) (isHandshakeComplete c) (cin c) (cout c) (handshakeBuf c) (rawInput
    c) (input c) (hand c) (buffering c) (sendBuf c) (bytesSent c) (packetsSent c) (retryCount c)
    (activeCall c) (closeNotifySent c) (closeNotifyErr c) (handshakes c) (handshakeErr c) (net_in c)
    x (net_out c) (net_closed c) (rand_calls c).
Definition with_net_out (x : bytes) (c : cn) : cn :=
  mkConn (vers c) (haveVers c) (isHandshakeComplete c) (cin c) (cout c) (handshakeBuf c) (rawInput
    c) (input c) (hand c) (buffering c) (sendBuf c) (bytesSent c) (packetsSent c) (retryCount c)
    (activeCall c) (closeNotifySent c) (closeNotifyErr c) (handshakes c) (handshakeErr c) (net_in c)
    (net_w c) x (net_closed c) (rand_calls c).
Definition with_net_closed (x : bool) (c : cn) : cn :=
  mkConn (vers c) (haveVers c) (isHandshakeComplete c) (cin c) (cout c) (handshakeBuf c) (rawInput
    c) (input c) (hand c) (buffering c) (sendBuf c) (bytesSent c) (packetsSent c) (retryCount c)
    (activeCall c) (closeNotifySent c) (closeNotifyErr c) (handshakes c) (handshakeErr c) (net_in c)
    (net_w c) (net_out c) x (rand_calls c).
Definition with_rand_calls (x : nat) (c : cn) : cn :=
  mkConn (vers c) (haveVers c) (isHandshakeComplete c) (cin c) (cout c) (handshakeBuf c) (rawInput
    c) (input c) (hand c) (buffering c) (sendBuf c) (bytesSent c) (packetsSent c) (retryCount c)
    (activeCall c) (closeNotifySent c) (closeNotifyErr c) (handshakes c) (handshakeErr c) (net_in c)
    (net_w c) (net_out c) (net_closed c) x.

(** ** The state and error monad of the methods *)

Definition M (R : Type) : Type := cn -> outcome conn_error R * cn.

Definition ret {R} (r : R) : M R := fun c => (Ret r, c).
Definition fail {R} (e : conn_error) : M R := fun c => (Err e, c).
Definition panic {R} (w : string) : M R := fun c => (Panic w, c).
Definition get {R} (f : cn -> R) : M R := fun c => (Ret (f c), c).
Definition modify (f : cn -> cn) : M unit := fun c => (Ret tt, f c).
Definition bind {R Q} (m : M R) (k : R -> M Q) : M Q := fun c =>
  let '(r, c) := m c in
  match r with
  | Ret x => k x c
  | Err e => (Err e, c)
  | Panic w => (Panic w, c)
  end.
Notation "'do!' x := m 'in' k" := (bind m (fun x => k))
  (at level 10, x pattern, m at level 100, k at level 200).

(** Run an operation of the writing or reading [halfConn]. *)
Definition on_out {R} (f : hconn -> outcome conn_error R * hconn) : M R := fun c =>
  let '(r, h) := f (cout c) in (r, with_cout h c).
Definition on_in {R} (f : hconn -> outcome conn_error R * hconn) : M R := fun c =>
  let '(r, h) := f (cin c) in (r, with_cin h c).

(** [c.in.setErrorLocked(err)], [c.out.setErrorLocked(err)]: they return the
    error that was recorded. *)
Definition set_in_err (e : option conn_error) : M (option conn_error) := fun c =>
  (Ret (option_map permanentError e), with_cin (set_err e (cin c)) c).
Definition set_out_err (e : option conn_error) : M (option conn_error) := fun c =>
  (Ret (option_map permanentError e), with_cout (set_err e (cout c)) c).

(** A Go result [(n, err)] of which only the error is returned further. *)
Definition raise (e : option conn_error) : M unit :=
  match e with Some e => fail e | None => ret tt end.

(** The caller goes on whatever [m] returned. *)
Definition try_ {R} (m : M R) : M (option conn_error) := fun c =>
  let '(r, c) := m c in
  match r with
  | Ret _ => (Ret None, c)
  | Err e => (Ret (Some e), c)
  | Panic w => (Panic w, c)
  end.

Context (DynamicRecordSizingDisabled : bool).
(** The [n]-th use of [c.config.rand()]. *)
Context (rand : nat -> nat -> option bytes).

(** ** Writing *)

Definition tcpMSSEstimate : Z := 1208.
Definition recordSizeBoostThreshold : Z := 128 * 1024.

(** What the cipher leaves for the payload of a small record. *)
Definition cipher_payload (h : hconn) (payloadBytes : Z) : outcome conn_error Z :=
  match hc_cipher h with
  | None => Ret payloadBytes
  | Some (CStream _) =>
      match hc_mac h with
      | Some m => Ret (payloadBytes - Z.of_nat (mac_size (h_key m)))
      | None => Panic "nil hash.Hash"
      end
  | Some (CAead a) => Ret (payloadBytes - Z.of_nat (ra_Overhead a))
  | Some (CCbc b) =>
      let blockSize := Z.of_nat (BlockSize b) in
      let payloadBytes := Z.land payloadBytes (Z.lnot (blockSize - 1)) - 1 in
      match hc_mac h with
      | Some m => Ret (payloadBytes - Z.of_nat (mac_size (h_key m)))
      | None => Panic "nil hash.Hash"
      end
  end.

Definition maxPayloadSizeForWrite (typ : Z) : M Z := fun c =>
  if DynamicRecordSizingDisabled || negb (typ =? recordTypeApplicationData) then (Ret maxPlaintext, c)
  else if recordSizeBoostThreshold <=? bytesSent c then (Ret maxPlaintext, c)
  else
    let payloadBytes := tcpMSSEstimate - recordHeaderLen - Z.of_nat (explicitNonceLen (cout c)) in
    match cipher_payload (cout c) payloadBytes with
    | Panic w => (Panic w, c)
    | Err e => (Err e, c)
    | Ret payloadBytes =>
        let payloadBytes := if vers c =? VersionTLS13 then payloadBytes - 1 else payloadBytes in
        let pkt := packetsSent c in
        let c := with_packetsSent (pkt + 1) c in
        if 1000 <? pkt then (Ret maxPlaintext, c) else
        let n := payloadBytes * (pkt + 1) in
        (Ret (if maxPlaintext <? n then maxPlaintext else n), c)
    end.

(** [c.conn.Write(data)]: the number of bytes written and the error. *)
Definition conn_Write (data : bytes) : M (Z * option conn_error) := fun c =>
  match net_w c with
  | WriteFails n e :: w =>
      let n := min n (length data) in
      (Ret (Z.of_nat n, Some e), with_net_w w (with_net_out (net_out c ++ take n data) c))
  | WriteOk :: w => (Ret (Z.of_nat (length data), None), with_net_w w (with_net_out (net_out c ++ data) c))
  | [] => (Ret (Z.of_nat (length data), None), with_net_out (net_out c ++ data) c)
  end.

Definition write (data : bytes) : M (Z * option conn_error) :=
  do! b := get buffering in
  if b then
    do! _ := modify (fun c => with_sendBuf (sendBuf c ++ data) c) in
    ret (Z.of_nat (length data), None)
  else
    do! (n, err) := conn_Write data in
    do! _ := modify (fun c => with_bytesSent (bytesSent c + n) c) in
    ret (n, err).

Definition flush : M (Z * option conn_error) :=
  do! buf := get sendBuf in
  if (length buf =? 0)%nat then ret (0, None) else
  do! (n, err) := conn_Write buf in
  do! _ := modify (fun c => with_buffering false (with_sendBuf [] (with_bytesSent (bytesSent c + n) c))) in
  ret (n, err).

(** The version on the wire. *)
Definition record_version (v : Z) : Z :=
  if v =? 0 then VersionTLS10 else if v =? VersionTLS13 then VersionTLS12 else v.

Definition record_header (typ v m : Z) : bytes := [typ; u8 (v ≫ 8); u8 v; u8 (m ≫ 8); u8 m].

Definition encrypt_record (hdr payload : bytes) : M bytes := fun c =>
  on_out (encrypt (rand (rand_calls c)) hdr payload) (with_rand_calls (rand_calls c + 1) c).

(** The loop of [writeRecordLocked]: the number of payload bytes written and
    the error.  Every iteration consumes at least one byte of [data]; [stuck]
    stands for running out of fuel. *)
Fixpoint writeRecords_fuel (stuck : M (Z * option conn_error)) (fuel : nat) (typ : Z) (data : bytes)
    (n : Z) : M (Z * option conn_error) :=
  if (length data =? 0)%nat then ret (n, None) else
  match fuel with
  | O => stuck
  | Datatypes.S fuel =>
      do! maxPayload := maxPayloadSizeForWrite typ in
      let m := Z.of_nat (length data) in
      let m := if maxPayload <? m then maxPayload else m in
      if m <? 0 then panic index_out_of_range else
      do! v := get vers in
      let hdr := record_header typ (record_version v) m in
      fun c =>
      let '(r, c) := encrypt_record hdr (take (Z.to_nat m) data) c in
      match r with
      | Panic w => (Panic w, c)
      | Err e => (Ret (n, Some e), c)
      | Ret outBuf =>
          (do! (_, err) := write outBuf in
           match err with
           | Some e => ret (n, Some e)
           | None => writeRecords_fuel stuck fuel typ (drop (Z.to_nat m) data) (n + m)
           end) c
      end
  end.

Definition out_of_fuel {R} : M R := panic "out of fuel".

Definition writeRecords (typ : Z) (data : bytes) : M (Z * option conn_error) :=
  writeRecords_fuel out_of_fuel (length data) typ data 0.

(** [sendAlertLocked]; a record of type alert never changes the cipher spec. *)
Definition sendAlertLocked (a : Z) : M (option conn_error) :=
  let lvl := if (a =? alertNoRenegotiation) || (a =? alertCloseNotify)
             then alertLevelWarning else alertLevelError in
  do! (_, writeErr) := writeRecords recordTypeAlert [lvl; a] in
  if a =? alertCloseNotify then ret writeErr else set_out_err (Some (ELocal a)).

Definition sendAlert (a : Z) : M (option conn_error) := sendAlertLocked a.

Definition writeRecordLocked (typ : Z) (data : bytes) : M (Z * option conn_error) :=
  do! (n, err) := writeRecords typ data in
  match err with
  | Some e => ret (n, Some e)
  | None =>
      do! v := get vers in
      if (typ =? recordTypeChangeCipherSpec) && negb (v =? VersionTLS13) then
        do! err := try_ (on_out changeCipherSpec) in
        match err with
        | Some (EAlert a) => do! e := sendAlertLocked a in ret (n, e)
        | Some _ => panic "interface conversion"
        | None => ret (n, None)
        end
      else ret (n, None)
  end.

(** REALITY's batching of a flight into [handshakeBuf]: what is left to write. *)
Definition batch_handshake (data : bytes) : M (option bytes) :=
  do! buf := get handshakeBuf in
  match buf, data with
  | Some buf, first :: _ =>
      if negb (first =? typeServerHello) then
        if negb (first =? typeFinished) then
          do! _ := modify (with_handshakeBuf (Some (buf ++ data))) in ret None
        else
          do! _ := modify (with_handshakeBuf None) in ret (Some (buf ++ data))
      else ret (Some data)
  | _, _ => ret (Some data)
  end.

(** [writeHandshakeRecord] of a marshaled message (the transcript gets [data]). *)
Definition writeHandshakeRecord (marshaled : outcome conn_error bytes) : M (Z * option conn_error) :=
  match marshaled with
  | Err e => ret (0, Some e)
  | Panic w => panic w
  | Ret data =>
      do! todo := batch_handshake data in
      match todo with
      | None => ret (Z.of_nat (length data), None)
      | Some data => writeRecordLocked recordTypeHandshake data
      end
  end.

Definition writeRecord (typ : Z) (data : bytes) : M (Z * option conn_error) :=
  if typ =? recordTypeHandshake then
    do! todo := batch_handshake data in
    match todo with
    | None => ret (Z.of_nat (length data), None)
    | Some data => writeRecordLocked typ data
    end
  else writeRecordLocked typ data.

Definition writeChangeCipherRecord : M unit :=
  do! (_, err) := writeRecordLocked recordTypeChangeCipherSpec [1] in raise err.

(** ** Reading *)

(** [c.rawInput.ReadFrom(&atLeastReader{c.conn, needs})]: the reads until
    [needs] bytes have come, EOF or an error. *)
Fixpoint read_at_least (reads : list (bytes * option conn_error)) (buf : bytes) (needs : Z)
  : outcome conn_error unit * list (bytes * option conn_error) * bytes :=
  if needs <=? 0 then (Ret tt, reads, buf) else
  match reads with
  | [] => (Err EUnexpectedEOF, [], buf)
  | (chunk, err) :: reads =>
      let buf := buf ++ chunk in
      let needs := needs - Z.of_nat (length chunk) in
      match err with
      | None => if needs <=? 0 then (Ret tt, reads, buf) else read_at_least reads buf needs
      | Some EEOF => if 0 <? needs then (Err EUnexpectedEOF, reads, buf) else (Ret tt, reads, buf)
      | Some e => (Err e, reads, buf)
      end
  end.

Definition readFromUntil (n : Z) : M unit := fun c =>
  if n <=? Z.of_nat (length (rawInput c)) then (Ret tt, c) else
  let needs := n - Z.of_nat (length (rawInput c)) in
  let '(r, reads, buf) := read_at_least (net_in c) (rawInput c) needs in
  (r, with_rawInput buf (with_net_in reads c)).

(** [c.in.setErrorLocked(err); return err] unless the error is temporary. *)
Definition transport_error (e : conn_error) : M unit :=
  match e with
  | ENet true => fail e
  | _ => do! _ := set_in_err (Some e) in fail e
  end.

(** [return c.in.setErrorLocked(c.sendAlert(a))] *)
Definition alert_and_fail (a : Z) : M unit :=
  do! e := sendAlert a in
  do! e := set_in_err e in raise e.

(** [return c.in.setErrorLocked(err)] *)
Definition fail_in (e : conn_error) : M unit :=
  do! _ := set_in_err (Some e) in fail e.

(** The header checks, before the body is read: the length of the body. *)
Definition check_header (hdr : bytes) : M Z :=
  do! c := get (fun c => c) in
  let typ := nth_byte hdr 0 in
  if negb (isHandshakeComplete c) && (typ =? 0x80) then
    do! _ := sendAlert alertProtocolVersion in
    do! _ := fail_in (ERecordHeader "unsupported SSLv2 handshake received") in ret 0
  else
    let v := (nth_byte hdr 1 ≪ 8) ||| nth_byte hdr 2 in
    let expectedVers := if vers c =? VersionTLS13 then VersionTLS12 else vers c in
    let n := (nth_byte hdr 3 ≪ 8) ||| nth_byte hdr 4 in
    if haveVers c && negb (v =? expectedVers) then
      do! _ := sendAlert alertProtocolVersion in
      do! _ := fail_in (ERecordHeader "received record with unexpected version") in ret 0
    else if negb (haveVers c) &&
            ((negb (typ =? recordTypeAlert) && negb (typ =? recordTypeHandshake)) || (0x1000 <=? v)) then
      do! _ := fail_in (ERecordHeader "first record does not look like a TLS handshake") in ret 0
    else if ((vers c =? VersionTLS13) && (maxCiphertextTLS13 <? n)) || (maxCiphertext <? n) then
      do! _ := sendAlert alertRecordOverflow in
      do! _ := fail_in (ERecordHeader "oversized record received") in ret 0
    else ret n.

(** What to do after one record: stop, or drop it and read another. *)
Inductive next_step := Done | Retry.

(** The switch on the type of a decrypted record. *)
Definition handle_alert (data : bytes) : M next_step :=
  do! v := get vers in
  match data with
  | [lvl; a] =>
      if a =? alertCloseNotify then do! _ := fail_in EEOF in ret Done
      else if v =? VersionTLS13 then
        if a =? alertUserCanceled then ret Retry
        else do! _ := fail_in (ERemote a) in ret Done
      else if lvl =? alertLevelWarning then ret Retry
      else if lvl =? alertLevelError then do! _ := fail_in (ERemote a) in ret Done
      else do! _ := alert_and_fail alertUnexpectedMessage in ret Done
  | _ => do! _ := alert_and_fail alertUnexpectedMessage in ret Done
  end.

Definition handle_ccs (expectChangeCipherSpec handshakeComplete : bool) (data : bytes) : M next_step :=
  do! c := get (fun c => c) in
  if negb (bool_decide (data = [1])) then
    do! _ := alert_and_fail alertDecodeError in ret Done
  else if (0 <? length (hand c))%nat then
    do! _ := alert_and_fail alertUnexpectedMessage in ret Done
  else if (vers c =? VersionTLS13) && negb handshakeComplete then ret Retry
  else if negb expectChangeCipherSpec then
    do! _ := alert_and_fail alertUnexpectedMessage in ret Done
  else
    do! err := try_ (on_in changeCipherSpec) in
    match err with
    | Some (EAlert a) => do! _ := alert_and_fail a in ret Done
    | Some _ => panic "interface conversion"
    | None => ret Done
    end.

Definition handle_record (expectChangeCipherSpec handshakeComplete : bool) (typ : Z) (data : bytes)
  : M next_step :=
  if typ =? recordTypeAlert then handle_alert data
  else if typ =? recordTypeChangeCipherSpec then
    handle_ccs expectChangeCipherSpec handshakeComplete data
  else if typ =? recordTypeApplicationData then
    if negb handshakeComplete || expectChangeCipherSpec then
      do! _ := alert_and_fail alertUnexpectedMessage in ret Done
    else if (length data =? 0)%nat then ret Retry
    else do! _ := modify (with_input data) in ret Done
  else if typ =? recordTypeHandshake then
    if (length data =? 0)%nat || expectChangeCipherSpec then
      do! _ := alert_and_fail alertUnexpectedMessage in ret Done
    else do! _ := modify (fun c => with_hand (hand c ++ data) c) in ret Done
  else do! _ := alert_and_fail alertUnexpectedMessage in ret Done.

(** Decryption and the checks before the switch: the record's type and data. *)
Definition open_record (record : bytes) : M (bytes * Z) := fun c =>
  let '(r, c) := on_in (decrypt record) c in
  match r with
  | Panic w => (Panic w, c)
  | Err (EAlert a) => (do! _ := alert_and_fail a in panic "unreachable") c
  | Err _ => (Panic "interface conversion", c)
  | Ret (data, typ) =>
      (if maxPlaintext <? Z.of_nat (length data) then
         do! _ := alert_and_fail alertRecordOverflow in ret (data, typ)
       else if match hc_cipher (cin c) with None => true | _ => false end
               && (typ =? recordTypeApplicationData) then
         do! _ := alert_and_fail alertUnexpectedMessage in ret (data, typ)
       else
         do! _ := modify (fun c =>
           if negb (typ =? recordTypeAlert) && negb (typ =? recordTypeChangeCipherSpec)
              && (0 <? length data)%nat then with_retryCount 0 c else c) in
         do! c := get (fun c => c) in
         if (vers c =? VersionTLS13) && negb (typ =? recordTypeHandshake) && (0 <? length (hand c))%nat then
           do! _ := alert_and_fail alertUnexpectedMessage in ret (data, typ)
         else ret (data, typ)) c
  end.

(** One pass of [readRecordOrCCS], up to a possible retry. *)
Definition read_one (expectChangeCipherSpec : bool) : M next_step :=
  do! c := get (fun c => c) in
  match hc_err (cin c) with
  | Some e => fail e
  | None =>
      let handshakeComplete := isHandshakeComplete c in
      if negb (length (input c) =? 0)%nat then
        do! _ := fail_in (EText "tls: internal error: attempted to read record with pending application data") in
        ret Done
      else
        do! err := try_ (readFromUntil recordHeaderLen) in
        match err with
        | Some e =>
            do! raw := get rawInput in
            let e := match e with
                     | EUnexpectedEOF => if (length raw =? 0)%nat then EEOF else e
                     | _ => e end in
            do! _ := transport_error e in ret Done
        | None =>
            do! raw := get rawInput in
            do! n := check_header (take 5 raw) in
            do! err := try_ (readFromUntil (recordHeaderLen + n)) in
            match err with
            | Some e => do! _ := transport_error e in ret Done
            | None =>
                do! raw := get rawInput in
                let k := Z.to_nat (recordHeaderLen + n) in
                do! _ := modify (with_rawInput (drop k raw)) in
                do! (data, typ) := open_record (take k raw) in
                handle_record expectChangeCipherSpec handshakeComplete typ data
            end
        end
  end.

(** [readRecordOrCCS] with [retryReadRecord]: at most [maxUselessRecords]
    records are dropped, so 17 passes are enough. *)
Fixpoint readRecordOrCCS_fuel (stuck : M unit) (fuel : nat) (expectChangeCipherSpec : bool) : M unit :=
  match fuel with
  | O => stuck
  | Datatypes.S fuel =>
      do! next := read_one expectChangeCipherSpec in
      match next with
      | Done => ret tt
      | Retry =>
          do! _ := modify (fun c => with_retryCount (retryCount c + 1) c) in
          do! n := get retryCount in
          if maxUselessRecords <? n then
            do! _ := sendAlert alertUnexpectedMessage in
            fail_in (EText "tls: too many ignored records")
          else readRecordOrCCS_fuel stuck fuel expectChangeCipherSpec
      end
  end.

Definition readRecordOrCCS (expectChangeCipherSpec : bool) : M unit :=
  readRecordOrCCS_fuel out_of_fuel (Z.to_nat maxUselessRecords + 1) expectChangeCipherSpec.

Definition readRecord : M unit := readRecordOrCCS false.
Definition readChangeCipherSpec : M unit := readRecordOrCCS true.

(** [readHandshakeBytes]: every record that is read without error grows [hand]
    by a byte or more or, once, sets [input]. *)
Fixpoint readHandshakeBytes_fuel (stuck : M unit) (fuel : nat) (n : Z) : M unit :=
  do! h := get hand in
  if n <=? Z.of_nat (length h) then ret tt else
  match fuel with
  | O => stuck
  | Datatypes.S fuel => do! _ := readRecord in readHandshakeBytes_fuel stuck fuel n
  end.

Definition readHandshakeBytes (n : Z) : M unit :=
  readHandshakeBytes_fuel out_of_fuel (Z.to_nat n + 1) n.

(** [readHandshake] up to the unmarshaling: the bytes of the next message. *)
Definition readHandshakeMessage : M bytes :=
  do! _ := readHandshakeBytes 4 in
  do! c := get (fun c => c) in
  let data := hand c in
  let maxHandshakeSize :=
    if haveVers c && (nth_byte data 0 =? typeCertificate) then maxHandshakeCertificateMsg else maxHandshake in
  let n := (nth_byte data 1 ≪ 16) ||| (nth_byte data 2 ≪ 8) ||| nth_byte data 3 in
  if maxHandshakeSize <? n then
    do! _ := sendAlertLocked alertInternalError in
    do! _ := fail_in (EText "tls: handshake message exceeds maximum") in ret []
  else
    do! _ := readHandshakeBytes (4 + n) in
    do! h := get hand in
    do! _ := modify (with_hand (drop (Z.to_nat (4 + n)) h)) in
    ret (take (Z.to_nat (4 + n)) h).

(** ** The application interface *)

(** [Handshake] runs the handshake when it has not been run. *)
Context (Handshake : M unit).

Definition ErrClosed : conn_error := EText "use of closed network connection".
Definition errShutdown : conn_error := EText "tls: protocol is shutdown".

(** [Write] between entering and leaving the interlock with [Close]: the number
    of bytes written and the error. *)
Definition Write_body (b : bytes) : M (Z * option conn_error) :=
  do! err := try_ Handshake in
  do! c := get (fun c => c) in
  match err, hc_err (cout c) with
  | Some e, _ => ret (0, Some e)
  | None, Some e => ret (0, Some e)
  | None, None =>
      if negb (isHandshakeComplete c) then ret (0, Some (EAlert alertInternalError))
      else if closeNotifySent c then ret (0, Some errShutdown)
      else
        let split := (1 <? length b)%nat && (vers c =? VersionTLS10)
                     && match hc_cipher (cout c) with Some (CCbc _) => true | _ => false end in
        do! (m, err) := (if split then writeRecordLocked recordTypeApplicationData (take 1 b)
                         else ret (0, None)) in
        match err with
        | Some _ => do! err := set_out_err err in ret (m, err)
        | None =>
            let b := if split then drop 1 b else b in
            do! (n, err) := writeRecordLocked recordTypeApplicationData b in
            do! err := set_out_err err in ret (n + m, err)
        end
  end.

(** [Write]: the low bit of [activeCall] is set by [Close]; the rest counts
    the calls of [Write] in progress. *)
Definition Write (b : bytes) : M (Z * option conn_error) := fun c =>
  if negb (Z.land (activeCall c) 1 =? 0) then (Ret (0, Some ErrClosed), c) else
  let c := with_activeCall (activeCall c + 2) c in
  let '(r, c) := Write_body b c in
  (r, with_activeCall (activeCall c - 2) c).

Definition closeNotify : M (option conn_error) :=
  do! sent := get closeNotifySent in
  if negb sent then
    do! e := sendAlertLocked alertCloseNotify in
    do! _ := modify (fun c => with_closeNotifySent true (with_closeNotifyErr e c)) in
    ret e
  else get closeNotifyErr.

(** [c.conn.Close()] *)
Definition conn_Close : M unit := modify (with_net_closed true).

(** [Close] *)
Definition Close : M unit := fun c =>
  let x := activeCall c in
  if negb (Z.land x 1 =? 0) then (Err ErrClosed, c) else
  let c := with_activeCall (Z.lor x 1) c in
  if negb (x =? 0) then conn_Close c else
  (do! done_ := get isHandshakeComplete in
   do! alertErr := (if done_ then closeNotify else ret None) in
   do! _ := conn_Close in
   match alertErr with
   | Some _ => fail (EText "tls: failed to send closeNotify alert")
   | None => ret tt
   end) c.

Definition CloseWrite : M unit :=
  do! done_ := get isHandshakeComplete in
  if negb done_ then fail (EText "tls: CloseWrite called before handshake complete")
  else do! e := closeNotify in raise e.
End conn.
