(* ===== verification/ConnProofs.v ===== *)
(** * Theorems about the connection's record layer

    Written data arrives in records of admissible size; the reading loop drops
    a bounded number of records and does exactly what its comment promises. *)

From S2P Require Import Prelude Common HalfConn HalfConnProofs RecordProofs RecordAead Conn.

Open Scope go_scope.

Section conn.
Context {S A C K : Type}.
Context `{StreamPair S} `{AeadPair A} `{CbcPair C} `{MacLaws K}.
Abbreviation hconn := (halfConn S A C K).
Abbreviation cn := (Conn S A C K).
Context (dyn_off : bool) (rand : nat -> nat -> option bytes) (Hrand : forall k, rand_ok (rand k)).

(** ** Record sizes *)

(** The writing half is unprotected or corresponds to a reader. *)
Definition out_ready (h : hconn) : Prop := hc_cipher h = None \/ exists d, hc_pair h d.

Lemma land_lnot_bounds x m : 0 <= x -> 0 <= m -> x - m <= Z.land x (Z.lnot m) <= x.
Proof.
  intros Hx Hm. rewrite <- Z.ldiff_land.
  assert (E : x = Z.land x m + Z.ldiff x m).
  { rewrite Z.add_nocarry_lxor.
    - apply Z.bits_inj'. intros i Hi. rewrite Z.lxor_spec, Z.land_spec, Z.ldiff_spec.
      by destruct (Z.testbit x i), (Z.testbit m i).
    - apply Z.bits_inj'. intros i Hi. rewrite !Z.land_spec, Z.ldiff_spec, Z.testbit_0_l.
      by destruct (Z.testbit x i), (Z.testbit m i). }
  assert (E' : m = Z.land x m + Z.ldiff m x).
  { rewrite Z.add_nocarry_lxor.
    - apply Z.bits_inj'. intros i Hi. rewrite Z.lxor_spec, Z.land_spec, Z.ldiff_spec.
      by destruct (Z.testbit x i), (Z.testbit m i).
    - apply Z.bits_inj'. intros i Hi. rewrite !Z.land_spec, Z.ldiff_spec, Z.testbit_0_l.
      by destruct (Z.testbit x i), (Z.testbit m i). }
  assert (0 <= Z.ldiff m x) by (apply Z.ldiff_nonneg; lia).
  assert (0 <= Z.land x m) by (apply Z.land_nonneg; lia). lia.
Qed.

Lemma cipher_payload_bounds (h : hconn) x : out_ready h -> 1204 - 256 - 5 <= x <= 1203 ->
  exists n, cipher_payload h x = Ret n /\ 600 <= n <= 1203.
Proof.
  intros Hr Hx. unfold cipher_payload. destruct Hr as [->|[d (_ & _ & _ & Hp)]]; [exists x; split; [done|lia]|].
  unfold cipher_pair in Hp. destruct (hc_cipher h) as [[s|a|b]|]; [| | |done];
    destruct (hc_cipher d) as [[?|a'|b']|]; try done.
  - destruct Hp as (_ & _ & m & m' & -> & _ & _). eexists. split; [reflexivity|].
    pose proof (mac_size_bound (h_key m)). lia.
  - destruct Hp as (Hp & _). destruct (aead_sizes a a' Hp) as (_ & _ & _ & Ho).
    eexists. split; [reflexivity|]. lia.
  - destruct Hp as (Hp & _ & m & m' & -> & _ & _). destruct (cbc_size b b' Hp) as [Hb Hb'].
    eexists. split; [reflexivity|]. pose proof (mac_size_bound (h_key m)).
    pose proof (land_lnot_bounds x (Z.of_nat (BlockSize b) - 1)). lia.
Qed.

Lemma explicitNonceLen_bound (h : hconn) : out_ready h -> (explicitNonceLen h <= 256)%nat.
Proof.
  unfold explicitNonceLen. intros [->|[d (_ & _ & _ & Hp)]]; [lia|].
  unfold cipher_pair in Hp. destruct (hc_cipher h) as [[s|a|b]|]; [lia| | |lia];
    destruct (hc_cipher d) as [[?|a'|b']|]; try done.
  - destruct Hp as (Hp & _). destruct (aead_sizes a a' Hp) as (_ & _ & Ho & _). lia.
  - destruct Hp as (Hp & _). destruct (cbc_size b b' Hp) as [Hb Hb']. case_match; lia.
Qed.

Lemma maxPayload_spec typ (c : cn) : out_ready (cout c) -> 0 <= packetsSent c ->
  exists n c', maxPayloadSizeForWrite dyn_off typ c = (Ret n, c') /\ 1 <= n <= maxPlaintext /\
    (c' = c \/ c' = with_packetsSent (packetsSent c + 1) c).
Proof.
  intros Hr Hp. unfold maxPayloadSizeForWrite.
  destruct (_ || _); [eexists _, c; split; [reflexivity|]; split; [done|by left]|].
  destruct (_ <=? _); [eexists _, c; split; [reflexivity|]; split; [done|by left]|].
  pose proof (explicitNonceLen_bound (cout c) Hr) as Hx.
  destruct (cipher_payload_bounds (cout c)
    (tcpMSSEstimate - recordHeaderLen - Z.of_nat (explicitNonceLen (cout c))) Hr) as (n & -> & Hn);
    [unfold tcpMSSEstimate, recordHeaderLen; lia|].
  set (n' := if vers c =? VersionTLS13 then n - 1 else n).
  assert (Hn' : 599 <= n' <= 1203) by (unfold n'; case_match; lia). clearbody n'.
  destruct (1000 <? packetsSent c); [eexists _, _; split; [reflexivity|]; split; [done|by right]|].
  eexists _, _. split; [reflexivity|]. split; [|by right]. unfold maxPlaintext.
  destruct (Z.ltb_spec 16384 (n' * (packetsSent c + 1))); nia.
Qed.

(** ** What [encrypt] keeps *)

Lemma pad_record_len1 ov lens rec payload r lens' :
  pad_record ov lens rec payload = (r, lens') -> nth_len lens' 1 = nth_len lens 1.
Proof.
  assert (Hi : forall first i, padded_index first = Some i -> i <> 1%nat).
  { intros first i. unfold padded_index. by repeat case_match; intros; simplify_eq. }
  assert (Hn : forall i, i <> 1%nat -> nth_len (<[i := 0]> lens) 1 = nth_len lens 1).
  { intros i Hne. unfold nth_len. rewrite !nth_lookup. by rewrite list_lookup_insert_ne. }
  unfold pad_record. repeat case_match; intros; simplify_eq/=; try done; by eapply Hn, Hi.
Qed.

Lemma incSeq_len (h : hconn) : handshakeLen (snd (incSeq h)) = handshakeLen h.
Proof. unfold incSeq. by destruct (incSeq_loop 8 (seq h)). Qed.

Lemma seal_aead_len1 a record nonce payload (h : hconn) :
  nth_len (handshakeLen (snd (seal_aead a record nonce payload h))) 1 = nth_len (handshakeLen h) 1.
Proof.
  unfold seal_aead. destruct (version h =? VersionTLS13).
  - cbv zeta. destruct (pad_record _ _ _ payload) as [r lens'] eqn:Hp.
    apply pad_record_len1 in Hp. destruct r as [r| |]; [|done..].
    destruct (ra_Seal _ _ _ _) as [[ct| |] a']; done.
  - destruct (ra_Seal _ _ _ _) as [[ct| |] a']; done.
Qed.

Lemma encrypt_len1 rnd hdr payload (h : hconn) :
  nth_len (handshakeLen (snd (encrypt rnd hdr payload h))) 1 = nth_len (handshakeLen h) 1.
Proof.
  unfold encrypt. destruct (hc_cipher h) as [c|]; [|done].
  destruct (explicit_nonce rnd h) as [nonce| |]; [|done..].
  set (sealed := match c with CStream s => _ | CAead a => _ | CCbc c => _ end).
  assert (Hs : nth_len (handshakeLen (snd sealed)) 1 = nth_len (handshakeLen h) 1).
  { unfold sealed. destruct c as [s|a|c]; [|apply seal_aead_len1|].
    - unfold seal_stream, tls10MAC. destruct (hc_mac h); [|done]. cbv zeta.
      destruct (XORKeyStream s payload) as [? s1]. by destruct (XORKeyStream s1 _).
    - unfold seal_cbc, tls10MAC. destruct (hc_mac h); [|done]. cbv zeta.
      by destruct (CryptBlocks _ _). }
  destruct sealed as [[r| |] h1]; [|done..]. simpl in Hs.
  pose proof (incSeq_len h1) as Hi. destruct (incSeq h1) as [[u| |] h2]; simpl in *; congruence.
Qed.

(** Records that REALITY does not pad. *)
Definition unpadded (h : hconn) (typ : Z) : Prop :=
  typ <> recordTypeHandshake \/ nth_len (handshakeLen h) 1 = 0.

Lemma pad_record_unpadded ov (h : hconn) typ rec payload :
  unpadded h typ -> nth_byte rec 0 = typ -> pad_record ov (handshakeLen h) rec payload = (Ret rec, handshakeLen h).
Proof.
  intros Hu Ht. unfold pad_record. rewrite Ht. destruct Hu as [Hu|Hu].
  - by rewrite (proj2 (Z.eqb_neq _ _)).
  - rewrite Hu. cbn [Z.eqb negb]. by rewrite andb_false_r.
Qed.

(** The frame of a protected TLS 1.3 record, with the version [v1], [v2]. *)
Definition framed (v1 v2 : Z) (rec : bytes) : Prop :=
  let n := Z.of_nat (length rec) - recordHeaderLen in
  0 < n <= maxCiphertextTLS13 /\ take 5 rec = [recordTypeApplicationData; v1; v2; u8 (n ≫ 8); u8 n].

Lemma encrypt_shape13 rnd typ v1 v2 payload (e d : hconn) rec e' :
  rand_ok rnd -> hc_pair e d -> unpadded e typ -> bytes_ok payload -> version e = VersionTLS13 ->
  is_byte typ -> is_byte v1 -> is_byte v2 -> Z.of_nat (length payload) <= maxPlaintext ->
  encrypt rnd (header typ v1 v2 payload) payload e = (Ret rec, e') ->
  framed v1 v2 rec /\ version e' = VersionTLS13 /\
  forall a, hc_cipher e = Some (CAead a) -> Z.of_nat (length rec) <= 5 + Z.of_nat (ra_Overhead a) + maxPlaintext + 1.
Proof.
  intros Hr (Hv & Hs & Hsq & Hp) Hu Hok H13 Ht Hv1 Hv2 Hl He.
  unfold cipher_pair in Hp. unfold encrypt in He.
  destruct (hc_cipher e) as [[s|a|c]|] eqn:Ha; [| | |done];
    (destruct (hc_cipher d) as [[?|a'|?]|] eqn:Hd; try done); [by destruct Hp as (_ & ? & _)| |by destruct Hp as (_ & ? & _)].
  destruct Hp as (Hp & Hx & _).
  destruct (explicit_nonce rnd e) as [nonce| |] eqn:Hn; [|done..].
  destruct (explicit_nonce_length rnd e nonce Hr Hsq Hn) as [Hnl _].
  unfold explicitNonceLen in Hnl. rewrite Ha, (Hx H13) in Hnl. apply length_zero_iff_nil in Hnl as ->.
  rewrite app_nil_r in He. unfold seal_aead in He. rewrite H13, Z.eqb_refl in He.
  change (length (@nil Z) =? 0)%nat with true in He. cbv iota in He.
  change (nth_byte (header typ v1 v2 payload) 0) with typ in He.
  rewrite (pad_record_unpadded _ e typ) in He by done.
  set (rec1 := set_length _ _) in He.
  assert (Hl1 : length rec1 = (5 + length payload + 1)%nat).
  { unfold rec1, set_length. rewrite !length_insert, !length_app. simpl. lia. }
  assert (Hok1 : bytes_ok rec1).
  { unfold rec1, set_length. apply Forall_insert; [|apply Z.mod_pos_bound; lia].
    apply Forall_insert; [|apply Z.mod_pos_bound; lia]. apply Forall_insert; [|done].
    apply Forall_app. split; [apply Forall_app; split; [by apply header_ok|done]|by constructor]. }
  change (seq (set_handshakeLen (handshakeLen e) e)) with (seq e) in He.
  destruct (ra_Seal a (seq e) (drop 5 rec1) (take 5 rec1)) as [[ct| |] a1] eqn:Hseal; [|done..].
  destruct Hsq as [Hsok Hs8].
  destruct (aead_inv a a' _ _ _ _ _ Hs8 Hsok ltac:(by apply Forall_drop) ltac:(by apply Forall_take) Hp Hseal)
    as [Hct _]. rewrite length_drop in Hct.
  destruct (aead_sizes a a' Hp) as (_ & _ & _ & Hov).
  match type of He with context [incSeq ?h] =>
    assert (Hiv : version (snd (incSeq h)) = version h) by (unfold incSeq; by destruct (incSeq_loop 8 (seq h)));
      destruct (incSeq h) as [[u| |] e2]; [|done..] end.
  apply pair_equal_spec in He as [Hrec ->]. apply Ret_inj in Hrec as <-. cbn [snd] in Hiv.
  assert (Hlr : length (take 5 rec1 ++ ct) = (5 + length payload + 1 + ra_Overhead a)%nat)
    by (rewrite length_app, length_take; lia).
  split; [|split; [by rewrite Hiv|]].
  - assert (Hls : forall n, length (set_length (take 5 rec1 ++ ct) n) = (5 + length payload + 1 + ra_Overhead a)%nat)
      by (intros n; unfold set_length; by rewrite !length_insert).
    unfold framed. cbv zeta. rewrite Hls. unfold recordHeaderLen, maxCiphertextTLS13. unfold maxPlaintext in *. split; [lia|].
    rewrite Hlr. unfold set_length, rec1, set_length. cbn -[Z.of_nat Z.sub Z.add u8 Z.shiftr Nat.add Nat.sub].
    do 3 f_equal. f_equal; [|f_equal]; repeat f_equal; lia.
  - intros a2 [= <-]. unfold set_length. rewrite !length_insert, Hlr. lia.
Qed.

Lemma encrypt_fits rnd typ v1 v2 payload (e d : hconn) rec e' :
  rand_ok rnd -> hc_pair e d -> unpadded e typ -> bytes_ok payload ->
  is_byte typ -> is_byte v1 -> is_byte v2 -> Z.of_nat (length payload) <= maxPlaintext ->
  encrypt rnd (header typ v1 v2 payload) payload e = (Ret rec, e') -> record_fits e rec.
Proof.
  intros Hr Hp Hu Hok Ht Hv1 Hv2 Hl He a Ha H13.
  by apply (encrypt_shape13 rnd typ v1 v2 payload e d rec e' Hr Hp Hu Hok H13).
Qed.

Lemma encrypt_pair rnd typ v1 v2 payload (e d : hconn) rec e' :
  rand_ok rnd -> hc_pair e d -> unpadded e typ -> bytes_ok payload -> typ <> 0 ->
  is_byte typ -> is_byte v1 -> is_byte v2 -> Z.of_nat (length payload) <= maxPlaintext ->
  encrypt rnd (header typ v1 v2 payload) payload e = (Ret rec, e') ->
  record_fits e rec /\ unpadded e' typ /\ (version e = VersionTLS13 -> framed v1 v2 rec /\ version e' = VersionTLS13) /\
  exists d', decrypt rec d = (Ret (payload, typ), d') /\ hc_pair e' d'.
Proof.
  intros Hr Hp Hu Hok Ht0 Ht Hv1 Hv2 Hl He.
  pose proof (encrypt_fits _ _ _ _ _ _ _ _ _ Hr Hp Hu Hok Ht Hv1 Hv2 Hl He) as Hf.
  split; [done|]. split.
  { destruct Hu as [Hu|Hu]; [by left|right].
    pose proof (encrypt_len1 rnd (header typ v1 v2 payload) payload e) as Hn. rewrite He in Hn.
    simpl in Hn. congruence. }
  split.
  { intros H13. destruct (encrypt_shape13 rnd typ v1 v2 payload e d rec e' Hr Hp Hu Hok H13 Ht Hv1 Hv2 Hl He) as (? & ? & _). done. }
  destruct (encrypt_decrypt rnd typ v1 v2 payload e d rec e' Hr Hp Hok) as [Q _];
    try done; [unfold maxPlaintext in Hl; lia|].
  apply Q. right. intros (-> & Hne & _). by destruct Hu as [Hu|Hu].
Qed.

(** ** Writing *)

(** The bytes handed to the network so far, the buffered ones included. *)
Definition emitted (c : cn) : bytes := net_out c ++ sendBuf c.

(** A connection that writes records of type [typ] for the reader [d]. *)
Record writable (typ : Z) (c : cn) (d : hconn) : Prop := {
  wr_pair : hc_pair (cout c) d;
  wr_unpadded : unpadded (cout c) typ;
  wr_buf : buffering c = true \/ sendBuf c = [];
  wr_packets : 0 <= packetsSent c
}.

Lemma write_spec (rec : bytes) (c : cn) : buffering c = true \/ sendBuf c = [] ->
  exists n err c' sent, write rec c = (Ret (n, err), c') /\
    emitted c' = emitted c ++ sent /\ (err = None -> sent = rec) /\
    cout c' = cout c /\ buffering c' = buffering c /\ packetsSent c' = packetsSent c /\
    (buffering c' = true \/ sendBuf c' = []) /\ vers c' = vers c.
Proof.
  intros Hb. unfold write, emitted, get, modify, ret, bind. destruct (buffering c) eqn:Eb.
  - do 3 eexists. exists rec. split; [reflexivity|]. cbn. rewrite Eb. split_and!; try done; [apply app_assoc|by left].
  - destruct Hb as [Hb|Hb]; [done|]. unfold conn_Write.
    destruct (net_w c) as [|[k e|] w];
      [exists (Z.of_nat (length rec)), None; eexists; exists rec
      |exists (Z.of_nat (min k (length rec))), (Some e); eexists; exists (take (min k (length rec)) rec)
      |exists (Z.of_nat (length rec)), None; eexists; exists rec];
      (split; [reflexivity|]); cbn; rewrite Hb, !app_nil_r; split_and!; try done; by right.
Qed.

(** A connection of TLS 1.3, and the frames of its records. *)
Definition tls13 (c : cn) : Prop := vers c = VersionTLS13 /\ version (cout c) = VersionTLS13.

(** One pass of the loop: an error, or one more record for the reader. *)
Lemma writeRecords_step typ data n (c : cn) (d : hconn) :
  writable typ c d -> bytes_ok data -> typ <> 0 -> is_byte typ -> data <> [] ->
  (exists w c', forall stuck fuel,
     writeRecords_fuel dyn_off rand stuck (Datatypes.S fuel) typ data n c = (Panic w, c')) \/
  (exists e sent c', emitted c' = emitted c ++ sent /\ forall stuck fuel,
     writeRecords_fuel dyn_off rand stuck (Datatypes.S fuel) typ data n c = (Ret (n, Some e), c')) \/
  exists m rec c1 d1, (0 < m <= length data)%nat /\ Z.of_nat m <= maxPlaintext /\
    decrypt rec d = (Ret (take m data, typ), d1) /\ writable typ c1 d1 /\ (tls13 c -> framed 3 3 rec /\ tls13 c1) /\
    emitted c1 = emitted c ++ rec /\ forall stuck fuel,
    writeRecords_fuel dyn_off rand stuck (Datatypes.S fuel) typ data n c =
    writeRecords_fuel dyn_off rand stuck fuel typ (drop m data) (n + Z.of_nat m) c1.
Proof.
  intros [Hp Hu Hb Hk] Hok Ht0 Ht Hd.
  assert (E : (length data =? 0)%nat = false).
  { apply Nat.eqb_neq. intros E. by apply length_zero_iff_nil in E. }
  assert (E0 : length data <> 0%nat) by (by apply Nat.eqb_neq).
  destruct (maxPayload_spec typ c) as (k & c1 & Emax & Hk1 & Hc1); [by right; exists d|done|].
  set (m := if k <? Z.of_nat (length data) then k else Z.of_nat (length data)).
  assert (Hm : 0 < m <= Z.of_nat (length data) /\ m <= maxPlaintext).
  { unfold m. destruct (Z.ltb_spec k (Z.of_nat (length data))); lia. }
  assert (Hm0 : (m <? 0) = false) by (apply Z.ltb_ge; lia).
  assert (Hl : length (take (Z.to_nat m) data) = Z.to_nat m) by (rewrite length_take; lia).
  set (v := record_version (vers c1)). set (hdr := record_header typ v m).
  assert (Hh : hdr = header typ (u8 (v ≫ 8)) (u8 v) (take (Z.to_nat m) data)).
  { unfold hdr, record_header, header. by rewrite Hl, Z2Nat.id by lia. }
  assert (Hstep : forall stuck fuel,
    writeRecords_fuel dyn_off rand stuck (Datatypes.S fuel) typ data n c =
    let '(r, c2) := encrypt_record rand hdr (take (Z.to_nat m) data) c1 in
    match r with
    | Panic w => (Panic w, c2)
    | Err e => (Ret (n, Some e), c2)
    | Ret outBuf =>
        bind (write outBuf) (fun '(_, err) =>
          match err with
          | Some e => ret (n, Some e)
          | None => writeRecords_fuel dyn_off rand stuck fuel typ (drop (Z.to_nat m) data) (n + m)
          end) c2
    end).
  { intros stuck fuel. cbn [writeRecords_fuel]. rewrite E. unfold bind at 1. rewrite Emax.
    fold m. rewrite Hm0. reflexivity. }
  clearbody m hdr. setoid_rewrite Hstep. unfold encrypt_record, on_out. rewrite Hh.
  assert (Hc1o : cout c1 = cout c /\ emitted c1 = emitted c /\ (buffering c1 = true \/ sendBuf c1 = [])
    /\ 0 <= packetsSent c1 /\ vers c1 = vers c).
  { destruct Hc1 as [->| ->]; cbn; split_and!; try done; lia. }
  destruct Hc1o as (Ho & He1 & Hb1 & Hk2 & Hvc). cbn [cout with_rand_calls]. rewrite Ho.
  destruct (encrypt _ _ _ (cout c)) as [[rec|e|w] h'] eqn:Henc; cbn [fst snd].
  - pose proof Henc as Q. eapply encrypt_pair in Q as (_ & Hu' & Hsh & d1 & Hdec & Hp');
      [|apply Hrand|exact Hp|exact Hu|by apply Forall_take|done|done|apply Z.mod_pos_bound; lia..|lia].
    set (c2 := with_cout h' _).
    destruct (write_spec rec c2) as (k1 & err & c3 & sent & Hw & He3 & Hs & Ho3 & Hb3 & Hk3 & Hbs & Hv3); [exact Hb1|].
    destruct err as [e|]; unfold bind; setoid_rewrite Hw.
    + right; left. exists e, sent, c3. split; [by rewrite He3, <- He1|done].
    + right; right. exists (Z.to_nat m), rec, c3, d1. rewrite Z2Nat.id by lia.
      split_and!; try done; try lia. 3: by rewrite He3, Hs, <- He1.
      { constructor; [by rewrite Ho3|by rewrite Ho3|done|by rewrite Hk3]. }
      intros [H1v H2v]. destruct (Hsh H2v) as [Hfr Hv'']. unfold v in Hfr. rewrite Hvc, H1v in Hfr.
      split; [exact Hfr|]. split; [by rewrite Hv3; cbn; rewrite Hvc|by rewrite Ho3].
  - right; left. eexists e, [], _. split; [|reflexivity]. by rewrite app_nil_r.
  - left. by eexists w, _.
Qed.

(** The reader after a sequence of records. *)
Definition reader_after (d : hconn) (recs : list bytes) : hconn :=
  fold_left (fun d rec => snd (decrypt rec d)) recs d.

Lemma receive_all_app d recs1 recs2 :
  receive_all d (recs1 ++ recs2) = receive_all d recs1 ++ receive_all (reader_after d recs1) recs2.
Proof.
  revert d. induction recs1 as [|r recs1 IH]; intros d; [done|]. cbn [app receive_all]. unfold reader_after.
  cbn [fold_left]. destruct (decrypt r d) as [x d']. cbn [snd]. by rewrite IH.
Qed.

(** What writing [data] gives: the reader gets [frags], in records [recs]. *)
Record delivered (typ : Z) (data : bytes) (c : cn) (d : hconn) (n : Z) (err : option conn_error) (c' : cn)
    (frags recs : list bytes) : Prop := {
  del_emitted : exists partial, emitted c' = emitted c ++ concat recs ++ partial /\ (err = None -> partial = []);
  del_received : receive_all d recs = (fun f => Ret (f, typ)) <$> frags;
  del_sizes : Forall (fun f => (0 < length f)%nat /\ Z.of_nat (length f) <= maxPlaintext) frags;
  del_data : exists rest, data = concat frags ++ rest /\ (err = None -> rest = []);
  del_count : n = Z.of_nat (length (concat frags));
  del_framed : tls13 c -> Forall (framed 3 3) recs /\ (err = None -> tls13 c');
  del_next : err = None -> writable typ c' (reader_after d recs)
}.

Lemma writeRecords_loop fuel typ data n (c : cn) (d : hconn) :
  writable typ c d -> bytes_ok data -> typ <> 0 -> is_byte typ -> (length data <= fuel)%nat ->
  exists r c', (forall stuck, writeRecords_fuel dyn_off rand stuck fuel typ data n c = (r, c')) /\
  match r with
  | Ret (k, err) => exists frags recs, delivered typ data c d (k - n) err c' frags recs
  | Err _ => False
  | Panic _ => True
  end.
Proof.
  revert data n c d. induction fuel as [|fuel IH]; intros data n c d Hw Hok Ht0 Ht Hl;
    (destruct (decide (data = [])) as [->|Hne];
     [eexists _, _; split; [intros; reflexivity|]; exists [], []; split; try done;
      [exists []; by rewrite app_nil_r|by exists []|simpl; lia]|]).
  { by destruct data; [|simpl in Hl; lia]. }
  destruct (writeRecords_step typ data n c d Hw Hok Ht0 Ht Hne)
    as [(w & c' & E)|[(e & sent & c' & He & E)|(m & rec & c1 & d1 & Hm & Hmax & Hdec & Hw1 & Hfr & He & E)]].
  - by exists (Panic w), c'.
  - exists (Ret (n, Some e)), c'. split; [done|]. exists [], []. split; try done;
      [by exists sent|by exists data|simpl; lia].
  - destruct (IH (drop m data) (n + Z.of_nat m) c1 d1) as (r & c' & Er & Hr);
      [done|by apply Forall_drop|done|done|rewrite length_drop; lia|].
    exists r, c'. split; [by intros; rewrite E|]. destruct r as [[k err]|e|w]; [|done..].
    destruct Hr as (frags & recs & [(pt & H1' & Hpt) H2' H3' (rest & H4' & Hrest) H5' Hfr' H6']).
    exists (take m data :: frags), (rec :: recs). split.
    + exists pt. split; [|done]. rewrite H1', He. cbn [concat]. by rewrite !app_assoc.
    + cbn [receive_all fmap list_fmap]. rewrite Hdec. by f_equal.
    + constructor; [|done]. rewrite length_take. lia.
    + exists rest. split; [|done]. cbn [concat]. rewrite <- app_assoc, <- H4'. by rewrite take_drop.
    + cbn [concat]. rewrite length_app, length_take. lia.
    + intros H13. destruct (Hfr H13) as [? H13']. destruct (Hfr' H13'). by split; [constructor|].
    + unfold reader_after. cbn [fold_left]. by rewrite Hdec.
Qed.

(** Whatever is written through [writeRecordLocked]'s loop reaches a
    corresponding reader: the reader gets fragments of 1 to 2^14 bytes whose
    concatenation is the data written (a prefix of it of the returned length
    when the transport or the encryption fails), and can read on afterwards.
    The loop ends by itself: its result does not depend on the fuel's end. *)
Theorem writeRecords_delivers typ data (c : cn) (d : hconn) :
  writable typ c d -> bytes_ok data -> typ <> 0 -> is_byte typ ->
  (forall stuck, writeRecords_fuel dyn_off rand stuck (length data) typ data 0 c = writeRecords dyn_off rand typ data c) /\
  forall r c', writeRecords dyn_off rand typ data c = (r, c') ->
  match r with
  | Ret (n, err) => exists frags recs, delivered typ data c d n err c' frags recs
  | Err _ => False
  | Panic _ => True
  end.
Proof.
  intros Hw Hok Ht0 Ht.
  destruct (writeRecords_loop (length data) typ data 0 c d Hw Hok Ht0 Ht (le_n _)) as (r & c' & E & Hr).
  unfold writeRecords. rewrite E. split; [intros; apply E|].
  intros r' c1 Q. apply pair_equal_spec in Q as [<- <-].
  destruct r as [[n err]|e|w]; [|done..]. by rewrite Z.sub_0_r in Hr.
Qed.

(** ** Reading *)

Lemma bind_Ret {R Q} (m : M R) (k : R -> M Q) (c : cn) y c' :
  bind m k c = (Ret y, c') -> exists x c1, m c = (Ret x, c1) /\ k x c1 = (Ret y, c').
Proof. unfold bind. destruct (m c) as [[x|e|w] c1]; [|done..]. eauto. Qed.

(** What follows a failure does not run. *)
Lemma bind_never {R Q} (m : M R) (k : R -> M Q) (c : cn) y c' :
  (forall u c', m c <> (Ret u, c')) -> bind m k c <> (Ret y, c').
Proof. intros Hm E. apply bind_Ret in E as (x & c1 & E & _). by apply Hm in E. Qed.

(** Sending an alert other than close_notify always gives an error. *)
Lemma alert_and_fail_never a (c : cn) u c' : a <> alertCloseNotify ->
  alert_and_fail dyn_off rand a c <> (Ret u, c').
Proof.
  intros Ha Q. apply bind_Ret in Q as (e & c1 & Q1 & Q). apply bind_Ret in Q as (e' & c2 & Q2 & Q).
  unfold sendAlert, sendAlertLocked in Q1. apply bind_Ret in Q1 as (? & c3 & _ & Q1).
  destruct x as [k err]. rewrite (proj2 (Z.eqb_neq _ _)) in Q1 by done.
  injection Q1 as <- _. injection Q2 as <- _. done.
Qed.

Lemma alert_never {R} a (k : unit -> M R) (c : cn) y c' : a <> alertCloseNotify ->
  bind (alert_and_fail dyn_off rand a) k c <> (Ret y, c').
Proof. intros Ha. apply bind_never. intros u c1. by apply alert_and_fail_never. Qed.

Lemma fail_in_never e (c : cn) u c' : fail_in e c <> (Ret u, c').
Proof. done. Qed.

Lemma transport_error_never e (c : cn) u c' : transport_error e c <> (Ret u, c').
Proof. by destruct e as [?| |? ?| | |[]|?|?|?|?]. Qed.

(** The record [rec] has been opened: the reading half moved on. *)
Lemma open_record_Ret rec (c : cn) data typ c' :
  open_record dyn_off rand rec c = (Ret (data, typ), c') ->
  exists h', decrypt rec (cin c) = (Ret (data, typ), h') /\
    Z.of_nat (length data) <= maxPlaintext /\
    c' = (if negb (typ =? recordTypeAlert) && negb (typ =? recordTypeChangeCipherSpec)
              && (0 <? length data)%nat then with_retryCount 0 else fun c => c) (with_cin h' c) /\
    (vers c = VersionTLS13 -> hand c <> [] -> typ = recordTypeHandshake).
Proof.
  unfold open_record, on_in. destruct (decrypt rec (cin c)) as [[[data1 typ1]|e|w] h'].
  - destruct (Z.ltb_spec maxPlaintext (Z.of_nat (length data1))).
    { intros Q. by apply alert_never in Q. }
    destruct (_ && _).
    { intros Q. by apply alert_never in Q. }
    unfold modify, get, bind at 1 2.
    set (c1 := if _ : bool then with_retryCount 0 _ else _).
    destruct ((vers c1 =? VersionTLS13) && _ && _) eqn:Ev.
    { intros Q. by apply alert_never in Q. }
    intros Q. unfold ret in Q. injection Q as <- <- <-. exists h'. split_and!; try done.
    + unfold c1. by destruct (_ && _).
    + intros Hv Hh. assert (E : vers c1 = VersionTLS13 /\ hand c1 = hand c)
        by (unfold c1; by destruct (_ && _)). destruct E as [E1 E2].
      rewrite E1, E2, Z.eqb_refl in Ev. destruct (Z.eqb_spec typ1 recordTypeHandshake) as [|]; [done|].
      destruct (hand c); [done|]. discriminate Ev.
  - destruct e; try done. intros Q. apply bind_Ret in Q as (u & c1 & _ & Q). done.
  - done.
Qed.

(** What a record that is neither dropped nor refused does to the connection. *)
Definition progress (expect : bool) (c c' : cn) : Prop :=
  if expect then
    hand c = [] /\ hand c' = [] /\ input c' = [] /\ exists h, changeCipherSpec h = (Ret tt, cin c')
  else exists data, data <> [] /\ Z.of_nat (length data) <= maxPlaintext /\
    ((hand c' = hand c ++ data /\ input c' = []) \/
     (isHandshakeComplete c = true /\ (vers c = VersionTLS13 -> hand c = []) /\
      hand c' = hand c /\ input c' = data)).

(** What dropping a record leaves alone. *)
Definition dropped (c c' : cn) : Prop :=
  hand c' = hand c /\ input c' = input c /\ vers c' = vers c /\
  isHandshakeComplete c' = isHandshakeComplete c /\ retryCount c' = retryCount c.

Lemma handle_alert_Ret data (c : cn) s c' :
  handle_alert dyn_off rand data c = (Ret s, c') -> s = Retry /\ c' = c.
Proof.
  unfold handle_alert. intros Q. apply bind_Ret in Q as (v & c1 & Q1 & Q). injection Q1 as <- <-.
  destruct data as [|lvl [|a [|]]]; try by apply alert_never in Q.
  repeat case_match; try done; try (by apply alert_never in Q); by injection Q as <- <-.
Qed.

Lemma changeCipherSpec_error (h : hconn) e h' :
  changeCipherSpec h = (Err e, h') -> e = EAlert alertInternalError.
Proof. unfold changeCipherSpec. by repeat case_match; intros; simplify_eq. Qed.

Lemma handle_ccs_Ret expect complete data (c : cn) s c' : input c = [] ->
  handle_ccs dyn_off rand expect complete data c = (Ret s, c') ->
  (s = Retry /\ c' = c) \/ (s = Done /\ expect = true /\ progress true c c').
Proof.
  intros Hin. unfold handle_ccs. intros Q. apply bind_Ret in Q as (c0 & c1 & Q1 & Q). injection Q1 as <- <-.
  destruct (negb _); [by apply alert_never in Q|].
  destruct (Nat.ltb_spec 0 (length (hand c))) as [|Hh]; [by apply alert_never in Q|].
  destruct (_ && _); [injection Q as <- <-; by left|].
  destruct expect; [|by apply alert_never in Q]. cbn [negb] in Q.
  apply bind_Ret in Q as (err & c1 & Q1 & Q). unfold try_, on_in in Q1.
  destruct (changeCipherSpec (cin c)) as [[[]|e|w] h'] eqn:Ec; [| |done].
  - injection Q1 as <- <-. injection Q as <- <-. right. split_and!; try done.
    assert (hand c = []) by (apply length_zero_iff_nil; lia). split_and!; try done. by exists (cin c).
  - injection Q1 as <- <-. apply changeCipherSpec_error in Ec as ->.
    by apply alert_never in Q.
Qed.

Lemma handle_record_Ret expect complete typ data (c : cn) s c' : input c = [] ->
  Z.of_nat (length data) <= maxPlaintext -> complete = isHandshakeComplete c ->
  (vers c = VersionTLS13 -> hand c <> [] -> typ = recordTypeHandshake) ->
  handle_record dyn_off rand expect complete typ data c = (Ret s, c') ->
  match s with
  | Retry => c' = c /\ (typ = recordTypeAlert \/ typ = recordTypeChangeCipherSpec \/ data = [])
  | Done => progress expect c c'
  end.
Proof.
  intros Hin Hl -> Hv. unfold handle_record.
  destruct (Z.eqb_spec typ recordTypeAlert) as [->|].
  { intros Q. apply handle_alert_Ret in Q as [-> ->]. by split; [|left]. }
  destruct (Z.eqb_spec typ recordTypeChangeCipherSpec) as [->|].
  { intros Q. apply handle_ccs_Ret in Q as [[-> ->]|(-> & -> & Q)]; [|done..]. by split; [|right; left]. }
  destruct (Z.eqb_spec typ recordTypeApplicationData) as [->|].
  { destruct (isHandshakeComplete c) eqn:Ec; [|intros Q; by apply alert_never in Q].
    destruct expect; [intros Q; by apply alert_never in Q|]. cbn [negb orb].
    destruct data as [|x data]; [intros Q; injection Q as <- <-; by split; [|right; right]|].
    intros Q. injection Q as <- <-. exists (x :: data). split_and!; [done|done|]. right.
    split_and!; [done|intros Q|done..]. destruct (decide (hand c = [])) as [|N]; [done|]. by specialize (Hv Q N). }
  destruct (Z.eqb_spec typ recordTypeHandshake) as [->|]; [|intros Q; by apply alert_never in Q].
  destruct data as [|x data]; [intros Q; by apply alert_never in Q|].
  destruct expect; [intros Q; by apply alert_never in Q|].
  intros Q. injection Q as <- <-. exists (x :: data). split_and!; [done|done|]. by left.
Qed.

Lemma refuse_never a e n (c : cn) y c' :
  bind (sendAlert dyn_off rand a) (fun _ => bind (fail_in e) (fun _ => ret n)) c <> (Ret y, c') :> (outcome conn_error Z * cn).
Proof. intros Q. by apply bind_Ret in Q as (? & ? & _ & Q). Qed.

Lemma check_header_Ret hdr (c : cn) n c' : check_header dyn_off rand hdr c = (Ret n, c') ->
  c' = c /\ n <= maxCiphertext /\ (vers c = VersionTLS13 -> n <= maxCiphertextTLS13).
Proof.
  unfold check_header. intros Q. apply bind_Ret in Q as (c0 & c1 & Q1 & Q). injection Q1 as <- <-.
  destruct (_ && _); [by apply refuse_never in Q|].
  destruct (_ && _); [by apply refuse_never in Q|]. destruct (_ && _); [done|].
  match type of Q with (if (_ && (_ <? ?x)) || _ then _ else _) _ = _ => set (k := x) in Q end.
  destruct (_ || _) eqn:E; [by apply refuse_never in Q|]. injection Q as <- <-.
  apply orb_false_iff in E as [E1 E2]. apply Z.ltb_ge in E2. split_and!; [done|done|].
  intros Hv. rewrite Hv, Z.eqb_refl in E1. by apply Z.ltb_ge in E1.
Qed.

(** The fields reading from the transport leaves alone. *)
Definition same_state (c c' : cn) : Prop :=
  cin c' = cin c /\ hand c' = hand c /\ input c' = input c /\ vers c' = vers c /\
  isHandshakeComplete c' = isHandshakeComplete c /\ retryCount c' = retryCount c.

Lemma readFromUntil_same n (c : cn) r c' : readFromUntil n c = (r, c') -> same_state c c'.
Proof.
  unfold readFromUntil. destruct (_ <=? _); [by intros Q; simplify_eq|].
  destruct (read_at_least _ _ _) as [[r1 rd] buf]. by intros Q; simplify_eq.
Qed.

Lemma try_read_same n (c : cn) e c' : try_ (readFromUntil n) c = (Ret e, c') -> same_state c c'.
Proof.
  unfold try_. destruct (readFromUntil n c) as [[u|e1|w] c1] eqn:E; intros Q; simplify_eq;
    by eapply readFromUntil_same.
Qed.

Lemma same_state_trans c1 c2 c3 : same_state c1 c2 -> same_state c2 c3 -> same_state c1 c3.
Proof. unfold same_state. intros (?&?&?&?&?&?) (?&?&?&?&?&?). split_and!; congruence. Qed.

Lemma read_one_Ret expect (c : cn) s c' : read_one dyn_off rand expect c = (Ret s, c') ->
  hc_err (cin c) = None /\ input c = [] /\
  match s with Retry => dropped c c' | Done => progress expect c c' end.
Proof.
  unfold read_one. intros Q. apply bind_Ret in Q as (c0 & c1 & Q1 & Q). injection Q1 as <- <-.
  destruct (hc_err (cin c)); [done|]. split; [done|].
  destruct (Nat.eqb_spec (length (input c)) 0) as [Hin|]; [|done]. apply length_zero_iff_nil in Hin.
  split; [done|]. cbn [negb] in Q.
  apply bind_Ret in Q as (err & c1 & Q1 & Q). apply try_read_same in Q1.
  destruct err as [e|].
  { apply bind_Ret in Q as (? & ? & _ & Q). apply bind_Ret in Q as (? & ? & Q & _).
    by apply transport_error_never in Q. }
  apply bind_Ret in Q as (raw & c2 & Q2 & Q). injection Q2 as <- <-.
  apply bind_Ret in Q as (n & c2 & Q2 & Q). apply check_header_Ret in Q2 as [-> _].
  apply bind_Ret in Q as (err & c2 & Q2 & Q). apply try_read_same in Q2.
  destruct err as [e|].
  { apply bind_Ret in Q as (? & ? & Q & _). by apply transport_error_never in Q. }
  pose proof (same_state_trans _ _ _ Q1 Q2) as Q3. clear Q1 Q2 c1.
  apply bind_Ret in Q as (raw & c3 & Q2 & Q). injection Q2 as <- <-.
  apply bind_Ret in Q as (u & c3 & Q2 & Q). injection Q2 as _ <-.
  apply bind_Ret in Q as ([data typ] & c3 & Q2 & Q).
  apply open_record_Ret in Q2 as (h' & _ & Hl & Hc3 & Hty).
  destruct Q3 as (_ & H1' & H2' & H3' & H4' & H5'). cbn [vers hand with_rawInput] in Hty.
  assert (Q3 : hand c3 = hand c /\ input c3 = input c /\ vers c3 = vers c /\
    isHandshakeComplete c3 = isHandshakeComplete c).
  { rewrite Hc3. by destruct (_ && _); cbn. }
  destruct Q3 as (K1 & K2 & K3 & K4).
  apply handle_record_Ret in Q; [|by rewrite K2|done|by rewrite K4|rewrite K1, K3, <- H1', <- H3'; exact Hty].
  destruct s.
  - clear - Q K1 K3 K4. unfold progress in *. destruct expect; rewrite ?K1, ?K3, ?K4 in Q; exact Q.
  - destruct Q as [-> Hd]. split_and!; try done. rewrite Hc3.
    by destruct Hd as [->|[->| ->]]; rewrite ?andb_false_r.
Qed.

Lemma progress_dropped expect (c c1 c' : cn) k : dropped c c1 ->
  progress expect (with_retryCount k c1) c' -> progress expect c c'.
Proof.
  intros (E1 & E2 & E3 & E4 & _). unfold progress. cbn [hand input vers isHandshakeComplete with_retryCount].
  by rewrite E1, E3, E4.
Qed.

Lemma read_loop expect fuel (c : cn) : (0 < fuel)%nat -> maxUselessRecords - Z.of_nat fuel < retryCount c ->
  exists r c', (forall stuck, readRecordOrCCS_fuel dyn_off rand stuck fuel expect c = (r, c')) /\
    (r = Ret tt -> hc_err (cin c) = None /\ input c = [] /\ progress expect c c').
Proof.
  revert c. induction fuel as [|fuel IH]; [lia|]. intros c _ Hk. cbn [readRecordOrCCS_fuel].
  unfold bind at 1. destruct (read_one dyn_off rand expect c) as [[s|e|w] c1] eqn:E;
    [|by eexists _, _; split; [intros; reflexivity|]..].
  apply read_one_Ret in E as (He & Hi & Hs). destruct s; [by eexists _, _; split; [intros; reflexivity|]|].
  unfold bind at 1, modify. unfold bind at 1, get. cbn [fst snd retryCount with_retryCount].
  pose proof Hs as (_ & _ & _ & _ & Hrc). rewrite Hrc.
  destruct (Z.ltb_spec maxUselessRecords (retryCount c + 1)) as [|Hm].
  { destruct (bind _ _ _) as [r c'] eqn:E. exists r, c'. split; [done|]. intros ->.
    by apply bind_Ret in E as (? & ? & _ & E). }
  destruct (IH (with_retryCount (retryCount c + 1) c1)) as (r & c' & Hr & Hr');
    [cbn [retryCount with_retryCount]; lia..|].
  exists r, c'. split; [exact Hr|]. intros Hrr. destruct (Hr' Hrr) as (_ & _ & Hp).
  split_and!; [done|done|]. by eapply progress_dropped.
Qed.

(** C34: a read of the record layer.  The loop over dropped records ends by
    itself within 17 records (the result does not depend on what follows the
    fuel's end).  When it returns without error, exactly what the comment of
    [readRecordOrCCS] promises happened: [hand] grew by a record's non-empty
    data; or, after the handshake, with no partial message pending in TLS 1.3,
    [input] was set to such data; or, when one was expected, the cipher was
    changed with no handshake data pending.  No data is larger than 2^14. *)
Theorem readRecord_progress expect (c : cn) : 0 <= retryCount c ->
  (forall stuck, readRecordOrCCS_fuel dyn_off rand stuck (Z.to_nat maxUselessRecords + 1) expect c =
     readRecordOrCCS dyn_off rand expect c) /\
  forall c', readRecordOrCCS dyn_off rand expect c = (Ret tt, c') ->
    hc_err (cin c) = None /\ input c = [] /\ progress expect c c'.
Proof.
  intros Hk. destruct (read_loop expect (Z.to_nat maxUselessRecords + 1) c) as (r & c' & E & Hr);
    [lia|unfold maxUselessRecords; simpl; lia|].
  unfold readRecordOrCCS. rewrite E. split; [done|]. intros c1 Q. apply pair_equal_spec in Q as [Q <-]. by apply Hr.
Qed.

(** The reading side fails for good: once an error is recorded, every
    read of a record returns this error and changes nothing. *)
Theorem readRecord_sticky expect e (c : cn) :
  hc_err (cin c) = Some e -> readRecordOrCCS dyn_off rand expect c = (Err e, c).
Proof.
  intros He. unfold readRecordOrCCS. change (Z.to_nat maxUselessRecords + 1)%nat with 17%nat.
  cbn [readRecordOrCCS_fuel]. unfold bind at 1, read_one. unfold bind at 1, get at 1.
  by rewrite He.
Qed.
End conn.

(** ** Witnesses *)

(** A TLS 1.3 connection after the handshake. *)
Definition w_Conn (reads : list (bytes * option conn_error)) : Conn xor_stream _ xor_cbc Z :=
  mkConn VersionTLS13 true true w_d w_e None [] [] [] false [] 0 0 0 0 false None 0 None reads [] [] false 0.
Definition w_data : bytes := replicate 1300 0x61.

Lemma writeRecords_delivers_witness :
  fst (writeRecords false (fun _ => w_rand) recordTypeApplicationData w_data (w_Conn [])) = Ret (1300, None) /\
  exists frags recs, delivered recordTypeApplicationData w_data (w_Conn []) w_d 1300 None
    (snd (writeRecords false (fun _ => w_rand) recordTypeApplicationData w_data (w_Conn []))) frags recs.
Proof.
  assert (Hf : fst (writeRecords false (fun _ => w_rand) recordTypeApplicationData w_data (w_Conn []))
    = Ret (1300, None)) by (vm_compute; reflexivity).
  split; [exact Hf|].
  assert (Hw : writable recordTypeApplicationData (w_Conn []) w_d).
  { constructor; [apply w_pair|left; discriminate|right; reflexivity|apply Z.le_refl]. }
  assert (Hok : bytes_ok w_data) by (apply Forall_replicate; w_byte).
  assert (Hb : is_byte recordTypeApplicationData) by w_byte.
  assert (H0 : recordTypeApplicationData <> 0) by discriminate.
  destruct (writeRecords_delivers false (fun _ => w_rand) (fun _ => w_rand_ok)
    recordTypeApplicationData w_data (w_Conn []) w_d Hw Hok H0 Hb) as [_ H].
  destruct (writeRecords _ _ _ _ _) as [r c'] eqn:E. cbn [fst] in Hf. subst r.
  exact (H _ c' eq_refl).
Defined.

(** The record of [w_e] arrives in two pieces. *)
Lemma readRecord_progress_witness :
  fst (readRecordOrCCS false (fun _ => w_rand) false (w_Conn [(take 7 w_rec1, None); (drop 7 w_rec1, None)]))
    = Ret tt /\
  progress false (w_Conn [(take 7 w_rec1, None); (drop 7 w_rec1, None)])
    (snd (readRecordOrCCS false (fun _ => w_rand) false (w_Conn [(take 7 w_rec1, None); (drop 7 w_rec1, None)]))).
Proof.
  set (c := w_Conn _).
  assert (Hf : fst (readRecordOrCCS false (fun _ => w_rand) false c) = Ret tt) by (vm_compute; reflexivity).
  split; [exact Hf|].
  destruct (readRecord_progress false (fun _ => w_rand) false c) as [_ H]; [done|].
  destruct (readRecordOrCCS _ _ _ _) as [r c'] eqn:E. simpl in Hf. subst r. by apply (H c').
Defined.

Definition w_dead : Conn xor_stream _ xor_cbc Z := with_cin (set_err (Some EEOF) w_d) (w_Conn []).
Lemma readRecord_sticky_witness :
  readRecordOrCCS false (fun _ => w_rand) false w_dead = (Err EEOF, w_dead).
Proof. apply readRecord_sticky. reflexivity. Defined.
