(* ===== verification/Cryptobyte.v ===== *)
(** * The interface of golang.org/x/crypto/cryptobyte

    cryptobyte is a third-party package: its [String] (a byte slice that is
    read from the front) and its [Builder] are classes here.  What the
    package's documentation promises is stated by [CryptoStringLaws] and
    [BuilderLaws]; [plain_String] and [plain_Builder] satisfy these laws. *)

From S2P Require Import Prelude HalfConn.

Open Scope go_scope.

Notation "'let?' x := m 'in' k" := (mbind (M:=option) (fun x => k) m)
  (at level 10, x pattern, m at level 100, k at level 200) : go_scope.

(** ** [cryptobyte.String] *)

(** A read gives what was read and the rest; [None] is the result [false]. *)
Class CryptoString := {
  Skip : nat -> bytes -> option bytes;
  ReadUint8 : bytes -> option (Z * bytes);
  ReadUint16 : bytes -> option (Z * bytes);
  ReadUint32 : bytes -> option (Z * bytes);
  ReadUint64 : bytes -> option (Z * bytes);
  ReadBytes : nat -> bytes -> option (bytes * bytes);
  CopyBytes : nat -> bytes -> option (bytes * bytes);
  ReadUint8LengthPrefixed : bytes -> option (bytes * bytes);
  ReadUint16LengthPrefixed : bytes -> option (bytes * bytes);
  ReadUint24LengthPrefixed : bytes -> option (bytes * bytes)
}.

Definition Empty (s : bytes) : bool := (length s =? 0)%nat.

(** Read [n] bytes; read a big-endian integer of [n] bytes; read a sequence
    after its length in [n] bytes. *)
Definition read_bytes (n : nat) (s : bytes) : option (bytes * bytes) :=
  if (n <=? length s)%nat then Some (take n s, drop n s) else None.
Definition read_uint (n : nat) (s : bytes) : option (Z * bytes) :=
  let? (b, s) := read_bytes n s in Some (be_get b, s).
Definition read_prefixed (n : nat) (s : bytes) : option (bytes * bytes) :=
  let? (l, s) := read_uint n s in read_bytes (Z.to_nat l) s.

Class CryptoStringLaws `{CryptoString} := {
  Skip_spec n s : Skip n s = snd <$> read_bytes n s;
  ReadUint8_spec s : ReadUint8 s = read_uint 1 s;
  ReadUint16_spec s : ReadUint16 s = read_uint 2 s;
  ReadUint32_spec s : ReadUint32 s = read_uint 4 s;
  ReadUint64_spec s : ReadUint64 s = read_uint 8 s;
  ReadBytes_spec n s : ReadBytes n s = read_bytes n s;
  CopyBytes_spec n s : CopyBytes n s = read_bytes n s;
  ReadUint8LengthPrefixed_spec s : ReadUint8LengthPrefixed s = read_prefixed 1 s;
  ReadUint16LengthPrefixed_spec s : ReadUint16LengthPrefixed s = read_prefixed 2 s;
  ReadUint24LengthPrefixed_spec s : ReadUint24LengthPrefixed s = read_prefixed 3 s
}.

(** [for !s.Empty() { body }] with the variables [acc]: every body reads at
    least one byte, so [length s] passes are enough; [stuck] stands for the end
    of the fuel. *)
Fixpoint until_empty_fuel {T} (stuck : option T) (body : bytes -> T -> option (T * bytes)) (fuel : nat)
    (s : bytes) (acc : T) : option T :=
  if Empty s then Some acc else
  match fuel with
  | O => stuck
  | Datatypes.S fuel =>
      let? (acc, s) := body s acc in until_empty_fuel stuck body fuel s acc
  end.

Definition until_empty {T} (body : bytes -> T -> option (T * bytes)) (s : bytes) (acc : T) : option T :=
  until_empty_fuel None body (length s) s acc.

(** The loop that appends what it reads to a slice. *)
Definition append_read {T} (rd : bytes -> option (T * bytes)) (s : bytes) (acc : list T)
  : option (list T * bytes) :=
  let? (x, s) := rd s in Some (acc ++ [x], s).
Definition read_list {T} (rd : bytes -> option (T * bytes)) (s : bytes) (acc : list T) : option (list T) :=
  until_empty (append_read rd) s acc.

(** ** [cryptobyte.Builder] *)

Class Builder (B : Type) := {
  NewBuilder : B;
  AddUint8 : Z -> B -> B;
  AddUint16 : Z -> B -> B;
  AddUint32 : Z -> B -> B;
  AddBytes : bytes -> B -> B;
  AddUint8LengthPrefixed : (B -> B) -> B -> B;
  AddUint16LengthPrefixed : (B -> B) -> B -> B;
  AddUint24LengthPrefixed : (B -> B) -> B -> B;
  (* [AddValue] of a [MarshalingValue], a function that may fail *)
  AddValue : (B -> option conn_error * B) -> B -> B;
  SetError : conn_error -> B -> B;
  Bytes : B -> outcome conn_error bytes
}.

(** Statements on a builder in sequence, under a condition, over a slice. *)
Definition then_ {B} (f g : B -> B) : B -> B := fun b => g (f b).
Infix ";>" := then_ (at level 85, right associativity) : go_scope.
Definition when {B} (c : bool) (f : B -> B) : B -> B := fun b => if c then f b else b.
Definition for_each {B T} (f : T -> B -> B) (l : list T) : B -> B := fun b => fold_left (fun b x => f x b) l b.

(** The bytes that a statement appends, or [None] when it leaves an error. *)
Definition appends {B} `{Builder B} (f : B -> B) (r : option bytes) : Prop :=
  forall b, match Bytes b with
            | Ret x => match r with
                       | Some y => Bytes (f b) = Ret (x ++ y)
                       | None => exists e, Bytes (f b) = Err e
                       end
            | Err _ => exists e, Bytes (f b) = Err e
            | Panic _ => True
            end.

(** A length prefix of [n] bytes. *)
Definition prefixed (n : nat) (r : option bytes) : option bytes :=
  let? y := r in
  if Z.of_nat (length y) <? 256 ^ Z.of_nat n then Some (be_put n (Z.of_nat (length y)) ++ y) else None.

Class BuilderLaws (B : Type) `{Builder B} := {
  NewBuilder_spec : Bytes NewBuilder = Ret [];
  AddUint8_spec v : appends (AddUint8 v) (Some (be_put 1 v));
  AddUint16_spec v : appends (AddUint16 v) (Some (be_put 2 v));
  AddUint32_spec v : appends (AddUint32 v) (Some (be_put 4 v));
  AddBytes_spec v : appends (AddBytes v) (Some v);
  AddUint8LengthPrefixed_spec f r : appends f r -> appends (AddUint8LengthPrefixed f) (prefixed 1 r);
  AddUint16LengthPrefixed_spec f r : appends f r -> appends (AddUint16LengthPrefixed f) (prefixed 2 r);
  AddUint24LengthPrefixed_spec f r : appends f r -> appends (AddUint24LengthPrefixed f) (prefixed 3 r);
  AddValue_spec f r : appends f r -> appends (AddValue (fun b => (None, f b))) r;
  AddValue_error e : appends (AddValue (fun b => (Some e, b))) None;
  SetError_spec e : appends (SetError e) None
}.

(** ** A plain implementation *)

#[export] Instance plain_String : CryptoString := {|
  Skip n s := snd <$> read_bytes n s;
  ReadUint8 := read_uint 1;
  ReadUint16 := read_uint 2;
  ReadUint32 := read_uint 4;
  ReadUint64 := read_uint 8;
  ReadBytes := read_bytes;
  CopyBytes := read_bytes;
  ReadUint8LengthPrefixed := read_prefixed 1;
  ReadUint16LengthPrefixed := read_prefixed 2;
  ReadUint24LengthPrefixed := read_prefixed 3
|}.
#[export] Instance plain_String_laws : CryptoStringLaws.
Proof. by split. Qed.

Definition plain_builder : Type := outcome conn_error bytes.

Definition plain_append (v : bytes) (b : plain_builder) : plain_builder :=
  let! x := b in Ret (x ++ v).

Definition plain_prefixed (n : nat) (f : plain_builder -> plain_builder) (b : plain_builder)
  : plain_builder :=
  let! x := b in
  let! y := f (Ret []) in
  if Z.of_nat (length y) <? 256 ^ Z.of_nat n then Ret (x ++ be_put n (Z.of_nat (length y)) ++ y)
  else Err (EText "cryptobyte: pending child length exceeds length prefix").

#[export] Instance plain_Builder : Builder plain_builder := {|
  NewBuilder := Ret [];
  AddUint8 v := plain_append (be_put 1 v);
  AddUint16 v := plain_append (be_put 2 v);
  AddUint32 v := plain_append (be_put 4 v);
  AddBytes := plain_append;
  AddUint8LengthPrefixed := plain_prefixed 1;
  AddUint16LengthPrefixed := plain_prefixed 2;
  AddUint24LengthPrefixed := plain_prefixed 3;
  AddValue f b := match f b with (None, b) => b | (Some e, _) => Err e end;
  SetError e b := let! _ := b in Err e;
  Bytes b := b
|}.

Lemma plain_append_spec v : appends (plain_append v) (Some v).
Proof. intros [x|e|w]; simpl; eauto. Qed.

Lemma plain_prefixed_spec n f r : appends f r -> appends (plain_prefixed n f) (prefixed n r).
Proof.
  intros Hf [x|e|w]; simpl; eauto. specialize (Hf (Ret [])). simpl in Hf.
  destruct r as [y|]; simpl.
  - rewrite Hf. simpl. destruct (_ <? _); [done|by eexists].
  - destruct Hf as [e ->]. by eexists.
Qed.

#[export] Instance plain_Builder_laws : BuilderLaws plain_builder.
Proof.
  split; try (intros; apply plain_append_spec); try (intros; by apply plain_prefixed_spec).
  - done.
  - intros f r Hf [x|e|w]; simpl; [apply (Hf (Ret x))|apply (Hf (Err e))|done].
  - intros e [x|e'|w]; simpl; eauto.
  - intros e [x|e'|w]; simpl; eauto.
Qed.

(** ** What statements append *)

Definition oapp (a b : option bytes) : option bytes := let? x := a in let? y := b in Some (x ++ y).

Fixpoint oconcat (l : list (option bytes)) : option bytes :=
  match l with [] => Some [] | x :: l => oapp x (oconcat l) end.

Section builder.
Context {B : Type} `{BuilderLaws B}.

Lemma appends_id : appends (fun b => b) (Some []).
Proof. intros b. destruct (Bytes b); eauto. by rewrite app_nil_r. Qed.

Lemma appends_then f g r1 r2 : appends f r1 -> appends g r2 -> appends (f ;> g) (oapp r1 r2).
Proof.
  intros Hf Hg b. specialize (Hf b). unfold then_. specialize (Hg (f b)).
  destruct (Bytes b) as [x|e|w]; [|destruct Hf as [e' Hf]; by rewrite Hf in Hg|done].
  destruct r1 as [y1|]; simpl.
  - rewrite Hf in Hg. destruct r2 as [y2|]; simpl; [by rewrite app_assoc|done].
  - destruct Hf as [e Hf]. by rewrite Hf in Hg.
Qed.

Lemma appends_when (c : bool) f r : appends f r -> appends (when c f) (if c then r else Some []).
Proof. destruct c; [done|]. intros _. apply appends_id. Qed.

Lemma appends_for_each {T} (f : T -> B -> B) (r : T -> option bytes) l :
  (forall x, appends (f x) (r x)) -> appends (for_each f l) (oconcat (r <$> l)).
Proof.
  intros Hf. induction l as [|x l IH]; [apply appends_id|].
  apply (appends_then (f x) (for_each f l)); [apply Hf|done].
Qed.

(** The bytes of a message built from nothing. *)
Lemma appends_new f r data : appends f r -> Bytes (f NewBuilder) = Ret data <-> r = Some data.
Proof.
  intros Hf. specialize (Hf NewBuilder). rewrite NewBuilder_spec in Hf.
  destruct r as [y|]; [rewrite Hf; simpl; split; congruence|].
  destruct Hf as [e ->]. by split.
Qed.
End builder.

Create HintDb builder.
#[export] Hint Resolve appends_id appends_then appends_when appends_for_each AddUint8_spec AddUint16_spec
  AddUint32_spec AddBytes_spec AddUint8LengthPrefixed_spec AddUint16LengthPrefixed_spec
  AddUint24LengthPrefixed_spec AddValue_spec AddValue_error SetError_spec : builder.

(** ** Reading what was written *)

Lemma read_bytes_app n a s : length a = n -> read_bytes n (a ++ s) = Some (a, s).
Proof.
  intros <-. unfold read_bytes. rewrite length_app, (proj2 (Nat.leb_le _ _)) by lia.
  by rewrite take_app_length, drop_app_length.
Qed.

Lemma read_uint_put n v s : 0 <= v < 256 ^ Z.of_nat n -> read_uint n (be_put n v ++ s) = Some (v, s).
Proof.
  intros Hv. unfold read_uint. rewrite read_bytes_app by apply length_be_put. simpl.
  by rewrite be_get_put, Z.mod_small.
Qed.

Lemma prefixed_Some n r z : prefixed n r = Some z <->
  exists y, r = Some y /\ Z.of_nat (length y) < 256 ^ Z.of_nat n /\ z = be_put n (Z.of_nat (length y)) ++ y.
Proof.
  unfold prefixed. destruct r as [y|]; simpl; [|split; [done|by intros (? & ? & _)]].
  destruct (Z.ltb_spec (Z.of_nat (length y)) (256 ^ Z.of_nat n)) as [Hl|Hl].
  - split; [intros [= <-]; eauto|]. by intros (y' & [= <-] & _ & ->).
  - split; [done|]. intros (y' & [= <-] & Hl' & _). lia.
Qed.

Lemma oapp_Some a b z : oapp a b = Some z <-> exists x y, a = Some x /\ b = Some y /\ z = x ++ y.
Proof.
  unfold oapp. destruct a as [x|]; simpl; [|split; [done|by intros (? & ? & ? & _)]].
  destruct b as [y|]; simpl; [|split; [done|by intros (? & ? & _ & ? & _)]].
  split; [intros [= <-]; eauto|]. by intros (? & ? & [= <-] & [= <-] & ->).
Qed.

Lemma read_prefixed_put n y s : Z.of_nat (length y) < 256 ^ Z.of_nat n ->
  read_prefixed n ((be_put n (Z.of_nat (length y)) ++ y) ++ s) = Some (y, s).
Proof.
  intros Hl. unfold read_prefixed. rewrite <- app_assoc, read_uint_put by lia. simpl.
  apply read_bytes_app. lia.
Qed.

Lemma read_bytes_length n s x s' : read_bytes n s = Some (x, s') -> length s = (n + length s')%nat /\ length x = n /\ s = x ++ s'.
Proof.
  unfold read_bytes. destruct (Nat.leb_spec n (length s)); [|done]. intros [= <- <-].
  rewrite length_drop, length_take, take_drop. split_and!; [lia|lia|done].
Qed.

Lemma read_uint_length n s x s' : read_uint n s = Some (x, s') -> length s = (n + length s')%nat.
Proof.
  unfold read_uint. destruct (read_bytes n s) as [[b r]|] eqn:E; [|done]. simpl. intros [= _ <-].
  by apply read_bytes_length in E as [? _].
Qed.

Lemma read_prefixed_length n s x s' : read_prefixed n s = Some (x, s') ->
  length s = (n + length x + length s')%nat.
Proof.
  unfold read_prefixed. destruct (read_uint n s) as [[b r]|] eqn:E; [|done]. simpl.
  intros Q. apply read_uint_length in E. apply read_bytes_length in Q as (? & ? & _). lia.
Qed.

(** ** Loops *)

(** A body that reads at least a byte. *)
Definition consumes {T} (body : bytes -> T -> option (T * bytes)) : Prop :=
  forall s acc acc' s', body s acc = Some (acc', s') -> (length s' < length s)%nat.

Lemma until_empty_enough {T} (body : bytes -> T -> option (T * bytes)) stuck fuel s acc :
  consumes body -> (length s <= fuel)%nat ->
  until_empty_fuel stuck body fuel s acc = until_empty body s acc.
Proof.
  intros Hb. unfold until_empty.
  assert (Hg : forall f1 f2 st1 st2 s acc, (length s <= f1)%nat -> (length s <= f2)%nat ->
    until_empty_fuel st1 body f1 s acc = until_empty_fuel st2 body f2 s acc).
  { clear s acc fuel stuck. induction f1 as [|f1 IH]; intros f2 st1 st2 s acc H1 H2.
    { destruct s; [|simpl in H1; lia]. by destruct f2. }
    destruct f2 as [|f2]; [by destruct s; [|simpl in H2; lia]|]. cbn [until_empty_fuel].
    destruct (Empty s); [done|]. destruct (body s acc) as [[acc' s']|] eqn:E; [|done]. simpl.
    apply Hb in E. apply IH; lia. }
  intros Hl. by apply Hg.
Qed.

Lemma until_empty_cons {T} (body : bytes -> T -> option (T * bytes)) s acc : consumes body -> s <> [] ->
  until_empty body s acc = let? (acc', s') := body s acc in until_empty body s' acc'.
Proof.
  intros Hb Hs. unfold until_empty at 1. destruct s as [|x s]; [done|]. cbn [until_empty_fuel length].
  unfold Empty. simpl. destruct (body (x :: s) acc) as [[acc' s']|] eqn:E; [|done]. simpl.
  apply Hb in E. simpl in E. apply until_empty_enough; [done|lia].
Qed.

(** What every pass keeps holds at the end. *)
Lemma until_empty_ind {T} (body : bytes -> T -> option (T * bytes)) (P : bytes -> T -> Prop) s acc r :
  (forall s acc acc' s', s <> [] -> P s acc -> body s acc = Some (acc', s') -> P s' acc') ->
  P s acc -> until_empty body s acc = Some r -> P [] r.
Proof.
  intros Hb. unfold until_empty. generalize (length s) as fuel. intros fuel. revert s acc.
  induction fuel as [|fuel IH]; intros s acc Hp; cbn [until_empty_fuel]; unfold Empty.
  - destruct s; cbn; [|done]. by intros [= <-].
  - destruct s as [|x s]; cbn [length Nat.eqb]; [by intros [= <-]|].
    destruct (body (x :: s) acc) as [[acc' s']|] eqn:E; [|done]. cbn [mbind option_bind].
    apply IH. by apply (Hb (x :: s) acc).
Qed.

Lemma append_read_consumes {T} (rd : bytes -> option (T * bytes)) :
  (forall s x s', rd s = Some (x, s') -> (length s' < length s)%nat) -> consumes (append_read rd).
Proof.
  intros Hr s acc acc' s'. unfold append_read. destruct (rd s) as [[x r]|] eqn:E; [|done]. simpl.
  intros [= _ <-]. by eapply Hr.
Qed.

Lemma read_list_put {T} (rd : bytes -> option (T * bytes)) (enc : T -> option bytes) l :
  (forall s x s', rd s = Some (x, s') -> (length s' < length s)%nat) ->
  forall acc z,
  Forall (fun x => forall y s, enc x = Some y -> y <> [] /\ rd (y ++ s) = Some (x, s)) l ->
  oconcat (enc <$> l) = Some z -> read_list rd z acc = Some (acc ++ l).
Proof.
  intros Hr. induction l as [|x l IH]; intros acc z Hl Hz.
  { injection Hz as <-. cbn. by rewrite app_nil_r. }
  apply Forall_cons in Hl as [Hx Hl]. cbn [fmap list_fmap oconcat] in Hz.
  apply oapp_Some in Hz as (y & z' & Hy & Hz' & ->).
  destruct (Hx y z' Hy) as [Hne Hrd]. unfold read_list.
  rewrite until_empty_cons; [|by apply append_read_consumes|by destruct y].
  assert (E : append_read rd (y ++ z') acc = Some (acc ++ [x], z')) by (unfold append_read; by rewrite Hrd).
  rewrite E. simpl. trans (read_list rd z' (acc ++ [x])); [done|].
  rewrite (IH _ z' Hl Hz'). by rewrite <- app_assoc.
Qed.
