(* ===== verification/Hello.v ===== *)
(** * handshake_messages.go: the messages and their wire format, part 1

    ClientHello and ServerHello; the other messages are in [Messages].  A
    message is the record [t] of its Module; [marshal] builds its bytes with
    [cryptobyte.Builder], [unmarshal] reads them with [cryptobyte.String].
    Strings are their bytes; a slice whose being [nil] the code inspects is an
    [option].  [unmarshal] gives [None] when the code returns [false] (the
    callers then drop the message). *)

From S2P Require Import Prelude Common HalfConn Cryptobyte.

Open Scope go_scope.

(** ** Helpers *)

Record keyShare := mkKeyShare { group : Z; ks_data : bytes }.
Record pskIdentity := mkPskIdentity { label : bytes; obfuscatedTicketAge : Z }.

Section helpers.
Context {B : Type} `{Builder B} `{CryptoString}.

(** A value of a given length. *)
Definition addBytesWithLength (v : bytes) (n : nat) : B -> B :=
  AddValue (fun b => if negb (length v =? n)%nat then (Some (EText "invalid value length"), b)
                     else (None, AddBytes v b)).

Definition addUint64 (v : Z) : B -> B := AddUint32 (v ≫ 32) ;> AddUint32 v.

Definition readUint64 (s : bytes) : option (Z * bytes) :=
  let? (hi, s) := ReadUint32 s in
  let? (lo, s) := ReadUint32 s in
  Some ((hi ≪ 32) ||| lo, s).

(** [readUint8LengthPrefixed], ...: the reads of [cryptobyte.String] into a slice. *)
Definition readUint8LengthPrefixed (s : bytes) := ReadUint8LengthPrefixed s.
Definition readUint16LengthPrefixed (s : bytes) := ReadUint16LengthPrefixed s.
Definition readUint24LengthPrefixed (s : bytes) := ReadUint24LengthPrefixed s.

(** A value that must not be empty. *)
Definition nonempty (r : option (bytes * bytes)) : option (bytes * bytes) :=
  let? (v, s) := r in if Empty v then None else Some (v, s).

(** The extensions: a type, 16 bits of length and the data.  [handler] gets
    the type, the data and what follows it, and returns what it left of the
    data ([continue] skips the check that nothing is left). *)
Definition read_ext {T} (seen_check : bool) (handler : Z -> bytes -> bytes -> T -> option (T * bytes))
    (s : bytes) (st : list Z * T) : option ((list Z * T) * bytes) :=
  let '(seenExts, m) := st in
  let? (extension, s) := ReadUint16 s in
  let? (extData, s) := ReadUint16LengthPrefixed s in
  if seen_check && existsb (Z.eqb extension) seenExts then None else
  let? (m, extData) := handler extension extData s m in
  if negb (Empty extData) then None else Some ((extension :: seenExts, m), s).

Definition read_exts {T} (seen_check : bool) (handler : Z -> bytes -> bytes -> T -> option (T * bytes))
    (s : bytes) (m : T) : option T :=
  snd <$> until_empty (read_ext seen_check handler) s ([], m).

(** [continue] *)
Definition continue {T} (m : T) : option (T * bytes) := Some (m, []).

(** A list of 16-bit values, and of sequences after their lengths. *)
Definition addUint16s (l : list Z) : B -> B := for_each AddUint16 l.
Definition addUint8LengthPrefixeds (l : list bytes) : B -> B :=
  for_each (fun v => AddUint8LengthPrefixed (AddBytes v)) l.
Definition addUint16LengthPrefixeds (l : list bytes) : B -> B :=
  for_each (fun v => AddUint16LengthPrefixed (AddBytes v)) l.
Definition readUint16s (s : bytes) (acc : list Z) : option (list Z) := read_list ReadUint16 s acc.
Definition readProtos (s : bytes) (acc : list bytes) : option (list bytes) :=
  read_list (fun s => nonempty (ReadUint8LengthPrefixed s)) s acc.
Definition readScts (s : bytes) (acc : list bytes) : option (list bytes) :=
  read_list (fun s => nonempty (readUint16LengthPrefixed s)) s acc.

(** A non-empty list of 16-bit values after its length in 16 bits. *)
Definition read_uint16_list (extData : bytes) (acc : list Z) : option (list Z * bytes) :=
  let? (l, extData) := nonempty (ReadUint16LengthPrefixed extData) in
  let? acc := readUint16s l acc in Some (acc, extData).

(** A single non-empty protocol name in its list. *)
Definition read_alpn (extData : bytes) : option (bytes * bytes) :=
  let? (protoList, extData) := nonempty (ReadUint16LengthPrefixed extData) in
  let? (proto, protoList) := nonempty (ReadUint8LengthPrefixed protoList) in
  if negb (Empty protoList) then None else Some (proto, extData).
Definition nonempty_list {T} (l : list T) : bool := (0 <? length l)%nat.

(** [exts.AddUint16(typ); exts.AddUint16LengthPrefixed(body)] *)
Definition ext (typ : Z) (body : B -> B) : B -> B := AddUint16 typ ;> AddUint16LengthPrefixed body.
(** An extension without data: [exts.AddUint16(typ); exts.AddUint16(0)] *)
Definition ext0 (typ : Z) : B -> B := AddUint16 typ ;> AddUint16 0.

End helpers.

(** ** ClientHello *)

Module clientHelloMsg.
Record t := mk {
  original : option bytes;
  vers : Z;
  random : bytes;
  sessionId : bytes;
  cipherSuites : list Z;
  compressionMethods : bytes;
  serverName : bytes;
  ocspStapling : bool;
  supportedCurves : list Z;
  supportedPoints : bytes;
  ticketSupported : bool;
  sessionTicket : bytes;
  supportedSignatureAlgorithms : list Z;
  supportedSignatureAlgorithmsCert : list Z;
  secureRenegotiationSupported : bool;
  secureRenegotiation : bytes;
  extendedMasterSecret : bool;
  alpnProtocols : list bytes;
  scts : bool;
  supportedVersions : list Z;
  cookie : bytes;
  keyShares : list keyShare;
  earlyData : bool;
  pskModes : bytes;
  pskIdentities : list pskIdentity;
  pskBinders : list bytes;
  quicTransportParameters : option bytes;
  encryptedClientHello : bytes;
  extensions : list Z
}.

(** Field updates. *)
Definition set_original (x : option bytes) (m : t) : t := mk x (vers m) (random m) (sessionId m)
  (cipherSuites m) (compressionMethods m) (serverName m) (ocspStapling m) (supportedCurves m)
  (supportedPoints m) (ticketSupported m) (sessionTicket m) (supportedSignatureAlgorithms m)
  (supportedSignatureAlgorithmsCert m) (secureRenegotiationSupported m) (secureRenegotiation m)
  (extendedMasterSecret m) (alpnProtocols m) (scts m) (supportedVersions m) (cookie m) (keyShares
  m) (earlyData m) (pskModes m) (pskIdentities m) (pskBinders m) (quicTransportParameters m)
  (encryptedClientHello m) (extensions m).
Definition set_vers (x : Z) (m : t) : t := mk (original m) x (random m) (sessionId m)
  (cipherSuites m) (compressionMethods m) (serverName m) (ocspStapling m) (supportedCurves m)
  (supportedPoints m) (ticketSupported m) (sessionTicket m) (supportedSignatureAlgorithms m)
  (supportedSignatureAlgorithmsCert m) (secureRenegotiationSupported m) (secureRenegotiation m)
  (extendedMasterSecret m) (alpnProtocols m) (scts m) (supportedVersions m) (cookie m) (keyShares
  m) (earlyData m) (pskModes m) (pskIdentities m) (pskBinders m) (quicTransportParameters m)
  (encryptedClientHello m) (extensions m).
Definition set_random (x : bytes) (m : t) : t := mk (original m) (vers m) x (sessionId m)
  (cipherSuites m) (compressionMethods m) (serverName m) (ocspStapling m) (supportedCurves m)
  (supportedPoints m) (ticketSupported m) (sessionTicket m) (supportedSignatureAlgorithms m)
  (supportedSignatureAlgorithmsCert m) (secureRenegotiationSupported m) (secureRenegotiation m)
  (extendedMasterSecret m) (alpnProtocols m) (scts m) (supportedVersions m) (cookie m) (keyShares
  m) (earlyData m) (pskModes m) (pskIdentities m) (pskBinders m) (quicTransportParameters m)
  (encryptedClientHello m) (extensions m).
Definition set_sessionId (x : bytes) (m : t) : t := mk (original m) (vers m) (random m) x
  (cipherSuites m) (compressionMethods m) (serverName m) (ocspStapling m) (supportedCurves m)
  (supportedPoints m) (ticketSupported m) (sessionTicket m) (supportedSignatureAlgorithms m)
  (supportedSignatureAlgorithmsCert m) (secureRenegotiationSupported m) (secureRenegotiation m)
  (extendedMasterSecret m) (alpnProtocols m) (scts m) (supportedVersions m) (cookie m) (keyShares
  m) (earlyData m) (pskModes m) (pskIdentities m) (pskBinders m) (quicTransportParameters m)
  (encryptedClientHello m) (extensions m).
Definition set_cipherSuites (x : list Z) (m : t) : t := mk (original m) (vers m) (random m)
  (sessionId m) x (compressionMethods m) (serverName m) (ocspStapling m) (supportedCurves m)
  (supportedPoints m) (ticketSupported m) (sessionTicket m) (supportedSignatureAlgorithms m)
  (supportedSignatureAlgorithmsCert m) (secureRenegotiationSupported m) (secureRenegotiation m)
  (extendedMasterSecret m) (alpnProtocols m) (scts m) (supportedVersions m) (cookie m) (keyShares
  m) (earlyData m) (pskModes m) (pskIdentities m) (pskBinders m) (quicTransportParameters m)
  (encryptedClientHello m) (extensions m).
Definition set_compressionMethods (x : bytes) (m : t) : t := mk (original m) (vers m) (random m)
  (sessionId m) (cipherSuites m) x (serverName m) (ocspStapling m) (supportedCurves m)
  (supportedPoints m) (ticketSupported m) (sessionTicket m) (supportedSignatureAlgorithms m)
  (supportedSignatureAlgorithmsCert m) (secureRenegotiationSupported m) (secureRenegotiation m)
  (extendedMasterSecret m) (alpnProtocols m) (scts m) (supportedVersions m) (cookie m) (keyShares
  m) (earlyData m) (pskModes m) (pskIdentities m) (pskBinders m) (quicTransportParameters m)
  (encryptedClientHello m) (extensions m).
Definition set_serverName (x : bytes) (m : t) : t := mk (original m) (vers m) (random m)
  (sessionId m) (cipherSuites m) (compressionMethods m) x (ocspStapling m) (supportedCurves m)
  (supportedPoints m) (ticketSupported m) (sessionTicket m) (supportedSignatureAlgorithms m)
  (supportedSignatureAlgorithmsCert m) (secureRenegotiationSupported m) (secureRenegotiation m)
  (extendedMasterSecret m) (alpnProtocols m) (scts m) (supportedVersions m) (cookie m) (keyShares
  m) (earlyData m) (pskModes m) (pskIdentities m) (pskBinders m) (quicTransportParameters m)
  (encryptedClientHello m) (extensions m).
Definition set_ocspStapling (x : bool) (m : t) : t := mk (original m) (vers m) (random m)
  (sessionId m) (cipherSuites m) (compressionMethods m) (serverName m) x (supportedCurves m)
  (supportedPoints m) (ticketSupported m) (sessionTicket m) (supportedSignatureAlgorithms m)
  (supportedSignatureAlgorithmsCert m) (secureRenegotiationSupported m) (secureRenegotiation m)
  (extendedMasterSecret m) (alpnProtocols m) (scts m) (supportedVersions m) (cookie m) (keyShares
  m) (earlyData m) (pskModes m) (pskIdentities m) (pskBinders m) (quicTransportParameters m)
  (encryptedClientHello m) (extensions m).
Definition set_supportedCurves (x : list Z) (m : t) : t := mk (original m) (vers m) (random m)
  (sessionId m) (cipherSuites m) (compressionMethods m) (serverName m) (ocspStapling m) x
  (supportedPoints m) (ticketSupported m) (sessionTicket m) (supportedSignatureAlgorithms m)
  (supportedSignatureAlgorithmsCert m) (secureRenegotiationSupported m) (secureRenegotiation m)
  (extendedMasterSecret m) (alpnProtocols m) (scts m) (supportedVersions m) (cookie m) (keyShares
  m) (earlyData m) (pskModes m) (pskIdentities m) (pskBinders m) (quicTransportParameters m)
  (encryptedClientHello m) (extensions m).
Definition set_supportedPoints (x : bytes) (m : t) : t := mk (original m) (vers m) (random m)
  (sessionId m) (cipherSuites m) (compressionMethods m) (serverName m) (ocspStapling m)
  (supportedCurves m) x (ticketSupported m) (sessionTicket m) (supportedSignatureAlgorithms m)
  (supportedSignatureAlgorithmsCert m) (secureRenegotiationSupported m) (secureRenegotiation m)
  (extendedMasterSecret m) (alpnProtocols m) (scts m) (supportedVersions m) (cookie m) (keyShares
  m) (earlyData m) (pskModes m) (pskIdentities m) (pskBinders m) (quicTransportParameters m)
  (encryptedClientHello m) (extensions m).
Definition set_ticketSupported (x : bool) (m : t) : t := mk (original m) (vers m) (random m)
  (sessionId m) (cipherSuites m) (compressionMethods m) (serverName m) (ocspStapling m)
  (supportedCurves m) (supportedPoints m) x (sessionTicket m) (supportedSignatureAlgorithms m)
  (supportedSignatureAlgorithmsCert m) (secureRenegotiationSupported m) (secureRenegotiation m)
  (extendedMasterSecret m) (alpnProtocols m) (scts m) (supportedVersions m) (cookie m) (keyShares
  m) (earlyData m) (pskModes m) (pskIdentities m) (pskBinders m) (quicTransportParameters m)
  (encryptedClientHello m) (extensions m).
Definition set_sessionTicket (x : bytes) (m : t) : t := mk (original m) (vers m) (random m)
  (sessionId m) (cipherSuites m) (compressionMethods m) (serverName m) (ocspStapling m)
  (supportedCurves m) (supportedPoints m) (ticketSupported m) x (supportedSignatureAlgorithms m)
  (supportedSignatureAlgorithmsCert m) (secureRenegotiationSupported m) (secureRenegotiation m)
  (extendedMasterSecret m) (alpnProtocols m) (scts m) (supportedVersions m) (cookie m) (keyShares
  m) (earlyData m) (pskModes m) (pskIdentities m) (pskBinders m) (quicTransportParameters m)
  (encryptedClientHello m) (extensions m).
Definition set_supportedSignatureAlgorithms (x : list Z) (m : t) : t := mk (original m) (vers m)
  (random m) (sessionId m) (cipherSuites m) (compressionMethods m) (serverName m) (ocspStapling m)
  (supportedCurves m) (supportedPoints m) (ticketSupported m) (sessionTicket m) x
  (supportedSignatureAlgorithmsCert m) (secureRenegotiationSupported m) (secureRenegotiation m)
  (extendedMasterSecret m) (alpnProtocols m) (scts m) (supportedVersions m) (cookie m) (keyShares
  m) (earlyData m) (pskModes m) (pskIdentities m) (pskBinders m) (quicTransportParameters m)
  (encryptedClientHello m) (extensions m).
Definition set_supportedSignatureAlgorithmsCert (x : list Z) (m : t) : t := mk (original m) (vers
  m) (random m) (sessionId m) (cipherSuites m) (compressionMethods m) (serverName m) (ocspStapling
  m) (supportedCurves m) (supportedPoints m) (ticketSupported m) (sessionTicket m)
  (supportedSignatureAlgorithms m) x (secureRenegotiationSupported m) (secureRenegotiation m)
  (extendedMasterSecret m) (alpnProtocols m) (scts m) (supportedVersions m) (cookie m) (keyShares
  m) (earlyData m) (pskModes m) (pskIdentities m) (pskBinders m) (quicTransportParameters m)
  (encryptedClientHello m) (extensions m).
Definition set_secureRenegotiationSupported (x : bool) (m : t) : t := mk (original m) (vers m)
  (random m) (sessionId m) (cipherSuites m) (compressionMethods m) (serverName m) (ocspStapling m)
  (supportedCurves m) (supportedPoints m) (ticketSupported m) (sessionTicket m)
  (supportedSignatureAlgorithms m) (supportedSignatureAlgorithmsCert m) x (secureRenegotiation m)
  (extendedMasterSecret m) (alpnProtocols m) (scts m) (supportedVersions m) (cookie m) (keyShares
  m) (earlyData m) (pskModes m) (pskIdentities m) (pskBinders m) (quicTransportParameters m)
  (encryptedClientHello m) (extensions m).
Definition set_secureRenegotiation (x : bytes) (m : t) : t := mk (original m) (vers m) (random m)
  (sessionId m) (cipherSuites m) (compressionMethods m) (serverName m) (ocspStapling m)
  (supportedCurves m) (supportedPoints m) (ticketSupported m) (sessionTicket m)
  (supportedSignatureAlgorithms m) (supportedSignatureAlgorithmsCert m)
  (secureRenegotiationSupported m) x (extendedMasterSecret m) (alpnProtocols m) (scts m)
  (supportedVersions m) (cookie m) (keyShares m) (earlyData m) (pskModes m) (pskIdentities m)
  (pskBinders m) (quicTransportParameters m) (encryptedClientHello m) (extensions m).
Definition set_extendedMasterSecret (x : bool) (m : t) : t := mk (original m) (vers m) (random m)
  (sessionId m) (cipherSuites m) (compressionMethods m) (serverName m) (ocspStapling m)
  (supportedCurves m) (supportedPoints m) (ticketSupported m) (sessionTicket m)
  (supportedSignatureAlgorithms m) (supportedSignatureAlgorithmsCert m)
  (secureRenegotiationSupported m) (secureRenegotiation m) x (alpnProtocols m) (scts m)
  (supportedVersions m) (cookie m) (keyShares m) (earlyData m) (pskModes m) (pskIdentities m)
  (pskBinders m) (quicTransportParameters m) (encryptedClientHello m) (extensions m).
Definition set_alpnProtocols (x : list bytes) (m : t) : t := mk (original m) (vers m) (random m)
  (sessionId m) (cipherSuites m) (compressionMethods m) (serverName m) (ocspStapling m)
  (supportedCurves m) (supportedPoints m) (ticketSupported m) (sessionTicket m)
  (supportedSignatureAlgorithms m) (supportedSignatureAlgorithmsCert m)
  (secureRenegotiationSupported m) (secureRenegotiation m) (extendedMasterSecret m) x (scts m)
  (supportedVersions m) (cookie m) (keyShares m) (earlyData m) (pskModes m) (pskIdentities m)
  (pskBinders m) (quicTransportParameters m) (encryptedClientHello m) (extensions m).
Definition set_scts (x : bool) (m : t) : t := mk (original m) (vers m) (random m) (sessionId m)
  (cipherSuites m) (compressionMethods m) (serverName m) (ocspStapling m) (supportedCurves m)
  (supportedPoints m) (ticketSupported m) (sessionTicket m) (supportedSignatureAlgorithms m)
  (supportedSignatureAlgorithmsCert m) (secureRenegotiationSupported m) (secureRenegotiation m)
  (extendedMasterSecret m) (alpnProtocols m) x (supportedVersions m) (cookie m) (keyShares m)
  (earlyData m) (pskModes m) (pskIdentities m) (pskBinders m) (quicTransportParameters m)
  (encryptedClientHello m) (extensions m).
Definition set_supportedVersions (x : list Z) (m : t) : t := mk (original m) (vers m) (random m)
  (sessionId m) (cipherSuites m) (compressionMethods m) (serverName m) (ocspStapling m)
  (supportedCurves m) (supportedPoints m) (ticketSupported m) (sessionTicket m)
  (supportedSignatureAlgorithms m) (supportedSignatureAlgorithmsCert m)
  (secureRenegotiationSupported m) (secureRenegotiation m) (extendedMasterSecret m) (alpnProtocols
  m) (scts m) x (cookie m) (keyShares m) (earlyData m) (pskModes m) (pskIdentities m) (pskBinders
  m) (quicTransportParameters m) (encryptedClientHello m) (extensions m).
Definition set_cookie (x : bytes) (m : t) : t := mk (original m) (vers m) (random m) (sessionId m)
  (cipherSuites m) (compressionMethods m) (serverName m) (ocspStapling m) (supportedCurves m)
  (supportedPoints m) (ticketSupported m) (sessionTicket m) (supportedSignatureAlgorithms m)
  (supportedSignatureAlgorithmsCert m) (secureRenegotiationSupported m) (secureRenegotiation m)
  (extendedMasterSecret m) (alpnProtocols m) (scts m) (supportedVersions m) x (keyShares m)
  (earlyData m) (pskModes m) (pskIdentities m) (pskBinders m) (quicTransportParameters m)
  (encryptedClientHello m) (extensions m).
Definition set_keyShares (x : list keyShare) (m : t) : t := mk (original m) (vers m) (random m)
  (sessionId m) (cipherSuites m) (compressionMethods m) (serverName m) (ocspStapling m)
  (supportedCurves m) (supportedPoints m) (ticketSupported m) (sessionTicket m)
  (supportedSignatureAlgorithms m) (supportedSignatureAlgorithmsCert m)
  (secureRenegotiationSupported m) (secureRenegotiation m) (extendedMasterSecret m) (alpnProtocols
  m) (scts m) (supportedVersions m) (cookie m) x (earlyData m) (pskModes m) (pskIdentities m)
  (pskBinders m) (quicTransportParameters m) (encryptedClientHello m) (extensions m).
Definition set_earlyData (x : bool) (m : t) : t := mk (original m) (vers m) (random m) (sessionId
  m) (cipherSuites m) (compressionMethods m) (serverName m) (ocspStapling m) (supportedCurves m)
  (supportedPoints m) (ticketSupported m) (sessionTicket m) (supportedSignatureAlgorithms m)
  (supportedSignatureAlgorithmsCert m) (secureRenegotiationSupported m) (secureRenegotiation m)
  (extendedMasterSecret m) (alpnProtocols m) (scts m) (supportedVersions m) (cookie m) (keyShares
  m) x (pskModes m) (pskIdentities m) (pskBinders m) (quicTransportParameters m)
  (encryptedClientHello m) (extensions m).
Definition set_pskModes (x : bytes) (m : t) : t := mk (original m) (vers m) (random m) (sessionId
  m) (cipherSuites m) (compressionMethods m) (serverName m) (ocspStapling m) (supportedCurves m)
  (supportedPoints m) (ticketSupported m) (sessionTicket m) (supportedSignatureAlgorithms m)
  (supportedSignatureAlgorithmsCert m) (secureRenegotiationSupported m) (secureRenegotiation m)
  (extendedMasterSecret m) (alpnProtocols m) (scts m) (supportedVersions m) (cookie m) (keyShares
  m) (earlyData m) x (pskIdentities m) (pskBinders m) (quicTransportParameters m)
  (encryptedClientHello m) (extensions m).
Definition set_pskIdentities (x : list pskIdentity) (m : t) : t := mk (original m) (vers m)
  (random m) (sessionId m) (cipherSuites m) (compressionMethods m) (serverName m) (ocspStapling m)
  (supportedCurves m) (supportedPoints m) (ticketSupported m) (sessionTicket m)
  (supportedSignatureAlgorithms m) (supportedSignatureAlgorithmsCert m)
  (secureRenegotiationSupported m) (secureRenegotiation m) (extendedMasterSecret m) (alpnProtocols
  m) (scts m) (supportedVersions m) (cookie m) (keyShares m) (earlyData m) (pskModes m) x
  (pskBinders m) (quicTransportParameters m) (encryptedClientHello m) (extensions m).
Definition set_pskBinders (x : list bytes) (m : t) : t := mk (original m) (vers m) (random m)
  (sessionId m) (cipherSuites m) (compressionMethods m) (serverName m) (ocspStapling m)
  (supportedCurves m) (supportedPoints m) (ticketSupported m) (sessionTicket m)
  (supportedSignatureAlgorithms m) (supportedSignatureAlgorithmsCert m)
  (secureRenegotiationSupported m) (secureRenegotiation m) (extendedMasterSecret m) (alpnProtocols
  m) (scts m) (supportedVersions m) (cookie m) (keyShares m) (earlyData m) (pskModes m)
  (pskIdentities m) x (quicTransportParameters m) (encryptedClientHello m) (extensions m).
Definition set_quicTransportParameters (x : option bytes) (m : t) : t := mk (original m) (vers m)
  (random m) (sessionId m) (cipherSuites m) (compressionMethods m) (serverName m) (ocspStapling m)
  (supportedCurves m) (supportedPoints m) (ticketSupported m) (sessionTicket m)
  (supportedSignatureAlgorithms m) (supportedSignatureAlgorithmsCert m)
  (secureRenegotiationSupported m) (secureRenegotiation m) (extendedMasterSecret m) (alpnProtocols
  m) (scts m) (supportedVersions m) (cookie m) (keyShares m) (earlyData m) (pskModes m)
  (pskIdentities m) (pskBinders m) x (encryptedClientHello m) (extensions m).
Definition set_encryptedClientHello (x : bytes) (m : t) : t := mk (original m) (vers m) (random m)
  (sessionId m) (cipherSuites m) (compressionMethods m) (serverName m) (ocspStapling m)
  (supportedCurves m) (supportedPoints m) (ticketSupported m) (sessionTicket m)
  (supportedSignatureAlgorithms m) (supportedSignatureAlgorithmsCert m)
  (secureRenegotiationSupported m) (secureRenegotiation m) (extendedMasterSecret m) (alpnProtocols
  m) (scts m) (supportedVersions m) (cookie m) (keyShares m) (earlyData m) (pskModes m)
  (pskIdentities m) (pskBinders m) (quicTransportParameters m) x (extensions m).
Definition set_extensions (x : list Z) (m : t) : t := mk (original m) (vers m) (random m)
  (sessionId m) (cipherSuites m) (compressionMethods m) (serverName m) (ocspStapling m)
  (supportedCurves m) (supportedPoints m) (ticketSupported m) (sessionTicket m)
  (supportedSignatureAlgorithms m) (supportedSignatureAlgorithmsCert m)
  (secureRenegotiationSupported m) (secureRenegotiation m) (extendedMasterSecret m) (alpnProtocols
  m) (scts m) (supportedVersions m) (cookie m) (keyShares m) (earlyData m) (pskModes m)
  (pskIdentities m) (pskBinders m) (quicTransportParameters m) (encryptedClientHello m) x.

Definition zero : t := mk None 0 [] [] [] [] [] false [] [] false [] [] [] false [] false [] false [] [] [] false [] [] [] None [] [].

Section ops.
Context `{CryptoString}.

(** ** Unmarshaling *)

(** [m.serverName] of the name list: one host name, without a trailing dot. *)
Definition dot : Z := 46.
Definition HasSuffix_dot (name : bytes) : bool := match last name with Some c => c =? dot | None => false end.
Definition read_name (nameList : bytes) (serverName : bytes) : option (bytes * bytes) :=
  let? (nameType, nameList) := ReadUint8 nameList in
  let? (name, nameList) := nonempty (ReadUint16LengthPrefixed nameList) in
  if negb (nameType =? 0) then Some (serverName, nameList)
  else if negb (length serverName =? 0)%nat then None
  else if HasSuffix_dot name then None
  else Some (name, nameList).

Definition read_keyShare (s : bytes) : option (keyShare * bytes) :=
  let? (group, s) := ReadUint16 s in
  let? (data, s) := nonempty (readUint16LengthPrefixed s) in
  Some (mkKeyShare group data, s).

Definition read_pskIdentity (s : bytes) : option (pskIdentity * bytes) :=
  let? (label, s) := readUint16LengthPrefixed s in
  let? (age, s) := ReadUint32 s in
  if Empty label then None else Some (mkPskIdentity label age, s).

(** The switch of [unmarshal]; [rest] is what follows the extension. *)
Definition ext_handler (extension : Z) (extData rest : bytes) (m : t) : option (t * bytes) :=
  let m := set_extensions (extensions m ++ [extension]) m in
  if extension =? extensionServerName then
    let? (nameList, extData) := nonempty (ReadUint16LengthPrefixed extData) in
    let? name := until_empty read_name nameList (serverName m) in
    Some (set_serverName name m, extData)
  else if extension =? extensionStatusRequest then
    let? (statusType, extData) := ReadUint8 extData in
    let? (_, extData) := ReadUint16LengthPrefixed extData in
    let? (_, extData) := ReadUint16LengthPrefixed extData in
    Some (set_ocspStapling (statusType =? statusTypeOCSP) m, extData)
  else if extension =? extensionSupportedCurves then
    let? (l, extData) := read_uint16_list extData (supportedCurves m) in
    Some (set_supportedCurves l m, extData)
  else if extension =? extensionSupportedPoints then
    let? (points, extData) := nonempty (readUint8LengthPrefixed extData) in
    Some (set_supportedPoints points m, extData)
  else if extension =? extensionSessionTicket then
    let m := set_ticketSupported true m in
    match ReadBytes (length extData) extData with
    | Some (ticket, extData) => Some (set_sessionTicket ticket m, extData)
    | None => Some (m, extData)
    end
  else if extension =? extensionSignatureAlgorithms then
    let? (l, extData) := read_uint16_list extData (supportedSignatureAlgorithms m) in
    Some (set_supportedSignatureAlgorithms l m, extData)
  else if extension =? extensionSignatureAlgorithmsCert then
    let? (l, extData) := read_uint16_list extData (supportedSignatureAlgorithmsCert m) in
    Some (set_supportedSignatureAlgorithmsCert l m, extData)
  else if extension =? extensionRenegotiationInfo then
    let? (info, extData) := readUint8LengthPrefixed extData in
    Some (set_secureRenegotiationSupported true (set_secureRenegotiation info m), extData)
  else if extension =? extensionExtendedMasterSecret then
    Some (set_extendedMasterSecret true m, extData)
  else if extension =? extensionALPN then
    let? (protoList, extData) := nonempty (ReadUint16LengthPrefixed extData) in
    let? l := readProtos protoList (alpnProtocols m) in
    Some (set_alpnProtocols l m, extData)
  else if extension =? extensionSCT then Some (set_scts true m, extData)
  else if extension =? extensionSupportedVersions then
    let? (versList, extData) := nonempty (ReadUint8LengthPrefixed extData) in
    let? l := readUint16s versList (supportedVersions m) in
    Some (set_supportedVersions l m, extData)
  else if extension =? extensionCookie then
    let? (cookie, extData) := nonempty (readUint16LengthPrefixed extData) in
    Some (set_cookie cookie m, extData)
  else if extension =? extensionKeyShare then
    let? (clientShares, extData) := ReadUint16LengthPrefixed extData in
    let? l := read_list read_keyShare clientShares (keyShares m) in
    Some (set_keyShares l m, extData)
  else if extension =? extensionEarlyData then Some (set_earlyData true m, extData)
  else if extension =? extensionPSKModes then
    let? (modes, extData) := readUint8LengthPrefixed extData in
    Some (set_pskModes modes m, extData)
  else if extension =? extensionQUICTransportParameters then
    let? (params, extData) := CopyBytes (length extData) extData in
    Some (set_quicTransportParameters (Some params) m, extData)
  else if extension =? extensionPreSharedKey then
    if negb (Empty rest) then None else
    let? (identities, extData) := nonempty (ReadUint16LengthPrefixed extData) in
    let? ids := read_list read_pskIdentity identities (pskIdentities m) in
    let? (binders, extData) := nonempty (ReadUint16LengthPrefixed extData) in
    let? bs := readProtos binders (pskBinders m) in
    Some (set_pskBinders bs (set_pskIdentities ids m), extData)
  else if extension =? extensionEncryptedClientHello then
    let? (ech, extData) := ReadBytes (length extData) extData in
    Some (set_encryptedClientHello ech m, extData)
  else continue m.

Definition read_suite (s : bytes) (acc : list Z * bool) : option ((list Z * bool) * bytes) :=
  let '(suites, scsv) := acc in
  let? (suite, s) := ReadUint16 s in
  Some ((suites ++ [suite], scsv || (suite =? scsvRenegotiation)), s).

Definition unmarshal (data : bytes) : option t :=
  let? s := Skip 4 data in
  let? (vers, s) := ReadUint16 s in
  let? (random, s) := ReadBytes 32 s in
  let? (sessionId, s) := readUint8LengthPrefixed s in
  let? (suites, s) := ReadUint16LengthPrefixed s in
  let? (cipherSuites, scsv) := until_empty read_suite suites ([], false) in
  let? (compressionMethods, s) := readUint8LengthPrefixed s in
  let m := set_compressionMethods compressionMethods (set_secureRenegotiationSupported scsv
    (set_cipherSuites cipherSuites (set_sessionId sessionId (set_random random (set_vers vers
    (set_original (Some data) zero)))))) in
  if Empty s then Some m else
  let? (exts, s) := ReadUint16LengthPrefixed s in
  if negb (Empty s) then None else read_exts true ext_handler exts m.

(** ** Marshaling *)

Context (B : Type) `{Builder B}.
Abbreviation stmt := (B -> B).

(** The extensions that ECH's inner hello refers to instead of repeating them. *)
Definition compressible (m : t) : list (Z * bool * stmt) := [
  (extensionStatusRequest, ocspStapling m, AddUint8 1 ;> AddUint16 0 ;> AddUint16 0);
  (extensionSupportedCurves, nonempty_list (supportedCurves m),
    AddUint16LengthPrefixed (addUint16s (supportedCurves m)));
  (extensionSignatureAlgorithms, nonempty_list (supportedSignatureAlgorithms m),
    AddUint16LengthPrefixed (addUint16s (supportedSignatureAlgorithms m)));
  (extensionSignatureAlgorithmsCert, nonempty_list (supportedSignatureAlgorithmsCert m),
    AddUint16LengthPrefixed (addUint16s (supportedSignatureAlgorithmsCert m)));
  (extensionALPN, nonempty_list (alpnProtocols m),
    AddUint16LengthPrefixed (addUint8LengthPrefixeds (alpnProtocols m)));
  (extensionSupportedVersions, nonempty_list (supportedVersions m),
    AddUint8LengthPrefixed (addUint16s (supportedVersions m)));
  (extensionCookie, nonempty_list (cookie m), AddUint16LengthPrefixed (AddBytes (cookie m)));
  (extensionKeyShare, nonempty_list (keyShares m),
    AddUint16LengthPrefixed (for_each (fun ks =>
      AddUint16 (group ks) ;> AddUint16LengthPrefixed (AddBytes (ks_data ks))) (keyShares m)));
  (extensionPSKModes, nonempty_list (pskModes m), AddUint8LengthPrefixed (AddBytes (pskModes m)))
].

Definition echOuterExts (m : t) : list Z := (fun e => fst (fst e)) <$> filter (fun e => snd (fst e) = true) (compressible m).

Definition marshal_exts (echInner : bool) (m : t) : stmt :=
  when (nonempty_list (serverName m))
    (ext extensionServerName (AddUint16LengthPrefixed
      (AddUint8 0 ;> AddUint16LengthPrefixed (AddBytes (serverName m))))) ;>
  when (nonempty_list (supportedPoints m) && negb echInner)
    (ext extensionSupportedPoints (AddUint8LengthPrefixed (AddBytes (supportedPoints m)))) ;>
  when (ticketSupported m && negb echInner)
    (ext extensionSessionTicket (AddBytes (sessionTicket m))) ;>
  when (secureRenegotiationSupported m && negb echInner)
    (ext extensionRenegotiationInfo (AddUint8LengthPrefixed (AddBytes (secureRenegotiation m)))) ;>
  when (extendedMasterSecret m && negb echInner) (ext0 extensionExtendedMasterSecret) ;>
  when (scts m) (ext0 extensionSCT) ;>
  when (earlyData m) (ext0 extensionEarlyData) ;>
  when (match quicTransportParameters m with Some _ => true | None => false end)
    (ext extensionQUICTransportParameters (AddBytes (default [] (quicTransportParameters m)))) ;>
  when (nonempty_list (encryptedClientHello m))
    (ext extensionEncryptedClientHello (AddBytes (encryptedClientHello m))) ;>
  for_each (fun '(typ, present, body) => when (present && negb echInner) (ext typ body)) (compressible m) ;>
  when (nonempty_list (echOuterExts m) && echInner)
    (ext extensionECHOuterExtensions (AddUint8LengthPrefixed (addUint16s (echOuterExts m)))) ;>
  when (nonempty_list (pskIdentities m))
    (ext extensionPreSharedKey
      (AddUint16LengthPrefixed (for_each (fun psk =>
         AddUint16LengthPrefixed (AddBytes (label psk)) ;> AddUint32 (obfuscatedTicketAge psk))
         (pskIdentities m)) ;>
       AddUint16LengthPrefixed (addUint8LengthPrefixeds (pskBinders m)))).

Definition marshalMsg (echInner : bool) (m : t) : outcome conn_error bytes :=
  let! extBytes := Bytes (marshal_exts echInner m NewBuilder) in
  Bytes ((AddUint8 typeClientHello ;>
    AddUint24LengthPrefixed (
      AddUint16 (vers m) ;>
      addBytesWithLength (random m) 32 ;>
      AddUint8LengthPrefixed (when (negb echInner) (AddBytes (sessionId m))) ;>
      AddUint16LengthPrefixed (addUint16s (cipherSuites m)) ;>
      AddUint8LengthPrefixed (AddBytes (compressionMethods m)) ;>
      when (nonempty_list extBytes) (AddUint16LengthPrefixed (AddBytes extBytes)))) NewBuilder).

Definition marshal (m : t) : outcome conn_error bytes := marshalMsg false m.

(** [marshalWithoutBinders] cuts the binders off; a negative length panics. *)
Definition bindersLen (m : t) : nat :=
  fold_left (fun n (binder : bytes) => (n + 1 + length binder)%nat) (pskBinders m) 2%nat.
Definition marshalWithoutBinders (m : t) : outcome conn_error bytes :=
  let! fullMessage := match original m with Some o => Ret o | None => marshal m end in
  if (length fullMessage <? bindersLen m)%nat then Panic index_out_of_range
  else Ret (take (length fullMessage - bindersLen m) fullMessage).

Definition updateBinders (binders : list bytes) (m : t) : outcome conn_error t :=
  if negb (length binders =? length (pskBinders m))%nat
     || existsb (fun p => negb (length (fst p : bytes) =? length (snd p : bytes))%nat) (zip binders (pskBinders m))
  then Err (EText "tls: internal error: pskBinders length mismatch")
  else Ret (set_pskBinders binders m).

Definition originalBytes (m : t) : option bytes := original m.

(** [clone] copies the slices; it leaves [extensions] out. *)
Definition clone (m : t) : t := set_extensions [] m.
End ops.
End clientHelloMsg.

(** ** ServerHello *)

Module serverHelloMsg.
Record t := mk {
  original : option bytes;
  vers : Z;
  random : bytes;
  sessionId : bytes;
  cipherSuite : Z;
  compressionMethod : Z;
  ocspStapling : bool;
  ticketSupported : bool;
  secureRenegotiationSupported : bool;
  secureRenegotiation : bytes;
  extendedMasterSecret : bool;
  alpnProtocol : bytes;
  scts : list bytes;
  supportedVersion : Z;
  serverShare : keyShare;
  selectedIdentityPresent : bool;
  selectedIdentity : Z;
  supportedPoints : bytes;
  encryptedClientHello : option bytes;
  serverNameAck : bool;
  cookie : bytes;
  selectedGroup : Z
}.

(** Field updates. *)
Definition set_original (x : option bytes) (m : t) : t := mk x (vers m) (random m) (sessionId m)
  (cipherSuite m) (compressionMethod m) (ocspStapling m) (ticketSupported m)
  (secureRenegotiationSupported m) (secureRenegotiation m) (extendedMasterSecret m) (alpnProtocol
  m) (scts m) (supportedVersion m) (serverShare m) (selectedIdentityPresent m) (selectedIdentity
  m) (supportedPoints m) (encryptedClientHello m) (serverNameAck m) (cookie m) (selectedGroup m).
Definition set_vers (x : Z) (m : t) : t := mk (original m) x (random m) (sessionId m) (cipherSuite
  m) (compressionMethod m) (ocspStapling m) (ticketSupported m) (secureRenegotiationSupported m)
  (secureRenegotiation m) (extendedMasterSecret m) (alpnProtocol m) (scts m) (supportedVersion m)
  (serverShare m) (selectedIdentityPresent m) (selectedIdentity m) (supportedPoints m)
  (encryptedClientHello m) (serverNameAck m) (cookie m) (selectedGroup m).
Definition set_random (x : bytes) (m : t) : t := mk (original m) (vers m) x (sessionId m)
  (cipherSuite m) (compressionMethod m) (ocspStapling m) (ticketSupported m)
  (secureRenegotiationSupported m) (secureRenegotiation m) (extendedMasterSecret m) (alpnProtocol
  m) (scts m) (supportedVersion m) (serverShare m) (selectedIdentityPresent m) (selectedIdentity
  m) (supportedPoints m) (encryptedClientHello m) (serverNameAck m) (cookie m) (selectedGroup m).
Definition set_sessionId (x : bytes) (m : t) : t := mk (original m) (vers m) (random m) x
  (cipherSuite m) (compressionMethod m) (ocspStapling m) (ticketSupported m)
  (secureRenegotiationSupported m) (secureRenegotiation m) (extendedMasterSecret m) (alpnProtocol
  m) (scts m) (supportedVersion m) (serverShare m) (selectedIdentityPresent m) (selectedIdentity
  m) (supportedPoints m) (encryptedClientHello m) (serverNameAck m) (cookie m) (selectedGroup m).
Definition set_cipherSuite (x : Z) (m : t) : t := mk (original m) (vers m) (random m) (sessionId
  m) x (compressionMethod m) (ocspStapling m) (ticketSupported m) (secureRenegotiationSupported m)
  (secureRenegotiation m) (extendedMasterSecret m) (alpnProtocol m) (scts m) (supportedVersion m)
  (serverShare m) (selectedIdentityPresent m) (selectedIdentity m) (supportedPoints m)
  (encryptedClientHello m) (serverNameAck m) (cookie m) (selectedGroup m).
Definition set_compressionMethod (x : Z) (m : t) : t := mk (original m) (vers m) (random m)
  (sessionId m) (cipherSuite m) x (ocspStapling m) (ticketSupported m)
  (secureRenegotiationSupported m) (secureRenegotiation m) (extendedMasterSecret m) (alpnProtocol
  m) (scts m) (supportedVersion m) (serverShare m) (selectedIdentityPresent m) (selectedIdentity
  m) (supportedPoints m) (encryptedClientHello m) (serverNameAck m) (cookie m) (selectedGroup m).
Definition set_ocspStapling (x : bool) (m : t) : t := mk (original m) (vers m) (random m)
  (sessionId m) (cipherSuite m) (compressionMethod m) x (ticketSupported m)
  (secureRenegotiationSupported m) (secureRenegotiation m) (extendedMasterSecret m) (alpnProtocol
  m) (scts m) (supportedVersion m) (serverShare m) (selectedIdentityPresent m) (selectedIdentity
  m) (supportedPoints m) (encryptedClientHello m) (serverNameAck m) (cookie m) (selectedGroup m).
Definition set_ticketSupported (x : bool) (m : t) : t := mk (original m) (vers m) (random m)
  (sessionId m) (cipherSuite m) (compressionMethod m) (ocspStapling m) x
  (secureRenegotiationSupported m) (secureRenegotiation m) (extendedMasterSecret m) (alpnProtocol
  m) (scts m) (supportedVersion m) (serverShare m) (selectedIdentityPresent m) (selectedIdentity
  m) (supportedPoints m) (encryptedClientHello m) (serverNameAck m) (cookie m) (selectedGroup m).
Definition set_secureRenegotiationSupported (x : bool) (m : t) : t := mk (original m) (vers m)
  (random m) (sessionId m) (cipherSuite m) (compressionMethod m) (ocspStapling m) (ticketSupported
  m) x (secureRenegotiation m) (extendedMasterSecret m) (alpnProtocol m) (scts m)
  (supportedVersion m) (serverShare m) (selectedIdentityPresent m) (selectedIdentity m)
  (supportedPoints m) (encryptedClientHello m) (serverNameAck m) (cookie m) (selectedGroup m).
Definition set_secureRenegotiation (x : bytes) (m : t) : t := mk (original m) (vers m) (random m)
  (sessionId m) (cipherSuite m) (compressionMethod m) (ocspStapling m) (ticketSupported m)
  (secureRenegotiationSupported m) x (extendedMasterSecret m) (alpnProtocol m) (scts m)
  (supportedVersion m) (serverShare m) (selectedIdentityPresent m) (selectedIdentity m)
  (supportedPoints m) (encryptedClientHello m) (serverNameAck m) (cookie m) (selectedGroup m).
Definition set_extendedMasterSecret (x : bool) (m : t) : t := mk (original m) (vers m) (random m)
  (sessionId m) (cipherSuite m) (compressionMethod m) (ocspStapling m) (ticketSupported m)
  (secureRenegotiationSupported m) (secureRenegotiation m) x (alpnProtocol m) (scts m)
  (supportedVersion m) (serverShare m) (selectedIdentityPresent m) (selectedIdentity m)
  (supportedPoints m) (encryptedClientHello m) (serverNameAck m) (cookie m) (selectedGroup m).
Definition set_alpnProtocol (x : bytes) (m : t) : t := mk (original m) (vers m) (random m)
  (sessionId m) (cipherSuite m) (compressionMethod m) (ocspStapling m) (ticketSupported m)
  (secureRenegotiationSupported m) (secureRenegotiation m) (extendedMasterSecret m) x (scts m)
  (supportedVersion m) (serverShare m) (selectedIdentityPresent m) (selectedIdentity m)
  (supportedPoints m) (encryptedClientHello m) (serverNameAck m) (cookie m) (selectedGroup m).
Definition set_scts (x : list bytes) (m : t) : t := mk (original m) (vers m) (random m) (sessionId
  m) (cipherSuite m) (compressionMethod m) (ocspStapling m) (ticketSupported m)
  (secureRenegotiationSupported m) (secureRenegotiation m) (extendedMasterSecret m) (alpnProtocol
  m) x (supportedVersion m) (serverShare m) (selectedIdentityPresent m) (selectedIdentity m)
  (supportedPoints m) (encryptedClientHello m) (serverNameAck m) (cookie m) (selectedGroup m).
Definition set_supportedVersion (x : Z) (m : t) : t := mk (original m) (vers m) (random m)
  (sessionId m) (cipherSuite m) (compressionMethod m) (ocspStapling m) (ticketSupported m)
  (secureRenegotiationSupported m) (secureRenegotiation m) (extendedMasterSecret m) (alpnProtocol
  m) (scts m) x (serverShare m) (selectedIdentityPresent m) (selectedIdentity m) (supportedPoints
  m) (encryptedClientHello m) (serverNameAck m) (cookie m) (selectedGroup m).
Definition set_serverShare (x : keyShare) (m : t) : t := mk (original m) (vers m) (random m)
  (sessionId m) (cipherSuite m) (compressionMethod m) (ocspStapling m) (ticketSupported m)
  (secureRenegotiationSupported m) (secureRenegotiation m) (extendedMasterSecret m) (alpnProtocol
  m) (scts m) (supportedVersion m) x (selectedIdentityPresent m) (selectedIdentity m)
  (supportedPoints m) (encryptedClientHello m) (serverNameAck m) (cookie m) (selectedGroup m).
Definition set_selectedIdentityPresent (x : bool) (m : t) : t := mk (original m) (vers m) (random
  m) (sessionId m) (cipherSuite m) (compressionMethod m) (ocspStapling m) (ticketSupported m)
  (secureRenegotiationSupported m) (secureRenegotiation m) (extendedMasterSecret m) (alpnProtocol
  m) (scts m) (supportedVersion m) (serverShare m) x (selectedIdentity m) (supportedPoints m)
  (encryptedClientHello m) (serverNameAck m) (cookie m) (selectedGroup m).
Definition set_selectedIdentity (x : Z) (m : t) : t := mk (original m) (vers m) (random m)
  (sessionId m) (cipherSuite m) (compressionMethod m) (ocspStapling m) (ticketSupported m)
  (secureRenegotiationSupported m) (secureRenegotiation m) (extendedMasterSecret m) (alpnProtocol
  m) (scts m) (supportedVersion m) (serverShare m) (selectedIdentityPresent m) x (supportedPoints
  m) (encryptedClientHello m) (serverNameAck m) (cookie m) (selectedGroup m).
Definition set_supportedPoints (x : bytes) (m : t) : t := mk (original m) (vers m) (random m)
  (sessionId m) (cipherSuite m) (compressionMethod m) (ocspStapling m) (ticketSupported m)
  (secureRenegotiationSupported m) (secureRenegotiation m) (extendedMasterSecret m) (alpnProtocol
  m) (scts m) (supportedVersion m) (serverShare m) (selectedIdentityPresent m) (selectedIdentity
  m) x (encryptedClientHello m) (serverNameAck m) (cookie m) (selectedGroup m).
Definition set_encryptedClientHello (x : option bytes) (m : t) : t := mk (original m) (vers m) (random m)
  (sessionId m) (cipherSuite m) (compressionMethod m) (ocspStapling m) (ticketSupported m)
  (secureRenegotiationSupported m) (secureRenegotiation m) (extendedMasterSecret m) (alpnProtocol
  m) (scts m) (supportedVersion m) (serverShare m) (selectedIdentityPresent m) (selectedIdentity
  m) (supportedPoints m) x (serverNameAck m) (cookie m) (selectedGroup m).
Definition set_serverNameAck (x : bool) (m : t) : t := mk (original m) (vers m) (random m)
  (sessionId m) (cipherSuite m) (compressionMethod m) (ocspStapling m) (ticketSupported m)
  (secureRenegotiationSupported m) (secureRenegotiation m) (extendedMasterSecret m) (alpnProtocol
  m) (scts m) (supportedVersion m) (serverShare m) (selectedIdentityPresent m) (selectedIdentity
  m) (supportedPoints m) (encryptedClientHello m) x (cookie m) (selectedGroup m).
Definition set_cookie (x : bytes) (m : t) : t := mk (original m) (vers m) (random m) (sessionId m)
  (cipherSuite m) (compressionMethod m) (ocspStapling m) (ticketSupported m)
  (secureRenegotiationSupported m) (secureRenegotiation m) (extendedMasterSecret m) (alpnProtocol
  m) (scts m) (supportedVersion m) (serverShare m) (selectedIdentityPresent m) (selectedIdentity
  m) (supportedPoints m) (encryptedClientHello m) (serverNameAck m) x (selectedGroup m).
Definition set_selectedGroup (x : Z) (m : t) : t := mk (original m) (vers m) (random m) (sessionId
  m) (cipherSuite m) (compressionMethod m) (ocspStapling m) (ticketSupported m)
  (secureRenegotiationSupported m) (secureRenegotiation m) (extendedMasterSecret m) (alpnProtocol
  m) (scts m) (supportedVersion m) (serverShare m) (selectedIdentityPresent m) (selectedIdentity
  m) (supportedPoints m) (encryptedClientHello m) (serverNameAck m) (cookie m) x.

Definition zero : t := mk None 0 [] [] 0 0 false false false [] false [] [] 0 (mkKeyShare 0 []) false 0 [] None false [] 0.

Section ops.
Context `{CryptoString}.

(** ** Unmarshaling *)

Definition ext_handler (extension : Z) (extData rest : bytes) (m : t) : option (t * bytes) :=
  if extension =? extensionStatusRequest then Some (set_ocspStapling true m, extData)
  else if extension =? extensionSessionTicket then Some (set_ticketSupported true m, extData)
  else if extension =? extensionRenegotiationInfo then
    let? (info, extData) := readUint8LengthPrefixed extData in
    Some (set_secureRenegotiationSupported true (set_secureRenegotiation info m), extData)
  else if extension =? extensionExtendedMasterSecret then
    Some (set_extendedMasterSecret true m, extData)
  else if extension =? extensionALPN then
    let? (proto, extData) := read_alpn extData in Some (set_alpnProtocol proto m, extData)
  else if extension =? extensionSCT then
    let? (sctList, extData) := nonempty (ReadUint16LengthPrefixed extData) in
    let? l := readScts sctList (scts m) in Some (set_scts l m, extData)
  else if extension =? extensionSupportedVersions then
    let? (v, extData) := ReadUint16 extData in Some (set_supportedVersion v m, extData)
  else if extension =? extensionCookie then
    let? (cookie, extData) := nonempty (readUint16LengthPrefixed extData) in
    Some (set_cookie cookie m, extData)
  else if extension =? extensionKeyShare then
    if (length extData =? 2)%nat then
      let? (g, extData) := ReadUint16 extData in Some (set_selectedGroup g m, extData)
    else
      let? (g, extData) := ReadUint16 extData in
      let? (data, extData) := readUint16LengthPrefixed extData in
      Some (set_serverShare (mkKeyShare g data) m, extData)
  else if extension =? extensionPreSharedKey then
    let? (id, extData) := ReadUint16 extData in
    Some (set_selectedIdentity id (set_selectedIdentityPresent true m), extData)
  else if extension =? extensionSupportedPoints then
    let? (points, extData) := nonempty (readUint8LengthPrefixed extData) in
    Some (set_supportedPoints points m, extData)
  else if extension =? extensionEncryptedClientHello then
    let? (ech, extData) := CopyBytes (length extData) extData in
    Some (set_encryptedClientHello (Some ech) m, extData)
  else if extension =? extensionServerName then
    if negb (length extData =? 0)%nat then None else Some (set_serverNameAck true m, extData)
  else continue m.

Definition unmarshal (data : bytes) : option t :=
  let? s := Skip 4 data in
  let? (vers, s) := ReadUint16 s in
  let? (random, s) := ReadBytes 32 s in
  let? (sessionId, s) := readUint8LengthPrefixed s in
  let? (cipherSuite, s) := ReadUint16 s in
  let? (compressionMethod, s) := ReadUint8 s in
  let m := set_compressionMethod compressionMethod (set_cipherSuite cipherSuite
    (set_sessionId sessionId (set_random random (set_vers vers (set_original (Some data) zero))))) in
  if Empty s then Some m else
  let? (exts, s) := ReadUint16LengthPrefixed s in
  if negb (Empty s) then None else read_exts true ext_handler exts m.

(** ** Marshaling *)

Context (B : Type) `{Builder B}.
Abbreviation stmt := (B -> B).

Definition marshal_exts (m : t) : stmt :=
  when (ocspStapling m) (ext0 extensionStatusRequest) ;>
  when (ticketSupported m) (ext0 extensionSessionTicket) ;>
  when (secureRenegotiationSupported m)
    (ext extensionRenegotiationInfo (AddUint8LengthPrefixed (AddBytes (secureRenegotiation m)))) ;>
  when (extendedMasterSecret m) (ext0 extensionExtendedMasterSecret) ;>
  when (nonempty_list (alpnProtocol m))
    (ext extensionALPN (AddUint16LengthPrefixed (AddUint8LengthPrefixed (AddBytes (alpnProtocol m))))) ;>
  when (nonempty_list (scts m))
    (ext extensionSCT (AddUint16LengthPrefixed (addUint16LengthPrefixeds (scts m)))) ;>
  when (negb (supportedVersion m =? 0))
    (ext extensionSupportedVersions (AddUint16 (supportedVersion m))) ;>
  when (negb (group (serverShare m) =? 0))
    (ext extensionKeyShare (AddUint16 (group (serverShare m)) ;>
      AddUint16LengthPrefixed (AddBytes (ks_data (serverShare m))))) ;>
  when (selectedIdentityPresent m) (ext extensionPreSharedKey (AddUint16 (selectedIdentity m))) ;>
  when (nonempty_list (cookie m))
    (ext extensionCookie (AddUint16LengthPrefixed (AddBytes (cookie m)))) ;>
  when (negb (selectedGroup m =? 0)) (ext extensionKeyShare (AddUint16 (selectedGroup m))) ;>
  when (nonempty_list (supportedPoints m))
    (ext extensionSupportedPoints (AddUint8LengthPrefixed (AddBytes (supportedPoints m)))) ;>
  when (nonempty_list (default [] (encryptedClientHello m)))
    (ext extensionEncryptedClientHello (AddBytes (default [] (encryptedClientHello m)))) ;>
  when (serverNameAck m) (ext0 extensionServerName).

Definition marshal (m : t) : outcome conn_error bytes :=
  let! extBytes := Bytes (marshal_exts m NewBuilder) in
  Bytes ((AddUint8 typeServerHello ;>
    AddUint24LengthPrefixed (
      AddUint16 (vers m) ;>
      addBytesWithLength (random m) 32 ;>
      AddUint8LengthPrefixed (AddBytes (sessionId m)) ;>
      AddUint16 (cipherSuite m) ;>
      AddUint8 (compressionMethod m) ;>
      when (nonempty_list extBytes) (AddUint16LengthPrefixed (AddBytes extBytes)))) NewBuilder).

Definition originalBytes (m : t) : option bytes := original m.
End ops.
End serverHelloMsg.
