(* ===== verification/Messages.v ===== *)
(** * handshake_messages.go: the messages and their wire format, part 2

    All messages but ClientHello and ServerHello ([Hello]), the dispatch of
    [unmarshalHandshakeMessage] (conn.go) and [transcriptMsg].  The parsers
    that index the slice by hand are written with the wrap-around of their
    [uint32] and [uint16] variables. *)

From S2P Require Import Prelude Common HalfConn Cryptobyte Hello.

Open Scope go_scope.

Definition u24_bytes (n : Z) : bytes := [u8 (n ≫ 16); u8 (n ≫ 8); u8 n].
Definition u16_bytes (n : Z) : bytes := [u8 (n ≫ 8); u8 n].
Definition len {T} (l : list T) : Z := Z.of_nat (length l).

(** [d[0]<<16 | d[1]<<8 | d[2]], [d[0]<<8 | d[1]] *)
Definition get24 (d : bytes) (i : nat) : Z :=
  (nth_byte d i ≪ 16) ||| (nth_byte d (i + 1) ≪ 8) ||| nth_byte d (i + 2).
Definition get16 (d : bytes) (i : nat) : Z := (nth_byte d i ≪ 8) ||| nth_byte d (i + 1).

(** ** EncryptedExtensions *)

Module encryptedExtensionsMsg.
Record t := mk {
  alpnProtocol : bytes;
  quicTransportParameters : option bytes;
  earlyData : bool;
  echRetryConfigs : bytes
}.
Definition zero : t := mk [] None false [].

Section ops.
Context `{CryptoString}.

Definition ext_handler (extension : Z) (extData rest : bytes) (m : t) : option (t * bytes) :=
  if extension =? extensionALPN then
    let? (proto, extData) := read_alpn extData in
    Some (mk proto (quicTransportParameters m) (earlyData m) (echRetryConfigs m), extData)
  else if extension =? extensionQUICTransportParameters then
    let? (params, extData) := CopyBytes (length extData) extData in
    Some (mk (alpnProtocol m) (Some params) (earlyData m) (echRetryConfigs m), extData)
  else if extension =? extensionEarlyData then
    Some (mk (alpnProtocol m) (quicTransportParameters m) true (echRetryConfigs m), extData)
  else if extension =? extensionEncryptedClientHello then
    let? (ech, extData) := CopyBytes (length extData) extData in
    Some (mk (alpnProtocol m) (quicTransportParameters m) (earlyData m) ech, extData)
  else continue m.

Definition unmarshal (data : bytes) : option t :=
  let? s := Skip 4 data in
  let? (exts, s) := ReadUint16LengthPrefixed s in
  if negb (Empty s) then None else read_exts false ext_handler exts zero.

Context (B : Type) `{Builder B}.

Definition marshal_exts (m : t) : B -> B :=
  when (nonempty_list (alpnProtocol m))
    (ext extensionALPN (AddUint16LengthPrefixed (AddUint8LengthPrefixed (AddBytes (alpnProtocol m))))) ;>
  when (match quicTransportParameters m with Some _ => true | None => false end)
    (ext extensionQUICTransportParameters (AddBytes (default [] (quicTransportParameters m)))) ;>
  when (earlyData m) (ext0 extensionEarlyData) ;>
  when (nonempty_list (echRetryConfigs m))
    (ext extensionEncryptedClientHello (AddBytes (echRetryConfigs m))).

Definition marshal (m : t) : outcome conn_error bytes :=
  Bytes ((AddUint8 typeEncryptedExtensions ;>
    AddUint24LengthPrefixed (AddUint16LengthPrefixed (marshal_exts m))) NewBuilder).
End ops.
End encryptedExtensionsMsg.

(** ** Messages without content *)

Module endOfEarlyDataMsg.
Definition marshal : bytes := [typeEndOfEarlyData; 0; 0; 0].
Definition unmarshal (data : bytes) : bool := (length data =? 4)%nat.
End endOfEarlyDataMsg.

Module serverHelloDoneMsg.
Definition marshal : bytes := [typeServerHelloDone; 0; 0; 0].
Definition unmarshal (data : bytes) : bool := (length data =? 4)%nat.
End serverHelloDoneMsg.

Module helloRequestMsg.
Definition marshal : bytes := [typeHelloRequest; 0; 0; 0].
Definition unmarshal (data : bytes) : bool := (length data =? 4)%nat.
End helloRequestMsg.

(** ** KeyUpdate *)

Module keyUpdateMsg.
Record t := mk { updateRequested : bool }.
Section ops.
Context `{CryptoString}.

Definition unmarshal (data : bytes) : option t :=
  let? s := Skip 4 data in
  let? (updateRequested, s) := ReadUint8 s in
  if negb (Empty s) then None
  else if updateRequested =? 0 then Some (mk false)
  else if updateRequested =? 1 then Some (mk true)
  else None.

Context (B : Type) `{Builder B}.
Definition marshal (m : t) : outcome conn_error bytes :=
  Bytes ((AddUint8 typeKeyUpdate ;>
    AddUint24LengthPrefixed (AddUint8 (if updateRequested m then 1 else 0))) NewBuilder).
End ops.
End keyUpdateMsg.

(** ** NewSessionTicket *)

Module newSessionTicketMsgTLS13.
Record t := mk {
  lifetime : Z;
  ageAdd : Z;
  nonce : bytes;
  label : bytes;
  maxEarlyData : Z
}.
Section ops.
Context `{CryptoString}.

Definition ext_handler (extension : Z) (extData rest : bytes) (m : t) : option (t * bytes) :=
  if extension =? extensionEarlyData then
    let? (v, extData) := ReadUint32 extData in
    Some (mk (lifetime m) (ageAdd m) (nonce m) (label m) v, extData)
  else continue m.

Definition unmarshal (data : bytes) : option t :=
  let? s := Skip 4 data in
  let? (lifetime, s) := ReadUint32 s in
  let? (ageAdd, s) := ReadUint32 s in
  let? (nonce, s) := readUint8LengthPrefixed s in
  let? (label, s) := readUint16LengthPrefixed s in
  let? (exts, s) := ReadUint16LengthPrefixed s in
  if negb (Empty s) then None
  else read_exts false ext_handler exts (mk lifetime ageAdd nonce label 0).

Context (B : Type) `{Builder B}.
Definition marshal (m : t) : outcome conn_error bytes :=
  Bytes ((AddUint8 typeNewSessionTicket ;>
    AddUint24LengthPrefixed (
      AddUint32 (lifetime m) ;>
      AddUint32 (ageAdd m) ;>
      AddUint8LengthPrefixed (AddBytes (nonce m)) ;>
      AddUint16LengthPrefixed (AddBytes (label m)) ;>
      AddUint16LengthPrefixed (
        when (0 <? maxEarlyData m) (ext extensionEarlyData (AddUint32 (maxEarlyData m)))))) NewBuilder).
End ops.
End newSessionTicketMsgTLS13.

Module newSessionTicketMsg.
Record t := mk { ticket : bytes }.

Definition marshal (m : t) : bytes :=
  let ticketLen := len (ticket m) in
  [typeNewSessionTicket] ++ u24_bytes (2 + 4 + ticketLen) ++ [0; 0; 0; 0] ++ u16_bytes ticketLen ++ ticket m.

Definition unmarshal (data : bytes) : option t :=
  if (length data <? 10)%nat then None else
  if negb (u32 (u32 (len data) - 4) =? get24 data 1) then None else
  let ticketLen := (nth_byte data 8 ≪ 8) + nth_byte data 9 in
  if negb (len data - 10 =? ticketLen) then None else
  Some (mk (drop 10 data)).
End newSessionTicketMsg.

(** ** Certificates *)

(** What the messages use of [Certificate] (common.go). *)
Record Certificate := mkCertificate {
  Certificate_ : list bytes;
  OCSPStaple : option bytes;
  SignedCertificateTimestamps : option (list bytes)
}.

Module certificateMsg.
Record t := mk { certificates : list bytes }.

Definition marshal (m : t) : bytes :=
  let i := fold_left (fun i (slice : bytes) => i + len slice) (certificates m) 0 in
  let length := 3 + 3 * len (certificates m) + i in
  let certificateOctets := length - 3 in
  [typeCertificate] ++ u24_bytes length ++ u24_bytes certificateOctets ++
  concat ((fun slice => u24_bytes (len slice) ++ slice) <$> certificates m).

(** The first loop: the number of certificates. *)
Fixpoint count_certs_fuel (stuck : option nat) (fuel : nat) (certsLen : Z) (d : bytes) (numCerts : nat)
  : option nat :=
  if negb (0 <? certsLen) then Some numCerts else
  match fuel with
  | O => stuck
  | Datatypes.S fuel =>
      if (length d <? 4)%nat then None else
      let certLen := get24 d 0 in
      if u32 (len d) <? u32 (3 + certLen) then None else
      count_certs_fuel stuck fuel (u32 (certsLen - u32 (3 + certLen))) (drop (Z.to_nat (3 + certLen)) d)
        (Datatypes.S numCerts)
  end.
Definition count_certs (certsLen : Z) (d : bytes) : option nat :=
  count_certs_fuel None (Datatypes.S (length d)) certsLen d 0.

(** The second loop: [d[3 : 3+certLen]] [numCerts] times. *)
Fixpoint split_certs (numCerts : nat) (d : bytes) : list bytes :=
  match numCerts with
  | O => []
  | Datatypes.S n =>
      let certLen := Z.to_nat (get24 d 0) in
      take certLen (drop 3 d) :: split_certs n (drop (3 + certLen) d)
  end.

Definition unmarshal (data : bytes) : option t :=
  if (length data <? 7)%nat then None else
  let certsLen := get24 data 4 in
  if negb (u32 (len data) =? u32 (certsLen + 7)) then None else
  let? numCerts := count_certs certsLen (drop 7 data) in
  Some (mk (split_certs numCerts (drop 7 data))).
End certificateMsg.

Module certificateMsgTLS13.
Record t := mk { certificate : Certificate; ocspStapling : bool; scts : bool }.
Section ops.
Context `{CryptoString}.

Definition ext_handler (extension : Z) (extData rest : bytes) (c : Certificate)
  : option (Certificate * bytes) :=
  if (1 <? length (Certificate_ c))%nat then continue c
  else if extension =? extensionStatusRequest then
    let? (statusType, extData) := ReadUint8 extData in
    if negb (statusType =? statusTypeOCSP) then None else
    let? (staple, extData) := nonempty (readUint24LengthPrefixed extData) in
    Some (mkCertificate (Certificate_ c) (Some staple) (SignedCertificateTimestamps c), extData)
  else if extension =? extensionSCT then
    let? (sctList, extData) := nonempty (ReadUint16LengthPrefixed extData) in
    let? l := readScts sctList (default [] (SignedCertificateTimestamps c)) in
    Some (mkCertificate (Certificate_ c) (OCSPStaple c) (Some l), extData)
  else continue c.

Definition read_cert (certList : bytes) (c : Certificate) : option (Certificate * bytes) :=
  let? (cert, certList) := readUint24LengthPrefixed certList in
  let? (exts, certList) := ReadUint16LengthPrefixed certList in
  let? c := read_exts false ext_handler exts
    (mkCertificate (Certificate_ c ++ [cert]) (OCSPStaple c) (SignedCertificateTimestamps c)) in
  Some (c, certList).

Definition unmarshalCertificate (s : bytes) (c : Certificate) : option (Certificate * bytes) :=
  let? (certList, s) := ReadUint24LengthPrefixed s in
  let? c := until_empty read_cert certList c in Some (c, s).

Definition unmarshal (data : bytes) : option t :=
  let? s := Skip 4 data in
  let? (context, s) := ReadUint8LengthPrefixed s in
  if negb (Empty context) then None else
  let? (c, s) := unmarshalCertificate s (mkCertificate [] None None) in
  if negb (Empty s) then None else
  Some (mk c (match OCSPStaple c with Some _ => true | None => false end)
             (match SignedCertificateTimestamps c with Some _ => true | None => false end)).

Context (B : Type) `{Builder B}.

(** The extensions of the leaf certificate. *)
Definition leaf_exts (c : Certificate) : B -> B :=
  (fun b => match OCSPStaple c with
            | Some staple =>
                ext extensionStatusRequest
                  (AddUint8 statusTypeOCSP ;> AddUint24LengthPrefixed (AddBytes staple)) b
            | None => b
            end) ;>
  (fun b => match SignedCertificateTimestamps c with
            | Some l => ext extensionSCT (AddUint16LengthPrefixed (addUint16LengthPrefixeds l)) b
            | None => b
            end).

Definition marshalCertificate (c : Certificate) : B -> B :=
  AddUint24LengthPrefixed (for_each (fun '(i, cert) =>
      AddUint24LengthPrefixed (AddBytes cert) ;>
      AddUint16LengthPrefixed (when (negb (0 <? i)%nat) (leaf_exts c)))
    (imap (fun i cert => (i, cert)) (Certificate_ c))).

Definition marshal (m : t) : outcome conn_error bytes :=
  let c := certificate m in
  let c := if negb (ocspStapling m) then mkCertificate (Certificate_ c) None (SignedCertificateTimestamps c) else c in
  let c := if negb (scts m) then mkCertificate (Certificate_ c) (OCSPStaple c) None else c in
  Bytes ((AddUint8 typeCertificate ;>
    AddUint24LengthPrefixed (AddUint8 0 ;> marshalCertificate c)) NewBuilder).
End ops.
End certificateMsgTLS13.

Module certificateStatusMsg.
Record t := mk { response : bytes }.
Section ops.
Context `{CryptoString}.

Definition unmarshal (data : bytes) : option t :=
  let? s := Skip 4 data in
  let? (statusType, s) := ReadUint8 s in
  if negb (statusType =? statusTypeOCSP) then None else
  let? (response, s) := nonempty (readUint24LengthPrefixed s) in
  if negb (Empty s) then None else Some (mk response).

Context (B : Type) `{Builder B}.
Definition marshal (m : t) : outcome conn_error bytes :=
  Bytes ((AddUint8 typeCertificateStatus ;>
    AddUint24LengthPrefixed (AddUint8 statusTypeOCSP ;>
      AddUint24LengthPrefixed (AddBytes (response m)))) NewBuilder).
End ops.
End certificateStatusMsg.

(** ** Key exchange *)

Module serverKeyExchangeMsg.
Record t := mk { key : bytes }.
Definition marshal (m : t) : bytes := [typeServerKeyExchange] ++ u24_bytes (len (key m)) ++ key m.
Definition unmarshal (data : bytes) : option t :=
  if (length data <? 4)%nat then None else Some (mk (drop 4 data)).
End serverKeyExchangeMsg.

Module clientKeyExchangeMsg.
Record t := mk { ciphertext : bytes }.
Definition marshal (m : t) : bytes :=
  [typeClientKeyExchange] ++ u24_bytes (len (ciphertext m)) ++ ciphertext m.
Definition unmarshal (data : bytes) : option t :=
  if (length data <? 4)%nat then None else
  if negb (get24 data 1 =? len data - 4) then None else Some (mk (drop 4 data)).
End clientKeyExchangeMsg.

(** ** Finished *)

Module finishedMsg.
Record t := mk { verifyData : bytes }.
Section ops.
Context `{CryptoString}.

Definition unmarshal (data : bytes) : option t :=
  let? s := Skip 1 data in
  let? (verifyData, s) := readUint24LengthPrefixed s in
  if negb (Empty s) then None else Some (mk verifyData).

Context (B : Type) `{Builder B}.
Definition marshal (m : t) : outcome conn_error bytes :=
  Bytes ((AddUint8 typeFinished ;> AddUint24LengthPrefixed (AddBytes (verifyData m))) NewBuilder).
End ops.
End finishedMsg.

(** ** CertificateRequest *)

Module certificateRequestMsgTLS13.
Record t := mk {
  ocspStapling : bool;
  scts : bool;
  supportedSignatureAlgorithms : list Z;
  supportedSignatureAlgorithmsCert : list Z;
  certificateAuthorities : list bytes
}.
Section ops.
Context `{CryptoString}.

Definition ext_handler (extension : Z) (extData rest : bytes) (m : t) : option (t * bytes) :=
  let '(mk ocsp scts algs algsCert cas) := m in
  if extension =? extensionStatusRequest then Some (mk true scts algs algsCert cas, extData)
  else if extension =? extensionSCT then Some (mk ocsp true algs algsCert cas, extData)
  else if extension =? extensionSignatureAlgorithms then
    let? (l, extData) := read_uint16_list extData algs in
    Some (mk ocsp scts l algsCert cas, extData)
  else if extension =? extensionSignatureAlgorithmsCert then
    let? (l, extData) := read_uint16_list extData algsCert in
    Some (mk ocsp scts algs l cas, extData)
  else if extension =? extensionCertificateAuthorities then
    let? (auths, extData) := nonempty (ReadUint16LengthPrefixed extData) in
    let? l := readScts auths cas in
    Some (mk ocsp scts algs algsCert l, extData)
  else continue m.

Definition unmarshal (data : bytes) : option t :=
  let? s := Skip 4 data in
  let? (context, s) := ReadUint8LengthPrefixed s in
  if negb (Empty context) then None else
  let? (exts, s) := ReadUint16LengthPrefixed s in
  if negb (Empty s) then None else
  read_exts false ext_handler exts (mk false false [] [] []).

Context (B : Type) `{Builder B}.
Definition marshal_exts (m : t) : B -> B :=
  when (ocspStapling m) (ext0 extensionStatusRequest) ;>
  when (scts m) (ext0 extensionSCT) ;>
  when (nonempty_list (supportedSignatureAlgorithms m))
    (ext extensionSignatureAlgorithms
      (AddUint16LengthPrefixed (addUint16s (supportedSignatureAlgorithms m)))) ;>
  when (nonempty_list (supportedSignatureAlgorithmsCert m))
    (ext extensionSignatureAlgorithmsCert
      (AddUint16LengthPrefixed (addUint16s (supportedSignatureAlgorithmsCert m)))) ;>
  when (nonempty_list (certificateAuthorities m))
    (ext extensionCertificateAuthorities
      (AddUint16LengthPrefixed (addUint16LengthPrefixeds (certificateAuthorities m)))).

Definition marshal (m : t) : outcome conn_error bytes :=
  Bytes ((AddUint8 typeCertificateRequest ;>
    AddUint24LengthPrefixed (AddUint8 0 ;> AddUint16LengthPrefixed (marshal_exts m))) NewBuilder).
End ops.
End certificateRequestMsgTLS13.

Module certificateRequestMsg.
Record t := mk {
  hasSignatureAlgorithm : bool;
  certificateTypes : bytes;
  supportedSignatureAlgorithms : list Z;
  certificateAuthorities : list bytes
}.

Definition marshal (m : t) : bytes :=
  let casLength := fold_left (fun n (ca : bytes) => n + (2 + len ca)) (certificateAuthorities m) 0 in
  let length := 1 + len (certificateTypes m) + 2 + casLength
    + (if hasSignatureAlgorithm m then 2 + 2 * len (supportedSignatureAlgorithms m) else 0) in
  [typeCertificateRequest] ++ u24_bytes length ++ [u8 (len (certificateTypes m))] ++ certificateTypes m ++
  (if hasSignatureAlgorithm m then
     u16_bytes (len (supportedSignatureAlgorithms m) * 2) ++
     concat (u16_bytes <$> supportedSignatureAlgorithms m)
   else []) ++
  u16_bytes casLength ++ concat ((fun ca => u16_bytes (len ca) ++ ca) <$> certificateAuthorities m).

Fixpoint read_algs (n : nat) (data : bytes) : list Z :=
  match n with O => [] | Datatypes.S n => get16 data 0 :: read_algs n (drop 2 data) end.

(** [for len(cas) > 0]: every pass drops two bytes or more. *)
Fixpoint read_cas_fuel (stuck : option (list bytes)) (fuel : nat) (cas : bytes) (acc : list bytes)
  : option (list bytes) :=
  if (length cas =? 0)%nat then Some acc else
  match fuel with
  | O => stuck
  | Datatypes.S fuel =>
      if (length cas <? 2)%nat then None else
      let caLen := get16 cas 0 in
      let cas := drop 2 cas in
      if len cas <? caLen then None else
      read_cas_fuel stuck fuel (drop (Z.to_nat caLen) cas) (acc ++ [take (Z.to_nat caLen) cas])
  end.
Definition read_cas (cas : bytes) : option (list bytes) := read_cas_fuel None (length cas) cas [].

(** The signature algorithms after their length, when the version has them. *)
Definition read_sigalgs (has : bool) (old : list Z) (data : bytes) : option (list Z * bytes) :=
  if has then
    if (length data <? 2)%nat then None else
    let sigAndHashLen := get16 data 0 in
    let data := drop 2 data in
    if negb (Z.land sigAndHashLen 1 =? 0) then None else
    if len data <? sigAndHashLen then None else
    let numSigAlgos := Z.to_nat (sigAndHashLen / 2) in
    Some (read_algs numSigAlgos data, drop (2 * numSigAlgos) data)
  else Some (old, data).

(** [m] has been made with [hasSignatureAlgorithm] set for the version. *)
Definition unmarshal (data : bytes) (m : t) : option t :=
  if (length data <? 5)%nat then None else
  if negb (u32 (u32 (len data) - 4) =? get24 data 1) then None else
  let numCertTypes := Z.to_nat (nth_byte data 4) in
  let data := drop 5 data in
  if (numCertTypes =? 0)%nat || (length data <=? numCertTypes)%nat then None else
  let types := take numCertTypes data in
  let? (algs, data) := read_sigalgs (hasSignatureAlgorithm m) (supportedSignatureAlgorithms m)
    (drop numCertTypes data) in
  if (length data <? 2)%nat then None else
  let casLength := get16 data 0 in
  let data := drop 2 data in
  if len data <? casLength then None else
  let? cas := read_cas (take (Z.to_nat casLength) data) in
  if negb (length (drop (Z.to_nat casLength) data) =? 0)%nat then None
  else Some (mk (hasSignatureAlgorithm m) types algs cas).
End certificateRequestMsg.

(** ** CertificateVerify *)

Module certificateVerifyMsg.
Record t := mk { hasSignatureAlgorithm : bool; signatureAlgorithm : Z; signature : bytes }.
Section ops.
Context `{CryptoString}.

Definition unmarshal (data : bytes) (m : t) : option t :=
  let? s := Skip 4 data in
  let? (alg, s) := (if hasSignatureAlgorithm m then ReadUint16 s else Some (signatureAlgorithm m, s)) in
  let? (signature, s) := readUint16LengthPrefixed s in
  if negb (Empty s) then None else Some (mk (hasSignatureAlgorithm m) alg signature).

Context (B : Type) `{Builder B}.
Definition marshal (m : t) : outcome conn_error bytes :=
  Bytes ((AddUint8 typeCertificateVerify ;>
    AddUint24LengthPrefixed (
      when (hasSignatureAlgorithm m) (AddUint16 (signatureAlgorithm m)) ;>
      AddUint16LengthPrefixed (AddBytes (signature m)))) NewBuilder).
End ops.
End certificateVerifyMsg.

(** ** All messages *)

Inductive handshakeMessage :=
| HelloRequest
| ClientHello (m : clientHelloMsg.t)
| ServerHello (m : serverHelloMsg.t)
| NewSessionTicketTLS13 (m : newSessionTicketMsgTLS13.t)
| NewSessionTicket (m : newSessionTicketMsg.t)
| CertificateTLS13 (m : certificateMsgTLS13.t)
| CertificateMsg (m : certificateMsg.t)
| CertificateRequestTLS13 (m : certificateRequestMsgTLS13.t)
| CertificateRequest (m : certificateRequestMsg.t)
| CertificateStatus (m : certificateStatusMsg.t)
| ServerKeyExchange (m : serverKeyExchangeMsg.t)
| ServerHelloDone
| ClientKeyExchange (m : clientKeyExchangeMsg.t)
| CertificateVerify (m : certificateVerifyMsg.t)
| Finished (m : finishedMsg.t)
| EncryptedExtensions (m : encryptedExtensionsMsg.t)
| EndOfEarlyData
| KeyUpdate (m : keyUpdateMsg.t).

Section all.
Context `{CryptoString}.

(** [unmarshalHandshakeMessage] before the alert that a [None] leads to. *)
Definition unmarshal_message (vers : Z) (data : bytes) : option handshakeMessage :=
  let typ := nth_byte data 0 in
  let tls13 := vers =? VersionTLS13 in
  let empty (ok : bool) (m : handshakeMessage) := if ok then Some m else None in
  if typ =? typeHelloRequest then empty (helloRequestMsg.unmarshal data) HelloRequest
  else if typ =? typeClientHello then ClientHello <$> clientHelloMsg.unmarshal data
  else if typ =? typeServerHello then ServerHello <$> serverHelloMsg.unmarshal data
  else if typ =? typeNewSessionTicket then
    if tls13 then NewSessionTicketTLS13 <$> newSessionTicketMsgTLS13.unmarshal data
    else NewSessionTicket <$> newSessionTicketMsg.unmarshal data
  else if typ =? typeCertificate then
    if tls13 then CertificateTLS13 <$> certificateMsgTLS13.unmarshal data
    else CertificateMsg <$> certificateMsg.unmarshal data
  else if typ =? typeCertificateRequest then
    if tls13 then CertificateRequestTLS13 <$> certificateRequestMsgTLS13.unmarshal data
    else CertificateRequest <$>
      certificateRequestMsg.unmarshal data (certificateRequestMsg.mk (VersionTLS12 <=? vers) [] [] [])
  else if typ =? typeCertificateStatus then CertificateStatus <$> certificateStatusMsg.unmarshal data
  else if typ =? typeServerKeyExchange then ServerKeyExchange <$> serverKeyExchangeMsg.unmarshal data
  else if typ =? typeServerHelloDone then empty (serverHelloDoneMsg.unmarshal data) ServerHelloDone
  else if typ =? typeClientKeyExchange then ClientKeyExchange <$> clientKeyExchangeMsg.unmarshal data
  else if typ =? typeCertificateVerify then
    CertificateVerify <$>
      certificateVerifyMsg.unmarshal data (certificateVerifyMsg.mk (VersionTLS12 <=? vers) 0 [])
  else if typ =? typeFinished then Finished <$> finishedMsg.unmarshal data
  else if typ =? typeEncryptedExtensions then
    EncryptedExtensions <$> encryptedExtensionsMsg.unmarshal data
  else if typ =? typeEndOfEarlyData then empty (endOfEarlyDataMsg.unmarshal data) EndOfEarlyData
  else if typ =? typeKeyUpdate then KeyUpdate <$> keyUpdateMsg.unmarshal data
  else None.

Context (B : Type) `{Builder B}.

(** [msg.marshal()] *)
Definition marshal_message (msg : handshakeMessage) : outcome conn_error bytes :=
  match msg with
  | HelloRequest => Ret helloRequestMsg.marshal
  | ClientHello m => clientHelloMsg.marshal B m
  | ServerHello m => serverHelloMsg.marshal B m
  | NewSessionTicketTLS13 m => newSessionTicketMsgTLS13.marshal B m
  | NewSessionTicket m => Ret (newSessionTicketMsg.marshal m)
  | CertificateTLS13 m => certificateMsgTLS13.marshal B m
  | CertificateMsg m => Ret (certificateMsg.marshal m)
  | CertificateRequestTLS13 m => certificateRequestMsgTLS13.marshal B m
  | CertificateRequest m => Ret (certificateRequestMsg.marshal m)
  | CertificateStatus m => certificateStatusMsg.marshal B m
  | ServerKeyExchange m => Ret (serverKeyExchangeMsg.marshal m)
  | ServerHelloDone => Ret serverHelloDoneMsg.marshal
  | ClientKeyExchange m => Ret (clientKeyExchangeMsg.marshal m)
  | CertificateVerify m => certificateVerifyMsg.marshal B m
  | Finished m => finishedMsg.marshal B m
  | EncryptedExtensions m => encryptedExtensionsMsg.marshal B m
  | EndOfEarlyData => Ret endOfEarlyDataMsg.marshal
  | KeyUpdate m => keyUpdateMsg.marshal B m
  end.

(** [originalBytes] of the two messages that keep them. *)
Definition originalBytes (msg : handshakeMessage) : option bytes :=
  match msg with
  | ClientHello m => clientHelloMsg.originalBytes m
  | ServerHello m => serverHelloMsg.originalBytes m
  | _ => None
  end.

(** [transcriptMsg]: what is written to the transcript hash. *)
Definition transcriptMsg (msg : handshakeMessage) : outcome conn_error bytes :=
  match originalBytes msg with
  | Some orig => Ret orig
  | None => marshal_message msg
  end.
End all.
