(* ===== verification/WireProofs.v ===== *)
(** * Reading back what the builders wrote

    Lemmas and tactics shared by the round trips of the handshake messages:
    what the helpers of [Hello] append, how a written extension is read, and
    that the reading loops end by themselves. *)

From stdpp Require Import sets.
From S2P Require Import Prelude HalfConn Cryptobyte Hello.

Open Scope go_scope.

(** ** What the helpers append *)

Section builder.
Context {B : Type} `{BuilderLaws B}.

(** An extension as it is written. *)
Definition enc_ext (typ : Z) (body : option bytes) : option bytes := oapp (Some (be_put 2 typ)) (prefixed 2 body).

Lemma appends_ext typ (body : B -> B) r : appends body r -> appends (ext typ body) (enc_ext typ r).
Proof. intros Hb. unfold ext, enc_ext. eauto with builder. Qed.

Lemma appends_ext0 typ : appends (B:=B) (ext0 typ) (enc_ext typ (Some [])).
Proof.
  unfold ext0, enc_ext. change (prefixed 2 (Some [])) with (Some (be_put 2 0)). eauto with builder.
Qed.

Lemma appends_addBytesWithLength v n :
  appends (B:=B) (addBytesWithLength v n) (if (length v =? n)%nat then Some v else None).
Proof. unfold addBytesWithLength. destruct (length v =? n)%nat; simpl; eauto with builder. Qed.

Lemma appends_uint16s l : appends (B:=B) (addUint16s l) (oconcat ((fun v => Some (be_put 2 v)) <$> l)).
Proof. unfold addUint16s. eauto with builder. Qed.

Lemma appends_uint8LengthPrefixeds l :
  appends (B:=B) (addUint8LengthPrefixeds l) (oconcat ((fun v => prefixed 1 (Some v)) <$> l)).
Proof. unfold addUint8LengthPrefixeds. eauto with builder. Qed.

Lemma appends_uint16LengthPrefixeds l :
  appends (B:=B) (addUint16LengthPrefixeds l) (oconcat ((fun v => prefixed 2 (Some v)) <$> l)).
Proof. unfold addUint16LengthPrefixeds. eauto with builder. Qed.
End builder.

#[export] Hint Resolve appends_ext appends_ext0 appends_addBytesWithLength appends_uint16s
  appends_uint8LengthPrefixeds appends_uint16LengthPrefixeds : builder.

Lemma appends_for_each_cons {B} `{BuilderLaws B} {T} (f : T -> B -> B) x l r1 r2 :
  appends (f x) r1 -> appends (for_each f l) r2 -> appends (for_each f (x :: l)) (oapp r1 r2).
Proof. apply (appends_then (f x) (for_each f l)). Qed.

Lemma appends_for_each_nil {B} `{BuilderLaws B} {T} (f : T -> B -> B) : appends (for_each f []) (Some []).
Proof. apply appends_id. Qed.

(** Find what a statement appends, by its syntax. *)
Ltac appends_tac :=
  lazymatch goal with
  | |- forall _, _ => intro; appends_tac
  | |- appends (_ ;> _) _ => eapply appends_then; appends_tac
  | |- appends (when _ _) _ => eapply appends_when; appends_tac
  | |- appends (ext _ _) _ => eapply appends_ext; appends_tac
  | |- appends (AddUint8LengthPrefixed _) _ => eapply AddUint8LengthPrefixed_spec; appends_tac
  | |- appends (AddUint16LengthPrefixed _) _ => eapply AddUint16LengthPrefixed_spec; appends_tac
  | |- appends (AddUint24LengthPrefixed _) _ => eapply AddUint24LengthPrefixed_spec; appends_tac
  | |- appends (for_each _ (_ :: _)) _ => eapply appends_for_each_cons; cbv beta iota; appends_tac
  | |- appends (for_each _ []) _ => eapply appends_for_each_nil
  | |- appends (for_each _ _) _ => eapply appends_for_each; appends_tac
  | |- _ => eauto 2 with builder
  end.

(** From [Bytes (f NewBuilder) = Ret data] to the bytes of [data]. *)
Ltac built H :=
  lazymatch type of H with
  | Bytes (?f NewBuilder) = Ret _ =>
      let r := fresh "r" in let Hr := fresh "Hr" in
      evar (r : option bytes);
      assert (Hr : appends f r) by (subst r; appends_tac);
      apply (appends_new f r) in H; [|exact Hr]; subst r; clear Hr
  end.

Ltac inv_enc :=
  repeat match goal with
  | H : oapp _ _ = Some _ |- _ => apply oapp_Some in H as (? & ? & ? & ? & ?)
  | H : prefixed _ _ = Some _ |- _ => apply prefixed_Some in H as (? & ? & ? & ?)
  | H : Some _ = Some ?b |- _ => apply Some_inj in H; first [is_var b; subst b | try subst]
  | H : _ = ?x ++ _ |- _ => is_var x; fail 1
  end; subst.

(** ** Reads *)

#[local] Opaque be_put.

Section reads.
Context `{CryptoStringLaws}.

Lemma read_prefixed_put_app n y s l : l = Z.of_nat (length y) -> l < 256 ^ Z.of_nat n ->
  read_prefixed n (be_put n l ++ y ++ s) = Some (y, s).
Proof. intros -> Hl. rewrite app_assoc. by apply read_prefixed_put. Qed.

Lemma read_prefixed_put_nil n y l : l = Z.of_nat (length y) -> l < 256 ^ Z.of_nat n ->
  read_prefixed n (be_put n l ++ y) = Some (y, []).
Proof. intros Hy Hl. rewrite <- (app_nil_r y) at 1. by apply read_prefixed_put_app. Qed.

Lemma read_prefixed_zero n s : read_prefixed n (be_put n 0 ++ s) = Some ([], s).
Proof. apply (read_prefixed_put_app n [] s); [done|]. apply Z.pow_pos_nonneg; lia. Qed.

Lemma read_prefixed_zero_nil n : read_prefixed n (be_put n 0) = Some ([], []).
Proof. rewrite <- (app_nil_r (be_put n 0)). apply read_prefixed_zero. Qed.

Lemma read_bytes_nil n a : length a = n -> read_bytes n a = Some (a, []).
Proof. intros Hl. rewrite <- (app_nil_r a) at 1. by apply read_bytes_app. Qed.

Lemma read_uint_nil n v : 0 <= v < 256 ^ Z.of_nat n -> read_uint n (be_put n v) = Some (v, []).
Proof. intros Hv. rewrite <- (app_nil_r (be_put n v)). by apply read_uint_put. Qed.

Lemma Skip_app n a s : length a = n -> Skip n (a ++ s) = Some s.
Proof. intros Ha. rewrite Skip_spec. by rewrite read_bytes_app. Qed.

(** The header of a message, before its body. *)
Lemma Skip_header typ l s : Skip 4 (be_put 1 typ ++ be_put 3 l ++ s) = Some s.
Proof. rewrite app_assoc. apply Skip_app. by rewrite length_app, !length_be_put. Qed.

(** ** Lists *)

Lemma readUint16s_put l z acc : Forall (fun v => is_u16 v) l ->
  oconcat ((fun v => Some (be_put 2 v)) <$> l) = Some z -> readUint16s z acc = Some (acc ++ l).
Proof.
  intros Hl Hz. apply (read_list_put ReadUint16 (fun v => Some (be_put 2 v))); [| |done].
  - intros s x s'. rewrite ReadUint16_spec. intros Q. apply read_uint_length in Q. lia.
  - eapply Forall_impl; [exact Hl|]. intros v Hv y s Hy. apply Some_inj in Hy as <-. split; [done|].
    rewrite ReadUint16_spec. by apply read_uint_put.
Qed.

Lemma nonempty_Some r v s : v <> [] -> r = Some (v, s) -> nonempty r = Some (v, s).
Proof. intros Hv ->. by destruct v. Qed.

Lemma nonempty_inv r v s : nonempty r = Some (v, s) -> r = Some (v, s) /\ v <> [].
Proof.
  unfold nonempty. destruct r as [[v' s']|]; [|done]. simpl. destruct v'; [done|]. by intros [= <- <-].
Qed.

Lemma prefixed_ne n r y : (0 < n)%nat -> prefixed n r = Some y -> y <> [].
Proof. intros Hn Hy. apply prefixed_Some in Hy as (x & _ & _ & ->). by destruct n; [lia|]. Qed.

Lemma readProtos_put l z acc : Forall (fun v => v <> []) l ->
  oconcat ((fun v => prefixed 1 (Some v)) <$> l) = Some z -> readProtos z acc = Some (acc ++ l).
Proof.
  intros Hl Hz. apply (read_list_put _ (fun v => prefixed 1 (Some v))); [| |done].
  - intros s x s' Q. apply nonempty_inv in Q as [Q _]. rewrite ReadUint8LengthPrefixed_spec in Q.
    apply read_prefixed_length in Q. lia.
  - eapply Forall_impl; [exact Hl|]. intros v Hv y s Hy. split; [eapply prefixed_ne; [|exact Hy]; lia|].
    inv_enc. apply nonempty_Some; [done|]. rewrite ReadUint8LengthPrefixed_spec, <- app_assoc.
    by apply read_prefixed_put_app.
Qed.

Lemma readScts_put l z acc : Forall (fun v => v <> []) l ->
  oconcat ((fun v => prefixed 2 (Some v)) <$> l) = Some z -> readScts z acc = Some (acc ++ l).
Proof.
  intros Hl Hz. apply (read_list_put _ (fun v => prefixed 2 (Some v))); [| |done].
  - intros s x s' Q. apply nonempty_inv in Q as [Q _]. unfold readUint16LengthPrefixed in Q.
    rewrite ReadUint16LengthPrefixed_spec in Q. apply read_prefixed_length in Q. lia.
  - eapply Forall_impl; [exact Hl|]. intros v Hv y s Hy. split; [eapply prefixed_ne; [|exact Hy]; lia|].
    inv_enc. apply nonempty_Some; [done|]. unfold readUint16LengthPrefixed.
    rewrite ReadUint16LengthPrefixed_spec, <- app_assoc. by apply read_prefixed_put_app.
Qed.

(** A non-empty list writes at least a byte. *)
Lemma oconcat_ne {T} (enc : T -> option bytes) l z : (forall x y, enc x = Some y -> y <> []) ->
  l <> [] -> oconcat (enc <$> l) = Some z -> z <> [].
Proof.
  intros He Hl. destruct l as [|x l]; [done|]. cbn. intros Hz. apply oapp_Some in Hz as (y & z' & Hy & _ & ->).
  apply He in Hy. by destruct y.
Qed.

Lemma read_uint16_list_put l z y acc : Forall (fun v => is_u16 v) l -> l <> [] ->
  oconcat ((fun v => Some (be_put 2 v)) <$> l) = Some z -> prefixed 2 (Some z) = Some y ->
  read_uint16_list y acc = Some (acc ++ l, []).
Proof.
  intros Hl Hne Hz Hy. unfold read_uint16_list. rewrite ReadUint16LengthPrefixed_spec. inv_enc.
  rewrite (nonempty_Some _ z []); simpl.
  - by rewrite (readUint16s_put l z).
  - eapply oconcat_ne; [|exact Hne|exact Hz]. intros v b Hb. by apply Some_inj in Hb as <-.
  - by apply read_prefixed_put_nil.
Qed.

Lemma read_uint16_list_opt l y b acc : Forall (fun v => is_u16 v) l -> l <> [] ->
  prefixed 2 b = Some y -> b = oconcat ((fun v => Some (be_put 2 v)) <$> l) ->
  read_uint16_list y acc = Some (acc ++ l, []).
Proof.
  intros Hl Hne Hy ->. destruct (oconcat _) as [z|] eqn:Hz; [|done]. by apply (read_uint16_list_put l z).
Qed.

(** ** Extensions *)

Definition run_exts {T} (chk : bool) (handler : Z -> bytes -> bytes -> T -> option (T * bytes))
    (seen : list Z) (s : bytes) (m : T) : option T :=
  snd <$> until_empty (read_ext chk handler) s (seen, m).

Lemma read_ext_consumes {T} chk (handler : Z -> bytes -> bytes -> T -> option (T * bytes)) :
  consumes (read_ext chk handler).
Proof.
  intros s [seen m] acc' s'. unfold read_ext. rewrite ReadUint16_spec.
  destruct (read_uint 2 s) as [[e s1]|] eqn:E1; [|done]. simpl. rewrite ReadUint16LengthPrefixed_spec.
  destruct (read_prefixed 2 s1) as [[d s2]|] eqn:E2; [|done]. simpl.
  destruct (_ && _); [done|]. destruct (handler e d s2 m) as [[m' d']|]; [|done]. simpl.
  destruct (Empty d'); [|done]. simpl. intros [= _ <-].
  apply read_uint_length in E1. apply read_prefixed_length in E2. lia.
Qed.

Lemma read_exts_run {T} chk (handler : Z -> bytes -> bytes -> T -> option (T * bytes)) s m :
  read_exts chk handler s m = run_exts chk handler [] s m.
Proof. done. Qed.

Lemma run_exts_nil {T} chk handler seen (m : T) : run_exts chk handler seen [] m = Some m.
Proof. done. Qed.

Lemma run_exts_ext {T} chk handler seen typ d z s (m m' : T) :
  is_u16 typ -> enc_ext typ (Some d) = Some z -> typ ∉ seen -> handler typ d s m = Some (m', []) ->
  run_exts chk handler seen (z ++ s) m = run_exts chk handler (typ :: seen) s m'.
Proof.
  intros Ht Hz Hn Hh. unfold enc_ext in Hz. apply oapp_Some in Hz as (a & b & Ha & Hb & ->).
  apply Some_inj in Ha as <-. apply prefixed_Some in Hb as (d' & Hd & Hl & ->).
  apply Some_inj in Hd as <-. unfold run_exts.
  rewrite until_empty_cons; [|apply read_ext_consumes|done].
  assert (E : read_ext chk handler ((be_put 2 typ ++ be_put 2 (Z.of_nat (length d)) ++ d) ++ s) (seen, m) =
    Some ((typ :: seen, m'), s)).
  { unfold read_ext. rewrite ReadUint16_spec, <- app_assoc, read_uint_put by done. simpl.
    rewrite ReadUint16LengthPrefixed_spec, <- app_assoc, read_prefixed_put_app by done. simpl.
    assert (Hs : existsb (Z.eqb typ) seen = false).
    { apply not_true_is_false. intros Q. apply existsb_exists in Q as (v & Hv & Q%Z.eqb_eq). subst v.
      by apply Hn, list_elem_of_In. }
    rewrite Hs, andb_false_r, Hh. done. }
  by rewrite E.
Qed.

(** An extension that is written under a condition.  [seen'] bounds the types
    seen so far. *)
Lemma run_exts_when {T} chk handler (c : bool) seen seen' typ body z s (m m' : T) :
  is_u16 typ -> (if c then enc_ext typ body else Some []) = Some z ->
  seen ⊆ seen' -> typ ∉ seen' ->
  (c = true -> forall d, body = Some d -> handler typ d s m = Some (m', [])) -> (c = false -> m' = m) ->
  exists seen1, seen1 ⊆ typ :: seen' /\
    run_exts chk handler seen (z ++ s) m = run_exts chk handler seen1 s m'.
Proof.
  intros Ht Hz Hs Hn Hh Hm. destruct c.
  - exists (typ :: seen). split; [set_solver|]. pose proof Hz as Hz'. unfold enc_ext in Hz'.
    apply oapp_Some in Hz' as (a & b & _ & Hb & _). apply prefixed_Some in Hb as (d & Hd & _ & _).
    subst body. eapply run_exts_ext; [done|exact Hz|set_solver|]. by apply Hh.
  - injection Hz as <-. rewrite Hm by done. exists seen. split; [set_solver|done].
Qed.
End reads.

(** Perform the next read of the goal. *)
Ltac read_side := first [done | lia | assumption | reflexivity].
Ltac read_step :=
  cbn [mbind option_bind app]; rewrite <- ?app_assoc; unfold readUint8LengthPrefixed, readUint16LengthPrefixed, readUint24LengthPrefixed;
  first
  [ rewrite Skip_header
  | rewrite ReadUint8_spec, read_uint_put by read_side
  | rewrite ReadUint8_spec, read_uint_nil by read_side
  | rewrite ReadUint16_spec, read_uint_put by read_side
  | rewrite ReadUint16_spec, read_uint_nil by read_side
  | rewrite ReadUint32_spec, read_uint_put by read_side
  | rewrite ReadUint32_spec, read_uint_nil by read_side
  | rewrite ReadUint64_spec, read_uint_put by read_side
  | rewrite ReadUint8LengthPrefixed_spec, read_prefixed_put_app by read_side
  | rewrite ReadUint8LengthPrefixed_spec, read_prefixed_put_nil by read_side
  | rewrite ReadUint8LengthPrefixed_spec, read_prefixed_zero
  | rewrite ReadUint16LengthPrefixed_spec, read_prefixed_put_app by read_side
  | rewrite ReadUint16LengthPrefixed_spec, read_prefixed_put_nil by read_side
  | rewrite ReadUint16LengthPrefixed_spec, read_prefixed_zero
  | rewrite ReadUint16LengthPrefixed_spec, read_prefixed_zero_nil
  | rewrite ReadUint24LengthPrefixed_spec, read_prefixed_put_app by read_side
  | rewrite ReadUint24LengthPrefixed_spec, read_prefixed_put_nil by read_side
  | rewrite ReadBytes_spec, read_bytes_app by read_side
  | rewrite ReadBytes_spec, read_bytes_nil by read_side
  | rewrite CopyBytes_spec, read_bytes_nil by read_side ];
  cbn [mbind option_bind app].
Ltac reads := repeat read_step.

(** Enter the loop over the extensions. *)
Ltac start_exts :=
  cbn [Empty length Nat.eqb negb]; rewrite read_exts_run;
  let Hs := fresh "Hseen" in assert (Hs : ([] : list Z) ⊆ []) by done.

(** Read the next extension of the goal; [m1] is the message afterwards.  What
    the handler does, and that [m1] is the message when the extension is not
    there, are left to prove. *)
Ltac run_block m1 :=
  rewrite <- ?app_assoc; cbn [app];
  try lazymatch goal with |- run_exts _ _ _ ?z _ = _ => is_var z; rewrite <- (app_nil_r z) end;
  lazymatch goal with
  | Hs : ?seen ⊆ ?seen', H : (if ?c then enc_ext ?t ?b else Some []) = Some ?z |- run_exts ?chk ?h ?seen (?z ++ ?s) ?m = _ =>
      let seen1 := fresh "seen" in let Hs1 := fresh "Hseen" in let E := fresh "E" in
      destruct (run_exts_when chk h c seen seen' t b z s m m1) as (seen1 & Hs1 & E);
      [|exact H|exact Hs| | | |rewrite E; clear E Hs H];
      [split; [discriminate|reflexivity]|compute_decide|clear H; intros Hpresent d Hbody|clear H; intros Habsent|]
  end.

(** Decide the comparisons of constants: the branch of a handler. *)
Ltac eval_eqb :=
  repeat match goal with
  | |- context [?a =? ?b] =>
      let v := eval vm_compute in (a =? b) in
      lazymatch v with true => idtac | false => idtac end;
      change (a =? b) with v; cbv iota
  end.

Lemma nonempty_list_true {T} (l : list T) : nonempty_list l = true -> l <> [].
Proof. by destruct l. Qed.
Lemma nonempty_list_false {T} (l : list T) : nonempty_list l = false -> l = [].
Proof. by destruct l. Qed.

Lemma read_alpn_put `{CryptoStringLaws} proto z : proto <> [] -> prefixed 2 (prefixed 1 (Some proto)) = Some z ->
  read_alpn z = Some (proto, []).
Proof.
  intros Hp Hz. unfold read_alpn. inv_enc. rewrite ReadUint16LengthPrefixed_spec.
  rewrite (nonempty_Some _ (be_put 1 (Z.of_nat (length proto)) ++ proto) []); cbn [mbind option_bind];
    [|by destruct proto|by apply read_prefixed_put_nil].
  rewrite ReadUint8LengthPrefixed_spec, (nonempty_Some _ proto []); [done|done|].
  by apply read_prefixed_put_nil.
Qed.
