(* ===== verification/MessagesProofs.v ===== *)
(** * Round trips of the handshake messages

    [unmarshal] inverts [marshal] for every message, whatever implementation
    of cryptobyte satisfies the documented laws. *)

From S2P Require Import Prelude Common HalfConn Cryptobyte Hello Messages WireProofs.

Open Scope go_scope.
#[local] Opaque be_put.

Section messages.
Context {B : Type} `{CryptoStringLaws} `{BuilderLaws B}.

Lemma keyUpdate_roundtrip m data :
  keyUpdateMsg.marshal B m = Ret data -> keyUpdateMsg.unmarshal data = Some m.
Proof.
  unfold keyUpdateMsg.marshal. intros Hm. built Hm. inv_enc. unfold keyUpdateMsg.unmarshal.
  destruct m as [[]]; reads; done.
Qed.

Lemma finished_roundtrip m data :
  finishedMsg.marshal B m = Ret data -> finishedMsg.unmarshal data = Some m.
Proof.
  unfold finishedMsg.marshal. intros Hm. built Hm. inv_enc. unfold finishedMsg.unmarshal.
  rewrite (Skip_app 1) by apply length_be_put. reads. by destruct m.
Qed.

Lemma certificateStatus_roundtrip m data : certificateStatusMsg.response m <> [] ->
  certificateStatusMsg.marshal B m = Ret data -> certificateStatusMsg.unmarshal data = Some m.
Proof.
  unfold certificateStatusMsg.marshal. intros Hn Hm. built Hm. inv_enc. unfold certificateStatusMsg.unmarshal.
  reads. destruct m as [[|x r]]; done.
Qed.

Lemma certificateVerify_roundtrip m data : is_u16 (certificateVerifyMsg.signatureAlgorithm m) ->
  certificateVerifyMsg.marshal B m = Ret data ->
  certificateVerifyMsg.unmarshal data (certificateVerifyMsg.mk (certificateVerifyMsg.hasSignatureAlgorithm m) 0 [])
  = Some (certificateVerifyMsg.mk (certificateVerifyMsg.hasSignatureAlgorithm m)
      (if certificateVerifyMsg.hasSignatureAlgorithm m then certificateVerifyMsg.signatureAlgorithm m else 0)
      (certificateVerifyMsg.signature m)).
Proof.
  unfold certificateVerifyMsg.marshal. intros Ha Hm. built Hm. inv_enc. unfold certificateVerifyMsg.unmarshal.
  read_step. cbn [certificateVerifyMsg.hasSignatureAlgorithm certificateVerifyMsg.signatureAlgorithm].
  destruct (certificateVerifyMsg.hasSignatureAlgorithm m); inv_enc; reads; done.
Qed.

(** ** Messages with extensions *)

Lemma encryptedExtensions_roundtrip m data :
  encryptedExtensionsMsg.marshal B m = Ret data -> encryptedExtensionsMsg.unmarshal data = Some m.
Proof.
  unfold encryptedExtensionsMsg.marshal, encryptedExtensionsMsg.marshal_exts. intros Hm. built Hm. inv_enc.
  unfold encryptedExtensionsMsg.unmarshal. reads. start_exts.
  all: set (alpn := encryptedExtensionsMsg.alpnProtocol m) in *;
    set (quic := encryptedExtensionsMsg.quicTransportParameters m) in *;
    set (early := encryptedExtensionsMsg.earlyData m) in *.
  run_block (encryptedExtensionsMsg.mk alpn None false []).
  { unfold encryptedExtensionsMsg.ext_handler. eval_eqb.
    rewrite (read_alpn_put alpn) by (by first [apply nonempty_list_true | assumption]). done. }
  { by rewrite (nonempty_list_false alpn). }
  run_block (encryptedExtensionsMsg.mk alpn quic false []).
  { unfold encryptedExtensionsMsg.ext_handler. eval_eqb. inv_enc. reads. by destruct quic. }
  { by destruct quic. }
  run_block (encryptedExtensionsMsg.mk alpn quic early []).
  { unfold encryptedExtensionsMsg.ext_handler. eval_eqb. inv_enc. by destruct early. }
  { by destruct early. }
  run_block m.
  { unfold encryptedExtensionsMsg.ext_handler. eval_eqb. inv_enc. reads. by destruct m. }
  { subst alpn quic early. destruct m; cbn in *. by rewrite (nonempty_list_false echRetryConfigs). }
  apply run_exts_nil.
Qed.

Lemma newSessionTicketTLS13_roundtrip m data :
  is_u32 (newSessionTicketMsgTLS13.lifetime m) -> is_u32 (newSessionTicketMsgTLS13.ageAdd m) ->
  is_u32 (newSessionTicketMsgTLS13.maxEarlyData m) ->
  newSessionTicketMsgTLS13.marshal B m = Ret data -> newSessionTicketMsgTLS13.unmarshal data = Some m.
Proof.
  unfold newSessionTicketMsgTLS13.marshal. intros Hl Ha He Hm. built Hm. inv_enc.
  unfold newSessionTicketMsgTLS13.unmarshal. reads. start_exts.
  run_block m; [| |apply run_exts_nil].
  - unfold newSessionTicketMsgTLS13.ext_handler. eval_eqb. inv_enc. reads. by destruct m.
  - destruct m as [lf age nc lb ed]. cbn in *. apply Z.ltb_ge in Habsent. by replace ed with 0 by lia.
Qed.

Lemma certificateRequestTLS13_roundtrip m data :
  Forall (fun v => is_u16 v) (certificateRequestMsgTLS13.supportedSignatureAlgorithms m) ->
  Forall (fun v => is_u16 v) (certificateRequestMsgTLS13.supportedSignatureAlgorithmsCert m) ->
  Forall (fun v => v <> []) (certificateRequestMsgTLS13.certificateAuthorities m) ->
  certificateRequestMsgTLS13.marshal B m = Ret data -> certificateRequestMsgTLS13.unmarshal data = Some m.
Proof.
  unfold certificateRequestMsgTLS13.marshal, certificateRequestMsgTLS13.marshal_exts.
  intros Hs Hc Ha Hm. built Hm. inv_enc. unfold certificateRequestMsgTLS13.unmarshal.
  destruct m as [ocsp scts algs algsCert cas]; cbn [certificateRequestMsgTLS13.ocspStapling
    certificateRequestMsgTLS13.scts certificateRequestMsgTLS13.supportedSignatureAlgorithms
    certificateRequestMsgTLS13.supportedSignatureAlgorithmsCert
    certificateRequestMsgTLS13.certificateAuthorities] in *.
  reads. cbn [Empty length Nat.eqb negb]. reads. start_exts.
  run_block (certificateRequestMsgTLS13.mk ocsp false [] [] []).
  { unfold certificateRequestMsgTLS13.ext_handler. eval_eqb. by inv_enc. }
  { by subst. }
  run_block (certificateRequestMsgTLS13.mk ocsp scts [] [] []).
  { unfold certificateRequestMsgTLS13.ext_handler. eval_eqb. by inv_enc. }
  { by subst. }
  run_block (certificateRequestMsgTLS13.mk ocsp scts algs [] []).
  { unfold certificateRequestMsgTLS13.ext_handler. eval_eqb.
    by rewrite (read_uint16_list_opt algs _ _ _ Hs (nonempty_list_true _ Hpresent) Hbody eq_refl). }
  { by rewrite (nonempty_list_false algs). }
  run_block (certificateRequestMsgTLS13.mk ocsp scts algs algsCert []).
  { unfold certificateRequestMsgTLS13.ext_handler. eval_eqb.
    by rewrite (read_uint16_list_opt algsCert _ _ _ Hc (nonempty_list_true _ Hpresent) Hbody eq_refl). }
  { by rewrite (nonempty_list_false algsCert). }
  run_block (certificateRequestMsgTLS13.mk ocsp scts algs algsCert cas).
  { unfold certificateRequestMsgTLS13.ext_handler. eval_eqb. apply nonempty_list_true in Hpresent. inv_enc.
    rewrite ReadUint16LengthPrefixed_spec, (nonempty_Some _ x []); cbn [mbind option_bind].
    - by rewrite (readScts_put cas x []).
    - eapply oconcat_ne; [|exact Hpresent|eassumption]. intros v b. apply prefixed_ne. lia.
    - by apply read_prefixed_put_nil. }
  { by rewrite (nonempty_list_false cas). }
  apply run_exts_nil.
Qed.

(** ** The TLS 1.3 Certificate message *)

Definition leaf_enc (c : Certificate) : option bytes :=
  oapp (if bool_decide (is_Some (OCSPStaple c)) then
          enc_ext extensionStatusRequest
            (oapp (Some (be_put 1 statusTypeOCSP)) (prefixed 3 (Some (default [] (OCSPStaple c)))))
        else Some [])
       (if bool_decide (is_Some (SignedCertificateTimestamps c)) then
          enc_ext extensionSCT
            (prefixed 2 (oconcat ((fun v => prefixed 2 (Some v)) <$> default [] (SignedCertificateTimestamps c))))
        else Some []).

Lemma appends_leaf c : appends (certificateMsgTLS13.leaf_exts B c) (leaf_enc c).
Proof.
  unfold certificateMsgTLS13.leaf_exts, leaf_enc. apply appends_then.
  - destruct (OCSPStaple c) as [s|]; [apply appends_ext; appends_tac|apply appends_id].
  - destruct (SignedCertificateTimestamps c) as [l|]; [apply appends_ext; appends_tac|apply appends_id].
Qed.

Definition cert_enc (c : Certificate) (p : nat * bytes) : option bytes :=
  oapp (prefixed 3 (Some (snd p))) (prefixed 2 (if negb (0 <? fst p)%nat then leaf_enc c else Some [])).

Lemma appends_marshalCertificate c : appends (certificateMsgTLS13.marshalCertificate B c)
  (prefixed 3 (oconcat (cert_enc c <$> imap (fun i cert => (i, cert)) (Certificate_ c)))).
Proof.
  apply AddUint24LengthPrefixed_spec, appends_for_each. intros [i cert].
  apply appends_then; [appends_tac|]. apply AddUint16LengthPrefixed_spec, appends_when, appends_leaf.
Qed.

(** The staple and the timestamps, when there are any, are not empty. *)
Definition leaf_ok (c : Certificate) : Prop :=
  OCSPStaple c <> Some [] /\
  (forall l, SignedCertificateTimestamps c = Some l -> l <> [] /\ Forall (fun v => v <> []) l).

Lemma leaf_read c cert z : leaf_ok c -> leaf_enc c = Some z ->
  read_exts false certificateMsgTLS13.ext_handler z (mkCertificate [cert] None None) =
  Some (mkCertificate [cert] (OCSPStaple c) (SignedCertificateTimestamps c)).
Proof.
  intros [Ho Hs] Hz. unfold leaf_enc in Hz. inv_enc. start_exts.
  run_block (mkCertificate [cert] (OCSPStaple c) None).
  { unfold certificateMsgTLS13.ext_handler. cbn [Certificate_ length Nat.ltb Nat.leb]. eval_eqb. inv_enc. reads.
    eval_eqb. cbn [negb].
    destruct (OCSPStaple c) as [s|]; [|by apply bool_decide_eq_true, is_Some_None in Hpresent].
    by destruct s. }
  { apply bool_decide_eq_false, eq_None_not_Some in Habsent. by rewrite Habsent. }
  run_block (mkCertificate [cert] (OCSPStaple c) (SignedCertificateTimestamps c)).
  { unfold certificateMsgTLS13.ext_handler. cbn [Certificate_ length Nat.ltb Nat.leb]. eval_eqb.
    destruct (SignedCertificateTimestamps c) as [l|]; [|by apply bool_decide_eq_true, is_Some_None in Hpresent].
    destruct (Hs l eq_refl) as [Hl Hl']. cbn [default] in *. inv_enc.
    rewrite ReadUint16LengthPrefixed_spec, (nonempty_Some _ x1 []); cbn [mbind option_bind].
    - cbn [SignedCertificateTimestamps default]. by rewrite (readScts_put l x1 []).
    - eapply oconcat_ne; [|exact Hl|eassumption]. intros v b. apply prefixed_ne. lia.
    - by apply read_prefixed_put_nil. }
  { apply bool_decide_eq_false, eq_None_not_Some in Habsent. by rewrite Habsent. }
  apply run_exts_nil.
Qed.

Lemma read_cert_consumes : consumes certificateMsgTLS13.read_cert.
Proof.
  intros s c c' s'. unfold certificateMsgTLS13.read_cert, readUint24LengthPrefixed.
  rewrite ReadUint24LengthPrefixed_spec.
  destruct (read_prefixed 3 s) as [[cert s1]|] eqn:E1; [|done]. cbn [mbind option_bind].
  rewrite ReadUint16LengthPrefixed_spec.
  destruct (read_prefixed 2 s1) as [[e s2]|] eqn:E2; [|done]. cbn [mbind option_bind].
  destruct (read_exts _ _ _ _); [|done]. intros [= _ <-].
  apply read_prefixed_length in E1, E2. lia.
Qed.

Lemma read_cert_step c0 cert e y z c c' : prefixed 3 (Some cert) = Some y -> prefixed 2 (Some e) = Some z ->
  read_exts false certificateMsgTLS13.ext_handler e
    (mkCertificate (Certificate_ c ++ [cert]) (OCSPStaple c) (SignedCertificateTimestamps c)) = Some c' ->
  until_empty certificateMsgTLS13.read_cert ((y ++ z) ++ c0) c = until_empty certificateMsgTLS13.read_cert c0 c'.
Proof.
  intros Hy Hz Hr. pose proof (prefixed_ne 3 _ _ ltac:(lia) Hy) as Hne.
  rewrite until_empty_cons; [|apply read_cert_consumes|by destruct y].
  assert (E : certificateMsgTLS13.read_cert ((y ++ z) ++ c0) c = Some (c', c0)).
  { unfold certificateMsgTLS13.read_cert. inv_enc. reads. by rewrite Hr. }
  by rewrite E.
Qed.

Lemma read_rest_certs c rest z : forall acc,
  Certificate_ acc <> [] ->
  oconcat (cert_enc c <$> imap (fun i cert => (Datatypes.S i, cert)) rest) = Some z ->
  until_empty certificateMsgTLS13.read_cert z acc =
  Some (mkCertificate (Certificate_ acc ++ rest) (OCSPStaple acc) (SignedCertificateTimestamps acc)).
Proof.
  revert z. induction rest as [|cert rest IH]; intros z acc Hacc Hz.
  { injection Hz as <-. rewrite app_nil_r. by destruct acc. }
  change (oapp (cert_enc c (1%nat, cert))
    (oconcat (cert_enc c <$> imap (fun i cert => (Datatypes.S (Datatypes.S i), cert)) rest)) = Some z) in Hz.
  assert (Hx : oconcat (cert_enc c <$> imap (fun i cert => (Datatypes.S (Datatypes.S i), cert)) rest) =
    oconcat (cert_enc c <$> imap (fun i cert => (Datatypes.S i, cert)) rest)).
  { f_equal. rewrite !fmap_imap. apply imap_ext. done. }
  rewrite Hx in Hz. apply oapp_Some in Hz as (y & z' & Hy & Hz' & ->).
  apply oapp_Some in Hy as (y1 & y2 & Hy1 & Hy2 & ->). cbn [fst snd Nat.ltb Nat.leb negb] in *.
  rewrite (read_cert_step z' cert [] y1 y2 acc _ Hy1 Hy2 eq_refl), (IH z' _); [|cbn; by destruct (Certificate_ acc)|done].
  cbn [snd Certificate_ OCSPStaple SignedCertificateTimestamps]. by rewrite <- app_assoc.
Qed.

(** A certificate as it is written, and read. *)
Definition certificate_enc (c : Certificate) : option bytes :=
  prefixed 3 (oconcat (cert_enc c <$> imap (fun i cert => (i, cert)) (Certificate_ c))).

(** Without certificates there is no leaf for the staple and the timestamps. *)
Definition certificate_ok (c : Certificate) : Prop :=
  leaf_ok c /\ (Certificate_ c = [] -> OCSPStaple c = None /\ SignedCertificateTimestamps c = None).

Lemma unmarshalCertificate_put c z rest : certificate_ok c -> certificate_enc c = Some z ->
  certificateMsgTLS13.unmarshalCertificate (z ++ rest) (mkCertificate [] None None) = Some (c, rest).
Proof.
  intros [Hok Hn] Hz. unfold certificate_enc in Hz. apply prefixed_Some in Hz as (z0 & He & Hl & ->).
  unfold certificateMsgTLS13.unmarshalCertificate. rewrite <- app_assoc. reads.
  assert (Hr : until_empty certificateMsgTLS13.read_cert z0 (mkCertificate [] None None) = Some c).
  { destruct c as [[|cert certs] st sc]; cbn [Certificate_ imap] in *.
    - destruct (Hn eq_refl) as [E1 E2]. cbn in E1, E2. subst st sc. by injection He as <-.
    - cbn [fmap list_fmap oconcat] in He. apply oapp_Some in He as (y & z' & Hy & Hz' & ->).
      apply oapp_Some in Hy as (y1 & y2 & Hy1 & Hy2 & ->). cbn [fst snd Nat.ltb Nat.leb negb] in *.
      destruct (leaf_enc _) as [e|] eqn:Hle; [|done].
      rewrite (read_cert_step z' cert e y1 y2 (mkCertificate [] None None) _ Hy1 Hy2 (leaf_read _ cert e Hok Hle)).
      by rewrite (read_rest_certs (mkCertificate (cert :: certs) st sc) certs z'). }
  by rewrite Hr.
Qed.

(** What is sent of the certificate. *)
Definition sent_certificate (m : certificateMsgTLS13.t) : Certificate :=
  let c := certificateMsgTLS13.certificate m in
  mkCertificate (Certificate_ c) (if certificateMsgTLS13.ocspStapling m then OCSPStaple c else None)
    (if certificateMsgTLS13.scts m then SignedCertificateTimestamps c else None).

Lemma certificateTLS13_roundtrip m data :
  let c := sent_certificate m in
  leaf_ok c -> (Certificate_ c = [] -> OCSPStaple c = None /\ SignedCertificateTimestamps c = None) ->
  certificateMsgTLS13.marshal B m = Ret data ->
  certificateMsgTLS13.unmarshal data = Some (certificateMsgTLS13.mk c (bool_decide (is_Some (OCSPStaple c)))
    (bool_decide (is_Some (SignedCertificateTimestamps c)))).
Proof.
  intros c Hok Hn. unfold certificateMsgTLS13.marshal.
  set (c' := if negb (certificateMsgTLS13.scts m) then _ else _).
  assert (Hc : c' = c).
  { unfold c', c, sent_certificate. destruct m as [[l st sc] [] []]; done. }
  clearbody c'. subst c'. intros Hm.
  apply (appends_new _ (oapp (Some (be_put 1 typeCertificate)) (prefixed 3 (oapp (Some (be_put 1 0))
    (prefixed 3 (oconcat (cert_enc c <$> imap (fun i cert => (i, cert)) (Certificate_ c)))))))) in Hm.
  2:{ apply appends_then; [appends_tac|]. apply AddUint24LengthPrefixed_spec, appends_then;
      [appends_tac|apply appends_marshalCertificate]. }
  fold (certificate_enc c) in Hm. destruct (certificate_enc c) as [zc|] eqn:Hzc; [|done].
  inv_enc. unfold certificateMsgTLS13.unmarshal. reads. cbn [Empty length Nat.eqb negb].
  rewrite <- (app_nil_r zc), (unmarshalCertificate_put c zc []) by done.
  cbn [mbind option_bind Empty length Nat.eqb negb].
  do 2 f_equal; [by destruct (OCSPStaple c)|by destruct (SignedCertificateTimestamps c)].
Qed.
End messages.

(** ** The messages parsed by hand *)

Lemma be16 a b : is_byte a -> is_byte b -> (a ≪ 8) ||| b = a * 256 + b.
Proof. intros Ha Hb. rewrite lor_shiftl_add by (unfold is_byte in *; lia). lia. Qed.

Lemma be24 a b c : is_byte a -> is_byte b -> is_byte c ->
  (a ≪ 16) ||| (b ≪ 8) ||| c = (a * 256 + b) * 256 + c.
Proof.
  intros Ha Hb Hc. replace (a ≪ 16) with ((a ≪ 8) ≪ 8) by (by rewrite Z.shiftl_shiftl).
  rewrite <- Z.shiftl_lor, lor_shiftl_add by (unfold is_byte in *; lia). rewrite be16 by done. lia.
Qed.

Lemma u8_is_byte x : is_byte (u8 x).
Proof. apply Z.mod_pos_bound. lia. Qed.

Lemma get24_u24 n s : 0 <= n < 2 ^ 24 -> get24 (u24_bytes n ++ s) 0 = n.
Proof.
  intros Hn. unfold get24, nth_byte. cbn [u24_bytes app nth Nat.add].
  rewrite be24 by apply u8_is_byte. unfold u8. rewrite !Z.shiftr_div_pow2 by lia. Z.div_mod_to_equations. lia.
Qed.

Lemma get16_u16 n s : 0 <= n < 2 ^ 16 -> get16 (u16_bytes n ++ s) 0 = n.
Proof.
  intros Hn. unfold get16, nth_byte. cbn [u16_bytes app nth Nat.add].
  rewrite be16 by apply u8_is_byte. unfold u8. rewrite !Z.shiftr_div_pow2 by lia. Z.div_mod_to_equations. lia.
Qed.

Lemma get24_S x d i : get24 (x :: d) (Datatypes.S i) = get24 d i.
Proof. done. Qed.
Lemma get16_S x d i : get16 (x :: d) (Datatypes.S i) = get16 d i.
Proof. done. Qed.

Lemma len_app {T} (a b : list T) : len (a ++ b) = len a + len b.
Proof. unfold len. rewrite length_app. lia. Qed.
Lemma len_cons {T} (x : T) l : len (x :: l) = 1 + len l.
Proof. unfold len. cbn [length]. lia. Qed.
Lemma len_to_nat {T} (l : list T) : Z.to_nat (len l) = length l.
Proof. apply Nat2Z.id. Qed.
Lemma len_nonneg {T} (l : list T) : 0 <= len l.
Proof. unfold len. lia. Qed.
Lemma len_u24 n : len (u24_bytes n) = 3.
Proof. done. Qed.
Lemma len_u16 n : len (u16_bytes n) = 2.
Proof. done. Qed.
Lemma u32_small x : is_u32 x -> u32 x = x.
Proof. intros Hx. by apply Z.mod_small. Qed.

Lemma serverKeyExchange_roundtrip m : serverKeyExchangeMsg.unmarshal (serverKeyExchangeMsg.marshal m) = Some m.
Proof. by destruct m. Qed.

Lemma clientKeyExchange_roundtrip m : len (clientKeyExchangeMsg.ciphertext m) < 2 ^ 24 ->
  clientKeyExchangeMsg.unmarshal (clientKeyExchangeMsg.marshal m) = Some m.
Proof.
  intros Hl. destruct m as [c]. cbn [clientKeyExchangeMsg.ciphertext] in *. pose proof (len_nonneg c).
  unfold clientKeyExchangeMsg.unmarshal, clientKeyExchangeMsg.marshal. cbn [clientKeyExchangeMsg.ciphertext].
  rewrite (proj2 (Nat.ltb_ge _ _)) by (cbn; lia). cbn [app]. rewrite get24_S, get24_u24 by lia.
  rewrite len_cons, len_app, len_u24. rewrite (proj2 (Z.eqb_eq _ _)) by lia. done.
Qed.

Lemma newSessionTicket_roundtrip m : len (newSessionTicketMsg.ticket m) < 2 ^ 16 ->
  newSessionTicketMsg.unmarshal (newSessionTicketMsg.marshal m) = Some m.
Proof.
  intros Hl. destruct m as [c]. cbn [newSessionTicketMsg.ticket] in *. pose proof (len_nonneg c).
  unfold newSessionTicketMsg.unmarshal, newSessionTicketMsg.marshal. cbn [newSessionTicketMsg.ticket].
  set (rest := [0; 0; 0; 0] ++ u16_bytes (len c) ++ c).
  rewrite (proj2 (Nat.ltb_ge _ _)) by (unfold rest; cbn; lia).
  assert (Hlen : len ([typeNewSessionTicket] ++ u24_bytes (2 + 4 + len c) ++ rest) = 10 + len c).
  { unfold rest. cbn [app]. rewrite !len_cons, !len_app, !len_cons, len_u24, len_app, len_u16. lia. }
  rewrite Hlen. cbn [app]. rewrite get24_S, get24_u24 by lia. rewrite (u32_small (10 + len c)), u32_small by lia.
  rewrite (proj2 (Z.eqb_eq _ _)) by lia. cbn [negb].
  match goal with |- context [(nth_byte ?d 8 ≪ 8) + nth_byte ?d 9] =>
    change (nth_byte d 8) with (u8 (len c ≫ 8)); change (nth_byte d 9) with (u8 (len c)) end.
  rewrite Z.shiftl_mul_pow2 by lia. unfold u8. rewrite Z.shiftr_div_pow2 by lia.
  rewrite (proj2 (Z.eqb_eq _ _)) by (Z.div_mod_to_equations; lia). done.
Qed.

(** *** Certificate *)

Abbreviation cert_bytes l := (concat ((fun slice => u24_bytes (len slice) ++ slice) <$> l)).

Lemma get24_cert c s : len c < 2 ^ 24 -> get24 ((u24_bytes (len c) ++ c) ++ s) 0 = len c.
Proof. intros Hc. rewrite <- app_assoc. apply get24_u24. pose proof (len_nonneg c). lia. Qed.

Lemma drop_cert c s : drop (Z.to_nat (3 + len c)) ((u24_bytes (len c) ++ c) ++ s) = s.
Proof. apply drop_app_length'. rewrite length_app. unfold len. cbn [u24_bytes length]. lia. Qed.

Lemma count_certs_put stuck fuel l k : Forall (fun c => c <> []) l -> len (cert_bytes l) < 2 ^ 24 ->
  (length l <= fuel)%nat ->
  certificateMsg.count_certs_fuel stuck fuel (len (cert_bytes l)) (cert_bytes l) k = Some (k + length l)%nat.
Proof.
  revert fuel k. induction l as [|c l IH]; intros fuel k Hne Hl Hf.
  { destruct fuel; cbn; by rewrite Nat.add_0_r. }
  apply Forall_cons in Hne as [Hc Hne]. destruct fuel as [|fuel]; [simpl in Hf; lia|].
  cbn [fmap list_fmap concat] in *. rewrite len_app in Hl.
  assert (Hlc : len (u24_bytes (len c) ++ c) = 3 + len c) by (by rewrite len_app, len_u24).
  pose proof (len_nonneg (cert_bytes l)) as Hp. pose proof (len_nonneg c).
  assert (0 < len c) by (destruct c; [done|unfold len; cbn [length]; lia]).
  cbn [certificateMsg.count_certs_fuel]. rewrite get24_cert by lia. rewrite drop_cert, len_app, Hlc.
  rewrite (proj2 (Z.ltb_lt _ _)) by lia. cbn [negb].
  rewrite (proj2 (Nat.ltb_ge _ _)) by (rewrite !length_app; unfold len in *; cbn [u24_bytes length]; lia).
  rewrite !(u32_small (3 + len c)), !u32_small by lia.
  rewrite (proj2 (Z.ltb_ge _ _)) by lia.
  replace (3 + len c + len (cert_bytes l) - (3 + len c)) with (len (cert_bytes l)) by lia.
  rewrite IH; [f_equal; cbn [length]; lia|done|lia|cbn [length] in Hf; lia].
Qed.

Lemma split_certs_put l : len (cert_bytes l) < 2 ^ 24 -> certificateMsg.split_certs (length l) (cert_bytes l) = l.
Proof.
  induction l as [|c l IH]; intros Hl; [done|]. cbn [fmap list_fmap concat] in *. rewrite len_app in Hl.
  pose proof (len_nonneg (cert_bytes l)). pose proof (len_nonneg c). rewrite len_app, len_u24 in Hl.
  cbn [length certificateMsg.split_certs]. rewrite get24_cert by lia.
  replace (3 + Z.to_nat (len c))%nat with (Z.to_nat (3 + len c)) by lia. rewrite drop_cert, IH by lia.
  f_equal. rewrite <- app_assoc. unfold len. rewrite Nat2Z.id. cbn [u24_bytes app drop].
  by rewrite drop_0, take_app_length.
Qed.

Lemma length_cert_bytes l : (length l <= length (cert_bytes l))%nat.
Proof.
  induction l as [|c l IH]; [done|]. cbn [fmap list_fmap concat length] in *. rewrite !length_app.
  cbn [u24_bytes length]. lia.
Qed.

Lemma cert_octets l i : 3 * len l + fold_left (fun i (slice : bytes) => i + len slice) l i = i + len (cert_bytes l).
Proof.
  revert i. induction l as [|c l IH]; intros i; cbn [fmap list_fmap concat fold_left]; [unfold len; cbn; lia|].
  rewrite !len_app, len_u24, len_cons. specialize (IH (i + len c)). lia.
Qed.

Lemma certificate_roundtrip m : Forall (fun c => c <> []) (certificateMsg.certificates m) ->
  len (cert_bytes (certificateMsg.certificates m)) + 3 < 2 ^ 24 ->
  certificateMsg.unmarshal (certificateMsg.marshal m) = Some m.
Proof.
  intros Hne Hl. destruct m as [l]. cbn [certificateMsg.certificates] in *.
  unfold certificateMsg.unmarshal, certificateMsg.marshal. cbn [certificateMsg.certificates].
  rewrite (Z.add_comm (3 + 3 * len l)). pose proof (cert_octets l 0) as Ho.
  replace (_ + _) with (3 + len (cert_bytes l)) by lia. set (z := cert_bytes l) in *.
  pose proof (len_nonneg z).
  rewrite (proj2 (Nat.ltb_ge _ _)) by (rewrite !length_app; cbn [u24_bytes length]; lia).
  assert (Hlen : len ([typeCertificate] ++ u24_bytes (3 + len z) ++ u24_bytes (3 + len z - 3) ++ z) = 7 + len z).
  { rewrite !len_app, !len_u24. change (len [typeCertificate]) with 1. lia. }
  rewrite Hlen. cbn [app u24_bytes]. rewrite !get24_S.
  change (get24 _ 0) with (get24 (u24_bytes (3 + len z - 3) ++ z) 0). rewrite get24_u24 by lia.
  replace (3 + len z - 3) with (len z) by lia. rewrite (Z.add_comm 7), Z.eqb_refl. cbn [negb drop].
  unfold certificateMsg.count_certs. rewrite drop_0. pose proof (length_cert_bytes l) as Hll.
  assert (Hc : certificateMsg.count_certs_fuel None (Datatypes.S (length z)) (len z) z 0 = Some (length l)).
  { apply (count_certs_put None _ l 0); [done|fold z; lia|fold z in Hll; lia]. }
  rewrite Hc. cbn [mbind option_bind]. by rewrite split_certs_put by (fold z; lia).
Qed.

(** *** CertificateRequest *)

Abbreviation ca_bytes l := (concat ((fun ca => u16_bytes (len ca) ++ ca) <$> l)).
Abbreviation alg_bytes l := (concat (u16_bytes <$> l)).

Lemma cas_length l i : fold_left (fun n (ca : bytes) => n + (2 + len ca)) l i = i + len (ca_bytes l).
Proof.
  revert i. induction l as [|c l IH]; intros i; cbn [fmap list_fmap concat fold_left]; [unfold len; cbn; lia|].
  rewrite IH, !len_app, len_u16. lia.
Qed.

Lemma len_alg_bytes l : len (alg_bytes l) = 2 * len l.
Proof.
  induction l as [|a l IH]; [done|]. cbn [fmap list_fmap concat]. rewrite len_app, IH, len_u16, len_cons. lia.
Qed.

Lemma read_algs_put l s : Forall (fun v => is_u16 v) l ->
  certificateRequestMsg.read_algs (length l) (alg_bytes l ++ s) = l.
Proof.
  intros Hl. induction Hl as [|a l Ha _ IH]; [done|]. cbn [fmap list_fmap concat length certificateRequestMsg.read_algs].
  rewrite <- app_assoc, get16_u16 by done. f_equal. apply IH.
Qed.

Lemma read_cas_put stuck fuel l acc : len (ca_bytes l) < 2 ^ 16 -> (length l <= fuel)%nat ->
  certificateRequestMsg.read_cas_fuel stuck fuel (ca_bytes l) acc = Some (acc ++ l).
Proof.
  revert fuel acc. induction l as [|c l IH]; intros fuel acc Hl Hf.
  { destruct fuel; cbn; by rewrite app_nil_r. }
  destruct fuel as [|fuel]; [simpl in Hf; lia|]. cbn [fmap list_fmap concat length] in *.
  set (z := ca_bytes l) in *.
  rewrite !len_app, len_u16 in Hl. pose proof (len_nonneg c). pose proof (len_nonneg z).
  cbn [certificateRequestMsg.read_cas_fuel]. rewrite <- !app_assoc.
  rewrite get16_u16 by lia. cbn [u16_bytes app length Nat.eqb Nat.ltb Nat.leb drop]. rewrite drop_0.
  rewrite (proj2 (Z.ltb_ge _ _)) by (rewrite len_app; lia). rewrite len_to_nat.
  rewrite drop_app_length, take_app_length. rewrite IH by lia. by rewrite <- app_assoc.
Qed.

Lemma length_ca_bytes l : (length l <= length (ca_bytes l))%nat.
Proof.
  induction l as [|c l IH]; [done|]. cbn [fmap list_fmap concat length] in *. rewrite !length_app.
  cbn [u16_bytes length]. lia.
Qed.

Lemma read_sigalgs_put has algs s : Forall (fun v => is_u16 v) algs -> 2 * len algs < 2 ^ 16 ->
  certificateRequestMsg.read_sigalgs has [] ((if has then u16_bytes (len algs * 2) ++ alg_bytes algs else []) ++ s)
  = Some (if has then algs else [], s).
Proof.
  intros Ha Hl. destruct has; [|done]. unfold certificateRequestMsg.read_sigalgs. rewrite <- app_assoc.
  pose proof (len_nonneg algs). rewrite get16_u16 by lia.
  cbn [u16_bytes app length Nat.ltb Nat.leb drop]. rewrite drop_0.
  assert (Hand : Z.land (len algs * 2) 1 = 0).
  { change 1 with (Z.ones 1). rewrite Z.land_ones by lia. change (2 ^ 1) with 2. apply Z.mod_mul. lia. }
  rewrite Hand. cbn [Z.eqb negb]. rewrite (proj2 (Z.ltb_ge _ _)).
  2:{ rewrite len_app, len_alg_bytes. pose proof (len_nonneg s). lia. }
  rewrite Z.div_mul by lia. rewrite len_to_nat, read_algs_put by done.
  do 2 f_equal. apply drop_app_length'. pose proof (len_alg_bytes algs). unfold len in *. lia.
Qed.

Lemma certificateRequest_roundtrip m :
  let algs := certificateRequestMsg.supportedSignatureAlgorithms m in
  let cas := certificateRequestMsg.certificateAuthorities m in
  let types := certificateRequestMsg.certificateTypes m in
  Forall (fun v => is_u16 v) algs -> 2 * len algs < 2 ^ 16 -> len (ca_bytes cas) < 2 ^ 16 ->
  types <> [] -> len types < 256 ->
  certificateRequestMsg.unmarshal (certificateRequestMsg.marshal m)
    (certificateRequestMsg.mk (certificateRequestMsg.hasSignatureAlgorithm m) [] [] []) =
  Some (certificateRequestMsg.mk (certificateRequestMsg.hasSignatureAlgorithm m) types
    (if certificateRequestMsg.hasSignatureAlgorithm m then algs else []) cas).
Proof.
  destruct m as [has types algs cas]. cbn [certificateRequestMsg.supportedSignatureAlgorithms
    certificateRequestMsg.certificateAuthorities certificateRequestMsg.certificateTypes
    certificateRequestMsg.hasSignatureAlgorithm]. intros Ha Hal Hcl Hne Htl.
  unfold certificateRequestMsg.marshal. cbn [certificateRequestMsg.supportedSignatureAlgorithms
    certificateRequestMsg.certificateAuthorities certificateRequestMsg.certificateTypes
    certificateRequestMsg.hasSignatureAlgorithm].
  rewrite cas_length, Z.add_0_l. set (z := ca_bytes cas) in *.
  set (sig := if has then u16_bytes _ ++ _ else []).
  assert (Hsig : len sig = if has then 2 + 2 * len algs else 0).
  { unfold sig. destruct has; [|done]. by rewrite len_app, len_u16, len_alg_bytes. }
  pose proof (len_nonneg algs). pose proof (len_nonneg z).
  assert (0 < len types) by (destruct types; [done|unfold len; cbn [length]; lia]).
  set (n := 1 + len types + 2 + len z + _).
  assert (Hn : n = 1 + len types + len sig + 2 + len z) by (unfold n; rewrite Hsig; lia).
  assert (Hn24 : 0 <= n < 2 ^ 24) by (rewrite Hn, Hsig; destruct has; lia). clearbody n.
  unfold certificateRequestMsg.unmarshal.
  set (rest := types ++ sig ++ u16_bytes (len z) ++ z).
  assert (Hrest : len rest = n - 1) by (unfold rest; rewrite !len_app, len_u16; lia).
  change ([typeCertificateRequest] ++ u24_bytes n ++ [u8 (len types)] ++ rest) with
    (typeCertificateRequest :: (u24_bytes n ++ u8 (len types) :: rest)).
  rewrite (proj2 (Nat.ltb_ge _ _)) by (cbn [length]; rewrite length_app; cbn [u24_bytes length]; unfold len in Hrest; lia).
  rewrite get24_S, get24_u24 by done. rewrite len_cons, len_app, len_u24, len_cons, Hrest.
  rewrite (u32_small (1 + _)), u32_small by lia.
  rewrite (proj2 (Z.eqb_eq _ _)) by lia. cbn [negb u24_bytes app drop]. rewrite drop_0.
  match goal with |- context [nth_byte ?d 4] => change (nth_byte d 4) with (u8 (len types)) end.
  assert (H8 : u8 (len types) = len types) by (apply Z.mod_small; lia). rewrite H8.
  rewrite len_to_nat.
  assert (Hlr : length rest = (length types + length (sig ++ u16_bytes (len z) ++ z))%nat) by apply length_app.
  assert (Hlt : (0 < length types)%nat) by (destruct types; [done|cbn; lia]).
  rewrite (proj2 (Nat.eqb_neq _ _)), (proj2 (Nat.leb_gt _ _)) by
    (rewrite ?Hlr, ?length_app; cbn [u16_bytes length]; lia). cbn [orb].
  unfold rest. rewrite take_app_length, drop_app_length.
  assert (Hs : certificateRequestMsg.read_sigalgs has [] (sig ++ u16_bytes (len z) ++ z) =
    Some (if has then algs else [], u16_bytes (len z) ++ z)) by by apply read_sigalgs_put.
  cbn [certificateRequestMsg.hasSignatureAlgorithm certificateRequestMsg.supportedSignatureAlgorithms].
  rewrite Hs. cbn [mbind option_bind]. rewrite get16_u16 by lia.
  cbn [u16_bytes app length Nat.ltb Nat.leb drop]. rewrite drop_0, Z.ltb_irrefl, len_to_nat.
  rewrite (take_ge z), (drop_ge z) by lia.
  unfold certificateRequestMsg.read_cas, z. rewrite read_cas_put by (done || apply length_ca_bytes). done.
Qed.
