(* ===== verification/HelloProofs.v ===== *)
(** * Round trips of ClientHello and ServerHello *)

From S2P Require Import Prelude Common HalfConn Cryptobyte Hello WireProofs.

Open Scope go_scope.
#[local] Opaque be_put.

Section hello.
Context {B : Type} `{CryptoStringLaws} `{BuilderLaws B}.

(** ** Lists of the messages *)

Lemma read_suite_put l z acc f : Forall (fun v => is_u16 v) l ->
  oconcat ((fun v => Some (be_put 2 v)) <$> l) = Some z ->
  until_empty clientHelloMsg.read_suite z (acc, f) =
  Some (acc ++ l, f || existsb (Z.eqb scsvRenegotiation) l).
Proof.
  intros Hl. revert z acc f. induction Hl as [|v l Hv _ IH]; intros z acc f Hz.
  { injection Hz as <-. by rewrite app_nil_r, orb_false_r. }
  cbn [fmap list_fmap oconcat] in Hz. apply oapp_Some in Hz as (y & z' & Hy & Hz' & ->).
  apply Some_inj in Hy as <-. rewrite until_empty_cons; [| |done].
  - assert (E : clientHelloMsg.read_suite (be_put 2 v ++ z') (acc, f) =
      Some ((acc ++ [v], f || (v =? scsvRenegotiation)), z')).
    { unfold clientHelloMsg.read_suite. by reads. }
    rewrite E. cbn [mbind option_bind]. rewrite (IH z' _ _ Hz'). cbn [existsb].
    by rewrite <- app_assoc, orb_assoc, (Z.eqb_sym scsvRenegotiation v).
  - intros s [a b] acc' s'. unfold clientHelloMsg.read_suite. rewrite ReadUint16_spec.
    destruct (read_uint 2 s) as [[x r]|] eqn:E; [|done]. intros [= _ <-]. apply read_uint_length in E. lia.
Qed.

Lemma read_keyShares_put l z :
  Forall (fun ks => is_u16 (group ks) /\ ks_data ks <> []) l ->
  oconcat ((fun ks => oapp (Some (be_put 2 (group ks))) (prefixed 2 (Some (ks_data ks)))) <$> l) = Some z ->
  read_list clientHelloMsg.read_keyShare z [] = Some l.
Proof.
  intros Hl Hz. apply (read_list_put _ (fun ks => oapp (Some (be_put 2 (group ks))) (prefixed 2 (Some (ks_data ks))))
    l) with (acc := []); [| |done].
  - intros s x s'. unfold clientHelloMsg.read_keyShare, readUint16LengthPrefixed. rewrite ReadUint16_spec.
    destruct (read_uint 2 s) as [[g r]|] eqn:E; [|done]. cbn [mbind option_bind].
    destruct (nonempty _) as [[d r']|] eqn:E'; [|done]. intros [= _ <-].
    apply nonempty_inv in E' as [E' _]. rewrite ReadUint16LengthPrefixed_spec in E'.
    apply read_uint_length in E. apply read_prefixed_length in E'. lia.
  - eapply Forall_impl; [exact Hl|]. intros [g d] [Hg Hd] y s Hy. cbn [group ks_data] in *. inv_enc.
    split; [done|]. unfold clientHelloMsg.read_keyShare. reads. by destruct d.
Qed.

Lemma read_pskIdentities_put l z :
  Forall (fun p => label p <> [] /\ is_u32 (obfuscatedTicketAge p)) l ->
  oconcat ((fun p => oapp (prefixed 2 (Some (label p))) (Some (be_put 4 (obfuscatedTicketAge p)))) <$> l) = Some z ->
  read_list clientHelloMsg.read_pskIdentity z [] = Some l.
Proof.
  intros Hl Hz. apply (read_list_put _ (fun p => oapp (prefixed 2 (Some (label p))) (Some (be_put 4 (obfuscatedTicketAge p))))
    l) with (acc := []); [| |done].
  - intros s x s'. unfold clientHelloMsg.read_pskIdentity, readUint16LengthPrefixed.
    rewrite ReadUint16LengthPrefixed_spec.
    destruct (read_prefixed 2 s) as [[g r]|] eqn:E; [|done]. cbn [mbind option_bind]. rewrite ReadUint32_spec.
    destruct (read_uint 4 r) as [[d r']|] eqn:E'; [|done]. cbn [mbind option_bind].
    destruct (Empty g); [done|]. intros [= _ <-]. apply read_prefixed_length in E. apply read_uint_length in E'. lia.
  - eapply Forall_impl; [exact Hl|]. intros [lb age] [Hlb Ha] y s Hy. cbn [label obfuscatedTicketAge] in *. inv_enc.
    split; [done|]. unfold clientHelloMsg.read_pskIdentity. reads. by destruct lb.
Qed.

Lemma read_name_put name z : name <> [] -> clientHelloMsg.HasSuffix_dot name = false ->
  oapp (Some (be_put 1 0)) (prefixed 2 (Some name)) = Some z ->
  z <> [] /\ until_empty clientHelloMsg.read_name z [] = Some name.
Proof.
  intros Hn Hd Hz. inv_enc. split; [done|]. rewrite until_empty_cons; [| |done].
  - match goal with |- context [clientHelloMsg.read_name ?s []] =>
      assert (E : clientHelloMsg.read_name s [] = Some (name, [])) end.
    { unfold clientHelloMsg.read_name. reads. destruct name; [done|]. cbn [nonempty mbind option_bind Empty length Nat.eqb Z.eqb negb].
      by rewrite Hd. }
    by rewrite E.
  - intros s acc acc' s'. unfold clientHelloMsg.read_name. rewrite ReadUint8_spec.
    destruct (read_uint 1 s) as [[t r]|] eqn:E; [|done]. cbn [mbind option_bind].
    destruct (nonempty _) as [[nm r']|] eqn:E'; [|done]. cbn [mbind option_bind].
    apply nonempty_inv in E' as [E' _]. rewrite ReadUint16LengthPrefixed_spec in E'.
    apply read_uint_length in E. apply read_prefixed_length in E'. intros Q.
    assert (r' = s') as -> by (repeat case_match; congruence). lia.
Qed.

(** ** ClientHello *)

(** What a ClientHello must satisfy for its encoding to be read back. *)
Record clientHello_ok (m : clientHelloMsg.t) : Prop := {
  ok_vers : is_u16 (clientHelloMsg.vers m);
  ok_suites : Forall (fun v => is_u16 v) (clientHelloMsg.cipherSuites m);
  ok_scsv : scsvRenegotiation ∈ clientHelloMsg.cipherSuites m -> clientHelloMsg.secureRenegotiationSupported m = true;
  ok_name : clientHelloMsg.HasSuffix_dot (clientHelloMsg.serverName m) = false;
  ok_curves : Forall (fun v => is_u16 v) (clientHelloMsg.supportedCurves m);
  ok_ticket : clientHelloMsg.ticketSupported m = false -> clientHelloMsg.sessionTicket m = [];
  ok_algs : Forall (fun v => is_u16 v) (clientHelloMsg.supportedSignatureAlgorithms m);
  ok_algsCert : Forall (fun v => is_u16 v) (clientHelloMsg.supportedSignatureAlgorithmsCert m);
  ok_reneg : clientHelloMsg.secureRenegotiationSupported m = false -> clientHelloMsg.secureRenegotiation m = [];
  ok_alpn : Forall (fun v => v <> []) (clientHelloMsg.alpnProtocols m);
  ok_versions : Forall (fun v => is_u16 v) (clientHelloMsg.supportedVersions m);
  ok_shares : Forall (fun ks => is_u16 (group ks) /\ ks_data ks <> []) (clientHelloMsg.keyShares m);
  ok_psks : Forall (fun p => label p <> [] /\ is_u32 (obfuscatedTicketAge p)) (clientHelloMsg.pskIdentities m);
  ok_binders : Forall (fun v => v <> []) (clientHelloMsg.pskBinders m);
  ok_psk_binders : clientHelloMsg.pskBinders m = [] <-> clientHelloMsg.pskIdentities m = []
}.

(** An extension of a type was seen when [c]. *)
Definition add_ext (c : bool) (typ : Z) (m : clientHelloMsg.t) : clientHelloMsg.t :=
  clientHelloMsg.set_extensions (clientHelloMsg.extensions m ++ if c then [typ] else []) m.

Lemma add_ext_false typ m : add_ext false typ m = m.
Proof. destruct m. unfold add_ext. cbn. by rewrite app_nil_r. Qed.

(** The extensions of [m], in the order they are written. *)
Definition ext_types (m : clientHelloMsg.t) : list Z :=
  fold_left (fun l '(c, typ) => l ++ if c : bool then [typ : Z] else []) [
    (nonempty_list (clientHelloMsg.serverName m), extensionServerName);
    (nonempty_list (clientHelloMsg.supportedPoints m), extensionSupportedPoints);
    (clientHelloMsg.ticketSupported m, extensionSessionTicket);
    (clientHelloMsg.secureRenegotiationSupported m, extensionRenegotiationInfo);
    (clientHelloMsg.extendedMasterSecret m, extensionExtendedMasterSecret);
    (clientHelloMsg.scts m, extensionSCT);
    (clientHelloMsg.earlyData m, extensionEarlyData);
    (match clientHelloMsg.quicTransportParameters m with Some _ => true | None => false end, extensionQUICTransportParameters);
    (nonempty_list (clientHelloMsg.encryptedClientHello m), extensionEncryptedClientHello);
    (clientHelloMsg.ocspStapling m, extensionStatusRequest);
    (nonempty_list (clientHelloMsg.supportedCurves m), extensionSupportedCurves);
    (nonempty_list (clientHelloMsg.supportedSignatureAlgorithms m), extensionSignatureAlgorithms);
    (nonempty_list (clientHelloMsg.supportedSignatureAlgorithmsCert m), extensionSignatureAlgorithmsCert);
    (nonempty_list (clientHelloMsg.alpnProtocols m), extensionALPN);
    (nonempty_list (clientHelloMsg.supportedVersions m), extensionSupportedVersions);
    (nonempty_list (clientHelloMsg.cookie m), extensionCookie);
    (nonempty_list (clientHelloMsg.keyShares m), extensionKeyShare);
    (nonempty_list (clientHelloMsg.pskModes m), extensionPSKModes);
    (nonempty_list (clientHelloMsg.pskIdentities m), extensionPreSharedKey)]
  [].

(** The message before the extensions, and as it is received. *)
Definition ch_init (data : bytes) (m : clientHelloMsg.t) : clientHelloMsg.t :=
  clientHelloMsg.set_compressionMethods (clientHelloMsg.compressionMethods m)
    (clientHelloMsg.set_secureRenegotiationSupported
      (existsb (Z.eqb scsvRenegotiation) (clientHelloMsg.cipherSuites m))
    (clientHelloMsg.set_cipherSuites (clientHelloMsg.cipherSuites m)
    (clientHelloMsg.set_sessionId (clientHelloMsg.sessionId m)
    (clientHelloMsg.set_random (clientHelloMsg.random m)
    (clientHelloMsg.set_vers (clientHelloMsg.vers m)
    (clientHelloMsg.set_original (Some data) clientHelloMsg.zero)))))).

Definition received (data : bytes) (m : clientHelloMsg.t) : clientHelloMsg.t :=
  clientHelloMsg.set_original (Some data) (clientHelloMsg.set_extensions (ext_types m) m).

Lemma ch_no_scsv m : clientHello_ok m -> clientHelloMsg.secureRenegotiationSupported m = false ->
  existsb (Z.eqb scsvRenegotiation) (clientHelloMsg.cipherSuites m) = false.
Proof.
  intros Hok Hf. apply not_true_is_false. intros Q. apply existsb_exists in Q as (v & Hv & Q).
  apply Z.eqb_eq in Q. subst v. apply list_elem_of_In, (ok_scsv m Hok) in Hv. congruence.
Qed.

Ltac present Hp mi := unfold clientHelloMsg.ext_handler; eval_eqb; unfold mi, add_ext; rewrite ?Hp.
Ltac absent Ha := rewrite ?Ha, add_ext_false;
  match goal with |- _ = ?M => destruct M; cbn in *; subst; reflexivity end.
(** The value of a non-empty slice after its length. *)
Ltac ne_read Hp :=
  let Hne := fresh "Hne" in
  pose proof (nonempty_list_true _ Hp) as Hne; inv_enc; reads; rewrite (nonempty_Some _ _ _ Hne eq_refl);
  reflexivity.
(** The elements [z0] of a non-empty list after their length. *)
Ltac list_read Hp Hbody z0 Hz0 Hz1 :=
  apply prefixed_Some in Hbody as (z0 & Hz0 & ? & ->);
  lazymatch type of Hz0 with oconcat (?enc <$> ?l) = _ =>
    assert (Hz1 : z0 <> []) by
      (apply (oconcat_ne enc l); [|exact (nonempty_list_true _ Hp)|exact Hz0];
       intros v0 b0 Hb0; first [by apply Some_inj in Hb0 as <- | eapply prefixed_ne; [|exact Hb0]; lia
         | by apply oapp_Some in Hb0 as (? & ? & Hb1 & _ & ->); apply Some_inj in Hb1 as <-])
  end.

Lemma psk_read m m0 d s ids bs :
  clientHello_ok m -> clientHelloMsg.pskIdentities m <> [] -> s = [] ->
  prefixed 2 (oconcat ((fun psk => oapp (prefixed 2 (Some (label psk)))
    (Some (be_put 4 (obfuscatedTicketAge psk)))) <$> clientHelloMsg.pskIdentities m)) = Some ids ->
  prefixed 2 (oconcat ((fun v => prefixed 1 (Some v)) <$> clientHelloMsg.pskBinders m)) = Some bs ->
  d = ids ++ bs -> clientHelloMsg.pskIdentities m0 = [] -> clientHelloMsg.pskBinders m0 = [] ->
  clientHelloMsg.ext_handler extensionPreSharedKey d s m0 =
  Some (clientHelloMsg.set_pskBinders (clientHelloMsg.pskBinders m)
    (clientHelloMsg.set_pskIdentities (clientHelloMsg.pskIdentities m) (add_ext true extensionPreSharedKey m0)), []).
Proof.
  intros Hok Hne -> Hi Hb -> H0i H0b. unfold clientHelloMsg.ext_handler. eval_eqb. cbn [Empty length Nat.eqb negb].
  apply prefixed_Some in Hi as (zi & Hzi & Hli & ->). apply prefixed_Some in Hb as (zb & Hzb & Hlb & ->).
  rewrite ReadUint16LengthPrefixed_spec, (nonempty_Some _ zi (be_put 2 (Z.of_nat (length zb)) ++ zb));
    [| |by apply read_prefixed_put].
  2:{ eapply oconcat_ne; [|exact Hne|exact Hzi]. intros v b Hv.
      apply oapp_Some in Hv as (y1 & y2 & Hy & _ & ->). apply prefixed_ne in Hy; [|lia]. by destruct y1. }
  cbn [mbind option_bind].
  change (clientHelloMsg.pskIdentities (clientHelloMsg.set_extensions _ _)) with (clientHelloMsg.pskIdentities m0).
  rewrite H0i, (read_pskIdentities_put _ zi (ok_psks m Hok) Hzi). cbn [mbind option_bind].
  rewrite ReadUint16LengthPrefixed_spec, (nonempty_Some _ zb []); [| |by apply read_prefixed_put_nil].
  2:{ eapply oconcat_ne; [| |exact Hzb].
      - intros v b Hv. apply prefixed_ne in Hv; [done|lia].
      - intros Q. by apply Hne, (ok_psk_binders m Hok). }
  cbn [mbind option_bind].
  change (clientHelloMsg.pskBinders (clientHelloMsg.set_extensions _ _)) with (clientHelloMsg.pskBinders m0).
  by rewrite H0b, (readProtos_put _ zb _ (ok_binders m Hok) Hzb).
Qed.

Lemma clientHello_exts m data ext_bytes :
  clientHello_ok m ->
  Bytes (clientHelloMsg.marshal_exts B false m NewBuilder) = Ret ext_bytes ->
  run_exts true clientHelloMsg.ext_handler [] ext_bytes (ch_init data m) = Some (received data m).
Proof.
  intros Hok Hb. unfold clientHelloMsg.marshal_exts, clientHelloMsg.compressible in Hb.
  built Hb. inv_enc. cbn [negb] in *. rewrite ?andb_true_r, ?andb_false_r in *. inv_enc.
  assert (Hseen : ([] : list Z) ⊆ []) by done. set (m0 := ch_init data m).
  set (m1 := clientHelloMsg.set_serverName (clientHelloMsg.serverName m) (add_ext (nonempty_list (clientHelloMsg.serverName m)) extensionServerName m0)).
  assert (DserverName : clientHelloMsg.serverName m0 = []) by reflexivity.
  run_block m1.
  { present Hpresent m1. clearbody m0. 
    change (clientHelloMsg.serverName (clientHelloMsg.set_extensions _ m0)) with (clientHelloMsg.serverName m0). rewrite DserverName.
    apply prefixed_Some in Hbody as (z0 & Hz0 & Hl & ->).
    destruct (read_name_put _ z0 (nonempty_list_true _ Hpresent) (ok_name m Hok) Hz0) as [Hz1 Hz2].
    rewrite ReadUint16LengthPrefixed_spec, (nonempty_Some _ z0 []); [|done|by apply read_prefixed_put_nil].
    cbn [mbind option_bind].
    rewrite Hz2. reflexivity. }
  { unfold m1. clearbody m0. rewrite (nonempty_list_false _ Habsent) at 1. absent Habsent. }
  clear DserverName.
  set (m2 := clientHelloMsg.set_supportedPoints (clientHelloMsg.supportedPoints m) (add_ext (nonempty_list (clientHelloMsg.supportedPoints m)) extensionSupportedPoints m1)).
  assert (DsupportedPoints : clientHelloMsg.supportedPoints m1 = []) by reflexivity.
  run_block m2.
  { present Hpresent m2. clearbody m1. ne_read Hpresent. }
  { unfold m2. clearbody m1. rewrite (nonempty_list_false _ Habsent) at 1. absent Habsent. }
  clear DsupportedPoints.
  set (m3 := clientHelloMsg.set_sessionTicket (clientHelloMsg.sessionTicket m) (clientHelloMsg.set_ticketSupported (clientHelloMsg.ticketSupported m) (add_ext (clientHelloMsg.ticketSupported m) extensionSessionTicket m2))).
  assert (DticketSupported : clientHelloMsg.ticketSupported m2 = false) by reflexivity.
  assert (DsessionTicket : clientHelloMsg.sessionTicket m2 = []) by reflexivity.
  run_block m3.
  { present Hpresent m3. clearbody m2. inv_enc. reads. reflexivity. }
  { unfold m3. clearbody m2. rewrite (ok_ticket m Hok Habsent). absent Habsent. }
  clear DticketSupported DsessionTicket.
  set (m4 := clientHelloMsg.set_secureRenegotiationSupported (clientHelloMsg.secureRenegotiationSupported m) (clientHelloMsg.set_secureRenegotiation (clientHelloMsg.secureRenegotiation m) (add_ext (clientHelloMsg.secureRenegotiationSupported m) extensionRenegotiationInfo m3))).
  assert (DsecureRenegotiation : clientHelloMsg.secureRenegotiation m3 = []) by reflexivity.
  assert (DsecureRenegotiationSupported : clientHelloMsg.secureRenegotiationSupported m = false -> clientHelloMsg.secureRenegotiationSupported m3 = false) by exact (ch_no_scsv m Hok).
  run_block m4.
  { present Hpresent m4. clearbody m3. inv_enc. reads. reflexivity. }
  { unfold m4. clearbody m3. rewrite (ok_reneg m Hok Habsent). apply DsecureRenegotiationSupported in Habsent as Hsrs. absent Habsent. }
  clear DsecureRenegotiation DsecureRenegotiationSupported.
  set (m5 := clientHelloMsg.set_extendedMasterSecret (clientHelloMsg.extendedMasterSecret m) (add_ext (clientHelloMsg.extendedMasterSecret m) extensionExtendedMasterSecret m4)).
  assert (DextendedMasterSecret : clientHelloMsg.extendedMasterSecret m4 = false) by reflexivity.
  run_block m5.
  { present Hpresent m5. clearbody m4. inv_enc. reflexivity. }
  { unfold m5. clearbody m4. absent Habsent. }
  clear DextendedMasterSecret.
  set (m6 := clientHelloMsg.set_scts (clientHelloMsg.scts m) (add_ext (clientHelloMsg.scts m) extensionSCT m5)).
  assert (Dscts : clientHelloMsg.scts m5 = false) by reflexivity.
  run_block m6.
  { present Hpresent m6. clearbody m5. inv_enc. reflexivity. }
  { unfold m6. clearbody m5. absent Habsent. }
  clear Dscts.
  set (m7 := clientHelloMsg.set_earlyData (clientHelloMsg.earlyData m) (add_ext (clientHelloMsg.earlyData m) extensionEarlyData m6)).
  assert (DearlyData : clientHelloMsg.earlyData m6 = false) by reflexivity.
  run_block m7.
  { present Hpresent m7. clearbody m6. inv_enc. reflexivity. }
  { unfold m7. clearbody m6. absent Habsent. }
  clear DearlyData.
  set (m8 := clientHelloMsg.set_quicTransportParameters (clientHelloMsg.quicTransportParameters m) (add_ext (match clientHelloMsg.quicTransportParameters m with Some _ => true | None => false end) extensionQUICTransportParameters m7)).
  assert (DquicTransportParameters : clientHelloMsg.quicTransportParameters m7 = None) by reflexivity.
  run_block m8.
  { present Hpresent m8. clearbody m7. inv_enc. reads. by destruct (clientHelloMsg.quicTransportParameters m). }
  { unfold m8. clearbody m7. destruct (clientHelloMsg.quicTransportParameters m) eqn:Hq; [done|]. absent Habsent. }
  clear DquicTransportParameters.
  set (m9 := clientHelloMsg.set_encryptedClientHello (clientHelloMsg.encryptedClientHello m) (add_ext (nonempty_list (clientHelloMsg.encryptedClientHello m)) extensionEncryptedClientHello m8)).
  assert (DencryptedClientHello : clientHelloMsg.encryptedClientHello m8 = []) by reflexivity.
  run_block m9.
  { present Hpresent m9. clearbody m8. inv_enc. reads. reflexivity. }
  { unfold m9. clearbody m8. rewrite (nonempty_list_false _ Habsent) at 1. absent Habsent. }
  clear DencryptedClientHello.
  set (m10 := clientHelloMsg.set_ocspStapling (clientHelloMsg.ocspStapling m) (add_ext (clientHelloMsg.ocspStapling m) extensionStatusRequest m9)).
  assert (DocspStapling : clientHelloMsg.ocspStapling m9 = false) by reflexivity.
  run_block m10.
  { present Hpresent m10. clearbody m9. inv_enc. reads. reflexivity. }
  { unfold m10. clearbody m9. absent Habsent. }
  clear DocspStapling.
  set (m11 := clientHelloMsg.set_supportedCurves (clientHelloMsg.supportedCurves m) (add_ext (nonempty_list (clientHelloMsg.supportedCurves m)) extensionSupportedCurves m10)).
  assert (DsupportedCurves : clientHelloMsg.supportedCurves m10 = []) by reflexivity.
  run_block m11.
  { present Hpresent m11. clearbody m10. 
    change (clientHelloMsg.supportedCurves (clientHelloMsg.set_extensions _ m10)) with (clientHelloMsg.supportedCurves m10). rewrite DsupportedCurves.
    by rewrite (read_uint16_list_opt _ _ _ _ (ok_curves m Hok) (nonempty_list_true _ Hpresent) Hbody eq_refl). }
  { unfold m11. clearbody m10. rewrite (nonempty_list_false _ Habsent) at 1. absent Habsent. }
  clear DsupportedCurves.
  set (m12 := clientHelloMsg.set_supportedSignatureAlgorithms (clientHelloMsg.supportedSignatureAlgorithms m) (add_ext (nonempty_list (clientHelloMsg.supportedSignatureAlgorithms m)) extensionSignatureAlgorithms m11)).
  assert (DsupportedSignatureAlgorithms : clientHelloMsg.supportedSignatureAlgorithms m11 = []) by reflexivity.
  run_block m12.
  { present Hpresent m12. clearbody m11. 
    change (clientHelloMsg.supportedSignatureAlgorithms (clientHelloMsg.set_extensions _ m11)) with (clientHelloMsg.supportedSignatureAlgorithms m11). rewrite DsupportedSignatureAlgorithms.
    by rewrite (read_uint16_list_opt _ _ _ _ (ok_algs m Hok) (nonempty_list_true _ Hpresent) Hbody eq_refl). }
  { unfold m12. clearbody m11. rewrite (nonempty_list_false _ Habsent) at 1. absent Habsent. }
  clear DsupportedSignatureAlgorithms.
  set (m13 := clientHelloMsg.set_supportedSignatureAlgorithmsCert (clientHelloMsg.supportedSignatureAlgorithmsCert m) (add_ext (nonempty_list (clientHelloMsg.supportedSignatureAlgorithmsCert m)) extensionSignatureAlgorithmsCert m12)).
  assert (DsupportedSignatureAlgorithmsCert : clientHelloMsg.supportedSignatureAlgorithmsCert m12 = []) by reflexivity.
  run_block m13.
  { present Hpresent m13. clearbody m12. 
    change (clientHelloMsg.supportedSignatureAlgorithmsCert (clientHelloMsg.set_extensions _ m12)) with (clientHelloMsg.supportedSignatureAlgorithmsCert m12). rewrite DsupportedSignatureAlgorithmsCert.
    by rewrite (read_uint16_list_opt _ _ _ _ (ok_algsCert m Hok) (nonempty_list_true _ Hpresent) Hbody eq_refl). }
  { unfold m13. clearbody m12. rewrite (nonempty_list_false _ Habsent) at 1. absent Habsent. }
  clear DsupportedSignatureAlgorithmsCert.
  set (m14 := clientHelloMsg.set_alpnProtocols (clientHelloMsg.alpnProtocols m) (add_ext (nonempty_list (clientHelloMsg.alpnProtocols m)) extensionALPN m13)).
  assert (DalpnProtocols : clientHelloMsg.alpnProtocols m13 = []) by reflexivity.
  run_block m14.
  { present Hpresent m14. clearbody m13. 
    change (clientHelloMsg.alpnProtocols (clientHelloMsg.set_extensions _ m13)) with (clientHelloMsg.alpnProtocols m13). rewrite DalpnProtocols.
    list_read Hpresent Hbody z0 Hz0 Hz1. rewrite ReadUint16LengthPrefixed_spec, (nonempty_Some _ z0 []);
      [|exact Hz1|by apply read_prefixed_put_nil].
    cbn [mbind option_bind]. by rewrite (readProtos_put _ z0 _ (ok_alpn m Hok) Hz0). }
  { unfold m14. clearbody m13. rewrite (nonempty_list_false _ Habsent) at 1. absent Habsent. }
  clear DalpnProtocols.
  set (m15 := clientHelloMsg.set_supportedVersions (clientHelloMsg.supportedVersions m) (add_ext (nonempty_list (clientHelloMsg.supportedVersions m)) extensionSupportedVersions m14)).
  assert (DsupportedVersions : clientHelloMsg.supportedVersions m14 = []) by reflexivity.
  run_block m15.
  { present Hpresent m15. clearbody m14. 
    change (clientHelloMsg.supportedVersions (clientHelloMsg.set_extensions _ m14)) with (clientHelloMsg.supportedVersions m14). rewrite DsupportedVersions.
    list_read Hpresent Hbody z0 Hz0 Hz1. rewrite ReadUint8LengthPrefixed_spec, (nonempty_Some _ z0 []);
      [|exact Hz1|by apply read_prefixed_put_nil].
    cbn [mbind option_bind]. by rewrite (readUint16s_put _ z0 _ (ok_versions m Hok) Hz0). }
  { unfold m15. clearbody m14. rewrite (nonempty_list_false _ Habsent) at 1. absent Habsent. }
  clear DsupportedVersions.
  set (m16 := clientHelloMsg.set_cookie (clientHelloMsg.cookie m) (add_ext (nonempty_list (clientHelloMsg.cookie m)) extensionCookie m15)).
  assert (Dcookie : clientHelloMsg.cookie m15 = []) by reflexivity.
  run_block m16.
  { present Hpresent m16. clearbody m15. ne_read Hpresent. }
  { unfold m16. clearbody m15. rewrite (nonempty_list_false _ Habsent) at 1. absent Habsent. }
  clear Dcookie.
  set (m17 := clientHelloMsg.set_keyShares (clientHelloMsg.keyShares m) (add_ext (nonempty_list (clientHelloMsg.keyShares m)) extensionKeyShare m16)).
  assert (DkeyShares : clientHelloMsg.keyShares m16 = []) by reflexivity.
  run_block m17.
  { present Hpresent m17. clearbody m16. 
    change (clientHelloMsg.keyShares (clientHelloMsg.set_extensions _ m16)) with (clientHelloMsg.keyShares m16). rewrite DkeyShares.
    list_read Hpresent Hbody z0 Hz0 Hz1. reads. by rewrite (read_keyShares_put _ z0 (ok_shares m Hok) Hz0). }
  { unfold m17. clearbody m16. rewrite (nonempty_list_false _ Habsent) at 1. absent Habsent. }
  clear DkeyShares.
  set (m18 := clientHelloMsg.set_pskModes (clientHelloMsg.pskModes m) (add_ext (nonempty_list (clientHelloMsg.pskModes m)) extensionPSKModes m17)).
  assert (DpskModes : clientHelloMsg.pskModes m17 = []) by reflexivity.
  run_block m18.
  { present Hpresent m18. clearbody m17. inv_enc. reads. reflexivity. }
  { unfold m18. clearbody m17. rewrite (nonempty_list_false _ Habsent) at 1. absent Habsent. }
  clear DpskModes.
  set (m19 := clientHelloMsg.set_pskBinders (clientHelloMsg.pskBinders m) (clientHelloMsg.set_pskIdentities (clientHelloMsg.pskIdentities m) (add_ext (nonempty_list (clientHelloMsg.pskIdentities m)) extensionPreSharedKey m18))).
  assert (DpskIdentities : clientHelloMsg.pskIdentities m18 = []) by reflexivity.
  assert (DpskBinders : clientHelloMsg.pskBinders m18 = []) by reflexivity.
  run_block m19.
  { unfold m19. clearbody m18. rewrite Hpresent. apply oapp_Some in Hbody as (ids & bs & Hids & Hbs & ->).
    by apply (psk_read m m18 _ _ ids bs Hok (nonempty_list_true _ Hpresent)). }
  { unfold m19. clearbody m18. rewrite Habsent, (proj2 (ok_psk_binders m Hok) (nonempty_list_false _ Habsent)), (nonempty_list_false _ Habsent). absent Habsent. }
  clear DpskIdentities DpskBinders.
  rewrite run_exts_nil. f_equal.
Qed.

Lemma nonempty_list_eq {T} (l : list T) : nonempty_list l = negb (length l =? 0)%nat.
Proof. by destruct l. Qed.

Lemma clientHello_roundtrip m data : clientHello_ok m ->
  clientHelloMsg.marshal B m = Ret data -> clientHelloMsg.unmarshal data = Some (received data m).
Proof.
  intros Hok. unfold clientHelloMsg.marshal, clientHelloMsg.marshalMsg. intros Hm.
  destruct (Bytes (clientHelloMsg.marshal_exts B false m NewBuilder)) as [ext_bytes|e|w] eqn:Hx; [|done..].
  cbn [obind negb] in Hm. pose proof (clientHello_exts m data ext_bytes Hok Hx) as Hr. clear Hx.
  built Hm. inv_enc.
  destruct (Nat.eqb_spec (length (clientHelloMsg.random m)) 32) as [Hrl|]; [|done]. inv_enc.
  unfold clientHelloMsg.unmarshal. pose proof (ok_vers m Hok). reads.
  match goal with Hz : oconcat _ = Some _ |- _ =>
    rewrite (read_suite_put _ _ [] false (ok_suites m Hok) Hz) end.
  cbn [mbind option_bind app orb]. reads.
  match goal with Hz : (if nonempty_list ext_bytes then _ else _) = Some ?z |- _ => rename Hz into Hext; rename z into ze end.
  destruct ext_bytes as [|x0 xs]; cbn [nonempty_list length Nat.ltb Nat.leb] in Hext; inv_enc.
  - exact Hr.
  - cbn [Empty length Nat.eqb]. reads. cbn [Empty length Nat.eqb negb]. rewrite read_exts_run. exact Hr.
Qed.

(** ** ServerHello *)

Record serverHello_ok (m : serverHelloMsg.t) : Prop := {
  sh_vers : is_u16 (serverHelloMsg.vers m);
  sh_suite : is_u16 (serverHelloMsg.cipherSuite m);
  sh_compression : is_u8 (serverHelloMsg.compressionMethod m);
  sh_reneg : serverHelloMsg.secureRenegotiationSupported m = false -> serverHelloMsg.secureRenegotiation m = [];
  sh_scts : Forall (fun v => v <> []) (serverHelloMsg.scts m);
  sh_version : is_u16 (serverHelloMsg.supportedVersion m);
  sh_group : is_u16 (group (serverHelloMsg.serverShare m));
  sh_share : negb (group (serverHelloMsg.serverShare m) =? 0) = false ->
    serverHelloMsg.serverShare m = mkKeyShare 0 [];
  sh_identity : is_u16 (serverHelloMsg.selectedIdentity m);
  sh_noid : serverHelloMsg.selectedIdentityPresent m = false -> serverHelloMsg.selectedIdentity m = 0;
  sh_hrr : is_u16 (serverHelloMsg.selectedGroup m);
  sh_ech : serverHelloMsg.encryptedClientHello m <> Some [];
  (* a ServerHello has a share, a HelloRetryRequest has a group *)
  sh_one_key_share : group (serverHelloMsg.serverShare m) = 0 \/ serverHelloMsg.selectedGroup m = 0
}.

Definition sh_init (data : bytes) (m : serverHelloMsg.t) : serverHelloMsg.t :=
  serverHelloMsg.set_compressionMethod (serverHelloMsg.compressionMethod m)
    (serverHelloMsg.set_cipherSuite (serverHelloMsg.cipherSuite m)
    (serverHelloMsg.set_sessionId (serverHelloMsg.sessionId m)
    (serverHelloMsg.set_random (serverHelloMsg.random m)
    (serverHelloMsg.set_vers (serverHelloMsg.vers m)
    (serverHelloMsg.set_original (Some data) serverHelloMsg.zero))))).

Ltac sh_present Hp mi := unfold serverHelloMsg.ext_handler; eval_eqb; unfold mi; rewrite ?Hp.
Ltac sh_absent Ha :=
  rewrite ?Ha; match goal with |- _ = ?M => destruct M; cbn in *; subst; reflexivity end.

Lemma sublist_dec (l l' : list Z) : forallb (fun x => existsb (Z.eqb x) l') l = true -> l ⊆ l'.
Proof.
  intros Hl x Hx. apply forallb_forall with (x := x) in Hl; [|by apply list_elem_of_In].
  apply existsb_exists in Hl as (y & Hy & ->%Z.eqb_eq). by apply list_elem_of_In.
Qed.

(** The message after its last three extensions. *)
Definition sh_last (m m0 : serverHelloMsg.t) : serverHelloMsg.t :=
  serverHelloMsg.set_serverNameAck (serverHelloMsg.serverNameAck m)
    (serverHelloMsg.set_encryptedClientHello (serverHelloMsg.encryptedClientHello m)
    (serverHelloMsg.set_supportedPoints (serverHelloMsg.supportedPoints m)
    m0)).

Lemma serverHello_last m m0 seen z1 z2 z3 : serverHello_ok m ->
  serverHelloMsg.supportedPoints m0 = [] -> serverHelloMsg.encryptedClientHello m0 = None ->
  serverHelloMsg.serverNameAck m0 = false ->
  seen ⊆ [extensionStatusRequest; extensionSessionTicket; extensionRenegotiationInfo;
    extensionExtendedMasterSecret; extensionALPN; extensionSCT; extensionSupportedVersions;
    extensionKeyShare; extensionPreSharedKey; extensionCookie] ->
  (if nonempty_list (serverHelloMsg.supportedPoints m) then
    enc_ext extensionSupportedPoints (prefixed 1 (Some (serverHelloMsg.supportedPoints m))) else Some []) = Some z1 ->
  (if nonempty_list (default [] (serverHelloMsg.encryptedClientHello m)) then
    enc_ext extensionEncryptedClientHello (Some (default [] (serverHelloMsg.encryptedClientHello m))) else Some []) = Some z2 ->
  (if serverHelloMsg.serverNameAck m then enc_ext extensionServerName (Some []) else Some []) = Some z3 ->
  run_exts true serverHelloMsg.ext_handler seen (z1 ++ z2 ++ z3) m0 = Some (sh_last m m0).
Proof.
  intros Hok HDp HDe HDs Hseen Hz1 Hz2 Hz3.
  set (m1 := serverHelloMsg.set_supportedPoints (serverHelloMsg.supportedPoints m) m0).
  assert (DsupportedPoints : serverHelloMsg.supportedPoints m0 = []) by first [assumption | reflexivity].
  run_block m1.
  { sh_present Hpresent m1. try clearbody m0. ne_read Hpresent. }
  { unfold m1. try clearbody m0. rewrite (nonempty_list_false _ Habsent). sh_absent Habsent. }
  clear DsupportedPoints.
  set (m2 := serverHelloMsg.set_encryptedClientHello (serverHelloMsg.encryptedClientHello m) m1).
  assert (DencryptedClientHello : serverHelloMsg.encryptedClientHello m1 = None) by first [assumption | reflexivity].
  run_block m2.
  { sh_present Hpresent m2. try clearbody m1. inv_enc. reads.
    by destruct (serverHelloMsg.encryptedClientHello m). }
  { assert (Hn : serverHelloMsg.encryptedClientHello m = None).
    { pose proof (sh_ech m Hok). destruct (serverHelloMsg.encryptedClientHello m) as [[|]|]; done. }
    unfold m2. try clearbody m1. rewrite Hn. sh_absent Habsent. }
  clear DencryptedClientHello.
  set (m3 := serverHelloMsg.set_serverNameAck (serverHelloMsg.serverNameAck m) m2).
  assert (DserverNameAck : serverHelloMsg.serverNameAck m2 = false) by first [assumption | reflexivity].
  run_block m3.
  { sh_present Hpresent m3. try clearbody m2. inv_enc. reflexivity. }
  { unfold m3. try clearbody m2. sh_absent Habsent. }
  clear DserverNameAck.
  rewrite run_exts_nil. reflexivity.
Qed.

Lemma serverHello_exts m data ext_bytes :
  serverHello_ok m ->
  Bytes (serverHelloMsg.marshal_exts B m NewBuilder) = Ret ext_bytes ->
  run_exts true serverHelloMsg.ext_handler [] ext_bytes (sh_init data m) =
  Some (serverHelloMsg.set_original (Some data) m).
Proof.
  intros Hok Hb. unfold serverHelloMsg.marshal_exts in Hb. built Hb. inv_enc.
  assert (Hseen : ([] : list Z) ⊆ []) by done. set (m0 := sh_init data m).
  set (m1 := serverHelloMsg.set_ocspStapling (serverHelloMsg.ocspStapling m) m0).
  assert (DocspStapling : serverHelloMsg.ocspStapling m0 = false) by first [assumption | reflexivity].
  run_block m1.
  { sh_present Hpresent m1. try clearbody m0. inv_enc. reflexivity. }
  { unfold m1. try clearbody m0. sh_absent Habsent. }
  clear DocspStapling.
  set (m2 := serverHelloMsg.set_ticketSupported (serverHelloMsg.ticketSupported m) m1).
  assert (DticketSupported : serverHelloMsg.ticketSupported m1 = false) by first [assumption | reflexivity].
  run_block m2.
  { sh_present Hpresent m2. try clearbody m1. inv_enc. reflexivity. }
  { unfold m2. try clearbody m1. sh_absent Habsent. }
  clear DticketSupported.
  set (m3 := serverHelloMsg.set_secureRenegotiationSupported (serverHelloMsg.secureRenegotiationSupported m) (serverHelloMsg.set_secureRenegotiation (serverHelloMsg.secureRenegotiation m) m2)).
  assert (DsecureRenegotiation : serverHelloMsg.secureRenegotiation m2 = []) by first [assumption | reflexivity].
  assert (DsecureRenegotiationSupported : serverHelloMsg.secureRenegotiationSupported m2 = false) by first [assumption | reflexivity].
  run_block m3.
  { sh_present Hpresent m3. try clearbody m2. inv_enc. reads. reflexivity. }
  { unfold m3. try clearbody m2. rewrite (sh_reneg m Hok Habsent). sh_absent Habsent. }
  clear DsecureRenegotiation DsecureRenegotiationSupported.
  set (m4 := serverHelloMsg.set_extendedMasterSecret (serverHelloMsg.extendedMasterSecret m) m3).
  assert (DextendedMasterSecret : serverHelloMsg.extendedMasterSecret m3 = false) by first [assumption | reflexivity].
  run_block m4.
  { sh_present Hpresent m4. try clearbody m3. inv_enc. reflexivity. }
  { unfold m4. try clearbody m3. sh_absent Habsent. }
  clear DextendedMasterSecret.
  set (m5 := serverHelloMsg.set_alpnProtocol (serverHelloMsg.alpnProtocol m) m4).
  assert (DalpnProtocol : serverHelloMsg.alpnProtocol m4 = []) by first [assumption | reflexivity].
  run_block m5.
  { sh_present Hpresent m5. try clearbody m4. by rewrite (read_alpn_put _ _ (nonempty_list_true _ Hpresent) Hbody). }
  { unfold m5. try clearbody m4. rewrite (nonempty_list_false _ Habsent). sh_absent Habsent. }
  clear DalpnProtocol.
  set (m6 := serverHelloMsg.set_scts (serverHelloMsg.scts m) m5).
  assert (Dscts : serverHelloMsg.scts m5 = []) by first [assumption | reflexivity].
  run_block m6.
  { sh_present Hpresent m6. try clearbody m5. list_read Hpresent Hbody z0 Hz0 Hz1. rewrite ReadUint16LengthPrefixed_spec, (nonempty_Some _ z0 []);
      [|exact Hz1|by apply read_prefixed_put_nil].
    cbn [mbind option_bind]. by rewrite Dscts, (readScts_put _ z0 _ (sh_scts m Hok) Hz0). }
  { unfold m6. try clearbody m5. rewrite (nonempty_list_false _ Habsent). sh_absent Habsent. }
  clear Dscts.
  set (m7 := serverHelloMsg.set_supportedVersion (serverHelloMsg.supportedVersion m) m6).
  assert (DsupportedVersion : serverHelloMsg.supportedVersion m6 = 0) by first [assumption | reflexivity].
  run_block m7.
  { sh_present Hpresent m7. try clearbody m6. pose proof (sh_version m Hok). inv_enc. reads. reflexivity. }
  { unfold m7. try clearbody m6. apply negb_false_iff, Z.eqb_eq in Habsent. sh_absent Habsent. }
  clear DsupportedVersion.
  destruct (sh_one_key_share m Hok) as [Hg|Hg]; rewrite Hg in *;
    change (negb (0 =? 0)) with false in *; cbv iota in *; inv_enc; cbn [app].
  { 
    set (m8 := serverHelloMsg.set_selectedIdentity (serverHelloMsg.selectedIdentity m) (serverHelloMsg.set_selectedIdentityPresent (serverHelloMsg.selectedIdentityPresent m) m7)).
    assert (DselectedIdentityPresent : serverHelloMsg.selectedIdentityPresent m7 = false) by first [assumption | reflexivity].
    assert (DselectedIdentity : serverHelloMsg.selectedIdentity m7 = 0) by first [assumption | reflexivity].
    run_block m8.
    { sh_present Hpresent m8. try clearbody m7. pose proof (sh_identity m Hok). inv_enc. reads. reflexivity. }
    { unfold m8. try clearbody m7. rewrite (sh_noid m Hok Habsent). sh_absent Habsent. }
    clear DselectedIdentityPresent DselectedIdentity.
    set (m9 := serverHelloMsg.set_cookie (serverHelloMsg.cookie m) m8).
    assert (Dcookie : serverHelloMsg.cookie m8 = []) by first [assumption | reflexivity].
    run_block m9.
    { sh_present Hpresent m9. try clearbody m8. ne_read Hpresent. }
    { unfold m9. try clearbody m8. rewrite (nonempty_list_false _ Habsent). sh_absent Habsent. }
    clear Dcookie.
    set (m10 := serverHelloMsg.set_selectedGroup (serverHelloMsg.selectedGroup m) m9).
    assert (DselectedGroup : serverHelloMsg.selectedGroup m9 = 0) by first [assumption | reflexivity].
    run_block m10.
    { sh_present Hpresent m10. try clearbody m9. pose proof (sh_hrr m Hok). inv_enc. rewrite length_be_put. reads. reflexivity. }
    { unfold m10. try clearbody m9. apply negb_false_iff, Z.eqb_eq in Habsent. sh_absent Habsent. }
    clear DselectedGroup.
    transitivity (Some (sh_last m m10)).
    - eapply serverHello_last; [exact Hok|reflexivity|reflexivity|reflexivity| |eassumption..].
      match goal with Hs : ?s ⊆ ?l |- ?s ⊆ _ => by transitivity l; [|apply sublist_dec] end.
    - pose proof (sh_share m Hok) as Hs. rewrite Hg in Hs. specialize (Hs eq_refl).
      destruct m; cbn in Hs; subst; reflexivity. }
  { 
    set (m8 := serverHelloMsg.set_serverShare (serverHelloMsg.serverShare m) m7).
    assert (DserverShare : serverHelloMsg.serverShare m7 = mkKeyShare 0 []) by first [assumption | reflexivity].
    run_block m8.
    { sh_present Hpresent m8. try clearbody m7. pose proof (sh_group m Hok). inv_enc. rewrite (proj2 (Nat.eqb_neq _ _)) by (rewrite !length_app, !length_be_put; lia).
      reads. by destruct (serverHelloMsg.serverShare m). }
    { unfold m8. try clearbody m7. rewrite (sh_share m Hok Habsent). sh_absent Habsent. }
    clear DserverShare.
    set (m9 := serverHelloMsg.set_selectedIdentity (serverHelloMsg.selectedIdentity m) (serverHelloMsg.set_selectedIdentityPresent (serverHelloMsg.selectedIdentityPresent m) m8)).
    assert (DselectedIdentityPresent : serverHelloMsg.selectedIdentityPresent m8 = false) by first [assumption | reflexivity].
    assert (DselectedIdentity : serverHelloMsg.selectedIdentity m8 = 0) by first [assumption | reflexivity].
    run_block m9.
    { sh_present Hpresent m9. try clearbody m8. pose proof (sh_identity m Hok). inv_enc. reads. reflexivity. }
    { unfold m9. try clearbody m8. rewrite (sh_noid m Hok Habsent). sh_absent Habsent. }
    clear DselectedIdentityPresent DselectedIdentity.
    set (m10 := serverHelloMsg.set_cookie (serverHelloMsg.cookie m) m9).
    assert (Dcookie : serverHelloMsg.cookie m9 = []) by first [assumption | reflexivity].
    run_block m10.
    { sh_present Hpresent m10. try clearbody m9. ne_read Hpresent. }
    { unfold m10. try clearbody m9. rewrite (nonempty_list_false _ Habsent). sh_absent Habsent. }
    clear Dcookie.
    transitivity (Some (sh_last m m10)).
    - eapply serverHello_last; [exact Hok|reflexivity|reflexivity|reflexivity| |eassumption..].
      match goal with Hs : ?s ⊆ ?l |- ?s ⊆ _ => by transitivity l; [|apply sublist_dec] end.
    - destruct m; cbn in Hg; subst; reflexivity. }
Qed.

Lemma serverHello_roundtrip m data : serverHello_ok m ->
  serverHelloMsg.marshal B m = Ret data ->
  serverHelloMsg.unmarshal data = Some (serverHelloMsg.set_original (Some data) m).
Proof.
  intros Hok. unfold serverHelloMsg.marshal. intros Hm.
  destruct (Bytes (serverHelloMsg.marshal_exts B m NewBuilder)) as [ext_bytes|e|w] eqn:Hx; [|done..].
  cbn [obind] in Hm. pose proof (serverHello_exts m data ext_bytes Hok Hx) as Hr. clear Hx.
  built Hm. inv_enc.
  destruct (Nat.eqb_spec (length (serverHelloMsg.random m)) 32) as [Hrl|]; [|done]. inv_enc.
  unfold serverHelloMsg.unmarshal.
  pose proof (sh_vers m Hok). pose proof (sh_suite m Hok). pose proof (sh_compression m Hok). reads.
  match goal with Hz : (if nonempty_list ext_bytes then _ else _) = Some ?z |- _ => rename Hz into Hext end.
  destruct ext_bytes as [|x0 xs]; cbn [nonempty_list length Nat.ltb Nat.leb] in Hext; inv_enc.
  - exact Hr.
  - cbn [Empty length Nat.eqb]. reads. cbn [Empty length Nat.eqb negb]. rewrite read_exts_run. exact Hr.
Qed.
End hello.
