(* ===== verification/WireTheorems.v ===== *)
(** * The wire format of the handshake messages: the theorems

    A sent message is read back by the peer, who hashes the same bytes into
    its transcript; hostile ClientHellos with repeated or misplaced extensions
    are refused; the PSK binders cover a prefix they do not change; and the
    loops of the parsers end on every input. *)

From S2P Require Import Prelude Common HalfConn CipherSuites Cryptobyte Hello Messages WireProofs MessagesProofs HelloProofs.

Open Scope go_scope.
#[local] Opaque be_put.

(** ** Well-formed messages *)

(** What a message must satisfy to be read back under a version. *)
Definition msg_ok (vers : Z) (msg : handshakeMessage) : Prop :=
  match msg with
  | HelloRequest | ServerHelloDone | EndOfEarlyData => True
  | ClientHello m => clientHello_ok m
  | ServerHello m => serverHello_ok m
  | NewSessionTicketTLS13 m => vers = VersionTLS13 /\ is_u32 (newSessionTicketMsgTLS13.lifetime m) /\
      is_u32 (newSessionTicketMsgTLS13.ageAdd m) /\ is_u32 (newSessionTicketMsgTLS13.maxEarlyData m)
  | NewSessionTicket m => vers <> VersionTLS13 /\ len (newSessionTicketMsg.ticket m) < 2 ^ 16
  | CertificateTLS13 m => vers = VersionTLS13 /\ leaf_ok (sent_certificate m) /\
      (Certificate_ (sent_certificate m) = [] -> OCSPStaple (sent_certificate m) = None /\
        SignedCertificateTimestamps (sent_certificate m) = None)
  | CertificateMsg m => vers <> VersionTLS13 /\ Forall (fun c => c <> []) (certificateMsg.certificates m) /\
      len (concat ((fun slice => u24_bytes (len slice) ++ slice) <$> certificateMsg.certificates m)) + 3 < 2 ^ 24
  | CertificateRequestTLS13 m => vers = VersionTLS13 /\
      Forall (fun v => is_u16 v) (certificateRequestMsgTLS13.supportedSignatureAlgorithms m) /\
      Forall (fun v => is_u16 v) (certificateRequestMsgTLS13.supportedSignatureAlgorithmsCert m) /\
      Forall (fun v => v <> []) (certificateRequestMsgTLS13.certificateAuthorities m)
  | CertificateRequest m => vers <> VersionTLS13 /\
      certificateRequestMsg.hasSignatureAlgorithm m = (VersionTLS12 <=? vers) /\
      Forall (fun v => is_u16 v) (certificateRequestMsg.supportedSignatureAlgorithms m) /\
      2 * len (certificateRequestMsg.supportedSignatureAlgorithms m) < 2 ^ 16 /\
      len (concat ((fun ca => u16_bytes (len ca) ++ ca) <$> certificateRequestMsg.certificateAuthorities m)) < 2 ^ 16 /\
      certificateRequestMsg.certificateTypes m <> [] /\ len (certificateRequestMsg.certificateTypes m) < 256
  | CertificateStatus m => certificateStatusMsg.response m <> []
  | ServerKeyExchange _ | Finished _ | EncryptedExtensions _ | KeyUpdate _ => True
  | ClientKeyExchange m => len (clientKeyExchangeMsg.ciphertext m) < 2 ^ 24
  | CertificateVerify m => certificateVerifyMsg.hasSignatureAlgorithm m = (VersionTLS12 <=? vers) /\
      is_u16 (certificateVerifyMsg.signatureAlgorithm m)
  end.

(** The message as the peer has it: the hellos keep their bytes, and the
    fields that the version or the flags leave out are gone. *)
Definition received_message (data : bytes) (msg : handshakeMessage) : handshakeMessage :=
  match msg with
  | ClientHello m => ClientHello (received data m)
  | ServerHello m => ServerHello (serverHelloMsg.set_original (Some data) m)
  | CertificateTLS13 m => let c := sent_certificate m in
      CertificateTLS13 (certificateMsgTLS13.mk c (bool_decide (is_Some (OCSPStaple c)))
        (bool_decide (is_Some (SignedCertificateTimestamps c))))
  | CertificateRequest m => let has := certificateRequestMsg.hasSignatureAlgorithm m in
      CertificateRequest (certificateRequestMsg.mk has (certificateRequestMsg.certificateTypes m)
        (if has then certificateRequestMsg.supportedSignatureAlgorithms m else [])
        (certificateRequestMsg.certificateAuthorities m))
  | CertificateVerify m => let has := certificateVerifyMsg.hasSignatureAlgorithm m in
      CertificateVerify (certificateVerifyMsg.mk has
        (if has then certificateVerifyMsg.signatureAlgorithm m else 0) (certificateVerifyMsg.signature m))
  | msg => msg
  end.

(** The byte a message starts with. *)
Definition message_type (msg : handshakeMessage) : Z :=
  match msg with
  | HelloRequest => typeHelloRequest
  | ClientHello _ => typeClientHello
  | ServerHello _ => typeServerHello
  | NewSessionTicketTLS13 _ | NewSessionTicket _ => typeNewSessionTicket
  | CertificateTLS13 _ | CertificateMsg _ => typeCertificate
  | CertificateRequestTLS13 _ | CertificateRequest _ => typeCertificateRequest
  | CertificateStatus _ => typeCertificateStatus
  | ServerKeyExchange _ => typeServerKeyExchange
  | ServerHelloDone => typeServerHelloDone
  | ClientKeyExchange _ => typeClientKeyExchange
  | CertificateVerify _ => typeCertificateVerify
  | Finished _ => typeFinished
  | EncryptedExtensions _ => typeEncryptedExtensions
  | EndOfEarlyData => typeEndOfEarlyData
  | KeyUpdate _ => typeKeyUpdate
  end.

Lemma nth_byte_put1 v s : is_byte v -> nth_byte (be_put 1 v ++ s) 0 = v.
Proof. intros Hv. unfold nth_byte. cbn. apply Z.mod_small. unfold is_byte in Hv. lia. Qed.

Section messages.
Context {B : Type} `{CryptoStringLaws} `{BuilderLaws B}.

(** What [marshal] builds starts with the type. *)
Lemma built_type typ (g : B -> B) r data : is_byte typ -> appends g r ->
  Bytes ((AddUint8 typ ;> g) NewBuilder) = Ret data -> nth_byte data 0 = typ.
Proof.
  intros Ht Hg Hd.
  apply (appends_new _ (oapp (Some (be_put 1 typ)) r)) in Hd;
    [|apply appends_then; [apply AddUint8_spec|exact Hg]].
  apply oapp_Some in Hd as (x & y & Hx & _ & ->). apply Some_inj in Hx as <-. by apply nth_byte_put1.
Qed.

Ltac first_byte Q := eapply built_type; [| |exact Q]; [done|appends_tac].

Lemma marshal_type msg data : marshal_message B msg = Ret data -> nth_byte data 0 = message_type msg.
Proof.
  destruct msg as [|m|m|m|m|m|m|m|m|m|m| |m|m|m|m| |m]; cbn [marshal_message message_type]; intros Q;
    try (injection Q as <-; reflexivity); try first_byte Q.
  - unfold clientHelloMsg.marshal, clientHelloMsg.marshalMsg in Q.
    destruct (Bytes (clientHelloMsg.marshal_exts _ _ _ _)) as [x|e|w]; [|done..]. first_byte Q.
  - unfold serverHelloMsg.marshal in Q.
    destruct (Bytes (serverHelloMsg.marshal_exts _ _ _)) as [x|e|w]; [|done..]. first_byte Q.
  - apply appends_marshalCertificate.
  - unfold certificateRequestMsgTLS13.marshal_exts. appends_tac.
  - unfold encryptedExtensionsMsg.marshal_exts. appends_tac.
Qed.

Lemma unmarshal_message_marshal vers msg data : msg_ok vers msg -> marshal_message B msg = Ret data ->
  unmarshal_message vers data = Some (received_message data msg).
Proof.
  intros Hok Hm. unfold unmarshal_message. rewrite (marshal_type msg data Hm).
  assert (H13 : forall b, b = (vers =? VersionTLS13) -> (vers = VersionTLS13 -> b = true) /\ (vers <> VersionTLS13 -> b = false)).
  { intros b ->. split; [by intros ->|apply Z.eqb_neq]. }
  destruct (H13 _ eq_refl) as [Ht Hf]. clear H13.
  destruct msg as [|m|m|m|m|m|m|m|m|m|m| |m|m|m|m| |m]; cbn [marshal_message message_type received_message msg_ok] in *;
    eval_eqb.
  - by injection Hm as <-.
  - by rewrite (clientHello_roundtrip m data).
  - by rewrite (serverHello_roundtrip m data).
  - destruct Hok as (Hv & ? & ? & ?). by rewrite (Ht Hv), (newSessionTicketTLS13_roundtrip m data).
  - destruct Hok as [Hv ?]. injection Hm as <-. by rewrite (Hf Hv), newSessionTicket_roundtrip.
  - destruct Hok as (Hv & ? & ?). by rewrite (Ht Hv), (certificateTLS13_roundtrip m data).
  - destruct Hok as (Hv & ? & ?). injection Hm as <-. by rewrite (Hf Hv), certificate_roundtrip.
  - destruct Hok as (Hv & ? & ? & ?). by rewrite (Ht Hv), (certificateRequestTLS13_roundtrip m data).
  - destruct Hok as (Hv & Hs & ? & ? & ? & ? & ?). injection Hm as <-. rewrite (Hf Hv), <- Hs.
    by rewrite certificateRequest_roundtrip.
  - by rewrite (certificateStatus_roundtrip m data).
  - injection Hm as <-. by rewrite serverKeyExchange_roundtrip.
  - by injection Hm as <-.
  - injection Hm as <-. by rewrite clientKeyExchange_roundtrip.
  - destruct Hok as [<- ?]. by rewrite (certificateVerify_roundtrip m data).
  - by rewrite (finished_roundtrip m data).
  - by rewrite (encryptedExtensions_roundtrip m data).
  - by injection Hm as <-.
  - by rewrite (keyUpdate_roundtrip m data).
Qed.

(** The received message is written as it was sent, so both ends hash the
    same bytes. *)
Lemma marshal_received msg data : originalBytes msg = None -> marshal_message B msg = Ret data ->
  transcriptMsg B (received_message data msg) = Ret data.
Proof.
  destruct msg as [|m|m|m|m|m|m|m|m|m|m| |m|m|m|m| |m]; intros _; try done.
  - unfold transcriptMsg. cbn. intros <-. destruct m as [[l [|] [|]] [] []]; done.
  - unfold transcriptMsg. cbn. intros <-. destruct m as [[] types algs cas]; done.
  - unfold transcriptMsg. cbn. intros <-. destruct m as [[] alg sig]; done.
Qed.
End messages.

(** ** The extensions of a ClientHello *)

Section extensions.
Context `{CryptoStringLaws}.

Ltac split_pair v := try lazymatch type of v with (_ * _)%type => destruct v end.
Ltac some_inv := repeat match goal with
  | Q : mbind ?f ?x = Some _ |- _ =>
      let v := fresh "v" in let Ev := fresh "Ev" in
      destruct x as [v|] eqn:Ev; [|discriminate Q]; split_pair v; cbn [mbind option_bind] in Q; clear Ev
  | Q : Some _ = Some _ |- _ => injection Q as <- <-
  end.

Lemma ext_handler_keeps e d rest m m' d' : clientHelloMsg.ext_handler e d rest m = Some (m', d') ->
  clientHelloMsg.extensions m' = clientHelloMsg.extensions m ++ [e] /\
  (e = extensionPreSharedKey -> rest = []) /\
  (e <> extensionPreSharedKey -> clientHelloMsg.pskIdentities m' = clientHelloMsg.pskIdentities m).
Proof.
  unfold clientHelloMsg.ext_handler.
  destruct (Z.eqb_spec e extensionPreSharedKey) as [->|Hne].
  - eval_eqb. destruct rest; [|done]. cbn [Empty length Nat.eqb negb]. intros Q. some_inv. done.
  - intros Q. repeat match type of Q with
      | (if ?c then _ else _) = _ => destruct c
      | match ?c with _ => _ end = _ => destruct c as [[? ?]|]
      end; some_inv; unfold continue in *; some_inv; try done.
Qed.

(** After some extensions: all different, and the pre-shared keys the last. *)
Definition exts_inv (s : bytes) (st : list Z * clientHelloMsg.t) : Prop :=
  let '(seen, m) := st in
  NoDup seen /\ clientHelloMsg.extensions m = rev seen /\
  (extensionPreSharedKey ∈ seen -> s = [] /\ head seen = Some extensionPreSharedKey) /\
  (clientHelloMsg.pskIdentities m <> [] -> extensionPreSharedKey ∈ seen).

Lemma read_ext_inv s st st' s' : s <> [] -> exts_inv s st ->
  read_ext true clientHelloMsg.ext_handler s st = Some (st', s') -> exts_inv s' st'.
Proof.
  destruct st as [seen m]. intros Hs (Hnd & He & Hp & Hi). unfold read_ext.
  destruct (ReadUint16 s) as [[e s1]|]; [|done]. cbn [mbind option_bind].
  destruct (ReadUint16LengthPrefixed s1) as [[d s2]|]; [|done]. cbn [mbind option_bind andb].
  destruct (existsb (Z.eqb e) seen) eqn:Hex; [done|].
  destruct (clientHelloMsg.ext_handler e d s2 m) as [[m' d']|] eqn:Eh; [|done]. cbn [mbind option_bind].
  destruct (negb (Empty d')); [done|]. intros [= <- <-].
  apply ext_handler_keeps in Eh as (E1 & E2 & E3).
  assert (Hnew : e ∉ seen).
  { intros Q. apply not_true_iff_false in Hex. apply Hex, existsb_exists. exists e.
    split; [by apply list_elem_of_In|apply Z.eqb_refl]. }
  assert (Hold : extensionPreSharedKey ∉ seen) by (intros Q; by destruct (Hp Q)).
  split_and!; cbn [rev head].
  - by apply NoDup_cons.
  - by rewrite E1, He.
  - intros Q. apply elem_of_cons in Q as [Q|Q]; [|done]. subst e. by rewrite E2.
  - intros Q. destruct (decide (e = extensionPreSharedKey)) as [->|Hne]; [left|].
    rewrite E3 in Q by done. by apply Hi in Q.
Qed.

Lemma clientHello_exts_inv data m : clientHelloMsg.unmarshal data = Some m ->
  NoDup (clientHelloMsg.extensions m) /\
  (clientHelloMsg.pskIdentities m <> [] -> last (clientHelloMsg.extensions m) = Some extensionPreSharedKey).
Proof.
  unfold clientHelloMsg.unmarshal. intros Q.
  repeat match type of Q with
  | mbind _ ?x = Some _ => let v := fresh "v" in destruct x as [v|]; [|discriminate Q]; split_pair v; cbn [mbind option_bind] in Q
  end.
  match type of Q with context [read_exts _ _ _ ?m0] =>
    assert (He : clientHelloMsg.extensions m0 = []) by reflexivity;
    assert (Hp : clientHelloMsg.pskIdentities m0 = []) by reflexivity; set (m1 := m0) in * end.
  clearbody m1.
  destruct (Empty _) in Q; [injection Q as <-; rewrite He; split; [constructor|congruence]|].
  destruct (ReadUint16LengthPrefixed _) as [[exts s']|] in Q; [|discriminate Q]. cbn [mbind option_bind] in Q.
  destruct (negb _) in Q; [discriminate Q|]. unfold read_exts in Q.
  destruct (until_empty _ _ _) as [[seen m2]|] eqn:E in Q; [|discriminate Q]. injection Q as ->.
  apply (until_empty_ind _ exts_inv) in E as (E1 & E2 & E3 & E4); [|exact read_ext_inv|].
  2:{ split_and!; [constructor|by rewrite He|by intros ?%elem_of_nil|by rewrite Hp]. }
  rewrite E2. split; [by apply NoDup_ListNoDup, List.NoDup_rev, NoDup_ListNoDup|]. intros Q. apply E4, E3 in Q as [_ Q].
  destruct seen as [|e seen]; [done|]. injection Q as ->. cbn. by rewrite last_snoc.
Qed.
End extensions.

(** ** The PSK binders *)

Section binders.
Context {B : Type} `{BuilderLaws B}.

Lemma bindersLen_spec l z n : oconcat ((fun v => prefixed 1 (Some v)) <$> l) = Some z ->
  fold_left (fun n (binder : bytes) => (n + 1 + length binder)%nat) l n = (n + length z)%nat.
Proof.
  revert z n. induction l as [|v l IH]; intros z n Hz; cbn [fmap list_fmap oconcat fold_left] in *.
  { injection Hz as <-. cbn. lia. }
  inv_enc. rewrite (IH _ _ ltac:(eassumption)), !length_app, length_be_put. lia.
Qed.

Lemma binders_same_length l l' z : length l = length l' ->
  existsb (fun p => negb (length (fst p : bytes) =? length (snd p : bytes))%nat) (zip l' l) = false ->
  oconcat ((fun v => prefixed 1 (Some v)) <$> l) = Some z ->
  exists z', oconcat ((fun v => prefixed 1 (Some v)) <$> l') = Some z' /\ length z' = length z.
Proof.
  revert l' z. induction l as [|v l IH]; intros [|v' l'] z Hl He Hz; try discriminate Hl.
  { by exists z. }
  cbn [zip zip_with existsb fst snd] in He. apply orb_false_iff in He as [Hv He].
  apply negb_false_iff, Nat.eqb_eq in Hv. cbn [fmap list_fmap oconcat] in *. inv_enc.
  match goal with Hr : oconcat _ = Some _ |- _ => destruct (IH l' _ ltac:(by injection Hl) He Hr) as (z' & Hz' & El) end.
  eexists. rewrite Hz'. unfold prefixed. cbn [mbind option_bind].
  rewrite Hv, (proj2 (Z.ltb_lt _ _)) by done. cbn [oapp mbind option_bind]. split; [done|].
  rewrite !length_app, !length_be_put. lia.
Qed.

Lemma oapp_intro a b x y : a = Some x -> b = Some y -> oapp a b = Some (x ++ y).
Proof. by intros -> ->. Qed.

Lemma prefixed_intro n a y : a = Some y -> Z.of_nat (length y) < 256 ^ Z.of_nat n ->
  prefixed n a = Some (be_put n (Z.of_nat (length y)) ++ y).
Proof. intros Ha Hl. apply prefixed_Some. by exists y. Qed.

Definition binders_enc (l : list bytes) : option bytes :=
  prefixed 2 (oconcat ((fun v => prefixed 1 (Some v)) <$> l)).

Lemma rebind_exts m bs ext_bytes zs zs' :
  nonempty_list (clientHelloMsg.pskIdentities m) = true ->
  Bytes (clientHelloMsg.marshal_exts B false m NewBuilder) = Ret ext_bytes ->
  binders_enc (clientHelloMsg.pskBinders m) = Some zs -> binders_enc bs = Some zs' ->
  length zs' = length zs ->
  exists pre, ext_bytes = pre ++ zs /\
    Bytes (clientHelloMsg.marshal_exts B false (clientHelloMsg.set_pskBinders bs m) NewBuilder) = Ret (pre ++ zs').
Proof.
  intros Hids Hx Hzs Hzs' Hlen. unfold clientHelloMsg.marshal_exts, clientHelloMsg.compressible in *.
  built Hx. cbn [negb] in Hx. rewrite Hids, ?andb_true_r, ?andb_false_r in Hx.
  change (prefixed 2 (oconcat (_ <$> clientHelloMsg.pskBinders m))) with (binders_enc (clientHelloMsg.pskBinders m)) in Hx.
  rewrite Hzs in Hx. inv_enc.
  match goal with Hp : enc_ext _ _ = Some _ |- _ => unfold enc_ext in Hp; inv_enc end.
  eexists. split; [rewrite ?app_assoc, ?app_nil_r; reflexivity|].
  match goal with |- Bytes (?f NewBuilder) = Ret ?d =>
    let r := fresh "r" in evar (r : option bytes);
    apply (appends_new f r); subst r; [appends_tac|] end.
  cbn [negb]. rewrite ?andb_true_r, ?andb_false_r.
  change (nonempty_list (clientHelloMsg.pskIdentities (clientHelloMsg.set_pskBinders bs m)))
    with (nonempty_list (clientHelloMsg.pskIdentities m)). rewrite Hids.
  eapply eq_trans; [apply oapp_intro|].
  - eassumption.
  - repeat first [reflexivity | eassumption | apply oapp_intro | exact Hzs' | eapply prefixed_intro].
    by rewrite length_app, Hlen, <- length_app.
  - rewrite (length_app _ zs'), Hlen, <- (length_app _ zs). by rewrite ?app_assoc, ?app_nil_r.
Qed.

Lemma exts_binders m ext_bytes : nonempty_list (clientHelloMsg.pskIdentities m) = true ->
  Bytes (clientHelloMsg.marshal_exts B false m NewBuilder) = Ret ext_bytes ->
  exists zs, binders_enc (clientHelloMsg.pskBinders m) = Some zs.
Proof.
  intros Hids Hx. unfold clientHelloMsg.marshal_exts, clientHelloMsg.compressible in *. built Hx.
  change (prefixed 2 (oconcat (_ <$> clientHelloMsg.pskBinders m))) with (binders_enc (clientHelloMsg.pskBinders m)) in Hx.
  rewrite Hids in Hx. destruct (binders_enc (clientHelloMsg.pskBinders m)) as [zs|]; [by exists zs|].
  repeat apply oapp_Some in Hx as (? & ? & _ & Hx & _).
  unfold enc_ext in Hx. apply oapp_Some in Hx as (? & ? & _ & Hx & _).
  apply prefixed_Some in Hx as (? & Hx & _). by apply oapp_Some in Hx as (? & ? & _ & ? & _).
Qed.

(** The message around the extensions [x]. *)
Definition around_exts (m : clientHelloMsg.t) (x : bytes) : B -> B :=
  AddUint8 typeClientHello ;> AddUint24LengthPrefixed (
    AddUint16 (clientHelloMsg.vers m) ;>
    addBytesWithLength (clientHelloMsg.random m) 32 ;>
    AddUint8LengthPrefixed (when (negb false) (AddBytes (clientHelloMsg.sessionId m))) ;>
    AddUint16LengthPrefixed (addUint16s (clientHelloMsg.cipherSuites m)) ;>
    AddUint8LengthPrefixed (AddBytes (clientHelloMsg.compressionMethods m)) ;>
    when (nonempty_list x) (AddUint16LengthPrefixed (AddBytes x))).

Lemma rebind_around m x zs zs' data : zs <> [] -> length zs' = length zs ->
  Bytes (around_exts m (x ++ zs) NewBuilder) = Ret data ->
  exists pre, data = pre ++ zs /\ Bytes (around_exts m (x ++ zs') NewBuilder) = Ret (pre ++ zs').
Proof.
  intros Hne Hl Hd. unfold around_exts in *. built Hd. cbn [negb] in Hd.
  assert (H1 : nonempty_list (x ++ zs) = true) by (destruct x; [by destruct zs|done]).
  assert (H2 : nonempty_list (x ++ zs') = true) by (destruct x; [by destruct zs', zs|done]).
  rewrite H1 in Hd. inv_enc.
  eexists. split; [rewrite ?app_assoc; reflexivity|].
  match goal with |- Bytes (?f NewBuilder) = Ret ?d =>
    let r := fresh "r" in evar (r : option bytes);
    apply (appends_new f r); subst r; [appends_tac|] end.
  rewrite H2. cbn [negb]. eapply eq_trans; [apply oapp_intro|].
  - reflexivity.
  - eapply prefixed_intro.
    + apply oapp_intro; [reflexivity|]. apply oapp_intro; [eassumption|].
      apply oapp_intro; [eapply prefixed_intro; [reflexivity|eassumption]|].
      apply oapp_intro; [eapply prefixed_intro; eassumption|].
      apply oapp_intro; [eapply prefixed_intro; [reflexivity|eassumption]|].
      apply prefixed_intro; [reflexivity|]. by rewrite length_app, Hl, <- length_app.
    + by rewrite !length_app, Hl in *.
  - rewrite !length_app, Hl, <- !length_app. by rewrite ?app_assoc.
Qed.

Lemma fold_bindersLen l z : binders_enc l = Some z ->
  fold_left (fun n (binder : bytes) => (n + 1 + length binder)%nat) l 2%nat = length z.
Proof.
  intros (y & Hy & _ & ->)%prefixed_Some. by rewrite (bindersLen_spec l y), length_app, length_be_put.
Qed.

Lemma rebind m bs m' data : clientHelloMsg.pskIdentities m <> [] ->
  clientHelloMsg.marshal B m = Ret data -> clientHelloMsg.updateBinders bs m = Ret m' ->
  exists pre zs zs', data = pre ++ zs /\ clientHelloMsg.marshal B m' = Ret (pre ++ zs') /\
    binders_enc (clientHelloMsg.pskBinders m) = Some zs /\ binders_enc bs = Some zs' /\
    m' = clientHelloMsg.set_pskBinders bs m.
Proof.
  unfold clientHelloMsg.updateBinders. intros Hids Hd.
  destruct (Nat.eqb_spec (length bs) (length (clientHelloMsg.pskBinders m))) as [Hl|]; [|done].
  cbn [negb orb]. destruct (existsb _ _) eqn:He; [done|]. intros [= <-].
  assert (Hn : nonempty_list (clientHelloMsg.pskIdentities m) = true) by by destruct (clientHelloMsg.pskIdentities m).
  unfold clientHelloMsg.marshal, clientHelloMsg.marshalMsg in *.
  destruct (Bytes (clientHelloMsg.marshal_exts B false m NewBuilder)) as [x|e|w] eqn:Hx; [|done..].
  destruct (exts_binders m x Hn Hx) as [zs Hzs]. pose proof Hzs as (y & Hy & Hyl & ->)%prefixed_Some.
  destruct (binders_same_length _ bs y (eq_sym Hl) He Hy) as (y' & Hy' & Hlen).
  assert (Hzs' : binders_enc bs = Some (be_put 2 (Z.of_nat (length y')) ++ y')).
  { apply prefixed_intro; [done|]. by rewrite Hlen. }
  destruct (rebind_exts m bs x _ _ Hn Hx Hzs Hzs') as (pre & -> & Hx').
  { by rewrite !length_app, !length_be_put, Hlen. }
  rewrite Hx'. cbn [obind] in *.
  apply (rebind_around m pre _ (be_put 2 (Z.of_nat (length y')) ++ y')) in Hd as (pre' & -> & Hd').
  - by exists pre', (be_put 2 (Z.of_nat (length y)) ++ y), (be_put 2 (Z.of_nat (length y')) ++ y').
  - exact (prefixed_ne 2 _ _ ltac:(lia) Hzs).
  - by rewrite !length_app, !length_be_put, Hlen.
Qed.
End binders.

(** ** The loops of the parsers *)

Lemma get24_nonneg d i : Forall is_byte d -> 0 <= get24 d i.
Proof.
  intros Hd. unfold get24. rewrite !Z.lor_nonneg, !Z.shiftl_nonneg.
  assert (Hn : forall j, 0 <= nth_byte d j).
  { intros j. unfold nth_byte. destruct (nth_in_or_default j d 0) as [Hi|E]; [|lia].
    eapply Forall_forall in Hd; [|by apply list_elem_of_In]. unfold is_byte in Hd. lia. }
  split_and!; apply Hn.
Qed.

Lemma count_certs_stuck st1 st2 f1 f2 certsLen d k : Forall is_byte d ->
  (length d < f1)%nat -> (length d < f2)%nat ->
  certificateMsg.count_certs_fuel st1 f1 certsLen d k = certificateMsg.count_certs_fuel st2 f2 certsLen d k.
Proof.
  revert f2 certsLen d k. induction f1 as [|f1 IH]; intros f2 certsLen d k Hd H1 H2; [lia|].
  destruct f2 as [|f2]; [lia|]. cbn [certificateMsg.count_certs_fuel].
  destruct (negb (0 <? certsLen)); [done|]. destruct (Nat.ltb_spec (length d) 4); [done|].
  destruct (u32 (len d) <? _); [done|]. pose proof (get24_nonneg d 0 Hd).
  apply IH; [by apply Forall_drop|rewrite length_drop; lia..].
Qed.

Lemma read_cas_stuck st1 st2 f1 f2 cas acc : (length cas <= f1)%nat -> (length cas <= f2)%nat ->
  certificateRequestMsg.read_cas_fuel st1 f1 cas acc = certificateRequestMsg.read_cas_fuel st2 f2 cas acc.
Proof.
  revert f2 cas acc. induction f1 as [|f1 IH]; intros f2 cas acc H1 H2.
  { destruct cas; [|simpl in H1; lia]. by destruct f2. }
  destruct f2 as [|f2]; [by destruct cas; [|simpl in H2; lia]|]. cbn [certificateRequestMsg.read_cas_fuel].
  destruct (_ =? 0)%nat; [done|]. destruct (Nat.ltb_spec (length cas) 2); [done|].
  destruct (_ <? _); [done|]. apply IH; rewrite !length_drop; lia.
Qed.

(** ** The theorems *)

Section theorems.
Context {B : Type} `{CryptoStringLaws} `{BuilderLaws B}.

(** C30: Every handshake message round-trips: whatever [marshal] builds from a
    message that is well-formed for the version, [unmarshalHandshakeMessage]
    dispatches on its first byte to the right type and reads the same message
    back, up to the fields that are not sent. *)
Theorem message_roundtrip vers msg data : msg_ok vers msg ->
  marshal_message B msg = Ret data ->
  unmarshal_message vers data = Some (received_message data msg).
Proof. apply unmarshal_message_marshal. Qed.

(** Both ends hash the same bytes: what [transcriptMsg] writes for a
    message that is sent is what it writes for the message the peer has read,
    whether that one keeps its original bytes or is marshaled again. *)
Theorem transcripts_agree vers msg data : msg_ok vers msg -> originalBytes msg = None ->
  marshal_message B msg = Ret data ->
  transcriptMsg B msg = Ret data /\
  exists msg', unmarshal_message vers data = Some msg' /\ transcriptMsg B msg' = Ret data.
Proof.
  intros Hok Ho Hm. split; [by unfold transcriptMsg; rewrite Ho|].
  exists (received_message data msg). split; [by apply unmarshal_message_marshal|by apply marshal_received].
Qed.

(** An accepted ClientHello repeats no extension, and has its pre-shared
    keys, if any, in the last one. *)
Theorem clientHello_extensions data m : clientHelloMsg.unmarshal data = Some m ->
  NoDup (clientHelloMsg.extensions m) /\
  (clientHelloMsg.pskIdentities m <> [] -> last (clientHelloMsg.extensions m) = Some extensionPreSharedKey).
Proof. apply clientHello_exts_inv. Qed.

(** The binders sign a prefix of the ClientHello that does not depend on
    them: filling them in with [updateBinders] leaves the bytes of
    [marshalWithoutBinders] as they were, and the marshaled message is these
    bytes followed by the new binders. *)
Theorem binders_prefix m bs m' data : clientHelloMsg.original m = None -> clientHelloMsg.pskIdentities m <> [] ->
  clientHelloMsg.marshal B m = Ret data -> clientHelloMsg.updateBinders bs m = Ret m' ->
  exists pre z, clientHelloMsg.marshalWithoutBinders B m = Ret pre /\
    clientHelloMsg.marshalWithoutBinders B m' = Ret pre /\
    binders_enc bs = Some z /\ clientHelloMsg.marshal B m' = Ret (pre ++ z).
Proof.
  intros Ho Hids Hd Hu. destruct (rebind m bs m' data Hids Hd Hu) as (pre & zs & zs' & -> & Hd' & Hzs & Hzs' & ->).
  exists pre, zs'. unfold clientHelloMsg.marshalWithoutBinders, clientHelloMsg.bindersLen.
  cbn [clientHelloMsg.original clientHelloMsg.pskBinders clientHelloMsg.set_pskBinders].
  rewrite Ho, Hd, Hd', (fold_bindersLen _ zs Hzs), (fold_bindersLen _ zs' Hzs'). cbn [obind].
  rewrite !length_app, !(proj2 (Nat.ltb_ge _ _)) by lia. rewrite !Nat.add_sub, !take_app_length. done.
Qed.

(** The loops of the parsers end on every input: with as much fuel as
    there are bytes the result no longer depends on the fuel, nor on what
    running out of it would give. *)
Theorem parser_loops_end :
  (forall T chk handler stuck fuel s (st : list Z * T), (length s <= fuel)%nat ->
    until_empty_fuel stuck (read_ext chk handler) fuel s st = until_empty (read_ext chk handler) s st) /\
  (forall stuck fuel s c, (length s <= fuel)%nat ->
    until_empty_fuel stuck certificateMsgTLS13.read_cert fuel s c = until_empty certificateMsgTLS13.read_cert s c) /\
  (forall stuck fuel certsLen d, Forall is_byte d -> (length d < fuel)%nat ->
    certificateMsg.count_certs_fuel stuck fuel certsLen d 0 = certificateMsg.count_certs certsLen d) /\
  (forall stuck fuel cas, (length cas <= fuel)%nat ->
    certificateRequestMsg.read_cas_fuel stuck fuel cas [] = certificateRequestMsg.read_cas cas).
Proof.
  split_and!.
  - intros. apply until_empty_enough; [apply read_ext_consumes|done].
  - intros. apply until_empty_enough; [apply read_cert_consumes|done].
  - intros. apply count_certs_stuck; [done|done|lia].
  - intros. by apply read_cas_stuck.
Qed.
End theorems.

(** ** Witnesses *)

(** A ClientHello that resumes a session. *)
Definition resuming_hello : clientHelloMsg.t :=
  clientHelloMsg.set_pskBinders [repeat 0 32] (clientHelloMsg.set_pskIdentities [mkPskIdentity [1; 2; 3] 7]
  (clientHelloMsg.set_pskModes [1] (clientHelloMsg.set_supportedVersions [VersionTLS13]
  (clientHelloMsg.set_serverName [97; 46; 98] (clientHelloMsg.set_alpnProtocols [[104; 50]]
  (clientHelloMsg.set_keyShares [mkKeyShare X25519 (repeat 9 32)]
  (clientHelloMsg.set_compressionMethods [0] (clientHelloMsg.set_cipherSuites [TLS_AES_128_GCM_SHA256]
  (clientHelloMsg.set_random (repeat 5 32) (clientHelloMsg.set_vers VersionTLS12 clientHelloMsg.zero)))))))))).

Lemma resuming_hello_ok : clientHello_ok resuming_hello.
Proof.
  constructor; cbv -[elem_of Z.le Z.lt]; repeat first [apply Forall_nil | apply Forall_cons; split]; try done.
  rewrite list_elem_of_singleton. discriminate.
Qed.

Lemma message_roundtrip_witness : exists data, marshal_message plain_builder (ClientHello resuming_hello) = Ret data /\
  unmarshal_message VersionTLS13 data = Some (received_message data (ClientHello resuming_hello)).
Proof.
  eexists. split; [vm_compute; reflexivity|].
  apply (message_roundtrip (B:=plain_builder)); [apply resuming_hello_ok|vm_compute; reflexivity].
Defined.

Lemma transcripts_agree_witness : exists data msg', marshal_message plain_builder (ClientHello resuming_hello) = Ret data /\
  unmarshal_message VersionTLS13 data = Some msg' /\ transcriptMsg plain_builder msg' = Ret data.
Proof.
  assert (Hd : exists data, marshal_message plain_builder (ClientHello resuming_hello) = Ret data).
  { eexists. vm_compute. reflexivity. }
  destruct Hd as [data Hd].
  destruct (transcripts_agree VersionTLS13 (ClientHello resuming_hello) data) as [_ [msg' [E1 E2]]];
    [apply resuming_hello_ok|reflexivity|exact Hd|]. by exists data, msg'.
Defined.

Lemma clientHello_extensions_witness : exists data m, clientHelloMsg.unmarshal data = Some m /\
  clientHelloMsg.extensions m =
    [extensionServerName; extensionALPN; extensionSupportedVersions; extensionKeyShare; extensionPSKModes;
     extensionPreSharedKey] /\ NoDup (clientHelloMsg.extensions m).
Proof.
  assert (Hd : exists data, clientHelloMsg.marshal plain_builder resuming_hello = Ret data).
  { eexists. vm_compute. reflexivity. }
  destruct Hd as [data Hd]. exists data, (received data resuming_hello).
  pose proof (clientHello_roundtrip _ data resuming_hello_ok Hd) as Hm.
  split_and!; [exact Hm|reflexivity|exact (proj1 (clientHello_extensions data _ Hm))].
Defined.

Lemma binders_prefix_witness : exists m' pre, clientHelloMsg.updateBinders [repeat 8 32] resuming_hello = Ret m' /\
  clientHelloMsg.marshalWithoutBinders plain_builder m' = Ret pre /\
  clientHelloMsg.marshalWithoutBinders plain_builder resuming_hello = Ret pre.
Proof.
  assert (Hd : exists data, clientHelloMsg.marshal plain_builder resuming_hello = Ret data).
  { eexists. vm_compute. reflexivity. }
  destruct Hd as [data Hd].
  destruct (binders_prefix (B:=plain_builder) resuming_hello [repeat 8 32]
    (clientHelloMsg.set_pskBinders [repeat 8 32] resuming_hello) data) as (pre & z & E1 & E2 & _);
    [reflexivity|discriminate|exact Hd|vm_compute; reflexivity|].
  exists (clientHelloMsg.set_pskBinders [repeat 8 32] resuming_hello), pre. split; [vm_compute; reflexivity|done].
Defined.

Lemma parser_loops_end_witness : certificateRequestMsg.read_cas_fuel (Some [[1]]) 9 [0; 1; 5; 0; 2; 6; 7] [] = Some [[5]; [6; 7]].
Proof.
  destruct parser_loops_end as (_ & _ & _ & E). rewrite E by (cbn; lia). reflexivity.
Defined.
