(* ===== verification/Kdf.v ===== *)
(** * tls12, tls13, prf.go, key_schedule.go: key derivation

    The PRFs of TLS 1.0 to 1.2, the HKDF labels and the key schedule of
    TLS 1.3, the Finished values, and the exporters.  A hash function of the
    standard library is a [hash_fn]: its sizes and its digest; [hmac] and
    [hkdf] are written out over it (RFC 2104, RFC 5869).  A [hash.Hash] is a
    [digest]: the function and what has been written since [Reset]. *)

From S2P Require Import Prelude Common HalfConn Gcm CipherSuites.

Open Scope go_scope.

(** ** The standard library: hashes, HMAC, HKDF *)

Record hash_fn := mkHashFn { h_Size : nat; h_BlockSize : nat; h_sum : bytes -> bytes }.

(** A digest has [h_Size] bytes, at least one. *)
Record hash_ok (h : hash_fn) : Prop := {
  h_Size_pos : (0 < h_Size h)%nat;
  h_sum_length m : length (h_sum h m) = h_Size h
}.

Record digest := mkDigest { d_fn : hash_fn; d_written : bytes }.
Definition new_digest (h : hash_fn) : digest := mkDigest h [].
Definition d_Write (p : bytes) (d : digest) : digest := mkDigest (d_fn d) (d_written d ++ p).
Definition d_Sum (d : digest) : bytes := h_sum (d_fn d) (d_written d).
Definition d_Size (d : digest) : nat := h_Size (d_fn d).

Definition hmac (h : hash_fn) (key msg : bytes) : bytes :=
  let key := if (h_BlockSize h <? length key)%nat then h_sum h key else key in
  let key := key ++ replicate (h_BlockSize h - length key) 0 in
  h_sum h ((Z.lxor 0x5c <$> key) ++ h_sum h ((Z.lxor 0x36 <$> key) ++ msg)).

(** [hmac.New(hash, key)] is a MAC with the function and the key as its key. *)
#[export] Instance hmac_MacFun : MacFun (hash_fn * bytes) := {|
  mac_sum k := hmac (fst k) (snd k);
  mac_size k := h_Size (fst k)
|}.
Definition hmac_New (h : hash_fn) (key : bytes) : Hash (hash_fn * bytes) := mkHash (h, key) [].

Definition hkdf_Extract (h : hash_fn) (secret : bytes) (salt : option bytes) : bytes :=
  hmac h (default (replicate (h_Size h) 0) salt) secret.

Fixpoint hkdf_blocks (n : nat) (h : hash_fn) (prk info : bytes) (buf : bytes) (counter : Z) : bytes :=
  match n with
  | O => []
  | Datatypes.S n =>
      let buf := hmac h prk (buf ++ info ++ [counter]) in
      buf ++ hkdf_blocks n h prk info buf (counter + 1)
  end.

(** [None] when the length is over 255 digests. *)
Definition hkdf_Expand (h : hash_fn) (prk info : bytes) (keyLength : nat) : option bytes :=
  if (h_Size h * 255 <? keyLength)%nat then None
  else Some (take keyLength (hkdf_blocks (Datatypes.S (keyLength / h_Size h)) h prk info [] 1)).

(** The bytes of a string constant. *)
Definition str (s : string) : bytes := (fun c => Z.of_N (Ascii.N_of_ascii c)) <$> String.list_ascii_of_string s.

(** ** tls13 *)

Module tls13.

Definition hkdf_label (length_ : Z) (label context : bytes) : bytes :=
  PutUint16 length_ ++ [u8 (Z.of_nat (length (str "tls13 ") + length label))] ++ str "tls13 " ++ label ++
  [u8 (Z.of_nat (length context))] ++ context.

Definition ExpandLabel {E} (hash : hash_fn) (secret label context : bytes) (length_ : nat) : outcome E bytes :=
  if (255 <? length (str "tls13 ") + length label)%nat || (255 <? length context)%nat
  then Panic "tls13: label or context too long"
  else Ret (default [] (hkdf_Expand hash secret (hkdf_label (Z.of_nat length_) label context) length_)).

Definition extract (hash : hash_fn) (newSecret currentSecret : option bytes) : bytes :=
  hkdf_Extract hash (default (replicate (h_Size hash) 0) newSecret) currentSecret.

Definition deriveSecret {E} (hash : hash_fn) (secret label : bytes) (transcript : option digest)
  : outcome E bytes :=
  let transcript := default (new_digest hash) transcript in
  ExpandLabel hash secret label (d_Sum transcript) (d_Size transcript).

Definition resumptionBinderLabel : bytes := str "res binder".
Definition clientEarlyTrafficLabel : bytes := str "c e traffic".
Definition clientHandshakeTrafficLabel : bytes := str "c hs traffic".
Definition serverHandshakeTrafficLabel : bytes := str "s hs traffic".
Definition clientApplicationTrafficLabel : bytes := str "c ap traffic".
Definition serverApplicationTrafficLabel : bytes := str "s ap traffic".
Definition earlyExporterLabel : bytes := str "e exp master".
Definition exporterLabel : bytes := str "exp master".
Definition resumptionLabel : bytes := str "res master".

Record EarlySecret := mkEarlySecret { es_secret : bytes; es_hash : hash_fn }.
Record HandshakeSecret := mkHandshakeSecret { hs_secret : bytes; hs_hash : hash_fn }.
Record MasterSecret := mkMasterSecret { ms_secret : bytes; ms_hash : hash_fn }.
Record ExporterMasterSecret := mkExporterMasterSecret { ex_secret : bytes; ex_hash : hash_fn }.

Section secrets.
Context {E : Type}.

Definition NewEarlySecret (h : hash_fn) (psk : option bytes) : EarlySecret :=
  mkEarlySecret (extract h psk None) h.
Definition ResumptionBinderKey (s : EarlySecret) : outcome E bytes :=
  deriveSecret (es_hash s) (es_secret s) resumptionBinderLabel None.
Definition ClientEarlyTrafficSecret (s : EarlySecret) (transcript : option digest) : outcome E bytes :=
  deriveSecret (es_hash s) (es_secret s) clientEarlyTrafficLabel transcript.

Definition derive_HandshakeSecret (s : EarlySecret) (sharedSecret : option bytes) : outcome E HandshakeSecret :=
  let! derived := deriveSecret (es_hash s) (es_secret s) (str "derived") None in
  Ret (mkHandshakeSecret (extract (es_hash s) sharedSecret (Some derived)) (es_hash s)).
Definition ClientHandshakeTrafficSecret (s : HandshakeSecret) (transcript : option digest) : outcome E bytes :=
  deriveSecret (hs_hash s) (hs_secret s) clientHandshakeTrafficLabel transcript.
Definition ServerHandshakeTrafficSecret (s : HandshakeSecret) (transcript : option digest) : outcome E bytes :=
  deriveSecret (hs_hash s) (hs_secret s) serverHandshakeTrafficLabel transcript.

Definition derive_MasterSecret (s : HandshakeSecret) : outcome E MasterSecret :=
  let! derived := deriveSecret (hs_hash s) (hs_secret s) (str "derived") None in
  Ret (mkMasterSecret (extract (hs_hash s) None (Some derived)) (hs_hash s)).
Definition ClientApplicationTrafficSecret (s : MasterSecret) (transcript : option digest) : outcome E bytes :=
  deriveSecret (ms_hash s) (ms_secret s) clientApplicationTrafficLabel transcript.
Definition ServerApplicationTrafficSecret (s : MasterSecret) (transcript : option digest) : outcome E bytes :=
  deriveSecret (ms_hash s) (ms_secret s) serverApplicationTrafficLabel transcript.
Definition ResumptionMasterSecret (s : MasterSecret) (transcript : option digest) : outcome E bytes :=
  deriveSecret (ms_hash s) (ms_secret s) resumptionLabel transcript.

Definition derive_ExporterMasterSecret (s : MasterSecret) (transcript : option digest)
  : outcome E ExporterMasterSecret :=
  let! secret := deriveSecret (ms_hash s) (ms_secret s) exporterLabel transcript in
  Ret (mkExporterMasterSecret secret (ms_hash s)).
Definition EarlyExporterMasterSecret (s : EarlySecret) (transcript : option digest)
  : outcome E ExporterMasterSecret :=
  let! secret := deriveSecret (es_hash s) (es_secret s) earlyExporterLabel transcript in
  Ret (mkExporterMasterSecret secret (es_hash s)).
Definition Exporter (s : ExporterMasterSecret) (label context : bytes) (length_ : nat) : outcome E bytes :=
  let! secret := deriveSecret (ex_hash s) (ex_secret s) label None in
  let h := d_Write context (new_digest (ex_hash s)) in
  ExpandLabel (ex_hash s) secret (str "exporter") (d_Sum h) length_.
End secrets.
End tls13.

(** ** The PRFs of TLS 1.0 to 1.2 *)

Module tls12.

(** The loop of [pHash] over what is left of [result]; a pass fills at least
    one byte of it. *)
Fixpoint pHash_fuel (stuck : bytes) (fuel : nat) (result : bytes) (h : Hash (hash_fn * bytes)) (a seed : bytes)
  : bytes :=
  if negb (0 <? length result)%nat then [] else
  match fuel with
  | O => stuck
  | Datatypes.S fuel =>
      let h := Write (Write (Reset h) a) seed in
      let b := Sum h [] in
      let n := min (length result) (length b) in
      let h := Write (Reset h) a in
      take n b ++ pHash_fuel stuck fuel (drop n result) h (Sum h []) seed
  end.

Definition pHash (hash1 : hash_fn) (result secret seed : bytes) : bytes :=
  let h := Write (hmac_New hash1 secret) seed in
  pHash_fuel [] (length result) result h (Sum h []) seed.

Definition PRF (hash : hash_fn) (secret label seed : bytes) (keyLen : nat) : bytes :=
  pHash hash (replicate keyLen 0) secret (label ++ seed).

Definition masterSecretLength : nat := 48.
Definition extendedMasterSecretLabel : bytes := str "extended master secret".

Definition MasterSecret (hash : hash_fn) (preMasterSecret transcript : bytes) : bytes :=
  PRF hash preMasterSecret extendedMasterSecretLabel transcript masterSecretLength.
End tls12.

(** The hash functions of the standard library that the code names. *)
Class Hashes := {
  md5_fn : hash_fn; sha1_fn : hash_fn; sha256_fn : hash_fn; sha384_fn : hash_fn; sha512_fn : hash_fn
}.

Section prf.
Context `{Hashes}.

Definition splitPreMasterSecret (secret : bytes) : bytes * bytes :=
  (take ((length secret + 1) / 2) secret, drop (length secret / 2) secret).

(** prf.go's [pHash], which fills [result] in place from index [j]. *)
Fixpoint pHash_fuel (stuck : bytes) (fuel : nat) (result : bytes) (j : nat) (h : Hash (hash_fn * bytes))
    (a seed : bytes) : bytes :=
  if negb (j <? length result)%nat then result else
  match fuel with
  | O => stuck
  | Datatypes.S fuel =>
      let h := Write (Write (Reset h) a) seed in
      let b := Sum h [] in
      let result := take j result ++ Gcm.copy (drop j result) b in
      let h := Write (Reset h) a in
      pHash_fuel stuck fuel result (j + length b) h (Sum h []) seed
  end.

Definition pHash (result secret seed : bytes) (hash : hash_fn) : bytes :=
  let h := Write (hmac_New hash secret) seed in
  pHash_fuel [] (length result) result 0 h (Sum h []) seed.

Definition prf10 (secret label seed : bytes) (keyLen : nat) : bytes :=
  let result := replicate keyLen 0 in
  let labelAndSeed := label ++ seed in
  let '(s1, s2) := splitPreMasterSecret secret in
  let result := pHash result s1 labelAndSeed md5_fn in
  let result2 := pHash (replicate (length result) 0) s2 labelAndSeed sha1_fn in
  zip_with Z.lxor result result2.

Definition prfFunc : Type := bytes -> bytes -> bytes -> nat -> bytes.
Definition prf12 (hashFunc : hash_fn) : prfFunc := tls12.PRF hashFunc.

Definition masterSecretLength : nat := 48.
Definition finishedVerifyLength : nat := 12.
Definition masterSecretLabel : bytes := str "master secret".
Definition extendedMasterSecretLabel : bytes := str "extended master secret".
Definition keyExpansionLabel : bytes := str "key expansion".
Definition clientFinishedLabel : bytes := str "client finished".
Definition serverFinishedLabel : bytes := str "server finished".

(** [crypto.SHA256.New], [crypto.SHA384.New] *)
Definition hash_New (h : crypto_hash) : hash_fn := match h with SHA256 => sha256_fn | SHA384 => sha384_fn end.

(** [crypto.Hash(0)] is [None]. *)
Definition prfAndHashForVersion {E} (version : Z) (suite : cipherSuite) : outcome E (prfFunc * option crypto_hash) :=
  if (version =? VersionTLS10) || (version =? VersionTLS11) then Ret (prf10, None)
  else if version =? VersionTLS12 then
    if negb (flags suite &&& suiteSHA384 =? 0) then Ret (prf12 sha384_fn, Some SHA384)
    else Ret (prf12 sha256_fn, Some SHA256)
  else Panic "unknown version".

Definition prfForVersion {E} (version : Z) (suite : cipherSuite) : outcome E prfFunc :=
  let! (prf, _) := prfAndHashForVersion version suite in Ret prf.

Definition masterFromPreMasterSecret {E} (version : Z) (suite : cipherSuite)
    (preMasterSecret clientRandom serverRandom : bytes) : outcome E bytes :=
  let! prf := prfForVersion version suite in
  Ret (prf preMasterSecret masterSecretLabel (clientRandom ++ serverRandom) masterSecretLength).

Definition extMasterFromPreMasterSecret {E} (version : Z) (suite : cipherSuite)
    (preMasterSecret transcript : bytes) : outcome E bytes :=
  let! (prf, hash) := prfAndHashForVersion version suite in
  match hash with
  | Some h => if version =? VersionTLS12 then Ret (tls12.MasterSecret (hash_New h) preMasterSecret transcript)
              else Ret (prf preMasterSecret extendedMasterSecretLabel transcript masterSecretLength)
  | None => Ret (prf preMasterSecret extendedMasterSecretLabel transcript masterSecretLength)
  end.

Record keys := mkKeys {
  clientMAC : bytes; serverMAC : bytes; clientKey : bytes; serverKey : bytes; clientIV : bytes; serverIV : bytes
}.

(** [keyMaterial[:n]] and [keyMaterial[n:]] *)
Definition cut {E} (n : nat) (keyMaterial : bytes) : outcome E (bytes * bytes) :=
  if (length keyMaterial <? n)%nat then Panic index_out_of_range else Ret (take n keyMaterial, drop n keyMaterial).

Definition keysFromMasterSecret {E} (version : Z) (suite : cipherSuite)
    (masterSecret clientRandom serverRandom : bytes) (macLen keyLen ivLen : nat) : outcome E keys :=
  let seed := serverRandom ++ clientRandom in
  let n := (2 * macLen + 2 * keyLen + 2 * ivLen)%nat in
  let! prf := prfForVersion version suite in
  let keyMaterial := prf masterSecret keyExpansionLabel seed n in
  let! (clientMAC, keyMaterial) := cut macLen keyMaterial in
  let! (serverMAC, keyMaterial) := cut macLen keyMaterial in
  let! (clientKey, keyMaterial) := cut keyLen keyMaterial in
  let! (serverKey, keyMaterial) := cut keyLen keyMaterial in
  let! (clientIV, keyMaterial) := cut ivLen keyMaterial in
  let! (serverIV, _) := cut ivLen keyMaterial in
  Ret (mkKeys clientMAC serverMAC clientKey serverKey clientIV serverIV).

End prf.

(** [finishedHash]: the transcript of TLS 1.0 to 1.2. *)
Module finishedHash.
Section ops.
Context `{Hashes}.

Record t := mk {
  client : digest;
  server : digest;
  clientMD5 : option digest;
  serverMD5 : option digest;
  buffer : option bytes;
  version : Z;
  prf : prfFunc
}.

Definition New {E} (version : Z) (suite : cipherSuite) : outcome E t :=
  let buffer := if VersionTLS12 <=? version then Some [] else None in
  let! (prf, hash) := prfAndHashForVersion version suite in
  match hash with
  | Some h => Ret (mk (new_digest (hash_New h)) (new_digest (hash_New h)) None None buffer version prf)
  | None => Ret (mk (new_digest sha1_fn) (new_digest sha1_fn) (Some (new_digest md5_fn)) (Some (new_digest md5_fn))
                   buffer version prf)
  end.

Definition Write (msg : bytes) (h : t) : t :=
  let old := version h <? VersionTLS12 in
  mk (d_Write msg (client h)) (d_Write msg (server h))
    (if old then d_Write msg <$> clientMD5 h else clientMD5 h)
    (if old then d_Write msg <$> serverMD5 h else serverMD5 h)
    ((fun b => b ++ msg) <$> buffer h) (version h) (prf h).

(** A [nil] MD5 digest would be a nil dereference. *)
Definition Sum {E} (h : t) : outcome E bytes :=
  if VersionTLS12 <=? version h then Ret (d_Sum (client h))
  else match clientMD5 h with
       | Some md5 => Ret (d_Sum md5 ++ d_Sum (client h))
       | None => Panic "nil pointer dereference"
       end.

Definition clientSum {E} (h : t) (masterSecret : bytes) : outcome E bytes :=
  let! sum := Sum h in Ret (prf h masterSecret clientFinishedLabel sum finishedVerifyLength).
Definition serverSum {E} (h : t) (masterSecret : bytes) : outcome E bytes :=
  let! sum := Sum h in Ret (prf h masterSecret serverFinishedLabel sum finishedVerifyLength).

Definition hashForClientCertificate {E} (h : t) (sigType : Z) (hashAlg : hash_fn) : outcome E bytes :=
  let buffered := (VersionTLS12 <=? version h) || (sigType =? signatureEd25519) in
  match buffer h with
  | None =>
      if buffered
      then Panic "tls: handshake hash for a client certificate requested after discarding the handshake buffer"
      else if sigType =? signatureECDSA then Ret (d_Sum (server h)) else Sum h
  | Some b =>
      if sigType =? signatureEd25519 then Ret b
      else if VersionTLS12 <=? version h then Ret (d_Sum (d_Write b (new_digest hashAlg)))
      else if sigType =? signatureECDSA then Ret (d_Sum (server h)) else Sum h
  end.

Definition discardHandshakeBuffer (h : t) : t :=
  mk (client h) (server h) (clientMD5 h) (serverMD5 h) None (version h) (prf h).
End ops.
End finishedHash.

(** ** Exporters *)

Section exporters.
Context `{Hashes}.

Inductive ekm_error :=
| EReserved (label : bytes)
| EContextTooLong
| EText' (msg : string).

Definition noEKMBecauseRenegotiation (label : bytes) (context : option bytes) (length_ : nat)
  : outcome ekm_error bytes :=
  Err (EText' "crypto/tls: ExportKeyingMaterial is unavailable when renegotiation is enabled").
Definition noEKMBecauseNoEMS (label : bytes) (context : option bytes) (length_ : nat)
  : outcome ekm_error bytes :=
  Err (EText' "crypto/tls: ExportKeyingMaterial is unavailable when neither TLS 1.3 nor Extended Master Secret are negotiated; override with GODEBUG=tlsunsafeekm=1").

Definition reserved_labels : list bytes :=
  [str "client finished"; str "server finished"; str "master secret"; str "key expansion"].

Definition ekm_seed (clientRandom serverRandom : bytes) (context : option bytes) : outcome ekm_error bytes :=
  match context with
  | None => Ret (clientRandom ++ serverRandom)
  | Some ctx =>
      if (2 ^ 16 <=? Z.of_nat (length ctx)) then Err EContextTooLong
      else Ret ((clientRandom ++ serverRandom) ++
                [u8 (Z.of_nat (length ctx) ≫ 8); u8 (Z.of_nat (length ctx))] ++ ctx)
  end.

Definition ekmFromMasterSecret (version : Z) (suite : cipherSuite) (masterSecret clientRandom serverRandom : bytes)
    (label : bytes) (context : option bytes) (length_ : nat) : outcome ekm_error bytes :=
  if bool_decide (label ∈ reserved_labels) then Err (EReserved label) else
  let! seed := ekm_seed clientRandom serverRandom context in
  let! prf := prfForVersion version suite in
  Ret (prf masterSecret label seed length_).

(** ** key_schedule.go *)

Definition suite_hash (c : cipherSuiteTLS13) : hash_fn := hash_New (hash13 c).

Definition nextTrafficSecret {E} (c : cipherSuiteTLS13) (trafficSecret : bytes) : outcome E bytes :=
  tls13.ExpandLabel (suite_hash c) trafficSecret (str "traffic upd") [] (h_Size (suite_hash c)).

Definition trafficKey {E} (c : cipherSuiteTLS13) (trafficSecret : bytes) : outcome E (bytes * bytes) :=
  let! key := tls13.ExpandLabel (suite_hash c) trafficSecret (str "key") [] (Z.to_nat (keyLen13 c)) in
  let! iv := tls13.ExpandLabel (suite_hash c) trafficSecret (str "iv") [] (Z.to_nat aeadNonceLength) in
  Ret (key, iv).

(** [suite.finishedHash]: the [verify_data] of a Finished message. *)
Definition suite_finishedHash {E} (c : cipherSuiteTLS13) (baseKey : bytes) (transcript : digest) : outcome E bytes :=
  let! finishedKey := tls13.ExpandLabel (suite_hash c) baseKey (str "finished") [] (h_Size (suite_hash c)) in
  Ret (Sum (Write (hmac_New (suite_hash c) finishedKey) (d_Sum transcript)) []).

Definition exportKeyingMaterial {E} (c : cipherSuiteTLS13) (s : tls13.MasterSecret) (transcript : digest)
    (label context : bytes) (length_ : nat) : outcome E bytes :=
  let! expMasterSecret := tls13.derive_ExporterMasterSecret s (Some transcript) in
  tls13.Exporter expMasterSecret label context length_.

End exporters.

Inductive ecdh_Curve := ecdh_X25519 | ecdh_P256 | ecdh_P384 | ecdh_P521.
#[export] Instance ecdh_Curve_eq_dec : EqDecision ecdh_Curve.
Proof. solve_decision. Defined.

Definition x25519PublicKeySize : nat := 32.

Definition curveForCurveID (id : Z) : option ecdh_Curve :=
  if id =? X25519 then Some ecdh_X25519
  else if id =? CurveP256 then Some ecdh_P256
  else if id =? CurveP384 then Some ecdh_P384
  else if id =? CurveP521 then Some ecdh_P521
  else None.

Definition curveIDForCurve (curve : ecdh_Curve) : Z * bool :=
  match curve with
  | ecdh_X25519 => (X25519, true)
  | ecdh_P256 => (CurveP256, true)
  | ecdh_P384 => (CurveP384, true)
  | ecdh_P521 => (CurveP521, true)
  end.
