(* ===== verification/KdfProofs.v ===== *)
(** * Key derivation: the theorems

    Both loops of [pHash] compute the P_hash of RFC 5246 section 5; the key
    block is cut into keys of the right sizes; and no two derivations of the
    TLS 1.3 key schedule, nor two exporter calls, feed the same input to the
    underlying function. *)

From S2P Require Import Prelude Common HalfConn Gcm CipherSuites Kdf.

Open Scope go_scope.

(** ** P_hash *)

(** [A(i)] and the concatenation of [n] blocks from the [i]-th on. *)
Fixpoint A_hash (h : hash_fn) (secret seed : bytes) (i : nat) : bytes :=
  match i with O => seed | Datatypes.S i => hmac h secret (A_hash h secret seed i) end.
Definition P_hash (h : hash_fn) (secret seed : bytes) (i n : nat) : bytes :=
  concat ((fun j => hmac h secret (A_hash h secret seed (Datatypes.S j) ++ seed)) <$> List.seq i n).

Section phash.
Context (h : hash_fn) (secret seed : bytes) (Hh : hash_ok h).

Lemma length_hmac key msg : length (hmac h key msg) = h_Size h.
Proof. apply h_sum_length, Hh. Qed.

Lemma P_hash_S i n : P_hash h secret seed i (Datatypes.S n) =
  hmac h secret (A_hash h secret seed (Datatypes.S i) ++ seed) ++ P_hash h secret seed (Datatypes.S i) n.
Proof. done. Qed.

Lemma length_P_hash i n : length (P_hash h secret seed i n) = (n * h_Size h)%nat.
Proof. revert i. induction n as [|n IH]; intros i; [done|]. rewrite P_hash_S, length_app, length_hmac, IH. lia. Qed.

Lemma hmac_blocks (m : Hash (hash_fn * bytes)) i : h_key m = (h, secret) ->
  Sum (HalfConn.Write (HalfConn.Write (Reset m) (A_hash h secret seed (Datatypes.S i))) seed) [] =
    hmac h secret (A_hash h secret seed (Datatypes.S i) ++ seed) /\
  Sum (HalfConn.Write (Reset (HalfConn.Write (HalfConn.Write (Reset m) (A_hash h secret seed (Datatypes.S i))) seed))
    (A_hash h secret seed (Datatypes.S i))) [] =
    A_hash h secret seed (Datatypes.S (Datatypes.S i)).
Proof. intros Hk. unfold Sum, HalfConn.Write, Reset. cbn. by rewrite Hk. Qed.

(** tls12's loop over what is left of the result. *)
Lemma tls12_pHash_fuel_spec stuck fuel result m i n : h_key m = (h, secret) ->
  (length result <= fuel)%nat -> (length result <= n * h_Size h)%nat ->
  tls12.pHash_fuel stuck fuel result m (A_hash h secret seed (Datatypes.S i)) seed =
  take (length result) (P_hash h secret seed i n).
Proof.
  revert result m i n. induction fuel as [|fuel IH]; intros result m i n Hk Hf Hn; cbn [tls12.pHash_fuel].
  { destruct result; [done|simpl in Hf; lia]. }
  destruct (Nat.ltb_spec 0 (length result)) as [Hr|Hr]; cbn [negb].
  2:{ destruct result; [done|simpl in Hr; lia]. }
  destruct (hmac_blocks m i Hk) as [-> ->]. pose proof (h_Size_pos h Hh).
  destruct n as [|n]; [lia|]. rewrite P_hash_S, length_hmac.
  rewrite IH with (n := n); [|done|rewrite length_drop; lia|rewrite length_drop; lia].
  rewrite length_drop. destruct (Nat.le_ge_cases (length result) (h_Size h)) as [Hl|Hl].
  - rewrite Nat.min_l by done. rewrite Nat.sub_diag, take_0, app_nil_r.
    by rewrite take_app_le by (rewrite length_hmac; lia).
  - rewrite Nat.min_r by done. rewrite take_ge by (rewrite length_hmac; lia).
    by rewrite take_app_ge, length_hmac by (rewrite length_hmac; lia).
Qed.

Lemma PRF_spec label n k : seed = label -> (n <= k * h_Size h)%nat ->
  tls12.pHash h (replicate n 0) secret seed = take n (P_hash h secret seed 0 k).
Proof.
  intros _ Hk. unfold tls12.pHash. rewrite length_replicate.
  change (Sum (HalfConn.Write (hmac_New h secret) seed) []) with (A_hash h secret seed 1).
  rewrite (tls12_pHash_fuel_spec _ _ _ _ 0 k); rewrite ?length_replicate; done.
Qed.

(** prf.go's loop, in place. *)
Lemma pHash_fuel_spec stuck fuel result m i n : h_key m = (h, secret) ->
  (length result - i * h_Size h <= fuel)%nat -> (length result - i * h_Size h <= n * h_Size h)%nat ->
  pHash_fuel stuck fuel result (i * h_Size h) m (A_hash h secret seed (Datatypes.S i)) seed =
  take (i * h_Size h) result ++ take (length result - i * h_Size h) (P_hash h secret seed i n).
Proof.
  revert result m i n. induction fuel as [|fuel IH]; intros result m i n Hk Hf Hn; cbn [pHash_fuel];
    (destruct (Nat.ltb_spec (i * h_Size h) (length result)) as [Hr|Hr]; cbn [negb];
     [|by rewrite take_ge, (proj2 (Nat.sub_0_le _ _)), take_0, app_nil_r by done]); [lia|].
  destruct (hmac_blocks m i Hk) as [-> ->]. pose proof (h_Size_pos h Hh).
  destruct n as [|n]; [lia|]. rewrite P_hash_S, length_hmac.
  replace (i * h_Size h + h_Size h)%nat with (Datatypes.S i * h_Size h)%nat by lia.
  set (b := hmac h secret _). assert (Hb : length b = h_Size h) by apply length_hmac.
  set (result' := take (i * h_Size h) result ++ Gcm.copy (drop (i * h_Size h) result) b).
  assert (Hcl : length (Gcm.copy (drop (i * h_Size h) result) b) = (length result - i * h_Size h)%nat).
  { unfold Gcm.copy. rewrite length_app, length_take, !length_drop. lia. }
  assert (Hl : length result' = length result).
  { unfold result'. rewrite length_app, length_take, Hcl. lia. }
  rewrite IH with (n := n); [|done|rewrite Hl; lia|rewrite Hl; lia].
  rewrite Hl. unfold result'. rewrite take_app_ge by (rewrite length_take; lia).
  rewrite length_take, <- app_assoc. f_equal. rewrite Nat.min_l by lia.
  replace (Datatypes.S i * h_Size h - i * h_Size h)%nat with (h_Size h) by lia.
  unfold Gcm.copy. rewrite length_drop.
  destruct (Nat.le_ge_cases (length result - i * h_Size h) (h_Size h)) as [Hc|Hc].
  - rewrite (take_ge (_ ++ _)) by (rewrite length_app, length_take, !length_drop; lia).
    rewrite (drop_ge (drop _ _)) by (rewrite length_drop; lia). rewrite app_nil_r.
    replace (length result - Datatypes.S i * h_Size h)%nat with 0%nat by lia. rewrite take_0, app_nil_r.
    rewrite take_app_le by lia. f_equal. lia.
  - rewrite (take_ge b) by lia. rewrite take_app_le, (take_ge b) by lia.
    rewrite (take_app_ge b) by lia. rewrite Hb. do 2 f_equal. lia.
Qed.

Lemma prf_pHash_spec n k : (n <= k * h_Size h)%nat ->
  pHash (replicate n 0) secret seed h = take n (P_hash h secret seed 0 k).
Proof.
  intros Hk. unfold pHash. rewrite length_replicate.
  change (Sum (HalfConn.Write (hmac_New h secret) seed) []) with (A_hash h secret seed 1).
  change 0%nat with (0 * h_Size h)%nat at 1.
  rewrite (pHash_fuel_spec _ _ _ _ 0 k); rewrite ?length_replicate, ?Nat.sub_0_r; done.
Qed.
End phash.

(** ** Labels *)

Lemma u8_inj a b : is_u8 a -> is_u8 b -> u8 a = u8 b -> a = b.
Proof. intros Ha Hb. unfold u8. by rewrite !Z.mod_small. Qed.

Lemma be_put_inj n a b : 0 <= a < 256 ^ Z.of_nat n -> 0 <= b < 256 ^ Z.of_nat n -> be_put n a = be_put n b -> a = b.
Proof. intros Ha Hb Hp. apply (f_equal be_get) in Hp. by rewrite !be_get_put, !Z.mod_small in Hp. Qed.

Lemma hkdf_label_inj n1 l1 c1 n2 l2 c2 : is_u16 n1 -> is_u16 n2 ->
  (length l1 <= 249)%nat -> (length l2 <= 249)%nat -> (length c1 <= 255)%nat -> (length c2 <= 255)%nat ->
  tls13.hkdf_label n1 l1 c1 = tls13.hkdf_label n2 l2 c2 -> n1 = n2 /\ l1 = l2 /\ c1 = c2.
Proof.
  intros Hn1 Hn2 Hl1 Hl2 Hc1 Hc2. unfold tls13.hkdf_label. intros Q.
  apply app_inj_1 in Q as [Qn Q]; [|done]. apply (be_put_inj 2) in Qn; [|done..].
  injection Q as Ql Q. assert (length l1 = length l2) as E.
  { apply u8_inj in Ql; [change (length (str "tls13 ")) with 6%nat in Ql|change (length (str "tls13 ")) with 6%nat..]; lia. }
  apply app_inj_1 in Q as [-> Q]; [|done]. by injection Q as _ ->.
Qed.

(** The labels the key schedule of TLS 1.3 derives with. *)
Definition schedule_labels : list bytes := [
  tls13.resumptionBinderLabel; tls13.clientEarlyTrafficLabel; tls13.clientHandshakeTrafficLabel;
  tls13.serverHandshakeTrafficLabel; tls13.clientApplicationTrafficLabel; tls13.serverApplicationTrafficLabel;
  tls13.earlyExporterLabel; tls13.exporterLabel; tls13.resumptionLabel; str "derived"; str "exporter";
  str "finished"; str "key"; str "iv"; str "traffic upd"; str "resumption"].

Lemma schedule_label_short l : l ∈ schedule_labels -> (length l <= 12)%nat.
Proof.
  intros Hl. assert (Hf : Forall (fun l => (length l <= 12)%nat) schedule_labels) by compute_decide.
  by eapply Forall_forall in Hf.
Qed.

Lemma ExpandLabel_ret {E} h secret l c n : (length l <= 249)%nat -> (length c <= 255)%nat ->
  tls13.ExpandLabel (E:=E) h secret l c n = Ret (default [] (hkdf_Expand h secret (tls13.hkdf_label (Z.of_nat n) l c) n)).
Proof.
  intros Hl Hc. unfold tls13.ExpandLabel. change (length (str "tls13 ")) with 6%nat.
  by rewrite (proj2 (Nat.ltb_ge _ _)), (proj2 (Nat.ltb_ge _ _)) by lia.
Qed.

Section theorems.
Context `{Hashes}.

(** The hash functions the code uses are hash functions. *)
Class HashesLaws : Prop := {
  md5_ok : hash_ok md5_fn; sha1_ok : hash_ok sha1_fn; sha256_ok : hash_ok sha256_fn; sha384_ok : hash_ok sha384_fn;
  sha512_ok : hash_ok sha512_fn
}.
Context `{HashesLaws}.

(** The hash of the PRF of TLS 1.2. *)
Definition suite_prf_hash (suite : cipherSuite) : hash_fn :=
  if negb (flags suite &&& suiteSHA384 =? 0) then sha384_fn else sha256_fn.
(** RFC 5246 section 5, RFC 2246 section 5 *)
Definition PRF_TLS12 (suite : cipherSuite) (secret label seed : bytes) (n : nat) : bytes :=
  take n (P_hash (suite_prf_hash suite) secret (label ++ seed) 0 n).
Definition PRF_TLS10 (secret label seed : bytes) (n : nat) : bytes :=
  let half := ((length secret + 1) / 2)%nat in
  zip_with Z.lxor (take n (P_hash md5_fn (take half secret) (label ++ seed) 0 n))
                  (take n (P_hash sha1_fn (drop (length secret - half) secret) (label ++ seed) 0 n)).

Lemma half_drop n : (n - (n + 1) / 2 = n / 2)%nat.
Proof.
  pose proof (Nat.div_mod_eq n 2). pose proof (Nat.mod_upper_bound n 2 ltac:(lia)).
  pose proof (Nat.div_mod_eq (n + 1) 2). pose proof (Nat.mod_upper_bound (n + 1) 2 ltac:(lia)). lia.
Qed.

Lemma suite_prf_hash_ok suite : hash_ok (suite_prf_hash suite).
Proof. unfold suite_prf_hash. destruct (negb _); [apply sha384_ok|apply sha256_ok]. Qed.

Lemma enough_blocks h n : hash_ok h -> (n <= n * h_Size h)%nat.
Proof. intros Hh. pose proof (h_Size_pos h Hh). nia. Qed.

Lemma prf10_eq secret label seed n : prf10 secret label seed n = PRF_TLS10 secret label seed n.
Proof.
  unfold prf10, PRF_TLS10, splitPreMasterSecret. rewrite half_drop.
  pose proof md5_ok as Hm. pose proof sha1_ok as Hs.
  rewrite (prf_pHash_spec md5_fn _ _ Hm n n) by by apply enough_blocks.
  assert (Hl : length (take n (P_hash md5_fn (take ((length secret + 1) / 2) secret) (label ++ seed) 0 n)) = n).
  { rewrite length_take, length_P_hash by done. pose proof (enough_blocks _ n Hm). lia. }
  rewrite Hl. by rewrite (prf_pHash_spec sha1_fn _ _ Hs n n) by by apply enough_blocks.
Qed.

Lemma prf12_eq suite secret label seed n : prf12 (suite_prf_hash suite) secret label seed n = PRF_TLS12 suite secret label seed n.
Proof.
  unfold prf12, tls12.PRF, PRF_TLS12. pose proof (suite_prf_hash_ok suite) as Hh.
  by rewrite (PRF_spec _ _ _ Hh (label ++ seed) n n) by (done || by apply enough_blocks).
Qed.

Lemma length_PRF_TLS12 suite secret label seed n : length (PRF_TLS12 suite secret label seed n) = n.
Proof.
  pose proof (suite_prf_hash_ok suite) as Hh. unfold PRF_TLS12.
  rewrite length_take, length_P_hash by done. pose proof (enough_blocks _ n Hh). lia.
Qed.

Lemma length_PRF_TLS10 secret label seed n : length (PRF_TLS10 secret label seed n) = n.
Proof.
  unfold PRF_TLS10. rewrite length_zip_with, !length_take, !length_P_hash by (apply md5_ok || apply sha1_ok).
  pose proof (enough_blocks _ n md5_ok). pose proof (enough_blocks _ n sha1_ok). lia.
Qed.

Lemma prfForVersion_spec {E} version suite prf : prfForVersion (E:=E) version suite = Ret prf ->
  forall secret label seed n, length (prf secret label seed n) = n /\
    ((version = VersionTLS12 /\ prf secret label seed n = PRF_TLS12 suite secret label seed n) \/
     ((version = VersionTLS10 \/ version = VersionTLS11) /\ prf secret label seed n = PRF_TLS10 secret label seed n)).
Proof.
  unfold prfForVersion, prfAndHashForVersion. intros Q secret label seed n.
  destruct ((version =? VersionTLS10) || (version =? VersionTLS11)) eqn:E1.
  - injection Q as <-. rewrite prf10_eq, length_PRF_TLS10. apply orb_true_iff in E1.
    rewrite !Z.eqb_eq in E1. auto.
  - destruct (Z.eqb_spec version VersionTLS12) as [->|]; [|done].
    assert (prf = prf12 (suite_prf_hash suite)) as ->.
    { unfold suite_prf_hash. destruct (negb _); by injection Q as <-. }
    rewrite prf12_eq, length_PRF_TLS12. auto.
Qed.

(** C35: The PRFs are those of the RFCs: for TLS 1.2 the P_hash of the suite's
    hash, for TLS 1.0 and 1.1 the exclusive or of P_MD5 and P_SHA-1 on the two
    halves of the secret; each gives exactly the bytes asked for, so the loops
    end, and any other version panics. *)
Theorem prf_is_P_hash {E} version suite :
  (exists prf, prfForVersion (E:=E) version suite = Ret prf /\
    forall secret label seed n, length (prf secret label seed n) = n /\
      ((version = VersionTLS12 /\ prf secret label seed n = PRF_TLS12 suite secret label seed n) \/
       ((version = VersionTLS10 \/ version = VersionTLS11) /\ prf secret label seed n = PRF_TLS10 secret label seed n)))
  \/ ((version ∉ [VersionTLS10; VersionTLS11; VersionTLS12]) /\
      prfForVersion (E:=E) version suite = Panic "unknown version").
Proof.
  destruct (prfForVersion (E:=E) version suite) as [prf|e|w] eqn:Q.
  - left. exists prf. split; [done|]. intros secret label seed n. exact (prfForVersion_spec version suite prf Q secret label seed n).
  - exfalso. unfold prfForVersion, prfAndHashForVersion in Q. by repeat case_match.
  - right. unfold prfForVersion, prfAndHashForVersion in Q.
    destruct ((version =? VersionTLS10) || (version =? VersionTLS11)) eqn:E1; [done|].
    apply orb_false_iff in E1 as [E1%Z.eqb_neq E2%Z.eqb_neq].
    destruct (Z.eqb_spec version VersionTLS12); [by destruct (negb _)|]. injection Q as <-.
    split; [|done]. rewrite !not_elem_of_cons. by repeat split; [..|apply not_elem_of_nil].
Qed.

Lemma cut_spec {E} n km : (n <= length km)%nat -> cut (E:=E) n km = Ret (take n km, drop n km).
Proof. intros Hn. unfold cut. by rewrite (proj2 (Nat.ltb_ge _ _)) by done. Qed.

(** The key block of TLS 1.0 to 1.2 is cut completely: six keys of the
    lengths of the suite, client before server for each kind, which together
    are all the bytes the PRF was asked for; no slice is out of range. *)
Theorem keys_partition {E} version suite prf ms cr sr macLen keyLen ivLen :
  prfForVersion (E:=E) version suite = Ret prf ->
  exists k, keysFromMasterSecret (E:=E) version suite ms cr sr macLen keyLen ivLen = Ret k /\
    clientMAC k ++ serverMAC k ++ clientKey k ++ serverKey k ++ clientIV k ++ serverIV k =
      prf ms keyExpansionLabel (sr ++ cr) (2 * macLen + 2 * keyLen + 2 * ivLen)%nat /\
    length (clientMAC k) = macLen /\ length (serverMAC k) = macLen /\ length (clientKey k) = keyLen /\
    length (serverKey k) = keyLen /\ length (clientIV k) = ivLen /\ length (serverIV k) = ivLen.
Proof.
  intros Hp. unfold keysFromMasterSecret. rewrite Hp. cbn [obind].
  destruct (prfForVersion_spec version suite prf Hp ms keyExpansionLabel (sr ++ cr)
    (2 * macLen + 2 * keyLen + 2 * ivLen)%nat) as [Hl _].
  set (km := prf _ _ _ _) in *. clearbody km.
  do 6 (rewrite cut_spec by (rewrite ?length_drop; lia); cbn [obind]).
  eexists. split; [reflexivity|]. cbn [clientMAC serverMAC clientKey serverKey clientIV serverIV].
  rewrite !length_take, !length_drop. split_and!; try lia.
  rewrite (take_ge (drop ivLen _)) by (rewrite !length_drop; lia). by rewrite !take_drop.
Qed.

(** The derivations of the TLS 1.3 key schedule are separated: its labels
    are pairwise different, no call with one of them and a digest as context
    panics, and two calls hand HKDF-Expand the same info only when the label,
    the context and the length are the same. *)
Theorem schedule_separated {E} h secret l1 l2 c1 c2 n1 n2 : l1 ∈ schedule_labels -> l2 ∈ schedule_labels ->
  (length c1 <= 255)%nat -> (length c2 <= 255)%nat -> is_u16 (Z.of_nat n1) -> is_u16 (Z.of_nat n2) ->
  NoDup schedule_labels /\
  exists i1 i2, tls13.ExpandLabel (E:=E) h secret l1 c1 n1 = Ret (default [] (hkdf_Expand h secret i1 n1)) /\
    tls13.ExpandLabel (E:=E) h secret l2 c2 n2 = Ret (default [] (hkdf_Expand h secret i2 n2)) /\
    (i1 = i2 <-> l1 = l2 /\ c1 = c2 /\ n1 = n2).
Proof.
  intros Hl1%schedule_label_short Hl2%schedule_label_short Hc1 Hc2 Hn1 Hn2. split; [compute_decide|].
  exists (tls13.hkdf_label (Z.of_nat n1) l1 c1), (tls13.hkdf_label (Z.of_nat n2) l2 c2).
  rewrite !ExpandLabel_ret by lia. split_and!; [done..|]. split.
  - intros Q%hkdf_label_inj; [|done|done|lia|lia|done|done]. destruct Q as (Q & -> & ->). by apply Nat2Z.inj in Q as ->.
  - by intros (-> & -> & ->).
Qed.

Lemma ekm_seed_inj cr sr ctx1 ctx2 s : ekm_seed cr sr ctx1 = Ret s -> ekm_seed cr sr ctx2 = Ret s -> ctx1 = ctx2.
Proof.
  unfold ekm_seed. intros Q1 Q2.
  assert (Hs : forall c, (if 2 ^ 16 <=? Z.of_nat (length c) then Err EContextTooLong
      else Ret ((cr ++ sr) ++ [u8 (Z.of_nat (length c) ≫ 8); u8 (Z.of_nat (length c))] ++ c)) = Ret s ->
    exists a b, s = (cr ++ sr) ++ [a; b] ++ c).
  { intros c. destruct (_ <=? _); [done|]. intros [= <-]. eauto. }
  destruct ctx1 as [c1|], ctx2 as [c2|].
  - destruct (Hs c1 Q1) as (a1 & b1 & E1), (Hs c2 Q2) as (a2 & b2 & E2). rewrite E1 in E2.
    apply app_inv_head in E2. by injection E2 as _ _ ->.
  - destruct (Hs c1 Q1) as (a1 & b1 & ->). injection Q2 as Q2. rewrite <- (app_nil_r (cr ++ sr)) in Q2 at 1.
    by apply app_inv_head in Q2.
  - destruct (Hs c2 Q2) as (a2 & b2 & ->). injection Q1 as Q1. rewrite <- (app_nil_r (cr ++ sr)) in Q1 at 1.
    by apply app_inv_head in Q1.
  - done.
Qed.

(** Exported keying material of TLS 1.0 to 1.2: the reserved labels of
    the handshake and contexts of 2^16 bytes or more are refused with errors;
    any other call gives the PRF on a seed that determines the context, an
    absent one and an empty one included. *)
Theorem ekm_spec version suite prf ms cr sr label ctx n : prfForVersion (E:=ekm_error) version suite = Ret prf ->
  (label ∈ reserved_labels -> ekmFromMasterSecret version suite ms cr sr label ctx n = Err (EReserved label)) /\
  (label ∉ reserved_labels -> (2 ^ 16 <= Z.of_nat (length (default [] ctx))) ->
    ekmFromMasterSecret version suite ms cr sr label ctx n = Err EContextTooLong) /\
  (label ∉ reserved_labels -> Z.of_nat (length (default [] ctx)) < 2 ^ 16 ->
    exists seed, ekmFromMasterSecret version suite ms cr sr label ctx n = Ret (prf ms label seed n) /\
      forall ctx', ekm_seed cr sr ctx' = Ret seed -> ctx' = ctx).
Proof.
  intros Hp. unfold ekmFromMasterSecret. rewrite Hp. split_and!.
  - intros Hl. by rewrite bool_decide_true.
  - intros Hl Hc. rewrite bool_decide_false by done. destruct ctx as [ctx|]; cbn in Hc; [|lia].
    cbn. by rewrite (proj2 (Z.leb_le _ _)).
  - intros Hl Hc. rewrite bool_decide_false by done.
    destruct (ekm_seed cr sr ctx) as [seed|e|w] eqn:Hs.
    + exists seed. split; [done|]. intros ctx' Hs'. by apply (ekm_seed_inj cr sr ctx' ctx seed).
    + destruct ctx as [ctx|]; cbn in Hs; [|done]. cbn in Hc. by rewrite (proj2 (Z.leb_gt _ _)) in Hs.
    + destruct ctx as [ctx|]; cbn in Hs; [|done]. by destruct (_ <=? _).
Qed.
End theorems.

(** ** Witnesses *)

(** Digests that keep the low bytes of what is hashed. *)
Definition low_bytes (n : nat) : hash_fn := mkHashFn n 64 (fun m => be_put n (be_get m)).

Lemma low_bytes_ok n : (0 < n)%nat -> hash_ok (low_bytes n).
Proof. intros Hn. split; [done|]. intros m. apply length_be_put. Qed.

Definition low_hashes : Hashes := {|
  md5_fn := low_bytes 16; sha1_fn := low_bytes 20; sha256_fn := low_bytes 32; sha384_fn := low_bytes 48; sha512_fn := low_bytes 64
|}.

Lemma low_hashes_laws : @HashesLaws low_hashes.
Proof. split; apply low_bytes_ok; lia. Qed.

Definition w_suite : cipherSuite :=
  mkSuite TLS_ECDHE_RSA_WITH_AES_128_GCM_SHA256 16 0 4 ecdheRSAKA (suiteECDHE ||| suiteTLS12) None None (Some fnAESGCM).

Lemma prf_is_P_hash_witness : exists prf, @prfForVersion low_hashes unit VersionTLS12 w_suite = Ret prf /\
  prf [1; 2; 3] masterSecretLabel [4; 5] 48%nat = @PRF_TLS12 low_hashes w_suite [1; 2; 3] masterSecretLabel [4; 5] 48.
Proof.
  destruct (@prf_is_P_hash low_hashes low_hashes_laws unit VersionTLS12 w_suite) as [(prf & E & Hs)|[_ E]];
    [|discriminate E].
  exists prf. split; [exact E|]. destruct (Hs [1; 2; 3] masterSecretLabel [4; 5] 48%nat) as [_ [[_ Hp]|[[Hv|Hv] _]]];
    [exact Hp|discriminate Hv|discriminate Hv].
Defined.

Lemma keys_partition_witness : exists k,
  @keysFromMasterSecret low_hashes unit VersionTLS12 w_suite [1] [2] [3] 20 16 16 = Ret k /\
  length (clientMAC k) = 20%nat /\ length (serverIV k) = 16%nat.
Proof.
  destruct (@keys_partition low_hashes low_hashes_laws unit VersionTLS12 w_suite _ [1] [2] [3] 20 16 16 eq_refl)
    as (k & E & _ & H1 & _ & _ & _ & _ & H2).
  exists k. split; [exact E|]. split; [exact H1|exact H2].
Defined.

Lemma schedule_separated_witness :
  NoDup schedule_labels /\ exists i1 i2, i1 <> i2 /\
    tls13.ExpandLabel (E:=unit) (low_bytes 32) [7] tls13.clientHandshakeTrafficLabel [] 32 =
      Ret (default [] (hkdf_Expand (low_bytes 32) [7] i1 32)) /\
    tls13.ExpandLabel (E:=unit) (low_bytes 32) [7] tls13.serverHandshakeTrafficLabel [] 32 =
      Ret (default [] (hkdf_Expand (low_bytes 32) [7] i2 32)).
Proof.
  destruct (schedule_separated (E:=unit) (low_bytes 32) [7] tls13.clientHandshakeTrafficLabel
    tls13.serverHandshakeTrafficLabel [] [] 32 32) as (Hnd & i1 & i2 & E1 & E2 & Hi);
    [compute_decide|compute_decide|compute_decide|compute_decide|split; [compute_decide|reflexivity]
    |split; [compute_decide|reflexivity]|].
  split; [exact Hnd|]. exists i1, i2. split; [|split; [exact E1|exact E2]].
  intros Q. apply Hi in Q as (Q & _). discriminate Q.
Defined.

Lemma ekm_spec_witness :
  @ekmFromMasterSecret low_hashes VersionTLS12 w_suite [1] [2] [3] (str "key expansion") None 10 =
  Err (EReserved (str "key expansion")).
Proof.
  destruct (@ekm_spec low_hashes VersionTLS12 w_suite _ [1] [2] [3] (str "key expansion") None 10%nat eq_refl)
    as (H1 & _ & _).
  apply H1. compute_decide.
Defined.
