(* ===== verification/Negotiation.v ===== *)
(** * Negotiation: common.go, defaults.go, defaults_fips140.go and auth.go

    What two peers agree on: protocol versions, curves, cipher suites, ALPN,
    signature schemes, and the downgrade canaries of handshake_server.go and
    handshake_client.go.  [fips] is [fips140tls.Required()]. *)

From S2P Require Import Prelude Common HalfConn CipherSuites Kdf.

Open Scope go_scope.

(** [slices.Contains], [slices.DeleteFunc] *)
Definition contains (v : Z) (l : list Z) : bool := existsb (Z.eqb v) l.
Definition DeleteFunc {T} (l : list T) (del : T -> bool) : list T := List.filter (fun x => negb (del x)) l.

(** ** The defaults *)

Definition defaultCurvePreferences : list Z := [X25519MLKEM768; X25519; CurveP256; CurveP384; CurveP521].

Definition defaultSupportedSignatureAlgorithms : list Z := [
  PSSWithSHA256; ECDSAWithP256AndSHA256; Ed25519; PSSWithSHA384; PSSWithSHA512;
  PKCS1WithSHA256; PKCS1WithSHA384; PKCS1WithSHA512; ECDSAWithP384AndSHA384;
  ECDSAWithP521AndSHA512; PKCS1WithSHA1; ECDSAWithSHA1
].

(** The function of defaults.go, not the method of [Config]. *)
Definition defaults_supportedCipherSuites (aesGCMPreferred : bool) : list Z :=
  if aesGCMPreferred then cipherSuitesPreferenceOrder else cipherSuitesPreferenceOrderNoAES.

Definition defaultCipherSuites (aesGCMPreferred : bool) : list Z :=
  DeleteFunc (defaults_supportedCipherSuites aesGCMPreferred)
    (fun c => contains c disabledCipherSuites || contains c rsaKexCiphers || contains c tdesCiphers).

Definition defaultCipherSuitesTLS13 : list Z :=
  [TLS_AES_128_GCM_SHA256; TLS_AES_256_GCM_SHA384; TLS_CHACHA20_POLY1305_SHA256].
Definition defaultCipherSuitesTLS13NoAES : list Z :=
  [TLS_CHACHA20_POLY1305_SHA256; TLS_AES_128_GCM_SHA256; TLS_AES_256_GCM_SHA384].

Definition allowedSupportedVersionsFIPS : list Z := [VersionTLS12; VersionTLS13].
Definition allowedCurvePreferencesFIPS : list Z := [X25519MLKEM768; CurveP256; CurveP384; CurveP521].
Definition allowedSupportedSignatureAlgorithmsFIPS : list Z := [
  PSSWithSHA256; ECDSAWithP256AndSHA256; Ed25519; PSSWithSHA384; PSSWithSHA512;
  PKCS1WithSHA256; PKCS1WithSHA384; PKCS1WithSHA512; ECDSAWithP384AndSHA384;
  ECDSAWithP521AndSHA512
].
Definition allowedCipherSuitesFIPS : list Z := [
  TLS_ECDHE_RSA_WITH_AES_128_GCM_SHA256; TLS_ECDHE_RSA_WITH_AES_256_GCM_SHA384;
  TLS_ECDHE_ECDSA_WITH_AES_128_GCM_SHA256; TLS_ECDHE_ECDSA_WITH_AES_256_GCM_SHA384;
  TLS_ECDHE_ECDSA_WITH_AES_128_CBC_SHA256; TLS_ECDHE_RSA_WITH_AES_128_CBC_SHA256
].
Definition allowedCipherSuitesTLS13FIPS : list Z := [TLS_AES_128_GCM_SHA256; TLS_AES_256_GCM_SHA384].

Definition isTLS13OnlyKeyExchange (curve : Z) : bool := curve =? X25519MLKEM768.
Definition isPQKeyExchange (curve : Z) : bool := curve =? X25519MLKEM768.

(** ** What [Config] says of them *)

(** [nil] is [None] where the code tells it from an empty slice. *)
Record negConfig := mkNegConfig {
  CipherSuites : option (list Z);
  MinVersion : Z;
  MaxVersion : Z;
  CurvePreferences : list Z;
  EncryptedClientHelloConfigList : option bytes
}.

Section negotiation.
Context (fips : bool).

Definition config_cipherSuites (c : negConfig) (aesGCMPreferred : bool) : list Z :=
  let cipherSuites :=
    match CipherSuites c with
    | None => defaultCipherSuites aesGCMPreferred
    | Some l => DeleteFunc (defaults_supportedCipherSuites aesGCMPreferred) (fun id => negb (contains id l))
    end in
  if fips then DeleteFunc cipherSuites (fun id => negb (contains id allowedCipherSuitesFIPS)) else cipherSuites.

Definition supportedCipherSuites (c : negConfig) : list Z := config_cipherSuites c false.

(** The variable of that name. *)
Definition all_supportedVersions : list Z := [VersionTLS13; VersionTLS12; VersionTLS11; VersionTLS10].

Definition roleClient : bool := true.
Definition roleServer : bool := false.

(** The conditions of the loop of [supportedVersions]; [c] may be [nil]. *)
Definition version_skipped (c : option negConfig) (isClient : bool) (v : Z) : bool :=
  (fips && negb (contains v allowedSupportedVersionsFIPS)) ||
  ((match c with None => true | Some c => MinVersion c =? 0 end) && (v <? VersionTLS12)) ||
  match c with
  | None => false
  | Some c =>
      (isClient && bool_decide (is_Some (EncryptedClientHelloConfigList c)) && (v <? VersionTLS13)) ||
      (negb (MinVersion c =? 0) && (v <? MinVersion c)) ||
      (negb (MaxVersion c =? 0) && (MaxVersion c <? v))
  end.

(** [c.EncryptedClientHelloConfigList] of a [nil] config is a nil dereference,
    which the guard [isClient] excludes for a server. *)
Definition supportedVersions {E} (c : option negConfig) (isClient : bool) : outcome E (list Z) :=
  match c with
  | None =>
      if isClient && existsb (fun v => negb (fips && negb (contains v allowedSupportedVersionsFIPS)) &&
                                       negb (v <? VersionTLS12)) all_supportedVersions
      then Panic "nil pointer dereference"
      else Ret (DeleteFunc all_supportedVersions (version_skipped c isClient))
  | Some _ => Ret (DeleteFunc all_supportedVersions (version_skipped c isClient))
  end.

Definition maxSupportedVersion {E} (c : option negConfig) (isClient : bool) : outcome E Z :=
  let! l := supportedVersions c isClient in Ret (match l with [] => 0 | v :: _ => v end).

Definition supportedVersionsFromMax (maxVersion : Z) : list Z :=
  DeleteFunc all_supportedVersions (fun v => maxVersion <? v).

Definition curvePreferences (c : option negConfig) (version : Z) : list Z :=
  let l := defaultCurvePreferences in
  let l := if fips then DeleteFunc l (fun x => negb (contains x allowedCurvePreferencesFIPS)) else l in
  let l := match c with
           | Some c => if (0 <? length (CurvePreferences c))%nat
                       then DeleteFunc l (fun x => negb (contains x (CurvePreferences c))) else l
           | None => l
           end in
  if version <? VersionTLS13 then DeleteFunc l isTLS13OnlyKeyExchange else l.

Definition supportsCurve (c : option negConfig) (version curve : Z) : bool :=
  contains curve (curvePreferences c version).

(** The version, and [false] ([None]) when there is none. *)
Definition mutualVersion {E} (c : option negConfig) (isClient : bool) (peerVersions : list Z) : outcome E (option Z) :=
  let! l := supportedVersions c isClient in Ret (List.find (fun v => contains v l) peerVersions).

(** readClientHello: the versions of the client, and the one to use. *)
Definition client_versions (vers : Z) (supported : list Z) : list Z :=
  if (VersionTLS13 <=? vers) && (length supported =? 0)%nat then supportedVersionsFromMax VersionTLS12
  else if (length supported =? 0)%nat then supportedVersionsFromMax vers
  else supported.
Definition server_version {E} (c : option negConfig) (vers : Z) (supported : list Z) : outcome E (option Z) :=
  mutualVersion c roleServer (client_versions vers supported).

(** The client takes the version of the ServerHello, or sends the alert. *)
Definition pickTLSVersion (c : option negConfig) (vers supportedVersion : Z) : outcome conn_error Z :=
  let peerVersion := if negb (supportedVersion =? 0) then supportedVersion else vers in
  let! v := mutualVersion c roleClient [peerVersion] in
  match v with Some v => Ret v | None => Err (EAlert alertProtocolVersion) end.

(** ** ALPN, ECDHE and the cipher suite of TLS 1.0 to 1.2 (handshake_server.go) *)

(** The inner loop over the client's protocols: whether [s] is there, and the
    fallback. *)
Fixpoint alpn_inner (s : bytes) (clientProtos : list bytes) (http11fallback : bool) : bool * bool :=
  match clientProtos with
  | [] => (false, http11fallback)
  | c :: clientProtos =>
      if bool_decide (s = c) then (true, http11fallback)
      else alpn_inner s clientProtos
             (http11fallback || (bool_decide (s = str "h2") && bool_decide (c = str "http/1.1")))
  end.
Fixpoint alpn_outer (serverProtos clientProtos : list bytes) (http11fallback : bool) : option bytes * bool :=
  match serverProtos with
  | [] => (None, http11fallback)
  | s :: serverProtos =>
      let '(found, http11fallback) := alpn_inner s clientProtos http11fallback in
      if found then (Some s, http11fallback) else alpn_outer serverProtos clientProtos http11fallback
  end.

Definition negotiateALPN (serverProtos clientProtos : list bytes) (quic : bool) : outcome conn_error bytes :=
  if (length serverProtos =? 0)%nat || (length clientProtos =? 0)%nat then
    if quic && negb (length serverProtos =? 0)%nat
    then Err (EText "tls: client did not request an application protocol")
    else Ret []
  else match alpn_outer serverProtos clientProtos false with
       | (Some s, _) => Ret s
       | (None, true) => Ret []
       | (None, false) => Err (EText "tls: client requested unsupported application protocols")
       end.

(** The client's check of the server's choice. *)
Definition checkALPN (clientProtos : list bytes) (serverProto : bytes) (quic : bool) : outcome conn_error unit :=
  if (length serverProto =? 0)%nat then
    if quic && (0 <? length clientProtos)%nat
    then Err (EText "tls: server did not select an ALPN protocol")
    else Ret tt
  else if (length clientProtos =? 0)%nat then Err (EText "tls: server advertised unrequested ALPN extension")
  else if existsb (fun proto => bool_decide (proto = serverProto)) clientProtos then Ret tt
  else Err (EText "tls: server selected unadvertised ALPN protocol").

Definition supportsECDHE (c : option negConfig) (version : Z) (supportedCurves supportedPoints : list Z)
  : outcome conn_error bool :=
  let supportsCurve := existsb (supportsCurve c version) supportedCurves in
  let supportsPointFormat := existsb (fun p => p =? pointFormatUncompressed) supportedPoints in
  let offeredNonCompressedFormat := existsb (fun p => negb (p =? pointFormatUncompressed)) supportedPoints in
  if (length supportedPoints =? 0)%nat then Ret supportsCurve
  else if offeredNonCompressedFormat && negb supportsPointFormat
  then Err (EText "tls: client offered only incompatible point formats")
  else Ret (supportsCurve && supportsPointFormat).

(** What [serverHandshakeState] keeps of the certificate's key. *)
Record key_use := mkKeyUse { ecdheOk : bool; ecSignOk : bool; rsaSignOk : bool; rsaDecryptOk : bool }.

Definition cipherSuiteOk (k : key_use) (vers : Z) (c : cipherSuite) : bool :=
  (if negb (flags c &&& suiteECDHE =? 0) then
     ecdheOk k && (if negb (flags c &&& suiteECSign =? 0) then ecSignOk k else rsaSignOk k)
   else rsaDecryptOk k) &&
  negb ((vers <? VersionTLS12) && negb (flags c &&& suiteTLS12 =? 0)).

(** [Err] carries the alert that is sent. *)
Definition pickCipherSuite (hw : bool) (c : negConfig) (k : key_use) (vers hello_vers : Z) (ids : list Z)
  : outcome conn_error cipherSuite :=
  let preferenceList := config_cipherSuites c (isAESGCMPreferred hw ids) in
  match selectCipherSuite preferenceList ids (cipherSuiteOk k vers) with
  | None => Err (EAlert alertHandshakeFailure)
  | Some suite =>
      if contains TLS_FALLBACK_SCSV ids then
        let! m := maxSupportedVersion (Some c) roleServer in
        if hello_vers <? m then Err (EAlert alertInappropriateFallback) else Ret suite
      else Ret suite
  end.

(** ** Downgrade canaries *)

Definition downgradeCanaryTLS12 : bytes := str "DOWNGRD" ++ [1].
Definition downgradeCanaryTLS11 : bytes := str "DOWNGRD" ++ [0].

(** The random of the ServerHello up to TLS 1.2: [rnd n] are [n] bytes from
    [c.config.rand()]. *)
Definition server_random {E} (c : option negConfig) (vers : Z) (rnd : nat -> option bytes)
  : outcome E (option bytes) :=
  let! maxVers := maxSupportedVersion c roleServer in
  if (VersionTLS12 <=? maxVers) && (vers <? maxVers) then
    let canary := if vers =? VersionTLS12 then downgradeCanaryTLS12 else downgradeCanaryTLS11 in
    Ret (option_map (fun r => r ++ canary) (rnd 24%nat))
  else Ret (rnd 32%nat).

(** The client's check (clientHandshake): [true] is the alert. *)
Definition downgrade_detected {E} (c : option negConfig) (vers : Z) (random : bytes) : outcome E bool :=
  let! maxVers := maxSupportedVersion c roleClient in
  let tls12Downgrade := bool_decide (drop 24 random = downgradeCanaryTLS12) in
  let tls11Downgrade := bool_decide (drop 24 random = downgradeCanaryTLS11) in
  Ret (((maxVers =? VersionTLS13) && (vers <=? VersionTLS12) && (tls12Downgrade || tls11Downgrade)) ||
       ((maxVers =? VersionTLS12) && (vers <=? VersionTLS11) && tls11Downgrade)).
End negotiation.
