(* ===== verification/NegotiationProofs.v ===== *)
(** * Negotiation: what the peers agree on

    Both ends settle on the greatest version they share, an attacker who
    pushes them below it is noticed by the client, and the cipher suite and
    the protocol are those the server prefers among the client's. *)

From Stdlib Require Import Sorted.
From S2P Require Import Prelude Common HalfConn CipherSuites CipherSuitesProofs Kdf Negotiation.

Open Scope go_scope.

(** ** Lists *)

Lemma contains_In v l : contains v l = true <-> In v l.
Proof.
  unfold contains. rewrite existsb_exists. split.
  - intros (x & Hx & He). apply Z.eqb_eq in He. by subst.
  - intros Hin. exists v. split; [done|apply Z.eqb_refl].
Qed.

Lemma DeleteFunc_In {T} (l : list T) del x : In x (DeleteFunc l del) <-> In x l /\ del x = false.
Proof. unfold DeleteFunc. by rewrite filter_In, negb_true_iff. Qed.

(** The first element that passes. *)
Lemma find_first {T} (p : T -> bool) l :
  match List.find p l with
  | Some x => exists pre post, l = pre ++ x :: post /\ p x = true /\ forall y, In y pre -> p y = false
  | None => forall y, In y l -> p y = false
  end.
Proof.
  induction l as [|x l IH]; [by intros y []|]. cbn. destruct (p x) eqn:Hp; [exists [], l; split_and!; [done|done|by intros y []]|].
  destruct (List.find p l) as [y|].
  - destruct IH as (pre & post & -> & Hy & Hpre). exists (x :: pre), post. split; [done|]. split; [done|].
    intros z [<-|Hz]; [done|by apply Hpre].
  - intros y [<-|Hy]; [done|by apply IH].
Qed.

Section negotiation.
Context (fips : bool).

(** ** Versions *)

(** The versions of a configuration, from the greatest down. *)
Definition versions_of (c : negConfig) (isClient : bool) : list Z :=
  DeleteFunc all_supportedVersions (version_skipped fips (Some c) isClient).

Lemma supportedVersions_Some {E} c isClient : supportedVersions (E:=E) fips (Some c) isClient = Ret (versions_of c isClient).
Proof. done. Qed.

Lemma versions_of_range c isClient v : In v (versions_of c isClient) ->
  v = VersionTLS13 \/ v = VersionTLS12 \/ v = VersionTLS11 \/ v = VersionTLS10.
Proof. intros [[<-|[<-|[<-|[<-|[]]]]] _]%DeleteFunc_In; auto. Qed.

Lemma versions_of_sorted c isClient : StronglySorted Z.gt (versions_of c isClient).
Proof.
  unfold versions_of, DeleteFunc, all_supportedVersions. cbn [List.filter].
  repeat match goal with |- context [if negb ?b then _ else _] => destruct b; cbn [negb] end;
    repeat constructor; lia.
Qed.

Lemma sorted_first l pre v post : StronglySorted Z.gt l -> l = pre ++ v :: post -> forall w, In w post -> w <= v.
Proof.
  intros Hs -> w Hw.
  induction pre as [|x pre IH]; cbn in Hs; inversion Hs as [|? ? Hs' Hf]; subst; [|by apply IH].
  rewrite List.Forall_forall in Hf. specialize (Hf w Hw). lia.
Qed.

Definition max_of (c : negConfig) (isClient : bool) : Z := match versions_of c isClient with [] => 0 | v :: _ => v end.

Lemma max_of_spec c isClient v : In v (versions_of c isClient) -> v <= max_of c isClient /\ In (max_of c isClient) (versions_of c isClient).
Proof.
  unfold max_of. pose proof (versions_of_sorted c isClient) as Hs. destruct (versions_of c isClient) as [|m l]; [done|].
  intros [->|Hin]; [split; [done|by left]|]. split; [|by left]. by apply (sorted_first (m :: l) [] m l).
Qed.

Lemma mutualVersion_spec {E} c isClient peer : mutualVersion (E:=E) fips (Some c) isClient peer =
  Ret (List.find (fun v => contains v (versions_of c isClient)) peer).
Proof. done. Qed.

(** C18: the two ends settle on the greatest version that both support: to a
    client of this package that offers all of its versions the server answers
    with the maximum of the common ones, which the client then accepts, and
    with no version only when there is none in common; so neither the order
    of the lists nor the legacy version matters. *)
Theorem version_agreed (cc sc : negConfig) hello_vers : versions_of cc roleClient <> [] ->
  match server_version (E:=conn_error) fips (Some sc) hello_vers (versions_of cc roleClient) with
  | Ret (Some v) => In v (versions_of cc roleClient) /\ In v (versions_of sc roleServer) /\
      (forall w, In w (versions_of cc roleClient) -> In w (versions_of sc roleServer) -> w <= v) /\
      pickTLSVersion fips (Some cc) (Z.min v VersionTLS12) (if v =? VersionTLS13 then v else 0) = Ret v
  | Ret None => forall w, In w (versions_of cc roleClient) -> ~ In w (versions_of sc roleServer)
  | _ => False
  end.
Proof.
  intros Hne. unfold server_version, client_versions. destruct (length (versions_of cc roleClient) =? 0)%nat eqn:E.
  { apply Nat.eqb_eq, length_zero_iff_nil in E. done. }
  rewrite andb_false_r, mutualVersion_spec.
  pose proof (find_first (fun v => contains v (versions_of sc roleServer)) (versions_of cc roleClient)) as Hf.
  destruct (List.find _ _) as [v|]; [|intros w Hc Hs; apply Hf in Hc; by rewrite (proj2 (contains_In _ _) Hs) in Hc].
  destruct Hf as (pre & post & Hl & Hv & Hpre). apply contains_In in Hv.
  assert (Hin : In v (versions_of cc roleClient)) by (rewrite Hl; apply in_elt).
  split; [done|]. split; [done|]. split.
  - intros w Hw Hs. rewrite Hl in Hw. apply in_app_iff in Hw as [Hw|[->|Hw]]; [|done|].
    + apply Hpre in Hw. by rewrite (proj2 (contains_In _ _) Hs) in Hw.
    + by apply (sorted_first _ pre v post (versions_of_sorted cc roleClient)).
  - unfold pickTLSVersion. assert (Hp : (if negb ((if v =? VersionTLS13 then v else 0) =? 0)
      then if v =? VersionTLS13 then v else 0 else Z.min v VersionTLS12) = v).
    { by destruct (versions_of_range _ _ _ Hin) as [->|[->|[->| ->]]]. }
    rewrite Hp, mutualVersion_spec. cbn [obind List.find]. by rewrite (proj2 (contains_In _ _) Hin).
Qed.

(** ** Downgrades *)

Lemma maxSupportedVersion_Some {E} c isClient : maxSupportedVersion (E:=E) fips (Some c) isClient = Ret (max_of c isClient).
Proof. done. Qed.

Lemma server_version_In hv sup sc v : server_version (E:=conn_error) fips (Some sc) hv sup = Ret (Some v) ->
  In v (versions_of sc roleServer).
Proof.
  unfold server_version. rewrite mutualVersion_spec. intros [= Hf]. by apply List.find_some in Hf as [_ Hin%contains_In].
Qed.

(** C19: a downgrade does not go unnoticed: if the server, misled by a
    ClientHello that an attacker has changed in any way, settles on a version
    below what both ends support, with TLS 1.2 or 1.3 the one they share, the
    random of its ServerHello makes the client reject the handshake; and
    otherwise the client does not reject it unless the random bytes are by
    chance those of a canary. *)
Theorem downgrade_caught (cc sc : negConfig) hello_vers supported v rnd random :
  server_version (E:=conn_error) fips (Some sc) hello_vers supported = Ret (Some v) ->
  (forall n b, rnd n = Some b -> length b = n) ->
  server_random (E:=conn_error) fips (Some sc) v rnd = Ret (Some random) ->
  let shared := Z.min (max_of cc roleClient) (max_of sc roleServer) in
  length random = 32%nat /\
  (v < shared -> VersionTLS12 <= shared -> downgrade_detected (E:=conn_error) fips (Some cc) v random = Ret true) /\
  (shared <= v -> (forall b, rnd 32%nat = Some b -> drop 24 b <> downgradeCanaryTLS12 /\ drop 24 b <> downgradeCanaryTLS11) ->
     downgrade_detected (E:=conn_error) fips (Some cc) v random = Ret false).
Proof.
  intros Hv Hr Hrand shared. apply server_version_In in Hv. pose proof (max_of_spec _ _ _ Hv) as [Hle Hmax].
  unfold server_random in Hrand. rewrite maxSupportedVersion_Some in Hrand. cbn [obind] in Hrand.
  unfold downgrade_detected. rewrite maxSupportedVersion_Some. cbn [obind].
  assert (Hcm : max_of cc roleClient = 0 \/ In (max_of cc roleClient) (versions_of cc roleClient)).
  { unfold max_of. destruct (versions_of cc roleClient); [by left|right; by left]. }
  assert (Hc : max_of cc roleClient = 0 \/ max_of cc roleClient = VersionTLS13 \/ max_of cc roleClient = VersionTLS12 \/
    max_of cc roleClient = VersionTLS11 \/ max_of cc roleClient = VersionTLS10).
  { destruct Hcm as [->|Hin]; [by left|right]. by apply (versions_of_range _ _ _ Hin). }
  pose proof (versions_of_range _ _ _ Hmax) as Hs. pose proof (versions_of_range _ _ _ Hv) as Hvv.
  set (cm := max_of cc roleClient) in *. set (sm := max_of sc roleServer) in *. clearbody cm sm.
  destruct ((VersionTLS12 <=? sm) && (v <? sm)) eqn:Eg.
  - injection Hrand as Hrand. destruct (rnd 24%nat) as [b|] eqn:Eb; [|done]. injection Hrand as <-.
    apply andb_true_iff in Eg as [E1%Z.leb_le E2%Z.ltb_lt]. apply Hr in Eb.
    assert (Hd : drop 24 (b ++ (if v =? VersionTLS12 then downgradeCanaryTLS12 else downgradeCanaryTLS11)) =
      (if v =? VersionTLS12 then downgradeCanaryTLS12 else downgradeCanaryTLS11)) by (by rewrite drop_app_length').
    rewrite Hd. split; [rewrite length_app, Eb; by destruct (v =? VersionTLS12)|].
    unfold VersionTLS13, VersionTLS12, VersionTLS11, VersionTLS10, shared in *.
    destruct Hc as [->|[->|[->|[->| ->]]]], Hs as [->|[->|[->| ->]]], Hvv as [->|[->|[->| ->]]];
      (split; [intros ? ?; first [lia|vm_compute; reflexivity]|intros ? _; first [lia|vm_compute; reflexivity]]).
  - injection Hrand as Hrand. apply andb_false_iff in Eg as [E%Z.leb_gt|E%Z.ltb_ge].
    + split; [by apply Hr|]. split; [unfold shared; intros; lia|]. intros _ Hn. apply Hn in Hrand as [H1 H2].
      rewrite (bool_decide_eq_false_2 _ H1), (bool_decide_eq_false_2 _ H2). by rewrite !andb_false_r.
    + split; [by apply Hr|]. split; [unfold shared; intros; lia|]. intros _ Hn. apply Hn in Hrand as [H1 H2].
      rewrite (bool_decide_eq_false_2 _ H1), (bool_decide_eq_false_2 _ H2). by rewrite !andb_false_r.
Qed.

(** ** Cipher suites *)

(** The suites that a configuration allows. *)
Definition allowed_suite (c : negConfig) (i : Z) : Prop :=
  (In i cipherSuitesPreferenceOrder \/ In i cipherSuitesPreferenceOrderNoAES) /\
  match CipherSuites c with
  | Some l => In i l
  | None => ~ In i disabledCipherSuites /\ ~ In i rsaKexCiphers /\ ~ In i tdesCiphers
  end /\ (fips = true -> In i allowedCipherSuitesFIPS).

Lemma not_contains i l : contains i l = false <-> ~ In i l.
Proof. rewrite <- contains_In. by destruct (contains i l). Qed.

Lemma config_cipherSuites_allowed c pref i : In i (config_cipherSuites fips c pref) -> allowed_suite c i.
Proof.
  unfold config_cipherSuites. set (l := match CipherSuites c with None => _ | Some _ => _ end).
  assert (Hl : In i l -> (In i cipherSuitesPreferenceOrder \/ In i cipherSuitesPreferenceOrderNoAES) /\
    match CipherSuites c with
    | Some l => In i l
    | None => ~ In i disabledCipherSuites /\ ~ In i rsaKexCiphers /\ ~ In i tdesCiphers
    end).
  { unfold l, defaultCipherSuites. destruct (CipherSuites c) as [k|]; intros [Hd Hk]%DeleteFunc_In;
      (split; [unfold defaults_supportedCipherSuites in Hd; destruct pref; auto|]).
    - by apply negb_false_iff, contains_In in Hk.
    - apply orb_false_iff in Hk as [[? ?]%orb_false_iff ?]. split_and!; by apply not_contains. }
  clearbody l. unfold allowed_suite. destruct fips; intros Hi.
  - apply DeleteFunc_In in Hi as [[? ?]%Hl Hf]. apply negb_false_iff, contains_In in Hf. by split_and!.
  - apply Hl in Hi as [? ?]. by split_and!.
Qed.

(** Up to TLS 1.2 the server takes the first suite of its preference
    order that the client offers, that fits its key and the version, and that
    its configuration (and the FIPS mode) allows; the order depends on what
    the client prefers, the choice does not leave the allowed ones.  It fails
    only when there is no such suite, or when the client says that it has
    fallen back to a version below the server's greatest. *)
Theorem pickCipherSuite_spec hw c k vers hello_vers ids :
  match pickCipherSuite fips hw c k vers hello_vers ids with
  | Ret s => exists pre i post, config_cipherSuites fips c (isAESGCMPreferred hw ids) = pre ++ i :: post /\
      selectable ids (cipherSuiteOk k vers) i s /\ allowed_suite c i /\
      (forall j, j ∈ pre -> forall c', ~ selectable ids (cipherSuiteOk k vers) j c') /\
      (In TLS_FALLBACK_SCSV ids -> max_of c roleServer <= hello_vers)
  | Err e =>
      (e = EAlert alertHandshakeFailure /\ forall j, j ∈ config_cipherSuites fips c (isAESGCMPreferred hw ids) ->
         forall c', ~ selectable ids (cipherSuiteOk k vers) j c') \/
      (e = EAlert alertInappropriateFallback /\ In TLS_FALLBACK_SCSV ids /\ hello_vers < max_of c roleServer)
  | Panic _ => False
  end.
Proof.
  unfold pickCipherSuite. set (l := config_cipherSuites _ _ _).
  pose proof (selectCipherSuite_first l ids (cipherSuiteOk k vers)) as Hs.
  destruct (selectCipherSuite l ids _) as [s|]; [|by left].
  destruct Hs as (pre & i & post & Hl & Hi & Hpre).
  assert (Ha : allowed_suite c i) by (apply (config_cipherSuites_allowed c (isAESGCMPreferred hw ids)); unfold l in Hl; rewrite Hl; apply in_elt).
  destruct (contains TLS_FALLBACK_SCSV ids) eqn:Hc.
  - rewrite maxSupportedVersion_Some. cbn [obind]. apply contains_In in Hc.
    destruct (Z.ltb_spec hello_vers (max_of c roleServer)); [by right|]. exists pre, i, post. by split_and!.
  - apply not_contains in Hc. exists pre, i, post. by split_and!.
Qed.

End negotiation.

(** ** ALPN *)

Lemma alpn_inner_found s cp fb : fst (alpn_inner s cp fb) = true <-> In s cp.
Proof.
  revert fb. induction cp as [|c cp IH]; intros fb; [done|]. cbn [alpn_inner]. destruct (decide (s = c)) as [->|Hn].
  - rewrite bool_decide_eq_true_2 by done. split; [by left|done].
  - rewrite bool_decide_eq_false_2, IH by done. split; [by right|]. by intros [->|?].
Qed.

(** The server's protocol is its first that the client offers. *)
Lemma alpn_outer_spec sp cp fb :
  match fst (alpn_outer sp cp fb) with
  | Some s => exists pre post, sp = pre ++ s :: post /\ In s cp /\ forall p, In p pre -> ~ In p cp
  | None => forall p, In p sp -> ~ In p cp
  end.
Proof.
  revert fb. induction sp as [|s sp IH]; intros fb; [by intros p []|]. cbn [alpn_outer].
  pose proof (alpn_inner_found s cp fb) as Hi. destruct (alpn_inner s cp fb) as [[] fb']; cbn [fst] in *.
  - exists [], sp. split; [done|]. split; [by apply Hi|by intros p []].
  - assert (Hs : ~ In s cp) by (intros Q; apply Hi in Q; done). specialize (IH fb'). destruct (fst _) as [p|].
    + destruct IH as (pre & post & -> & Hp & Hpre). exists (s :: pre), post. split; [done|]. split; [done|].
      intros q [<-|Hq]; [done|by apply Hpre].
    + intros q [<-|Hq]; [done|by apply IH].
Qed.

(** The protocol the server selects is the first of its own that the
    client offers, the client accepts the selection, and the handshake ends
    with an alert only when both have protocols and none in common. *)
Theorem alpn_agreed sp cp :
  match negotiateALPN sp cp false with
  | Ret s => checkALPN cp s false = Ret tt /\
      (s <> [] -> exists pre post, sp = pre ++ s :: post /\ In s cp /\ forall p, In p pre -> ~ In p cp)
  | Err _ => sp <> [] /\ cp <> [] /\ forall p, In p sp -> ~ In p cp
  | Panic _ => False
  end.
Proof.
  unfold negotiateALPN. destruct (_ || _) eqn:E; [done|]. apply orb_false_iff in E as [E1 E2].
  pose proof (alpn_outer_spec sp cp false) as Ho. destruct (alpn_outer sp cp false) as [[s|] fb]; cbn [fst] in Ho.
  - destruct Ho as (pre & post & Hsp & Hin & Hpre). split; [|intros _; by exists pre, post].
    unfold checkALPN. destruct (length s =? 0)%nat; [done|]. rewrite E2.
    rewrite (proj2 (existsb_exists _ _)); [done|]. exists s. split; [done|]. by apply bool_decide_eq_true.
  - destruct fb; [done|]. split; [by intros ->|]. split; [by intros ->|done].
Qed.

(** ** Witnesses *)

Definition w_client : negConfig := mkNegConfig None VersionTLS11 0 [] None.
Definition w_server : negConfig := mkNegConfig None 0 VersionTLS12 [] None.
Definition w_canary_rnd (n : nat) : option bytes := Some (replicate n 7).

Lemma version_agreed_witness : server_version (E:=conn_error) false (Some w_server) VersionTLS12 (versions_of false w_client roleClient) =
    Ret (Some VersionTLS12) /\
  pickTLSVersion false (Some w_client) VersionTLS12 0 = Ret VersionTLS12.
Proof.
  split; [reflexivity|]. pose proof (version_agreed false w_client w_server VersionTLS12 ltac:(discriminate)) as Hv.
  apply Hv.
Defined.

(** The server has been told that the client supports TLS 1.1 only. *)
Lemma downgrade_caught_witness :
  let sc := mkNegConfig None VersionTLS10 0 [] None in
  server_version (E:=conn_error) false (Some sc) VersionTLS11 [] = Ret (Some VersionTLS11) /\
  downgrade_detected (E:=conn_error) false (Some w_client) VersionTLS11 (replicate 24 7 ++ downgradeCanaryTLS11) = Ret true.
Proof.
  intros sc. split; [reflexivity|].
  apply (downgrade_caught false w_client sc VersionTLS11 [] VersionTLS11 w_canary_rnd (replicate 24 7 ++ downgradeCanaryTLS11));
    [reflexivity|intros n b Hb; injection Hb as <-; apply length_replicate|reflexivity|reflexivity|discriminate].
Defined.
