(* ===== verification/Auth.v ===== *)
(** * auth.go: signatures of handshakes

    The signature schemes, the message that TLS 1.3 signs, the choice of a
    scheme for a certificate and the check of a signature.  Keys are what the
    code asks of them: the kind, the curve, the size of a modulus.  The
    verification functions of the standard library are parameters. *)

From S2P Require Import Prelude Common CipherSuites CipherSuitesProofs HalfConn Kdf Negotiation.
From S2P Require Import NegotiationProofs.

Open Scope go_scope.

(** [crypto.Hash]; [directSigning] is 0. *)
Inductive sig_hash := directSigning | HashSHA1 | HashSHA256 | HashSHA384 | HashSHA512 | HashMD5SHA1.

#[export] Instance sig_hash_eq_dec : EqDecision sig_hash.
Proof. solve_decision. Defined.

(** [crypto.PublicKey], with what [P] holds of a key. *)
Inductive PublicKey (P : Type) :=
| PubRSA (size : Z) (key : P)              (* [*rsa.PublicKey], [Size()] *)
| PubECDSA (curve : option Z) (key : P)    (* [*ecdsa.PublicKey]; [None]: a curve without [CurveID] *)
| PubEd25519 (key : P)
| PubOther.
Arguments PubRSA {P} size key.
Arguments PubECDSA {P} curve key.
Arguments PubEd25519 {P} key.
Arguments PubOther {P}.

(** [crypto.PrivateKey]: the public key if it is a [crypto.Signer], if it is a
    [crypto.Decrypter]; [bare]: a key of the standard library without or with a
    pointer too much. *)
Record PrivateKey (P : Type) := mkPrivateKey {
  Signer : option (PublicKey P);
  Decrypter : option (PublicKey P);
  bare : bool
}.
Arguments mkPrivateKey {P} Signer Decrypter bare.
Arguments Signer {P} p.
Arguments Decrypter {P} p.
Arguments bare {P} p.

(** What auth.go reads of a [Certificate]; [nil] is [None]. *)
Record CertKey (P : Type) := mkCertKey {
  ck_PrivateKey : PrivateKey P;
  SupportedSignatureAlgorithms : option (list Z)
}.
Arguments mkCertKey {P} ck_PrivateKey SupportedSignatureAlgorithms.
Arguments ck_PrivateKey {P} c.
Arguments SupportedSignatureAlgorithms {P} c.

(** ** Schemes *)

Definition sig_type_of (signatureAlgorithm : Z) : option Z :=
  if contains signatureAlgorithm [PKCS1WithSHA1; PKCS1WithSHA256; PKCS1WithSHA384; PKCS1WithSHA512] then Some signaturePKCS1v15
  else if contains signatureAlgorithm [PSSWithSHA256; PSSWithSHA384; PSSWithSHA512] then Some signatureRSAPSS
  else if contains signatureAlgorithm
    [ECDSAWithSHA1; ECDSAWithP256AndSHA256; ECDSAWithP384AndSHA384; ECDSAWithP521AndSHA512] then Some signatureECDSA
  else if signatureAlgorithm =? Ed25519 then Some signatureEd25519
  else None.
Definition sig_hash_of (signatureAlgorithm : Z) : option sig_hash :=
  if contains signatureAlgorithm [PKCS1WithSHA1; ECDSAWithSHA1] then Some HashSHA1
  else if contains signatureAlgorithm [PKCS1WithSHA256; PSSWithSHA256; ECDSAWithP256AndSHA256] then Some HashSHA256
  else if contains signatureAlgorithm [PKCS1WithSHA384; PSSWithSHA384; ECDSAWithP384AndSHA384] then Some HashSHA384
  else if contains signatureAlgorithm [PKCS1WithSHA512; PSSWithSHA512; ECDSAWithP521AndSHA512] then Some HashSHA512
  else if signatureAlgorithm =? Ed25519 then Some directSigning
  else None.

Definition typeAndHashFromSignatureScheme (signatureAlgorithm : Z) : outcome conn_error (Z * sig_hash) :=
  match sig_type_of signatureAlgorithm with
  | None => Err (EText "unsupported signature algorithm")
  | Some sigType =>
      match sig_hash_of signatureAlgorithm with
      | None => Err (EText "unsupported signature algorithm")
      | Some hash => Ret (sigType, hash)
      end
  end.

Definition legacyTypeAndHashFromPublicKey {P} (pub : PublicKey P) : outcome conn_error (Z * sig_hash) :=
  match pub with
  | PubRSA _ _ => Ret (signaturePKCS1v15, HashMD5SHA1)
  | PubECDSA _ _ => Ret (signatureECDSA, HashSHA1)
  | PubEd25519 _ => Err (EText "tls: Ed25519 public keys are not supported before TLS 1.2")
  | PubOther => Err (EText "tls: unsupported public key")
  end.

(** ** The message that is signed *)

Definition serverSignatureContext : bytes := str "TLS 1.3, server CertificateVerify" ++ [0].
Definition clientSignatureContext : bytes := str "TLS 1.3, client CertificateVerify" ++ [0].
Definition signaturePadding : bytes := replicate 64 0x20.

Section signed.
Context `{Hashes}.

(** [MD5SHA1] has no [New]. *)
Definition sig_hash_New (h : sig_hash) : option hash_fn :=
  match h with
  | HashSHA1 => Some sha1_fn
  | HashSHA256 => Some sha256_fn
  | HashSHA384 => Some sha384_fn
  | HashSHA512 => Some sha512_fn
  | directSigning | HashMD5SHA1 => None
  end.

Definition signedMessage {E} (sigHash : sig_hash) (context : bytes) (transcript : digest) : outcome E bytes :=
  if bool_decide (sigHash = directSigning) then Ret (signaturePadding ++ context ++ d_Sum transcript)
  else match sig_hash_New sigHash with
       | None => Panic "crypto: requested hash function is unavailable"
       | Some h =>
           let h := d_Write signaturePadding (new_digest h) in
           let h := d_Write context h in
           let h := d_Write (d_Sum transcript) h in
           Ret (d_Sum h)
       end.
End signed.

(** ** Verification *)

(** The functions of crypto/ecdsa, ed25519, rsa: a key, the hash, what is
    signed and the signature. *)
Class Verifiers (P : Type) := {
  ecdsa_VerifyASN1 : P -> bytes -> bytes -> bool;
  ed25519_Verify : P -> bytes -> bytes -> bool;
  rsa_VerifyPKCS1v15 : P -> sig_hash -> bytes -> bytes -> option conn_error;
  rsa_VerifyPSS : P -> sig_hash -> bytes -> bytes -> option conn_error
}.

Section schemes.
Context {P : Type}.
Context (fips : bool).

(** [None] is a [nil] error. *)
Definition verifyHandshakeSignature `{Verifiers P} (sigType : Z) (pubkey : PublicKey P) (hashFunc : sig_hash)
    (signed sig : bytes) : option conn_error :=
  if sigType =? signatureECDSA then
    match pubkey with
    | PubECDSA _ k => if ecdsa_VerifyASN1 k signed sig then None else Some (EText "ECDSA verification failure")
    | _ => Some (EText "expected an ECDSA public key")
    end
  else if sigType =? signatureEd25519 then
    match pubkey with
    | PubEd25519 k => if ed25519_Verify k signed sig then None else Some (EText "Ed25519 verification failure")
    | _ => Some (EText "expected an Ed25519 public key")
    end
  else if sigType =? signaturePKCS1v15 then
    match pubkey with
    | PubRSA _ k => rsa_VerifyPKCS1v15 k hashFunc signed sig
    | _ => Some (EText "expected an RSA public key")
    end
  else if sigType =? signatureRSAPSS then
    match pubkey with
    | PubRSA _ k => rsa_VerifyPSS k hashFunc signed sig
    | _ => Some (EText "expected an RSA public key")
    end
  else Some (EText "internal error: unknown signature type").

(** ** The choice of a scheme *)

Definition supportedSignatureAlgorithms : list Z :=
  if fips then allowedSupportedSignatureAlgorithmsFIPS else defaultSupportedSignatureAlgorithms.

Definition isSupportedSignatureAlgorithm (sigAlg : Z) (supported : list Z) : bool := contains sigAlg supported.

(** [crypto.Hash.Size()] *)
Definition hash_Size (h : sig_hash) : Z :=
  match h with
  | directSigning => 0 | HashSHA1 => 20 | HashSHA256 => 32 | HashSHA384 => 48 | HashSHA512 => 64 | HashMD5SHA1 => 36
  end.

(** [scheme], [minModulusBytes], [maxVersion] *)
Definition rsaSignatureSchemes : list (Z * Z * Z) := [
  (PSSWithSHA256, hash_Size HashSHA256 * 2 + 2, VersionTLS13);
  (PSSWithSHA384, hash_Size HashSHA384 * 2 + 2, VersionTLS13);
  (PSSWithSHA512, hash_Size HashSHA512 * 2 + 2, VersionTLS13);
  (PKCS1WithSHA256, 19 + hash_Size HashSHA256 + 11, VersionTLS12);
  (PKCS1WithSHA384, 19 + hash_Size HashSHA384 + 11, VersionTLS12);
  (PKCS1WithSHA512, 19 + hash_Size HashSHA512 + 11, VersionTLS12);
  (PKCS1WithSHA1, 15 + hash_Size HashSHA1 + 11, VersionTLS12)
].

(** The schemes for a public key; [None]: the early return of [nil]. *)
Definition key_schemes (version : Z) (pub : PublicKey P) : option (list Z) :=
  match pub with
  | PubECDSA curve _ =>
      if negb (version =? VersionTLS13) then
        Some [ECDSAWithP256AndSHA256; ECDSAWithP384AndSHA384; ECDSAWithP521AndSHA512; ECDSAWithSHA1]
      else match curve with
           | Some c =>
               if c =? CurveP256 then Some [ECDSAWithP256AndSHA256]
               else if c =? CurveP384 then Some [ECDSAWithP384AndSHA384]
               else if c =? CurveP521 then Some [ECDSAWithP521AndSHA512]
               else None
           | None => None
           end
  | PubRSA size _ =>
      Some (omap (fun '(scheme, minModulusBytes, maxVersion) =>
        if (minModulusBytes <=? size) && (version <=? maxVersion) then Some scheme else None) rsaSignatureSchemes)
  | PubEd25519 _ => Some [Ed25519]
  | PubOther => None
  end.

Definition signatureSchemesForCertificate (version : Z) (cert : CertKey P) : list Z :=
  match Signer (ck_PrivateKey cert) with
  | None => []
  | Some pub =>
      match key_schemes version pub with
      | None => []
      | Some sigAlgs =>
          let sigAlgs :=
            match SupportedSignatureAlgorithms cert with
            | Some l => DeleteFunc sigAlgs (fun sigAlg => negb (isSupportedSignatureAlgorithm sigAlg l))
            | None => sigAlgs
            end in
          DeleteFunc sigAlgs (fun sigAlg => negb (isSupportedSignatureAlgorithm sigAlg supportedSignatureAlgorithms))
      end
  end.

(** The error without the names of the types. *)
Definition unsupportedCertificateError (cert : CertKey P) : conn_error :=
  if bare (ck_PrivateKey cert) then EText "tls: unsupported certificate: private key" else
  match Signer (ck_PrivateKey cert) with
  | None => EText "tls: certificate private key does not implement crypto.Signer"
  | Some pub =>
      let last := match SupportedSignatureAlgorithms cert with
                  | Some _ => EText "tls: peer doesn't support the certificate custom signature algorithms"
                  | None => EText "tls: internal error: unsupported key"
                  end in
      match pub with
      | PubECDSA curve _ =>
          if match curve with Some c => contains c [CurveP256; CurveP384; CurveP521] | None => false end then last
          else EText "tls: unsupported certificate curve"
      | PubRSA _ _ => EText "tls: certificate RSA key size too small for supported signature algorithms"
      | PubEd25519 _ => last
      | PubOther => EText "tls: unsupported certificate key"
      end
  end.

Definition selectSignatureScheme (vers : Z) (c : CertKey P) (peerAlgs : list Z) : outcome conn_error Z :=
  let supportedAlgs := signatureSchemesForCertificate vers c in
  if (length supportedAlgs =? 0)%nat then Err (unsupportedCertificateError c) else
  let peerAlgs := if (length peerAlgs =? 0)%nat && (vers =? VersionTLS12) then [PKCS1WithSHA1; ECDSAWithSHA1]
                  else peerAlgs in
  match List.find (fun a => isSupportedSignatureAlgorithm a supportedAlgs) peerAlgs with
  | Some a => Ret a
  | None => Err (EText "tls: peer doesn't support any of the certificate's signature algorithms")
  end.
End schemes.

(** * Theorems

    What [selectSignatureScheme] picks is offered by the peer, allowed by the
    certificate and the policy, and fits the key: the peer checks the signature
    with the function of the key's kind. *)

Section schemes.
Context {P : Type} `{Verifiers P}.
Context (fips : bool).

(** The scheme fits the key and the version. *)
Definition fits (vers : Z) (pub : PublicKey P) (a : Z) : Prop :=
  match pub with
  | PubRSA size _ => exists minModulusBytes maxVersion,
      In (a, minModulusBytes, maxVersion) rsaSignatureSchemes /\ minModulusBytes <= size /\ vers <= maxVersion
  | PubECDSA curve _ =>
      In a [ECDSAWithP256AndSHA256; ECDSAWithP384AndSHA384; ECDSAWithP521AndSHA512; ECDSAWithSHA1] /\
      (vers = VersionTLS13 ->
         In (curve, a) [(Some CurveP256, ECDSAWithP256AndSHA256); (Some CurveP384, ECDSAWithP384AndSHA384);
                        (Some CurveP521, ECDSAWithP521AndSHA512)])
  | PubEd25519 _ => a = Ed25519
  | PubOther => False
  end.

Lemma key_schemes_fits vers pub l a : key_schemes vers pub = Some l -> In a l <-> fits vers pub a.
Proof.
  unfold key_schemes, fits. destruct pub as [size k|curve k|k|]; [| | |done].
  - intros Hl. apply (inj Some) in Hl as <-. split.
    + intros Hi. apply list_elem_of_In, list_elem_of_omap in Hi as (((b & mn) & mx) & Hin & Hs). apply list_elem_of_In in Hin.
      destruct ((mn <=? size) && (vers <=? mx)) eqn:E; [|done]. injection Hs as ->.
      apply andb_true_iff in E as [?%Z.leb_le ?%Z.leb_le]. by exists mn, mx.
    + intros (mn & mx & Hin & Hmn & Hmx). apply list_elem_of_In, list_elem_of_omap. exists (a, mn, mx). split; [by apply list_elem_of_In|].
      by rewrite (proj2 (Z.leb_le _ _) Hmn), (proj2 (Z.leb_le _ _) Hmx).
  - destruct (Z.eqb_spec vers VersionTLS13) as [->|Hv]; cbn [negb].
    2:{ intros [= <-]. split; [|by intros [? _]]. by intros Hin. }
    destruct curve as [c|]; [|done].
    destruct (Z.eqb_spec c CurveP256) as [->|N1]; [intros [= <-]|
      destruct (Z.eqb_spec c CurveP384) as [->|N2]; [intros [= <-]|
      destruct (Z.eqb_spec c CurveP521) as [->|N3]; [intros [= <-]|done]]].
    all: split; [intros [<-|[]]; split; [cbn; tauto|intros _; cbn; tauto]|].
    all: intros [_ Hc]; specialize (Hc eq_refl); cbn in Hc; destruct Hc as [Q|[Q|[Q|[]]]]; injection Q as ?; subst; by left.
  - intros [= <-]. split; [by intros [->|[]]|]. intros ->. by left.
Qed.

(** The check of a signature with the key's own function. *)
Definition key_verifies (pub : PublicKey P) (t : Z) (h : sig_hash) (signed sig : bytes) : option conn_error :=
  match pub with
  | PubRSA _ k => if t =? signatureRSAPSS then rsa_VerifyPSS k h signed sig else rsa_VerifyPKCS1v15 k h signed sig
  | PubECDSA _ k => if ecdsa_VerifyASN1 k signed sig then None else Some (EText "ECDSA verification failure")
  | PubEd25519 k => if ed25519_Verify k signed sig then None else Some (EText "Ed25519 verification failure")
  | PubOther => None
  end.

(** The schemes of TLS 1.3: no PKCS #1 v1.5 and no SHA-1. *)
Definition legacy_scheme (a : Z) : Prop := In a [PKCS1WithSHA1; PKCS1WithSHA256; PKCS1WithSHA384; PKCS1WithSHA512; ECDSAWithSHA1].

Lemma fits_verifies vers pub a : fits vers pub a -> exists t h, typeAndHashFromSignatureScheme a = Ret (t, h) /\
  (forall signed sig, verifyHandshakeSignature t pub h signed sig = key_verifies pub t h signed sig) /\
  (forall size k, pub = PubRSA size k -> hash_Size h + 26 <= size) /\ (vers = VersionTLS13 -> ~ legacy_scheme a).
Proof.
  intros Hf. destruct pub as [size k|curve k|k|]; cbn in Hf; [| | |done].
  - destruct Hf as (mn & mx & Hin & Hmn & Hmx). do 7 (destruct Hin as [Hin|Hin]; [injection Hin as <- <- <-;
      eexists _, _; split; [reflexivity|]; split; [done|]; split; [intros ? ? [= <- _]; cbn in *; lia|]; intros ->;
      unfold legacy_scheme; cbn; try (vm_compute in Hmx; by destruct Hmx); compute; lia|]). done.
  - destruct Hf as [Hin Hc]. do 4 (destruct Hin as [Hin|Hin]; [subst a; eexists _, _; split; [reflexivity|]; split; [done|]; split; [done|];
      intros Hv; specialize (Hc Hv); cbn in Hc; destruct Hc as [Q|[Q|[Q|[]]]]; try (apply (f_equal snd) in Q; vm_compute in Q; discriminate Q); compute; lia|]). done.
  - subst a. eexists _, _. split; [reflexivity|]. split; [done|]. split; [done|]. intros _. compute. lia.
Qed.

Lemma schemes_In vers c a : In a (signatureSchemesForCertificate fips vers c) <->
  exists pub, Signer (ck_PrivateKey c) = Some pub /\ key_schemes vers pub <> None /\ fits vers pub a /\
    (forall l, SupportedSignatureAlgorithms c = Some l -> In a l) /\ In a (supportedSignatureAlgorithms fips).
Proof.
  unfold signatureSchemesForCertificate. destruct (Signer (ck_PrivateKey c)) as [pub|]; [|by split; [|intros (? & ? & _)]].
  destruct (key_schemes vers pub) as [l|] eqn:Hl.
  2:{ split; [done|]. by intros (pub' & [= <-] & ? & _). }
  rewrite DeleteFunc_In, negb_false_iff. unfold isSupportedSignatureAlgorithm. rewrite contains_In.
  destruct (SupportedSignatureAlgorithms c) as [s|].
  - rewrite DeleteFunc_In, negb_false_iff, contains_In, (key_schemes_fits _ _ _ a Hl). split.
    + intros [[Hf Hs] Hp]. exists pub. rewrite Hl. split_and!; try done. by intros k [= <-].
    + intros (pub' & [= <-] & _ & Hf & Hs & Hp). split; [split; [done|by apply Hs]|done].
  - rewrite (key_schemes_fits _ _ _ a Hl). split; [intros [Hf Hp]; exists pub; rewrite Hl; by split_and!|].
    by intros (pub' & [= <-] & _ & Hf & _ & Hp).
Qed.

(** The schemes that the peer accepts. *)
Definition peer_schemes (vers : Z) (peerAlgs : list Z) : list Z :=
  if (length peerAlgs =? 0)%nat && (vers =? VersionTLS12) then [PKCS1WithSHA1; ECDSAWithSHA1] else peerAlgs.

(** The scheme that is selected is the first of the peer's that the
    certificate can be used with: the peer accepts it, the certificate and
    the policy (FIPS mode included) allow it, it fits the kind, the curve and
    the size of the key and the version, so that the peer's check runs the
    verification of that kind of key and never rejects the key itself; in
    TLS 1.3 it is neither PKCS #1 v1.5 nor SHA-1.  There is an error exactly
    when there is no such scheme. *)
Theorem selectSignatureScheme_spec vers c peerAlgs :
  match selectSignatureScheme fips vers c peerAlgs with
  | Ret a => exists pub t h pre post,
      Signer (ck_PrivateKey c) = Some pub /\ peer_schemes vers peerAlgs = pre ++ a :: post /\
      fits vers pub a /\ (forall l, SupportedSignatureAlgorithms c = Some l -> In a l) /\ In a (supportedSignatureAlgorithms fips) /\
      (forall b, In b pre -> ~ In b (signatureSchemesForCertificate fips vers c)) /\
      typeAndHashFromSignatureScheme a = Ret (t, h) /\
      (forall signed sig, verifyHandshakeSignature t pub h signed sig = key_verifies pub t h signed sig) /\
      (forall size k, pub = PubRSA size k -> hash_Size h + 26 <= size) /\ (vers = VersionTLS13 -> ~ legacy_scheme a)
  | Err _ => forall b, In b (peer_schemes vers peerAlgs) -> ~ In b (signatureSchemesForCertificate fips vers c)
  | Panic _ => False
  end.
Proof.
  unfold selectSignatureScheme. destruct (_ =? 0)%nat eqn:E.
  { apply Nat.eqb_eq, length_zero_iff_nil in E. rewrite E. by intros b _ Q. }
  change (if _ && _ then _ else _) with (peer_schemes vers peerAlgs).
  pose proof (find_first (fun a => isSupportedSignatureAlgorithm a (signatureSchemesForCertificate fips vers c))
    (peer_schemes vers peerAlgs)) as Hf. destruct (List.find _ _) as [a|].
  - destruct Hf as (pre & post & Hp & Ha & Hpre). apply contains_In, schemes_In in Ha as (pub & Hs & _ & Hfit & Hl & Hsup).
    destruct (fits_verifies _ _ _ Hfit) as (t & h & Ht & Hv & Hr & H13). exists pub, t, h, pre, post. split_and!; try done.
    intros b Hb Q. apply Hpre in Hb. apply contains_In in Q. unfold isSupportedSignatureAlgorithm in Hb. by rewrite Q in Hb.
  - intros b Hb Q. apply Hf in Hb. apply contains_In in Q. unfold isSupportedSignatureAlgorithm in Hb. by rewrite Q in Hb.
Qed.
End schemes.
