(* ===== verification/KeyAgreement.v ===== *)
(** * key_agreement.go: the key agreements of TLS 1.0 to 1.2

    RSA key transport and the signed ephemeral Diffie-Hellman exchange.  The
    methods of [ecdheKeyAgreement] change their receiver: they are functions of
    it to their result and the new receiver, which keeps what has been stored
    in it before an error.  crypto/ecdh, crypto/rsa and the signing by the
    certificate's key are parameters. *)

From S2P Require Import Prelude Common CipherSuites HalfConn Cryptobyte Hello Messages.
From S2P Require Import MessagesProofs Kdf KdfProofs Negotiation NegotiationProofs Auth.

Open Scope go_scope.

(** crypto/ecdh: keys know their curve. *)
Class EcdhCurves := {
  ecdhPrivateKey : Type;
  ecdhPublicKey : Type;
  CurveOf : ecdhPrivateKey -> ecdh_Curve;
  NewPublicKeyOn : ecdh_Curve -> bytes -> outcome conn_error ecdhPublicKey;
  PublicOf : ecdhPrivateKey -> ecdhPublicKey;
  PublicBytes : ecdhPublicKey -> bytes;
  ECDHWith : ecdhPrivateKey -> ecdhPublicKey -> outcome conn_error bytes
}.

(** crypto/rsa: [priv.Decrypt] with [SessionKeyLen] 48, [EncryptPKCS1v15]; and
    [priv.Sign], with PSS options or the plain hash. *)
Class CertificateKeys (P : Type) := {
  Decrypt48 : PrivateKey P -> bytes -> outcome conn_error bytes;
  EncryptPKCS1v15 : P -> bytes -> outcome conn_error bytes;
  Sign : PrivateKey P -> bool -> sig_hash -> bytes -> outcome conn_error bytes
}.

Definition errClientKeyExchange : conn_error := EText "tls: invalid ClientKeyExchange message".
Definition errServerKeyExchange : conn_error := EText "tls: invalid ServerKeyExchange message".

(** ** RSA *)

Module rsaKeyAgreement.
Section rsa.
Context {P : Type} `{CertificateKeys P}.

(** [nil, nil]: there is no ServerKeyExchange. *)
Definition generateServerKeyExchange : outcome conn_error (option serverKeyExchangeMsg.t) := Ret None.

Definition processClientKeyExchange (cert : CertKey P) (ckx : clientKeyExchangeMsg.t) : outcome conn_error bytes :=
  let c := clientKeyExchangeMsg.ciphertext ckx in
  if (length c <? 2)%nat then Err errClientKeyExchange else
  let ciphertextLen := (nth_byte c 0 ≪ 8) ||| nth_byte c 1 in
  if negb (ciphertextLen =? Z.of_nat (length c) - 2) then Err errClientKeyExchange else
  let ciphertext := drop 2 c in
  match Decrypter (ck_PrivateKey cert) with
  | None => Err (EText "tls: certificate private key does not implement crypto.Decrypter")
  | Some _ => Decrypt48 (ck_PrivateKey cert) ciphertext
  end.

Definition processServerKeyExchange : outcome conn_error unit := Err (EText "tls: unexpected ServerKeyExchange").

(** [vers] is [clientHello.vers], [rnd] what [config.rand()] gives. *)
Definition generateClientKeyExchange (rnd : nat -> outcome conn_error bytes) (vers : Z) (cert : PublicKey P)
  : outcome conn_error (bytes * clientKeyExchangeMsg.t) :=
  let! r := rnd 46%nat in
  let preMasterSecret := [u8 (vers ≫ 8); u8 vers] ++ r in
  match cert with
  | PubRSA _ rsaKey =>
      let! encrypted := EncryptPKCS1v15 rsaKey preMasterSecret in
      let n := Z.of_nat (length encrypted) in
      Ret (preMasterSecret, clientKeyExchangeMsg.mk ([u8 (n ≫ 8); u8 n] ++ encrypted))
  | _ => Err (EText "tls: server certificate contains incorrect key type for selected ciphersuite")
  end.
End rsa.
End rsaKeyAgreement.

(** ** What is signed *)

Section hashes.
Context `{Hashes}.

Definition sha1Hash (slices : list bytes) : bytes := h_sum sha1_fn (concat slices).
Definition md5SHA1Hash (slices : list bytes) : bytes := h_sum md5_fn (concat slices) ++ sha1Hash slices.

Definition hashForServerKeyExchange (sigType : Z) (hashFunc : sig_hash) (version : Z) (slices : list bytes)
  : outcome conn_error bytes :=
  if sigType =? signatureEd25519 then Ret (concat slices)
  else if VersionTLS12 <=? version then
    match sig_hash_New hashFunc with
    | None => Panic "crypto: requested hash function is unavailable"
    | Some h => Ret (h_sum h (concat slices))
    end
  else if sigType =? signatureECDSA then Ret (sha1Hash slices)
  else Ret (md5SHA1Hash slices).
End hashes.

(** ** ECDHE *)

Module ecdheKeyAgreement.
Section ecdhe.
Context `{Hashes} `{EcdhCurves} {P : Type} `{CertificateKeys P} `{Verifiers P}.

Record t := mk {
  version : Z;
  isRSA : bool;
  key : option ecdhPrivateKey;
  ckx : option clientKeyExchangeMsg.t;
  preMasterSecret : option bytes
}.
Definition set_key (k : ecdhPrivateKey) (ka : t) : t := mk (version ka) (isRSA ka) (Some k) (ckx ka) (preMasterSecret ka).
Definition set_ckx (m : clientKeyExchangeMsg.t) (ka : t) : t := mk (version ka) (isRSA ka) (key ka) (Some m) (preMasterSecret ka).
Definition set_preMasterSecret (s : bytes) (ka : t) : t := mk (version ka) (isRSA ka) (key ka) (ckx ka) (Some s).

(** The methods. *)
Definition M (R : Type) : Type := t -> outcome conn_error R * t.
Definition lift {R} (o : outcome conn_error R) : M R := fun ka => (o, ka).
Definition modify (f : t -> t) : M unit := fun ka => (Ret tt, f ka).
Definition bind {R Q} (m : M R) (k : R -> M Q) : M Q := fun ka =>
  let '(r, ka) := m ka in
  match r with
  | Ret x => k x ka
  | Err e => (Err e, ka)
  | Panic w => (Panic w, ka)
  end.
Notation "'do!' x := m 'in' k" := (bind m (fun x => k))
  (at level 10, x pattern, m at level 100, k at level 200).
Abbreviation fail e := (lift (Err e)).

(** [generated c]: the result of [c.GenerateKey(config.rand())]. *)
Definition generateECDHEKey (generated : ecdh_Curve -> outcome conn_error ecdhPrivateKey) (curveID : Z)
  : outcome conn_error ecdhPrivateKey :=
  match curveForCurveID curveID with
  | None => Err (EText "tls: internal error: unsupported curve")
  | Some c => generated c
  end.

(** The error [e] instead of the function's own. *)
Definition or_error {R} (e : conn_error) (o : outcome conn_error R) : outcome conn_error R :=
  match o with Err _ => Err e | _ => o end.

(** [len(ecdhePublic)] behind the curve. *)
Definition ecdhe_params (curveID : Z) (public : bytes) : bytes :=
  [3; u8 (curveID ≫ 8); u8 curveID; u8 (Z.of_nat (length public))] ++ public.

Definition is_rsa_type (sigType : Z) : bool := (sigType =? signaturePKCS1v15) || (sigType =? signatureRSAPSS).

(** The scheme, its type and hash. *)
Definition sig_choice (fips : bool) (v : Z) (cert : CertKey P) (pub : PublicKey P) (peerAlgs : list Z)
  : outcome conn_error (Z * (Z * sig_hash)) :=
  if VersionTLS12 <=? v then
    let! signatureAlgorithm := selectSignatureScheme fips v cert peerAlgs in
    let! th := typeAndHashFromSignatureScheme signatureAlgorithm in
    Ret (signatureAlgorithm, th)
  else let! th := legacyTypeAndHashFromPublicKey pub in Ret (0, th).

Definition generateServerKeyExchange (generated : ecdh_Curve -> outcome conn_error ecdhPrivateKey) (fips : bool) (config : option negConfig) (cert : CertKey P)
    (clientHello : clientHelloMsg.t) (hello : serverHelloMsg.t) : M serverKeyExchangeMsg.t := fun ka =>
  let curveID := default 0 (List.find (supportsCurve fips config (version ka)) (clientHelloMsg.supportedCurves clientHello)) in
  (if curveID =? 0 then fail (EText "tls: no supported elliptic curves offered") else
   match curveForCurveID curveID with
   | None => fail (EText "tls: CurvePreferences includes unsupported curve")
   | Some _ =>
       do! key := lift (generateECDHEKey generated curveID) in
       do! _ := modify (set_key key) in
       let serverECDHEParams := ecdhe_params curveID (PublicBytes (PublicOf key)) in
       match Signer (ck_PrivateKey cert) with
       | None => fail (EText "tls: certificate private key does not implement crypto.Signer")
       | Some pub =>
           do! (signatureAlgorithm, (sigType, sigHash)) :=
             lift (sig_choice fips (version ka) cert pub (clientHelloMsg.supportedSignatureAlgorithms clientHello)) in
           if negb (eqb (is_rsa_type sigType) (isRSA ka)) then
             fail (EText "tls: certificate cannot be used with the selected cipher suite")
           else
             do! signed := lift (hashForServerKeyExchange sigType sigHash (version ka)
               [clientHelloMsg.random clientHello; serverHelloMsg.random hello; serverECDHEParams]) in
             do! sig := lift (or_error (EText "tls: failed to sign ECDHE parameters: ")
               (Sign (ck_PrivateKey cert) (sigType =? signatureRSAPSS) sigHash signed)) in
             let n := Z.of_nat (length sig) in
             let alg := if VersionTLS12 <=? version ka then [u8 (signatureAlgorithm ≫ 8); u8 signatureAlgorithm] else [] in
             lift (Ret (serverKeyExchangeMsg.mk (serverECDHEParams ++ alg ++ [u8 (n ≫ 8); u8 n] ++ sig)))
       end
   end) ka.

Definition processClientKeyExchange (m : clientKeyExchangeMsg.t) : M bytes := fun ka =>
  let c := clientKeyExchangeMsg.ciphertext m in
  (if (length c =? 0)%nat || negb (nth_byte c 0 =? Z.of_nat (length c) - 1) then fail errClientKeyExchange else
   match key ka with
   | None => lift (Panic "nil pointer dereference")
   | Some k =>
       do! peerKey := lift (or_error errClientKeyExchange (NewPublicKeyOn (CurveOf k) (drop 1 c))) in
       lift (or_error errClientKeyExchange (ECDHWith k peerKey))
   end) ka.

(** The signature algorithm of a ServerKeyExchange: its type and hash, and what
    follows it. *)
Definition skx_algorithm (v : Z) (cert : PublicKey P) (supported : list Z) (sig : bytes)
  : outcome conn_error ((Z * sig_hash) * bytes) :=
  if VersionTLS12 <=? v then
    let signatureAlgorithm := (nth_byte sig 0 ≪ 8) ||| nth_byte sig 1 in
    let sig := drop 2 sig in
    if (length sig <? 2)%nat then Err errServerKeyExchange
    else if negb (isSupportedSignatureAlgorithm signatureAlgorithm supported) then
      Err (EText "tls: certificate used with invalid signature algorithm")
    else let! th := typeAndHashFromSignatureScheme signatureAlgorithm in Ret (th, sig)
  else let! th := legacyTypeAndHashFromPublicKey cert in Ret (th, sig).

Definition processServerKeyExchange (generated : ecdh_Curve -> outcome conn_error ecdhPrivateKey) (clientHello : clientHelloMsg.t) (serverHello : serverHelloMsg.t) (cert : PublicKey P)
    (skx : serverKeyExchangeMsg.t) : M unit := fun ka =>
  let k := serverKeyExchangeMsg.key skx in
  (if (length k <? 4)%nat then fail errServerKeyExchange
   else if negb (nth_byte k 0 =? 3) then fail (EText "tls: server selected unsupported curve") else
   let curveID := (nth_byte k 1 ≪ 8) ||| nth_byte k 2 in
   let publicLen := Z.to_nat (nth_byte k 3) in
   if (length k <? publicLen + 4)%nat then fail errServerKeyExchange else
   let serverECDHEParams := take (4 + publicLen) k in
   let publicKey := drop 4 serverECDHEParams in
   let sig := drop (4 + publicLen) k in
   if (length sig <? 2)%nat then fail errServerKeyExchange else
   match curveForCurveID curveID with
   | None => fail (EText "tls: server selected unsupported curve")
   | Some _ =>
       do! key := lift (generateECDHEKey generated curveID) in
       do! _ := modify (set_key key) in
       do! peerKey := lift (or_error errServerKeyExchange (NewPublicKeyOn (CurveOf key) publicKey)) in
       do! secret := lift (or_error errServerKeyExchange (ECDHWith key peerKey)) in
       do! _ := modify (set_preMasterSecret secret) in
       let ourPublicKey := PublicBytes (PublicOf key) in
       do! _ := modify (set_ckx (clientKeyExchangeMsg.mk ([u8 (Z.of_nat (length ourPublicKey))] ++ ourPublicKey))) in
       do! ((sigType, sigHash), sig) :=
         lift (skx_algorithm (version ka) cert (clientHelloMsg.supportedSignatureAlgorithms clientHello) sig) in
       if negb (eqb (is_rsa_type sigType) (isRSA ka)) then fail errServerKeyExchange else
       let sigLen := (nth_byte sig 0 ≪ 8) ||| nth_byte sig 1 in
       if negb (sigLen + 2 =? Z.of_nat (length sig)) then fail errServerKeyExchange else
       let sig := drop 2 sig in
       do! signed := lift (hashForServerKeyExchange sigType sigHash (version ka)
         [clientHelloMsg.random clientHello; serverHelloMsg.random serverHello; serverECDHEParams]) in
       match verifyHandshakeSignature sigType cert sigHash signed sig with
       | Some _ => fail (EText "tls: invalid signature by the server certificate: ")
       | None => lift (Ret tt)
       end
   end) ka.

(** [preMasterSecret] is set where [ckx] is. *)
Definition generateClientKeyExchange : M (bytes * clientKeyExchangeMsg.t) := fun ka =>
  (match ckx ka with
   | None => fail (EText "tls: missing ServerKeyExchange message")
   | Some m => lift (Ret (default [] (preMasterSecret ka), m))
   end) ka.
End ecdhe.
End ecdheKeyAgreement.

(** * Theorems

    Client and server end with the same pre-master secret. *)

Import ecdheKeyAgreement.

Open Scope go_scope.

Section ecdhe.
Context `{Hashes} `{EcdhCurves} {P : Type} `{CertificateKeys P} `{Verifiers P}.

(** A key is on the curve it was made for; its public key can be read back, is
    not empty and shorter than 256 bytes; the two sides of an exchange agree. *)
Context (gen_s gen_c : ecdh_Curve -> outcome conn_error ecdhPrivateKey).
Context (gen_s_curve : forall c k, gen_s c = Ret k -> CurveOf k = c) (gen_c_curve : forall c k, gen_c c = Ret k -> CurveOf k = c).
Context (New_Bytes : forall k, NewPublicKeyOn (CurveOf k) (PublicBytes (PublicOf k)) = Ret (PublicOf k)).
Context (Bytes_short : forall p, (length (PublicBytes p) < 256)%nat).
Context (ECDH_commutes : forall a b, CurveOf a = CurveOf b -> ECDHWith a (PublicOf b) = ECDHWith b (PublicOf a)).
(** What the certificate's key signs its public key verifies. *)
Context (Sign_verifies : forall priv pub t h m sig, Sign priv (t =? signatureRSAPSS) h m = Ret sig ->
  Signer priv = Some pub -> key_verifies pub t h m sig = None /\ Z.of_nat (length sig) < 2 ^ 16).

Lemma bind_inv {R Q} (m : M R) (k : R -> M Q) ka y ka' : bind m k ka = (Ret y, ka') ->
  exists x ka1, m ka = (Ret x, ka1) /\ k x ka1 = (Ret y, ka').
Proof. unfold bind. destruct (m ka) as [[x|e|w] ka1]; [|done..]. eauto. Qed.

Lemma lift_inv {R} (o : outcome conn_error R) ka y ka' : lift o ka = (Ret y, ka') -> o = Ret y /\ ka' = ka.
Proof. by intros [= -> <-]. Qed.

Lemma fail_inv {R} e ka (y : R) ka' : lift (Err e) ka <> (Ret y, ka').
Proof. done. Qed.

Lemma or_error_inv {R} e (o : outcome conn_error R) y : or_error e o = Ret y -> o = Ret y.
Proof. by destruct o. Qed.

Lemma curve_u16 id c : curveForCurveID id = Some c -> is_u16 id /\ id <> 0.
Proof.
  unfold curveForCurveID.
  repeat match goal with |- context [?a =? ?b] => destruct (Z.eqb_spec a b) as [->|]; [intros _; by vm_compute|] end. done.
Qed.

Lemma scheme_u16 a x : typeAndHashFromSignatureScheme a = Ret x -> is_u16 a.
Proof.
  unfold typeAndHashFromSignatureScheme, sig_hash_of. destruct (sig_type_of a); [|done].
  repeat match goal with |- context [if contains a ?l then _ else _] => destruct (contains a l) eqn:?; [intros _|] end.
  5: destruct (Z.eqb_spec a Ed25519) as [->|]; [by intros _|done].
  all: match goal with Q : contains _ _ = true |- _ => apply contains_In in Q end.
  all: repeat match goal with Q : In _ (_ :: _) |- _ => destruct Q as [<-|Q]; [by vm_compute|] end; done.
Qed.

Lemma byte_pair x : is_u16 x -> (u8 (x ≫ 8) ≪ 8) ||| u8 x = x.
Proof.
  intros Hx. rewrite be16 by (apply Z.mod_pos_bound; lia). unfold u8.
  rewrite !Z.shiftr_div_pow2 by lia. Z.div_mod_to_equations. lia.
Qed.

(** The choice of both sides: the server's type and hash, with the algorithm
    that is sent. *)
Lemma choice_agrees fips v cert pub supported alg t h rest :
  Signer (ck_PrivateKey cert) = Some pub -> supported <> [] -> (2 <= length rest)%nat ->
  sig_choice fips v cert pub supported = Ret (alg, (t, h)) ->
  skx_algorithm v pub supported ((if VersionTLS12 <=? v then [u8 (alg ≫ 8); u8 alg] else []) ++ rest) = Ret ((t, h), rest) /\
  forall signed sig, verifyHandshakeSignature t pub h signed sig = key_verifies pub t h signed sig.
Proof.
  intros Hs Hne Hr. unfold sig_choice, skx_algorithm. destruct (VersionTLS12 <=? v).
  - destruct (selectSignatureScheme fips v cert supported) as [a| |] eqn:Ea; [|done..]. cbn [obind].
    destruct (typeAndHashFromSignatureScheme a) as [th| |] eqn:Et; [|done..]. cbn [obind]. intros [= -> ->].
    pose proof (scheme_u16 _ _ Et) as Hu. cbn [app]. unfold nth_byte. cbn [nth drop].
    rewrite byte_pair by done. rewrite drop_0, (proj2 (Nat.ltb_ge (length rest) 2) Hr).
    unfold selectSignatureScheme in Ea. destruct (_ =? 0)%nat; [done|].
    assert (Hl : (length supported =? 0)%nat = false) by (apply Nat.eqb_neq; by destruct supported).
    rewrite Hl in Ea. cbn [andb] in Ea.
    pose proof (find_first (fun a => isSupportedSignatureAlgorithm a (signatureSchemesForCertificate fips v cert)) supported) as Hf.
    destruct (List.find _ _) as [a'|]; [|done]. injection Ea as ->.
    destruct Hf as (pre & post & Hp & Ha & _). apply contains_In, schemes_In in Ha as (pub' & Hs' & _ & Hfit & _).
    rewrite Hs in Hs'. injection Hs' as <-. destruct (fits_verifies _ _ _ Hfit) as (t' & h' & Ht' & Hv & _).
    rewrite Et in Ht'. injection Ht' as <- <-. split; [|exact Hv].
    assert (Hc : isSupportedSignatureAlgorithm alg supported = true).
    { apply contains_In. rewrite Hp. apply in_elt. }
    rewrite Hc, Et. done.
  - destruct (legacyTypeAndHashFromPublicKey pub) as [th| |] eqn:Et; [|done..]. cbn [obind app]. intros [= _ ->]. split; [done|].
    by destruct pub; try discriminate Et; injection Et as <- <-.
Qed.

(** What a successful [generateServerKeyExchange] has sent. *)
Lemma generate_inv fips config cert ch sh ka skx ka' :
  generateServerKeyExchange gen_s fips config cert ch sh ka = (Ret skx, ka') ->
  exists curveID c k pub alg t h signed sig, curveForCurveID curveID = Some c /\ gen_s c = Ret k /\
    In curveID (clientHelloMsg.supportedCurves ch) /\ supportsCurve fips config (version ka) curveID = true /\
    ka' = set_key k ka /\ Signer (ck_PrivateKey cert) = Some pub /\
    sig_choice fips (version ka) cert pub (clientHelloMsg.supportedSignatureAlgorithms ch) = Ret (alg, (t, h)) /\
    is_rsa_type t = isRSA ka /\
    hashForServerKeyExchange t h (version ka) [clientHelloMsg.random ch; serverHelloMsg.random sh;
      ecdhe_params curveID (PublicBytes (PublicOf k))] = Ret signed /\
    Sign (ck_PrivateKey cert) (t =? signatureRSAPSS) h signed = Ret sig /\
    serverKeyExchangeMsg.key skx = ecdhe_params curveID (PublicBytes (PublicOf k)) ++
      (if VersionTLS12 <=? version ka then [u8 (alg ≫ 8); u8 alg] else []) ++
      [u8 (Z.of_nat (length sig) ≫ 8); u8 (Z.of_nat (length sig))] ++ sig.
Proof.
  unfold generateServerKeyExchange. pose proof (find_first (supportsCurve fips config (version ka)) (clientHelloMsg.supportedCurves ch)) as Hf.
  destruct (List.find _ _) as [curve|]; cbn [default from_option Datatypes.id]; [|by intros Q%fail_inv].
  destruct Hf as (pre & post & Hp & Hsup & _). destruct (curve =? 0); [by intros Q%fail_inv|].
  destruct (curveForCurveID curve) as [c|] eqn:Ec; [|by intros Q%fail_inv]. intros Q.
  apply bind_inv in Q as (k & ka1 & Hk & Q). apply lift_inv in Hk as [Hk ->]. unfold generateECDHEKey in Hk. rewrite Ec in Hk.
  apply bind_inv in Q as ([] & ka1 & [= <-] & Q). destruct (Signer (ck_PrivateKey cert)) as [pub|] eqn:Es; [|by apply fail_inv in Q].
  apply bind_inv in Q as ([alg [t h]] & ka1 & Hc & Q). apply lift_inv in Hc as [Hc ->].
  destruct (negb (eqb _ _)) eqn:Er; [by apply fail_inv in Q|]. apply negb_false_iff, eqb_prop in Er.
  apply bind_inv in Q as (signed & ka1 & Hsd & Q). apply lift_inv in Hsd as [Hsd ->].
  apply bind_inv in Q as (sig & ka1 & Hsg & Q). apply lift_inv in Hsg as [Hsg%or_error_inv ->].
  apply lift_inv in Q as [Q ->]. apply Ret_inj in Q as <-.
  exists curve, c, k, pub, alg, t, h, signed, sig. split_and!; try done. rewrite Hp. apply in_elt.
Qed.

(** The client's side. *)
Lemma client_accepts pub ch sh id c k k_c t h signed sig s v skx algb (ka_c : ecdheKeyAgreement.t) :
  curveForCurveID id = Some c -> gen_s c = Ret k -> gen_c c = Ret k_c ->
  ECDHWith k_c (PublicOf k) = Ret s -> v = version ka_c -> is_rsa_type t = isRSA ka_c ->
  Z.of_nat (length sig) < 2 ^ 16 ->
  (forall rest, (2 <= length rest)%nat ->
    skx_algorithm v pub (clientHelloMsg.supportedSignatureAlgorithms ch) (algb ++ rest) = Ret ((t, h), rest)) ->
  hashForServerKeyExchange t h v [clientHelloMsg.random ch; serverHelloMsg.random sh;
      ecdhe_params id (PublicBytes (PublicOf k))] = Ret signed ->
  verifyHandshakeSignature t pub h signed sig = None ->
  serverKeyExchangeMsg.key skx = ecdhe_params id (PublicBytes (PublicOf k)) ++ algb ++
      [u8 (Z.of_nat (length sig) ≫ 8); u8 (Z.of_nat (length sig))] ++ sig ->
  processServerKeyExchange gen_c ch sh pub skx ka_c = (Ret tt,
    set_ckx (clientKeyExchangeMsg.mk ([u8 (Z.of_nat (length (PublicBytes (PublicOf k_c))))] ++ PublicBytes (PublicOf k_c)))
      (set_preMasterSecret s (set_key k_c ka_c))).
Proof.
  intros Hc Hk Hkc Hecdh -> Hrsa Hsl Halg Hsd Hver Hkey.
  destruct (curve_u16 id c Hc) as [Hid _].
  set (public := PublicBytes (PublicOf k)) in *. pose proof (Bytes_short (PublicOf k)) as Hpl. fold public in Hpl.
  set (tail := [u8 (Z.of_nat (length sig) ≫ 8); u8 (Z.of_nat (length sig))] ++ sig) in *.
  assert (Hlp : u8 (Z.of_nat (length public)) = Z.of_nat (length public)) by (apply Z.mod_small; lia).
  assert (Hep : length (ecdhe_params id public) = (4 + length public)%nat) by done.
  unfold processServerKeyExchange. cbv zeta. rewrite Hkey.
  assert (Hb : forall i x, [3; u8 (id ≫ 8); u8 id; u8 (Z.of_nat (length public))] !! i = Some x ->
    nth_byte (ecdhe_params id public ++ algb ++ tail) i = x).
  { intros i x Hi. unfold nth_byte, ecdhe_params. do 4 (destruct i as [|i]; [by injection Hi as <-|]). done. }
  rewrite (Hb 0%nat 3), (Hb 1%nat (u8 (id ≫ 8))), (Hb 2%nat (u8 id)), (Hb 3%nat (u8 (Z.of_nat (length public)))) by done.
  rewrite Hlp, Nat2Z.id, byte_pair by done. rewrite !length_app, Hep.
  rewrite (proj2 (Nat.ltb_ge _ 4)), (proj2 (Nat.ltb_ge _ (length public + 4))) by lia. cbn [Z.eqb Pos.eqb negb].
  rewrite (take_app_length' _ _ _ (eq_sym Hep)), (drop_app_length' _ _ _ (eq_sym Hep)).
  assert (Htl : (2 <= length tail)%nat) by (unfold tail; cbn; lia).
  rewrite (proj2 (Nat.ltb_ge (length (algb ++ tail)) 2)) by (rewrite length_app; lia). rewrite Hc.
  unfold bind at 1, lift at 1, generateECDHEKey. rewrite Hc, Hkc. unfold bind at 1, modify at 1.
  change (drop 4 (ecdhe_params id public)) with public. unfold public at 1.
  rewrite (gen_c_curve _ _ Hkc), <- (gen_s_curve _ _ Hk), New_Bytes. unfold bind at 1, lift at 1, or_error at 1.
  unfold bind at 1, lift at 1, or_error at 1. rewrite Hecdh. unfold bind at 1, modify at 1, bind at 1, modify at 1.
  change (version (set_ckx _ _)) with (version ka_c). unfold bind at 1, lift at 1. rewrite Halg by done.
  change (isRSA (set_ckx _ _)) with (isRSA ka_c). rewrite Hrsa, eqb_reflx. cbn [negb].
  unfold tail. unfold nth_byte. cbn [app nth drop length]. rewrite byte_pair by (split; [lia|done]).
  rewrite (proj2 (Z.eqb_eq _ _)) by lia. cbn [negb]. unfold bind at 1, lift at 1. rewrite Hsd. cbn [drop app]. rewrite ?drop_0. by rewrite Hver.
Qed.

(** The server's side. *)
Lemma server_accepts c k k_c s (ka : t) : gen_s c = Ret k -> gen_c c = Ret k_c ->
  ECDHWith k_c (PublicOf k) = Ret s -> key ka = Some k ->
  processClientKeyExchange
    (clientKeyExchangeMsg.mk ([u8 (Z.of_nat (length (PublicBytes (PublicOf k_c))))] ++ PublicBytes (PublicOf k_c))) ka = (Ret s, ka).
Proof.
  intros Hk Hkc He Hka. unfold processClientKeyExchange. cbn [clientKeyExchangeMsg.ciphertext].
  pose proof (Bytes_short (PublicOf k_c)) as Hl. set (b := PublicBytes (PublicOf k_c)) in *.
  assert (Hlp : u8 (Z.of_nat (length b)) = Z.of_nat (length b)) by (apply Z.mod_small; lia).
  unfold nth_byte. cbn [app length Nat.eqb orb nth drop]. rewrite Hlp, (proj2 (Z.eqb_eq _ _)) by lia. cbn [negb].
  rewrite Hka. unfold bind, lift, or_error. unfold b.
  rewrite (gen_s_curve _ _ Hk), <- (gen_c_curve _ _ Hkc), New_Bytes.
  rewrite ECDH_commutes by (by rewrite (gen_s_curve _ _ Hk), (gen_c_curve _ _ Hkc)). by rewrite He.
Qed.

(** C25: the ephemeral exchange agrees.  When the server has made its
    ServerKeyExchange for the client's hello, on a curve that both support,
    and the client (which offered signature algorithms) can generate a key on
    it, then the client accepts the message under the public key of the
    server's certificate; the ClientKeyExchange it answers with is accepted by
    the server; and both have the same pre-master secret. *)
Theorem ecdhe_agreement fips config cert pub ch sh ka_s skx ka_s' ka_c :
  Signer (ck_PrivateKey cert) = Some pub -> clientHelloMsg.supportedSignatureAlgorithms ch <> [] ->
  version ka_c = version ka_s -> isRSA ka_c = isRSA ka_s ->
  generateServerKeyExchange gen_s fips config cert ch sh ka_s = (Ret skx, ka_s') ->
  exists curveID c, curveForCurveID curveID = Some c /\ In curveID (clientHelloMsg.supportedCurves ch) /\
    supportsCurve fips config (version ka_s) curveID = true /\
    forall k_c, gen_c c = Ret k_c -> (exists s, forall k_s, key ka_s' = Some k_s -> ECDHWith k_c (PublicOf k_s) = Ret s) ->
    exists ka_c' secret m, processServerKeyExchange gen_c ch sh pub skx ka_c = (Ret tt, ka_c') /\
      generateClientKeyExchange ka_c' = (Ret (secret, m), ka_c') /\
      processClientKeyExchange m ka_s' = (Ret secret, ka_s').
Proof.
  intros Hs Hne Hv Hr Q. apply generate_inv in Q as (id & c & k & pub' & alg & t & h & signed & sig & Hc & Hk & Hin & Hsup & -> & Hs' & Hch & Hrsa & Hsd & Hsg & Hkey).
  rewrite Hs in Hs'. injection Hs' as <-. exists id, c. split_and!; [done..|].
  intros k_c Hkc [s Hecdh]. specialize (Hecdh k eq_refl).
  destruct (Sign_verifies _ _ _ _ _ _ Hsg Hs) as [Hver Hsl].
  pose proof (fun rest Hl => choice_agrees fips (version ka_s) cert pub _ alg t h rest Hs Hne Hl Hch) as Hca.
  set (ours := clientKeyExchangeMsg.mk ([u8 (Z.of_nat (length (PublicBytes (PublicOf k_c))))] ++ PublicBytes (PublicOf k_c))).
  exists (set_ckx ours (set_preMasterSecret s (set_key k_c ka_c))), s, ours.
  split_and!; [|done|].
  - eapply (client_accepts pub ch sh id c k k_c t h signed sig s (version ka_s)); try done; [by rewrite Hr|by intros; apply Hca|].
    by rewrite (proj2 (Hca [0; 0] (le_n _))).
  - by apply (server_accepts c k).
Qed.
End ecdhe.

(** ** Witness *)

#[local] Existing Instance low_hashes.

(** Keys are numbers, exchanges are sums, and everybody signs with one byte. *)
#[local] Instance sum_curves : EcdhCurves := {|
  ecdhPrivateKey := ecdh_Curve * Z;
  ecdhPublicKey := ecdh_Curve * Z;
  CurveOf := fst;
  NewPublicKeyOn c b := match b with [x] => Ret (c, x) | _ => Err (EText "not a point") end;
  PublicOf k := k;
  PublicBytes p := [snd p];
  ECDHWith a b := Ret [snd a + snd b]
|}.
#[local] Instance seven_keys : CertificateKeys Z := {|
  Decrypt48 _ c := Ret c; EncryptPKCS1v15 _ m := Ret m; Sign _ _ _ _ := Ret [7]
|}.
#[local] Instance seven_verifiers : Verifiers Z := {|
  ecdsa_VerifyASN1 _ _ s := bool_decide (s = [7]); ed25519_Verify _ _ s := bool_decide (s = [7]);
  rsa_VerifyPKCS1v15 _ _ _ _ := None; rsa_VerifyPSS _ _ _ _ := None
|}.

Definition w_signer : PrivateKey Z := mkPrivateKey (Some (PubEd25519 3)) None false.
Definition w_cert : CertKey Z := mkCertKey w_signer None.
Definition w_ka : ecdheKeyAgreement.t := mk VersionTLS12 false None None None.
Definition w_hello : clientHelloMsg.t :=
  clientHelloMsg.set_supportedSignatureAlgorithms [Ed25519] (clientHelloMsg.set_supportedCurves [X25519] clientHelloMsg.zero).
Definition w_gen (x : Z) (c : ecdh_Curve) : outcome conn_error (ecdhPrivateKey (EcdhCurves:=sum_curves)) := Ret (c, x).
Abbreviation w_generate := (generateServerKeyExchange (w_gen 4) false None w_cert w_hello serverHelloMsg.zero w_ka).

Lemma w_generated : exists skx ka', w_generate = (Ret skx, ka').
Proof. vm_compute. by do 2 eexists. Qed.

Lemma w_curve x c (k : ecdhPrivateKey (EcdhCurves:=sum_curves)) : w_gen x c = Ret k -> CurveOf k = c.
Proof. by intros [= <-]. Qed.
Lemma w_bytes k : NewPublicKeyOn (EcdhCurves:=sum_curves) (CurveOf k) (PublicBytes (PublicOf k)) = Ret (PublicOf k).
Proof. by destruct k. Qed.
Lemma w_short p : (length (PublicBytes (EcdhCurves:=sum_curves) p) < 256)%nat.
Proof. cbn. lia. Qed.
Lemma w_commutes (a b : ecdhPrivateKey (EcdhCurves:=sum_curves)) :
  CurveOf a = CurveOf b -> ECDHWith a (PublicOf b) = ECDHWith b (PublicOf a).
Proof. intros _. cbn. by rewrite Z.add_comm. Qed.
Lemma w_verifies (priv : PrivateKey Z) pub t h m sig : Sign priv (t =? signatureRSAPSS) h m = Ret sig ->
  Signer priv = Some pub -> key_verifies pub t h m sig = None /\ Z.of_nat (length sig) < 2 ^ 16.
Proof. intros [= <-] _. split; [|done]. by destruct pub; cbn; [destruct (t =? _)|..]. Qed.

Lemma ecdhe_agreement_witness : exists skx ka_s' ka_c' secret m, w_generate = (Ret skx, ka_s') /\
  processServerKeyExchange (w_gen 5) w_hello serverHelloMsg.zero (PubEd25519 3) skx w_ka = (Ret tt, ka_c') /\
  generateClientKeyExchange ka_c' = (Ret (secret, m), ka_c') /\
  processClientKeyExchange m ka_s' = (Ret secret, ka_s').
Proof.
  destruct w_generated as (skx & ka' & Hg).
  destruct (ecdhe_agreement (H0:=sum_curves) (w_gen 4) (w_gen 5) (w_curve 4) (w_curve 5) w_bytes w_short w_commutes w_verifies false None w_cert (PubEd25519 3) w_hello
    serverHelloMsg.zero w_ka skx ka' w_ka eq_refl ltac:(discriminate) eq_refl eq_refl Hg) as (id & c & _ & _ & _ & Hx).
  assert (Hk : exists s, forall k_s, key ka' = Some k_s -> ECDHWith (EcdhCurves:=sum_curves) (c, 5) (PublicOf k_s) = Ret s).
  { destruct (key ka') as [k|]; [exists [5 + snd k]; by intros ? [= <-]|by exists []]. }
  destruct (Hx (c, 5) eq_refl Hk) as (ka_c' & secret & m & Hp & Hc & Hs).
  exists skx, ka', ka_c', secret, m. split; [exact Hg|]. split; [exact Hp|]. split; [exact Hc|exact Hs].
Defined.
