(* ===== verification/Hpke.v ===== *)
(** * hpke/hpye.go: hybrid public key encryption (RFC 9180)

    The base mode with DHKEM(X25519, HKDF-SHA256) and HKDF-SHA256: the KEM, the
    key schedule, and the contexts of the sender and the recipient with their
    nonces.  crypto/ecdh's X25519, the ciphers of crypto/aes, crypto/cipher and
    chacha20poly1305 are parameters; crypto/hkdf is modelled in Kdf.v.

    A [context] is shared by nobody else.  [append(encPubEph, ...)] writes behind
    the slice it is given only into its spare capacity; [encPubEph] is a slice
    of its own in all callers. *)

From S2P Require Import Prelude Common HalfConn Kdf.

Open Scope go_scope.

Module hpke.

(** [ecdh.X25519()] *)
Class X25519 := {
  PrivateKey : Type;
  PublicKey : Type;
  NewPrivateKey : bytes -> outcome conn_error PrivateKey;
  NewPublicKey : bytes -> outcome conn_error PublicKey;
  Public : PrivateKey -> PublicKey;
  PublicKey_Bytes : PublicKey -> bytes;
  ECDH : PrivateKey -> PublicKey -> outcome conn_error bytes
}.

(** [cipher.AEAD], as far as the package uses it: [Seal(nil, ...)] panics on bad
    arguments, [Open(nil, ...)] fails on a forged ciphertext. *)
Class cipherAEAD (T : Type) := {
  NonceSize : T -> nat;
  aead_Seal : T -> bytes -> bytes -> bytes -> outcome conn_error bytes;
  aead_Open : T -> bytes -> bytes -> bytes -> outcome conn_error bytes
}.

(** ** The sequence number *)

Record uint128 := mk128 { hi : Z; lo : Z }.

(** [bits.Len64] *)
Definition Len64 (x : Z) : Z := if x =? 0 then 0 else Z.log2 x + 1.
(** [bits.Add64] *)
Definition Add64 (x y carry : Z) : Z * Z := let s := x + y + carry in (u64 s, s / 2 ^ 64).

Definition addOne (u : uint128) : uint128 :=
  let '(l, carry) := Add64 (lo u) 1 0 in mk128 (u64 (hi u + carry)) l.
Definition bitLen (u : uint128) : Z := Len64 (hi u) + Len64 (lo u).
Definition uint128_bytes (u : uint128) : bytes := PutUint64 (hi u) ++ PutUint64 (lo u).

Definition hpke_v1 : bytes := str "HPKE-v1".

Section hpke.
Context `{Hashes} `{X25519} {Block T : Type} `{cipherAEAD T}.
Context (aes_NewCipher : bytes -> outcome conn_error Block) (cipher_NewGCM : Block -> outcome conn_error T).
Context (chacha20poly1305_New : bytes -> outcome conn_error T).

(** ** HKDF with labels: the hash is the [hkdfKDF]. *)

Definition LabeledExtract (kdf : hash_fn) (sid : bytes) (salt : option bytes) (label inputKey : bytes) : bytes :=
  hkdf_Extract kdf (hpke_v1 ++ sid ++ label ++ inputKey) salt.

Definition LabeledExpand (kdf : hash_fn) (suiteID randomKey label info : bytes) (length_ : Z) : outcome conn_error bytes :=
  match hkdf_Expand kdf randomKey (PutUint16 length_ ++ hpke_v1 ++ suiteID ++ label ++ info) (Z.to_nat length_) with
  | Some k => Ret k
  | None => Err (EText "hkdf: requested key length too large")
  end.

(** ** The KEM *)

Record dhKEM := mkKEM { kem_kdf : hash_fn; kem_suiteID : bytes; nSecret : Z }.

Definition DHKEM_X25519_HKDF_SHA256 : Z := 0x0020.

(** The hash and [nSecret]; the curve is X25519. *)
Definition SupportedKEMs (id : Z) : option (hash_fn * Z) :=
  if id =? DHKEM_X25519_HKDF_SHA256 then Some (sha256_fn, 32) else None.

Definition newDHKem (kemID : Z) : outcome conn_error dhKEM :=
  match SupportedKEMs kemID with
  | None => Err (EText "unsupported suite ID")
  | Some (hash, n) => Ret (mkKEM hash (str "KEM" ++ PutUint16 kemID) n)
  end.

Definition ExtractAndExpand (dh : dhKEM) (dhKey kemContext : bytes) : outcome conn_error bytes :=
  let eaePRK := LabeledExtract (kem_kdf dh) (kem_suiteID dh) None (str "eae_prk") dhKey in
  LabeledExpand (kem_kdf dh) (kem_suiteID dh) eaePRK (str "shared_secret") kemContext (nSecret dh).

(** [generated] is the result of [GenerateKey]: the shared secret and the
    encapsulated key. *)
Definition Encap (dh : dhKEM) (generated : outcome conn_error PrivateKey) (pubRecipient : PublicKey)
  : outcome conn_error (bytes * bytes) :=
  let! privEph := generated in
  let! dhVal := ECDH privEph pubRecipient in
  let encPubEph := PublicKey_Bytes (Public privEph) in
  let encPubRecip := PublicKey_Bytes pubRecipient in
  let kemContext := encPubEph ++ encPubRecip in
  let! sharedSecret := ExtractAndExpand dh dhVal kemContext in
  Ret (sharedSecret, encPubEph).

Definition Decap (dh : dhKEM) (encPubEph : bytes) (secRecipient : PrivateKey) : outcome conn_error bytes :=
  let! pubEph := NewPublicKey encPubEph in
  let! dhVal := ECDH secRecipient pubEph in
  let kemContext := encPubEph ++ PublicKey_Bytes (Public secRecipient) in
  ExtractAndExpand dh dhVal kemContext.

(** ** Contexts *)

Record context := mkContext {
  aead : T;
  sharedSecret : bytes;
  ctx_suiteID : bytes;
  key : bytes;
  baseNonce : bytes;
  exporterSecret : bytes;
  seqNum : uint128
}.

Definition aesGCMNew (key : bytes) : outcome conn_error T :=
  let! block := aes_NewCipher key in cipher_NewGCM block.

Definition AEAD_AES_128_GCM : Z := 0x0001.
Definition AEAD_AES_256_GCM : Z := 0x0002.
Definition AEAD_ChaCha20Poly1305 : Z := 0x0003.

(** Key size, nonce size and constructor. *)
Definition SupportedAEADs (id : Z) : option (Z * Z * (bytes -> outcome conn_error T)) :=
  if id =? AEAD_AES_128_GCM then Some (16, 12, aesGCMNew)
  else if id =? AEAD_AES_256_GCM then Some (32, 12, aesGCMNew)
  else if id =? AEAD_ChaCha20Poly1305 then Some (32, 12, chacha20poly1305_New)
  else None.

Definition KDF_HKDF_SHA256 : Z := 0x0001.
Definition SupportedKDFs (id : Z) : option hash_fn := if id =? KDF_HKDF_SHA256 then Some sha256_fn else None.

Definition suiteID (kemID kdfID aeadID : Z) : bytes :=
  str "HPKE" ++ PutUint16 kemID ++ PutUint16 kdfID ++ PutUint16 aeadID.

Definition newContext (sharedSecret : bytes) (kemID kdfID aeadID : Z) (info : bytes) : outcome conn_error context :=
  let sid := suiteID kemID kdfID aeadID in
  match SupportedKDFs kdfID with
  | None => Err (EText "unsupported KDF id")
  | Some kdf =>
      match SupportedAEADs aeadID with
      | None => Err (EText "unsupported AEAD id")
      | Some (keySize, nonceSize, new) =>
          let pskIDHash := LabeledExtract kdf sid None (str "psk_id_hash") [] in
          let infoHash := LabeledExtract kdf sid None (str "info_hash") info in
          let ksContext := [0] ++ pskIDHash ++ infoHash in
          let secret := LabeledExtract kdf sid (Some sharedSecret) (str "secret") [] in
          let! key := LabeledExpand kdf sid secret (str "key") ksContext keySize in
          let! baseNonce := LabeledExpand kdf sid secret (str "base_nonce") ksContext nonceSize in
          let! exporterSecret := LabeledExpand kdf sid secret (str "exp") ksContext (Z.of_nat (h_Size kdf)) in
          let! aead := new key in
          Ret (mkContext aead sharedSecret sid key baseNonce exporterSecret (mk128 0 0))
      end
  end.

Definition SetupSender (kemID kdfID aeadID : Z) (generated : outcome conn_error PrivateKey) (pub : PublicKey) (info : bytes)
  : outcome conn_error (bytes * context) :=
  let! kem := newDHKem kemID in
  let! (sharedSecret, encapsulatedKey) := Encap kem generated pub in
  let! context := newContext sharedSecret kemID kdfID aeadID info in
  Ret (encapsulatedKey, context).

Definition SetupRecipient (kemID kdfID aeadID : Z) (priv : PrivateKey) (info encPubEph : bytes)
  : outcome conn_error context :=
  let! kem := newDHKem kemID in
  let! sharedSecret := Decap kem encPubEph priv in
  newContext sharedSecret kemID kdfID aeadID info.

(** [for i := range base { nonce[i] ^= base[i] }] *)
Fixpoint xor_into (nonce base : bytes) : outcome conn_error bytes :=
  match base, nonce with
  | [], _ => Ret nonce
  | _ :: _, [] => Panic index_out_of_range
  | b :: base, x :: nonce => let! r := xor_into nonce base in Ret (x ⊕ b :: r)
  end.

Definition nextNonce (ctx : context) : outcome conn_error bytes :=
  let n := NonceSize (aead ctx) in
  if (16 <? n)%nat then Panic index_out_of_range
  else xor_into (drop (16 - n) (uint128_bytes (seqNum ctx))) (baseNonce ctx).

Definition set_seqNum (u : uint128) (ctx : context) : context :=
  mkContext (aead ctx) (sharedSecret ctx) (ctx_suiteID ctx) (key ctx) (baseNonce ctx) (exporterSecret ctx) u.

Definition incrementNonce (ctx : context) : outcome conn_error context :=
  if Z.of_nat (NonceSize (aead ctx)) * 8 - 1 <=? bitLen (seqNum ctx) then Panic "message limit reached"
  else Ret (set_seqNum (addOne (seqNum ctx)) ctx).

(** The result, and the context after the call. *)
Definition Seal (ctx : context) (aad plaintext : bytes) : outcome conn_error bytes * context :=
  match (let! nonce := nextNonce ctx in
         let! ciphertext := aead_Seal (aead ctx) nonce plaintext aad in
         let! ctx := incrementNonce ctx in Ret (ciphertext, ctx)) with
  | Ret (ciphertext, ctx') => (Ret ciphertext, ctx')
  | Err e => (Err e, ctx)
  | Panic w => (Panic w, ctx)
  end.

Definition Open (ctx : context) (aad ciphertext : bytes) : outcome conn_error bytes * context :=
  match (let! nonce := nextNonce ctx in
         let! plaintext := aead_Open (aead ctx) nonce ciphertext aad in
         let! ctx := incrementNonce ctx in Ret (plaintext, ctx)) with
  | Ret (plaintext, ctx') => (Ret plaintext, ctx')
  | Err e => (Err e, ctx)
  | Panic w => (Panic w, ctx)
  end.

Definition ParseHPKEPublicKey (kemID : Z) (b : bytes) : outcome conn_error PublicKey :=
  match SupportedKEMs kemID with
  | None => Err (EText "unsupported KEM id")
  | Some _ => NewPublicKey b
  end.

Definition ParseHPKEPrivateKey (kemID : Z) (b : bytes) : outcome conn_error PrivateKey :=
  match SupportedKEMs kemID with
  | None => Err (EText "unsupported KEM id")
  | Some _ => NewPrivateKey b
  end.
End hpke.
End hpke.
