(* ===== verification/HpkeProofs.v ===== *)
(** * Theorems about hpke

    What a sender seals, the recipient opens, in order; nonces are never
    repeated before the contexts refuse to go on. *)

From S2P Require Import Prelude Common HalfConn Kdf KdfProofs Hpke.
Import hpke.

Open Scope go_scope.

(** ** The sequence number *)

Definition u128 (u : uint128) : Z := hi u * 2 ^ 64 + lo u.
Definition u128_ok (u : uint128) : Prop := is_u64 (hi u) /\ is_u64 (lo u).

(** The number of messages after which [incrementNonce] panics. *)
Definition message_limit : Z := 2 ^ 94 + 2 ^ 63.

Lemma Len64_spec x n : 0 <= x -> 0 <= n -> Len64 x <= n <-> x < 2 ^ n.
Proof.
  intros Hx Hn. unfold Len64. destruct (Z.eqb_spec x 0) as [->|Hne].
  - split; [intros _; by apply Z.pow_pos_nonneg|done].
  - rewrite (Z.log2_lt_pow2 x n) by lia. lia.
Qed.

Lemma addOne_spec u : u128_ok u -> u128 u < 2 ^ 128 - 1 -> u128_ok (addOne u) /\ u128 (addOne u) = u128 u + 1.
Proof.
  intros [Hh Hl]. unfold addOne, Add64, u128, u128_ok, u64. cbn [hi lo]. intros Hm.
  split; [split; apply Z.mod_pos_bound; lia|].
  rewrite Z.add_0_r. assert (E : (lo u + 1) mod 2 ^ 64 = lo u + 1 - 2 ^ 64 * ((lo u + 1) / 2 ^ 64)) by (Z.div_mod_to_equations; lia).
  rewrite (Z.mod_small (hi u + _)); [lia|]. split; [|Z.div_mod_to_equations; lia].
  assert (0 <= (lo u + 1) / 2 ^ 64) by (apply Z.div_pos; lia). lia.
Qed.

(** From 0 on, one by one, the first number that is refused is [message_limit]. *)
Lemma bitLen_limit u : u128_ok u -> u128 u < message_limit -> bitLen u < 95.
Proof.
  intros [Hh Hl]. unfold u128, message_limit, bitLen. intros Hm.
  assert (H64 : Len64 (lo u) <= 64) by (apply Len64_spec; lia).
  destruct (decide (hi u < 2 ^ 30)) as [Hs|Hs].
  - assert (Len64 (hi u) <= 30) by (apply Len64_spec; lia). lia.
  - assert (hi u = 2 ^ 30) as Hhe by lia. assert (Len64 (lo u) <= 63) by (apply Len64_spec; lia).
    rewrite Hhe. change (Len64 (2 ^ 30)) with 31. lia.
Qed.

Lemma bitLen_at_limit u : u128_ok u -> u128 u = message_limit -> bitLen u = 95.
Proof.
  intros [Hh Hl]. unfold u128, message_limit. intros Hm.
  assert (hi u = 2 ^ 30 /\ lo u = 2 ^ 63) as [E1 E2] by lia. unfold bitLen. by rewrite E1, E2.
Qed.

Lemma low_bytes_128 u : u128_ok u -> u128 u < 2 ^ 96 -> drop 4 (uint128_bytes u) = be_put 12 (u128 u).
Proof.
  intros [Hh Hl] Hm. unfold uint128_bytes, PutUint64. rewrite be_put_app by done. fold (u128 u).
  change (256 ^ Z.of_nat 8) with (2 ^ 64). fold (u128 u). change (8 + 8)%nat with (4 + 12)%nat.
  replace (u128 u) with (0 * 256 ^ Z.of_nat 12 + u128 u) at 1 by lia.
  rewrite <- be_put_app; [|done|change (256 ^ Z.of_nat 12) with (2 ^ 96); unfold u128 in *; lia].
  by apply drop_app_length'.
Qed.

Lemma xor_into_spec nonce base : length nonce = length base -> xor_into nonce base = Ret (zip_with Z.lxor nonce base).
Proof.
  revert base. induction nonce as [|x nonce IH]; intros [|b base] Hl; try done. injection Hl as Hl.
  cbn [xor_into zip_with]. by rewrite IH.
Qed.

Lemma zip_lxor_inj (a b base : bytes) : length a = length base -> length b = length base ->
  zip_with Z.lxor a base = zip_with Z.lxor b base -> a = b.
Proof.
  revert b base. induction a as [|x a IH]; intros [|y b] [|z base] Ha Hb Hz; try done.
  injection Hz as Hx Hz. injection Ha as Ha. injection Hb as Hb. f_equal; [|by eapply IH].
  rewrite <- (Z.lxor_0_r x), <- (Z.lxor_0_r y), <- (Z.lxor_nilpotent z), <- !Z.lxor_assoc. by rewrite Hx.
Qed.

(** ** Contexts *)

Lemma length_hkdf_blocks n h prk i buf c : hash_ok h -> length (hkdf_blocks n h prk i buf c) = (n * h_Size h)%nat.
Proof.
  intros Hh. revert buf c. induction n as [|n IH]; intros buf c; [done|]. cbn [hkdf_blocks].
  rewrite length_app, IH. unfold hmac. destruct Hh as [_ Hh]. by rewrite Hh.
Qed.

Lemma LabeledExpand_length h sid k label info n x : hash_ok h -> 0 <= n ->
  LabeledExpand h sid k label info n = Ret x -> length x = Z.to_nat n.
Proof.
  intros Hh Hn. unfold LabeledExpand, hkdf_Expand. destruct (_ <? _)%nat; [done|]. intros Q. apply Ret_inj in Q as <-.
  rewrite length_take, length_hkdf_blocks by done. destruct Hh as [Hp _].
  pose proof (Nat.div_mod_eq (Z.to_nat n) (h_Size h)). pose proof (Nat.mod_upper_bound (Z.to_nat n) (h_Size h)). nia.
Qed.

Section hpke.
Context `{HashesLaws} `{X25519} {Block T : Type} `{cipherAEAD T}.
Context (aes_NewCipher : bytes -> outcome conn_error Block) (cipher_NewGCM : Block -> outcome conn_error T).
Context (chacha20poly1305_New : bytes -> outcome conn_error T).
(** X25519 agrees and keeps encodings; the three AEADs have nonces of 12 bytes
    and open what they seal. *)
Context (ecdh_commutes : forall a b, ECDH a (Public b) = ECDH b (Public a)).
Context (NewPublicKey_Bytes : forall p, NewPublicKey (PublicKey_Bytes p) = Ret p).
Context (NewGCM_nonce : forall b a, cipher_NewGCM b = Ret a -> NonceSize a = 12%nat).
Context (chacha_nonce : forall k a, chacha20poly1305_New k = Ret a -> NonceSize a = 12%nat).
Context (Open_Seal : forall a nonce p ad c, aead_Seal a nonce p ad = Ret c -> aead_Open a nonce c ad = Ret p).

Abbreviation newContext := (newContext aes_NewCipher cipher_NewGCM chacha20poly1305_New).
Abbreviation SetupSender := (SetupSender aes_NewCipher cipher_NewGCM chacha20poly1305_New).
Abbreviation SetupRecipient := (SetupRecipient aes_NewCipher cipher_NewGCM chacha20poly1305_New).

(** A context that has handled [n] messages. *)
Record counting (n : Z) (ctx : context) : Prop := {
  ct_size : NonceSize (aead ctx) = 12%nat;
  ct_base : length (baseNonce ctx) = 12%nat;
  ct_ok : u128_ok (seqNum ctx);
  ct_seq : u128 (seqNum ctx) = n
}.

Lemma new_nonce_size id k n new key a : SupportedAEADs aes_NewCipher cipher_NewGCM chacha20poly1305_New id = Some (k, n, new) ->
  new key = Ret a -> NonceSize a = 12%nat /\ n = 12.
Proof.
  unfold SupportedAEADs. repeat case_match; intros Q Ha; simplify_eq; (split; [|done]).
  3: by eapply chacha_nonce.
  all: unfold aesGCMNew in Ha; destruct (aes_NewCipher key) as [b| |]; [|done..]; by eapply NewGCM_nonce.
Qed.

Lemma newContext_counting secret kem kdf aead_id info ctx :
  newContext secret kem kdf aead_id info = Ret ctx -> counting 0 ctx.
Proof.
  unfold hpke.newContext. destruct (SupportedKDFs kdf) as [h|] eqn:Ek; [|done].
  assert (Hh : hash_ok h) by (unfold SupportedKDFs in Ek; case_match; simplify_eq; apply sha256_ok).
  destruct (SupportedAEADs _ _ _ aead_id) as [[[ks ns] new]|] eqn:Ea; [|done]. cbv zeta.
  destruct (LabeledExpand _ _ _ _ _ ks) as [k| |]; [|done..]. cbn [obind].
  destruct (LabeledExpand _ _ _ _ _ ns) as [b| |] eqn:Eb; [|done..]. cbn [obind].
  destruct (LabeledExpand _ _ _ (str "exp") _ _) as [x| |]; [|done..]. cbn [obind].
  destruct (new k) as [a| |] eqn:En; [|done..]. intros [= <-].
  destruct (new_nonce_size _ _ _ _ _ _ Ea En) as [Hs ->].
  apply LabeledExpand_length in Eb; [|done..]. by split.
Qed.

Lemma nextNonce_spec n ctx : counting n ctx -> n < 2 ^ 96 ->
  nextNonce ctx = Ret (zip_with Z.lxor (be_put 12 n) (baseNonce ctx)).
Proof.
  intros [Hs Hb Ho Hn] Hm. unfold nextNonce. rewrite Hs. change (16 <? 12)%nat with false. cbv iota.
  change (16 - 12)%nat with 4%nat. rewrite low_bytes_128 by (done || lia). rewrite Hn.
  apply xor_into_spec. by rewrite length_be_put.
Qed.

Lemma incrementNonce_spec n ctx : counting n ctx -> n <= message_limit ->
  if decide (n = message_limit) then incrementNonce ctx = Panic "message limit reached"
  else exists ctx', incrementNonce ctx = Ret ctx' /\ ctx' = set_seqNum (seqNum ctx') ctx /\ counting (n + 1) ctx'.
Proof.
  intros [Hs Hb Ho Hn] Hm. unfold incrementNonce. rewrite Hs. change (Z.of_nat 12 * 8 - 1) with 95.
  destruct (decide _) as [He|He].
  - rewrite bitLen_at_limit by (done || lia). done.
  - rewrite (proj2 (Z.leb_gt _ _)) by (apply bitLen_limit; [done|lia]).
    assert (Hlt : u128 (seqNum ctx) < 2 ^ 128 - 1) by (rewrite Hn; unfold message_limit in Hm; lia).
    destruct (addOne_spec (seqNum ctx) Ho Hlt) as [Ho' Hn'].
    eexists. split; [reflexivity|]. split; [done|]. split; try done. change (u128 (addOne (seqNum ctx)) = n + 1). lia.
Qed.

(** ** Conversations *)

(** Seal [(aad, plaintext)] after [(aad, plaintext)], and open likewise. *)
Fixpoint seal_all (ctx : context) (msgs : list (bytes * bytes)) : outcome conn_error (list bytes) * context :=
  match msgs with
  | [] => (Ret [], ctx)
  | (aad, p) :: msgs =>
      let '(r, ctx) := Seal ctx aad p in
      match r with
      | Ret c => let '(r, ctx) := seal_all ctx msgs in ((let! cs := r in Ret (c :: cs)), ctx)
      | Err e => (Err e, ctx)
      | Panic w => (Panic w, ctx)
      end
  end.
Fixpoint open_all (ctx : context) (msgs : list (bytes * bytes)) : outcome conn_error (list bytes) * context :=
  match msgs with
  | [] => (Ret [], ctx)
  | (aad, c) :: msgs =>
      let '(r, ctx) := Open ctx aad c in
      match r with
      | Ret p => let '(r, ctx) := open_all ctx msgs in ((let! ps := r in Ret (p :: ps)), ctx)
      | Err e => (Err e, ctx)
      | Panic w => (Panic w, ctx)
      end
  end.

Lemma Seal_Ret ctx aad p c ctx' : Seal ctx aad p = (Ret c, ctx') ->
  exists nonce, nextNonce ctx = Ret nonce /\ aead_Seal (aead ctx) nonce p aad = Ret c /\ incrementNonce ctx = Ret ctx'.
Proof.
  unfold Seal. destruct (nextNonce ctx) as [nonce| |]; [|done..]. cbn [obind].
  destruct (aead_Seal _ _ _ _) as [ct| |] eqn:E; [|done..]. cbn [obind].
  destruct (incrementNonce ctx) as [ctx1| |]; [|done..]. intros [= <- <-]. by exists nonce.
Qed.

Lemma Open_sealed ctx aad p c ctx' : Seal ctx aad p = (Ret c, ctx') -> Open ctx aad c = (Ret p, ctx').
Proof.
  intros (nonce & Hn & Hs & Hi)%Seal_Ret. unfold Open. rewrite Hn. cbn [obind].
  rewrite (Open_Seal _ _ _ _ _ Hs). cbn [obind]. by rewrite Hi.
Qed.

Lemma open_sealed_all ctx msgs cs ctx' : seal_all ctx msgs = (Ret cs, ctx') ->
  open_all ctx (zip msgs.*1 cs) = (Ret msgs.*2, ctx').
Proof.
  revert ctx cs. induction msgs as [|[aad p] msgs IH]; intros ctx cs; cbn [seal_all].
  { by intros [= <- <-]. }
  destruct (Seal ctx aad p) as [[c| |] ctx1] eqn:E; [|done..]. apply Open_sealed in E.
  destruct (seal_all ctx1 msgs) as [[cs1| |] ctx2] eqn:E2; [|done..]. cbn [obind]. intros [= <- <-].
  cbn [fmap list_fmap zip_with open_all fst snd]. rewrite E. by rewrite (IH _ _ E2).
Qed.

Lemma SetupSender_Ret kem kdf aead_id generated pub info enc s :
  SetupSender kem kdf aead_id generated pub info = Ret (enc, s) ->
  exists k eph secret shared, newDHKem kem = Ret k /\ generated = Ret eph /\ ECDH eph pub = Ret shared /\
    enc = PublicKey_Bytes (Public eph) /\ ExtractAndExpand k shared (enc ++ PublicKey_Bytes pub) = Ret secret /\
    newContext secret kem kdf aead_id info = Ret s.
Proof.
  unfold hpke.SetupSender. destruct (newDHKem kem) as [k| |]; [|done..]. cbn [obind]. unfold Encap.
  destruct generated as [eph| |]; [|done..]. cbn [obind]. destruct (ECDH eph pub) as [shared| |] eqn:Ed; [|done..]. cbn [obind].
  destruct (ExtractAndExpand _ _ _) as [secret| |] eqn:Ex; [|done..]. cbn [obind].
  destruct (newContext _ _ _ _ _) as [ctx| |] eqn:En; [|done..]. intros [= <- <-]. by exists k, eph, secret, shared.
Qed.

(** Both ends set up the same context. *)
Lemma Setup_agree kem kdf aead_id generated priv info enc s :
  SetupSender kem kdf aead_id generated (Public priv) info = Ret (enc, s) -> SetupRecipient kem kdf aead_id priv info enc = Ret s.
Proof.
  intros (k & eph & secret & shared & Hk & -> & Hd & -> & Hx & Hn)%SetupSender_Ret.
  unfold hpke.SetupRecipient. rewrite Hk. cbn [obind]. unfold Decap. rewrite NewPublicKey_Bytes. cbn [obind].
  rewrite ecdh_commutes, Hd. cbn [obind]. by rewrite Hx.
Qed.

(** C27: what a sender seals its recipient opens: a recipient that sets up with
    the private key to the sender's public key, with the same algorithms and
    [info] and the encapsulated key gets a context, and from any sequence of
    sealed messages, with any additional data, it gets back the plaintexts in
    order, as long as the sender does not run out of nonces. *)
Theorem hpke_conversation kem kdf aead_id generated priv info enc s msgs cs s' :
  SetupSender kem kdf aead_id generated (Public priv) info = Ret (enc, s) ->
  seal_all s msgs = (Ret cs, s') ->
  exists r r', SetupRecipient kem kdf aead_id priv info enc = Ret r /\
    open_all r (zip msgs.*1 cs) = (Ret msgs.*2, r').
Proof.
  intros Hset Hs. exists s, s'. split; [by eapply Setup_agree|exact (open_sealed_all _ _ _ _ Hs)].
Qed.

Lemma seal_all_counting n ctx msgs cs ctx' : counting n ctx -> 0 <= n <= message_limit ->
  seal_all ctx msgs = (Ret cs, ctx') ->
  counting (n + Z.of_nat (length msgs)) ctx' /\ n + Z.of_nat (length msgs) <= message_limit /\ baseNonce ctx' = baseNonce ctx.
Proof.
  revert n ctx cs. induction msgs as [|[aad p] msgs IH]; intros n ctx cs Hc Hn; cbn [seal_all length].
  { intros [= <- <-]. rewrite Z.add_0_r. split_and!; [done|lia|done]. }
  destruct (Seal ctx aad p) as [[c| |] ctx1] eqn:E; [|done..].
  apply Seal_Ret in E as (_ & _ & _ & Hi). pose proof (incrementNonce_spec n ctx Hc (proj2 Hn)) as Hsp.
  destruct (decide _) as [Hl|Hl]; [rewrite Hi in Hsp; done|]. destruct Hsp as (ctx2 & Hi2 & Hb & Hc2).
  rewrite Hi in Hi2. injection Hi2 as <-.
  destruct (seal_all ctx1 msgs) as [[cs1| |] ctx3] eqn:E2; [|done..]. cbn [obind]. intros [= <- <-].
  destruct (IH (n + 1) ctx1 cs1 Hc2 ltac:(lia) E2) as (H1' & H2' & H3').
  replace (n + Z.of_nat (S (length msgs))) with (n + 1 + Z.of_nat (length msgs)) by lia.
  split_and!; [done|done|]. rewrite H3', Hb. done.
Qed.

(** no two messages of a context are sealed under the same nonce: after [k]
    messages the nonce is the base nonce exclusive-or [k], so the nonces of
    different numbers of messages differ; and a context never gets further than
    2^94 + 2^63 messages, where the next one makes [incrementNonce] panic. *)
Theorem hpke_nonces kem kdf aead_id generated pub info enc s m1 cs1 s1 m2 cs2 s2 :
  SetupSender kem kdf aead_id generated pub info = Ret (enc, s) ->
  seal_all s m1 = (Ret cs1, s1) -> seal_all s m2 = (Ret cs2, s2) ->
  exists n1 n2, nextNonce s1 = Ret n1 /\ nextNonce s2 = Ret n2 /\
    n1 = zip_with Z.lxor (be_put 12 (Z.of_nat (length m1))) (baseNonce s) /\
    (n1 = n2 -> length m1 = length m2) /\
    Z.of_nat (length m1) <= message_limit /\
    (Z.of_nat (length m1) = message_limit -> forall aad p c s', Seal s1 aad p <> (Ret c, s')).
Proof.
  intros (k & eph & secret & shared & _ & _ & _ & _ & _ & Hn)%SetupSender_Ret E1 E2.
  apply newContext_counting in Hn. assert (Hl0 : 0 <= 0 <= message_limit) by done.
  destruct (seal_all_counting 0 s m1 cs1 s1 Hn Hl0 E1) as (C1 & L1 & B1).
  destruct (seal_all_counting 0 s m2 cs2 s2 Hn Hl0 E2) as (C2 & L2 & B2).
  rewrite !Z.add_0_l in *. assert (Hlim : message_limit < 2 ^ 96) by done.
  eexists _, _. rewrite (nextNonce_spec _ s1 C1), (nextNonce_spec _ s2 C2) by lia. rewrite B1, B2.
  split_and!; [done|done|done| |done|].
  - pose proof (ct_base _ _ C1) as Hb. rewrite B1 in Hb.
    intros Q%zip_lxor_inj; [|by rewrite length_be_put..].
    assert (Q2 : be_get (be_put 12 (Z.of_nat (length m1))) = be_get (be_put 12 (Z.of_nat (length m2)))) by by rewrite Q.
    rewrite !be_get_put in Q2. change (256 ^ Z.of_nat 12) with (2 ^ 96) in Q2. rewrite !Z.mod_small in Q2 by lia. lia.
  - intros Hlm aad p c s' (_ & _ & _ & Q)%Seal_Ret.
    pose proof (incrementNonce_spec _ s1 C1 L1) as Hi. destruct (decide _); [|done]. by rewrite Q in Hi.
Qed.
End hpke.

(** ** Witnesses *)

#[local] Existing Instance low_hashes.
#[local] Existing Instance low_hashes_laws.

(** A key agreement by sums, and an AEAD that appends the nonce and the data. *)
#[local] Instance sum_X25519 : X25519 := {|
  PrivateKey := bytes; PublicKey := bytes; NewPrivateKey := Ret; NewPublicKey := Ret;
  Public k := k; PublicKey_Bytes k := k; ECDH a b := Ret (zip_with Z.add a b)
|}.
#[local] Instance plain_aead : cipherAEAD bytes := {|
  NonceSize _ := 12%nat;
  aead_Seal _ nonce p ad := Ret (p ++ nonce ++ ad);
  aead_Open _ nonce c ad :=
    let n := (length c - length (nonce ++ ad))%nat in
    if bool_decide (drop n c = nonce ++ ad) then Ret (take n c) else Err (EText "forged")
|}.

Lemma w_ecdh a b : ECDH a (Public b) = ECDH b (Public a).
Proof.
  cbn. f_equal. revert b. induction a as [|x a IH]; intros [|y b]; try done. cbn. rewrite IH. f_equal. lia.
Qed.

Lemma w_open a nonce p ad c : aead_Seal (T:=bytes) a nonce p ad = Ret c -> aead_Open (T:=bytes) a nonce c ad = Ret p.
Proof.
  intros [= <-]. cbn. rewrite length_app, Nat.add_sub, drop_app_length, take_app_length.
  by rewrite bool_decide_eq_true_2.
Qed.

Lemma w_gcm_nonce (b : unit) (a : bytes) : (Ret [0] : outcome conn_error bytes) = Ret a -> NonceSize a = 12%nat.
Proof. done. Qed.
Lemma w_chacha_nonce (k a : bytes) : (Ret k : outcome conn_error bytes) = Ret a -> NonceSize a = 12%nat.
Proof. done. Qed.

Abbreviation w_setup := (SetupSender (Block:=unit) (fun _ => Ret tt) (fun _ => Ret [0]) Ret DHKEM_X25519_HKDF_SHA256
  KDF_HKDF_SHA256 AEAD_AES_128_GCM (Ret [1; 2; 3]) [4; 5; 6] [9]).
Abbreviation w_msgs := [([1], [10; 11]); ([], [12]); ([2; 3], [])].

Definition w_sender : context := match w_setup with Ret (_, s) => s | _ => mkContext [] [] [] [] [] [] (mk128 0 0) end.

Lemma w_setup_ok : w_setup = Ret ([1; 2; 3], w_sender).
Proof. vm_compute. reflexivity. Qed.

Lemma w_seals : exists cs s', seal_all w_sender w_msgs = (Ret cs, s').
Proof. vm_compute. by do 2 eexists. Qed.

Lemma hpke_conversation_witness : exists cs s' r r', seal_all w_sender w_msgs = (Ret cs, s') /\
  SetupRecipient (Block:=unit) (fun _ => Ret tt) (fun _ => Ret [0]) Ret DHKEM_X25519_HKDF_SHA256
    KDF_HKDF_SHA256 AEAD_AES_128_GCM [4; 5; 6] [9] [1; 2; 3] = Ret r /\
  open_all r (zip w_msgs.*1 cs) = (Ret w_msgs.*2, r').
Proof.
  destruct w_seals as (cs & s' & Hs).
  destruct (hpke_conversation (Block:=unit) (fun _ => Ret tt) (fun _ => Ret [0]) Ret w_ecdh (fun p => eq_refl) w_open
    DHKEM_X25519_HKDF_SHA256 KDF_HKDF_SHA256 AEAD_AES_128_GCM (Ret [1; 2; 3]) [4; 5; 6] [9] _ _ w_msgs cs s' w_setup_ok Hs)
    as (r & r' & Hr & Ho).
  exists cs, s', r, r'. split; [exact Hs|]. split; [exact Hr|exact Ho].
Defined.

Lemma hpke_nonces_witness : exists n1 n2 cs s', seal_all w_sender w_msgs = (Ret cs, s') /\
  nextNonce w_sender = Ret n1 /\ nextNonce s' = Ret n2 /\ (n1 = n2 -> 0%nat = 3%nat).
Proof.
  destruct w_seals as (cs & s' & Hs).
  destruct (hpke_nonces (H1:=sum_X25519) (Block:=unit) (fun _ => Ret tt) (fun _ => Ret [0]) Ret w_gcm_nonce w_chacha_nonce
    DHKEM_X25519_HKDF_SHA256 KDF_HKDF_SHA256 AEAD_AES_128_GCM (Ret [1; 2; 3]) [4; 5; 6] [9] _ _ [] [] w_sender w_msgs cs s'
    w_setup_ok eq_refl Hs) as (n1 & n2 & Hn1 & Hn2 & _ & Hd & _).
  exists n1, n2, cs, s'. split; [exact Hs|]. split; [exact Hn1|]. split; [exact Hn2|exact Hd].
Defined.
