(* ===== verification/Reality.v ===== *)
(** * tls.go: the REALITY server

    [Server] accepts a connection from a client and dials the target.  One
    goroutine reads the ClientHello (its bytes are mirrored to the target) and
    decides whether it comes from an authenticated client; another reads what
    the target answers and records the lengths of its handshake records.  If
    the client is authenticated the server answers in the target's place with
    records of these lengths; otherwise the bytes are forwarded.

    [authenticate] is the first goroutine after [readClientHello];
    [scan_types] is the loop of the second one over the seven records of the
    target's flight, and [on_read] the handling of a [target.Read].  X25519 and
    HKDF of golang.org/x/crypto are parameters. *)

From stdpp Require Import gmap.
From S2P Require Import Prelude Common HalfConn Alias Aes Gcm GcmNonces CipherSuites Cryptobyte Hello.

Open Scope go_scope.

(** [Value]: a big-endian number; an [int] has 64 bits, and the shift drops what
    does not fit. *)
Definition int64 (z : Z) : Z := (z + 2 ^ 63) mod 2 ^ 64 - 2 ^ 63.
Definition Value (vals : bytes) : Z :=
  fst (fold_left (fun '(value, i) val => (value ||| int64 (val ≪ ((Z.of_nat (length vals) - i - 1) * 8)), i + 1))
    vals (0, 0)).

Definition size : Z := 8192.
Definition types : list string := [
  "Server Hello"; "Change Cipher Spec"; "Encrypted Extensions"; "Certificate"; "Certificate Verify";
  "Finished"; "New Session Ticket"]%string.

(** ** The REALITY part of [Config] *)

Record Config := mkConfig {
  ServerNames : gmap bytes bool;
  PrivateKey : bytes;
  MinClientVer : option bytes;
  MaxClientVer : option bytes;
  MaxTimeDiff : Z;                    (* [time.Duration], nanoseconds *)
  ShortIds : gmap bytes bool
}.

(** A lookup in a [map[..]bool]. *)
Definition has (m : gmap bytes bool) (k : bytes) : bool := default false (m !! k).

(** [time.Since(t).Abs()] on [time.Duration]: 64 bits, saturating.  [now] is in
    nanoseconds and [t] in seconds since the epoch. *)
Definition Since (now t : Z) : Z := Z.max (- 2 ^ 63) (Z.min (2 ^ 63 - 1) (now - t * 10 ^ 9)).
Definition Abs (d : Z) : Z := if 0 <=? d then d else if d =? - 2 ^ 63 then 2 ^ 63 - 1 else - d.

(** ** The client *)

(** [hs.c]'s fields for the client, and [hs.c.conn == conn]. *)
Record client := mkClient {
  hello : clientHelloMsg.t;
  AuthKey : bytes;
  ClientVer : bytes;
  ClientTime : Z;
  ClientShortId : bytes;
  accepted : bool
}.

Definition new_client (m : clientHelloMsg.t) : client := mkClient m [] (replicate 3 0) 0 (replicate 8 0) false.

(** [copy(hs.clientHello.sessionId, v)]: the session id is the part of the
    original bytes from the 39th on, so both change. *)
Definition sessionId_offset : nat := 39.
Definition write_sessionId (v : bytes) (m : clientHelloMsg.t) : clientHelloMsg.t :=
  let sid := Gcm.copy (clientHelloMsg.sessionId m) v in
  let n := (sessionId_offset + length sid)%nat in
  clientHelloMsg.set_original
    ((fun o => take sessionId_offset o ++ sid ++ drop n o) <$> clientHelloMsg.original m)
    (clientHelloMsg.set_sessionId sid m).

(** The arguments of [aead.Open(plainText[:0], nonce, ciphertext, original)]:
    three buffers of their own. *)
Definition plainText_base : Z := 0x10000.
Definition ciphertext_base : Z := 0x20000.
Definition original_base : Z := 0x100000000000.
Definition session_dst : Slice := mkSlice plainText_base [] (replicate 32 0).
Definition session_ct (ciphertext : bytes) : Slice := mkSlice ciphertext_base ciphertext [].
Definition session_aad (original : bytes) : Slice := mkSlice original_base original [].

(** [types] of client authentication: what the client must satisfy. *)
Definition policy (config : Config) (now : Z) (c : client) : bool :=
  (match MinClientVer config with None => true | Some v => Value v <=? Value (ClientVer c) end) &&
  (match MaxClientVer config with None => true | Some v => Value (ClientVer c) <=? Value v end) &&
  ((MaxTimeDiff config =? 0) || (Abs (Since now (ClientTime c)) <=? MaxTimeDiff config)) &&
  has (ShortIds config) (ClientShortId c).

Section auth.
(** [curve25519.X25519(scalar, point)], and [Read] of [n] bytes from
    [hkdf.New(sha256.New, secret, salt, info)]. *)
Context (x25519 : bytes -> bytes -> outcome conn_error bytes).
Context (hkdf_read : bytes -> bytes -> bytes -> nat -> outcome conn_error bytes).

Definition REALITY : bytes := [82; 69; 65; 76; 73; 84; 89].

(** The usable key share of the ClientHello: the first of X25519. *)
Definition usable_share (ks : keyShare) : bool := (group ks =? X25519) && (length (ks_data ks) =? 32)%nat.

(** The body of the loop over the key shares, for a usable one.  An error
    ends the loop with what has been set so far. *)
Definition try_share (config : Config) (now : Z) (ks : keyShare) (c : client) : outcome conn_error client :=
  let m := hello c in
  match x25519 (PrivateKey config) (ks_data ks) with
  | Err _ => Ret c
  | Panic w => Panic w
  | Ret shared =>
      if (length (clientHelloMsg.random m) <? 20)%nat then Panic index_out_of_range else
      match hkdf_read shared (take 20 (clientHelloMsg.random m)) REALITY (length shared) with
      | Err _ => Ret (mkClient m shared (ClientVer c) (ClientTime c) (ClientShortId c) (accepted c))
      | Panic w => Panic w
      | Ret key =>
          match aes_New key with
          | Ret block =>
              match ForTLS13.New block with
              | Ret aead =>
                  let ciphertext := Gcm.copy (replicate 32 0) (clientHelloMsg.sessionId m) in
                  let m := write_sessionId (replicate 32 0) m in
                  let c := mkClient m key (ClientVer c) (ClientTime c) (ClientShortId c) (accepted c) in
                  match fst (ForTLS13.Open aead 0 session_dst (drop 20 (clientHelloMsg.random m))
                               (session_ct ciphertext) (session_aad (default [] (clientHelloMsg.original m)))) with
                  | Err _ => Ret c
                  | Panic w => Panic w
                  | Ret plain =>
                      let plainText := Gcm.copy (replicate 32 0) plain in
                      let c := mkClient (write_sessionId ciphertext m) key (take 3 plainText)
                                 (Uint32 (drop 4 plainText)) (slice 8 16 plainText) (accepted c) in
                      Ret (if policy config now c
                           then mkClient (hello c) key (ClientVer c) (ClientTime c) (ClientShortId c) true
                           else c)
                  end
              | _ => Panic "nil pointer dereference"
              end
          | _ => Panic "nil pointer dereference"
          end
      end
  end.

(** What the first goroutine decides from the result of [readClientHello] (the
    message is [nil] when there is an error) and [copying]: [stole], and the
    client.  The name is looked up before the error is checked. *)
Definition authenticate (config : Config) (now : Z) (copying : bool) (msg : option clientHelloMsg.t)
    (err : option conn_error) (vers : Z) : outcome conn_error (bool * client) :=
  match msg with
  | None => Panic "nil pointer dereference"
  | Some m =>
      let c := new_client m in
      if negb (has (ServerNames config) (clientHelloMsg.serverName m)) then Ret (true, c)
      else if copying || (match err with Some _ => true | None => false end) || negb (vers =? VersionTLS13)
      then Ret (false, c)
      else match find usable_share (clientHelloMsg.keyShares m) with
           | Some ks => let! c := try_share config now ks c in Ret (false, c)
           | None => Ret (false, c)
           end
  end.

(** After that: [io.Copy(target, underlying)]. *)
Definition forwards_client (stole : bool) (c : client) : bool := negb (accepted c) && negb stole.
End auth.

(** ** The target's flight *)

Record scan := mkScan {
  s2cSaved : bytes;
  recLen : Z;                             (* [handshakeLen], of the current record *)
  lens : list Z;                          (* [hs.c.out.handshakeLen] *)
  scan_buf : option bytes;                (* [hs.c.out.handshakeBuf] *)
  serverHello : option serverHelloMsg.t   (* [hs.hello] *)
}.

Definition new_scan : scan := mkScan [] 0 (replicate 7 0) None None.

Inductive scan_result :=
| MoreData (s : scan)       (* [continue f] *)
| Mismatch (s : scan)       (* [break f] *)
| Complete (s : scan).      (* the loop over [types] ends: [hs.handshake()] *)

Definition handshakeLen_at (s : scan) (i : nat) : Z := nth i (lens s) 0.

(** [hs.c.out.handshakeLen[i] = n] *)
Definition set_len (i : nat) (n : Z) (s : scan) : scan :=
  mkScan (s2cSaved s) (recLen s) (<[i := n]> (lens s)) (scan_buf s) (serverHello s).

(** The type of the [i]-th record and its first byte. *)
Definition wrong_header (i : nat) (s : bytes) : bool :=
  negb (Value (slice 1 3 s) =? VersionTLS12) ||
  ((i =? 0)%nat && (negb (nth_byte s 0 =? recordTypeHandshake) || negb (nth_byte s 5 =? typeServerHello))) ||
  ((i =? 1)%nat && (negb (nth_byte s 0 =? recordTypeChangeCipherSpec) || negb (nth_byte s 5 =? 1))) ||
  ((1 <? i)%nat && negb (nth_byte s 0 =? recordTypeApplicationData)).

(** [mlkem.CiphertextSize768] *)
Definition CiphertextSize768 : nat := 1088.

(** The ServerHello must be one the server can imitate. *)
Definition usable_ServerHello (m : serverHelloMsg.t) : bool :=
  (serverHelloMsg.vers m =? VersionTLS12) && (serverHelloMsg.supportedVersion m =? VersionTLS13) &&
  (match cipherSuiteTLS13ByID (serverHelloMsg.cipherSuite m) with Some _ => true | None => false end) &&
  (((group (serverHelloMsg.serverShare m) =? X25519) &&
    (length (ks_data (serverHelloMsg.serverShare m)) =? 32)%nat) ||
   ((group (serverHelloMsg.serverShare m) =? X25519MLKEM768) &&
    (length (ks_data (serverHelloMsg.serverShare m)) =? CiphertextSize768 + 32)%nat)).

Section scanning.
Context `{CryptoString}.

(** The record is whole: check the ServerHello, record the length, go on
    with what follows. *)
Definition take_record (i : nat) (s : scan) : scan_result + scan :=
  let n := Z.to_nat (recLen s) in
  let next (h : option serverHelloMsg.t) :=
    mkScan (drop n (s2cSaved s)) 0 (<[i := recLen s]> (lens s)) (scan_buf s) h in
  if (i =? 0)%nat then
    match serverHelloMsg.unmarshal (slice (Z.to_nat recordHeaderLen) n (s2cSaved s)) with
    | None => inl (Mismatch s)
    | Some m => if usable_ServerHello m then inr (next (Some m)) else inl (Mismatch s)
    end
  else inr (next (serverHello s)).

(** The length of the current record, once its header is there. *)
Definition read_header (i : nat) (s : scan) : scan_result + scan :=
  if (recLen s =? 0) && (recordHeaderLen <? Z.of_nat (length (s2cSaved s))) then
    if wrong_header i (s2cSaved s) then inl (Mismatch s)
    else inr (mkScan (s2cSaved s) (recordHeaderLen + Value (slice 3 5 (s2cSaved s))) (lens s) (scan_buf s)
                (serverHello s))
  else inr s.

(** [for i, t := range types], from index [i] with [n] to go. *)
Fixpoint scan_types (n : nat) (i : nat) (s : scan) : scan_result :=
  match n with
  | O => Complete s
  | Datatypes.S n =>
      if negb (handshakeLen_at s i =? 0) then scan_types n (Datatypes.S i) s
      else if (i =? 6)%nat && (length (s2cSaved s) =? 0)%nat then Complete s
      else match read_header i s with
      | inl r => r
      | inr s =>
          if size <? recLen s then Mismatch s
          else if (i =? 1)%nat && (0 <? recLen s) && negb (recLen s =? 6) then Mismatch s
          else if (i =? 2)%nat && (512 <? recLen s) then
            Complete (mkScan (s2cSaved s) (recLen s) (<[i := recLen s]> (lens s)) (Some []) (serverHello s))
          else if (i =? 6)%nat && (0 <? recLen s) then Complete (set_len i (recLen s) s)
          else if (recLen s =? 0) || (Z.of_nat (length (s2cSaved s)) <? recLen s) then MoreData s
          else match take_record i s with
               | inl r => r
               | inr s => scan_types n (Datatypes.S i) s
               end
      end
  end.

(** The body of the loop after a [target.Read] of [chunk], not empty, for an
    accepted client. *)
Definition on_read (chunk : bytes) (s : scan) : scan_result :=
  let s := mkScan (s2cSaved s ++ chunk) (recLen s) (lens s) (scan_buf s) (serverHello s) in
  if size <? Z.of_nat (length (s2cSaved s)) then Mismatch s
  else scan_types (length types) 0 s.

(** The reads of the target one after the other. *)
Fixpoint scan_all (chunks : list bytes) (s : scan) : scan_result :=
  match chunks with
  | [] => MoreData s
  | chunk :: chunks =>
      match on_read chunk s with
      | MoreData s => scan_all chunks s
      | r => r
      end
  end.
End scanning.

(** After the loop: whether what has been read and the rest is forwarded to
    the client. *)
Definition forwards_target (stole : bool) (s : scan) : bool := (handshakeLen_at s 0 =? 0) && negb stole.
