(* ===== verification/RealityAuth.v ===== *)
(** * REALITY: the authentication of the client

    [authenticate] accepts exactly the clients that sealed their session id
    for this ClientHello with the key agreed with the server's private key,
    and whose version, clock and short id the configuration allows; and the
    ClientHello the handshake goes on with has the bytes the client sent. *)

From stdpp Require Import gmap.
From S2P Require Import Prelude Common HalfConn Alias Aes AesSpec AesProofs Ghash GhashSpec Gcm GcmSpec GcmNonces.
From S2P Require Import CipherSuites CipherSuitesProofs Cryptobyte Hello WireProofs WireTheorems Reality.

Open Scope go_scope.

(** ** Where the session id is *)

Section layout.
Context `{CryptoStringLaws}.

(** The extensions leave the fields before them. *)
Lemma ext_handler_prefix e d rest m m' d' : clientHelloMsg.ext_handler e d rest m = Some (m', d') ->
  clientHelloMsg.original m' = clientHelloMsg.original m /\ clientHelloMsg.random m' = clientHelloMsg.random m /\
  clientHelloMsg.sessionId m' = clientHelloMsg.sessionId m.
Proof.
  unfold clientHelloMsg.ext_handler. intros Q.
  repeat match type of Q with
    | (if ?c then _ else _) = _ => destruct c
    | match ?c with _ => _ end = _ => destruct c as [[? ?]|]
    end;
  unfold continue in *;
  repeat match goal with
  | Q : mbind ?f ?x = Some _ |- _ =>
      let v := fresh "v" in destruct x as [v|]; [|discriminate Q];
      try lazymatch type of v with (_ * _)%type => destruct v end; cbn [mbind option_bind] in Q
  | Q : Some _ = Some _ |- _ => injection Q as <- <-
  end; try done.
Qed.

Lemma read_exts_prefix s m r : read_exts true clientHelloMsg.ext_handler s m = Some r ->
  clientHelloMsg.original r = clientHelloMsg.original m /\ clientHelloMsg.random r = clientHelloMsg.random m /\
  clientHelloMsg.sessionId r = clientHelloMsg.sessionId m.
Proof.
  unfold read_exts. destruct (until_empty _ _ _) as [[seen m2]|] eqn:E; [|done]. intros [= <-].
  apply (until_empty_ind _ (fun _ st => clientHelloMsg.original (snd st) = clientHelloMsg.original m /\
    clientHelloMsg.random (snd st) = clientHelloMsg.random m /\
    clientHelloMsg.sessionId (snd st) = clientHelloMsg.sessionId m)) in E; [done| |done].
  intros s0 [seen0 m0] [seen1 m1] s1 _ (H1 & H2 & H3). cbn [snd] in *. unfold read_ext.
  destruct (ReadUint16 s0) as [[e s']|]; [|done]. cbn [mbind option_bind].
  destruct (ReadUint16LengthPrefixed s') as [[d s'']|]; [|done]. cbn [mbind option_bind].
  destruct (_ && _); [done|]. destruct (clientHelloMsg.ext_handler e d s'' m0) as [[m' d']|] eqn:Eh; [|done].
  cbn [mbind option_bind]. destruct (negb _); [done|]. intros [= _ <- _].
  apply ext_handler_prefix in Eh as (-> & -> & ->). done.
Qed.

(** The layout of a ClientHello: 39 bytes, with the random in them, and then
    the session id. *)
Lemma unmarshal_layout data m : clientHelloMsg.unmarshal data = Some m ->
  clientHelloMsg.original m = Some data /\ length (clientHelloMsg.random m) = 32%nat /\
  exists pre post, data = pre ++ clientHelloMsg.sessionId m ++ post /\ length pre = sessionId_offset /\
    clientHelloMsg.random m = slice 6 38 data.
Proof.
  unfold clientHelloMsg.unmarshal. rewrite Skip_spec. intros Q.
  destruct (read_bytes 4 data) as [[b0 s0]|] eqn:E0; [|discriminate Q].
  cbn [fmap option_fmap option_map snd mbind option_bind] in Q. rewrite ReadUint16_spec in Q.
  unfold read_uint in Q. destruct (read_bytes 2 s0) as [[b1 s1]|] eqn:E1; [|discriminate Q].
  cbn [mbind option_bind] in Q. rewrite ReadBytes_spec in Q.
  destruct (read_bytes 32 s1) as [[b2 s2]|] eqn:E2; [|discriminate Q]. cbn [mbind option_bind] in Q.
  unfold readUint8LengthPrefixed in Q. rewrite ReadUint8LengthPrefixed_spec in Q.
  unfold read_prefixed, read_uint in Q.
  destruct (read_bytes 1 s2) as [[b3 s3]|] eqn:E3; [|discriminate Q]. cbn [mbind option_bind] in Q.
  destruct (read_bytes (Z.to_nat (be_get b3)) s3) as [[sid s4]|] eqn:E4; [|discriminate Q]. cbn [mbind option_bind] in Q.
  assert (Hm : clientHelloMsg.original m = Some data /\ clientHelloMsg.random m = b2 /\ clientHelloMsg.sessionId m = sid).
  { repeat match type of Q with
    | mbind _ ?x = Some _ => let v := fresh "v" in destruct x as [v|]; [|discriminate Q];
        try lazymatch type of v with (_ * _)%type => destruct v end; cbn [mbind option_bind] in Q
    | (if ?c then _ else _) = Some _ => destruct c
    | Some _ = Some _ => injection Q as <-; done
    | None = Some _ => discriminate Q
    end. by apply read_exts_prefix in Q. }
  destruct Hm as (Ho & Hr & Hs). apply read_bytes_length in E0 as (_ & L0 & ->), E1 as (_ & L1 & ->),
    E2 as (_ & L2 & ->), E3 as (_ & L3 & ->), E4 as (_ & _ & ->).
  split; [done|]. rewrite Hr, Hs. split; [done|]. exists (b0 ++ b1 ++ b2 ++ b3), s4. split_and!.
  - by rewrite <- !app_assoc.
  - rewrite !length_app. unfold sessionId_offset. lia.
  - unfold slice. rewrite app_assoc, drop_app_length' by (rewrite length_app; lia).
    by rewrite take_app_length' by lia.
Qed.
End layout.

(** ** Opening the session id *)

(** The session id as it is opened: 32 bytes. *)
Definition sealed_session (m : clientHelloMsg.t) : bytes := Gcm.copy (replicate 32 0) (clientHelloMsg.sessionId m).
(** The ClientHello with its session id zeroed: the additional data. *)
Definition zeroed_hello (m : clientHelloMsg.t) : bytes :=
  default [] (clientHelloMsg.original (write_sessionId (replicate 32 0) m)).

(** What the plaintext says of the client. *)
Definition client_of (m : clientHelloMsg.t) (key plain : bytes) (acc : bool) : client :=
  mkClient m key (take 3 plain) (Uint32 (drop 4 plain)) (slice 8 16 plain) acc.

Lemma length_copy dst src : length (Gcm.copy dst src) = length dst.
Proof. unfold Gcm.copy. rewrite length_app, length_take, length_drop. lia. Qed.

Lemma copy_full dst src : length src = length dst -> Gcm.copy dst src = src.
Proof.
  intros Hl. unfold Gcm.copy. rewrite Hl, Nat.min_id, take_ge, drop_ge, app_nil_r by lia. done.
Qed.

Lemma copy_ok dst src : bytes_ok dst -> bytes_ok src -> bytes_ok (Gcm.copy dst src).
Proof. intros Hd Hs. apply Forall_app. split; [by apply Forall_take|by apply Forall_drop]. Qed.

Lemma zeros_bytes_ok n : bytes_ok (replicate n 0).
Proof. apply Forall_replicate. unfold is_byte. lia. Qed.

Lemma copy_restore sid z : Gcm.copy (Gcm.copy sid z) (Gcm.copy z sid) = sid.
Proof.
  unfold Gcm.copy at 1. rewrite !length_copy. unfold Gcm.copy. rewrite (Nat.min_comm (length sid) (length z)).
  set (n := Nat.min (length z) (length sid)).
  rewrite take_app_length', drop_app_length' by (rewrite length_take; lia). apply take_drop.
Qed.

(** Zeroing the session id and writing it back restores the message. *)
Lemma write_back m pre post : clientHelloMsg.original m = Some (pre ++ clientHelloMsg.sessionId m ++ post) ->
  length pre = sessionId_offset -> write_sessionId (sealed_session m) (write_sessionId (replicate 32 0) m) = m.
Proof.
  intros Ho Hp. unfold write_sessionId, sealed_session.
  cbn [clientHelloMsg.original clientHelloMsg.sessionId clientHelloMsg.set_original clientHelloMsg.set_sessionId].
  rewrite copy_restore, Ho. cbn [fmap option_fmap option_map]. rewrite length_copy.
  assert (Hz : forall z, length z = length (clientHelloMsg.sessionId m) ->
    take sessionId_offset (pre ++ z ++ post) = pre /\
    drop (sessionId_offset + length (clientHelloMsg.sessionId m)) (pre ++ z ++ post) = post).
  { intros z Hz. split; [by apply take_app_length'|]. rewrite app_assoc.
    apply drop_app_length'. rewrite length_app. lia. }
  destruct (Hz (clientHelloMsg.sessionId m)) as [-> ->]; [done|].
  destruct (Hz (Gcm.copy (clientHelloMsg.sessionId m) (replicate 32 0))) as [-> ->]; [apply length_copy|].
  rewrite <- Ho. by destruct m.
Qed.

Lemma session_open key g nonce ct aad : std_gcm key g -> bytes_ok nonce -> bytes_ok ct -> bytes_ok aad ->
  length nonce = 12%nat -> length ct = 32%nat ->
  fst (Gcm.Open 0 g session_dst nonce (session_ct ct) (session_aad aad)) =
  (if decide (take 16 (spec_tag (fips_encrypt key) nonce aad (take 16 ct)) = drop 16 ct)
   then Ret (spec_ct (fips_encrypt key) nonce (take 16 ct)) else Err errOpen).
Proof.
  intros (Hw & Ht & Hns) Hn Hc Ha Hnl Hcl.
  assert (Ho : open_args 0 g session_dst nonce (session_ct ct) (session_aad aad)).
  { unfold open_args, open_out. rewrite Ht, Hns. cbn [data session_ct session_aad]. rewrite Hcl, Hnl.
    assert (Hout : snd (sliceForAppend 0 session_dst (Z.to_nat (Z.of_nat 32 - 16))) =
      mkSlice plainText_base (replicate 16 0) (replicate 16 0)) by reflexivity.
    rewrite Hout. unfold InexactOverlap, AnyOverlap. cbn [ptr data session_ct session_aad]. rewrite Hcl.
    unfold plainText_base, ciphertext_base, original_base.
    split_and!; try done. apply not_true_is_false. rewrite !andb_true_iff, !Z.leb_le, length_replicate. lia. }
  rewrite (Open_spec key g Hw 0 session_dst nonce (session_ct ct) (session_aad aad) Ho).
  cbn [data session_ct session_aad session_dst]. rewrite Ht, Hcl. change (Z.to_nat 16) with 16%nat.
  change (32 - 16)%nat with 16%nat. by case_decide.
Qed.

Lemma copy_plain plain : length plain = 16%nat ->
  Gcm.copy (replicate 32 0) plain = plain ++ replicate 16 0.
Proof. intros Hl. unfold Gcm.copy. by rewrite length_replicate, Hl, (take_ge plain) by lia. Qed.

Lemma client_of_copy m key plain acc : length plain = 16%nat ->
  mkClient m key (take 3 (Gcm.copy (replicate 32 0) plain)) (Uint32 (drop 4 (Gcm.copy (replicate 32 0) plain)))
    (slice 8 16 (Gcm.copy (replicate 32 0) plain)) acc = client_of m key plain acc.
Proof.
  intros Hl. rewrite copy_plain by done. unfold client_of, Uint32, slice. f_equal.
  - by rewrite take_app_le by lia.
  - by rewrite drop_app_le, take_app_le by (rewrite ?length_drop; lia).
  - by rewrite drop_app_le, take_app_le by (rewrite ?length_drop; lia).
Qed.

Section auth.
Context `{CryptoStringLaws}.
Context (x25519 : bytes -> bytes -> outcome conn_error bytes).
Context (hkdf_read : bytes -> bytes -> bytes -> nat -> outcome conn_error bytes).
(** Both return bytes of the documented lengths, or an error. *)
Context (Hx : forall scalar point, (exists s, x25519 scalar point = Ret s /\ length s = 32%nat /\ bytes_ok s) \/
  exists e, x25519 scalar point = Err e).
Context (Hk : forall secret salt info n, (exists k, hkdf_read secret salt info n = Ret k /\ length k = n /\ bytes_ok k) \/
  exists e, hkdf_read secret salt info n = Err e).

(** The client knows the key agreed with the server's private key over the
    share [ks]: its session id is [plain] sealed for this ClientHello. *)
Definition sealed_with (config : Config) (m : clientHelloMsg.t) (ks : keyShare) (key plain : bytes) : Prop :=
  exists shared, x25519 (PrivateKey config) (ks_data ks) = Ret shared /\
    hkdf_read shared (take 20 (clientHelloMsg.random m)) REALITY 32 = Ret key /\
    length plain = 16%nat /\
    spec_seal (fips_encrypt key) 16 (drop 20 (clientHelloMsg.random m)) plain (zeroed_hello m) = sealed_session m.

Definition knows_key (config : Config) (m : clientHelloMsg.t) (key plain : bytes) : Prop :=
  exists ks, find usable_share (clientHelloMsg.keyShares m) = Some ks /\ sealed_with config m ks key plain.

Lemma slice_ok i j (l : bytes) : bytes_ok l -> bytes_ok (slice i j l).
Proof. intros Hl. by apply Forall_take, Forall_drop. Qed.

Lemma zeroed_hello_ok m data : clientHelloMsg.original m = Some data -> bytes_ok data ->
  bytes_ok (clientHelloMsg.sessionId m) -> bytes_ok (zeroed_hello m).
Proof.
  intros Ho Hd Hs. unfold zeroed_hello, write_sessionId.
  cbn [clientHelloMsg.original clientHelloMsg.set_original]. rewrite Ho. cbn [fmap option_fmap option_map default from_option].
  apply Forall_app. split; [by apply Forall_take|]. apply Forall_app. split; [|by apply Forall_drop].
  apply copy_ok; [done|apply zeros_bytes_ok].
Qed.

(** The outcome for a usable key share. *)
Lemma try_share_spec config now m data ks : clientHelloMsg.unmarshal data = Some m -> bytes_ok data ->
  exists c, try_share x25519 hkdf_read config now ks (new_client m) = Ret c /\
    (accepted c = true -> exists key plain, sealed_with config m ks key plain /\
       policy config now (client_of m key plain true) = true) /\
    (forall key plain, sealed_with config m ks key plain -> policy config now (client_of m key plain true) = true ->
       c = client_of m key plain true).
Proof.
  intros Hm Hd. destruct (unmarshal_layout data m Hm) as (Ho & Hrl & pre & post & Hdata & Hpre & Hrand).
  assert (Hsid : bytes_ok (clientHelloMsg.sessionId m)).
  { rewrite Hdata in Hd. by apply Forall_app in Hd as [_ [? _]%Forall_app]. }
  assert (Hrok : bytes_ok (clientHelloMsg.random m)) by (rewrite Hrand; by apply slice_ok).
  unfold try_share. cbn [hello new_client accepted ClientVer ClientTime ClientShortId].
  destruct (Hx (PrivateKey config) (ks_data ks)) as [(shared & Es & Ls & Os)|[e Es]]; rewrite Es.
  2:{ eexists. split; [done|]. split; [done|]. intros ? ? (? & Q & _). congruence. }
  rewrite (proj2 (Nat.ltb_ge _ _)), Ls by lia.
  destruct (Hk shared (take 20 (clientHelloMsg.random m)) REALITY 32%nat) as [(key & Ek & Lk & Ok)|[e Ek]]; rewrite Ek.
  2:{ eexists. split; [done|]. split; [done|]. intros ? ? (? & Q1 & Q2 & _). congruence. }
  assert (Hv : valid_key key) by (split; [done|right; by right]).
  destruct (aes_New_wf key Hv) as (block & Eb & _). rewrite Eb.
  destruct (newGCM_std block) as [g| |] eqn:Eg; [|by vm_compute in Eg..].
  assert (Ef : ForTLS13.New block = Ret (ForTLS13.mk g false 0 0)) by (unfold ForTLS13.New; by rewrite Eg).
  rewrite Ef. pose proof (newGCM_std_ret key block g Ok Eb Eg) as Hg.
  fold (sealed_session m) (zeroed_hello m). unfold ForTLS13.Open. cbn [ForTLS13.g].
  assert (Hct : bytes_ok (sealed_session m)) by (apply copy_ok; [apply zeros_bytes_ok|done]).
  assert (Lct : length (sealed_session m) = 32%nat) by (unfold sealed_session; by rewrite length_copy).
  change (clientHelloMsg.random (write_sessionId (replicate 32 0) m)) with (clientHelloMsg.random m).
  rewrite (session_open key g); try done;
    [|by apply Forall_drop|by apply (zeroed_hello_ok m data)|by rewrite length_drop, Hrl].
  pose proof (spec_seal_split key 16) as Hsplit.
  case_decide as Htag.
  - set (plain := spec_ct _ _ _). assert (Lp : length plain = 16%nat).
    { unfold plain. rewrite length_spec_ct, length_take, Lct. lia. }
    rewrite client_of_copy by done. cbn [hello accepted client_of ClientVer ClientTime ClientShortId].
    rewrite (write_back m pre post) by (done || by rewrite <- Hdata).
    change (mkClient m key (take 3 plain) (Uint32 (drop 4 plain)) (slice 8 16 plain)) with (client_of m key plain).
    change (policy config now (client_of m key plain false)) with (policy config now (client_of m key plain true)).
    eexists. split; [done|]. split.
    + destruct (policy _ _ _) eqn:Epol; [|done]. intros _. exists key, plain. split; [|done].
      exists shared. split_and!; try done.
      apply Hsplit; [lia|]. rewrite Lct, Lp. split; [done|]. change (32 - 16)%nat with 16%nat.
      unfold plain. by rewrite spec_ct_involutive.
    + intros key' plain' (shared' & Q0 & Q & Lp' & Hseal) Hpol.
      assert (shared' = shared) as -> by congruence. assert (key' = key) as -> by congruence.
      apply Hsplit in Hseal as (_ & H1 & _); [|lia]. rewrite Lct in H1. change (32 - 16)%nat with 16%nat in H1.
      assert (plain' = plain) as ->. { unfold plain. by rewrite H1, spec_ct_involutive. }
      rewrite Hpol. by apply client_of_copy.
  - eexists. split; [done|]. split; [done|].
    intros key' plain' (shared' & Q0 & Q & Lp' & Hseal) _. exfalso. apply Htag.
    assert (shared' = shared) as -> by congruence. assert (key' = key) as -> by congruence.
    apply Hsplit in Hseal as (_ & H1 & H2); [|lia]. rewrite Lct in H1, H2. change (32 - 16)%nat with 16%nat in H1, H2.
    by rewrite H2, H1.
Qed.

(** The conditions that come before the key. *)
Definition gates (config : Config) (copying : bool) (m : clientHelloMsg.t) (err : option conn_error) (vers : Z) : Prop :=
  has (ServerNames config) (clientHelloMsg.serverName m) = true /\ copying = false /\ err = None /\ vers = VersionTLS13.

Lemma authenticate_spec config now copying m data err vers :
  clientHelloMsg.unmarshal data = Some m -> bytes_ok data ->
  exists stole c, authenticate x25519 hkdf_read config now copying (Some m) err vers = Ret (stole, c) /\
    (stole = true <-> has (ServerNames config) (clientHelloMsg.serverName m) = false) /\
    (accepted c = true -> gates config copying m err vers /\ exists key plain, knows_key config m key plain /\
       policy config now (client_of m key plain true) = true /\ c = client_of m key plain true) /\
    (gates config copying m err vers -> forall key plain, knows_key config m key plain ->
       policy config now (client_of m key plain true) = true -> c = client_of m key plain true).
Proof.
  intros Hm Hd. unfold authenticate, gates. destruct (has (ServerNames config) _) eqn:Hn; cbn [negb].
  2:{ eexists _, _. split; [done|]. split; [done|]. split; [done|by intros (Q & _)]. }
  destruct (copying || _ || _) eqn:Hc.
  { eexists _, _. split; [done|]. split; [done|]. split; [done|].
    intros (_ & -> & -> & ->). by vm_compute in Hc. }
  apply orb_false_iff in Hc as [[-> He]%orb_false_iff Hv]. destruct err; [done|].
  apply negb_false_iff, Z.eqb_eq in Hv. unfold knows_key. destruct (find usable_share _) as [ks|] eqn:Hf.
  2:{ eexists _, _. split; [done|]. split; [done|]. split; [done|]. by intros _ ? ? (? & Q & _). }
  destruct (try_share_spec config now m data ks Hm Hd) as (c & -> & H1 & H2).
  cbn [obind]. exists false, c. split; [done|]. split; [done|]. split.
  - intros (key & plain & Hs & Hp)%H1. split; [done|]. exists key, plain.
    split; [by exists ks|]. by split; [|apply H2].
  - intros _ key plain (ks' & [= <-] & Hs) Hp. by apply H2.
Qed.

(** C1: the client is accepted exactly when the configuration lists its
    server name, nothing has been forwarded yet, the ClientHello negotiates
    TLS 1.3, and its session id is 16 bytes sealed, for the rest of this
    ClientHello, with the key derived from its first X25519 share and the
    server's private key, in which the version, the clock and the short id
    satisfy the configuration; and then the handshake goes on with the
    ClientHello as the client sent it, session id included. *)
Theorem authenticate_correct config now copying m data err vers :
  clientHelloMsg.unmarshal data = Some m -> bytes_ok data ->
  exists stole c, authenticate x25519 hkdf_read config now copying (Some m) err vers = Ret (stole, c) /\
    (stole = true <-> has (ServerNames config) (clientHelloMsg.serverName m) = false) /\
    (accepted c = true <->
       has (ServerNames config) (clientHelloMsg.serverName m) = true /\ copying = false /\ err = None /\
       vers = VersionTLS13 /\
       exists key plain, knows_key config m key plain /\ policy config now (client_of m key plain true) = true) /\
    (accepted c = true -> clientHelloMsg.original (hello c) = Some data /\
       exists key plain, knows_key config m key plain /\ c = client_of m key plain true).
Proof.
  intros Hm Hd. destruct (authenticate_spec config now copying m data err vers Hm Hd) as (s & c & E & Hs & H1 & H2).
  exists s, c. split; [done|]. split; [done|]. split; [split|].
  - intros ((? & ? & ? & ?) & key & plain & ? & ? & _)%H1. split_and!; try done. by exists key, plain.
  - intros (Hg1 & Hg2 & Hg3 & Hg4 & key & plain & Hs' & Hp). by rewrite (H2 ltac:(done) key plain Hs' Hp).
  - intros (_ & key & plain & ? & _ & ->)%H1. split; [by destruct (unmarshal_layout data m Hm)|]. by exists key, plain.
Qed.
End auth.

(** The name is looked up before the error is checked, so an error of
    [readClientHello], whose message is [nil], panics. *)
Lemma authenticate_nil_panics x25519 hkdf_read config now copying err vers :
  authenticate x25519 hkdf_read config now copying None err vers = Panic "nil pointer dereference".
Proof. done. Qed.

(** ** Witness: a client that knows the key *)

Definition knock_x25519 (scalar point : bytes) : outcome conn_error bytes := Ret (replicate 32 7).
Definition knock_hkdf (secret salt info : bytes) (n : nat) : outcome conn_error bytes := Ret (replicate n 9).
Definition knock_plain : bytes := [26; 1; 1; 0; 0x65; 0; 0; 0] ++ replicate 8 3.
Definition knock_zeroed : bytes :=
  match clientHelloMsg.marshal plain_builder (clientHelloMsg.set_sessionId (replicate 32 0) resuming_hello) with
  | Ret data => data
  | _ => []
  end.
(** [knock_plain] sealed for [knock_zeroed]. *)
Definition knock_sealed : bytes := [
  213; 118; 183; 86; 110; 216; 28; 77; 65; 39; 86; 253; 222; 108; 106; 118; 243; 23; 48; 172; 166; 160; 65; 30; 24; 240; 213; 209; 112; 248; 63; 242].
Definition knock_hello : bytes := take 39 knock_zeroed ++ knock_sealed ++ drop 71 knock_zeroed.
Definition knock_config : Config :=
  mkConfig {[ [97; 46; 98] := true ]} (replicate 32 1) (Some [26; 0; 0]) None 0 {[ replicate 8 3 := true ]}.

Definition knock_message : clientHelloMsg.t := default clientHelloMsg.zero (clientHelloMsg.unmarshal knock_hello).

Lemma knock_message_ok : clientHelloMsg.unmarshal knock_hello = Some knock_message /\
  forallb (fun b => (0 <=? b) && (b <? 256)) knock_hello = true /\
  match authenticate knock_x25519 knock_hkdf knock_config 0 false (Some knock_message) None VersionTLS13 with
  | Ret (stole, c) => accepted c
  | _ => false
  end = true.
Proof. vm_compute. split_and!; reflexivity. Qed.

Lemma authenticate_correct_witness : exists stole c,
  authenticate knock_x25519 knock_hkdf knock_config 0 false (Some knock_message) None VersionTLS13 = Ret (stole, c) /\
  accepted c = true /\ clientHelloMsg.original (hello c) = Some knock_hello.
Proof.
  destruct knock_message_ok as (Hm & Hb & Hacc).
  destruct (authenticate_correct knock_x25519 knock_hkdf) with (config := knock_config) (now := 0) (copying := false)
    (err := @None conn_error) (vers := VersionTLS13) (m := knock_message) (data := knock_hello)
    as (stole & c & E & _ & Ha & Hc).
  - intros scalar point. left. exists (replicate 32 7). split; [reflexivity|]. split; [reflexivity|].
    apply Forall_replicate. unfold is_byte. lia.
  - intros secret salt info n. left. exists (replicate n 9). split; [reflexivity|].
    split; [apply length_replicate|]. apply Forall_replicate. unfold is_byte. lia.
  - exact Hm.
  - apply List.Forall_forall. intros b Hin. rewrite forallb_forall in Hb. apply Hb in Hin. unfold is_byte. lia.
  - rewrite E in Hacc. exists stole, c. split; [exact E|]. split; [exact Hacc|exact (proj1 (Hc Hacc))].
Defined.
