(* ===== verification/RealityScan.v ===== *)
(** * REALITY: the target's flight

    What the loop over the seven records has recorded when it ends: the
    records it has taken, one after the other, are what the target has sent,
    with nothing lost, and their lengths are those the handshake will
    imitate. *)

From S2P Require Import Prelude Common HalfConn Alias Aes Gcm GcmNonces CipherSuites Cryptobyte Hello WireProofs WireTheorems Reality.

Open Scope go_scope.

(** ** Numbers *)

Lemma int64_small x k : is_byte x -> 0 <= k <= 48 -> 0 <= int64 (x ≪ k).
Proof.
  intros Hx Hk. unfold is_byte in Hx. rewrite Z.shiftl_mul_pow2 by lia. unfold int64.
  assert (2 ^ k <= 2 ^ 48) by (apply Z.pow_le_mono_r; lia). assert (0 < 2 ^ k) by (apply Z.pow_pos_nonneg; lia).
  rewrite Z.mod_small; nia.
Qed.

Lemma Value_nonneg l : bytes_ok l -> (length l <= 7)%nat -> 0 <= Value l.
Proof.
  intros Hl Hle. unfold Value.
  assert (Hg : forall l' v i, bytes_ok l' -> 0 <= v -> 0 <= i -> i + Z.of_nat (length l') = Z.of_nat (length l) ->
    0 <= fst (fold_left (fun '(value, i) val => (value ||| int64 (val ≪ ((Z.of_nat (length l) - i - 1) * 8)), i + 1)) l' (v, i))).
  { intros l'. induction l' as [|x l' IH]; intros v i Hok Hv Hi Hn; [done|]. inversion Hok as [|? ? Hx Hok']; subst.
    cbn [fold_left length] in *. apply IH; [done| |lia..]. apply Z.lor_nonneg. split; [done|]. apply int64_small; [done|lia]. }
  by apply Hg.
Qed.

(** ** Records *)

Section records.
Context `{CryptoString}.

(** The header of the [i]-th record and its first byte are as expected. *)
Definition header_ok (i : nat) (s : bytes) : Prop := recordHeaderLen < Z.of_nat (length s) /\ wrong_header i s = false.
(** The length that the header announces. *)
Definition announced (s : bytes) : Z := recordHeaderLen + Value (slice 3 5 s).

(** A whole record of the flight, in place [i]. *)
Definition record_ok (i : nat) (r : bytes) : Prop :=
  Value (slice 1 3 r) = VersionTLS12 /\ Z.of_nat (length r) = announced r /\ announced r <= size /\
  match i with
  | 0%nat => nth_byte r 0 = recordTypeHandshake /\
      exists m, serverHelloMsg.unmarshal (drop 5 r) = Some m /\ usable_ServerHello m = true
  | 1%nat => nth_byte r 0 = recordTypeChangeCipherSpec /\ length r = 6%nat /\ nth_byte r 5 = 1
  | 2%nat => nth_byte r 0 = recordTypeApplicationData /\ announced r <= 512
  | _ => nth_byte r 0 = recordTypeApplicationData
  end.

Definition lens_of (recs : list bytes) : list Z := (fun r => Z.of_nat (length r)) <$> recs.

(** What the loop knows between two reads: the records it has taken, and the
    length of the next one when its header is there. *)
Record scanned (read : bytes) (recs : list bytes) (s : scan) : Prop := {
  scanned_read : read = concat recs ++ s2cSaved s;
  scanned_few : (length recs <= 6)%nat;
  scanned_recs : forall i r, recs !! i = Some r -> record_ok i r;
  scanned_lens : lens s = lens_of recs ++ replicate (7 - length recs) 0;
  scanned_len : recLen s = 0 \/ header_ok (length recs) (s2cSaved s) /\ recLen s = announced (s2cSaved s);
  scanned_hello : recs <> [] -> exists m, serverHello s = Some m /\ usable_ServerHello m = true;
  scanned_buf : scan_buf s = None
}.

(** A flight that can be imitated: the ServerHello, the ChangeCipherSpec and
    one long record with the rest, whose header is there; or the six records
    of a flight, and the header of a seventh if something follows. *)
Inductive flight (read : bytes) (recs : list bytes) (s : scan) : Prop :=
| flight_one (Hread : read = concat recs ++ s2cSaved s) (Hrecs : forall i r, recs !! i = Some r -> record_ok i r)
    (Hlen : length recs = 2%nat) (Hhdr : header_ok 2 (s2cSaved s))
    (Hlong : 512 < announced (s2cSaved s) <= size)
    (Hlens : lens s = lens_of recs ++ [announced (s2cSaved s); 0; 0; 0; 0]) (Hbuf : scan_buf s = Some [])
| flight_six (Hread : read = concat recs ++ s2cSaved s) (Hrecs : forall i r, recs !! i = Some r -> record_ok i r)
    (Hlen : length recs = 6%nat) (last : Z) (Hlens : lens s = lens_of recs ++ [last])
    (Hlast : (last = 0 /\ s2cSaved s = []) \/
             (header_ok 6 (s2cSaved s) /\ last = announced (s2cSaved s) /\ last <= size))
    (Hbuf : scan_buf s = None).

(** The bytes of a record are those of the stream it is cut from. *)
Lemma nth_byte_take n s j : (j < n)%nat -> nth_byte (take n s) j = nth_byte s j.
Proof. intros Hj. unfold nth_byte. by rewrite !nth_lookup, lookup_take_lt. Qed.

Lemma slice_take i j n (s : bytes) : (j <= n)%nat -> slice i j (take n s) = slice i j s.
Proof. intros Hj. unfold slice. rewrite skipn_firstn_comm, firstn_firstn. f_equal. lia. Qed.

Lemma slice_app i j (s t : bytes) : (j <= length s)%nat -> slice i j (s ++ t) = slice i j s.
Proof.
  intros Hj. unfold slice. destruct (le_lt_dec i (length s)) as [Hi|Hi].
  - rewrite drop_app_le, take_app_le by (rewrite ?length_drop; lia). done.
  - by replace (j - i)%nat with 0%nat by lia.
Qed.

Lemma slice_bytes_ok i j (s : bytes) : bytes_ok s -> bytes_ok (slice i j s).
Proof. intros Hs. by apply Forall_take, Forall_drop. Qed.

Lemma header_ok_app i s chunk : header_ok i s -> header_ok i (s ++ chunk) /\ announced (s ++ chunk) = announced s.
Proof.
  unfold header_ok, recordHeaderLen. intros [Hl Hw]. split; [split|].
  - rewrite length_app. lia.
  - rewrite <- Hw. unfold wrong_header. rewrite slice_app by lia.
    assert (Hn : forall j, (j < 6)%nat -> nth_byte (s ++ chunk) j = nth_byte s j).
    { intros j Hj. unfold nth_byte. apply app_nth1. lia. }
    by rewrite !Hn by lia.
  - unfold announced. by rewrite slice_app by lia.
Qed.

Lemma announced_pos s : bytes_ok s -> recordHeaderLen <= announced s.
Proof. intros Hs. unfold announced. pose proof (Value_nonneg (slice 3 5 s) (slice_bytes_ok 3 5 s Hs) ltac:(unfold slice; rewrite length_take, length_drop; lia)). lia. Qed.

(** A record cut from the stream. *)
Lemma record_cut i s m : bytes_ok s -> header_ok i s -> announced s <= Z.of_nat (length s) -> announced s <= size ->
  (i = 0%nat -> serverHelloMsg.unmarshal (slice 5 (Z.to_nat (announced s)) s) = Some m /\ usable_ServerHello m = true) ->
  (i = 1%nat -> announced s = 6) -> (i = 2%nat -> announced s <= 512) ->
  record_ok i (take (Z.to_nat (announced s)) s) /\ length (take (Z.to_nat (announced s)) s) = Z.to_nat (announced s).
Proof.
  intros Hs [Hl Hw] Hle Hsz H0 H1 H2. pose proof (announced_pos s Hs) as Hp. unfold recordHeaderLen in *.
  set (n := Z.to_nat (announced s)) in *.
  assert (Hlt : length (take n s) = n) by (rewrite length_take; unfold n; lia).
  assert (Ha : announced (take n s) = announced s) by (unfold announced; rewrite slice_take by (unfold n; lia); done).
  split; [|done]. unfold wrong_header in Hw. rewrite !orb_false_iff, !andb_false_iff, !orb_false_iff in Hw.
  destruct Hw as (((Hv & Hw0) & Hw1) & Hw2). apply negb_false_iff, Z.eqb_eq in Hv.
  unfold record_ok. rewrite Ha, slice_take, Hlt, nth_byte_take by (unfold n; lia).
  split_and!; [done|unfold n; lia|done|].
  rewrite !negb_false_iff, !Z.eqb_eq, ?Nat.eqb_neq in *.
  destruct i as [|[|[|i]]].
  - destruct Hw0 as [Q|[Hw0 _]]; [done|]. split; [done|]. exists m.
    rewrite skipn_firstn_comm. apply H0. done.
  - destruct Hw1 as [Q|[Hw1 Hw5]]; [done|]. specialize (H1 eq_refl).
    rewrite nth_byte_take by (unfold n; lia). split_and!; [done|unfold n; lia|done].
  - destruct Hw2 as [Q|Hw2]; [done|]. split; [done|auto].
  - destruct Hw2 as [Q|Hw2]; [done|]. done.
Qed.

(** ** The loop over the types *)

Lemma lens_of_pos recs s i : bytes_ok s -> s = concat recs -> (forall i r, recs !! i = Some r -> record_ok i r) ->
  (i < length recs)%nat -> 0 < nth i (lens_of recs) 0.
Proof.
  intros Hs -> Hr Hi. destruct (lookup_lt_is_Some_2 recs i Hi) as [r Er].
  assert (Hok : bytes_ok r).
  { apply Forall_forall. intros b Hb. rewrite Forall_forall in Hs. apply Hs, list_elem_of_In, in_concat.
    exists r. split; [|by apply list_elem_of_In]. by apply list_elem_of_In, list_elem_of_lookup; exists i. }
  unfold lens_of. rewrite nth_lookup, list_lookup_fmap, Er. change (0 < Z.of_nat (length r)).
  destruct (Hr i r Er) as (_ & Q & _). pose proof (announced_pos r Hok) as Hp. rewrite Q.
  unfold recordHeaderLen in Hp. lia.
Qed.

(** The records already taken are skipped. *)
Lemma scan_types_skip recs s n i : bytes_ok (concat recs) -> (forall i r, recs !! i = Some r -> record_ok i r) ->
  lens s = lens_of recs ++ replicate (7 - length recs) 0 -> (i + n = 7)%nat -> (i <= length recs)%nat ->
  (length recs <= 7)%nat -> scan_types n i s = scan_types (7 - length recs) (length recs) s.
Proof.
  intros Hb Hr Hl. revert i. induction n as [|n IH]; intros i Hn Hi H7.
  - replace i with (length recs) by lia. by replace (7 - length recs)%nat with 0%nat by lia.
  - destruct (Nat.eq_dec i (length recs)) as [->|Hne]; [by replace (7 - length recs)%nat with (Datatypes.S n) by lia|].
    cbn [scan_types]. assert (Hp : 0 < handshakeLen_at s i).
    { unfold handshakeLen_at. rewrite Hl, app_nth1 by (unfold lens_of; rewrite length_fmap; lia).
      apply (lens_of_pos recs (concat recs)); auto. lia. }
    rewrite (proj2 (Z.eqb_neq _ _)) by lia. cbn [negb]. apply IH; lia.
Qed.

(** What the loop ends with. *)
Definition scan_post (read : bytes) (r : scan_result) : Prop :=
  match r with
  | MoreData s | Mismatch s => exists recs, scanned read recs s
  | Complete s => exists recs, flight read recs s /\
      exists m, serverHello s = Some m /\ usable_ServerHello m = true
  end.

(** The record after those already taken is not recorded yet. *)
Lemma handshakeLen_next recs s : lens s = lens_of recs ++ replicate (7 - length recs) 0 -> (length recs <= 6)%nat ->
  handshakeLen_at s (length recs) = 0.
Proof.
  intros Hl H6. unfold handshakeLen_at, lens_of in *. rewrite Hl.
  rewrite app_nth2 by (rewrite length_fmap; lia). rewrite length_fmap, Nat.sub_diag.
  by replace (7 - length recs)%nat with (Datatypes.S (6 - length recs)) by lia.
Qed.

(** Recording a length at the first free place. *)
Lemma set_next recs n : (length recs <= 6)%nat ->
  <[length recs := n]> (lens_of recs ++ replicate (7 - length recs) 0) =
  lens_of recs ++ n :: replicate (6 - length recs) 0.
Proof.
  intros H6. replace (7 - length recs)%nat with (Datatypes.S (6 - length recs)) by lia. cbn [replicate].
  rewrite <- (Nat.add_0_r (length recs)) at 1. unfold lens_of.
  by rewrite <- (length_fmap (fun r => Z.of_nat (length r)) recs) at 1; rewrite insert_app_r.
Qed.

(** The header, when it is there. *)
Lemma read_header_spec read recs s : scanned read recs s ->
  match read_header (length recs) s with
  | inl r => scan_post read r
  | inr s' => scanned read recs s' /\ s2cSaved s' = s2cSaved s
  end.
Proof.
  intros Hs. unfold read_header. destruct (_ && _) eqn:E; [|done].
  apply andb_true_iff in E as [E1%Z.eqb_eq E2%Z.ltb_lt].
  destruct (wrong_header _ _) eqn:Ew; [by exists recs|]. split; [|done]. destruct Hs.
  constructor; cbn [s2cSaved recLen lens serverHello scan_buf]; try done. right. split; [by split|]. reflexivity.
Qed.

(** A whole record is taken. *)
Lemma take_record_spec read recs s : scanned read recs s -> bytes_ok read -> (length recs <= 5)%nat ->
  header_ok (length recs) (s2cSaved s) -> recLen s = announced (s2cSaved s) ->
  recLen s <= Z.of_nat (length (s2cSaved s)) -> recLen s <= size ->
  (length recs = 1%nat -> recLen s = 6) -> (length recs = 2%nat -> recLen s <= 512) ->
  match take_record (length recs) s with
  | inl r => scan_post read r
  | inr s' => exists r, scanned read (recs ++ [r]) s'
  end.
Proof.
  intros Hs Hb H5 Hh Ha Hle Hsz H1 H2. pose proof Hs as [Hrd _ Hr Hl _ Hhel Hbuf].
  assert (Hbs : bytes_ok (s2cSaved s)) by (rewrite Hrd in Hb; by apply Forall_app in Hb as [_ ?]).
  rewrite Ha in Hle, Hsz, H1, H2.
  assert (Hnext : forall h m, (length recs = 0%nat -> serverHelloMsg.unmarshal
        (slice 5 (Z.to_nat (announced (s2cSaved s))) (s2cSaved s)) = Some m /\ usable_ServerHello m = true) ->
      (exists m, h = Some m /\ usable_ServerHello m = true) ->
      exists r, scanned read (recs ++ [r]) (mkScan (drop (Z.to_nat (recLen s)) (s2cSaved s)) 0
        (<[length recs := recLen s]> (lens s)) (scan_buf s) h)).
  { intros h m H0 Hhm. destruct (record_cut (length recs) (s2cSaved s) m Hbs Hh Hle Hsz H0 H1 H2) as [Hrec Hlt].
    pose proof (announced_pos _ Hbs) as Hp. unfold recordHeaderLen in Hp.
    exists (take (Z.to_nat (announced (s2cSaved s))) (s2cSaved s)). rewrite Ha.
    constructor; cbn [s2cSaved recLen lens serverHello scan_buf]; try done.
    - rewrite concat_app. cbn [concat]. by rewrite app_nil_r, <- app_assoc, take_drop.
    - rewrite length_app. cbn [length]. lia.
    - intros i r [Hi|[Hi Hir]]%lookup_app_Some; [by apply Hr|].
      apply list_lookup_singleton_Some in Hir as [Hi0 <-]. by replace i with (length recs) by lia.
    - rewrite Hl, set_next by lia. unfold lens_of. rewrite fmap_app, length_app. cbn [fmap list_fmap length].
      rewrite <- app_assoc, Hlt, Z2Nat.id by lia. replace (7 - (length recs + 1))%nat with (6 - length recs)%nat by lia.
      done.
    - by left. }
  unfold take_record. destruct (Nat.eqb_spec (length recs) 0) as [Ez|Ez].
  - change (Z.to_nat recordHeaderLen) with 5%nat. rewrite Ha in *.
    destruct (serverHelloMsg.unmarshal _) as [m|] eqn:Em; [|by exists recs].
    destruct (usable_ServerHello m) eqn:Eu; [|by exists recs].
    apply (Hnext (Some m) m); [done|by exists m].
  - destruct Hhel as (m & Em & Eu); [by intros ->|]. apply (Hnext _ m); [done|]. by exists m.
Qed.

(** The loop from the first record that has not been taken. *)
Lemma scan_types_spec read n recs s : scanned read recs s -> bytes_ok read -> (length recs + n = 7)%nat ->
  scan_post read (scan_types n (length recs) s).
Proof.
  revert recs s. induction n as [|n IH]; intros recs s Hs Hb Hn.
  { pose proof (scanned_few _ _ _ Hs). lia. }
  pose proof Hs as [Hrd H6 Hr Hl _ Hhel Hbuf]. cbn [scan_types].
  rewrite (handshakeLen_next recs s Hl H6). cbn [negb Z.eqb].
  destruct ((length recs =? 6)%nat && _) eqn:Eend.
  { apply andb_true_iff in Eend as [E6%Nat.eqb_eq E0%Nat.eqb_eq]. apply nil_length_inv in E0.
    exists recs. split; [|by apply Hhel; intros ->].
    apply flight_six with (last := 0); try done; [|by left]. by rewrite Hl, E6. }
  pose proof (read_header_spec read recs s Hs) as Hh. destruct (read_header (length recs) s) as [r|s'] eqn:Eh; [done|].
  destruct Hh as [Hs' Hsv]. clear Eh Eend Hs Hrd H6 Hl Hhel Hbuf. pose proof Hs' as [Hrd H6 _ Hl Hlen Hhel Hbuf].
  destruct (Z.ltb_spec size (recLen s')) as [Hbig|Hbig]; [by exists recs|].
  destruct (_ && _ && _) eqn:E1; [by exists recs|].
  assert (Hpos : 0 < recLen s' -> header_ok (length recs) (s2cSaved s') /\ recLen s' = announced (s2cSaved s')).
  { intros Hp. destruct Hlen as [Q|?]; [lia|done]. }
  destruct (_ && _) eqn:E2 in |- *.
  { apply andb_true_iff in E2 as [E2%Nat.eqb_eq E3%Z.ltb_lt]. destruct Hpos as [Hok Ha]; [lia|].
    exists recs. split; [|by apply Hhel; intros ->].
    apply flight_one; cbn [s2cSaved recLen lens serverHello scan_buf]; try done; [by rewrite E2 in Hok|lia|].
    rewrite Hl, set_next by lia. by rewrite Ha, E2. }
  destruct (_ && _) eqn:E3 in |- *.
  { apply andb_true_iff in E3 as [E3%Nat.eqb_eq E4%Z.ltb_lt]. destruct (Hpos E4) as [Hok Ha].
    exists recs. split; [|by apply Hhel; intros ->].
    apply flight_six with (last := recLen s'); unfold set_len; cbn [s2cSaved recLen lens serverHello scan_buf]; try done.
    - rewrite Hl, set_next by lia. by rewrite E3.
    - right. by rewrite E3 in Hok. }
  destruct (_ || _) eqn:E4; [by exists recs|]. apply orb_false_iff in E4 as [E4%Z.eqb_neq E5%Z.ltb_ge].
  assert (Hp : 0 < recLen s').
  { destruct Hlen as [Q|[_ Q]]; [done|]. rewrite Q. rewrite Hrd in Hb. apply Forall_app in Hb as [_ Hb].
    pose proof (announced_pos _ Hb) as Hp. unfold recordHeaderLen in Hp. lia. }
  destruct (Hpos Hp) as [Hok Ha].
  assert (H5 : (length recs <= 5)%nat).
  { destruct (Nat.eqb_spec (length recs) 6); [|lia]. rewrite (proj2 (Z.ltb_lt _ _) Hp) in E3. done. }
  pose proof (take_record_spec read recs s' Hs' Hb H5 Hok Ha E5 Hbig) as Ht.
  destruct (take_record _ _) as [r|s'']; [apply Ht|destruct Ht as [r Ht]].
  - intros Q. rewrite Q, (proj2 (Z.ltb_lt _ _) Hp) in E1. cbn in E1. apply negb_false_iff, Z.eqb_eq in E1. done.
  - intros Q. rewrite Q in E2. cbn in E2. apply Z.ltb_ge in E2. done.
  - intros Q. rewrite Q, (proj2 (Z.ltb_lt _ _) Hp) in E1. cbn in E1. apply negb_false_iff, Z.eqb_eq in E1. done.
  - intros Q. rewrite Q in E2. cbn in E2. apply Z.ltb_ge in E2. done.
  - replace (Datatypes.S (length recs)) with (length (recs ++ [r])) by (rewrite length_app; cbn [length]; lia).
    apply IH; [done|done|]. rewrite length_app. cbn [length]. lia.
Qed.

Lemma scanned_more read recs s chunk : scanned read recs s ->
  scanned (read ++ chunk) recs (mkScan (s2cSaved s ++ chunk) (recLen s) (lens s) (scan_buf s) (serverHello s)).
Proof.
  intros [-> ? ? ? Hlen ? ?]. constructor; cbn [s2cSaved recLen lens serverHello scan_buf]; try done.
  - by rewrite app_assoc.
  - destruct Hlen as [?|[Hok Ha]]; [by left|]. right. destruct (header_ok_app (length recs) (s2cSaved s) chunk Hok).
    by split; [|congruence].
Qed.

Lemma on_read_spec read recs s chunk : scanned read recs s -> bytes_ok (read ++ chunk) ->
  scan_post (read ++ chunk) (on_read chunk s).
Proof.
  intros Hs Hb. apply (scanned_more _ _ _ chunk) in Hs. unfold on_read.
  destruct (Z.ltb _ _); [by exists recs|]. pose proof Hs as [Hrd H6 Hr Hl _ _ _].
  rewrite Hrd in Hb. assert (Hb' : bytes_ok (concat recs)) by (by apply Forall_app in Hb as [? _]).
  change (length types) with 7%nat. rewrite (scan_types_skip recs) by (done || lia).
  apply scan_types_spec; [done|by rewrite Hrd|lia].
Qed.

Lemma new_scan_ok : scanned [] [] new_scan.
Proof. constructor; try done; [cbn; lia|by left]. Qed.

Lemma scan_all_spec chunks read recs s : scanned read recs s -> bytes_ok (read ++ concat chunks) ->
  exists read' rest, read ++ concat chunks = read' ++ rest /\ scan_post read' (scan_all chunks s).
Proof.
  revert read recs s. induction chunks as [|chunk chunks IH]; intros read recs s Hs Hb; cbn [scan_all concat] in *.
  - exists read, []. split; [done|]. by exists recs.
  - rewrite app_assoc in *. pose proof Hb as [Hb1 _]%Forall_app.
    pose proof (on_read_spec read recs s chunk Hs Hb1) as Hp. destruct (on_read chunk s) as [s'|s'|s'].
    + destruct Hp as [recs' Hs']. by apply (IH _ recs').
    + by exists (read ++ chunk), (concat chunks).
    + by exists (read ++ chunk), (concat chunks).
Qed.

(** ** The recorded lengths *)

Lemma lens_of_lookup recs i r l : recs !! i = Some r -> nth_len (lens_of recs ++ l) i = Z.of_nat (length r).
Proof.
  intros Hr. pose proof (lookup_lt_Some _ _ _ Hr). unfold nth_len, lens_of.
  rewrite app_nth1 by (rewrite length_fmap; lia). by rewrite nth_lookup, list_lookup_fmap, Hr.
Qed.

Lemma record_length i r : record_ok i r -> Z.of_nat (length r) <= size.
Proof. intros (_ & -> & ? & _). done. Qed.

Lemma flight_lens read recs s : flight read recs s ->
  nth_len (lens s) 1 = 6 /\ (forall i r, recs !! i = Some r -> nth_len (lens s) i = Z.of_nat (length r)) /\
  (forall i, nth_len (lens s) i <= size).
Proof.
  assert (Hb : forall l, (forall i r, recs !! i = Some r -> record_ok i r) -> (2 <= length recs)%nat ->
    (forall i, nth i l 0 <= size) -> lens s = lens_of recs ++ l ->
    nth_len (lens s) 1 = 6 /\ (forall i r, recs !! i = Some r -> nth_len (lens s) i = Z.of_nat (length r)) /\
    (forall i, nth_len (lens s) i <= size)).
  { intros l Hr H2 Hl ->. assert (Hi : forall i r, recs !! i = Some r ->
      nth_len (lens_of recs ++ l) i = Z.of_nat (length r)) by (intros i r; apply lens_of_lookup).
    split; [|split]; [|done|].
    - destruct (lookup_lt_is_Some_2 recs 1 ltac:(lia)) as [r Er]. rewrite (Hi _ _ Er).
      destruct (Hr _ _ Er) as (_ & _ & _ & _ & -> & _). done.
    - intros i. destruct (recs !! i) as [r|] eqn:Er; [rewrite (Hi _ _ Er); by eapply record_length, Hr|].
      apply lookup_ge_None in Er. unfold nth_len, lens_of. rewrite app_nth2 by (rewrite length_fmap; lia). apply Hl. }
  intros [Hrd Hr Hlen Hhdr Hlong Hlens Hbuf|Hrd Hr Hlen last Hlens Hlast Hbuf].
  - apply (Hb [announced (s2cSaved s); 0; 0; 0; 0]); [done|lia| |done].
    intros i. do 6 (destruct i as [|i]; [cbn; unfold size in *; lia|]). cbn. destruct i; unfold size; lia.
  - apply (Hb [last]); [done|lia| |done].
    intros [|[|i]]; cbn; unfold size in *; lia.
Qed.

Lemma concat_lens read recs s l : read = concat recs ++ s2cSaved s -> bytes_ok read ->
  (forall i r, recs !! i = Some r -> record_ok i r) -> lens s = lens_of recs ++ l ->
  recs <> [] -> handshakeLen_at s 0 <> 0.
Proof.
  intros -> [Hb _]%Forall_app Hr Hl Hne. destruct recs as [|r recs]; [done|].
  assert (Hp : 0 < nth 0 (lens_of (r :: recs)) 0)
    by (apply (lens_of_pos (r :: recs) (concat (r :: recs))); [done|done|done|cbn; lia]).
  unfold handshakeLen_at. rewrite Hl. cbn in *. lia.
Qed.

(** Nothing has been taken as long as there is no length of a ServerHello. *)
Lemma scanned_first read recs s : scanned read recs s -> bytes_ok read -> handshakeLen_at s 0 = 0 -> s2cSaved s = read.
Proof.
  intros [Hrd _ Hr Hl _ _ _] Hb H0. destruct recs as [|r recs]; [by rewrite Hrd|].
  exfalso. revert H0. by apply (concat_lens read (r :: recs) s _ Hrd Hb Hr Hl).
Qed.

Lemma flight_first read recs s : flight read recs s -> bytes_ok read -> handshakeLen_at s 0 <> 0.
Proof.
  intros [Hrd Hr Hlen _ _ Hl _|Hrd Hr Hlen last Hl _ _] Hb; eapply (concat_lens read recs s); eauto; by intros ->.
Qed.

Lemma pad_record_length ov lens rec payload r lens' :
  pad_record ov lens rec payload = (Ret r, lens') -> (length rec <= length r)%nat.
Proof.
  unfold pad_record. destruct (_ && _); [|by intros [= <- _]]. destruct payload as [|first payload]; [done|].
  destruct (match padded_index first with Some i => _ | None => _ end) as [padding lens1].
  destruct (_ <? 0); [done|]. destruct (empty_size <? _); [done|]. intros [= <- _].
  rewrite length_app. destruct (first =? _); rewrite ?length_insert; lia.
Qed.

(** Padding to a length of at most 8192: the record has this length, or there
    is no room. *)
Lemma pad_record_exact ov lens record payload first i : nth_byte record 0 = recordTypeHandshake ->
  nth_len lens 1 <> 0 -> head payload = Some first -> padded_index first = Some i -> nth_len lens i <= empty_size ->
  match pad_record ov lens record payload with
  | (Ret out, lens') => Z.of_nat (length out + ov) = nth_len lens i /\ lens' = <[i := 0]> lens
  | (Err e, lens') => nth_len lens i < Z.of_nat (length record + ov) /\ lens' = <[i := 0]> lens /\
      e = EPadding first (nth_len lens i - Z.of_nat (length record + ov))
  | (Panic _, _) => False
  end.
Proof.
  intros Hty H1 Hh Hi Hsz. unfold pad_record. rewrite Hty, (proj2 (Z.eqb_neq _ _) H1). cbn [negb andb Z.eqb].
  rewrite Z.eqb_refl. cbn [andb]. destruct payload as [|f payload]; [done|]. injection Hh as ->. rewrite Hi.
  set (rec := if first =? typeNewSessionTicket then _ else record).
  assert (Hl : length rec = length record) by (unfold rec; destruct (_ =? _); by rewrite ?length_insert).
  rewrite Hl. destruct (Z.ltb_spec (nth_len lens i - Z.of_nat (length record + ov)) 0); [split_and!; [lia|done|done]|].
  destruct (Z.ltb_spec empty_size (nth_len lens i - Z.of_nat (length record + ov))); [lia|].
  split; [|done]. rewrite length_app, length_replicate, Hl. lia.
Qed.

Lemma flight_recorded_lens chunks s : bytes_ok (concat chunks) -> scan_all chunks new_scan = Complete s ->
  exists read rest recs, concat chunks = read ++ rest /\ flight read recs s.
Proof.
  intros Hb Hs. destruct (scan_all_spec chunks [] [] new_scan new_scan_ok Hb) as (read & rest & Hrd & Hp).
  rewrite Hs in Hp. destruct Hp as (recs & Hf & _). by exists read, rest, recs.
Qed.

(** C7: when the loop over the target's records ends with a flight to
    imitate, the bytes read from the target are the records it has taken
    followed by what it has saved; each of these records has the version, the
    type and the length the place asks for; the first is a ServerHello the
    server can imitate; and the recorded lengths are those of the records: two
    records and the header of a long one, or six records, and the header of
    the seventh when something follows. *)
Theorem flight_recorded chunks s : bytes_ok (concat chunks) -> scan_all chunks new_scan = Complete s ->
  exists read rest recs, concat chunks = read ++ rest /\ flight read recs s /\
    exists m, serverHello s = Some m /\ usable_ServerHello m = true.
Proof.
  intros Hb Hs. destruct (scan_all_spec chunks [] [] new_scan new_scan_ok Hb) as (read & rest & Hrd & Hp).
  rewrite Hs in Hp. destruct Hp as (recs & Hf & Hm). by exists read, rest, recs.
Qed.

(** What the target has begun to send when the loop ends: the length in the
    header of that record. *)
Definition in_progress (saved : bytes) : list Z := match saved with [] => [] | _ => [announced saved] end.

Lemma in_progress_header i saved : header_ok i saved -> in_progress saved = [announced saved].
Proof. intros [Hl _]. unfold recordHeaderLen in Hl. destruct saved; cbn in *; [lia|done]. Qed.

(** The recorded lengths are those of the records of the flight, one for each
    place, and zeros where there is none. *)
Lemma flight_places read recs s i : flight read recs s ->
  nth_len (lens s) i = default 0 ((lens_of recs ++ in_progress (s2cSaved s)) !! i).
Proof.
  assert (Hz : forall l zs i, Forall (fun z => z = 0) zs -> nth_len (l ++ zs) i = default 0 (l !! i)).
  { intros l zs j Hzs. unfold nth_len. rewrite nth_lookup. destruct (decide (j < length l)%nat).
    - by rewrite lookup_app_l.
    - rewrite lookup_app_r, (lookup_ge_None_2 l) by lia. destruct (zs !! _) as [z|] eqn:E; [|done].
      rewrite Forall_lookup in Hzs. by rewrite (Hzs _ _ E). }
  intros [Hrd Hr Hlen Hhdr Hlong -> Hbuf|Hrd Hr Hlen last -> Hlast Hbuf].
  - rewrite (in_progress_header 2) by done. change [announced (s2cSaved s); 0; 0; 0; 0] with ([announced (s2cSaved s)] ++ [0; 0; 0; 0]).
    rewrite app_assoc. apply Hz. by repeat constructor.
  - destruct Hlast as [[-> ->]|(Hh & -> & _)]; [cbn [in_progress]; rewrite app_nil_r; apply Hz; by repeat constructor|].
    rewrite (in_progress_header 6) by done. unfold nth_len. by rewrite nth_lookup.
Qed.

(** C8: the handshake imitates the target's flight: the bytes read from the
    target are its flight, a ServerHello, a ChangeCipherSpec and the records
    that follow; when the message of a place is encrypted, it is padded to
    exactly the length of the target's record in this place (the last one may
    still be under way, then its length is the one its header announces), or
    there is an error, when the message does not fit; a message whose place the
    target has not filled is an error.  The padding buffer is never exceeded, and a
    length serves once. *)
Theorem flight_imitated chunks s ov record payload first i : bytes_ok (concat chunks) ->
  scan_all chunks new_scan = Complete s -> nth_byte record 0 = recordTypeHandshake ->
  head payload = Some first -> padded_index first = Some i ->
  exists read rest recs, concat chunks = read ++ rest /\ flight read recs s /\
    match (lens_of recs ++ in_progress (s2cSaved s)) !! i, pad_record ov (lens s) record payload with
    | Some n, (Ret out, lens') => Z.of_nat (length out + ov) = n /\ lens' = <[i := 0]> (lens s)
    | Some n, (Err e, _) => n < Z.of_nat (length record + ov)
    | None, (Err e, _) => True
    | _, _ => False
    end.
Proof.
  intros Hb Hs Hty Hh Hi. destruct (flight_recorded_lens chunks s Hb Hs) as (read & rest & recs & Hch & Hf).
  exists read, rest, recs. split; [done|]. split; [done|]. destruct (flight_lens _ _ _ Hf) as (H1 & _ & Hsz).
  pose proof (flight_places _ _ _ i Hf) as Hplace.
  pose proof (pad_record_exact ov (lens s) record payload first i Hty ltac:(by rewrite H1) Hh Hi (Hsz i)) as Hpad.
  rewrite Hplace in Hpad. destruct (_ !! i) as [n|], (pad_record _ _ _ _) as [[out|e|w] lens'] eqn:Hout; try done; cbn in Hpad.
  - by destruct Hpad.
  - apply pad_record_length in Hout. destruct record; [done|]. cbn in Hpad, Hout. lia.
Qed.

End records.

(** ** Witness: a flight of six records *)

Definition target_hello : serverHelloMsg.t :=
  serverHelloMsg.set_serverShare (mkKeyShare X25519 (replicate 32 9))
  (serverHelloMsg.set_supportedVersion VersionTLS13
  (serverHelloMsg.set_cipherSuite TLS_AES_128_GCM_SHA256
  (serverHelloMsg.set_random (replicate 32 5) (serverHelloMsg.set_vers VersionTLS12 serverHelloMsg.zero)))).
Definition target_record (typ : Z) (body : bytes) : bytes := typ :: 3 :: 3 :: be_put 2 (Z.of_nat (length body)) ++ body.
Definition target_chunks : list bytes := [
  target_record recordTypeHandshake
    (match serverHelloMsg.marshal plain_builder target_hello with Ret b => b | _ => [] end) ++
  target_record recordTypeChangeCipherSpec [1];
  target_record recordTypeApplicationData (replicate 40 7) ++ [23; 3; 3];
  drop 3 (target_record recordTypeApplicationData (replicate 900 7)) ++
  target_record recordTypeApplicationData (replicate 300 7) ++
  target_record recordTypeApplicationData (replicate 60 7)].
Definition target_scan : scan :=
  match scan_all target_chunks new_scan with Complete s | MoreData s | Mismatch s => s end.

Lemma target_chunks_ok : bytes_ok (concat target_chunks).
Proof.
  assert (Hb : forallb (fun b => (0 <=? b) && (b <? 256)) (concat target_chunks) = true) by (vm_compute; reflexivity).
  apply List.Forall_forall. intros b Hin. rewrite forallb_forall in Hb. apply Hb in Hin. unfold is_byte. lia.
Qed.

Lemma target_scan_ok : scan_all target_chunks new_scan = Complete target_scan.
Proof. vm_compute. reflexivity. Qed.

Lemma flight_recorded_witness : lens target_scan = [95; 6; 45; 905; 305; 65; 0] /\
  exists read rest recs, concat target_chunks = read ++ rest /\ flight read recs target_scan.
Proof.
  split; [vm_compute; reflexivity|].
  destruct (flight_recorded target_chunks target_scan target_chunks_ok target_scan_ok) as (read & rest & recs & H1 & H2 & _).
  exists read, rest, recs. split; [exact H1|exact H2].
Defined.

Lemma flight_imitated_witness : exists read rest recs, concat target_chunks = read ++ rest /\
  flight read recs target_scan /\
  match (lens_of recs ++ in_progress (s2cSaved target_scan)) !! 2%nat,
    pad_record 16 (lens target_scan) [22; 3; 3; 0; 0; 8; 0; 0; 2; 0; 0; 22] [8; 0; 0; 2; 0; 0] with
  | Some n, (Ret out, lens') => Z.of_nat (length out + 16) = n /\ lens' = <[2%nat := 0]> (lens target_scan)
  | Some n, (Err e, _) => n < Z.of_nat (12 + 16)
  | None, (Err e, _) => True
  | _, _ => False
  end.
Proof.
  apply (flight_imitated target_chunks target_scan 16 [22; 3; 3; 0; 0; 8; 0; 0; 2; 0; 0; 22] [8; 0; 0; 2; 0; 0] 8 2).
  - exact target_chunks_ok.
  - exact target_scan_ok.
  - reflexivity.
  - reflexivity.
  - reflexivity.
Defined.
