(* ===== verification/RealitySystem.v ===== *)
(** * REALITY: the two goroutines of [Server]

    The goroutines of [Server] share the connection, [copying] and [stole]
    under a mutex that [MirrorConn.Read] gives up while it waits.  A step is
    what a goroutine does between two points where the other may run; the mutex is
    part of the state, and a goroutine that takes it waits until it is free.  The
    bytes of the four directions are kept as a whole, so that the theorems can
    say that nothing is lost, repeated or invented.

    The decision is about any ClientHello and version: what the mirrored bytes
    parse to is [Conn]'s, and leaving it open allows more runs, not fewer.

    The writes to the target and to the client succeed ([MirrorConn.Read] and the
    copies do not look at their errors; what is written to a broken connection
    is lost with it).  What the handshake itself writes to an accepted client is not
    here: it is [encrypt]'s. *)

From Stdlib Require Import Relations.
From stdpp Require Import gmap relations.
From S2P Require Import Prelude Common HalfConn Alias Aes Gcm GcmNonces CipherSuites Cryptobyte Hello WireProofs Reality.
From S2P Require Import RealityAuth RealityScan.

Open Scope go_scope.

(** The two goroutines, and the one that copies for an accepted client. *)
Inductive goroutine := G1 | G2 | G3.
#[export] Instance goroutine_dec : EqDecision goroutine.
Proof. solve_decision. Defined.

(** The first goroutine: before [mutex.Lock()]; in [readClientHello], with the
    mutex; in [MirrorConn.Read], which has given it up; with the decision, before
    [mutex.Unlock()]; after it; in [io.Copy(target, underlying)]; done. *)
Inductive client_side := Starting | Parsing | Reading | Leaving | Decided | Uploading | ClientDone.

(** The second goroutine: in [target.Read]; before [mutex.Lock()] with the bytes
    that were read; after it; in the handshake; behind the loop, before
    [mutex.Unlock()]; after it; in [io.Copy(underlying, target)]; the target's
    connection has ended in the loop; done. *)
Inductive target_side :=
| Scanning (s : scan)
| Locking (s : scan) (chunk : bytes)
| Processing (s : scan) (chunk : bytes)
| Handshaking (s : scan)
| Broken (s : scan)
| Unlocked (s : scan)
| Downloading
| TargetLost
| TargetDone.

Record state := mkState {
  fromClient : bytes;       (* what has been read from the client *)
  toTarget : bytes;         (* and written to the target *)
  fromTarget : bytes;       (* what has been read from the target *)
  toClient : bytes;         (* and written to the client as it is *)
  copying : bool;
  stole : bool;
  mutex : option goroutine; (* who holds it *)
  decision : option client;
  g1 : client_side;
  g2 : target_side;
  g3 : bool                 (* the goroutine that copies for an accepted client *)
}.

Definition init : state := mkState [] [] [] [] false false None None Starting (Scanning new_scan) false.

(** [hs.c.conn == conn] *)
Definition is_accepted (st : state) : bool := match decision st with Some c => accepted c | None => false end.

Definition set_g1 (g : client_side) (st : state) : state :=
  mkState (fromClient st) (toTarget st) (fromTarget st) (toClient st) (copying st) (stole st) (mutex st) (decision st) g (g2 st) (g3 st).
Definition set_g2 (g : target_side) (st : state) : state :=
  mkState (fromClient st) (toTarget st) (fromTarget st) (toClient st) (copying st) (stole st) (mutex st) (decision st) (g1 st) g (g3 st).
Definition set_g3 (st : state) : state :=
  mkState (fromClient st) (toTarget st) (fromTarget st) (toClient st) (copying st) (stole st) (mutex st) (decision st) (g1 st) (g2 st) true.
(** [mutex.Lock()] when it is free, [mutex.Unlock()] *)
Definition Lock (g : goroutine) (st : state) : state :=
  mkState (fromClient st) (toTarget st) (fromTarget st) (toClient st) (copying st) (stole st) (Some g) (decision st) (g1 st) (g2 st) (g3 st).
Definition Unlock (st : state) : state :=
  mkState (fromClient st) (toTarget st) (fromTarget st) (toClient st) (copying st) (stole st) None (decision st) (g1 st) (g2 st) (g3 st).
Definition decide_client (s : bool) (c : client) (st : state) : state :=
  mkState (fromClient st) (toTarget st) (fromTarget st) (toClient st) (copying st) s (mutex st) (Some c) Leaving (g2 st) (g3 st).
Definition set_copying (st : state) : state :=
  mkState (fromClient st) (toTarget st) (fromTarget st) (toClient st) (copying st || negb (stole st)) (stole st) (mutex st)
    (decision st) (g1 st) (g2 st) (g3 st).
(** Bytes of the client, passed to the target or not, and of the target. *)
Definition upload (b : bytes) (st : state) : state :=
  mkState (fromClient st ++ b) (toTarget st ++ b) (fromTarget st) (toClient st) (copying st) (stole st) (mutex st) (decision st)
    (g1 st) (g2 st) (g3 st).
Definition read_client (b : bytes) (st : state) : state :=
  mkState (fromClient st ++ b) (toTarget st) (fromTarget st) (toClient st) (copying st) (stole st) (mutex st) (decision st)
    (g1 st) (g2 st) (g3 st).
Definition read_target (b : bytes) (st : state) : state :=
  mkState (fromClient st) (toTarget st) (fromTarget st ++ b) (toClient st) (copying st) (stole st) (mutex st) (decision st)
    (g1 st) (g2 st) (g3 st).
Definition write_client (b : bytes) (st : state) : state :=
  mkState (fromClient st) (toTarget st) (fromTarget st) (toClient st ++ b) (copying st) (stole st) (mutex st) (decision st)
    (g1 st) (g2 st) (g3 st).

(** [s2cSaved = append(s2cSaved, buf[:n]...)] *)
Definition append_saved (chunk : bytes) (s : scan) : scan :=
  mkScan (s2cSaved s ++ chunk) (recLen s) (lens s) (scan_buf s) (serverHello s).

Section system.
Context `{CryptoString}.
Context (x25519 : bytes -> bytes -> outcome conn_error bytes).
Context (hkdf_read : bytes -> bytes -> bytes -> nat -> outcome conn_error bytes).
Context (config : Config).

(** What the second goroutine does with a [chunk] it has read, with the mutex. *)
Definition after_read (chunk : bytes) (s : scan) (st : state) : state :=
  if is_accepted st then
    match on_read chunk s with
    | MoreData s => set_g2 (Scanning s) (Unlock st)
    | Mismatch s => set_g2 (Broken s) st
    | Complete s => set_g2 (Handshaking s) st
    end
  else set_g2 (Broken (append_saved chunk s)) (set_copying st).

(** What it does after the loop and [mutex.Unlock()]. *)
Definition after_loop (s : scan) (st : state) : state :=
  if handshakeLen_at s 0 =? 0 then
    let st := if is_accepted st then set_g3 st else st in
    if forwards_target (stole st) s then set_g2 Downloading (write_client (s2cSaved s) st) else set_g2 TargetDone st
  else set_g2 TargetDone st.

(** The steps of the goroutines.  [MirrorConn.Read] returns when the bytes are
    there and the mutex is free; it is [step_mirror]. *)
Inductive step : goroutine -> state -> state -> Prop :=
| step_start st : g1 st = Starting -> mutex st = None -> step G1 st (set_g1 Parsing (Lock G1 st))
| step_wait st : g1 st = Parsing -> step G1 st (set_g1 Reading (Unlock st))
| step_mirror st b : g1 st = Reading -> mutex st = None -> step G1 st (set_g1 Parsing (upload b (Lock G1 st)))
| step_decide st now data m err vers s c : g1 st = Parsing ->
    clientHelloMsg.unmarshal data = Some m -> bytes_ok data ->
    authenticate x25519 hkdf_read config now (copying st) (Some m) err vers = Ret (s, c) ->
    step G1 st (decide_client s c st)
| step_unlock1 st : g1 st = Leaving -> step G1 st (set_g1 Decided (Unlock st))
| step_choose st c : g1 st = Decided -> decision st = Some c ->
    step G1 st (set_g1 (if forwards_client (stole st) c then Uploading else ClientDone) st)
| step_upload st b : g1 st = Uploading -> step G1 st (upload b st)
| step_upload_end st : g1 st = Uploading -> step G1 st (set_g1 ClientDone st)
| step_target st s chunk : g2 st = Scanning s -> chunk <> [] -> bytes_ok chunk ->
    step G2 st (set_g2 (Locking s chunk) (read_target chunk st))
| step_target_end st s : g2 st = Scanning s -> step G2 st (set_g2 TargetLost st)
| step_lock st s chunk : g2 st = Locking s chunk -> mutex st = None -> step G2 st (set_g2 (Processing s chunk) (Lock G2 st))
| step_process st s chunk : g2 st = Processing s chunk -> step G2 st (after_read chunk s st)
| step_handshake_read st s b : g2 st = Handshaking s -> step G2 st (read_client b st)
| step_handshake_skip st s b : g2 st = Handshaking s -> step G2 st (read_target b st)
| step_handshake_end st s : g2 st = Handshaking s -> step G2 st (set_g2 (Broken s) st)
| step_unlock2 st s : g2 st = Broken s -> step G2 st (set_g2 (Unlocked s) (Unlock st))
| step_after_loop st s : g2 st = Unlocked s -> step G2 st (after_loop s st)
| step_download st b : g2 st = Downloading -> step G2 st (write_client b (read_target b st))
| step_download_end st : g2 st = Downloading -> step G2 st (set_g2 TargetDone st)
| step_copy st b : g3 st = true -> step G3 st (upload b st).

Definition moves (st st' : state) : Prop := exists g, step g st st'.
Definition reachable : state -> Prop := rtc moves init.

(** ** Runs

    A goroutine that is neither done nor waiting for its peer's bytes is [ready]
    when it can go on: when the mutex is free, if it is at a [Lock].  In a run of
    the scheduler a goroutine does not stay ready without moving, and the target
    sends something or its connection ends. *)
Definition waits_for_peer (g : goroutine) (st : state) : bool :=
  match g with
  | G1 => match g1 st with Reading | Uploading => true | _ => false end
  | G2 => match g2 st with Scanning _ | Handshaking _ | Downloading => true | _ => false end
  | G3 => true
  end.
Definition ready (g : goroutine) (st : state) : Prop := waits_for_peer g st = false /\ exists st', step g st st'.

Record run (t : nat -> state) : Prop := {
  run_init : t 0%nat = init;
  run_step n : t (S n) = t n \/ moves (t n) (t (S n));
  run_fair g n : exists m, (n <= m)%nat /\ (~ ready g (t m) \/ step g (t m) (t (S m)));
  run_target n s : g2 (t n) = Scanning s -> exists m, (n <= m)%nat /\ g2 (t m) <> Scanning s
}.
End system.

(** ** The mutex *)

Section mutex.
Context `{CryptoString}.
Context (x25519 : bytes -> bytes -> outcome conn_error bytes).
Context (hkdf_read : bytes -> bytes -> bytes -> nat -> outcome conn_error bytes).
Context (config : Config).

Definition holds1 (g : client_side) : bool := match g with Parsing | Leaving => true | _ => false end.
Definition holds2 (g : target_side) : bool := match g with Processing _ _ | Handshaking _ | Broken _ => true | _ => false end.

(** It is held by the goroutine that is between its [Lock] and its [Unlock],
    and never by both. *)
Definition locked (st : state) : Prop :=
  holds1 (g1 st) && holds2 (g2 st) = false /\
  mutex st = if holds1 (g1 st) then Some G1 else if holds2 (g2 st) then Some G2 else None.

Lemma locked_free st : locked st -> mutex st = None -> holds1 (g1 st) = false /\ holds2 (g2 st) = false.
Proof. intros [_ ->]. destruct (holds1 (g1 st)); [done|]. by destruct (holds2 (g2 st)). Qed.

Lemma locked_G1 st : locked st -> holds1 (g1 st) = true -> holds2 (g2 st) = false.
Proof. intros [Hx _] H1. rewrite H1 in Hx. exact Hx. Qed.

Lemma locked_G2 st : locked st -> holds2 (g2 st) = true -> holds1 (g1 st) = false.
Proof. intros [Hx _] H2. rewrite H2, andb_true_r in Hx. exact Hx. Qed.

(** A step of one goroutine leaves the other where it is. *)
Lemma after_read_g1 chunk s st : g1 (after_read chunk s st) = g1 st.
Proof. unfold after_read. destruct (is_accepted st); [by destruct (on_read chunk s)|done]. Qed.

Lemma after_loop_g1 s st : g1 (after_loop s st) = g1 st.
Proof. unfold after_loop. destruct (_ =? _), (is_accepted st); try done; by destruct (forwards_target _ s). Qed.

Lemma step_frame g st st' : step x25519 hkdf_read config g st st' ->
  (g <> G1 -> g1 st' = g1 st /\ decision st' = decision st /\ stole st' = stole st) /\ (g <> G2 -> g2 st' = g2 st).
Proof.
  intros Hs. split; intros Hg.
  - destruct Hs; try done; unfold after_read, after_loop; repeat case_match; done.
  - by destruct Hs.
Qed.

Lemma after_read_locked chunk s st : locked st -> g2 st = Processing s chunk -> locked (after_read chunk s st).
Proof.
  intros Hl Hg. pose proof (locked_G2 st Hl) as H1. rewrite Hg in H1. specialize (H1 eq_refl).
  destruct Hl as [_ Hm]. rewrite Hg, H1 in Hm. unfold after_read.
  destruct (is_accepted st); [destruct (on_read chunk s)|]; split; cbn; by rewrite H1.
Qed.

Lemma after_loop_locked s st : locked st -> g2 st = Unlocked s -> locked (after_loop s st).
Proof.
  intros [Hx Hm] Hg. rewrite Hg in Hx, Hm.
  assert (Hg2 : holds2 (g2 (after_loop s st)) = false) by (unfold after_loop; repeat case_match; done).
  assert (Hmx : mutex (after_loop s st) = mutex st) by (unfold after_loop; repeat case_match; done).
  split; rewrite after_loop_g1, Hg2; [by rewrite andb_false_r|by rewrite Hmx, Hm].
Qed.

Lemma step_locked g st st' :
  step x25519 hkdf_read config g st st' -> locked st -> locked st'.
Proof.
  intros Hs Hl. pose proof (locked_free st Hl) as Hf. pose proof (locked_G1 st Hl) as HG1. pose proof (locked_G2 st Hl) as HG2.
  destruct Hs as [st Hg Hm|st Hg|st b Hg Hm|st now data m err vers s c Hg|st Hg|st c Hg|st b Hg|st Hg|
    st s chunk Hg|st s Hg|st s chunk Hg Hm|st s chunk Hg|st s b Hg|st s b Hg|st s Hg|st s Hg|st s Hg|st b Hg|st Hg|st b Hg];
    try (by apply after_read_locked || by apply after_loop_locked); try (destruct (Hf Hm) as [Hf1 Hf2]);
    destruct Hl as [Hx Hmx]; unfold locked; cbn; try (rewrite Hg in *; cbn in *); try done;
    try (rewrite HG1 by done; done); try (rewrite HG2 in * by done; done); try (by rewrite ?Hf1, ?Hf2).
  by destruct (forwards_client (stole st) c).
Qed.

End mutex.

(** ** The invariant *)

Section invariant.
Context `{CryptoStringLaws}.
Context (x25519 : bytes -> bytes -> outcome conn_error bytes).
Context (hkdf_read : bytes -> bytes -> bytes -> nat -> outcome conn_error bytes).
Context (Hx : forall scalar point, (exists s, x25519 scalar point = Ret s /\ length s = 32%nat /\ bytes_ok s) \/
  exists e, x25519 scalar point = Err e).
Context (Hk : forall secret salt info n, (exists k, hkdf_read secret salt info n = Ret k /\ length k = n /\ bytes_ok k) \/
  exists e, hkdf_read secret salt info n = Err e).
Context (config : Config).

(** The client of [c] has proved that it knows the key. *)
Definition proved (c : client) : Prop :=
  exists data m key plain now, clientHelloMsg.unmarshal data = Some m /\
    has (ServerNames config) (clientHelloMsg.serverName m) = true /\
    knows_key x25519 hkdf_read config m key plain /\
    policy config now (client_of m key plain true) = true /\
    c = client_of m key plain true /\ clientHelloMsg.original (hello c) = Some data.

(** The second goroutine and the bytes from the target to the client. *)
Definition download_ok (st : state) : Prop :=
  match g2 st with
  | Scanning s => toClient st = [] /\ (is_accepted st = false -> handshakeLen_at s 0 = 0 /\ fromTarget st = []) /\
      bytes_ok (fromTarget st) /\ exists recs, scanned (fromTarget st) recs s
  | Locking s chunk | Processing s chunk => toClient st = [] /\ (is_accepted st = false -> handshakeLen_at s 0 = 0) /\
      exists read recs, fromTarget st = read ++ chunk /\ bytes_ok (read ++ chunk) /\ scanned read recs s
  | Broken s | Unlocked s => toClient st = [] /\ (is_accepted st = false -> handshakeLen_at s 0 = 0) /\
      (handshakeLen_at s 0 = 0 -> s2cSaved s = fromTarget st)
  | Handshaking s => toClient st = [] /\ is_accepted st = true /\ handshakeLen_at s 0 <> 0 /\
      exists read rest recs, fromTarget st = read ++ rest /\ flight read recs s
  | Downloading => toClient st = fromTarget st
  | TargetLost => toClient st = [] /\ (is_accepted st = false -> fromTarget st = [])
  | TargetDone => toClient st `prefix_of` fromTarget st
  end.

(** When every byte of the client goes to the target. *)
Definition direct (st : state) : Prop :=
  is_accepted st = false \/ g3 st = true \/
  match g2 st with
  | Scanning _ | Locking _ _ | Processing _ _ | Downloading | TargetLost => True
  | Broken s | Unlocked s => handshakeLen_at s 0 = 0
  | _ => False
  end.

(** The first goroutine has its decision. *)
Definition decided (g : client_side) : bool := match g with Starting | Parsing | Reading => false | _ => true end.

Record inv (st : state) : Prop := {
  inv_decided : if decided (g1 st) then decision st <> None else decision st = None;
  inv_fresh : decision st = None -> stole st = false;
  inv_upload : g1 st = Uploading -> is_accepted st = false;
  inv_copying : copying st = true -> is_accepted st = false;
  inv_stole : stole st = true -> is_accepted st = false;
  inv_copy : g3 st = true -> g2 st = Downloading \/ g2 st = TargetDone;
  inv_prefix : toTarget st `prefix_of` fromClient st;
  inv_direct : direct st -> toTarget st = fromClient st;
  inv_download : download_ok st;
  inv_proved : forall c, decision st = Some c -> accepted c = true -> proved c
}.

Lemma init_inv : inv init.
Proof.
  constructor; try done. cbn. split_and!; [done|done|constructor|]. exists []. apply new_scan_ok.
Qed.

Lemma undecided st : inv st -> decided (g1 st) = false -> decision st = None /\ is_accepted st = false.
Proof. intros Hi Hg. pose proof (inv_decided _ Hi) as Q. rewrite Hg in Q. unfold is_accepted. by rewrite Q. Qed.

(** The decision: [copying] and [stole] exclude the acceptance. *)
Lemma decide_facts now cp m data err vers s c : clientHelloMsg.unmarshal data = Some m -> bytes_ok data ->
  authenticate x25519 hkdf_read config now cp (Some m) err vers = Ret (s, c) ->
  (cp = true -> accepted c = false) /\ (s = true -> accepted c = false) /\ (accepted c = true -> proved c).
Proof.
  intros Hm Hd Ha. destruct (authenticate_spec x25519 hkdf_read Hx Hk config now cp m data err vers Hm Hd)
    as (s' & c' & E & Hs & Hacc & _). rewrite Ha in E. injection E as <- <-.
  destruct (accepted c); [|done]. destruct (Hacc eq_refl) as ((Hn & -> & _ & _) & key & plain & Hkn & Hpol & ->).
  split; [done|]. split; [intros Q%Hs; congruence|]. intros _.
  exists data, m, key, plain, now. split_and!; try done. by destruct (unmarshal_layout data m Hm).
Qed.

(** The first goroutine.  The mutex is not in the invariant. *)
Lemma move_inv st st' : inv st -> decided (g1 st') = decided (g1 st) -> (g1 st' = Uploading -> is_accepted st = false) ->
  fromClient st' = fromClient st -> toTarget st' = toTarget st -> fromTarget st' = fromTarget st ->
  toClient st' = toClient st -> copying st' = copying st -> stole st' = stole st -> decision st' = decision st ->
  g2 st' = g2 st -> g3 st' = g3 st -> inv st'.
Proof.
  intros [? ? ? ? ? ? ? Hd Hdl ?] E1 Hu E2 E3 E4 E5 E6 E7 E8 E9 E10. unfold direct, download_ok, is_accepted in *.
  constructor; unfold direct, download_ok, is_accepted; rewrite ?E1, ?E2, ?E3, ?E4, ?E5, ?E6, ?E7, ?E8, ?E9, ?E10; done.
Qed.

Lemma mirror_inv st b : inv st -> direct st -> inv (upload b st).
Proof.
  intros [? ? ? ? ? ? Hp Hd Hdl ?] Hdir. specialize (Hd Hdir). constructor; try done; cbn.
  - rewrite Hd. done.
  - intros _. by rewrite Hd.
Qed.

Lemma decide_inv st now data m err vers s c : inv st -> g1 st = Parsing ->
  clientHelloMsg.unmarshal data = Some m -> bytes_ok data ->
  authenticate x25519 hkdf_read config now (copying st) (Some m) err vers = Ret (s, c) -> inv (decide_client s c st).
Proof.
  intros Hi Hr Hm Hdata Ha. destruct (decide_facts _ _ _ _ _ _ _ _ Hm Hdata Ha) as (F1 & F2 & F3).
  destruct (undecided st Hi) as [Hu Hna]; [by rewrite Hr|].
  destruct Hi as [_ _ Hup Hcp Hst Hc3 Hp Hd Hdl Hpr]. constructor; try done; cbn.
  - intros _. apply Hd. by left.
  - unfold download_ok in *. cbn. destruct (g2 st); try done; try (destruct Hdl as (? & Q & _); congruence);
      (split; [apply Hdl|]); [split; [|apply Hdl]..|]; intros _; by apply Hdl.
  - by intros c' [= <-].
Qed.


(** The second goroutine. *)
Lemma no_copy st : inv st -> g2 st <> Downloading -> g2 st <> TargetDone -> g3 st = true -> False.
Proof. intros Hi H1 H2 Q. by destruct (inv_copy _ Hi Q). Qed.

Lemma after_read_inv st s chunk : inv st -> g2 st = Processing s chunk -> inv (after_read chunk s st).
Proof.
  intros Hi Hg. pose proof (inv_download _ Hi) as Hdl. unfold download_ok in Hdl. rewrite Hg in Hdl.
  destruct Hdl as (Hcl & Hna & read & recs & Hrd & Hb & Hs).
  assert (Heq : toTarget st = fromClient st) by (apply (inv_direct _ Hi); right; right; by rewrite Hg).
  assert (H3 : g3 st = true -> False) by (apply no_copy; by rewrite ?Hg).
  assert (Hbr : bytes_ok read) by (apply Forall_app in Hb; tauto).
  unfold after_read. destruct (is_accepted st) eqn:Ea; destruct Hi as [Hu Hfr Hup Hcp Hst Hc3 Hp Hd _ Hpr].
  - pose proof (on_read_spec read recs s chunk Hs Hb) as Hpost.
    destruct (on_read chunk s) as [s'|s'|s']; constructor; try done; cbn; try (intros ?; by destruct H3);
      unfold download_ok; cbn; change (is_accepted (set_g2 _ _)) with (is_accepted st); rewrite Ea, Hrd.
    + split_and!; try done.
    + destruct Hpost as [recs' Hs']. split_and!; [done|done|]. intros Q. exact (scanned_first _ _ _ Hs' Hb Q).
    + destruct Hpost as (recs' & Hf & _). split; [done|]. split; [done|].
      split; [by apply (flight_first _ recs' _ Hf)|]. exists (read ++ chunk), [], recs'. by rewrite app_nil_r.
  - constructor; try done; cbn; try (intros ?; by destruct H3).
    unfold download_ok. cbn. split; [done|]. split; [auto|]. unfold handshakeLen_at. cbn. intros H0'.
    by rewrite (scanned_first _ recs s Hs Hbr H0').
Qed.

Lemma after_loop_inv st s : inv st -> g2 st = Unlocked s -> inv (after_loop s st).
Proof.
  intros Hi Hg. pose proof (inv_download _ Hi) as Hdl. unfold download_ok in Hdl. rewrite Hg in Hdl.
  destruct Hdl as (Hcl & Hna & Hsv).
  assert (H3 : g3 st = true -> False) by (apply no_copy; by rewrite ?Hg).
  unfold after_loop, forwards_target. destruct (Z.eqb_spec (handshakeLen_at s 0) 0) as [H0'|H0'].
  - assert (Heq : toTarget st = fromClient st) by (apply (inv_direct _ Hi); right; right; by rewrite Hg).
    assert (Hsv' := Hsv H0'). cbn [andb].
    destruct (is_accepted st) eqn:Ea, (negb _); destruct Hi as [Hu Hfr Hup Hcp Hst Hc3 Hp Hd _ Hpr];
      constructor; try done; cbn; auto; unfold download_ok; cbn; rewrite ?Hcl; try done; apply prefix_nil.
  - destruct Hi as [Hu Hfr Hup Hcp Hst Hc3 Hp Hd _ Hpr]. constructor; try done; cbn; auto.
    + intros [Q|[Q|Q]]; [apply Hd; by left|by apply H3 in Q|done].
    + unfold download_ok. cbn. rewrite Hcl. apply prefix_nil.
Qed.

(** The moves of the second goroutine that only change where it is. *)
Lemma move2_inv st st' : inv st -> g2 st <> Downloading -> g2 st <> TargetDone ->
  st' = mkState (fromClient st) (toTarget st) (fromTarget st') (toClient st) (copying st) (stole st) (mutex st')
    (decision st) (g1 st) (g2 st') (g3 st) -> (direct st' -> direct st) -> download_ok st' -> inv st'.
Proof.
  intros Hi H1 H2 -> Hdir Hdl. pose proof (no_copy st Hi H1 H2) as H3. destruct Hi as [? ? ? ? ? ? ? Hd _ ?].
  constructor; try done. intros Q. by apply Hd, Hdir.
Qed.

Lemma step_target_inv st s chunk : inv st -> g2 st = Scanning s -> bytes_ok chunk ->
  inv (set_g2 (Locking s chunk) (read_target chunk st)).
Proof.
  intros Hi Hg Hb. pose proof (inv_download _ Hi) as Hdl. unfold download_ok in Hdl. rewrite Hg in Hdl.
  destruct Hdl as (Hcl & Hna & Hbt & recs & Hs). eapply move2_inv; eauto; try done; rewrite ?Hg; try done.
  - intros _. right. right. by rewrite Hg.
  - unfold download_ok. cbn. change (is_accepted _) with (is_accepted st).
    split; [done|]. split; [intros Q; by destruct (Hna Q)|]. exists (fromTarget st), recs. split_and!; try done. by apply Forall_app.
Qed.

Lemma step_target_end_inv st s : inv st -> g2 st = Scanning s -> inv (set_g2 TargetLost st).
Proof.
  intros Hi Hg. pose proof (inv_download _ Hi) as Hdl. unfold download_ok in Hdl. rewrite Hg in Hdl.
  destruct Hdl as (Hcl & Hna & _). eapply move2_inv; eauto; try done; rewrite ?Hg; try done.
  - intros _. right. right. by rewrite Hg.
  - split; [done|]. intros Q. by destruct (Hna Q).
Qed.

Lemma step_lock_inv st s chunk : inv st -> g2 st = Locking s chunk -> inv (set_g2 (Processing s chunk) (Lock G2 st)).
Proof.
  intros Hi Hg. pose proof (inv_download _ Hi) as Hdl. unfold download_ok in Hdl. rewrite Hg in Hdl.
  eapply move2_inv; eauto; try done; rewrite ?Hg; try done. intros _. right. right. by rewrite Hg.
Qed.

Lemma step_unlock2_inv st s : inv st -> g2 st = Broken s -> inv (set_g2 (Unlocked s) (Unlock st)).
Proof.
  intros Hi Hg. pose proof (inv_download _ Hi) as Hdl. unfold download_ok in Hdl. rewrite Hg in Hdl.
  eapply move2_inv; eauto; try done; rewrite ?Hg; try done. unfold direct. by rewrite Hg.
Qed.

(** The handshake: the client is accepted, and its bytes are not the target's. *)
Lemma handshake_inv st s st' : inv st -> g2 st = Handshaking s -> (exists b, st' = read_client b st) \/
  (exists b, st' = read_target b st) \/ st' = set_g2 (Broken s) st -> inv st'.
Proof.
  intros Hi Hg Hst'. pose proof (inv_download _ Hi) as Hdl. unfold download_ok in Hdl. rewrite Hg in Hdl.
  destruct Hdl as (Hcl & Ha & Hne & read & rest & recs & Hrd & Hf).
  assert (H3 : g3 st = true -> False) by (apply no_copy; by rewrite ?Hg).
  assert (Hdir : direct st' -> False).
  { unfold direct. destruct Hst' as [[b ->]|[[b ->]| ->]]; cbn; change (is_accepted _) with (is_accepted st);
      rewrite Ha, ?Hg; intros [Q|[Q|Q]]; try done; by apply H3. }
  assert (Hdl' : download_ok st').
  { unfold download_ok. destruct Hst' as [[b ->]|[[b ->]| ->]]; cbn; rewrite ?Hg; change (is_accepted _) with (is_accepted st);
      rewrite Ha; split_and!; try done; [by exists read, rest, recs|].
    exists read, (rest ++ b), recs. by rewrite Hrd, app_assoc. }
  destruct Hi as [Hu Hfr Hup Hcp Hst Hc3 Hp Hd _ Hpr].
  destruct Hst' as [[b ->]|[[b ->]| ->]]; constructor; try done; cbn; try (intros Q; by destruct H3).
  by apply prefix_app_r.
Qed.

Lemma download_inv st : inv st -> g2 st = Downloading ->
  (forall b, inv (write_client b (read_target b st))) /\ inv (set_g2 TargetDone st).
Proof.
  intros Hi Hg. pose proof (inv_download _ Hi) as Hdl. unfold download_ok in Hdl. rewrite Hg in Hdl.
  pose proof (inv_direct _ Hi) as Hd. unfold direct in Hd. rewrite Hg in Hd. specialize (Hd (or_intror (or_intror I))).
  split; [intros b|]; destruct Hi as [? ? ? ? ? ? ? _ _ ?]; constructor; try done; cbn; auto;
    unfold download_ok; cbn; rewrite ?Hg; [congruence|by rewrite Hdl].
Qed.

Lemma step_inv g st st' : inv st -> step x25519 hkdf_read config g st st' -> inv st'.
Proof.
  intros Hi Hs. destruct Hs as [st Hg Hm|st Hg|st b Hg Hm|st now data m err vers s c Hg Hm Hd Ha|st Hg|st c Hg Hc|st b Hg|
    st Hg|st s chunk Hg _ Hb|st s Hg|st s chunk Hg _|st s chunk Hg|st s b Hg|st s b Hg|st s Hg|st s Hg|st s Hg|st b Hg|st Hg|st b Hg].
  - by apply (move_inv st); rewrite ?Hg.
  - by apply (move_inv st); rewrite ?Hg.
  - apply (move_inv (upload b st)); try done; [|by cbn; rewrite Hg].
    apply mirror_inv; [done|]. left. by apply undecided; rewrite ?Hg.
  - by eapply decide_inv.
  - by apply (move_inv st); rewrite ?Hg.
  - apply (move_inv st); try done; cbn; rewrite ?Hg; unfold forwards_client; [by destruct (_ && _)|].
    unfold is_accepted. rewrite Hc. destruct (accepted c); [|done]. by destruct (stole st).
  - apply mirror_inv; [done|]. left. by apply inv_upload.
  - by apply (move_inv st); rewrite ?Hg.
  - by apply step_target_inv.
  - by eapply step_target_end_inv.
  - by apply step_lock_inv.
  - by apply after_read_inv.
  - by eapply handshake_inv; eauto.
  - by eapply handshake_inv; eauto.
  - by eapply handshake_inv; eauto.
  - by apply step_unlock2_inv.
  - by apply after_loop_inv.
  - by apply download_inv.
  - by apply download_inv.
  - apply mirror_inv; [done|]. right. by left.
Qed.

Lemma steps_inv st st' : rtc (moves x25519 hkdf_read config) st st' -> inv st /\ locked st -> inv st' /\ locked st'.
Proof.
  induction 1 as [|x y z [g Hs] _ IH]; [done|]. intros [Hi Hl]. apply IH.
  split; [by eapply step_inv|by eapply step_locked].
Qed.

Lemma reachable_ok st : reachable x25519 hkdf_read config st -> inv st /\ locked st.
Proof. intros Hr. apply (steps_inv _ _ Hr). split; [apply init_inv|done]. Qed.

Lemma reachable_inv st : reachable x25519 hkdf_read config st -> inv st.
Proof. apply reachable_ok. Qed.

(** C3: the server never alters a relayed connection: in every interleaving
    what the target has been sent is a prefix of what the client has sent, and
    the raw bytes sent to the client are a prefix of what the target has sent;
    nothing of the client is held back from the target unless the client is
    accepted, and nothing of the target from the client once the second
    goroutine relays, whatever it had saved before. *)
Theorem relay_transparent st : reachable x25519 hkdf_read config st ->
  toTarget st `prefix_of` fromClient st /\ toClient st `prefix_of` fromTarget st /\
  (is_accepted st = false -> toTarget st = fromClient st) /\
  (g2 st = Downloading -> toClient st = fromTarget st /\ toTarget st = fromClient st).
Proof.
  intros Hi%reachable_inv. pose proof (inv_download _ Hi) as Hdl. unfold download_ok in Hdl. split_and!.
  - apply Hi.
  - destruct (g2 st); try (rewrite (proj1 Hdl); apply prefix_nil); [by rewrite Hdl|done].
  - intros Ha. apply (inv_direct _ Hi). by left.
  - intros Hg. rewrite Hg in Hdl. split; [done|]. apply (inv_direct _ Hi). right. right. by rewrite Hg.
Qed.

(** C2: the server answers in the target's place only a client that has
    proved that it knows the key: when the handshake runs, the client's session
    id opens and satisfies the configuration, no bytes have been relayed or
    will be ([copying] and [stole] are unset), not one raw byte of the target
    has reached the client, and the target's flight has been recorded. *)
Theorem handshake_authenticated st s : reachable x25519 hkdf_read config st -> g2 st = Handshaking s ->
  copying st = false /\ stole st = false /\ toClient st = [] /\
  (exists c, decision st = Some c /\ accepted c = true /\ proved c) /\
  (exists read rest recs, fromTarget st = read ++ rest /\ flight read recs s).
Proof.
  intros Hi%reachable_inv Hg. pose proof (inv_download _ Hi) as Hdl. unfold download_ok in Hdl. rewrite Hg in Hdl.
  destruct Hdl as (Hcl & Ha & _ & Hf). split_and!; try done.
  - apply not_true_is_false. intros Q. apply (inv_copying _ Hi) in Q. congruence.
  - apply not_true_is_false. intros Q. apply (inv_stole _ Hi) in Q. congruence.
  - unfold is_accepted in Ha. destruct (decision st) as [c|] eqn:Ec; [|done].
    exists c. split; [done|]. split; [done|]. by apply (inv_proved _ Hi).
Qed.


(** ** Every run connects a refused client *)

Section live.
Context (t : nat -> state) (Ht : run x25519 hkdf_read config t).

Lemma run_reachable n : reachable x25519 hkdf_read config (t n).
Proof.
  induction n as [|n IH]; [by rewrite (run_init _ _ _ _ Ht); apply rtc_refl|].
  destruct (run_step _ _ _ _ Ht n) as [-> |Hm]; [done|]. by eapply rtc_r.
Qed.

(** A decision is taken once. *)
Lemma step_decision g st st' c : inv st -> step x25519 hkdf_read config g st st' -> decision st = Some c ->
  decision st' = Some c /\ stole st' = stole st.
Proof.
  intros Hi Hs Hc. destruct g; [|by destruct (proj1 (step_frame _ _ _ _ _ _ Hs)) as (_ & -> & ->)..].
  inversion Hs; subst; try done. destruct (undecided st Hi) as [Q _]; [|congruence]. by replace (g1 st) with Parsing.
Qed.

Lemma run_decision n c k : decision (t n) = Some c -> decision (t (k + n)) = Some c /\ stole (t (k + n)) = stole (t n).
Proof.
  intros Hc. induction k as [|k [IH1 IH2]]; [done|]. cbn [Nat.add].
  destruct (run_step _ _ _ _ Ht (k + n)) as [-> |[g Hs]]; [done|].
  destruct (step_decision g _ _ c (reachable_inv _ (run_reachable _)) Hs IH1) as [? ->]. done.
Qed.

(** The run of a client that is refused with a server name that is listed:
    [refused] holds before the decision too. *)
Definition refused (st : state) : Prop := is_accepted st = false /\ stole st = false.

Lemma run_refused n c : decision (t n) = Some c -> accepted c = false -> stole (t n) = false -> forall m, refused (t m).
Proof.
  intros Hc Ha Hst m. unfold refused, is_accepted. destruct (Nat.le_gt_cases n m) as [Hle|Hlt].
  - destruct (run_decision n c (m - n) Hc) as [Q1 Q2]. replace (m - n + n)%nat with m in * by lia.
    rewrite Q1, Q2. done.
  - pose proof (reachable_inv _ (run_reachable m)) as Hi. destruct (decision (t m)) as [c'|] eqn:Em.
    + destruct (run_decision m c' (n - m) Em) as [Q1 Q2]. replace (n - m + m)%nat with n in * by lia.
      rewrite Hc in Q1. injection Q1 as <-. by rewrite <- Q2.
    + split; [done|]. by apply (inv_fresh _ Hi).
Qed.

(** What a goroutine that stays ready leads to, when the other goroutines do
    not take it from where it is. *)
Lemma leads_to g (P Q : state -> Prop) n : P (t n) -> (forall m, P (t m) -> ready x25519 hkdf_read config g (t m)) ->
  (forall m st', P (t m) -> step x25519 hkdf_read config g (t m) st' -> Q st') ->
  (forall m g' st', g' <> g -> P (t m) -> step x25519 hkdf_read config g' (t m) st' -> P st') ->
  exists m, (n <= m)%nat /\ Q (t m).
Proof.
  intros Hn Hready Hgo Hkeep.
  assert (Hall : forall k, P (t (k + n)) \/ exists m, (n <= m)%nat /\ Q (t m)).
  { induction k as [|k [IH|IH]]; [by left| |by right]. cbn [Nat.add].
    destruct (run_step _ _ _ _ Ht (k + n)) as [-> |[g' Hs]]; [by left|].
    destruct (decide (g' = g)) as [-> |Hne]; [|left; by eapply Hkeep].
    right. exists (Datatypes.S (k + n)). split; [lia|by eapply Hgo]. }
  destruct (run_fair _ _ _ _ Ht g n) as (m & Hle & Hm).
  destruct (Hall (m - n)%nat) as [HP|HQ]; [|done]. replace (m - n + n)%nat with m in HP by lia.
  destruct Hm as [Hm|Hm]; [by destruct (Hm (Hready _ HP))|].
  exists (Datatypes.S m). split; [lia|]. by eapply Hgo.
Qed.

(** What came before: a state of a kind that is not the initial one and that
    only a step from [Q] enters. *)
Lemma came_from (P Q : state -> Prop) n : ~ P init ->
  (forall m g st', step x25519 hkdf_read config g (t m) st' -> P st' -> P (t m) \/ Q (t m)) -> P (t n) -> exists m, Q (t m).
Proof.
  intros Hinit Hstep. induction n as [|n IH]; [by rewrite (run_init _ _ _ _ Ht)|].
  destruct (run_step _ _ _ _ Ht n) as [-> |[g Hs]]; [done|]. intros HP.
  destruct (Hstep _ _ _ Hs HP) as [HP'|HQ]; [by apply IH|by exists n].
Qed.

(** The first goroutine: it leaves the mutex, and copies. *)
Lemma leads1 (X Y : client_side) n : g1 (t n) = X ->
  (forall m, g1 (t m) = X -> ready x25519 hkdf_read config G1 (t m)) ->
  (forall m st', g1 (t m) = X -> step x25519 hkdf_read config G1 (t m) st' -> g1 st' = Y) ->
  exists m, (n <= m)%nat /\ g1 (t m) = Y.
Proof.
  intros Hn Hr Hgo. apply (leads_to G1 (fun st => g1 st = X) (fun st => g1 st = Y)); try done.
  intros m g' st' Hne Hm Hs. destruct (proj1 (step_frame _ _ _ _ _ _ Hs) Hne) as [-> _]. done.
Qed.

Lemma leaving_leaves n : g1 (t n) = Leaving -> exists m, (n <= m)%nat /\ g1 (t m) = Decided.
Proof.
  intros Hn. apply (leads1 Leaving); [done| |].
  - intros m Hm. split; [by cbn; rewrite Hm|]. eexists. by apply step_unlock1.
  - intros m st' Hm Hs. by inversion Hs; subst; try congruence.
Qed.

Lemma decided_uploads n : (forall m, refused (t m)) -> g1 (t n) = Decided -> exists m, (n <= m)%nat /\ g1 (t m) = Uploading.
Proof.
  intros Href Hn. apply (leads1 Decided); [done| |].
  - intros m Hm. split; [by cbn; rewrite Hm|]. pose proof (inv_decided _ (reachable_inv _ (run_reachable m))) as Q.
    rewrite Hm in Q. destruct (decision (t m)) as [c|] eqn:Ec; [|done]. eexists. by eapply step_choose.
  - intros m st' Hm Hs. destruct (Href m) as [Ha Hst]. unfold is_accepted in Ha.
    inversion Hs as [| | | | |st0 c Hg Hc| | | | | | | | | | | | | |]; subst; try congruence.
    cbn. unfold forwards_client. rewrite Hc in Ha. by rewrite Ha, Hst.
Qed.

(** What has ended has begun. *)
Lemma uploaded n : (forall m, refused (t m)) -> g1 (t n) = ClientDone -> exists m, g1 (t m) = Uploading.
Proof.
  intros Href. apply (came_from (fun st => g1 st = ClientDone) (fun st => g1 st = Uploading)); [done|].
  intros m g st' Hs Hd. destruct (decide (g = G1)) as [-> |Hne].
  - destruct (Href m) as [Ha Hst]. unfold is_accepted in Ha.
    inversion Hs as [| | | | |st0 c Hg Hc| | | | | | | | | | | | | |]; subst; try done; auto.
    revert Hd. cbn. unfold forwards_client. rewrite Hc in Ha. by rewrite Ha, Hst.
  - left. by destruct (proj1 (step_frame _ _ _ _ _ _ Hs) Hne) as [<- _].
Qed.

(** Past its mutex, the first goroutine never takes it again. *)
Definition settled (g : client_side) : bool := decided g && negb (holds1 g).

Lemma decided_settles n : (forall m, refused (t m)) -> decided (g1 (t n)) = true ->
  (exists m, g1 (t m) = Uploading) /\ exists m, (n <= m)%nat /\ settled (g1 (t m)) = true.
Proof.
  intros Href Hd.
  assert (Hdec : forall k, g1 (t k) = Decided -> exists m, g1 (t m) = Uploading)
    by (intros k Hg; destruct (decided_uploads k Href Hg) as (m & _ & Hm); eauto).
  destruct (g1 (t n)) eqn:Hg; try done.
  - destruct (leaving_leaves n Hg) as (m & Hle & Hm). split; [by eapply Hdec|]. exists m. by rewrite Hm.
  - split; [by eapply Hdec|]. exists n. by rewrite Hg.
  - split; [by exists n|]. exists n. by rewrite Hg.
  - split; [by eapply uploaded|]. exists n. by rewrite Hg.
Qed.

Lemma settled_step g st st' : step x25519 hkdf_read config g st st' -> settled (g1 st) = true -> settled (g1 st') = true.
Proof.
  intros Hs Hst. destruct g; [|by destruct (proj1 (step_frame _ _ _ _ _ _ Hs)) as [-> _]..].
  inversion Hs; subst; cbn; match goal with E : g1 _ = _ |- _ => rewrite E in Hst; rewrite ?E end; try done.
  by destruct (forwards_client _ _).
Qed.

(** The second goroutine, when the mutex is its own. *)
Lemma leads2 (X : target_side -> Prop) (Y : target_side -> Prop) n : settled (g1 (t n)) = true -> X (g2 (t n)) ->
  (forall m, settled (g1 (t m)) = true -> X (g2 (t m)) -> ready x25519 hkdf_read config G2 (t m)) ->
  (forall m st', X (g2 (t m)) -> step x25519 hkdf_read config G2 (t m) st' -> Y (g2 st')) ->
  exists m, settled (g1 (t m)) = true /\ Y (g2 (t m)).
Proof.
  intros H1 H2 Hr Hgo.
  destruct (leads_to G2 (fun st => settled (g1 st) = true /\ X (g2 st)) (fun st => settled (g1 st) = true /\ Y (g2 st)) n)
    as (m & _ & Hm); [done| | | |by exists m].
  - intros m [Q1 Q2]. by apply Hr.
  - intros m st' [Q1 Q2] Hs. split; [by eapply settled_step|]. by eapply Hgo.
  - intros m g' st' Hne [Q1 Q2] Hs. split; [by eapply settled_step|].
    by rewrite (proj2 (step_frame _ _ _ _ _ _ Hs) Hne).
Qed.

Lemma mutex_free m : settled (g1 (t m)) = true -> holds2 (g2 (t m)) = false -> mutex (t m) = None.
Proof.
  intros H1 H2. destruct (reachable_ok _ (run_reachable m)) as [_ [_ ->]]. rewrite H2.
  unfold settled in H1. by destruct (decided _), (holds1 _).
Qed.

Definition ends_loop (g : target_side) : Prop := exists s, g = Unlocked s.

Lemma unlocked_downloads n : (forall m, refused (t m)) -> settled (g1 (t n)) = true -> ends_loop (g2 (t n)) ->
  exists m, g2 (t m) = Downloading.
Proof.
  intros Href H1 H2. destruct (leads2 ends_loop (fun g => g = Downloading) n H1 H2) as (m & _ & Hm); [| |by exists m].
  - intros m _ [s Hm]. split; [by cbn; rewrite Hm|]. eexists. by eapply step_after_loop.
  - intros m st' [s Hm] Hs. destruct (Href m) as [Ha Hst].
    pose proof (inv_download _ (reachable_inv _ (run_reachable m))) as Q. unfold download_ok in Q. rewrite Hm in Q.
    destruct Q as (_ & Q & _). specialize (Q Ha). inversion Hs; subst; try congruence.
    match goal with |- context [after_loop ?s' _] => assert (s' = s) as -> by congruence end.
    unfold after_loop, forwards_target. by rewrite Q, Ha, Hst.
Qed.

Lemma broken_downloads n : (forall m, refused (t m)) -> settled (g1 (t n)) = true -> (exists s, g2 (t n) = Broken s) ->
  exists m, g2 (t m) = Downloading.
Proof.
  intros Href H1 H2. destruct (leads2 (fun g => exists s, g = Broken s) ends_loop n H1 H2) as (m & Q1 & Q2);
    [| |by eapply unlocked_downloads].
  - intros m _ [s Hm]. split; [by cbn; rewrite Hm|]. eexists. by eapply step_unlock2.
  - intros m st' [s Hm] Hs. inversion Hs; subst; try congruence. by eexists.
Qed.

Lemma processing_downloads n : (forall m, refused (t m)) -> settled (g1 (t n)) = true ->
  (exists s chunk, g2 (t n) = Processing s chunk) -> exists m, g2 (t m) = Downloading.
Proof.
  intros Href H1 H2. destruct (leads2 (fun g => exists s chunk, g = Processing s chunk) (fun g => exists s, g = Broken s) n H1 H2)
    as (m & Q1 & Q2); [| |by eapply broken_downloads].
  - intros m _ (s & chunk & Hm). split; [by cbn; rewrite Hm|]. eexists. by eapply step_process.
  - intros m st' (s & chunk & Hm) Hs. destruct (Href m) as [Ha _]. inversion Hs; subst; try congruence.
    unfold after_read. rewrite Ha. by eexists.
Qed.

Lemma locking_downloads n : (forall m, refused (t m)) -> settled (g1 (t n)) = true ->
  (exists s chunk, g2 (t n) = Locking s chunk) -> exists m, g2 (t m) = Downloading.
Proof.
  intros Href H1 H2. destruct (leads2 (fun g => exists s chunk, g = Locking s chunk)
    (fun g => exists s chunk, g = Processing s chunk) n H1 H2) as (m & Q1 & Q2); [| |by eapply processing_downloads].
  - intros m Hst (s & chunk & Hm). split; [by cbn; rewrite Hm|]. eexists. eapply step_lock; [done|].
    apply mutex_free; [done|by rewrite Hm].
  - intros m st' (s & chunk & Hm) Hs. inversion Hs; subst; try congruence. by do 2 eexists.
Qed.

(** The target sends something, or its connection ends. *)
Lemma scanning_leaves n s : settled (g1 (t n)) = true -> g2 (t n) = Scanning s ->
  exists m, settled (g1 (t m)) = true /\ ((exists s chunk, g2 (t m) = Locking s chunk) \/ g2 (t m) = TargetLost).
Proof.
  intros H1 H2.
  assert (Hall : forall k, (settled (g1 (t (k + n))) = true /\ g2 (t (k + n)) = Scanning s) \/ exists m,
    settled (g1 (t m)) = true /\ ((exists s chunk, g2 (t m) = Locking s chunk) \/ g2 (t m) = TargetLost)).
  { induction k as [|k [[Q1 Q2]|IH]]; [by left| |by right]. cbn [Nat.add].
    destruct (run_step _ _ _ _ Ht (k + n)) as [-> |[g Hs]]; [by left|]. pose proof (settled_step _ _ _ Hs Q1) as Q1'.
    destruct (decide (g = G2)) as [-> |Hne]; [|left; by rewrite (proj2 (step_frame _ _ _ _ _ _ Hs) Hne)].
    right. exists (Datatypes.S (k + n)). split; [done|]. inversion Hs; subst; try congruence; [left; by do 2 eexists|by right]. }
  destruct (run_target _ _ _ _ Ht n s H2) as (m & Hle & Hm). destruct (Hall (m - n)%nat) as [[_ Q]|Q]; [|done].
  by replace (m - n + n)%nat with m in Q by lia.
Qed.

Lemma downloaded n : (forall m, refused (t m)) -> g2 (t n) = TargetDone -> exists m, g2 (t m) = Downloading.
Proof.
  intros Href. apply (came_from (fun st => g2 st = TargetDone) (fun st => g2 st = Downloading)); [done|].
  intros m g st' Hs Hd. destruct (decide (g = G2)) as [-> |Hne]; [|left; by rewrite <- (proj2 (step_frame _ _ _ _ _ _ Hs) Hne)].
  destruct (Href m) as [Ha Hst]. pose proof (inv_download _ (reachable_inv _ (run_reachable m))) as Q. unfold download_ok in Q.
  inversion Hs; subst; try done; auto.
  - revert Hd. unfold after_read. by rewrite Ha.
  - match goal with E : g2 _ = Unlocked _ |- _ => rewrite E in Q end. destruct Q as (_ & Q & _).
    revert Hd. unfold after_loop, forwards_target. by rewrite (Q Ha), Ha, Hst.
Qed.

Lemma settled_downloads n : (forall m, refused (t m)) -> settled (g1 (t n)) = true ->
  (exists m, g2 (t m) = Downloading) \/ exists m, g2 (t m) = TargetLost /\ fromTarget (t m) = [].
Proof.
  intros Href H1.
  assert (Hlost : forall m, g2 (t m) = TargetLost -> exists m, g2 (t m) = TargetLost /\ fromTarget (t m) = []).
  { intros m Hm. exists m. split; [done|]. pose proof (inv_download _ (reachable_inv _ (run_reachable m))) as Q.
    unfold download_ok in Q. rewrite Hm in Q. by apply Q, Href. }
  destruct (g2 (t n)) as [s|s chunk|s chunk|s|s|s| | |] eqn:Hg.
  - destruct (scanning_leaves n s H1 Hg) as (m & Q1 & [Q2|Q2]); [|by right; eapply Hlost].
    left. by eapply locking_downloads.
  - left. eapply locking_downloads; eauto.
  - left. eapply processing_downloads; eauto.
  - pose proof (inv_download _ (reachable_inv _ (run_reachable n))) as Q. unfold download_ok in Q. rewrite Hg in Q.
    destruct Q as (_ & Q & _). destruct (Href n). congruence.
  - left. eapply broken_downloads; eauto.
  - left. eapply unlocked_downloads; [done..|]. by exists s.
  - left. by exists n.
  - right. by eapply Hlost.
  - left. by eapply downloaded.
Qed.

End live.

(** C4: a client that is not accepted, with a server name the configuration
    lists, is connected to the target, however the goroutines are scheduled:
    in every fair run in which it is refused, the goroutine of the client comes
    to copy to the target, and that of the target comes to copy to the client,
    unless the target's connection ends before its first byte; at every point
    of the run what has been read from the client has been written to the
    target, and, while the target's goroutine copies, what has been read from
    the target, before the decision or after it, to the client. *)
Theorem unaccepted_connected t n c : run x25519 hkdf_read config t -> decision (t n) = Some c ->
  accepted c = false -> stole (t n) = false ->
  (exists m, g1 (t m) = Uploading) /\
  ((exists m, g2 (t m) = Downloading) \/ exists m, g2 (t m) = TargetLost /\ fromTarget (t m) = []) /\
  (forall m, toTarget (t m) = fromClient (t m)) /\
  (forall m, g2 (t m) = Downloading -> toClient (t m) = fromTarget (t m)).
Proof.
  intros Ht Hc Ha Hst. pose proof (run_refused t Ht n c Hc Ha Hst) as Href.
  assert (Hd : decided (g1 (t n)) = true).
  { destruct (decided (g1 (t n))) eqn:Q; [done|]. destruct (undecided _ (reachable_inv _ (run_reachable t Ht n)) Q). congruence. }
  destruct (decided_settles t Ht n Href Hd) as (Hup & k & _ & Hk'). split; [done|].
  split; [by apply (settled_downloads t Ht k)|].
  split; intros m; pose proof (reachable_inv _ (run_reachable t Ht m)) as Hi.
  - apply (inv_direct _ Hi). left. apply Href.
  - intros Hg. pose proof (inv_download _ Hi) as Q. unfold download_ok in Q. by rewrite Hg in Q.
Qed.

End invariant.

(** ** Witnesses *)

(** The laws of the parameters, for the functions of [RealityAuth]. *)
Lemma knock_x25519_ok : forall scalar point,
  (exists s, knock_x25519 scalar point = Ret s /\ length s = 32%nat /\ bytes_ok s) \/
  exists e, knock_x25519 scalar point = Err e.
Proof.
  intros scalar point. left. exists (replicate 32 7). split; [reflexivity|]. split; [reflexivity|]. apply Forall_replicate. unfold is_byte. lia.
Qed.

Lemma knock_hkdf_ok : forall secret salt info n,
  (exists k, knock_hkdf secret salt info n = Ret k /\ length k = n /\ bytes_ok k) \/
  exists e, knock_hkdf secret salt info n = Err e.
Proof.
  intros secret salt info n. left. exists (replicate n 9). split; [reflexivity|].
  split; [apply length_replicate|]. apply Forall_replicate. unfold is_byte. lia.
Qed.

Lemma knock_hello_bytes : bytes_ok knock_hello.
Proof.
  destruct knock_message_ok as (_ & Hb & _). apply List.Forall_forall. intros b Hin.
  rewrite forallb_forall in Hb. apply Hb in Hin. unfold is_byte. lia.
Qed.

(** The ClientHello, which does not ask for TLS 1.3, has been mirrored. *)
Definition other_client : client := new_client knock_message.
Definition other_start : state := set_g1 Parsing (Lock G1 init).
Definition other_wait : state := set_g1 Reading (Unlock other_start).
Definition other_mirror : state := set_g1 Parsing (upload [22; 3; 1] (Lock G1 other_wait)).
Definition other_state : state := decide_client false other_client other_mirror.

Lemma other_decides :
  authenticate knock_x25519 knock_hkdf knock_config 0 false (Some knock_message) None VersionTLS12 =
  Ret (false, other_client).
Proof.
  assert (Hn : has (ServerNames knock_config) (clientHelloMsg.serverName knock_message) = true)
    by (vm_compute; reflexivity).
  unfold authenticate. rewrite Hn. reflexivity.
Qed.

Lemma other_decided : step knock_x25519 knock_hkdf knock_config G1 other_mirror other_state.
Proof.
  apply (step_decide knock_x25519 knock_hkdf knock_config other_mirror 0 knock_hello knock_message
    None VersionTLS12); [reflexivity|apply knock_message_ok|apply knock_hello_bytes|apply other_decides].
Qed.

Lemma other_reachable : reachable knock_x25519 knock_hkdf knock_config other_state.
Proof.
  unfold reachable. apply rtc_l with other_start; [exists G1; by apply step_start|].
  apply rtc_l with other_wait; [exists G1; by apply step_wait|].
  apply rtc_l with other_mirror; [exists G1; by apply step_mirror|].
  apply rtc_once. exists G1. exact other_decided.
Qed.

Lemma relay_transparent_witness : toTarget other_state `prefix_of` fromClient other_state /\
  toTarget other_state = [22; 3; 1].
Proof.
  split; [|reflexivity].
  exact (proj1 (relay_transparent _ _ knock_x25519_ok knock_hkdf_ok knock_config other_state other_reachable)).
Defined.

(** It is unlocked, the target answers with three bytes, and both goroutines
    relay; from there on nobody has anything to send. *)
Definition other_unlocked : state := set_g1 Decided (Unlock other_state).
Definition other_uploads : state := set_g1 Uploading other_unlocked.
Definition other_locking : state := set_g2 (Locking new_scan [21; 3; 3]) (read_target [21; 3; 3] other_uploads).
Definition other_processing : state := set_g2 (Processing new_scan [21; 3; 3]) (Lock G2 other_locking).
Definition other_broken : state := after_read [21; 3; 3] new_scan other_processing.
Definition other_behind : state := set_g2 (Unlocked (append_saved [21; 3; 3] new_scan)) (Unlock other_broken).
Definition other_downloads : state := after_loop (append_saved [21; 3; 3] new_scan) other_behind.
Definition other_trace : list state := [init; other_start; other_wait; other_mirror; other_state; other_unlocked;
  other_uploads; other_locking; other_processing; other_broken; other_behind].
Definition other_run (n : nat) : state := nth n other_trace other_downloads.

Lemma other_run_end n : (11 <= n)%nat -> other_run n = other_downloads.
Proof. intros Hn. unfold other_run. by apply nth_overflow. Qed.

Lemma other_run_step n : other_run (S n) = other_run n \/ moves knock_x25519 knock_hkdf knock_config (other_run n) (other_run (S n)).
Proof.
  destruct (Nat.le_gt_cases 11 n) as [Hn|Hn]; [left; by rewrite !other_run_end by lia|]. right.
  destruct n as [|[|[|[|[|[|[|[|[|[|[|n]]]]]]]]]]]; [..|lia].
  - exists G1. by apply step_start.
  - exists G1. by apply step_wait.
  - exists G1. by apply step_mirror.
  - exists G1. exact other_decided.
  - exists G1. by apply step_unlock1.
  - exists G1. by apply (step_choose _ _ _ other_unlocked other_client).
  - exists G2. apply step_target; [done..|]. repeat (constructor; [unfold is_byte; lia|]). constructor.
  - exists G2. by apply step_lock.
  - exists G2. by apply step_process.
  - exists G2. by apply step_unlock2.
  - exists G2. by apply step_after_loop.
Qed.

Lemma other_fair : run knock_x25519 knock_hkdf knock_config other_run.
Proof.
  split; [done|exact other_run_step| |].
  - intros g n. exists (n `max` 11)%nat. split; [lia|]. left. rewrite other_run_end by lia.
    intros [Hw _]. by destruct g.
  - intros n s _. exists (n `max` 11)%nat. split; [lia|]. by rewrite other_run_end by lia.
Qed.

Lemma unaccepted_connected_witness : (exists m, g1 (other_run m) = Uploading) /\
  (exists m, g2 (other_run m) = Downloading) /\ (forall m, toTarget (other_run m) = fromClient (other_run m)) /\
  toClient other_downloads = [21; 3; 3].
Proof.
  destruct (unaccepted_connected _ _ knock_x25519_ok knock_hkdf_ok knock_config other_run 4 other_client other_fair
    eq_refl eq_refl eq_refl) as (H1 & _ & H3 & _).
  split; [exact H1|]. split; [exists 11%nat; reflexivity|]. split; [exact H3|reflexivity].
Defined.

(** The flight of [RealityScan], read in four parts by an accepted client's
    second goroutine. *)
Definition scan_of (r : scan_result) : scan := match r with MoreData s | Mismatch s | Complete s => s end.
Definition target_scan1 : scan := scan_of (on_read (nth 0 target_chunks []) new_scan).
Definition target_scan2 : scan := scan_of (on_read (nth 1 target_chunks []) target_scan1).

Lemma target_reads : on_read (nth 0 target_chunks []) new_scan = MoreData target_scan1 /\
  on_read (nth 1 target_chunks []) target_scan1 = MoreData target_scan2 /\
  on_read (nth 2 target_chunks []) target_scan2 = Complete target_scan.
Proof. vm_compute. split_and!; reflexivity. Qed.

Lemma target_chunk_ok i : bytes_ok (nth i target_chunks []).
Proof.
  pose proof target_chunks_ok as Hb. destruct (nth_in_or_default i target_chunks []) as [Hin| ->]; [|constructor].
  apply Forall_forall. intros b Hin'. rewrite Forall_forall in Hb. apply Hb, list_elem_of_In, in_concat.
  exists (nth i target_chunks []). split; [done|by apply list_elem_of_In].
Qed.

(** One turn of the loop, from [target.Read] on. *)
Lemma loop_turn st s chunk r : on_read chunk s = r ->
  reachable knock_x25519 knock_hkdf knock_config st -> g2 st = Scanning s -> mutex st = None ->
  chunk <> [] -> bytes_ok chunk -> is_accepted st = true ->
  exists st', reachable knock_x25519 knock_hkdf knock_config st' /\ is_accepted st' = true /\
    match r with
    | MoreData s' => g2 st' = Scanning s' /\ mutex st' = None
    | Complete s' => g2 st' = Handshaking s'
    | Mismatch s' => g2 st' = Broken s'
    end.
Proof.
  intros <- Hr Hg Hm Hne Hb Ha. set (st1 := set_g2 (Locking s chunk) (read_target chunk st)).
  set (st2 := set_g2 (Processing s chunk) (Lock G2 st1)). exists (after_read chunk s st2).
  assert (Ha2 : is_accepted st2 = true) by exact Ha.
  split; [|unfold after_read; rewrite Ha2; by destruct (on_read chunk s)].
  apply rtc_r with st2; [|exists G2; by apply step_process]. apply rtc_r with st1; [|exists G2; by apply step_lock].
  apply rtc_r with st; [done|]. exists G2. by apply step_target.
Qed.

Lemma accepted_reachable : exists st, reachable knock_x25519 knock_hkdf knock_config st /\ g2 st = Scanning new_scan /\
  mutex st = None /\ is_accepted st = true.
Proof.
  destruct knock_message_ok as (Hm & _ & Hacc).
  destruct (authenticate _ _ _ _ _ _ _ _) as [[s c]| |] eqn:Ea; [|done..].
  exists (set_g1 Decided (Unlock (decide_client s c other_start))). split; [|split_and!; [reflexivity..|exact Hacc]].
  apply rtc_l with other_start; [exists G1; by apply step_start|].
  apply rtc_l with (decide_client s c other_start); [|apply rtc_once; exists G1; by apply step_unlock1].
  exists G1. apply (step_decide _ _ _ other_start 0 knock_hello knock_message None VersionTLS13 s c);
    [reflexivity|exact Hm|exact knock_hello_bytes|exact Ea].
Qed.

Lemma serving_reachable : exists st, reachable knock_x25519 knock_hkdf knock_config st /\
  g2 st = Handshaking target_scan.
Proof.
  destruct target_reads as (R1 & R2 & R3). destruct accepted_reachable as (st0 & Hr0 & Hg0 & Hm0 & Ha0).
  destruct (loop_turn st0 _ _ _ R1 Hr0 Hg0 Hm0) as (st1 & Hr1 & Ha1 & Q1);
    [by vm_compute|apply target_chunk_ok|exact Ha0|]. destruct Q1 as [Hg1 Hm1].
  destruct (loop_turn st1 _ _ _ R2 Hr1 Hg1 Hm1) as (st2 & Hr2 & Ha2 & Q2);
    [by vm_compute|apply target_chunk_ok|exact Ha1|]. destruct Q2 as [Hg2 Hm2].
  destruct (loop_turn st2 _ _ _ R3 Hr2 Hg2 Hm2) as (st3 & Hr3 & _ & Q3);
    [by vm_compute|apply target_chunk_ok|exact Ha2|]. exists st3. split; [exact Hr3|exact Q3].
Qed.

Lemma handshake_authenticated_witness : exists st c, g2 st = Handshaking target_scan /\ decision st = Some c /\
  accepted c = true /\ proved knock_x25519 knock_hkdf knock_config c.
Proof.
  destruct serving_reachable as (st & Hr & Hg).
  destruct (handshake_authenticated _ _ knock_x25519_ok knock_hkdf_ok knock_config st target_scan Hr Hg)
    as (_ & _ & _ & (c & H1 & H2 & H3) & _).
  exists st, c. split; [exact Hg|]. split; [exact H1|]. split; [exact H2|exact H3].
Defined.
