(* ===== verification/Ticket.v ===== *)
(** * ticket.go, and the ticket keys of common.go

    Session states and their encoding, session tickets, and the keys that
    encrypt them: the explicit ones and the rotation of the automatic ones.

    An [x509.Certificate] is a value of a type [X] with its [Raw] bytes;
    [newCert] of cache.go returns the certificate that the cache has for the
    bytes, which [x509.ParseCertificate] made.  AES-CTR of the standard library
    is a parameter; HMAC is over the hash functions of [Kdf].  A [time.Time] is
    in nanoseconds. *)

From S2P Require Import Prelude Common HalfConn Cryptobyte Hello Messages Gcm CipherSuites Kdf.

Open Scope go_scope.

(** [x509]: parsing, and the bytes of a certificate. *)
Class X509 (X : Type) := {
  Raw : X -> bytes;
  ParseCertificate : bytes -> outcome conn_error X
}.

(** ** [SessionState] *)

Module SessionState.
Section session.
Context {X : Type} `{X509 X}.

Record t := mk {
  Extra : list bytes;
  EarlyData : bool;
  version : Z;
  isClient : bool;
  cipherSuite : Z;
  createdAt : Z;
  secret : bytes;
  extMasterSecret : bool;
  peerCertificates : list X;
  activeCertHandles : list X;
  ocspResponse : option bytes;
  scts : option (list bytes);
  verifiedChains : list (list X);
  alpnProtocol : bytes;
  useBy : Z;
  ageAdd : Z;
  ticket : bytes;
  curveID : Z
}.

Definition certificatesToBytesSlice (certs : list X) : list bytes := Raw <$> certs.

(** [readUint64] of handshake_messages.go. *)
Definition readUint64 `{CryptoString} (s : bytes) : option (Z * bytes) :=
  let? (hi, s) := ReadUint32 s in
  let? (lo, s) := ReadUint32 s in
  Some ((hi ≪ 32) ||| lo, s).

Section encode.
Context {B : Type} `{Builder B}.

Definition add_chain (chain : list X) : B -> B :=
  AddUint24LengthPrefixed (
    match chain with
    | [] => SetError (EText "tls: internal error: empty verified chain")
    | _ :: rest => for_each (fun cert => AddUint24LengthPrefixed (AddBytes (Raw cert))) rest
    end).

Definition Bytes (s : t) : outcome conn_error bytes :=
  Cryptobyte.Bytes ((
    AddUint16 (version s) ;>
    AddUint8 (if isClient s then 2 else 1) ;>
    AddUint16 (cipherSuite s) ;>
    addUint64 (createdAt s) ;>
    AddUint8LengthPrefixed (AddBytes (secret s)) ;>
    AddUint24LengthPrefixed (for_each (fun extra => AddUint24LengthPrefixed (AddBytes extra)) (Extra s)) ;>
    AddUint8 (if extMasterSecret s then 1 else 0) ;>
    AddUint8 (if EarlyData s then 1 else 0) ;>
    certificateMsgTLS13.marshalCertificate B
      (mkCertificate (certificatesToBytesSlice (peerCertificates s)) (ocspResponse s) (scts s)) ;>
    AddUint24LengthPrefixed (for_each add_chain (verifiedChains s)) ;>
    when (EarlyData s) (AddUint8LengthPrefixed (AddBytes (alpnProtocol s))) ;>
    when (VersionTLS13 <=? version s) (when (isClient s) (addUint64 (useBy s) ;> AddUint32 (ageAdd s))) ;>
    when (negb (VersionTLS13 <=? version s)) (AddUint16 (curveID s))) NewBuilder).
End encode.

Section decode.
Context `{CryptoString}.

(** [errors.New("tls: invalid session encoding")] *)
Definition valid {A} (o : option A) : outcome conn_error A :=
  match o with Some a => Ret a | None => Err (EText "tls: invalid session encoding") end.

Definition read_extra (extra : bytes) : option (list bytes) := read_list readUint24LengthPrefixed extra [].

Definition flag (v : Z) : option bool := if v =? 0 then Some false else if v =? 1 then Some true else None.

(** [globalCertCache.newCert] over a slice; the first error is returned. *)
Fixpoint newCerts (certs : list bytes) : outcome conn_error (list X) :=
  match certs with
  | [] => Ret []
  | der :: certs => let! c := ParseCertificate der in let! l := newCerts certs in Ret (c :: l)
  end.

(** The certificates of a chain after the leaf: what was read before an error
    is parsed first. *)
Fixpoint read_chain_fuel (fuel : nat) (certList : bytes) (acc : list X) : outcome conn_error (list X) :=
  if Empty certList then Ret acc else
  match fuel with
  | O => Panic "out of fuel"
  | Datatypes.S fuel =>
      let! (cert, certList) := valid (readUint24LengthPrefixed certList) in
      let! c := ParseCertificate cert in
      read_chain_fuel fuel certList (acc ++ [c])
  end.
Definition read_chain (certList : bytes) : outcome conn_error (list X) :=
  read_chain_fuel (length certList) certList [].

(** The verified chains, each after the leaf [peers[0]]. *)
Fixpoint read_chains_fuel (fuel : nat) (peers : list X) (chainList : bytes) (acc : list (list X))
  : outcome conn_error (list (list X)) :=
  if Empty chainList then Ret acc else
  match fuel with
  | O => Panic "out of fuel"
  | Datatypes.S fuel =>
      let! (certList, chainList) := valid (ReadUint24LengthPrefixed chainList) in
      match peers with
      | [] => valid None
      | leaf :: _ =>
          let! rest := read_chain certList in
          read_chains_fuel fuel peers chainList (acc ++ [leaf :: rest])
      end
  end.
Definition read_chains (peers : list X) (chainList : bytes) : outcome conn_error (list (list X)) :=
  read_chains_fuel (length chainList) peers chainList [].

(** The fields that depend on the kind of session: the protocol, and
    [useBy], [ageAdd] and [curveID]. *)
Definition read_protocol (EarlyData : bool) (s : bytes) : outcome conn_error (bytes * bytes) :=
  if EarlyData then valid (readUint8LengthPrefixed s) else Ret ([], s).
Definition read_last (version : Z) (isClient : bool) (s : bytes) : outcome conn_error (Z * Z * Z) :=
  if VersionTLS13 <=? version then
    if isClient then
      let! (useBy, s) := valid (ReadUint64 s) in
      let! (ageAdd, s) := valid (ReadUint32 s) in Ret (useBy, ageAdd, 0)
    else Ret (0, 0, 0)
  else let! (curveID, s) := valid (ReadUint16 s) in Ret (0, 0, curveID).

Definition ParseSessionState (data : bytes) : outcome conn_error t :=
  let! (version, s) := valid (ReadUint16 data) in
  let! (typ, s) := valid (ReadUint8 s) in
  let! (cipherSuite, s) := valid (ReadUint16 s) in
  let! (createdAt, s) := valid (readUint64 s) in
  let! (secret, s) := valid (readUint8LengthPrefixed s) in
  let! (extra, s) := valid (ReadUint24LengthPrefixed s) in
  let! (extMasterSecret, s) := valid (ReadUint8 s) in
  let! (earlyData, s) := valid (ReadUint8 s) in
  if (length secret =? 0)%nat then valid None else
  let! (cert, s) := valid (certificateMsgTLS13.unmarshalCertificate s (mkCertificate [] None None)) in
  let! Extra := valid (read_extra extra) in
  let! isClient := (if typ =? 1 then Ret false else if typ =? 2 then Ret true
                    else Err (EText "tls: unknown session encoding")) in
  let! extMasterSecret := valid (flag extMasterSecret) in
  let! EarlyData := valid (flag earlyData) in
  let! peers := newCerts (Certificate_ cert) in
  if isClient && (length peers =? 0)%nat then Err (EText "tls: no server certificates in client session") else
  let! (chainList, s) := valid (ReadUint24LengthPrefixed s) in
  let! chains := read_chains peers chainList in
  let! (alpn, s) := read_protocol EarlyData s in
  let! (useBy, ageAdd, curveID) := read_last version isClient s in
  Ret (mk Extra EarlyData version isClient cipherSuite createdAt secret extMasterSecret peers
         (peers ++ concat (tail <$> chains)) (OCSPStaple cert) (SignedCertificateTimestamps cert) chains alpn useBy ageAdd
         [] curveID).
End decode.
End session.
Arguments t X : clear implicits.
End SessionState.

(** ** Ticket keys *)

Record ticketKey := mkTicketKey { aesKey : bytes; hmacKey : bytes; created : Z }.

(** [time.Duration] in nanoseconds; [time.Time.Sub] saturates. *)
Definition second : Z := 10 ^ 9.
Definition hour : Z := 3600 * second.
Definition ticketKeyLifetime : Z := 7 * 24 * hour.
Definition ticketKeyRotation : Z := 24 * hour.
Definition maxSessionTicketLifetime : Z := 7 * 24 * hour.
Definition time_Sub (t u : Z) : Z := Z.max (- 2 ^ 63) (Z.min (2 ^ 63 - 1) (t - u)).

Section keys.
Context `{Hashes}.

Definition legacyTicketKeyNameLen : nat := 16.

(** [c.time()] is [now]. *)
Definition ticketKeyFromBytes (now : Z) (b : bytes) : ticketKey :=
  let hashed := h_sum sha512_fn b in
  let aesKey := Gcm.copy (replicate 16 0) (drop legacyTicketKeyNameLen hashed) in
  let hmacKey := Gcm.copy (replicate 16 0) (drop (legacyTicketKeyNameLen + length aesKey) hashed) in
  mkTicketKey aesKey hmacKey now.

(** What [Config] keeps of tickets. *)
Record ticketConfig := mkTicketConfig {
  SessionTicketsDisabled : bool;
  SessionTicketKey : bytes;                (* [32]byte *)
  sessionTicketKeys : list ticketKey;
  autoSessionTicketKeys : list ticketKey
}.

Definition deprecatedSessionTicketKey : bytes := str "DEPRECATED".
Definition HasPrefix (s prefix : bytes) : bool := bool_decide (take (length prefix) s = prefix).
Definition zero_key : bytes := replicate 32 0.

Definition set_SessionTicketKey (k : bytes) (c : ticketConfig) : ticketConfig :=
  mkTicketConfig (SessionTicketsDisabled c) k (sessionTicketKeys c) (autoSessionTicketKeys c).
Definition set_sessionTicketKeys (l : list ticketKey) (c : ticketConfig) : ticketConfig :=
  mkTicketConfig (SessionTicketsDisabled c) (SessionTicketKey c) l (autoSessionTicketKeys c).
Definition set_autoSessionTicketKeys (l : list ticketKey) (c : ticketConfig) : ticketConfig :=
  mkTicketConfig (SessionTicketsDisabled c) (SessionTicketKey c) (sessionTicketKeys c) l.

(** [initLegacySessionTicketKeyRLocked]; [rnd] is what [io.ReadFull] reads of 32
    bytes.  The conditions are checked again with the exclusive lock. *)
Definition initLegacySessionTicketKeyRLocked {E} (now : Z) (rnd : option bytes) (c : ticketConfig)
  : outcome E ticketConfig :=
  if negb (bool_decide (SessionTicketKey c = zero_key)) &&
     (HasPrefix (SessionTicketKey c) deprecatedSessionTicketKey || (0 <? length (sessionTicketKeys c))%nat)
  then Ret c
  else if bool_decide (SessionTicketKey c = zero_key) then
    match rnd with
    | None => Panic "tls: unable to generate random session ticket key"
    | Some b => Ret (set_SessionTicketKey (Gcm.copy b deprecatedSessionTicketKey) c)
    end
  else if negb (HasPrefix (SessionTicketKey c) deprecatedSessionTicketKey) && (length (sessionTicketKeys c) =? 0)%nat
  then Ret (set_sessionTicketKeys [ticketKeyFromBytes now (SessionTicketKey c)] c)
  else Ret c.

(** The first key is fresh. *)
Definition fresh_keys (now : Z) (l : list ticketKey) : bool :=
  match l with [] => false | k :: _ => time_Sub now (created k) <? ticketKeyRotation end.

(** The part of [ticketKeys] with the exclusive lock; the condition is checked
    again, since another goroutine may have been there before. *)
Definition rotate {E} (now : Z) (rnd : option bytes) (c : ticketConfig) : outcome E ticketConfig :=
  if fresh_keys now (autoSessionTicketKeys c) then Ret c else
  match rnd with
  | None => Panic "unable to generate random session ticket key"
  | Some newKey =>
      Ret (set_autoSessionTicketKeys
        (ticketKeyFromBytes now newKey ::
         filter (fun k => time_Sub now (created k) <? ticketKeyLifetime) (autoSessionTicketKeys c)) c)
  end.

(** [ticketKeys] for a [Config]: [rnd] are the coming reads of [c.rand()]. *)
Definition own_ticketKeys {E} (now : Z) (rnd : nat -> option bytes) (c : ticketConfig)
  : outcome E (list ticketKey * ticketConfig) :=
  if SessionTicketsDisabled c then Ret ([], c) else
  let! c := initLegacySessionTicketKeyRLocked now (rnd 0%nat) c in
  if negb (length (sessionTicketKeys c) =? 0)%nat then Ret (sessionTicketKeys c, c) else
  if fresh_keys now (autoSessionTicketKeys c) then Ret (autoSessionTicketKeys c, c) else
  let! c := rotate now (rnd 1%nat) c in
  Ret (autoSessionTicketKeys c, c).

(** [ticketKeys]: with the keys, the two configurations. *)
Definition ticketKeys {E} (now : Z) (rnd : nat -> option bytes) (configForClient : option ticketConfig) (c : ticketConfig)
  : outcome E (list ticketKey * option ticketConfig * ticketConfig) :=
  match configForClient with
  | Some cfc =>
      if SessionTicketsDisabled cfc then Ret ([], Some cfc, c) else
      let! cfc := initLegacySessionTicketKeyRLocked now (rnd 2%nat) cfc in
      if negb (length (sessionTicketKeys cfc) =? 0)%nat then Ret (sessionTicketKeys cfc, Some cfc, c) else
      let! (l, c) := own_ticketKeys now rnd c in Ret (l, Some cfc, c)
  | None => let! (l, c) := own_ticketKeys now rnd c in Ret (l, None, c)
  end.

Definition SetSessionTicketKeys {E} (now : Z) (keys : list bytes) (c : ticketConfig) : outcome E ticketConfig :=
  if (length keys =? 0)%nat then Panic "tls: keys must have at least one key"
  else Ret (set_sessionTicketKeys (ticketKeyFromBytes now <$> keys) c).

(** ** Tickets *)

(** [cipher.NewCTR(block, iv).XORKeyStream] with AES under [key] *)
Context (aes_ctr : bytes -> bytes -> bytes -> bytes).

Definition BlockSize : nat := 16.
Definition sha256_Size : nat := 32.

(** [iv] is what is read from [c.rand()]. *)
Definition encryptTicket (iv : option bytes) (state : bytes) (ticketKeys : list ticketKey) : outcome conn_error bytes :=
  match ticketKeys with
  | [] => Err (EText "tls: internal error: session ticket keys unavailable")
  | key :: _ =>
      match iv with
      | None => Err ERand
      | Some iv =>
          let authenticated := iv ++ aes_ctr (aesKey key) iv state in
          Ret (authenticated ++ hmac sha256_fn (hmacKey key) authenticated)
      end
  end.

(** The loop over the keys. *)
Fixpoint try_keys (iv ciphertext authenticated macBytes : bytes) (ticketKeys : list ticketKey) : option bytes :=
  match ticketKeys with
  | [] => None
  | key :: ticketKeys =>
      let expected := hmac sha256_fn (hmacKey key) authenticated in
      if negb (ConstantTimeCompare macBytes expected =? 1) then try_keys iv ciphertext authenticated macBytes ticketKeys
      else Some (aes_ctr (aesKey key) iv ciphertext)
  end.

Definition decryptTicket (encrypted : bytes) (ticketKeys : list ticketKey) : option bytes :=
  if (length encrypted <? BlockSize + sha256_Size)%nat then None else
  let iv := take BlockSize encrypted in
  let ciphertext := slice BlockSize (length encrypted - sha256_Size) encrypted in
  let authenticated := take (length encrypted - sha256_Size) encrypted in
  let macBytes := drop (length encrypted - sha256_Size) encrypted in
  try_keys iv ciphertext authenticated macBytes ticketKeys.

Section tickets.
Context {X : Type} `{X509 X} `{CryptoString} {B : Type} `{Builder B}.

(** [EncryptTicket] and [DecryptTicket], with the keys of [ticketKeys(nil)]. *)
Definition EncryptTicket (iv : option bytes) (ticketKeys : list ticketKey) (ss : SessionState.t X)
  : outcome conn_error bytes :=
  let! stateBytes := SessionState.Bytes (B:=B) ss in
  encryptTicket iv stateBytes ticketKeys.

Definition DecryptTicket (identity : bytes) (ticketKeys : list ticketKey) : option (SessionState.t X) :=
  let? stateBytes := decryptTicket identity ticketKeys in
  match SessionState.ParseSessionState stateBytes with
  | Ret s => Some s
  | _ => None
  end.

(** [ClientSessionState] *)
Record ClientSessionState := mkClientSessionState { session : option (SessionState.t X) }.

Definition set_ticket (ticket : bytes) (s : SessionState.t X) : SessionState.t X :=
  SessionState.mk (SessionState.Extra s) (SessionState.EarlyData s) (SessionState.version s) (SessionState.isClient s)
    (SessionState.cipherSuite s) (SessionState.createdAt s) (SessionState.secret s) (SessionState.extMasterSecret s)
    (SessionState.peerCertificates s) (SessionState.activeCertHandles s) (SessionState.ocspResponse s)
    (SessionState.scts s) (SessionState.verifiedChains s) (SessionState.alpnProtocol s) (SessionState.useBy s)
    (SessionState.ageAdd s) ticket (SessionState.curveID s).

Definition ResumptionState (cs : option ClientSessionState) : bytes * option (SessionState.t X) :=
  match cs with
  | Some (mkClientSessionState (Some s)) => (SessionState.ticket s, Some s)
  | _ => ([], None)
  end.

Definition NewResumptionState (ticket : bytes) (state : SessionState.t X) : ClientSessionState :=
  mkClientSessionState (Some (set_ticket ticket state)).
End tickets.
End keys.
