(* ===== verification/TicketProofs.v ===== *)
(** * Sessions and tickets: theorems

    A session state is read back from its encoding; a ticket opens under every
    list of keys that still has its key; and the rotation keeps a key for the
    lifetime of its tickets, and not longer than it should. *)

From Stdlib Require Import Sorted.
From S2P Require Import Prelude Common HalfConn Cryptobyte Hello Messages WireProofs MessagesProofs Gcm CipherSuites Kdf KdfProofs Ticket.

Open Scope go_scope.
#[local] Opaque be_put.

(** ** 64-bit numbers *)

Definition is_u64 (v : Z) : Prop := 0 <= v < 2 ^ 64.

Lemma u64_halves v : is_u64 v -> 0 <= v ≫ 32 < 256 ^ Z.of_nat 4 /\ 0 <= v mod 256 ^ Z.of_nat 4 < 256 ^ Z.of_nat 4 /\
  v = (v ≫ 32) * 256 ^ Z.of_nat 4 + v mod 256 ^ Z.of_nat 4.
Proof.
  intros Hv. unfold is_u64 in Hv. change (256 ^ Z.of_nat 4) with (2 ^ 32). rewrite Z.shiftr_div_pow2 by lia.
  pose proof (Z.mod_pos_bound v (2 ^ 32)). Z.div_mod_to_equations. lia.
Qed.

Lemma put_halves v : is_u64 v -> be_put 4 (v ≫ 32) ++ be_put 4 v = be_put 8 v.
Proof.
  intros Hv. destruct (u64_halves v Hv) as (H1 & H2 & H3). rewrite <- (be_put_mod 4 v).
  rewrite be_put_app by done. by rewrite <- H3.
Qed.

Section wire.
Context {X : Type} `{X509 X} `{CryptoStringLaws} {B : Type} `{BuilderLaws B}.

Lemma appends_uint64 v : appends (B:=B) (addUint64 v) (Some (be_put 4 (v ≫ 32) ++ be_put 4 v)).
Proof. apply (appends_then _ _ (Some _) (Some _)); [apply AddUint32_spec|apply AddUint32_spec]. Qed.

(** A chain, after its leaf. *)
Definition chain_enc (chain : list X) : option bytes :=
  prefixed 3 (match chain with
              | [] => None
              | _ :: rest => oconcat ((fun cert => prefixed 3 (Some (Raw cert))) <$> rest)
              end).

Lemma appends_chain chain : appends (SessionState.add_chain (B:=B) chain) (chain_enc chain).
Proof. apply AddUint24LengthPrefixed_spec. destruct chain as [|c rest]; [apply SetError_spec|appends_tac]. Qed.

Lemma appends_certificate c : appends (certificateMsgTLS13.marshalCertificate B c) (certificate_enc c).
Proof. apply appends_marshalCertificate. Qed.

Lemma readUint64_put v s : is_u64 v -> SessionState.readUint64 (be_put 4 (v ≫ 32) ++ be_put 4 v ++ s) = Some (v, s).
Proof.
  intros Hv. destruct (u64_halves v Hv) as (H4 & H5 & H6). unfold SessionState.readUint64.
  rewrite <- (be_put_mod 4 v). reads. rewrite lor_shiftl_add by done.
  do 2 f_equal. rewrite H6 at 3. change (256 ^ Z.of_nat 4) with (2 ^ 32). lia.
Qed.

(** [x509] gives back the certificate it has parsed. *)
Definition parsed (c : X) : Prop := ParseCertificate (Raw c) = Ret c.

Lemma newCerts_put l : Forall parsed l -> SessionState.newCerts (SessionState.certificatesToBytesSlice l) = Ret l.
Proof.
  unfold SessionState.certificatesToBytesSlice. induction 1 as [|c l Hc _ IH]; [done|].
  cbn [fmap list_fmap SessionState.newCerts]. rewrite Hc. cbn [obind]. by rewrite IH.
Qed.

Lemma read_chain_put l z : Forall parsed l -> oconcat ((fun cert => prefixed 3 (Some (Raw cert))) <$> l) = Some z ->
  forall fuel acc, (length z <= fuel)%nat -> SessionState.read_chain_fuel fuel z acc = Ret (acc ++ l).
Proof.
  intros Hl. revert z. induction Hl as [|c l Hc _ IH]; intros z Hz fuel acc Hf.
  { injection Hz as <-. rewrite app_nil_r. by destruct fuel. }
  cbn [fmap list_fmap oconcat] in Hz. apply oapp_Some in Hz as (y & z' & Hy & Hz' & ->).
  pose proof (prefixed_ne 3 _ _ ltac:(lia) Hy) as Hne. apply prefixed_Some in Hy as (r & Hr & Hb & ->).
  injection Hr as <-. rewrite !length_app in Hf. rewrite length_be_put in Hf.
  destruct fuel as [|fuel]; [lia|].
  assert (He : Empty ((be_put 3 (Z.of_nat (length (Raw c))) ++ Raw c) ++ z') = false).
  { unfold Empty. apply Nat.eqb_neq. rewrite !length_app, length_be_put. lia. }
  cbn [SessionState.read_chain_fuel]. rewrite He. unfold readUint24LengthPrefixed.
  rewrite ReadUint24LengthPrefixed_spec, read_prefixed_put by done. cbn [SessionState.valid obind].
  rewrite Hc. cbn [obind]. rewrite (IH z' Hz') by lia. by rewrite <- app_assoc.
Qed.

(** Every chain starts with the leaf. *)
Lemma read_chains_put peers chains z : Forall (fun chain => Forall parsed (tail chain) /\ head chain = head peers) chains ->
  oconcat (chain_enc <$> chains) = Some z ->
  forall fuel acc, (length z <= fuel)%nat -> SessionState.read_chains_fuel fuel peers z acc = Ret (acc ++ chains).
Proof.
  intros Hl. revert z. induction Hl as [|chain l [Hc Hh] _ IH]; intros z Hz fuel acc Hf.
  { injection Hz as <-. rewrite app_nil_r. by destruct fuel. }
  cbn [fmap list_fmap oconcat] in Hz. apply oapp_Some in Hz as (y & z' & Hy & Hz' & ->).
  apply prefixed_Some in Hy as (r & Hr & Hb & ->). rewrite !length_app in Hf. rewrite length_be_put in Hf.
  destruct fuel as [|fuel]; [lia|].
  assert (He : Empty ((be_put 3 (Z.of_nat (length r)) ++ r) ++ z') = false).
  { unfold Empty. apply Nat.eqb_neq. rewrite !length_app, length_be_put. lia. }
  cbn [SessionState.read_chains_fuel]. rewrite He, ReadUint24LengthPrefixed_spec, read_prefixed_put by done.
  cbn [SessionState.valid obind]. destruct chain as [|leaf rest]; [done|].
  destruct peers as [|p peers]; [done|]. injection Hh as <-. cbn [tail] in Hc.
  unfold SessionState.read_chain. rewrite (read_chain_put rest r Hc Hr) by lia. cbn [obind app].
  rewrite (IH z' Hz') by lia. by rewrite <- app_assoc.
Qed.

(** The session as it comes back: without the ticket and the fields its kind
    does not store, and with handles on the certificates. *)
Definition stored (s : SessionState.t X) : SessionState.t X :=
  let new := VersionTLS13 <=? SessionState.version s in
  SessionState.mk (SessionState.Extra s) (SessionState.EarlyData s) (SessionState.version s) (SessionState.isClient s)
    (SessionState.cipherSuite s) (SessionState.createdAt s) (SessionState.secret s) (SessionState.extMasterSecret s)
    (SessionState.peerCertificates s)
    (SessionState.peerCertificates s ++ concat (tail <$> SessionState.verifiedChains s))
    (SessionState.ocspResponse s) (SessionState.scts s) (SessionState.verifiedChains s)
    (if SessionState.EarlyData s then SessionState.alpnProtocol s else [])
    (if new && SessionState.isClient s then SessionState.useBy s else 0)
    (if new && SessionState.isClient s then SessionState.ageAdd s else 0) []
    (if new then 0 else SessionState.curveID s).

(** The certificate message with a session's certificates. *)
Definition session_certificate (s : SessionState.t X) : Certificate :=
  mkCertificate (SessionState.certificatesToBytesSlice (SessionState.peerCertificates s)) (SessionState.ocspResponse s)
    (SessionState.scts s).

(** A session the code can make: integers of their widths, a secret, the
    certificates of a connection, and chains from the leaf. *)
Record session_ok (s : SessionState.t X) : Prop := {
  ok_version : is_u16 (SessionState.version s);
  ok_suite : is_u16 (SessionState.cipherSuite s);
  ok_created : is_u64 (SessionState.createdAt s);
  ok_secret : SessionState.secret s <> [];
  ok_useBy : is_u64 (SessionState.useBy s);
  ok_ageAdd : is_u32 (SessionState.ageAdd s);
  ok_curve : is_u16 (SessionState.curveID s);
  ok_certificate : certificate_ok (session_certificate s);
  ok_peers : Forall parsed (SessionState.peerCertificates s);
  ok_client : SessionState.isClient s = true -> SessionState.peerCertificates s <> [];
  ok_chains : Forall (fun chain => Forall parsed (tail chain) /\ head chain = head (SessionState.peerCertificates s))
                (SessionState.verifiedChains s)
}.

Lemma read_extra_put l z : oconcat ((fun v => prefixed 3 (Some v)) <$> l) = Some z -> SessionState.read_extra z = Some l.
Proof.
  intros Hz. apply (read_list_put readUint24LengthPrefixed (fun v => prefixed 3 (Some v)) l) with (acc := []) in Hz; [done| |].
  - intros s x s' Q. unfold readUint24LengthPrefixed in Q. rewrite ReadUint24LengthPrefixed_spec in Q.
    apply read_prefixed_length in Q. lia.
  - apply Forall_true. intros v y s Hy. split; [eapply prefixed_ne; [|exact Hy]; lia|]. inv_enc.
    unfold readUint24LengthPrefixed. rewrite ReadUint24LengthPrefixed_spec, <- app_assoc. by apply read_prefixed_put_app.
Qed.

(** The end of the encoding, which depends on the kind of session. *)
Definition tail_enc (s : SessionState.t X) : option bytes :=
  oapp (if SessionState.EarlyData s then prefixed 1 (Some (SessionState.alpnProtocol s)) else Some [])
  (oapp (if VersionTLS13 <=? SessionState.version s then
           if SessionState.isClient s then
             oapp (Some (be_put 4 (SessionState.useBy s ≫ 32) ++ be_put 4 (SessionState.useBy s)))
                  (Some (be_put 4 (SessionState.ageAdd s)))
           else Some []
         else Some [])
        (if negb (VersionTLS13 <=? SessionState.version s) then Some (be_put 2 (SessionState.curveID s)) else Some [])).

(** What [Bytes] writes. *)
Definition session_enc (s : SessionState.t X) : option bytes :=
  oapp (Some (be_put 2 (SessionState.version s))) (oapp (Some (be_put 1 (if SessionState.isClient s then 2 else 1)))
  (oapp (Some (be_put 2 (SessionState.cipherSuite s)))
  (oapp (Some (be_put 4 (SessionState.createdAt s ≫ 32) ++ be_put 4 (SessionState.createdAt s)))
  (oapp (prefixed 1 (Some (SessionState.secret s)))
  (oapp (prefixed 3 (oconcat ((fun v => prefixed 3 (Some v)) <$> SessionState.Extra s)))
  (oapp (Some (be_put 1 (if SessionState.extMasterSecret s then 1 else 0)))
  (oapp (Some (be_put 1 (if SessionState.EarlyData s then 1 else 0)))
  (oapp (certificate_enc (session_certificate s))
  (oapp (prefixed 3 (oconcat (chain_enc <$> SessionState.verifiedChains s))) (tail_enc s)))))))))).

Lemma Bytes_enc s data : SessionState.Bytes (B:=B) s = Ret data <-> session_enc s = Some data.
Proof.
  unfold SessionState.Bytes. apply appends_new. unfold session_enc, tail_enc.
  do 10 (apply appends_then; [first [apply appends_uint64 | apply appends_certificate
    | apply AddUint24LengthPrefixed_spec, appends_for_each, appends_chain | appends_tac]|]).
  apply appends_then; [appends_tac|]. apply appends_then; [|appends_tac].
  apply (appends_when _ (when _ _)). apply appends_when, appends_then; [apply appends_uint64|appends_tac].
Qed.

(** Reads in the error monad. *)
Ltac sreads := repeat first [read_step | rewrite readUint64_put by assumption | progress cbn [SessionState.valid obind]].

(** The fields at the end. *)
Lemma tail_read s z : is_u64 (SessionState.useBy s) -> is_u32 (SessionState.ageAdd s) -> is_u16 (SessionState.curveID s) ->
  tail_enc s = Some z ->
  exists z', SessionState.read_protocol (SessionState.EarlyData s) z = Ret (SessionState.alpnProtocol (stored s), z') /\
    SessionState.read_last (SessionState.version s) (SessionState.isClient s) z' =
    Ret (SessionState.useBy (stored s), SessionState.ageAdd (stored s), SessionState.curveID (stored s)).
Proof.
  intros Hu Ha Hc Hz. unfold tail_enc in Hz. apply oapp_Some in Hz as (y & z' & Hy & Hz & ->). exists z'. split.
  - unfold SessionState.read_protocol, stored. cbn [SessionState.alpnProtocol].
    destruct (SessionState.EarlyData s); inv_enc; [|done]. by sreads.
  - unfold SessionState.read_last, stored. cbn [SessionState.useBy SessionState.ageAdd SessionState.curveID].
    destruct (VersionTLS13 <=? SessionState.version s), (SessionState.isClient s); inv_enc; cbn [negb andb] in *; inv_enc;
      rewrite ?put_halves, ?app_nil_r by done; sreads; try done.
Qed.

Lemma is_empty_false {T} (l : list T) : l <> [] -> (length l =? 0)%nat = false.
Proof. by destruct l. Qed.

(** A session is read back from its encoding, but for the ticket and the
    fields that its kind does not store. *)
Lemma session_roundtrip s data : session_ok s -> SessionState.Bytes (B:=B) s = Ret data ->
  SessionState.ParseSessionState data = Ret (stored s).
Proof.
  intros [Hv Hcs Hcr Hsec Hub Hag Hcu Hcert Hpe Hcl Hch] Hd%Bytes_enc. unfold session_enc in Hd.
  destruct (certificate_enc _) as [zc|] eqn:Ezc; [|inv_enc; done].
  destruct (tail_enc s) as [zt|] eqn:Ezt; [|inv_enc; done].
  inv_enc. destruct (tail_read s zt Hub Hag Hcu Ezt) as (z' & Et1 & Et2).
  assert (B1 : forall b : bool, 0 <= (if b then 2 else 1) < 256 ^ Z.of_nat 1) by (intros []; lia).
  assert (B2 : forall b : bool, 0 <= (if b then 1 else 0) < 256 ^ Z.of_nat 1) by (intros []; lia).
  pose proof (B1 (SessionState.isClient s)). pose proof (B2 (SessionState.extMasterSecret s)).
  pose proof (B2 (SessionState.EarlyData s)).
  unfold SessionState.ParseSessionState. sreads. rewrite is_empty_false by done.
  rewrite (unmarshalCertificate_put (session_certificate s) zc) by done. cbn [SessionState.valid obind].
  erewrite read_extra_put by eassumption. cbn [SessionState.valid obind].
  assert (E1 : forall b : bool, (if (if b then 2 else 1) =? 1 then Ret false else if (if b then 2 else 1) =? 2 then Ret true
    else Err (EText "tls: unknown session encoding")) = Ret (E:=conn_error) b) by (by intros []).
  assert (E2 : forall b : bool, SessionState.flag (if b then 1 else 0) = Some b) by (by intros []).
  rewrite E1. cbn [obind]. rewrite !E2. cbn [SessionState.valid obind Certificate_ session_certificate].
  rewrite newCerts_put by done. cbn [obind].
  destruct (SessionState.isClient s && _) eqn:Ec.
  { apply andb_true_iff in Ec as [Ec El%Nat.eqb_eq%nil_length_inv]. by apply Hcl in Ec. }
  sreads. unfold SessionState.read_chains. rewrite (read_chains_put _ (SessionState.verifiedChains s)) by done.
  cbn [obind app]. rewrite Et1. cbn [obind]. rewrite Et2. done.
Qed.

End wire.

(** ** The rotation of the keys *)

Section rotation.
Context `{Hashes}.

(** The keys are the automatic ones. *)
Definition automatic (c : ticketConfig) : Prop :=
  SessionTicketsDisabled c = false /\ sessionTicketKeys c = [] /\
  (SessionTicketKey c = zero_key \/ HasPrefix (SessionTicketKey c) deprecatedSessionTicketKey = true).

(** A source of 32 random bytes. *)
Definition rand32 (rnd : nat -> option bytes) : Prop := forall n b, rnd n = Some b -> length b = 32%nat.

Lemma initLegacy_automatic {E} now rnd c c' : automatic c -> (forall b, rnd = Some b -> length b = 32%nat) ->
  initLegacySessionTicketKeyRLocked (E:=E) now rnd c = Ret c' ->
  automatic c' /\ autoSessionTicketKeys c' = autoSessionTicketKeys c.
Proof.
  intros (Hd & Hk & Hp) Hr. unfold initLegacySessionTicketKeyRLocked. rewrite Hk. cbn [length Nat.ltb Nat.leb Nat.eqb].
  destruct (bool_decide (SessionTicketKey c = zero_key)) eqn:Ez; cbn [negb andb].
  - destruct rnd as [b|]; [|done]. intros [= <-]. specialize (Hr b eq_refl). split; [|done].
    split_and!; [done|done|]. right. cbn [SessionTicketKey set_SessionTicketKey]. unfold HasPrefix.
    apply bool_decide_eq_true. unfold Gcm.copy. rewrite Hr. by rewrite take_app_length'.
  - apply bool_decide_eq_false in Ez. destruct Hp as [?|Hp]; [done|]. rewrite Hp. cbn [orb]. intros [= <-].
    split; [|done]. split_and!; [done|done|by right].
Qed.

(** A call for a configuration with automatic keys. *)
Lemma own_automatic {E} now rnd c l c' : automatic c -> rand32 rnd -> own_ticketKeys (E:=E) now rnd c = Ret (l, c') ->
  automatic c' /\ l = autoSessionTicketKeys c' /\
  ((fresh_keys now (autoSessionTicketKeys c) = true /\ l = autoSessionTicketKeys c) \/
   (fresh_keys now (autoSessionTicketKeys c) = false /\ exists b, l = ticketKeyFromBytes now b ::
      filter (fun k => time_Sub now (created k) <? ticketKeyLifetime) (autoSessionTicketKeys c))).
Proof.
  intros Ha Hr. unfold own_ticketKeys. destruct Ha as (Hd & Ha). rewrite Hd.
  destruct (initLegacySessionTicketKeyRLocked now (rnd 0%nat) c) as [c1| |] eqn:E1; [|done..]. cbn [obind].
  destruct (initLegacy_automatic now (rnd 0%nat) c c1 (conj Hd Ha) (Hr 0%nat) E1) as [Ha1 Hau].
  pose proof Ha1 as (Hd1 & Hk1 & Hp1). rewrite Hk1, Hau. cbn [length Nat.eqb negb].
  destruct (fresh_keys now (autoSessionTicketKeys c)) eqn:Ef.
  { intros [= <- <-]. rewrite Hau. split; [done|]. split; [done|]. by left. }
  unfold rotate. rewrite Hau, Ef. destruct (rnd 1%nat) as [b|]; [|done]. cbn [obind]. intros [= <- <-].
  split; [done|]. split; [done|]. right. split; [done|]. by exists b.
Qed.

(** Calls of [ticketKeys] one after the other, each at its time. *)
Fixpoint calls {E} (l : list (Z * (nat -> option bytes))) (c : ticketConfig) : outcome E ticketConfig :=
  match l with
  | [] => Ret c
  | (now, rnd) :: l => let! (_, c) := own_ticketKeys now rnd c in calls l c
  end.

(** A key that is not too old stays. *)
Lemma calls_keep {E} l c c' k : automatic c -> Forall (fun call => rand32 (snd call) /\
    fst call - created k < ticketKeyLifetime) l ->
  k ∈ autoSessionTicketKeys c -> calls (E:=E) l c = Ret c' -> automatic c' /\ k ∈ autoSessionTicketKeys c'.
Proof.
  revert c. induction l as [|[now rnd] l IH]; intros c Ha Hl Hk; cbn [calls]; [by intros [= <-]|].
  apply Forall_cons in Hl as [[Hr Ht] Hl]. cbn [fst snd] in *.
  destruct (own_ticketKeys now rnd c) as [[l1 c1]| |] eqn:E1; [|done..]. cbn [obind].
  destruct (own_automatic now rnd c l1 c1 Ha Hr E1) as (Ha1 & -> & Hc). apply IH; [done|done|].
  destruct Hc as [[_ ->]|(_ & b & ->)]; [done|]. apply list_elem_of_further, list_elem_of_filter. split; [|done].
  apply Is_true_true, Z.ltb_lt. unfold time_Sub, ticketKeyLifetime, hour, second in *. lia.
Qed.

Lemma calls_automatic {E} l c c' : automatic c -> Forall (fun call => rand32 (snd call)) l ->
  calls (E:=E) l c = Ret c' -> automatic c'.
Proof.
  revert c. induction l as [|[now rnd] l IH]; intros c Ha Hl; cbn [calls]; [by intros [= <-]|].
  apply Forall_cons in Hl as [Hr Hl]. destruct (own_ticketKeys now rnd c) as [[l1 c1]| |] eqn:E1; [|done..].
  cbn [obind]. apply IH; [|done]. by destruct (own_automatic now rnd c l1 c1 Ha Hr E1).
Qed.

Lemma calls_snoc {E} l now rnd c c1 keys c2 : calls (E:=E) l c = Ret c1 -> own_ticketKeys (E:=E) now rnd c1 = Ret (keys, c2) ->
  calls (E:=E) (l ++ [(now, rnd)]) c = Ret c2.
Proof.
  intros Hc Ho. revert c Hc. induction l as [|[t r] l IH]; intros c Hc; cbn [app calls] in *.
  - injection Hc as ->. by rewrite Ho.
  - destruct (own_ticketKeys t r c) as [[l1 c1']| |]; [|done..]. cbn [obind] in *. by apply IH.
Qed.

(** The first key of a call is fresh. *)
Lemma own_fresh {E} now rnd c l c' : automatic c -> rand32 rnd -> own_ticketKeys (E:=E) now rnd c = Ret (l, c') ->
  exists k l', l = k :: l' /\ now - created k < ticketKeyRotation.
Proof.
  intros Ha Hr Ho. destruct (own_automatic now rnd c l c' Ha Hr Ho) as (_ & _ & [[Hf ->]|(_ & b & ->)]).
  - destruct (autoSessionTicketKeys c) as [|k l']; [done|]. exists k, l'. split; [done|].
    cbn in Hf. apply Z.ltb_lt in Hf. unfold time_Sub, ticketKeyRotation, hour, second in *. lia.
  - eexists _, _. split; [done|]. cbn. unfold ticketKeyRotation, hour, second. lia.
Qed.

(** Keys a day or more apart, the first not from the future, the last less
    than a week older than the first. *)
Definition apart (k k' : ticketKey) : Prop := ticketKeyRotation <= created k - created k'.
Definition keys_ok (now : Z) (l : list ticketKey) : Prop :=
  match l with
  | [] => True
  | k :: l' => StronglySorted apart l /\ created k <= now /\ Forall (fun k' => created k - created k' < ticketKeyLifetime) l
  end.

Lemma keys_ok_later now now' l : now <= now' -> keys_ok now l -> keys_ok now' l.
Proof. intros Hn. destruct l as [|k l]; [done|]. intros (? & ? & ?). split_and!; [done|lia|done]. Qed.

Lemma StronglySorted_filter_keys (P : ticketKey -> bool) l : StronglySorted apart l -> StronglySorted apart (filter P l).
Proof.
  induction 1 as [|k l Hs IH Hk]; [constructor|]. cbn [filter list_filter]. case_decide; [|done].
  constructor; [done|]. rewrite Forall_forall in *. intros k' Hk'. apply list_elem_of_filter in Hk' as [_ Hk']. by apply Hk.
Qed.

Lemma fresh_keys_spec now k l : fresh_keys now (k :: l) = true <-> now - created k < ticketKeyRotation.
Proof. cbn. rewrite Z.ltb_lt. unfold time_Sub, ticketKeyRotation, hour, second. lia. Qed.

Lemma own_keys_ok {E} now rnd c l c' : automatic c -> rand32 rnd -> keys_ok now (autoSessionTicketKeys c) ->
  own_ticketKeys (E:=E) now rnd c = Ret (l, c') -> keys_ok now (autoSessionTicketKeys c').
Proof.
  intros Ha Hr Hk Ho. destruct (own_automatic now rnd c l c' Ha Hr Ho) as (_ & <- & [[_ ->]|(Hf & b & ->)]); [done|].
  destruct (autoSessionTicketKeys c) as [|k0 l0] eqn:El.
  { split; [repeat constructor|]. split; [cbn; lia|]. repeat constructor. cbn. unfold ticketKeyLifetime, hour, second. lia. }
  destruct Hk as (Hs & Hk0 & _).
  assert (Hold : now - created k0 < ticketKeyRotation -> False) by (intros Q%(fresh_keys_spec now k0 l0); congruence).
  assert (Hall : forall k, k ∈ k0 :: l0 -> ticketKeyRotation <= now - created k).
  { intros k [->|Hin]%elem_of_cons; [lia|]. apply StronglySorted_inv in Hs as [_ Hs].
    rewrite Forall_forall in Hs. specialize (Hs k Hin). unfold apart, ticketKeyRotation, hour, second in *. lia. }
  unfold keys_ok. split_and!.
  - constructor; [by apply StronglySorted_filter_keys|]. apply Forall_forall. intros k' Hk'.
    apply list_elem_of_filter in Hk' as [_ Hk']. by apply Hall.
  - cbn. lia.
  - constructor; [cbn; unfold ticketKeyLifetime, hour, second; lia|]. apply Forall_forall. intros k' Hk'.
    apply list_elem_of_filter in Hk' as [Hlt%Is_true_true%Z.ltb_lt Hk']. cbn [created ticketKeyFromBytes].
    unfold time_Sub, ticketKeyLifetime, hour, second in *. lia.
Qed.

(** The number of keys, from the time they span. *)
Lemma apart_count l lo hi : StronglySorted apart l -> Forall (fun k => lo <= created k <= hi) l -> l <> [] ->
  (Z.of_nat (length l) - 1) * ticketKeyRotation <= hi - lo.
Proof.
  intros Hs. revert hi. induction Hs as [|k l Hs IH Hk]; intros hi Hl Hne; [done|].
  apply Forall_cons in Hl as [Hk1 Hl]. destruct l as [|k1 l]; [cbn; unfold ticketKeyRotation, hour, second; lia|].
  assert (Hl' : Forall (fun k => lo <= created k <= hi - ticketKeyRotation) (k1 :: l)).
  { apply Forall_forall. intros k' Hk'. rewrite Forall_forall in Hl, Hk. specialize (Hl k' Hk'). specialize (Hk k' Hk').
    unfold apart in Hk. lia. }
  specialize (IH _ Hl' ltac:(done)). cbn [length] in *. lia.
Qed.

Lemma keys_ok_few now l : keys_ok now l -> (length l <= 7)%nat.
Proof.
  destruct l as [|k l]; [cbn; lia|]. intros (Hs & _ & Hl).
  assert (Hb : Forall (fun k' => created k - ticketKeyLifetime + 1 <= created k' <= created k) (k :: l)).
  { apply Forall_forall. intros k' Hk'. rewrite Forall_forall in Hl. specialize (Hl k' Hk').
    apply StronglySorted_inv in Hs as [_ Hs]. rewrite Forall_forall in Hs.
    apply elem_of_cons in Hk' as [->|Hk']; [lia|]. specialize (Hs k' Hk'). unfold apart, ticketKeyRotation, hour, second in Hs. lia. }
  pose proof (apart_count (k :: l) _ _ Hs Hb ltac:(done)) as Hc.
  unfold ticketKeyRotation, ticketKeyLifetime, hour, second in Hc. lia.
Qed.

(** A clock that does not run backwards. *)
Fixpoint monotone (from : Z) (l : list (Z * (nat -> option bytes))) : Prop :=
  match l with [] => True | (now, _) :: l => from <= now /\ monotone now l end.

Lemma last_default {T} (l : list T) d d' : l <> [] -> List.last l d = List.last l d'.
Proof. induction l as [|x [|y l] IH]; intros Hl; [done|done|]. by apply IH. Qed.

Lemma calls_keys_ok {E} l from c c' : automatic c -> Forall (fun call => rand32 (snd call)) l -> monotone from l ->
  keys_ok from (autoSessionTicketKeys c) -> calls (E:=E) l c = Ret c' ->
  automatic c' /\ keys_ok (List.last (map fst l) from) (autoSessionTicketKeys c').
Proof.
  revert from c. induction l as [|[now rnd] l IH]; intros from c Ha Hl Hm Hk; cbn [calls]; [by intros [= <-]|].
  apply Forall_cons in Hl as [Hr Hl]. cbn [monotone] in Hm. destruct Hm as [Hfrom Hm].
  destruct (own_ticketKeys now rnd c) as [[l1 c1]| |] eqn:E1; [|done..]. cbn [obind]. intros Hc.
  pose proof (own_keys_ok now rnd c l1 c1 Ha Hr (keys_ok_later _ _ _ Hfrom Hk) E1) as Hk1.
  destruct (own_automatic now rnd c l1 c1 Ha Hr E1) as (Ha1 & _).
  destruct (IH now c1 Ha1 Hl Hm Hk1 Hc) as [Ha' Hk']. split; [done|].
  cbn [map fst]. destruct l as [|call l]; [done|]. by rewrite (last_default (map fst (call :: l)) now from) in Hk'.
Qed.

(** C37: the rotation of the automatic ticket keys: however the calls are
    timed, as long as the clock does not run backwards, every call gets a key
    less than a day old to encrypt with, no key that is a week older than it,
    keys at least a day apart, and never more than seven of them. *)
Theorem ticketKeys_rotation {E} l c c1 now rnd keys c2 : automatic c -> autoSessionTicketKeys c = [] ->
  Forall (fun call => rand32 (snd call)) (l ++ [(now, rnd)]) -> monotone 0 (l ++ [(now, rnd)]) ->
  calls (E:=E) l c = Ret c1 -> own_ticketKeys (E:=E) now rnd c1 = Ret (keys, c2) ->
  (length keys <= 7)%nat /\ StronglySorted apart keys /\
  exists k rest, keys = k :: rest /\ created k <= now < created k + ticketKeyRotation /\
    Forall (fun k' => created k - created k' < ticketKeyLifetime) rest.
Proof.
  intros Ha He Hl Hm Hc Ho.
  pose proof Hl as [Hl1 Hr]%Forall_app. apply Forall_cons in Hr as [Hr _].
  pose proof (calls_automatic l c c1 Ha Hl1 Hc) as Ha1.
  destruct (calls_keys_ok _ 0 c c2 Ha Hl Hm ltac:(by rewrite He) (calls_snoc _ _ _ _ _ _ _ Hc Ho)) as [_ Hk].
  rewrite map_app in Hk. cbn [map fst] in Hk. rewrite last_last in Hk.
  destruct (own_automatic now rnd c1 keys c2 Ha1 Hr Ho) as (_ & -> & _).
  destruct (own_fresh now rnd c1 _ c2 Ha1 Hr Ho) as (k & rest & Ek & Hf). rewrite Ek in *.
  split; [by eapply keys_ok_few|]. destruct Hk as (Hs & Hk1 & Hk2). split; [done|]. exists k, rest.
  apply Forall_cons in Hk2 as [_ Hk2]. split_and!; [done|done|lia|done].
Qed.
End rotation.

(** ** Tickets *)

Section tickets.
Context `{Hashes} {X : Type} `{X509 X} `{CryptoStringLaws} {B : Type} `{BuilderLaws B}.
Context (aes_ctr : bytes -> bytes -> bytes -> bytes).
(** Counter mode keeps the length and undoes itself; SHA-256 has 32 bytes. *)
Context (Hctr_length : forall key iv data, length (aes_ctr key iv data) = length data).
Context (Hctr : forall key iv data, aes_ctr key iv (aes_ctr key iv data) = data).
Context (Hsha : hash_ok sha256_fn) (Hsize : h_Size sha256_fn = sha256_Size).

(** No other key of the list gives the ticket its MAC. *)
Definition own_mac (enc : bytes) (key : ticketKey) (keys : list ticketKey) : Prop :=
  forall k, k ∈ keys ->
  hmac sha256_fn (hmacKey k) (take (length enc - sha256_Size) enc) =
  hmac sha256_fn (hmacKey key) (take (length enc - sha256_Size) enc) -> aesKey k = aesKey key.

Lemma length_ticket_mac key msg : length (hmac sha256_fn key msg) = sha256_Size.
Proof. unfold hmac. rewrite h_sum_length by done. apply Hsize. Qed.

Lemma try_keys_spec iv ciphertext auth key keys : key ∈ keys ->
  (forall k, k ∈ keys -> hmac sha256_fn (hmacKey k) auth = hmac sha256_fn (hmacKey key) auth -> aesKey k = aesKey key) ->
  try_keys aes_ctr iv ciphertext auth (hmac sha256_fn (hmacKey key) auth) keys = Some (aes_ctr (aesKey key) iv ciphertext).
Proof.
  induction keys as [|k keys IH]; intros Hin Hk; [by apply elem_of_nil in Hin|]. cbn [try_keys].
  unfold ConstantTimeCompare. case_bool_decide as Hm; cbn [Z.eqb negb].
  - by rewrite (Hk k (list_elem_of_here _ _)).
  - apply elem_of_cons in Hin as [->|Hin]; [done|]. apply IH; [done|]. intros k' Hk'. by apply Hk, list_elem_of_further.
Qed.

Lemma decrypt_encryptTicket iv state key rest enc keys : length iv = BlockSize ->
  encryptTicket aes_ctr (Some iv) state (key :: rest) = Ret enc -> key ∈ keys -> own_mac enc key keys ->
  decryptTicket aes_ctr enc keys = Some state.
Proof.
  intros Hiv [= He] Hin Hown. set (auth := iv ++ aes_ctr (aesKey key) iv state) in *.
  assert (Hla : length auth = (BlockSize + length state)%nat) by (unfold auth; by rewrite length_app, Hctr_length, Hiv).
  assert (Hl : length enc = (BlockSize + length state + sha256_Size)%nat) by (by rewrite <- He, length_app, length_ticket_mac, Hla).
  assert (Ht : take (length enc - sha256_Size) enc = auth).
  { rewrite Hl, <- He. apply take_app_length'. lia. }
  assert (Hd : drop (length enc - sha256_Size) enc = hmac sha256_fn (hmacKey key) auth).
  { rewrite Hl, <- He. apply drop_app_length'. lia. }
  unfold own_mac in Hown. rewrite Ht in Hown. unfold decryptTicket. rewrite (proj2 (Nat.ltb_ge _ _)) by lia.
  rewrite Ht, Hd, (try_keys_spec _ _ _ key) by done.
  assert (Hs : slice BlockSize (length enc - sha256_Size) enc = aes_ctr (aesKey key) iv state).
  { unfold slice. rewrite <- skipn_firstn_comm. fold (take (length enc - sha256_Size) enc). rewrite Ht.
    apply drop_app_length'. done. }
  assert (Hi : take BlockSize enc = iv).
  { rewrite <- He. unfold auth. rewrite <- app_assoc. by apply take_app_length'. }
  by rewrite Hs, Hi, Hctr.
Qed.

(** C36: a session ticket resumes its session: a session encrypted under the
    keys of some moment comes back from its ticket under the keys of any later
    call in the next six days, however many rotations there were, unless
    HMAC-SHA256 gives the ticket the same MAC under another key. *)
Theorem ticket_resumes c now rnd keys c1 iv (ss : SessionState.t X) enc l c2 later rnd' keys' c3 :
  automatic c -> rand32 rnd -> own_ticketKeys (E:=conn_error) now rnd c = Ret (keys, c1) ->
  session_ok ss -> length iv = BlockSize -> EncryptTicket (B:=B) aes_ctr (Some iv) keys ss = Ret enc ->
  Forall (fun call => rand32 (snd call) /\ fst call < now + 6 * 24 * hour) (l ++ [(later, rnd')]) ->
  calls (E:=conn_error) l c1 = Ret c2 -> own_ticketKeys (E:=conn_error) later rnd' c2 = Ret (keys', c3) ->
  (forall key, head keys = Some key -> own_mac enc key keys') ->
  DecryptTicket aes_ctr enc keys' = Some (stored ss).
Proof.
  intros Ha Hr Ho Hss Hiv Henc Hl Hc Ho' Hmac.
  destruct (own_automatic now rnd c keys c1 Ha Hr Ho) as (Ha1 & Ek & _).
  destruct (own_fresh now rnd c keys c1 Ha Hr Ho) as (k & rest & Ekeys & Hf). subst keys.
  assert (Hl' : Forall (fun call => rand32 (snd call) /\ fst call - created k < ticketKeyLifetime) (l ++ [(later, rnd')])).
  { eapply Forall_impl; [exact Hl|]. intros call [? Hcall]. split; [done|].
    unfold ticketKeyRotation, ticketKeyLifetime, hour, second in *. lia. }
  destruct (calls_keep (E:=conn_error) _ c1 c3 k Ha1 Hl') as [_ Hk]; [rewrite Ekeys; apply list_elem_of_here| |].
  { by apply (calls_snoc l later rnd' c1 c2 keys' c3). }
  pose proof Hl' as [Hl1 Hl2]%Forall_app. apply Forall_cons in Hl2 as [[Hr' _] _].
  assert (Ha2 : automatic c2).
  { apply (calls_automatic (E:=conn_error) l c1 c2 Ha1); [|done]. eapply Forall_impl; [exact Hl1|]. by intros ? [? _]. }
  destruct (own_automatic later rnd' c2 keys' c3 Ha2 Hr' Ho') as (_ & Ek' & _). rewrite <- Ek' in Hk.
  rewrite Ekeys in Henc, Hmac. unfold EncryptTicket in Henc. destruct (SessionState.Bytes ss) as [state| |] eqn:Eb; [|done..]. cbn [obind] in Henc.
  unfold DecryptTicket. rewrite (decrypt_encryptTicket iv state k rest enc keys' Hiv Henc Hk) by (by apply Hmac).
  cbn [mbind option_bind]. by rewrite (session_roundtrip ss state Hss Eb).
Qed.
End tickets.

(** ** Witnesses *)

#[local] Instance raw_X509 : X509 bytes := {| Raw c := c; ParseCertificate := Ret |}.
Definition xor_ctr (key iv data : bytes) : bytes := (fun b => Z.lxor b 0x55) <$> data.
Definition w_rnd (n : nat) : option bytes := Some (replicate 32 (Z.of_nat n + 1)).
Definition w_config : ticketConfig := mkTicketConfig false zero_key [] [].
Definition w_session : SessionState.t bytes :=
  SessionState.mk [[1; 2]] true VersionTLS13 false TLS_AES_128_GCM_SHA256 5 [7; 8; 9] true [[3]] [] (Some [4]) None
    [[[3]; [6; 6]]] [104; 50] 0 0 [] 0.

Lemma w_rnd_ok : rand32 w_rnd.
Proof. intros n b [= <-]. reflexivity. Qed.

Lemma w_config_ok : automatic w_config.
Proof. split_and!; [done|done|by left]. Qed.

Lemma w_session_ok : session_ok w_session.
Proof.
  assert (H16 : is_u16 VersionTLS13 /\ is_u16 TLS_AES_128_GCM_SHA256 /\ is_u16 0) by (split_and!; vm_compute; done).
  assert (H64 : is_u64 5 /\ is_u64 0 /\ is_u32 0) by (split_and!; vm_compute; done).
  constructor; cbn [w_session SessionState.version SessionState.cipherSuite SessionState.createdAt SessionState.secret
    SessionState.useBy SessionState.ageAdd SessionState.curveID SessionState.peerCertificates SessionState.isClient
    SessionState.verifiedChains]; try tauto; try discriminate.
  - by split; [split|].
  - repeat constructor.
  - repeat constructor.
Qed.

(** The keys of three days: one call a day, and those of the last one. *)
Definition w_calls : list (Z * (nat -> option bytes)) := [(24 * hour, w_rnd); (48 * hour, w_rnd)].
Definition w_own (now : Z) (c : ticketConfig) : list ticketKey * ticketConfig :=
  match @own_ticketKeys low_hashes conn_error now w_rnd c with Ret r => r | _ => ([], c) end.
Definition w_keys : list ticketKey := fst (w_own 1 w_config).
Definition w_config1 : ticketConfig := snd (w_own 1 w_config).
Definition w_config2 : ticketConfig :=
  match @calls low_hashes conn_error w_calls w_config1 with Ret c => c | _ => w_config1 end.
Definition w_keys' : list ticketKey := fst (w_own (72 * hour) w_config2).
Definition w_config3 : ticketConfig := snd (w_own (72 * hour) w_config2).
Definition w_enc : bytes :=
  match @EncryptTicket low_hashes xor_ctr bytes _ plain_builder _ (Some (replicate 16 1)) w_keys w_session with
  | Ret enc => enc
  | _ => []
  end.

Lemma w_run : @own_ticketKeys low_hashes conn_error 1 w_rnd w_config = Ret (w_keys, w_config1) /\
  @calls low_hashes conn_error w_calls w_config1 = Ret w_config2 /\
  @own_ticketKeys low_hashes conn_error (72 * hour) w_rnd w_config2 = Ret (w_keys', w_config3) /\
  @EncryptTicket low_hashes xor_ctr bytes _ plain_builder _ (Some (replicate 16 1)) w_keys w_session = Ret w_enc /\
  length w_keys' = 3%nat /\ forallb (fun k => bool_decide (aesKey k = replicate 16 0)) (w_keys ++ w_keys') = true.
Proof. vm_compute. split_and!; reflexivity. Qed.

Lemma w_aesKey k : k ∈ w_keys ++ w_keys' -> aesKey k = replicate 16 0.
Proof.
  destruct w_run as (_ & _ & _ & _ & _ & Hf). intros Hk%list_elem_of_In. rewrite forallb_forall in Hf.
  by apply Hf, bool_decide_eq_true in Hk.
Qed.

Lemma ticketKeys_rotation_witness : length w_keys' = 3%nat /\ StronglySorted apart w_keys' /\ (length w_keys' <= 7)%nat.
Proof.
  destruct w_run as (R1 & R2 & R3 & _ & Hl & _). split; [exact Hl|].
  destruct (@ticketKeys_rotation low_hashes conn_error ((1, w_rnd) :: w_calls) w_config w_config2 (72 * hour) w_rnd w_keys'
    w_config3) as (H1 & H2 & _).
  - exact w_config_ok.
  - reflexivity.
  - repeat (constructor; [exact w_rnd_ok|]). constructor.
  - cbn. unfold hour, second. lia.
  - cbn [calls]. rewrite R1. exact R2.
  - exact R3.
  - split; [exact H2|exact H1].
Defined.

Lemma ticket_resumes_witness : @DecryptTicket low_hashes xor_ctr bytes _ _ w_enc w_keys' = Some (stored w_session).
Proof.
  destruct w_run as (R1 & R2 & R3 & R4 & _).
  apply (@ticket_resumes low_hashes bytes _ _ _ plain_builder _ _ xor_ctr) with (c := w_config) (now := 1) (rnd := w_rnd)
    (keys := w_keys) (c1 := w_config1) (iv := replicate 16 1) (l := w_calls) (c2 := w_config2) (later := 72 * hour)
    (rnd' := w_rnd) (c3 := w_config3).
  - intros key iv data. apply length_fmap.
  - intros key iv data. unfold xor_ctr. rewrite <- list_fmap_compose. rewrite <- (list_fmap_id data) at 2.
    apply list_fmap_ext. intros _ b _. cbn. by rewrite Z.lxor_assoc, Z.lxor_nilpotent, Z.lxor_0_r.
  - apply low_bytes_ok. lia.
  - reflexivity.
  - exact w_config_ok.
  - exact w_rnd_ok.
  - exact R1.
  - exact w_session_ok.
  - reflexivity.
  - exact R4.
  - repeat (constructor; [split; [exact w_rnd_ok|cbn; unfold hour, second; lia]|]). constructor.
  - exact R2.
  - exact R3.
  - intros key Hkey k Hk _. rewrite !w_aesKey; [reflexivity| |].
    + apply elem_of_app. left. apply head_Some in Hkey as [l' ->]. apply list_elem_of_here.
    + apply elem_of_app. right. exact Hk.
Defined.
