(* ===== verification/CertCache.v ===== *)
(** * cache.go: the cache of parsed certificates

    [certCache] maps the bytes of a certificate to an entry with a counter of
    its handles; the handles are counted down by the garbage collector.  The
    map is a [sync.Map] and the counters are atomic, so a goroutine can be
    interrupted between any two of these operations: [advance] is one of them,
    and a state of the system has the operations that are under way ([pending])
    beside the map, the entries and the live handles.

    [newCert_seq] is [newCert] without interruption. *)

From stdpp Require Import gmap relations.
From S2P Require Import Prelude HalfConn Conn Ticket.

Open Scope go_scope.

Section cache.
Context {X : Type} `{X509 X}.

(** An entry is a pointer: its index in the store. *)
Record cacheEntry := mkEntry { refs : Z; ce_cert : X }.

Record certCache := mkCache {
  table : gmap bytes nat;          (* the [sync.Map] *)
  store : list cacheEntry
}.
Definition empty_cache : certCache := mkCache ∅ [].

Definition entry (cc : certCache) (e : nat) : option cacheEntry := store cc !! e.

(** The atomic operations. *)
Definition Load (key : bytes) (cc : certCache) : option nat := table cc !! key.
Definition LoadOrStore (key : bytes) (cert : X) (cc : certCache) : nat * certCache :=
  match table cc !! key with
  | Some e => (e, cc)
  | None =>
      let e := length (store cc) in
      (e, mkCache (<[key := e]> (table cc)) (store cc ++ [mkEntry 0 cert]))
  end.
Definition Delete (key : bytes) (cc : certCache) : certCache := mkCache (delete key (table cc)) (store cc).
Definition refs_Add (d : Z) (e : nat) (cc : certCache) : Z * certCache :=
  match store cc !! e with
  | None => (0, cc)
  | Some x => (refs x + d, mkCache (table cc) (<[e := mkEntry (refs x + d) (ce_cert x)]> (store cc)))
  end.

(** Where a goroutine is.  [newCert(der)]: before the [Load]; before the
    [LoadOrStore]; in [active(e)].  The cleanup of a handle: before
    [refs.Add(-1)]; in [evict(e)]. *)
Inductive pc :=
| Called (der : bytes)
| Storing (der : bytes) (cert : X)
| Activating (der : bytes) (e : nat)
| Cleaning (e : nat)
| Evicting (e : nat).

(** What it does next: it goes on, returns a handle of an entry, returns an
    error, or ends. *)
Inductive next :=
| GoesOn (p : pc)
| Returns (der : bytes) (e : nat)
| Fails (e : conn_error)
| Ends.

Definition advance (p : pc) (cc : certCache) : next * certCache :=
  match p with
  | Called der =>
      match Load der cc with
      | Some e => (GoesOn (Activating der e), cc)
      | None =>
          match ParseCertificate der with
          | Ret cert => (GoesOn (Storing der cert), cc)
          | Err err => (Fails err, cc)
          | Panic _ => (Ends, cc)
          end
      end
  | Storing der cert => let '(e, cc) := LoadOrStore der cert cc in (GoesOn (Activating der e), cc)
  | Activating der e => let '(_, cc) := refs_Add 1 e cc in (Returns der e, cc)
  | Cleaning e => let '(n, cc) := refs_Add (-1) e cc in ((if n =? 0 then GoesOn (Evicting e) else Ends), cc)
  | Evicting e => (Ends, match store cc !! e with Some x => Delete (Raw (ce_cert x)) cc | None => cc end)
  end.

(** [newCert] in one go: it takes at most three operations. *)
Definition newCert_seq (der : bytes) (cc : certCache) : next * certCache :=
  let '(n, cc) := advance (Called der) cc in
  match n with
  | GoesOn p =>
      let '(n, cc) := advance p cc in
      match n with GoesOn p => advance p cc | _ => (n, cc) end
  | _ => (n, cc)
  end.

(** ** The system *)

Record state := mkState {
  cc : certCache;
  pending : list pc;
  handles : list (bytes * nat)        (* the live [activeCert]s: what was asked for, and the entry *)
}.
Definition init : state := mkState empty_cache [] [].

(** A goroutine calls [newCert], one of the operations under way advances, or
    the collector finds a handle dead and starts its cleanup. *)
Definition follow (n : next) (cc : certCache) (ps : list pc) (hs : list (bytes * nat)) : state :=
  match n with
  | GoesOn p => mkState cc (p :: ps) hs
  | Returns der e => mkState cc ps ((der, e) :: hs)
  | Fails _ | Ends => mkState cc ps hs
  end.

Inductive step : state -> state -> Prop :=
| step_call st der : step st (mkState (cc st) (Called der :: pending st) (handles st))
| step_advance st ps1 p ps2 : pending st = ps1 ++ p :: ps2 ->
    step st (let '(n, c) := advance p (cc st) in follow n c (ps1 ++ ps2) (handles st))
| step_collect st hs1 h hs2 : handles st = hs1 ++ h :: hs2 ->
    step st (mkState (cc st) (Cleaning h.2 :: pending st) (hs1 ++ hs2)).

Definition reachable : state -> Prop := rtc step init.
End cache.
Arguments cacheEntry X : clear implicits.
Arguments certCache X : clear implicits.
Arguments pc X : clear implicits.
Arguments state X : clear implicits.

(** * Theorems

    The counters count, a handle holds the certificate that was asked for, and
    nothing stays in the cache without a handle, whatever the interleaving; the
    race that the comment of [active] describes is possible. *)

(** ** Counting in lists *)

Definition count {A} (f : A -> bool) (l : list A) : Z := Z.of_nat (length (List.filter f l)).

Lemma count_mid {A} (f : A -> bool) l1 x l2 : count f (l1 ++ x :: l2) = count f (l1 ++ l2) + (if f x then 1 else 0).
Proof. unfold count. rewrite !List.filter_app, !length_app. cbn [List.filter]. destruct (f x); cbn [length]; lia. Qed.
Lemma count_cons {A} (f : A -> bool) x l : count f (x :: l) = count f l + (if f x then 1 else 0).
Proof. exact (count_mid f [] x l). Qed.
Lemma count_nonneg {A} (f : A -> bool) l : 0 <= count f l.
Proof. unfold count. lia. Qed.
Lemma count_zero {A} (f : A -> bool) l : (forall x, x ∈ l -> f x = false) -> count f l = 0.
Proof.
  induction l as [|x l IH]; intros Hf; [done|]. rewrite count_cons, (Hf x) by left.
  rewrite IH; [done|]. intros y Hy. apply Hf. by right.
Qed.
Lemma count_pos {A} (f : A -> bool) l x : x ∈ l -> f x = true -> 0 < count f l.
Proof.
  intros (l1 & l2 & ->)%list_elem_of_split Hf. rewrite count_mid, Hf. pose proof (count_nonneg f (l1 ++ l2)). lia.
Qed.
Lemma count_pos_inv {A} (f : A -> bool) l : 0 < count f l -> exists x, x ∈ l /\ f x = true.
Proof.
  induction l as [|x l IH]; [done|]. rewrite count_cons. destruct (f x) eqn:E; intros Hc.
  - exists x. split; [left|done].
  - destruct IH as (y & Hy & Hf); [lia|]. exists y. split; [by right|done].
Qed.

Section proofs.
Context {X : Type} `{X509 X}.
Abbreviation state := (state X).
Abbreviation pc := (pc X).

(** [Raw] holds the bytes that were parsed. *)
Context (Hraw : forall der x, ParseCertificate der = Ret x -> Raw x = der).

Definition cleans (e : nat) (p : pc) : bool := match p with Cleaning e' => (e' =? e)%nat | _ => false end.
Definition holds (e : nat) (h : bytes * nat) : bool := (h.2 =? e)%nat.

(** What an operation under way knows. *)
Definition entry_for (c : certCache X) (der : bytes) (e : nat) : Prop :=
  exists x, entry c e = Some x /\ ParseCertificate der = Ret (ce_cert x).
Definition pc_ok (c : certCache X) (p : pc) : Prop :=
  match p with
  | Called _ => True
  | Storing der cert => ParseCertificate der = Ret cert
  | Activating der e => entry_for c der e
  | Cleaning e | Evicting e => is_Some (entry c e)
  end.
(** The operations that keep an entry without a handle from being forgotten. *)
Definition attends (e : nat) (p : pc) : Prop := (exists der, p = Activating der e) \/ p = Evicting e.

Record inv (c : certCache X) (ps : list pc) (hs : list (bytes * nat)) : Prop := {
  inv_refs : forall e x, entry c e = Some x -> refs x = count (holds e) hs + count (cleans e) ps;
  inv_pcs : forall p, p ∈ ps -> pc_ok c p;
  inv_handles : forall h, h ∈ hs -> entry_for c h.1 h.2;
  inv_table : forall k e, table c !! k = Some e -> entry_for c k e;
  inv_attended : forall k e x, table c !! k = Some e -> entry c e = Some x -> refs x = 0 ->
    exists p, p ∈ ps /\ attends e p
}.

(** ** The atomic operations *)

Lemma refs_Add_Some d (c : certCache X) e x : entry c e = Some x ->
  refs_Add d e c = (refs x + d, mkCache (table c) (<[e := mkEntry (refs x + d) (ce_cert x)]> (store c))).
Proof. unfold refs_Add, entry. by intros ->. Qed.

(** Changing a counter. *)
Definition set_refs (c : certCache X) (e : nat) (x : cacheEntry X) (n : Z) : certCache X :=
  mkCache (table c) (<[e := mkEntry n (ce_cert x)]> (store c)).
Lemma entry_set c e x n e' : entry c e = Some x ->
  entry (set_refs c e x n) e' = if (e =? e')%nat then Some (mkEntry n (ce_cert x)) else entry c e'.
Proof.
  unfold entry. intros He. cbn. destruct (Nat.eqb_spec e e') as [<-|Hn].
  - apply list_lookup_insert_eq. by eapply lookup_lt_Some.
  - by apply list_lookup_insert_ne.
Qed.
Lemma entry_for_set c e x n der e' : entry c e = Some x -> entry_for c der e' -> entry_for (set_refs c e x n) der e'.
Proof.
  intros He (y & Hy & Hp). unfold entry_for. rewrite (entry_set c e x n e' He).
  destruct (Nat.eqb_spec e e') as [<-|_]; [|by exists y]. rewrite He in Hy. injection Hy as <-. by eexists.
Qed.
Lemma pc_ok_set c e x n p : entry c e = Some x -> pc_ok c p -> pc_ok (set_refs c e x n) p.
Proof.
  intros He. destruct p as [der|der cert|der e'|e'|e']; cbn; try done; [by apply entry_for_set|..];
    rewrite (entry_set c e x n e' He); by destruct (Nat.eqb_spec e e').
Qed.

(** Storing a new entry. *)
Definition add_entry (c : certCache X) (k : bytes) (cert : X) : certCache X :=
  mkCache (<[k := length (store c)]> (table c)) (store c ++ [mkEntry 0 cert]).
Lemma stored_entry c k cert e x : entry c e = Some x -> entry (add_entry c k cert) e = Some x.
Proof. unfold entry. intros He. cbn. by apply lookup_app_l_Some. Qed.
Lemma entry_for_add c k cert der e : entry_for c der e -> entry_for (add_entry c k cert) der e.
Proof. intros (x & Hx & Hp). exists x. split; [by apply stored_entry|done]. Qed.
Lemma pc_ok_add c k cert p : pc_ok c p -> pc_ok (add_entry c k cert) p.
Proof.
  destruct p; cbn; try done; [by apply entry_for_add|..]; intros [x Hx]; exists x; by apply stored_entry.
Qed.
Lemma stored_entry_inv c k cert e x : entry (add_entry c k cert) e = Some x ->
  entry c e = Some x \/ (e = length (store c) /\ x = mkEntry 0 cert).
Proof.
  unfold entry. cbn. intros [Hx|[Hl Hx]]%lookup_app_Some; [by left|]. right.
  apply list_lookup_singleton_Some in Hx as [Hx <-]. split; [lia|done].
Qed.

(** ** The invariant *)

Definition inv_st (st : state) : Prop := inv (cc st) (pending st) (handles st).

(** A list without its middle. *)
Lemma in_mid {A} (q : A) l1 p l2 : q ∈ l1 ++ p :: l2 <-> q = p \/ q ∈ l1 ++ l2.
Proof. rewrite !elem_of_app, elem_of_cons. tauto. Qed.

(** Going from [p] to [q]: neither is a cleanup, the cache is the same. *)
Lemma inv_replace c ps1 p ps2 q hs : inv c (ps1 ++ p :: ps2) hs -> pc_ok c q ->
  (forall e, cleans e p = cleans e q) -> (forall e, attends e p -> attends e q) -> inv c (q :: ps1 ++ ps2) hs.
Proof.
  intros [Hr Hp Hh Ht Ha] Hq Hc Hat. constructor; try done.
  - intros e x He. rewrite (Hr e x He), count_cons, count_mid, (Hc e). done.
  - intros r [->|Hi]%elem_of_cons; [done|]. apply Hp, in_mid. by right.
  - intros k e x Hk He H0. destruct (Ha k e x Hk He H0) as (r & [->|Hi]%in_mid & Hat').
    + exists q. split; [left|by apply Hat].
    + exists r. split; [by right|done].
Qed.

(** Forgetting an operation that attends nothing in the table. *)
Lemma inv_forget c ps1 p ps2 hs : inv c (ps1 ++ p :: ps2) hs -> (forall e, cleans e p = false) ->
  (forall e, ~ attends e p) -> inv c (ps1 ++ ps2) hs.
Proof.
  intros [Hr Hp Hh Ht Ha] Hc Hat. constructor; try done.
  - intros e x He. rewrite (Hr e x He), count_mid, (Hc e). lia.
  - intros r Hi. apply Hp, in_mid. by right.
  - intros k e x Hk He H0. destruct (Ha k e x Hk He H0) as (r & [->|Hi]%in_mid & Hat'); [by destruct (Hat e)|by exists r].
Qed.

(** Nothing refers to the entry that comes next. *)
Lemma entry_lt (c : certCache X) e x : entry c e = Some x -> (e < length (store c))%nat.
Proof. apply lookup_lt_Some. Qed.
Lemma fresh_handles (c : certCache X) hs : (forall h, h ∈ hs -> entry_for c h.1 h.2) -> count (holds (length (store c))) hs = 0.
Proof.
  intros Hh. apply count_zero. intros h Hin. destruct (Hh h Hin) as (y & Hy%entry_lt & _).
  apply Nat.eqb_neq. lia.
Qed.
Lemma fresh_cleanings (c : certCache X) ps : (forall p, p ∈ ps -> pc_ok c p) -> count (cleans (length (store c))) ps = 0.
Proof.
  intros Hp. apply count_zero. intros p Hin. specialize (Hp p Hin). destruct p; try done.
  destruct Hp as [y Hy%entry_lt]. apply Nat.eqb_neq. lia.
Qed.

Lemma inv_store c ps1 ps2 der cert hs : inv c (ps1 ++ Storing der cert :: ps2) hs ->
  let '(e, c') := LoadOrStore der cert c in inv c' (Activating der e :: ps1 ++ ps2) hs.
Proof.
  intros Hi. assert (Hs : pc_ok c (Storing der cert)) by (apply (inv_pcs _ _ _ Hi), in_mid; by left). cbn in Hs.
  unfold LoadOrStore. destruct (table c !! der) as [e|] eqn:E.
  - apply (inv_replace _ _ _ _ _ _ Hi); [by apply (inv_table _ _ _ Hi)|done|]. intros e' [[der' Q]|Q]; discriminate Q.
  - fold (add_entry c der cert). destruct Hi as [Hr Hp Hh Ht Ha].
    assert (Hnew : entry_for (add_entry c der cert) der (length (store c))).
    { exists (mkEntry 0 cert). split; [|done]. unfold entry. cbn. by apply list_lookup_middle. }
    constructor.
    + intros e x [He|[-> ->]]%stored_entry_inv.
      { rewrite (Hr e x He), count_cons, count_mid. done. }
      assert (F1 := fresh_handles c hs Hh). assert (F2 := fresh_cleanings c _ Hp).
      rewrite count_mid in F2. rewrite count_cons. cbn [cleans refs] in *. rewrite F1. lia.
    + intros q [->|Hin]%elem_of_cons; [exact Hnew|]. apply pc_ok_add, Hp, in_mid. by right.
    + intros h Hin. by apply entry_for_add, Hh.
    + intros k e. cbn. intros [[<- <-]|[Hn Hk]]%lookup_insert_Some; [exact Hnew|]. by apply entry_for_add, Ht.
    + intros k e x. cbn. intros [[<- <-]|[Hn Hk]]%lookup_insert_Some Hx H0.
      { exists (Activating der (length (store c))). split; [left|left; by exists der]. }
      apply stored_entry_inv in Hx as [Hx|[-> _]].
      * destruct (Ha k e x Hk Hx H0) as (q & [->|Hin]%in_mid & Hat); [destruct Hat as [[? Q]|Q]; discriminate Q|].
        exists q. split; [by right|done].
      * destruct (Ht k _ Hk) as (y & Hy%entry_lt & _). lia.
Qed.

(** A counter changes with the handles and the cleanups of its entry. *)
Lemma inv_count c e x n ps ps' hs hs' : inv c ps hs -> entry c e = Some x ->
  n = count (holds e) hs' + count (cleans e) ps' ->
  (forall e', e' <> e -> count (holds e') hs' + count (cleans e') ps' = count (holds e') hs + count (cleans e') ps) ->
  (forall p, p ∈ ps' -> p ∈ ps \/ p = Evicting e) -> (forall h, h ∈ hs' -> entry_for c h.1 h.2) ->
  (n = 0 -> Evicting e ∈ ps') -> (forall e' p, e' <> e -> p ∈ ps -> attends e' p -> p ∈ ps') ->
  inv (set_refs c e x n) ps' hs'.
Proof.
  intros [Hr Hp Hh Ht Ha] He Hn Hne Hps Hhs H0 Hat. constructor.
  - intros e' y. rewrite (entry_set c e x n e' He). destruct (Nat.eqb_spec e e') as [<-|Hd]; [by intros [= <-]|].
    intros Hy. rewrite (Hr e' y Hy). symmetry. by apply Hne.
  - intros p [Hin| ->]%Hps; apply pc_ok_set; try done; [by apply Hp|by exists x].
  - intros h Hin. by apply entry_for_set, Hhs.
  - intros k e' Hk. by apply entry_for_set, Ht.
  - intros k e' y Hk. rewrite (entry_set c e x n e' He). destruct (Nat.eqb_spec e e') as [<-|Hd].
    + intros [= <-]. cbn. intros Q. exists (Evicting e). split; [by apply H0|by right].
    + intros Hy Hz. destruct (Ha k e' y Hk Hy Hz) as (p & Hin & Hat'). exists p. split; [by apply (Hat e')|done].
Qed.

Lemma inv_activate c ps1 der e ps2 hs : inv c (ps1 ++ Activating der e :: ps2) hs ->
  inv (snd (refs_Add 1 e c)) (ps1 ++ ps2) ((der, e) :: hs).
Proof.
  intros Hi. destruct (inv_pcs _ _ _ Hi (Activating der e)) as (x & Hx & Hp); [apply in_mid; by left|].
  rewrite (refs_Add_Some 1 c e x Hx). cbn [snd]. fold (set_refs c e x (refs x + 1)).
  pose proof (inv_refs _ _ _ Hi e x Hx) as Hr. rewrite count_mid in Hr. cbn [cleans] in Hr.
  pose proof (count_nonneg (holds e) hs). pose proof (count_nonneg (cleans e) (ps1 ++ ps2)).
  apply (inv_count c e x _ _ _ _ _ Hi Hx).
  - rewrite count_cons. unfold holds at 2. cbn. rewrite Nat.eqb_refl. lia.
  - intros e' Hd. rewrite count_cons, count_mid. unfold holds at 2. cbn.
    destruct (Nat.eqb_spec e e'); [congruence|lia].
  - intros p Hin. left. apply in_mid. by right.
  - intros h [->|Hin]%elem_of_cons; [by exists x|by apply (inv_handles _ _ _ Hi)].
  - lia.
  - intros e' p Hd [->|Hin]%in_mid Hat; [|done]. destruct Hat as [[der' Q]|Q]; [|discriminate Q]. by injection Q as _ ->.
Qed.

Lemma inv_clean c ps1 e ps2 hs : inv c (ps1 ++ Cleaning e :: ps2) hs ->
  let '(n, c') := refs_Add (-1) e c in inv c' (if n =? 0 then Evicting e :: ps1 ++ ps2 else ps1 ++ ps2) hs.
Proof.
  intros Hi. destruct (inv_pcs _ _ _ Hi (Cleaning e)) as [x Hx]; [apply in_mid; by left|].
  rewrite (refs_Add_Some (-1) c e x Hx). fold (set_refs c e x (refs x + -1)).
  pose proof (inv_refs _ _ _ Hi e x Hx) as Hr. rewrite count_mid in Hr. cbn [cleans] in Hr. rewrite Nat.eqb_refl in Hr.
  assert (Hkeep : forall e' p, e' <> e -> p ∈ ps1 ++ Cleaning e :: ps2 -> attends e' p -> p ∈ ps1 ++ ps2).
  { intros e' p Hd [->|Hin]%in_mid Hat; [destruct Hat as [[? Q]|Q]; discriminate Q|done]. }
  destruct (Z.eqb_spec (refs x + -1) 0) as [H0|H0].
  - apply (inv_count c e x _ _ _ _ _ Hi Hx); try rewrite count_cons; cbn [cleans]; try done; try lia.
    + intros e' Hd. rewrite count_cons, count_mid. cbn [cleans]. destruct (Nat.eqb_spec e e'); [congruence|lia].
    + intros p [->|Hin]%elem_of_cons; [by right|left; apply in_mid; by right].
    + apply (inv_handles _ _ _ Hi).
    + intros _. left.
    + intros e' p Hd Hin Hat. right. by apply (Hkeep e').
  - apply (inv_count c e x _ _ _ _ _ Hi Hx); try done; try lia.
    + intros e' Hd. rewrite count_mid. cbn [cleans]. destruct (Nat.eqb_spec e e'); [congruence|lia].
    + intros p Hin. left. apply in_mid. by right.
    + apply (inv_handles _ _ _ Hi).
Qed.

Lemma inv_evict c ps1 e ps2 hs : inv c (ps1 ++ Evicting e :: ps2) hs ->
  inv (snd (advance (Evicting e) c)) (ps1 ++ ps2) hs.
Proof.
  intros [Hr Hp Hh Ht Ha]. destruct (Hp (Evicting e)) as [x Hx]; [apply in_mid; by left|].
  unfold advance. change (store c !! e) with (entry c e). rewrite Hx. cbn [snd]. constructor.
  - intros e' y He. rewrite (Hr e' y He), count_mid. cbn [cleans]. lia.
  - intros p Hin. apply (Hp p), in_mid. by right.
  - done.
  - intros k e'. cbn. intros [_ Hk]%lookup_delete_Some. by apply Ht.
  - intros k e' y. cbn. intros [Hd Hk]%lookup_delete_Some Hy H0.
    destruct (Ha k e' y Hk Hy H0) as (p & [->|Hin]%in_mid & Hat); [|by exists p].
    destruct Hat as [[? Q]|Q]; [discriminate Q|]. injection Q as ->. destruct (Ht k e' Hk) as (z & Hz & Hparse).
    rewrite Hx in Hz. injection Hz as <-. by destruct Hd; apply Hraw.
Qed.

Lemma inv_advance c ps1 p ps2 hs : inv c (ps1 ++ p :: ps2) hs ->
  inv_st (let '(n, c') := advance p c in follow n c' (ps1 ++ ps2) hs).
Proof.
  intros Hi. unfold inv_st. destruct p as [der|der cert|der e|e|e].
  - cbn [advance]. unfold Load. destruct (table c !! der) as [e|] eqn:E.
    { apply (inv_replace _ _ _ _ _ _ Hi); [by apply (inv_table _ _ _ Hi)|done|]. intros e' [[? Q]|Q]; discriminate Q. }
    assert (Hno : forall e', ~ attends e' (Called der : pc)) by (intros e' [[? Q]|Q]; discriminate Q).
    destruct (ParseCertificate der) as [cert| |] eqn:Hparse; cbn; try by apply (inv_forget _ _ _ _ _ Hi).
    apply (inv_replace _ _ _ _ _ _ Hi); [done|done|]. by intros e' Q%Hno.
  - pose proof (inv_store _ _ _ _ _ _ Hi) as Q. cbn [advance]. by destruct (LoadOrStore der cert c).
  - pose proof (inv_activate _ _ _ _ _ _ Hi) as Q. cbn [advance]. by destruct (refs_Add 1 e c).
  - pose proof (inv_clean _ _ _ _ _ Hi) as Q. cbn [advance]. destruct (refs_Add (-1) e c) as [n c']. by destruct (n =? 0).
  - exact (inv_evict _ _ _ _ _ Hi).
Qed.

Lemma empty_inv : inv_st (init (X:=X)).
Proof.
  constructor; cbn; [intros e x Q; by destruct e| | |done|done].
  - intros p Hin. by apply elem_of_nil in Hin.
  - intros h Hin. by apply elem_of_nil in Hin.
Qed.

Lemma interleaved_inv st st' : step st st' -> inv_st st -> inv_st st'.
Proof.
  intros [st0 der|st0 ps1 p ps2 Hps|st0 hs1 h hs2 Hhs] Hi.
  - destruct Hi as [Hr Hp Hh Ht Ha]. constructor; [exact Hr| |exact Hh|exact Ht|]; cbn.
    + intros p [->|Hin]%elem_of_cons; [done|by apply Hp].
    + intros k e x Hk He H0. destruct (Ha k e x Hk He H0) as (p & Hin & Hat). exists p. split; [by right|done].
  - apply inv_advance. by rewrite <- Hps.
  - destruct Hi as [Hr Hp Hh Ht Ha]. rewrite Hhs in Hr, Hh. constructor; [| | |exact Ht|]; cbn.
    + intros e x He. rewrite (Hr e x He), count_cons, count_mid. unfold holds at 2. cbn [cleans]. lia.
    + intros p [->|Hin]%elem_of_cons; [|by apply Hp]. destruct (Hh h) as (x & Hx & _); [apply in_mid; by left|by exists x].
    + intros h' Hin. apply Hh, in_mid. by right.
    + intros k e x Hk He H0. destruct (Ha k e x Hk He H0) as (p & Hin & Hat). exists p. split; [by right|done].
Qed.

Lemma interleaving_inv st : reachable st -> inv_st st.
Proof.
  intros Hr. refine (rtc_ind_r (R:=step) inv_st init empty_inv _ st Hr). intros y z _ Hs. by apply interleaved_inv.
Qed.

(** ** [newCert] without interruption *)

(** A goroutine that has just called goes through its operations. *)
Lemma step_first c p ps hs : step (mkState c (p :: ps) hs) (let '(n, c') := advance p c in follow n c' ps hs).
Proof. exact (step_advance (mkState c (p :: ps) hs) [] p ps eq_refl). Qed.

Lemma newCert_seq_steps der c ps hs :
  rtc step (mkState c ps hs) (let '(n, c') := newCert_seq der c in follow n c' ps hs).
Proof.
  eapply rtc_l; [apply (step_call _ der)|]. cbn [cc pending handles]. eapply rtc_l; [apply step_first|].
  unfold newCert_seq. destruct (advance (Called der) c) as [[p| | |] c1]; cbn [follow]; try apply rtc_refl.
  eapply rtc_l; [apply step_first|]. destruct (advance p c1) as [[q| | |] c2]; cbn [follow]; try apply rtc_refl.
  eapply rtc_l; [apply step_first|]. apply rtc_refl.
Qed.

Definition newCert_post (der : bytes) (c : certCache X) (r : next (X:=X) * certCache X) : Prop :=
  match r with
  | (Returns d e, c') => d = der /\ table c' !! der = Some e /\ entry_for c' der e /\
      (forall e0, table c !! der = Some e0 -> e = e0)
  | (Fails err, c') => ParseCertificate der = Err err /\ c' = c
  | (Ends, c') => exists w, ParseCertificate der = Panic w
  | (GoesOn _, _) => False
  end.

Lemma newCert_seq_spec st der : inv_st st -> newCert_post der (cc st) (newCert_seq der (cc st)).
Proof.
  destruct st as [c ps hs]. unfold inv_st, newCert_seq. cbn [cc pending handles advance]. intros Hi. unfold Load.
  destruct (table c !! der) as [e|] eqn:E.
  - destruct (inv_table _ _ _ Hi der e E) as (x & Hx & Hp). cbn [advance]. rewrite (refs_Add_Some 1 c e x Hx).
    cbn. split; [done|]. split; [done|]. split; [|intros e0 Q; congruence]. apply (entry_for_set c e x); [done|by exists x].
  - destruct (ParseCertificate der) as [cert|err|w] eqn:Hp; [|done|by exists w]. cbn [advance]. unfold LoadOrStore. rewrite E. cbn [advance].
    fold (add_entry c der cert). assert (Hx : entry (add_entry c der cert) (length (store c)) = Some (mkEntry 0 cert)).
    { unfold entry. cbn. by apply list_lookup_middle. }
    rewrite (refs_Add_Some 1 _ _ _ Hx). cbn. split; [done|]. split; [apply lookup_insert_eq|]. split; [|intros e0 Q; congruence].
    apply (entry_for_set (add_entry c der cert) _ _ _ _ _ Hx). by exists (mkEntry 0 cert).
Qed.

(** C38: the cache of certificates is sound and forgets nothing too late,
    however the goroutines and the collector interleave: a live handle holds
    the certificate that its caller asked for, and its entry counts it; when no
    operation is under way, every entry counts exactly its live handles, and
    what is in the map has one, under its key; and a [newCert] that is not
    interrupted returns the entry of the map if there is one, adds the parsed
    certificate if not, and reports the error of the parser. *)
Theorem certCache_interned st : reachable st ->
  (forall der e, (der, e) ∈ handles st -> exists x, entry (cc st) e = Some x /\
     ParseCertificate der = Ret (ce_cert x) /\ 0 < refs x) /\
  (pending st = [] -> forall e x, entry (cc st) e = Some x -> refs x = count (holds e) (handles st) /\
     forall k, table (cc st) !! k = Some e -> (k, e) ∈ handles st) /\
  (forall der, newCert_post der (cc st) (newCert_seq der (cc st)) /\
     reachable (let '(n, c) := newCert_seq der (cc st) in follow n c (pending st) (handles st))).
Proof.
  intros Hreach. pose proof (interleaving_inv st Hreach) as Hi. split_and!.
  - intros der e Hin. destruct (inv_handles _ _ _ Hi _ Hin) as (x & Hx & Hp). exists x. split; [done|]. split; [done|].
    rewrite (inv_refs _ _ _ Hi e x Hx). pose proof (count_nonneg (cleans e) (pending st)).
    pose proof (count_pos (holds e) _ _ Hin (Nat.eqb_refl e)). lia.
  - intros Hq e x Hx. pose proof (inv_refs _ _ _ Hi e x Hx) as Hr. rewrite Hq in Hr. change (count _ []) with 0 in Hr.
    split; [lia|]. intros k Hk. destruct (inv_table _ _ _ Hi k e Hk) as (y & Hy & Hpk). rewrite Hx in Hy. injection Hy as <-.
    destruct (Z.eq_dec (refs x) 0) as [H0|Hn].
    + destruct (inv_attended _ _ _ Hi k e x Hk Hx H0) as (p & Hin & _). rewrite Hq in Hin. by apply elem_of_nil in Hin.
    + pose proof (count_nonneg (holds e) (handles st)). destruct (count_pos_inv (holds e) (handles st)) as ([d e'] & Hin & Hf); [lia|].
      apply Nat.eqb_eq in Hf. cbn in Hf. subst e'. destruct (inv_handles _ _ _ Hi _ Hin) as (y & Hy & Hpd). cbn [fst snd] in Hy, Hpd.
      rewrite Hx in Hy. injection Hy as <-. by rewrite <- (Hraw _ _ Hpk), (Hraw _ _ Hpd).
  - intros der. split; [by apply newCert_seq_spec|]. unfold reachable. etrans; [exact Hreach|].
    destruct st as [c ps hs]. apply newCert_seq_steps.
Qed.
End proofs.

(** ** A run, and the race *)

(** Certificates are their bytes; the empty one does not parse. *)
Definition bytes_x509 : X509 bytes := {|
  Raw x := x;
  ParseCertificate der := match der with [] => Err (EText "malformed certificate") | _ => Ret der end
|}.

(** The state after the collector has found the only handle dead, and its
    entry is at zero but still in the map. *)
Definition about_to_evict : state bytes :=
  mkState (mkCache {[ [7] := 0%nat ]} [mkEntry 0 [7]]) [Evicting 0] [].

Lemma raw_bytes der x : @ParseCertificate _ bytes_x509 der = Ret x -> @Raw _ bytes_x509 x = der.
Proof. destruct der; [done|]. by intros [= <-]. Qed.

Lemma about_to_evict_reachable : reachable (H:=bytes_x509) about_to_evict.
Proof.
  unfold reachable. etrans; [apply (newCert_seq_steps (H:=bytes_x509) [7])|].
  eapply rtc_l; [apply (step_collect (H:=bytes_x509) _ [] ([7], 0%nat) []); reflexivity|].
  eapply rtc_l; [apply (step_first (H:=bytes_x509))|]. apply rtc_refl.
Qed.

Lemma certCache_interned_witness : newCert_post (H:=bytes_x509) [7] (cc about_to_evict) (newCert_seq (H:=bytes_x509) [7] (cc about_to_evict)).
Proof.
  destruct (certCache_interned (H:=bytes_x509) raw_bytes about_to_evict about_to_evict_reachable) as (_ & _ & Hn).
  exact (proj1 (Hn [7])).
Defined.

(** The race of the comment of [active]: a [newCert] that finds the entry before
    it is evicted keeps a handle of an entry that is no longer in the map, and
    the next [newCert] makes a second one. *)
Lemma active_race : exists st : state bytes, reachable (H:=bytes_x509) st /\ pending st = [] /\
  handles st = [([7], 1%nat); ([7], 0%nat)] /\ table (cc st) !! [7] = Some 1%nat.
Proof.
  eexists. split; [|split; [|split]].
  - unfold reachable. etrans; [exact about_to_evict_reachable|]. eapply rtc_l; [apply (step_call (H:=bytes_x509) _ [7])|].
    eapply rtc_l; [apply (step_first (H:=bytes_x509))|]. eapply rtc_l; [apply (step_first (H:=bytes_x509))|].
    eapply rtc_l; [apply (step_first (H:=bytes_x509))|]. apply (newCert_seq_steps (H:=bytes_x509) [7]).
  - vm_compute. reflexivity.
  - vm_compute. reflexivity.
  - vm_compute. reflexivity.
Qed.
