(* ===== verification/SessionCache.v ===== *)
(** * common.go: the LRU session cache of the client

    [lruSessionCache] is a map from keys to elements of a [container/list]
    list.  The elements are pointers here too: the list holds them in order and
    their entries are in a store.  [Put] and [Get] implement an abstract cache,
    the list of pairs of keys and states from the most to the least recently
    used. *)

From stdpp Require Import gmap.
From S2P Require Import Prelude.

Open Scope go_scope.

Section cache.
(** [*ClientSessionState]; [nil] is [None]. *)
Context {CS : Type}.
Abbreviation state := (option CS).

(** ** The code *)

Record lruSessionCacheEntry := mkEntry { sessionKey : bytes; entry_state : state }.

(** [elem.Value] is in [values]; [fresh] is a pointer not used yet. *)
Record lruSessionCache := mkCache {
  m : gmap bytes nat;
  q : list nat;
  values : gmap nat lruSessionCacheEntry;
  capacity : Z;
  fresh : nat
}.

Definition defaultSessionCacheCapacity : Z := 64.

Definition NewLRUClientSessionCache (capacity : Z) : lruSessionCache :=
  mkCache ∅ [] ∅ (if capacity <? 1 then defaultSessionCacheCapacity else capacity) 0.

(** [list.Remove], [list.MoveToFront] *)
Definition list_Remove (elem : nat) (q : list nat) : list nat := filter (fun e => e <> elem) q.
Definition MoveToFront (elem : nat) (q : list nat) : list nat := elem :: list_Remove elem q.

(** A [nil] element or an element without value would be a nil dereference. *)
Definition Put {E} (key : bytes) (cs : state) (c : lruSessionCache) : outcome E lruSessionCache :=
  match m c !! key with
  | Some elem =>
      match cs with
      | None => Ret (mkCache (delete key (m c)) (list_Remove elem (q c)) (values c) (capacity c) (fresh c))
      | Some _ =>
          match values c !! elem with
          | None => Panic "nil pointer dereference"
          | Some entry =>
              Ret (mkCache (m c) (MoveToFront elem (q c)) (<[elem := mkEntry (sessionKey entry) cs]> (values c))
                     (capacity c) (fresh c))
          end
      end
  | None =>
      if Z.of_nat (length (q c)) <? capacity c then
        Ret (mkCache (<[key := fresh c]> (m c)) (fresh c :: q c) (<[fresh c := mkEntry key cs]> (values c))
               (capacity c) (fresh c + 1))
      else
        match last (q c) with
        | None => Panic "nil pointer dereference"
        | Some elem =>
            match values c !! elem with
            | None => Panic "nil pointer dereference"
            | Some entry =>
                Ret (mkCache (<[key := elem]> (delete (sessionKey entry) (m c))) (MoveToFront elem (q c))
                       (<[elem := mkEntry key cs]> (values c)) (capacity c) (fresh c))
            end
        end
  end.

Definition Get {E} (key : bytes) (c : lruSessionCache) : outcome E (state * bool * lruSessionCache) :=
  match m c !! key with
  | Some elem =>
      match values c !! elem with
      | None => Panic "nil pointer dereference"
      | Some entry =>
          Ret (entry_state entry, true,
               mkCache (m c) (MoveToFront elem (q c)) (values c) (capacity c) (fresh c))
      end
  | None => Ret (None, false, c)
  end.

(** ** The abstract cache *)

(** The pairs, the most recently used first. *)
Abbreviation lru := (list (bytes * state)).

Definition without (key : bytes) (l : lru) : lru := filter (fun p => p.1 <> key) l.
Fixpoint lookup_lru (key : bytes) (l : lru) : option state :=
  match l with
  | [] => None
  | (k, cs) :: l => if bool_decide (k = key) then Some cs else lookup_lru key l
  end.

Definition spec_Put (cap : Z) (key : bytes) (cs : state) (l : lru) : lru :=
  match lookup_lru key l, cs with
  | Some _, None => without key l
  | Some _, Some _ => (key, cs) :: without key l
  | None, _ => (key, cs) :: (if Z.of_nat (length l) <? cap then l else removelast l)
  end.

Definition spec_Get (key : bytes) (l : lru) : state * bool * lru :=
  match lookup_lru key l with
  | Some cs => (cs, true, (key, cs) :: without key l)
  | None => (None, false, l)
  end.

(** ** The refinement *)

Definition pair_of (vs : gmap nat lruSessionCacheEntry) (e : nat) : bytes * state :=
  match vs !! e with Some v => (sessionKey v, entry_state v) | None => ([], None) end.
Definition abs (c : lruSessionCache) : lru := pair_of (values c) <$> q c.

(** The map and the list have the same elements, each under its key. *)
Record inv (c : lruSessionCache) : Prop := {
  inv_NoDup : NoDup (q c);
  inv_q e : e ∈ q c -> exists v, values c !! e = Some v /\ m c !! sessionKey v = Some e;
  inv_m k e : m c !! k = Some e -> e ∈ q c /\ exists v, values c !! e = Some v /\ sessionKey v = k;
  inv_fresh e : e ∈ q c -> (e < fresh c)%nat;
  inv_size : Z.of_nat (length (q c)) <= capacity c;
  inv_capacity : 1 <= capacity c
}.

Lemma abs_key c key e : inv c -> e ∈ q c -> (pair_of (values c) e).1 = key <-> m c !! key = Some e.
Proof.
  intros Hi He. destruct (inv_q c Hi e He) as (v & Ev & Em). unfold pair_of. rewrite Ev. cbn [fst].
  split; [by intros <-|]. intros Ek. destruct (inv_m c Hi key e Ek) as (_ & v' & Ev' & <-). congruence.
Qed.

(** The pair of a key in the list, and the rest. *)
Lemma lookup_abs (f : nat -> bytes * state) key elem l : (forall e, e ∈ l -> (f e).1 = key <-> e = elem) ->
  lookup_lru key (f <$> l) = (if bool_decide (elem ∈ l) then Some (f elem).2 else None).
Proof.
  induction l as [|e l IH]; intros Hl; [done|]. cbn [fmap list_fmap lookup_lru].
  destruct (f e) as [k cs] eqn:Ef. pose proof (Hl e (list_elem_of_here _ _)) as He. rewrite Ef in He. cbn [fst] in He.
  destruct (decide (k = key)) as [Hk|Hk].
  - rewrite (bool_decide_true (k = key)) by done. apply He in Hk as ->. rewrite Ef.
    by rewrite bool_decide_true by apply list_elem_of_here.
  - rewrite (bool_decide_false (k = key)), IH by first [done|intros; by apply Hl, list_elem_of_further].
    assert (Hne : elem <> e) by (intros ->; by apply Hk, He).
    rewrite (bool_decide_ext (elem ∈ e :: l) (elem ∈ l)); [done|]. rewrite elem_of_cons. tauto.
Qed.

Lemma without_abs (f : nat -> bytes * state) key elem l : (forall e, e ∈ l -> (f e).1 = key <-> e = elem) ->
  without key (f <$> l) = f <$> list_Remove elem l.
Proof.
  induction l as [|e l IH]; intros Hl; [done|]. pose proof (Hl e (list_elem_of_here _ _)) as He.
  unfold without, list_Remove in *. cbn [fmap list_fmap]. rewrite !filter_cons.
  destruct (decide ((f e).1 <> key)) as [Hk|Hk], (decide (e <> elem)) as [Hn|Hn];
    cbn [fmap list_fmap]; rewrite ?IH by (intros; by apply Hl, list_elem_of_further); try done; exfalso; tauto.
Qed.

Lemma pair_of_other vs elem v (l : list nat) : elem ∉ l -> pair_of (<[elem := v]> vs) <$> l = pair_of vs <$> l.
Proof.
  intros Hn. apply list_fmap_ext. intros i e He. unfold pair_of. rewrite lookup_insert_ne; [done|].
  intros ->. apply Hn. by eapply list_elem_of_lookup_2.
Qed.

Lemma not_in_Remove elem (l : list nat) : elem ∉ list_Remove elem l.
Proof. unfold list_Remove. intros [Hn _]%list_elem_of_filter. done. Qed.

Lemma in_Remove e elem (l : list nat) : e ∈ list_Remove elem l <-> e <> elem /\ e ∈ l.
Proof. unfold list_Remove. by rewrite list_elem_of_filter. Qed.

Lemma Remove_other elem (l : list nat) : elem ∉ l -> list_Remove elem l = l.
Proof.
  unfold list_Remove. induction l as [|e l IH]; intros Hn; [done|]. apply not_elem_of_cons in Hn as [Hne Hn].
  rewrite filter_cons_True by (intros ->; done). by rewrite IH.
Qed.

Lemma length_Remove elem (l : list nat) : NoDup l -> elem ∈ l -> Datatypes.S (length (list_Remove elem l)) = length l.
Proof.
  induction 1 as [|e l Hn Hd IH]; intros Hin; [by apply elem_of_nil in Hin|]. unfold list_Remove in *.
  rewrite filter_cons. destruct (decide (e <> elem)) as [Hne|Heq].
  - apply elem_of_cons in Hin as [->|Hin]; [done|]. cbn [length]. by rewrite IH.
  - apply dec_stable in Heq as ->. cbn [length]. f_equal.
    fold (list_Remove elem l). by rewrite Remove_other.
Qed.

Lemma last_Remove elem (l : list nat) : NoDup l -> last l = Some elem -> list_Remove elem l = removelast l.
Proof.
  intros Hd Hl. apply last_Some in Hl as [l' ->]. apply NoDup_app in Hd as (_ & Hn & _).
  assert (Hn' : elem ∉ l') by (intros Hin; by apply (Hn elem Hin), list_elem_of_here).
  unfold list_Remove. rewrite filter_app, removelast_last. fold (list_Remove elem l'). rewrite Remove_other by done.
  rewrite filter_cons_False, filter_nil by tauto. apply app_nil_r.
Qed.

(** The pair of a key that the map has, and of one it has not. *)
Lemma abs_hit c key elem v : inv c -> m c !! key = Some elem -> values c !! elem = Some v ->
  lookup_lru key (abs c) = Some (entry_state v) /\ without key (abs c) = pair_of (values c) <$> list_Remove elem (q c).
Proof.
  intros Hi Hk Hv. destruct (inv_m c Hi key elem Hk) as (Hin & _).
  assert (Hl : forall e, e ∈ q c -> (pair_of (values c) e).1 = key <-> e = elem).
  { intros e He. rewrite (abs_key c key e Hi He), Hk. split; [by intros [= ->]|by intros ->]. }
  split; [|by apply without_abs]. unfold abs. rewrite (lookup_abs _ key elem) by done.
  rewrite bool_decide_true by done. unfold pair_of. by rewrite Hv.
Qed.

Lemma abs_miss c key : inv c -> m c !! key = None -> lookup_lru key (abs c) = None.
Proof.
  intros Hi Hk. unfold abs. assert (Hn : fresh c ∉ q c) by (intros Hin; pose proof (inv_fresh c Hi _ Hin); lia).
  rewrite (lookup_abs _ key (fresh c)); [by rewrite bool_decide_false|].
  intros e He. rewrite (abs_key c key e Hi He), Hk. split; [done|]. by intros ->.
Qed.

Lemma inv_entry c key elem : inv c -> m c !! key = Some elem ->
  elem ∈ q c /\ exists v, values c !! elem = Some v /\ sessionKey v = key.
Proof. intros Hi Hk. by apply inv_m. Qed.

Lemma MoveToFront_NoDup elem (l : list nat) : NoDup l -> NoDup (MoveToFront elem l).
Proof. intros Hd. constructor; [apply not_in_Remove|]. by apply NoDup_filter. Qed.

Lemma in_MoveToFront e elem (l : list nat) : elem ∈ l -> e ∈ MoveToFront elem l <-> e ∈ l.
Proof.
  intros Hin. unfold MoveToFront. rewrite elem_of_cons, in_Remove. split; [by intros [->|[_ ?]]|].
  intros He. destruct (decide (e = elem)); [by left|by right].
Qed.

Lemma length_MoveToFront elem (l : list nat) : NoDup l -> elem ∈ l -> length (MoveToFront elem l) = length l.
Proof. intros Hd Hin. cbn [MoveToFront length]. by apply length_Remove. Qed.

(** Using an element: it moves to the front, with a state. *)
Lemma use_inv c key elem v cs : inv c -> m c !! key = Some elem -> values c !! elem = Some v ->
  inv (mkCache (m c) (MoveToFront elem (q c)) (<[elem := mkEntry (sessionKey v) cs]> (values c)) (capacity c) (fresh c)).
Proof.
  intros Hi Hk Hv. destruct (inv_entry c key elem Hi Hk) as (Hin & v' & Hv' & Hkey).
  assert (v' = v) as -> by congruence. destruct Hi as [Hd Hq Hm Hf Hs Hc]. constructor; cbn [m q values capacity fresh].
  - by apply MoveToFront_NoDup.
  - intros e He%in_MoveToFront; [|done]. destruct (decide (e = elem)) as [->|Hne].
    + rewrite lookup_insert_eq. eexists. split; [done|]. cbn. by rewrite Hkey.
    + rewrite lookup_insert_ne by done. by apply Hq.
  - intros k e Hke. destruct (Hm k e Hke) as (He & w & Hw & Hwk). rewrite in_MoveToFront by done. split; [done|].
    destruct (decide (e = elem)) as [->|Hne]; [|rewrite lookup_insert_ne by done; by exists w].
    rewrite lookup_insert_eq. eexists. split; [done|]. cbn. congruence.
  - intros e He%in_MoveToFront; [|done]. by apply Hf.
  - by rewrite length_MoveToFront.
  - done.
Qed.

Lemma pair_of_same vs elem v : pair_of (<[elem := v]> vs) elem = (sessionKey v, entry_state v).
Proof. unfold pair_of. by rewrite lookup_insert_eq. Qed.

Lemma abs_use c key elem v cs : inv c -> m c !! key = Some elem -> values c !! elem = Some v ->
  pair_of (<[elem := mkEntry (sessionKey v) cs]> (values c)) <$> MoveToFront elem (q c) = (key, cs) :: without key (abs c).
Proof.
  intros Hi Hk Hv. destruct (abs_hit c key elem v Hi Hk Hv) as [_ ->].
  destruct (inv_entry c key elem Hi Hk) as (_ & v' & Hv' & Hkey). assert (v' = v) as -> by congruence.
  unfold MoveToFront. cbn [fmap list_fmap]. rewrite pair_of_same. cbn. rewrite Hkey. f_equal.
  apply pair_of_other, not_in_Remove.
Qed.

Lemma remove_inv c key elem v : inv c -> m c !! key = Some elem -> values c !! elem = Some v ->
  inv (mkCache (delete key (m c)) (list_Remove elem (q c)) (values c) (capacity c) (fresh c)).
Proof.
  intros Hi Hk Hv. destruct (inv_entry c key elem Hi Hk) as (Hin & v' & Hv' & Hkey).
  assert (v' = v) as -> by congruence. destruct Hi as [Hd Hq Hm Hf Hs Hc]. constructor; cbn [m q values capacity fresh].
  - by apply NoDup_filter.
  - intros e [Hne He]%in_Remove. destruct (Hq e He) as (w & Hw & Hwm). exists w. split; [done|].
    rewrite lookup_delete_ne; [done|]. intros Hwk. congruence.
  - intros k e [Hne Hke]%lookup_delete_Some. destruct (Hm k e Hke) as (He & w & Hw & Hwk). split; [|by exists w].
    apply in_Remove. split; [|done]. intros ->. congruence.
  - intros e [_ He]%in_Remove. by apply Hf.
  - pose proof (length_Remove elem (q c) Hd Hin). lia.
  - done.
Qed.

Lemma push_inv c key cs : inv c -> m c !! key = None -> Z.of_nat (length (q c)) < capacity c ->
  inv (mkCache (<[key := fresh c]> (m c)) (fresh c :: q c) (<[fresh c := mkEntry key cs]> (values c)) (capacity c)
         (fresh c + 1)).
Proof.
  intros [Hd Hq Hm Hf Hs Hc] Hk Hlt. assert (Hn : fresh c ∉ q c) by (intros Hin; pose proof (Hf _ Hin); lia).
  constructor; cbn [m q values capacity fresh length].
  - by constructor.
  - intros e [->|He]%elem_of_cons.
    + rewrite lookup_insert_eq. eexists. split; [done|]. cbn. by rewrite lookup_insert_eq.
    + assert (Hne : e <> fresh c) by (by intros ->). rewrite lookup_insert_ne by done.
      destruct (Hq e He) as (w & Hw & Hwm). exists w. split; [done|]. rewrite lookup_insert_ne; [done|]. congruence.
  - intros k e [[<- <-]|[Hne Hke]]%lookup_insert_Some.
    + split; [apply list_elem_of_here|]. rewrite lookup_insert_eq. by eexists.
    + destruct (Hm k e Hke) as (He & w & Hw & Hwk). split; [by apply list_elem_of_further|]. exists w.
      split; [|done]. rewrite lookup_insert_ne; [done|]. by intros <-.
  - intros e [->|He]%elem_of_cons; [lia|]. pose proof (Hf e He). lia.
  - lia.
  - done.
Qed.

(** The least recently used element gets the new key. *)
Lemma evict_inv c key cs elem v : inv c -> m c !! key = None -> elem ∈ q c -> values c !! elem = Some v ->
  inv (mkCache (<[key := elem]> (delete (sessionKey v) (m c))) (MoveToFront elem (q c))
         (<[elem := mkEntry key cs]> (values c)) (capacity c) (fresh c)).
Proof.
  intros Hi Hk Hin Hv. destruct (inv_q c Hi elem Hin) as (v' & Hv' & Hvm). assert (v' = v) as -> by congruence.
  destruct Hi as [Hd Hq Hm Hf Hs Hc]. constructor; cbn [m q values capacity fresh].
  - by apply MoveToFront_NoDup.
  - intros e He%in_MoveToFront; [|done]. destruct (decide (e = elem)) as [->|Hne].
    + rewrite lookup_insert_eq. eexists. split; [done|]. cbn. by rewrite lookup_insert_eq.
    + rewrite lookup_insert_ne by done. destruct (Hq e He) as (w & Hw & Hwm). exists w. split; [done|].
      rewrite lookup_insert_ne by congruence. rewrite lookup_delete_ne; [done|]. congruence.
  - intros k e [[<- <-]|[Hne [Hnv Hke]%lookup_delete_Some]]%lookup_insert_Some.
    + rewrite in_MoveToFront by done. split; [done|]. rewrite lookup_insert_eq. by eexists.
    + destruct (Hm k e Hke) as (He & w & Hw & Hwk). rewrite in_MoveToFront by done. split; [done|]. exists w.
      split; [|done]. rewrite lookup_insert_ne; [done|]. intros <-. congruence.
  - intros e He%in_MoveToFront; [|done]. by apply Hf.
  - by rewrite length_MoveToFront.
  - done.
Qed.

Lemma fmap_removelast {T U} (f : T -> U) l : f <$> removelast l = removelast (f <$> l).
Proof. induction l as [|x [|y l] IH]; [done|done|]. cbn in *. by rewrite IH. Qed.

Lemma NewLRUClientSessionCache_ok n : inv (NewLRUClientSessionCache n) /\ abs (NewLRUClientSessionCache n) = [].
Proof.
  split; [|done]. assert (Hc : 1 <= capacity (NewLRUClientSessionCache n)).
  { cbn. destruct (Z.ltb_spec n 1); [done|lia]. }
  constructor; cbn [m q values NewLRUClientSessionCache fresh length Z.of_nat]; try lia.
  - constructor.
  - by intros e He%elem_of_nil.
  - intros k e Q. by rewrite lookup_empty in Q.
  - by intros e He%elem_of_nil.
Qed.

(** C39: the session cache is an LRU cache: from a new cache on, whatever the
    operations, [Put] and [Get] never panic, and they do what they do on the
    list of pairs from the most to the least recently used: a hit moves to the
    front, a miss at full capacity evicts the last pair, and [nil] removes a key
    that is there (a key that is not gets [nil] as its state). *)
Theorem cache_refines {E} :
  (forall n, inv (NewLRUClientSessionCache n) /\ abs (NewLRUClientSessionCache n) = []) /\
  forall (c : lruSessionCache) key cs, inv c ->
  (exists c', Put (E:=E) key cs c = Ret c' /\ inv c' /\ capacity c' = capacity c /\
     abs c' = spec_Put (capacity c) key cs (abs c)) /\
  (exists r c', Get (E:=E) key c = Ret (r, c') /\ inv c' /\ capacity c' = capacity c /\
     (r, abs c') = spec_Get key (abs c)).
Proof.
  split; [apply NewLRUClientSessionCache_ok|]. intros c key cs Hi. unfold Put, Get, spec_Put, spec_Get. destruct (m c !! key) as [elem|] eqn:Hk.
  - destruct (inv_entry c key elem Hi Hk) as (Hin & v & Hv & Hkey). rewrite Hv.
    destruct (abs_hit c key elem v Hi Hk Hv) as [-> Hw]. split.
    + destruct cs as [x|]; eexists; (split; [done|]).
      * split; [by eapply use_inv|]. split; [done|]. by apply abs_use.
      * split; [by eapply remove_inv|]. split; [done|]. by rewrite Hw.
    + eexists (_, _), _. split; [done|]. rewrite <- (insert_id (values c) elem v Hv) at 1 3.
      assert (Ev : mkEntry (sessionKey v) (entry_state v) = v) by (by destruct v). rewrite <- Ev at 1 3. split.
      * by eapply use_inv.
      * split; [done|]. cbn [abs q values]. unfold abs at 1. cbn [q values]. by rewrite (abs_use c key elem v).
  - rewrite (abs_miss c key Hi Hk). split.
    2:{ eexists (_, _), _. by split_and!. }
    assert (Hla : length (abs c) = length (q c)) by apply length_fmap. rewrite Hla.
    destruct (Z.ltb_spec (Z.of_nat (length (q c))) (capacity c)) as [Hlt|Hge].
    + eexists. split; [done|]. split; [by apply push_inv|]. split; [done|].
      unfold abs. cbn [q values fmap list_fmap]. rewrite pair_of_same, pair_of_other; [done|].
      intros Hin. pose proof (inv_fresh c Hi _ Hin). lia.
    + destruct (last (q c)) as [elem|] eqn:El.
      2:{ apply last_None in El. pose proof (inv_capacity c Hi). rewrite El in Hge. cbn in Hge. lia. }
      assert (Hin : elem ∈ q c) by (by eapply last_Some_elem_of).
      destruct (inv_q c Hi elem Hin) as (v & Hv & _). rewrite Hv. eexists. split; [done|].
      split; [by eapply evict_inv|]. split; [done|]. unfold abs. cbn [q values]. unfold MoveToFront.
      cbn [fmap list_fmap]. rewrite pair_of_same, pair_of_other by apply not_in_Remove.
      rewrite (last_Remove elem) by (done || apply Hi). by rewrite fmap_removelast.
Qed.
End cache.

(** [Put] of [nil] under a key that is not there inserts it, and evicts the
    least recently used session of a full cache. *)
Lemma Put_nil_evicts : exists c1 c2,
  Put (E:=unit) [1] (Some 7) (NewLRUClientSessionCache 1) = Ret c1 /\ Put (E:=unit) [2] None c1 = Ret c2 /\
  abs c1 = [([1], Some 7)] /\ abs c2 = [([2], None)].
Proof. eexists _, _. split; [reflexivity|]. split; [reflexivity|]. split; vm_compute; reflexivity. Qed.

Lemma cache_refines_witness : exists c', Put (E:=unit) [1] (Some 7%nat) (NewLRUClientSessionCache 0) = Ret c' /\
  abs c' = [([1], Some 7%nat)].
Proof.
  destruct (cache_refines (CS:=nat) (E:=unit)) as [Hnew Href].
  destruct (Hnew 0) as [Hi Ha]. destruct (Href (NewLRUClientSessionCache 0) [1] (Some 7%nat) Hi) as [(c' & H1 & _ & _ & H2) _].
  exists c'. split; [exact H1|]. rewrite H2, Ha. reflexivity.
Defined.
