(* ===== verification/RealityHandshake.v ===== *)
(** * handshake_server_tls13.go: the handshake of the REALITY server

    [handshake]: the answer to an authenticated client in the place of the
    target, whose ServerHello it takes over with key shares of its own, under a
    certificate that carries a MAC with the key shared with the client;
    [readClientFinished]: the client's answer.

    In this server [earlySecret], [echContext] and [c.quic] are [nil] and
    [usingPSK] is false: nothing that [Server] runs sets them; the signing key
    is the package's Ed25519 key.  crypto/ecdh, crypto/mlkem, crypto/ed25519 and
    the construction of the AEAD of a suite are parameters. *)

From S2P Require Import Prelude Common HalfConn Cryptobyte Hello Messages Gcm CipherSuites Kdf Conn.
From S2P Require Import Negotiation Auth Ticket.

Open Scope go_scope.

Notation "'do!' x := m 'in' k" := (bind m (fun x => k))
  (at level 10, x pattern, m at level 100, k at level 200).

(** crypto/ecdh's X25519 and crypto/mlkem; [None] is an error, and the value
    beside it [nil].  [GenerateKey] takes what it reads from [rand]. *)
Class KeyExchange := {
  ecdh_PrivateKey : Type;
  ecdh_PublicKey : Type;
  GenerateKey : bytes -> ecdh_PrivateKey;
  PublicKey_Bytes : ecdh_PrivateKey -> bytes;
  NewPublicKey : bytes -> option ecdh_PublicKey;
  ECDH : ecdh_PrivateKey -> ecdh_PublicKey -> option bytes;
  EncapsulationKey768 : Type;
  NewEncapsulationKey768 : bytes -> option EncapsulationKey768;
  Encapsulate : EncapsulationKey768 -> bytes * bytes   (* shared secret, ciphertext *)
}.

Definition EncapsulationKeySize768 : nat := 1184.
Definition nil_dereference : string := "nil pointer dereference".

(** What the handshake reads of [Config]. *)
Record EncryptedClientHelloKey := mkEchKey { ech_Config : bytes; ech_PrivateKey : bytes; SendAsRetry : bool }.
Record hsConfig (X : Type) := mkHsConfig {
  SessionTicketsDisabled : bool;
  WrapSession : option (SessionState.t X -> outcome conn_error bytes);
  ClientAuth : Z;
  ClientCAs : option (list bytes);                 (* [Subjects()] *)
  KeyLogWriter : option (bytes -> option conn_error);
  EncryptedClientHelloKeys : list EncryptedClientHelloKey;
  unix_time : Z                                    (* [c.config.time().Unix()] *)
}.
Arguments mkHsConfig {X}.
Arguments SessionTicketsDisabled {X} h.
Arguments WrapSession {X} h.
Arguments ClientAuth {X} h.
Arguments ClientCAs {X} h.
Arguments KeyLogWriter {X} h.
Arguments EncryptedClientHelloKeys {X} h.
Arguments unix_time {X} h.

Definition RequestClientCert : Z := 1.

(** What it reads of [Conn] beside the record layer. *)
Record connInfo (X : Type) := mkConnInfo {
  AuthKey : bytes;
  ticketKeys : list ticketKey;
  clientProtocol : bytes;
  extMasterSecret : bool;
  peerCertificates : list X;
  activeCertHandles : list X;
  ocspResponse : option bytes;
  conn_scts : option (list bytes);
  verifiedChains : list (list X);
  conn_curveID : Z
}.
Arguments mkConnInfo {X}.
Arguments AuthKey {X} c.
Arguments ticketKeys {X} c.
Arguments clientProtocol {X} c.
Arguments extMasterSecret {X} c.
Arguments peerCertificates {X} c.
Arguments activeCertHandles {X} c.
Arguments ocspResponse {X} c.
Arguments conn_scts {X} c.
Arguments verifiedChains {X} c.
Arguments conn_curveID {X} c.

Definition QUICEncryptionLevelHandshake : Z := 2.
Definition QUICEncryptionLevelApplication : Z := 3.

(** The state of the handshake.  [c.serverName] and [c.cipherSuite] are those of
    [clientHello] and [suite]. *)
Record serverHandshakeStateTLS13 := mkHs {
  clientHello : clientHelloMsg.t;
  hello : serverHelloMsg.t;
  sentDummyCCS : bool;
  suite : cipherSuiteTLS13;
  cert : Certificate;
  sigAlg : Z;
  sharedKey : option bytes;
  handshakeSecret : tls13.HandshakeSecret;
  masterSecret : tls13.MasterSecret;
  hs_trafficSecret : bytes;
  transcript : digest;
  clientFinished : option bytes;
  resumptionSecret : bytes;                 (* [c.resumptionSecret] *)
  ekm : option (tls13.MasterSecret * digest)  (* [c.ekm]: the variables of [exportKeyingMaterial] *)
}.

Definition set_transcript (d : digest) (h : serverHandshakeStateTLS13) : serverHandshakeStateTLS13 :=
  mkHs (clientHello h) (hello h) (sentDummyCCS h) (suite h) (cert h) (sigAlg h) (sharedKey h) (handshakeSecret h)
    (masterSecret h) (hs_trafficSecret h) d (clientFinished h) (resumptionSecret h) (ekm h).
Definition set_sentDummyCCS (h : serverHandshakeStateTLS13) : serverHandshakeStateTLS13 :=
  mkHs (clientHello h) (hello h) true (suite h) (cert h) (sigAlg h) (sharedKey h) (handshakeSecret h)
    (masterSecret h) (hs_trafficSecret h) (transcript h) (clientFinished h) (resumptionSecret h) (ekm h).
Definition set_cert (c : Certificate) (alg : Z) (h : serverHandshakeStateTLS13) : serverHandshakeStateTLS13 :=
  mkHs (clientHello h) (hello h) (sentDummyCCS h) (suite h) c alg (sharedKey h) (handshakeSecret h)
    (masterSecret h) (hs_trafficSecret h) (transcript h) (clientFinished h) (resumptionSecret h) (ekm h).
Definition set_handshakeSecret (s : tls13.HandshakeSecret) (h : serverHandshakeStateTLS13) : serverHandshakeStateTLS13 :=
  mkHs (clientHello h) (hello h) (sentDummyCCS h) (suite h) (cert h) (sigAlg h) (sharedKey h) s
    (masterSecret h) (hs_trafficSecret h) (transcript h) (clientFinished h) (resumptionSecret h) (ekm h).
Definition set_masterSecret (s : tls13.MasterSecret) (traffic : bytes) (h : serverHandshakeStateTLS13)
  : serverHandshakeStateTLS13 :=
  mkHs (clientHello h) (hello h) (sentDummyCCS h) (suite h) (cert h) (sigAlg h) (sharedKey h) (handshakeSecret h)
    s traffic (transcript h) (clientFinished h) (resumptionSecret h) (Some (s, transcript h)).
Definition set_clientFinished (f : bytes) (h : serverHandshakeStateTLS13) : serverHandshakeStateTLS13 :=
  mkHs (clientHello h) (hello h) (sentDummyCCS h) (suite h) (cert h) (sigAlg h) (sharedKey h) (handshakeSecret h)
    (masterSecret h) (hs_trafficSecret h) (transcript h) (Some f) (resumptionSecret h) (ekm h).
Definition set_resumptionSecret (s : bytes) (h : serverHandshakeStateTLS13) : serverHandshakeStateTLS13 :=
  mkHs (clientHello h) (hello h) (sentDummyCCS h) (suite h) (cert h) (sigAlg h) (sharedKey h) (handshakeSecret h)
    (masterSecret h) (hs_trafficSecret h) (transcript h) (clientFinished h) s (ekm h).
Abbreviation hstate := serverHandshakeStateTLS13.

(** [fmt.Appendf(nil, "%s %x %x\n", label, clientRandom, secret)] *)
Definition hex_digit (d : Z) : Z := if d <? 10 then 0x30 + d else 0x61 + (d - 10).
Definition hex (b : bytes) : bytes := concat ((fun x => [hex_digit (x ≫ 4); hex_digit (x &&& 15)]) <$> b).
Definition key_log_line (label clientRandom secret : bytes) : bytes :=
  label ++ str " " ++ hex clientRandom ++ str " " ++ hex secret ++ [0x0a].

Definition keyLogLabelClientHandshake : bytes := str "CLIENT_HANDSHAKE_TRAFFIC_SECRET".
Definition keyLogLabelServerHandshake : bytes := str "SERVER_HANDSHAKE_TRAFFIC_SECRET".
Definition keyLogLabelClientTraffic : bytes := str "CLIENT_TRAFFIC_SECRET_0".
Definition keyLogLabelServerTraffic : bytes := str "SERVER_TRAFFIC_SECRET_0".

(** [buildRetryConfigList] of ech.go *)
Definition buildRetryConfigList {B} `{Builder B} (keys : list EncryptedClientHelloKey) : outcome conn_error bytes :=
  let retry := List.filter SendAsRetry keys in
  if (length retry =? 0)%nat then Ret []
  else Cryptobyte.Bytes (AddUint16LengthPrefixed (for_each (fun c => AddBytes (ech_Config c)) retry) NewBuilder).

(** ** The key exchange and the certificate *)

Section exchange.
Context `{KeyExchange} `{Hashes}.

(** The data of the first key share with the group. *)
Definition peer_data (g : Z) (shares : list keyShare) : bytes :=
  match List.find (fun ks => group ks =? g) shares with Some ks => ks_data ks | None => [] end.

(** [generateECDHEKey], [NewPublicKey], [ECDH]: the errors are ignored, so a
    [nil] key is dereferenced, and the shared key may be [nil]. *)
Definition x25519_exchange {E} (priv : option bytes) (peerPub : bytes) : outcome E (bytes * option bytes) :=
  match priv with
  | None => Panic nil_dereference
  | Some r =>
      let key := GenerateKey r in
      match NewPublicKey peerPub with
      | None => Panic nil_dereference
      | Some peerKey => Ret (PublicKey_Bytes key, ECDH key peerKey)
      end
  end.

(** The shared key and the data of the server's share.  [priv]: what is read
    from [c.config.rand()]. *)
Definition key_exchange {E} (priv : option bytes) (share : keyShare) (shares : list keyShare)
  : outcome E (option bytes * bytes) :=
  let peerData := peer_data (group share) shares in
  let hybrid := group share =? X25519MLKEM768 in
  if hybrid && (length peerData <? EncapsulationKeySize768)%nat then Panic index_out_of_range else
  let peerPub := if hybrid then drop EncapsulationKeySize768 peerData else peerData in
  let! (pub, shared) := x25519_exchange priv peerPub in
  let data := Gcm.copy (ks_data share) pub in
  if hybrid then
    match NewEncapsulationKey768 (take EncapsulationKeySize768 peerData) with
    | None => Panic nil_dereference
    | Some k =>
        let '(mlkemSharedSecret, ciphertext) := Encapsulate k in
        if (length data <? 32)%nat then Panic index_out_of_range else
        Ret (Some (mlkemSharedSecret ++ default [] shared), Gcm.copy data (ciphertext ++ take 32 data))
    end
  else Ret (shared, data).

(** [h.Sum(signedCert[:len(signedCert)-64])] writes over the signature; [pub]
    is [ed25519Priv[32:]]. *)
Definition reality_cert {E} (signedCert ed25519Priv AuthKey : bytes) : outcome E Certificate :=
  if (length ed25519Priv <? 32)%nat || (length signedCert <? 64)%nat then Panic index_out_of_range else
  let mac := hmac sha512_fn AuthKey (drop 32 ed25519Priv) in
  let n := (length signedCert - 64)%nat in
  Ret (mkCertificate [take n signedCert ++ Gcm.copy (drop n signedCert) mac] None None).
End exchange.

(** [hs.hello] with the data of the share replaced in place. *)
Definition with_share (data : bytes) (m : serverHelloMsg.t) : serverHelloMsg.t :=
  serverHelloMsg.set_serverShare (mkKeyShare (group (serverHelloMsg.serverShare m)) data) m.

(** ** The flight of the server *)

Section handshake.
Context {S A C K : Type} `{Stream S} `{RecordAEAD A} `{CbcMode C} `{MacFun K}.
Context `{Hashes} `{KeyExchange} `{CryptoString} {B : Type} `{Builder B} {X : Type} `{X509 X}.
Abbreviation cn := (Conn S A C K).
Abbreviation M := (@M S A C K).

Context (dyn_off : bool) (rand : nat -> nat -> option bytes).
Context (suite_aead : aead_fn -> bytes -> bytes -> outcome conn_error A).
Context (ed25519Priv signedCert : bytes).
Context (ed25519_Sign : bytes -> bytes -> outcome conn_error bytes).
Context (aes_ctr : bytes -> bytes -> bytes -> bytes).
Context (fips : bool).
Context (config : hsConfig X) (info : connInfo X).

(** The next read of [n] bytes from [c.config.rand()]. *)
Definition read_rand (n : nat) : M (option bytes) := fun c =>
  (Ret (rand (rand_calls c) n), with_rand_calls (rand_calls c + 1) c).

Definition lift {R} (o : outcome conn_error R) : M R := fun c => (o, c).

(** The error of an operation, after the alert [a]. *)
Definition or_alert {R} (a : Z) (m : M R) : M R := fun c =>
  let '(r, c) := m c in
  match r with
  | Err e => (do! _ := sendAlert dyn_off rand a in fail e) c
  | _ => (r, c)
  end.

(** [c.writeHandshakeRecord(msg, transcript)]: the transcript is written before
    the record. *)
Definition send (msg : handshakeMessage) (d : digest) : M digest :=
  let m := marshal_message B msg in
  do! (_, err) := writeHandshakeRecord dyn_off rand m in
  do! _ := raise err in
  ret (match m with Ret data => d_Write data d | _ => d end).

(** [c.config.writeKeyLog(label, random, secret)] and the alert for its error *)
Definition writeKeyLog (label clientRandom secret : bytes) : M unit :=
  match KeyLogWriter config with
  | None => ret tt
  | Some w =>
      match w (key_log_line label clientRandom secret) with
      | None => ret tt
      | Some e => do! _ := sendAlert dyn_off rand alertInternalError in fail e
      end
  end.

(** [c.out.setTrafficSecret], [c.in.setTrafficSecret] *)
Definition traffic_keys (s : cipherSuiteTLS13) (secret : bytes) : outcome conn_error A :=
  let! (key, iv) := trafficKey s secret in suite_aead (aead13 s) key iv.
Definition set_out_secret (s : cipherSuiteTLS13) (lvl : Z) (secret : bytes) : M unit :=
  do! a := lift (traffic_keys s secret) in
  modify (fun c => with_cout (setTrafficSecret (fun _ => ([], [])) (fun _ _ => a) lvl secret (cout c)) c).
Definition set_in_secret (s : cipherSuiteTLS13) (lvl : Z) (secret : bytes) : M unit :=
  do! a := lift (traffic_keys s secret) in
  modify (fun c => with_cin (setTrafficSecret (fun _ => ([], [])) (fun _ _ => a) lvl secret (cin c)) c).

Definition sendDummyChangeCipherSpec (hs : hstate) : M hstate :=
  if sentDummyCCS hs then ret hs
  else do! _ := writeChangeCipherRecord dyn_off rand in ret (set_sentDummyCCS hs).

Definition encrypted_extensions (hs : hstate) : outcome conn_error encryptedExtensionsMsg.t :=
  let! retry :=
    (if (0 <? length (EncryptedClientHelloKeys config))%nat &&
        (0 <? length (clientHelloMsg.encryptedClientHello (clientHello hs)))%nat
     then buildRetryConfigList (EncryptedClientHelloKeys config) else Ret []) in
  Ret (encryptedExtensionsMsg.mk (clientProtocol info) None false retry).

Definition sendServerParameters (hs : hstate) : M hstate :=
  do! ch := lift (transcriptMsg B (ClientHello (clientHello hs))) in
  do! d := send (ServerHello (hello hs)) (d_Write ch (transcript hs)) in
  let hs := set_transcript d hs in
  do! hs := sendDummyChangeCipherSpec hs in
  let earlySecret := tls13.NewEarlySecret (suite_hash (suite hs)) None in
  do! secret := lift (tls13.derive_HandshakeSecret earlySecret (sharedKey hs)) in
  let hs := set_handshakeSecret secret hs in
  do! clientSecret := lift (tls13.ClientHandshakeTrafficSecret secret (Some (transcript hs))) in
  do! _ := set_in_secret (suite hs) QUICEncryptionLevelHandshake clientSecret in
  do! serverSecret := lift (tls13.ServerHandshakeTrafficSecret secret (Some (transcript hs))) in
  do! _ := set_out_secret (suite hs) QUICEncryptionLevelHandshake serverSecret in
  let random := clientHelloMsg.random (clientHello hs) in
  do! _ := writeKeyLog keyLogLabelClientHandshake random clientSecret in
  do! _ := writeKeyLog keyLogLabelServerHandshake random serverSecret in
  do! ee := or_alert alertInternalError (lift (encrypted_extensions hs)) in
  do! d := send (EncryptedExtensions ee) (transcript hs) in
  ret (set_transcript d hs).

Definition requestClientCert : bool := RequestClientCert <=? ClientAuth config.

Definition certificate_request : certificateRequestMsgTLS13.t :=
  certificateRequestMsgTLS13.mk true true (supportedSignatureAlgorithms fips) [] (default [] (ClientCAs config)).

Definition certificate_message (hs : hstate) : certificateMsgTLS13.t :=
  certificateMsgTLS13.mk (cert hs)
    (clientHelloMsg.ocspStapling (clientHello hs) && (0 <? length (default [] (OCSPStaple (cert hs))))%nat)
    (clientHelloMsg.scts (clientHello hs) && (0 <? length (default [] (SignedCertificateTimestamps (cert hs))))%nat).

(** The signature of the transcript; the key is not an RSA key. *)
Definition sign_transcript (hs : hstate) : M bytes :=
  match typeAndHashFromSignatureScheme (sigAlg hs) with
  | Ret (sigType, sigHash) =>
      do! signed := lift (signedMessage sigHash serverSignatureContext (transcript hs)) in
      match ed25519_Sign ed25519Priv signed with
      | Ret sig => ret sig
      | Panic w => panic w
      | Err _ =>
          do! _ := sendAlert dyn_off rand alertInternalError in fail (EText "tls: failed to sign handshake: ")
      end
  | _ => do! e := sendAlert dyn_off rand alertInternalError in do! _ := raise e in ret []
  end.

Definition sendServerCertificate (hs : hstate) : M hstate :=
  do! d := (if requestClientCert then send (CertificateRequestTLS13 certificate_request) (transcript hs)
            else ret (transcript hs)) in
  do! d := send (CertificateTLS13 (certificate_message hs)) d in
  let hs := set_transcript d hs in
  do! sig := sign_transcript hs in
  do! d := send (CertificateVerify (certificateVerifyMsg.mk true (sigAlg hs) sig)) d in
  ret (set_transcript d hs).

(** ** Session tickets *)

Definition shouldSendSessionTickets (hs : hstate) : bool :=
  negb (SessionTicketsDisabled config) && contains pskModeDHE (clientHelloMsg.pskModes (clientHello hs)).

(** [c.sessionState()] with the fields that [sendSessionTicket] sets *)
Definition sessionState (hs : hstate) (vers : Z) (psk : bytes) (earlyData : bool) (extra : list bytes)
  : SessionState.t X :=
  SessionState.mk extra earlyData vers false (id13 (suite hs)) (unix_time config) psk (extMasterSecret info)
    (peerCertificates info) (activeCertHandles info) (ocspResponse info) (conn_scts info) (verifiedChains info)
    (clientProtocol info) 0 0 [] (conn_curveID info).

Definition ticket_label (state : SessionState.t X) : M bytes :=
  match WrapSession config with
  | Some wrap => lift (wrap state)
  | None =>
      do! stateBytes := or_alert alertInternalError (lift (SessionState.Bytes (B:=B) state)) in
      (* the iv is read only when there is a key *)
      match ticketKeys info with
      | [] => lift (encryptTicket aes_ctr None stateBytes [])
      | keys => do! iv := read_rand 16 in lift (encryptTicket aes_ctr iv stateBytes keys)
      end
  end.

Definition LittleEndian_Uint32 (b : bytes) : Z := be_get (rev b).

Definition sendSessionTicket (hs : hstate) (earlyData : bool) (extra : list bytes) : M unit :=
  match cipherSuiteTLS13ByID (id13 (suite hs)) with
  | None => fail (EText "tls: internal error: unknown cipher suite")
  | Some suite =>
      let h := suite_hash suite in
      do! psk := lift (tls13.ExpandLabel h (resumptionSecret hs) (str "resumption") [] (h_Size h)) in
      do! v := get (@vers S A C K) in
      do! label := ticket_label (sessionState hs v psk earlyData extra) in
      do! ageAdd := read_rand 4 in
      match ageAdd with
      | None => fail ERand
      | Some ageAdd =>
          let m := newSessionTicketMsgTLS13.mk (maxSessionTicketLifetime / second) (LittleEndian_Uint32 ageAdd) []
                     label (if earlyData then 0xffffffff else 0) in
          do! _ := send (NewSessionTicketTLS13 m) (transcript hs) in ret tt
      end
  end.

Definition sendSessionTickets (hs : hstate) : M hstate :=
  do! c := get (fun c => c) in
  do! fin := lift (suite_finishedHash (suite hs) (trafficSecret (cin c)) (transcript hs)) in
  let hs := set_clientFinished fin hs in
  do! data := lift (transcriptMsg B (Finished (finishedMsg.mk fin))) in
  let hs := set_transcript (d_Write data (transcript hs)) hs in
  do! secret := lift (tls13.ResumptionMasterSecret (masterSecret hs) (Some (transcript hs))) in
  let hs := set_resumptionSecret secret hs in
  if negb (shouldSendSessionTickets hs) then ret hs
  else do! _ := sendSessionTicket hs false [] in ret hs.

Definition sendServerFinished (hs : hstate) : M hstate :=
  do! c := get (fun c => c) in
  do! verifyData := lift (suite_finishedHash (suite hs) (trafficSecret (cout c)) (transcript hs)) in
  do! d := send (Finished (finishedMsg.mk verifyData)) (transcript hs) in
  let hs := set_transcript d hs in
  do! master := lift (tls13.derive_MasterSecret (handshakeSecret hs)) in
  do! traffic := lift (tls13.ClientApplicationTrafficSecret master (Some d)) in
  do! serverSecret := lift (tls13.ServerApplicationTrafficSecret master (Some d)) in
  let hs := set_masterSecret master traffic hs in
  do! _ := set_out_secret (suite hs) QUICEncryptionLevelApplication serverSecret in
  let random := clientHelloMsg.random (clientHello hs) in
  do! _ := writeKeyLog keyLogLabelClientTraffic random traffic in
  do! _ := writeKeyLog keyLogLabelServerTraffic random serverSecret in
  if negb requestClientCert then sendSessionTickets hs else ret hs.

(** ** [handshake] *)

Definition zero_HandshakeSecret : tls13.HandshakeSecret := tls13.mkHandshakeSecret [] sha256_fn.
Definition zero_MasterSecret : tls13.MasterSecret := tls13.mkMasterSecret [] sha256_fn.

(** The first block: the suite, the transcript and the shared key. *)
Definition start (ch : clientHelloMsg.t) (sh : serverHelloMsg.t) : M hstate :=
  match cipherSuiteTLS13ByID (serverHelloMsg.cipherSuite sh) with
  | None => panic nil_dereference
  | Some s =>
      do! priv := read_rand 32 in
      do! (shared, data) := lift (key_exchange priv (serverHelloMsg.serverShare sh) (clientHelloMsg.keyShares ch)) in
      ret (mkHs ch (with_share data sh) false s (mkCertificate [] None None) 0 shared zero_HandshakeSecret
             zero_MasterSecret [] (new_digest (suite_hash s)) None [] None)
  end.

(** [handshake] up to its [return nil]; what follows it is not reached. *)
Definition handshake (ch : clientHelloMsg.t) (sh : serverHelloMsg.t) : M hstate :=
  do! hs := start ch sh in
  do! certificate := lift (reality_cert signedCert ed25519Priv (AuthKey info)) in
  let hs := set_cert certificate Ed25519 hs in
  do! _ := modify (with_buffering true) in
  do! hs := sendServerParameters hs in
  do! hs := sendServerCertificate hs in
  do! hs := sendServerFinished hs in
  do! c := get (fun c => c) in
  do! _ := (if negb (nth_len (handshakeLen (cout c)) 6 =? 0)
            then do! (_, err) := writeRecord dyn_off rand recordTypeHandshake [typeNewSessionTicket] in raise err
            else ret tt) in
  do! (_, err) := flush in
  do! _ := raise err in
  ret hs.

(** ** The client's answer *)

(** [c.readHandshake(nil)] *)
Definition readHandshake : M handshakeMessage :=
  do! data := readHandshakeMessage dyn_off rand in
  do! v := get (@vers S A C K) in
  match unmarshal_message v data with
  | Some m => ret m
  | None => do! _ := alert_and_fail dyn_off rand alertUnexpectedMessage in panic "unreachable"
  end.

Definition readClientFinished (hs : hstate) : M unit :=
  do! msg := readHandshake in
  match msg with
  | Finished m =>
      if negb (bool_decide (default [] (clientFinished hs) = finishedMsg.verifyData m)) then
        do! _ := sendAlert dyn_off rand alertDecryptError in fail (EText "tls: invalid client finished hash")
      else set_in_secret (suite hs) QUICEncryptionLevelApplication (hs_trafficSecret hs)
  | _ =>
      do! _ := sendAlert dyn_off rand alertUnexpectedMessage in
      fail (EText "tls: received unexpected handshake message")
  end.

(** What the goroutine of [Server] does with an authenticated client once the
    target's flight is complete: the lengths [lens] and the buffer of the scan
    are those of [c.out]. *)
Definition serve (ch : clientHelloMsg.t) (sh : serverHelloMsg.t) (lens : list Z) (buf : option bytes) : M unit :=
  do! _ := modify (fun c => with_handshakeBuf buf (with_cout (set_handshakeLen lens (cout c)) c)) in
  do! hs := handshake ch sh in
  do! _ := readClientFinished hs in
  modify (with_isHandshakeComplete true).
End handshake.
