(* ===== verification/Post.v ===== *)
(** * conn.go: after the handshake

    [Read] with the messages that arrive after the handshake: key updates,
    session tickets and requests to renegotiate; and [Handshake], which [Read]
    and [Write] call first.  The connection has no QUIC transport and the
    context of the handshake is never canceled ([context.Background()]).

    [cipherSuite], [isClient], [resumptionSecret] are the fields of [Conn] of
    these names, which do not change after the handshake; [cacheKey] is
    [clientSessionCacheKey()].  The session cache of the configuration is the
    user's ([None] is [nil]). *)

From S2P Require Import Prelude Common HalfConn Cryptobyte Hello Messages Gcm CipherSuites Kdf Conn.
From S2P Require Import Negotiation Auth Ticket RealityHandshake.

Open Scope go_scope.

Definition RenegotiateNever : Z := 0.
Definition RenegotiateOnceAsClient : Z := 1.
Definition RenegotiateFreelyAsClient : Z := 2.
Definition QUICEncryptionLevelInitial : Z := 0.

Section post.
Context {S A C K : Type} `{Stream S} `{RecordAEAD A} `{CbcMode C} `{MacFun K}.
Context `{Hashes} `{CryptoString} {B : Type} `{Builder B} {X : Type}.
Abbreviation cn := (Conn S A C K).
Abbreviation M := (@M S A C K).

Context (dyn_off : bool) (rand : nat -> nat -> option bytes).
Context (suite_aead : aead_fn -> bytes -> bytes -> outcome conn_error A).
Context (isClient : bool) (cipherSuite : Z) (resumptionSecret : option bytes).
Context (Renegotiation : Z).
Context (config : hsConfig X) (info : connInfo X).
Context (ClientSessionCache_Put : option (bytes -> SessionState.t X -> M unit)) (cacheKey : bytes).
(** [c.clientHandshake(ctx)], and [c.handshakeFn]. *)
Context (clientHandshake handshakeFn : M unit).

(** ** [Handshake] *)

(** The error of a function whose result is an [error]. *)
Definition handshakeContext : M unit :=
  do! complete := get isHandshakeComplete in
  if complete : bool then ret tt else
  do! earlier := get handshakeErr in
  match earlier with
  | Some e => fail e
  | None =>
      do! err := try_ handshakeFn in
      do! _ := (match err with
                | None => modify (fun c => with_handshakes (handshakes c + 1) c)
                | Some _ => do! _ := flush in ret tt
                end) in
      do! complete := get isHandshakeComplete in
      let err :=
        match err with
        | None => if complete : bool then None
                  else Some (EText "tls: internal error: handshake should have had a result")
        | Some e => Some e
        end in
      do! _ := modify (with_handshakeErr err) in
      match err with
      | Some _ => if complete then panic "tls: internal error: handshake returned an error but is marked successful"
                  else raise err
      | None => ret tt
      end
  end.

(** ** Messages after the handshake *)

(** [return c.sendAlert(a)]; [c.sendAlert(a); return err] *)
Definition return_alert (a : Z) : M unit := do! e := sendAlert dyn_off rand a in raise e.
Definition alert_then (a : Z) (e : conn_error) : M unit := do! _ := sendAlert dyn_off rand a in fail e.

Definition handleRenegotiation : M unit :=
  do! v := get (@vers S A C K) in
  if v =? VersionTLS13 then fail (EText "tls: internal error: unexpected renegotiation") else
  do! msg := readHandshake dyn_off rand in
  match msg with
  | HelloRequest =>
      if negb isClient then return_alert alertNoRenegotiation else
      let renegotiate :=
        do! _ := modify (with_isHandshakeComplete false) in
        do! err := try_ clientHandshake in
        do! _ := modify (with_handshakeErr err) in
        do! _ := (match err with None => modify (fun c => with_handshakes (handshakes c + 1) c) | Some _ => ret tt end) in
        raise err in
      if Renegotiation =? RenegotiateNever then return_alert alertNoRenegotiation
      else if Renegotiation =? RenegotiateOnceAsClient then
        do! n := get handshakes in
        if 1 <? n then return_alert alertNoRenegotiation else renegotiate
      else if Renegotiation =? RenegotiateFreelyAsClient then renegotiate
      else alert_then alertInternalError (EText "tls: unknown Renegotiation value")
  | _ => alert_then alertUnexpectedMessage (EText "tls: received unexpected handshake message")
  end.

(** [c.sessionState()] with the fields that [handleNewSessionTicket] sets *)
Definition ticket_session (v : Z) (psk : bytes) (msg : newSessionTicketMsgTLS13.t) : SessionState.t X :=
  SessionState.mk [] false v isClient cipherSuite (unix_time config) psk (extMasterSecret info)
    (peerCertificates info) (activeCertHandles info) (ocspResponse info) (conn_scts info) (verifiedChains info)
    (clientProtocol info) (unix_time config + newSessionTicketMsgTLS13.lifetime msg) (newSessionTicketMsgTLS13.ageAdd msg)
    (newSessionTicketMsgTLS13.label msg) (conn_curveID info).

Definition handleNewSessionTicket (msg : newSessionTicketMsgTLS13.t) : M unit :=
  if negb isClient then
    alert_then alertUnexpectedMessage (EText "tls: received new session ticket from a client")
  else
  match SessionTicketsDisabled config, ClientSessionCache_Put with
  | true, _ | _, None => ret tt
  | false, Some put =>
      let lifetime := newSessionTicketMsgTLS13.lifetime msg in
      if lifetime =? 0 then ret tt
      else if maxSessionTicketLifetime <? lifetime * second then
        alert_then alertIllegalParameter (EText "tls: received a session ticket with invalid lifetime")
      else if (length (newSessionTicketMsgTLS13.label msg) =? 0)%nat then
        alert_then alertDecodeError (EText "tls: received a session ticket with empty opaque ticket label")
      else
        match cipherSuiteTLS13ByID cipherSuite, resumptionSecret with
        | Some suite, Some secret =>
            let h := suite_hash suite in
            do! psk := lift (tls13.ExpandLabel h secret (str "resumption") (newSessionTicketMsgTLS13.nonce msg) (h_Size h)) in
            do! v := get (@vers S A C K) in
            if (length cacheKey =? 0)%nat then ret tt else put cacheKey (ticket_session v psk msg)
        | _, _ => return_alert alertInternalError
        end
  end.

Definition handleKeyUpdate (msg : keyUpdateMsg.t) : M unit :=
  match cipherSuiteTLS13ByID cipherSuite with
  | None => do! e := sendAlert dyn_off rand alertInternalError in do! e := set_in_err e in raise e
  | Some suite =>
      do! c := get (fun c => c) in
      do! newSecret := lift (nextTrafficSecret suite (trafficSecret (cin c))) in
      do! _ := set_in_secret suite_aead suite QUICEncryptionLevelInitial newSecret in
      if negb (keyUpdateMsg.updateRequested msg) then ret tt else
      do! msgBytes := lift (keyUpdateMsg.marshal B (keyUpdateMsg.mk false)) in
      do! (_, err) := writeRecordLocked dyn_off rand recordTypeHandshake msgBytes in
      match err with
      | Some _ => do! _ := set_out_err err in ret tt
      | None =>
          do! c := get (fun c => c) in
          do! newSecret := lift (nextTrafficSecret suite (trafficSecret (cout c))) in
          set_out_secret suite_aead suite QUICEncryptionLevelInitial newSecret
      end
  end.

Definition handlePostHandshakeMessage : M unit :=
  do! v := get (@vers S A C K) in
  if negb (v =? VersionTLS13) then handleRenegotiation else
  do! msg := readHandshake dyn_off rand in
  do! _ := modify (fun c => with_retryCount (retryCount c + 1) c) in
  do! n := get retryCount in
  if maxUselessRecords <? n then
    do! _ := sendAlert dyn_off rand alertUnexpectedMessage in fail_in (EText "tls: too many non-advancing records")
  else
    match msg with
    | NewSessionTicketTLS13 m => handleNewSessionTicket m
    | KeyUpdate m => handleKeyUpdate m
    | _ => alert_then alertUnexpectedMessage (EText "tls: received unexpected handshake message of type")
    end.

(** ** [Read] *)

(** What is left of the network's input.  The loops end before the fuel: every
    record takes five bytes of it, and in TLS 1.3 [retryCount] allows 16
    messages after each record; up to TLS 1.2 a message takes four bytes of
    [hand] or of a record to come. *)
Definition raw_left (c : cn) : nat :=
  (length (rawInput c) + list_sum ((fun r => length (fst r)) <$> net_in c))%nat.
Definition read_fuel (c : cn) : nat := (17 * raw_left c + 18 + length (hand c))%nat.

(** [for c.hand.Len() > 0] *)
Fixpoint handle_hand_fuel (stuck : M unit) (fuel : nat) : M unit :=
  do! h := get hand in
  if (length h =? 0)%nat then ret tt else
  match fuel with
  | O => stuck
  | Datatypes.S fuel => do! _ := handlePostHandshakeMessage in handle_hand_fuel stuck fuel
  end.
Definition handle_hand : M unit := fun c => handle_hand_fuel out_of_fuel (read_fuel c) c.

(** [for c.input.Len() == 0] *)
Fixpoint fill_input_fuel (stuck : M unit) (fuel : nat) : M unit :=
  do! i := get input in
  if negb (length i =? 0)%nat then ret tt else
  match fuel with
  | O => stuck
  | Datatypes.S fuel =>
      do! _ := readRecord dyn_off rand in
      do! _ := handle_hand in fill_input_fuel stuck fuel
  end.
Definition fill_input : M unit := fun c => fill_input_fuel out_of_fuel (read_fuel c) c.

(** [Read] into a buffer of [len] bytes: the bytes, and the error. *)
Definition Read (len : nat) : M (bytes * option conn_error) :=
  do! err := try_ handshakeContext in
  match err with
  | Some e => ret ([], Some e)
  | None =>
      if (len =? 0)%nat then ret ([], None) else
      do! err := try_ fill_input in
      match err with
      | Some e => ret ([], Some e)
      | None =>
          do! i := get input in
          let b := take len i in
          do! _ := modify (with_input (drop len i)) in
          do! c := get (fun c => c) in
          if negb (length b =? 0)%nat && (length (input c) =? 0)%nat && (0 <? length (rawInput c))%nat &&
             (nth_byte (rawInput c) 0 =? recordTypeAlert)
          then do! err := try_ (readRecord dyn_off rand) in ret (b, err)
          else ret (b, None)
      end
  end.
End post.
