(* ===== verification/Client.v ===== *)
(** * handshake_client.go: what the client says and what it checks

    The client of [Client]: its ClientHello, the session it resumes, the
    verification of the server's certificates and the choice of its own.  The
    handshakes themselves are in [Client13] and [Client12].

    The client has no QUIC transport and no EncryptedClientHelloConfigList.
    [config.time()] is the same during a handshake, in nanoseconds.  The x509,
    ecdh, mlkem and net packages of the standard library are parameters; the
    client's session cache is the interface [ClientSessionCache]. *)

From S2P Require Import Prelude Common HalfConn Cryptobyte Hello Messages Gcm CipherSuites Kdf Conn.
From S2P Require Import Negotiation Auth KeyAgreement Ticket SessionCache RealityHandshake Post.

Open Scope go_scope.

(** ** The interfaces *)

(** [ClientSessionCache]; a state that is [nil] is [None]. *)
Class ClientSessionCache (T CS : Type) := {
  cache_Get : bytes -> T -> outcome conn_error (option CS * bool * T);
  cache_Put : bytes -> option CS -> T -> outcome conn_error T
}.

#[export] Instance lruSessionCache_cache (CS : Type) : ClientSessionCache (lruSessionCache (CS:=CS)) CS := {|
  cache_Get := SessionCache.Get;
  cache_Put := SessionCache.Put
|}.

(** crypto/x509.  [NotAfter] is in nanoseconds; [AddCert] appends to the
    intermediates. *)
Record VerifyOptions (X Pool : Type) := mkVerifyOptions {
  Roots : option Pool;
  CurrentTime : Z;
  DNSName : bytes;
  Intermediates : list X
}.
Arguments mkVerifyOptions {X Pool} Roots CurrentTime DNSName Intermediates.

Class CertificateChains (X P : Type) := {
  CertPool : Type;
  cert_PublicKey : X -> PublicKey P;
  PublicKeyAlgorithm_RSA : X -> bool;
  N_BitLen : P -> Z;
  NotAfter : X -> Z;
  RawIssuer : X -> bytes;
  x509_VerifyHostname : X -> bytes -> option conn_error;
  x509_Verify : X -> VerifyOptions X CertPool -> outcome conn_error (list (list X))
}.

(** crypto/mlkem *)
Class Decapsulation := {
  DecapsulationKey768 : Type;
  NewDecapsulationKey768 : bytes -> outcome conn_error DecapsulationKey768;
  EncapsulationKey_Bytes : DecapsulationKey768 -> bytes;
  Decapsulate : DecapsulationKey768 -> bytes -> outcome conn_error bytes
}.

Definition mlkem_SeedSize : nat := 64.
Definition CiphertextSize768 : nat := 1088.

(** ** The configuration and the state *)

(** [Certificate] with its key and its parsed leaf. *)
Record clientCertificate (X P : Type) := mkClientCertificate {
  cc_message : Certificate;
  cc_key : CertKey P;
  Leaf : option X
}.
Arguments mkClientCertificate {X P} cc_message cc_key Leaf.
Arguments cc_message {X P} c.
Arguments cc_key {X P} c.
Arguments Leaf {X P} c.

Record CertificateRequestInfo := mkCertificateRequestInfo {
  AcceptableCAs : list bytes;
  SignatureSchemes : list Z;
  cri_Version : Z
}.

(** [c.ekm]: what the function closes over. *)
Inductive ekm_closure :=
| ekm13 (suite : cipherSuiteTLS13) (s : tls13.MasterSecret) (transcript : digest)
| ekm12 (version : Z) (suite : cipherSuite) (masterSecret clientRandom serverRandom : bytes).
Inductive ekm_function := ekm_NoRenegotiation | ekm_NoEMS | ekm_Own (e : option ekm_closure).

Record ConnectionState (X : Type) := mkConnectionState {
  cs_Version : Z;
  HandshakeComplete : bool;
  DidResume : bool;
  cs_CipherSuite : Z;
  cs_CurveID : Z;
  NegotiatedProtocol : bytes;
  NegotiatedProtocolIsMutual : bool;
  cs_ServerName : bytes;
  PeerCertificates : list X;
  VerifiedChains : list (list X);
  cs_SignedCertificateTimestamps : option (list bytes);
  OCSPResponse : option bytes;
  TLSUnique : option bytes;
  ECHAccepted : bool;
  cs_ekm : ekm_function;
  testingOnlyDidHRR : bool
}.
Arguments mkConnectionState {X}.

Record clientConfig (X P Pool : Type) := mkClientConfig {
  cfg_CipherSuites : option (list Z);
  cfg_MinVersion : Z;
  cfg_MaxVersion : Z;
  cfg_CurvePreferences : list Z;
  ServerName : bytes;
  InsecureSkipVerify : bool;
  NextProtos : list bytes;
  RootCAs : option Pool;
  VerifyPeerCertificate : option (list bytes -> list (list X) -> option conn_error);
  VerifyConnection : option (ConnectionState X -> option conn_error);
  GetClientCertificate : option (CertificateRequestInfo -> outcome conn_error (clientCertificate X P));
  Certificates : list (clientCertificate X P);
  cfg_Renegotiation : Z;
  cfg_SessionTicketsDisabled : bool;
  cfg_KeyLogWriter : option (bytes -> option conn_error);
  time_now : Z
}.
Arguments cfg_CipherSuites {X P Pool} c.
Arguments cfg_MinVersion {X P Pool} c.
Arguments cfg_MaxVersion {X P Pool} c.
Arguments cfg_CurvePreferences {X P Pool} c.
Arguments ServerName {X P Pool} c.
Arguments InsecureSkipVerify {X P Pool} c.
Arguments NextProtos {X P Pool} c.
Arguments RootCAs {X P Pool} c.
Arguments VerifyPeerCertificate {X P Pool} c.
Arguments VerifyConnection {X P Pool} c.
Arguments GetClientCertificate {X P Pool} c.
Arguments Certificates {X P Pool} c.
Arguments cfg_Renegotiation {X P Pool} c.
Arguments cfg_SessionTicketsDisabled {X P Pool} c.
Arguments cfg_KeyLogWriter {X P Pool} c.
Arguments time_now {X P Pool} c.

(** The fields of [Conn] that the client's handshakes use, beside the record
    layer; [extMasterSecret], [peerCertificates] and the like are in [info]. *)
Module ClientConn.
Record t (X T : Type) := mk {
  info : connInfo X;
  didResume : bool;
  didHRR : bool;
  serverName : bytes;
  cipherSuite : Z;
  clientFinished : bytes;             (* [12]byte *)
  serverFinished : bytes;
  clientFinishedIsFirst : bool;
  secureRenegotiation : bool;
  resumptionSecret : option bytes;
  ekm : option ekm_closure;
  cache : option T                    (* [c.config.ClientSessionCache] *)
}.
Arguments mk {X T}.
Arguments info {X T} t.
Arguments didResume {X T} t.
Arguments didHRR {X T} t.
Arguments serverName {X T} t.
Arguments cipherSuite {X T} t.
Arguments clientFinished {X T} t.
Arguments serverFinished {X T} t.
Arguments clientFinishedIsFirst {X T} t.
Arguments secureRenegotiation {X T} t.
Arguments resumptionSecret {X T} t.
Arguments ekm {X T} t.
Arguments cache {X T} t.

Section setters.
Context {X T : Type}.
Implicit Type c : t X T.

Definition set_info (f : connInfo X -> connInfo X) c := mk (f (info c)) (didResume c) (didHRR c) (serverName c)
  (cipherSuite c) (clientFinished c) (serverFinished c) (clientFinishedIsFirst c) (secureRenegotiation c)
  (resumptionSecret c) (ekm c) (cache c).
Definition set_didResume b c := mk (info c) b (didHRR c) (serverName c)
  (cipherSuite c) (clientFinished c) (serverFinished c) (clientFinishedIsFirst c) (secureRenegotiation c)
  (resumptionSecret c) (ekm c) (cache c).
Definition set_didHRR b c := mk (info c) (didResume c) b (serverName c)
  (cipherSuite c) (clientFinished c) (serverFinished c) (clientFinishedIsFirst c) (secureRenegotiation c)
  (resumptionSecret c) (ekm c) (cache c).
Definition set_serverName n c := mk (info c) (didResume c) (didHRR c) n
  (cipherSuite c) (clientFinished c) (serverFinished c) (clientFinishedIsFirst c) (secureRenegotiation c)
  (resumptionSecret c) (ekm c) (cache c).
Definition set_cipherSuite s c := mk (info c) (didResume c) (didHRR c) (serverName c)
  s (clientFinished c) (serverFinished c) (clientFinishedIsFirst c) (secureRenegotiation c)
  (resumptionSecret c) (ekm c) (cache c).
Definition set_clientFinished f c := mk (info c) (didResume c) (didHRR c) (serverName c)
  (cipherSuite c) f (serverFinished c) (clientFinishedIsFirst c) (secureRenegotiation c)
  (resumptionSecret c) (ekm c) (cache c).
Definition set_serverFinished f c := mk (info c) (didResume c) (didHRR c) (serverName c)
  (cipherSuite c) (clientFinished c) f (clientFinishedIsFirst c) (secureRenegotiation c)
  (resumptionSecret c) (ekm c) (cache c).
Definition set_clientFinishedIsFirst b c := mk (info c) (didResume c) (didHRR c) (serverName c)
  (cipherSuite c) (clientFinished c) (serverFinished c) b (secureRenegotiation c)
  (resumptionSecret c) (ekm c) (cache c).
Definition set_secureRenegotiation b c := mk (info c) (didResume c) (didHRR c) (serverName c)
  (cipherSuite c) (clientFinished c) (serverFinished c) (clientFinishedIsFirst c) b
  (resumptionSecret c) (ekm c) (cache c).
Definition set_resumptionSecret s c := mk (info c) (didResume c) (didHRR c) (serverName c)
  (cipherSuite c) (clientFinished c) (serverFinished c) (clientFinishedIsFirst c) (secureRenegotiation c)
  (Some s) (ekm c) (cache c).
Definition set_ekm e c := mk (info c) (didResume c) (didHRR c) (serverName c)
  (cipherSuite c) (clientFinished c) (serverFinished c) (clientFinishedIsFirst c) (secureRenegotiation c)
  (resumptionSecret c) (Some e) (cache c).
Definition set_cache (k : T) c := mk (info c) (didResume c) (didHRR c) (serverName c)
  (cipherSuite c) (clientFinished c) (serverFinished c) (clientFinishedIsFirst c) (secureRenegotiation c)
  (resumptionSecret c) (ekm c) (Some k).
End setters.
End ClientConn.

(** Updates of [connInfo]. *)
Section info.
Context {X : Type}.
Implicit Type i : connInfo X.
Definition set_clientProtocol p i := mkConnInfo (AuthKey i) (ticketKeys i) p (extMasterSecret i) (peerCertificates i)
  (activeCertHandles i) (ocspResponse i) (conn_scts i) (verifiedChains i) (conn_curveID i).
Definition set_extMasterSecret b i := mkConnInfo (AuthKey i) (ticketKeys i) (clientProtocol i) b (peerCertificates i)
  (activeCertHandles i) (ocspResponse i) (conn_scts i) (verifiedChains i) (conn_curveID i).
Definition set_peerCertificates certs handles i := mkConnInfo (AuthKey i) (ticketKeys i) (clientProtocol i)
  (extMasterSecret i) certs handles (ocspResponse i) (conn_scts i) (verifiedChains i) (conn_curveID i).
Definition set_stapled ocsp scts i := mkConnInfo (AuthKey i) (ticketKeys i) (clientProtocol i) (extMasterSecret i)
  (peerCertificates i) (activeCertHandles i) ocsp scts (verifiedChains i) (conn_curveID i).
Definition set_verifiedChains chains i := mkConnInfo (AuthKey i) (ticketKeys i) (clientProtocol i) (extMasterSecret i)
  (peerCertificates i) (activeCertHandles i) (ocspResponse i) (conn_scts i) chains (conn_curveID i).
Definition set_curveID id i := mkConnInfo (AuthKey i) (ticketKeys i) (clientProtocol i) (extMasterSecret i)
  (peerCertificates i) (activeCertHandles i) (ocspResponse i) (conn_scts i) (verifiedChains i) id.
End info.

(** The whole connection of a client. *)
Record client (S A C K X T : Type) := mkClient {
  conn : Conn S A C K;
  cl : ClientConn.t X T
}.
Arguments mkClient {S A C K X T} conn cl.
Arguments conn {S A C K X T} c.
Arguments cl {S A C K X T} c.

Section monad.
Context {S A C K X T : Type}.

Definition CM (R : Type) : Type := client S A C K X T -> outcome conn_error R * client S A C K X T.
Definition cret {R} (r : R) : CM R := fun c => (Ret r, c).
Definition cfail {R} (e : conn_error) : CM R := fun c => (Err e, c).
Definition clift {R} (o : outcome conn_error R) : CM R := fun c => (o, c).
Definition cget {R} (f : ClientConn.t X T -> R) : CM R := fun c => (Ret (f (cl c)), c).
Definition cmodify (f : ClientConn.t X T -> ClientConn.t X T) : CM unit := fun c => (Ret tt, mkClient (conn c) (f (cl c))).
Definition cbind {R Q} (m : CM R) (k : R -> CM Q) : CM Q := fun c =>
  let '(r, c) := m c in
  match r with
  | Ret x => k x c
  | Err e => (Err e, c)
  | Panic w => (Panic w, c)
  end.

(** An operation of the record layer. *)
Definition on_conn {R} (m : @M S A C K R) : CM R := fun c => let '(r, k) := m (conn c) in (r, mkClient k (cl c)).
End monad.
Arguments CM : clear implicits.

Notation "'let*' x := m 'in' k" := (cbind m (fun x => k))
  (at level 10, x pattern, m at level 100, k at level 200).

Section client.
Context {S A C K : Type} `{Stream S} `{RecordAEAD A} `{CbcMode C} `{MacFun K}.
Context `{Hashes} `{CryptoString} {B : Type} `{Builder B} {X P T : Type} `{X509 X} `{CertificateChains X P}.
Context `{EcdhCurves} `{Decapsulation} `{Verifiers P} `{!ClientSessionCache T (SessionState.t X)}.
Abbreviation M := (@M S A C K).
Abbreviation CM := (CM S A C K X T).
Abbreviation session_state := (SessionState.t X).
Abbreviation certificate := (clientCertificate X P).

Context (dyn_off : bool) (rand : nat -> nat -> option bytes).
(** [curve.GenerateKey(config.rand())], by the number of uses of the reader. *)
Context (generated : nat -> ecdh_Curve -> outcome conn_error ecdhPrivateKey).
(** [net.ParseIP(host) != nil] *)
Context (ParseIP : bytes -> bool).
(** [c.conn.RemoteAddr().String()]; [None] when [c.conn] is [nil]. *)
Context (RemoteAddr : option bytes).
Context (fips hasAESGCMHardwareSupport : bool).
Context (config : clientConfig X P CertPool).

(** The parts of the configuration that other functions take. *)
Definition neg : negConfig :=
  mkNegConfig (cfg_CipherSuites config) (cfg_MinVersion config) (cfg_MaxVersion config) (cfg_CurvePreferences config) None.
Definition hs_config : hsConfig X :=
  mkHsConfig (cfg_SessionTicketsDisabled config) None 0 None (cfg_KeyLogWriter config) [] (time_now config / second).

Definition calert_then {R} (a : Z) (e : conn_error) : CM R :=
  let* _ := on_conn (sendAlert dyn_off rand a) in cfail e.
(** [return c.sendAlert(a)] *)
Definition creturn_alert (a : Z) : CM unit := on_conn (return_alert dyn_off rand a).

(** ** makeClientHello *)

(** [strings.LastIndex(host, "%")] *)
Definition LastIndex_percent (host : bytes) : option nat :=
  snd <$> last (List.filter (fun p => fst p =? 0x25) (zip host (List.seq 0 (length host)))).
Fixpoint trim_dots (fuel : nat) (name : bytes) : bytes :=
  match fuel with
  | O => name
  | Datatypes.S fuel =>
      if (0 <? length name)%nat && (nth_byte name (length name - 1) =? 0x2e)
      then trim_dots fuel (take (length name - 1) name) else name
  end.

Definition hostnameInSNI (name : bytes) : bytes :=
  let host := name in
  let host := if (0 <? length host)%nat && (nth_byte host 0 =? 0x5b) && (nth_byte host (length host - 1) =? 0x5d)
              then drop 1 (take (length host - 1) host) else host in
  let host := match LastIndex_percent host with
              | Some i => if (0 <? i)%nat then take i host else host
              | None => host
              end in
  if ParseIP host then [] else trim_dots (length name) name.

Record keySharePrivateKeys := mkKeySharePrivateKeys {
  ksp_curveID : Z;
  ecdhe : ecdhPrivateKey;
  mlkem : option DecapsulationKey768
}.

(** The sum of the lengths of [NextProtos], or the error. *)
Fixpoint nextProtosLength (protos : list bytes) (n : Z) : outcome conn_error Z :=
  match protos with
  | [] => Ret n
  | proto :: protos =>
      let l := Z.of_nat (length proto) in
      if (l =? 0) || (255 <? l) then Err (EText "tls: invalid NextProtos value") else nextProtosLength protos (n + (1 + l))
  end.

(** The checks before the message is made; the versions and the highest one. *)
Definition check_config : outcome conn_error (list Z * Z) :=
  if (length (ServerName config) =? 0)%nat && negb (InsecureSkipVerify config) then
    Err (EText "tls: either ServerName or InsecureSkipVerify must be specified in the tls.Config")
  else
    let! n := nextProtosLength (NextProtos config) 0 in
    if 0xffff <? n then Err (EText "tls: NextProtos values too large") else
    let! versions := supportedVersions fips (Some neg) roleClient in
    if (length versions =? 0)%nat then
      Err (EText "tls: no supported versions satisfy MinVersion and MaxVersion")
    else
      let! maxVersion := maxSupportedVersion fips (Some neg) roleClient in
      Ret (versions, maxVersion).

(** [io.ReadFull(config.rand(), b)] for [n] bytes *)
Definition read_full (n : nat) (e : conn_error) : CM bytes :=
  let* r := on_conn (read_rand rand n) in
  match r with Some b => cret b | None => cfail e end.
Definition short_read : conn_error := EText "tls: short read from Rand: ".

Definition generate_key (curveID : Z) : CM ecdhPrivateKey :=
  let* n := on_conn (get rand_calls) in
  let* _ := on_conn (modify (fun c => with_rand_calls (n + 1) c)) in
  clift (ecdheKeyAgreement.generateECDHEKey (generated n) curveID).

(** The cipher suites that [hello] offers up to TLS 1.2, and those of TLS 1.3. *)
Definition hello_cipherSuites (maxVersion : Z) : outcome conn_error (list Z) :=
  let l := config_cipherSuites fips neg hasAESGCMHardwareSupport in
  if maxVersion <? VersionTLS12 then
    if existsb (fun id => negb (bool_decide (is_Some (cipherSuiteByID id)))) l then Panic nil_dereference else
    Ret (DeleteFunc l (fun id =>
      match cipherSuiteByID id with Some s => negb (flags s &&& suiteTLS12 =? 0) | None => false end))
  else Ret l.
Definition hello_cipherSuites13 (versions l : list Z) : list Z :=
  (if (length versions =? 1)%nat then [] else l) ++
  (if fips then allowedCipherSuitesTLS13FIPS
   else if hasAESGCMHardwareSupport then defaultCipherSuitesTLS13 else defaultCipherSuitesTLS13NoAES).

(** The key shares and their private keys. *)
Definition make_keyShares (supportedCurves : list Z) : CM (list keyShare * keySharePrivateKeys) :=
  match supportedCurves with
  | [] => cfail (EText "tls: no supported elliptic curves for ECDHE")
  | curveID :: _ =>
      if curveID =? X25519MLKEM768 then
        let* key := generate_key X25519 in
        let* seed := read_full mlkem_SeedSize ERand in
        let* dk := clift (NewDecapsulationKey768 seed) in
        let x25519EphemeralKey := PublicBytes (PublicOf key) in
        cret (mkKeyShare X25519MLKEM768 (EncapsulationKey_Bytes dk ++ x25519EphemeralKey) ::
              (if contains X25519 supportedCurves then [mkKeyShare X25519 x25519EphemeralKey] else []),
              mkKeySharePrivateKeys curveID key (Some dk))
      else
        match curveForCurveID curveID with
        | None => cfail (EText "tls: CurvePreferences includes unsupported curve")
        | Some _ =>
            let* key := generate_key curveID in
            cret ([mkKeyShare curveID (PublicBytes (PublicOf key))], mkKeySharePrivateKeys curveID key None)
        end
  end.

(** The message without its key shares. *)
Definition client_hello (versions : list Z) (maxVersion : Z) (random sessionId renegotiation : bytes) (suites curves : list Z)
  : clientHelloMsg.t :=
  clientHelloMsg.mk None (if VersionTLS12 <? maxVersion then VersionTLS12 else maxVersion) random sessionId suites
    [compressionNone] (hostnameInSNI (ServerName config)) true curves [pointFormatUncompressed] false []
    (if VersionTLS12 <=? maxVersion then supportedSignatureAlgorithms fips else []) [] true renegotiation true
    (NextProtos config) true versions [] [] false [] [] [] None [] [].

Definition makeClientHello : CM (clientHelloMsg.t * option keySharePrivateKeys) :=
  let* (versions, maxVersion) := clift check_config in
  let* n := on_conn (get handshakes) in
  let* f := cget ClientConn.clientFinished in
  let renegotiation := if 0 <? n then f else [] in
  let* suites := clift (hello_cipherSuites maxVersion) in
  let* random := read_full 32 short_read in
  let* sessionId := read_full 32 short_read in
  let curves := curvePreferences fips (Some neg) maxVersion in
  if nth_len versions 0 =? VersionTLS13 then
    let hello := client_hello versions maxVersion random sessionId renegotiation (hello_cipherSuites13 versions suites) curves in
    let* (shares, keys) := make_keyShares curves in
    cret (clientHelloMsg.set_keyShares shares hello, Some keys)
  else cret (client_hello versions maxVersion random sessionId renegotiation suites curves, None).

(** ** Resumption *)

Definition clientSessionCacheKey : bytes :=
  if (0 <? length (ServerName config))%nat then ServerName config else default [] RemoteAddr.

(** [c.config.ClientSessionCache.Put], [Get] *)
Definition cache_put (key : bytes) (cs : option session_state) : CM unit :=
  let* k := cget ClientConn.cache in
  match k with
  | None => clift (Panic nil_dereference)
  | Some k => let* k := clift (cache_Put key cs k) in cmodify (ClientConn.set_cache k)
  end.
Definition cache_get (key : bytes) : CM (option session_state) :=
  let* k := cget ClientConn.cache in
  match k with
  | None => clift (Panic nil_dereference)
  | Some k =>
      let* (cs, ok, k) := clift (cache_Get key k) in
      let* _ := cmodify (ClientConn.set_cache k) in
      cret (if ok : bool then cs else None)
  end.

(** [time.Unix(int64(s), 0)] in nanoseconds: the seconds are kept from the year 1
    on, in 64 bits. *)
Definition int64 (z : Z) : Z := (z + 2 ^ 63) mod 2 ^ 64 - 2 ^ 63.
Definition unixToInternal : Z := 62135596800.
Definition time_Unix (s : Z) : Z := (int64 (int64 s + unixToInternal) - unixToInternal) * second.

Definition obfuscated_age (s : session_state) : Z :=
  let ticketAge := time_Sub (time_now config) (time_Unix (SessionState.createdAt s)) in
  u32 (u32 (Z.quot ticketAge (10 ^ 6)) + SessionState.ageAdd s).

Definition computeAndUpdatePSK (m : clientHelloMsg.t) (binderKey : bytes) (transcript : digest)
    (finishedHash : bytes -> digest -> outcome conn_error bytes) : outcome conn_error clientHelloMsg.t :=
  let! helloBytes := clientHelloMsg.marshalWithoutBinders B m in
  let transcript := d_Write helloBytes transcript in
  let! binder := finishedHash binderKey transcript in
  clientHelloMsg.updateBinders [binder] m.

(** What [loadSession] returns: the session, the early secret and the binder key. *)
Definition loaded : Type := option session_state * option tls13.EarlySecret * bytes.
Definition nothing_loaded : loaded := (None, None, []).

(** The checks of a session of the cache that do not depend on its version;
    [delete]: the entry is deleted. *)
Inductive session_check := session_good | session_unusable | session_expired.
Definition check_session (hello : clientHelloMsg.t) (s : session_state) : outcome conn_error session_check :=
  if negb (contains (SessionState.version s) (clientHelloMsg.supportedVersions hello)) then Ret session_unusable else
  match SessionState.peerCertificates s with
  | [] => Panic index_out_of_range
  | leaf :: _ =>
      if NotAfter leaf <? time_now config then Ret session_expired
      else if InsecureSkipVerify config then Ret session_good
      else if (length (SessionState.verifiedChains s) =? 0)%nat then Ret session_unusable
      else match x509_VerifyHostname leaf (ServerName config) with
           | Some _ => Ret session_unusable
           | None => Ret session_good
           end
  end.

(** TLS 1.0 to 1.2 *)
Definition load_session12 (hello : clientHelloMsg.t) (s : session_state) : clientHelloMsg.t * loaded :=
  match mutualCipherSuite (clientHelloMsg.cipherSuites hello) (SessionState.cipherSuite s) with
  | None => (hello, nothing_loaded)
  | Some _ =>
      if negb (SessionState.extMasterSecret s) && fips then (hello, nothing_loaded)
      else (clientHelloMsg.set_sessionTicket (SessionState.ticket s) hello, (Some s, None, []))
  end.

(** TLS 1.3: the pre_shared_key extension and its binder. *)
Definition offered_hash (h : crypto_hash) (ids : list Z) : bool :=
  existsb (fun id => match cipherSuiteTLS13ByID id with Some o => bool_decide (hash13 o = h) | None => false end) ids.
Definition offer_session (hello : clientHelloMsg.t) (s : session_state) (suite : cipherSuiteTLS13)
  : outcome conn_error (clientHelloMsg.t * loaded) :=
  let identity := mkPskIdentity (SessionState.ticket s) (obfuscated_age s) in
  let h := suite_hash suite in
  let hello := clientHelloMsg.set_pskBinders [replicate (h_Size h) 0] (clientHelloMsg.set_pskIdentities [identity] hello) in
  let earlySecret := tls13.NewEarlySecret h (Some (SessionState.secret s)) in
  let! binderKey := tls13.ResumptionBinderKey earlySecret in
  let! hello := computeAndUpdatePSK hello binderKey (new_digest h) (suite_finishedHash suite) in
  Ret (hello, (Some s, Some earlySecret, binderKey)).
Definition load_session13 (cacheKey : bytes) (hello : clientHelloMsg.t) (s : session_state)
  : CM (clientHelloMsg.t * loaded) :=
  if time_Unix (SessionState.useBy s) <? time_now config then
    let* _ := cache_put cacheKey None in cret (hello, nothing_loaded)
  else
    match cipherSuiteTLS13ByID (SessionState.cipherSuite s) with
    | None => cret (hello, nothing_loaded)
    | Some suite =>
        if negb (offered_hash (hash13 suite) (clientHelloMsg.cipherSuites hello)) then cret (hello, nothing_loaded)
        else clift (offer_session hello s suite)
    end.

(** The hello with what it offers, and what was loaded. *)
Definition loadSession (hello : clientHelloMsg.t) : CM (clientHelloMsg.t * loaded) :=
  let* k := cget ClientConn.cache in
  if cfg_SessionTicketsDisabled config || negb (bool_decide (is_Some k)) then cret (hello, nothing_loaded) else
  let hello := clientHelloMsg.set_ticketSupported true hello in
  let hello := if nth_len (clientHelloMsg.supportedVersions hello) 0 =? VersionTLS13
               then clientHelloMsg.set_pskModes [pskModeDHE] hello else hello in
  let* n := on_conn (get handshakes) in
  if negb (n =? 0) then cret (hello, nothing_loaded) else
  let cacheKey := clientSessionCacheKey in
  if (length cacheKey =? 0)%nat then cret (hello, nothing_loaded) else
  let* cs := cache_get cacheKey in
  match cs with
  | None => cret (hello, nothing_loaded)
  | Some s =>
      let* r := clift (check_session hello s) in
      match r with
      | session_unusable => cret (hello, nothing_loaded)
      | session_expired => let* _ := cache_put cacheKey None in cret (hello, nothing_loaded)
      | session_good =>
          if negb (SessionState.version s =? VersionTLS13) then cret (load_session12 hello s)
          else load_session13 cacheKey hello s
      end
  end.

(** ** The server's certificates *)

(** defaults_fips140.go; [fips140tls] needs no boringcrypto. *)
Definition isCertificateAllowedFIPS (x : X) : bool :=
  match cert_PublicKey x with
  | PubRSA _ k => 2048 <=? N_BitLen k
  | PubECDSA (Some c) _ => contains c [CurveP256; CurveP384; CurveP521]
  | PubECDSA None _ => false
  | PubEd25519 _ => true
  | PubOther => false
  end.
Definition fipsAllowChain (chain : list X) : bool :=
  if (length chain =? 0)%nat then false else forallb isCertificateAllowedFIPS chain.
Definition fipsAllowedChains (chains : list (list X)) : outcome conn_error (list (list X)) :=
  if negb fips then Ret chains else
  let permittedChains := List.filter fipsAllowChain chains in
  if (length permittedChains =? 0)%nat then Err (EText "tls: no FIPS compatible certificate chains found")
  else Ret permittedChains.

Definition defaultMaxRSAKeySize : Z := 8192.
Definition checkKeySize (n : Z) : Z * bool := (defaultMaxRSAKeySize, n <=? defaultMaxRSAKeySize).

(** [connectionStateLocked] *)
Definition connectionStateLocked : CM (ConnectionState X) := fun c =>
  let v := vers (conn c) in
  let i := ClientConn.info (cl c) in
  let tlsUnique :=
    if (negb (ClientConn.didResume (cl c)) || extMasterSecret i) && negb (v =? VersionTLS13) then
      Some (if ClientConn.clientFinishedIsFirst (cl c) then ClientConn.clientFinished (cl c) else ClientConn.serverFinished (cl c))
    else None in
  let ekm :=
    if negb (cfg_Renegotiation config =? RenegotiateNever) then ekm_NoRenegotiation
    else if negb (v =? VersionTLS13) && negb (extMasterSecret i) then ekm_NoEMS
    else ekm_Own (ClientConn.ekm (cl c)) in
  (Ret (mkConnectionState v (isHandshakeComplete (conn c)) (ClientConn.didResume (cl c)) (ClientConn.cipherSuite (cl c))
          (conn_curveID i) (clientProtocol i) true (ClientConn.serverName (cl c)) (peerCertificates i) (verifiedChains i)
          (conn_scts i) (ocspResponse i) tlsUnique false ekm (ClientConn.didHRR (cl c))), c).

(** [c.config.VerifyConnection(c.connectionStateLocked())], if there is one *)
Definition verify_connection : CM unit :=
  match VerifyConnection config with
  | None => cret tt
  | Some f =>
      let* st := connectionStateLocked in
      match f st with
      | None => cret tt
      | Some e => calert_then alertBadCertificate e
      end
  end.

(** The loop over the certificates. *)
Fixpoint parse_certificates (certificates : list bytes) (certs : list X) : CM (list X) :=
  match certificates with
  | [] => cret certs
  | asn1Data :: certificates =>
      match ParseCertificate asn1Data with
      | Panic w => clift (Panic w)
      | Err _ => calert_then alertDecodeError (EText "tls: failed to parse certificate from server: ")
      | Ret cert =>
          let next := parse_certificates certificates (certs ++ [cert]) in
          if PublicKeyAlgorithm_RSA cert then
            match cert_PublicKey cert with
            | PubRSA _ k =>
                if snd (checkKeySize (N_BitLen k)) then next
                else calert_then alertBadCertificate
                       (EText "tls: server sent certificate containing RSA key larger than 8192 bits")
            | _ => clift (Panic "interface conversion")
            end
          else next
      end
  end.

(** The chains, unless [InsecureSkipVerify]. *)
Definition verify_options (certs : list X) : VerifyOptions X CertPool :=
  mkVerifyOptions (RootCAs config) (time_now config) (ServerName config) (tail certs).
Definition verify_chains (leaf : X) (certs : list X) : CM unit :=
  if InsecureSkipVerify config then cret tt else
  match x509_Verify leaf (verify_options certs) with
  | Panic w => clift (Panic w)
  | Err e => calert_then alertBadCertificate e
  | Ret chains =>
      match fipsAllowedChains chains with
      | Ret chains => cmodify (ClientConn.set_info (set_verifiedChains chains))
      | Err e => let* _ := cmodify (ClientConn.set_info (set_verifiedChains [])) in calert_then alertBadCertificate e
      | Panic w => clift (Panic w)
      end
  end.

Definition verifyServerCertificate (certificates : list bytes) : CM unit :=
  let* certs := parse_certificates certificates [] in
  match certs with
  | [] => clift (Panic index_out_of_range)
  | leaf :: _ =>
      let* _ := verify_chains leaf certs in
      match cert_PublicKey leaf with
      | PubOther =>
          calert_then alertUnsupportedCertificate
            (EText "tls: server's certificate contains an unsupported type of public key")
      | _ =>
          let* _ := cmodify (ClientConn.set_info (set_peerCertificates certs certs)) in
          let* i := cget ClientConn.info in
          let* _ :=
            match VerifyPeerCertificate config with
            | None => cret tt
            | Some f =>
                match f certificates (verifiedChains i) with
                | None => cret tt
                | Some e => calert_then alertBadCertificate e
                end
            end in
          verify_connection
      end
  end.

(** ** The client's own certificate *)

(** The schemes for a CertificateRequest without any. *)
Definition schemes_of_types (rsaAvail ecAvail : bool) : list Z :=
  (if ecAvail then [ECDSAWithP256AndSHA256; ECDSAWithP384AndSHA384; ECDSAWithP521AndSHA512] else []) ++
  (if rsaAvail then [PKCS1WithSHA256; PKCS1WithSHA384; PKCS1WithSHA512; PKCS1WithSHA1] else []).

Definition certificateRequestInfoFromMsg (vers : Z) (certReq : certificateRequestMsg.t) : CertificateRequestInfo :=
  let rsaAvail := contains certTypeRSASign (certificateRequestMsg.certificateTypes certReq) in
  let ecAvail := contains certTypeECDSASign (certificateRequestMsg.certificateTypes certReq) in
  let schemes :=
    if negb (certificateRequestMsg.hasSignatureAlgorithm certReq) then schemes_of_types rsaAvail ecAvail
    else List.filter (fun sigScheme =>
      match typeAndHashFromSignatureScheme sigScheme with
      | Ret (sigType, _) =>
          if (sigType =? signatureECDSA) || (sigType =? signatureEd25519) then ecAvail
          else if (sigType =? signatureRSAPSS) || (sigType =? signaturePKCS1v15) then rsaAvail
          else false
      | _ => false
      end) (certificateRequestMsg.supportedSignatureAlgorithms certReq) in
  mkCertificateRequestInfo (certificateRequestMsg.certificateAuthorities certReq) schemes vers.

(** The loop of [SupportsCertificate] over the chain. *)
Fixpoint issued_by (cas : list bytes) (leaf : option X) (chain : list bytes) : outcome conn_error unit :=
  match chain with
  | [] => Err (EText "chain is not signed by an acceptable CA")
  | cert :: chain =>
      let! x := match leaf with Some x => Ret x | None => ParseCertificate cert end in
      if existsb (fun ca => bool_decide (RawIssuer x = ca)) cas then Ret tt else issued_by cas None chain
  end.
Definition SupportsCertificate (cri : CertificateRequestInfo) (c : certificate) : outcome conn_error unit :=
  let! _ := selectSignatureScheme fips (cri_Version cri) (cc_key c) (SignatureSchemes cri) in
  if (length (AcceptableCAs cri) =? 0)%nat then Ret tt
  else issued_by (AcceptableCAs cri) (Leaf c) (Certificate_ (cc_message c)).

Definition no_certificate : certificate :=
  mkClientCertificate (mkCertificate [] None None) (mkCertKey (mkPrivateKey None None false) None) None.

(** A [SupportsCertificate] that panics ends the loop. *)
Fixpoint first_supported (cri : CertificateRequestInfo) (certs : list certificate) : outcome conn_error certificate :=
  match certs with
  | [] => Ret no_certificate
  | chain :: certs =>
      match SupportsCertificate cri chain with
      | Ret _ => Ret chain
      | Err _ => first_supported cri certs
      | Panic w => Panic w
      end
  end.
Definition getClientCertificate (cri : CertificateRequestInfo) : outcome conn_error certificate :=
  match GetClientCertificate config with
  | Some f => f cri
  | None => first_supported cri (Certificates config)
  end.
End client.
