(* ===== verification/Client13.v ===== *)
(** * handshake_client_tls13.go: the handshake of a TLS 1.3 client

    [handshake] over [clientHandshakeStateTLS13], with HelloRetryRequest,
    resumption and the client's certificate.  [hs.c] is the state of the monad;
    [hs.suite] is an argument until [checkServerHelloOrHRR] has set it, and
    [hs.echContext] is [nil]. *)

From S2P Require Import Prelude Common HalfConn Cryptobyte Hello Messages Gcm CipherSuites Kdf Conn.
From S2P Require Import Negotiation Auth KeyAgreement Ticket RealityHandshake Post Client.

Open Scope go_scope.

Definition helloRetryRequestRandom : bytes := [
  0xCF; 0x21; 0xAD; 0x74; 0xE5; 0x9A; 0x61; 0x11; 0xBE; 0x1D; 0x8C; 0x02; 0x1E; 0x65; 0xB8; 0x91;
  0xC2; 0xA2; 0x11; 0x16; 0x7A; 0xBB; 0x8C; 0x5E; 0x07; 0x9E; 0x09; 0xE2; 0xC8; 0xA8; 0x33; 0x9C].
Definition is_retry_request (m : serverHelloMsg.t) : bool :=
  bool_decide (serverHelloMsg.random m = helloRetryRequestRandom).

Module clientHandshakeStateTLS13.
Section hs.
Context `{EcdhCurves} `{Decapsulation} {X : Type}.

Record t := mk {
  serverHello : serverHelloMsg.t;
  hello : clientHelloMsg.t;
  keyShareKeys : keySharePrivateKeys;
  session : option (SessionState.t X);
  earlySecret : option tls13.EarlySecret;
  binderKey : bytes;
  certReq : option certificateRequestMsgTLS13.t;
  usingPSK : bool;
  sentDummyCCS : bool;
  suite : cipherSuiteTLS13;
  transcript : digest;
  masterSecret : tls13.MasterSecret;
  trafficSecret : bytes
}.

Definition set_serverHello m (h : t) : t := mk m (hello h) (keyShareKeys h) (session h) (earlySecret h) (binderKey h)
  (certReq h) (usingPSK h) (sentDummyCCS h) (suite h) (transcript h) (masterSecret h) (trafficSecret h).
Definition set_hello m keys (h : t) : t := mk (serverHello h) m keys (session h) (earlySecret h) (binderKey h)
  (certReq h) (usingPSK h) (sentDummyCCS h) (suite h) (transcript h) (masterSecret h) (trafficSecret h).
Definition set_certReq r (h : t) : t := mk (serverHello h) (hello h) (keyShareKeys h) (session h) (earlySecret h)
  (binderKey h) (Some r) (usingPSK h) (sentDummyCCS h) (suite h) (transcript h) (masterSecret h) (trafficSecret h).
Definition set_usingPSK (h : t) : t := mk (serverHello h) (hello h) (keyShareKeys h) (session h) (earlySecret h)
  (binderKey h) (certReq h) true (sentDummyCCS h) (suite h) (transcript h) (masterSecret h) (trafficSecret h).
Definition set_sentDummyCCS (h : t) : t := mk (serverHello h) (hello h) (keyShareKeys h) (session h) (earlySecret h)
  (binderKey h) (certReq h) (usingPSK h) true (suite h) (transcript h) (masterSecret h) (trafficSecret h).
Definition set_suite s (h : t) : t := mk (serverHello h) (hello h) (keyShareKeys h) (session h) (earlySecret h)
  (binderKey h) (certReq h) (usingPSK h) (sentDummyCCS h) s (transcript h) (masterSecret h) (trafficSecret h).
Definition set_transcript d (h : t) : t := mk (serverHello h) (hello h) (keyShareKeys h) (session h) (earlySecret h)
  (binderKey h) (certReq h) (usingPSK h) (sentDummyCCS h) (suite h) d (masterSecret h) (trafficSecret h).
Definition set_masterSecret s (h : t) : t := mk (serverHello h) (hello h) (keyShareKeys h) (session h) (earlySecret h)
  (binderKey h) (certReq h) (usingPSK h) (sentDummyCCS h) (suite h) (transcript h) s (trafficSecret h).
Definition set_trafficSecret s (h : t) : t := mk (serverHello h) (hello h) (keyShareKeys h) (session h) (earlySecret h)
  (binderKey h) (certReq h) (usingPSK h) (sentDummyCCS h) (suite h) (transcript h) (masterSecret h) s.
End hs.
Arguments t {H H0} X.
End clientHandshakeStateTLS13.
Import clientHandshakeStateTLS13.

Section handshake.
Context {S A C K : Type} `{Stream S} `{RecordAEAD A} `{CbcMode C} `{MacFun K}.
Context `{Hashes} `{CryptoString} {B : Type} `{Builder B} {X P T : Type} `{X509 X} `{CertificateChains X P}.
Context `{EcdhCurves} `{Decapsulation} `{Verifiers P} `{!ClientSessionCache T (SessionState.t X)}.
Abbreviation M := (@M S A C K).
Abbreviation CM := (CM S A C K X T).
Abbreviation hstate := (clientHandshakeStateTLS13.t X).

Context (dyn_off : bool) (rand : nat -> nat -> option bytes).
Context (generated : nat -> ecdh_Curve -> outcome conn_error ecdhPrivateKey).
Context (suite_aead : aead_fn -> bytes -> bytes -> outcome conn_error A).
(** [key.Sign(c.config.rand(), signed, opts)], with PSS options or the plain
    hash, by the number of uses of the reader. *)
Context (signed_by : nat -> PrivateKey P -> bool -> sig_hash -> bytes -> outcome conn_error bytes).
Context (fips : bool).
Context (config : clientConfig X P CertPool).

Abbreviation calert_then := (calert_then dyn_off rand).
Abbreviation creturn_alert := (creturn_alert dyn_off rand).
Abbreviation hs_config := (hs_config config).

(** [c.sendAlert(a); return err], with the call's error or another. *)
Definition or_calert {R} (a : Z) (o : outcome conn_error R) : CM R :=
  match o with Err e => calert_then a e | _ => clift o end.
Definition or_cfail {R} (a : Z) (e : conn_error) (o : outcome conn_error R) : CM R :=
  match o with Err _ => calert_then a e | _ => clift o end.

(** [c.readHandshake]: the message, and the bytes that a transcript gets. *)
Definition readHandshakeData : M (handshakeMessage * bytes) :=
  do! data := readHandshakeMessage dyn_off rand in
  do! v := get (@vers S A C K) in
  match unmarshal_message v data with
  | Some m => ret (m, data)
  | None => do! _ := alert_and_fail dyn_off rand alertUnexpectedMessage in panic "unreachable"
  end.
Definition unexpected_message {R} : CM R :=
  calert_then alertUnexpectedMessage (EText "tls: received unexpected handshake message").

(** [writeHandshakeRecord] with [hs.transcript] *)
Definition csend (msg : handshakeMessage) (hs : hstate) : CM hstate :=
  let* d := on_conn (send (B:=B) dyn_off rand msg (transcript hs)) in cret (set_transcript d hs).

Definition log_secret (label random secret : bytes) : CM unit :=
  on_conn (writeKeyLog dyn_off rand hs_config label random secret).

(** ** ServerHello and HelloRetryRequest *)

Definition forbidden_extension (m : serverHelloMsg.t) : bool :=
  serverHelloMsg.ocspStapling m || serverHelloMsg.ticketSupported m || serverHelloMsg.extendedMasterSecret m ||
  serverHelloMsg.secureRenegotiationSupported m || (0 <? length (serverHelloMsg.secureRenegotiation m))%nat ||
  (0 <? length (serverHelloMsg.alpnProtocol m))%nat || (0 <? length (serverHelloMsg.scts m))%nat.

Definition checkServerHelloOrHRR (suite : option cipherSuiteTLS13) (hello : clientHelloMsg.t) (m : serverHelloMsg.t)
  : CM cipherSuiteTLS13 :=
  if serverHelloMsg.supportedVersion m =? 0 then
    calert_then alertMissingExtension (EText "tls: server selected TLS 1.3 using the legacy version field")
  else if negb (serverHelloMsg.supportedVersion m =? VersionTLS13) then
    calert_then alertIllegalParameter (EText "tls: server selected an invalid version after a HelloRetryRequest")
  else if negb (serverHelloMsg.vers m =? VersionTLS12) then
    calert_then alertIllegalParameter (EText "tls: server sent an incorrect legacy version")
  else if forbidden_extension m then
    calert_then alertUnsupportedExtension (EText "tls: server sent a ServerHello extension forbidden in TLS 1.3")
  else if negb (bool_decide (clientHelloMsg.sessionId hello = serverHelloMsg.sessionId m)) then
    calert_then alertIllegalParameter (EText "tls: server did not echo the legacy session ID")
  else if negb (serverHelloMsg.compressionMethod m =? compressionNone) then
    calert_then alertDecodeError (EText "tls: server sent non-zero legacy TLS compression method")
  else
    let selectedSuite := mutualCipherSuiteTLS13 (clientHelloMsg.cipherSuites hello) (serverHelloMsg.cipherSuite m) in
    if match suite with Some s => negb (bool_decide (id13 <$> selectedSuite = Some (id13 s))) | None => false end then
      calert_then alertIllegalParameter (EText "tls: server changed cipher suite after a HelloRetryRequest")
    else
      match selectedSuite with
      | None => calert_then alertIllegalParameter (EText "tls: server chose an unconfigured cipher suite")
      | Some s => let* _ := cmodify (ClientConn.set_cipherSuite (id13 s)) in cret s
      end.

Definition sendDummyChangeCipherSpec (hs : hstate) : CM hstate :=
  if sentDummyCCS hs then cret hs
  else let* _ := on_conn (writeChangeCipherRecord dyn_off rand) in cret (set_sentDummyCCS hs).

(** The ClientHello in the transcript after a HelloRetryRequest. *)
Definition message_hash (chHash : bytes) : bytes := [typeMessageHash; 0; 0; u8 (Z.of_nat (length chHash))] ++ chHash.

(** The key share for the group that the server asks for. *)
Definition retry_share (hs : hstate) : CM hstate :=
  let curveID := serverHelloMsg.selectedGroup (serverHello hs) in
  if curveID =? 0 then cret hs
  else if negb (contains curveID (clientHelloMsg.supportedCurves (hello hs))) then
    calert_then alertIllegalParameter (EText "tls: server selected unsupported group")
  else if existsb (fun ks => group ks =? curveID) (clientHelloMsg.keyShares (hello hs)) then
    calert_then alertIllegalParameter (EText "tls: server sent an unnecessary HelloRetryRequest key_share")
  else
    match curveForCurveID curveID with
    | None => calert_then alertInternalError (EText "tls: CurvePreferences includes unsupported curve")
    | Some _ =>
        let* n := on_conn (get rand_calls) in
        let* _ := on_conn (modify (fun c => with_rand_calls (n + 1) c)) in
        let* key := or_calert alertInternalError (ecdheKeyAgreement.generateECDHEKey (generated n) curveID) in
        cret (set_hello (clientHelloMsg.set_keyShares [mkKeyShare curveID (PublicBytes (PublicOf key))] (hello hs))
                (mkKeySharePrivateKeys curveID key None) hs)
    end.

(** The pre_shared_key extension again, over the new transcript. *)
Definition with_age (age : Z) (ids : list pskIdentity) : list pskIdentity :=
  match ids with [] => [] | i :: ids => mkPskIdentity (label i) age :: ids end.
Definition retry_psk (chHash : bytes) (hs : hstate) : CM hstate :=
  if (length (clientHelloMsg.pskIdentities (hello hs)) =? 0)%nat then cret hs else
  match session hs with
  | None => clift (Panic nil_dereference)
  | Some s =>
      match cipherSuiteTLS13ByID (SessionState.cipherSuite s) with
      | None => let* _ := creturn_alert alertInternalError in cret hs
      | Some pskSuite =>
          if bool_decide (hash13 pskSuite = hash13 (suite hs)) then
            let m := clientHelloMsg.set_pskIdentities
                       (with_age (obfuscated_age config s) (clientHelloMsg.pskIdentities (hello hs))) (hello hs) in
            let* hrr := clift (transcriptMsg B (ServerHello (serverHello hs))) in
            let d := d_Write hrr (d_Write (message_hash chHash) (new_digest (suite_hash (suite hs)))) in
            let* m := clift (computeAndUpdatePSK (B:=B) m (binderKey hs) d (suite_finishedHash (suite hs))) in
            cret (set_hello m (keyShareKeys hs) hs)
          else
            cret (set_hello (clientHelloMsg.set_pskBinders [] (clientHelloMsg.set_pskIdentities [] (hello hs)))
                    (keyShareKeys hs) hs)
      end
  end.

(** The checks of a HelloRetryRequest. *)
Definition check_retry (m : serverHelloMsg.t) : CM unit :=
  if bool_decide (is_Some (serverHelloMsg.encryptedClientHello m)) then
    calert_then alertUnsupportedExtension (EText "tls: unexpected encrypted client hello extension in serverHello")
  else if (serverHelloMsg.selectedGroup m =? 0) && (length (serverHelloMsg.cookie m) =? 0)%nat then
    calert_then alertIllegalParameter (EText "tls: server sent an unnecessary HelloRetryRequest message")
  else if negb (group (serverHelloMsg.serverShare m) =? 0) then
    calert_then alertDecodeError (EText "tls: received malformed key_share extension")
  else cret tt.

Definition processHelloRetryRequest (hs : hstate) : CM hstate :=
  let chHash := d_Sum (transcript hs) in
  let* hrr := clift (transcriptMsg B (ServerHello (serverHello hs))) in
  let hs := set_transcript (d_Write hrr (d_Write (message_hash chHash) (new_digest (d_fn (transcript hs))))) hs in
  let* _ := check_retry (serverHello hs) in
  let cookie := serverHelloMsg.cookie (serverHello hs) in
  let hs := if (length cookie =? 0)%nat then hs
            else set_hello (clientHelloMsg.set_cookie cookie (hello hs)) (keyShareKeys hs) hs in
  let* hs := retry_share hs in
  let* hs := retry_psk chHash hs in
  if clientHelloMsg.earlyData (hello hs) then clift (Panic nil_dereference) else
  let* hs := csend (ClientHello (hello hs)) hs in
  let* (msg, _) := on_conn readHandshakeData in
  match msg with
  | ServerHello m =>
      let hs := set_serverHello m hs in
      let* s := checkServerHelloOrHRR (Some (suite hs)) (hello hs) m in
      let* _ := cmodify (ClientConn.set_didHRR true) in
      cret (set_suite s hs)
  | _ => unexpected_message
  end.

(** The session that the server has chosen. *)
Definition resume (s : SessionState.t X) : CM unit :=
  let* _ := cmodify (ClientConn.set_didResume true) in
  cmodify (ClientConn.set_info (fun i =>
    set_stapled (SessionState.ocspResponse s) (SessionState.scts s)
      (set_verifiedChains (SessionState.verifiedChains s)
        (set_peerCertificates (SessionState.peerCertificates s) (SessionState.activeCertHandles s) i)))).

Definition processServerHello (hs : hstate) : CM hstate :=
  let m := serverHello hs in
  if is_retry_request m then
    calert_then alertUnexpectedMessage (EText "tls: server sent two HelloRetryRequest messages")
  else if negb (length (serverHelloMsg.cookie m) =? 0)%nat then
    calert_then alertUnsupportedExtension (EText "tls: server sent a cookie in a normal ServerHello")
  else if negb (serverHelloMsg.selectedGroup m =? 0) then
    calert_then alertDecodeError (EText "tls: malformed key_share extension")
  else if group (serverHelloMsg.serverShare m) =? 0 then
    calert_then alertIllegalParameter (EText "tls: server did not send a key share")
  else if negb (existsb (fun ks => group ks =? group (serverHelloMsg.serverShare m)) (clientHelloMsg.keyShares (hello hs))) then
    calert_then alertIllegalParameter (EText "tls: server selected unsupported group")
  else if negb (serverHelloMsg.selectedIdentityPresent m) then cret hs
  else if Z.of_nat (length (clientHelloMsg.pskIdentities (hello hs))) <=? serverHelloMsg.selectedIdentity m then
    calert_then alertIllegalParameter (EText "tls: server selected an invalid PSK")
  else
    match session hs with
    | Some s =>
        if negb (length (clientHelloMsg.pskIdentities (hello hs)) =? 1)%nat then
          let* _ := creturn_alert alertInternalError in cret hs
        else
          match cipherSuiteTLS13ByID (SessionState.cipherSuite s) with
          | None => let* _ := creturn_alert alertInternalError in cret hs
          | Some pskSuite =>
              if negb (bool_decide (hash13 pskSuite = hash13 (suite hs))) then
                calert_then alertIllegalParameter (EText "tls: server selected an invalid PSK and cipher suite pair")
              else let* _ := resume s in cret (set_usingPSK hs)
          end
    | None => let* _ := creturn_alert alertInternalError in cret hs
    end.

(** ** The keys of the handshake *)

Definition invalid_share : conn_error := EText "tls: invalid server key share".

(** The shared key. *)
Definition client_shared (keys : keySharePrivateKeys) (share : keyShare) : CM bytes :=
  let hybrid := group share =? X25519MLKEM768 in
  if hybrid && negb (length (ks_data share) =? CiphertextSize768 + x25519PublicKeySize)%nat then
    calert_then alertIllegalParameter (EText "tls: invalid server X25519MLKEM768 key share")
  else
    let ecdhePeerData := if hybrid then drop CiphertextSize768 (ks_data share) else ks_data share in
    let* peerKey := or_cfail alertIllegalParameter invalid_share (NewPublicKeyOn (CurveOf (ecdhe keys)) ecdhePeerData) in
    let* sharedKey := or_cfail alertIllegalParameter invalid_share (ECDHWith (ecdhe keys) peerKey) in
    if hybrid then
      match mlkem keys with
      | None => let* _ := creturn_alert alertInternalError in cret []
      | Some dk =>
          let* mlkemShared := or_cfail alertIllegalParameter (EText "tls: invalid X25519MLKEM768 server key share")
            (Decapsulate dk (take CiphertextSize768 (ks_data share))) in
          cret (mlkemShared ++ sharedKey)
      end
    else cret sharedKey.

Definition early_secret (hs : hstate) : outcome conn_error tls13.EarlySecret :=
  if usingPSK hs then match earlySecret hs with Some s => Ret s | None => Panic nil_dereference end
  else Ret (tls13.NewEarlySecret (suite_hash (suite hs)) None).

Definition establishHandshakeKeys (hs : hstate) : CM hstate :=
  let share := serverHelloMsg.serverShare (serverHello hs) in
  let* sharedKey := client_shared (keyShareKeys hs) share in
  let* _ := cmodify (ClientConn.set_info (set_curveID (group share))) in
  let* early := clift (early_secret hs) in
  let* secret := clift (tls13.derive_HandshakeSecret early (Some sharedKey)) in
  let* clientSecret := clift (tls13.ClientHandshakeTrafficSecret secret (Some (transcript hs))) in
  let* _ := on_conn (set_out_secret suite_aead (suite hs) QUICEncryptionLevelHandshake clientSecret) in
  let* serverSecret := clift (tls13.ServerHandshakeTrafficSecret secret (Some (transcript hs))) in
  let* _ := on_conn (set_in_secret suite_aead (suite hs) QUICEncryptionLevelHandshake serverSecret) in
  let random := clientHelloMsg.random (hello hs) in
  let* _ := log_secret keyLogLabelClientHandshake random clientSecret in
  let* _ := log_secret keyLogLabelServerHandshake random serverSecret in
  let* master := clift (tls13.derive_MasterSecret secret) in
  cret (set_masterSecret master hs).

(** ** What the server sends *)

(** The checks of early data, which is not offered. *)
Definition check_early_data (hs : hstate) (ee : encryptedExtensionsMsg.t) : CM unit :=
  if negb (clientHelloMsg.earlyData (hello hs)) && encryptedExtensionsMsg.earlyData ee then
    calert_then alertUnsupportedExtension (EText "tls: server sent an unexpected early_data extension")
  else if clientHelloMsg.earlyData (hello hs) && negb (encryptedExtensionsMsg.earlyData ee) then clift (Panic nil_dereference)
  else if encryptedExtensionsMsg.earlyData ee then
    let* suite_id := cget ClientConn.cipherSuite in
    let* i := cget ClientConn.info in
    match session hs with
    | None => clift (Panic nil_dereference)
    | Some s =>
        if negb (SessionState.cipherSuite s =? suite_id) then
          calert_then alertHandshakeFailure (EText "tls: server accepted 0-RTT with the wrong cipher suite")
        else if negb (bool_decide (SessionState.alpnProtocol s = clientProtocol i)) then
          calert_then alertHandshakeFailure (EText "tls: server accepted 0-RTT with the wrong ALPN")
        else cret tt
    end
  else cret tt.

Definition readServerParameters (hs : hstate) : CM hstate :=
  let* (msg, data) := on_conn readHandshakeData in
  let hs := set_transcript (d_Write data (transcript hs)) hs in
  match msg with
  | EncryptedExtensions ee =>
      let proto := encryptedExtensionsMsg.alpnProtocol ee in
      let* _ := or_calert alertNoApplicationProtocol (checkALPN (clientHelloMsg.alpnProtocols (hello hs)) proto false) in
      let* _ := cmodify (ClientConn.set_info (set_clientProtocol proto)) in
      if bool_decide (is_Some (encryptedExtensionsMsg.quicTransportParameters ee)) then
        calert_then alertUnsupportedExtension (EText "tls: server sent an unexpected quic_transport_parameters extension")
      else let* _ := check_early_data hs ee in cret hs
  | _ => unexpected_message
  end.

(** A CertificateRequest may come before the Certificate. *)
Definition read_certificate (hs : hstate) : CM (handshakeMessage * hstate) :=
  let* (msg, data) := on_conn readHandshakeData in
  let hs := set_transcript (d_Write data (transcript hs)) hs in
  match msg with
  | CertificateRequestTLS13 r =>
      let hs := set_certReq r hs in
      let* (msg, data) := on_conn readHandshakeData in
      cret (msg, set_transcript (d_Write data (transcript hs)) hs)
  | _ => cret (msg, hs)
  end.

(** The checks of a CertificateVerify. *)
Definition check_signature (hs : hstate) (v : certificateVerifyMsg.t) : CM unit :=
  let alg := certificateVerifyMsg.signatureAlgorithm v in
  if negb (isSupportedSignatureAlgorithm alg (supportedSignatureAlgorithms fips)) then
    calert_then alertIllegalParameter (EText "tls: certificate used with invalid signature algorithm")
  else
    match typeAndHashFromSignatureScheme alg with
    | Ret (sigType, sigHash) =>
        if (sigType =? signaturePKCS1v15) || bool_decide (sigHash = HashSHA1) then
          calert_then alertIllegalParameter (EText "tls: certificate used with invalid signature algorithm")
        else
          let* signed := clift (signedMessage sigHash serverSignatureContext (transcript hs)) in
          let* i := cget ClientConn.info in
          match peerCertificates i with
          | [] => clift (Panic index_out_of_range)
          | leaf :: _ =>
              match verifyHandshakeSignature sigType (cert_PublicKey leaf) sigHash signed (certificateVerifyMsg.signature v) with
              | Some _ => calert_then alertDecryptError (EText "tls: invalid signature by the server certificate: ")
              | None => cret tt
              end
          end
    | _ => creturn_alert alertInternalError
    end.

Definition readServerCertificate (hs : hstate) : CM hstate :=
  if usingPSK hs then let* _ := verify_connection dyn_off rand config in cret hs else
  let* (msg, hs) := read_certificate hs in
  match msg with
  | CertificateTLS13 certMsg =>
      let certificate := certificateMsgTLS13.certificate certMsg in
      if (length (Certificate_ certificate) =? 0)%nat then
        calert_then alertDecodeError (EText "tls: received empty certificates message")
      else
        let* _ := cmodify (ClientConn.set_info (set_stapled (OCSPStaple certificate) (SignedCertificateTimestamps certificate))) in
        let* _ := verifyServerCertificate dyn_off rand fips config (Certificate_ certificate) in
        let* (msg, _) := on_conn readHandshakeData in
        match msg with
        | CertificateVerify certVerify =>
            let* _ := check_signature hs certVerify in
            let* data := clift (transcriptMsg B (CertificateVerify certVerify)) in
            cret (set_transcript (d_Write data (transcript hs)) hs)
        | _ => unexpected_message
        end
  | _ => unexpected_message
  end.

Definition readServerFinished (hs : hstate) : CM hstate :=
  let* (msg, _) := on_conn readHandshakeData in
  match msg with
  | Finished finished =>
      let* inSecret := on_conn (get (fun c : Conn S A C K => HalfConn.trafficSecret (cin c))) in
      let* expectedMAC := clift (suite_finishedHash (suite hs) inSecret (transcript hs)) in
      if negb (bool_decide (expectedMAC = finishedMsg.verifyData finished)) then
        calert_then alertDecryptError (EText "tls: invalid server finished hash")
      else
        let* data := clift (transcriptMsg B (Finished finished)) in
        let hs := set_transcript (d_Write data (transcript hs)) hs in
        let* traffic := clift (tls13.ClientApplicationTrafficSecret (masterSecret hs) (Some (transcript hs))) in
        let hs := set_trafficSecret traffic hs in
        let* serverSecret := clift (tls13.ServerApplicationTrafficSecret (masterSecret hs) (Some (transcript hs))) in
        let* _ := on_conn (set_in_secret suite_aead (suite hs) QUICEncryptionLevelApplication serverSecret) in
        let random := clientHelloMsg.random (hello hs) in
        let* _ := log_secret keyLogLabelClientTraffic random traffic in
        let* _ := log_secret keyLogLabelServerTraffic random serverSecret in
        let* _ := cmodify (ClientConn.set_ekm (ekm13 (suite hs) (masterSecret hs) (transcript hs))) in
        cret hs
  | _ => unexpected_message
  end.

(** ** What the client answers *)

(** [cert.PrivateKey.(crypto.Signer).Sign] *)
Definition sign_with (key : PrivateKey P) (sigType : Z) (sigHash : sig_hash) (signed : bytes) : CM (outcome conn_error bytes) :=
  match Signer key with
  | None => clift (Panic "interface conversion")
  | Some _ =>
      let* n := on_conn (get rand_calls) in
      let* _ := on_conn (modify (fun c => with_rand_calls (n + 1) c)) in
      cret (signed_by n key (sigType =? signatureRSAPSS) sigHash signed)
  end.

Definition sendCertificateVerify (cert : clientCertificate X P) (req : certificateRequestMsgTLS13.t) (hs : hstate) : CM hstate :=
  let* v := on_conn (get (@vers S A C K)) in
  let* alg := or_calert alertHandshakeFailure
    (selectSignatureScheme fips v (cc_key cert) (certificateRequestMsgTLS13.supportedSignatureAlgorithms req)) in
  match typeAndHashFromSignatureScheme alg with
  | Ret (sigType, sigHash) =>
      let* signed := clift (signedMessage sigHash clientSignatureContext (transcript hs)) in
      let* sig := sign_with (ck_PrivateKey (cc_key cert)) sigType sigHash signed in
      let* sig := or_cfail alertInternalError (EText "tls: failed to sign handshake: ") sig in
      csend (CertificateVerify (certificateVerifyMsg.mk true alg sig)) hs
  | _ => let* _ := creturn_alert alertInternalError in cret hs
  end.

Definition sendClientCertificate (hs : hstate) : CM hstate :=
  match certReq hs with
  | None => cret hs
  | Some req =>
      let* v := on_conn (get (@vers S A C K)) in
      let* cert := clift (getClientCertificate fips config
        (mkCertificateRequestInfo (certificateRequestMsgTLS13.certificateAuthorities req)
          (certificateRequestMsgTLS13.supportedSignatureAlgorithms req) v)) in
      let m := cc_message cert in
      let* hs := csend (CertificateTLS13 (certificateMsgTLS13.mk m
        (certificateRequestMsgTLS13.ocspStapling req && (0 <? length (default [] (OCSPStaple m)))%nat)
        (certificateRequestMsgTLS13.scts req && (0 <? length (default [] (SignedCertificateTimestamps m)))%nat))) hs in
      if (length (Certificate_ m) =? 0)%nat then cret hs else sendCertificateVerify cert req hs
  end.

Definition sendClientFinished (hs : hstate) : CM hstate :=
  let* outSecret := on_conn (get (fun c : Conn S A C K => HalfConn.trafficSecret (cout c))) in
  let* verifyData := clift (suite_finishedHash (suite hs) outSecret (transcript hs)) in
  let* hs := csend (Finished (finishedMsg.mk verifyData)) hs in
  let* _ := on_conn (set_out_secret suite_aead (suite hs) QUICEncryptionLevelApplication (trafficSecret hs)) in
  let* k := cget ClientConn.cache in
  let* _ := (if negb (cfg_SessionTicketsDisabled config) && bool_decide (is_Some k) then
               let* s := clift (tls13.ResumptionMasterSecret (masterSecret hs) (Some (transcript hs))) in
               cmodify (ClientConn.set_resumptionSecret s)
             else cret tt) in
  cret hs.

(** ** [handshake] *)

(** From the first ServerHello, or the HelloRetryRequest, to the ServerHello
    that is answered. *)
Definition start13 (hello : clientHelloMsg.t) (keys : keySharePrivateKeys) (m : serverHelloMsg.t)
    (session : option (SessionState.t X)) (early : option tls13.EarlySecret) (binderKey : bytes) : CM hstate :=
  let* s := checkServerHelloOrHRR None hello m in
  let* ch := clift (transcriptMsg B (ClientHello hello)) in
  let hs := mk m hello keys session early binderKey None false false s (d_Write ch (new_digest (suite_hash s)))
              zero_MasterSecret [] in
  let* hs := (if is_retry_request m
              then let* hs := sendDummyChangeCipherSpec hs in processHelloRetryRequest hs
              else cret hs) in
  let* sh := clift (transcriptMsg B (ServerHello (serverHello hs))) in
  cret (set_transcript (d_Write sh (transcript hs)) hs).

Definition handshake13 (hello : clientHelloMsg.t) (keys : option keySharePrivateKeys) (m : serverHelloMsg.t)
    (session : option (SessionState.t X)) (early : option tls13.EarlySecret) (binderKey : bytes) : CM hstate :=
  let* n := on_conn (get handshakes) in
  if 0 <? n then calert_then alertProtocolVersion (EText "tls: server selected TLS 1.3 in a renegotiation") else
  match keys with
  | Some keys =>
      if (length (clientHelloMsg.keyShares hello) =? 0)%nat then
        let* _ := creturn_alert alertInternalError in clift (Panic "unreachable")
      else
        let* hs := start13 hello keys m session early binderKey in
        let* _ := on_conn (modify (with_buffering true)) in
        let* hs := processServerHello hs in
        let* hs := sendDummyChangeCipherSpec hs in
        let* hs := establishHandshakeKeys hs in
        let* hs := readServerParameters hs in
        let* hs := readServerCertificate hs in
        let* hs := readServerFinished hs in
        let* hs := sendClientCertificate hs in
        let* hs := sendClientFinished hs in
        let* (_, err) := on_conn flush in
        let* _ := on_conn (raise err) in
        let* _ := on_conn (modify (with_isHandshakeComplete true)) in
        cret hs
  | None => let* _ := creturn_alert alertInternalError in clift (Panic "unreachable")
  end.
End handshake.
