(* ===== verification/Client12.v ===== *)
(** * handshake_client.go: the handshake of a TLS 1.0 to 1.2 client

    [handshake] over [clientHandshakeState]: a full handshake, a resumption,
    and the renegotiation of a connection.  The transcript is [finishedHash].
    The ciphers and MACs of the suites, and what crypto/rsa and a signing key
    do at the [n]-th use of the reader, are parameters. *)

From S2P Require Import Prelude Common HalfConn Cryptobyte Hello Messages Gcm CipherSuites Kdf Conn.
From S2P Require Import Negotiation Auth KeyAgreement Ticket RealityHandshake Post Client Client13.

Open Scope go_scope.

Module clientHandshakeState.
Section hs.
Context {X : Type} `{Hashes}.

Record t := mk {
  serverHello : serverHelloMsg.t;
  hello : clientHelloMsg.t;
  suite : cipherSuite;
  finishedHash : finishedHash.t;
  masterSecret : bytes;
  session : option (SessionState.t X);
  ticket : option bytes
}.
Definition set_finishedHash f (h : t) : t :=
  mk (serverHello h) (hello h) (suite h) f (masterSecret h) (session h) (ticket h).
Definition set_masterSecret s (h : t) : t :=
  mk (serverHello h) (hello h) (suite h) (finishedHash h) s (session h) (ticket h).
Definition set_ticket x (h : t) : t :=
  mk (serverHello h) (hello h) (suite h) (finishedHash h) (masterSecret h) (session h) (Some x).
End hs.
Arguments t X : clear implicits.
End clientHandshakeState.
Import clientHandshakeState.

(** [suite.ka(version)] *)
Inductive keyAgreement `{EcdhCurves} := kaRSA | kaECDHE (ka : ecdheKeyAgreement.t).
Definition suite_ka `{EcdhCurves} (f : ka_fn) (v : Z) : keyAgreement :=
  match f with
  | rsaKA => kaRSA
  | ecdheRSAKA => kaECDHE (ecdheKeyAgreement.mk v true None None None)
  | ecdheECDSAKA => kaECDHE (ecdheKeyAgreement.mk v false None None None)
  end.

Definition keyLogLabelTLS12 : bytes := str "CLIENT_RANDOM".

Section handshake.
Context {S A C K : Type} `{Stream S} `{RecordAEAD A} `{CbcMode C} `{MacFun K}.
Context `{Hashes} `{CryptoString} {B : Type} `{Builder B} {X P T : Type} `{X509 X} `{CertificateChains X P}.
Context `{EcdhCurves} `{Decapsulation} `{Verifiers P} `{!ClientSessionCache T (SessionState.t X)}.
Abbreviation M := (@M S A C K).
Abbreviation CM := (CM S A C K X T).
Abbreviation hstate := (clientHandshakeState.t X).

Context (dyn_off : bool) (rand : nat -> nat -> option bytes).
Context (generated : nat -> ecdh_Curve -> outcome conn_error ecdhPrivateKey).
Context (suite_aead : aead_fn -> bytes -> bytes -> outcome conn_error A).
(** [suite.cipher(key, iv, isRead)], [suite.mac(key)] *)
Context (suite_cipher : cipher_fn -> bytes -> bytes -> bool -> cipher_state S A C).
Context (suite_mac : mac_fn -> bytes -> Hash K).
Context (keys_at : nat -> CertificateKeys P).
Context (RemoteAddr : option bytes).
Context (fips : bool).
Context (config : clientConfig X P CertPool).

Abbreviation calert_then := (calert_then dyn_off rand).
Abbreviation creturn_alert := (creturn_alert dyn_off rand).
Abbreviation or_calert := (or_calert dyn_off rand).
Abbreviation unexpected_message := (unexpected_message dyn_off rand).

(** [c.readHandshake(&hs.finishedHash)], [c.writeHandshakeRecord(msg, &hs.finishedHash)],
    [transcriptMsg(msg, &hs.finishedHash)] *)
Definition write_transcript (data : bytes) (hs : hstate) : hstate :=
  set_finishedHash (finishedHash.Write data (finishedHash hs)) hs.
Definition read12 (hs : hstate) : CM (handshakeMessage * hstate) :=
  let* (msg, data) := on_conn (readHandshakeData dyn_off rand) in cret (msg, write_transcript data hs).
Definition send12 (msg : handshakeMessage) (hs : hstate) : CM hstate :=
  let m := marshal_message B msg in
  let* (_, err) := on_conn (writeHandshakeRecord dyn_off rand m) in
  let* _ := on_conn (raise err) in
  cret (match m with Ret data => write_transcript data hs | _ => hs end).
Definition transcript12 (msg : handshakeMessage) (hs : hstate) : CM hstate :=
  let* data := clift (transcriptMsg B msg) in cret (write_transcript data hs).

(** The next use of [c.config.rand()]. *)
Definition next_rand : CM nat :=
  let* n := on_conn (get rand_calls) in
  let* _ := on_conn (modify (fun c => with_rand_calls (n + 1) c)) in cret n.

(** ** ServerHello *)

Definition pickCipherSuite (hello : clientHelloMsg.t) (m : serverHelloMsg.t) : CM cipherSuite :=
  match mutualCipherSuite (clientHelloMsg.cipherSuites hello) (serverHelloMsg.cipherSuite m) with
  | None => calert_then alertHandshakeFailure (EText "tls: server chose an unconfigured cipher suite")
  | Some s => let* _ := cmodify (ClientConn.set_cipherSuite (id s)) in cret s
  end.

(** A [sessionId] that is [nil] is empty: the client's has 32 bytes. *)
Definition serverResumedSession (session : option (SessionState.t X)) (hello : clientHelloMsg.t) (m : serverHelloMsg.t)
  : bool :=
  bool_decide (is_Some session) && negb (length (clientHelloMsg.sessionId hello) =? 0)%nat &&
  bool_decide (serverHelloMsg.sessionId m = clientHelloMsg.sessionId hello).

(** The extension of the secure renegotiation. *)
Definition check_renegotiation (m : serverHelloMsg.t) : CM unit :=
  let* n := on_conn (get handshakes) in
  let* _ :=
    (if (n =? 0) && serverHelloMsg.secureRenegotiationSupported m then
       let* _ := cmodify (ClientConn.set_secureRenegotiation true) in
       if negb (length (serverHelloMsg.secureRenegotiation m) =? 0)%nat then
         calert_then alertHandshakeFailure (EText "tls: initial handshake had non-empty renegotiation extension")
       else cret tt
     else cret tt) in
  let* secure := cget ClientConn.secureRenegotiation in
  if (0 <? n) && secure then
    let* cf := cget ClientConn.clientFinished in
    let* sf := cget ClientConn.serverFinished in
    if negb (bool_decide (serverHelloMsg.secureRenegotiation m = cf ++ sf)) then
      calert_then alertHandshakeFailure (EText "tls: incorrect renegotiation extension contents")
    else cret tt
  else cret tt.

(** The session that the server resumes; [c.activeCertHandles] is assigned to
    itself. *)
Definition restore_session (s : SessionState.t X) : CM unit :=
  cmodify (ClientConn.set_info (fun i =>
    let scts :=
      if (length (default [] (conn_scts i)) =? 0)%nat && negb (length (default [] (SessionState.scts s)) =? 0)%nat
      then SessionState.scts s else conn_scts i in
    set_curveID (SessionState.curveID s)
      (set_stapled (SessionState.ocspResponse s) scts
        (set_verifiedChains (SessionState.verifiedChains s)
          (set_peerCertificates (SessionState.peerCertificates s) (activeCertHandles i)
            (set_extMasterSecret (SessionState.extMasterSecret s) i)))))).

(** The checks of a resumed session. *)
Definition check_resumed (s : SessionState.t X) (suite : cipherSuite) (m : serverHelloMsg.t) : CM unit :=
  let* v := on_conn (get (@vers S A C K)) in
  if negb (SessionState.version s =? v) then
    calert_then alertHandshakeFailure (EText "tls: server resumed a session with a different version")
  else if negb (SessionState.cipherSuite s =? id suite) then
    calert_then alertHandshakeFailure (EText "tls: server resumed a session with a different cipher suite")
  else if negb (eqb (SessionState.extMasterSecret s) (serverHelloMsg.extendedMasterSecret m)) then
    calert_then alertHandshakeFailure (EText "tls: server resumed a session with a different EMS extension")
  else restore_session s.

(** The suite, and the session if the server resumes it. *)
Definition processServerHello12 (hello : clientHelloMsg.t) (m : serverHelloMsg.t) (session : option (SessionState.t X))
  : CM (cipherSuite * option (SessionState.t X)) :=
  let* s := pickCipherSuite hello m in
  if negb (serverHelloMsg.compressionMethod m =? compressionNone) then
    calert_then alertIllegalParameter (EText "tls: server selected unsupported compression format")
  else
    let supportsPointFormat := existsb (fun p => p =? pointFormatUncompressed) (serverHelloMsg.supportedPoints m) in
    let offeredNonCompressedFormat := existsb (fun p => negb (p =? pointFormatUncompressed)) (serverHelloMsg.supportedPoints m) in
    if negb supportsPointFormat && offeredNonCompressedFormat then
      cfail (EText "tls: server offered only incompatible point formats")
    else
      let* _ := check_renegotiation m in
      let* _ := or_calert alertUnsupportedExtension
        (checkALPN (clientHelloMsg.alpnProtocols hello) (serverHelloMsg.alpnProtocol m) false) in
      let scts := match serverHelloMsg.scts m with [] => None | l => Some l end in
      let* _ := cmodify (ClientConn.set_info (fun i =>
        set_stapled (ocspResponse i) scts (set_clientProtocol (serverHelloMsg.alpnProtocol m) i))) in
      match session with
      | Some sess =>
          if serverResumedSession session hello m then
            let* _ := check_resumed sess s m in cret (s, Some sess)
          else cret (s, None)
      | None => cret (s, None)
      end.

(** ** The full handshake *)

(** CertificateStatus. *)
Definition read_status (msg : handshakeMessage) (hs : hstate) : CM (handshakeMessage * hstate) :=
  match msg with
  | CertificateStatus cs =>
      if negb (serverHelloMsg.ocspStapling (serverHello hs)) then
        calert_then alertUnexpectedMessage (EText "tls: received unexpected CertificateStatus message")
      else
        let* _ := cmodify (ClientConn.set_info (fun i =>
          set_stapled (Some (certificateStatusMsg.response cs)) (conn_scts i) i)) in
        read12 hs
  | _ => cret (msg, hs)
  end.

(** The server's certificates: verified in the first handshake, the same leaf
    in the others. *)
Definition check_certificates (certificates : list bytes) : CM unit :=
  let* n := on_conn (get handshakes) in
  if n =? 0 then verifyServerCertificate dyn_off rand fips config certificates else
  let* i := cget ClientConn.info in
  match peerCertificates i, certificates with
  | leaf :: _, cert :: _ =>
      if negb (bool_decide (Raw leaf = cert)) then
        calert_then alertBadCertificate (EText "tls: server's identity changed during renegotiation")
      else cret tt
  | _, _ => clift (Panic index_out_of_range)
  end.

(** The public key of [c.peerCertificates[0]]. *)
Definition server_key : CM (PublicKey P) :=
  let* i := cget ClientConn.info in
  match peerCertificates i with
  | leaf :: _ => cret (cert_PublicKey leaf)
  | [] => clift (Panic index_out_of_range)
  end.

(** [keyAgreement.processServerKeyExchange]: the result, and the receiver. *)
Definition process_skx (ka : keyAgreement) (hs : hstate) (pub : PublicKey P) (skx : serverKeyExchangeMsg.t)
  : CM (outcome conn_error unit * keyAgreement) :=
  match ka with
  | kaRSA => cret (rsaKeyAgreement.processServerKeyExchange, kaRSA)
  | kaECDHE ka =>
      let* n := next_rand in
      let '(r, ka) := ecdheKeyAgreement.processServerKeyExchange (generated n) (hello hs) (serverHello hs) pub skx ka in
      cret (r, kaECDHE ka)
  end.

(** ServerKeyExchange. *)
Definition read_skx (msg : handshakeMessage) (ka : keyAgreement) (hs : hstate)
  : CM (handshakeMessage * keyAgreement * hstate) :=
  match msg with
  | ServerKeyExchange skx =>
      let* pub := server_key in
      let* (r, ka) := process_skx ka hs pub skx in
      let* _ := or_calert alertIllegalParameter r in
      let k := serverKeyExchangeMsg.key skx in
      let* _ := (if (3 <=? length k)%nat && (nth_byte k 0 =? 3)
                 then cmodify (ClientConn.set_info (set_curveID ((nth_byte k 1 ≪ 8) ||| nth_byte k 2))) else cret tt) in
      let* (msg, hs) := read12 hs in
      cret (msg, ka, hs)
  | _ => cret (msg, ka, hs)
  end.

(** CertificateRequest: the request and the certificate to send. *)
Definition read_request (msg : handshakeMessage) (hs : hstate)
  : CM (handshakeMessage * option (certificateRequestMsg.t * clientCertificate X P) * hstate) :=
  match msg with
  | CertificateRequest certReq =>
      let* v := on_conn (get (@vers S A C K)) in
      let* chain := or_calert alertInternalError (getClientCertificate fips config (certificateRequestInfoFromMsg v certReq)) in
      let* (msg, hs) := read12 hs in
      cret (msg, Some (certReq, chain), hs)
  | _ => cret (msg, None, hs)
  end.

(** [keyAgreement.generateClientKeyExchange] *)
Definition generate_ckx (ka : keyAgreement) (vers : Z) (pub : PublicKey P)
  : CM (outcome conn_error (bytes * clientKeyExchangeMsg.t)) :=
  match ka with
  | kaRSA =>
      let* n := next_rand in
      cret (rsaKeyAgreement.generateClientKeyExchange (H:=keys_at n)
        (fun len => match rand n len with Some b => Ret b | None => Err ERand end) vers pub)
  | kaECDHE ka => cret (fst (ecdheKeyAgreement.generateClientKeyExchange ka))
  end.

(** The master secret. *)
Definition derive_master (preMasterSecret : bytes) (hs : hstate) : CM hstate :=
  let* v := on_conn (get (@vers S A C K)) in
  if serverHelloMsg.extendedMasterSecret (serverHello hs) then
    let* _ := cmodify (ClientConn.set_info (set_extMasterSecret true)) in
    let* sum := clift (finishedHash.Sum (finishedHash hs)) in
    let* s := clift (extMasterFromPreMasterSecret v (suite hs) preMasterSecret sum) in
    cret (set_masterSecret s hs)
  else if fips then
    calert_then alertHandshakeFailure (EText "tls: FIPS 140-3 requires the use of Extended Master Secret")
  else
    let* s := clift (masterFromPreMasterSecret v (suite hs) preMasterSecret
      (clientHelloMsg.random (hello hs)) (serverHelloMsg.random (serverHello hs))) in
    cret (set_masterSecret s hs).

(** [c.config.writeKeyLog], with an error of its own *)
Definition log_master (hs : hstate) : CM unit :=
  match cfg_KeyLogWriter config with
  | None => cret tt
  | Some w =>
      match w (key_log_line keyLogLabelTLS12 (clientHelloMsg.random (hello hs)) (masterSecret hs)) with
      | None => cret tt
      | Some _ => calert_then alertInternalError (EText "tls: failed to write to key log: ")
      end
  end.

(** CertificateVerify: the scheme (0 before TLS 1.2), its type and hash. *)
Definition verify_choice (v : Z) (cert : clientCertificate X P) (pub : PublicKey P) (req : certificateRequestMsg.t)
  : CM (Z * (Z * sig_hash)) :=
  if VersionTLS12 <=? v then
    let* alg := or_calert alertIllegalParameter
      (selectSignatureScheme fips v (cc_key cert) (certificateRequestMsg.supportedSignatureAlgorithms req)) in
    match typeAndHashFromSignatureScheme alg with
    | Ret th => cret (alg, th)
    | _ => let* _ := creturn_alert alertInternalError in clift (Panic "unreachable")
    end
  else
    let* th := or_calert alertIllegalParameter (legacyTypeAndHashFromPublicKey pub) in cret (0, th).

(** [hs.finishedHash.hashForClientCertificate(sigType, sigHash)]; only the hash
    functions of TLS 1.2 schemes are instantiated. *)
Definition client_signed (fh : finishedHash.t) (sigType : Z) (sigHash : sig_hash) : outcome conn_error bytes :=
  match sig_hash_New sigHash with
  | Some h => finishedHash.hashForClientCertificate fh sigType h
  | None =>
      if (VersionTLS12 <=? finishedHash.version fh) && negb (sigType =? signatureEd25519)
      then Panic "crypto: requested hash function is unavailable"
      else finishedHash.hashForClientCertificate fh sigType sha1_fn
  end.

Definition send_verify (cert : clientCertificate X P) (req : certificateRequestMsg.t) (hs : hstate) : CM hstate :=
  match Signer (ck_PrivateKey (cc_key cert)) with
  | None => calert_then alertInternalError (EText "tls: client certificate private key does not implement crypto.Signer")
  | Some pub =>
      let* v := on_conn (get (@vers S A C K)) in
      let* (alg, (sigType, sigHash)) := verify_choice v cert pub req in
      let* signed := clift (client_signed (finishedHash hs) sigType sigHash) in
      let* n := next_rand in
      let* sig := or_calert alertInternalError
        (@Sign P (keys_at n) (ck_PrivateKey (cc_key cert)) (sigType =? signatureRSAPSS) sigHash signed) in
      send12 (CertificateVerify (certificateVerifyMsg.mk (VersionTLS12 <=? v) alg sig)) hs
  end.

(** What follows ServerHelloDone. *)
Definition answer12 (ka : keyAgreement) (req : option (certificateRequestMsg.t * clientCertificate X P)) (hs : hstate)
  : CM hstate :=
  let* hs := match req with
             | Some (_, chain) => send12 (CertificateMsg (certificateMsg.mk (Certificate_ (cc_message chain)))) hs
             | None => cret hs
             end in
  let* pub := server_key in
  let* r := generate_ckx ka (clientHelloMsg.vers (hello hs)) pub in
  let* (preMasterSecret, ckx) := or_calert alertInternalError r in
  let* hs := send12 (ClientKeyExchange ckx) hs in
  let* hs := derive_master preMasterSecret hs in
  let* _ := log_master hs in
  let* hs := match req with
             | Some (certReq, chain) =>
                 if (length (Certificate_ (cc_message chain)) =? 0)%nat then cret hs else send_verify chain certReq hs
             | None => cret hs
             end in
  cret (set_finishedHash (finishedHash.discardHandshakeBuffer (finishedHash hs)) hs).

Definition doFullHandshake (hs : hstate) : CM hstate :=
  let* (msg, hs) := read12 hs in
  match msg with
  | CertificateMsg certMsg =>
      let certificates := certificateMsg.certificates certMsg in
      if (length certificates =? 0)%nat then unexpected_message else
      let* (msg, hs) := read12 hs in
      let* (msg, hs) := read_status msg hs in
      let* _ := check_certificates certificates in
      let* v := on_conn (get (@vers S A C K)) in
      let* (msg, ka, hs) := read_skx msg (suite_ka (ka (suite hs)) v) hs in
      let* (msg, req, hs) := read_request msg hs in
      match msg with
      | ServerHelloDone => answer12 ka req hs
      | _ => unexpected_message
      end
  | _ => unexpected_message
  end.

(** ** Keys, Finished and tickets *)

Definition establishKeys (hs : hstate) : CM unit :=
  let* v := on_conn (get (@vers S A C K)) in
  let s := suite hs in
  let* ks := clift (keysFromMasterSecret v s (masterSecret hs) (clientHelloMsg.random (hello hs))
    (serverHelloMsg.random (serverHello hs)) (Z.to_nat (macLen s)) (Z.to_nat (keyLen s)) (Z.to_nat (ivLen s))) in
  let* (clientCipher, clientHash, (serverCipher, serverHash)) :=
    match cs_cipher s with
    | Some cipher =>
        match cs_mac s with
        | None => clift (Panic nil_dereference)
        | Some mac =>
            cret (suite_cipher cipher (clientKey ks) (clientIV ks) false, Some (suite_mac mac (clientMAC ks)),
                  (suite_cipher cipher (serverKey ks) (serverIV ks) true, Some (suite_mac mac (serverMAC ks))))
        end
    | None =>
        match cs_aead s with
        | None => clift (Panic nil_dereference)
        | Some f =>
            let* ca := clift (suite_aead f (clientKey ks) (clientIV ks)) in
            let* sa := clift (suite_aead f (serverKey ks) (serverIV ks)) in
            cret (CAead ca, None, (CAead sa, None))
        end
    end in
  let* _ := on_conn (modify (fun c => with_cin (prepareCipherSpec v serverCipher serverHash (cin c)) c)) in
  on_conn (modify (fun c => with_cout (prepareCipherSpec v clientCipher clientHash (cout c)) c)).

(** [out] is [c.serverFinished], [c.clientFinished]. *)
Definition readFinished (hs : hstate) : CM hstate :=
  let* _ := on_conn (readChangeCipherSpec dyn_off rand) in
  let* (msg, _) := on_conn (readHandshakeData dyn_off rand) in
  match msg with
  | Finished serverFinished =>
      let* verify := clift (finishedHash.serverSum (finishedHash hs) (masterSecret hs)) in
      if negb (length verify =? length (finishedMsg.verifyData serverFinished))%nat ||
         negb (ConstantTimeCompare verify (finishedMsg.verifyData serverFinished) =? 1) then
        calert_then alertHandshakeFailure (EText "tls: server's Finished message was incorrect")
      else
        let* hs := transcript12 (Finished serverFinished) hs in
        let* old := cget ClientConn.serverFinished in
        let* _ := cmodify (ClientConn.set_serverFinished (Gcm.copy old verify)) in
        cret hs
  | _ => unexpected_message
  end.

Definition sendFinished (hs : hstate) : CM hstate :=
  let* _ := on_conn (writeChangeCipherRecord dyn_off rand) in
  let* verifyData := clift (finishedHash.clientSum (finishedHash hs) (masterSecret hs)) in
  let* hs := send12 (Finished (finishedMsg.mk verifyData)) hs in
  let* old := cget ClientConn.clientFinished in
  let* _ := cmodify (ClientConn.set_clientFinished (Gcm.copy old verifyData)) in
  cret hs.

Definition readSessionTicket (hs : hstate) : CM hstate :=
  if negb (serverHelloMsg.ticketSupported (serverHello hs)) then cret hs
  else if negb (clientHelloMsg.ticketSupported (hello hs)) then
    calert_then alertIllegalParameter (EText "tls: server sent unrequested session ticket")
  else
    let* (msg, hs) := read12 hs in
    match msg with
    | NewSessionTicket m => cret (set_ticket (newSessionTicketMsg.ticket m) hs)
    | _ => unexpected_message
    end.

(** [c.sessionState()] with the secret and the ticket *)
Definition saved_session (c : client S A C K X T) (secret ticket : bytes) : SessionState.t X :=
  let i := ClientConn.info (cl c) in
  SessionState.mk [] false (vers (conn c)) true (ClientConn.cipherSuite (cl c)) (time_now config / second) secret
    (extMasterSecret i) (peerCertificates i) (activeCertHandles i) (ocspResponse i) (conn_scts i) (verifiedChains i)
    (clientProtocol i) 0 0 ticket (conn_curveID i).
Definition saveSessionTicket (hs : hstate) : CM unit :=
  match ticket hs with
  | None => cret tt
  | Some ticket =>
      let cacheKey := clientSessionCacheKey RemoteAddr config in
      if (length cacheKey =? 0)%nat then cret tt else
      fun c => cache_put cacheKey (Some (saved_session c (masterSecret hs) ticket)) c
  end.

(** ** [handshake] *)

Definition resume12 (hs : hstate) : CM hstate :=
  let* _ := establishKeys hs in
  let* hs := readSessionTicket hs in
  let* hs := readFinished hs in
  let* _ := cmodify (ClientConn.set_clientFinishedIsFirst false) in
  let* _ := verify_connection dyn_off rand config in
  let* hs := sendFinished hs in
  let* (_, err) := on_conn flush in
  let* _ := on_conn (raise err) in
  cret hs.

Definition full12 (hs : hstate) : CM hstate :=
  let* hs := doFullHandshake hs in
  let* _ := establishKeys hs in
  let* hs := sendFinished hs in
  let* (_, err) := on_conn flush in
  let* _ := on_conn (raise err) in
  let* _ := cmodify (ClientConn.set_clientFinishedIsFirst true) in
  let* hs := readSessionTicket hs in
  readFinished hs.

(** The transcript starts with the hellos; its buffer is for a signature. *)
Definition start12 (hello : clientHelloMsg.t) (m : serverHelloMsg.t) (suite : cipherSuite)
    (session : option (SessionState.t X)) (masterSecret : bytes) (discard : bool) : CM hstate :=
  let* v := on_conn (get (@vers S A C K)) in
  let* fh := clift (finishedHash.New v suite) in
  let fh := if discard then finishedHash.discardHandshakeBuffer fh else fh in
  let* hs := transcript12 (ClientHello hello) (mk m hello suite fh masterSecret session None) in
  transcript12 (ServerHello m) hs.

Definition no_client_certificate : bool :=
  (length (Certificates config) =? 0)%nat && negb (bool_decide (is_Some (GetClientCertificate config))).

Definition handshake12 (hello : clientHelloMsg.t) (m : serverHelloMsg.t) (session : option (SessionState.t X))
  : CM hstate :=
  if negb (bool_decide (is_Some session)) && negb (length (clientHelloMsg.sessionId hello) =? 0)%nat &&
     bool_decide (clientHelloMsg.sessionId hello = serverHelloMsg.sessionId m) then
    calert_then alertIllegalParameter (EText "tls: server echoed TLS 1.3 compatibility session ID in TLS 1.2")
  else
    let* (s, resumed) := processServerHello12 hello m session in
    let isResume := bool_decide (is_Some resumed) in
    let secret := match resumed with Some sess => SessionState.secret sess | None => [] end in
    let* hs := start12 hello m s session secret (isResume || no_client_certificate) in
    let* _ := on_conn (modify (with_buffering true)) in
    let* _ := cmodify (ClientConn.set_didResume isResume) in
    let* hs := (if isResume then resume12 hs else full12 hs) in
    let* _ := saveSessionTicket hs in
    let* v := on_conn (get (@vers S A C K)) in
    let* _ := cmodify (ClientConn.set_ekm (ekm12 v (suite hs) (masterSecret hs)
      (clientHelloMsg.random hello) (serverHelloMsg.random m))) in
    let* _ := on_conn (modify (with_isHandshakeComplete true)) in
    cret hs.
End handshake.
