(* ===== verification/ClientHandshake.v ===== *)
(** * handshake_client.go: clientHandshake

    The handshake that [Client] gives to its connection: the ClientHello with
    the session to resume, the version that the server picks with the check
    for a downgrade, and the handshake of that version.  A session whose
    resumption fails leaves the cache. *)

From S2P Require Import Prelude Common HalfConn Cryptobyte Hello Messages Gcm CipherSuites Kdf Conn.
From S2P Require Import Negotiation Auth KeyAgreement Ticket RealityHandshake Post Client Client13 Client12.

Open Scope go_scope.

Section handshake.
Context {S A C K : Type} `{Stream S} `{RecordAEAD A} `{CbcMode C} `{MacFun K}.
Context `{Hashes} `{CryptoString} {B : Type} `{Builder B} {X P T : Type} `{X509 X} `{CertificateChains X P}.
Context `{EcdhCurves} `{Decapsulation} `{Verifiers P} `{!ClientSessionCache T (SessionState.t X)}.
Abbreviation M := (@M S A C K).
Abbreviation CM := (CM S A C K X T).

Context (dyn_off : bool) (rand : nat -> nat -> option bytes).
Context (generated : nat -> ecdh_Curve -> outcome conn_error ecdhPrivateKey).
Context (suite_aead : aead_fn -> bytes -> bytes -> outcome conn_error A).
Context (suite_cipher : cipher_fn -> bytes -> bytes -> bool -> cipher_state S A C).
Context (suite_mac : mac_fn -> bytes -> Hash K).
Context (keys_at : nat -> CertificateKeys P).
Context (ParseIP : bytes -> bool).
Context (RemoteAddr : option bytes).
Context (fips hasAESGCMHardwareSupport : bool).
Context (config : clientConfig X P CertPool).

(** [c.in.version = vers], [c.out.version = vers] *)
Definition with_version (v : Z) (h : halfConn S A C K) : halfConn S A C K :=
  mkHalfConn (handshakeLen h) (hc_err h) v (hc_cipher h) (hc_mac h) (seq h) (nextCipher h) (nextMac h) (level h) (trafficSecret h).

Definition client_pickTLSVersion (m : serverHelloMsg.t) : CM unit :=
  match pickTLSVersion fips (Some (neg config)) (serverHelloMsg.vers m) (serverHelloMsg.supportedVersion m) with
  | Ret v =>
      on_conn (modify (fun c => with_cout (with_version v (cout c))
        (with_cin (with_version v (cin c)) (with_haveVers true (with_vers v c)))))
  | Err _ => calert_then dyn_off rand alertProtocolVersion (EText "tls: server selected unsupported protocol version")
  | Panic w => clift (Panic w)
  end.

Definition check_downgrade (m : serverHelloMsg.t) : CM unit :=
  let* v := on_conn (get (@vers S A C K)) in
  let* detected := clift (downgrade_detected fips (Some (neg config)) v (serverHelloMsg.random m)) in
  if detected : bool then
    calert_then dyn_off rand alertIllegalParameter
      (EText "tls: downgrade attempt detected, possibly due to a MitM attack or a broken middlebox")
  else cret tt.

(** What is deferred once a session was loaded. *)
Definition or_drop_session (session : option (SessionState.t X)) (m : CM unit) : CM unit := fun c =>
  let '(r, c) := m c in
  match r, session with
  | Err e, Some _ =>
      let cacheKey := clientSessionCacheKey RemoteAddr config in
      (let* _ := (if (length cacheKey =? 0)%nat then cret tt else cache_put cacheKey None) in cfail e) c
  | _, _ => (r, c)
  end.

(** From the ClientHello that is sent. *)
Definition run_hello (hello : clientHelloMsg.t) (keys : option keySharePrivateKeys)
    (session : option (SessionState.t X)) (early : option tls13.EarlySecret) (binderKey : bytes) : CM unit :=
  let* _ := cmodify (ClientConn.set_serverName (clientHelloMsg.serverName hello)) in
  let* (_, err) := on_conn (writeHandshakeRecord dyn_off rand (marshal_message B (ClientHello hello))) in
  let* _ := on_conn (raise err) in
  if clientHelloMsg.earlyData hello then clift (Panic nil_dereference) else
  let* (msg, _) := on_conn (readHandshakeData dyn_off rand) in
  match msg with
  | ServerHello m =>
      let* _ := client_pickTLSVersion m in
      let* _ := check_downgrade m in
      let* v := on_conn (get (@vers S A C K)) in
      if v =? VersionTLS13 then
        let* _ := handshake13 (B:=B) dyn_off rand generated suite_aead (fun n => @Sign P (keys_at n)) fips config
                    hello keys m session early binderKey in cret tt
      else
        let* _ := handshake12 (B:=B) dyn_off rand generated suite_aead suite_cipher suite_mac keys_at RemoteAddr fips config
                    hello m session in cret tt
  | _ => unexpected_message dyn_off rand
  end.

Definition clientHandshake : CM unit :=
  let* _ := cmodify (ClientConn.set_didResume false) in
  let* _ := cmodify (ClientConn.set_info (set_curveID 0)) in
  let* (hello, keys) := makeClientHello rand generated ParseIP fips hasAESGCMHardwareSupport config in
  let* _ := cmodify (ClientConn.set_serverName (clientHelloMsg.serverName hello)) in
  let* (hello, (session, early, binderKey)) := loadSession (B:=B) RemoteAddr fips config hello in
  or_drop_session session (run_hello hello keys session early binderKey).
End handshake.
