(* ===== verification/StreamProofs.v ===== *)
(** * Theorems about the application's stream

    What an application writes with [Write] on one end of a TLS 1.3 connection
    is what the application on the other end gets from [Read], whatever the
    sizes of the buffers on both ends and however the network cuts the bytes. *)

From S2P Require Import Prelude Common HalfConn HalfConnProofs RecordProofs RecordAead Conn ConnProofs.
From S2P Require Import Cryptobyte Hello Messages MessagesProofs Gcm GcmNonces CipherSuites Kdf KdfProofs Negotiation Auth Ticket.
From S2P Require Import RealityHandshake Post.

Open Scope go_scope.

(** ** The applications *)

Section apps.
Context {S A C K : Type}.
Abbreviation M := (@M S A C K).

(** [Write] every buffer; stop at the first error. *)
Fixpoint write_all (Write : bytes -> M (Z * option conn_error)) (ws : list bytes) : M unit :=
  match ws with
  | [] => ret tt
  | b :: ws =>
      do! (_, err) := Write b in
      match err with Some e => fail e | None => write_all Write ws end
  end.

(** [Read] into buffers of the given sizes; stop at the first error. *)
Fixpoint read_all (Read : nat -> M (bytes * option conn_error)) (ns : list nat) : M (list bytes) :=
  match ns with
  | [] => ret []
  | n :: ns =>
      do! (b, err) := Read n in
      match err with Some e => fail e | None => do! bs := read_all Read ns in ret (b :: bs) end
  end.
End apps.

Section stream.
Context {S A C K : Type}.
Context `{StreamPair S} `{AeadPair A} `{CbcPair C} `{MacLaws K}.
Context `{Hashes} `{CryptoString} {B : Type} `{Builder B} {X : Type}.
Abbreviation hconn := (halfConn S A C K).
Abbreviation cn := (Conn S A C K).
Abbreviation M := (@M S A C K).

(** ** Reading from the network *)

(** What the network still has to give, when none of its reads fails. *)
Definition waiting (c : cn) (chunks : list bytes) (s : bytes) : Prop :=
  net_in c = (fun b => (b, None)) <$> chunks /\ s = rawInput c ++ concat chunks.

Lemma read_at_least_chunks chunks buf needs : 0 < needs -> needs <= Z.of_nat (length (concat chunks)) ->
  exists got rest, chunks = got ++ rest /\ needs <= Z.of_nat (length (concat got)) /\
    read_at_least ((fun b => (b, None)) <$> chunks) buf needs = (Ret tt, (fun b => (b, None)) <$> rest, buf ++ concat got).
Proof.
  revert buf needs. induction chunks as [|b chunks IH]; intros buf needs Hn Hl; [simpl in Hl; lia|].
  cbn [concat] in Hl. rewrite length_app in Hl. cbn [fmap list_fmap read_at_least].
  rewrite (proj2 (Z.leb_gt _ _)) by lia.
  destruct (Z.leb_spec (needs - Z.of_nat (length b)) 0).
  { exists [b], chunks. cbn [concat app]. rewrite app_nil_r. split_and!; [done|lia|done]. }
  destruct (IH (buf ++ b) (needs - Z.of_nat (length b))) as (got & rest & -> & Hg & E); [lia..|].
  exists (b :: got), rest. cbn [concat app]. rewrite length_app. split_and!; [done|lia|].
  rewrite E. by rewrite app_assoc.
Qed.

Lemma readFromUntil_waiting n (c : cn) chunks s : waiting c chunks s -> n <= Z.of_nat (length s) ->
  exists buf rest, let c1 := with_rawInput buf (with_net_in ((fun b => (b, None)) <$> rest) c) in
    readFromUntil n c = (Ret tt, c1) /\ n <= Z.of_nat (length (rawInput c1)) /\ waiting c1 rest s.
Proof.
  intros [Hn Hs] Hl. unfold readFromUntil. destruct (Z.leb_spec n (Z.of_nat (length (rawInput c)))).
  { exists (rawInput c), chunks. cbv zeta. rewrite <- Hn. destruct c. cbn in *. by split_and!. }
  destruct (read_at_least_chunks chunks (rawInput c) (n - Z.of_nat (length (rawInput c)))) as (got & rest & -> & Hg & E);
    [lia|rewrite Hs, length_app in Hl; lia|].
  rewrite Hn, E. exists (rawInput c ++ concat got), rest. cbn [rawInput with_rawInput with_net_in].
  split_and!; [done|rewrite length_app; lia|]. split; [done|].
  cbn [rawInput with_rawInput]. by rewrite Hs, concat_app, app_assoc.
Qed.

(** ** One record *)

(** What [decrypt] and [encrypt] leave as it was. *)
Definition same_half (h h' : hconn) : Prop :=
  hc_err h' = hc_err h /\ version h' = version h /\ trafficSecret h' = trafficSecret h /\
  (hc_cipher h <> None -> hc_cipher h' <> None).

Lemma half_refl h : same_half h h.
Proof. done. Qed.

Lemma half_trans h1 h2 h3 : same_half h1 h2 -> same_half h2 h3 -> same_half h1 h3.
Proof. intros (?&?&?&?) (?&?&?&?). split_and!; [congruence..|auto]. Qed.

Lemma half_decipher rec payload (h : hconn) : same_half h (snd (decipher rec payload h)).
Proof.
  unfold decipher. destruct (hc_cipher h) as [[s|a|b]|]; [..|done].
  - by destruct (XORKeyStream s payload).
  - unfold decipher_aead. destruct (_ <? _)%nat; [done|]. destruct (ra_Open _ _ _ _) as [[]]; done.
  - unfold decipher_cbc. destruct (hc_mac h); [|done]. destruct (_ || _); [done|].
    destruct (CryptBlocks _ _). by destruct (extractPadding _).
Qed.

Lemma half_check_mac rec p payload l g (h : hconn) : same_half h (snd (check_mac rec p payload l g h)).
Proof.
  unfold check_mac. destruct (hc_mac h); [|done]. destruct (_ <? _)%nat; [done|]. cbv zeta.
  destruct (tls10MAC _ _ _ _ _ _). by destruct (negb _).
Qed.

Lemma half_incSeq (h : hconn) : same_half h (snd (incSeq h)).
Proof. unfold incSeq. by destruct (incSeq_loop _ _). Qed.

Lemma decrypt_half rec (h : hconn) : same_half h (snd (decrypt rec h)).
Proof.
  unfold decrypt. destruct (_ <? _)%nat; [done|]. destruct (_ && _); [done|].
  pose proof (half_decipher rec (drop 5 rec) h) as Q1. destruct (decipher _ _ _) as [[D| |] h1]; [|done..].
  destruct (inner_type h1 _ _) as [[p t]| |]; [|done..].
  pose proof (half_check_mac rec p (d_payload D) (d_paddingLen D) (d_paddingGood D) h1) as Q2.
  destruct (check_mac _ _ _ _ _ _) as [[p'| |] h2]; [|by eapply half_trans..].
  pose proof (half_incSeq h2) as Q3. destruct (incSeq h2) as [[]]; do 2 (eapply half_trans; [eassumption|]); done.
Qed.

Lemma half_seal_aead a rec nonce payload (h : hconn) : same_half h (snd (seal_aead a rec nonce payload h)).
Proof.
  unfold seal_aead. destruct (version h =? _).
  - cbv zeta. destruct (pad_record _ _ _ _) as [[r| |] lens]; [|done..]. by destruct (ra_Seal _ _ _ _) as [[]].
  - by destruct (ra_Seal _ _ _ _) as [[]].
Qed.

Lemma encrypt_half rnd hdr payload (h : hconn) : same_half h (snd (encrypt rnd hdr payload h)).
Proof.
  unfold encrypt. destruct (hc_cipher h) as [c|]; [|done]. destruct (explicit_nonce rnd h) as [nonce| |]; [|done..].
  set (sealed := match c with CStream s => _ | CAead a => _ | CCbc c => _ end).
  assert (Hs : same_half h (snd sealed)).
  { unfold sealed. destruct c as [s|a|c]; [|apply half_seal_aead|].
    - unfold seal_stream, tls10MAC. destruct (hc_mac h); [|done]. cbv zeta.
      destruct (XORKeyStream s payload) as [? s1]. by destruct (XORKeyStream s1 _).
    - unfold seal_cbc, tls10MAC. destruct (hc_mac h); [|done]. cbv zeta. by destruct (CryptBlocks _ _). }
  destruct sealed as [[r| |] h1]; [|done..]. pose proof (half_incSeq h1) as Hi.
  destruct (incSeq h1) as [[u| |] h2]; by eapply half_trans.
Qed.

(** The bodies of the records to come. *)
Record incoming (c : cn) (chunks frags recs : list bytes) : Prop := {
  inc_vers : vers c = VersionTLS13;
  inc_have : haveVers c = true;
  inc_complete : isHandshakeComplete c = true;
  inc_err : hc_err (cin c) = None;
  inc_cipher : hc_cipher (cin c) <> None;
  inc_hand : hand c = [];
  inc_net : waiting c chunks (concat recs);
  inc_recs : receive_all (cin c) recs = (fun f => Ret (f, recordTypeApplicationData)) <$> frags;
  inc_framed : Forall (framed 3 3) recs;
  inc_sizes : Forall (fun f => (0 < length f)%nat /\ Z.of_nat (length f) <= maxPlaintext) frags
}.

Lemma framed_length rec : framed 3 3 rec -> exists n, Z.of_nat (length rec) = recordHeaderLen + n /\
  0 < n <= maxCiphertextTLS13 /\ take 5 rec = [recordTypeApplicationData; 3; 3; u8 (n ≫ 8); u8 n].
Proof. intros [Hn Ht]. eexists. split; [|split; [exact Hn|exact Ht]]. lia. Qed.

Lemma header_length n : 0 <= n < 2 ^ 16 -> (u8 (n ≫ 8) ≪ 8) ||| u8 n = n.
Proof.
  intros Hn. rewrite be16 by (apply Z.mod_pos_bound; lia). unfold u8.
  rewrite !Z.shiftr_div_pow2 by lia. Z.div_mod_to_equations. lia.
Qed.

Context (dyn_off : bool) (rand : nat -> nat -> option bytes).

Lemma check_header_framed n (c : cn) : vers c = VersionTLS13 -> haveVers c = true ->
  isHandshakeComplete c = true -> 0 < n <= maxCiphertextTLS13 ->
  check_header dyn_off rand [recordTypeApplicationData; 3; 3; u8 (n ≫ 8); u8 n] c = (Ret n, c).
Proof.
  intros Hv Hh Hc Hn. unfold check_header, bind at 1, get. rewrite Hc, Hv, Hh. cbn [negb andb].
  unfold nth_byte. cbn [nth]. unfold maxCiphertextTLS13 in *. rewrite header_length by lia.
  change (VersionTLS13 =? VersionTLS13) with true. change ((3 ≪ 8) ||| 3) with VersionTLS12. cbv iota.
  rewrite Z.eqb_refl. cbn [negb andb orb]. unfold maxCiphertext.
  by rewrite !(proj2 (Z.ltb_ge _ _)) by (unfold maxCiphertextTLS13; lia).
Qed.

Lemma take_app_waiting k (c : cn) chunks rec s : waiting c chunks (rec ++ s) ->
  (k <= length (rawInput c))%nat -> (k <= length rec)%nat -> take k (rawInput c) = take k rec.
Proof.
  intros [_ W] Hk Hr. transitivity (take k (rec ++ s)); [|by apply take_app_le].
  rewrite W. symmetry. by apply take_app_le.
Qed.

(** An application data record is opened and its data same_half for [Read]. *)
Lemma open_record_app rec data (c : cn) h' : decrypt rec (cin c) = (Ret (data, recordTypeApplicationData), h') ->
  hc_cipher h' <> None -> (0 < length data)%nat -> Z.of_nat (length data) <= maxPlaintext -> hand c = [] ->
  open_record dyn_off rand rec c = (Ret (data, recordTypeApplicationData), with_retryCount 0 (with_cin h' c)).
Proof.
  intros Hd Hc Hl Hm Hh. unfold open_record, on_in. rewrite Hd. rewrite (proj2 (Z.ltb_ge _ _)) by lia.
  cbn [cin with_cin]. destruct (hc_cipher h'); [|done]. cbn [andb].
  change (recordTypeApplicationData =? recordTypeAlert) with false.
  change (recordTypeApplicationData =? recordTypeChangeCipherSpec) with false.
  change (recordTypeApplicationData =? recordTypeHandshake) with false.
  rewrite (proj2 (Nat.ltb_lt _ _)) by lia. cbn [negb andb]. unfold bind, modify, get.
  cbn [hand with_retryCount with_cin]. rewrite Hh. cbn [length Nat.ltb Nat.leb]. by rewrite andb_false_r.
Qed.

Lemma read_one_framed rec recs data (c : cn) chunks h' :
  vers c = VersionTLS13 -> haveVers c = true -> isHandshakeComplete c = true -> hc_err (cin c) = None ->
  hand c = [] -> input c = [] -> framed 3 3 rec -> waiting c chunks (rec ++ recs) ->
  decrypt rec (cin c) = (Ret (data, recordTypeApplicationData), h') ->
  hc_cipher h' <> None -> (0 < length data)%nat -> Z.of_nat (length data) <= maxPlaintext ->
  exists buf rest, let c1 := with_input data (with_retryCount 0 (with_cin h'
      (with_rawInput buf (with_net_in ((fun b => (b, None)) <$> rest) c)))) in
    read_one dyn_off rand false c = (Ret Done, c1) /\ waiting c1 rest recs.
Proof.
  intros Hv Hh Hc He Hha Hi Hfr Hn Hd Hci Hs1 Hs2.
  destruct (framed_length rec Hfr) as (n & Hl & Hnb & Ht).
  destruct (readFromUntil_waiting recordHeaderLen c chunks _ Hn) as (buf1 & rest1 & E1 & L1 & W1);
    [rewrite length_app; lia|]. set (c1 := with_rawInput buf1 _) in *.
  destruct (readFromUntil_waiting (recordHeaderLen + n) c1 rest1 _ W1) as (buf2 & rest2 & E2 & L2 & W2);
    [rewrite length_app; lia|]. set (c2 := with_rawInput buf2 _) in *.
  unfold recordHeaderLen in L1, L2, Hl.
  assert (T1 : take 5 (rawInput c1) = take 5 rec) by (eapply take_app_waiting; [exact W1|lia..]).
  set (k := Z.to_nat (recordHeaderLen + n)).
  assert (Hk : k = length rec) by (unfold k, recordHeaderLen; lia).
  assert (T2 : take k (rawInput c2) = rec).
  { rewrite (take_app_waiting k c2 rest2 rec recs) by (done || lia). rewrite Hk. apply take_ge. lia. }
  exists (drop k buf2), rest2. cbv zeta. split.
  2: { destruct W2 as [W2 W2']. split; [done|]. cbn [rawInput with_input with_retryCount with_cin with_rawInput].
    rewrite <- (drop_app_length' rec recs k Hk), W2'. apply drop_app_le. unfold c2 in L2. cbn in L2 |- *. lia. }
  unfold read_one. unfold bind at 1, get at 1. rewrite He, Hi, Hc. cbn [length Nat.eqb negb].
  unfold bind at 1, try_ at 1. rewrite E1. unfold bind at 1, get at 1. rewrite T1, Ht.
  unfold bind at 1. rewrite check_header_framed by done.
  unfold bind at 1, try_ at 1. rewrite E2. unfold bind at 1, get at 1. fold k. rewrite T2.
  unfold bind at 1, modify at 1. unfold bind at 1.
  rewrite (open_record_app rec data _ h') by done. unfold handle_record.
  change (recordTypeApplicationData =? recordTypeAlert) with false.
  change (recordTypeApplicationData =? recordTypeChangeCipherSpec) with false. cbn [negb orb Z.eqb Pos.eqb].
  by rewrite (proj2 (Nat.eqb_neq _ _)) by lia.
Qed.

Lemma readRecord_framed (c : cn) chunks f frags recs : incoming c chunks (f :: frags) recs -> input c = [] ->
  exists c' chunks' recs', readRecord dyn_off rand c = (Ret tt, c') /\ incoming c' chunks' frags recs' /\ input c' = f.
Proof.
  intros [Hv Hh Hc He Hci Hha Hn Hr Hf Hs] Hi.
  destruct recs as [|rec recs]; [done|]. apply Forall_cons in Hf as [Hfr Hf]. apply Forall_cons in Hs as [[Hs1 Hs2] Hs].
  cbn [receive_all fmap list_fmap] in Hr. destruct (decrypt rec (cin c)) as [r h'] eqn:Hd. injection Hr as -> Hr.
  pose proof (decrypt_half rec (cin c)) as (K1 & _ & _ & K3). rewrite Hd in K1, K3. cbn [snd] in *.
  destruct (read_one_framed rec (concat recs) f c chunks h') as (buf & rest & E & W); try done; [by apply K3|].
  eexists _, rest, recs. unfold readRecord, readRecordOrCCS.
  change (Z.to_nat maxUselessRecords + 1)%nat with 17%nat. cbn [readRecordOrCCS_fuel].
  unfold bind at 1. rewrite E. split; [reflexivity|]. split; [|done].
  split; try done; [by rewrite <- He|by apply K3].
Qed.

(** ** [Read] *)

Context (suite_aead : aead_fn -> bytes -> bytes -> outcome conn_error A).
Context (isClient : bool) (cipherSuite : Z) (resumptionSecret : option bytes) (Renegotiation : Z).
Context (config : hsConfig X) (info : connInfo X).
Context (ClientSessionCache_Put : option (bytes -> SessionState.t X -> M unit)) (cacheKey : bytes).
Context (clientHandshake handshakeFn : M unit).
Abbreviation Read := (Read (B:=B) dyn_off rand suite_aead isClient cipherSuite resumptionSecret Renegotiation
  config info ClientSessionCache_Put cacheKey clientHandshake handshakeFn).
Abbreviation fill_input := (fill_input (B:=B) dyn_off rand suite_aead isClient cipherSuite resumptionSecret
  Renegotiation config info ClientSessionCache_Put cacheKey clientHandshake).
Abbreviation handle_hand := (handle_hand (B:=B) dyn_off rand suite_aead isClient cipherSuite resumptionSecret
  Renegotiation config info ClientSessionCache_Put cacheKey clientHandshake).

Lemma read_fuel_S (c : cn) : exists k, read_fuel c = Datatypes.S (Datatypes.S k).
Proof. unfold read_fuel. eexists (17 * raw_left c + 16 + length (hand c))%nat. lia. Qed.

Lemma handshake_done (c : cn) : isHandshakeComplete c = true -> handshakeContext handshakeFn c = (Ret tt, c).
Proof. intros Hc. unfold handshakeContext, bind, get. by rewrite Hc. Qed.

Lemma handle_hand_nil (c : cn) : hand c = [] -> handle_hand c = (Ret tt, c).
Proof.
  intros Hh. unfold Post.handle_hand. destruct (read_fuel_S c) as [k ->].
  cbn [handle_hand_fuel]. unfold bind at 1, get at 1. by rewrite Hh.
Qed.

Lemma fill_input_spec (c : cn) chunks frags recs : incoming c chunks frags recs -> input c ++ concat frags <> [] ->
  exists c' chunks' frags' recs', fill_input c = (Ret tt, c') /\ incoming c' chunks' frags' recs' /\
    input c' ++ concat frags' = input c ++ concat frags /\ (0 < length (input c'))%nat.
Proof.
  intros Hin Hne. unfold Post.fill_input. destruct (read_fuel_S c) as [k ->]. cbn [fill_input_fuel].
  unfold bind at 1, get at 1. destruct (Nat.eqb_spec (length (input c)) 0) as [Hi|Hi]; cbn [negb].
  2: { exists c, chunks, frags, recs. split_and!; [done..|lia]. }
  apply length_zero_iff_nil in Hi. rewrite Hi in *. destruct frags as [|f frags]; [done|].
  pose proof (inc_sizes _ _ _ _ Hin) as [[Hf _] _]%Forall_cons.
  destruct (readRecord_framed c chunks f frags recs Hin Hi) as (c1 & chunks1 & recs1 & E & Hin1 & Hi1).
  exists c1, chunks1, frags, recs1. split_and!; [|done|by rewrite Hi1|by rewrite Hi1].
  unfold bind at 1. rewrite E. unfold bind at 1. rewrite handle_hand_nil by apply Hin1.
  unfold bind at 1, get at 1. rewrite Hi1. by rewrite (proj2 (Nat.eqb_neq _ _)) by lia.
Qed.

(** No record of application data looks like a waiting alert. *)
Lemma no_alert_waiting (c : cn) chunks frags recs : incoming c chunks frags recs ->
  (0 <? length (rawInput c))%nat && (nth_byte (rawInput c) 0 =? recordTypeAlert) = false.
Proof.
  intros Hin. pose proof (inc_net _ _ _ _ Hin) as [_ Hn]. pose proof (inc_framed _ _ _ _ Hin) as Hf.
  destruct (rawInput c) as [|x raw]; [done|].
  destruct recs as [|rec recs]; [done|]. apply Forall_cons in Hf as [Hf _].
  destruct (framed_length rec Hf) as (n & Hl & _ & Ht). destruct rec as [|y rec]; [done|].
  cbn [concat app] in Hn. injection Hn as <- _. injection Ht as -> _. done.
Qed.

Lemma Read_step n (c : cn) chunks frags recs : (0 < n)%nat -> incoming c chunks frags recs ->
  input c ++ concat frags <> [] ->
  exists b c' chunks' frags' recs', Read n c = (Ret (b, None), c') /\ incoming c' chunks' frags' recs' /\
    input c ++ concat frags = b ++ input c' ++ concat frags' /\ (0 < length b <= n)%nat.
Proof.
  intros Hn Hin Hne. unfold Post.Read. unfold bind at 1, try_ at 1. rewrite handshake_done by apply Hin.
  rewrite (proj2 (Nat.eqb_neq _ _)) by lia. unfold bind at 1, try_ at 1.
  destruct (fill_input_spec c chunks frags recs Hin Hne) as (c1 & chunks1 & frags1 & recs1 & -> & Hin1 & <- & Hl).
  unfold bind at 1, get at 1, bind at 1, modify, bind at 1, get at 1. set (c2 := with_input _ c1).
  assert (Hin2 : incoming c2 chunks1 frags1 recs1) by (by destruct Hin1).
  pose proof (no_alert_waiting c2 _ _ _ Hin2) as Hna. rewrite <- andb_assoc, Hna, andb_false_r.
  exists (take n (input c1)), c2, chunks1, frags1, recs1. split_and!; [done..| | |].
  - cbn [input c2 with_input]. by rewrite app_assoc, take_drop.
  - rewrite length_take. lia.
  - rewrite length_take. lia.
Qed.

Lemma read_all_spec ns (c : cn) chunks frags recs : Forall (lt 0) ns -> incoming c chunks frags recs ->
  exists k got c', read_all Read (take k ns) c = (Ret got, c') /\
    concat got `prefix_of` input c ++ concat frags /\
    Forall2 (fun n b => 0 < length b <= n)%nat (take k ns) got /\
    ((length ns <= k)%nat \/ concat got = input c ++ concat frags).
Proof.
  intros Hns. revert c chunks frags recs. induction Hns as [|n ns Hn Hns IH]; intros c chunks frags recs Hin.
  { exists 0%nat, [], c. split_and!; [done|apply prefix_nil|constructor|by left]. }
  destruct (decide (input c ++ concat frags = [])) as [->|Hne].
  { exists 0%nat, [], c. split_and!; [done|apply prefix_nil|constructor|by right]. }
  destruct (Read_step n c chunks frags recs Hn Hin Hne) as (b & c1 & chunks1 & frags1 & recs1 & E & Hin1 & -> & Hb).
  destruct (IH c1 chunks1 frags1 recs1 Hin1) as (k & got & c' & E' & Hp & Hf2 & Hk).
  exists (Datatypes.S k), (b :: got), c'. cbn [take read_all concat]. split_and!.
  - unfold bind at 1. rewrite E. unfold bind at 1. by rewrite E'.
  - by apply prefix_app.
  - by constructor.
  - destruct Hk as [Hk| ->]; [left; cbn [length]; lia|by right].
Qed.

(** ** [Write] *)

Context (Hrand : forall k, rand_ok (rand k)) (Handshake : M unit).
Abbreviation Write := (Write dyn_off rand Handshake).

(** What writing a record leaves as it was. *)
Definition app_state (c : cn) : bool * bool * Z * (bytes * hconn) :=
  (isHandshakeComplete c, closeNotifySent c, activeCall c, (trafficSecret (cout c), cin c)).

Lemma write_app rec (c : cn) : app_state (snd (write rec c)) = app_state c.
Proof.
  unfold write, bind, get, modify, ret, conn_Write. destruct (buffering c); [done|].
  by destruct (net_w c) as [|[]].
Qed.

Lemma maxPayload_app typ (c : cn) : app_state (snd (maxPayloadSizeForWrite dyn_off typ c)) = app_state c.
Proof.
  unfold maxPayloadSizeForWrite. destruct (_ || _); [done|]. destruct (_ <=? _); [done|].
  destruct (cipher_payload _ _); [|done..]. by destruct (_ <? packetsSent c).
Qed.

Lemma writeRecords_app stuck fuel typ data n (c : cn) :
  (forall c : cn, app_state (snd (stuck c)) = app_state c) ->
  app_state (snd (writeRecords_fuel dyn_off rand stuck fuel typ data n c)) = app_state c.
Proof.
  intros Hst. revert data n c. induction fuel as [|fuel IH]; intros data n c; cbn [writeRecords_fuel];
    (destruct (_ =? 0)%nat; [done|]); [apply Hst|].
  unfold bind at 1. pose proof (maxPayload_app typ c) as Q1.
  destruct (maxPayloadSizeForWrite _ _ _) as [[k|e|w] c1]; cbn [snd] in Q1; [|done..].
  rewrite <- Q1. set (m := if _ : bool then k else _). destruct (m <? 0); [done|].
  unfold bind at 1, get at 1, encrypt_record, on_out.
  cbn [cout with_rand_calls].
  match goal with |- context [encrypt ?r ?hd ?d ?h] => pose proof (encrypt_half r hd d h) as (_ & _ & Ht & _);
    destruct (encrypt r hd d h) as [[rec|e|w] h'] end; cbn [snd] in Ht.
  2-3: unfold app_state; cbn; by rewrite Ht.
  set (c2 := with_cout h' _). transitivity (app_state c2); [|unfold app_state; cbn; by rewrite Ht].
  unfold bind. pose proof (write_app rec c2) as Q2. destruct (write rec c2) as [[[? [e|]]|e|w] c3]; cbn [snd] in Q2; [done| |done..].
  rewrite <- Q2. apply IH.
Qed.

(** A connection on which [Write] sends. *)
Record sending (c : cn) (d : hconn) : Prop := {
  snd_writable : writable recordTypeApplicationData c d;
  snd_tls13 : tls13 c;
  snd_err : hc_err (cout c) = None;
  snd_complete : isHandshakeComplete c = true;
  snd_open : closeNotifySent c = false;
  snd_active : Z.land (activeCall c) 1 = 0
}.

(** What a reader gets of records in frames of TLS 1.3. *)
Definition carries (d : hconn) (frags recs : list bytes) : Prop :=
  receive_all d recs = (fun f => Ret (f, recordTypeApplicationData)) <$> frags /\
  Forall (framed 3 3) recs /\
  Forall (fun f => (0 < length f)%nat /\ Z.of_nat (length f) <= maxPlaintext) frags.

Lemma carries_app d f1 r1 f2 r2 : carries d f1 r1 -> carries (reader_after d r1) f2 r2 ->
  carries d (f1 ++ f2) (r1 ++ r2).
Proof.
  intros (E1 & F1 & S1) (E2 & F2 & S2). split_and!; [|by apply Forall_app..].
  by rewrite receive_all_app, E1, E2, fmap_app.
Qed.

Lemma Write_spec b (c : cn) (d : hconn) n c' : (forall c : cn, isHandshakeComplete c = true -> Handshake c = (Ret tt, c)) ->
  sending c d -> bytes_ok b -> Write b c = (Ret (n, None), c') ->
  exists frags recs, emitted c' = emitted c ++ concat recs /\ concat frags = b /\ carries d frags recs /\
    sending c' (reader_after d recs).
Proof.
  intros Hhs [Hw H13 He Hc Ho Ha] Hb. unfold Conn.Write. rewrite Ha. cbn [Z.eqb negb].
  set (c0 := with_activeCall _ c). unfold Write_body. unfold bind at 1, try_ at 1. rewrite Hhs by exact Hc.
  unfold bind at 1, get at 1. change (hc_err (cout c0)) with (hc_err (cout c)).
  change (isHandshakeComplete c0) with (isHandshakeComplete c). change (closeNotifySent c0) with (closeNotifySent c).
  change (vers c0) with (vers c). rewrite He, Hc, Ho, (proj1 H13), andb_false_r. cbn [negb andb].
  unfold bind at 1, ret at 1. unfold bind at 1. unfold writeRecordLocked. unfold bind at 1.
  pose proof (writeRecords_app out_of_fuel (length b) recordTypeApplicationData b 0 c0 (fun _ => eq_refl)) as Happ.
  destruct (writeRecords_delivers dyn_off rand Hrand recordTypeApplicationData b c0 d) as [_ Hd];
    [by destruct Hw|exact Hb|discriminate|by vm_compute|].
  change (writeRecords_fuel dyn_off rand out_of_fuel (length b) recordTypeApplicationData b 0) with
    (writeRecords dyn_off rand recordTypeApplicationData b) in Happ.
  destruct (writeRecords _ _ _ _ _) as [[[k [e|]]|e|w] c1]; [done| |done..].
  destruct (Hd _ c1 eq_refl) as (frags & recs & [(pt & He1 & Hpt) Hr Hsz (rest & Hdt & Hrest) _ Hfr Hnx]).
  rewrite Hpt, app_nil_r in He1 by done. rewrite Hrest, app_nil_r in Hdt by done.
  unfold bind at 1, get at 1.
  change (recordTypeApplicationData =? recordTypeChangeCipherSpec) with false. cbn [andb].
  intros Q. injection Q as _ <-. exists frags, recs. injection Happ as A1 A2 A3 _ _.
  destruct (Hfr H13) as [Hfr1 Hfr2]. destruct (Hnx eq_refl) as [W1 W2 W3 W4].
  split_and!; [exact He1|done|by split_and!|].
  split; [by split|by apply Hfr2|done|simpl; by rewrite A1|simpl; by rewrite A2|].
  cbn [activeCall with_activeCall with_cout]. rewrite A3. cbn [activeCall with_activeCall c0].
  by replace (activeCall c + 2 - 2) with (activeCall c) by lia.
Qed.

Lemma write_all_spec ws (c : cn) (d : hconn) c' : (forall c : cn, isHandshakeComplete c = true -> Handshake c = (Ret tt, c)) ->
  sending c d -> Forall (Forall is_byte) ws -> write_all Write ws c = (Ret tt, c') ->
  exists frags recs, emitted c' = emitted c ++ concat recs /\ concat frags = concat ws /\ carries d frags recs /\
    sending c' (reader_after d recs).
Proof.
  intros Hhs Hs Hb. revert c d Hs. induction Hb as [|b ws Hb _ IH]; intros c d Hs; cbn [write_all].
  { intros [= <-]. exists [], []. cbn [concat]. by rewrite app_nil_r. }
  unfold bind. destruct (Write b c) as [[[n [e|]]|e|w] c1] eqn:E; [done| |done..]. intros Q.
  destruct (Write_spec b c d n c1 Hhs Hs Hb E) as (f1 & r1 & E1 & D1 & C1 & S1).
  destruct (IH c1 _ S1 Q) as (f2 & r2 & E2 & D2 & C2 & S2).
  exists (f1 ++ f2), (r1 ++ r2). rewrite !concat_app, D1, D2, E2, E1, app_assoc. split_and!; [done..|by apply carries_app|].
  unfold reader_after in *. by rewrite fold_left_app.
Qed.

(** A connection that has read everything that came so far. *)
Record receiving (c : cn) : Prop := {
  rcv_vers : vers c = VersionTLS13;
  rcv_have : haveVers c = true;
  rcv_complete : isHandshakeComplete c = true;
  rcv_err : hc_err (cin c) = None;
  rcv_hand : hand c = [];
  rcv_input : input c = [];
  rcv_raw : rawInput c = []
}.

Lemma sending_cipher (s : cn) (d : hconn) : sending s d -> hc_cipher d <> None.
Proof.
  intros [[(_ & _ & _ & Hp) _ _ _] _ _ _ _ _]. unfold cipher_pair in Hp.
  by destruct (hc_cipher (cout s)) as [[]|], (hc_cipher d).
Qed.

Lemma incoming_start (s r : cn) chunks frags recs : sending s (cin r) -> receiving r -> carries (cin r) frags recs ->
  net_in r = (fun b => (b, None)) <$> chunks -> concat recs = concat chunks -> incoming r chunks frags recs.
Proof.
  intros Hs [Hv Hh Hc He Hha Hi Hr] (E & F & Z) Hn Hcc. split; try done.
  - by apply sending_cipher in Hs.
  - split; [done|]. by rewrite Hr.
Qed.
End stream.

Section end_to_end.
Context {S A C K : Type}.
Context `{StreamPair S} `{AeadPair A} `{CbcPair C} `{MacLaws K}.
Context `{Hashes} `{CryptoString} {B : Type} `{Builder B} {X : Type}.
Abbreviation cn := (Conn S A C K).
Abbreviation M := (@M S A C K).
(** The sender, and the reader: each with its configuration. *)
Context (off_s off_r : bool) (rand_s rand_r : nat -> nat -> option bytes) (Hrand : forall k, rand_ok (rand_s k)).
Context (suite_aead : aead_fn -> bytes -> bytes -> outcome conn_error A).
Context (isClient : bool) (cipherSuite : Z) (resumptionSecret : option bytes) (Renegotiation : Z).
Context (config : hsConfig X) (info : connInfo X).
Context (ClientSessionCache_Put : option (bytes -> SessionState.t X -> M unit)) (cacheKey : bytes).
Context (clientHandshake handshakeFn_s handshakeFn_r : M unit).
Abbreviation Read := (Read (B:=B) off_r rand_r suite_aead isClient cipherSuite resumptionSecret Renegotiation
  config info ClientSessionCache_Put cacheKey clientHandshake handshakeFn_r).
Abbreviation Write := (Write off_s rand_s (handshakeContext handshakeFn_s)).

(** C20: a TLS 1.3 connection is a byte stream.  When an application has written
    buffers of any sizes without error, and the network gives these bytes to
    the other end in chunks of any sizes, then the application there that
    reads into non-empty buffers of any sizes gets no error as long as there
    are data: every [Read] returns at least a byte and no more than its buffer
    holds, what they return together is a prefix of what was written, in
    order, and it is all of it as soon as there are enough reads. *)
Theorem stream_delivered ws ns chunks (s s' r : cn) :
  sending s (cin r) -> receiving r -> Forall (Forall is_byte) ws -> Forall (lt 0) ns ->
  write_all Write ws s = (Ret tt, s') ->
  emitted s' = emitted s ++ concat chunks -> net_in r = (fun b => (b, None)) <$> chunks ->
  exists k got r', read_all Read (take k ns) r = (Ret got, r') /\
    concat got `prefix_of` concat ws /\
    Forall2 (fun n b => 0 < length b <= n)%nat (take k ns) got /\
    ((length ns <= k)%nat \/ concat got = concat ws).
Proof.
  intros Hs Hr Hws Hns Hw He Hn.
  destruct (write_all_spec off_s rand_s Hrand (handshakeContext handshakeFn_s) ws s (cin r) s'
    (handshake_done handshakeFn_s) Hs Hws Hw) as (frags & recs & He' & <- & Hc & _).
  rewrite He' in He. apply app_inv_head in He.
  pose proof (incoming_start s r chunks frags recs Hs Hr Hc Hn He) as Hin.
  rewrite <- (app_nil_l (concat frags)), <- (rcv_input r Hr).
  by eapply read_all_spec.
Qed.
End end_to_end.

(** ** Witness *)

#[local] Existing Instance low_hashes.

Definition w_aead (f : aead_fn) (key iv : bytes) : outcome conn_error (xorNonceAEAD.t ForTLS13.t) :=
  match f with fnAESGCMTLS13 => aeadAESGCMTLS13 key iv | _ => Err (EText "not this AEAD") end.
Definition w_writes : list bytes := [w_data; [1; 2; 3]].
Definition w_no_handshake {S A C K} : @M S A C K unit := fail (EText "not again").
Abbreviation w_write_run := (write_all (Write false (fun _ => w_rand) (handshakeContext w_no_handshake)) w_writes (w_Conn [])).
(** The network cuts the bytes behind the 100th and the 1260th. *)
Definition w_cut (out : bytes) : list bytes := [take 100 out; take 1160 (drop 100 out); drop 1160 (drop 100 out)].
Definition w_chunks : list bytes := w_cut (net_out (snd w_write_run)).
Definition w_sizes : list nat := [1000; 500; 500; 500]%nat.
Abbreviation w_read := (Read (B:=plain_builder) false (fun _ => w_rand) w_aead false TLS_AES_128_GCM_SHA256 None 0
  (mkHsConfig true None 0 None None [] 0) (mkConnInfo (X:=bytes) [] [] [] false [] [] None None [] 0) None []
  w_no_handshake w_no_handshake).
Abbreviation w_reader := (w_Conn ((fun b => (b, None)) <$> w_chunks)).

Lemma w_write_ok : fst w_write_run = Ret tt.
Proof. vm_compute. reflexivity. Qed.

Lemma w_cut_all out : concat (w_cut out) = out.
Proof. unfold w_cut. cbn [concat]. by rewrite app_nil_r, !take_drop. Qed.

Lemma w_sending : sending (w_Conn []) (cin w_reader).
Proof.
  split; [|by split|done..].
  constructor; [apply w_pair|left; discriminate|right; reflexivity|apply Z.le_refl].
Qed.

Lemma w_sendBuf : sendBuf (snd w_write_run) = [].
Proof. vm_compute. reflexivity. Qed.

Lemma stream_delivered_witness : exists k got r',
  read_all w_read (take k w_sizes) w_reader = (Ret got, r') /\ concat got `prefix_of` concat w_writes /\
  ((length w_sizes <= k)%nat \/ concat got = concat w_writes).
Proof.
  assert (Hws : Forall (Forall is_byte) w_writes).
  { constructor; [apply Forall_replicate; w_byte|compute_decide]. }
  assert (Hns : Forall (lt 0) w_sizes) by compute_decide.
  assert (Hw : w_write_run = (Ret tt, snd w_write_run)) by (rewrite <- w_write_ok; apply surjective_pairing).
  assert (He : emitted (snd w_write_run) = emitted (w_Conn []) ++ concat w_chunks).
  { unfold emitted at 1. rewrite w_sendBuf, app_nil_r. symmetry. apply w_cut_all. }
  destruct (stream_delivered (B:=plain_builder) false false (fun _ => w_rand) (fun _ => w_rand) (fun _ => w_rand_ok) w_aead
    false TLS_AES_128_GCM_SHA256 None 0 (mkHsConfig true None 0 None None [] 0)
    (mkConnInfo (X:=bytes) [] [] [] false [] [] None None [] 0) None [] w_no_handshake w_no_handshake w_no_handshake
    w_writes w_sizes w_chunks (w_Conn []) _ w_reader w_sending ltac:(by split) Hws Hns Hw He eq_refl)
    as (k & got & r' & E & Hp & _ & Hk).
  exists k, got, r'. split; [exact E|]. split; [exact Hp|exact Hk].
Defined.
