(* ===== verification/RealitySilent.v ===== *)
(** * A handshake that fails sends nothing

    From [c.buffering = true] on, everything up to the final [flush] goes to
    the buffer, the alerts too, and the server closes the transport without
    flushing it. *)

From S2P Require Import Prelude Common HalfConn Cryptobyte Hello Messages Gcm CipherSuites Kdf Conn.
From S2P Require Import Negotiation Auth Ticket RealityHandshake.

Open Scope go_scope.

Create HintDb silent.

Section silent.
Context {S A C K : Type} `{Stream S} `{RecordAEAD A} `{CbcMode C} `{MacFun K}.
Abbreviation cn := (Conn S A C K).
Abbreviation M := (@M S A C K).
Context (dyn_off : bool) (rand : nat -> nat -> option bytes).

(** Nothing has gone to the network, and nothing will before a flush. *)
Definition kept (c c' : cn) : Prop :=
  buffering c' = true /\ net_out c' = net_out c /\ net_w c' = net_w c.

Definition silent {R} (m : M R) : Prop := forall c, buffering c = true -> kept c (snd (m c)).

Lemma kept_trans c1 c2 c3 : kept c1 c2 -> kept c2 c3 -> kept c1 c3.
Proof. intros (? & ? & ?) (? & ? & ?). unfold kept. split_and!; congruence. Qed.

Lemma silent_ret {R} (r : R) : silent (ret r).
Proof. by intros c Hb. Qed.
Lemma silent_fail {R} e : silent (R:=R) (fail e).
Proof. by intros c Hb. Qed.
Lemma silent_panic {R} w : silent (R:=R) (panic w).
Proof. by intros c Hb. Qed.
Lemma silent_get {R} (f : cn -> R) : silent (get f).
Proof. by intros c Hb. Qed.
Lemma silent_lift {R} o : silent (lift (R:=R) o).
Proof. by intros c Hb. Qed.
Lemma silent_raise e : silent (raise e).
Proof. by destruct e. Qed.
Lemma silent_read_rand n : silent (read_rand rand n).
Proof. by intros c Hb. Qed.

Lemma silent_modify f : (forall c : cn, buffering c = true -> kept c (f c)) -> silent (modify f).
Proof. intros Hf c Hb. by apply Hf. Qed.

Lemma silent_bind {R Q} (m : M R) (k : R -> M Q) : silent m -> (forall x, silent (k x)) -> silent (bind m k).
Proof.
  intros Hm Hk c Hb. unfold bind. pose proof (Hm c Hb) as Hkp. destruct (m c) as [[x|e|w] c1]; [|done..].
  apply (kept_trans c c1); [done|]. apply Hk, Hkp.
Qed.

Lemma silent_try {R} (m : M R) : silent m -> silent (try_ m).
Proof. intros Hm c Hb. pose proof (Hm c Hb) as Hkp. unfold try_. by destruct (m c) as [[x|e|w] c1]. Qed.

Lemma silent_on_out {R} (f : halfConn S A C K -> outcome conn_error R * halfConn S A C K) : silent (on_out f).
Proof. intros c Hb. unfold on_out. by destruct (f (cout c)). Qed.

Lemma silent_set_out_err e : silent (set_out_err e).
Proof. by intros c Hb. Qed.
End silent.

#[export] Hint Resolve silent_ret silent_fail silent_panic silent_get silent_lift silent_raise silent_read_rand
  silent_on_out silent_set_out_err silent_try : silent.

(** Go through a method by its syntax. *)
Ltac silence :=
  repeat lazymatch goal with
  | |- forall _, _ => intro
  | |- silent (bind _ _) => apply silent_bind
  | |- silent (match ?x with _ => _ end) => destruct x
  end; eauto with silent.

Section writing.
Context {S A C K : Type} `{Stream S} `{RecordAEAD A} `{CbcMode C} `{MacFun K}.
Abbreviation cn := (Conn S A C K).
Abbreviation M := (@M S A C K).
Context (dyn_off : bool) (rand : nat -> nat -> option bytes).

Lemma silent_write data : silent (write data : M _).
Proof. intros c Hb. unfold write, bind, get. by rewrite Hb. Qed.

Lemma silent_maxPayload typ : silent (maxPayloadSizeForWrite dyn_off typ : M _).
Proof.
  intros c Hb. unfold maxPayloadSizeForWrite. destruct (_ || _); [done|]. destruct (_ <=? _); [done|].
  destruct (cipher_payload _ _); [|done..]. by destruct (1000 <? _).
Qed.

Lemma silent_encrypt_record hdr payload : silent (encrypt_record rand hdr payload).
Proof. intros c Hb. unfold encrypt_record, on_out. by destruct (encrypt _ _ _ _). Qed.

Lemma silent_writeRecords_fuel stuck fuel typ data n : silent stuck ->
  silent (writeRecords_fuel dyn_off rand stuck fuel typ data n).
Proof.
  intros Hs. revert data n. induction fuel as [|fuel IH]; intros data n; cbn [writeRecords_fuel]; [silence|].
  destruct (length data =? 0)%nat; [silence|]. apply silent_bind; [apply silent_maxPayload|intros k].
  destruct (_ <? 0); [silence|]. apply silent_bind; [silence|intros v]. set (hdr := record_header _ _ _).
  intros c Hb. pose proof (silent_encrypt_record hdr (take (Z.to_nat (if k <? Z.of_nat (length data) then k else Z.of_nat (length data))) data) c Hb) as He.
  destruct (encrypt_record _ _ _ _) as [[out|e|w] c1]; [|done..]. apply (kept_trans c c1); [done|].
  apply silent_bind; [apply silent_write| |apply He]. intros [? [e|]]; [silence|]. apply IH.
Qed.

Lemma silent_writeRecords typ data : silent (writeRecords dyn_off rand typ data).
Proof. apply silent_writeRecords_fuel. apply silent_panic. Qed.

Lemma silent_sendAlertLocked a : silent (sendAlertLocked dyn_off rand a).
Proof. unfold sendAlertLocked. apply silent_bind; [apply silent_writeRecords|]. silence. Qed.

Lemma silent_sendAlert a : silent (sendAlert dyn_off rand a).
Proof. apply silent_sendAlertLocked. Qed.

Lemma silent_writeRecordLocked typ data : silent (writeRecordLocked dyn_off rand typ data).
Proof.
  unfold writeRecordLocked. apply silent_bind; [apply silent_writeRecords|]. intros [n [e|]]; [silence|].
  apply silent_bind; [silence|]. intros v. destruct (_ && _); [|silence].
  apply silent_bind; [silence|]. intros [[]|]; silence. apply silent_sendAlertLocked.
Qed.

Lemma silent_modify_out f : silent (modify (fun c : cn => with_cout (f c) c) : M _).
Proof. by intros c Hb. Qed.
Lemma silent_modify_in f : silent (modify (fun c : cn => with_cin (f c) c) : M _).
Proof. by intros c Hb. Qed.
Lemma silent_modify_handshakeBuf b : silent (modify (fun c : cn => with_handshakeBuf b c) : M _).
Proof. by intros c Hb. Qed.

Lemma silent_batch data : silent (batch_handshake data : M _).
Proof.
  unfold batch_handshake. apply silent_bind; [silence|]. intros [buf|]; [|silence]. destruct data as [|first data]; [silence|].
  destruct (negb _); [|silence]. destruct (negb _); (apply silent_bind; [apply silent_modify_handshakeBuf|silence]).
Qed.

Lemma silent_writeHandshakeRecord m : silent (writeHandshakeRecord dyn_off rand m).
Proof.
  unfold writeHandshakeRecord. destruct m as [data| |]; [|silence..].
  apply silent_bind; [apply silent_batch|]. intros [d|]; [apply silent_writeRecordLocked|silence].
Qed.

Lemma silent_writeRecord typ data : silent (writeRecord dyn_off rand typ data).
Proof.
  unfold writeRecord. destruct (_ =? _); [|apply silent_writeRecordLocked].
  apply silent_bind; [apply silent_batch|]. intros [d|]; [apply silent_writeRecordLocked|silence].
Qed.

Lemma silent_writeChangeCipherRecord : silent (writeChangeCipherRecord dyn_off rand).
Proof. unfold writeChangeCipherRecord. apply silent_bind; [apply silent_writeRecordLocked|]. silence. Qed.
End writing.

#[export] Hint Resolve silent_write silent_sendAlert silent_writeRecord silent_writeHandshakeRecord
  silent_writeChangeCipherRecord silent_modify_out silent_modify_in : silent.

Section handshake.
Context {S A C K : Type} `{Stream S} `{RecordAEAD A} `{CbcMode C} `{MacFun K}.
Context `{Hashes} `{KeyExchange} `{CryptoString} {B : Type} `{Builder B} {X : Type} `{X509 X}.
Abbreviation cn := (Conn S A C K).
Abbreviation M := (@M S A C K).
Context (dyn_off : bool) (rand : nat -> nat -> option bytes).
Context (suite_aead : aead_fn -> bytes -> bytes -> outcome conn_error A).
Context (ed25519Priv signedCert : bytes).
Context (ed25519_Sign : bytes -> bytes -> outcome conn_error bytes).
Context (aes_ctr : bytes -> bytes -> bytes -> bytes).
Context (fips : bool).
Context (config : hsConfig X) (info : connInfo X).

Lemma silent_or_alert {R} a (m : M R) : silent m -> silent (or_alert dyn_off rand a m).
Proof.
  intros Hm c Hb. unfold or_alert. pose proof (Hm c Hb) as Hkp. destruct (m c) as [[x|e|w] c1]; [done| |done].
  apply (kept_trans c c1); [done|].
  apply (silent_bind (sendAlert dyn_off rand a) (fun _ => fail (R:=R) e)); [apply silent_sendAlert|silence|apply Hkp].
Qed.

Lemma silent_send msg d : silent (send (B:=B) dyn_off rand msg d).
Proof. unfold send. silence. Qed.

Lemma silent_writeKeyLog label random secret : silent (writeKeyLog dyn_off rand config label random secret).
Proof. unfold writeKeyLog. silence. Qed.

Lemma silent_set_out_secret s lvl secret : silent (set_out_secret (S:=S) (C:=C) (K:=K) suite_aead s lvl secret).
Proof. unfold set_out_secret. silence. Qed.
Lemma silent_set_in_secret s lvl secret : silent (set_in_secret (S:=S) (C:=C) (K:=K) suite_aead s lvl secret).
Proof. unfold set_in_secret. silence. Qed.
#[local] Hint Resolve silent_or_alert silent_send silent_writeKeyLog silent_set_out_secret silent_set_in_secret : silent.

Lemma silent_sendServerParameters hs : silent (sendServerParameters (B:=B) dyn_off rand suite_aead config info hs).
Proof. unfold sendServerParameters, sendDummyChangeCipherSpec. silence. Qed.

Lemma silent_sign_transcript hs : silent (sign_transcript (S:=S) dyn_off rand ed25519Priv ed25519_Sign hs).
Proof. unfold sign_transcript. silence. Qed.
#[local] Hint Resolve silent_sign_transcript : silent.

Lemma silent_sendServerCertificate hs :
  silent (sendServerCertificate (B:=B) dyn_off rand ed25519Priv ed25519_Sign fips config hs).
Proof. unfold sendServerCertificate. silence. Qed.

Lemma silent_ticket_label st : silent (ticket_label (S:=S) (B:=B) dyn_off rand aes_ctr config info st).
Proof. unfold ticket_label. silence. Qed.
#[local] Hint Resolve silent_ticket_label : silent.

Lemma silent_sendSessionTickets hs : silent (sendSessionTickets (S:=S) (B:=B) dyn_off rand aes_ctr config info hs).
Proof. unfold sendSessionTickets, sendSessionTicket. silence. Qed.
#[local] Hint Resolve silent_sendSessionTickets : silent.

Lemma silent_sendServerFinished hs : silent (sendServerFinished (B:=B) dyn_off rand suite_aead aes_ctr config info hs).
Proof. unfold sendServerFinished. silence. Qed.

Lemma silent_start ch sh : silent (start (S:=S) (A:=A) (C:=C) (K:=K) rand ch sh).
Proof. unfold start. silence. Qed.

(** [handshake] is a silent part and the flush. *)
Definition send_flight (hs : hstate) : M hstate :=
  do! hs := sendServerParameters (B:=B) dyn_off rand suite_aead config info hs in
  do! hs := sendServerCertificate (B:=B) dyn_off rand ed25519Priv ed25519_Sign fips config hs in
  do! hs := sendServerFinished (B:=B) dyn_off rand suite_aead aes_ctr config info hs in
  do! c := get (fun c => c) in
  do! _ := (if negb (nth_len (handshakeLen (cout c)) 6 =? 0)
            then do! (_, err) := writeRecord dyn_off rand recordTypeHandshake [typeNewSessionTicket] in raise err
            else ret tt) in
  ret hs.

Lemma silent_send_flight hs : silent (send_flight hs).
Proof.
  apply silent_bind; [apply silent_sendServerParameters|intros ?].
  apply silent_bind; [apply silent_sendServerCertificate|intros ?].
  apply silent_bind; [apply silent_sendServerFinished|]. silence.
Qed.

Definition before_flush (ch : clientHelloMsg.t) (sh : serverHelloMsg.t) : M hstate :=
  do! hs := start rand ch sh in
  do! certificate := lift (reality_cert signedCert ed25519Priv (AuthKey info)) in
  do! _ := modify (with_buffering true) in
  send_flight (set_cert certificate Ed25519 hs).
Definition flush_all (hs : hstate) : M hstate := do! (_, err) := flush in do! _ := raise err in ret hs.

Lemma bind_bind {R Q T} (m : M R) (k : R -> M Q) (l : Q -> M T) c : bind (bind m k) l c = bind m (fun x => bind (k x) l) c.
Proof. unfold bind. by destruct (m c) as [[x|e|w] c1]. Qed.

Lemma bind_ext {R Q} (m : M R) (k l : R -> M Q) c : (forall x c, k x c = l x c) -> bind m k c = bind m l c.
Proof. intros Hk. unfold bind. by destruct (m c) as [[x|e|w] c1]. Qed.

Lemma handshake_split ch sh c :
  handshake (B:=B) dyn_off rand suite_aead ed25519Priv signedCert ed25519_Sign aes_ctr fips config info ch sh c =
  bind (before_flush ch sh) flush_all c.
Proof.
  unfold handshake, before_flush, send_flight. repeat (rewrite bind_bind; apply bind_ext; intros). reflexivity.
Qed.

Lemma start_kept ch sh c : let '(r, c') := start (S:=S) (A:=A) (C:=C) (K:=K) rand ch sh c in
  net_out c' = net_out c /\ net_w c' = net_w c.
Proof.
  unfold start. destruct (cipherSuiteTLS13ByID _); [|done]. unfold read_rand, lift, ret, bind. cbv beta iota zeta.
  destruct (key_exchange _ _ _) as [[shared data]| |]; done.
Qed.

Lemma before_flush_kept ch sh c : let '(r, c') := before_flush ch sh c in
  net_out c' = net_out c /\ net_w c' = net_w c.
Proof.
  unfold before_flush. pose proof (start_kept ch sh c) as Hst. unfold bind at 1.
  destruct (start _ _ _ c) as [[hs|e|w] c1]; [|done..]. unfold bind at 1, lift at 1.
  destruct (reality_cert _ _ _) as [cert|e|w]; [|done..]. unfold bind at 1, modify at 1.
  cbv beta iota zeta.
  pose proof (silent_send_flight (set_cert cert Ed25519 hs) (with_buffering true c1) eq_refl) as (_ & Hn & Hw).
  destruct (send_flight _ _) as [r c']. cbn in Hn, Hw. split; [by rewrite Hn; apply Hst|by rewrite Hw; apply Hst].
Qed.

(** C9: the handshake with an authenticated client is all or nothing: until
    the final flush nothing goes to the network, whatever the messages, the
    lengths, the key log and the randomness do; if it fails, by an error or a
    panic and with the transport accepting writes, the client has received not
    a byte of the server's, no alert either. *)
Theorem handshake_silent ch sh c : (forall n e w, net_w c <> WriteFails n e :: w) ->
  match handshake (B:=B) dyn_off rand suite_aead ed25519Priv signedCert ed25519_Sign aes_ctr fips config info ch sh c with
  | (Ret _, c') => exists sent, net_out c' = net_out c ++ sent
  | (_, c') => net_out c' = net_out c
  end.
Proof.
  intros Hw. rewrite handshake_split. pose proof (before_flush_kept ch sh c) as Hk. unfold bind.
  destruct (before_flush ch sh c) as [[hs|e|w] c1]; [|by apply Hk..]. destruct Hk as [Hn Hnw].
  unfold flush_all, flush, bind, get, modify, ret, conn_Write, raise. rewrite <- Hn.
  destruct (length (sendBuf c1) =? 0)%nat; [by exists []; rewrite app_nil_r|].
  destruct (net_w c1) as [|[n e|] w'] eqn:E.
  - by exists (sendBuf c1).
  - by destruct (Hw n e w').
  - by exists (sendBuf c1).
Qed.
End handshake.
