(* ===== verification/RealityFlight.v ===== *)
(** * The flight of the REALITY server

    What [handshake] sends when it succeeds: the records, their lengths, and
    what the client reads in them with the keys of the key schedule. *)

From S2P Require Import Prelude Common HalfConn HalfConnProofs RecordProofs ConnProofs Cryptobyte Hello Messages WireProofs.
From S2P Require Import Gcm CipherSuites Kdf KdfProofs Conn Reality RealityScan.
From S2P Require Import Negotiation Auth Ticket RealityHandshake RealitySilent.

Open Scope go_scope.

Section records.
Context {S A C K : Type}.
Context `{StreamPair S} `{AeadPair A} `{CbcPair C} `{MacLaws K}.
Abbreviation hconn := (halfConn S A C K).

(** A padded handshake record has the recorded length, which is then reset. *)
Lemma encrypt_padded rnd v1 v2 payload first i (e d : hconn) rec e' :
  rand_ok rnd -> hc_pair e d -> version e = VersionTLS13 -> bytes_ok payload -> is_byte v1 -> is_byte v2 ->
  nth_len (handshakeLen e) 1 <> 0 -> head payload = Some first -> padded_index first = Some i ->
  nth_len (handshakeLen e) i <= empty_size ->
  encrypt rnd (header recordTypeHandshake v1 v2 payload) payload e = (Ret rec, e') ->
  Z.of_nat (length rec) = nth_len (handshakeLen e) i /\ Z.of_nat (length payload) < nth_len (handshakeLen e) i /\
  handshakeLen e' = <[i := 0]> (handshakeLen e) /\
  version e' = version e /\ trafficSecret e' = trafficSecret e.
Proof.
  intros Hr (Hv & Hs & Hsq & Hp) H13 Hok Hv1 Hv2 Hl1 Hf Hi Hsz He.
  unfold cipher_pair in Hp. unfold encrypt in He.
  destruct (hc_cipher e) as [[s|a|c]|] eqn:Ha; [| | |done];
    (destruct (hc_cipher d) as [[?|a'|?]|] eqn:Hd; try done); [by destruct Hp as (_ & ? & _)| |by destruct Hp as (_ & ? & _)].
  destruct Hp as (Hp & Hx & _).
  destruct (explicit_nonce rnd e) as [nonce| |] eqn:Hn; [|done..].
  destruct (explicit_nonce_length rnd e nonce Hr Hsq Hn) as [Hnl _].
  unfold explicitNonceLen in Hnl. rewrite Ha, (Hx H13) in Hnl. apply length_zero_iff_nil in Hnl as ->.
  rewrite app_nil_r in He. unfold seal_aead in He. rewrite H13, Z.eqb_refl in He.
  change (length (@nil Z) =? 0)%nat with true in He. cbv iota in He.
  change (nth_byte (header recordTypeHandshake v1 v2 payload) 0) with recordTypeHandshake in He.
  set (rec0 := (header recordTypeHandshake v1 v2 payload ++ payload) ++ [recordTypeHandshake]) in He.
  assert (Hty : nth_byte rec0 0 = recordTypeHandshake) by done.
  pose proof (pad_record_exact (ra_Overhead a) (handshakeLen e) rec0 payload first i Hty Hl1 Hf Hi Hsz) as Hpad.
  destruct (pad_record _ _ rec0 payload) as [[out| |] lens'] eqn:Eo; [|done..]. destruct Hpad as [Hlen ->].
  assert (Hook : bytes_ok out).
  { apply pad_record_ok in Eo; [done|].
    apply Forall_app. split; [|by repeat constructor; unfold is_byte].
    apply Forall_app. split; [|done]. by apply RecordProofs.header_ok. }
  assert (Hol : (5 + length payload < length out)%nat).
  { apply pad_record_length in Eo. unfold rec0 in Eo. rewrite !length_app in Eo. simpl in Eo. lia. }
  set (rec1 := set_length _ _) in He.
  assert (Hl' : length rec1 = length out) by (unfold rec1, set_length; by rewrite !length_insert).
  assert (Hok1 : bytes_ok rec1).
  { unfold rec1, set_length. apply Forall_insert; [|apply Z.mod_pos_bound; lia].
    apply Forall_insert; [|apply Z.mod_pos_bound; lia]. by apply Forall_insert. }
  change (seq (set_handshakeLen _ e)) with (seq e) in He.
  destruct (ra_Seal a (seq e) (drop 5 rec1) (take 5 rec1)) as [[ct| |] a1] eqn:Hseal; [|done..].
  destruct Hsq as [Hsok Hs8].
  destruct (aead_inv a a' _ _ _ _ _ Hs8 Hsok ltac:(by apply Forall_drop) ltac:(by apply Forall_take) Hp Hseal)
    as [Hct _]. rewrite length_drop in Hct.
  match type of He with context [incSeq ?h] => pose proof (incSeq_len h) as Hil;
    assert (Hiv : version (snd (incSeq h)) = version h /\ trafficSecret (snd (incSeq h)) = trafficSecret h);
      [unfold incSeq; by destruct (incSeq_loop 8 (seq h))|];
    destruct (incSeq h) as [[u| |] e2]; [|done..] end.
  apply pair_equal_spec in He as [Hrec ->]. apply Ret_inj in Hrec as <-. cbn [snd] in Hil, Hiv.
  split; [unfold set_length; rewrite !length_insert, length_app, length_take; lia|].
  split; [lia|]. split; [by rewrite Hil|by destruct Hiv as [-> ->]].
Qed.

Abbreviation cn := (Conn S A C K).
Context (dyn_off : bool) (rand : nat -> nat -> option bytes) (Hrand : forall k, rand_ok (rand k)).

(** The connection after a record has gone to the buffer. *)
Definition sent_record (rec : bytes) (h : hconn) (c : cn) : cn :=
  with_sendBuf (sendBuf c ++ rec) (with_cout h (with_rand_calls (rand_calls c + 1) c)).

(** A connection that writes padded records for the reader [d]. *)
Record padding (c : cn) (d : hconn) : Prop := {
  pd_buffering : buffering c = true;
  pd_vers : vers c = VersionTLS13;
  pd_version : version (cout c) = VersionTLS13;
  pd_pair : hc_pair (cout c) d;
  pd_len1 : nth_len (handshakeLen (cout c)) 1 <> 0;
  pd_sizes i : nth_len (handshakeLen (cout c)) i <= empty_size
}.

Lemma nth_len_reset l i j : nth_len (<[i := 0]> l) j = if decide (i = j) then 0 else nth_len l j.
Proof.
  unfold nth_len. rewrite !nth_lookup. destruct (decide (i = j)) as [->|Hne]; [|by rewrite list_lookup_insert_ne].
  destruct (decide (j < length l)%nat) as [Hl|Hl].
  - by rewrite list_lookup_insert_eq.
  - rewrite lookup_ge_None_2; [done|]. rewrite length_insert. lia.
Qed.

Lemma padding_sent c d rec h d' i : padding c d -> hc_pair h d' -> version h = version (cout c) ->
  handshakeLen h = <[i := 0]> (handshakeLen (cout c)) -> i <> 1%nat -> padding (sent_record rec h c) d'.
Proof.
  intros [Hb Hv Hve Hp H1' Hs] Hp' Hv' Hl Hi. constructor; cbn; try done; [congruence|..].
  - rewrite Hl, nth_len_reset. by destruct (decide _).
  - intros j. rewrite Hl, nth_len_reset. destruct (decide _); [unfold empty_size; lia|done].
Qed.

Lemma write_buffered rec (c : cn) : buffering c = true ->
  write rec c = (Ret (Z.of_nat (length rec), None), with_sendBuf (sendBuf c ++ rec) c).
Proof. intros Hb. unfold write, bind, get. by rewrite Hb. Qed.

(** One record for a message that is padded. *)
Lemma writeRecordLocked_padded data first i (c : cn) (d : hconn) n c' :
  padding c d -> bytes_ok data -> head data = Some first -> padded_index first = Some i ->
  writeRecordLocked dyn_off rand recordTypeHandshake data c = (Ret (n, None), c') ->
  exists rec h, c' = sent_record rec h c /\ Z.of_nat (length rec) = nth_len (handshakeLen (cout c)) i /\
    handshakeLen h = <[i := 0]> (handshakeLen (cout c)) /\ version h = VersionTLS13 /\
    trafficSecret h = trafficSecret (cout c) /\ framed 3 3 rec /\
    (first <> typeNewSessionTicket -> exists d', decrypt rec d = (Ret (data, recordTypeHandshake), d') /\ hc_pair h d') /\
    (data = [typeNewSessionTicket] -> exists d', decrypt rec d = (Ret ([], recordTypeApplicationData), d') /\ hc_pair h d').
Proof.
  intros [Hb Hv Hve Hp Hl1 Hsz] Hok Hf Hi Hw. unfold writeRecordLocked in Hw.
  apply bind_Ret in Hw as ([k err] & c1 & Hw & Hk). destruct err as [e|]; [done|].
  apply bind_Ret in Hk as (v & c2 & [= <- <-] & Hk).
  change (recordTypeHandshake =? recordTypeChangeCipherSpec) with false in Hk. cbn [andb] in Hk. injection Hk as <- <-.
  unfold writeRecords in Hw. destruct data as [|x data]; [done|]. cbn [length] in Hw. cbn [writeRecords_fuel] in Hw.
  apply bind_Ret in Hw as (m & c2 & Hm & Hw). unfold maxPayloadSizeForWrite in Hm.
  change (negb (recordTypeHandshake =? recordTypeApplicationData)) with true in Hm.
  rewrite orb_true_r in Hm. injection Hm as <- <-. cbv zeta in Hw. set (l := x :: data) in *.
  set (q := if maxPlaintext <? _ then _ else _) in Hw.
  assert (Hq : 0 < q <= maxPlaintext /\ q <= Z.of_nat (length l)).
  { unfold q, maxPlaintext. cbn [length l]. destruct (Z.ltb_spec 16384 (Z.of_nat (Datatypes.S (length data)))); lia. }
  rewrite (proj2 (Z.ltb_ge q 0)) in Hw by lia. apply bind_Ret in Hw as (v & c2 & [= <- <-] & Hw).
  set (p := take (Z.to_nat q) l) in *. assert (Hpl : length p = Z.to_nat q) by (unfold p; rewrite length_take; lia).
  assert (Hpok : bytes_ok p) by by apply Forall_take.
  assert (Hpf : head p = Some first) by (unfold p; destruct (Z.to_nat q) eqn:E; [lia|done]).
  set (w := record_version (vers c)) in Hw.
  assert (Hh : record_header recordTypeHandshake w q = header recordTypeHandshake (u8 (w ≫ 8)) (u8 w) p).
  { unfold record_header, header. by rewrite Hpl, Z2Nat.id by lia. }
  unfold encrypt_record, on_out in Hw. rewrite Hh in Hw. cbn [cout with_rand_calls] in Hw.
  destruct (encrypt _ _ _ (cout c)) as [[rec|e|z] h] eqn:He; cbn [fst snd] in Hw; [|done..].
  assert (Hwb : is_byte (u8 (w ≫ 8)) /\ is_byte (u8 w)) by (split; apply Z.mod_pos_bound; lia).
  destruct (encrypt_padded _ _ _ p first i (cout c) d rec h (Hrand _) Hp Hve Hpok (proj1 Hwb) (proj2 Hwb) Hl1 Hpf Hi (Hsz i) He)
    as (Q1 & Q2 & Q3 & Q4 & Q5). pose proof (Hsz i) as Hszi. unfold empty_size in Hszi.
  assert (Hql : q = Z.of_nat (length l)).
  { unfold q in *. destruct (Z.ltb_spec maxPlaintext (Z.of_nat (length l))); [|done]. unfold maxPlaintext in *. lia. }
  assert (Hpp : p = l) by (unfold p; rewrite take_ge by lia; done).
  assert (Hfr : framed 3 3 rec).
  { destruct (encrypt_frame _ recordTypeHandshake _ _ _ (cout c) d rec h (Hrand _) Hp Hpok ltac:(done) (proj1 Hwb) (proj2 Hwb) Hve He)
      as (Hhd & a & r & lens' & _ & Hlr & Hpad).
    apply pad_record_length in Hpad. rewrite !length_app in Hpad. cbn [length] in Hpad.
    change (length (header _ _ _ _)) with 5%nat in Hpad.
    unfold framed. split; [unfold maxCiphertextTLS13, recordHeaderLen, maxPlaintext; lia|]. rewrite Hhd. unfold w. by rewrite Hv. }
  unfold bind at 1 in Hw. rewrite write_buffered in Hw by done.
  rewrite drop_ge in Hw by (rewrite Hql; cbn [length l]; lia). destruct (length data); cbn in Hw; injection Hw as _ <-.
  all: exists rec, h; split; [done|]; split; [done|]; split; [done|]; split; [congruence|]; split; [done|]; split; [done|].
  all: rewrite <- Hpp; assert (Hfit : record_fits (cout c) rec) by
    (intros a _ _; unfold maxPlaintext; lia).
  all: destruct (encrypt_decrypt _ recordTypeHandshake _ _ p (cout c) d rec h (Hrand _) Hp Hpok ltac:(unfold maxPlaintext in *; lia)
    ltac:(done) ltac:(done) (proj1 Hwb) (proj2 Hwb) He Hfit) as (R1 & R2 & _).
  all: split; [intros Hn; apply R1; right; intros (_ & _ & Q); congruence|intros Hn; apply R2; [done| |congruence]].
  all: split_and!; [done|done|by rewrite Hn].
Qed.

(** ** The four encrypted messages *)

Lemma reader_after_app d recs1 recs2 : reader_after d (recs1 ++ recs2) = reader_after (reader_after d recs1) recs2.
Proof. apply fold_left_app. Qed.

Definition handshake_records (msgs : list bytes) : list (outcome conn_error (bytes * Z)) :=
  (fun m => Ret (m, recordTypeHandshake)) <$> msgs.

(** The flight under way: after [msgs], from the connection [c0] with the
    handshake keys, for the reader [d0]. *)
Record flying (c0 : cn) (d0 : hconn) (msgs : list bytes) (c : cn) : Prop := {
  fl_secret : trafficSecret (cout c) = trafficSecret (cout c0);
  fl_lens j : (2 + length msgs <= j)%nat -> nth_len (handshakeLen (cout c)) j = nth_len (handshakeLen (cout c0)) j;
  fl_mode : match handshakeBuf c0 with
    | None => handshakeBuf c = None /\ exists recs, padding c (reader_after d0 recs) /\
        sendBuf c = sendBuf c0 ++ concat recs /\ receive_all d0 recs = handshake_records msgs /\
        lens_of recs = nth_len (handshakeLen (cout c0)) <$> List.seq 2 (length msgs) /\ Forall (framed 3 3) recs
    | Some b => handshakeBuf c = Some (b ++ concat msgs) /\ padding c d0 /\ sendBuf c = sendBuf c0 /\
        handshakeLen (cout c) = handshakeLen (cout c0) /\ bytes_ok (b ++ concat msgs)
    end
}.

Lemma flying_start c0 d0 : padding c0 d0 -> handshakeBuf c0 = None \/ handshakeBuf c0 = Some [] -> flying c0 d0 [] c0.
Proof.
  intros Hp Hb. constructor; [done|done|]. destruct Hb as [Hb|Hb]; rewrite Hb.
  - split; [done|]. exists []. rewrite app_nil_r. split_and!; done.
  - by repeat split; try done; apply Hp.
Qed.

(** What a message must be to be the next of the flight. *)
Definition next_message (msgs : list bytes) (data : bytes) (first : Z) : Prop :=
  bytes_ok data /\ head data = Some first /\ padded_index first = Some (2 + length msgs)%nat /\
  first <> typeServerHello /\ first <> typeNewSessionTicket.

Lemma padding_record c0 d0 msgs c recs data first n c' : flying c0 d0 msgs c -> handshakeBuf c0 = None ->
  padding c (reader_after d0 recs) -> receive_all d0 recs = handshake_records msgs ->
  sendBuf c = sendBuf c0 ++ concat recs -> lens_of recs = nth_len (handshakeLen (cout c0)) <$> List.seq 2 (length msgs) ->
  Forall (framed 3 3) recs -> next_message msgs data first ->
  writeRecordLocked dyn_off rand recordTypeHandshake data c = (Ret (n, None), c') -> flying c0 d0 (msgs ++ [data]) c'.
Proof.
  intros [Hsec Hlens Hm] Hb Hp Hr Hs Hl Hall (Hok & Hf & Hi & Hn1 & Hn2) Hw. rewrite Hb in Hm.
  destruct (writeRecordLocked_padded data first _ c _ n c' Hp Hok Hf Hi Hw) as (rec & h & -> & Hlen & Hlh & Hv & Hsh & Hfr & Hd & _).
  destruct (Hd Hn2) as (d' & Hdec & Hp').
  assert (Hra : reader_after d0 (recs ++ [rec]) = d') by (rewrite reader_after_app; cbn; by rewrite Hdec).
  constructor.
  - cbn. congruence.
  - intros j Hj. cbn. rewrite length_app in Hj. cbn in Hj. rewrite Hlh, nth_len_reset, decide_False by lia. apply Hlens. lia.
  - rewrite Hb. split; [by destruct Hm|]. exists (recs ++ [rec]). rewrite Hra. split_and!.
    + apply (padding_sent c (reader_after d0 recs) rec h d' (2 + length msgs)); try done; try lia. rewrite Hv. symmetry. apply Hp.
    + cbn. rewrite Hs, concat_app. cbn. by rewrite app_nil_r, app_assoc.
    + rewrite receive_all_app, Hr. cbn [receive_all]. rewrite Hdec. unfold handshake_records. by rewrite fmap_app.
    + unfold lens_of in *. rewrite length_app, seq_app, !fmap_app, Hl. cbn. rewrite Hlen, Hlens by lia. done.
    + apply Forall_app. by split; [|constructor].
Qed.

Lemma writeHandshakeRecord_Ret data first (c : cn) n c' : head data = Some first -> first <> typeServerHello ->
  writeHandshakeRecord dyn_off rand (Ret data) c = (Ret (n, None), c') ->
  match handshakeBuf c with
  | None => writeRecordLocked dyn_off rand recordTypeHandshake data c = (Ret (n, None), c')
  | Some b =>
      if first =? typeFinished
      then writeRecordLocked dyn_off rand recordTypeHandshake (b ++ data) (with_handshakeBuf None c) = (Ret (n, None), c')
      else c' = with_handshakeBuf (Some (b ++ data)) c
  end.
Proof.
  intros Hf Hn Hw. destruct data as [|x data]; [done|]. injection Hf as ->.
  apply bind_Ret in Hw as (todo & c1 & Hb & Hw). unfold batch_handshake in Hb.
  apply bind_Ret in Hb as (buf & c2 & [= <- <-] & Hb). destruct (handshakeBuf c) as [b|].
  2:{ injection Hb as <- <-. done. }
  rewrite (proj2 (Z.eqb_neq _ _) Hn) in Hb. cbn [negb] in Hb. destruct (first =? typeFinished); cbn [negb] in Hb.
  - apply bind_Ret in Hb as (u & c2 & [= _ <-] & [= <- <-]). done.
  - apply bind_Ret in Hb as (u & c2 & [= _ <-] & [= <- <-]). by injection Hw as _ <-.
Qed.

Lemma send_Ret `{Builder B} msg dg (c : cn) dg' c' : send (B:=B) dyn_off rand msg dg c = (Ret dg', c') ->
  exists data n, marshal_message B msg = Ret data /\ dg' = d_Write data dg /\
    writeHandshakeRecord dyn_off rand (Ret data) c = (Ret (n, None), c').
Proof.
  intros Hs. unfold send in Hs. destruct (marshal_message B msg) as [data|e|w] eqn:Em.
  - apply bind_Ret in Hs as ([n err] & c1 & Hw & Hs). destruct err as [e|]; [done|].
    apply bind_Ret in Hs as (u & c2 & [= _ <-] & [= <- <-]). by exists data, n.
  - by apply bind_Ret in Hs as ([n err] & c1 & [= _ <- _] & Hs).
  - by apply bind_Ret in Hs as ([n err] & c1 & Hw & Hs).
Qed.

Lemma send_flying c0 d0 msgs c data first n c' : flying c0 d0 msgs c -> next_message msgs data first ->
  first <> typeFinished -> writeHandshakeRecord dyn_off rand (Ret data) c = (Ret (n, None), c') ->
  flying c0 d0 (msgs ++ [data]) c'.
Proof.
  intros Hf Hm Hn Hw. assert (Hm' := Hm). destruct Hm' as (Hok & Hh & Hi & Hn1 & Hn2).
  apply (writeHandshakeRecord_Ret data first) in Hw; [|done..]. pose proof (fl_mode _ _ _ _ Hf) as Hmode.
  destruct (handshakeBuf c0) as [b|] eqn:Hb.
  - destruct Hmode as (Hbc & Hp & Hs & Hl & Hbok). rewrite Hbc, (proj2 (Z.eqb_neq _ _) Hn) in Hw. subst c'.
    destruct Hf as [Hsec Hlens _]. constructor; [done|cbn; by rewrite Hl|]. rewrite Hb. cbn.
    rewrite concat_app. cbn. rewrite app_nil_r, app_assoc. split; [done|]. split; [by destruct Hp|].
    split; [done|]. split; [done|]. by apply Forall_app.
  - destruct Hmode as (Hbc & recs & Hp & Hs & Hr & Hl & Hall). rewrite Hbc in Hw. by eapply padding_record.
Qed.

(** All four messages are sent. *)
Definition landed (c0 : cn) (d0 : hconn) (msgs : list bytes) (c : cn) : Prop :=
  exists recs d, padding c d /\ handshakeBuf c = None /\ sendBuf c = sendBuf c0 ++ concat recs /\
    trafficSecret (cout c) = trafficSecret (cout c0) /\
    nth_len (handshakeLen (cout c)) 6 = nth_len (handshakeLen (cout c0)) 6 /\ Forall (framed 3 3) recs /\
    match handshakeBuf c0 with
    | None => receive_all d0 recs = handshake_records msgs /\
        lens_of recs = nth_len (handshakeLen (cout c0)) <$> [2; 3; 4; 5]%nat
    | Some _ => receive_all d0 recs = handshake_records [concat msgs] /\
        lens_of recs = [nth_len (handshakeLen (cout c0)) 2]
    end.

Lemma send_finished c0 d0 msgs c data n c' : flying c0 d0 msgs c -> length msgs = 3%nat ->
  handshakeBuf c0 = None \/ handshakeBuf c0 = Some [] -> head (concat msgs) = Some typeEncryptedExtensions ->
  next_message msgs data typeFinished ->
  writeHandshakeRecord dyn_off rand (Ret data) c = (Ret (n, None), c') -> landed c0 d0 (msgs ++ [data]) c'.
Proof.
  intros Hf H3' Hbuf Hhd Hm Hw. assert (Hm' := Hm). destruct Hm' as (Hok & Hh & Hi & Hn1 & Hn2).
  apply (writeHandshakeRecord_Ret data typeFinished) in Hw; [|done..]. pose proof (fl_mode _ _ _ _ Hf) as Hmode.
  unfold landed. destruct Hbuf as [Hb|Hb]; rewrite Hb in *.
  - destruct Hmode as (Hbc & recs & Hp & Hs & Hr & Hl & Hall). rewrite Hbc in Hw.
    assert (Hf' : flying c0 d0 (msgs ++ [data]) c') by by eapply padding_record.
    destruct Hf' as [Hsec Hlens Hmode]. rewrite Hb in Hmode. destruct Hmode as (Hbc' & recs' & Hp' & Hs' & Hr' & Hl' & Hall').
    rewrite length_app, H3' in Hl', Hlens. exists recs', (reader_after d0 recs'). split_and!; try done. apply Hlens. cbn. lia.
  - destruct Hmode as (Hbc & Hp & Hs & Hl & Hbok). rewrite Hbc in Hw. cbn [app] in Hw, Hbok.
    change (typeFinished =? typeFinished) with true in Hw. cbv iota in Hw.
    assert (Hhd' : head (concat msgs ++ data) = Some typeEncryptedExtensions) by (by destruct (concat msgs)).
    eapply (writeRecordLocked_padded _ typeEncryptedExtensions 2) in Hw as (rec & h & -> & Hlen & Hlh & Hv & Hsh & Hfr & Hd & _);
      [|by destruct Hp|by apply Forall_app|done|done].
    destruct (Hd ltac:(done)) as (d' & Hdec & Hp'). exists [rec], d'.
    cbn [cout sent_record with_handshakeBuf with_sendBuf with_cout with_rand_calls handshakeBuf sendBuf concat].
    rewrite app_nil_r, concat_app. cbn [concat]. rewrite app_nil_r. cbn in Hlen, Hlh, Hsh. split_and!; try done.
    + apply (padding_sent (with_handshakeBuf None c) d0 rec h d' 2); try done; [by destruct Hp|]. cbn. rewrite Hv. symmetry. apply Hp.
    + cbn. by rewrite Hs.
    + rewrite Hsh. apply Hf.
    + rewrite Hlh, nth_len_reset, decide_False by done. by rewrite Hl.
    + by constructor.
    + cbn. by rewrite Hdec.
    + cbn. by rewrite Hlen, Hl.
Qed.
End records.
