(* ===== verification/RealityMessages.v ===== *)
(** * The messages of the REALITY flight

    The messages the server sends consist of bytes and start with their types;
    so do the hashes and the keys of the key schedule. *)

From S2P Require Import Prelude Common HalfConn Cryptobyte Hello Messages WireProofs Gcm CipherSuites Kdf KdfProofs.
From S2P Require Import Negotiation Auth Ticket RealityHandshake.

Open Scope go_scope.

Create HintDb writes.

(** ** Builders that append bytes *)

Section writes.
Context {B : Type} `{BuilderLaws B}.

Definition writes_bytes (f : B -> B) : Prop := exists r, appends f r /\ forall x, r = Some x -> bytes_ok x.

Lemma writes_id : writes_bytes (fun b => b).
Proof. exists (Some []). split; [apply appends_id|]. intros x [= <-]. constructor. Qed.

Lemma writes_then f g : writes_bytes f -> writes_bytes g -> writes_bytes (f ;> g).
Proof.
  intros (r1 & Ha1 & Ho1) (r2 & Ha2 & Ho2). exists (oapp r1 r2). split; [by apply appends_then|].
  intros x (x1 & x2 & Hx1 & Hx2 & ->)%oapp_Some. apply Forall_app. auto.
Qed.

Lemma writes_when c f : writes_bytes f -> writes_bytes (when c f).
Proof. intros Hf. unfold when. destruct c; [done|apply writes_id]. Qed.

Lemma writes_put n v f : appends f (Some (be_put n v)) -> writes_bytes f.
Proof. intros Ha. exists (Some (be_put n v)). split; [done|]. intros x [= <-]. apply be_put_ok. Qed.

Lemma writes_AddUint8 v : writes_bytes (AddUint8 v).
Proof. eapply (writes_put 1), AddUint8_spec. Qed.
Lemma writes_AddUint16 v : writes_bytes (AddUint16 v).
Proof. eapply (writes_put 2), AddUint16_spec. Qed.

Lemma writes_AddBytes v : bytes_ok v -> writes_bytes (AddBytes v).
Proof. intros Hv. exists (Some v). split; [apply AddBytes_spec|]. by intros x [= <-]. Qed.

Lemma writes_prefixed n f g : (forall r, appends f r -> appends g (prefixed n r)) -> writes_bytes f -> writes_bytes g.
Proof.
  intros Hg (r & Ha & Ho). exists (prefixed n r). split; [by apply Hg|].
  intros x (y & Hy & _ & ->)%prefixed_Some. apply Forall_app. split; [apply be_put_ok|auto].
Qed.

Lemma writes_prefixed8 f : writes_bytes f -> writes_bytes (AddUint8LengthPrefixed f).
Proof. apply (writes_prefixed 1). intros r. apply AddUint8LengthPrefixed_spec. Qed.
Lemma writes_prefixed16 f : writes_bytes f -> writes_bytes (AddUint16LengthPrefixed f).
Proof. apply (writes_prefixed 2). intros r. apply AddUint16LengthPrefixed_spec. Qed.
Lemma writes_prefixed24 f : writes_bytes f -> writes_bytes (AddUint24LengthPrefixed f).
Proof. apply (writes_prefixed 3). intros r. apply AddUint24LengthPrefixed_spec. Qed.

Lemma writes_for_each {T} (f : T -> B -> B) l : Forall (fun x => writes_bytes (f x)) l -> writes_bytes (for_each f l).
Proof. induction 1 as [|x l Hx _ IH]; [apply writes_id|]. by apply (writes_then (f x) (for_each f l)). Qed.

Lemma writes_Bytes f data : writes_bytes f -> Bytes (f NewBuilder) = Ret data -> bytes_ok data.
Proof. intros (r & Ha & Ho) Hb. apply Ho. by apply (appends_new f r). Qed.

(** Builders that append as many bytes as each other. *)
Definition alike (f g : B -> B) : Prop := exists r1 r2, appends f r1 /\ appends g r2 /\ length <$> r1 = length <$> r2.

Lemma alike_refl f r : appends f r -> alike f f.
Proof. intros Ha. by exists r, r. Qed.

Lemma alike_then f1 f2 g1 g2 : alike f1 f2 -> alike g1 g2 -> alike (f1 ;> g1) (f2 ;> g2).
Proof.
  intros (r1 & r2 & ? & ? & Hr) (s1 & s2 & ? & ? & Hs). exists (oapp r1 s1), (oapp r2 s2).
  split; [by apply appends_then|]. split; [by apply appends_then|].
  destruct r1, r2; cbn in Hr; try done. destruct s1, s2; cbn in Hs; try done.
  injection Hr as Hr. injection Hs as Hs. cbn. by rewrite !length_app, Hr, Hs.
Qed.

Lemma alike_when c f g : alike f g -> alike (when c f) (when c g).
Proof. destruct c; [done|]. intros _. by eapply alike_refl, appends_id. Qed.

Lemma alike_AddBytes v w : length v = length w -> alike (AddBytes v) (AddBytes w).
Proof.
  intros Hl. exists (Some v), (Some w). split; [apply AddBytes_spec|]. split; [apply AddBytes_spec|]. cbn. by rewrite Hl.
Qed.

Lemma alike_prefixed n f g f' g' : (forall r, appends f r -> appends f' (prefixed n r)) ->
  (forall r, appends g r -> appends g' (prefixed n r)) -> alike f g -> alike f' g'.
Proof.
  intros Hf Hg (r1 & r2 & ? & ? & Hr). exists (prefixed n r1), (prefixed n r2). split; [by apply Hf|]. split; [by apply Hg|].
  destruct r1 as [x|], r2 as [y|]; cbn in Hr; try done. injection Hr as Hr. cbn. rewrite Hr.
  destruct (_ <? _); [|done]. cbn. by rewrite !length_app, !length_be_put, Hr.
Qed.

Lemma alike_prefixed16 f g : alike f g -> alike (AddUint16LengthPrefixed f) (AddUint16LengthPrefixed g).
Proof. apply (alike_prefixed 2); intros r; apply AddUint16LengthPrefixed_spec. Qed.
Lemma alike_prefixed24 f g : alike f g -> alike (AddUint24LengthPrefixed f) (AddUint24LengthPrefixed g).
Proof. apply (alike_prefixed 3); intros r; apply AddUint24LengthPrefixed_spec. Qed.

Lemma alike_Bytes f g x y : alike f g -> Bytes (f NewBuilder) = Ret x -> Bytes (g NewBuilder) = Ret y -> length x = length y.
Proof.
  intros (r1 & r2 & Hf & Hg & Hr) Hx Hy. apply (appends_new _ _ _ Hf) in Hx as ->. apply (appends_new _ _ _ Hg) in Hy as ->.
  cbn in Hr. by injection Hr.
Qed.

(** The type of a message is its first byte. *)
Lemma message_head typ f data : is_byte typ -> writes_bytes f -> Bytes ((AddUint8 typ ;> f) NewBuilder) = Ret data ->
  head data = Some typ.
Proof.
  intros Ht (r & Ha & _) Hb. assert (Hap : appends (AddUint8 typ ;> f) (oapp (Some (be_put 1 typ)) r)).
  { apply appends_then; [apply AddUint8_spec|done]. }
  apply (appends_new _ _ data Hap) in Hb. apply oapp_Some in Hb as (x & y & [= <-] & _ & ->). cbn.
  f_equal. unfold is_byte in Ht. rewrite Z.shiftr_0_r. unfold u8. by rewrite Z.mod_small.
Qed.
End writes.

#[export] Hint Resolve writes_id writes_then writes_when writes_AddUint8 writes_AddUint16 writes_AddBytes
  writes_prefixed8 writes_prefixed16 writes_prefixed24 writes_for_each : writes.

(** Compare two builders by their syntax; what remains differs. *)
Ltac alike_tac :=
  lazymatch goal with
  | |- alike ?f ?f => eapply alike_refl; solve [appends_tac]
  | |- alike (_ ;> _) (_ ;> _) => apply alike_then; alike_tac
  | |- alike (when _ _) (when _ _) => apply alike_when; alike_tac
  | |- alike (AddUint24LengthPrefixed _) (AddUint24LengthPrefixed _) => apply alike_prefixed24; alike_tac
  | |- _ => idtac
  end.

(** ** The messages *)

Definition message_ok (typ : Z) (o : outcome conn_error bytes) : Prop :=
  forall data, o = Ret data -> bytes_ok data /\ head data = Some typ.

Section messages.
Context {B : Type} `{BuilderLaws B}.

Lemma built_ok typ (f : B -> B) : is_byte typ -> writes_bytes f -> message_ok typ (Bytes ((AddUint8 typ ;> f) NewBuilder)).
Proof.
  intros Ht Hf data Hd. split; [|by apply (message_head typ f)].
  apply (writes_Bytes (AddUint8 typ ;> f)); [|done]. auto with writes.
Qed.

Lemma encryptedExtensions_ok m : bytes_ok (encryptedExtensionsMsg.alpnProtocol m) ->
  bytes_ok (default [] (encryptedExtensionsMsg.quicTransportParameters m)) ->
  bytes_ok (encryptedExtensionsMsg.echRetryConfigs m) ->
  message_ok typeEncryptedExtensions (marshal_message B (EncryptedExtensions m)).
Proof.
  intros Ha Hq He. apply built_ok; [done|]. unfold encryptedExtensionsMsg.marshal_exts, ext, ext0. auto 12 with writes.
Qed.

Lemma certificate_ok13 x oc sc : bytes_ok x ->
  message_ok typeCertificate (marshal_message B (CertificateTLS13 (certificateMsgTLS13.mk (mkCertificate [x] None None) oc sc))).
Proof.
  intros Hx. unfold marshal_message, certificateMsgTLS13.marshal. cbv zeta.
  cbn [certificateMsgTLS13.certificate certificateMsgTLS13.ocspStapling certificateMsgTLS13.scts].
  destruct oc, sc; (apply built_ok; [done|]); unfold certificateMsgTLS13.marshalCertificate, certificateMsgTLS13.leaf_exts;
    cbn [Certificate_ imap OCSPStaple SignedCertificateTimestamps];
    (apply writes_prefixed24, writes_then; [auto with writes|]); apply writes_prefixed24, writes_for_each;
    (constructor; [|constructor]); cbn [fst snd Nat.ltb Nat.leb negb]; auto 12 with writes.
Qed.

Lemma certificateVerify_ok alg sig : bytes_ok sig ->
  message_ok typeCertificateVerify (marshal_message B (CertificateVerify (certificateVerifyMsg.mk true alg sig))).
Proof. intros Hs. apply built_ok; [done|]. auto 12 with writes. Qed.

Lemma finished_ok v : bytes_ok v -> message_ok typeFinished (marshal_message B (Finished (finishedMsg.mk v))).
Proof. intros Hv. apply built_ok; [done|]. auto 12 with writes. Qed.

(** A ServerHello is as long with another share of the same length. *)
Lemma with_share_exts data m : length data = length (ks_data (serverHelloMsg.serverShare m)) ->
  alike (serverHelloMsg.marshal_exts B (with_share data m)) (serverHelloMsg.marshal_exts B m).
Proof.
  intros Hl. unfold serverHelloMsg.marshal_exts, with_share, serverHelloMsg.set_serverShare.
  cbn [serverHelloMsg.ocspStapling serverHelloMsg.ticketSupported serverHelloMsg.secureRenegotiationSupported
    serverHelloMsg.secureRenegotiation serverHelloMsg.extendedMasterSecret serverHelloMsg.alpnProtocol serverHelloMsg.scts
    serverHelloMsg.supportedVersion serverHelloMsg.serverShare serverHelloMsg.selectedIdentityPresent
    serverHelloMsg.selectedIdentity serverHelloMsg.supportedPoints serverHelloMsg.encryptedClientHello
    serverHelloMsg.serverNameAck serverHelloMsg.cookie serverHelloMsg.selectedGroup group ks_data].
  alike_tac.
  unfold ext. alike_tac. apply alike_prefixed16. alike_tac. by apply alike_prefixed16, alike_AddBytes.
Qed.

Lemma with_share_length data m x y : length data = length (ks_data (serverHelloMsg.serverShare m)) ->
  serverHelloMsg.marshal B (with_share data m) = Ret x -> serverHelloMsg.marshal B m = Ret y -> length x = length y.
Proof.
  intros Hl. unfold serverHelloMsg.marshal.
  destruct (Bytes (serverHelloMsg.marshal_exts B (with_share data m) NewBuilder)) as [e1| |] eqn:E1; [|done..].
  destruct (Bytes (serverHelloMsg.marshal_exts B m NewBuilder)) as [e2| |] eqn:E2; [|done..]. cbn [obind].
  pose proof (alike_Bytes _ _ _ _ (with_share_exts data m Hl) E1 E2) as He.
  apply alike_Bytes. unfold with_share, serverHelloMsg.set_serverShare.
  cbn [serverHelloMsg.vers serverHelloMsg.random serverHelloMsg.sessionId serverHelloMsg.cipherSuite
    serverHelloMsg.compressionMethod]. replace (nonempty_list e1) with (nonempty_list e2) by (by destruct e1, e2).
  alike_tac. by apply alike_prefixed16, alike_AddBytes.
Qed.

Lemma buildRetryConfigList_ok keys r : Forall (fun k => bytes_ok (ech_Config k)) keys ->
  buildRetryConfigList keys = Ret r -> bytes_ok r.
Proof.
  intros Hk. unfold buildRetryConfigList. destruct (_ =? 0)%nat; [intros [= <-]; constructor|].
  intros Hr. eapply writes_Bytes; [|exact Hr]. apply writes_prefixed16, writes_for_each.
  apply List.Forall_forall. intros k [Hin _]%filter_In. rewrite List.Forall_forall in Hk. auto with writes.
Qed.
End messages.

(** ** Hashes and keys *)

Section hashes.
Context `{Hashes}.

(** Digests are bytes. *)
Definition digests_ok (h : hash_fn) : Prop := forall m, bytes_ok (h_sum h m).

Lemma hmac_bytes h key msg : digests_ok h -> bytes_ok (hmac h key msg).
Proof. intros Hh. apply Hh. Qed.

Lemma hkdf_blocks_bytes n h prk i buf c : digests_ok h -> bytes_ok (hkdf_blocks n h prk i buf c).
Proof.
  intros Hh. revert buf c. induction n as [|n IH]; intros buf c; [constructor|].
  cbn [hkdf_blocks]. apply Forall_app. split; [apply Hh|apply IH].
Qed.

Lemma ExpandLabel_bytes {E} h secret label context n k : digests_ok h ->
  tls13.ExpandLabel (E:=E) h secret label context n = Ret k -> bytes_ok k.
Proof.
  intros Hh. unfold tls13.ExpandLabel. destruct (_ || _); [done|]. intros [= <-].
  unfold hkdf_Expand. destruct (_ <? n)%nat; [constructor|]. cbn [default option_map from_option id].
  apply Forall_take. by apply hkdf_blocks_bytes.
Qed.

Lemma trafficKey_bytes {E} s secret key iv : digests_ok (suite_hash s) -> trafficKey (E:=E) s secret = Ret (key, iv) ->
  bytes_ok key /\ bytes_ok iv.
Proof.
  intros Hh. unfold trafficKey. destruct (tls13.ExpandLabel _ _ (str "key") _ _) as [k| |] eqn:E1; [|done..].
  destruct (tls13.ExpandLabel _ _ (str "iv") _ _) as [i| |] eqn:E2; [|done..]. intros [= <- <-].
  split; by eapply ExpandLabel_bytes.
Qed.

Lemma suite_finishedHash_bytes {E} s key d v : digests_ok (suite_hash s) -> suite_finishedHash (E:=E) s key d = Ret v -> bytes_ok v.
Proof.
  intros Hh. unfold suite_finishedHash. destruct (tls13.ExpandLabel _ _ _ _ _); [|done..]. intros [= <-]. apply Hh.
Qed.

Lemma reality_cert_shape {E} signedCert priv key c : reality_cert (E:=E) signedCert priv key = Ret c ->
  length (h_sum sha512_fn []) = 64%nat -> (forall m, length (h_sum sha512_fn m) = length (h_sum sha512_fn [])) ->
  c = mkCertificate [take (length signedCert - 64) signedCert ++ hmac sha512_fn key (drop 32 priv)] None None.
Proof.
  intros Hc Hl Hall. unfold reality_cert in Hc. destruct (Nat.ltb_spec (length priv) 32); [done|].
  destruct (Nat.ltb_spec (length signedCert) 64); [done|]. injection Hc as <-. do 3 f_equal.
  unfold Gcm.copy. assert (Hm : length (hmac sha512_fn key (drop 32 priv)) = 64%nat) by (unfold hmac; by rewrite Hall).
  rewrite Hm, length_drop. replace (min (length signedCert - (length signedCert - 64)) 64)%nat with 64%nat by lia.
  rewrite take_ge by lia. rewrite (drop_ge (drop _ signedCert)) by (rewrite length_drop; lia). apply app_nil_r.
Qed.
End hashes.
