(* ===== verification/RealityStages.v ===== *)
(** * The handshake of the REALITY server, stage by stage

    What each stage of [handshake] leaves when it succeeds: what it has put in
    the buffer of the connection, the transcript, the secrets and the keys. *)

From S2P Require Import Prelude Common HalfConn HalfConnProofs RecordProofs ConnProofs Cryptobyte Hello Messages WireProofs.
From S2P Require Import Gcm CipherSuites Kdf KdfProofs Conn Reality RealityScan.
From S2P Require Import Negotiation Auth Ticket RealityHandshake RealitySilent RealityFlight RealityMessages.

Open Scope go_scope.

Section stages.
Context {S A C K : Type}.
Context `{StreamPair S} `{AeadPair A} `{CbcPair C} `{MacLaws K}.
Context `{Hashes} `{KeyExchange} `{CryptoString} {B : Type} `{BuilderLaws B} {X : Type} `{X509 X}.
Abbreviation hconn := (halfConn S A C K).
Abbreviation cn := (Conn S A C K).
Context (dyn_off : bool) (rand : nat -> nat -> option bytes) (Hrand : forall k, rand_ok (rand k)).
Context (suite_aead : aead_fn -> bytes -> bytes -> outcome conn_error A).
Context (ed25519Priv signedCert : bytes).
Context (ed25519_Sign : bytes -> bytes -> outcome conn_error bytes).
Context (aes_ctr : bytes -> bytes -> bytes -> bytes).
Context (fips : bool).
Context (config : hsConfig X) (info : connInfo X).

(** The digests are bytes; an AEAD of a suite opens what one with the same
    arguments seals. *)
Context (Hdigests : forall h, digests_ok (hash_New h)) (H512 : digests_ok sha512_fn).
Context (Hsuite : forall f key iv a, suite_aead f key iv = Ret a -> bytes_ok key -> bytes_ok iv ->
  aead_pair a a /\ ra_explicitNonceLen a = 0%nat).

(** ** Unprotected records *)

Definition plain_sent (typ : Z) (data : bytes) (c : cn) : cn :=
  sent_record (header typ 3 3 data ++ data) (cout c) c.

Lemma plain_record typ data (c : cn) : typ <> recordTypeApplicationData -> buffering c = true -> vers c = VersionTLS13 ->
  hc_cipher (cout c) = None -> data <> [] -> Z.of_nat (length data) <= maxPlaintext ->
  writeRecordLocked dyn_off rand typ data c = (Ret (Z.of_nat (length data), None), plain_sent typ data c).
Proof.
  intros Ht Hb Hv Hc Hd Hl. unfold writeRecordLocked, writeRecords. destruct data as [|x data]; [done|].
  set (l := x :: data) in *. assert (Hlen : length l = Datatypes.S (length data)) by done. rewrite Hlen at 1.
  cbn [writeRecords_fuel]. rewrite Hlen. cbn [Nat.eqb]. unfold bind at 1. unfold bind at 1.
  unfold maxPayloadSizeForWrite at 1. rewrite (proj2 (Z.eqb_neq _ _) Ht). cbn [negb]. rewrite orb_true_r. cbv beta iota zeta.
  rewrite <- Hlen, (proj2 (Z.ltb_ge maxPlaintext _)) by done. rewrite (proj2 (Z.ltb_ge _ 0)) by lia.
  unfold bind at 1, get at 1. cbv beta iota. unfold encrypt_record, on_out, encrypt. cbn [cout with_rand_calls].
  rewrite Hc. cbn [fst snd]. rewrite take_ge by lia. unfold bind at 1. rewrite write_buffered by done.
  rewrite drop_ge by lia. replace (record_header typ (record_version (vers c)) (Z.of_nat (length l))) with (header typ 3 3 l).
  2:{ rewrite Hv. done. }
  destruct (length data); cbn [writeRecords_fuel length Nat.eqb]; unfold bind, get, ret; cbn [vers with_sendBuf with_cout with_rand_calls];
    by rewrite Hv, andb_false_r.
Qed.

(** A connection before and between the keys: what [keyed] needs. *)
Record keyable (c : cn) : Prop := {
  ka_buffering : buffering c = true;
  ka_vers : vers c = VersionTLS13;
  ka_version : version (cout c) = VersionTLS13;
  ka_mac : hc_mac (cout c) = None;
  ka_len1 : nth_len (handshakeLen (cout c)) 1 <> 0;
  ka_sizes i : nth_len (handshakeLen (cout c)) i <= empty_size
}.

Lemma padding_keyable c d : padding c d -> keyable c.
Proof.
  intros [Hb Hv Hve Hp Hl Hs]. constructor; try done. destruct Hp as (_ & _ & _ & Hp). unfold cipher_pair in Hp.
  destruct (hc_cipher (cout c)) as [[]|], (hc_cipher d) as [[]|]; try done; try (by destruct Hp as (_ & ? & _)).
  by destruct Hp as (_ & _ & ? & _).
Qed.

(** The client's reading half with the keys of a traffic secret. *)
Definition reader (a : A) : hconn :=
  mkHalfConn (replicate 7 0) None VersionTLS13 (Some (CAead a)) None zero_seq None None 0 [].

Lemma keyed s lvl secret c u c' : keyable c -> set_out_secret suite_aead s lvl secret c = (Ret u, c') ->
  exists a, traffic_keys suite_aead s secret = Ret a /\ padding c' (reader a) /\
    trafficSecret (cout c') = secret /\ handshakeLen (cout c') = handshakeLen (cout c) /\
    handshakeBuf c' = handshakeBuf c /\ sendBuf c' = sendBuf c.
Proof.
  intros [Hb Hv Hve Hm Hl Hs] Hset. apply bind_Ret in Hset as (a & c1 & Ha & Hset). injection Ha as Ha <-.
  injection Hset as _ <-. exists a. split; [done|]. split; [|done].
  assert (Hp : aead_pair a a /\ ra_explicitNonceLen a = 0%nat).
  { unfold traffic_keys in Ha. destruct (trafficKey s secret) as [[key iv]| |] eqn:Ek; [|done..].
    destruct (trafficKey_bytes s secret key iv (Hdigests _) Ek). by eapply Hsuite. }
  constructor; try done. split; [done|]. split; [done|]. split; [split; [compute_decide|done]|].
  unfold cipher_pair. cbn. by destruct Hp.
Qed.

Lemma keylog_same label random secret (c : cn) u c' :
  writeKeyLog dyn_off rand config label random secret c = (Ret u, c') -> c' = c.
Proof.
  unfold writeKeyLog. destruct (KeyLogWriter config) as [w|]; [|by intros [= _ <-]].
  destruct (w _); [|by intros [= _ <-]]. intros Hw. apply bind_Ret in Hw as (? & ? & _ & Hw). done.
Qed.

Lemma lift_same {R} (o : outcome conn_error R) (c : cn) r c' : lift o c = (Ret r, c') -> o = Ret r /\ c' = c.
Proof. by intros [= -> <-]. Qed.

Lemma in_secret_same s lvl secret (c : cn) u c' : set_in_secret suite_aead s lvl secret c = (Ret u, c') ->
  exists h, c' = with_cin h c.
Proof. intros Hs. apply bind_Ret in Hs as (a & c1 & [= _ <-] & Hs). injection Hs as _ <-. by eexists. Qed.

Lemma keyable_with_cin h c : keyable c -> keyable (with_cin h c).
Proof. by intros []. Qed.

(** The transcript of some messages. *)
Definition digest_of (s : cipherSuiteTLS13) (msgs : list bytes) : digest := mkDigest (suite_hash s) (concat msgs).

Lemma digest_of_write s msgs data : d_Write data (digest_of s msgs) = digest_of s (msgs ++ [data]).
Proof. unfold digest_of, d_Write. cbn. by rewrite concat_app; cbn; rewrite app_nil_r. Qed.

Lemma serverHello_head m data : marshal_message B (ServerHello m) = Ret data -> head data = Some typeServerHello.
Proof.
  unfold marshal_message, serverHelloMsg.marshal. destruct (Bytes _) as [e| |]; [|done..]. cbn [obind]. intros Hb.
  built Hb. apply oapp_Some in Hb as (x & y & [= <-] & _ & ->). done.
Qed.

(** ** The stages *)

(** Before the ServerHello. *)
Record ready (c : cn) : Prop := {
  rd_keyable : keyable c;
  rd_cipher : hc_cipher (cout c) = None;
  rd_buf : handshakeBuf c = None \/ handshakeBuf c = Some []
}.

Lemma ready_sent typ data c : ready c -> ready (plain_sent typ data c).
Proof. by intros [[] ? ?]. Qed.

Definition hello_record (data : bytes) : bytes := header recordTypeHandshake 3 3 data ++ data.
Definition ccs_record : bytes := [recordTypeChangeCipherSpec; 3; 3; 0; 1; 1].

(** The inputs of the messages are bytes. *)
Context (Hproto : bytes_ok (clientProtocol info)).
Context (Hech : Forall (fun k => bytes_ok (ech_Config k)) (EncryptedClientHelloKeys config)).
Context (Hcert : bytes_ok signedCert).
Context (Hsign : forall m sig, ed25519_Sign ed25519Priv m = Ret sig -> bytes_ok sig).

Lemma encrypted_extensions_shape hs m : encrypted_extensions (B:=B) config info hs = Ret m ->
  exists retry, bytes_ok retry /\ m = encryptedExtensionsMsg.mk (clientProtocol info) None false retry.
Proof.
  unfold encrypted_extensions. destruct (_ && _); [|intros [= <-]; by exists []].
  destruct (buildRetryConfigList _) as [r| |] eqn:Er; [|done..]. intros [= <-]. exists r. split; [|done].
  by eapply buildRetryConfigList_ok.
Qed.

Lemma encrypted_extensions_ok hs ee : encrypted_extensions (B:=B) config info hs = Ret ee ->
  message_ok typeEncryptedExtensions (marshal_message B (EncryptedExtensions ee)).
Proof. intros (r & Hr & ->)%encrypted_extensions_shape. by apply encryptedExtensions_ok. Qed.

Lemma or_alert_Ret {R} a (m : cn -> outcome conn_error R * cn) (c : cn) r c' : or_alert dyn_off rand a m c = (Ret r, c') -> m c = (Ret r, c').
Proof.
  unfold or_alert. destruct (m c) as [[x|e|w] c1]; [done| |done]. intros Hq. by apply bind_Ret in Hq as (? & ? & _ & Hq).
Qed.

(** ServerHello and ChangeCipherSpec. *)
Lemma send_hello hs (c : cn) dg dg' c' : ready c ->
  (forall data, marshal_message B (ServerHello (hello hs)) = Ret data -> Z.of_nat (length data) <= maxPlaintext) ->
  send (B:=B) dyn_off rand (ServerHello (hello hs)) dg c = (Ret dg', c') ->
  exists sh, marshal_message B (ServerHello (hello hs)) = Ret sh /\ dg' = d_Write sh dg /\
    c' = plain_sent recordTypeHandshake sh c.
Proof.
  intros [[Hb Hv Hve Hm Hl1 Hsz] Hc Hbuf] Hmax Hs. apply send_Ret in Hs as (sh & n & Hms & -> & Hw).
  exists sh. split; [done|]. split; [done|]. pose proof (serverHello_head _ _ Hms) as Hh.
  apply bind_Ret in Hw as (todo & c1 & Hbatch & Hw). unfold batch_handshake in Hbatch.
  apply bind_Ret in Hbatch as (buf & c2 & [= <- <-] & Hbatch).
  assert (Hd : todo = Some sh /\ c1 = c).
  { destruct (handshakeBuf c); [|by injection Hbatch as <- <-]. destruct sh as [|x sh]; [by injection Hbatch as <- <-|].
    injection Hh as ->. change (typeServerHello =? typeServerHello) with true in Hbatch. by injection Hbatch as <- <-. }
  destruct Hd as [-> ->]. rewrite (plain_record recordTypeHandshake sh c) in Hw; [by injection Hw|done|done|done|done| |by apply Hmax].
  by intros ->.
Qed.

Lemma send_ccs hs (c : cn) hs' c' : ready c -> sentDummyCCS hs = false ->
  sendDummyChangeCipherSpec dyn_off rand hs c = (Ret hs', c') ->
  hs' = set_sentDummyCCS hs /\ c' = plain_sent recordTypeChangeCipherSpec [1] c.
Proof.
  intros [[Hb Hv Hve Hm Hl1 Hsz] Hc Hbuf] Hs Hq. unfold sendDummyChangeCipherSpec in Hq. rewrite Hs in Hq.
  apply bind_Ret in Hq as (u & c1 & Hw & Hq). injection Hq as <- <-. split; [done|].
  apply bind_Ret in Hw as ([n err] & c2 & Hw & Hr). rewrite plain_record in Hw by done. by injection Hw as _ <- <-; injection Hr as _ <-.
Qed.

(** What the first stage has sent, from [c0] with the handshake keys on. *)
Record params_sent (hs : hstate) (c : cn) (hs' : hstate) (c0 : cn) (ch sh ee : bytes) (key1 : A) : Prop := {
  ps_ch : transcriptMsg B (ClientHello (clientHello hs)) = Ret ch;
  ps_sh : marshal_message B (ServerHello (hello hs)) = Ret sh;
  ps_ee : exists m, encrypted_extensions (B:=B) config info hs = Ret m /\ marshal_message B (EncryptedExtensions m) = Ret ee;
  ps_secret : tls13.derive_HandshakeSecret (E:=conn_error) (tls13.NewEarlySecret (suite_hash (suite hs)) None) (sharedKey hs) =
    Ret (handshakeSecret hs');
  ps_traffic : tls13.ServerHandshakeTrafficSecret (E:=conn_error) (handshakeSecret hs') (Some (digest_of (suite hs) [ch; sh])) =
    Ret (trafficSecret (cout c0));
  ps_key : traffic_keys suite_aead (suite hs) (trafficSecret (cout c0)) = Ret key1;
  ps_padding : padding c0 (reader key1);
  ps_wire : sendBuf c0 = sendBuf c ++ hello_record sh ++ ccs_record;
  ps_buf : handshakeBuf c0 = handshakeBuf c;
  ps_lens : handshakeLen (cout c0) = handshakeLen (cout c);
  ps_transcript : transcript hs' = digest_of (suite hs) [ch; sh; ee];
  ps_same : clientHello hs' = clientHello hs /\ suite hs' = suite hs /\ cert hs' = cert hs /\ sigAlg hs' = sigAlg hs
}.

Lemma sendServerParameters_run hs (c : cn) hs' c' : ready c -> sentDummyCCS hs = false ->
  transcript hs = new_digest (suite_hash (suite hs)) ->
  (forall data, marshal_message B (ServerHello (hello hs)) = Ret data -> Z.of_nat (length data) <= maxPlaintext) ->
  sendServerParameters (B:=B) dyn_off rand suite_aead config info hs c = (Ret hs', c') ->
  exists c0 ch sh ee key1, params_sent hs c hs' c0 ch sh ee key1 /\ next_message [] ee typeEncryptedExtensions /\
    flying c0 (reader key1) [ee] c'.
Proof.
  intros Hc Hccs Ht Hmax Hr. unfold sendServerParameters in Hr.
  apply bind_Ret in Hr as (ch & c1 & Hch & Hr). apply lift_same in Hch as [Hch ->].
  apply bind_Ret in Hr as (dg & c1 & Hsh & Hr). apply (send_hello hs c) in Hsh as (sh & Hsh & -> & ->); [|done..].
  apply bind_Ret in Hr as (hs1 & c1 & Hq & Hr). apply send_ccs in Hq as [-> ->]; [|by apply ready_sent|done].
  pose proof (ready_sent recordTypeChangeCipherSpec [1] _ (ready_sent recordTypeHandshake sh _ Hc)) as Hc2.
  set (c2 := plain_sent recordTypeChangeCipherSpec [1] _) in *. cbn [set_sentDummyCCS set_transcript suite sharedKey transcript] in Hr.
  assert (Hdg : d_Write sh (d_Write ch (transcript hs)) = digest_of (suite hs) [ch; sh]).
  { rewrite Ht. unfold digest_of, d_Write. cbn. by rewrite app_nil_r. }
  rewrite Hdg in Hr. cbn [set_handshakeSecret transcript suite clientHello] in Hr.
  apply bind_Ret in Hr as (secret & c3 & Hsec & Hr). apply lift_same in Hsec as [Hsec ->].
  apply bind_Ret in Hr as (s2 & c3 & Hs2 & Hr). apply lift_same in Hs2 as [_ ->].
  apply bind_Ret in Hr as (u & c3 & Hin & Hr). apply in_secret_same in Hin as [hin ->].
  apply bind_Ret in Hr as (s1 & c3 & Hs1 & Hr). apply lift_same in Hs1 as [Hs1 ->].
  apply bind_Ret in Hr as (u1 & c0 & Hk & Hr).
  apply keyed in Hk as (key1 & Hkey & Hp & Htr & Hlen & Hbuf & Hsb); [|apply keyable_with_cin, rd_keyable, Hc2].
  apply bind_Ret in Hr as (u2 & c4 & Hl & Hr). apply keylog_same in Hl as ->.
  apply bind_Ret in Hr as (u3 & c4 & Hl & Hr). apply keylog_same in Hl as ->.
  apply bind_Ret in Hr as (m & c4 & Hm & Hr). apply or_alert_Ret, lift_same in Hm as [Hm ->].
  apply bind_Ret in Hr as (dg & c4 & Hee & Hr). injection Hr as <- <-.
  apply send_Ret in Hee as (ee & n & Hee & -> & Hw). destruct (encrypted_extensions_ok _ m Hm ee Hee) as [Heok Hehd].
  assert (Hnext : next_message [] ee typeEncryptedExtensions) by by split_and!.
  exists c0, ch, sh, ee, key1. split; [|split; [done|]].
  - constructor; cbn [handshakeSecret set_transcript set_handshakeSecret transcript clientHello suite cert sigAlg]; try done.
    + by exists m.
    + by rewrite Htr.
    + by rewrite Htr.
    + rewrite Hsb. cbn. by rewrite <- !app_assoc.
    + apply digest_of_write.
  - apply (send_flying dyn_off rand Hrand c0 (reader key1) [] c0 ee typeEncryptedExtensions n); [|done|done|done].
    apply flying_start; [done|]. rewrite Hbuf. apply Hc.
Qed.

(** ** Certificate, CertificateVerify, Finished *)

Context (Hauth : requestClientCert config = false).

Lemma sign_transcript_run hs (c : cn) sig c' : sigAlg hs = Ed25519 ->
  sign_transcript dyn_off rand ed25519Priv ed25519_Sign hs c = (Ret sig, c') ->
  c' = c /\ ed25519_Sign ed25519Priv (signaturePadding ++ serverSignatureContext ++ d_Sum (transcript hs)) = Ret sig.
Proof.
  intros Ha Hs. unfold sign_transcript in Hs. rewrite Ha in Hs.
  change (typeAndHashFromSignatureScheme Ed25519) with (Ret (E:=conn_error) (signatureEd25519, directSigning)) in Hs.
  apply bind_Ret in Hs as (m & c1 & Hm & Hs). apply lift_same in Hm as [[= <-] ->].
  destruct (ed25519_Sign _ _) as [sg|e|w]; [by injection Hs as <- <-| |done].
  by apply bind_Ret in Hs as (? & ? & _ & Hs).
Qed.

Lemma sendServerCertificate_run hs s ch sh ee x c0 d0 (c : cn) hs' c' : flying c0 d0 [ee] c -> bytes_ok x ->
  transcript hs = digest_of s [ch; sh; ee] -> cert hs = mkCertificate [x] None None -> sigAlg hs = Ed25519 ->
  sendServerCertificate (B:=B) dyn_off rand ed25519Priv ed25519_Sign fips config hs c = (Ret hs', c') ->
  exists ce sig cv,
    marshal_message B (CertificateTLS13 (certificateMsgTLS13.mk (cert hs) false false)) = Ret ce /\
    ed25519_Sign ed25519Priv (signaturePadding ++ serverSignatureContext ++ d_Sum (digest_of s [ch; sh; ee; ce])) = Ret sig /\
    marshal_message B (CertificateVerify (certificateVerifyMsg.mk true Ed25519 sig)) = Ret cv /\
    flying c0 d0 [ee; ce; cv] c' /\ hs' = set_transcript (digest_of s [ch; sh; ee; ce; cv]) hs.
Proof.
  intros Hf Hx Ht Hce Ha Hr. unfold sendServerCertificate in Hr. rewrite Hauth in Hr.
  apply bind_Ret in Hr as (dg & c1 & [= <- <-] & Hr).
  assert (Hm : certificate_message hs = certificateMsgTLS13.mk (cert hs) false false).
  { unfold certificate_message. rewrite Hce. cbn. by rewrite !andb_false_r. }
  rewrite Hm in Hr. apply bind_Ret in Hr as (dg & c1 & Hs & Hr).
  apply send_Ret in Hs as (ce & n & Hmce & -> & Hw). assert (Hmce' := Hmce). rewrite Hce in Hmce'.
  apply (certificate_ok13 x false false Hx) in Hmce' as [Hok Hhd].
  apply (send_flying dyn_off rand Hrand c0 d0 [ee] c ce typeCertificate n c1 Hf) in Hw; [|by split_and!|done].
  rewrite Ht, digest_of_write in Hr. cbn [app set_transcript sigAlg] in Hr.
  apply bind_Ret in Hr as (sig & c2 & Hs & Hr). apply sign_transcript_run in Hs as [-> Hs]; [|done].
  apply bind_Ret in Hr as (dg & c2 & Hs2 & Hr). injection Hr as <- <-. rewrite Ha in Hs2.
  apply send_Ret in Hs2 as (cv & n2 & Hmcv & -> & Hw2). destruct (certificateVerify_ok Ed25519 sig (Hsign _ _ Hs) cv Hmcv) as [Hok2 Hhd2].
  apply (send_flying dyn_off rand Hrand c0 d0 [ee; ce] c1 cv typeCertificateVerify n2 c2 Hw) in Hw2; [|by split_and!|done].
  exists ce, sig, cv. split_and!; try done. by rewrite digest_of_write.
Qed.

Lemma sendSessionTickets_same hs (c : cn) hs' c' : shouldSendSessionTickets config hs = false ->
  sendSessionTickets (B:=B) dyn_off rand aes_ctr config info hs c = (Ret hs', c') -> c' = c /\ suite hs' = suite hs.
Proof.
  intros Hn Hs. unfold sendSessionTickets in Hs.
  apply bind_Ret in Hs as (c1 & c2 & [= <- <-] & Hs). apply bind_Ret in Hs as (fin & c2 & Hq & Hs). apply lift_same in Hq as [_ ->].
  apply bind_Ret in Hs as (data & c2 & Hq & Hs). apply lift_same in Hq as [_ ->].
  apply bind_Ret in Hs as (secret & c2 & Hq & Hs). apply lift_same in Hq as [_ ->].
  change (shouldSendSessionTickets config (set_resumptionSecret _ _)) with (shouldSendSessionTickets config hs) in Hs.
  rewrite Hn in Hs. by injection Hs as <- <-.
Qed.

(** The Finished message, and the keys for what follows it. *)
Lemma sendServerFinished_run hs s ch sh ee ce cv c0 d0 (c : cn) hs' c' : flying c0 d0 [ee; ce; cv] c ->
  handshakeBuf c0 = None \/ handshakeBuf c0 = Some [] -> head ee = Some typeEncryptedExtensions -> suite hs = s ->
  transcript hs = digest_of s [ch; sh; ee; ce; cv] -> shouldSendSessionTickets config hs = false ->
  sendServerFinished (B:=B) dyn_off rand suite_aead aes_ctr config info hs c = (Ret hs', c') ->
  exists v fin ms s2 key2 c1,
    suite_finishedHash (E:=conn_error) s (trafficSecret (cout c0)) (digest_of s [ch; sh; ee; ce; cv]) = Ret v /\
    marshal_message B (Finished (finishedMsg.mk v)) = Ret fin /\ landed c0 d0 [ee; ce; cv; fin] c1 /\
    tls13.derive_MasterSecret (E:=conn_error) (handshakeSecret hs) = Ret ms /\
    tls13.ServerApplicationTrafficSecret (E:=conn_error) ms (Some (digest_of s [ch; sh; ee; ce; cv; fin])) = Ret s2 /\
    traffic_keys suite_aead s s2 = Ret key2 /\ padding c' (reader key2) /\
    handshakeLen (cout c') = handshakeLen (cout c1) /\ handshakeBuf c' = handshakeBuf c1 /\ sendBuf c' = sendBuf c1.
Proof.
  intros Hf Hbuf Hee Hsu Ht Hn Hr. unfold sendServerFinished in Hr. rewrite Hsu, Ht in Hr.
  apply bind_Ret in Hr as (c1 & c2 & [= <- <-] & Hr). rewrite (fl_secret _ _ _ _ Hf) in Hr.
  apply bind_Ret in Hr as (v & c2 & Hq & Hr). apply lift_same in Hq as [Hv ->].
  apply bind_Ret in Hr as (dg & c1 & Hs & Hr). apply send_Ret in Hs as (fin & n & Hfin & -> & Hw).
  destruct (finished_ok v (suite_finishedHash_bytes s _ _ v (Hdigests _) Hv) fin Hfin) as [Hok Hhd].
  apply (send_finished dyn_off rand Hrand c0 d0 [ee; ce; cv] c fin n c1 Hf) in Hw; [|done|done|by destruct ee|by split_and!].
  rewrite digest_of_write in Hr. cbn [app set_transcript handshakeSecret] in Hr.
  apply bind_Ret in Hr as (ms & c2 & Hq & Hr). apply lift_same in Hq as [Hms ->].
  apply bind_Ret in Hr as (tr & c2 & Hq & Hr). apply lift_same in Hq as [_ ->].
  apply bind_Ret in Hr as (s2 & c2 & Hq & Hr). apply lift_same in Hq as [Hs2 ->].
  cbn [set_masterSecret set_transcript suite clientHello] in Hr. rewrite Hsu in Hr.
  apply bind_Ret in Hr as (u & c2 & Hk & Hr).
  assert (Hka : keyable c1) by (destruct Hw as (recs & d & Hp & _); by eapply padding_keyable).
  apply (keyed s _ s2 c1 u c2 Hka) in Hk as (key2 & Hkey & Hp & _ & Hlen & Hb & Hsb).
  apply bind_Ret in Hr as (u2 & c3 & Hl & Hr). apply keylog_same in Hl as ->.
  apply bind_Ret in Hr as (u3 & c3 & Hl & Hr). apply keylog_same in Hl as ->. rewrite Hauth in Hr. cbn [negb] in Hr.
  apply sendSessionTickets_same in Hr as [-> _]; [|exact Hn].
  exists v, fin, ms, s2, key2, c1. by split_and!.
Qed.
(** The record in the place of the target's session ticket. *)
Lemma send_ticket_record (c : cn) d n c' : padding c d -> handshakeBuf c = None ->
  writeRecord dyn_off rand recordTypeHandshake [typeNewSessionTicket] c = (Ret (n, None), c') ->
  exists rec d', sendBuf c' = sendBuf c ++ rec /\ Z.of_nat (length rec) = nth_len (handshakeLen (cout c)) 6 /\ framed 3 3 rec /\
    decrypt rec d = (Ret ([], recordTypeApplicationData), d').
Proof.
  intros Hp Hb Hw. unfold writeRecord in Hw. rewrite Z.eqb_refl in Hw.
  apply bind_Ret in Hw as (todo & c1 & Hbatch & Hw). unfold batch_handshake in Hbatch.
  apply bind_Ret in Hbatch as (buf & c2 & [= <- <-] & Hbatch). rewrite Hb in Hbatch. injection Hbatch as <- <-.
  destruct (writeRecordLocked_padded dyn_off rand Hrand [typeNewSessionTicket] typeNewSessionTicket 6 c d n c' Hp)
    as (rec & h & -> & Hl & _ & _ & _ & Hfr & _ & Hd); [by compute_decide|done|done|done|].
  destruct (Hd eq_refl) as (d' & Hd' & _). by exists rec, d'.
Qed.
End stages.
