(* ===== verification/Steady.v ===== *)
(** * What the record layer leaves as it was

    Reading and writing records keep the version, the number of handshakes and
    the traffic secrets of the connection, whatever their outcome: only the
    handshakes change them. *)

From S2P Require Import Prelude Common HalfConn Cryptobyte Hello Messages Gcm CipherSuites Kdf Conn.
From S2P Require Import Negotiation Auth Ticket RealityHandshake Post StreamProofs.

Open Scope go_scope.

Create HintDb steady.

Section steady.
Context {S A C K : Type} `{Stream S} `{RecordAEAD A} `{CbcMode C} `{MacFun K}.
Abbreviation hconn := (halfConn S A C K).
Abbreviation cn := (Conn S A C K).
Abbreviation M := (@M S A C K).
Context (dyn_off : bool) (rand : nat -> nat -> option bytes).

Definition held (c : cn) : Z * bool * Z * (bytes * bytes) :=
  (vers c, haveVers c, handshakes c, (trafficSecret (cin c), trafficSecret (cout c))).

Definition steady {R} (m : M R) : Prop := forall c, held (snd (m c)) = held c.

Lemma steady_ret {R} (r : R) : steady (ret r).
Proof. done. Qed.
Lemma steady_fail {R} e : steady (R:=R) (fail e).
Proof. done. Qed.
Lemma steady_panic {R} w : steady (R:=R) (panic w).
Proof. done. Qed.
Lemma steady_out_of_fuel {R} : steady (R:=R) out_of_fuel.
Proof. done. Qed.
Lemma steady_get {R} (f : cn -> R) : steady (get f).
Proof. done. Qed.
Lemma steady_lift {R} o : steady (lift (R:=R) o).
Proof. done. Qed.
Lemma steady_raise e : steady (raise e).
Proof. by destruct e. Qed.
Lemma steady_read_rand n : steady (read_rand rand n).
Proof. done. Qed.
Lemma steady_modify f : (forall c : cn, held (f c) = held c) -> steady (modify f).
Proof. intros Hf c. apply Hf. Qed.

Lemma steady_bind {R Q} (m : M R) (k : R -> M Q) : steady m -> (forall x, steady (k x)) -> steady (bind m k).
Proof.
  intros Hm Hk c. unfold bind. pose proof (Hm c) as E. destruct (m c) as [[x|e|w] c1]; [|done..].
  by rewrite (Hk x c1).
Qed.

Lemma steady_try {R} (m : M R) : steady m -> steady (try_ m).
Proof. intros Hm c. pose proof (Hm c) as E. unfold try_. by destruct (m c) as [[x|e|w] c1]. Qed.

Lemma steady_on_out {R} (f : hconn -> outcome conn_error R * hconn) :
  (forall h, trafficSecret (snd (f h)) = trafficSecret h) -> steady (on_out f).
Proof. intros Hf c. unfold on_out. pose proof (Hf (cout c)) as E. destruct (f (cout c)) as [r h]. cbn in *. unfold held. cbn. by rewrite E. Qed.
Lemma steady_on_in {R} (f : hconn -> outcome conn_error R * hconn) :
  (forall h, trafficSecret (snd (f h)) = trafficSecret h) -> steady (on_in f).
Proof. intros Hf c. unfold on_in. pose proof (Hf (cin c)) as E. destruct (f (cin c)) as [r h]. cbn in *. unfold held. cbn. by rewrite E. Qed.

Lemma steady_set_in_err e : steady (set_in_err e).
Proof. done. Qed.
Lemma steady_set_out_err e : steady (set_out_err e).
Proof. done. Qed.

Lemma changeCipherSpec_secret (h : hconn) : trafficSecret (snd (changeCipherSpec h)) = trafficSecret h.
Proof. unfold changeCipherSpec. destruct (nextCipher h); [|done]. by destruct (_ =? _). Qed.
End steady.

#[export] Hint Resolve steady_ret steady_fail steady_panic steady_out_of_fuel steady_get steady_lift steady_raise
  steady_read_rand steady_try steady_set_in_err steady_set_out_err : steady.
#[export] Hint Extern 1 (steady (modify _)) => (apply steady_modify; intros; reflexivity) : steady.
#[export] Hint Extern 1 (steady (on_out changeCipherSpec)) => (apply steady_on_out, changeCipherSpec_secret) : steady.
#[export] Hint Extern 1 (steady (on_in changeCipherSpec)) => (apply steady_on_in, changeCipherSpec_secret) : steady.

(** Go through a method by its syntax. *)
Ltac settle :=
  repeat lazymatch goal with
  | |- forall _, _ => intro
  | |- steady (bind _ _) => apply steady_bind
  | |- steady (match ?x with _ => _ end) => destruct x
  | |- steady (let '(_, _) := ?x in _) => destruct x
  end; eauto with steady.

Section records.
Context {S A C K : Type} `{Stream S} `{RecordAEAD A} `{CbcMode C} `{MacFun K}.
Abbreviation cn := (Conn S A C K).
Abbreviation M := (@M S A C K).
Context (dyn_off : bool) (rand : nat -> nat -> option bytes).

(** ** Writing *)

Lemma steady_conn_Write data : steady (conn_Write data : M _).
Proof. intros c. unfold conn_Write. by destruct (net_w c) as [|[]]. Qed.
#[local] Hint Resolve steady_conn_Write : steady.

Lemma steady_write data : steady (write data : M _).
Proof. unfold write. settle. Qed.

Lemma steady_flush : steady (flush : M _).
Proof. unfold flush. settle. Qed.

Lemma steady_maxPayload typ : steady (maxPayloadSizeForWrite dyn_off typ : M _).
Proof.
  intros c. unfold maxPayloadSizeForWrite. destruct (_ || _); [done|]. destruct (_ <=? _); [done|].
  destruct (cipher_payload _ _); [|done..]. by destruct (1000 <? _).
Qed.

Lemma steady_encrypt_record hdr payload : steady (encrypt_record rand hdr payload).
Proof.
  intros c. unfold encrypt_record. rewrite steady_on_out; [done|]. intros h. apply encrypt_half.
Qed.
#[local] Hint Resolve steady_write steady_maxPayload : steady.

Lemma steady_writeRecords_fuel stuck fuel typ data n : steady stuck ->
  steady (writeRecords_fuel dyn_off rand stuck fuel typ data n).
Proof.
  intros Hs. revert data n. induction fuel as [|fuel IH]; intros data n; cbn [writeRecords_fuel]; [settle|].
  destruct (length data =? 0)%nat; [settle|]. apply steady_bind; [settle|intros k].
  destruct (_ <? 0); [settle|]. apply steady_bind; [settle|intros v]. set (hdr := record_header _ _ _).
  intros c. match goal with |- context [encrypt_record rand hdr ?d c] => pose proof (steady_encrypt_record hdr d c) as He;
    destruct (encrypt_record rand hdr d c) as [[out|e|w] c1] end; [|done..].
  rewrite <- He. apply (steady_bind (write out)); [settle|]. intros [? [e|]]; [settle|]. apply IH.
Qed.

Lemma steady_writeRecords typ data : steady (writeRecords dyn_off rand typ data).
Proof. apply steady_writeRecords_fuel. settle. Qed.
#[local] Hint Resolve steady_writeRecords : steady.

Lemma steady_sendAlertLocked a : steady (sendAlertLocked dyn_off rand a).
Proof. unfold sendAlertLocked. settle. Qed.
Lemma steady_sendAlert a : steady (sendAlert dyn_off rand a).
Proof. apply steady_sendAlertLocked. Qed.
#[local] Hint Resolve steady_sendAlertLocked steady_sendAlert : steady.

Lemma steady_writeRecordLocked typ data : steady (writeRecordLocked dyn_off rand typ data).
Proof. unfold writeRecordLocked. settle. Qed.
#[local] Hint Resolve steady_writeRecordLocked : steady.

Lemma steady_batch data : steady (batch_handshake data : M _).
Proof. unfold batch_handshake. settle. Qed.
#[local] Hint Resolve steady_batch : steady.

Lemma steady_writeHandshakeRecord m : steady (writeHandshakeRecord dyn_off rand m).
Proof. unfold writeHandshakeRecord. settle. Qed.

Lemma steady_writeChangeCipherRecord : steady (writeChangeCipherRecord dyn_off rand).
Proof. unfold writeChangeCipherRecord. settle. Qed.

(** ** Reading *)

Lemma steady_readFromUntil n : steady (readFromUntil n : M _).
Proof.
  intros c. unfold readFromUntil. destruct (_ <=? _); [done|]. by destruct (read_at_least _ _ _) as [[r1 rd] buf].
Qed.

Lemma steady_alert_and_fail a : steady (alert_and_fail dyn_off rand a).
Proof. unfold alert_and_fail. settle. Qed.
Lemma steady_fail_in e : steady (fail_in e : M _).
Proof. unfold fail_in. settle. Qed.
Lemma steady_transport_error e : steady (transport_error e : M _).
Proof. unfold transport_error. settle. Qed.
#[local] Hint Resolve steady_readFromUntil steady_alert_and_fail steady_fail_in steady_transport_error : steady.

Lemma steady_check_header hdr : steady (check_header dyn_off rand hdr).
Proof. unfold check_header. settle. Qed.

Lemma steady_handle_alert data : steady (handle_alert dyn_off rand data).
Proof. unfold handle_alert. settle. Qed.
Lemma steady_handle_ccs expect complete data : steady (handle_ccs dyn_off rand expect complete data).
Proof. unfold handle_ccs. settle. Qed.
#[local] Hint Resolve steady_handle_alert steady_handle_ccs : steady.

Lemma steady_handle_record expect complete typ data : steady (handle_record dyn_off rand expect complete typ data).
Proof. unfold handle_record. settle. Qed.

Lemma steady_open_record record : steady (open_record dyn_off rand record).
Proof.
  intros c. unfold open_record. pose proof (steady_on_in (decrypt record) (fun h => proj1 (proj2 (proj2 (decrypt_half record h)))) c) as E.
  destruct (on_in (decrypt record) c) as [[[data typ]|e|w] c1]; cbn [snd] in E; [| |done].
  - rewrite <- E. destruct (_ <? _); [by apply steady_bind; settle|]. destruct (_ && _); [by apply steady_bind; settle|].
    apply steady_bind; [apply steady_modify; intros c2; by destruct (_ && _)|]. settle.
  - destruct e; try done. rewrite <- E. by apply steady_bind; settle.
Qed.
#[local] Hint Resolve steady_check_header steady_handle_record steady_open_record : steady.

Lemma steady_read_one expect : steady (read_one dyn_off rand expect).
Proof. unfold read_one. settle. Qed.
#[local] Hint Resolve steady_read_one : steady.

Lemma steady_readRecordOrCCS expect : steady (readRecordOrCCS dyn_off rand expect).
Proof.
  unfold readRecordOrCCS. generalize (Z.to_nat maxUselessRecords + 1)%nat as fuel.
  induction fuel as [|fuel IH]; cbn [readRecordOrCCS_fuel]; settle.
Qed.

Lemma steady_readHandshakeBytes n : steady (readHandshakeBytes dyn_off rand n).
Proof.
  unfold readHandshakeBytes. generalize (Z.to_nat n + 1)%nat as fuel.
  induction fuel as [|fuel IH]; cbn [readHandshakeBytes_fuel]; settle. apply steady_readRecordOrCCS.
Qed.
#[local] Hint Resolve steady_readHandshakeBytes : steady.

Lemma steady_readHandshakeMessage : steady (readHandshakeMessage dyn_off rand).
Proof. unfold readHandshakeMessage. settle. Qed.
End records.

#[export] Hint Resolve steady_write steady_flush steady_sendAlertLocked steady_sendAlert steady_writeRecordLocked
  steady_writeHandshakeRecord steady_writeChangeCipherRecord steady_alert_and_fail steady_fail_in
  steady_readRecordOrCCS steady_readHandshakeMessage : steady.
