(* ===== verification/ClientStages.v ===== *)
(** * The stages of a client's handshake

    What a method of the client that returns without error has done: one lemma
    by method, over the lemmas that invert the monad. *)

From S2P Require Import Prelude Common HalfConn Cryptobyte Hello Messages Gcm CipherSuites Kdf Conn ConnProofs.
From S2P Require Import Negotiation Auth KeyAgreement Ticket RealityHandshake Post RealityFlight RealityStages Steady.
From S2P Require Import Client Client13.

Open Scope go_scope.

Section monad.
Context {S A C K X T : Type} `{Stream S} `{RecordAEAD A} `{CbcMode C} `{MacFun K}.
Abbreviation cln := (client S A C K X T).
Abbreviation CM := (CM S A C K X T).
Implicit Types c : cln.
Context (dyn_off : bool) (rand : nat -> nat -> option bytes).

Lemma cbind_Ret {R Q} (m : CM R) (k : R -> CM Q) c y c' : cbind m k c = (Ret y, c') ->
  exists x c1, m c = (Ret x, c1) /\ k x c1 = (Ret y, c').
Proof. unfold cbind. destruct (m c) as [[x|e|w] c1]; [|done..]. by exists x, c1. Qed.

Lemma cret_Ret {R} (r : R) c y c' : (cret r : CM R) c = (Ret y, c') -> y = r /\ c' = c.
Proof. by intros [= -> ->]. Qed.

Lemma clift_Ret {R} (o : outcome conn_error R) c y c' : (clift o : CM R) c = (Ret y, c') -> o = Ret y /\ c' = c.
Proof. by intros [= -> ->]. Qed.

Lemma cget_Ret {R} (f : ClientConn.t X T -> R) c y c' : (cget f : CM R) c = (Ret y, c') -> y = f (cl c) /\ c' = c.
Proof. by intros [= <- <-]. Qed.

Lemma cmodify_Ret f c y c' : (cmodify f : CM unit) c = (Ret y, c') -> c' = mkClient (conn c) (f (cl c)).
Proof. by intros [= _ <-]. Qed.

Lemma on_conn_Ret {R} (m : M R) c y c' : (on_conn m : CM R) c = (Ret y, c') ->
  m (conn c) = (Ret y, conn c') /\ cl c' = cl c.
Proof. unfold on_conn. destruct (m (conn c)) as [r k]. by intros [= -> <-]. Qed.

Lemma cget_conn {R} (f : Conn S A C K -> R) c y c' : (on_conn (get f) : CM R) c = (Ret y, c') -> y = f (conn c) /\ c' = c.
Proof. destruct c as [k l]. by intros [= <- <-]. Qed.

(** The record layer is steady, the rest as it was. *)
Definition undisturbed c c' : Prop := held (conn c') = held (conn c) /\ cl c' = cl c.

Lemma undisturbed_refl c : undisturbed c c.
Proof. done. Qed.
Lemma undisturbed_trans c1 c2 c3 : undisturbed c1 c2 -> undisturbed c2 c3 -> undisturbed c1 c3.
Proof. intros [] []. split; congruence. Qed.

Lemma on_conn_steady {R} (m : M R) c y c' : steady m -> (on_conn m : CM R) c = (Ret y, c') ->
  m (conn c) = (Ret y, conn c') /\ undisturbed c c'.
Proof.
  intros Hm Q. apply on_conn_Ret in Q as [Q E]. split; [done|]. split; [|done].
  by rewrite <- (Hm (conn c)), Q.
Qed.

Lemma calert_never {R} a e c (y : R) c' : calert_then dyn_off rand a e c = (Ret y, c') -> False.
Proof. intros Q. by apply cbind_Ret in Q as (? & ? & _ & Q). Qed.

Lemma creturn_never a c u c' : a <> alertCloseNotify -> creturn_alert dyn_off rand a c = (Ret u, c') -> False.
Proof.
  intros Ha Q. apply on_conn_Ret in Q as [Q _]. apply bind_Ret in Q as (e & k & Q & Hr).
  unfold sendAlert, sendAlertLocked in Q. apply bind_Ret in Q as ([n we] & k1 & _ & Q).
  rewrite (proj2 (Z.eqb_neq _ _) Ha) in Q. injection Q as <- _. done.
Qed.

Lemma creturn_then {R} a c (m : CM R) y c' : a <> alertCloseNotify ->
  cbind (creturn_alert dyn_off rand a) (fun _ => m) c = (Ret y, c') -> False.
Proof. intros Ha Q. apply cbind_Ret in Q as (? & ? & Q & _). by eapply creturn_never. Qed.

Lemma or_calert_Ret {R} a (o : outcome conn_error R) c y c' : or_calert dyn_off rand a o c = (Ret y, c') -> o = Ret y /\ c' = c.
Proof. unfold or_calert. destruct o; [apply clift_Ret| |done]. intros Q. by apply calert_never in Q. Qed.
Lemma or_cfail_Ret {R} a e (o : outcome conn_error R) c y c' : or_cfail dyn_off rand a e o c = (Ret y, c') -> o = Ret y /\ c' = c.
Proof. unfold or_cfail. destruct o; [apply clift_Ret| |done]. intros Q. by apply calert_never in Q. Qed.
End monad.

(** Take a run apart, refusing the branches that end in an alert. *)
Ltac refuse Q :=
  solve [exfalso; first
    [ eapply calert_never; exact Q
    | eapply creturn_then; [|exact Q]; discriminate
    | eapply creturn_never; [|exact Q]; discriminate
    | discriminate Q ]].
Tactic Notation "run" hyp(Q) "as" ident(x) ident(c) ident(E) := apply cbind_Ret in Q as (x & c & E & Q).

Section stages.
Context {S A C K : Type} `{Stream S} `{RecordAEAD A} `{CbcMode C} `{MacFun K}.
Context `{Hashes} `{CryptoString} {B : Type} `{Builder B} {X P T : Type} `{X509 X} `{CertificateChains X P}.
Context `{EcdhCurves} `{Decapsulation} `{Verifiers P} `{!ClientSessionCache T (SessionState.t X)}.
Abbreviation cln := (client S A C K X T).
Abbreviation hstate := (clientHandshakeStateTLS13.t X).
Import clientHandshakeStateTLS13.
Implicit Types c : cln.

Context (dyn_off : bool) (rand : nat -> nat -> option bytes).
Context (generated : nat -> ecdh_Curve -> outcome conn_error ecdhPrivateKey).
Context (suite_aead : aead_fn -> bytes -> bytes -> outcome conn_error A).
Context (signed_by : nat -> PrivateKey P -> bool -> sig_hash -> bytes -> outcome conn_error bytes).
Context (fips : bool).
Context (config : clientConfig X P CertPool).

Abbreviation c_vers c := (vers (conn c)).
Abbreviation in_secret c := (HalfConn.trafficSecret (cin (conn c))).
Abbreviation out_secret c := (HalfConn.trafficSecret (cout (conn c))).
Abbreviation c_info c := (ClientConn.info (cl c)).

(** ** Reading and sending *)

Lemma read_Ret c msg data c' : on_conn (T:=T) (X:=X) (readHandshakeData dyn_off rand) c = (Ret (msg, data), c') ->
  unmarshal_message (c_vers c) data = Some msg /\ undisturbed c c'.
Proof.
  intros Q. apply on_conn_steady in Q as [Q Hu].
  2: { unfold readHandshakeData. settle. }
  split; [|done]. apply bind_Ret in Q as (d & k & Q1 & Q). apply bind_Ret in Q as (v & k1 & Q2 & Q).
  injection Q2 as <- <-. pose proof (steady_readHandshakeMessage dyn_off rand (conn c)) as Hs. rewrite Q1 in Hs. cbn in Hs.
  injection Hs as Hv _ _ _ _. rewrite <- Hv. destruct (unmarshal_message (vers k) d) as [m|] eqn:E.
  - apply pair_equal_spec in Q as [Q _]. apply Ret_inj in Q. by injection Q as <- <-.
  - apply bind_Ret in Q as (? & ? & _ & Q). done.
Qed.

Lemma steady_send msg d : steady (send (B:=B) dyn_off rand msg d : M _).
Proof. unfold send. settle. Qed.

Lemma csend_Ret msg (hs hs' : hstate) c c' : csend (B:=B) dyn_off rand msg hs c = (Ret hs', c') ->
  exists data, marshal_message B msg = Ret data /\ hs' = set_transcript (d_Write data (transcript hs)) hs /\ undisturbed c c'.
Proof.
  intros Q. run Q as d c1 Q1. apply cret_Ret in Q as [-> ->].
  apply on_conn_steady in Q1 as [Q1 Hu]; [|apply steady_send].
  apply bind_Ret in Q1 as ([n err] & k & Hw & Q1). apply bind_Ret in Q1 as (u & k1 & Hr & Q1).
  destruct (marshal_message B msg) as [data|e|w] eqn:Hm.
  - apply pair_equal_spec in Q1 as [Q1 _]. apply Ret_inj in Q1 as <-. by exists data.
  - cbn [writeHandshakeRecord] in Hw. by injection Hw as <- <- <-.
  - done.
Qed.

Lemma log_secret_Ret label random secret c u c' : log_secret dyn_off rand config label random secret c = (Ret u, c') -> c' = c.
Proof.
  intros Q. destruct c as [k l]. apply on_conn_Ret in Q as [Q E]. cbn in Q, E. destruct c' as [k' l']. cbn in *.
  apply keylog_same in Q as ->. by subst.
Qed.

(** ** Certificates *)

(** What [verifyServerCertificate] accepts. *)
Record certificates_ok (raw : list bytes) (certs : list X) (chains : list (list X)) : Prop := {
  ok_parsed : Forall2 (fun der x => ParseCertificate der = Ret x) raw certs;
  ok_keys : Forall (fun x => PublicKeyAlgorithm_RSA x = true ->
    exists n k, cert_PublicKey x = PubRSA n k /\ N_BitLen k <= defaultMaxRSAKeySize) certs;
  ok_leaf : exists leaf, head certs = Some leaf /\ cert_PublicKey leaf <> PubOther;
  ok_chains : InsecureSkipVerify config = false -> exists leaf cs, head certs = Some leaf /\
    x509_Verify leaf (mkVerifyOptions (RootCAs config) (time_now config) (ServerName config) (tail certs)) = Ret cs /\
    fipsAllowedChains fips cs = Ret chains;
  ok_user : forall f, VerifyPeerCertificate config = Some f -> f raw chains = None;
  ok_connection : forall f, VerifyConnection config = Some f -> exists st, PeerCertificates X st = certs /\ f st = None
}.

Lemma parse_certificates_Ret raw acc c certs c' : parse_certificates dyn_off rand raw acc c = (Ret certs, c') ->
  c' = c /\ exists l, certs = acc ++ l /\ Forall2 (fun der x => ParseCertificate der = Ret x) raw l /\
  Forall (fun x => PublicKeyAlgorithm_RSA x = true ->
    exists n k, cert_PublicKey x = PubRSA n k /\ N_BitLen k <= defaultMaxRSAKeySize) l.
Proof.
  revert acc. induction raw as [|der raw IH]; intros acc Q; cbn [parse_certificates] in Q.
  { apply cret_Ret in Q as [-> ->]. split; [done|]. exists []. rewrite app_nil_r. split_and!; constructor. }
  destruct (ParseCertificate der) as [x|e|w] eqn:Hp; [|refuse Q|refuse Q].
  assert (Hx : (PublicKeyAlgorithm_RSA x = true -> exists n k, cert_PublicKey x = PubRSA n k /\ N_BitLen k <= defaultMaxRSAKeySize) /\
    parse_certificates dyn_off rand raw (acc ++ [x]) c = (Ret certs, c')).
  { destruct (PublicKeyAlgorithm_RSA x); [|by split]. destruct (cert_PublicKey x) as [n k| | |] eqn:Hk; try refuse Q.
    cbn [snd checkKeySize] in Q. destruct (Z.leb_spec (N_BitLen k) defaultMaxRSAKeySize); [|refuse Q].
    split; [|exact Q]. intros _. by exists n, k. }
  destruct Hx as [Hx Q']. apply IH in Q' as (-> & l & -> & Hl & Hf). split; [done|]. exists (x :: l).
  rewrite <- app_assoc. split_and!; [done|by constructor..].
Qed.

Lemma verify_connection_Ret c u c' : verify_connection dyn_off rand config c = (Ret u, c') ->
  c' = c /\ forall f, VerifyConnection config = Some f ->
    exists st, PeerCertificates X st = peerCertificates (c_info c) /\ f st = None.
Proof.
  unfold verify_connection. destruct (VerifyConnection config) as [f|]; intros Q.
  - run Q as st c1 Q1. injection Q1 as <- <-. destruct (f _) eqn:Hf; [refuse Q|]. apply cret_Ret in Q as [_ ->].
    split; [done|]. intros ? [= <-]. by eexists; split; [|exact Hf].
  - apply cret_Ret in Q as [_ ->]. by split.
Qed.

Lemma verify_chains_Ret leaf certs c u c' : verify_chains dyn_off rand fips config leaf certs c = (Ret u, c') ->
  conn c' = conn c /\ exists chains, cl c' = ClientConn.set_info (set_verifiedChains chains) (cl c) /\
  (InsecureSkipVerify config = false -> exists cs,
    x509_Verify leaf (mkVerifyOptions (RootCAs config) (time_now config) (ServerName config) (tail certs)) = Ret cs /\
    fipsAllowedChains fips cs = Ret chains).
Proof.
  unfold verify_chains. destruct (InsecureSkipVerify config).
  - intros Q. apply cret_Ret in Q as [_ ->]. split; [done|]. exists (verifiedChains (c_info c)).
    split; [|done]. by destruct c as [k [[] ]].
  - unfold verify_options. destruct (x509_Verify _ _) as [cs|e|w]; intros Q; [|refuse Q|refuse Q].
    destruct (fipsAllowedChains fips cs) as [chains|e|w] eqn:Hf; [| |refuse Q].
    + apply cmodify_Ret in Q as ->. split; [done|]. exists chains. split; [done|]. intros _. by exists cs.
    + run Q as u1 c1 Q1. refuse Q.
Qed.

Lemma verifyServerCertificate_Ret raw c u c' : verifyServerCertificate dyn_off rand fips config raw c = (Ret u, c') ->
  exists certs, certificates_ok raw certs (verifiedChains (c_info c')) /\ peerCertificates (c_info c') = certs /\
    activeCertHandles (c_info c') = certs /\ held (conn c') = held (conn c).
Proof.
  intros Q. run Q as certs c1 Q1. apply parse_certificates_Ret in Q1 as (-> & l & -> & Hp & Hk). cbn [app] in Q.
  destruct l as [|leaf rest]; [refuse Q|].
  run Q as u1 c1 Q1. apply verify_chains_Ret in Q1 as (Hc & chains & Hcl & Hch).
  assert (Hleaf : cert_PublicKey leaf <> PubOther) by (intros E; rewrite E in Q; refuse Q).
  assert (Q' : cbind (cmodify (ClientConn.set_info (set_peerCertificates (leaf :: rest) (leaf :: rest))))
    (fun _ => cbind (cget ClientConn.info) (fun i => cbind (match VerifyPeerCertificate config with
      | None => cret tt
      | Some f => match f raw (verifiedChains i) with
                  | None => cret tt | Some e => calert_then dyn_off rand alertBadCertificate e end end)
      (fun _ => verify_connection dyn_off rand config))) c1 = (Ret u, c')) by (destruct (cert_PublicKey leaf); done).
  clear Q. rename Q' into Q. run Q as u2 c2 Q2. apply cmodify_Ret in Q2 as ->.
  run Q as i c3 Q3. apply cget_Ret in Q3 as [-> ->]. run Q as u3 c3 Q3.
  set (cm := mkClient _ _) in *.
  assert (Huser : c3 = cm /\ forall f, VerifyPeerCertificate config = Some f -> f raw chains = None).
  { assert (Ev : verifiedChains (c_info cm) = chains) by (unfold cm; cbn; by rewrite Hcl).
    rewrite Ev in Q3. destruct (VerifyPeerCertificate config) as [f|]; [|apply cret_Ret in Q3 as [_ ->]; by split].
    destruct (f raw chains) eqn:Hf; [refuse Q3|]. apply cret_Ret in Q3 as [_ ->]. split; [done|]. by intros ? [= <-]. }
  destruct Huser as [-> Huser]. apply verify_connection_Ret in Q as [-> Hconn].
  assert (Ev : verifiedChains (c_info cm) = chains) by (unfold cm; cbn; by rewrite Hcl).
  exists (leaf :: rest). rewrite Ev. split_and!; [|done|done|unfold cm; cbn; by rewrite Hc].
  constructor; [done|done|by exists leaf| |done|exact Hconn].
  intros Hi. destruct (Hch Hi) as (cs & ? & ?). by exists leaf, cs.
Qed.

(** ** The hellos *)

Lemma mutual13_id have want (s : cipherSuiteTLS13) : mutualCipherSuiteTLS13 have want = Some s ->
  cipherSuiteTLS13ByID (id13 s) = Some s /\ id13 s = want.
Proof.
  induction have as [|i have IH]; [done|]. cbn [mutualCipherSuiteTLS13]. destruct (Z.eqb_spec i want) as [->|]; [|done].
  intros Hf. pose proof Hf as Hs. unfold cipherSuiteTLS13ByID in Hs. apply find_some in Hs as [Hin Hid%Z.eqb_eq].
  split; [|done]. rewrite Hid. exact Hf.
Qed.

Lemma checkServerHello_Ret prev hello m c s c' : checkServerHelloOrHRR dyn_off rand prev hello m c = (Ret s, c') ->
  serverHelloMsg.supportedVersion m = VersionTLS13 /\
  clientHelloMsg.sessionId hello = serverHelloMsg.sessionId m /\
  mutualCipherSuiteTLS13 (clientHelloMsg.cipherSuites hello) (serverHelloMsg.cipherSuite m) = Some s /\
  (forall s0, prev = Some s0 -> id13 s = id13 s0) /\
  c' = mkClient (conn c) (ClientConn.set_cipherSuite (id13 s) (cl c)).
Proof.
  unfold checkServerHelloOrHRR. intros Q.
  destruct (_ =? 0); [refuse Q|]. destruct (Z.eqb_spec (serverHelloMsg.supportedVersion m) VersionTLS13) as [Hv|]; [|refuse Q].
  cbn [negb] in Q. destruct (negb _); [refuse Q|]. destruct (forbidden_extension m); [refuse Q|].
  destruct (bool_decide_reflect (clientHelloMsg.sessionId hello = serverHelloMsg.sessionId m)) as [Hsid|]; [|refuse Q].
  cbn [negb] in Q. destruct (negb _); [refuse Q|].
  destruct (mutualCipherSuiteTLS13 _ _) as [s1|].
  2: { destruct prev; cbn in Q; refuse Q. }
  destruct (match prev with Some s0 => _ | None => false end) eqn:Hp; [refuse Q|].
  run Q as u c1 Q1. apply cmodify_Ret in Q1 as ->. apply cret_Ret in Q as [-> ->]. split_and!; [done..| |done].
  intros s0 ->. apply negb_false_iff, bool_decide_eq_true in Hp. by injection Hp as ->.
Qed.

Lemma ccs_Ret (hs hs' : hstate) c c' : sendDummyChangeCipherSpec dyn_off rand hs c = (Ret hs', c') ->
  (hs' = hs \/ hs' = set_sentDummyCCS hs) /\ undisturbed c c'.
Proof.
  unfold sendDummyChangeCipherSpec. destruct (sentDummyCCS hs); intros Q.
  - apply cret_Ret in Q as [-> ->]. by split; [left|].
  - run Q as u c1 Q1. apply cret_Ret in Q as [-> ->]. apply on_conn_steady in Q1 as [_ Hu]; [|settle].
    by split; [right|].
Qed.

(** The ClientHello that answers a HelloRetryRequest [hrr]. *)
Record retried (hello : clientHelloMsg.t) (keys : keySharePrivateKeys) (hrr : serverHelloMsg.t)
    (hello' : clientHelloMsg.t) (keys' : keySharePrivateKeys) : Prop := {
  re_change : serverHelloMsg.selectedGroup hrr <> 0 \/ serverHelloMsg.cookie hrr <> [];
  re_cookie : serverHelloMsg.cookie hrr <> [] -> clientHelloMsg.cookie hello' = serverHelloMsg.cookie hrr;
  re_group : serverHelloMsg.selectedGroup hrr <> 0 ->
    In (serverHelloMsg.selectedGroup hrr) (clientHelloMsg.supportedCurves hello) /\
    (forall ks, In ks (clientHelloMsg.keyShares hello) -> group ks <> serverHelloMsg.selectedGroup hrr) /\
    ksp_curveID keys' = serverHelloMsg.selectedGroup hrr /\
    clientHelloMsg.keyShares hello' = [mkKeyShare (serverHelloMsg.selectedGroup hrr) (PublicBytes (PublicOf (ecdhe keys')))];
  re_same : serverHelloMsg.selectedGroup hrr = 0 ->
    keys' = keys /\ clientHelloMsg.keyShares hello' = clientHelloMsg.keyShares hello;
  re_suites : clientHelloMsg.cipherSuites hello' = clientHelloMsg.cipherSuites hello
}.

Lemma retry_share_Ret (hs hs' : hstate) c c' : retry_share dyn_off rand generated hs c = (Ret hs', c') ->
  (exists m keys, hs' = set_hello m keys hs /\
    clientHelloMsg.cipherSuites m = clientHelloMsg.cipherSuites (hello hs) /\ clientHelloMsg.cookie m = clientHelloMsg.cookie (hello hs) /\
    let g := serverHelloMsg.selectedGroup (serverHello hs) in
    (g <> 0 -> In g (clientHelloMsg.supportedCurves (hello hs)) /\
      (forall ks, In ks (clientHelloMsg.keyShares (hello hs)) -> group ks <> g) /\ ksp_curveID keys = g /\
      clientHelloMsg.keyShares m = [mkKeyShare g (PublicBytes (PublicOf (ecdhe keys)))]) /\
    (g = 0 -> keys = keyShareKeys hs /\ clientHelloMsg.keyShares m = clientHelloMsg.keyShares (hello hs))) /\
  held (conn c') = held (conn c) /\ cl c' = cl c.
Proof.
  unfold retry_share. destruct (Z.eqb_spec (serverHelloMsg.selectedGroup (serverHello hs)) 0) as [Hg|Hg].
  { intros Q. apply cret_Ret in Q as [-> ->]. split; [|done]. exists (hello hs), (keyShareKeys hs).
    split_and!; [by destruct hs|done..|done|done]. }
  destruct (contains _ _) eqn:Hc; [|intros Q; refuse Q]. cbn [negb].
  destruct (existsb _ _) eqn:He; [intros Q; refuse Q|]. destruct (curveForCurveID _); [|intros Q; refuse Q].
  intros Q. run Q as n c1 Q1. apply cget_conn in Q1 as [-> ->]. run Q as u c1 Q1.
  apply on_conn_steady in Q1 as [_ Hu]; [|settle]. run Q as key c2 Q2. apply or_calert_Ret in Q2 as [_ ->].
  apply cret_Ret in Q as [-> ->]. split; [|exact Hu]. eexists _, _. split; [reflexivity|]. cbn. split_and!; [done..| |done].
  intros _. split_and!; [|..|done|done].
  - apply existsb_exists in Hc as (x & Hx & E%Z.eqb_eq). by subst x.
  - intros ks Hks E. apply not_true_iff_false in He. apply He, existsb_exists. exists ks. by rewrite E, Z.eqb_refl.
Qed.

Lemma retry_psk_Ret chHash (hs hs' : hstate) c c' : retry_psk (B:=B) dyn_off rand config chHash hs c = (Ret hs', c') ->
  c' = c /\ exists m, hs' = set_hello m (keyShareKeys hs) hs /\
    clientHelloMsg.cipherSuites m = clientHelloMsg.cipherSuites (hello hs) /\
    clientHelloMsg.cookie m = clientHelloMsg.cookie (hello hs) /\
    clientHelloMsg.keyShares m = clientHelloMsg.keyShares (hello hs).
Proof.
  unfold retry_psk. destruct (_ =? 0)%nat.
  { intros Q. apply cret_Ret in Q as [-> ->]. split; [done|]. exists (hello hs). split_and!; [by destruct hs|done..]. }
  destruct (session hs) as [s|]; [|intros Q; refuse Q].
  destruct (cipherSuiteTLS13ByID _) as [ps|]; [|intros Q; refuse Q].
  destruct (bool_decide _); intros Q.
  - run Q as hrr c1 Q1. apply clift_Ret in Q1 as [_ ->]. run Q as m c1 Q1. apply clift_Ret in Q1 as [Q1 ->].
    apply cret_Ret in Q as [-> ->]. split; [done|]. exists m. split; [done|]. unfold computeAndUpdatePSK in Q1.
    destruct (clientHelloMsg.marshalWithoutBinders _ _) as [hb| |]; [|done..]. cbn [obind] in Q1.
    destruct (suite_finishedHash _ _ _) as [bd| |]; [|done..]. cbn [obind] in Q1. unfold clientHelloMsg.updateBinders in Q1.
    destruct (_ || _); [done|]. by injection Q1 as <-.
  - apply cret_Ret in Q as [-> ->]. split; [done|]. by eexists.
Qed.
End stages.
