(* ===== verification/ClientAuth.v ===== *)
(** * What a TLS 1.3 client has checked

    A client whose handshake returns without error, and without a session to
    resume, has verified the server: its certificates, its signature of the
    transcript, its Finished message; and it uses the keys of that transcript. *)

From S2P Require Import Prelude Common HalfConn Cryptobyte Hello Messages Gcm CipherSuites Kdf Conn ConnProofs.
From S2P Require Import Negotiation Auth KeyAgreement Ticket RealityHandshake Post RealityFlight RealityStages Steady.
From S2P Require Import Client Client13 ClientStages.

Open Scope go_scope.

Section stages.
Context {S A C K : Type} `{Stream S} `{RecordAEAD A} `{CbcMode C} `{MacFun K}.
Context `{Hashes} `{CryptoString} {B : Type} `{Builder B} {X P T : Type} `{X509 X} `{CertificateChains X P}.
Context `{EcdhCurves} `{Decapsulation} `{Verifiers P} `{!ClientSessionCache T (SessionState.t X)}.
Abbreviation cln := (client S A C K X T).
Abbreviation hstate := (clientHandshakeStateTLS13.t X).
Import clientHandshakeStateTLS13.
Implicit Types c : cln.

Context (dyn_off : bool) (rand : nat -> nat -> option bytes).
Context (generated : nat -> ecdh_Curve -> outcome conn_error ecdhPrivateKey).
Context (suite_aead : aead_fn -> bytes -> bytes -> outcome conn_error A).
Context (signed_by : nat -> PrivateKey P -> bool -> sig_hash -> bytes -> outcome conn_error bytes).
Context (fips : bool).
Context (config : clientConfig X P CertPool).

Abbreviation c_vers c := (vers (conn c)).
Abbreviation in_secret c := (HalfConn.trafficSecret (cin (conn c))).
Abbreviation out_secret c := (HalfConn.trafficSecret (cout (conn c))).
Abbreviation c_info c := (ClientConn.info (cl c)).

(** ** The hellos in the transcript *)

(** What precedes the ServerHello: the ClientHello, or its hash, a
    HelloRetryRequest and the second ClientHello. *)
Inductive hellos (s : cipherSuiteTLS13) (hello : clientHelloMsg.t) (keys : keySharePrivateKeys) (m : serverHelloMsg.t)
  : clientHelloMsg.t -> keySharePrivateKeys -> serverHelloMsg.t -> list bytes -> Prop :=
| hello_once ch : transcriptMsg B (ClientHello hello) = Ret ch -> is_retry_request m = false ->
    hellos s hello keys m hello keys m [ch]
| hello_twice ch hrr ch2 hello' keys' m' :
    transcriptMsg B (ClientHello hello) = Ret ch -> is_retry_request m = true ->
    transcriptMsg B (ServerHello m) = Ret hrr -> retried hello keys m hello' keys' ->
    marshal_message B (ClientHello hello') = Ret ch2 ->
    hellos s hello keys m hello' keys' m' [message_hash (d_Sum (digest_of s [ch])); hrr; ch2].

Lemma check_retry_Ret m c u c' : check_retry dyn_off rand m c = (Ret u, c') ->
  c' = c /\ (serverHelloMsg.selectedGroup m <> 0 \/ serverHelloMsg.cookie m <> []).
Proof.
  unfold check_retry. destruct (bool_decide _); [intros Q; refuse Q|].
  destruct (_ && _) eqn:Hu; [intros Q; refuse Q|]. destruct (negb _); [intros Q; refuse Q|].
  intros Q. apply cret_Ret in Q as [_ ->]. split; [done|]. apply andb_false_iff in Hu as [Hg|Hk].
  - left. by apply Z.eqb_neq.
  - right. intros E. by rewrite E in Hk.
Qed.

Lemma processHelloRetryRequest_Ret (hs hs' : hstate) s ch c c' :
  transcript hs = digest_of s [ch] -> suite hs = s -> cipherSuiteTLS13ByID (id13 s) = Some s ->
  processHelloRetryRequest (B:=B) dyn_off rand generated config hs c = (Ret hs', c') ->
  exists hrr ch2, transcriptMsg B (ServerHello (serverHello hs)) = Ret hrr /\
    retried (hello hs) (keyShareKeys hs) (serverHello hs) (hello hs') (keyShareKeys hs') /\
    marshal_message B (ClientHello (hello hs')) = Ret ch2 /\
    transcript hs' = digest_of s [message_hash (d_Sum (digest_of s [ch])); hrr; ch2] /\ suite hs' = s /\
    certReq hs' = certReq hs /\ usingPSK hs' = usingPSK hs /\
    serverHelloMsg.cipherSuite (serverHello hs') = id13 s /\
    held (conn c') = held (conn c).
Proof.
  intros Ht Hs Hid Q. unfold processHelloRetryRequest in Q.
  run Q as hrr c1 Q1. apply clift_Ret in Q1 as [Hhrr ->].
  set (hs1 := set_transcript _ hs) in Q.
  assert (Ht1 : transcript hs1 = digest_of s [message_hash (d_Sum (digest_of s [ch])); hrr]).
  { unfold hs1. cbn [transcript set_transcript]. rewrite Ht. unfold digest_of, d_Write, new_digest.
    cbn [d_fn d_written concat app]. by rewrite (app_nil_r hrr). }
  run Q as u c1 Q1. apply check_retry_Ret in Q1 as [-> Hch]. change (serverHello hs1) with (serverHello hs) in *.
  set (hs2 := if (length _ =? 0)%nat then hs1 else _) in Q.
  assert (E2 : exists m2, hs2 = set_hello m2 (keyShareKeys hs) hs1 /\
    (serverHelloMsg.cookie (serverHello hs) <> [] -> clientHelloMsg.cookie m2 = serverHelloMsg.cookie (serverHello hs)) /\
    clientHelloMsg.supportedCurves m2 = clientHelloMsg.supportedCurves (hello hs) /\
    clientHelloMsg.keyShares m2 = clientHelloMsg.keyShares (hello hs) /\
    clientHelloMsg.cipherSuites m2 = clientHelloMsg.cipherSuites (hello hs)).
  { unfold hs2. destruct (Nat.eqb_spec (length (serverHelloMsg.cookie (serverHello hs))) 0) as [E|E].
    - exists (hello hs). split_and!; [by destruct hs|intros N; by apply length_zero_iff_nil in E|done..].
    - eexists. split; [reflexivity|]. by split_and!. }
  destruct E2 as (m2 & E2 & Hck & Hcu & Hks & Hcs). clearbody hs2. subst hs2.
  run Q as hs3 c1 Q1. apply retry_share_Ret in Q1 as [(m3 & k3 & -> & Hcs3 & Hck3 & Hg & Hng) [Hh1 _]].
  cbn in Hg, Hng, Hcs3, Hck3. run Q as hs4 c2 Q2. apply retry_psk_Ret in Q2 as (-> & m4 & -> & Hcs4 & Hck4 & Hks4).
  cbn in Hcs4, Hck4, Hks4. destruct (clientHelloMsg.earlyData _); [refuse Q|].
  run Q as hs5 c2 Q2. apply csend_Ret in Q2 as (ch2 & Hm & -> & [Hh2 _]). cbn in Hm.
  run Q as r c3 Q3. destruct r as [msg data]. apply read_Ret in Q3 as [_ [Hh3 _]].
  destruct msg as [| |m'| | | | | | | | | | | | | | | ]; try refuse Q.
  run Q as s' c4 Q4. apply checkServerHello_Ret in Q4 as (_ & _ & Hmut & Hsame & ->).
  run Q as u1 c5 Q5. apply cmodify_Ret in Q5 as ->. apply cret_Ret in Q as [-> ->].
  specialize (Hsame s). change (suite (set_serverHello _ _)) with (suite hs) in Hsame.
  assert (Hss : s' = s).
  { apply mutual13_id in Hmut as [Hm' _]. rewrite Hsame in Hm' by (by rewrite <- Hs). congruence. }
  subst s'. exists hrr, ch2. split_and!; try done.
  - constructor; cbn; try done.
    + intros N. by rewrite Hck4, Hck3, Hck.
    + intros N. rewrite Hks4. rewrite <- Hcu. destruct (Hg N) as (? & Hn & ? & ?). split_and!; try done.
      intros ks Hin. apply Hn. by rewrite Hks.
    + intros N. destruct (Hng N) as [Hk3 Hs3]. by rewrite Hks4, Hs3, Hks.
    + by rewrite Hcs4, Hcs3, Hcs.
  - change (d_Write ch2 (transcript hs1) = digest_of s [message_hash (d_Sum (digest_of s [ch])); hrr; ch2]).
    by rewrite Ht1, digest_of_write.
  - by apply mutual13_id in Hmut as [_ ->].
  - cbn. congruence.
Qed.

Lemma start13_Ret hello keys m (sess : option (SessionState.t X)) early bk c (hs : hstate) c' :
  start13 (B:=B) dyn_off rand generated config hello keys m sess early bk c = (Ret hs, c') ->
  exists pre sh, hellos (suite hs) hello keys m (clientHandshakeStateTLS13.hello hs) (keyShareKeys hs) (serverHello hs) pre /\
    transcriptMsg B (ServerHello (serverHello hs)) = Ret sh /\
    transcript hs = digest_of (suite hs) (pre ++ [sh]) /\
    In (id13 (suite hs)) (clientHelloMsg.cipherSuites hello) /\
    certReq hs = None /\ usingPSK hs = false /\ held (conn c') = held (conn c).
Proof.
  intros Q. unfold start13 in Q. run Q as s c1 Q1.
  apply checkServerHello_Ret in Q1 as (_ & _ & Hmut & _ & ->). destruct (mutual13_id _ _ _ Hmut) as [Hid Hw].
  assert (Hin : In (id13 s) (clientHelloMsg.cipherSuites hello)).
  { rewrite Hw. clear - Hmut. induction (clientHelloMsg.cipherSuites hello) as [|i l IH]; [done|].
    cbn in Hmut. destruct (Z.eqb_spec i (serverHelloMsg.cipherSuite m)); [by left|right; by apply IH]. }
  run Q as ch c1 Q1. apply clift_Ret in Q1 as [Hch ->].
  set (hs0 := mk m hello _ _ _ _ _ _ _ _ _ _ _) in Q. set (c0 := mkClient _ _) in Q.
  assert (Ht0 : transcript hs0 = digest_of s [ch]).
  { unfold hs0, digest_of, d_Write, new_digest. cbn. by rewrite app_nil_r. }
  run Q as hs1 c1 Q1. run Q as sh c2 Q2. apply clift_Ret in Q2 as [Hsh ->]. apply cret_Ret in Q as [-> ->].
  assert (Hh0 : held (conn c0) = held (conn c)) by done. clearbody c0.
  destruct (is_retry_request m) eqn:Hr.
  - run Q1 as hs2 c2 Q2. apply ccs_Ret in Q2 as [Hccs [Hh2 _]].
    assert (Hf : transcript hs2 = digest_of s [ch] /\ suite hs2 = s /\ clientHandshakeStateTLS13.hello hs2 = hello /\ keyShareKeys hs2 = keys /\
      serverHello hs2 = m /\ certReq hs2 = None /\ usingPSK hs2 = false).
    { by destruct Hccs as [->| ->]; split_and!. }
    destruct Hf as (Ht2 & Hs2 & Hl2 & Hk2 & Hm2 & Hr2 & Hu2).
    destruct (processHelloRetryRequest_Ret hs2 hs1 s ch c2 c1 Ht2 Hs2 Hid Q1)
      as (hrr & ch2 & Hhrr & Hret & Hch2 & Ht & Hs & Hr1 & Hu1 & _ & Hh1).
    rewrite Hl2, Hk2, Hm2 in Hret. rewrite Hm2 in Hhrr.
    exists [message_hash (d_Sum (digest_of s [ch])); hrr; ch2], sh.
    change (suite (set_transcript _ hs1)) with (suite hs1). rewrite Hs.
    cbn [clientHandshakeStateTLS13.hello keyShareKeys serverHello transcript certReq usingPSK set_transcript].
    rewrite Ht, digest_of_write. split_and!; [by econstructor|congruence..].
  - apply cret_Ret in Q1 as [-> ->]. exists [ch], sh. split_and!; try done; [by constructor|].
    cbn [transcript set_transcript]. by rewrite Ht0, digest_of_write.
Qed.

Lemma processServerHello_Ret (hs hs' : hstate) c c' : processServerHello dyn_off rand hs c = (Ret hs', c') ->
  is_retry_request (serverHello hs) = false /\
  Exists (fun ks => group ks = group (serverHelloMsg.serverShare (serverHello hs))) (clientHelloMsg.keyShares (hello hs)) /\
  (hs' = hs /\ c' = c \/ hs' = set_usingPSK hs) /\ held (conn c') = held (conn c).
Proof.
  intros Q. unfold processServerHello in Q. destruct (is_retry_request _); [refuse Q|].
  destruct (negb _); [refuse Q|]. destruct (negb _); [refuse Q|]. destruct (_ =? 0); [refuse Q|].
  destruct (existsb _ _) eqn:He; [|refuse Q]. cbn [negb] in Q. split; [done|]. split.
  { apply existsb_exists in He as (ks & Hin & E%Z.eqb_eq). apply Exists_exists. exists ks. by rewrite list_elem_of_In. }
  destruct (serverHelloMsg.selectedIdentityPresent _); cbn [negb] in Q.
  2: { apply cret_Ret in Q as [-> ->]. by split; [left|]. }
  destruct (_ <=? _); [refuse Q|]. destruct (session hs) as [s|]; [|refuse Q].
  destruct (negb _); [refuse Q|]. destruct (cipherSuiteTLS13ByID _); [|refuse Q]. destruct (negb _); [refuse Q|].
  run Q as u c1 Q1. run Q1 as u1 c2 Q2. apply cmodify_Ret in Q2 as ->. apply cmodify_Ret in Q1 as ->.
  apply cret_Ret in Q as [-> ->]. by split; [right|].
Qed.

(** The key that a key share of the server agrees on. *)
Definition agreed (keys : keySharePrivateKeys) (share : keyShare) (shared : bytes) : Prop :=
  let hybrid := group share =? X25519MLKEM768 in
  exists peer x, NewPublicKeyOn (CurveOf (ecdhe keys)) (if hybrid then drop CiphertextSize768 (ks_data share) else ks_data share) = Ret peer /\
    ECDHWith (ecdhe keys) peer = Ret x /\
    if hybrid then length (ks_data share) = (CiphertextSize768 + x25519PublicKeySize)%nat /\
      exists dk ss, mlkem keys = Some dk /\ Decapsulate dk (take CiphertextSize768 (ks_data share)) = Ret ss /\ shared = ss ++ x
    else shared = x.

Lemma client_shared_Ret keys share c shared c' :
  client_shared dyn_off rand keys share c = (Ret shared, c') -> agreed keys share shared /\ c' = c.
Proof.
  unfold client_shared, agreed. destruct (group share =? X25519MLKEM768); cbn [andb].
  - destruct (Nat.eqb_spec (length (ks_data share)) (CiphertextSize768 + x25519PublicKeySize)) as [Hl|]; [|intros Q; refuse Q].
    cbn [negb]. intros Q. run Q as peer c1 Q1. apply or_cfail_Ret in Q1 as [Hp ->].
    run Q as x c1 Q1. apply or_cfail_Ret in Q1 as [Hx ->]. destruct (mlkem keys) as [dk|]; [|refuse Q].
    run Q as ss c1 Q1. apply or_cfail_Ret in Q1 as [Hss ->]. apply cret_Ret in Q as [-> ->]. split; [|done].
    exists peer, x. split_and!; try done. by exists dk, ss.
  - intros Q. run Q as peer c1 Q1. apply or_cfail_Ret in Q1 as [Hp ->].
    run Q as x c1 Q1. apply or_cfail_Ret in Q1 as [Hx ->]. apply cret_Ret in Q as [-> ->]. split; [|done]. by exists peer, x.
Qed.

Lemma out_secret_Ret s lvl secret c u c' : on_conn (set_out_secret suite_aead s lvl secret) c = (Ret u, c') ->
  exists a, traffic_keys suite_aead s secret = Ret a /\ cl c' = cl c /\ c_vers c' = c_vers c /\
    handshakes (conn c') = handshakes (conn c) /\ in_secret c' = in_secret c /\ out_secret c' = secret /\
    hc_cipher (cout (conn c')) = Some (CAead a).
Proof.
  intros Q. apply on_conn_Ret in Q as [Q ?]. apply bind_Ret in Q as (a & k & [= Q <-] & Q2).
  injection Q2 as _ E. exists a. by rewrite <- E.
Qed.
Lemma in_secret_Ret s lvl secret c u c' : on_conn (set_in_secret suite_aead s lvl secret) c = (Ret u, c') ->
  exists a, traffic_keys suite_aead s secret = Ret a /\ cl c' = cl c /\ c_vers c' = c_vers c /\
    handshakes (conn c') = handshakes (conn c) /\ out_secret c' = out_secret c /\ in_secret c' = secret /\
    hc_cipher (cin (conn c')) = Some (CAead a).
Proof.
  intros Q. apply on_conn_Ret in Q as [Q ?]. apply bind_Ret in Q as (a & k & [= Q <-] & Q2).
  injection Q2 as _ E. exists a. by rewrite <- E.
Qed.

(** The secrets of the handshake, from the shared key and the transcript. *)
Record handshake_secrets (s : cipherSuiteTLS13) (shared : bytes) (d : digest) (client server : bytes) (ms : tls13.MasterSecret)
  : Prop := {
  sec_client : exists secret,
    tls13.derive_HandshakeSecret (E:=conn_error) (tls13.NewEarlySecret (suite_hash s) None) (Some shared) = Ret secret /\
    tls13.ClientHandshakeTrafficSecret (E:=conn_error) secret (Some d) = Ret client /\
    tls13.ServerHandshakeTrafficSecret (E:=conn_error) secret (Some d) = Ret server /\
    tls13.derive_MasterSecret (E:=conn_error) secret = Ret ms
}.

Lemma establish_Ret (hs hs' : hstate) c c' : usingPSK hs = false ->
  establishHandshakeKeys dyn_off rand suite_aead config hs c = (Ret hs', c') ->
  exists shared client server ms, agreed (keyShareKeys hs) (serverHelloMsg.serverShare (serverHello hs)) shared /\
    handshake_secrets (suite hs) shared (transcript hs) client server ms /\
    hs' = set_masterSecret ms hs /\ c_vers c' = c_vers c /\ in_secret c' = server /\ out_secret c' = client.
Proof.
  intros Hu Q. unfold establishHandshakeKeys in Q. run Q as shared c1 Q1. apply client_shared_Ret in Q1 as [Hag ->].
  run Q as u c1 Q1. apply cmodify_Ret in Q1 as ->.
  run Q as early c1 Q1. apply clift_Ret in Q1 as [He ->]. unfold early_secret in He. rewrite Hu in He. injection He as <-.
  run Q as secret c1 Q1. apply clift_Ret in Q1 as [Hsec ->].
  run Q as client c1 Q1. apply clift_Ret in Q1 as [Hcl ->].
  run Q as u1 c1 Q1. apply out_secret_Ret in Q1 as (a & _ & _ & Hv1 & _ & Hi1 & Ho1 & _).
  run Q as server c2 Q2. apply clift_Ret in Q2 as [Hsv ->].
  run Q as u2 c2 Q2. apply in_secret_Ret in Q2 as (b & _ & _ & Hv2 & _ & Ho2 & Hi2 & _).
  run Q as u3 c3 Q3. apply log_secret_Ret in Q3 as ->. run Q as u4 c3 Q3. apply log_secret_Ret in Q3 as ->.
  run Q as ms c3 Q3. apply clift_Ret in Q3 as [Hms ->]. apply cret_Ret in Q as [-> ->].
  exists shared, client, server, ms. split_and!; try done; [|by rewrite Hv2, Hv1|by rewrite Ho2].
  constructor. by exists secret.
Qed.

Lemma held_in c c' : held (conn c') = held (conn c) ->
  c_vers c' = c_vers c /\ in_secret c' = in_secret c /\ out_secret c' = out_secret c /\ handshakes (conn c') = handshakes (conn c).
Proof. by intros [= -> _ -> -> ->]. Qed.

Lemma readServerParameters_Ret (hs hs' : hstate) c c' : readServerParameters dyn_off rand hs c = (Ret hs', c') ->
  exists data ee, unmarshal_message (c_vers c) data = Some (EncryptedExtensions ee) /\
    checkALPN (clientHelloMsg.alpnProtocols (hello hs)) (encryptedExtensionsMsg.alpnProtocol ee) false = Ret tt /\
    hs' = set_transcript (d_Write data (transcript hs)) hs /\ held (conn c') = held (conn c).
Proof.
  intros Q. unfold readServerParameters in Q. run Q as r c1 Q1. destruct r as [msg data].
  apply read_Ret in Q1 as [Hm [Hh _]]. destruct msg as [| | | | | | | | | | | | | | |ee| | ]; try refuse Q.
  run Q as u c2 Q2. apply or_calert_Ret in Q2 as [Ha ->]. run Q as u2 c2 Q2. apply cmodify_Ret in Q2 as ->.
  destruct (bool_decide _); [refuse Q|]. run Q as u3 c3 Q3. apply cret_Ret in Q as [-> ->].
  exists data, ee. split_and!; try done; [by destruct u|].
  unfold check_early_data in Q3. destruct (_ && _); [refuse Q3|]. destruct (_ && _); [refuse Q3|].
  destruct (encryptedExtensionsMsg.earlyData ee); [|by apply cret_Ret in Q3 as [_ ->]].
  run Q3 as x c4 Q4. apply cget_Ret in Q4 as [-> ->]. run Q3 as i c4 Q4. apply cget_Ret in Q4 as [-> ->].
  destruct (session (set_transcript _ hs)); [|refuse Q3]. destruct (negb _); [refuse Q3|]. destruct (negb _); [refuse Q3|].
  by apply cret_Ret in Q3 as [_ ->].
Qed.

(** ** The server's certificate, its signature and its Finished *)

(** What [check_signature] accepts of a certificate's key. *)
Definition signature_ok (leaf : X) (v : certificateVerifyMsg.t) (d : digest) : Prop :=
  let alg := certificateVerifyMsg.signatureAlgorithm v in
  isSupportedSignatureAlgorithm alg (supportedSignatureAlgorithms fips) = true /\
  exists sigType sigHash signed, typeAndHashFromSignatureScheme alg = Ret (sigType, sigHash) /\
    sigType <> signaturePKCS1v15 /\ sigHash <> HashSHA1 /\
    signedMessage (E:=conn_error) sigHash serverSignatureContext d = Ret signed /\
    verifyHandshakeSignature sigType (cert_PublicKey leaf) sigHash signed (certificateVerifyMsg.signature v) = None.

Lemma check_signature_Ret (hs : hstate) v c u c' : check_signature dyn_off rand fips hs v c = (Ret u, c') ->
  exists leaf rest, peerCertificates (c_info c) = leaf :: rest /\ signature_ok leaf v (transcript hs) /\ c' = c.
Proof.
  unfold check_signature, signature_ok. destruct (isSupportedSignatureAlgorithm _ _); [|intros Q; refuse Q]. cbn [negb].
  destruct (typeAndHashFromSignatureScheme _) as [[st sh]|e|w]; [|intros Q; refuse Q..].
  destruct (Z.eqb_spec st signaturePKCS1v15); [intros Q; refuse Q|]. cbn [orb].
  destruct (bool_decide_reflect (sh = HashSHA1)); [intros Q; refuse Q|]. intros Q.
  run Q as signed c1 Q1. apply clift_Ret in Q1 as [Hs ->]. run Q as i c1 Q1. apply cget_Ret in Q1 as [-> ->].
  destruct (peerCertificates _) as [|leaf rest]; [done|].
  destruct (verifyHandshakeSignature _ _ _ _ _) eqn:Hv; [refuse Q|]. apply cret_Ret in Q as [_ ->].
  exists leaf, rest. split_and!; try done. by exists st, sh, signed.
Qed.

(** What the messages of the server do not change of the state. *)
Definition kept (hs : hstate) := (serverHello hs, hello hs, keyShareKeys hs, (suite hs, masterSecret hs, usingPSK hs)).

Lemma read_certificate_Ret (hs hs' : hstate) msg c c' : read_certificate dyn_off rand hs c = (Ret (msg, hs'), c') ->
  exists req data, unmarshal_message (c_vers c) data = Some msg /\
    transcript hs' = fold_left (fun d m => d_Write m d) (req ++ [data]) (transcript hs) /\
    (req = [] \/ exists r cr, req = [cr] /\ unmarshal_message (c_vers c) cr = Some (CertificateRequestTLS13 r)) /\
    kept hs' = kept hs /\ undisturbed c c'.
Proof.
  intros Q. unfold read_certificate in Q. run Q as r c1 Q1. destruct r as [msg1 data1].
  apply read_Ret in Q1 as [Hm1 Hu1].
  assert (D : (exists q, msg1 = CertificateRequestTLS13 q) \/ (cret (msg1, set_transcript (d_Write data1 (transcript hs)) hs) c1 = (Ret (msg, hs'), c')))
    by (destruct msg1; first [by left; eexists|by right]).
  destruct D as [[q ->]|Q'].
  - run Q as r c2 Q2. destruct r as [msg2 data2]. apply read_Ret in Q2 as [Hm2 Hu2]. apply cret_Ret in Q as [[= -> ->] ->].
    destruct (held_in _ _ (proj1 Hu1)) as (Hv & _). rewrite Hv in Hm2.
    exists [data1], data2. split_and!; try done; [right; by exists q, data1|by eapply undisturbed_trans].
  - apply cret_Ret in Q' as [[= -> ->] ->]. exists [], data1. split_and!; try done. by left.
Qed.

Lemma readServerCertificate_Ret (hs hs' : hstate) c c' : usingPSK hs = false ->
  readServerCertificate (B:=B) dyn_off rand fips config hs c = (Ret hs', c') ->
  exists req data m v cv leaf rest, let d := fold_left (fun d m => d_Write m d) (req ++ [data]) (transcript hs) in
    (req = [] \/ exists r cr, req = [cr] /\ unmarshal_message (c_vers c) cr = Some (CertificateRequestTLS13 r)) /\
    unmarshal_message (c_vers c) data = Some (CertificateTLS13 m) /\
    peerCertificates (c_info c') = leaf :: rest /\
    certificates_ok fips config (Certificate_ (certificateMsgTLS13.certificate m)) (leaf :: rest) (verifiedChains (c_info c')) /\
    transcriptMsg B (CertificateVerify v) = Ret cv /\ signature_ok leaf v d /\
    transcript hs' = d_Write cv d /\ kept hs' = kept hs /\
    held (conn c') = held (conn c).
Proof.
  intros Hu Q. unfold readServerCertificate in Q. rewrite Hu in Q. run Q as r c1 Q1. destruct r as [msg hs1].
  apply read_certificate_Ret in Q1 as (req & data & Hm & Ht & Hreq & Hs & [Hh1 _]).
  destruct msg as [| | | | |m| | | | | | | | | | | | ]; try refuse Q. destruct (_ =? 0)%nat; [refuse Q|].
  run Q as u c2 Q2. apply cmodify_Ret in Q2 as ->. run Q as u2 c3 Q3.
  apply verifyServerCertificate_Ret in Q3 as (certs & Hok & Hpeer & _ & Hh3).
  run Q as r c4 Q4. destruct r as [msg4 data4]. apply read_Ret in Q4 as [_ [Hh4 Hcl4]].
  destruct msg4 as [| | | | | | | | | | | | |v| | | | ]; try refuse Q.
  run Q as u5 c5 Q5. apply check_signature_Ret in Q5 as (leaf & rest & Hl & Hsig & ->).
  run Q as cv c6 Q6. apply clift_Ret in Q6 as [Hcv ->]. apply cret_Ret in Q as [-> ->].
  rewrite Hcl4, Hpeer in Hl. subst certs.
  exists req, data, m, v, cv, leaf, rest. cbn [transcript set_transcript]. rewrite <- Ht.
  rewrite Hcl4. split_and!; try done; [by rewrite <- Hl|by rewrite Hh4, Hh3].
Qed.

Lemma readServerFinished_Ret (hs hs' : hstate) c c' :
  readServerFinished (B:=B) dyn_off rand suite_aead config hs c = (Ret hs', c') ->
  exists mac fin app out, suite_finishedHash (E:=conn_error) (suite hs) (in_secret c) (transcript hs) = Ret mac /\
    transcriptMsg B (Finished (finishedMsg.mk mac)) = Ret fin /\ transcript hs' = d_Write fin (transcript hs) /\
    tls13.ServerApplicationTrafficSecret (E:=conn_error) (masterSecret hs) (Some (transcript hs')) = Ret app /\
    tls13.ClientApplicationTrafficSecret (E:=conn_error) (masterSecret hs) (Some (transcript hs')) = Ret out /\
    trafficSecret hs' = out /\ in_secret c' = app /\ kept hs' = kept hs /\ c_info c' = c_info c.
Proof.
  intros Q. unfold readServerFinished in Q. run Q as r c1 Q1. destruct r as [msg data].
  apply read_Ret in Q1 as [_ [Hh1 Hcl1]]. destruct msg as [| | | | | | | | | | | | | |m| | | ]; try refuse Q.
  destruct (held_in _ _ Hh1) as (_ & Hin & _).
  run Q as sec c2 Q2. apply cget_conn in Q2 as [-> ->]. run Q as mac c2 Q2. apply clift_Ret in Q2 as [Hmac ->].
  rewrite Hin in Hmac. destruct (bool_decide_reflect (mac = finishedMsg.verifyData m)) as [E|]; [|refuse Q]. cbn [negb] in Q.
  run Q as fin c2 Q2. apply clift_Ret in Q2 as [Hfin ->].
  run Q as out c2 Q2. apply clift_Ret in Q2 as [Hout ->]. run Q as app c2 Q2. apply clift_Ret in Q2 as [Happ ->].
  run Q as u c2 Q2. apply in_secret_Ret in Q2 as (a & _ & Hcl2 & _ & _ & _ & Hin2 & _).
  run Q as u3 c3 Q3. apply log_secret_Ret in Q3 as ->. run Q as u4 c3 Q3. apply log_secret_Ret in Q3 as ->.
  run Q as u5 c3 Q3. apply cmodify_Ret in Q3 as ->. apply cret_Ret in Q as [-> ->].
  exists mac, fin, app, out. assert (Em : m = finishedMsg.mk mac) by (rewrite E; by destruct m). rewrite <- Em.
  split_and!; try done. cbn. by rewrite Hcl2, Hcl1.
Qed.

(** ** What the client answers *)

Lemma sign_with_Ret key sigType sigHash signed c sig c' :
  sign_with signed_by key sigType sigHash signed c = (Ret sig, c') -> undisturbed c c'.
Proof.
  unfold sign_with. destruct (Signer key); [|done]. intros Q. run Q as n c1 Q1. apply cget_conn in Q1 as [-> ->].
  run Q as u c1 Q1. apply on_conn_steady in Q1 as [_ Hu]; [|settle]. by apply cret_Ret in Q as [_ ->].
Qed.

Lemma sendCertificateVerify_Ret cert req (hs hs' : hstate) c c' :
  sendCertificateVerify (B:=B) dyn_off rand signed_by fips cert req hs c = (Ret hs', c') ->
  kept hs' = kept hs /\ trafficSecret hs' = trafficSecret hs /\ undisturbed c c'.
Proof.
  unfold sendCertificateVerify. intros Q. run Q as v c1 Q1. apply cget_conn in Q1 as [-> ->].
  run Q as alg c1 Q1. apply or_calert_Ret in Q1 as [_ ->].
  destruct (typeAndHashFromSignatureScheme alg) as [[st sh]|e|w]; [|refuse Q..].
  run Q as signed c1 Q1. apply clift_Ret in Q1 as [_ ->]. run Q as sig c2 Q2. apply sign_with_Ret in Q2 as Hu.
  run Q as sig' c3 Q3. apply or_cfail_Ret in Q3 as [_ ->]. apply csend_Ret in Q as (d & _ & -> & Hu2).
  split_and!; [done..|by eapply undisturbed_trans].
Qed.

Lemma sendClientCertificate_Ret (hs hs' : hstate) c c' :
  sendClientCertificate (B:=B) dyn_off rand signed_by fips config hs c = (Ret hs', c') ->
  kept hs' = kept hs /\ trafficSecret hs' = trafficSecret hs /\ undisturbed c c'.
Proof.
  unfold sendClientCertificate. destruct (certReq hs) as [req|]; intros Q; [|by apply cret_Ret in Q as [-> ->]].
  run Q as v c1 Q1. apply cget_conn in Q1 as [-> ->]. run Q as cert c1 Q1. apply clift_Ret in Q1 as [_ ->].
  run Q as hs1 c1 Q1. apply csend_Ret in Q1 as (d & _ & -> & Hu1). destruct (_ =? 0)%nat.
  - by apply cret_Ret in Q as [-> ->].
  - apply sendCertificateVerify_Ret in Q as (Hk & Ht & Hu2). split_and!; [done..|by eapply undisturbed_trans].
Qed.

Lemma sendClientFinished_Ret (hs hs' : hstate) c c' :
  sendClientFinished (B:=B) dyn_off rand suite_aead config hs c = (Ret hs', c') ->
  kept hs' = kept hs /\ in_secret c' = in_secret c /\ out_secret c' = trafficSecret hs /\ c_info c' = c_info c.
Proof.
  unfold sendClientFinished. intros Q. run Q as sec c1 Q1. apply cget_conn in Q1 as [-> ->].
  run Q as mac c1 Q1. apply clift_Ret in Q1 as [_ ->]. run Q as hs1 c1 Q1. apply csend_Ret in Q1 as (d & _ & -> & [Hh1 Hcl1]).
  run Q as u c2 Q2. apply out_secret_Ret in Q2 as (a & _ & Hcl2 & _ & _ & Hin2 & Hout2 & _).
  run Q as k c3 Q3. apply cget_Ret in Q3 as [-> ->]. run Q as u3 c3 Q3. apply cret_Ret in Q as [-> ->].
  destruct (held_in _ _ Hh1) as (_ & Hin & _).
  assert (E3 : conn c3 = conn c2 /\ c_info c3 = c_info c2).
  { destruct (_ && _); [|by apply cret_Ret in Q3 as [_ ->]].
    run Q3 as x c4 Q4. apply clift_Ret in Q4 as [_ ->]. by apply cmodify_Ret in Q3 as ->. }
  destruct E3 as [E3 E4]. rewrite E3, E4. split_and!; [done|congruence|done|by rewrite Hcl2, Hcl1].
Qed.

(** What a handshake does not change once the keys are agreed, whether it
    resumes a session or not. *)
Definition settled (hs : hstate) := (serverHello hs, hello hs, keyShareKeys hs, (suite hs, usingPSK hs)).

Lemma kept_settled hs hs' : kept hs' = kept hs -> settled hs' = settled hs.
Proof. unfold kept, settled. by intros [= -> -> -> -> _ ->]. Qed.

Lemma establish_settled (hs hs' : hstate) c c' : establishHandshakeKeys dyn_off rand suite_aead config hs c = (Ret hs', c') ->
  settled hs' = settled hs.
Proof.
  intros Q. unfold establishHandshakeKeys in Q.
  do 11 (apply cbind_Ret in Q as (? & ? & _ & Q)). by apply cret_Ret in Q as [-> _].
Qed.

Lemma readServerCertificate_kept (hs hs' : hstate) c c' :
  readServerCertificate (B:=B) dyn_off rand fips config hs c = (Ret hs', c') -> kept hs' = kept hs.
Proof.
  destruct (usingPSK hs) eqn:Hu; intros Q.
  - unfold readServerCertificate in Q. rewrite Hu in Q. run Q as u c1 Q1. by apply cret_Ret in Q as [-> _].
  - by apply readServerCertificate_Ret in Q as (req & data & m & v & cv & leaf & rest & _ & _ & _ & _ & _ & _ & _ & Hk & _).
Qed.

Lemma stages_settled (hs hs1 hs2 hs3 hs' : hstate) c c1 c2 c3 c' :
  establishHandshakeKeys dyn_off rand suite_aead config hs c = (Ret hs1, c1) ->
  readServerParameters dyn_off rand hs1 c1 = (Ret hs2, c2) ->
  readServerCertificate (B:=B) dyn_off rand fips config hs2 c2 = (Ret hs3, c3) ->
  readServerFinished (B:=B) dyn_off rand suite_aead config hs3 c3 = (Ret hs', c') -> settled hs' = settled hs.
Proof.
  intros Q5%establish_settled Q6 Q7%readServerCertificate_kept%kept_settled Q8.
  apply readServerParameters_Ret in Q6 as (d6 & x6 & _ & _ & -> & _).
  apply readServerFinished_Ret in Q8 as (_ & _ & _ & _ & _ & _ & _ & _ & _ & _ & _ & Q8%kept_settled & _).
  by rewrite Q8, Q7, <- Q5.
Qed.

(** ** What a handshake without resumption has verified *)

(** The messages of the transcript up to the server's Finished, [pre] being the
    hellos before [sh], and what was checked of each. *)
Record server_verified (hs : hstate) (ver : Z) (c : cln) (pre : list bytes) (sh ee : bytes) (req : list bytes) (ce cv fin : bytes)
  : Prop := {
  sv_hello : transcriptMsg B (ServerHello (serverHello hs)) = Ret sh;
  sv_share : is_retry_request (serverHello hs) = false /\
    Exists (fun ks => group ks = group (serverHelloMsg.serverShare (serverHello hs))) (clientHelloMsg.keyShares (hello hs));
  sv_params : exists exts, unmarshal_message ver ee = Some (EncryptedExtensions exts) /\
    checkALPN (clientHelloMsg.alpnProtocols (hello hs)) (encryptedExtensionsMsg.alpnProtocol exts) false = Ret tt;
  sv_request : req = [] \/ exists r cr, req = [cr] /\ unmarshal_message ver cr = Some (CertificateRequestTLS13 r);
  sv_certificate : exists m v leaf rest, unmarshal_message ver ce = Some (CertificateTLS13 m) /\
    peerCertificates (c_info c) = leaf :: rest /\
    certificates_ok fips config (Certificate_ (certificateMsgTLS13.certificate m)) (leaf :: rest) (verifiedChains (c_info c)) /\
    transcriptMsg B (CertificateVerify v) = Ret cv /\
    signature_ok leaf v (digest_of (suite hs) (pre ++ [sh; ee] ++ req ++ [ce]));
  sv_keys : exists shared client server mac,
    agreed (keyShareKeys hs) (serverHelloMsg.serverShare (serverHello hs)) shared /\
    handshake_secrets (suite hs) shared (digest_of (suite hs) (pre ++ [sh])) client server (masterSecret hs) /\
    suite_finishedHash (E:=conn_error) (suite hs) server (digest_of (suite hs) (pre ++ [sh; ee] ++ req ++ [ce; cv])) = Ret mac /\
    transcriptMsg B (Finished (finishedMsg.mk mac)) = Ret fin;
  sv_traffic : let d := digest_of (suite hs) (pre ++ [sh; ee] ++ req ++ [ce; cv; fin]) in
    tls13.ServerApplicationTrafficSecret (E:=conn_error) (masterSecret hs) (Some d) = Ret (in_secret c) /\
    tls13.ClientApplicationTrafficSecret (E:=conn_error) (masterSecret hs) (Some d) = Ret (out_secret c)
}.

Lemma server_verified_kept hs hs' ver c pre sh ee req ce cv fin : kept hs' = kept hs ->
  server_verified hs ver c pre sh ee req ce cv fin -> server_verified hs' ver c pre sh ee req ce cv fin.
Proof.
  destruct hs, hs'. unfold kept. cbn. intros [= -> -> -> -> -> ->] []. by constructor.
Qed.

Lemma digest_of_writes s msgs l : fold_left (fun d m => d_Write m d) l (digest_of s msgs) = digest_of s (msgs ++ l).
Proof.
  revert msgs. induction l as [|m l IH]; intros msgs; cbn [fold_left]; [by rewrite app_nil_r|].
  by rewrite digest_of_write, IH, <- app_assoc.
Qed.

Ltac flat E := repeat (rewrite <- app_assoc in E; cbn [app] in E).

Lemma authenticate_Ret (hs hs1 hs2 hs3 hs' : hstate) pre sh c c1 c2 c3 c' : usingPSK hs = false -> transcript hs = digest_of (suite hs) (pre ++ [sh]) ->
  is_retry_request (serverHello hs) = false /\
  Exists (fun ks => group ks = group (serverHelloMsg.serverShare (serverHello hs))) (clientHelloMsg.keyShares (hello hs)) ->
  transcriptMsg B (ServerHello (serverHello hs)) = Ret sh ->
  establishHandshakeKeys dyn_off rand suite_aead config hs c = (Ret hs1, c1) ->
  readServerParameters dyn_off rand hs1 c1 = (Ret hs2, c2) ->
  readServerCertificate (B:=B) dyn_off rand fips config hs2 c2 = (Ret hs3, c3) ->
  readServerFinished (B:=B) dyn_off rand suite_aead config hs3 c3 = (Ret hs', c') ->
  exists ee req ce cv fin, forall k, in_secret k = in_secret c' -> out_secret k = trafficSecret hs' -> c_info k = c_info c' ->
    server_verified hs' (c_vers c) k pre sh ee req ce cv fin.
Proof.
  intros Hu Ht Hshare Hsh Q1 Q2 Q3 Q4.
  apply establish_Ret in Q1 as (shared & client & server & ms & Hag & Hsec & -> & Hv1 & Hi1 & _); [|done].
  apply readServerParameters_Ret in Q2 as (ee & exts & Hee & Halpn & -> & Hh2).
  destruct (held_in _ _ Hh2) as (Hv2 & Hi2 & _). apply readServerCertificate_Ret in Q3; [|done].
  destruct Q3 as (req & ce & m & v & cv & leaf & rest & Hreq & Hce & Hpeer & Hok & Hcv & Hsig & Ht3 & Hk3 & Hh3).
  destruct (held_in _ _ Hh3) as (_ & Hi3 & _).
  apply readServerFinished_Ret in Q4 as (mac & fin & inn & out & Hmac & Hfin & Ht4 & Happ & Hout & Htr & Hin4 & Hk4 & Hinfo).
  cbn [transcript set_transcript set_masterSecret] in Hsig, Ht3.
  rewrite Ht, digest_of_write, digest_of_writes in Hsig, Ht3. rewrite digest_of_write in Ht3.
  rewrite Ht4 in Happ, Hout. rewrite Ht3 in Hmac, Happ, Hout.
  rewrite digest_of_write in Happ, Hout.
  flat Hsig. flat Hmac. flat Happ. flat Hout.
  unfold kept in Hk4, Hk3. injection Hk3 as E1 E2 E3 E4 E5 _. injection Hk4 as F1 F2 F3 F4 F5 _.
  cbn in E1, E2, E3, E4, E5. rewrite E4, E5 in *.
  rewrite Hv2, Hv1 in *. rewrite Hi3, Hi2, Hi1 in Hmac.
  exists ee, req, ce, cv, fin. intros k Hin Hout' Hi.
  constructor; rewrite ?F1, ?F2, ?F3, ?F4, ?F5, ?E1, ?E2, ?E3; cbn [app]; try done.
  - by exists exts.
  - rewrite Hi, Hinfo. by exists m, v, leaf, rest.
  - exists shared, client, server, mac. rewrite <- Ht. by repeat apply conj.
  - rewrite Hin, Hout', Hin4, Htr. by split.
Qed.

(** C11: A handshake of a TLS 1.3 client that returns without error and without
    resuming a session has authenticated the server: the hellos of the transcript
    are those it sent and received, with a share of a group that it offered; the
    certificates parse and, unless [InsecureSkipVerify], chain to its roots for
    [ServerName] and pass the application's callbacks; the key of the first of
    them has signed the transcript up to the Certificate, with a supported scheme
    that is neither PKCS#1 v1.5 nor SHA-1; the Finished is the MAC, under the
    secret agreed by ECDH (and ML-KEM), of the transcript up to the signature; and
    the keys of the application data are those of the transcript up to it. *)
Theorem client_authenticates hello keys m session early bk c (hs : hstate) c' :
  handshake13 (B:=B) dyn_off rand generated suite_aead signed_by fips config hello (Some keys) m session early bk c = (Ret hs, c') ->
  usingPSK hs = false ->
  exists pre sh ee req ce cv fin,
    hellos (suite hs) hello keys m (clientHandshakeStateTLS13.hello hs) (keyShareKeys hs) (serverHello hs) pre /\
    In (id13 (suite hs)) (clientHelloMsg.cipherSuites hello) /\ isHandshakeComplete (conn c') = true /\
    server_verified hs (c_vers c) c' pre sh ee req ce cv fin.
Proof.
  unfold handshake13. intros Q Hpsk. run Q as n c1 Q1. apply cget_conn in Q1 as [-> ->]. destruct (0 <? _); [refuse Q|].
  destruct (length (clientHelloMsg.keyShares hello) =? 0)%nat; [refuse Q|].
  run Q as hs1 c1 Q1. apply start13_Ret in Q1 as (pre & sh & Hpre & Hsh & Ht & Hin & _ & Hu & Hh1).
  run Q as u2 c2 Q2. apply on_conn_steady in Q2 as [_ [Hh2 _]]; [|settle].
  run Q as hs3 c3 Q3. apply processServerHello_Ret in Q3 as (Hr & Hsh3 & Hhs3 & Hh3).
  run Q as hs4 c4 Q4. apply ccs_Ret in Q4 as [Hhs4 [Hh4 _]].
  run Q as hs5 c5 Q5. run Q as hs6 c6 Q6. run Q as hs7 c7 Q7. run Q as hs8 c8 Q8.
  assert (Hst : transcript hs4 = digest_of (suite hs1) (pre ++ [sh]) /\ (serverHello hs4, clientHandshakeStateTLS13.hello hs4,
    keyShareKeys hs4, suite hs4) = (serverHello hs1, clientHandshakeStateTLS13.hello hs1, keyShareKeys hs1, suite hs1)).
  { rewrite <- Ht. destruct Hhs4 as [->| ->], Hhs3 as [[-> _]| ->]; by split. }
  destruct Hst as [Ht4 [= F1 F2 F3 F4]].
  run Q as hs9 c9 Q9. run Q as hs10 c10 Q10. run Q as r c11 Q11. destruct r as [n err].
  apply on_conn_steady in Q11 as [_ [Hh11 Hl11]]; [|apply steady_flush].
  run Q as u12 c12 Q12. apply on_conn_steady in Q12 as [_ [Hh12 Hl12]]; [|settle].
  run Q as u13 c13 Q13. apply on_conn_Ret in Q13 as [Q13 Hl13]. injection Q13 as _ Q13. apply cret_Ret in Q as [-> ->].
  apply sendClientCertificate_Ret in Q9 as (K9 & T9 & [Hh9 Hl9]). apply sendClientFinished_Ret in Q10 as (K10 & I10 & O10 & L10).
  assert (Hk : kept hs10 = kept hs8) by congruence.
  assert (Hst : settled hs10 = settled hs4) by (apply kept_settled in Hk as ->; by eapply stages_settled).
  unfold settled in Hst. injection Hst as G1 G2 G3 G4 G5. rewrite Hpsk in G5.
  rewrite <- F4 in Ht4. rewrite <- F1 in Hr, Hsh3, Hsh. rewrite <- F2 in Hsh3.
  destruct (authenticate_Ret _ _ _ _ _ _ _ _ _ _ _ _ (eq_sym G5) Ht4 (conj Hr Hsh3) Hsh Q5 Q6 Q7 Q8) as (ee & req & ce & cv & fin & Hv).
  exists pre, sh, ee, req, ce, cv, fin. rewrite G1, G2, G3, G4, F1, F2, F3, F4. split; [done|]. split; [done|].
  rewrite <- Q13. split; [done|]. eapply server_verified_kept; [exact Hk|].
  destruct (held_in _ _ Hh9) as (_ & I9 & O9 & _), (held_in _ _ Hh11) as (_ & I11 & O11 & _), (held_in _ _ Hh12) as (_ & I12 & O12 & _).
  destruct (held_in _ _ Hh1) as (V1 & _), (held_in _ _ Hh2) as (V2 & _), (held_in _ _ Hh3) as (V3 & _), (held_in _ _ Hh4) as (V4 & _).
  rewrite <- V1, <- V2, <- V3, <- V4. apply Hv.
  - rewrite <- Q13. change (in_secret c12 = in_secret c8). congruence.
  - rewrite <- Q13. change (out_secret c12 = trafficSecret hs8). congruence.
  - rewrite Hl13, Hl12, Hl11, L10. by rewrite Hl9.
Qed.
End stages.
