(* ===== verification/PostProofs.v ===== *)
(** * Theorems about a connection after its handshake

    Key updates keep the two ends in step, and cannot be answered by the
    server of a REALITY handshake; the handshake runs once. *)

From S2P Require Import Prelude Common HalfConn HalfConnProofs RecordProofs ConnProofs Cryptobyte Hello Messages WireProofs.
From S2P Require Import Gcm GcmNonces RecordAead CipherSuites CipherSuitesProofs Kdf KdfProofs Conn Negotiation Auth Ticket RealityHandshake Post StreamProofs.
From S2P Require Import RealityMessages RealityStages MessagesProofs.

Open Scope go_scope.

Section post.
Context {S A C K : Type}.
Context `{StreamPair S} `{AeadPair A} `{CbcPair C} `{MacLaws K}.
Context `{Hashes} `{CryptoString} {B : Type} `{BuilderLaws B} {X : Type}.
Abbreviation hconn := (halfConn S A C K).
Abbreviation cn := (Conn S A C K).
Abbreviation M := (@M S A C K).
Context (dyn_off : bool) (rand : nat -> nat -> option bytes) (Hrand : forall k, rand_ok (rand k)).
Context (suite_aead : aead_fn -> bytes -> bytes -> outcome conn_error A).
Context (Hdigests : forall h, digests_ok (hash_New h)).
Context (Hsuite : forall f key iv a, suite_aead f key iv = Ret a -> bytes_ok key -> bytes_ok iv ->
  aead_pair a a /\ ra_explicitNonceLen a = 0%nat).

(** ** Key updates *)

(** The half with the next generation of its traffic secret (RFC 8446, 7.2). *)
Definition rotate (s : cipherSuiteTLS13) (h : hconn) : outcome conn_error hconn :=
  let! secret := nextTrafficSecret s (trafficSecret h) in
  let! a := traffic_keys suite_aead s secret in
  Ret (setTrafficSecret (fun _ => ([], [])) (fun _ _ => a) QUICEncryptionLevelInitial secret h).

(** [e] writes what [d] reads, under the same generation of the secret. *)
Definition in_step (e d : hconn) : Prop :=
  hc_pair e d /\ version e = VersionTLS13 /\ trafficSecret e = trafficSecret d.

Lemma traffic_keys_pair s secret a : traffic_keys suite_aead s secret = Ret a ->
  aead_pair a a /\ ra_explicitNonceLen a = 0%nat.
Proof.
  unfold traffic_keys. destruct (trafficKey s secret) as [[key iv]| |] eqn:Ek; [|done..]. intros Ha.
  destruct (trafficKey_bytes s secret key iv (Hdigests _) Ek). by eapply Hsuite.
Qed.

Lemma in_step_mac e d : in_step e d -> hc_mac e = None /\ hc_mac d = None /\ version d = VersionTLS13.
Proof.
  intros ((Hv & _ & _ & Hp) & H13 & _). rewrite <- Hv. unfold cipher_pair in Hp.
  destruct (hc_cipher e) as [[]|], (hc_cipher d) as [[]|]; try done; try (by destruct Hp as (_ & ? & _)).
  by destruct Hp as (_ & _ & ? & ?).
Qed.

(** Both ends rotate to halves that are in step again. *)
Lemma in_step_rotate s e d e' d' : in_step e d -> rotate s e = Ret e' -> rotate s d = Ret d' -> in_step e' d'.
Proof.
  intros Hp. destruct (in_step_mac e d Hp) as (Hme & Hmd & Hvd). destruct Hp as (_ & Hve & Hs).
  unfold rotate. rewrite <- Hs. destruct (nextTrafficSecret s _) as [secret| |]; [|done..]. cbn [obind].
  destruct (traffic_keys suite_aead s secret) as [a| |] eqn:Ha; [|done..]. cbn [obind]. intros [= <-] [= <-].
  apply traffic_keys_pair in Ha as [Ha Hx]. split; [|done].
  split; [cbn; congruence|]. split; [done|]. split; [split; [compute_decide|done]|]. unfold cipher_pair. by cbn.
Qed.

Lemma rotate_total s e d d' : in_step e d -> rotate s d = Ret d' -> exists e', rotate s e = Ret e'.
Proof.
  intros (_ & _ & Hs). unfold rotate. rewrite <- Hs. destruct (nextTrafficSecret s _) as [secret| |]; [|done..].
  cbn [obind]. destruct (traffic_keys suite_aead s secret) as [a| |]; [|done..]. by eexists.
Qed.

Lemma rotate_total' s e d e' : in_step e d -> rotate s e = Ret e' -> exists d', rotate s d = Ret d'.
Proof.
  intros (_ & _ & Hs). unfold rotate. rewrite Hs. destruct (nextTrafficSecret s _) as [secret| |]; [|done..].
  cbn [obind]. destruct (traffic_keys suite_aead s secret) as [a| |]; [|done..]. by eexists.
Qed.

Context (isClient : bool) (cipherSuite : Z) (s : cipherSuiteTLS13) (Hs : cipherSuiteTLS13ByID cipherSuite = Some s).
Abbreviation handleKeyUpdate := (handleKeyUpdate (B:=B) dyn_off rand suite_aead cipherSuite).

Lemma set_in_rotate secret (c : cn) u c' : nextTrafficSecret (E:=conn_error) s (trafficSecret (cin c)) = Ret secret ->
  set_in_secret suite_aead s QUICEncryptionLevelInitial secret c = (Ret u, c') ->
  exists h, rotate s (cin c) = Ret h /\ c' = with_cin h c.
Proof.
  intros Hn Hq. apply bind_Ret in Hq as (a & c1 & Ha & Hq). apply lift_same in Ha as [Ha ->]. injection Hq as _ <-.
  unfold rotate. rewrite Hn. cbn [obind]. rewrite Ha. by eexists.
Qed.

Lemma set_out_rotate secret (c : cn) u c' : nextTrafficSecret (E:=conn_error) s (trafficSecret (cout c)) = Ret secret ->
  set_out_secret suite_aead s QUICEncryptionLevelInitial secret c = (Ret u, c') ->
  exists h, rotate s (cout c) = Ret h /\ c' = with_cout h c.
Proof.
  intros Hn Hq. apply bind_Ret in Hq as (a & c1 & Ha & Hq). apply lift_same in Ha as [Ha ->]. injection Hq as _ <-.
  unfold rotate. rewrite Hn. cbn [obind]. rewrite Ha. by eexists.
Qed.

(** What is left of [handleKeyUpdate] when the reading half has been rotated. *)
Definition answer_update : M unit :=
  do! msgBytes := lift (keyUpdateMsg.marshal B (keyUpdateMsg.mk false)) in
  do! (_, err) := writeRecordLocked dyn_off rand recordTypeHandshake msgBytes in
  match err with
  | Some _ => do! _ := set_out_err err in ret tt
  | None =>
      do! c := get (fun c => c) in
      do! newSecret := lift (nextTrafficSecret s (trafficSecret (cout c))) in
      set_out_secret suite_aead s QUICEncryptionLevelInitial newSecret
  end.

Lemma handleKeyUpdate_Ret m (c : cn) u c' : handleKeyUpdate m c = (Ret u, c') ->
  exists h, rotate s (cin c) = Ret h /\
    if keyUpdateMsg.updateRequested m then answer_update (with_cin h c) = (Ret tt, c') else c' = with_cin h c.
Proof.
  unfold Post.handleKeyUpdate. rewrite Hs. intros Q. apply bind_Ret in Q as (c0 & c1 & [= <- <-] & Q).
  apply bind_Ret in Q as (secret & c1 & Hn & Q). apply lift_same in Hn as [Hn ->].
  apply bind_Ret in Q as ([] & c1 & Hq & Q). destruct (set_in_rotate secret c _ _ Hn Hq) as (h & Hr & ->).
  exists h. split; [done|]. destruct u. destruct (keyUpdateMsg.updateRequested m); cbn [negb] in Q; [exact Q|by injection Q as <-].
Qed.

Definition update_reply (reply : bytes) : Prop := keyUpdateMsg.marshal B (keyUpdateMsg.mk false) = Ret reply.

Lemma update_reply_spec reply : update_reply reply -> reply = [typeKeyUpdate; 0; 0; 1; 0].
Proof.
  unfold update_reply, keyUpdateMsg.marshal. intros Hm. built Hm. cbn in Hm. by injection Hm as <-.
Qed.

Lemma reader_after_secret d recs : trafficSecret (reader_after d recs) = trafficSecret d.
Proof.
  revert d. induction recs as [|r recs IH]; intros d; [done|]. unfold reader_after in *. cbn [fold_left].
  rewrite IH. by destruct (decrypt_half r d) as (_ & _ & ? & _).
Qed.

Lemma answer_update_cin (c c' : cn) : answer_update c = (Ret tt, c') -> cin c' = cin c.
Proof.
  intros Q. apply bind_Ret in Q as (reply & c1 & Hm & Q). apply lift_same in Hm as [_ ->].
  apply bind_Ret in Q as ([n err] & c1 & Hq & Q). unfold writeRecordLocked in Hq.
  pose proof (writeRecords_app dyn_off rand out_of_fuel (length reply) recordTypeHandshake reply 0 c (fun _ => eq_refl)) as Happ.
  change (writeRecords_fuel dyn_off rand out_of_fuel (length reply) recordTypeHandshake reply 0) with
    (writeRecords dyn_off rand recordTypeHandshake reply) in Happ. unfold bind at 1 in Hq.
  destruct (writeRecords _ _ _ _ _) as [[[k [e|]]|e|w] c2]; [| |done..]; injection Happ as _ _ _ _ Hci.
  - injection Hq as _ <- <-. apply bind_Ret in Q as (? & c3 & Hse & Q). injection Q as <-. by injection Hse as _ <-.
  - injection Hq as _ <- <-. apply bind_Ret in Q as (c3 & c4 & [= <- <-] & Q).
    apply bind_Ret in Q as (secret & c4 & Hn & Q). apply lift_same in Hn as [Hn ->].
    destruct (set_out_rotate secret c2 _ _ Hn Q) as (h & _ & ->). by rewrite <- Hci.
Qed.

(** The reply gets through, under the old secret; then the writing half is rotated. *)
Lemma answer_update_Ret (c : cn) (d : hconn) c' : writable recordTypeHandshake c d -> tls13 c -> in_step (cout c) d ->
  answer_update c = (Ret tt, c') -> hc_err (cout c') = None ->
  cin c' = cin c /\ exists frags recs reply d', update_reply reply /\ emitted c' = emitted c ++ concat recs /\
    receive_all d recs = (fun f => Ret (f, recordTypeHandshake)) <$> frags /\ concat frags = reply /\
    rotate s (reader_after d recs) = Ret d' /\ in_step (cout c') d'.
Proof.
  intros Hw H13 Hst Q He. apply bind_Ret in Q as (reply & c1 & Hm & Q). apply lift_same in Hm as [Hm ->].
  pose proof (update_reply_spec reply Hm) as Hreply.
  apply bind_Ret in Q as ([n err] & c1 & Hq & Q). unfold writeRecordLocked in Hq.
  pose proof (writeRecords_app dyn_off rand out_of_fuel (length reply) recordTypeHandshake reply 0 c (fun _ => eq_refl)) as Happ.
  change (writeRecords_fuel dyn_off rand out_of_fuel (length reply) recordTypeHandshake reply 0) with
    (writeRecords dyn_off rand recordTypeHandshake reply) in Happ.
  destruct (writeRecords_delivers dyn_off rand Hrand recordTypeHandshake reply c d) as [_ Hd];
    [done|rewrite Hreply; compute_decide|discriminate|by vm_compute|].
  unfold bind at 1 in Hq. destruct (writeRecords _ _ _ _ _) as [[[k [e|]]|e|w] c2]; [| |done..].
  { injection Hq as _ <- <-. apply bind_Ret in Q as (? & c3 & Hse & Q). injection Q as <-.
    injection Hse as _ <-. done. }
  injection Hq as _ <- <-. destruct (Hd _ c2 eq_refl) as (frags & recs & [(pt & He1 & Hpt) Hr _ (rest & Hdt & Hrest) _ Hfr Hnx]).
  rewrite Hpt, app_nil_r in He1 by done. rewrite Hrest, app_nil_r in Hdt by done.
  destruct (Hfr H13) as [_ Hfr']. destruct (Hfr' eq_refl) as [H13a H13b]. destruct (Hnx eq_refl) as [Wp _ _ _]. injection Happ as _ _ _ Ht Hci.
  assert (Hst' : in_step (cout c2) (reader_after d recs)).
  { split; [done|]. split; [done|]. rewrite Ht, reader_after_secret. by destruct Hst as (_ & _ & ?). }
  apply bind_Ret in Q as (c3 & c4 & [= <- <-] & Q). apply bind_Ret in Q as (secret & c4 & Hn & Q). apply lift_same in Hn as [Hn ->].
  destruct (set_out_rotate secret c2 _ _ Hn Q) as (h & Hro & ->). split; [done|].
  destruct (rotate_total' s _ _ h Hst' Hro) as [d' Hd']. exists frags, recs, reply, d'. split_and!; try done.
  by eapply in_step_rotate.
Qed.

(** C21: key updates keep the two ends in step.  When [handleKeyUpdate] returns
    without error, the reading half has moved to the next generation of its
    secret, together with any peer's writing half that was in step with it.
    Unless an answer was requested, nothing else has changed.  If it was, then,
    as long as writing works, the peer reads exactly a KeyUpdate that requests
    none under the old secret, and its reading half, moved on after that, is in
    step with the writing half. *)
Theorem keyUpdate_in_step m (c c' : cn) (e d : hconn) :
  in_step e (cin c) -> in_step (cout c) d -> writable recordTypeHandshake c d -> tls13 c ->
  handleKeyUpdate m c = (Ret tt, c') ->
  (exists e', rotate s e = Ret e' /\ in_step e' (cin c')) /\
  if keyUpdateMsg.updateRequested m then
    hc_err (cout c') = None -> exists frags recs reply d', update_reply reply /\ emitted c' = emitted c ++ concat recs /\
      receive_all d recs = (fun f => Ret (f, recordTypeHandshake)) <$> frags /\ concat frags = reply /\
      rotate s (reader_after d recs) = Ret d' /\ in_step (cout c') d'
  else c' = with_cin (cin c') c.
Proof.
  intros Hin Hout Hw H13 Q. apply handleKeyUpdate_Ret in Q as (h & Hr & Q).
  destruct (rotate_total s _ _ h Hin Hr) as [e' He']. pose proof (in_step_rotate s _ _ _ _ Hin He' Hr) as Hin'.
  destruct (keyUpdateMsg.updateRequested m).
  - assert (Hci : cin c' = h).
    { by apply answer_update_cin in Q. }
    split; [exists e'; by rewrite Hci|]. intros He.
    apply (answer_update_Ret (with_cin h c) d c') in Q as [_ Q]; [exact Q|by destruct Hw|done..].
  - subst c'. split; [by exists e'|done].
Qed.

(** ** Key updates after a REALITY handshake *)

Lemma update_reply_exists : update_reply [typeKeyUpdate; 0; 0; 1; 0].
Proof.
  unfold update_reply, keyUpdateMsg.marshal.
  assert (Ha : appends (B:=B) (AddUint8 typeKeyUpdate ;> AddUint24LengthPrefixed (AddUint8 0))
    (oapp (Some (be_put 1 typeKeyUpdate)) (prefixed 3 (Some (be_put 1 0))))) by appends_tac.
  specialize (Ha NewBuilder). rewrite NewBuilder_spec in Ha. exact Ha.
Qed.

(** The writing half of a server that has imitated a flight. *)
Record imitated (h : hconn) (a : A) : Prop := {
  im_version : version h = VersionTLS13;
  im_cipher : hc_cipher h = Some (CAead a);
  im_nonce : ra_explicitNonceLen a = 0%nat;
  im_lens : nth_len (handshakeLen h) 1 <> 0
}.

(** The record of the answer is refused before anything is written. *)
Lemma answer_refused (c : cn) a : imitated (cout c) a -> exists n, n < 0 /\
  answer_update c =
    (Ret tt, with_cout (set_err (Some (EPadding typeKeyUpdate n)) (cout c)) (with_rand_calls (rand_calls c + 1) c)).
Proof.
  intros [Hv Hc Hx Hl]. unfold answer_update. unfold bind at 1, lift. pose proof update_reply_exists as Hr.
  unfold update_reply in Hr. rewrite Hr. set (reply := [_; _; _; _; _]).
  destruct (other_handshake_refused (rand (rand_calls c))
    (record_header recordTypeHandshake (record_version (vers c)) 5) reply (cout c) a typeKeyUpdate
    Hv Hc Hx Hl eq_refl eq_refl eq_refl eq_refl) as (n & He & Hn).
  exists n. split; [done|].
  assert (Hw : writeRecords dyn_off rand recordTypeHandshake reply c =
    (Ret (0, Some (EPadding typeKeyUpdate n)), with_cout (cout c) (with_rand_calls (rand_calls c + 1) c))).
  { unfold writeRecords. change (length reply) with 5%nat. cbn [writeRecords_fuel]. change (length reply =? 0)%nat with false.
    cbv iota. unfold bind at 1, maxPayloadSizeForWrite.
    change (negb (recordTypeHandshake =? recordTypeApplicationData)) with true. rewrite orb_true_r.
    change (length reply) with 5%nat. change (maxPlaintext <? Z.of_nat 5) with false. cbv iota zeta.
    change (Z.of_nat 5 <? 0) with false. cbv iota. unfold bind at 1, get at 1, encrypt_record, on_out.
    change (Z.of_nat 5) with 5. change (take (Z.to_nat 5) reply) with reply. cbn [cout with_rand_calls].
    by rewrite He. }
  unfold bind at 1, writeRecordLocked. unfold bind at 1. rewrite Hw. reflexivity.
Qed.

(** C22: the server of a REALITY handshake cannot answer a key update.  Its
    reading half moves on, [handleKeyUpdate] reports no error, but nothing is
    sent: the answer is refused with the error of the padding, which is
    recorded on the writing half; and from then on every [Write] of the
    application fails with this error and sends nothing. *)
Theorem keyUpdate_silences_server m (c : cn) a h : imitated (cout c) a -> rotate s (cin c) = Ret h ->
  keyUpdateMsg.updateRequested m = true ->
  exists n c', n < 0 /\ handleKeyUpdate m c = (Ret tt, c') /\ cin c' = h /\ emitted c' = emitted c /\
    hc_err (cout c') = Some (EPadding typeKeyUpdate n) /\
    forall handshakeFn b, isHandshakeComplete c = true -> Z.land (activeCall c) 1 = 0 ->
      exists c'', Write dyn_off rand (handshakeContext handshakeFn) b c' = (Ret (0, Some (EPadding typeKeyUpdate n)), c'') /\
        emitted c'' = emitted c.
Proof.
  intros Hi Hr Hm. destruct (answer_refused (with_cin h c) a Hi) as (n & Hn & E).
  exists n, (with_cout (set_err (Some (EPadding typeKeyUpdate n)) (cout c))
    (with_rand_calls (rand_calls c + 1) (with_cin h c))). split_and!; [done| |done..|].
  - unfold Post.handleKeyUpdate. rewrite Hs. unfold bind at 1, get at 1, bind at 1, lift at 1.
    unfold rotate in Hr. destruct (nextTrafficSecret s _) as [secret| |]; [|done..]. cbn [obind] in Hr.
    destruct (traffic_keys suite_aead s secret) as [k| |] eqn:Hk; [|done..]. injection Hr as <-.
    unfold bind at 1, set_in_secret, lift, bind at 1. rewrite Hk, Hm. cbn [modify negb]. exact E.
  - clear E. intros fn b Hc Ha. unfold Write. cbn [activeCall with_cout with_rand_calls with_cin]. rewrite Ha. cbn [Z.eqb negb].
    unfold Write_body, try_, bind at 1. rewrite handshake_done by done. unfold bind, get. cbn. eexists. split; [reflexivity|done].
Qed.

(** ** The handshake runs once *)

(** C23: [Handshake] settles the connection.  Unless it panics, it either
    returns no error, and the handshake is complete, or it returns an error,
    which it records, and the handshake is not complete; and every later call
    returns the same and does nothing.  A handshake function that returns
    without completing the handshake makes it fail. *)
Theorem handshake_once handshakeFn (c c' : cn) r :
  handshakeContext handshakeFn c = (r, c') -> (forall w, r <> Panic w) ->
  handshakeContext handshakeFn c' = (r, c') /\
  ((r = Ret tt /\ isHandshakeComplete c' = true) \/
   exists e, r = Err e /\ handshakeErr c' = Some e /\ isHandshakeComplete c' = false).
Proof.
  intros Q Hw. unfold handshakeContext, bind at 1, get at 1 in Q.
  assert (Hsettled : forall e, r = Err e -> handshakeErr c' = Some e -> isHandshakeComplete c' = false ->
    handshakeContext handshakeFn c' = (r, c')).
  { intros e -> He Hc. unfold handshakeContext, bind, get. by rewrite Hc, He. }
  destruct (isHandshakeComplete c) eqn:Hc.
  { injection Q as <- <-. split; [by apply handshake_done|by left]. }
  unfold bind at 1, get at 1 in Q. destruct (handshakeErr c) as [e|] eqn:He.
  { injection Q as <- <-. split; [by eapply Hsettled|right; by exists e]. }
  unfold bind at 1, try_ at 1 in Q. destruct (handshakeFn c) as [[[]|e|w] c1]; [| |by injection Q as <- _; edestruct Hw].
  - unfold bind, modify, get in Q. cbn [isHandshakeComplete with_handshakes] in Q.
    destruct (isHandshakeComplete c1) eqn:Hc1; injection Q as <- <-.
    + split; [by apply handshake_done|by left].
    + split; [by eapply Hsettled|right; by eexists].
  - assert (Hf : exists x c2, flush c1 = (Ret x, c2)).
    { unfold flush, bind, get. destruct (_ =? 0)%nat; [by do 2 eexists|]. unfold conn_Write.
      destruct (net_w c1) as [|[]]; by do 2 eexists. }
    destruct Hf as (x & c2 & Hf). unfold bind, modify, get in Q. rewrite Hf in Q. cbn in Q.
    destruct (isHandshakeComplete c2) eqn:Hc2; injection Q as <- <-; [by edestruct Hw|].
    split; [by eapply Hsettled|right; by eexists].
Qed.
End post.

(** ** Witnesses *)

#[local] Existing Instance low_hashes.

Lemma low_digests n : digests_ok (low_bytes n).
Proof. intros m. apply be_put_ok. Qed.

Lemma w_digests h : digests_ok (hash_New h).
Proof. destruct h; apply low_digests. Qed.

Lemma w_aead_pair f key iv a : w_aead f key iv = Ret a -> bytes_ok key -> bytes_ok iv ->
  aead_pair a a /\ ra_explicitNonceLen a = 0%nat.
Proof.
  destruct f; [done| |done]. intros Ha Hk Hi. apply aeadAESGCMTLS13_ret in Ha as (Hl & g & Hg & ->); [|done].
  split; [by exists key, g, iv|done].
Qed.

Definition w_suite13 : cipherSuiteTLS13 := mkSuite13 TLS_AES_128_GCM_SHA256 16 fnAESGCMTLS13 SHA256.
Abbreviation w_update b c := (Post.handleKeyUpdate (B:=plain_builder) false (fun _ => w_rand) w_aead
  TLS_AES_128_GCM_SHA256 (keyUpdateMsg.mk b) c).

(** A client: it imitates nobody. *)
Definition w_client : Conn xor_stream _ xor_cbc Z := with_cout w_d (w_Conn []).

Lemma w_client_pair : hc_pair w_d w_d.
Proof.
  apply (setTrafficSecret_pair w_trafficKey 0 [1; 2; 3] tc4_key tc4_nonce w_f13);
    first [compute_decide|reflexivity|vm_compute; reflexivity].
Qed.

Lemma w_in_step : in_step w_d w_d /\ in_step w_e w_d.
Proof. split; (split; [first [apply w_client_pair|apply w_pair]|by split]). Qed.

Lemma w_update_ok : fst (w_update true w_client) = Ret tt /\ hc_err (cout (snd (w_update true w_client))) = None.
Proof. vm_compute. by split. Qed.

Lemma keyUpdate_in_step_witness : exists c' e' frags recs d',
  w_update true w_client = (Ret tt, c') /\ rotate w_aead w_suite13 w_e = Ret e' /\ in_step e' (cin c') /\
  receive_all w_d recs = (fun f => Ret (f, recordTypeHandshake)) <$> frags /\ concat frags = [24; 0; 0; 1; 0] /\
  in_step (cout c') d'.
Proof.
  destruct w_update_ok as [Hr He]. destruct w_in_step as [Hdd Hed].
  assert (Hu : w_update true w_client = (Ret tt, snd (w_update true w_client))) by (rewrite <- Hr; apply surjective_pairing).
  assert (Hw : writable recordTypeHandshake w_client w_d).
  { constructor; [apply w_client_pair|right; reflexivity|right; reflexivity|apply Z.le_refl]. }
  destruct (keyUpdate_in_step (B:=plain_builder) false (fun _ => w_rand) (fun _ => w_rand_ok) w_aead w_digests w_aead_pair
    TLS_AES_128_GCM_SHA256 w_suite13 eq_refl (keyUpdateMsg.mk true) w_client _ w_e w_d Hed Hdd Hw (conj eq_refl eq_refl) Hu)
    as [(e' & Hro & Hin) Hq].
  destruct (Hq He) as (frags & recs & reply & d' & Hrep & _ & Hrec & Hcc & _ & Hout).
  apply update_reply_spec in Hrep. subst reply. exists (snd (w_update true w_client)), e', frags, recs, d'.
  split; [exact Hu|]. split; [exact Hro|]. split; [exact Hin|]. split; [exact Hrec|]. split; [exact Hcc|exact Hout].
Defined.

(** [w_e] has the lengths of a target. *)
Lemma w_imitated : exists a, imitated w_e a.
Proof. eexists. split; [reflexivity..|discriminate]. Qed.

Lemma w_rotates : is_Some (ret_opt (rotate w_aead w_suite13 w_d)).
Proof. vm_compute. by eexists. Qed.

Lemma keyUpdate_silences_server_witness : exists n c', n < 0 /\ w_update true (w_Conn []) = (Ret tt, c') /\
  hc_err (cout c') = Some (EPadding typeKeyUpdate n).
Proof.
  destruct w_imitated as [a Ha]. destruct w_rotates as [h Hh].
  destruct (rotate w_aead w_suite13 w_d) as [h'| |] eqn:Hr; [|discriminate..].
  destruct (keyUpdate_silences_server (B:=plain_builder) false (fun _ => w_rand) w_aead
    TLS_AES_128_GCM_SHA256 w_suite13 eq_refl (keyUpdateMsg.mk true) (w_Conn []) a h' Ha Hr eq_refl)
    as (n & c' & Hn & Hu & _ & _ & He & _).
  exists n, c'. split; [exact Hn|]. split; [exact Hu|exact He].
Defined.

Lemma handshake_once_witness :
  handshakeContext (S:=xor_stream) (A:=xorNonceAEAD.t ForTLS13.t) (C:=xor_cbc) (K:=Z) (fail EEOF)
    (mkConn VersionTLS13 true false (w_fresh VersionTLS13 []) (w_fresh VersionTLS13 []) None [] [] [] false [] 0 0 0 0
       false None 0 (Some EEOF) [] [] [] false 0) =
  (Err EEOF, mkConn VersionTLS13 true false (w_fresh VersionTLS13 []) (w_fresh VersionTLS13 []) None [] [] [] false [] 0 0 0 0
       false None 0 (Some EEOF) [] [] [] false 0).
Proof.
  eapply (handshake_once (fail EEOF) (mkConn VersionTLS13 true false (w_fresh VersionTLS13 []) (w_fresh VersionTLS13 []) None
    [] [] [] false [] 0 0 0 0 false None 0 None [] [] [] false 0)); [reflexivity|discriminate].
Defined.
