(* ===== verification/RealityTheorems.v ===== *)
(** * The REALITY server in the place of its target

    The theorems about the whole handshake: the records on the wire have the
    lengths of the target's, and a client that holds the shared key reads in
    them a flight whose certificate proves the server. *)

From S2P Require Import Prelude Common HalfConn HalfConnProofs RecordProofs ConnProofs Cryptobyte Hello Messages WireProofs.
From S2P Require Import Gcm CipherSuites Kdf KdfProofs Conn Reality RealityScan.
From S2P Require Import Negotiation Auth Ticket RealityHandshake RealitySilent RealityFlight RealityMessages RealityStages.

Open Scope go_scope.

Lemma key_exchange_length `{KeyExchange} {E} priv share shares shared data :
  key_exchange (E:=E) priv share shares = Ret (shared, data) -> length data = length (ks_data share).
Proof.
  assert (Hcopy : forall d s, length (Gcm.copy d s) = length d).
  { intros d s. unfold Gcm.copy. rewrite length_app, length_take, length_drop. lia. }
  unfold key_exchange. destruct (_ && _); [done|]. destruct (x25519_exchange _ _) as [[pub sh]| |]; [|done..].
  cbn [obind]. destruct (group share =? X25519MLKEM768); [|intros [= _ <-]; apply Hcopy].
  destruct (NewEncapsulationKey768 _) as [k|]; [|done]. destruct (Encapsulate k) as [mlkem ct].
  destruct (_ <? 32)%nat; [done|]. intros [= _ <-]. by rewrite !Hcopy.
Qed.

Section theorems.
Context {S A C K : Type}.
Context `{StreamPair S} `{AeadPair A} `{CbcPair C} `{MacLaws K}.
Context `{Hashes} `{KeyExchange} `{CryptoString} {B : Type} `{BuilderLaws B} {X : Type} `{X509 X}.
Abbreviation hconn := (halfConn S A C K).
Abbreviation cn := (Conn S A C K).
Context (dyn_off : bool) (rand : nat -> nat -> option bytes).
Context (suite_aead : aead_fn -> bytes -> bytes -> outcome conn_error A).
Context (ed25519Priv signedCert : bytes).
Context (ed25519_Sign : bytes -> bytes -> outcome conn_error bytes).
Context (aes_ctr : bytes -> bytes -> bytes -> bytes).
Context (fips : bool).
Context (config : hsConfig X) (info : connInfo X).

(** ** What the client is told *)

(** The keys of the flight, from the shared key of the exchange and the two
    hellos. *)
Definition keys_agreed (priv : option bytes) (ch : clientHelloMsg.t) (sh : serverHelloMsg.t) (s : cipherSuiteTLS13)
    (chb shb : bytes) (secret : tls13.HandshakeSecret) (traffic : bytes) (key : A) : Prop :=
  cipherSuiteTLS13ByID (serverHelloMsg.cipherSuite sh) = Some s /\
  transcriptMsg B (ClientHello ch) = Ret chb /\
  (exists shared data,
     key_exchange (E:=conn_error) priv (serverHelloMsg.serverShare sh) (clientHelloMsg.keyShares ch) = Ret (shared, data) /\
     length data = length (ks_data (serverHelloMsg.serverShare sh)) /\
     marshal_message B (ServerHello (with_share data sh)) = Ret shb /\
     tls13.derive_HandshakeSecret (E:=conn_error) (tls13.NewEarlySecret (suite_hash s) None) shared = Ret secret) /\
  tls13.ServerHandshakeTrafficSecret (E:=conn_error) secret (Some (digest_of s [chb; shb])) = Ret traffic /\
  traffic_keys suite_aead s traffic = Ret key.

(** The four messages.  The certificate ends in a MAC with the key shared with
    the client over the public half of the key that signs the transcript. *)
Definition authenticates (s : cipherSuiteTLS13) (chb shb : bytes) (traffic ee ce cv fin : bytes) : Prop :=
  (exists retry, marshal_message B
     (EncryptedExtensions (encryptedExtensionsMsg.mk (clientProtocol info) None false retry)) = Ret ee) /\
  marshal_message B (CertificateTLS13 (certificateMsgTLS13.mk
    (mkCertificate [take (length signedCert - 64) signedCert ++ hmac sha512_fn (AuthKey info) (drop 32 ed25519Priv)] None None)
    false false)) = Ret ce /\
  (exists sig,
     ed25519_Sign ed25519Priv (signaturePadding ++ serverSignatureContext ++ d_Sum (digest_of s [chb; shb; ee; ce])) = Ret sig /\
     marshal_message B (CertificateVerify (certificateVerifyMsg.mk true Ed25519 sig)) = Ret cv) /\
  exists v, suite_finishedHash (E:=conn_error) s traffic (digest_of s [chb; shb; ee; ce; cv]) = Ret v /\
    marshal_message B (Finished (finishedMsg.mk v)) = Ret fin.

(** The key of what follows the Finished message. *)
Definition application_key (s : cipherSuiteTLS13) (chb shb : bytes) (secret : tls13.HandshakeSecret)
    (ee ce cv fin : bytes) (key : A) : Prop :=
  exists ms traffic, tls13.derive_MasterSecret (E:=conn_error) secret = Ret ms /\
    tls13.ServerApplicationTrafficSecret (E:=conn_error) ms (Some (digest_of s [chb; shb; ee; ce; cv; fin])) = Ret traffic /\
    traffic_keys suite_aead s traffic = Ret key.

(** The connection when the handshake starts. *)
Definition fresh (c : cn) (lens : list Z) (buf : option bytes) : Prop :=
  Conn.vers c = VersionTLS13 /\ version (cout c) = VersionTLS13 /\ hc_mac (cout c) = None /\
  hc_cipher (cout c) = None /\ sendBuf c = [] /\ handshakeLen (cout c) = lens /\ handshakeBuf c = buf.

(** The records of the flight behind the ChangeCipherSpec: one by message, or
    one for all of them, and one in the place of the session ticket. *)
Record flight_sent (lens : list Z) (buf : option bytes) (key1 key2 : A) (msgs : list bytes)
    (recs last : list bytes) : Prop := {
  fs_recs : receive_all (reader key1) recs = handshake_records (match buf with None => msgs | Some _ => [concat msgs] end);
  fs_lens : lens_of recs = nth_len lens <$> (match buf with None => [2; 3; 4; 5] | Some _ => [2] end)%nat;
  fs_last : lens_of last = (if nth_len lens 6 =? 0 then [] else [nth_len lens 6]);
  fs_framed : Forall (framed 3 3) (recs ++ last);
  fs_empty : Forall (fun rec => exists d, decrypt rec (reader key2) = (Ret ([], recordTypeApplicationData), d)) last
}.

(** ** The run *)

Context (Hrand : forall k, rand_ok (rand k)).
(** Digests are bytes, and those of SHA-512 are 64 of them; an AEAD of a suite
    opens what one with the same arguments seals; the inputs are bytes. *)
Context (Hdigests : forall h, digests_ok (hash_New h)) (H512 : digests_ok sha512_fn).
Context (H512len : forall m, length (h_sum sha512_fn m) = 64%nat).
Context (Hsuite : forall f key iv a, suite_aead f key iv = Ret a -> bytes_ok key -> bytes_ok iv ->
  aead_pair a a /\ ra_explicitNonceLen a = 0%nat).
Context (Hproto : bytes_ok (clientProtocol info)).
Context (Hech : Forall (fun k => bytes_ok (ech_Config k)) (EncryptedClientHelloKeys config)).
Context (Hcert : bytes_ok signedCert).
Context (Hsign : forall m sig, ed25519_Sign ed25519Priv m = Ret sig -> bytes_ok sig).
Abbreviation run := (handshake (B:=B) dyn_off rand suite_aead ed25519Priv signedCert ed25519_Sign aes_ctr fips config info).

Section flight.
(** No client certificate is asked for, no ticket is sent. *)
Context (Hauth : requestClientCert config = false) (Htickets : SessionTicketsDisabled config = true).

Abbreviation sendServerParameters := (sendServerParameters (B:=B) dyn_off rand suite_aead config info).
Abbreviation sendServerCertificate := (sendServerCertificate (B:=B) dyn_off rand ed25519Priv ed25519_Sign fips config).
Abbreviation sendServerFinished := (sendServerFinished (B:=B) dyn_off rand suite_aead aes_ctr config info).
Abbreviation send_flight := (send_flight (B:=B) dyn_off rand suite_aead ed25519Priv ed25519_Sign aes_ctr fips config info).
Abbreviation before_flush := (before_flush (B:=B) dyn_off rand suite_aead ed25519Priv signedCert ed25519_Sign aes_ctr fips config info).

Lemma no_tickets hs : shouldSendSessionTickets config hs = false.
Proof. unfold shouldSendSessionTickets. by rewrite Htickets. Qed.

Definition mac_cert : bytes :=
  take (length signedCert - 64) signedCert ++ hmac sha512_fn (AuthKey info) (drop 32 ed25519Priv).

Lemma mac_cert_ok : bytes_ok mac_cert.
Proof. apply Forall_app. split; [by apply Forall_take|by apply hmac_bytes]. Qed.

(** What follows the Finished message. *)
Lemma ticket_stage (c : cn) key (hs hs' : hstate) c' : padding c (reader key) -> handshakeBuf c = None ->
  (do! c := get (fun c => c) in
   do! _ := (if negb (nth_len (handshakeLen (cout c)) 6 =? 0)
             then do! (_, err) := writeRecord dyn_off rand recordTypeHandshake [typeNewSessionTicket] in raise err
             else ret tt) in ret hs) c = (Ret hs', c') ->
  hs' = hs /\ exists last, sendBuf c' = sendBuf c ++ concat last /\
    lens_of last = (if nth_len (handshakeLen (cout c)) 6 =? 0 then [] else [nth_len (handshakeLen (cout c)) 6]) /\
    Forall (framed 3 3) last /\
    Forall (fun rec => exists d, decrypt rec (reader key) = (Ret ([], recordTypeApplicationData), d)) last.
Proof.
  intros Hp Hb Hr. apply bind_Ret in Hr as (c1 & c2 & [= <- <-] & Hr).
  apply bind_Ret in Hr as (u & c1 & Hw & [= <- <-]). split; [done|].
  destruct (nth_len _ 6 =? 0); cbn [negb] in Hw.
  { injection Hw as _ <-. exists []. rewrite app_nil_r. by split_and!. }
  apply bind_Ret in Hw as ([n err] & c2 & Hw & Hraise). destruct err as [e|]; [done|]. injection Hraise as _ <-.
  apply (send_ticket_record dyn_off rand Hrand c (reader key) n c2 Hp Hb) in Hw as (rec & d' & Hs & Hl & Hfr & Hd).
  exists [rec]. cbn. rewrite app_nil_r, Hl. split; [done|]. split; [done|]. split; [by constructor|]. repeat constructor. by exists d'.
Qed.

(** From the first stage to the last. *)
Lemma send_flight_run hs s (c : cn) hs' c' : ready c -> sentDummyCCS hs = false -> suite hs = s ->
  transcript hs = new_digest (suite_hash s) -> cert hs = mkCertificate [mac_cert] None None -> sigAlg hs = Ed25519 ->
  (forall data, marshal_message B (ServerHello (hello hs)) = Ret data -> Z.of_nat (length data) <= maxPlaintext) ->
  send_flight hs c = (Ret hs', c') ->
  exists chb shb secret traffic key1 key2 ee ce cv fin recs last,
    transcriptMsg B (ClientHello (clientHello hs)) = Ret chb /\
    marshal_message B (ServerHello (hello hs)) = Ret shb /\
    tls13.derive_HandshakeSecret (E:=conn_error) (tls13.NewEarlySecret (suite_hash s) None) (sharedKey hs) = Ret secret /\
    tls13.ServerHandshakeTrafficSecret (E:=conn_error) secret (Some (digest_of s [chb; shb])) = Ret traffic /\
    traffic_keys suite_aead s traffic = Ret key1 /\
    authenticates s chb shb traffic ee ce cv fin /\ application_key s chb shb secret ee ce cv fin key2 /\
    flight_sent (handshakeLen (cout c)) (handshakeBuf c) key1 key2 [ee; ce; cv; fin] recs last /\
    sendBuf c' = sendBuf c ++ hello_record shb ++ ccs_record ++ concat recs ++ concat last.
Proof.
  intros Hc Hccs Hs Ht Hce Ha Hmax Hr.
  apply bind_Ret in Hr as (hs1 & c1 & Hp & Hr). rewrite <- Hs in Ht.
  apply (sendServerParameters_run dyn_off rand Hrand suite_aead) in Hp as (c0 & chb & shb & ee & key1 & Hps & Hee & Hf); [|done..].
  destruct Hps as [P1 P2 (m & Hm & P3) P4 P5 P6 P7 P8 P9 P10 P11 (P12 & P13 & P14 & P15)]. rewrite Hs in *.
  apply bind_Ret in Hr as (hs2 & c2 & Hq & Hr).
  apply (sendServerCertificate_run dyn_off rand Hrand ed25519Priv ed25519_Sign fips config Hsign Hauth hs1 s chb shb ee mac_cert c0 (reader key1) c1)
    in Hq as (ce & sig & cv & Hmce & Hsig & Hmcv & Hf2 & ->); [|done|apply mac_cert_ok|done|congruence|congruence].
  apply bind_Ret in Hr as (hs3 & c3 & Hq & Hr).
  apply (sendServerFinished_run dyn_off rand Hrand suite_aead aes_ctr config info Hdigests Hsuite Hauth _ s chb shb ee ce cv c0 (reader key1) c2)
    in Hq as (v & fin & ms & s2 & key2 & c4 & Hv & Hfin & Hl & Hms & Hs2 & Hkey & Hp2 & Hlen & Hb2 & Hsb); [|done| | | | |];
    [|by rewrite P9; apply Hc|by destruct Hee as (_ & ? & _)|by cbn|done|apply no_tickets].
  destruct Hl as (recs & d & _ & Hbn & Hsbuf & _ & Hl6 & Hframed & Hrecs). rewrite P9, P10 in *.
  apply (ticket_stage c3 key2 hs3 hs' c' Hp2) in Hr as (_ & last & Hlast & Hll & Hlf & Hle); [|congruence].
  exists chb, shb, (handshakeSecret hs1), (trafficSecret (cout c0)), key1, key2, ee, ce, cv, fin, recs, last.
  split_and!; try done.
  - apply (encrypted_extensions_shape (B:=B) config info Hech) in Hm as (retry & _ & ->).
    split; [by exists retry|]. split; [|split; [by exists sig|by exists v]]. by rewrite P14, Hce in Hmce.
  - by exists ms, s2.
  - rewrite Hlen, Hl6 in Hll. constructor; try done; [destruct (handshakeBuf c); apply Hrecs..|by apply Forall_app].
  - rewrite Hlast, Hsb, Hsbuf, P8. by rewrite <- !app_assoc.
Qed.

Lemma start_run ch sh (c : cn) hs c' : start (S:=S) (A:=A) (C:=C) (K:=K) rand ch sh c = (Ret hs, c') ->
  exists s shared data, cipherSuiteTLS13ByID (serverHelloMsg.cipherSuite sh) = Some s /\
    key_exchange (E:=conn_error) (rand (rand_calls c) 32) (serverHelloMsg.serverShare sh) (clientHelloMsg.keyShares ch) = Ret (shared, data) /\
    hs = mkHs ch (with_share data sh) false s (mkCertificate [] None None) 0 shared zero_HandshakeSecret
             zero_MasterSecret [] (new_digest (suite_hash s)) None [] None /\
    c' = with_rand_calls (rand_calls c + 1) c.
Proof.
  unfold start. destruct (cipherSuiteTLS13ByID _) as [s|]; [|done]. intros Hs.
  apply bind_Ret in Hs as (priv & c1 & [= <- <-] & Hs). apply bind_Ret in Hs as ([shared data] & c2 & Hk & [= <- <-]).
  apply lift_same in Hk as [Hk ->]. by exists s, shared, data.
Qed.

Lemma flush_run (c : cn) (hs hs' : hstate) c' : flush_all hs c = (Ret hs', c') -> hs' = hs /\ net_out c' = net_out c ++ sendBuf c.
Proof.
  intros Hf. apply bind_Ret in Hf as ([n err] & c1 & Hf & Hr). destruct err as [e|]; [done|]. injection Hr as <- <-. split; [done|].
  apply bind_Ret in Hf as (buf & c2 & [= <- <-] & Hf). destruct (sendBuf c) as [|x l] eqn:Eb.
  { injection Hf as _ <-. by rewrite app_nil_r. }
  cbn [length Nat.eqb] in Hf. apply bind_Ret in Hf as ([k err] & c2 & Hw & Hf). injection Hf as _ He <-. cbn.
  unfold conn_Write in Hw. destruct (net_w c) as [|[m e|] w]; injection Hw as _ He' <-; [done|congruence|done].
Qed.

(** The whole handshake. *)
Lemma handshake_run ch sh body (c : cn) lens buf hs c' : fresh c lens buf -> buf = None \/ buf = Some [] ->
  nth_len lens 1 <> 0 -> (forall i, nth_len lens i <= empty_size) ->
  marshal_message B (ServerHello sh) = Ret body -> Z.of_nat (length body) <= maxPlaintext ->
  run ch sh c = (Ret hs, c') ->
  exists s chb shb secret traffic key1 key2 ee ce cv fin recs last,
    keys_agreed (rand (rand_calls c) 32) ch sh s chb shb secret traffic key1 /\
    authenticates s chb shb traffic ee ce cv fin /\ application_key s chb shb secret ee ce cv fin key2 /\
    flight_sent lens buf key1 key2 [ee; ce; cv; fin] recs last /\ length shb = length body /\
    net_out c' = net_out c ++ concat (hello_record shb :: ccs_record :: recs ++ last).
Proof.
  intros (Hv & Hve & Hm & Hc & Hsb & Hl & Hb) Hbuf Hl1 Hsz Hbody Hmax Hr. rewrite handshake_split in Hr.
  apply bind_Ret in Hr as (hs1 & c1 & Hf & Hflush). apply flush_run in Hflush as (-> & Hout).
  pose proof (before_flush_kept (B:=B) dyn_off rand suite_aead ed25519Priv signedCert ed25519_Sign aes_ctr fips config info ch sh c) as Hk.
  rewrite Hf in Hk. destruct Hk as [Hno _]. rewrite Hno in Hout.
  apply bind_Ret in Hf as (hs2 & c2 & Hst & Hf). apply start_run in Hst as (s & shared & data & Hs & Hx & -> & ->).
  apply bind_Ret in Hf as (ce & c3 & Hce & Hf). apply lift_same in Hce as [Hce ->].
  apply reality_cert_shape in Hce as ->; [|apply H512len|intros m; by rewrite !H512len].
  apply bind_Ret in Hf as (u & c4 & [= _ <-] & Hf). pose proof (key_exchange_length _ _ _ _ _ Hx) as Hdl.
  assert (Hlen : forall x, marshal_message B (ServerHello (with_share data sh)) = Ret x -> length x = length body).
  { intros x Hx2. by apply (with_share_length data sh x body). }
  apply (send_flight_run _ s) in Hf; [| |done|done|done|done|done|].
  2:{ constructor; [constructor|..]; cbn; try done; [by rewrite Hl..|by rewrite Hb]. }
  2:{ intros x Hx2. by rewrite (Hlen x Hx2). }
  destruct Hf as (chb & shb & secret & traffic & key1 & key2 & ee & cb & cv & fin & recs & last & Q1 & Q2 & Q3 & Q4 & Q5 & Q6 & Q7 & Q8 & Q9).
  cbn in Q1, Q2, Q3, Q8, Q9. rewrite Hl, Hb in Q8. rewrite Hsb in Q9.
  exists s, chb, shb, secret, traffic, key1, key2, ee, cb, cv, fin, recs, last.
  split; [split; [done|]; split; [done|]; split; [by exists shared, data|done]|]. split_and!; try done; [by apply Hlen|].
  rewrite Hout, Q9. cbn [concat app]. by rewrite concat_app.
Qed.

End flight.

(** ** The lengths *)

(** The first two records of a flight. *)
Lemma flight_hellos read recs st flow rest : flight read recs st -> flow = read ++ rest -> bytes_ok flow ->
  exists r0 r1 more, recs = r0 :: r1 :: more /\ length r1 = 6%nat /\
    5 + Z.of_nat (length (slice 5 (Z.to_nat (announced flow)) flow)) = Z.of_nat (length r0) /\ Z.of_nat (length r0) <= Reality.size.
Proof.
  intros Hf -> Hok. assert (Hrec : read = concat recs ++ s2cSaved st /\ (forall i r, recs !! i = Some r -> record_ok i r) /\
    (2 <= length recs)%nat) by (destruct Hf; split_and!; try done; lia).
  destruct Hrec as (-> & Hr & Htwo). destruct recs as [|r0 [|r1 more]]; cbn in Htwo; [lia..|].
  exists r0, r1, more. destruct (Hr 0%nat r0 eq_refl) as (_ & Hl & Hsz & _). destruct (Hr 1%nat r1 eq_refl) as (_ & _ & _ & _ & ? & _).
  split; [done|]. split; [done|]. cbn [concat]. rewrite <- !app_assoc. set (t := r1 ++ _).
  assert (Hok0 : bytes_ok r0) by (cbn in Hok; rewrite <- !app_assoc in Hok; by apply Forall_app in Hok as [? _]).
  pose proof (announced_pos r0 Hok0) as Hp. unfold recordHeaderLen in Hp.
  assert (Ha : announced (r0 ++ t) = announced r0) by (unfold announced; rewrite slice_app by lia; done).
  rewrite Ha, <- Hl, Nat2Z.id, slice_app by lia. split; [|lia].
  unfold slice. rewrite length_take, length_drop. lia.
Qed.

Lemma flight_sent_lens read recs st key1 key2 msgs out last : flight read recs st -> bytes_ok read ->
  flight_sent (Reality.lens st) (scan_buf st) key1 key2 msgs out last ->
  lens_of (out ++ last) = lens_of (drop 2 recs) ++ in_progress (s2cSaved st).
Proof.
  intros Hf Hok [_ Hl Hla _ _]. unfold lens_of in *. rewrite fmap_app, Hl, Hla. clear Hl Hla.
  destruct Hf as [Hrd Hr Hlen Hhdr Hlong Hlens Hbuf|Hrd Hr Hlen n Hlens Hlast Hbuf]; rewrite Hbuf, Hlens.
  - destruct recs as [|r0 [|r1 [|? ?]]]; cbn in Hlen; try lia. cbn. by rewrite (in_progress_header 2).
  - do 6 (destruct recs as [|? recs]; [cbn in Hlen; lia|]). destruct recs; [|cbn in Hlen; lia]. cbn.
    destruct Hlast as [[-> ->]|(Hh & -> & _)]; [done|]. rewrite (in_progress_header 6) by done.
    assert (Hp : recordHeaderLen <= announced (s2cSaved st)) by (apply announced_pos; rewrite Hrd in Hok; by apply Forall_app in Hok as [_ ?]).
    unfold recordHeaderLen in Hp. by rewrite (proj2 (Z.eqb_neq _ _)) by lia.
Qed.

(** C5: the server takes the place of its target, when it neither asks for
    client certificates nor sends session tickets: whenever the loop over the
    target's bytes ends with a flight to imitate and the handshake succeeds, what the
    client receives is a record with the ServerHello, the ChangeCipherSpec and whole
    encrypted records, each with its length in its header; their lengths are, one after
    the other, those of the records of the target's flight, whether it sends its
    messages in records of their own or together in one; the last one has the length
    that the target has announced in the header of the record it is still
    sending.  (The target's ServerHello is encoded as this package would
    encode it.) *)
Theorem server_imitates_target chunks st ch sh (c : cn) hs c' :
  requestClientCert config = false -> SessionTicketsDisabled config = true -> bytes_ok (concat chunks) ->
  scan_all chunks new_scan = Complete st -> serverHello st = Some sh ->
  marshal_message B (ServerHello sh) = Ret (slice 5 (Z.to_nat (announced (concat chunks))) (concat chunks)) ->
  fresh c (Reality.lens st) (scan_buf st) -> run ch sh c = (Ret hs, c') ->
  exists read rest recs hello out, concat chunks = read ++ rest /\ flight read recs st /\
    net_out c' = net_out c ++ concat (hello_record hello :: ccs_record :: out) /\ Forall (framed 3 3) out /\
    lens_of (hello_record hello :: ccs_record :: out) = lens_of recs ++ in_progress (s2cSaved st).
Proof.
  intros Hauth Htickets Hok Hscan Hsh Hbody Hfr Hr.
  destruct (flight_recorded_lens chunks st Hok Hscan) as (read & rest & recs & Hch & Hf).
  destruct (flight_hellos read recs st _ rest Hf Hch Hok) as (r0 & r1 & more & Hrecs & Hl1 & Hl0 & Hsz).
  destruct (flight_lens read recs st Hf) as (Hccs & _ & Hsizes).
  assert (Hbuf : scan_buf st = None \/ scan_buf st = Some []) by (destruct Hf; auto).
  destruct (handshake_run Hauth Htickets ch sh _ c _ _ hs c' Hfr Hbuf ltac:(by rewrite Hccs) Hsizes Hbody
    ltac:(unfold maxPlaintext, Reality.size in *; lia) Hr) as
    (s & chb & shb & secret & traffic & key1 & key2 & ee & ce & cv & fin & out & last & _ & _ & _ & Hs & Hshb & Hout).
  exists read, rest, recs, shb, (out ++ last). split; [done|]. split; [done|]. split; [exact Hout|]. split; [by destruct Hs|].
  assert (Hread : bytes_ok read) by (rewrite Hch in Hok; by apply Forall_app in Hok as [? _]).
  change (lens_of (?a :: ?b :: ?l)) with (Z.of_nat (length a) :: Z.of_nat (length b) :: lens_of l).
  rewrite (flight_sent_lens read recs st key1 key2 _ out last Hf Hread Hs), Hrecs. cbn [drop].
  change (lens_of (r0 :: r1 :: more)) with (Z.of_nat (length r0) :: Z.of_nat (length r1) :: lens_of more).
  rewrite Hl1. cbn [app]. f_equal. unfold hello_record. rewrite length_app. cbn [header length]. lia.
Qed.

(** C6: the client that holds the shared key is told the truth, by a server
    that neither asks for client certificates nor sends session tickets (with the
    first the flight has one more message or fails, a ticket is written over):
    when the handshake succeeds the whole records behind the ChangeCipherSpec,
    decrypted with the handshake traffic key that the key schedule gives for the
    shared key of the exchange and the two hellos, are the EncryptedExtensions, the
    Certificate with the MAC under the key of the REALITY authentication, the
    signature over the transcript by the key that MAC is about and the
    Finished message of this transcript, alone or joined in one record; the
    record in the place of the session ticket, decrypted with the application
    key of the transcript, is empty application data. *)
Theorem client_reads_flight ch sh body (c : cn) lens buf hs c' :
  requestClientCert config = false -> SessionTicketsDisabled config = true ->
  fresh c lens buf -> buf = None \/ buf = Some [] ->
  nth_len lens 1 <> 0 -> (forall i, nth_len lens i <= empty_size) ->
  marshal_message B (ServerHello sh) = Ret body -> Z.of_nat (length body) <= maxPlaintext ->
  run ch sh c = (Ret hs, c') ->
  exists s chb shb secret traffic key1 key2 ee ce cv fin recs last,
    net_out c' = net_out c ++ concat (hello_record shb :: ccs_record :: recs ++ last) /\ Forall (framed 3 3) (recs ++ last) /\
    keys_agreed (rand (rand_calls c) 32) ch sh s chb shb secret traffic key1 /\
    receive_all (reader key1) recs =
      handshake_records (match buf with None => [ee; ce; cv; fin] | Some _ => [ee ++ ce ++ cv ++ fin] end) /\
    authenticates s chb shb traffic ee ce cv fin /\ application_key s chb shb secret ee ce cv fin key2 /\
    Forall (fun rec => exists d, decrypt rec (reader key2) = (Ret ([], recordTypeApplicationData), d)) last.
Proof.
  intros Hauth Htickets Hfr Hbuf H1l Hsz Hbody Hmax Hr.
  destruct (handshake_run Hauth Htickets ch sh body c lens buf hs c' Hfr Hbuf H1l Hsz Hbody Hmax Hr) as
    (s & chb & shb & secret & traffic & key1 & key2 & ee & ce & cv & fin & out & last & Ha & Hau & Hk & Hs & _ & Hout).
  exists s, chb, shb, secret, traffic, key1, key2, ee, ce, cv, fin, out, last. split_and!; try done; [by destruct Hs| |by destruct Hs].
  rewrite (fs_recs _ _ _ _ _ _ _ Hs). cbn [concat]. by rewrite app_nil_r.
Qed.
End theorems.
