(* ===== verification/RealityRun.v ===== *)
(** * A run of the REALITY server

    The theorems of the handshake at a concrete input: a target whose flight
    has been recorded, a client that knows the key, AES-GCM for the records,
    and plain functions in the place of the third-party packages. *)

From S2P Require Import Prelude Common HalfConn HalfConnProofs RecordProofs RecordAead ConnProofs Cryptobyte Hello Messages.
From S2P Require Import Aes Gcm GcmNonces CipherSuites Kdf CipherSuitesProofs KdfProofs Conn Reality RealityAuth RealityScan.
From S2P Require Import Negotiation Auth Ticket RealityHandshake Post StreamProofs PostProofs RealitySilent RealityFlight RealityMessages RealityStages RealityTheorems.

Open Scope go_scope.

#[local] Existing Instance low_hashes.
#[local] Instance raw_cert : X509 bytes := {| Raw c := c; ParseCertificate := Ret |}.

(** A key exchange by sums. *)
#[local] Instance sum_exchange : KeyExchange := {|
  ecdh_PrivateKey := bytes;
  ecdh_PublicKey := bytes;
  GenerateKey r := r;
  PublicKey_Bytes k := k;
  NewPublicKey p := if (length p =? 32)%nat then Some p else None;
  ECDH k p := Some (zip_with (fun a b => u8 (a + b)) k p);
  EncapsulationKey768 := bytes;
  NewEncapsulationKey768 k := Some k;
  Encapsulate k := (replicate 32 4, replicate 1088 6)
|}.

Definition r_priv : bytes := replicate 64 3.
Definition r_cert : bytes := replicate 200 1.
Definition r_Sign (key m : bytes) : outcome conn_error bytes := Ret (replicate 64 5).
Definition r_ctr (key iv p : bytes) : bytes := p.
Definition r_config : hsConfig bytes := mkHsConfig true None 0 None None [] 0.
Definition r_info : connInfo bytes := mkConnInfo (replicate 32 9) [] [] false [] [] None None [] 0.

Abbreviation r_cn := (Conn xor_stream (xorNonceAEAD.t ForTLS13.t) xor_cbc Z).
Definition r_conn (lens : list Z) (buf : option bytes) : r_cn :=
  mkConn VersionTLS13 true false (w_fresh VersionTLS13 (replicate 7 0)) (w_fresh VersionTLS13 lens) buf [] [] [] false []
    0 0 0 0 false None 0 None [] [] [] false 0.

Definition r_hello : serverHelloMsg.t := default serverHelloMsg.zero (serverHello target_scan).
Abbreviation r_run lens buf :=
  (handshake (B:=plain_builder) false (fun _ => w_rand) w_aead r_priv r_cert r_Sign r_ctr false r_config r_info
    knock_message r_hello (r_conn lens buf)).

(** The lengths of a target that sends one long record, and of one whose
    certificate is too short. *)
Definition long_lens : list Z := [95; 6; 400; 0; 0; 0; 0].
Definition short_lens : list Z := [95; 6; 45; 205; 305; 65; 0].

Definition r_outcome (lens : list Z) (buf : option bytes) : bool * nat :=
  let '(r, c) := r_run lens buf in (match r with Ret _ => true | _ => false end, length (net_out c)).

Lemma r_target : r_outcome (Reality.lens target_scan) (scan_buf target_scan) = (true, 1421%nat).
Proof. vm_compute. reflexivity. Qed.
Lemma r_long : r_outcome long_lens (Some []) = (true, 501%nat).
Proof. vm_compute. reflexivity. Qed.
Lemma r_short : r_outcome short_lens None = (false, 0%nat).
Proof. vm_compute. reflexivity. Qed.

Lemma r_run_ret lens buf n : r_outcome lens buf = (true, n) -> exists hs c, r_run lens buf = (Ret hs, c) /\ length (net_out c) = n.
Proof.
  unfold r_outcome. destruct (r_run lens buf) as [[hs|e|w] c]; intros Ho; [|done..]. injection Ho as <-. by exists hs, c.
Qed.

Lemma r_facts : serverHello target_scan = Some r_hello /\
  marshal_message plain_builder (ServerHello r_hello) =
    Ret (slice 5 (Z.to_nat (announced (concat target_chunks))) (concat target_chunks)) /\
  length (slice 5 (Z.to_nat (announced (concat target_chunks))) (concat target_chunks)) = 90%nat.
Proof. vm_compute. split_and!; reflexivity. Qed.

Lemma r_body : exists body, marshal_message plain_builder (ServerHello r_hello) = Ret body /\
  Z.of_nat (length body) <= maxPlaintext.
Proof. destruct r_facts as (_ & Hm & Hl). eexists. split; [exact Hm|]. by rewrite Hl. Qed.

Lemma r_one_rand lens buf : w_rand 32 = Some (replicate 32 7) /\ rand_calls (r_conn lens buf) = 0%nat.
Proof. done. Qed.

Lemma r_sha512 : digests_ok sha512_fn.
Proof. apply low_digests. Qed.
Lemma r_sha512_length m : length (h_sum sha512_fn m) = 64%nat.
Proof. apply length_be_put. Qed.
Lemma r_proto_ok : bytes_ok (clientProtocol r_info).
Proof. constructor. Qed.
Lemma r_ech_ok : Forall (fun k => bytes_ok (ech_Config k)) (EncryptedClientHelloKeys r_config).
Proof. constructor. Qed.
Lemma r_cert_ok : bytes_ok r_cert.
Proof. apply Forall_replicate. w_byte. Qed.
Lemma r_Sign_ok m sig : r_Sign r_priv m = Ret sig -> bytes_ok sig.
Proof. intros [= <-]. compute_decide. Qed.
Lemma r_no_auth : requestClientCert r_config = false.
Proof. done. Qed.
Lemma r_no_tickets : SessionTicketsDisabled r_config = true.
Proof. done. Qed.
Lemma r_net_out lens buf : net_out (r_conn lens buf) = [].
Proof. done. Qed.

Lemma r_fresh lens buf : fresh (r_conn lens buf) lens buf.
Proof. by split_and!. Qed.

Lemma nth_len_le l n i : forallb (fun x => x <=? n) l = true -> 0 <= n -> nth_len l i <= n.
Proof.
  intros Hl Hn. rewrite forallb_forall in Hl. unfold nth_len. destruct (nth_in_or_default i l 0) as [Hin| ->]; [|done].
  apply Hl in Hin. lia.
Qed.

Lemma long_lens_le i : nth_len long_lens i <= empty_size.
Proof. by apply nth_len_le. Qed.

Lemma server_imitates_target_witness : exists read rest recs hello out (c : r_cn),
  concat target_chunks = read ++ rest /\ flight read recs target_scan /\ length (net_out c) = 1421%nat /\
  net_out c = concat (hello_record hello :: ccs_record :: out) /\ Forall (framed 3 3) out /\
  lens_of (hello_record hello :: ccs_record :: out) = lens_of recs ++ in_progress (s2cSaved target_scan).
Proof.
  destruct (r_run_ret _ _ _ r_target) as (hs & c & Hrun & Hlen). destruct r_facts as (Hsh & Hm & _).
  destruct (server_imitates_target false (fun _ => w_rand) w_aead r_priv r_cert r_Sign r_ctr false r_config r_info
    (fun _ => w_rand_ok) w_digests r_sha512 r_sha512_length w_aead_pair r_proto_ok r_ech_ok r_cert_ok r_Sign_ok
    target_chunks target_scan knock_message r_hello (r_conn (Reality.lens target_scan) (scan_buf target_scan)) hs c
    r_no_auth r_no_tickets target_chunks_ok target_scan_ok Hsh Hm (r_fresh _ _) Hrun) as (read & rest & recs & hello & out & Hc & Hf & Hout & Hfr & Hl).
  rewrite r_net_out in Hout. exists read, rest, recs, hello, out, c. split; [exact Hc|]. split; [exact Hf|]. split; [exact Hlen|].
  split; [exact Hout|]. split; [exact Hfr|exact Hl].
Defined.

Lemma client_reads_flight_witness : exists (c : r_cn) s chb shb secret traffic key1 ee ce cv fin recs last,
  net_out c = concat (hello_record shb :: ccs_record :: recs ++ last) /\
  keys_agreed (B:=plain_builder) w_aead (w_rand 32) knock_message r_hello s chb shb secret traffic key1 /\
  receive_all (S:=xor_stream) (C:=xor_cbc) (K:=Z) (reader key1) recs = handshake_records [ee ++ ce ++ cv ++ fin] /\
  authenticates (B:=plain_builder) r_priv r_cert r_Sign r_info s chb shb traffic ee ce cv fin.
Proof.
  destruct (r_run_ret _ _ _ r_long) as (hs & c & Hrun & Hlen). destruct r_body as (body & Hm & Hml).
  destruct (client_reads_flight false (fun _ => w_rand) w_aead r_priv r_cert r_Sign r_ctr false r_config r_info
    (fun _ => w_rand_ok) w_digests r_sha512 r_sha512_length w_aead_pair r_proto_ok r_ech_ok r_cert_ok r_Sign_ok
    knock_message r_hello _ (r_conn long_lens (Some [])) long_lens (Some []) hs c r_no_auth r_no_tickets
    (r_fresh _ _) (or_intror eq_refl) ltac:(discriminate) long_lens_le Hm
    Hml Hrun)
    as (s & chb & shb & secret & traffic & key1 & key2 & ee & ce & cv & fin & recs & last & Hout & _ & Hk & Hr & Ha & _).
  rewrite r_net_out in Hout. exists c, s, chb, shb, secret, traffic, key1, ee, ce, cv, fin, recs, last.
  split; [exact Hout|]. split; [exact Hk|]. split; [exact Hr|exact Ha].
Defined.

(** A run that fails. *)
Lemma r_run_fails lens buf n : r_outcome lens buf = (false, n) ->
  match r_run lens buf with (Ret _, c) => exists sent, net_out c = net_out (r_conn lens buf) ++ sent
    | (_, c) => net_out c = net_out (r_conn lens buf) end ->
  match r_run lens buf with (Ret _, c) => False | (_, c) => net_out c = [] end.
Proof. unfold r_outcome. by destruct (r_run lens buf) as [[hs|e|w] c]. Qed.

Lemma handshake_silent_witness :
  match r_run short_lens None with (Ret _, c) => False | (_, c) => net_out c = [] end.
Proof.
  apply (r_run_fails short_lens None 0 r_short).
  apply (handshake_silent (B:=plain_builder) (S:=xor_stream) (C:=xor_cbc) (K:=Z) false (fun _ => w_rand) w_aead r_priv r_cert
    r_Sign r_ctr false r_config r_info knock_message r_hello (r_conn short_lens None)).
  discriminate.
Defined.
