(* ===== verification/Ech.v ===== *)
(** * ech.go: Encrypted Client Hello

    The configurations of a server, the two forms of the extension, the
    encoding of the inner ClientHello and its reconstruction from the outer one,
    and the decryption on the side of the server.  HPKE is that of [Hpke]. *)

From S2P Require Import Prelude Common HalfConn Cryptobyte Hello Messages Kdf Hpke Conn RealityHandshake.

Open Scope go_scope.

Record echCipher := mkEchCipher { KDFID : Z; AEADID : Z }.
Record echExtension := mkEchExtension { ext_Type : Z; ext_Data : bytes }.

Module echConfig.
Record t := mk {
  raw : bytes;
  Version : Z;
  Length : Z;
  ConfigID : Z;
  KemID : Z;
  PublicKey : bytes;
  SymmetricCipherSuite : list echCipher;
  MaxNameLength : Z;
  PublicName : bytes;
  Extensions : list echExtension
}.
Definition zero : t := mk [] 0 0 0 0 [] [] 0 [] [].
End echConfig.

Definition errMalformedECHConfigList : conn_error := EText "tls: malformed ECHConfigList".
(** [echConfigErr{field}] *)
Definition echConfigErr (field : string) : conn_error :=
  EText (String.append "tls: malformed ECHConfig, invalid " (String.append field " field")).
Definition errMalformedECHExt : conn_error := EText "tls: malformed encrypted_client_hello extension".
Definition errInvalidECHExt : conn_error := EText "tls: client sent invalid encrypted_client_hello extension".
(** [errors.Is(err, errInvalidECHExt)] *)
Definition is_invalid_ext (e : conn_error) : bool :=
  match e, errInvalidECHExt with EText s, EText s' => String.eqb s s' | _, _ => false end.
Definition errInvalidInner : conn_error := EText "tls: invalid inner client hello".

(** [if !s.Read...(...) { return err }] *)
Definition or_err {R} (e : conn_error) (o : option R) : outcome conn_error R :=
  match o with Some r => Ret r | None => Err e end.

(** [for !s.Empty() { ... }] with a body that may return an error; every body
    reads at least two bytes. *)
Fixpoint each_fuel {T} (stuck : outcome conn_error T) (body : bytes -> T -> outcome conn_error (T * bytes)) (fuel : nat)
    (s : bytes) (acc : T) : outcome conn_error T :=
  if Empty s then Ret acc else
  match fuel with
  | O => stuck
  | Datatypes.S fuel => let! (acc, s) := body s acc in each_fuel stuck body fuel s acc
  end.
Definition each {T} (body : bytes -> T -> outcome conn_error (T * bytes)) (s : bytes) (acc : T) : outcome conn_error T :=
  each_fuel (Panic "out of fuel") body (length s) s acc.

Section configs.
Context `{CryptoString}.

Definition read_cipher (s : bytes) (acc : list echCipher) : outcome conn_error (list echCipher * bytes) :=
  let! (kdf, s) := or_err (echConfigErr "cipher_suites kdf_id") (ReadUint16 s) in
  let! (aead, s) := or_err (echConfigErr "cipher_suites aead_id") (ReadUint16 s) in
  Ret (acc ++ [mkEchCipher kdf aead], s).
Definition read_extension (s : bytes) (acc : list echExtension) : outcome conn_error (list echExtension * bytes) :=
  let! (typ, s) := or_err (echConfigErr "extensions type") (ReadUint16 s) in
  let! (data, s) := or_err (echConfigErr "extensions data") (ReadUint16LengthPrefixed s) in
  Ret (acc ++ [mkEchExtension typ data], s).

(** [ec.raw[:ec.Length+4]]: the sum has 16 bits. *)
Definition parseECHConfig (enc : bytes) : outcome conn_error (bool * echConfig.t) :=
  let! (version, s) := or_err (echConfigErr "version") (ReadUint16 enc) in
  let! (len, s) := or_err (echConfigErr "length") (ReadUint16 s) in
  if Z.of_nat (length enc) <? len + 4 then Err (echConfigErr "length") else
  let raw := take (Z.to_nat (u16 (len + 4))) enc in
  if negb (version =? extensionEncryptedClientHello) then Ret (true, echConfig.zero) else
  let! (id, s) := or_err (echConfigErr "config_id") (ReadUint8 s) in
  let! (kem, s) := or_err (echConfigErr "kem_id") (ReadUint16 s) in
  let! (key, s) := or_err (echConfigErr "public_key") (ReadUint16LengthPrefixed s) in
  let! (cipherSuites, s) := or_err (echConfigErr "cipher_suites") (ReadUint16LengthPrefixed s) in
  let! suites := each read_cipher cipherSuites [] in
  let! (maxName, s) := or_err (echConfigErr "maximum_name_length") (ReadUint8 s) in
  let! (name, s) := or_err (echConfigErr "public_name") (ReadUint8LengthPrefixed s) in
  let! (extensions, s) := or_err (echConfigErr "extensions") (ReadUint16LengthPrefixed s) in
  let! exts := each read_extension extensions [] in
  Ret (false, echConfig.mk raw version len id kem key suites maxName name exts).

(** The loop of [parseECHConfigList], by fuel; [stuck] is its result without.
    [configLen+4] has 16 bits. *)
Fixpoint parse_configs (stuck : outcome conn_error (list echConfig.t)) (fuel : nat) (s : bytes) (configs : list echConfig.t)
  : outcome conn_error (list echConfig.t) :=
  match s with
  | [] => Ret configs
  | _ =>
      match fuel with
      | O => stuck
      | Datatypes.S fuel =>
          if (length s <? 4)%nat then Err (EText "tls: malformed ECHConfig") else
          let configLen := (nth_byte s 2 ≪ 8) ||| nth_byte s 3 in
          let! (skip, ec) := parseECHConfig s in
          let n := Z.to_nat (u16 (configLen + 4)) in
          if (length s <? n)%nat then Panic index_out_of_range
          else parse_configs stuck fuel (drop n s) (if skip then configs else configs ++ [ec])
      end
  end.

(** [uint16(len(data)-2)] *)
Definition parseECHConfigList (stuck : outcome conn_error (list echConfig.t)) (fuel : nat) (data : bytes)
  : outcome conn_error (list echConfig.t) :=
  match ReadUint16 data with
  | None => Err errMalformedECHConfigList
  | Some (len, s) =>
      if negb (len =? u16 (Z.of_nat (length data) - 2)) then Err errMalformedECHConfigList
      else parse_configs stuck fuel s []
  end.
End configs.

(** ** The choice of a configuration *)

(** [strings.Split(name, ".")] *)
Fixpoint split_dots (name : bytes) (label : bytes) : list bytes :=
  match name with
  | [] => [label]
  | c :: name => if c =? 0x2e then label :: split_dots name [] else split_dots name (label ++ [c])
  end.
(** A rune that is not ASCII is refused like its bytes. *)
Definition valid_label (l : bytes) : bool :=
  negb (length l =? 0)%nat &&
  forallb (fun '(i, r) =>
    negb ((r =? 0x2d) && ((i =? 0)%nat || (i =? length l - 1)%nat)) &&
    ((0x30 <=? r) && (r <=? 0x39) || (0x61 <=? r) && (r <=? 0x7a) || (0x41 <=? r) && (r <=? 0x5a) || (r =? 0x2d)))
    (zip (List.seq 0 (length l)) l).
Definition validDNSName (name : bytes) : bool :=
  let labels := split_dots name [] in
  negb (253 <? length name)%nat && negb (length labels <=? 1)%nat && forallb valid_label labels.

Section choice.
Context `{Hashes} `{hpke.X25519} {Block T : Type} `{hpke.cipherAEAD T}.
Context (aes_NewCipher : bytes -> outcome conn_error Block) (cipher_NewGCM : Block -> outcome conn_error T).
Context (chacha20poly1305_New : bytes -> outcome conn_error T).

Definition supported_suite (cs : echCipher) : bool :=
  bool_decide (is_Some (hpke.SupportedAEADs aes_NewCipher cipher_NewGCM chacha20poly1305_New (AEADID cs))) &&
  bool_decide (is_Some (hpke.SupportedKDFs (KDFID cs))).

Definition usable_config (ec : echConfig.t) : bool :=
  bool_decide (is_Some (hpke.SupportedKEMs (echConfig.KemID ec))) &&
  existsb supported_suite (echConfig.SymmetricCipherSuite ec) &&
  validDNSName (echConfig.PublicName ec) &&
  negb (existsb (fun ext => negb (Z.land (ext_Type ext) 0x8000 =? 0)) (echConfig.Extensions ec)).
Definition pickECHConfig (l : list echConfig.t) : option echConfig.t := List.find usable_config l.

Definition pickECHCipherSuite (suites : list echCipher) : outcome conn_error echCipher :=
  or_err (EText "tls: no supported symmetric ciphersuites for ECH") (List.find supported_suite suites).
End choice.

(** ** The inner ClientHello *)

Record rawExtension := mkRaw { extType : Z; raw_data : bytes }.

Section inner.
Context `{CryptoString} {B : Type} `{Builder B}.

Definition encodeInnerClientHello (inner : clientHelloMsg.t) (maxNameLength : Z) : outcome conn_error bytes :=
  let! h := clientHelloMsg.marshalMsg B true inner in
  let h := drop 4 h in
  let paddingLen :=
    if negb (length (clientHelloMsg.serverName inner) =? 0)%nat
    then Z.max 0 (maxNameLength - Z.of_nat (length (clientHelloMsg.serverName inner)))
    else maxNameLength + 9 in
  let paddingLen := 31 - Z.rem (Z.of_nat (length h) + paddingLen - 1) 32 in
  Ret (h ++ replicate (Z.to_nat paddingLen) 0).

Definition skipUint8LengthPrefixed (s : bytes) : option bytes :=
  let? (skip, s) := ReadUint8 s in Skip (Z.to_nat skip) s.
Definition skipUint16LengthPrefixed (s : bytes) : option bytes :=
  let? (skip, s) := ReadUint16 s in Skip (Z.to_nat skip) s.

Definition read_raw (s : bytes) : option (rawExtension * bytes) :=
  let? (extension, s) := ReadUint16 s in
  let? (extData, s) := ReadUint16LengthPrefixed s in
  Some (mkRaw extension extData, s).

(** [original] may be [nil], which has no bytes to skip. *)
Definition extractRawExtensions (hello : clientHelloMsg.t) : outcome conn_error (list rawExtension) :=
  let! extensions := or_err (EText "tls: malformed outer client hello")
    (let? s := Skip (4 + 2 + 32) (default [] (clientHelloMsg.original hello)) in
     let? s := skipUint8LengthPrefixed s in
     let? s := skipUint16LengthPrefixed s in
     let? s := skipUint8LengthPrefixed s in
     let? (extensions, _) := ReadUint16LengthPrefixed s in Some extensions) in
  or_err errInvalidInner (read_list read_raw extensions []).

(** [for ; i <= len(rawOuterExts); i++]: the extensions from the first one of the
    type on, none at the end. *)
Fixpoint seek (typ : Z) (raws : list rawExtension) : list rawExtension :=
  match raws with
  | [] => []
  | r :: rest => if extType r =? typ then raws else seek typ rest
  end.

(** The extensions that a list of types in [extData] adds, and the error that
    ends the loop; [raws] are those from the index [i] on. *)
Fixpoint outer_refs (stuck : list rawExtension * option conn_error) (fuel : nat) (extData : bytes) (raws acc : list rawExtension)
  : list rawExtension * option conn_error :=
  if Empty extData then (acc, None) else
  match fuel with
  | O => stuck
  | Datatypes.S fuel =>
      match ReadUint16 extData with
      | None => (acc, Some errInvalidInner)
      | Some (typ, extData) =>
          if typ =? extensionEncryptedClientHello then (acc, Some (EText "tls: invalid outer extensions")) else
          match seek typ raws with
          | [] => (acc, Some (EText "tls: invalid outer extensions"))
          | r :: rest => outer_refs stuck fuel extData (r :: rest) (acc ++ [r])
          end
      end
  end.

(** The loop over the extensions of the encoded inner hello. *)
Fixpoint inner_exts (stuck : list rawExtension * option conn_error) (fuel : nat) (raws : list rawExtension) (s : bytes)
    (acc : list rawExtension) : list rawExtension * option conn_error :=
  if Empty s then (acc, None) else
  match fuel with
  | O => stuck
  | Datatypes.S fuel =>
      match read_raw s with
      | None => (acc, Some errInvalidInner)
      | Some (mkRaw extension extData, s) =>
          if extension =? extensionECHOuterExtensions then
            match ReadUint8LengthPrefixed extData with
            | None => (acc, Some errInvalidInner)
            | Some (extData, _) =>
                match outer_refs stuck (length extData) extData raws acc with
                | (acc, None) => inner_exts stuck fuel raws s acc
                | (acc, Some e) => (acc, Some e)
                end
            end
          else inner_exts stuck fuel raws s (acc ++ [mkRaw extension extData])
      end
  end.
Definition no_fuel : list rawExtension * option conn_error := ([], Some (EText "out of fuel")).

(** The reconstructed message: its extensions are those that the loop adds. *)
Definition add_raw (r : rawExtension) : B -> B := ext (extType r) (AddBytes (raw_data r)).
Definition reconstruct (versionAndRandom sessionId cipherSuites compressionMethods : bytes)
    (exts : list rawExtension * option conn_error) : outcome conn_error bytes :=
  Bytes ((AddUint8 typeClientHello ;>
    AddUint24LengthPrefixed (
      AddBytes versionAndRandom ;>
      AddUint8LengthPrefixed (AddBytes sessionId) ;>
      AddUint16LengthPrefixed (AddBytes cipherSuites) ;>
      AddUint8LengthPrefixed (AddBytes compressionMethods) ;>
      AddUint16LengthPrefixed (for_each add_raw (fst exts) ;>
        match snd exts with None => fun b => b | Some e => SetError e end))) NewBuilder).

(** The versions of an inner hello: at least TLS 1.3, up to GREASE values. *)
Definition grease (v : Z) : bool := (Z.land v 0x0F0F =? 0x0A0A) && (Z.land v 0xff =? Z.shiftr v 8).
Definition check_versions (versions : list Z) : outcome conn_error unit :=
  if existsb (fun v => negb (grease v) && (v <? VersionTLS13)) versions then
    Err (EText "tls: client sent encrypted_client_hello extension with unsupported versions")
  else if negb (existsb (fun v => negb (grease v) && (v =? VersionTLS13)) versions) then
    Err (EText "tls: client sent encrypted_client_hello extension but did not offer TLS 1.3")
  else Ret tt.

Definition innerECHExt : Z := 1.
Definition outerECHExt : Z := 0.

(** The parts of the encoded hello, before its padding. *)
Definition read_encoded (encoded : bytes) : option (bytes * bytes * bytes * bytes * bytes) :=
  let? (versionAndRandom, s) := ReadBytes (2 + 32) encoded in
  let? (sessionID, s) := ReadUint8LengthPrefixed s in
  if negb (length sessionID =? 0)%nat then None else
  let? (cipherSuites, s) := ReadUint16LengthPrefixed s in
  let? (compressionMethods, s) := ReadUint8LengthPrefixed s in
  let? (extensions, s) := ReadUint16LengthPrefixed s in
  Some (versionAndRandom, cipherSuites, compressionMethods, extensions, s).

Definition decodeInnerClientHello (outer : clientHelloMsg.t) (encoded : bytes) : outcome conn_error clientHelloMsg.t :=
  let! (versionAndRandom, cipherSuites, compressionMethods, extensions, padding) := or_err errInvalidInner (read_encoded encoded) in
  if existsb (fun p => negb (p =? 0)) padding then Err errInvalidInner else
  let! raws := extractRawExtensions outer in
  let! data := reconstruct versionAndRandom (clientHelloMsg.sessionId outer) cipherSuites compressionMethods
                 (inner_exts no_fuel (length extensions) raws extensions []) in
  match clientHelloMsg.unmarshal data with
  | None => Err (EText "tls: invalid reconstructed inner client hello")
  | Some inner =>
      if negb (bool_decide (clientHelloMsg.encryptedClientHello inner = [innerECHExt])) then Err errInvalidECHExt else
      let! _ := check_versions (clientHelloMsg.supportedVersions inner) in
      Ret inner
  end.

(** ** The extension *)

(** [encap] and [payload] of the inner form are [nil]. *)
Definition parseECHExt (ext : bytes) : outcome conn_error (Z * echCipher * Z * bytes * bytes) :=
  let! (echType, s) := or_err errMalformedECHExt (ReadUint8 ext) in
  if echType =? innerECHExt then
    if negb (Empty s) then Err errMalformedECHExt else Ret (echType, mkEchCipher 0 0, 0, [], [])
  else if negb (echType =? outerECHExt) then Err errInvalidECHExt
  else
    let! (kdf, s) := or_err errMalformedECHExt (ReadUint16 s) in
    let! (aead, s) := or_err errMalformedECHExt (ReadUint16 s) in
    let! (configID, s) := or_err errMalformedECHExt (ReadUint8 s) in
    let! (encap, s) := or_err errMalformedECHExt (ReadUint16LengthPrefixed s) in
    let! (payload, s) := or_err errMalformedECHExt (ReadUint16LengthPrefixed s) in
    Ret (echType, mkEchCipher kdf aead, configID, encap, payload).

Definition generateOuterECHExt (id kdfID aeadID : Z) (encodedKey payload : bytes) : outcome conn_error bytes :=
  Bytes ((AddUint8 0 ;> AddUint16 kdfID ;> AddUint16 aeadID ;> AddUint8 id ;>
    AddUint16LengthPrefixed (AddBytes encodedKey) ;> AddUint16LengthPrefixed (AddBytes payload)) NewBuilder).

Definition marshalEncryptedClientHelloConfigList (configs : list EncryptedClientHelloKey) : outcome conn_error bytes :=
  Bytes (AddUint16LengthPrefixed (for_each (fun c => AddBytes (ech_Config c)) configs) NewBuilder).
End inner.

(** ** HPKE *)

(** [bytes.Replace(s, old, new, 1)] *)
Fixpoint replace_first (s old new : bytes) : bytes :=
  if bool_decide (take (length old) s = old) then new ++ drop (length old) s
  else match s with [] => [] | c :: s => c :: replace_first s old new end.

Section hpke.
Context `{Hashes} `{hpke.X25519} {Block T : Type} `{hpke.cipherAEAD T} `{CryptoString} {B : Type} `{Builder B}.
Context (aes_NewCipher : bytes -> outcome conn_error Block) (cipher_NewGCM : Block -> outcome conn_error T).
Context (chacha20poly1305_New : bytes -> outcome conn_error T).
Abbreviation context := (hpke.context (T:=T)).

(** The result and the context after the call. *)
Definition decryptECHPayload (ctx : context) (hello payload : bytes) : outcome conn_error bytes * context :=
  if (length hello <? 4)%nat then (Panic index_out_of_range, ctx)
  else hpke.Open ctx (replace_first (drop 4 hello) payload (replicate (length payload) 0)) payload.

(** What [echClientContext] has of the key exchange. *)
Record echClientContext := mkEchClient {
  ecc_config : echConfig.t;
  ecc_hpkeContext : context;
  encapsulatedKey : bytes;
  ecc_kdfID : Z;
  ecc_aeadID : Z
}.

(** The outer hello and the context after the call; the callers drop them when
    it fails. *)
Definition computeAndUpdateOuterECHExtension (outer inner : clientHelloMsg.t) (ech : echClientContext) (useKey : bool)
  : outcome conn_error (clientHelloMsg.t * echClientContext) :=
  let encapKey := if useKey then encapsulatedKey ech else [] in
  let generate := generateOuterECHExt (B:=B) (echConfig.ConfigID (ecc_config ech)) (ecc_kdfID ech) (ecc_aeadID ech) encapKey in
  let! encodedInner := encodeInnerClientHello (B:=B) inner (echConfig.MaxNameLength (ecc_config ech)) in
  let! ext := generate (replicate (length encodedInner + 16) 0) in
  let outer := clientHelloMsg.set_encryptedClientHello ext outer in
  let! serializedOuter := clientHelloMsg.marshal B outer in
  let '(r, ctx) := hpke.Seal (ecc_hpkeContext ech) (drop 4 serializedOuter) encodedInner in
  let! encryptedInner := r in
  let! ext := generate encryptedInner in
  Ret (clientHelloMsg.set_encryptedClientHello ext outer,
       mkEchClient (ecc_config ech) ctx (encapsulatedKey ech) (ecc_kdfID ech) (ecc_aeadID ech)).

Record echServerContext := mkEchServer {
  esc_hpkeContext : option context;
  esc_configID : Z;
  esc_ciphersuite : echCipher;
  inner : bool
}.

(** One key: [None] when the next one is tried. *)
Definition try_key (outer : clientHelloMsg.t) (cs : echCipher) (configID : Z) (encap payload : bytes) (echKey : EncryptedClientHelloKey)
  : outcome (Z * conn_error) (option (clientHelloMsg.t * echServerContext)) :=
  match parseECHConfig (ech_Config echKey) with
  | Panic w => Panic w
  | Err _ | Ret (true, _) => Err (alertInternalError, EText "tls: invalid EncryptedClientHelloKeys Config: ")
  | Ret (false, config) =>
      match hpke.ParseHPKEPrivateKey (echConfig.KemID config) (ech_PrivateKey echKey) with
      | Panic w => Panic w
      | Err _ => Err (alertInternalError, EText "tls: invalid EncryptedClientHelloKeys PrivateKey: ")
      | Ret echPriv =>
          let info := str "tls ech" ++ [0] ++ ech_Config echKey in
          match hpke.SetupRecipient aes_NewCipher cipher_NewGCM chacha20poly1305_New hpke.DHKEM_X25519_HKDF_SHA256
                  (KDFID cs) (AEADID cs) echPriv info encap with
          | Panic w => Panic w
          | Err _ => Ret None
          | Ret ctx =>
              match decryptECHPayload ctx (default [] (clientHelloMsg.original outer)) payload with
              | (Panic w, _) => Panic w
              | (Err _, _) => Ret None
              | (Ret encodedInner, ctx) =>
                  match decodeInnerClientHello (B:=B) outer encodedInner with
                  | Panic w => Panic w
                  | Err _ => Err (alertIllegalParameter, errInvalidECHExt)
                  | Ret echInner => Ret (Some (echInner, mkEchServer (Some ctx) configID cs false))
                  end
              end
          end
      end
  end.
Fixpoint try_keys (outer : clientHelloMsg.t) (cs : echCipher) (configID : Z) (encap payload : bytes) (keys : list EncryptedClientHelloKey)
  : outcome (Z * conn_error) (option (clientHelloMsg.t * echServerContext)) :=
  match keys with
  | [] => Ret None
  | k :: keys =>
      let! r := try_key outer cs configID encap payload k in
      match r with Some x => Ret (Some x) | None => try_keys outer cs configID encap payload keys end
  end.

(** The message to go on with, the context, and whether [c.echAccepted] is set;
    an error has an alert before it. *)
Definition ech_outcome (keys : list EncryptedClientHelloKey) (outer : clientHelloMsg.t)
  : outcome (Z * conn_error) (clientHelloMsg.t * option echServerContext * bool) :=
  match parseECHExt (clientHelloMsg.encryptedClientHello outer) with
  | Panic w => Panic w
  | Err e => Err (if is_invalid_ext e then alertIllegalParameter else alertDecodeError, errInvalidECHExt)
  | Ret (echType, cs, configID, encap, payload) =>
      if echType =? innerECHExt then Ret (outer, Some (mkEchServer None 0 (mkEchCipher 0 0) true), false)
      else
        let! r := try_keys outer cs configID encap payload keys in
        match r with
        | Some (echInner, ctx) => Ret (echInner, Some ctx, true)
        | None => Ret (outer, None, false)
        end
  end.

Context {S A C K : Type} `{Stream S} `{RecordAEAD A} `{CbcMode C} `{MacFun K}.
Definition processECHClientHello (dyn_off : bool) (rand : nat -> nat -> option bytes) (keys : list EncryptedClientHelloKey)
    (outer : clientHelloMsg.t) : @M S A C K (clientHelloMsg.t * option echServerContext * bool) :=
  match ech_outcome keys outer with
  | Ret r => ret r
  | Err (a, e) => do! _ := sendAlert dyn_off rand a in fail e
  | Panic w => panic w
  end.
End hpke.
