(* ===== verification/Server.v ===== *)
(** * handshake_server.go and common.go: what every TLS server does

    The ClientHello with the configuration and the version that it gets, the
    choice of a certificate for it, and the verification of the client's
    certificates.  The handshakes are in [Server12] and [Server13].

    The connection is that of [Client]: Go has one [Conn] and one [Config] for
    both roles.  [config] is the part of the configuration that a client has
    too ([base]) with what only a server reads.  [strings.ToLower] is a
    parameter, for its Unicode tables.  The connection has no QUIC transport. *)

From stdpp Require Import gmap.
From S2P Require Import Prelude Common HalfConn Cryptobyte Hello Messages Gcm CipherSuites Kdf Conn.
From S2P Require Import Negotiation Auth KeyAgreement Ticket RealityHandshake Post Client Client13 ClientHandshake Hpke Ech.

Open Scope go_scope.

(** ** The interfaces and the configuration *)

(** What a server asks of crypto/x509 beside [CertificateChains]:
    [Verify] with [KeyUsages] [ExtKeyUsageClientAuth], the kinds of its errors
    that [errors.As] tells apart, [CertPool.Subjects], and names. *)
Class ServerX509 (X P : Type) `{CertificateChains X P} := {
  x509_VerifyClient : X -> VerifyOptions X CertPool -> outcome conn_error (list (list X));
  is_UnknownAuthorityError : conn_error -> bool;
  is_ExpiredError : conn_error -> bool;
  Subjects : CertPool -> list bytes;
  DNSNames : X -> list bytes;
  CommonName : X -> bytes
}.

(** [ClientHelloInfo] without its configuration, which is an argument. *)
Record ClientHelloInfo := mkClientHelloInfo {
  chi_CipherSuites : list Z;
  chi_ServerName : bytes;
  chi_SupportedCurves : list Z;
  chi_SupportedPoints : bytes;
  chi_SignatureSchemes : list Z;
  chi_SupportedProtos : list bytes;
  chi_SupportedVersions : list Z;
  chi_Extensions : list Z
}.

(** [ClientAuthType] *)
Definition NoClientCert : Z := 0.
Definition RequireAnyClientCert : Z := 2.
Definition VerifyClientCertIfGiven : Z := 3.
Definition RequireAndVerifyClientCert : Z := 4.
Definition requiresClientCert (c : Z) : bool := contains c [RequireAnyClientCert; RequireAndVerifyClientCert].

Module ServerConfig.
#[warnings="-register-all"]
Inductive t (X P Pool : Type) := mk {
  base : clientConfig X P Pool;
  GetCertificate : option (ClientHelloInfo -> outcome conn_error (option (clientCertificate X P)));
  GetConfigForClient : option (ClientHelloInfo -> outcome conn_error (option (t X P Pool)));
  NameToCertificate : option (gmap bytes (clientCertificate X P));
  ClientAuth : Z;
  ClientCAs : option Pool;
  UnwrapSession : option (bytes -> ConnectionState X -> outcome conn_error (option (SessionState.t X)));
  WrapSession : option (ConnectionState X -> SessionState.t X -> outcome conn_error bytes);
  EncryptedClientHelloKeys : list EncryptedClientHelloKey;
  tickets : ticketConfig
}.
Arguments mk {X P Pool}.
Arguments base {X P Pool} t.
Arguments GetCertificate {X P Pool} t.
Arguments GetConfigForClient {X P Pool} t.
Arguments NameToCertificate {X P Pool} t.
Arguments ClientAuth {X P Pool} t.
Arguments ClientCAs {X P Pool} t.
Arguments UnwrapSession {X P Pool} t.
Arguments WrapSession {X P Pool} t.
Arguments EncryptedClientHelloKeys {X P Pool} t.
Arguments tickets {X P Pool} t.

Section setters.
Context {X P Pool : Type}.
Implicit Type c : t X P Pool.
Definition set_tickets k c := mk (base c) (GetCertificate c) (GetConfigForClient c) (NameToCertificate c) (ClientAuth c)
  (ClientCAs c) (UnwrapSession c) (WrapSession c) (EncryptedClientHelloKeys c) k.
Definition set_NameToCertificate m c := mk (base c) (GetCertificate c) (GetConfigForClient c) (Some m) (ClientAuth c)
  (ClientCAs c) (UnwrapSession c) (WrapSession c) (EncryptedClientHelloKeys c) (tickets c).
End setters.
End ServerConfig.

Definition set_ticketKeys {X} (keys : list ticketKey) (i : connInfo X) : connInfo X :=
  mkConnInfo (AuthKey i) keys (clientProtocol i) (extMasterSecret i) (peerCertificates i) (activeCertHandles i)
    (ocspResponse i) (conn_scts i) (verifiedChains i) (conn_curveID i).

(** ** Names *)

(** [strings.Split(name, ".")], [strings.Join(labels, ".")] *)
Definition dot : Z := 0x2e.
Fixpoint Split (name : bytes) : list bytes :=
  match name with
  | [] => [[]]
  | c :: name =>
      if c =? dot then [] :: Split name
      else match Split name with l :: ls => (c :: l) :: ls | [] => [[c]] end
  end.
Fixpoint Join (labels : list bytes) : bytes :=
  match labels with
  | [] => []
  | [l] => l
  | l :: labels => l ++ [dot] ++ Join labels
  end.
Definition wildcard (name : bytes) : bytes := Join (str "*" :: tail (Split name)).

Section server.
Context {S A C K : Type} `{Stream S} `{RecordAEAD A} `{CbcMode C} `{MacFun K}.
Context `{Hashes} `{CryptoString} {B : Type} `{Builder B} {X P T : Type} `{X509 X} `{CertificateChains X P}.
Context `{EcdhCurves} `{Decapsulation} `{Verifiers P} `{!ServerX509 X P}.
Abbreviation CM := (CM S A C K X T).
Abbreviation certificate := (clientCertificate X P).
Abbreviation serverConfig := (ServerConfig.t X P CertPool).

Context (dyn_off : bool) (rand : nat -> nat -> option bytes).
Context (ToLower : bytes -> bytes).
Context (fips : bool).

Abbreviation calert_then := (calert_then dyn_off rand).
Definition server_neg (config : serverConfig) : negConfig := neg (ServerConfig.base config).

(** ** The choice of a certificate *)

(** [c.leaf()] *)
Definition leaf (c : certificate) : outcome conn_error X :=
  match Leaf c with
  | Some x => Ret x
  | None =>
      match Certificate_ (cc_message c) with
      | [] => Panic index_out_of_range
      | der :: _ => ParseCertificate der
      end
  end.

Definition is_rsa (pub : PublicKey P) : bool := match pub with PubRSA _ _ => true | _ => false end.

Definition supportsRSAFallback (config : serverConfig) (vers : Z) (chi : ClientHelloInfo) (c : certificate)
    (unsupported : conn_error) : outcome conn_error unit :=
  if vers =? VersionTLS13 then Err unsupported else
  match Decrypter (ck_PrivateKey (cc_key c)) with
  | None => Err unsupported
  | Some pub =>
      if negb (is_rsa pub) then Err unsupported else
      match selectCipherSuite (chi_CipherSuites chi) (supportedCipherSuites fips (server_neg config)) (fun s =>
              (flags s &&& suiteECDHE =? 0) && negb ((vers <? VersionTLS12) && negb (flags s &&& suiteTLS12 =? 0))) with
      | None => Err unsupported
      | Some _ => Ret tt
      end
  end.

(** The cipher suites of the certificate's key: whether they are ECDSA's. *)
Inductive key_suites := KeySuites (ecdsa : bool) | KeyFallback | KeyError (e : conn_error).
Definition certificate_suites (config : serverConfig) (vers : Z) (chi : ClientHelloInfo) (c : certificate) : key_suites :=
  match Signer (ck_PrivateKey (cc_key c)) with
  | None => KeyFallback
  | Some (PubECDSA curve _) =>
      match curve with
      | Some curve =>
          if negb (contains curve [CurveP256; CurveP384; CurveP521]) then KeyFallback
          else if existsb (fun x => (x =? curve) && supportsCurve fips (Some (server_neg config)) vers x) (chi_SupportedCurves chi)
          then KeySuites true
          else KeyError (EText "client doesn't support certificate curve")
      | None => KeyFallback
      end
  | Some (PubEd25519 _) =>
      if (vers <? VersionTLS12) || (length (chi_SignatureSchemes chi) =? 0)%nat
      then KeyError (EText "connection doesn't support Ed25519") else KeySuites true
  | Some (PubRSA _ _) => KeySuites false
  | Some PubOther => KeyFallback
  end.

Definition suite_fits (vers : Z) (ecdsa : bool) (s : cipherSuite) : bool :=
  negb (flags s &&& suiteECDHE =? 0) &&
  (if negb (flags s &&& suiteECSign =? 0) then ecdsa else negb ecdsa) &&
  negb ((vers <? VersionTLS12) && negb (flags s &&& suiteTLS12 =? 0)).

(** What follows the checks of the name and of the signature schemes. *)
Definition supports_legacy (config : serverConfig) (vers : Z) (chi : ClientHelloInfo) (c : certificate)
  : outcome conn_error unit :=
  let! ecdheSupported := supportsECDHE fips (Some (server_neg config)) vers (chi_SupportedCurves chi) (chi_SupportedPoints chi) in
  if negb ecdheSupported then
    supportsRSAFallback config vers chi c (EText "client doesn't support ECDHE, can only use legacy RSA key exchange")
  else
    match certificate_suites config vers chi c with
    | KeyError e => Err e
    | KeyFallback => supportsRSAFallback config vers chi c (unsupportedCertificateError (cc_key c))
    | KeySuites ecdsa =>
        match selectCipherSuite (chi_CipherSuites chi) (supportedCipherSuites fips (server_neg config)) (suite_fits vers ecdsa) with
        | Some _ => Ret tt
        | None => supportsRSAFallback config vers chi c
                    (EText "client doesn't support any cipher suites compatible with the certificate")
        end
    end.

Definition supports_name (chi : ClientHelloInfo) (c : certificate) : outcome conn_error unit :=
  if (length (chi_ServerName chi) =? 0)%nat then Ret tt else
  match leaf c with
  | Panic w => Panic w
  | Err _ => Err (EText "failed to parse certificate: ")
  | Ret x =>
      match x509_VerifyHostname x (chi_ServerName chi) with
      | Some _ => Err (EText "certificate is not valid for requested server name: ")
      | None => Ret tt
      end
  end.

(** [chi.SupportsCertificate(c)]; [chi.config] is [config]. *)
Definition chi_SupportsCertificate (config : serverConfig) (chi : ClientHelloInfo) (c : certificate)
  : outcome conn_error unit :=
  let! v := mutualVersion fips (Some (server_neg config)) roleServer (chi_SupportedVersions chi) in
  match v with
  | None => Err (EText "no mutually supported protocol versions")
  | Some vers =>
      let! _ := supports_name chi c in
      let after := if vers =? VersionTLS13 then Ret tt else supports_legacy config vers chi c in
      if (length (chi_SignatureSchemes chi) =? 0)%nat then after else
      match selectSignatureScheme fips vers (cc_key c) (chi_SignatureSchemes chi) with
      | Ret _ => after
      | Err e => supportsRSAFallback config vers chi c e
      | Panic w => Panic w
      end
  end.

Definition errNoCertificates : conn_error := EText "tls: no certificates configured".

Fixpoint first_supporting (config : serverConfig) (chi : ClientHelloInfo) (certs : list certificate)
  : outcome conn_error (option certificate) :=
  match certs with
  | [] => Ret None
  | c :: certs =>
      match chi_SupportsCertificate config chi c with
      | Ret _ => Ret (Some c)
      | Err _ => first_supporting config chi certs
      | Panic w => Panic w
      end
  end.

Definition by_name (m : gmap bytes certificate) (ServerName : bytes) : option certificate :=
  let name := ToLower ServerName in
  match m !! name with
  | Some c => Some c
  | None => if (0 <? length name)%nat then m !! wildcard name else None
  end.

(** The certificate, or the alert and the error. *)
Definition choose_certificate (config : serverConfig) (chi : ClientHelloInfo) : outcome (Z * conn_error) certificate :=
  match Certificates (ServerConfig.base config) with
  | [] => Err (alertUnrecognizedName, errNoCertificates)
  | [c] => Ret c
  | (c0 :: _) as certs =>
      match (match ServerConfig.NameToCertificate config with Some m => by_name m (chi_ServerName chi) | None => None end) with
      | Some c => Ret c
      | None =>
          match first_supporting config chi certs with
          | Ret (Some c) => Ret c
          | Ret None => Ret c0
          | Err e => Err (alertInternalError, e)
          | Panic w => Panic w
          end
      end
  end.
Definition getCertificate (config : serverConfig) (chi : ClientHelloInfo) : outcome (Z * conn_error) certificate :=
  match ServerConfig.GetCertificate config with
  | Some f =>
      if (length (Certificates (ServerConfig.base config)) =? 0)%nat || (0 <? length (chi_ServerName chi))%nat then
        match f chi with
        | Ret (Some c) => Ret c
        | Ret None => choose_certificate config chi
        | Err e => Err (alertInternalError, e)
        | Panic w => Panic w
        end
      else choose_certificate config chi
  | None => choose_certificate config chi
  end.

(** [BuildNameToCertificate]: the loop over the certificates. *)
Definition names_of (x : X) : list bytes :=
  (if negb (length (CommonName x) =? 0)%nat && (length (DNSNames x) =? 0)%nat then [CommonName x] else []) ++ DNSNames x.
Fixpoint add_names (certs : list certificate) (m : gmap bytes certificate) : outcome conn_error (gmap bytes certificate) :=
  match certs with
  | [] => Ret m
  | c :: certs =>
      match leaf c with
      | Panic w => Panic w
      | Err _ => add_names certs m
      | Ret x => add_names certs (fold_left (fun m name => <[name := c]> m) (names_of x) m)
      end
  end.
Definition BuildNameToCertificate (config : serverConfig) : outcome conn_error serverConfig :=
  let! m := add_names (Certificates (ServerConfig.base config)) ∅ in
  Ret (ServerConfig.set_NameToCertificate m config).

(** ** The ClientHello *)

Definition clientHelloInfo (m : clientHelloMsg.t) : ClientHelloInfo :=
  let supportedVersions := clientHelloMsg.supportedVersions m in
  mkClientHelloInfo (clientHelloMsg.cipherSuites m) (clientHelloMsg.serverName m) (clientHelloMsg.supportedCurves m)
    (clientHelloMsg.supportedPoints m) (clientHelloMsg.supportedSignatureAlgorithms m) (clientHelloMsg.alpnProtocols m)
    (if (length supportedVersions =? 0)%nat then supportedVersionsFromMax (clientHelloMsg.vers m) else supportedVersions)
    (clientHelloMsg.extensions m).

(** [c.config.GetConfigForClient(chi)] *)
Definition config_for_client (config : serverConfig) (m : clientHelloMsg.t) : CM (option serverConfig) :=
  match ServerConfig.GetConfigForClient config with
  | None => cret None
  | Some f =>
      match f (clientHelloInfo m) with
      | Err e => calert_then alertInternalError e
      | r => clift r
      end
  end.

(** [originalConfig.ticketKeys(configForClient)]: the keys, and the two
    configurations with their keys.  Three places of the reader are kept for
    the keys that it may generate. *)
Definition server_ticketKeys (original : serverConfig) (forClient : option serverConfig)
  : CM (list ticketKey * option serverConfig * serverConfig) :=
  let* n := on_conn (get rand_calls) in
  let* _ := on_conn (modify (fun c => with_rand_calls (n + 3) c)) in
  let* (keys, fc, oc) := clift (Ticket.ticketKeys (time_now (ServerConfig.base original)) (fun i => rand (n + i)%nat 32)
    (ServerConfig.tickets <$> forClient) (ServerConfig.tickets original)) in
  let fc := match forClient, fc with
            | Some f, Some k => Some (ServerConfig.set_tickets k f)
            | f, _ => f
            end in
  cret (keys, fc, ServerConfig.set_tickets oc original).

(** [c.config.mutualVersion], and the version on both halves of the connection. *)
Definition pick_version (config : serverConfig) (m : clientHelloMsg.t) : CM Z :=
  let* v := clift (server_version fips (Some (server_neg config)) (clientHelloMsg.vers m) (clientHelloMsg.supportedVersions m)) in
  match v with
  | None => calert_then alertProtocolVersion (EText "tls: client offered only unsupported versions: ")
  | Some v =>
      let* _ := on_conn (modify (fun c => with_cout (with_version v (cout c))
        (with_cin (with_version v (cin c)) (with_haveVers true (with_vers v c))))) in
      cret v
  end.

Section hello.
Context `{hpke.X25519} {Block Q : Type} `{hpke.cipherAEAD Q}.
Context (aes_NewCipher : bytes -> outcome conn_error Block) (cipher_NewGCM : Block -> outcome conn_error Q).
Context (chacha20poly1305_New : bytes -> outcome conn_error Q).
Abbreviation ech_context := (option (echServerContext (T:=Q))).

(** The message after Encrypted Client Hello, its context, and
    [c.echAccepted]. *)
Definition process_ech (config : serverConfig) (m : clientHelloMsg.t) : CM (clientHelloMsg.t * ech_context * bool) :=
  if (length (clientHelloMsg.encryptedClientHello m) =? 0)%nat then cret (m, None, false)
  else on_conn (processECHClientHello (B:=B) aes_NewCipher cipher_NewGCM chacha20poly1305_New dyn_off rand
         (ServerConfig.EncryptedClientHelloKeys config) m).

Record received := mkReceived {
  rc_hello : clientHelloMsg.t;
  rc_ech : ech_context;
  rc_accepted : bool;               (* [c.echAccepted] *)
  rc_config : serverConfig;         (* [c.config] *)
  rc_original : serverConfig        (* the shared configuration, with its ticket keys *)
}.

Definition readClientHello (config : serverConfig) : CM received :=
  let* (msg, _) := on_conn (readHandshakeData dyn_off rand) in
  match msg with
  | ClientHello m =>
      let* (m, ech, accepted) := process_ech config m in
      let* forClient := config_for_client config m in
      let* (keys, forClient, original) := server_ticketKeys config forClient in
      let* _ := cmodify (ClientConn.set_info (set_ticketKeys keys)) in
      let used := default original forClient in
      let* v := pick_version used m in
      if negb (v =? VersionTLS13) && match ech with Some e => negb (inner e) | None => false end then
        calert_then alertIllegalParameter (EText "tls: Encrypted Client Hello cannot be used pre-TLS 1.3")
      else cret (mkReceived m ech accepted used original)
  | _ => unexpected_message dyn_off rand
  end.
End hello.

(** ** The client's certificates *)

(** The loop over the certificates. *)
Fixpoint parse_client_certificates (certificates : list bytes) (certs : list X) : CM (list X) :=
  match certificates with
  | [] => cret certs
  | asn1Data :: certificates =>
      match ParseCertificate asn1Data with
      | Panic w => clift (Panic w)
      | Err _ => calert_then alertDecodeError (EText "tls: failed to parse client certificate: ")
      | Ret cert =>
          let next := parse_client_certificates certificates (certs ++ [cert]) in
          if PublicKeyAlgorithm_RSA cert then
            match cert_PublicKey cert with
            | PubRSA _ k =>
                if snd (checkKeySize (N_BitLen k)) then next
                else calert_then alertBadCertificate
                       (EText "tls: client sent certificate containing RSA key larger than 8192 bits")
            | _ => clift (Panic "interface conversion")
            end
          else next
      end
  end.

Definition client_options (config : serverConfig) (certs : list X) : VerifyOptions X CertPool :=
  mkVerifyOptions (ServerConfig.ClientCAs config) (time_now (ServerConfig.base config)) [] (tail certs).
Definition verify_alert (e : conn_error) : Z :=
  if is_UnknownAuthorityError e then alertUnknownCA
  else if is_ExpiredError e then alertCertificateExpired
  else alertBadCertificate.

(** The chains, if the configuration wants them verified. *)
Definition verify_client_chains (config : serverConfig) (certs : list X) : CM unit :=
  match certs with
  | leaf :: _ =>
      if negb (VerifyClientCertIfGiven <=? ServerConfig.ClientAuth config) then cret tt else
      match x509_VerifyClient leaf (client_options config certs) with
      | Panic w => clift (Panic w)
      | Err e => calert_then (verify_alert e) e
      | Ret chains =>
          match fipsAllowedChains fips chains with
          | Ret chains => cmodify (ClientConn.set_info (set_verifiedChains chains))
          | Err e => let* _ := cmodify (ClientConn.set_info (set_verifiedChains [])) in calert_then alertBadCertificate e
          | Panic w => clift (Panic w)
          end
      end
  | [] => cret tt
  end.

Definition unsupported_key (certs : list X) : bool :=
  match certs with leaf :: _ => match cert_PublicKey leaf with PubOther => true | _ => false end | [] => false end.

Definition processCertsFromClient (config : serverConfig) (certificate : Certificate) : CM unit :=
  let* certs := parse_client_certificates (Certificate_ certificate) [] in
  let* v := on_conn (get (@vers S A C K)) in
  if (length certs =? 0)%nat && requiresClientCert (ServerConfig.ClientAuth config) then
    calert_then (if v =? VersionTLS13 then alertCertificateRequired else alertHandshakeFailure)
      (EText "tls: client didn't provide a certificate")
  else
    let* _ := verify_client_chains config certs in
    let* _ := cmodify (ClientConn.set_info (fun i => set_stapled (OCSPStaple certificate) (SignedCertificateTimestamps certificate)
      (set_peerCertificates certs (activeCertHandles i) i))) in
    if unsupported_key certs then
      calert_then alertUnsupportedCertificate (EText "tls: client certificate contains an unsupported public key")
    else
      let* i := cget ClientConn.info in
      match VerifyPeerCertificate (ServerConfig.base config) with
      | None => cret tt
      | Some f =>
          match f (Certificate_ certificate) (verifiedChains i) with
          | None => cret tt
          | Some e => calert_then alertBadCertificate e
          end
      end.

(** ** Sessions *)

(** [c.connectionStateLocked()]; [accepted] is [c.echAccepted]. *)
Definition set_ECHAccepted (b : bool) (s : ConnectionState X) : ConnectionState X :=
  match s with
  | mkConnectionState version complete resumed suite curve proto mutual name peers chains scts ocsp unique _ ekm hrr =>
      mkConnectionState version complete resumed suite curve proto mutual name peers chains scts ocsp unique b ekm hrr
  end.
Definition server_connectionState (config : serverConfig) (accepted : bool) : CM (ConnectionState X) :=
  let* s := connectionStateLocked (ServerConfig.base config) in cret (set_ECHAccepted accepted s).

(** [c.config.VerifyConnection], if there is one. *)
Definition server_verify_connection (config : serverConfig) (accepted : bool) : CM unit :=
  match VerifyConnection (ServerConfig.base config) with
  | None => cret tt
  | Some f =>
      let* st := server_connectionState config accepted in
      match f st with
      | None => cret tt
      | Some e => calert_then alertBadCertificate e
      end
  end.

(** A session of a ticket: by [UnwrapSession], or with the keys of the
    connection.  [None]: there is none, or it is not to be used. *)
Context (aes_ctr : bytes -> bytes -> bytes -> bytes).
Definition unwrap_session (config : serverConfig) (accepted : bool) (ticket : bytes) : CM (option (SessionState.t X)) :=
  match ServerConfig.UnwrapSession config with
  | Some f => let* st := server_connectionState config accepted in clift (f ticket st)
  | None =>
      let* i := cget ClientConn.info in
      match decryptTicket aes_ctr ticket (RealityHandshake.ticketKeys i) with
      | None => cret None
      | Some plaintext =>
          match SessionState.ParseSessionState plaintext with
          | Ret ss => cret (Some ss)
          | Err _ => cret None
          | Panic w => clift (Panic w)
          end
      end
  end.

(** The ticket is not older than its lifetime. *)
Definition session_fresh (config : serverConfig) (s : SessionState.t X) : bool :=
  negb (maxSessionTicketLifetime <? time_Sub (time_now (ServerConfig.base config)) (time_Unix (SessionState.createdAt s))).

(** The client's certificates of a session are as the configuration wants them. *)
Definition session_certs_ok (config : serverConfig) (s : SessionState.t X) : bool :=
  let auth := ServerConfig.ClientAuth config in
  match SessionState.peerCertificates s with
  | [] => negb (requiresClientCert auth)
  | leaf :: _ =>
      negb (auth =? NoClientCert) &&
      negb (NotAfter leaf <? time_now (ServerConfig.base config)) &&
      negb ((VerifyClientCertIfGiven <=? auth) && (length (SessionState.verifiedChains s) =? 0)%nat)
  end.

(** What a resumption restores of the connection. *)
Definition restore_peer (s : SessionState.t X) : connInfo X -> connInfo X := fun i =>
  set_verifiedChains (SessionState.verifiedChains s)
    (set_stapled (SessionState.ocspResponse s) (SessionState.scts s)
      (set_peerCertificates (SessionState.peerCertificates s) (activeCertHandles i) i)).

(** [c.sessionState()] with a secret *)
Definition server_session (config : serverConfig) (c : client S A C K X T) (createdAt : Z) (secret : bytes) : SessionState.t X :=
  let i := ClientConn.info (cl c) in
  SessionState.mk [] false (vers (conn c)) false (ClientConn.cipherSuite (cl c)) createdAt secret (extMasterSecret i)
    (peerCertificates i) (activeCertHandles i) (ocspResponse i) (conn_scts i) (verifiedChains i) (clientProtocol i) 0 0 []
    (conn_curveID i).

(** The ticket of a session: by [WrapSession], or with the keys of the
    connection; [alert]: the alert for a session without an encoding. *)
Definition wrap_session (config : serverConfig) (accepted : bool) (alert : option Z) (state : SessionState.t X) : CM bytes :=
  match ServerConfig.WrapSession config with
  | Some f => let* st := server_connectionState config accepted in clift (f st state)
  | None =>
      let encoded := SessionState.Bytes (B:=B) state in
      let* stateBytes := match encoded, alert with
                         | Err e, Some a => calert_then a e
                         | _, _ => clift encoded
                         end in
      let* i := cget ClientConn.info in
      match RealityHandshake.ticketKeys i with
      | [] => clift (encryptTicket aes_ctr None stateBytes [])
      | keys => let* iv := on_conn (read_rand rand 16) in clift (encryptTicket aes_ctr iv stateBytes keys)
      end
  end.
End server.
