(* ===== verification/Server12.v ===== *)
(** * handshake_server.go: the handshake of a TLS 1.0 to 1.2 server

    [handshake] over [serverHandshakeState]: a full handshake with or without
    a certificate of the client, and a resumption.  [c.config] is the one that
    [readClientHello] has settled on.  [hs.c] is the state of the monad; [suite],
    [sessionState], [finishedHash] and [masterSecret] enter the record when
    the code sets them.  [serverHandshake] of a TLS 1.3 client runs the REALITY
    handshake with [hs.hello] [nil]. *)

From S2P Require Import Prelude Common HalfConn Cryptobyte Hello Messages Gcm CipherSuites Kdf Conn.
From S2P Require Import Negotiation Auth KeyAgreement Ticket RealityHandshake Post Client Client13 Client12 ClientHandshake.
From S2P Require Import Hpke Ech Server.

Open Scope go_scope.

Module serverHandshakeState.
Section hs.
Context {X P : Type} `{Hashes}.

Record t := mk {
  clientHello : clientHelloMsg.t;
  hello : serverHelloMsg.t;
  suite : cipherSuite;
  sessionState : option (SessionState.t X);
  finishedHash : finishedHash.t;
  masterSecret : bytes;
  cert : clientCertificate X P
}.
Definition set_finishedHash f (h : t) : t :=
  mk (clientHello h) (hello h) (suite h) (sessionState h) f (masterSecret h) (cert h).
Definition set_masterSecret s (h : t) : t :=
  mk (clientHello h) (hello h) (suite h) (sessionState h) (finishedHash h) s (cert h).
End hs.
Arguments t X P : clear implicits.
End serverHandshakeState.
Import serverHandshakeState.

Section handshake.
Context {S A C K : Type} `{Stream S} `{RecordAEAD A} `{CbcMode C} `{MacFun K}.
Context `{Hashes} `{CryptoString} {B : Type} `{Builder B} {X P T : Type} `{X509 X} `{CertificateChains X P}.
Context `{EcdhCurves} `{Decapsulation} `{Verifiers P} `{!ServerX509 X P}.
Abbreviation CM := (CM S A C K X T).
Abbreviation hstate := (serverHandshakeState.t X P).
Abbreviation serverConfig := (ServerConfig.t X P CertPool).
Abbreviation session_state := (SessionState.t X).
Abbreviation certificate := (clientCertificate X P).

Context (dyn_off : bool) (rand : nat -> nat -> option bytes).
(** [generateECDHEKey], by the number of uses of the reader. *)
Context (generated : nat -> ecdh_Curve -> outcome conn_error ecdhPrivateKey).
Context (suite_aead : aead_fn -> bytes -> bytes -> outcome conn_error A).
(** [suite.cipher(key, iv, isRead)], [suite.mac(key)] *)
Context (suite_cipher : cipher_fn -> bytes -> bytes -> bool -> cipher_state S A C).
Context (suite_mac : mac_fn -> bytes -> Hash K).
Context (keys_at : nat -> CertificateKeys P).
Context (aes_ctr : bytes -> bytes -> bytes -> bytes).
Context (ToLower : bytes -> bytes).
Context (fips hasAESGCMHardwareSupport : bool).
Context (config : serverConfig).

Abbreviation calert_then := (calert_then dyn_off rand).
Abbreviation or_calert := (or_calert dyn_off rand).
Abbreviation creturn_alert := (creturn_alert dyn_off rand).
Abbreviation unexpected_message := (unexpected_message dyn_off rand).
Abbreviation base := (ServerConfig.base config).
Abbreviation auth := (ServerConfig.ClientAuth config).

(** [c.readHandshake(&hs.finishedHash)], [transcriptMsg(msg, &hs.finishedHash)],
    [c.writeHandshakeRecord(msg, &hs.finishedHash)] *)
Definition read_msg (hs : hstate) : CM (handshakeMessage * hstate) :=
  let* (msg, data) := on_conn (readHandshakeData dyn_off rand) in
  cret (msg, set_finishedHash (finishedHash.Write data (finishedHash hs)) hs).
Definition transcript_msg (msg : handshakeMessage) (hs : hstate) : CM hstate :=
  let* data := clift (transcriptMsg B msg) in
  cret (set_finishedHash (finishedHash.Write data (finishedHash hs)) hs).
Definition send_msg (msg : handshakeMessage) (hs : hstate) : CM hstate :=
  let m := marshal_message B msg in
  let* (_, err) := on_conn (writeHandshakeRecord dyn_off rand m) in
  let* _ := on_conn (raise err) in
  cret (match m with Ret data => set_finishedHash (finishedHash.Write data (finishedHash hs)) hs | _ => hs end).

(** ** The ClientHello *)

(** [hs.hello]; what is not set here is zero. *)
Definition server_hello (vers : Z) (m : clientHelloMsg.t) (random proto : bytes) (scts : list bytes) (points : bytes)
  : serverHelloMsg.t :=
  serverHelloMsg.mk None vers random [] 0 compressionNone false false (clientHelloMsg.secureRenegotiationSupported m) []
    (clientHelloMsg.extendedMasterSecret m) proto scts 0 (mkKeyShare 0 []) false 0 points None false [] 0.

Definition compression_ok (m : clientHelloMsg.t) : bool :=
  contains compressionNone (clientHelloMsg.compressionMethods m).

(** What the key of the certificate can do: [None] for a type of key that is
    not supported. *)
Definition sign_use (key : PrivateKey P) : option (bool * bool) :=
  match Signer key with
  | None => Some (false, false)
  | Some (PubECDSA _ _) | Some (PubEd25519 _) => Some (true, false)
  | Some (PubRSA _ _) => Some (false, true)
  | Some PubOther => None
  end.
Definition decrypt_use (key : PrivateKey P) : option bool :=
  match Decrypter key with
  | None => Some false
  | Some (PubRSA _ _) => Some true
  | Some _ => None
  end.
Definition uses_of (key : PrivateKey P) (ecdhe : bool) : CM key_use :=
  match sign_use key with
  | None => calert_then alertInternalError (EText "tls: unsupported signing key type")
  | Some (ec, rsa) =>
      match decrypt_use key with
      | None => calert_then alertInternalError (EText "tls: unsupported decryption key type")
      | Some decrypt => cret (mkKeyUse ecdhe ec rsa decrypt)
      end
  end.

Definition make_random : CM bytes :=
  let* v := on_conn (get (@vers S A C K)) in
  let* n := next_rand in
  let* r := clift (server_random fips (Some (server_neg config)) v (rand n)) in
  match r with Some r => cret r | None => calert_then alertInternalError ERand end.

Definition find_certificate (m : clientHelloMsg.t) : CM certificate :=
  match getCertificate ToLower fips config (clientHelloInfo m) with
  | Ret c => cret c
  | Err (a, e) => calert_then a e
  | Panic w => clift (Panic w)
  end.

(** [hs.hello], [hs.cert] and what its key can do. *)
Definition processClientHello (m : clientHelloMsg.t) : CM (serverHelloMsg.t * certificate * key_use) :=
  let* v := on_conn (get (@vers S A C K)) in
  if negb (compression_ok m) then
    calert_then alertHandshakeFailure (EText "tls: client does not support uncompressed connections")
  else
    let* random := make_random in
    if negb (length (clientHelloMsg.secureRenegotiation m) =? 0)%nat then
      calert_then alertHandshakeFailure (EText "tls: initial handshake had non-empty renegotiation extension")
    else
      let* _ := (if (0 <? length (clientHelloMsg.serverName m))%nat
                 then cmodify (ClientConn.set_serverName (clientHelloMsg.serverName m)) else cret tt) in
      let* proto := or_calert alertNoApplicationProtocol
        (negotiateALPN (NextProtos base) (clientHelloMsg.alpnProtocols m) false) in
      let* _ := cmodify (ClientConn.set_info (set_clientProtocol proto)) in
      let* cert := find_certificate m in
      let scts := if clientHelloMsg.scts m then default [] (SignedCertificateTimestamps (cc_message cert)) else [] in
      let* ecdhe := or_calert alertMissingExtension (supportsECDHE fips (Some (server_neg config)) v
        (clientHelloMsg.supportedCurves m) (clientHelloMsg.supportedPoints m)) in
      let points := if ecdhe && (0 <? length (clientHelloMsg.supportedPoints m))%nat then [pointFormatUncompressed] else [] in
      let* uses := uses_of (ck_PrivateKey (cc_key cert)) ecdhe in
      cret (server_hello v m random proto scts points, cert, uses).

(** ** Resumption *)

(** The session goes with the client's offer and the configuration; [Err]: the
    handshake is given up. *)
Definition resumable (m : clientHelloMsg.t) (uses : key_use) (v : Z) (s : session_state)
  : outcome conn_error (option cipherSuite) :=
  if negb (session_fresh config s) then Ret None
  else if negb (v =? SessionState.version s) then Ret None
  else if negb (contains (SessionState.cipherSuite s) (clientHelloMsg.cipherSuites m)) then Ret None
  else match selectCipherSuite [SessionState.cipherSuite s] (supportedCipherSuites fips (server_neg config))
               (cipherSuiteOk uses v) with
       | None => Ret None
       | Some suite =>
           if negb (session_certs_ok config s) then Ret None
           else if negb (SessionState.extMasterSecret s) && clientHelloMsg.extendedMasterSecret m then Ret None
           else if SessionState.extMasterSecret s && negb (clientHelloMsg.extendedMasterSecret m) then
             Err (EText "tls: session supported extended_master_secret but client does not")
           else if negb (SessionState.extMasterSecret s) && fips then Ret None
           else Ret (Some suite)
       end.

(** The session and its suite, if there is a session to resume. *)
Definition checkForResumption (m : clientHelloMsg.t) (uses : key_use) : CM (option (session_state * cipherSuite)) :=
  if cfg_SessionTicketsDisabled base then cret None else
  let* ss := unwrap_session aes_ctr config false (clientHelloMsg.sessionTicket m) in
  match ss with
  | None => cret None
  | Some s =>
      let* v := on_conn (get (@vers S A C K)) in
      let* r := clift (resumable m uses v s) in
      match r with
      | None => cret None
      | Some suite =>
          let* _ := cmodify (ClientConn.set_info (fun i => set_curveID (SessionState.curveID s)
            (set_extMasterSecret (SessionState.extMasterSecret s) (restore_peer s i)))) in
          let* _ := cmodify (ClientConn.set_didResume true) in
          cret (Some (s, suite))
      end
  end.

(** [newFinishedHash] and the ClientHello; the buffer is for a signature. *)
Definition start_transcript (hs : hstate) (discard : bool) : CM hstate :=
  let* v := on_conn (get (@vers S A C K)) in
  let* fh := clift (finishedHash.New v (suite hs)) in
  let fh := if discard then finishedHash.discardHandshakeBuffer fh else fh in
  transcript_msg (ClientHello (clientHello hs)) (set_finishedHash fh hs).

Definition empty_finishedHash : finishedHash.t :=
  finishedHash.mk (new_digest sha256_fn) (new_digest sha256_fn) None None None 0 (fun _ _ _ _ => []).
Definition new_state (m : clientHelloMsg.t) (hello : serverHelloMsg.t) (cert : certificate) (suite : cipherSuite)
    (session : option session_state) : hstate :=
  mk m hello suite session empty_finishedHash [] cert.

Definition doResumeHandshake (m : clientHelloMsg.t) (hello : serverHelloMsg.t) (cert : certificate)
    (s : session_state) (suite : cipherSuite) : CM hstate :=
  let* _ := cmodify (ClientConn.set_cipherSuite (id suite)) in
  let hello := serverHelloMsg.set_ticketSupported true
    (serverHelloMsg.set_sessionId (clientHelloMsg.sessionId m) (serverHelloMsg.set_cipherSuite (id suite) hello)) in
  let* hs := start_transcript (new_state m hello cert suite (Some s)) true in
  let* hs := send_msg (ServerHello hello) hs in
  let* _ := server_verify_connection dyn_off rand config false in
  cret (set_masterSecret (SessionState.secret s) hs).

(** ** The full handshake *)

(** [pickCipherSuite]: the choice of [Negotiation], with [c.cipherSuite] and the
    alerts. *)
Definition pick_suite (m : clientHelloMsg.t) (uses : key_use) : CM cipherSuite :=
  let* v := on_conn (get (@vers S A C K)) in
  let ids := clientHelloMsg.cipherSuites m in
  match selectCipherSuite (config_cipherSuites fips (server_neg config) (isAESGCMPreferred hasAESGCMHardwareSupport ids)) ids
          (cipherSuiteOk uses v) with
  | None => calert_then alertHandshakeFailure (EText "tls: no cipher suite supported by both client and server")
  | Some s =>
      let* _ := cmodify (ClientConn.set_cipherSuite (id s)) in
      if negb (contains TLS_FALLBACK_SCSV ids) then cret s else
      let* maxVers := clift (maxSupportedVersion fips (Some (server_neg config)) roleServer) in
      if clientHelloMsg.vers m <? maxVers then
        calert_then alertInappropriateFallback (EText "tls: client using inappropriate protocol fallback")
      else cret s
  end.

(** [keyAgreement.generateServerKeyExchange]: a key, and the signature. *)
Definition generate_skx (ka : keyAgreement) (hs : hstate)
  : CM (outcome conn_error (option serverKeyExchangeMsg.t) * keyAgreement) :=
  match ka with
  | kaRSA => cret (rsaKeyAgreement.generateServerKeyExchange, kaRSA)
  | kaECDHE ka =>
      let* n := next_rand in
      let* k := next_rand in
      let '(r, ka) := @ecdheKeyAgreement.generateServerKeyExchange _ _ P (keys_at k) (generated n) fips
        (Some (server_neg config)) (cc_key (cert hs)) (clientHello hs) (hello hs) ka in
      cret (let! m := r in Ret (Some m), kaECDHE ka)
  end.

Definition send_skx (ka : keyAgreement) (hs : hstate) : CM (keyAgreement * hstate) :=
  let* (r, ka) := generate_skx ka hs in
  let* skx := or_calert alertHandshakeFailure r in
  match skx with
  | None => cret (ka, hs)
  | Some skx =>
      let k := serverKeyExchangeMsg.key skx in
      let* _ := (if (3 <=? length k)%nat && (nth_byte k 0 =? 3)
                 then cmodify (ClientConn.set_info (set_curveID ((nth_byte k 1 ≪ 8) ||| nth_byte k 2))) else cret tt) in
      let* hs := send_msg (ServerKeyExchange skx) hs in
      cret (ka, hs)
  end.

Definition certificate_request12 (v : Z) : certificateRequestMsg.t :=
  certificateRequestMsg.mk (VersionTLS12 <=? v) [certTypeRSASign; certTypeECDSASign]
    (if VersionTLS12 <=? v then supportedSignatureAlgorithms fips else [])
    (match ServerConfig.ClientCAs config with Some pool => Subjects pool | None => [] end).

(** ServerHello to ServerHelloDone. *)
Definition send_flight (hs : hstate) : CM (keyAgreement * option certificateRequestMsg.t * hstate) :=
  let* v := on_conn (get (@vers S A C K)) in
  let* hs := start_transcript hs (auth =? NoClientCert) in
  let* hs := send_msg (ServerHello (hello hs)) hs in
  let* hs := send_msg (CertificateMsg (certificateMsg.mk (Certificate_ (cc_message (cert hs))))) hs in
  let* hs := (if serverHelloMsg.ocspStapling (hello hs)
              then send_msg (CertificateStatus (certificateStatusMsg.mk (default [] (OCSPStaple (cc_message (cert hs)))))) hs
              else cret hs) in
  let* (ka, hs) := send_skx (suite_ka (ka (suite hs)) v) hs in
  let* (req, hs) := (if RequestClientCert <=? auth then
                       let req := certificate_request12 v in
                       let* hs := send_msg (CertificateRequest req) hs in cret (Some req, hs)
                     else cret (None, hs)) in
  let* hs := send_msg ServerHelloDone hs in
  let* (_, err) := on_conn flush in
  let* _ := on_conn (raise err) in
  cret (ka, req, hs).

(** The client's certificates, if they were requested, and the next message. *)
Definition read_client_certificate (hs : hstate) : CM (handshakeMessage * hstate) :=
  let* (msg, hs) := read_msg hs in
  if negb (RequestClientCert <=? auth) then cret (msg, hs) else
  match msg with
  | CertificateMsg certMsg =>
      let* _ := processCertsFromClient dyn_off rand fips config (mkCertificate (certificateMsg.certificates certMsg) None None) in
      read_msg hs
  | _ => unexpected_message
  end.

(** [keyAgreement.processClientKeyExchange] *)
Definition process_ckx (ka : keyAgreement) (hs : hstate) (ckx : clientKeyExchangeMsg.t) : CM (outcome conn_error bytes) :=
  match ka with
  | kaRSA =>
      let* n := next_rand in
      cret (@rsaKeyAgreement.processClientKeyExchange P (keys_at n) (cc_key (cert hs)) ckx)
  | kaECDHE ka => cret (fst (ecdheKeyAgreement.processClientKeyExchange ckx ka))
  end.

Definition server_master (preMasterSecret : bytes) (hs : hstate) : CM hstate :=
  let* v := on_conn (get (@vers S A C K)) in
  if serverHelloMsg.extendedMasterSecret (hello hs) then
    let* _ := cmodify (ClientConn.set_info (set_extMasterSecret true)) in
    let* sum := clift (finishedHash.Sum (finishedHash hs)) in
    let* s := clift (extMasterFromPreMasterSecret v (suite hs) preMasterSecret sum) in
    cret (set_masterSecret s hs)
  else if fips then
    calert_then alertHandshakeFailure (EText "tls: FIPS 140-3 requires the use of Extended Master Secret")
  else
    let* s := clift (masterFromPreMasterSecret v (suite hs) preMasterSecret
      (clientHelloMsg.random (clientHello hs)) (serverHelloMsg.random (hello hs))) in
    cret (set_masterSecret s hs).

(** [c.config.writeKeyLog] *)
Definition server_log_master (hs : hstate) : CM unit :=
  match cfg_KeyLogWriter base with
  | None => cret tt
  | Some w =>
      match w (key_log_line keyLogLabelTLS12 (clientHelloMsg.random (clientHello hs)) (masterSecret hs)) with
      | None => cret tt
      | Some e => calert_then alertInternalError e
      end
  end.

(** The type and the hash of the client's signature. *)
Definition client_sig (v : Z) (pub : PublicKey P) (req : option certificateRequestMsg.t) (m : certificateVerifyMsg.t)
  : CM (Z * sig_hash) :=
  if VersionTLS12 <=? v then
    match req with
    | None => clift (Panic nil_dereference)
    | Some req =>
        if negb (isSupportedSignatureAlgorithm (certificateVerifyMsg.signatureAlgorithm m)
                   (certificateRequestMsg.supportedSignatureAlgorithms req)) then
          calert_then alertIllegalParameter (EText "tls: client certificate used with invalid signature algorithm")
        else
          match typeAndHashFromSignatureScheme (certificateVerifyMsg.signatureAlgorithm m) with
          | Ret th => cret th
          | _ => let* _ := creturn_alert alertInternalError in clift (Panic "unreachable")
          end
    end
  else or_calert alertIllegalParameter (legacyTypeAndHashFromPublicKey pub).

(** CertificateVerify. *)
Definition read_client_verify (req : option certificateRequestMsg.t) (hs : hstate) : CM hstate :=
  let* i := cget ClientConn.info in
  match peerCertificates i with
  | [] => cret hs
  | leaf :: _ =>
      let* (msg, _) := on_conn (readHandshakeData dyn_off rand) in
      match msg with
      | CertificateVerify m =>
          let* v := on_conn (get (@vers S A C K)) in
          let* (sigType, sigHash) := client_sig v (cert_PublicKey leaf) req m in
          let* signed := clift (client_signed (finishedHash hs) sigType sigHash) in
          match verifyHandshakeSignature sigType (cert_PublicKey leaf) sigHash signed (certificateVerifyMsg.signature m) with
          | Some _ => calert_then alertDecryptError (EText "tls: invalid signature by the client certificate: ")
          | None => transcript_msg (CertificateVerify m) hs
          end
      | _ => unexpected_message
      end
  end.

Definition doFullHandshake (m : clientHelloMsg.t) (sh : serverHelloMsg.t) (c : certificate) (s : cipherSuite) : CM hstate :=
  let staple := clientHelloMsg.ocspStapling m && (0 <? length (default [] (OCSPStaple (cc_message c))))%nat in
  let sh := serverHelloMsg.set_cipherSuite (id s)
    (serverHelloMsg.set_ticketSupported (clientHelloMsg.ticketSupported m && negb (cfg_SessionTicketsDisabled base))
      (serverHelloMsg.set_ocspStapling staple sh)) in
  let* (ka, req, hs) := send_flight (new_state m sh c s None) in
  let* (msg, hs) := read_client_certificate hs in
  let* _ := server_verify_connection dyn_off rand config false in
  match msg with
  | ClientKeyExchange ckx =>
      let* r := process_ckx ka hs ckx in
      let* preMasterSecret := or_calert alertIllegalParameter r in
      let* hs := server_master preMasterSecret hs in
      let* _ := server_log_master hs in
      let* hs := read_client_verify req hs in
      cret (set_finishedHash (finishedHash.discardHandshakeBuffer (finishedHash hs)) hs)
  | _ => unexpected_message
  end.

(** ** Keys, Finished and tickets *)

Definition server_establishKeys (hs : hstate) : CM unit :=
  let* v := on_conn (get (@vers S A C K)) in
  let s := suite hs in
  let* ks := clift (keysFromMasterSecret v s (masterSecret hs) (clientHelloMsg.random (clientHello hs))
    (serverHelloMsg.random (hello hs)) (Z.to_nat (macLen s)) (Z.to_nat (keyLen s)) (Z.to_nat (ivLen s))) in
  let* (clientCipher, clientHash, (serverCipher, serverHash)) :=
    match cs_aead s with
    | None =>
        match cs_cipher s, cs_mac s with
        | Some cipher, Some mac =>
            cret (suite_cipher cipher (clientKey ks) (clientIV ks) true, Some (suite_mac mac (clientMAC ks)),
                  (suite_cipher cipher (serverKey ks) (serverIV ks) false, Some (suite_mac mac (serverMAC ks))))
        | _, _ => clift (Panic nil_dereference)
        end
    | Some f =>
        let* ca := clift (suite_aead f (clientKey ks) (clientIV ks)) in
        let* sa := clift (suite_aead f (serverKey ks) (serverIV ks)) in
        cret (CAead ca, None, (CAead sa, None))
    end in
  let* _ := on_conn (modify (fun c => with_cin (prepareCipherSpec v clientCipher clientHash (cin c)) c)) in
  on_conn (modify (fun c => with_cout (prepareCipherSpec v serverCipher serverHash (cout c)) c)).

(** [readFinished(out)]: [first] when [out] is [c.clientFinished[:]]. *)
Definition server_readFinished (first : bool) (hs : hstate) : CM hstate :=
  let* _ := on_conn (readChangeCipherSpec dyn_off rand) in
  let* (msg, _) := on_conn (readHandshakeData dyn_off rand) in
  match msg with
  | Finished clientFinished =>
      let* verify := clift (finishedHash.clientSum (finishedHash hs) (masterSecret hs)) in
      if negb (length verify =? length (finishedMsg.verifyData clientFinished))%nat ||
         negb (ConstantTimeCompare verify (finishedMsg.verifyData clientFinished) =? 1) then
        calert_then alertHandshakeFailure (EText "tls: client's Finished message is incorrect")
      else
        let* hs := transcript_msg (Finished clientFinished) hs in
        let* old := cget ClientConn.clientFinished in
        let* _ := cmodify (if first then ClientConn.set_clientFinished (Gcm.copy old verify) else fun c => c) in
        cret hs
  | _ => unexpected_message
  end.

Definition server_sendSessionTicket (hs : hstate) : CM hstate :=
  if negb (serverHelloMsg.ticketSupported (hello hs)) then cret hs else
  let createdAt := match sessionState hs with
                   | Some s => SessionState.createdAt s
                   | None => time_now base / second
                   end in
  let* ticket := (fun c => wrap_session (B:=B) dyn_off rand aes_ctr config false None (server_session config c createdAt (masterSecret hs)) c) in
  send_msg (NewSessionTicket (newSessionTicketMsg.mk ticket)) hs.

(** [sendFinished(out)]: [first] when [out] is [c.serverFinished[:]]. *)
Definition server_sendFinished (first : bool) (hs : hstate) : CM hstate :=
  let* _ := on_conn (writeChangeCipherRecord dyn_off rand) in
  let* verifyData := clift (finishedHash.serverSum (finishedHash hs) (masterSecret hs)) in
  let* hs := send_msg (Finished (finishedMsg.mk verifyData)) hs in
  let* old := cget ClientConn.serverFinished in
  let* _ := cmodify (if first then ClientConn.set_serverFinished (Gcm.copy old verifyData) else fun c => c) in
  cret hs.

(** ** [handshake] *)

Definition server_resume (m : clientHelloMsg.t) (sh : serverHelloMsg.t) (c : certificate) (s : session_state)
    (suite : cipherSuite) : CM hstate :=
  let* hs := doResumeHandshake m sh c s suite in
  let* _ := server_establishKeys hs in
  let* hs := server_sendSessionTicket hs in
  let* hs := server_sendFinished true hs in
  let* (_, err) := on_conn flush in
  let* _ := on_conn (raise err) in
  let* _ := cmodify (ClientConn.set_clientFinishedIsFirst false) in
  server_readFinished false hs.

Definition server_full (m : clientHelloMsg.t) (sh : serverHelloMsg.t) (c : certificate) (uses : key_use) : CM hstate :=
  let* s := pick_suite m uses in
  let* hs := doFullHandshake m sh c s in
  let* _ := server_establishKeys hs in
  let* hs := server_readFinished true hs in
  let* _ := cmodify (ClientConn.set_clientFinishedIsFirst true) in
  let* _ := on_conn (modify (with_buffering true)) in
  let* hs := server_sendSessionTicket hs in
  let* hs := server_sendFinished false hs in
  let* (_, err) := on_conn flush in
  let* _ := on_conn (raise err) in
  cret hs.

Definition server_handshake12 (m : clientHelloMsg.t) : CM hstate :=
  let* (sh, c, uses) := processClientHello m in
  let* _ := on_conn (modify (with_buffering true)) in
  let* resumed := checkForResumption m uses in
  let* hs := match resumed with
             | Some (s, suite) => server_resume m sh c s suite
             | None => server_full m sh c uses
             end in
  let* v := on_conn (get (@vers S A C K)) in
  let* _ := cmodify (ClientConn.set_ekm (ekm12 v (suite hs) (masterSecret hs)
    (clientHelloMsg.random m) (serverHelloMsg.random (hello hs)))) in
  let* _ := on_conn (modify (with_isHandshakeComplete true)) in
  cret hs.
End handshake.

(** [serverHandshake]: the configuration may change; a TLS 1.3 handshake starts
    with a read of [hs.hello], which is [nil]. *)
Section serve.
Context {S A C K : Type} `{Stream S} `{RecordAEAD A} `{CbcMode C} `{MacFun K}.
Context `{Hashes} `{CryptoString} {B : Type} `{Builder B} {X P T : Type} `{X509 X} `{CertificateChains X P}.
Context `{EcdhCurves} `{Decapsulation} `{Verifiers P} `{!ServerX509 X P}.
Context `{hpke.X25519} {Block Q : Type} `{hpke.cipherAEAD Q}.
Context (dyn_off : bool) (rand : nat -> nat -> option bytes).
Context (generated : nat -> ecdh_Curve -> outcome conn_error ecdhPrivateKey).
Context (suite_aead : aead_fn -> bytes -> bytes -> outcome conn_error A).
Context (suite_cipher : cipher_fn -> bytes -> bytes -> bool -> cipher_state S A C).
Context (suite_mac : mac_fn -> bytes -> Hash K).
Context (keys_at : nat -> CertificateKeys P).
Context (aes_ctr : bytes -> bytes -> bytes -> bytes).
Context (ToLower : bytes -> bytes).
Context (aes_NewCipher : bytes -> outcome conn_error Block) (cipher_NewGCM : Block -> outcome conn_error Q).
Context (chacha20poly1305_New : bytes -> outcome conn_error Q).
Context (fips hasAESGCMHardwareSupport : bool).

Definition serverHandshake (config : ServerConfig.t X P CertPool) : CM S A C K X T (ServerConfig.t X P CertPool) :=
  let* r := readClientHello (B:=B) dyn_off rand fips aes_NewCipher cipher_NewGCM chacha20poly1305_New config in
  let* v := on_conn (get (@vers S A C K)) in
  if v =? VersionTLS13 then clift (Panic nil_dereference)
  else
    let* _ := server_handshake12 (B:=B) dyn_off rand generated suite_aead suite_cipher suite_mac keys_at aes_ctr ToLower
                fips hasAESGCMHardwareSupport (rc_config r) (rc_hello r) in
    cret (rc_original r).
End serve.
