(* ===== verification/Server13.v ===== *)
(** * handshake_server_tls13.go: what a TLS 1.3 server decides

    The methods of [serverHandshakeStateTLS13] that [handshake] of this fork
    does not call, or calls behind its [return]: the answer to a ClientHello
    with the choice of a group, HelloRetryRequest, resumption with a pre-shared
    key, the choice of a certificate, and the client's certificate.  What the
    REALITY handshake does call is in [RealityHandshake], whose state
    [readClientCertificate] takes.

    There is no QUIC transport.  [cloneHash] copies a hash of the standard
    library, which always succeeds. *)

From S2P Require Import Prelude Common HalfConn Cryptobyte Hello Messages Gcm CipherSuites Kdf Conn.
From S2P Require Import Negotiation Auth KeyAgreement Ticket RealityHandshake Post Client Client12 Client13 Hpke Ech Server.

Open Scope go_scope.

Definition maxClientPSKIdentities : nat := 5.

(** [sort.SliceStable] with a [less] that puts the elements with [f] first. *)
Definition stable_first (f : Z -> bool) (l : list Z) : list Z := List.filter f l ++ List.filter (fun x => negb (f x)) l.

(** ** illegalClientHelloChange *)

(** The loop over two lists of the same length. *)
Fixpoint any_differs {A} (eqb : A -> A -> bool) (l1 l2 : list A) : bool :=
  match l1, l2 with
  | x :: l1, y :: l2 => negb (eqb x y) || any_differs eqb l1 l2
  | _, _ => false
  end.
Definition bytes_Equal (a b : bytes) : bool := bool_decide (a = b).

Section change.
Context (ch ch1 : clientHelloMsg.t).
Import clientHelloMsg.

Definition lengths_differ : bool :=
  let differ {A} (l1 l2 : list A) := negb (length l1 =? length l2)%nat in
  differ (supportedVersions ch) (supportedVersions ch1) || differ (cipherSuites ch) (cipherSuites ch1) ||
  differ (supportedCurves ch) (supportedCurves ch1) ||
  differ (supportedSignatureAlgorithms ch) (supportedSignatureAlgorithms ch1) ||
  differ (supportedSignatureAlgorithmsCert ch) (supportedSignatureAlgorithmsCert ch1) ||
  differ (alpnProtocols ch) (alpnProtocols ch1).

Definition lists_differ : bool :=
  any_differs Z.eqb (supportedVersions ch) (supportedVersions ch1) ||
  any_differs Z.eqb (cipherSuites ch) (cipherSuites ch1) ||
  any_differs Z.eqb (supportedCurves ch) (supportedCurves ch1) ||
  any_differs Z.eqb (supportedSignatureAlgorithms ch) (supportedSignatureAlgorithms ch1) ||
  any_differs Z.eqb (supportedSignatureAlgorithmsCert ch) (supportedSignatureAlgorithmsCert ch1) ||
  any_differs bytes_Equal (alpnProtocols ch) (alpnProtocols ch1).

Definition fields_differ : bool :=
  negb (vers ch =? vers ch1) ||
  negb (bytes_Equal (random ch) (random ch1)) ||
  negb (bytes_Equal (sessionId ch) (sessionId ch1)) ||
  negb (bytes_Equal (compressionMethods ch) (compressionMethods ch1)) ||
  negb (bytes_Equal (serverName ch) (serverName ch1)) ||
  negb (eqb (ocspStapling ch) (ocspStapling ch1)) ||
  negb (bytes_Equal (supportedPoints ch) (supportedPoints ch1)) ||
  negb (eqb (ticketSupported ch) (ticketSupported ch1)) ||
  negb (bytes_Equal (sessionTicket ch) (sessionTicket ch1)) ||
  negb (eqb (secureRenegotiationSupported ch) (secureRenegotiationSupported ch1)) ||
  negb (bytes_Equal (secureRenegotiation ch) (secureRenegotiation ch1)) ||
  negb (eqb (scts ch) (scts ch1)) ||
  negb (bytes_Equal (cookie ch) (cookie ch1)) ||
  negb (bytes_Equal (pskModes ch) (pskModes ch1)).

Definition illegalClientHelloChange : bool :=
  if lengths_differ then true else if lists_differ then true else fields_differ.
End change.

(** ** The state *)

Module serverState13.
Section hs.
Context `{Hashes} {Ctx : Type}.

Record t := mk {
  clientHello : clientHelloMsg.t;
  hello : serverHelloMsg.t;
  sentDummyCCS : bool;
  usingPSK : bool;
  suite : cipherSuiteTLS13;
  earlySecret : option tls13.EarlySecret;
  sharedKey : bytes;
  transcript : digest;
  echContext : option Ctx
}.
Definition set_clientHello m x (h : t) : t :=
  mk m (hello h) (sentDummyCCS h) (usingPSK h) (suite h) (earlySecret h) (sharedKey h) (transcript h) x.
Definition set_hello m (h : t) : t :=
  mk (clientHello h) m (sentDummyCCS h) (usingPSK h) (suite h) (earlySecret h) (sharedKey h) (transcript h) (echContext h).
Definition set_sentDummyCCS (h : t) : t :=
  mk (clientHello h) (hello h) true (usingPSK h) (suite h) (earlySecret h) (sharedKey h) (transcript h) (echContext h).
Definition set_psk m s (h : t) : t :=
  mk (clientHello h) m (sentDummyCCS h) true (suite h) (Some s) (sharedKey h) (transcript h) (echContext h).
Definition set_earlySecret s (h : t) : t :=
  mk (clientHello h) (hello h) (sentDummyCCS h) (usingPSK h) (suite h) (Some s) (sharedKey h) (transcript h) (echContext h).
Definition set_sharedKey k (h : t) : t :=
  mk (clientHello h) (hello h) (sentDummyCCS h) (usingPSK h) (suite h) (earlySecret h) k (transcript h) (echContext h).
Definition set_transcript d (h : t) : t :=
  mk (clientHello h) (hello h) (sentDummyCCS h) (usingPSK h) (suite h) (earlySecret h) (sharedKey h) d (echContext h).
End hs.
Arguments t Ctx : clear implicits.
End serverState13.
Import serverState13.

(** ** The choices that need no connection *)

Definition suite_preference (fips hasAESGCMHardwareSupport : bool) (ids : list Z) : list Z :=
  if fips then allowedCipherSuitesTLS13FIPS
  else if negb hasAESGCMHardwareSupport || negb (isAESGCMPreferred hasAESGCMHardwareSupport ids)
  then defaultCipherSuitesTLS13NoAES else defaultCipherSuitesTLS13.
Fixpoint first_mutual (ids preferenceList : list Z) : option cipherSuiteTLS13 :=
  match preferenceList with
  | [] => None
  | suiteID :: preferenceList =>
      match mutualCipherSuiteTLS13 ids suiteID with
      | Some s => Some s
      | None => first_mutual ids preferenceList
      end
  end.

Definition has_key_share (shares : list keyShare) (g : Z) : bool := existsb (fun ks => group ks =? g) shares.
Definition preferred_groups (fips : bool) (config : negConfig) (vers : Z) (m : clientHelloMsg.t) : list Z :=
  let l := DeleteFunc (curvePreferences fips (Some config) vers) (fun g => negb (contains g (clientHelloMsg.supportedCurves m))) in
  stable_first isPQKeyExchange (stable_first (has_key_share (clientHelloMsg.keyShares m)) l).
Definition find_share (shares : list keyShare) (g : Z) : option keyShare := List.find (fun ks => group ks =? g) shares.

Section handshake.
Context {S A C K : Type} `{Stream S} `{RecordAEAD A} `{CbcMode C} `{MacFun K}.
Context `{Hashes} `{CryptoString} {B : Type} `{Builder B} {X P T : Type} `{X509 X} `{CertificateChains X P}.
Context `{EcdhCurves} `{Decapsulation} `{Verifiers P} `{!ServerX509 X P} `{KeyExchange}.
Context `{hpke.X25519} {Block Q : Type} `{hpke.cipherAEAD Q}.
Abbreviation CM := (CM S A C K X T).
Abbreviation serverConfig := (ServerConfig.t X P CertPool).
Abbreviation ech_context := (echServerContext (T:=Q)).
Abbreviation hstate := (serverState13.t ech_context).
Abbreviation session_state := (SessionState.t X).
Abbreviation certificate := (clientCertificate X P).

Context (dyn_off : bool) (rand : nat -> nat -> option bytes).
Context (generated : nat -> ecdh_Curve -> outcome conn_error ecdhPrivateKey).
Context (suite_aead : aead_fn -> bytes -> bytes -> outcome conn_error A).
Context (aes_ctr : bytes -> bytes -> bytes -> bytes).
Context (ToLower : bytes -> bytes).
Context (fips hasAESGCMHardwareSupport : bool).
Context (config : serverConfig).
(** [c.echAccepted] *)
Context (accepted : bool).

Abbreviation calert_then := (calert_then dyn_off rand).
Abbreviation or_calert := (or_calert dyn_off rand).
Abbreviation or_cfail := (or_cfail dyn_off rand).
Abbreviation unexpected_message := (unexpected_message dyn_off rand).
Abbreviation base := (ServerConfig.base config).

(** [c.writeHandshakeRecord(msg, hs.transcript)], [transcriptMsg(msg, hs.transcript)] *)
Definition send13 (msg : handshakeMessage) (hs : hstate) : CM hstate :=
  let* d := on_conn (send (B:=B) dyn_off rand msg (transcript hs)) in cret (set_transcript d hs).
Definition transcript13 (msg : handshakeMessage) (hs : hstate) : CM hstate :=
  let* data := clift (transcriptMsg B msg) in cret (set_transcript (d_Write data (transcript hs)) hs).
Definition dummy_ccs (hs : hstate) : CM hstate :=
  if sentDummyCCS hs then cret hs
  else let* _ := on_conn (writeChangeCipherRecord dyn_off rand) in cret (set_sentDummyCCS hs).

(** ** HelloRetryRequest *)

(** The 8 bytes that accept Encrypted Client Hello. *)
Definition ech_confirmation {E} (s : cipherSuiteTLS13) (random label : bytes) (d : digest) : outcome E bytes :=
  let prf := hkdf_Extract (suite_hash s) random None in
  tls13.ExpandLabel (suite_hash s) prf label (d_Sum d) 8.

(** The ServerHello with the confirmation in its random value (the first block
    of [sendServerParameters]). *)
Definition confirm_ech (hs : hstate) : outcome conn_error hstate :=
  match echContext hs with
  | None => Ret hs
  | Some _ =>
      let with_tail b := serverHelloMsg.set_random (take 24 (serverHelloMsg.random (hello hs)) ++ b) (hello hs) in
      let blank := with_tail (replicate 8 0) in
      let d := d_Write (default [] (clientHelloMsg.original (clientHello hs))) (transcript hs) in
      let! data := transcriptMsg B (ServerHello blank) in
      let! c := ech_confirmation (suite hs) (clientHelloMsg.random (clientHello hs)) (str "ech accept confirmation") (d_Write data d) in
      Ret (set_hello (with_tail c) hs)
  end.

Definition retry_request (selectedGroup : Z) (ech : option bytes) (h : serverHelloMsg.t) : serverHelloMsg.t :=
  serverHelloMsg.mk None (serverHelloMsg.vers h) helloRetryRequestRandom (serverHelloMsg.sessionId h)
    (serverHelloMsg.cipherSuite h) (serverHelloMsg.compressionMethod h) false false false [] false [] []
    (serverHelloMsg.supportedVersion h) (mkKeyShare 0 []) false 0 [] ech false [] selectedGroup.

(** The second ClientHello with Encrypted Client Hello. *)
Definition second_ech (ctx : ech_context) (m : clientHelloMsg.t) : CM (clientHelloMsg.t * ech_context) :=
  if (length (clientHelloMsg.encryptedClientHello m) =? 0)%nat then
    calert_then alertMissingExtension (EText "tls: second client hello missing encrypted client hello extension")
  else
    let* (echType, cs, configID, encap, payload) :=
      or_cfail alertDecodeError (EText "tls: client sent invalid encrypted client hello extension")
        (parseECHExt (clientHelloMsg.encryptedClientHello m)) in
    if ((echType =? outerECHExt) && inner ctx) || ((echType =? innerECHExt) && negb (inner ctx)) then
      calert_then alertDecodeError (EText "tls: unexpected switch in encrypted client hello extension type")
    else if negb (echType =? outerECHExt) then cret (m, ctx) else
    if negb ((KDFID cs =? KDFID (esc_ciphersuite ctx)) && (AEADID cs =? AEADID (esc_ciphersuite ctx))) ||
       negb (configID =? esc_configID ctx) || negb (length encap =? 0)%nat then
      calert_then alertIllegalParameter (EText "tls: second client hello encrypted client hello extension does not match")
    else
      match esc_hpkeContext ctx with
      | None => clift (Panic nil_dereference)
      | Some hctx =>
          let '(r, hctx) := decryptECHPayload hctx (default [] (clientHelloMsg.original m)) payload in
          let* encodedInner := or_cfail alertDecryptError
            (EText "tls: failed to decrypt second client hello encrypted client hello extension payload") r in
          let* echInner := or_cfail alertIllegalParameter
            (EText "tls: client sent invalid encrypted client hello extension") (decodeInnerClientHello (B:=B) m encodedInner) in
          cret (echInner, mkEchServer (Some hctx) (esc_configID ctx) (esc_ciphersuite ctx) (inner ctx))
      end.

(** The checks of the second ClientHello. *)
Definition check_second (selectedGroup : Z) (m first : clientHelloMsg.t) : CM keyShare :=
  match clientHelloMsg.keyShares m with
  | [ks] =>
      if negb (group ks =? selectedGroup) then
        calert_then alertIllegalParameter (EText "tls: client sent unexpected key share in second ClientHello")
      else if clientHelloMsg.earlyData m then
        calert_then alertIllegalParameter (EText "tls: client indicated early data in second ClientHello")
      else if illegalClientHelloChange m first then
        calert_then alertIllegalParameter (EText "tls: client illegally modified second ClientHello")
      else cret ks
  | _ => calert_then alertIllegalParameter (EText "tls: client didn't send one key share in second ClientHello")
  end.

(** The confirmation in a HelloRetryRequest. *)
Definition retry_confirmation (selectedGroup : Z) (hs : hstate) : outcome conn_error (option bytes) :=
  match echContext hs with
  | None => Ret None
  | Some _ =>
      let! data := transcriptMsg B (ServerHello (retry_request selectedGroup (Some (replicate 8 0)) (hello hs))) in
      let! c := ech_confirmation (suite hs) (clientHelloMsg.random (clientHello hs)) (str "hrr ech accept confirmation")
                  (d_Write data (transcript hs)) in
      Ret (Some c)
  end.

Definition doHelloRetryRequest (selectedGroup : Z) (hs : hstate) : CM (keyShare * hstate) :=
  let* hs := transcript13 (ClientHello (clientHello hs)) hs in
  let chHash := d_Sum (transcript hs) in
  let hs := set_transcript (d_Write (message_hash chHash) (new_digest (d_fn (transcript hs)))) hs in
  let* ech := clift (retry_confirmation selectedGroup hs) in
  let* hs := send13 (ServerHello (retry_request selectedGroup ech (hello hs))) hs in
  let* hs := dummy_ccs hs in
  let* (msg, _) := on_conn (readHandshakeData dyn_off rand) in
  match msg with
  | ClientHello m =>
      let* (m, ctx) := match echContext hs with
                       | None => cret (m, None)
                       | Some ctx => let* (m, ctx) := second_ech ctx m in cret (m, Some ctx)
                       end in
      let* ks := check_second selectedGroup m (clientHello hs) in
      let* _ := cmodify (ClientConn.set_didHRR true) in
      cret (ks, set_clientHello m ctx hs)
  | _ => unexpected_message
  end.

(** ** The ClientHello *)

(** The checks before the choice of a suite. *)
Definition check_hello13 (v : Z) (m : clientHelloMsg.t) : CM bytes :=
  if (length (clientHelloMsg.supportedVersions m) =? 0)%nat then
    calert_then alertIllegalParameter (EText "tls: client used the legacy version field to negotiate TLS 1.3")
  else
    let* maxVers := clift (maxSupportedVersion fips (Some (server_neg config)) roleServer) in
    if contains TLS_FALLBACK_SCSV (clientHelloMsg.cipherSuites m) && (v <? maxVers) then
      calert_then alertInappropriateFallback (EText "tls: client using inappropriate protocol fallback")
    else if negb (bool_decide (clientHelloMsg.compressionMethods m = [compressionNone])) then
      calert_then alertIllegalParameter (EText "tls: TLS 1.3 client supports illegal compression methods")
    else
      let* random := on_conn (read_rand rand 32) in
      match random with
      | None => calert_then alertInternalError ERand
      | Some random =>
          if negb (length (clientHelloMsg.secureRenegotiation m) =? 0)%nat then
            calert_then alertHandshakeFailure (EText "tls: initial handshake had non-empty renegotiation extension")
          else if clientHelloMsg.earlyData m then
            calert_then alertUnsupportedExtension (EText "tls: client sent unexpected early data")
          else cret random
      end.

Definition server_hello13 (v : Z) (m : clientHelloMsg.t) (random : bytes) (s : cipherSuiteTLS13) : serverHelloMsg.t :=
  serverHelloMsg.mk None VersionTLS12 random (clientHelloMsg.sessionId m) (id13 s) compressionNone false false false []
    false [] [] v (mkKeyShare 0 []) false 0 [] None false [] 0.

Definition invalid_hybrid : conn_error := EText "tls: invalid X25519MLKEM768 client key share".
Definition invalid_client_share : conn_error := EText "tls: invalid client key share".

(** The shared key and the server's share for the client's. *)
Definition server_exchange (selectedGroup : Z) (share : keyShare) : CM (bytes * keyShare) :=
  let hybrid := selectedGroup =? X25519MLKEM768 in
  let data := ks_data share in
  if hybrid && negb (length data =? EncapsulationKeySize768 + x25519PublicKeySize)%nat then
    calert_then alertIllegalParameter invalid_hybrid
  else
    let ecdhGroup := if hybrid then X25519 else selectedGroup in
    let ecdhData := if hybrid then drop EncapsulationKeySize768 data else data in
    match curveForCurveID ecdhGroup with
    | None => calert_then alertInternalError (EText "tls: CurvePreferences includes unsupported curve")
    | Some curve =>
        let* n := next_rand in
        let* key := or_calert alertInternalError (generated n curve) in
        let public := PublicBytes (PublicOf key) in
        let* peerKey := or_cfail alertIllegalParameter invalid_client_share (NewPublicKeyOn (CurveOf key) ecdhData) in
        let* shared := or_cfail alertIllegalParameter invalid_client_share (ECDHWith key peerKey) in
        if hybrid then
          match NewEncapsulationKey768 (take EncapsulationKeySize768 data) with
          | None => calert_then alertIllegalParameter invalid_hybrid
          | Some k =>
              let '(mlkemSharedSecret, ciphertext) := Encapsulate k in
              cret (mlkemSharedSecret ++ shared, mkKeyShare selectedGroup (ciphertext ++ public))
          end
        else cret (shared, mkKeyShare selectedGroup public)
    end.

(** The client's share of the selected group, after a retry if there is none. *)
Definition client_share (selectedGroup : Z) (hs : hstate) : CM (keyShare * hstate) :=
  match find_share (clientHelloMsg.keyShares (clientHello hs)) selectedGroup with
  | Some ks => cret (ks, hs)
  | None => doHelloRetryRequest selectedGroup hs
  end.

Definition processClientHello13 (m : clientHelloMsg.t) (ech : option ech_context) : CM hstate :=
  let* v := on_conn (get (@vers S A C K)) in
  let* random := check_hello13 v m in
  match first_mutual (clientHelloMsg.cipherSuites m)
          (suite_preference fips hasAESGCMHardwareSupport (clientHelloMsg.cipherSuites m)) with
  | None => calert_then alertHandshakeFailure (EText "tls: no cipher suite supported by both client and server")
  | Some s =>
      let* _ := cmodify (ClientConn.set_cipherSuite (id13 s)) in
      let hs := serverState13.mk m (server_hello13 v m random s) false false s None [] (new_digest (suite_hash s)) ech in
      match preferred_groups fips (server_neg config) v m with
      | [] => calert_then alertHandshakeFailure (EText "tls: no key exchanges supported by both client and server")
      | selectedGroup :: _ =>
          let* (share, hs) := client_share selectedGroup hs in
          let* _ := cmodify (ClientConn.set_info (set_curveID selectedGroup)) in
          let* (shared, own) := server_exchange selectedGroup share in
          let hs := set_sharedKey shared (set_hello (serverHelloMsg.set_serverShare own (hello hs)) hs) in
          let m := clientHello hs in
          let* proto := or_calert alertNoApplicationProtocol
            (negotiateALPN (NextProtos base) (clientHelloMsg.alpnProtocols m) false) in
          let* _ := cmodify (ClientConn.set_info (set_clientProtocol proto)) in
          if bool_decide (is_Some (clientHelloMsg.quicTransportParameters m)) then
            calert_then alertUnsupportedExtension
              (EText "tls: client sent an unexpected quic_transport_parameters extension")
          else
            let* _ := cmodify (ClientConn.set_serverName (clientHelloMsg.serverName m)) in
            cret hs
      end
  end.

(** ** Resumption *)

(** A session that may be resumed, before its binder is checked. *)
Definition resumable13 (hs : hstate) (s : session_state) : bool :=
  (SessionState.version s =? VersionTLS13) && session_fresh config s &&
  match cipherSuiteTLS13ByID (SessionState.cipherSuite s) with
  | Some pskSuite => bool_decide (hash13 pskSuite = hash13 (suite hs))
  | None => false
  end && session_certs_ok config s.

(** The early secret of a session, if its binder is right. *)
Definition check_binder (hs : hstate) (s : session_state) (binder : bytes) : CM tls13.EarlySecret :=
  let earlySecret := tls13.NewEarlySecret (suite_hash (suite hs)) (Some (SessionState.secret s)) in
  let* binderKey := clift (tls13.ResumptionBinderKey earlySecret) in
  let* clientHelloBytes := or_calert alertInternalError (clientHelloMsg.marshalWithoutBinders B (clientHello hs)) in
  let* pskBinder := clift (suite_finishedHash (suite hs) binderKey (d_Write clientHelloBytes (transcript hs))) in
  if negb (bool_decide (binder = pskBinder)) then calert_then alertDecryptError (EText "tls: invalid PSK binder")
  else cret earlySecret.

(** The loop over the identities; [i] is the index of the first one.  The early
    secret of an identity that is tried is stored before its binder is
    checked, but a wrong binder ends the handshake. *)
Fixpoint try_identities (i : nat) (identities : list pskIdentity) (binders : list bytes) (hs : hstate) : CM hstate :=
  match identities, binders with
  | identity :: identities, binder :: binders =>
      if (maxClientPSKIdentities <=? i)%nat then cret hs else
      let* ss := unwrap_session aes_ctr config accepted (label identity) in
      match ss with
      | None => try_identities (i + 1) identities binders hs
      | Some s =>
          if negb (resumable13 hs s) then try_identities (i + 1) identities binders hs else
          let* earlySecret := check_binder hs s binder in
          let* _ := cmodify (ClientConn.set_didResume true) in
          let* _ := cmodify (ClientConn.set_info (restore_peer s)) in
          let h := serverHelloMsg.set_selectedIdentity (u16 (Z.of_nat i)) (serverHelloMsg.set_selectedIdentityPresent true (hello hs)) in
          cret (set_psk h earlySecret hs)
      end
  | _, _ => cret hs
  end.

Definition checkForResumption13 (hs : hstate) : CM hstate :=
  let m := clientHello hs in
  if cfg_SessionTicketsDisabled base then cret hs
  else if negb (contains pskModeDHE (clientHelloMsg.pskModes m)) then cret hs
  else if negb (length (clientHelloMsg.pskIdentities m) =? length (clientHelloMsg.pskBinders m))%nat then
    calert_then alertIllegalParameter (EText "tls: invalid or missing PSK binders")
  else try_identities 0 (clientHelloMsg.pskIdentities m) (clientHelloMsg.pskBinders m) hs.

(** [hs.cert] and [hs.sigAlg]; [None] with a pre-shared key. *)
Definition pickCertificate (hs : hstate) : CM (option (certificate * Z)) :=
  if usingPSK hs then cret None else
  let algs := clientHelloMsg.supportedSignatureAlgorithms (clientHello hs) in
  if (length algs =? 0)%nat then let* _ := creturn_alert dyn_off rand alertMissingExtension in cret None else
  match getCertificate ToLower fips config (clientHelloInfo (clientHello hs)) with
  | Panic w => clift (Panic w)
  | Err (a, e) => calert_then a e
  | Ret c =>
      let* v := on_conn (get (@vers S A C K)) in
      let* sigAlg := or_calert alertHandshakeFailure (selectSignatureScheme fips v (cc_key c) algs) in
      cret (Some (c, sigAlg))
  end.

(** ** The client's certificate *)

(** The configuration as [RealityHandshake] reads it; [st] is what
    [WrapSession] is given of the connection. *)
Definition hs13_config (st : ConnectionState X) : hsConfig X :=
  mkHsConfig (cfg_SessionTicketsDisabled base) ((fun f s => f st s) <$> ServerConfig.WrapSession config)
    (ServerConfig.ClientAuth config) (Subjects <$> ServerConfig.ClientCAs config) (cfg_KeyLogWriter base)
    (ServerConfig.EncryptedClientHelloKeys config) (time_now base / second).

Definition send_tickets13 (hs : serverHandshakeStateTLS13) : CM serverHandshakeStateTLS13 :=
  let* i := cget ClientConn.info in
  let* st := server_connectionState config accepted in
  on_conn (sendSessionTickets (B:=B) dyn_off rand aes_ctr (hs13_config st) i hs).

(** CertificateVerify *)
Definition check_client_signature (hs : serverHandshakeStateTLS13) (m : certificateVerifyMsg.t) : CM unit :=
  if negb (isSupportedSignatureAlgorithm (certificateVerifyMsg.signatureAlgorithm m) (supportedSignatureAlgorithms fips)) then
    calert_then alertIllegalParameter (EText "tls: client certificate used with invalid signature algorithm")
  else
    match typeAndHashFromSignatureScheme (certificateVerifyMsg.signatureAlgorithm m) with
    | Ret (sigType, sigHash) =>
        if (sigType =? signaturePKCS1v15) || bool_decide (sigHash = HashSHA1) then
          calert_then alertIllegalParameter (EText "tls: client certificate used with invalid signature algorithm")
        else
          let* signed := clift (signedMessage sigHash clientSignatureContext (RealityHandshake.transcript hs)) in
          let* i := cget ClientConn.info in
          match peerCertificates i with
          | [] => clift (Panic index_out_of_range)
          | leaf :: _ =>
              match verifyHandshakeSignature sigType (cert_PublicKey leaf) sigHash signed (certificateVerifyMsg.signature m) with
              | Some _ => calert_then alertDecryptError (EText "tls: invalid signature by the client certificate: ")
              | None => cret tt
              end
          end
    | _ => creturn_alert dyn_off rand alertInternalError
    end.

Definition requests_certificate (psk : bool) : bool := (RequestClientCert <=? ServerConfig.ClientAuth config) && negb psk.

Definition read_client_certificates13 (hs : serverHandshakeStateTLS13) : CM serverHandshakeStateTLS13 :=
  let* (msg, data) := on_conn (readHandshakeData dyn_off rand) in
  let hs := RealityHandshake.set_transcript (d_Write data (RealityHandshake.transcript hs)) hs in
  match msg with
  | CertificateTLS13 certMsg =>
      let* _ := processCertsFromClient dyn_off rand fips config (certificateMsgTLS13.certificate certMsg) in
      let* _ := server_verify_connection dyn_off rand config accepted in
      if (length (Certificate_ (certificateMsgTLS13.certificate certMsg)) =? 0)%nat then cret hs else
      let* (msg, _) := on_conn (readHandshakeData dyn_off rand) in
      match msg with
      | CertificateVerify m =>
          let* _ := check_client_signature hs m in
          let* data := clift (transcriptMsg B (CertificateVerify m)) in
          cret (RealityHandshake.set_transcript (d_Write data (RealityHandshake.transcript hs)) hs)
      | _ => unexpected_message
      end
  | _ => unexpected_message
  end.

Definition readClientCertificate (psk : bool) (hs : serverHandshakeStateTLS13) : CM serverHandshakeStateTLS13 :=
  if negb (requests_certificate psk) then
    let* _ := server_verify_connection dyn_off rand config accepted in cret hs
  else let* hs := read_client_certificates13 hs in send_tickets13 hs.
End handshake.
