(* ===== verification/ServerStages.v ===== *)
(** * The stages of a server's handshake

    What a method that every server's handshake calls has done when it returns
    without error: the verification of the client's certificates, the
    callbacks, and the opening of a ticket. *)

From S2P Require Import Prelude Common HalfConn Cryptobyte Hello Messages Gcm CipherSuites Kdf Conn ConnProofs.
From S2P Require Import Negotiation NegotiationProofs Auth KeyAgreement Ticket RealityHandshake Post RealityFlight RealityStages Steady.
From S2P Require Import Client Client13 ClientHandshake ClientStages Hpke Ech Server.

Open Scope go_scope.

Section stages.
Context {S A C K : Type} `{Stream S} `{RecordAEAD A} `{CbcMode C} `{MacFun K}.
Context `{Hashes} `{CryptoString} {B : Type} `{Builder B} {X P T : Type} `{X509 X} `{CertificateChains X P}.
Context `{EcdhCurves} `{Decapsulation} `{Verifiers P} `{!ServerX509 X P}.
Abbreviation cln := (client S A C K X T).
Abbreviation serverConfig := (ServerConfig.t X P CertPool).
Implicit Types c : cln.

Context (dyn_off : bool) (rand : nat -> nat -> option bytes).
Context (aes_ctr : bytes -> bytes -> bytes -> bytes).
Context (fips : bool).
Context (config : serverConfig).

Abbreviation c_vers c := (vers (conn c)).
Abbreviation c_info c := (ClientConn.info (cl c)).
Abbreviation auth := (ServerConfig.ClientAuth config).
Abbreviation base := (ServerConfig.base config).

(** ** The client's certificates *)

Definition rsa_in_bounds (x : X) : Prop := PublicKeyAlgorithm_RSA x = true ->
  exists n k, cert_PublicKey x = PubRSA n k /\ N_BitLen k <= defaultMaxRSAKeySize.

(** What [processCertsFromClient] accepts: [raw] are the certificates of the
    message, [chains] what the connection has of verified chains. *)
Record client_certs_ok (raw : list bytes) (certs : list X) (chains : list (list X)) : Prop := {
  cc_parsed : Forall2 (fun der x => ParseCertificate der = Ret x) raw certs;
  cc_keys : Forall rsa_in_bounds certs;
  cc_required : requiresClientCert auth = true -> certs <> [];
  cc_leaf : forall leaf, head certs = Some leaf -> cert_PublicKey leaf <> PubOther;
  cc_chains : VerifyClientCertIfGiven <= auth -> forall leaf, head certs = Some leaf -> exists cs,
    x509_VerifyClient leaf (client_options config certs) = Ret cs /\ fipsAllowedChains fips cs = Ret chains;
  cc_user : forall f, VerifyPeerCertificate base = Some f -> f raw chains = None
}.

Lemma parse_client_certificates_Ret raw acc c certs c' :
  parse_client_certificates dyn_off rand raw acc c = (Ret certs, c') ->
  c' = c /\ exists l, certs = acc ++ l /\ Forall2 (fun der x => ParseCertificate der = Ret x) raw l /\ Forall rsa_in_bounds l.
Proof.
  revert acc. induction raw as [|der raw IH]; intros acc Q; cbn [parse_client_certificates] in Q.
  { apply cret_Ret in Q as [-> ->]. split; [done|]. exists []. rewrite app_nil_r. split_and!; constructor. }
  destruct (ParseCertificate der) as [x|e|w] eqn:Hp; [|refuse Q|refuse Q].
  assert (Hx : rsa_in_bounds x /\ parse_client_certificates dyn_off rand raw (acc ++ [x]) c = (Ret certs, c')).
  { unfold rsa_in_bounds. destruct (PublicKeyAlgorithm_RSA x); [|by split].
    destruct (cert_PublicKey x) as [n k| | |] eqn:Hk; try refuse Q.
    cbn [snd checkKeySize] in Q. destruct (Z.leb_spec (N_BitLen k) defaultMaxRSAKeySize); [|refuse Q].
    split; [|exact Q]. intros _. by exists n, k. }
  destruct Hx as [Hx Q']. apply IH in Q' as (-> & l & -> & Hl & Hf). split; [done|]. exists (x :: l).
  rewrite <- app_assoc. split_and!; [done|by constructor..].
Qed.

Lemma verify_client_chains_Ret certs c u c' : verify_client_chains dyn_off rand fips config certs c = (Ret u, c') ->
  conn c' = conn c /\ exists chains, cl c' = ClientConn.set_info (set_verifiedChains chains) (cl c) /\
  (VerifyClientCertIfGiven <= auth -> forall leaf, head certs = Some leaf -> exists cs,
    x509_VerifyClient leaf (client_options config certs) = Ret cs /\ fipsAllowedChains fips cs = Ret chains).
Proof.
  assert (Hid : forall k : cln, cl k = ClientConn.set_info (set_verifiedChains (verifiedChains (c_info k))) (cl k)).
  { by intros [k [[] ]]. }
  unfold verify_client_chains. destruct certs as [|leaf rest]; intros Q.
  { apply cret_Ret in Q as [_ ->]. split; [done|]. by exists (verifiedChains (c_info c)). }
  destruct (Z.leb_spec VerifyClientCertIfGiven auth) as [Ha|Ha]; cbn [negb] in Q.
  2: { apply cret_Ret in Q as [_ ->]. split; [done|]. exists (verifiedChains (c_info c)). split; [done|lia]. }
  destruct (x509_VerifyClient _ _) as [cs|e|w] eqn:Hv; [|refuse Q|refuse Q].
  destruct (fipsAllowedChains fips cs) as [chains|e|w] eqn:Hf; [| |refuse Q].
  - apply cmodify_Ret in Q as ->. split; [done|]. exists chains. split; [done|]. intros _ l [= <-]. by exists cs.
  - run Q as u1 c1 Q1. refuse Q.
Qed.

Lemma processCertsFromClient_Ret certificate c u c' :
  processCertsFromClient dyn_off rand fips config certificate c = (Ret u, c') ->
  client_certs_ok (Certificate_ certificate) (peerCertificates (c_info c')) (verifiedChains (c_info c')) /\
  conn c' = conn c /\ RealityHandshake.ticketKeys (c_info c') = RealityHandshake.ticketKeys (c_info c).
Proof.
  intros Q. unfold processCertsFromClient in Q. run Q as certs c1 Q1.
  apply parse_client_certificates_Ret in Q1 as (-> & l & -> & Hp & Hk). cbn [app] in Q.
  run Q as v c1 Q1. apply cget_conn in Q1 as [-> ->]. destruct (_ && _) eqn:Hreq; [refuse Q|].
  run Q as u1 c1 Q1. apply verify_client_chains_Ret in Q1 as (Hc & chains & Hcl & Hch).
  run Q as u2 c2 Q2. apply cmodify_Ret in Q2 as ->. destruct (unsupported_key l) eqn:Hun; [refuse Q|].
  run Q as i c3 Q3. apply cget_Ret in Q3 as [-> ->]. set (cm := mkClient _ _) in *.
  assert (Ev : verifiedChains (c_info cm) = chains) by (unfold cm; cbn; by rewrite Hcl).
  rewrite Ev in Q.
  assert (Huser : c' = cm /\ forall f, VerifyPeerCertificate base = Some f -> f (Certificate_ certificate) chains = None).
  { destruct (VerifyPeerCertificate base) as [f|]; [|apply cret_Ret in Q as [_ ->]; by split].
    destruct (f _ chains) eqn:Hf; [refuse Q|]. apply cret_Ret in Q as [_ ->]. split; [done|]. by intros ? [= <-]. }
  destruct Huser as [-> Huser]. rewrite Ev. split; [|split; [done|unfold cm; cbn; by rewrite Hcl]].
  constructor; [done|done| | |done|done].
  - intros Hr E. change (peerCertificates (c_info cm)) with l in E. subst l. by rewrite Hr in Hreq.
  - intros leaf Hl. change (peerCertificates (c_info cm)) with l in Hl. destruct l as [|x l]; [done|]. injection Hl as ->.
    intros E. unfold unsupported_key in Hun. by rewrite E in Hun.
Qed.

(** [VerifyConnection] agrees, about these certificates. *)
Definition connection_approved (certs : list X) : Prop :=
  forall f, VerifyConnection base = Some f -> exists st, PeerCertificates X st = certs /\ f st = None.

Lemma server_verify_connection_Ret accepted c u c' :
  server_verify_connection dyn_off rand config accepted c = (Ret u, c') ->
  c' = c /\ connection_approved (peerCertificates (c_info c)).
Proof.
  unfold server_verify_connection, connection_approved. destruct (VerifyConnection base) as [f|]; intros Q.
  - run Q as st c1 Q1. unfold server_connectionState in Q1. run Q1 as s0 c2 Q2. injection Q2 as <- <-.
    apply cret_Ret in Q1 as [-> ->]. destruct (f _) eqn:Hf; [refuse Q|]. apply cret_Ret in Q as [_ ->].
    split; [done|]. intros ? [= <-]. by eexists; split; [|exact Hf].
  - apply cret_Ret in Q as [_ ->]. by split.
Qed.

(** ** Sessions *)

(** The session that a ticket opens to, on the connection [c]. *)
Definition ticket_opens (accepted : bool) c (ticket : bytes) (s : SessionState.t X) : Prop :=
  match ServerConfig.UnwrapSession config with
  | Some f => exists st, fst (server_connectionState config accepted c) = Ret st /\ f ticket st = Ret (Some s)
  | None => exists plaintext, decryptTicket aes_ctr ticket (RealityHandshake.ticketKeys (c_info c)) = Some plaintext /\
      SessionState.ParseSessionState plaintext = Ret s
  end.

Lemma unwrap_session_Ret accepted ticket c ss c' :
  unwrap_session aes_ctr config accepted ticket c = (Ret ss, c') ->
  c' = c /\ forall s, ticket_opens accepted c ticket s <-> ss = Some s.
Proof.
  unfold unwrap_session, ticket_opens. destruct (ServerConfig.UnwrapSession config) as [f|]; intros Q.
  - run Q as st c1 Q1. unfold server_connectionState in *. pose proof Q1 as Qs. run Q1 as s0 c2 Q2. injection Q2 as <- <-.
    apply cret_Ret in Q1 as [-> ->]. apply clift_Ret in Q as [Q ->]. split; [done|]. intros s. rewrite Qs. split.
    + intros (st & Est%Ret_inj & E). subst st. rewrite Q in E. by apply Ret_inj in E.
    + intros ->. by eexists.
  - run Q as i c1 Q1. apply cget_Ret in Q1 as [-> ->].
    destruct (decryptTicket _ _ _) as [plaintext|].
    2: { apply cret_Ret in Q as [-> ->]. split; [done|]. intros s. split; [|done]. by intros (? & ? & _). }
    destruct (SessionState.ParseSessionState plaintext) as [s0|e|w] eqn:Hp; [| |refuse Q].
    + apply cret_Ret in Q as [-> ->]. split; [done|]. intros s. split.
      * intros (? & [= <-] & E). rewrite Hp in E. by injection E as ->.
      * intros [= <-]. by exists plaintext.
    + apply cret_Ret in Q as [-> ->]. split; [done|]. intros s. split; [|done]. intros (? & [= <-] & E). congruence.
Qed.

(** The age and the client's certificates of a session are as the
    configuration wants them. *)
Record session_allowed (s : SessionState.t X) : Prop := {
  sa_age : time_Sub (time_now base) (time_Unix (SessionState.createdAt s)) <= 7 * 24 * hour;
  sa_required : requiresClientCert auth = true -> SessionState.peerCertificates s <> [];
  sa_wanted : SessionState.peerCertificates s <> [] -> auth <> NoClientCert;
  sa_valid : forall leaf, head (SessionState.peerCertificates s) = Some leaf -> time_now base <= NotAfter leaf;
  sa_verified : VerifyClientCertIfGiven <= auth -> SessionState.peerCertificates s <> [] ->
    SessionState.verifiedChains s <> []
}.

Lemma session_allowed_spec s : session_fresh config s && session_certs_ok config s = true <-> session_allowed s.
Proof.
  unfold session_fresh, session_certs_ok. change maxSessionTicketLifetime with (7 * 24 * hour).
  destruct (SessionState.peerCertificates s) as [|leaf rest] eqn:Hp; rewrite !andb_true_iff, !negb_true_iff, ?Z.ltb_ge.
  - split.
    + intros [Ha Hr]. constructor; rewrite ?Hp; [exact Ha|congruence|done|done|done].
    + intros []. split; [done|]. apply not_true_is_false. intros E. by apply sa_required0.
  - rewrite Z.eqb_neq. split.
    + intros [Ha [[Hn Hv] Hc]]. constructor; rewrite ?Hp; [exact Ha|done|done|by intros l [= <-]|].
      intros Hle _ E. rewrite E, (proj2 (Z.leb_le _ _) Hle) in Hc. done.
    + intros []. rewrite Hp in *. split; [done|]. split; [split; [by apply sa_wanted0|by apply sa_valid0]|].
      apply andb_false_iff. destruct (Z.leb_spec VerifyClientCertIfGiven auth); [right|by left].
      apply Nat.eqb_neq. intros E%length_zero_iff_nil. by apply sa_verified0.
Qed.
End stages.
