(* ===== verification/Server12Stages.v ===== *)
(** * The stages of a TLS 1.0 to 1.2 server's handshake

    What each method of [serverHandshakeState] has done when it returns without
    error: the transcript, the master secret, what it has checked of the client. *)

From S2P Require Import Prelude Common HalfConn Cryptobyte Hello Messages Gcm CipherSuites Kdf Conn ConnProofs.
From S2P Require Import Negotiation NegotiationProofs Auth KeyAgreement Ticket RealityHandshake Post RealityFlight RealityStages Steady.
From S2P Require Import Client Client13 Client12 ClientHandshake ClientStages Hpke Ech Server Server12 ServerStages.

Open Scope go_scope.

Section stages.
Context {S A C K : Type} `{Stream S} `{RecordAEAD A} `{CbcMode C} `{MacFun K}.
Context `{Hashes} `{CryptoString} {B : Type} `{Builder B} {X P T : Type} `{X509 X} `{CertificateChains X P}.
Context `{EcdhCurves} `{Decapsulation} `{Verifiers P} `{!ServerX509 X P}.
Abbreviation cln := (client S A C K X T).
Abbreviation hstate := (serverHandshakeState.t X P).
Abbreviation serverConfig := (ServerConfig.t X P CertPool).
Abbreviation session_state := (SessionState.t X).
Import serverHandshakeState.
Implicit Types c : cln.

Context (dyn_off : bool) (rand : nat -> nat -> option bytes).
Context (generated : nat -> ecdh_Curve -> outcome conn_error ecdhPrivateKey).
Context (suite_aead : aead_fn -> bytes -> bytes -> outcome conn_error A).
Context (suite_cipher : cipher_fn -> bytes -> bytes -> bool -> cipher_state S A C).
Context (suite_mac : mac_fn -> bytes -> Hash K).
Context (keys_at : nat -> CertificateKeys P).
Context (aes_ctr : bytes -> bytes -> bytes -> bytes).
Context (fips : bool).
Context (config : serverConfig).

Abbreviation c_vers c := (vers (conn c)).
Abbreviation c_info c := (ClientConn.info (cl c)).
Abbreviation auth := (ServerConfig.ClientAuth config).
Abbreviation base := (ServerConfig.base config).

(** What the record layer and most of the handshake keep: the version, what is
    known of the client, and the ticket keys. *)
Definition kept12 c := (c_vers c, peerCertificates (c_info c), verifiedChains (c_info c), RealityHandshake.ticketKeys (c_info c)).

Lemma undisturbed_kept c c' : undisturbed c c' -> kept12 c' = kept12 c.
Proof. intros [[= Hv _ _ _ _] Hl]. unfold kept12. by rewrite Hv, Hl. Qed.
Lemma on_conn_kept {R} (m : M R) c y c' : steady m -> (on_conn m : CM S A C K X T R) c = (Ret y, c') -> kept12 c' = kept12 c.
Proof. intros Hm Q. apply on_conn_steady in Q as [_ Hu]; [|done]. by apply undisturbed_kept. Qed.

(** ** The transcript *)

(** [finishedHash] after some messages, with or without the buffer for a
    signature. *)
Definition fh_after (v : Z) (s : cipherSuite) (discarded : bool) (msgs : list bytes) (fh : finishedHash.t) : Prop :=
  exists fh0, finishedHash.New (E:=conn_error) v s = Ret fh0 /\
    fh = fold_left (fun h msg => finishedHash.Write msg h) msgs (if discarded then finishedHash.discardHandshakeBuffer fh0 else fh0).

Lemma fh_after_Write v s d msgs msg fh : fh_after v s d msgs fh -> fh_after v s d (msgs ++ [msg]) (finishedHash.Write msg fh).
Proof. intros (fh0 & Hn & ->). exists fh0. split; [done|]. by rewrite fold_left_app. Qed.

Lemma Write_discard msg fh :
  finishedHash.Write msg (finishedHash.discardHandshakeBuffer fh) = finishedHash.discardHandshakeBuffer (finishedHash.Write msg fh).
Proof. done. Qed.

Lemma fh_after_discard v s d msgs fh : fh_after v s d msgs fh -> fh_after v s true msgs (finishedHash.discardHandshakeBuffer fh).
Proof.
  intros (fh0 & Hn & ->). exists fh0. split; [done|].
  assert (E : forall h, finishedHash.discardHandshakeBuffer (fold_left (fun h msg => finishedHash.Write msg h) msgs h) =
    fold_left (fun h msg => finishedHash.Write msg h) msgs (finishedHash.discardHandshakeBuffer h)).
  { induction msgs as [|m msgs IH]; intros h; [done|]. cbn [fold_left]. by rewrite IH, Write_discard. }
  rewrite E. by destruct d.
Qed.

(** The state after a message. *)
Definition wrote (msg : bytes) (hs : hstate) : hstate := set_finishedHash (finishedHash.Write msg (finishedHash hs)) hs.
Definition same12 (hs : hstate) := (clientHello hs, hello hs, suite hs, sessionState hs, masterSecret hs, cert hs).

Lemma read_msg_Ret (hs hs' : hstate) msg c c' : read_msg dyn_off rand hs c = (Ret (msg, hs'), c') ->
  exists data, unmarshal_message (c_vers c) data = Some msg /\ hs' = wrote data hs /\ undisturbed c c'.
Proof.
  unfold read_msg. intros Q. run Q as r c1 Q1. destruct r as [m data]. apply read_Ret in Q1 as [Hm Hu].
  apply cret_Ret in Q as [[= -> ->] ->]. by exists data.
Qed.

Lemma transcript_msg_Ret msg (hs hs' : hstate) c c' : transcript_msg (B:=B) msg hs c = (Ret hs', c') ->
  exists data, transcriptMsg B msg = Ret data /\ hs' = wrote data hs /\ c' = c.
Proof.
  unfold transcript_msg. intros Q. run Q as data c1 Q1. apply clift_Ret in Q1 as [Hd ->].
  apply cret_Ret in Q as [-> ->]. by exists data.
Qed.

Lemma send_msg_Ret msg (hs hs' : hstate) c c' : send_msg (B:=B) dyn_off rand msg hs c = (Ret hs', c') ->
  exists data, marshal_message B msg = Ret data /\ hs' = wrote data hs /\ undisturbed c c'.
Proof.
  unfold send_msg. intros Q. run Q as r c1 Q1. destruct r as [n err].
  pose proof Q1 as Q1'. apply on_conn_Ret in Q1' as [Q1' _].
  apply on_conn_steady in Q1 as [_ Hu1]; [|apply steady_writeHandshakeRecord].
  run Q as u c2 Q2. pose proof Q2 as Q2'. apply on_conn_Ret in Q2' as [Q2' _].
  apply on_conn_steady in Q2 as [_ Hu2]; [|settle]. apply cret_Ret in Q as [-> ->].
  assert (Hu : undisturbed c c2) by (by eapply undisturbed_trans).
  destruct (marshal_message B msg) as [data|e|w]; [by exists data|by injection Q1' as <- <-|done].
Qed.

Lemma start_transcript_Ret (hs hs' : hstate) d c c' : start_transcript (B:=B) hs d c = (Ret hs', c') ->
  exists ch, transcriptMsg B (ClientHello (clientHello hs)) = Ret ch /\
    fh_after (c_vers c) (suite hs) d [ch] (finishedHash hs') /\ same12 hs' = same12 hs /\ c' = c.
Proof.
  unfold start_transcript. intros Q. run Q as v c1 Q1. apply cget_conn in Q1 as [-> ->].
  run Q as fh c1 Q1. apply clift_Ret in Q1 as [Hf ->]. apply transcript_msg_Ret in Q as (ch & Hch & -> & ->).
  exists ch. split_and!; [done| |done|done]. exists fh. by destruct d.
Qed.

(** ** The client's Finished *)

(** The client has sent the MAC of the transcript [fh] under the master
    secret; [fin] is its message. *)
Definition client_finished (v : Z) (fh : finishedHash.t) (master fin : bytes) : Prop :=
  exists verify data, finishedHash.clientSum (E:=conn_error) fh master = Ret verify /\
    unmarshal_message v data = Some (Finished (finishedMsg.mk verify)) /\
    transcriptMsg B (Finished (finishedMsg.mk verify)) = Ret fin.

Lemma server_readFinished_Ret first (hs hs' : hstate) c c' :
  server_readFinished (B:=B) dyn_off rand first hs c = (Ret hs', c') ->
  exists fin, client_finished (c_vers c) (finishedHash hs) (masterSecret hs) fin /\ hs' = wrote fin hs /\ kept12 c' = kept12 c.
Proof.
  unfold server_readFinished, client_finished. intros Q. run Q as u c1 Q1.
  apply on_conn_kept in Q1 as Hk1; [|unfold readChangeCipherSpec; settle].
  run Q as r c2 Q2. destruct r as [msg data]. apply read_Ret in Q2 as [Hm Hu2%undisturbed_kept].
  destruct msg as [| | | | | | | | | | | | | |m| | | ]; try refuse Q.
  run Q as verify c3 Q3. apply clift_Ret in Q3 as [Hv ->]. destruct (_ || _) eqn:Hc; [refuse Q|].
  apply orb_false_iff in Hc as [_ Hc%negb_false_iff%Z.eqb_eq]. unfold ConstantTimeCompare in Hc.
  case_bool_decide as He; [|done]. run Q as hs1 c3 Q3. apply transcript_msg_Ret in Q3 as (fin & Hf & -> & ->).
  run Q as old c3 Q3. apply cget_Ret in Q3 as [-> ->]. run Q as u2 c3 Q3. apply cmodify_Ret in Q3 as ->.
  apply cret_Ret in Q as [-> ->]. exists fin. unfold kept12 in Hk1. injection Hk1 as Hv1 Hp1 Hch1 Ht1.
  rewrite Hv1 in Hm. unfold kept12 in *. split; [|split; [done|]].
  - exists verify, data. assert (Em : m = finishedMsg.mk verify) by (rewrite He; by destruct m). rewrite <- Em. by split_and!.
  - cbn [conn cl]. rewrite <- Hv1, <- Hp1, <- Hch1, <- Ht1, <- Hu2. by destruct first.
Qed.

(** ** Keys, tickets and the server's Finished *)

Lemma server_establishKeys_Ret (hs : hstate) c u c' : server_establishKeys suite_aead suite_cipher suite_mac hs c = (Ret u, c') ->
  kept12 c' = kept12 c.
Proof.
  unfold server_establishKeys. intros Q. run Q as v c1 Q1. apply cget_conn in Q1 as [-> ->].
  run Q as ks c1 Q1. apply clift_Ret in Q1 as [_ ->]. run Q as keys c1 Q1.
  assert (E : c1 = c).
  { destruct (cs_aead (suite hs)).
    - run Q1 as ca c2 Q2. apply clift_Ret in Q2 as [_ ->]. run Q1 as sa c2 Q2. apply clift_Ret in Q2 as [_ ->].
      by apply cret_Ret in Q1 as [_ ->].
    - destruct (cs_cipher (suite hs)), (cs_mac (suite hs)); try done. by apply cret_Ret in Q1 as [_ ->]. }
  clear Q1. subst c1. destruct keys as [[cc ch] [sc sh]]. run Q as u1 c1 Q1. apply on_conn_kept in Q1; [|settle].
  apply on_conn_kept in Q; [|settle]. congruence.
Qed.

(** A message, or none. *)
Definition optional_msg (present : bool) (msgs : list bytes) (kind : handshakeMessage -> Prop) : Prop :=
  if present then exists m data, msgs = [data] /\ marshal_message B m = Ret data /\ kind m else msgs = [].
Definition wrotes (msgs : list bytes) (hs : hstate) : hstate := fold_left (fun h m => wrote m h) msgs hs.

Lemma wrotes_fh v s d msgs l (hs : hstate) : fh_after v s d msgs (finishedHash hs) -> fh_after v s d (msgs ++ l) (finishedHash (wrotes l hs)).
Proof.
  revert msgs hs. induction l as [|m l IH]; intros msgs hs Hf; [by rewrite app_nil_r|].
  change (msgs ++ m :: l) with (msgs ++ [m] ++ l). rewrite app_assoc. apply IH. by apply fh_after_Write.
Qed.
Lemma wrotes_same l (hs : hstate) : same12 (wrotes l hs) = same12 hs.
Proof. revert hs. induction l as [|m l IH]; intros hs; [done|]. unfold wrotes. cbn [fold_left]. fold (wrotes l (wrote m hs)). by rewrite IH. Qed.

Lemma wrap_session_kept accepted state c ticket c' :
  wrap_session (B:=B) dyn_off rand aes_ctr config accepted None state c = (Ret ticket, c') -> kept12 c' = kept12 c.
Proof.
  unfold wrap_session. destruct (ServerConfig.WrapSession config) as [f|]; intros Q.
  - run Q as st c1 Q1. unfold server_connectionState in Q1. run Q1 as s0 c2 Q2. injection Q2 as _ <-.
    apply cret_Ret in Q1 as [_ ->]. by apply clift_Ret in Q as [_ ->].
  - run Q as b c1 Q1. assert (E : c1 = c) by (destruct (SessionState.Bytes state); by apply clift_Ret in Q1 as [_ ->]). clear Q1. subst c1.
    run Q as i c1 Q1. apply cget_Ret in Q1 as [-> ->]. destruct (RealityHandshake.ticketKeys _).
    + by apply clift_Ret in Q as [_ ->].
    + run Q as iv c1 Q1. apply clift_Ret in Q as [_ ->]. apply on_conn_kept in Q1; [done|settle].
Qed.

Lemma server_sendSessionTicket_Ret (hs hs' : hstate) c c' :
  server_sendSessionTicket (B:=B) dyn_off rand aes_ctr config hs c = (Ret hs', c') ->
  exists tk, optional_msg (serverHelloMsg.ticketSupported (hello hs)) tk (fun m => exists t, m = NewSessionTicket t) /\
    hs' = wrotes tk hs /\ kept12 c' = kept12 c.
Proof.
  unfold server_sendSessionTicket, optional_msg. destruct (serverHelloMsg.ticketSupported (hello hs)); cbn [negb]; intros Q.
  - run Q as ticket c1 Q1. apply wrap_session_kept in Q1. apply send_msg_Ret in Q as (data & Hd & -> & Hu%undisturbed_kept).
    exists [data]. split_and!; [|done|congruence]. eexists _, data. split_and!; [done|exact Hd|by eexists].
  - apply cret_Ret in Q as [-> ->]. by exists [].
Qed.

Lemma server_sendFinished_Ret first (hs hs' : hstate) c c' : server_sendFinished (B:=B) dyn_off rand first hs c = (Ret hs', c') ->
  exists verify fin, finishedHash.serverSum (E:=conn_error) (finishedHash hs) (masterSecret hs) = Ret verify /\
    marshal_message B (Finished (finishedMsg.mk verify)) = Ret fin /\ hs' = wrote fin hs /\ kept12 c' = kept12 c.
Proof.
  unfold server_sendFinished. intros Q. run Q as u c1 Q1. apply on_conn_kept in Q1; [|settle].
  run Q as verify c2 Q2. apply clift_Ret in Q2 as [Hv ->]. run Q as hs1 c2 Q2.
  apply send_msg_Ret in Q2 as (fin & Hf & -> & Hu%undisturbed_kept). run Q as old c3 Q3. apply cget_Ret in Q3 as [-> ->].
  run Q as u2 c3 Q3. apply cmodify_Ret in Q3 as ->. apply cret_Ret in Q as [-> ->]. exists verify, fin. split_and!; [done..|].
  rewrite <- Q1, <- Hu. by destruct first.
Qed.

Lemma flush_Ret {R} (k : CM S A C K X T R) c y c' :
  cbind (on_conn flush) (fun '(_, err) => cbind (on_conn (raise err)) (fun _ => k)) c = (Ret y, c') ->
  exists c1, kept12 c1 = kept12 c /\ k c1 = (Ret y, c').
Proof.
  intros Q. run Q as r c1 Q1. destruct r as [n err]. apply on_conn_kept in Q1; [|apply steady_flush].
  run Q as u c2 Q2. apply on_conn_kept in Q2; [|settle]. exists c2. split; [congruence|done].
Qed.

(** ** Resumption *)

(** A session that goes with the client's offer and the configuration. *)
Record session_resumable (m : clientHelloMsg.t) (uses : key_use) (v : Z) (s : session_state) (suite : cipherSuite) : Prop := {
  sr_version : SessionState.version s = v;
  sr_offered : In (SessionState.cipherSuite s) (clientHelloMsg.cipherSuites m);
  sr_suite : cipherSuiteByID (SessionState.cipherSuite s) = Some suite /\ cipherSuiteOk uses v suite = true /\
    In (SessionState.cipherSuite s) (supportedCipherSuites fips (server_neg config));
  sr_allowed : session_allowed config s;
  sr_ems : SessionState.extMasterSecret s = clientHelloMsg.extendedMasterSecret m;
  sr_fips : fips = true -> SessionState.extMasterSecret s = true
}.

Lemma selectCipherSuite_one i ids ok s : selectCipherSuite [i] ids ok = Some s -> cipherSuiteByID i = Some s /\ ok s = true /\ In i ids.
Proof.
  cbn [selectCipherSuite]. destruct (cipherSuiteByID i) as [s0|]; [|done]. destruct (ok s0) eqn:Ho; [|done]. cbn [negb].
  destruct (existsb _ ids) eqn:He; [|done]. intros [= <-]. apply existsb_exists in He as (x & Hx & E%Z.eqb_eq). by subst x.
Qed.

Lemma resumable_Some m uses v s suite : resumable fips config m uses v s = Ret (Some suite) -> session_resumable m uses v s suite.
Proof.
  unfold resumable. destruct (session_fresh config s) eqn:Hf; [|done]. cbn [negb].
  destruct (Z.eqb_spec v (SessionState.version s)) as [->|]; [|done]. cbn [negb].
  destruct (contains _ _) eqn:Hc; [|done]. cbn [negb]. destruct (selectCipherSuite _ _ _) as [s0|] eqn:Hs; [|done].
  apply selectCipherSuite_one in Hs.
  destruct (session_certs_ok config s) eqn:Hcerts; [|done]. cbn [negb].
  destruct (SessionState.extMasterSecret s) eqn:He, (clientHelloMsg.extendedMasterSecret m) eqn:Hm, fips eqn:Hfips; try done.
  all: cbn [negb andb]; intros Q; apply Ret_inj in Q; injection Q as ->.
  all: constructor; [done|by apply contains_In|rewrite Hfips; exact Hs|apply session_allowed_spec; by rewrite Hf, Hcerts|congruence|congruence].
Qed.

Lemma checkForResumption_Ret m uses c r c' : checkForResumption aes_ctr fips config m uses c = (Ret r, c') ->
  match r with
  | None => c' = c
  | Some (s, suite) => cfg_SessionTicketsDisabled base = false /\
      ticket_opens aes_ctr config false c (clientHelloMsg.sessionTicket m) s /\ session_resumable m uses (c_vers c) s suite /\
      ClientConn.didResume (cl c') = true /\
      kept12 c' = (c_vers c, SessionState.peerCertificates s, SessionState.verifiedChains s, RealityHandshake.ticketKeys (c_info c))
  end.
Proof.
  unfold checkForResumption. destruct (cfg_SessionTicketsDisabled base); intros Q.
  { by apply cret_Ret in Q as [-> ->]. }
  run Q as ss c1 Q1. apply unwrap_session_Ret in Q1 as [-> Hss]. destruct ss as [s|]; [|by apply cret_Ret in Q as [-> ->]].
  run Q as v c1 Q1. apply cget_conn in Q1 as [-> ->]. run Q as r1 c1 Q1. apply clift_Ret in Q1 as [Hr ->].
  destruct r1 as [suite|]; [|by apply cret_Ret in Q as [-> ->]].
  run Q as u1 c1 Q1. apply cmodify_Ret in Q1 as ->. run Q as u2 c1 Q1. apply cmodify_Ret in Q1 as ->.
  apply cret_Ret in Q as [-> ->]. split_and!; [done|by apply Hss|by apply resumable_Some|done|done].
Qed.

Lemma doResumeHandshake_Ret m h cert s suite0 c (hs : hstate) c' :
  doResumeHandshake (B:=B) dyn_off rand config m h cert s suite0 c = (Ret hs, c') ->
  exists ch sh, transcriptMsg B (ClientHello m) = Ret ch /\ marshal_message B (ServerHello (hello hs)) = Ret sh /\
    fh_after (c_vers c) suite0 true [ch; sh] (finishedHash hs) /\
    hello hs = serverHelloMsg.set_ticketSupported true
      (serverHelloMsg.set_sessionId (clientHelloMsg.sessionId m) (serverHelloMsg.set_cipherSuite (id suite0) h)) /\
    clientHello hs = m /\ suite hs = suite0 /\ sessionState hs = Some s /\ masterSecret hs = SessionState.secret s /\
    connection_approved config (peerCertificates (c_info c)) /\ kept12 c' = kept12 c.
Proof.
  unfold doResumeHandshake. intros Q. run Q as u c1 Q1. apply cmodify_Ret in Q1 as ->. cbn zeta in Q.
  run Q as hs1 c1 Q1. apply start_transcript_Ret in Q1 as (ch & Hch & Hf & Hs1 & ->).
  unfold same12, new_state in Hs1. cbn in Hs1. injection Hs1 as E1 E2 E3 E4 E5 E6.
  cbn [conn new_state clientHello suite] in Hch, Hf.
  run Q as hs2 c2 Q2. apply send_msg_Ret in Q2 as (sh & Hsh & -> & Hu).
  run Q as u3 c3 Q3. apply server_verify_connection_Ret in Q3 as [-> Happ]. apply cret_Ret in Q as [-> ->].
  exists ch, sh. cbn [wrote set_finishedHash set_masterSecret hello clientHello suite sessionState masterSecret finishedHash].
  rewrite E2. pose proof (undisturbed_kept _ _ Hu) as Hk. split_and!; try done.
  - by apply (fh_after_Write _ _ _ [ch]).
  - destruct Hu as [_ Hl]. by rewrite Hl in Happ.
Qed.

(** The messages of a resumed handshake, without the client's Finished. *)
Record resumed_flight (v : Z) (m : clientHelloMsg.t) (hs : hstate) (msgs : list bytes) : Prop := {
  rf_msgs : exists ch sh tk fin, msgs = [ch; sh] ++ tk ++ [fin] /\ transcriptMsg B (ClientHello m) = Ret ch /\
    marshal_message B (ServerHello (hello hs)) = Ret sh /\
    optional_msg (serverHelloMsg.ticketSupported (hello hs)) tk (fun m => exists t, m = NewSessionTicket t) /\
    exists fh verify, fh_after v (suite hs) true ([ch; sh] ++ tk) fh /\
      finishedHash.serverSum (E:=conn_error) fh (masterSecret hs) = Ret verify /\
      marshal_message B (Finished (finishedMsg.mk verify)) = Ret fin
}.

Lemma server_resume_Ret m h cert s suite0 c (hs : hstate) c' :
  server_resume (B:=B) dyn_off rand suite_aead suite_cipher suite_mac aes_ctr config m h cert s suite0 c = (Ret hs, c') ->
  exists msgs fh fin, resumed_flight (c_vers c) m hs msgs /\ fh_after (c_vers c) (suite hs) true msgs fh /\
    client_finished (c_vers c) fh (masterSecret hs) fin /\ suite hs = suite0 /\
    sessionState hs = Some s /\ masterSecret hs = SessionState.secret s /\
    hello hs = serverHelloMsg.set_ticketSupported true
      (serverHelloMsg.set_sessionId (clientHelloMsg.sessionId m) (serverHelloMsg.set_cipherSuite (id suite0) h)) /\
    connection_approved config (peerCertificates (c_info c)) /\ kept12 c' = kept12 c.
Proof.
  unfold server_resume. intros Q. run Q as hs1 c1 Q1.
  apply doResumeHandshake_Ret in Q1 as (ch & sh & Hch & Hsh & Hf & Hh & Hm & Hs & Hss & Hms & Happ & Hk1).
  run Q as u c2 Q2. apply server_establishKeys_Ret in Q2 as Hk2.
  run Q as hs3 c3 Q3. apply server_sendSessionTicket_Ret in Q3 as (tk & Htk & -> & Hk3).
  run Q as hs4 c4 Q4. apply server_sendFinished_Ret in Q4 as (verify & fin & Hv & Hfin & -> & Hk4).
  apply flush_Ret in Q as (c5 & Hk5 & Q). run Q as u6 c6 Q6. apply cmodify_Ret in Q6 as ->.
  apply server_readFinished_Ret in Q as (cfin & Hcf & -> & Hk7).
  assert (Hk6 : kept12 (mkClient (conn c5) (ClientConn.set_clientFinishedIsFirst false (cl c5))) = kept12 c) by (rewrite <- Hk1, <- Hk2, <- Hk3, <- Hk4, <- Hk5; done).
  assert (Hvc : c_vers (mkClient (conn c5) (ClientConn.set_clientFinishedIsFirst false (cl c5))) = c_vers c) by (unfold kept12 in Hk6; congruence).
  rewrite Hvc in Hcf. rewrite <- Hs in Hf. pose proof (wrotes_fh _ _ _ _ tk _ Hf) as Hf3.
  pose proof (wrotes_same tk hs1) as Hsame. unfold same12 in Hsame. injection Hsame as E1 E2 E3 E4 E5 E6.
  exists (([ch; sh] ++ tk) ++ [fin]), (finishedHash.Write fin (finishedHash (wrotes tk hs1))), cfin.
  cbn [wrote set_finishedHash hello clientHello suite sessionState masterSecret finishedHash] in *.
  rewrite E2, E3, E4, E5 in *. split_and!; try done; [|by apply fh_after_Write|congruence].
  constructor. cbn [wrote set_finishedHash hello clientHello suite sessionState masterSecret finishedHash]. rewrite E2, E3, E5.
  exists ch, sh, tk, fin. rewrite <- app_assoc. split_and!; [done..|].
  exists (finishedHash (wrotes tk hs1)), verify. by split_and!.
Qed.

(** ** The full handshake *)

Lemma pick_suite_Ret hw m uses c s c' : pick_suite dyn_off rand fips hw config m uses c = (Ret s, c') ->
  Negotiation.pickCipherSuite fips hw (server_neg config) uses (c_vers c) (clientHelloMsg.vers m) (clientHelloMsg.cipherSuites m) = Ret s /\
  kept12 c' = kept12 c.
Proof.
  unfold pick_suite, Negotiation.pickCipherSuite. intros Q. run Q as v c1 Q1. apply cget_conn in Q1 as [-> ->].
  destruct (selectCipherSuite _ _ _) as [s0|]; [|refuse Q]. run Q as u c1 Q1. apply cmodify_Ret in Q1 as ->.
  destruct (contains TLS_FALLBACK_SCSV _); cbn [negb] in Q.
  - run Q as mx c1 Q1. apply clift_Ret in Q1 as [Hmx ->]. destruct (Z.ltb_spec (clientHelloMsg.vers m) mx); [refuse Q|].
    apply cret_Ret in Q as [-> ->]. rewrite maxSupportedVersion_Some in *. cbn [obind]. apply Ret_inj in Hmx as ->.
    split; [|done]. by rewrite (proj2 (Z.ltb_ge _ _)).
  - by apply cret_Ret in Q as [-> ->].
Qed.

Lemma send_skx_Ret ka (hs : hstate) c ka' (hs' : hstate) c' :
  send_skx (B:=B) dyn_off rand generated keys_at fips config ka hs c = (Ret (ka', hs'), c') ->
  exists sk, (sk = [] \/ exists m data, sk = [data] /\ marshal_message B (ServerKeyExchange m) = Ret data) /\
    hs' = wrotes sk hs /\ kept12 c' = kept12 c.
Proof.
  unfold send_skx. intros Q. run Q as r c1 Q1. destruct r as [r ka1].
  assert (Hk1 : kept12 c1 = kept12 c).
  { unfold generate_skx in Q1. destruct ka as [|ka]; [by apply cret_Ret in Q1 as [_ ->]|].
    run Q1 as n c2 Q2. unfold next_rand in Q2. run Q2 as n' c3 Q3. apply cget_conn in Q3 as [-> ->]. run Q2 as u c3 Q3.
    apply on_conn_kept in Q3; [|settle]. apply cret_Ret in Q2 as [_ ->].
    run Q1 as k c4 Q4. unfold next_rand in Q4. run Q4 as n2 c5 Q5. apply cget_conn in Q5 as [-> ->]. run Q4 as u2 c5 Q5.
    apply on_conn_kept in Q5; [|settle]. apply cret_Ret in Q4 as [_ ->].
    match type of Q1 with context [let '(_, _) := ?x in _] => destruct x as [o ka2] end. apply cret_Ret in Q1 as [_ ->]. congruence. }
  run Q as skx c2 Q2. apply or_calert_Ret in Q2 as [_ ->]. destruct skx as [skx|].
  2: { apply cret_Ret in Q as [[= -> ->] ->]. exists []. by split_and!; [left|..]. }
  run Q as u c3 Q3. run Q as hs1 c4 Q4. apply send_msg_Ret in Q4 as (data & Hd & -> & Hu%undisturbed_kept).
  apply cret_Ret in Q as [[= -> ->] ->]. exists [data]. split_and!; [right; by exists skx, data|done|].
  rewrite Hu, <- Hk1. destruct (_ && _); [by apply cmodify_Ret in Q3 as ->|by apply cret_Ret in Q3 as [_ ->]].
Qed.

(** ServerHello to ServerHelloDone; [req]: the request for a certificate. *)
Record server_flight (v : Z) (hs : hstate) (req : option certificateRequestMsg.t) (flight : list bytes) : Prop := {
  fl_request : req = if RequestClientCert <=? auth then Some (certificate_request12 fips config v) else None;
  fl_msgs : exists sh ce st sk rq dn, flight = [sh; ce] ++ st ++ sk ++ rq ++ [dn] /\
    marshal_message B (ServerHello (hello hs)) = Ret sh /\
    marshal_message B (CertificateMsg (certificateMsg.mk (Certificate_ (cc_message (cert hs))))) = Ret ce /\
    optional_msg (serverHelloMsg.ocspStapling (hello hs)) st (fun m => m = CertificateStatus (certificateStatusMsg.mk (default [] (OCSPStaple (cc_message (cert hs)))))) /\
    (sk = [] \/ exists m data, sk = [data] /\ marshal_message B (ServerKeyExchange m) = Ret data) /\
    optional_msg (RequestClientCert <=? auth) rq (fun m => m = CertificateRequest (certificate_request12 fips config v)) /\
    marshal_message B ServerHelloDone = Ret dn
}.

Lemma send_flight_Ret (hs : hstate) c ka req (hs' : hstate) c' :
  send_flight (B:=B) dyn_off rand generated keys_at fips config hs c = (Ret (ka, req, hs'), c') ->
  exists ch flight, transcriptMsg B (ClientHello (clientHello hs)) = Ret ch /\ server_flight (c_vers c) hs' req flight /\
    fh_after (c_vers c) (suite hs) (auth =? NoClientCert) (ch :: flight) (finishedHash hs') /\
    same12 hs' = same12 hs /\ kept12 c' = kept12 c.
Proof.
  unfold send_flight. intros Q. run Q as v c1 Q1. apply cget_conn in Q1 as [-> ->].
  run Q as hs1 c1 Q1. apply start_transcript_Ret in Q1 as (ch & Hch & Hf & Hs1 & ->).
  run Q as hs2 c2 Q2. apply send_msg_Ret in Q2 as (sh & Hsh & -> & Hu2%undisturbed_kept).
  run Q as hs3 c3 Q3. apply send_msg_Ret in Q3 as (ce & Hce & -> & Hu3%undisturbed_kept).
  run Q as hs4 c4 Q4. cbn [wrote set_finishedHash hello cert] in Hce, Q4.
  assert (H4' : exists st, optional_msg (serverHelloMsg.ocspStapling (hello hs1)) st (fun m => m = CertificateStatus
    (certificateStatusMsg.mk (default [] (OCSPStaple (cc_message (cert hs1)))))) /\ hs4 = wrotes st (wrotes [sh; ce] hs1) /\ kept12 c4 = kept12 c3).
  { unfold optional_msg. destruct (serverHelloMsg.ocspStapling (hello hs1)).
    - apply send_msg_Ret in Q4 as (d & Hd & -> & Hu%undisturbed_kept). exists [d]. split_and!; [by eexists _, d|done|done].
    - apply cret_Ret in Q4 as [-> ->]. by exists []. }
  destruct H4' as (st & Hst & -> & Hk4). clear Q4.
  run Q as r c5 Q5. destruct r as [ka5 hs5]. apply send_skx_Ret in Q5 as (sk & Hsk & -> & Hk5).
  run Q as r c6 Q6. destruct r as [req6 hs6].
  assert (H6' : exists rq, optional_msg (RequestClientCert <=? auth) rq (fun m => m = CertificateRequest (certificate_request12 fips config (c_vers c))) /\
    req6 = (if RequestClientCert <=? auth then Some (certificate_request12 fips config (c_vers c)) else None) /\
    hs6 = wrotes rq (wrotes sk (wrotes st (wrotes [sh; ce] hs1))) /\ kept12 c6 = kept12 c5).
  { unfold optional_msg. destruct (RequestClientCert <=? auth).
    - run Q6 as hs7 c7 Q7. apply send_msg_Ret in Q7 as (d & Hd & -> & Hu%undisturbed_kept). apply cret_Ret in Q6 as [[= -> ->] ->].
      exists [d]. split_and!; [by eexists _, d|done..].
    - apply cret_Ret in Q6 as [[= -> ->] ->]. by exists []. }
  destruct H6' as (rq & Hrq & -> & -> & Hk6). clear Q6.
  run Q as hs7 c7 Q7. apply send_msg_Ret in Q7 as (dn & Hdn & -> & Hu7%undisturbed_kept).
  apply flush_Ret in Q as (c8 & Hk8 & Q). apply cret_Ret in Q as [[= -> -> ->] ->].
  exists ch, ([sh; ce] ++ st ++ sk ++ rq ++ [dn]).
  set (hs8 := wrote dn _). assert (E8 : hs8 = wrotes ([sh; ce] ++ st ++ sk ++ rq ++ [dn]) hs1).
  { unfold hs8, wrotes. by rewrite !fold_left_app. }
  pose proof (wrotes_same ([sh; ce] ++ st ++ sk ++ rq ++ [dn]) hs1) as Hs8. rewrite <- E8 in Hs8.
  split_and!; [done| |rewrite E8; by apply (wrotes_fh _ _ _ [ch])|congruence|congruence]. clearbody hs8.
  unfold same12 in Hs8. injection Hs8 as F1 F2 F3 F4 F5 F6.
  constructor; [done|]. rewrite F2, F6. by exists sh, ce, st, sk, rq, dn.
Qed.

(** What the client has sent of certificates, if it was asked; its message is
    [cm], and [certs] and [chains] are what the connection knows after it. *)
Definition client_certified (v : Z) (cm : list bytes) (certs : list X) (chains : list (list X)) : Prop :=
  RequestClientCert <= auth /\ exists m data, cm = [data] /\ unmarshal_message v data = Some (CertificateMsg m) /\
    client_certs_ok fips config (certificateMsg.certificates m) certs chains.

Lemma read_client_certificate_Ret (hs hs' : hstate) msg c c' :
  read_client_certificate dyn_off rand fips config hs c = (Ret (msg, hs'), c') ->
  exists cm data, unmarshal_message (c_vers c) data = Some msg /\ hs' = wrote data (wrotes cm hs) /\ c_vers c' = c_vers c /\
    RealityHandshake.ticketKeys (c_info c') = RealityHandshake.ticketKeys (c_info c) /\
    (auth < RequestClientCert /\ cm = [] /\ kept12 c' = kept12 c \/
     client_certified (c_vers c) cm (peerCertificates (c_info c')) (verifiedChains (c_info c'))).
Proof.
  unfold read_client_certificate, client_certified. intros Q. run Q as r c1 Q1. destruct r as [msg1 hs1].
  apply read_msg_Ret in Q1 as (data & Hm & -> & Hu%undisturbed_kept). pose proof Hu as Hu'. unfold kept12 in Hu'. injection Hu' as Hv _ _ Hk.
  destruct (Z.leb_spec RequestClientCert auth) as [Ha|Ha]; cbn [negb] in Q.
  2: { apply cret_Ret in Q as [[= -> ->] ->]. exists [], data. split_and!; [done..|]. by left. }
  destruct msg1 as [| | | | | |m| | | | | | | | | | | ]; try refuse Q. run Q as u c2 Q2.
  apply processCertsFromClient_Ret in Q2 as (Hok & Hc2 & Ht2). apply read_msg_Ret in Q as (data2 & Hm2 & -> & Hu2).
  exists [data], data2. rewrite Hc2, Hv in Hm2. apply undisturbed_kept in Hu2. unfold kept12 in Hu2. injection Hu2 as Hv2 Hp2 Hch2 Hk2.
  split_and!; [done|done|by rewrite Hv2, Hc2|by rewrite Hk2, Ht2|]. right. split; [done|].
  exists m, data. rewrite Hp2, Hch2. by split_and!.
Qed.

(** The master secret, from the pre-master secret and the transcript. *)
Definition master_secret (v : Z) (hs : hstate) (fh : finishedHash.t) (pre master : bytes) : Prop :=
  if serverHelloMsg.extendedMasterSecret (hello hs) then
    exists sum, finishedHash.Sum (E:=conn_error) fh = Ret sum /\ extMasterFromPreMasterSecret (E:=conn_error) v (suite hs) pre sum = Ret master
  else fips = false /\ masterFromPreMasterSecret (E:=conn_error) v (suite hs) pre (clientHelloMsg.random (clientHello hs))
    (serverHelloMsg.random (hello hs)) = Ret master.

Lemma server_master_Ret pre (hs hs' : hstate) c c' : server_master dyn_off rand fips pre hs c = (Ret hs', c') ->
  exists master, master_secret (c_vers c) hs (finishedHash hs) pre master /\ hs' = set_masterSecret master hs /\ kept12 c' = kept12 c.
Proof.
  unfold server_master, master_secret. intros Q. run Q as v c1 Q1. apply cget_conn in Q1 as [-> ->].
  destruct (serverHelloMsg.extendedMasterSecret (hello hs)).
  - run Q as u c1 Q1. apply cmodify_Ret in Q1 as ->. run Q as sum c1 Q1. apply clift_Ret in Q1 as [Hs ->].
    run Q as ms c1 Q1. apply clift_Ret in Q1 as [Hm ->]. apply cret_Ret in Q as [-> ->]. exists ms. by split_and!; [exists sum|..].
  - destruct fips; [refuse Q|]. run Q as ms c1 Q1. apply clift_Ret in Q1 as [Hm ->]. apply cret_Ret in Q as [-> ->]. by exists ms.
Qed.

(** The signature [m] of the transcript [fh] by the key of [leaf]. *)
Definition client_signature_ok (v : Z) (req : option certificateRequestMsg.t) (leaf : X) (fh : finishedHash.t)
    (m : certificateVerifyMsg.t) : Prop :=
  exists sigType sigHash signed,
    (if VersionTLS12 <=? v then exists r, req = Some r /\
       In (certificateVerifyMsg.signatureAlgorithm m) (certificateRequestMsg.supportedSignatureAlgorithms r) /\
       typeAndHashFromSignatureScheme (certificateVerifyMsg.signatureAlgorithm m) = Ret (sigType, sigHash)
     else legacyTypeAndHashFromPublicKey (cert_PublicKey leaf) = Ret (sigType, sigHash)) /\
    client_signed fh sigType sigHash = Ret signed /\
    verifyHandshakeSignature sigType (cert_PublicKey leaf) sigHash signed (certificateVerifyMsg.signature m) = None.

Lemma client_sig_Ret v pub req m c th c' : client_sig (P:=P) dyn_off rand v pub req m c = (Ret th, c') -> c' = c /\
  if VersionTLS12 <=? v then exists r, req = Some r /\
    In (certificateVerifyMsg.signatureAlgorithm m) (certificateRequestMsg.supportedSignatureAlgorithms r) /\
    typeAndHashFromSignatureScheme (certificateVerifyMsg.signatureAlgorithm m) = Ret th
  else legacyTypeAndHashFromPublicKey pub = Ret th.
Proof.
  unfold client_sig. destruct (VersionTLS12 <=? v); intros Q.
  - destruct req as [r|]; [|refuse Q]. destruct (isSupportedSignatureAlgorithm _ _) eqn:Hs; [|refuse Q]. cbn [negb] in Q.
    destruct (typeAndHashFromSignatureScheme _) as [th'|e|w]; [|refuse Q..]. apply cret_Ret in Q as [-> ->].
    split; [done|]. exists r. split_and!; [done|by apply contains_In|done].
  - by apply or_calert_Ret in Q as [? ->].
Qed.

(** The client's CertificateVerify, if it has a certificate. *)
Definition client_signature (v : Z) (req : option certificateRequestMsg.t) (certs : list X) (fh : finishedHash.t) (cv : list bytes) : Prop :=
  match certs with
  | [] => cv = []
  | leaf :: _ => exists m data, cv = [data] /\ transcriptMsg B (CertificateVerify m) = Ret data /\ client_signature_ok v req leaf fh m
  end.

Lemma read_client_verify_Ret req (hs hs' : hstate) c c' : read_client_verify (B:=B) dyn_off rand req hs c = (Ret hs', c') ->
  exists cv, client_signature (c_vers c) req (peerCertificates (c_info c)) (finishedHash hs) cv /\ hs' = wrotes cv hs /\
    kept12 c' = kept12 c.
Proof.
  unfold read_client_verify, client_signature, client_signature_ok. intros Q. run Q as i c1 Q1. apply cget_Ret in Q1 as [-> ->].
  destruct (peerCertificates (c_info c)) as [|leaf rest].
  { apply cret_Ret in Q as [-> ->]. by exists []. }
  run Q as r c1 Q1. destruct r as [msg data]. apply read_Ret in Q1 as [_ Hu%undisturbed_kept].
  destruct msg as [| | | | | | | | | | | | |m| | | | ]; try refuse Q.
  run Q as v c2 Q2. apply cget_conn in Q2 as [-> ->]. run Q as th c2 Q2. apply client_sig_Ret in Q2 as [-> Hth].
  destruct th as [sigType sigHash]. run Q as signed c2 Q2. apply clift_Ret in Q2 as [Hsd ->].
  destruct (verifyHandshakeSignature _ _ _ _ _) eqn:Hv; [refuse Q|].
  apply transcript_msg_Ret in Q as (d & Hd & -> & ->). exists [d]. split; [|by split].
  exists m, d. split_and!; [done..|]. exists sigType, sigHash, signed. split; [|by split].
  unfold kept12 in Hu. injection Hu as Hv1 _ _ _. by rewrite Hv1 in Hth.
Qed.

Lemma process_ckx_Ret ka (hs : hstate) ckx c r c' : process_ckx keys_at ka hs ckx c = (Ret r, c') -> kept12 c' = kept12 c.
Proof.
  unfold process_ckx. destruct ka; intros Q; [|by apply cret_Ret in Q as [_ ->]].
  run Q as n c1 Q1. apply cret_Ret in Q as [_ ->]. unfold next_rand in Q1. run Q1 as n' c3 Q3. apply cget_conn in Q3 as [-> ->].
  run Q1 as u c3 Q3. apply on_conn_kept in Q3; [|settle]. by apply cret_Ret in Q1 as [_ ->].
Qed.

Lemma server_log_master_Ret (hs : hstate) c u c' : server_log_master dyn_off rand config hs c = (Ret u, c') -> c' = c.
Proof.
  unfold server_log_master. destruct (cfg_KeyLogWriter base) as [w|]; intros Q; [|by apply cret_Ret in Q as [_ ->]].
  destruct (w _); [refuse Q|]. by apply cret_Ret in Q as [_ ->].
Qed.
End stages.
