(* ===== verification/Server12Proofs.v ===== *)
(** * What a TLS 1.0 to 1.2 server has checked

    A server whose handshake returns without error has verified its client: its
    Finished message over the whole transcript, and either the session that it
    resumes or, as far as the configuration asks for it, its certificates and its
    signature. *)

From S2P Require Import Prelude Common HalfConn Cryptobyte Hello Messages Gcm CipherSuites Kdf Conn ConnProofs.
From S2P Require Import Negotiation NegotiationProofs Auth KeyAgreement Ticket RealityHandshake Post RealityFlight RealityStages Steady.
From S2P Require Import Client Client13 Client12 ClientHandshake ClientStages Hpke Ech Server Server12 ServerStages Server12Stages.

Open Scope go_scope.

Section server.
Context {S A C K : Type} `{Stream S} `{RecordAEAD A} `{CbcMode C} `{MacFun K}.
Context `{Hashes} `{CryptoString} {B : Type} `{Builder B} {X P T : Type} `{X509 X} `{CertificateChains X P}.
Context `{EcdhCurves} `{Decapsulation} `{Verifiers P} `{!ServerX509 X P}.
Abbreviation cln := (client S A C K X T).
Abbreviation hstate := (serverHandshakeState.t X P).
Abbreviation serverConfig := (ServerConfig.t X P CertPool).
Abbreviation session_state := (SessionState.t X).
Import serverHandshakeState.
Implicit Types c : cln.

Context (dyn_off : bool) (rand : nat -> nat -> option bytes).
Context (generated : nat -> ecdh_Curve -> outcome conn_error ecdhPrivateKey).
Context (suite_aead : aead_fn -> bytes -> bytes -> outcome conn_error A).
Context (suite_cipher : cipher_fn -> bytes -> bytes -> bool -> cipher_state S A C).
Context (suite_mac : mac_fn -> bytes -> Hash K).
Context (keys_at : nat -> CertificateKeys P).
Context (aes_ctr : bytes -> bytes -> bytes -> bytes).
Context (ToLower : bytes -> bytes).
Context (fips hasAESGCMHardwareSupport : bool).
Context (config : serverConfig).

Abbreviation c_vers c := (vers (conn c)).
Abbreviation c_info c := (ClientConn.info (cl c)).
Abbreviation auth := (ServerConfig.ClientAuth config).
Abbreviation base := (ServerConfig.base config).

(** ** The ClientHello *)

(** What is settled with the ClientHello: the certificate, what its key can
    do, and the ServerHello as far as it goes. *)
Record hello_processed (v : Z) (m : clientHelloMsg.t) (sh : serverHelloMsg.t) (cert : clientCertificate X P) (uses : key_use)
  : Prop := {
  hp_acceptable : In compressionNone (clientHelloMsg.compressionMethods m) /\ clientHelloMsg.secureRenegotiation m = [];
  hp_cert : getCertificate ToLower fips config (clientHelloInfo m) = Ret cert;
  hp_uses : sign_use (ck_PrivateKey (cc_key cert)) = Some (ecSignOk uses, rsaSignOk uses) /\
    decrypt_use (ck_PrivateKey (cc_key cert)) = Some (rsaDecryptOk uses) /\
    supportsECDHE fips (Some (server_neg config)) v (clientHelloMsg.supportedCurves m) (clientHelloMsg.supportedPoints m) = Ret (ecdheOk uses);
  hp_hello : exists rnd random proto scts points,
    server_random fips (Some (server_neg config)) v rnd = Ret (E:=conn_error) (Some random) /\
    negotiateALPN (NextProtos base) (clientHelloMsg.alpnProtocols m) false = Ret proto /\
    sh = server_hello v m random proto scts points
}.

Lemma uses_of_Ret key ecdhe c uses c' : (uses_of dyn_off rand key ecdhe : CM S A C K X T key_use) c = (Ret uses, c') ->
  sign_use (P:=P) key = Some (ecSignOk uses, rsaSignOk uses) /\ decrypt_use key = Some (rsaDecryptOk uses) /\ ecdheOk uses = ecdhe /\ c' = c.
Proof.
  unfold uses_of. destruct (sign_use key) as [[ec rsa]|]; intros Q; [|refuse Q].
  destruct (decrypt_use key); [|refuse Q]. by apply cret_Ret in Q as [-> ->].
Qed.

Lemma make_random_Ret c random c' : make_random dyn_off rand fips config c = (Ret random, c') ->
  (exists rnd, server_random fips (Some (server_neg config)) (c_vers c) rnd = Ret (E:=conn_error) (Some random)) /\ kept12 c' = kept12 c.
Proof.
  unfold make_random, next_rand. intros Q. run Q as v c1 Q1. apply cget_conn in Q1 as [-> ->].
  run Q as n c1 Q1. run Q1 as n' c2 Q2. apply cget_conn in Q2 as [-> ->]. run Q1 as u c2 Q2.
  apply on_conn_kept in Q2; [|settle]. apply cret_Ret in Q1 as [-> ->].
  run Q as r c3 Q3. apply clift_Ret in Q3 as [Hr ->]. destruct r as [r|]; [|refuse Q].
  apply cret_Ret in Q as [-> ->]. split; [by eexists|done].
Qed.

Lemma processClientHello_Ret m c sh cert uses c' :
  processClientHello dyn_off rand ToLower fips config m c = (Ret (sh, cert, uses), c') ->
  hello_processed (c_vers c) m sh cert uses /\ kept12 c' = kept12 c.
Proof.
  unfold processClientHello. intros Q. run Q as v c1 Q1. apply cget_conn in Q1 as [-> ->].
  destruct (compression_ok m) eqn:Hc; [|refuse Q]. cbn [negb] in Q.
  run Q as random c1 Q1. apply make_random_Ret in Q1 as [[rnd Hr] Hk1].
  destruct (Nat.eqb_spec (length (clientHelloMsg.secureRenegotiation m)) 0) as [Hs|]; [|refuse Q]. cbn [negb] in Q.
  run Q as u c2 Q2. assert (Hk2 : kept12 c2 = kept12 c1).
  { destruct (_ <? _)%nat; [by apply cmodify_Ret in Q2 as ->|by apply cret_Ret in Q2 as [_ ->]]. }
  run Q as proto c3 Q3. apply or_calert_Ret in Q3 as [Hp ->]. run Q as u2 c3 Q3. apply cmodify_Ret in Q3 as ->.
  run Q as cert1 c4 Q4. unfold find_certificate in Q4.
  destruct (getCertificate _ _ _ _) as [ct|[a e]|w] eqn:Hcert; [|refuse Q4|refuse Q4]. apply cret_Ret in Q4 as [-> ->].
  run Q as ecdhe c5 Q5. apply or_calert_Ret in Q5 as [He ->]. run Q as uses1 c5 Q5.
  apply uses_of_Ret in Q5 as (Hsu & Hdu & Heu & ->). apply cret_Ret in Q as [[= -> -> ->] ->].
  split; [|etransitivity; [|exact Hk1]; etransitivity; [|exact Hk2]; done].
  constructor; [split; [by apply contains_In|by apply length_zero_iff_nil]|done|by rewrite He, Heu|].
  by eexists rnd, random, proto, _, _.
Qed.

(** ** The full handshake *)

(** The messages of a full handshake up to the client's Finished, and what was
    checked of them; [c'] is the connection after them. *)
Record full_handshake (v : Z) (hs : hstate) c c' (msgs : list bytes) : Prop := {
  fu_msgs : exists ch flight req cm ck cv, msgs = ch :: flight ++ cm ++ [ck] ++ cv /\
    transcriptMsg B (ClientHello (clientHello hs)) = Ret ch /\ server_flight (B:=B) fips config v hs req flight /\
    (auth < RequestClientCert /\ cm = [] /\ peerCertificates (c_info c') = peerCertificates (c_info c) \/
     client_certified fips config v cm (peerCertificates (c_info c')) (verifiedChains (c_info c'))) /\
    exists ka ckx pre hk k k' fh, unmarshal_message v ck = Some (ClientKeyExchange ckx) /\
      cert hk = cert hs /\ process_ckx keys_at ka hk ckx (k : cln) = (Ret (Ret pre), k') /\
      fh_after v (suite hs) (auth =? NoClientCert) (ch :: flight ++ cm ++ [ck]) fh /\
      master_secret fips v hs fh pre (masterSecret hs) /\
      client_signature (B:=B) v req (peerCertificates (c_info c')) fh cv
}.

Lemma server_flight_same v (hs hs' : hstate) req flight : (hello hs', cert hs') = (hello hs, cert hs) ->
  server_flight (B:=B) fips config v hs req flight -> server_flight (B:=B) fips config v hs' req flight.
Proof. intros [= Hh Hc] []. constructor; [done|]. by rewrite Hh, Hc. Qed.

Lemma master_secret_same v (hs hs' : hstate) fh pre ms : (clientHello hs', hello hs', suite hs') = (clientHello hs, hello hs, suite hs) ->
  master_secret fips v hs fh pre ms -> master_secret fips v hs' fh pre ms.
Proof. intros [= E1 E2 E3]. unfold master_secret. by rewrite E1, E2, E3. Qed.

Definition full_hello (m : clientHelloMsg.t) (sh : serverHelloMsg.t) (cert : clientCertificate X P) (s : cipherSuite) : serverHelloMsg.t :=
  serverHelloMsg.set_cipherSuite (id s)
    (serverHelloMsg.set_ticketSupported (clientHelloMsg.ticketSupported m && negb (cfg_SessionTicketsDisabled base))
      (serverHelloMsg.set_ocspStapling
        (clientHelloMsg.ocspStapling m && (0 <? length (default [] (OCSPStaple (cc_message cert))))%nat) sh)).

Lemma doFullHandshake_Ret m sh cert0 s c (hs : hstate) c' :
  doFullHandshake (B:=B) dyn_off rand generated keys_at fips config m sh cert0 s c = (Ret hs, c') ->
  exists msgs, full_handshake (c_vers c) hs c c' msgs /\ fh_after (c_vers c) (suite hs) true msgs (finishedHash hs) /\
    clientHello hs = m /\ hello hs = full_hello m sh cert0 s /\ suite hs = s /\ sessionState hs = None /\ cert hs = cert0 /\
    c_vers c' = c_vers c /\ connection_approved config (peerCertificates (c_info c')).
Proof.
  unfold doFullHandshake. fold (full_hello m sh cert0 s). intros Q.
  run Q as r c1 Q1. destruct r as [[ka req] hs1].
  apply send_flight_Ret in Q1 as (ch & flight & Hch & Hfl & Hfh & Hs1 & Hk1). unfold new_state in *. cbn [clientHello suite] in Hch, Hfh.
  run Q as r c2 Q2. destruct r as [msg hs2].
  apply read_client_certificate_Ret in Q2 as (cm & ck & Hck & -> & Hv2 & Ht2 & Hcm).
  assert (Hv1 : c_vers c1 = c_vers c) by (unfold kept12 in Hk1; congruence). rewrite Hv1 in *.
  run Q as u c3 Q3. apply server_verify_connection_Ret in Q3 as [-> Happ].
  destruct msg as [| | | | | | | | | | | |ckx| | | | | ]; try refuse Q.
  run Q as r c4 Q4. apply process_ckx_Ret in Q4 as Hk4. run Q as pre c5 Q5. apply or_calert_Ret in Q5 as [-> ->].
  run Q as hs3 c5 Q5. apply server_master_Ret in Q5 as (ms & Hms & -> & Hk5). run Q as u6 c6 Q6. apply server_log_master_Ret in Q6 as ->.
  run Q as hs4 c6 Q6. apply read_client_verify_Ret in Q6 as (cv & Hcv & -> & Hk6). apply cret_Ret in Q as [-> ->].
  pose proof (wrotes_fh _ _ _ _ cm _ Hfh) as Hf2. apply (fh_after_Write _ _ _ _ ck) in Hf2.
  assert (Hs2 : same12 (wrote ck (wrotes cm hs1)) = same12 hs1) by (transitivity (same12 (wrotes cm hs1)); [done|apply wrotes_same]).
  change (finishedHash.Write ck (finishedHash (wrotes cm hs1))) with (finishedHash (wrote ck (wrotes cm hs1))) in Hf2.
  set (hs3 := wrote ck (wrotes cm hs1)) in *. clearbody hs3. rewrite Hs1 in Hs2. unfold same12 in Hs1, Hs2.
  injection Hs1 as A1 A2 A3 A4 A5 A6. injection Hs2 as B1 B2 B3 B4 B5 B6. cbn [hello clientHello suite sessionState masterSecret cert] in *.
  pose proof (wrotes_fh _ _ _ _ cv (set_masterSecret ms hs3) Hf2) as Hf3.
  pose proof (wrotes_same cv (set_masterSecret ms hs3)) as Hs3. unfold same12 in Hs3. injection Hs3 as C1 C2 C3 C4 C5 C6.
  cbn [set_masterSecret hello clientHello suite sessionState masterSecret cert finishedHash] in *.
  set (hs4 := wrotes cv _) in *. clearbody hs4.
  assert (Hv4 : c_vers c5 = c_vers c) by (unfold kept12 in *; congruence).
  assert (E : kept12 c6 = kept12 c2) by congruence. unfold kept12 in E. injection E as E1 E2 E3 E4.
  exists (ch :: flight ++ cm ++ [ck] ++ cv). unfold set_finishedHash. cbn [clientHello hello suite sessionState cert finishedHash].
  rewrite C1, C2, C3, C4, C6, B1, B2, B3, B4, B6, E1, E2.
  assert (Em : (((ch :: flight) ++ cm) ++ [ck]) ++ cv = ch :: flight ++ cm ++ [ck] ++ cv) by by rewrite <- !app_assoc.
  split_and!; try done; [|rewrite <- Em; by eapply fh_after_discard].
  constructor. cbn [clientHello hello suite sessionState cert finishedHash masterSecret].
  exists ch, flight, req, cm, ck, cv. rewrite C5, E2, E3. split_and!; [done|done| | |].
  - eapply server_flight_same; [|exact Hfl]. cbn [hello cert]. congruence.
  - destruct Hcm as [(? & ? & Hk2)|?]; [left|by right]. unfold kept12 in Hk1, Hk2. split_and!; congruence.
  - exists ka, ckx, pre, hs3, c2, c4, (finishedHash hs3). rewrite Hv4 in Hcv. split_and!; [done|done|done|by rewrite <- app_assoc in Hf2| |].
    + eapply master_secret_same; [|replace (c_vers c) with (c_vers c4) by (unfold kept12 in *; congruence); exact Hms].
      cbn [hello suite clientHello]. congruence.
    + unfold kept12 in Hk6. injection Hk6 as _ Hp6 _ _. rewrite <- E2, Hp6. exact Hcv.
Qed.

Lemma full_handshake_same v (hs hs' : hstate) c c' k' msgs : same12 hs' = same12 hs ->
  peerCertificates (c_info k') = peerCertificates (c_info c') -> verifiedChains (c_info k') = verifiedChains (c_info c') ->
  full_handshake v hs c c' msgs -> full_handshake v hs' c k' msgs.
Proof.
  intros [= E1 E2 E3 E4 E5 E6] Hp Hv [(ch & flight & req & cm & ck & cv & Hm & Hch & Hfl & Hc & ka & ckx & pre & hk & k & k1 & fh & Hk)].
  constructor. exists ch, flight, req, cm, ck, cv. rewrite E1, E3, E5, E6, Hp, Hv. split_and!; [done|done| |done|].
  - eapply server_flight_same; [|exact Hfl]. congruence.
  - destruct Hk as (H1' & H2' & H3' & H4' & H5' & H6'). exists ka, ckx, pre, hk, k, k1, fh. split_and!; try done.
    eapply master_secret_same; [|exact H5']. congruence.
Qed.

Lemma server_full_Ret m sh cert0 uses c (hs : hstate) c' :
  server_full (B:=B) dyn_off rand generated suite_aead suite_cipher suite_mac keys_at aes_ctr fips hasAESGCMHardwareSupport config
    m sh cert0 uses c = (Ret hs, c') ->
  exists msgs fh fin, full_handshake (c_vers c) hs c c' msgs /\ fh_after (c_vers c) (suite hs) true msgs fh /\
    client_finished (B:=B) (c_vers c) fh (masterSecret hs) fin /\
    Negotiation.pickCipherSuite fips hasAESGCMHardwareSupport (server_neg config) uses (c_vers c) (clientHelloMsg.vers m)
      (clientHelloMsg.cipherSuites m) = Ret (suite hs) /\
    clientHello hs = m /\ hello hs = full_hello m sh cert0 (suite hs) /\ sessionState hs = None /\ cert hs = cert0 /\
    connection_approved config (peerCertificates (c_info c')).
Proof.
  unfold server_full. intros Q. run Q as s c1 Q1. apply pick_suite_Ret in Q1 as [Hs Hk1].
  run Q as hs2 c2 Q2. apply doFullHandshake_Ret in Q2 as (msgs & Hfull & Hfh & A1 & A2 & A3 & A4 & A5 & Hv2 & Happ).
  run Q as u3 c3 Q3. apply server_establishKeys_Ret in Q3 as Hk3.
  run Q as hs4 c4 Q4. apply server_readFinished_Ret in Q4 as (fin & Hfin & -> & Hk4).
  run Q as u5 c5 Q5. apply cmodify_Ret in Q5 as ->. run Q as u6 c6 Q6. apply on_conn_kept in Q6 as Hk6; [|settle].
  change (kept12 (mkClient _ _)) with (kept12 c4) in Hk6.
  run Q as hs7 c7 Q7. apply server_sendSessionTicket_Ret in Q7 as (tk & _ & -> & Hk7).
  run Q as hs8 c8 Q8. apply server_sendFinished_Ret in Q8 as (verify & sfin & _ & _ & -> & Hk8).
  apply flush_Ret in Q as (c9 & Hk9 & Q). apply cret_Ret in Q as [-> ->].
  assert (Hk : kept12 c9 = kept12 c2) by congruence. unfold kept12 in Hk, Hk1, Hk3.
  injection Hk as _ Hp Hch _. injection Hk1 as Hv1 Hp1 _ _. injection Hk3 as Hv3 _ _ _.
  pose proof (wrotes_same tk (wrote fin hs2)) as Hsame. set (hs9 := wrotes tk _) in *. clearbody hs9.
  assert (Hs9 : same12 (wrote sfin hs9) = same12 hs2) by exact Hsame. set (hs' := wrote sfin hs9) in *. clearbody hs'. pose proof Hs9 as Hs9'.
  unfold same12 in Hs9'. injection Hs9' as B1 B2 B3 B4 B5 B6.
  exists msgs, (finishedHash hs2), fin. rewrite Hv3, Hv2, Hv1 in Hfin. rewrite Hv1 in *.
  rewrite B1, B2, B3, B4, B5, B6, A3, Hp, Hs. split_and!; try done; [|by rewrite <- A3].
  eapply (full_handshake_same _ hs2); [exact Hs9|exact Hp|exact Hch|].
  destruct Hfull as [(ch & flight & req & cm & ck & cv & Hm & Hc1 & Hf1 & Hcert & Hrest)]. constructor.
  exists ch, flight, req, cm, ck, cv. split_and!; try done. rewrite <- Hp1. exact Hcert.
Qed.

(** C12: A handshake of a TLS 1.0 to 1.2 server that returns without error has
    authenticated what the configuration asks for. The ClientHello is acceptable,
    the certificate is the one for it, and the client's Finished is the MAC, under
    the master secret, of all messages before it. Without resumption the suite is
    the one that [pickCipherSuite] has settled on; a certificate was asked for if
    the configuration says so, and then the client's certificates parse, are there
    if they must, chain to [ClientCAs] if that is asked for, and pass the
    application's callbacks, and the key of the first has signed the transcript;
    the master secret is that of the client's key exchange. With resumption the
    ticket opens to a session of this version, at most seven days old, with a suite
    that the client offers and the server can use, an extended master secret iff the
    client has one, and client certificates as the configuration wants them; the
    master secret and the peer are those of the session. *)
Theorem server_authenticates m c (hs : hstate) c' :
  server_handshake12 (B:=B) dyn_off rand generated suite_aead suite_cipher suite_mac keys_at aes_ctr ToLower fips
    hasAESGCMHardwareSupport config m c = (Ret hs, c') ->
  let v := c_vers c in
  isHandshakeComplete (conn c') = true /\ connection_approved config (peerCertificates (c_info c')) /\
  exists sh cert0 uses msgs fh fin, hello_processed v m sh cert0 uses /\
    fh_after v (suite hs) true msgs fh /\ client_finished (B:=B) v fh (masterSecret hs) fin /\
    match sessionState hs with
    | None =>
        Negotiation.pickCipherSuite fips hasAESGCMHardwareSupport (server_neg config) uses v (clientHelloMsg.vers m)
          (clientHelloMsg.cipherSuites m) = Ret (suite hs) /\
        clientHello hs = m /\ hello hs = full_hello m sh cert0 (suite hs) /\ cert hs = cert0 /\ full_handshake v hs c c' msgs
    | Some s =>
        cfg_SessionTicketsDisabled base = false /\
        (exists k : cln, kept12 k = kept12 c /\ ticket_opens aes_ctr config false k (clientHelloMsg.sessionTicket m) s) /\
        session_resumable fips config m uses v s (suite hs) /\ resumed_flight (B:=B) v m hs msgs /\
        masterSecret hs = SessionState.secret s /\ peerCertificates (c_info c') = SessionState.peerCertificates s /\
        verifiedChains (c_info c') = SessionState.verifiedChains s
    end.
Proof.
  unfold server_handshake12. intros Q. run Q as r c1 Q1. destruct r as [[sh cert0] uses].
  apply processClientHello_Ret in Q1 as [Hp Hk1]. run Q as u2 c2 Q2. apply on_conn_kept in Q2 as Hk2; [|settle].
  run Q as resumed c3 Q3. apply checkForResumption_Ret in Q3. run Q as hs4 c4 Q4.
  run Q as v5 c5 Q5. apply cget_conn in Q5 as [-> ->]. run Q as u6 c6 Q6. apply cmodify_Ret in Q6 as ->.
  run Q as u7 c7 Q7. apply on_conn_Ret in Q7 as [Q7 Hl7]. injection Q7 as _ Q7. apply cret_Ret in Q as [-> ->].
  assert (Hinfo : c_info c7 = c_info c4) by (rewrite Hl7; done).
  rewrite <- Q7, Hinfo. split; [done|].
  assert (Hk : kept12 c2 = kept12 c) by congruence. pose proof Hk as Hk'. unfold kept12 in Hk'. injection Hk' as Hv Hpe _ _.
  destruct resumed as [[s suite0]|].
  - destruct Q3 as (Hdis & Hopen & Hres & _ & Hk3). unfold kept12 in Hk3. injection Hk3 as Hv3 Hp3 Hc3 _.
    apply server_resume_Ret in Q4 as (msgs & fh & fin & Hflight & Hfh & Hfin & Hs & Hss & Hms & _ & Happ & Hk4).
    unfold kept12 in Hk4. injection Hk4 as _ Hp4 Hc4 _. rewrite Hv3, Hv in *.
    rewrite Hp4, Hc4, Hp3, Hc3, Hss in *. split; [done|]. exists sh, cert0, uses, msgs, fh, fin.
    rewrite Hs in *. split_and!; try done. exists c2. by split.
  - subst c3. apply server_full_Ret in Q4 as (msgs & fh & fin & Hfull & Hfh & Hfin & Hs & Hm & Hh & Hss & Hce & Happ).
    rewrite Hv, Hss in *. split; [done|]. exists sh, cert0, uses, msgs, fh, fin. split_and!; try done.
    eapply (full_handshake_same _ hs4); [done|by rewrite Hinfo|by rewrite Hinfo|].
    destruct Hfull as [(ch & flight & req & cm & ck & cv & Hx & Hc1 & Hf1 & Hcert & Hrest)]. constructor.
    exists ch, flight, req, cm, ck, cv. rewrite <- Hpe. by split_and!.
Qed.
End server.
