(* ===== verification/Server13Proofs.v ===== *)
(** * What a TLS 1.3 server has decided

    The answer to a ClientHello, the session that is resumed, and the secret
    that the key shares agree on. *)

From S2P Require Import Prelude Common HalfConn Cryptobyte Hello Messages Gcm CipherSuites Kdf Conn ConnProofs.
From S2P Require Import Negotiation NegotiationProofs Auth KeyAgreement Ticket RealityHandshake Post RealityFlight RealityStages Steady.
From S2P Require Import Client Client12 Client13 ClientHandshake ClientStages ClientAuth Hpke Ech Server Server13 ServerStages.

Open Scope go_scope.

Section server.
Context {S A C K : Type} `{Stream S} `{RecordAEAD A} `{CbcMode C} `{MacFun K}.
Context `{Hashes} `{CryptoString} {B : Type} `{Builder B} {X P T : Type} `{X509 X} `{CertificateChains X P}.
Context `{EcdhCurves} `{Decapsulation} `{Verifiers P} `{!ServerX509 X P} `{KeyExchange}.
Context `{hpke.X25519} {Block Q : Type} `{hpke.cipherAEAD Q}.
Abbreviation cln := (client S A C K X T).
Abbreviation serverConfig := (ServerConfig.t X P CertPool).
Abbreviation ech_context := (echServerContext (T:=Q)).
Abbreviation hstate := (serverState13.t ech_context).
Import serverState13.
Implicit Types c : cln.

Context (dyn_off : bool) (rand : nat -> nat -> option bytes).
Context (generated : nat -> ecdh_Curve -> outcome conn_error ecdhPrivateKey).
Context (aes_ctr : bytes -> bytes -> bytes -> bytes).
Context (fips hasAESGCMHardwareSupport : bool).
Context (config : serverConfig).
Context (accepted : bool).

Abbreviation c_info c := (ClientConn.info (cl c)).
Abbreviation base := (ServerConfig.base config).

(** ** Resumption *)

(** A session that may be resumed: it is of this version, its suite has the
    hash of the one that was chosen, and the configuration allows it. *)
Record session_fits (hs : hstate) (s : SessionState.t X) : Prop := {
  sf_version : SessionState.version s = VersionTLS13;
  sf_hash : exists ps, cipherSuiteTLS13ByID (SessionState.cipherSuite s) = Some ps /\ hash13 ps = hash13 (suite hs);
  sf_allowed : session_allowed config s
}.

Lemma resumable13_spec hs s : resumable13 config hs s = true <-> session_fits hs s.
Proof.
  unfold resumable13. rewrite !andb_true_iff, Z.eqb_eq. split.
  - intros [[[Hv Ha] Hh] Hc]. constructor; [done| |by apply session_allowed_spec; rewrite Ha, Hc].
    destruct (cipherSuiteTLS13ByID _) as [ps|]; [|done]. apply bool_decide_eq_true in Hh. by exists ps.
  - intros [Hv (ps & -> & Hh) [Ha Hc]%session_allowed_spec%andb_true_iff]. by rewrite bool_decide_eq_true.
Qed.

(** The binder is the MAC of the ClientHello without its binders, after the
    messages before it, under the key of the session's secret. *)
Definition binder_ok (hs : hstate) (s : SessionState.t X) (binder : bytes) : Prop :=
  exists key partial,
    tls13.ResumptionBinderKey (E:=conn_error) (tls13.NewEarlySecret (suite_hash (suite hs)) (Some (SessionState.secret s))) = Ret key /\
    clientHelloMsg.marshalWithoutBinders B (clientHello hs) = Ret partial /\
    suite_finishedHash (E:=conn_error) (suite hs) key (d_Write partial (transcript hs)) = Ret binder.

Lemma check_binder_Ret hs s binder c early c' : check_binder (B:=B) dyn_off rand hs s binder c = (Ret early, c') ->
  c' = c /\ binder_ok hs s binder /\ early = tls13.NewEarlySecret (suite_hash (suite hs)) (Some (SessionState.secret s)).
Proof.
  unfold check_binder, binder_ok. intros Q'. run Q' as key c1 Q1. apply clift_Ret in Q1 as [Hk ->].
  run Q' as partial c1 Q1. apply or_calert_Ret in Q1 as [Hp ->].
  run Q' as mac c1 Q1. apply clift_Ret in Q1 as [Hm ->].
  destruct (bool_decide_reflect (binder = mac)) as [<-|]; cbn [negb] in Q'; [|refuse Q'].
  apply cret_Ret in Q' as [-> ->]. split_and!; [done|by exists key, partial|done].
Qed.

(** What a resumption leaves of the [i]-th identity. *)
Definition selected (i : nat) (s : SessionState.t X) (hs : hstate) : hstate :=
  set_psk (serverHelloMsg.set_selectedIdentity (Z.of_nat i) (serverHelloMsg.set_selectedIdentityPresent true (hello hs)))
    (tls13.NewEarlySecret (suite_hash (suite hs)) (Some (SessionState.secret s))) hs.

(** The identities before [i] open to no session that may be resumed. *)
Definition passed_over (hs : hstate) c (identities : list pskIdentity) : Prop :=
  Forall (fun identity => forall s, ticket_opens aes_ctr config accepted c (label identity) s -> ~ session_fits hs s) identities.

Lemma try_identities_Ret i identities binders hs c hs' c' :
  length identities = length binders ->
  try_identities (B:=B) dyn_off rand aes_ctr config accepted i identities binders hs c = (Ret hs', c') ->
  (hs' = hs /\ c' = c /\ passed_over hs c (take (maxClientPSKIdentities - i) identities)) \/
  exists k identity binder s, identities !! k = Some identity /\ binders !! k = Some binder /\ (i + k < maxClientPSKIdentities)%nat /\
    passed_over hs c (take k identities) /\
    ticket_opens aes_ctr config accepted c (label identity) s /\ session_fits hs s /\ binder_ok hs s binder /\
    hs' = selected (i + k) s hs /\ conn c' = conn c /\
    cl c' = ClientConn.set_info (restore_peer s) (ClientConn.set_didResume true (cl c)).
Proof.
  revert i binders. induction identities as [|identity identities IH]; intros i binders Hl Q'; cbn [try_identities] in Q'.
  { apply cret_Ret in Q' as [-> ->]. left. split_and!; [done..|]. rewrite take_nil. constructor. }
  destruct binders as [|binder binders]; [done|]. injection Hl as Hl.
  destruct (Nat.leb_spec maxClientPSKIdentities i) as [Hi|Hi].
  { apply cret_Ret in Q' as [-> ->]. left. split_and!; [done..|]. 
    replace (maxClientPSKIdentities - i)%nat with 0%nat by lia. constructor. }
  run Q' as ss c1 Q1. apply unwrap_session_Ret in Q1 as [-> Hss].
  assert (Hskip : try_identities (B:=B) dyn_off rand aes_ctr config accepted (i + 1) identities binders hs c = (Ret hs', c') ->
    (forall s, ss = Some s -> ~ session_fits hs s) ->
    (hs' = hs /\ c' = c /\ passed_over hs c (take (maxClientPSKIdentities - i) (identity :: identities))) \/
    exists k identity' binder' s, (identity :: identities) !! k = Some identity' /\ (binder :: binders) !! k = Some binder' /\
      (i + k < maxClientPSKIdentities)%nat /\ passed_over hs c (take k (identity :: identities)) /\
      ticket_opens aes_ctr config accepted c (label identity') s /\ session_fits hs s /\ binder_ok hs s binder' /\
      hs' = selected (i + k) s hs /\ conn c' = conn c /\
      cl c' = ClientConn.set_info (restore_peer s) (ClientConn.set_didResume true (cl c))).
  { intros Q2 Hno. assert (Hhead : forall s, ticket_opens aes_ctr config accepted c (label identity) s -> ~ session_fits hs s).
    { intros s Hs. apply Hss in Hs. by apply Hno. }
    apply IH in Q2 as [(-> & -> & Hp)|(k & id' & b' & s & Hk & Hb & Hlt & Hp & Hrest)]; [| |done].
    - left. split_and!; [done..|]. replace (maxClientPSKIdentities - i)%nat with (Datatypes.S (maxClientPSKIdentities - (i + 1)))%nat by lia.
      by constructor.
    - right. exists (Datatypes.S k), id', b', s. replace (i + Datatypes.S k)%nat with (i + 1 + k)%nat by lia.
      split_and!; try apply Hrest; try done. by constructor. }
  destruct ss as [s|]; [|apply Hskip in Q'; [exact Q'|done]].
  destruct (resumable13 config hs s) eqn:Hr; cbn [negb] in Q'.
  2: { apply Hskip in Q'; [exact Q'|]. intros ? [= <-] Hf%resumable13_spec. congruence. }
  clear Hskip IH. run Q' as early c1 Q1. apply check_binder_Ret in Q1 as (-> & Hbinder & ->).
  run Q' as u1 c1 Q1. apply cmodify_Ret in Q1 as ->. run Q' as u2 c1 Q1. apply cmodify_Ret in Q1 as ->.
  apply cret_Ret in Q' as [-> ->]. right. exists 0%nat, identity, binder, s. rewrite Nat.add_0_r.
  split_and!; [done|done|done|constructor|by apply Hss|by apply resumable13_spec|done| |done|done].
  unfold selected. by replace (u16 (Z.of_nat i)) with (Z.of_nat i) by (unfold u16; rewrite Z.mod_small; unfold maxClientPSKIdentities in Hi; lia).
Qed.

(** C15: Resumption is sound, and complete. When [checkForResumption] of a TLS 1.3
    server returns without error, either nothing has changed, and tickets are
    disabled, or the client does not offer the mode with Diffie-Hellman, or none of
    its first five identities opens to a session that may be resumed; or the first
    identity that does is selected: its ticket opens to a TLS 1.3 session of at most
    seven days, with a suite of the same hash, whose client certificates (valid,
    and verified where that is asked for) are as the configuration wants them; the
    binder is the MAC of the ClientHello and of what precedes it under the session's
    secret; and the connection takes over the session's peer and secret. *)
Theorem resumption_sound hs c hs' c' :
  checkForResumption13 (B:=B) dyn_off rand aes_ctr config accepted hs c = (Ret hs', c') ->
  let m := clientHello hs in
  (hs' = hs /\ c' = c /\ (cfg_SessionTicketsDisabled base = true \/ ~ In pskModeDHE (clientHelloMsg.pskModes m) \/
    passed_over hs c (take 5 (clientHelloMsg.pskIdentities m)))) \/
  cfg_SessionTicketsDisabled base = false /\ In pskModeDHE (clientHelloMsg.pskModes m) /\
  length (clientHelloMsg.pskIdentities m) = length (clientHelloMsg.pskBinders m) /\
  exists i identity binder s, (i < 5)%nat /\
    clientHelloMsg.pskIdentities m !! i = Some identity /\ clientHelloMsg.pskBinders m !! i = Some binder /\
    passed_over hs c (take i (clientHelloMsg.pskIdentities m)) /\
    ticket_opens aes_ctr config accepted c (label identity) s /\ session_fits hs s /\ binder_ok hs s binder /\
    hs' = selected i s hs /\ conn c' = conn c /\ ClientConn.didResume (cl c') = true /\
    peerCertificates (c_info c') = SessionState.peerCertificates s /\
    verifiedChains (c_info c') = SessionState.verifiedChains s.
Proof.
  unfold checkForResumption13. destruct (cfg_SessionTicketsDisabled base).
  { intros Q'. apply cret_Ret in Q' as [-> ->]. by left; split_and!; [..|left]. }
  destruct (contains pskModeDHE _) eqn:Hm; cbn [negb].
  2: { intros Q'. apply cret_Ret in Q' as [-> ->]. left. split_and!; [done..|]. right. left. rewrite <- contains_In. congruence. }
  apply contains_In in Hm. destruct (Nat.eqb_spec (length (clientHelloMsg.pskIdentities (clientHello hs)))
    (length (clientHelloMsg.pskBinders (clientHello hs)))) as [Hl|]; cbn [negb]; intros Q'; [|refuse Q'].
  apply try_identities_Ret in Q' as [(-> & -> & Hp)|(k & id' & b & s & Hk & Hb & Hlt & Hp & Ho & Hf & Hbi & -> & Hc & Hcl)]; [| |done].
  - left. split_and!; [done..|]. by right; right.
  - right. split_and!; [done..|]. exists k, id', b, s. rewrite Hcl. by split_and!.
Qed.
End server.
