(* ===== verification/ClientMake.v ===== *)
(** * The ClientHello that a client makes

    What [makeClientHello] returns is a well-formed message that agrees with
    the configuration, and a server that parses its bytes reads that message. *)

From S2P Require Import Prelude Common HalfConn Cryptobyte Hello Messages Gcm CipherSuites Kdf Conn ConnProofs WireProofs HelloProofs WireTheorems.
From S2P Require Import Negotiation NegotiationProofs Auth KeyAgreement SessionCache Ticket RealityHandshake Post RealityFlight RealityStages Steady.
From S2P Require Import Client Client13 ClientStages.

Open Scope go_scope.

Lemma in_u16 l x : forallb (fun x => (0 <=? x) && (x <? 65536)) l = true -> In x l -> is_u16 x.
Proof.
  intros Hl Hx. rewrite forallb_forall in Hl. apply Hl, andb_true_iff in Hx as [?%Z.leb_le ?%Z.ltb_lt]. done.
Qed.

(** Names have no dot at their end after [trim_dots]. *)
Lemma trim_dots_suffix fuel name : (length name <= fuel)%nat -> clientHelloMsg.HasSuffix_dot (trim_dots fuel name) = false.
Proof.
  revert name. induction fuel as [|fuel IH]; intros name Hl.
  { by destruct name; [|cbn in Hl; lia]. }
  cbn [trim_dots]. destruct (_ && _) eqn:Hd; [apply IH; rewrite length_take; lia|].
  unfold clientHelloMsg.HasSuffix_dot. destruct (last name) as [x|] eqn:Hx; [|done].
  apply last_Some in Hx as (l & ->). rewrite length_app in Hd. cbn [length] in Hd. unfold nth_byte in Hd.
  rewrite (proj2 (Nat.ltb_lt _ _)) in Hd by lia. rewrite app_nth2 in Hd by lia.
  replace (length l + 1 - 1 - length l)%nat with 0%nat in Hd by lia. exact Hd.
Qed.

Lemma nextProtosLength_Ret protos n m : nextProtosLength protos n = Ret m ->
  m = n + foldr Z.add 0 ((fun p => 1 + Z.of_nat (length p)) <$> protos) /\ Forall (fun p : bytes => p <> [] /\ Z.of_nat (length p) <= 255) protos.
Proof.
  revert n. induction protos as [|p protos IH]; intros n Q; cbn [nextProtosLength] in Q.
  { injection Q as <-. split; [cbn; lia|constructor]. }
  destruct (_ || _) eqn:Hp; [done|]. apply orb_false_iff in Hp as [Hp%Z.eqb_neq Hl%Z.ltb_ge].
  apply IH in Q as [-> Hf]. split; [cbn; lia|]. constructor; [|done]. split; [|done]. by destruct p.
Qed.

Section make.
Context {S A C K : Type} `{Stream S} `{RecordAEAD A} `{CbcMode C} `{MacFun K}.
Context `{Hashes} `{CryptoStringLaws} {B : Type} `{BuilderLaws B} {X P T : Type} `{X509 X} `{CertificateChains X P}.
Context `{EcdhCurves} `{Decapsulation} `{Verifiers P} `{!ClientSessionCache T (SessionState.t X)}.
Abbreviation cln := (client S A C K X T).
Implicit Types c : cln.

Context (dyn_off : bool) (rand : nat -> nat -> option bytes).
Context (generated : nat -> ecdh_Curve -> outcome conn_error ecdhPrivateKey).
Context (ParseIP : bytes -> bool) (RemoteAddr : option bytes) (fips hw : bool).
Context (config : clientConfig X P CertPool).

(** The documentation of crypto/ecdh: public keys are points, which are not empty. *)
Hypothesis PublicBytes_nonempty : forall k, PublicBytes (PublicOf k) <> [].
(** [io.ReadFull] *)
Hypothesis rand_full : forall k n b, rand k n = Some b -> length b = n.

Lemma read_full_Ret n e c b c' : (read_full rand n e : CM S A C K X T bytes) c = (Ret b, c') -> length b = n.
Proof.
  unfold read_full. intros Q. run Q as r c1 Q1. apply on_conn_Ret in Q1 as [Q1 _].
  destruct r as [b'|]; [|done]. apply cret_Ret in Q as [-> ->]. injection Q1 as Q1 _. by eapply rand_full.
Qed.

(** A key share is the public part of the private key. *)
Definition share_of (keys : keySharePrivateKeys) (ks : keyShare) : Prop :=
  let public := PublicBytes (PublicOf (ecdhe keys)) in
  if group ks =? X25519MLKEM768
  then exists dk, mlkem keys = Some dk /\ ks_data ks = EncapsulationKey_Bytes dk ++ public
  else ks_data ks = public.

Lemma make_keyShares_Ret curves c shares keys c' :
  (make_keyShares rand generated curves : CM S A C K X T _) c = (Ret (shares, keys), c') ->
  head curves = Some (ksp_curveID keys) /\ group <$> head shares = Some (ksp_curveID keys) /\
  Forall (fun ks => In (group ks) curves /\ share_of keys ks) shares.
Proof.
  unfold make_keyShares. destruct curves as [|curve curves]; [done|]. destruct (Z.eqb_spec curve X25519MLKEM768) as [->|Hn]; intros Q.
  - run Q as key c1 Q1. run Q as seed c2 Q2. run Q as dk c3 Q3. apply cret_Ret in Q as [[= -> ->] ->].
    split_and!; [done..|]. constructor.
    { split; [by left|]. by exists dk. }
    destruct (contains X25519 _) eqn:Hc; [|constructor]. constructor; [|constructor]. split; [by apply contains_In|done].
  - destruct (curveForCurveID curve); [|done]. run Q as key c1 Q1. apply cret_Ret in Q as [[= -> ->] ->].
    split_and!; [done..|]. constructor; [|constructor]. split; [by left|]. unfold share_of. cbn.
    by rewrite (proj2 (Z.eqb_neq _ _) Hn).
Qed.

Lemma share_nonempty keys ks : share_of keys ks -> ks_data ks <> [].
Proof.
  unfold share_of. destruct (_ =? _); [intros (dk & _ & ->)|intros ->]; [|apply PublicBytes_nonempty].
  intros E. apply app_eq_nil in E as [_ E]. by apply PublicBytes_nonempty in E.
Qed.

Abbreviation cfg := (neg config).
Abbreviation max := (max_of fips cfg roleClient).

(** The message agrees with the configuration. *)
Record hello_made (hello : clientHelloMsg.t) (keys : option keySharePrivateKeys) : Prop := {
  hm_ok : clientHello_ok hello;
  hm_random : length (clientHelloMsg.random hello) = 32%nat /\ length (clientHelloMsg.sessionId hello) = 32%nat;
  hm_versions : clientHelloMsg.supportedVersions hello = versions_of fips cfg roleClient /\
    versions_of fips cfg roleClient <> [] /\ clientHelloMsg.vers hello = Z.min VersionTLS12 max;
  hm_suites : Forall (fun i => allowed_suite fips cfg i \/
      max = VersionTLS13 /\ In i (if fips then allowedCipherSuitesTLS13FIPS
        else if hw then defaultCipherSuitesTLS13 else defaultCipherSuitesTLS13NoAES)) (clientHelloMsg.cipherSuites hello);
  hm_curves : clientHelloMsg.supportedCurves hello = curvePreferences fips (Some cfg) max;
  hm_alpn : clientHelloMsg.alpnProtocols hello = NextProtos config /\
    Forall (fun p : bytes => p <> [] /\ Z.of_nat (length p) <= 255) (NextProtos config) /\
    foldr Z.add 0 ((fun p => 1 + Z.of_nat (length p)) <$> NextProtos config) <= 65535;
  hm_shares : match keys with
    | None => clientHelloMsg.keyShares hello = [] /\ max < VersionTLS13
    | Some k => max = VersionTLS13 /\ head (clientHelloMsg.supportedCurves hello) = Some (ksp_curveID k) /\
        group <$> head (clientHelloMsg.keyShares hello) = Some (ksp_curveID k) /\
        Forall (fun ks => In (group ks) (clientHelloMsg.supportedCurves hello) /\ share_of k ks) (clientHelloMsg.keyShares hello)
    end
}.

Lemma check_config_Ret versions maxVersion : check_config fips config = Ret (versions, maxVersion) ->
  versions = versions_of fips cfg roleClient /\ maxVersion = max /\ versions <> [] /\
  Forall (fun p : bytes => p <> [] /\ Z.of_nat (length p) <= 255) (NextProtos config) /\
  foldr Z.add 0 ((fun p => 1 + Z.of_nat (length p)) <$> NextProtos config) <= 65535.
Proof.
  unfold check_config. destruct (_ && _); [done|]. destruct (nextProtosLength _ _) as [n| |] eqn:Hn; [|done..]. cbn [obind].
  destruct (Z.ltb_spec 0xffff n); [done|]. rewrite supportedVersions_Some, maxSupportedVersion_Some. cbn [obind].
  apply nextProtosLength_Ret in Hn as [-> Hf]. destruct (Nat.eqb_spec (length (versions_of fips cfg roleClient)) 0) as [|Hl]; [done|].
  intros [= <- <-]. split_and!; [done|done| |done|lia]. intros E. by rewrite E in Hl.
Qed.

Lemma hello_cipherSuites_Ret v l : hello_cipherSuites fips hw config v = Ret l -> Forall (allowed_suite fips cfg) l.
Proof.
  assert (Ha : forall i, In i (config_cipherSuites fips cfg hw) -> allowed_suite fips cfg i) by apply config_cipherSuites_allowed.
  unfold hello_cipherSuites. destruct (v <? VersionTLS12).
  - destruct (existsb _ _); [done|]. intros [= <-]. apply Forall_forall. intros i [Hi _]%list_elem_of_In%DeleteFunc_In. auto.
  - intros [= <-]. apply Forall_forall. intros i Hi%list_elem_of_In. auto.
Qed.

Lemma hello_cipherSuites13_Forall versions l : Forall (allowed_suite fips cfg) l ->
  Forall (fun i => allowed_suite fips cfg i \/ In i (if fips then allowedCipherSuitesTLS13FIPS
        else if hw then defaultCipherSuitesTLS13 else defaultCipherSuitesTLS13NoAES)) (hello_cipherSuites13 fips hw versions l).
Proof.
  intros Hl. unfold hello_cipherSuites13. apply Forall_app. split.
  - destruct (_ =? 1)%nat; [constructor|]. eapply Forall_impl; [exact Hl|]. by left.
  - apply Forall_forall. intros i Hi%list_elem_of_In. by right.
Qed.

Lemma allowed_suite_u16 i : allowed_suite fips cfg i -> is_u16 i.
Proof. by intros [[Hi|Hi] _]; eapply in_u16 in Hi. Qed.
Lemma suite13_u16 i : In i (if fips then allowedCipherSuitesTLS13FIPS
  else if hw then defaultCipherSuitesTLS13 else defaultCipherSuitesTLS13NoAES) -> is_u16 i.
Proof. by destruct fips, hw; apply in_u16. Qed.

Lemma curves_u16 v : Forall (fun x => is_u16 x) (curvePreferences fips (Some cfg) v).
Proof.
  apply Forall_forall. intros x Hx%list_elem_of_In. apply (in_u16 defaultCurvePreferences); [done|].
  unfold curvePreferences in Hx.
  repeat (match type of Hx with
          | In _ (if ?b then _ else _) => destruct b
          | In _ (DeleteFunc _ _) => apply DeleteFunc_In in Hx as [Hx _]
          end; cbn zeta in Hx); exact Hx.
Qed.

Lemma versions_u16 : Forall (fun v => is_u16 v) (versions_of fips cfg roleClient).
Proof.
  apply Forall_forall. intros v Hv%list_elem_of_In%versions_of_range.
  by destruct Hv as [->|[->|[->| ->]]].
Qed.

Lemma algorithms_u16 : Forall (fun v => is_u16 v) (supportedSignatureAlgorithms fips).
Proof. apply Forall_forall. intros x Hx%list_elem_of_In. unfold supportedSignatureAlgorithms in Hx. by destruct fips; eapply in_u16 in Hx. Qed.

Lemma max_range : versions_of fips cfg roleClient <> [] -> In max [VersionTLS13; VersionTLS12; VersionTLS11; VersionTLS10].
Proof.
  unfold max_of. pose proof (versions_of_range fips cfg roleClient) as Hr. destruct (versions_of _ _ _) as [|v l]; [done|].
  intros _. destruct (Hr v (or_introl eq_refl)) as [->|[->|[->| ->]]]; cbn; auto.
Qed.

Lemma hostname_no_dot name : clientHelloMsg.HasSuffix_dot (hostnameInSNI ParseIP name) = false.
Proof. unfold hostnameInSNI. cbn zeta. destruct (ParseIP _); [done|]. by apply trim_dots_suffix. Qed.

Lemma client_hello_ok random sid renegotiation suites shares : versions_of fips cfg roleClient <> [] ->
  Forall (fun v => is_u16 v) suites -> Forall (fun p : bytes => p <> [] /\ Z.of_nat (length p) <= 255) (NextProtos config) ->
  Forall (fun ks => is_u16 (group ks) /\ ks_data ks <> []) shares ->
  clientHello_ok (clientHelloMsg.set_keyShares shares (client_hello ParseIP fips config (versions_of fips cfg roleClient) max
    random sid renegotiation suites (curvePreferences fips (Some cfg) max))).
Proof.
  intros Hv Hs Hp Hk. constructor; cbn [client_hello clientHelloMsg.set_keyShares]; try done.
  - cbn. apply max_range in Hv. destruct (_ <? _); [done|]. by eapply in_u16 in Hv.
  - cbn. apply hostname_no_dot.
  - cbn. apply curves_u16.
  - cbn. destruct (_ <=? _); [apply algorithms_u16|constructor].
  - cbn. eapply Forall_impl; [exact Hp|]. by intros p [? _].
  - cbn. apply versions_u16.
Qed.

(** C17: The ClientHello that a client makes is well formed and agrees with its
    configuration: the versions are those that it supports, the highest one first,
    the cipher suites and curves are allowed ones, the random value and the
    session id have 32 bytes, the protocols fit the encoding; and there are key
    shares exactly when TLS 1.3 is offered, the first of the preferred curve, each
    of them of an offered curve and the public part of the private keys that are
    kept.  What a server parses of its bytes is that message. *)
Theorem clientHello_made c hello keys c' :
  makeClientHello rand generated ParseIP fips hw config (c : cln) = (Ret (hello, keys), c') ->
  hello_made hello keys /\
  forall data v, marshal_message B (ClientHello hello) = Ret data ->
    unmarshal_message v data = Some (ClientHello (received data hello)).
Proof.
  intros Q. enough (Hm : hello_made hello keys).
  { split; [done|]. intros data v Hd. apply (unmarshal_message_marshal v (ClientHello hello)); [apply (hm_ok _ _ Hm)|exact Hd]. }
  unfold makeClientHello in Q. run Q as vm c1 Q1. destruct vm as [versions maxVersion].
  apply clift_Ret in Q1 as [(-> & -> & Hv & Hp & Hn)%check_config_Ret ->].
  run Q as n c1 Q1. run Q as f c2 Q2. run Q as suites c3 Q3. apply clift_Ret in Q3 as [Hs%hello_cipherSuites_Ret ->].
  run Q as random c3 Q3. apply read_full_Ret in Q3 as Hr. run Q as sid c4 Q4. apply read_full_Ret in Q4 as Hsid.
  pose proof (max_range Hv) as Hmax. set (renegotiation := if 0 <? n then f else []) in Q. clearbody renegotiation.
  assert (Hcl : clientHelloMsg.vers (client_hello ParseIP fips config (versions_of fips cfg roleClient) max [] [] [] [] []) = Z.min VersionTLS12 max).
  { cbn. destruct Hmax as [<-|[<-|[<-|[<-|[]]]]]; done. }
  assert (Hhd : nth_len (versions_of fips cfg roleClient) 0 = max) by (unfold max_of; by destruct (versions_of _ _ _)).
  rewrite Hhd in Q. destruct (Z.eqb_spec max VersionTLS13) as [H13|H13].
  - run Q as sk c5 Q5. destruct sk as [shares k]. apply cret_Ret in Q as [[= -> ->] ->].
    apply make_keyShares_Ret in Q5 as (Hhc & Hhs & Hsh).
    assert (Hs13 := hello_cipherSuites13_Forall (versions_of fips cfg roleClient) suites Hs).
    constructor; try done.
    + apply client_hello_ok; [done| |done|].
      * eapply Forall_impl; [exact Hs13|]. intros i [Hi|Hi]; [by apply allowed_suite_u16|by apply suite13_u16].
      * eapply Forall_impl; [exact Hsh|]. intros ks [Hg Hk]. split; [|by eapply share_nonempty].
        pose proof (curves_u16 max) as Hc. rewrite Forall_forall in Hc. by apply Hc, list_elem_of_In.
    + eapply Forall_impl; [exact Hs13|]. intros i [Hi|Hi]; [by left|by right].
  - apply cret_Ret in Q as [[= -> ->] ->]. constructor; try done.
    + apply (client_hello_ok _ _ _ _ []); [done| |done|constructor].
      eapply Forall_impl; [exact Hs|]. intros i Hi. by apply allowed_suite_u16.
    + eapply Forall_impl; [exact Hs|]. intros i Hi. by left.
    + split; [done|]. destruct Hmax as [E|[<-|[<-|[<-|[]]]]]; done.
Qed.
End make.
