(* ===== verification/Server13Hello.v ===== *)
(** * The answer of a TLS 1.3 server to a ClientHello

    What [processClientHello] has chosen when it returns without error, with and
    without a HelloRetryRequest, and that a key share of a client and the
    server's share for it agree on a secret. *)

From S2P Require Import Prelude Common HalfConn Cryptobyte Hello Messages Gcm CipherSuites Kdf Conn ConnProofs.
From S2P Require Import Negotiation NegotiationProofs Auth KeyAgreement Ticket RealityHandshake Post RealityFlight RealityStages Steady.
From S2P Require Import Client Client12 Client13 ClientHandshake ClientStages ClientAuth ClientMake Hpke Ech Server Server13 ServerStages.

Open Scope go_scope.

(** ** The second ClientHello *)

(** What a second ClientHello may not change. *)
Definition unchangeable (m : clientHelloMsg.t) :=
  (clientHelloMsg.supportedVersions m, clientHelloMsg.cipherSuites m, clientHelloMsg.supportedCurves m,
   clientHelloMsg.supportedSignatureAlgorithms m, clientHelloMsg.supportedSignatureAlgorithmsCert m, clientHelloMsg.alpnProtocols m,
   (clientHelloMsg.vers m, clientHelloMsg.random m, clientHelloMsg.sessionId m, clientHelloMsg.compressionMethods m,
    clientHelloMsg.serverName m, clientHelloMsg.ocspStapling m, clientHelloMsg.supportedPoints m),
   (clientHelloMsg.ticketSupported m, clientHelloMsg.sessionTicket m, clientHelloMsg.secureRenegotiationSupported m,
    clientHelloMsg.secureRenegotiation m, clientHelloMsg.scts m, clientHelloMsg.cookie m, clientHelloMsg.pskModes m)).

Lemma any_differs_spec {T} (eqb : T -> T -> bool) l1 l2 : (forall x y, eqb x y = true <-> x = y) ->
  negb (length l1 =? length l2)%nat = false /\ any_differs eqb l1 l2 = false <-> l1 = l2.
Proof.
  intros He. rewrite negb_false_iff, Nat.eqb_eq. split.
  - intros [Hl Hd]. revert l2 Hl Hd. induction l1 as [|x l1 IH]; intros [|y l2] Hl Hd; [done..|].
    cbn [any_differs] in Hd. apply orb_false_iff in Hd as [Hx%negb_false_iff%He Hd]. injection Hl as Hl.
    by rewrite Hx, (IH l2 Hl Hd).
  - intros <-. split; [done|]. induction l1 as [|x l1 IH]; [done|]. cbn [any_differs].
    by rewrite IH, (proj2 (He x x) eq_refl).
Qed.

Lemma bytes_Equal_spec a b : bytes_Equal a b = true <-> a = b.
Proof. apply bool_decide_eq_true. Qed.

Lemma illegalClientHelloChange_spec m m1 : illegalClientHelloChange m m1 = false <-> unchangeable m = unchangeable m1.
Proof.
  assert (E : illegalClientHelloChange m m1 = lengths_differ m m1 || lists_differ m m1 || fields_differ m m1).
  { unfold illegalClientHelloChange. by destruct (lengths_differ m m1), (lists_differ m m1). }
  rewrite E. unfold lengths_differ, lists_differ, fields_differ, unchangeable.
  rewrite !orb_false_iff, !pair_equal_spec. rewrite !(negb_false_iff (bytes_Equal _ _)), !bytes_Equal_spec.
  rewrite !(negb_false_iff (eqb _ _)), !eqb_true_iff, (negb_false_iff (_ =? _)), Z.eqb_eq.
  rewrite <- !(any_differs_spec Z.eqb) by apply Z.eqb_eq. rewrite <- (any_differs_spec bytes_Equal) by apply bytes_Equal_spec.
  tauto.
Qed.

(** ** The suite and the group *)

Lemma mutual13_None ids i : cipherSuiteTLS13ByID i <> None -> mutualCipherSuiteTLS13 ids i = None -> ~ In i ids.
Proof.
  intros Hk. induction ids as [|j ids IH]; intros Hm; [tauto|]. cbn [mutualCipherSuiteTLS13] in Hm.
  destruct (Z.eqb_spec j i) as [->|]; [done|]. intros [|Hin]; [done|]. by apply IH.
Qed.
Lemma mutual13_In ids i s : mutualCipherSuiteTLS13 ids i = Some s -> In i ids.
Proof.
  induction ids as [|j ids IH]; [done|]. cbn [mutualCipherSuiteTLS13]. destruct (Z.eqb_spec j i); [by left|right; auto].
Qed.

(** [s] is the first suite of [prefs] that the client offers. *)
Definition first_offered (ids prefs : list Z) (s : cipherSuiteTLS13) : Prop :=
  cipherSuiteTLS13ByID (id13 s) = Some s /\ In (id13 s) ids /\
  exists pre post, prefs = pre ++ id13 s :: post /\ forall i, In i pre -> ~ In i ids.

Lemma suite_preference_known fips hw ids i : In i (suite_preference fips hw ids) -> cipherSuiteTLS13ByID i <> None.
Proof.
  unfold suite_preference. intros Hi E. revert Hi. destruct fips; [|destruct (_ || _)].
  all: intros Hi; repeat (destruct Hi as [<-|Hi]; [discriminate E|]); done.
Qed.

Lemma first_mutual_Some ids prefs s : (forall i, In i prefs -> cipherSuiteTLS13ByID i <> None) ->
  first_mutual ids prefs = Some s -> first_offered ids prefs s.
Proof.
  intros Hk. induction prefs as [|i prefs IH]; [done|]. cbn [first_mutual].
  destruct (mutualCipherSuiteTLS13 ids i) as [s0|] eqn:Hm.
  - intros [= ->]. pose proof (mutual13_In _ _ _ Hm). apply mutual13_id in Hm as [Hs <-]. split_and!; [done..|]. by exists [], prefs.
  - intros (Hs & Hin & pre & post & -> & Hpre)%IH; [|intros j Hj; apply Hk; by right].
    split_and!; [done..|]. exists (i :: pre), post. split; [done|]. intros j [<-|Hj]; [|by apply Hpre].
    apply mutual13_None; [|done]. apply Hk. by left.
Qed.

Lemma filter_In_iff {T} (f : T -> bool) l x : In x (List.filter f l) <-> In x l /\ f x = true.
Proof. apply filter_In. Qed.

Lemma filter_comm {T} (f g : T -> bool) l : List.filter f (List.filter g l) = List.filter g (List.filter f l).
Proof.
  induction l as [|x l IH]; [done|]. cbn [List.filter]. destruct (f x) eqn:Hf, (g x) eqn:Hg; cbn [List.filter]; rewrite ?Hf, ?Hg; by rewrite ?IH.
Qed.

Lemma stable_first_filter p f l : List.filter p (stable_first f l) = stable_first f (List.filter p l).
Proof. unfold stable_first. by rewrite List.filter_app, (filter_comm p f), (filter_comm p (fun x => negb (f x))). Qed.

Lemma stable_first_In f l x : In x (stable_first f l) <-> In x l.
Proof. unfold stable_first. rewrite in_app_iff, !filter_In_iff, negb_true_iff. destruct (f x); intuition congruence. Qed.

Lemma stable_first_head f l x r : stable_first f l = x :: r -> In x l /\ (forall y, In y l -> f y = true -> f x = true).
Proof.
  intros E. split; [apply (stable_first_In f); rewrite E; by left|]. intros y Hy Hf.
  assert (In y (List.filter f l)) by by apply filter_In_iff. unfold stable_first in E.
  destruct (List.filter f l) as [|z l'] eqn:El; [done|]. injection E as -> _.
  assert (Hx : In x (List.filter f l)) by (rewrite El; by left). by apply filter_In_iff in Hx as [_ Hx].
Qed.

(** The head of a list that has been sorted by [f], and by [h] within. *)
Lemma stable_firsts_head f h l x r : stable_first f (stable_first h l) = x :: r ->
  In x l /\ forall y, In y l -> (f y = true -> f x = true) /\ (f y = f x -> h y = true -> h x = true).
Proof.
  intros E. pose proof (stable_first_head _ _ _ _ E) as [Hx Hf]. apply stable_first_In in Hx.
  split; [done|]. intros y Hy. split; [intros; apply (Hf y); [by apply stable_first_In|done]|].
  intros Hyx Hhy.
  assert (Hh : exists r', stable_first h (List.filter (fun z => eqb (f z) (f x)) l) = x :: r').
  { rewrite <- stable_first_filter. unfold stable_first in E at 1. destruct (f x) eqn:Hfx.
    - destruct (List.filter f (stable_first h l)) as [|z l'] eqn:El.
      { assert (Hx' : In x (List.filter f (stable_first h l))) by (apply filter_In_iff; by rewrite stable_first_In).
        by rewrite El in Hx'. }
      injection E as -> _. exists l'. rewrite <- El. apply List.filter_ext. intros z. by destruct (f z).
    - destruct (List.filter f (stable_first h l)) as [|z l'] eqn:El.
      + exists r. rewrite <- E. apply List.filter_ext. intros z. by destruct (f z).
      + injection E as -> _. assert (Hx' : In x (List.filter f (stable_first h l))) by (rewrite El; by left).
        apply filter_In_iff in Hx' as [_ Hx']. congruence. }
  destruct Hh as [r' Hh]. apply stable_first_head in Hh as [_ Hh]. apply (Hh y); [|done].
  apply filter_In_iff. split; [done|]. rewrite Hyx. by destruct (f x).
Qed.

Section server.
Context {S A C K : Type} `{Stream S} `{RecordAEAD A} `{CbcMode C} `{MacFun K}.
Context `{Hashes} `{CryptoString} {B : Type} `{Builder B} {X P T : Type} `{X509 X} `{CertificateChains X P}.
Context `{EcdhCurves} `{Decapsulation} `{Verifiers P} `{!ServerX509 X P} `{KeyExchange}.
Context `{hpke.X25519} {Block Q : Type} `{hpke.cipherAEAD Q}.
Abbreviation cln := (client S A C K X T).
Abbreviation serverConfig := (ServerConfig.t X P CertPool).
Abbreviation ech_context := (echServerContext (T:=Q)).
Abbreviation hstate := (serverState13.t ech_context).
Import serverState13.
Implicit Types c : cln.

Context (dyn_off : bool) (rand : nat -> nat -> option bytes).
Context (generated : nat -> ecdh_Curve -> outcome conn_error ecdhPrivateKey).
Context (fips hasAESGCMHardwareSupport : bool).
Context (config : serverConfig).

Abbreviation c_vers c := (vers (conn c)).
Abbreviation c_info c := (ClientConn.info (cl c)).
Abbreviation base := (ServerConfig.base config).
Abbreviation cfg := (server_neg config).

(** ** The choice of a group *)

(** Both ends can use the group [g]. *)
Definition common_group (v : Z) (m : clientHelloMsg.t) (g : Z) : Prop :=
  In g (curvePreferences fips (Some cfg) v) /\ In g (clientHelloMsg.supportedCurves m).

(** [g] is post-quantum if a common group is, and the client has sent a share
    of it if it has sent one of a common group of that kind. *)
Record best_group (v : Z) (m : clientHelloMsg.t) (g : Z) : Prop := {
  bg_common : common_group v m g;
  bg_pq : forall g', common_group v m g' -> isPQKeyExchange g' = true -> isPQKeyExchange g = true;
  bg_share : forall g', common_group v m g' -> isPQKeyExchange g' = isPQKeyExchange g ->
    In g' (group <$> clientHelloMsg.keyShares m) -> In g (group <$> clientHelloMsg.keyShares m)
}.

Lemma has_key_share_In shares g : has_key_share shares g = true <-> In g (group <$> shares).
Proof.
  unfold has_key_share. rewrite existsb_exists. setoid_rewrite Z.eqb_eq. split.
  - intros (ks & Hin & <-). by apply in_map.
  - intros (ks & <- & Hin)%in_map_iff. by exists ks.
Qed.

Lemma preferred_groups_head v m g rest : preferred_groups fips cfg v m = g :: rest -> best_group v m g.
Proof.
  unfold preferred_groups. intros E. apply stable_firsts_head in E as [Hg Hbest].
  assert (Hc : forall x, In x (DeleteFunc (curvePreferences fips (Some cfg) v)
    (fun y => negb (contains y (clientHelloMsg.supportedCurves m)))) <-> common_group v m x).
  { intros x. unfold common_group. by rewrite DeleteFunc_In, negb_false_iff, contains_In. }
  constructor; [by apply Hc| |]; intros g' Hg'%Hc; apply Hbest in Hg' as [Hpq Hsh]; [done|].
  rewrite <- !has_key_share_In. done.
Qed.

Lemma find_share_Some shares g ks : find_share shares g = Some ks -> In ks shares /\ group ks = g.
Proof. by intros [? ?%Z.eqb_eq]%find_some. Qed.
Lemma find_share_None shares g : find_share shares g = None -> ~ In g (group <$> shares).
Proof.
  intros Hn (ks & Hk & Hin)%in_map_iff. pose proof (find_none _ _ Hn ks Hin) as E. cbn in E. by apply Z.eqb_neq in E.
Qed.

(** ** HelloRetryRequest *)

Lemma send13_Ret msg (hs hs' : hstate) c c' : send13 (B:=B) dyn_off rand msg hs c = (Ret hs', c') ->
  exists data, marshal_message B msg = Ret data /\ hs' = set_transcript (d_Write data (transcript hs)) hs /\ undisturbed c c'.
Proof.
  intros Q1. unfold send13 in Q1. run Q1 as d c1 Q2. apply cret_Ret in Q1 as [-> ->].
  apply on_conn_steady in Q2 as [Q2 Hu]; [|apply steady_send].
  apply bind_Ret in Q2 as ([n err] & k & Hw & Q2). apply bind_Ret in Q2 as (u & k1 & Hr & Q2).
  destruct (marshal_message B msg) as [data|e|w] eqn:Hm.
  - apply pair_equal_spec in Q2 as [Q2 _]. apply Ret_inj in Q2 as <-. by exists data.
  - cbn [writeHandshakeRecord] in Hw. by injection Hw as <- <- <-.
  - done.
Qed.

Lemma dummy_ccs_Ret (hs hs' : hstate) c c' : dummy_ccs dyn_off rand hs c = (Ret hs', c') ->
  (hs' = hs \/ hs' = set_sentDummyCCS hs) /\ undisturbed c c'.
Proof.
  unfold dummy_ccs. destruct (sentDummyCCS hs); intros Q1.
  - apply cret_Ret in Q1 as [-> ->]. by split; [left|].
  - run Q1 as u c1 Q2. apply cret_Ret in Q1 as [-> ->]. apply on_conn_steady in Q2 as [_ Hu]; [|settle]. by split; [right|].
Qed.

(** The second ClientHello [m] for the group [g] after [first], with one share. *)
Record retried_hello (g : Z) (m first : clientHelloMsg.t) (ks : keyShare) : Prop := {
  rh_same : unchangeable m = unchangeable first;
  rh_share : clientHelloMsg.keyShares m = [ks] /\ group ks = g;
  rh_early : clientHelloMsg.earlyData m = false
}.

Lemma check_second_Ret g m first c ks c' : check_second dyn_off rand g m first c = (Ret ks, c') ->
  c' = c /\ retried_hello g m first ks.
Proof.
  unfold check_second. destruct (clientHelloMsg.keyShares m) as [|k [|]] eqn:Hk; [intros Q1; refuse Q1| |intros Q1; refuse Q1].
  destruct (Z.eqb_spec (group k) g) as [Hg|]; [|intros Q1; refuse Q1]. cbn [negb].
  destruct (clientHelloMsg.earlyData m) eqn:He; [intros Q1; refuse Q1|].
  destruct (illegalClientHelloChange m first) eqn:Hi; [intros Q1; refuse Q1|].
  intros Q1. apply cret_Ret in Q1 as [-> ->]. apply illegalClientHelloChange_spec in Hi. by split.
Qed.

Lemma second_ech_undisturbed ctx m c r c' : second_ech (B:=B) dyn_off rand ctx m c = (Ret r, c') -> c' = c.
Proof.
  unfold second_ech. destruct (_ =? 0)%nat; [intros Q1; refuse Q1|]. intros Q1. run Q1 as x c1 Q2.
  apply or_cfail_Ret in Q2 as [_ ->]. destruct x as [[[[t cs] id] encap] payload].
  destruct (_ || _); [refuse Q1|]. destruct (negb _); [by apply cret_Ret in Q1 as [_ ->]|].
  destruct (_ || _); [refuse Q1|]. destruct (esc_hpkeContext ctx) as [h|]; [|done].
  destruct (decryptECHPayload _ _ _) as [d h']. run Q1 as inner c2 Q2. apply or_cfail_Ret in Q2 as [_ ->].
  run Q1 as hello c2 Q2. apply or_cfail_Ret in Q2 as [_ ->]. by apply cret_Ret in Q1 as [_ ->].
Qed.

Lemma doHelloRetryRequest_Ret g (hs hs' : hstate) c ks c' :
  doHelloRetryRequest (B:=B) dyn_off rand g hs c = (Ret (ks, hs'), c') ->
  exists ch ech hrr,
    transcriptMsg B (ClientHello (clientHello hs)) = Ret ch /\
    marshal_message B (ServerHello (retry_request g ech (hello hs))) = Ret hrr /\
    transcript hs' = d_Write hrr (d_Write (message_hash (d_Sum (d_Write ch (transcript hs)))) (new_digest (d_fn (transcript hs)))) /\
    retried_hello g (clientHello hs') (clientHello hs) ks /\
    (echContext hs = None -> exists data, unmarshal_message (c_vers c) data = Some (ClientHello (clientHello hs'))) /\
    (hello hs', usingPSK hs', suite hs') = (hello hs, usingPSK hs, suite hs) /\
    held (conn c') = held (conn c) /\ cl c' = ClientConn.set_didHRR true (cl c).
Proof.
  unfold doHelloRetryRequest, transcript13. intros Q1. run Q1 as hs1 c1 Q2. run Q2 as ch c2 Q3. apply clift_Ret in Q3 as [Hch ->].
  apply cret_Ret in Q2 as [-> ->]. run Q1 as ech c1 Q2. apply clift_Ret in Q2 as [_ ->].
  run Q1 as hs2 c2 Q2. apply send13_Ret in Q2 as (hrr & Hhrr & -> & [Hh2 Hl2]).
  run Q1 as hs3 c3 Q3. apply dummy_ccs_Ret in Q3 as [Hccs [Hh3 Hl3]].
  run Q1 as r c4 Q4. destruct r as [msg data]. apply read_Ret in Q4 as [Hm [Hh4 Hl4]].
  destruct msg as [|m| | | | | | | | | | | | | | | | ]; try refuse Q1.
  run Q1 as r c5 Q5. destruct r as [m2 ctx].
  assert (Hm2 : c5 = c4 /\ (echContext hs = None -> m2 = m)).
  { assert (Hctx : echContext hs3 = echContext hs) by (by destruct Hccs as [->| ->]). rewrite <- Hctx.
    destruct (echContext hs3) as [x|].
    - run Q5 as r c6 Q6. destruct r as [m3 x3]. apply second_ech_undisturbed in Q6 as ->.
      apply cret_Ret in Q5 as [_ ->]. by split.
    - apply cret_Ret in Q5 as [[= -> _] ->]. by split. }
  destruct Hm2 as [-> Hm2]. run Q1 as ks' c6 Q6. apply check_second_Ret in Q6 as [-> Hret].
  run Q1 as u c7 Q7. apply cmodify_Ret in Q7 as ->. apply cret_Ret in Q1 as [[= -> ->] ->].
  exists ch, ech, hrr. split_and!; [done|done|by destruct Hccs as [->| ->]|by destruct Hccs as [->| ->]| | | |].
  - intros Hn. exists data. assert (Hv : vers (conn c3) = vers (conn c)) by (unfold held in *; congruence).
    rewrite <- Hv. cbn. by rewrite (Hm2 Hn).
  - by destruct Hccs as [->| ->].
  - cbn. congruence.
  - cbn. by rewrite Hl4, Hl3, Hl2.
Qed.

(** ** The key exchange *)

(** The server's share [own] for the client's share [ks], and the secret. *)
Definition exchanged (ks own : keyShare) (shared : bytes) : Prop :=
  let hybrid := group ks =? X25519MLKEM768 in
  group own = group ks /\ exists n curve key peer x,
    curveForCurveID (if hybrid then X25519 else group ks) = Some curve /\ generated n curve = Ret key /\
    NewPublicKeyOn (CurveOf key) (if hybrid then drop EncapsulationKeySize768 (ks_data ks) else ks_data ks) = Ret peer /\
    ECDHWith key peer = Ret x /\
    if hybrid then length (ks_data ks) = (EncapsulationKeySize768 + x25519PublicKeySize)%nat /\
      exists k ss ct, NewEncapsulationKey768 (take EncapsulationKeySize768 (ks_data ks)) = Some k /\ Encapsulate k = (ss, ct) /\
        shared = ss ++ x /\ ks_data own = ct ++ PublicBytes (PublicOf key)
    else shared = x /\ ks_data own = PublicBytes (PublicOf key).

Lemma next_rand_Ret c n c' : (next_rand : CM S A C K X T nat) c = (Ret n, c') -> undisturbed c c' /\ n = rand_calls (conn c).
Proof.
  unfold next_rand. intros Q1. run Q1 as k c1 Q2. apply cget_conn in Q2 as [-> ->]. run Q1 as u c1 Q2.
  apply on_conn_steady in Q2 as [_ Hu]; [|settle]. by apply cret_Ret in Q1 as [-> ->].
Qed.

Lemma server_exchange_Ret ks c own shared c' :
  server_exchange dyn_off rand generated (group ks) ks c = (Ret (shared, own), c') -> exchanged ks own shared /\ undisturbed c c'.
Proof.
  unfold server_exchange, exchanged. destruct (_ && _) eqn:Hl; [intros Q1; refuse Q1|].
  destruct (curveForCurveID _) as [curve|]; [|intros Q1; refuse Q1]. intros Q1.
  run Q1 as n c1 Q2. apply next_rand_Ret in Q2 as [Hu ->]. run Q1 as key c2 Q2. apply or_calert_Ret in Q2 as [Hkey ->].
  run Q1 as peer c2 Q2. apply or_cfail_Ret in Q2 as [Hpeer ->]. run Q1 as x c2 Q2. apply or_cfail_Ret in Q2 as [Hx ->].
  destruct (group ks =? X25519MLKEM768).
  - cbn [andb] in Hl. apply negb_false_iff, Nat.eqb_eq in Hl.
    destruct (NewEncapsulationKey768 _) as [k|] eqn:Hk; [|refuse Q1]. destruct (Encapsulate k) as [ss ct] eqn:He.
    apply cret_Ret in Q1 as [[= -> ->] ->]. split; [|done]. split; [done|]. exists (rand_calls (conn c)), curve, key, peer, x.
    split_and!; [done..|]. by exists k, ss, ct.
  - apply cret_Ret in Q1 as [[= -> ->] ->]. split; [|done]. split; [done|]. by exists (rand_calls (conn c)), curve, key, peer, x.
Qed.

(** ** The whole answer *)

(** What a ClientHello must be to be answered. *)
Record hello_acceptable (v : Z) (m : clientHelloMsg.t) : Prop := {
  ha_versions : clientHelloMsg.supportedVersions m <> [];
  ha_fallback : In TLS_FALLBACK_SCSV (clientHelloMsg.cipherSuites m) -> max_of fips cfg roleServer <= v;
  ha_compression : clientHelloMsg.compressionMethods m = [compressionNone];
  ha_renegotiation : clientHelloMsg.secureRenegotiation m = [];
  ha_early : clientHelloMsg.earlyData m = false
}.

Lemma check_hello13_Ret v m c random c' : check_hello13 dyn_off rand fips config v m c = (Ret random, c') ->
  hello_acceptable v m /\ (exists k, rand k 32 = Some random) /\ undisturbed c c'.
Proof.
  unfold check_hello13. destruct (clientHelloMsg.supportedVersions m) eqn:Hv; [intros Q1; refuse Q1|].
  cbn [length Nat.eqb]. intros Q1. run Q1 as mx c1 Q2. apply clift_Ret in Q2 as [Hmx ->].
  rewrite maxSupportedVersion_Some in Hmx. apply Ret_inj in Hmx as <-.
  destruct (_ && _) eqn:Hf; [refuse Q1|]. destruct (bool_decide_reflect (clientHelloMsg.compressionMethods m = [compressionNone])); [|refuse Q1].
  cbn [negb] in Q1. run Q1 as r c1 Q2. apply on_conn_steady in Q2 as [Q2 Hu]; [|settle]. destruct r as [r|]; [|refuse Q1].
  destruct (Nat.eqb_spec (length (clientHelloMsg.secureRenegotiation m)) 0) as [Hr|]; [|refuse Q1]. cbn [negb] in Q1.
  destruct (clientHelloMsg.earlyData m) eqn:He; [refuse Q1|]. apply cret_Ret in Q1 as [-> ->]. split_and!; [|by injection Q2 as Q2 _; eexists|done].
  constructor; [by rewrite Hv| |done|by apply length_zero_iff_nil|done].
  intros Hin%contains_In. rewrite Hin in Hf. by apply Z.ltb_ge.
Qed.

(** The ClientHello [m'] and the share that are used, for a first message [m]
    and a group: [m] itself if it has a share of the group, else the second one,
    with what is in the transcript before it. *)
Inductive hello_used (s : cipherSuiteTLS13) (h : serverHelloMsg.t) (g : Z) (m : clientHelloMsg.t) :
  clientHelloMsg.t -> keyShare -> list bytes -> bool -> Prop :=
| used_first ks : In ks (clientHelloMsg.keyShares m) -> hello_used s h g m m ks [] false
| used_second m' ks ch ech hrr : ~ In g (group <$> clientHelloMsg.keyShares m) ->
    transcriptMsg B (ClientHello m) = Ret ch -> marshal_message B (ServerHello (retry_request g ech h)) = Ret hrr ->
    retried_hello g m' m ks ->
    hello_used s h g m m' ks [message_hash (d_Sum (digest_of s [ch])); hrr] true.

Lemma client_share_Ret s h g m ctx c ks (hs' : hstate) c' :
  client_share (B:=B) dyn_off rand g (serverState13.mk m h false false s None [] (new_digest (suite_hash s)) ctx) c = (Ret (ks, hs'), c') ->
  exists pre retry, hello_used s h g m (clientHello hs') ks pre retry /\ group ks = g /\ transcript hs' = digest_of s pre /\
    (hello hs', usingPSK hs', suite hs') = (h, false, s) /\
    (retry = true -> ctx = None -> exists data, unmarshal_message (c_vers c) data = Some (ClientHello (clientHello hs'))) /\
    held (conn c') = held (conn c) /\ cl c' = (if retry then ClientConn.set_didHRR true (cl c) else cl c).
Proof.
  unfold client_share. cbn [clientHello]. destruct (find_share _ g) as [k|] eqn:Hf; intros Q1.
  - apply cret_Ret in Q1 as [[= -> ->] ->]. apply find_share_Some in Hf as [Hin Hg]. exists [], false.
    split_and!; [by constructor|done..].
  - apply find_share_None in Hf.
    apply doHelloRetryRequest_Ret in Q1 as (ch & ech & hrr & Hch & Hhrr & Ht & Hret & Hmsg & Hsame & Hh & Hl).
    cbn [clientHello hello transcript echContext usingPSK suite] in *.
    exists [message_hash (d_Sum (digest_of s [ch])); hrr], true.
    split_and!; [by econstructor|by apply Hret| |done|by intros _|done|done].
    rewrite Ht. unfold digest_of, d_Write, new_digest. cbn [d_fn d_written concat app]. by rewrite app_nil_r, (app_nil_r hrr).
Qed.

(** C13: The answer to a ClientHello of TLS 1.3. When [processClientHello] returns
    without error, the message is one that may be answered (it lists its versions,
    is no fallback below what the server supports, offers no compression, no
    renegotiation and no early data); the suite is the first of the server's
    preferences that it offers; the group is one of both ends, post-quantum if
    there is such a one, and one that the client has sent a share of if, among
    those, there is; if the client has sent none of it, a HelloRetryRequest has
    been sent, and the second ClientHello differs only where it may and has exactly
    one share, of that group; the server's share and the secret are made from that
    share; ALPN is negotiated; and nothing is resumed yet. *)
Theorem hello_answered m ctx c (hs : hstate) c' :
  processClientHello13 (B:=B) dyn_off rand generated fips hasAESGCMHardwareSupport config m ctx c = (Ret hs, c') ->
  exists random ks own pre retry, let v := c_vers c in let s := suite hs in let m' := clientHello hs in
    hello_acceptable v m /\ first_offered (clientHelloMsg.cipherSuites m)
      (suite_preference fips hasAESGCMHardwareSupport (clientHelloMsg.cipherSuites m)) s /\
    best_group v m (group ks) /\ hello_used s (server_hello13 v m random s) (group ks) m m' ks pre retry /\
    (retry = true -> ctx = None -> exists data, unmarshal_message v data = Some (ClientHello m')) /\
    transcript hs = digest_of s pre /\ exchanged ks own (sharedKey hs) /\
    hello hs = serverHelloMsg.set_serverShare own (server_hello13 v m random s) /\ usingPSK hs = false /\
    negotiateALPN (NextProtos base) (clientHelloMsg.alpnProtocols m') false = Ret (clientProtocol (c_info c')) /\
    clientHelloMsg.quicTransportParameters m' = None /\
    ClientConn.serverName (cl c') = clientHelloMsg.serverName m' /\ ClientConn.cipherSuite (cl c') = id13 s /\
    conn_curveID (c_info c') = group ks /\ ClientConn.didHRR (cl c') = retry || ClientConn.didHRR (cl c) /\ held (conn c') = held (conn c).
Proof.
  unfold processClientHello13. intros Q1. run Q1 as v c1 Q2. apply cget_conn in Q2 as [-> ->].
  run Q1 as random c1 Q2. apply check_hello13_Ret in Q2 as (Hacc & _ & [Hh1 Hl1]).
  destruct (first_mutual _ _) as [s|] eqn:Hs; [|refuse Q1].
  apply first_mutual_Some in Hs; [|apply suite_preference_known].
  run Q1 as u c2 Q2. apply cmodify_Ret in Q2 as ->. destruct (preferred_groups _ _ _ _) as [|g rest] eqn:Hg; [refuse Q1|].
  apply preferred_groups_head in Hg. run Q1 as r c3 Q3. destruct r as [ks hs1].
  apply client_share_Ret in Q3 as (pre & retry & Hused & <- & Ht & [= Hh Hu Hsu] & Hmsg & Hh3 & Hl3).
  run Q1 as u2 c4 Q4. apply cmodify_Ret in Q4 as ->. run Q1 as r c5 Q5. destruct r as [shared own].
  apply server_exchange_Ret in Q5 as [Hex [Hh5 Hl5]]. cbn zeta in Q1.
  run Q1 as proto c6 Q6. apply or_calert_Ret in Q6 as [Hp ->]. run Q1 as u3 c6 Q6. apply cmodify_Ret in Q6 as ->.
  destruct (bool_decide_reflect (is_Some (clientHelloMsg.quicTransportParameters (clientHello (set_sharedKey shared
    (set_hello (serverHelloMsg.set_serverShare own (hello hs1)) hs1)))))) as [|Hq]; [refuse Q1|].
  run Q1 as u4 c7 Q7. apply cmodify_Ret in Q7 as ->. apply cret_Ret in Q1 as [-> ->].
  cbn [suite clientHello transcript hello usingPSK sharedKey set_sharedKey set_hello conn cl] in *. rewrite Hsu, Hh, Hl5.
  exists random, ks, own, pre, retry. cbn [conn] in Hh3. assert (Hv : c_vers c1 = c_vers c) by (unfold held in Hh1; congruence).
  rewrite Hv in Hmsg. split_and!; try done.
  - by apply eq_None_not_Some.
  - cbn. rewrite Hl3. by destruct retry.
  - cbn. rewrite Hl3. cbn. rewrite Hl1. by destruct retry.
  - cbn in Hh5. cbn. congruence.
Qed.
End server.

(** ** Both ends of the exchange *)

Section both.
Context {S A C K : Type} `{Stream S} `{RecordAEAD A} `{CbcMode C} `{MacFun K}.
Context {X T : Type} `{EcdhCurves} `{Decapsulation} `{KeyExchange}.
Abbreviation cln := (client S A C K X T).
Implicit Types c k : cln.
Context (dyn_off : bool) (rand_c rand_s : nat -> nat -> option bytes).
Context (gen_c gen_s : nat -> ecdh_Curve -> outcome conn_error ecdhPrivateKey).

(** The documentation of crypto/ecdh and crypto/mlkem: a key is of the curve
    that it was generated for, a public key is parsed back, the exchange
    commutes, X25519 keys have 32 bytes; an encapsulation key is parsed back, and
    what is encapsulated to it is decapsulated. *)
Context (gen_c_curve : forall n curve key, gen_c n curve = Ret key -> CurveOf key = curve)
  (gen_s_curve : forall n curve key, gen_s n curve = Ret key -> CurveOf key = curve).
Context (New_Bytes : forall key, NewPublicKeyOn (CurveOf key) (PublicBytes (PublicOf key)) = Ret (PublicOf key)).
Context (ECDH_commutes : forall a b, CurveOf a = CurveOf b -> ECDHWith a (PublicOf b) = ECDHWith b (PublicOf a)).
Context (X25519_length : forall key, CurveOf key = ecdh_X25519 -> length (PublicBytes (PublicOf key)) = x25519PublicKeySize).
Context (mlkem_correct : forall seed dk, NewDecapsulationKey768 seed = Ret dk ->
  length (EncapsulationKey_Bytes dk) = EncapsulationKeySize768 /\ exists ek, NewEncapsulationKey768 (EncapsulationKey_Bytes dk) = Some ek /\
  forall ss ct, Encapsulate ek = (ss, ct) -> length ct = CiphertextSize768 /\ Decapsulate dk ct = Ret ss).

(** The private keys of a key share. *)
Record share_keys (keys : keySharePrivateKeys) (ks : keyShare) : Prop := {
  sk_curve : curveForCurveID (if group ks =? X25519MLKEM768 then X25519 else group ks) = Some (CurveOf (ecdhe keys));
  sk_share : share_of keys ks;
  sk_mlkem : forall dk, mlkem keys = Some dk -> exists seed, NewDecapsulationKey768 seed = Ret dk
}.

Lemma generate_key_Ret id c key c' : (generate_key gen_c id : CM S A C K X T _) c = (Ret key, c') ->
  exists n curve, curveForCurveID id = Some curve /\ gen_c n curve = Ret key.
Proof.
  unfold generate_key. intros Q. run Q as n c1 Q1. run Q as u c2 Q2. apply clift_Ret in Q as [Q _].
  unfold ecdheKeyAgreement.generateECDHEKey in Q. destruct (curveForCurveID id) as [curve|]; [|done]. by exists n, curve.
Qed.

Lemma make_keyShares_keys curves c shares keys c' :
  (make_keyShares rand_c gen_c curves : CM S A C K X T _) c = (Ret (shares, keys), c') ->
  Forall (share_keys keys) shares.
Proof.
  intros Q. pose proof Q as Q'. apply make_keyShares_Ret in Q' as (_ & _ & Hs). unfold make_keyShares in Q.
  destruct curves as [|id curves]; [done|]. destruct (Z.eqb_spec id X25519MLKEM768) as [->|Hn].
  - run Q as key c1 Q1. apply generate_key_Ret in Q1 as (n & curve & Hc & Hk). injection Hc as <-. apply gen_c_curve in Hk.
    run Q as seed c2 Q2. run Q as dk c3 Q3. apply clift_Ret in Q3 as [Hdk ->]. apply cret_Ret in Q as [[= -> ->] ->].
    apply Forall_cons in Hs as [[_ Hs1] Hs2]. constructor.
    + constructor; cbn; [by rewrite Hk|done|]. intros dk' [= <-]. by exists seed.
    + destruct (contains _ _); [|constructor]. apply Forall_cons in Hs2 as [[_ Hs2] _]. constructor; [|constructor].
      constructor; cbn; [by rewrite Hk|done|]. intros dk' [= <-]. by exists seed.
  - destruct (curveForCurveID id) as [curve|] eqn:Hc; [|done]. run Q as key c1 Q1.
    apply generate_key_Ret in Q1 as (n & curve' & Hc' & Hk). apply gen_c_curve in Hk. apply cret_Ret in Q as [[= -> ->] ->].
    apply Forall_cons in Hs as [[_ Hs] _]. constructor; [|constructor].
    constructor; cbn; [|done|done]. rewrite (proj2 (Z.eqb_neq _ _) Hn). congruence.
Qed.

Abbreviation next c := (mkClient (with_rand_calls (rand_calls (conn c) + 1) (conn c)) (cl c)).

(** The server's key [key], the secret [x] of the two Diffie-Hellman keys, and
    the server's share [own] for the client's share [ks]: the secret and the shares
    of a hybrid are those of ML-KEM followed by those of X25519. *)
Definition exchange_of (keys : keySharePrivateKeys) (ks : keyShare) (key : ecdhPrivateKey) (x shared : bytes) (own : keyShare) : Prop :=
  if group ks =? X25519MLKEM768
  then exists dk ek ss ct, mlkem keys = Some dk /\
    ks_data ks = EncapsulationKey_Bytes dk ++ PublicBytes (PublicOf (ecdhe keys)) /\
    NewEncapsulationKey768 (EncapsulationKey_Bytes dk) = Some ek /\ Encapsulate ek = (ss, ct) /\
    length ct = CiphertextSize768 /\ Decapsulate dk ct = Ret ss /\
    shared = ss ++ x /\ ks_data own = ct ++ PublicBytes (PublicOf key)
  else ks_data ks = PublicBytes (PublicOf (ecdhe keys)) /\ shared = x /\ ks_data own = PublicBytes (PublicOf key).

Lemma server_exchanges keys ks c key x : share_keys keys ks ->
  gen_s (rand_calls (conn c)) (CurveOf (ecdhe keys)) = Ret key -> ECDHWith key (PublicOf (ecdhe keys)) = Ret x ->
  exists shared own, server_exchange dyn_off rand_s gen_s (group ks) ks c = (Ret (shared, own), next c) /\
    group own = group ks /\
    exchange_of keys ks key x shared own.
Proof.
  intros [Hc Hs Hm] Hk Hx. pose proof (gen_s_curve _ _ _ Hk) as Hkc. unfold server_exchange, share_of, exchange_of in *.
  destruct (Z.eqb_spec (group ks) X25519MLKEM768) as [Hg|Hg]; cbn [andb].
  - destruct Hs as (dk & Hdk & Hd). destruct (Hm dk Hdk) as [seed Hseed]. destruct (mlkem_correct _ _ Hseed) as (Hl & ek & Hek & Hdec).
    injection Hc as Hc. rewrite Hd, length_app, Hl, X25519_length, Nat.eqb_refl by done. cbn [negb].
    change (curveForCurveID X25519) with (Some ecdh_X25519). rewrite Hc. rewrite drop_app_length' by done.
    rewrite take_app_length' by done. destruct (Encapsulate ek) as [ss ct] eqn:He. destruct (Hdec _ _ eq_refl) as [Hlc Hdc].
    exists (ss ++ x), (mkKeyShare (group ks) (ct ++ PublicBytes (PublicOf key))). split; [|split; [done|by exists dk, ek, ss, ct]].
    unfold cbind, next_rand, or_calert, or_cfail, clift, on_conn, cbind, get, modify, cret. cbn [conn cl].
    rewrite Hk, Hkc. cbn. rewrite New_Bytes. cbn. by rewrite Hx, Hek, He.
  - exists x, (mkKeyShare (group ks) (PublicBytes (PublicOf key))). rewrite Hc. split; [|done].
    unfold cbind, next_rand, or_calert, or_cfail, clift, on_conn, cbind, get, modify, cret. cbn [conn cl].
    rewrite Hk, Hkc, Hs, New_Bytes. cbn. by rewrite Hx.
Qed.

(** C14: The key shares of TLS 1.3 agree, classical and hybrid ones. For each of
    the shares that a client makes, a server whose reader gives it a key of the
    curve, and for which the exchange does not fail, makes a share of the same
    group; and from that share the client computes the server's secret: that of the
    two Diffie-Hellman keys, or for the hybrid the one of ML-KEM, that the server has
    encapsulated to the key in the client's share, followed by that of X25519. The
    shares hold the keys in the same order. (What the library relies on of crypto/ecdh
    and crypto/mlkem is assumed as they document it.) *)
Theorem shares_agree curves c0 shares keys c1 ks c n key x :
  (make_keyShares rand_c gen_c curves : CM S A C K X T _) c0 = (Ret (shares, keys), c1) -> In ks shares ->
  n = rand_calls (conn c) -> gen_s n (CurveOf (ecdhe keys)) = Ret key -> ECDHWith key (PublicOf (ecdhe keys)) = Ret x ->
  exists shared own, server_exchange dyn_off rand_s gen_s (group ks) ks c = (Ret (shared, own), next c) /\
    group own = group ks /\ exchange_of keys ks key x shared own /\
    forall k, client_shared dyn_off rand_c keys own k = (Ret shared, k).
Proof.
  intros Hmake Hin -> Hk Hx. apply make_keyShares_keys in Hmake. rewrite Forall_forall in Hmake.
  specialize (Hmake ks). rewrite list_elem_of_In in Hmake. specialize (Hmake Hin).
  destruct (server_exchanges keys ks c key x Hmake Hk Hx) as (shared & own & Hrun & Hg & Hshape).
  exists shared, own. split_and!; [done..|]. intros k. apply gen_s_curve in Hk.
  assert (Hx' : ECDHWith (ecdhe keys) (PublicOf key) = Ret x) by by rewrite ECDH_commutes.
  pose proof (New_Bytes key) as Hb. rewrite Hk in Hb. unfold client_shared. rewrite Hg. unfold exchange_of in Hshape.
  destruct (Z.eqb_spec (group ks) X25519MLKEM768) as [E|E]; cbn [andb].
  - destruct Hshape as (dk & ek & ss & ct & Hdk & _ & _ & _ & Hl & Hd & -> & Hown).
    destruct Hmake as [Hc _ _]. rewrite E in Hc. injection Hc as Hc.
    rewrite Hown, length_app, Hl, X25519_length, Nat.eqb_refl by congruence. cbn [negb].
    rewrite drop_app_length', take_app_length' by done.
    unfold cbind, or_cfail, clift, cret. by rewrite Hb, Hx', Hdk, Hd.
  - destruct Hshape as (_ & -> & Hown). rewrite Hown. unfold cbind, or_cfail, clift, cret. by rewrite Hb, Hx'.
Qed.
End both.
