(* ===== verification/ServerCertificates.v ===== *)
(** * The certificate that a server chooses

    A certificate that [SupportsCertificate] accepts is one that the handshake can
    use, and [getCertificate] finds such a one. *)

From S2P Require Import Prelude Common HalfConn Cryptobyte Hello Messages Gcm CipherSuites CipherSuitesProofs Kdf Conn.
From S2P Require Import Negotiation NegotiationProofs Auth KeyAgreement Ticket RealityHandshake Post Client Client13 ClientHandshake.
From S2P Require Import Hpke Ech Server Server12.

Open Scope go_scope.

(** The two preference orders have the same suites. *)
Lemma config_cipherSuites_order fips c pref i : In i (config_cipherSuites fips c false) -> In i (config_cipherSuites fips c pref).
Proof.
  assert (Hsub : forall b, forallb (fun i => contains i (defaults_supportedCipherSuites b)) (defaults_supportedCipherSuites false) = true)
    by by intros [].
  assert (Hdef : forall j, In j (defaults_supportedCipherSuites false) -> In j (defaults_supportedCipherSuites pref)).
  { intros j Hj. by apply contains_In, (proj1 (forallb_forall _ _) (Hsub pref)). }
  unfold config_cipherSuites. set (l := match CipherSuites c with None => defaultCipherSuites false | Some _ => _ end).
  set (l' := match CipherSuites c with None => defaultCipherSuites pref | Some _ => _ end).
  assert (Hl : forall j, In j l -> In j l').
  { intros j. unfold l, l', defaultCipherSuites. destruct (CipherSuites c); rewrite !DeleteFunc_In; intros [Hj Hd]; split; auto. }
  destruct fips; [|apply Hl]. rewrite !DeleteFunc_In. intros [Hj Hd]. split; auto.
Qed.

(** What both ends can use, whatever the order in which it is looked for. *)
Lemma selectCipherSuite_ex ids supported ok : (exists s, selectCipherSuite ids supported ok = Some s) <->
  exists i s, i ∈ ids /\ selectable supported ok i s.
Proof.
  pose proof (selectCipherSuite_first ids supported ok) as Hf. destruct (selectCipherSuite ids supported ok) as [s|].
  - destruct Hf as (pre & i & post & -> & Hi & _). split; [intros _|by exists s]. exists i, s. split; [apply list_elem_of_In, in_elt|done].
  - split; [by intros [s E]|]. intros (i & s & Hi & Hs). by apply Hf in Hs.
Qed.

Section certificates.
Context `{Hashes} {X P T : Type} `{X509 X} `{CertificateChains X P} `{EcdhCurves} `{Decapsulation} `{Verifiers P} `{!ServerX509 X P}.
Abbreviation certificate := (clientCertificate X P).
Abbreviation serverConfig := (ServerConfig.t X P CertPool).
Context (ToLower : bytes -> bytes).
Context (fips : bool).
Context (config : serverConfig).
Abbreviation base := (ServerConfig.base config).
Abbreviation cfg := (server_neg config).

(** What a private key and a chain are: what signs and what decrypts with a key
    has one public half ([crypto.Signer] and [crypto.Decrypter] share the method
    [Public]), and what decrypts is an RSA key; the chain has a certificate to
    parse. *)
Record well_formed (c : certificate) : Prop := {
  wf_public p q : Signer (ck_PrivateKey (cc_key c)) = Some p -> Decrypter (ck_PrivateKey (cc_key c)) = Some q -> p = q;
  wf_decrypter q : Decrypter (ck_PrivateKey (cc_key c)) = Some q -> is_rsa q = true;
  wf_leaf w : leaf c <> Panic w
}.

(** The handshake that [m] begins at version [v] can use the certificate: its
    key signs with a scheme of the client's (TLS 1.3), or the client offers an
    allowed cipher suite that goes with the key and the curves. *)
Definition usable (m : clientHelloMsg.t) (v : Z) (c : certificate) : Prop :=
  (clientHelloMsg.serverName m <> [] -> exists x, leaf c = Ret x /\ x509_VerifyHostname x (clientHelloMsg.serverName m) = None) /\
  if v =? VersionTLS13 then
    clientHelloMsg.supportedSignatureAlgorithms m <> [] ->
    exists alg, selectSignatureScheme fips v (cc_key c) (clientHelloMsg.supportedSignatureAlgorithms m) = Ret alg
  else forall ecdhe,
    supportsECDHE fips (Some cfg) v (clientHelloMsg.supportedCurves m) (clientHelloMsg.supportedPoints m) = Ret ecdhe ->
    exists uses, sign_use (ck_PrivateKey (cc_key c)) = Some (ecSignOk uses, rsaSignOk uses) /\
    decrypt_use (ck_PrivateKey (cc_key c)) = Some (rsaDecryptOk uses) /\ ecdheOk uses = ecdhe /\
    forall pref, exists s, selectCipherSuite (config_cipherSuites fips cfg pref) (clientHelloMsg.cipherSuites m)
      (cipherSuiteOk uses v) = Some s.

Lemma selected_usable ids v uses ok : (forall s, ok s = true -> cipherSuiteOk uses v s = true) ->
  (exists s, selectCipherSuite ids (supportedCipherSuites fips cfg) ok = Some s) ->
  forall pref, exists s, selectCipherSuite (config_cipherSuites fips cfg pref) ids (cipherSuiteOk uses v) = Some s.
Proof.
  intros Hok (i & s & Hi & Hs & Ho & Hin)%selectCipherSuite_ex pref. apply selectCipherSuite_ex. exists i, s.
  split; [|by split_and!; [|apply Hok|]]. apply list_elem_of_In. apply list_elem_of_In in Hin. by apply config_cipherSuites_order.
Qed.

Lemma fallback_usable vers m c e : vers <> VersionTLS13 -> well_formed c ->
  forall ecdhe, supportsECDHE fips (Some cfg) vers (clientHelloMsg.supportedCurves m) (clientHelloMsg.supportedPoints m) = Ret ecdhe ->
  supportsRSAFallback fips config vers (clientHelloInfo m) c e = Ret tt ->
  exists uses, sign_use (ck_PrivateKey (cc_key c)) = Some (ecSignOk uses, rsaSignOk uses) /\
    decrypt_use (ck_PrivateKey (cc_key c)) = Some (rsaDecryptOk uses) /\ ecdheOk uses = ecdhe /\
    forall pref, exists s, selectCipherSuite (config_cipherSuites fips cfg pref) (clientHelloMsg.cipherSuites m)
      (cipherSuiteOk uses vers) = Some s.
Proof.
  intros Hv [Hs Hd _] ecdhe _. unfold supportsRSAFallback. rewrite (proj2 (Z.eqb_neq _ _) Hv). unfold sign_use, decrypt_use.
  destruct (Decrypter _) as [pub|] eqn:Hdec; [|done]. rewrite (Hd pub eq_refl). cbn [negb clientHelloInfo chi_CipherSuites].
  destruct (selectCipherSuite _ _ _) as [s|] eqn:Hsel; [|done]. intros _. specialize (Hd pub eq_refl). destruct pub; try done.
  assert (Hall : exists ec rsa, match Signer (ck_PrivateKey (cc_key c)) with
    | None => Some (false, false) | Some (PubRSA _ _) => Some (false, true) | Some PubOther => None | Some _ => Some (true, false)
    end = Some (ec, rsa)).
  { destruct (Signer _) as [p|]; [|by eexists _, _]. rewrite (Hs p _ eq_refl eq_refl). by eexists _, _. }
  destruct Hall as (ec & rsa & Hall). exists (mkKeyUse ecdhe ec rsa true). split_and!; [exact Hall|done..|].
  eapply selected_usable; [|by eexists]. intros s' [Hf Hvo]%andb_true_iff. unfold cipherSuiteOk. by rewrite Hf, Hvo.
Qed.

Lemma legacy_usable vers m c : vers <> VersionTLS13 -> well_formed c ->
  supports_legacy fips config vers (clientHelloInfo m) c = Ret tt -> forall ecdhe,
  supportsECDHE fips (Some cfg) vers (clientHelloMsg.supportedCurves m) (clientHelloMsg.supportedPoints m) = Ret ecdhe ->
  exists uses, sign_use (ck_PrivateKey (cc_key c)) = Some (ecSignOk uses, rsaSignOk uses) /\
    decrypt_use (ck_PrivateKey (cc_key c)) = Some (rsaDecryptOk uses) /\ ecdheOk uses = ecdhe /\
    forall pref, exists s, selectCipherSuite (config_cipherSuites fips cfg pref) (clientHelloMsg.cipherSuites m)
      (cipherSuiteOk uses vers) = Some s.
Proof.
  intros Hv Hkey Q ecdhe Hecdhe. revert Q. unfold supports_legacy.
  cbn [clientHelloInfo chi_SupportedCurves chi_SupportedPoints chi_CipherSuites]. rewrite Hecdhe. cbn [obind].
  pose proof (fun e => fallback_usable vers m c e Hv Hkey ecdhe Hecdhe) as Hfall.
  destruct ecdhe; cbn [negb]; [|apply Hfall].
  destruct (certificate_suites _ _ _ _ _) as [ecdsa| |e] eqn:Hsuites; [|apply Hfall|done].
  destruct (selectCipherSuite _ _ _) as [s|] eqn:Hsel; [|apply Hfall]. intros _. clear Hfall.
  destruct Hkey as [_ Hd _].
  assert (Hdec : exists d, decrypt_use (ck_PrivateKey (cc_key c)) = Some d).
  { unfold decrypt_use. destruct (Decrypter _) as [pub|]; [|by eexists]. specialize (Hd pub eq_refl). destruct pub; try done. by eexists. }
  assert (Hsign : sign_use (ck_PrivateKey (cc_key c)) = Some (ecdsa, negb ecdsa)).
  { unfold certificate_suites in Hsuites. unfold sign_use. destruct (Signer _) as [[|curve| |]|]; try done.
    - by injection Hsuites as <-.
    - destruct curve; [|done]. destruct (negb _); [done|]. destruct (existsb _ _); [|done]. by injection Hsuites as <-.
    - destruct (_ || _); [done|]. by injection Hsuites as <-. }
  destruct Hdec as [d Hdec]. exists (mkKeyUse true ecdsa (negb ecdsa) d). split_and!; [done..|].
  eapply selected_usable; [|by eexists]. unfold suite_fits, cipherSuiteOk. cbn [ecdheOk ecSignOk rsaSignOk andb].
  intros s'. by destruct (negb (flags s' &&& suiteECDHE =? 0)).
Qed.

Lemma supported_usable m v c : well_formed c ->
  mutualVersion fips (Some cfg) roleServer (chi_SupportedVersions (clientHelloInfo m)) = Ret (E:=conn_error) (Some v) ->
  chi_SupportsCertificate fips config (clientHelloInfo m) c = Ret tt -> usable m v c.
Proof.
  intros Hkey Hv. unfold chi_SupportsCertificate, usable. rewrite Hv. cbn [obind].
  change (chi_SignatureSchemes (clientHelloInfo m)) with (clientHelloMsg.supportedSignatureAlgorithms m).
  destruct (supports_name (clientHelloInfo m) c) as [[]| |] eqn:Hn; [|done..]. cbn [obind]. intros Q. split.
  - intros Hne. unfold supports_name in Hn. change (chi_ServerName (clientHelloInfo m)) with (clientHelloMsg.serverName m) in Hn.
    destruct (Nat.eqb_spec (length (clientHelloMsg.serverName m)) 0) as [E%length_zero_iff_nil|_]; [done|].
    destruct (leaf c) as [x| |]; [|done..]. exists x. split; [done|]. by destruct (x509_VerifyHostname x _).
  - destruct (Z.eqb_spec v VersionTLS13) as [->|Hne].
    + intros Ha. destruct (Nat.eqb_spec (length (clientHelloMsg.supportedSignatureAlgorithms m)) 0) as [E%length_zero_iff_nil|_]; [done|].
      destruct (selectSignatureScheme _ _ _ _) as [alg|e|w]; [by exists alg| |done]. by cbn in Q.
    + destruct (_ =? 0)%nat; [by apply legacy_usable|].
      destruct (selectSignatureScheme _ _ _ _) as [alg|e|w] eqn:Hsel; [by apply legacy_usable| |done].
      intros ecdhe He. by apply (fallback_usable v m c e).
Qed.

(** ** The choice *)

(** The version for which [SupportsCertificate] judges is the handshake's,
    unless the client's version field says TLS 1.3 without the extension that
    goes with it. *)
Lemma judged_version m : clientHelloMsg.supportedVersions m <> [] \/ clientHelloMsg.vers m < VersionTLS13 ->
  client_versions (clientHelloMsg.vers m) (clientHelloMsg.supportedVersions m) = chi_SupportedVersions (clientHelloInfo m).
Proof.
  intros Hv. unfold client_versions. cbn [clientHelloInfo chi_SupportedVersions].
  destruct (clientHelloMsg.supportedVersions m) as [|x l]; [|by rewrite andb_false_r]. destruct Hv as [|Hv]; [done|].
  by rewrite (proj2 (Z.leb_gt _ _)) by exact Hv.
Qed.
Lemma judged_otherwise m v : clientHelloMsg.supportedVersions m = [] -> VersionTLS13 <= clientHelloMsg.vers m ->
  server_version fips (Some cfg) (clientHelloMsg.vers m) (clientHelloMsg.supportedVersions m) = Ret (E:=conn_error) (Some v) ->
  v <= VersionTLS12.
Proof.
  intros Hs Hv. unfold server_version, client_versions. rewrite Hs, (proj2 (Z.leb_le _ _)) by exact Hv. cbn [andb length Nat.eqb].
  rewrite mutualVersion_spec. intros Q. apply Ret_inj, find_some in Q as [Q _].
  assert (Hall : forallb (fun v => v <=? VersionTLS12) (supportedVersionsFromMax VersionTLS12) = true) by reflexivity.
  rewrite forallb_forall in Hall. by apply Z.leb_le, Hall.
Qed.

Lemma supports_no_panic m c : (forall w, leaf c <> Panic w) -> forall w, chi_SupportsCertificate fips config (clientHelloInfo m) c <> Panic w.
Proof.
  intros Hl w. unfold chi_SupportsCertificate. rewrite mutualVersion_spec. cbn [obind]. destruct (List.find _ _) as [v|]; [|done].
  assert (Hn : forall w, supports_name (clientHelloInfo m) c <> Panic w).
  { intros w'. unfold supports_name. destruct (_ =? 0)%nat; [done|]. destruct (leaf c) as [x|e|w1]; [by destruct (x509_VerifyHostname _ _)|done|].
    by destruct (Hl w1). }
  assert (Hf : forall e w, supportsRSAFallback fips config v (clientHelloInfo m) c e <> Panic w).
  { intros e w'. unfold supportsRSAFallback. by repeat case_match. }
  assert (Hg : forall w, supports_legacy fips config v (clientHelloInfo m) c <> Panic w).
  { intros w'. unfold supports_legacy, supportsECDHE. destruct (length _ =? 0)%nat; [|destruct (_ && _); [done|]]; cbn [obind];
      (destruct (negb _); [apply Hf|]); (destruct (certificate_suites _ _ _ _ _); [|apply Hf|done]);
      (destruct (selectCipherSuite _ _ _); [done|apply Hf]). }
  assert (Hafter : forall w, (if v =? VersionTLS13 then Ret tt else supports_legacy fips config v (clientHelloInfo m) c) <> Panic w).
  { intros w'. destruct (v =? VersionTLS13); [done|apply Hg]. }
  destruct (supports_name _ _) as [[]|e|w1]; cbn [obind]; [|done|by destruct (Hn w1)]. cbn zeta. destruct (_ =? 0)%nat; [apply Hafter|].
  destruct (selectSignatureScheme _ _ _ _) as [a|e|w1] eqn:Hsel; [apply Hafter|apply Hf|].
  exfalso. revert Hsel. unfold selectSignatureScheme. by repeat case_match.
Qed.

Lemma first_supporting_In chi certs c0 : In c0 certs -> chi_SupportsCertificate fips config chi c0 = Ret tt ->
  Forall (fun c => forall w, chi_SupportsCertificate fips config chi c <> Panic w) certs ->
  exists c, first_supporting fips config chi certs = Ret (Some c) /\ In c certs /\ chi_SupportsCertificate fips config chi c = Ret tt.
Proof.
  intros Hin Hc0 Hf. induction certs as [|c certs IH]; [done|]. apply Forall_cons in Hf as [Hc Hf]. cbn [first_supporting].
  destruct (chi_SupportsCertificate fips config chi c) as [[]|e|w] eqn:Hs; [|destruct Hin as [->|Hin]; [congruence|]|exfalso; by apply (Hc w)].
  - exists c. split_and!; [done|by left|done].
  - destruct (IH Hin Hf) as (c' & ? & ? & ?). exists c'. by split_and!; [|right|].
Qed.

(** C16: A server that has a certificate for the client finds one. Let [v] be the
    version that [SupportsCertificate] judges for, and the configured keys and
    chains be well formed (what decrypts is an RSA key; no chain is empty). If one of
    the certificates passes [SupportsCertificate] for the ClientHello, and there is
    neither a callback nor a table of names, [getCertificate] returns one of them
    that a handshake of version [v] can use: it is valid for the name that the
    client asks for; in TLS 1.3 its key signs with a scheme of the client's; and
    before, [processClientHello] accepts the type of its key and [pickCipherSuite]
    finds a suite that goes with it, in whatever order of preference. The handshake
    is of version [v], unless the client's version field is at least that of
    TLS 1.3 and it does not list its versions: then the handshake is of TLS 1.2 at
    most, whatever [v] is. *)
Theorem usable_certificate_found m v c0 :
  ServerConfig.GetCertificate config = None -> ServerConfig.NameToCertificate config = None ->
  mutualVersion fips (Some cfg) roleServer (chi_SupportedVersions (clientHelloInfo m)) = Ret (E:=conn_error) (Some v) ->
  Forall well_formed (Certificates base) ->
  In c0 (Certificates base) -> chi_SupportsCertificate fips config (clientHelloInfo m) c0 = Ret tt ->
  (exists c, getCertificate ToLower fips config (clientHelloInfo m) = Ret c /\ In c (Certificates base) /\ usable m v c) /\
  (clientHelloMsg.supportedVersions m <> [] \/ clientHelloMsg.vers m < VersionTLS13 ->
     server_version fips (Some cfg) (clientHelloMsg.vers m) (clientHelloMsg.supportedVersions m) = Ret (E:=conn_error) (Some v)) /\
  (clientHelloMsg.supportedVersions m = [] -> VersionTLS13 <= clientHelloMsg.vers m -> forall v',
     server_version fips (Some cfg) (clientHelloMsg.vers m) (clientHelloMsg.supportedVersions m) = Ret (E:=conn_error) (Some v') ->
     v' <= VersionTLS12).
Proof.
  intros Hcb Hname Hv Hwf Hin Hc0. split; [|split].
  - assert (Hpanic : Forall (fun c => forall w, chi_SupportsCertificate fips config (clientHelloInfo m) c <> Panic w) (Certificates base)).
    { eapply Forall_impl; [exact Hwf|]. intros c [_ _ Hl]. by apply supports_no_panic. }
    rewrite Forall_forall in Hwf. unfold getCertificate, choose_certificate. rewrite Hcb, Hname.
    destruct (first_supporting_In _ _ _ Hin Hc0 Hpanic) as (c & Hf & Hc & Hs).
    destruct (Certificates base) as [|c1 [|c2 certs]] eqn:Hl; [done| |].
    + exists c1. destruct Hin as [->|[]]. split_and!; [done|by left|]. apply supported_usable; [|done..]. apply Hwf. by left.
    + exists c. rewrite Hf. split_and!; [done..|]. apply supported_usable; [|done..]. by apply Hwf, list_elem_of_In.
  - intros Hd. unfold server_version. by rewrite judged_version.
  - intros Hs Hd v'. by apply judged_otherwise.
Qed.
End certificates.
