(* ===== verification/EchProofs.v ===== *)
(** * Encrypted Client Hello: what the server decodes is what the client sealed

    The extensions of a ClientHello as a list of raw extensions, the encoding of
    the inner hello that refers to those of the outer one, and its
    reconstruction; the configurations of a server; the padding. *)

From stdpp Require Import sets.
From S2P Require Import Prelude Common HalfConn Cryptobyte Hello Messages WireProofs HelloProofs WireTheorems Kdf Hpke Conn.
From S2P Require Import RealityHandshake Ech.

Open Scope go_scope.
#[local] Opaque be_put.

(** ** Raw extensions as bytes *)

Definition enc_raw (r : rawExtension) : bytes :=
  be_put 2 (extType r) ++ be_put 2 (Z.of_nat (length (raw_data r))) ++ raw_data r.
Definition enc_raws (l : list rawExtension) : bytes := concat (enc_raw <$> l).
Definition raw_ok (r : rawExtension) : Prop := is_u16 (extType r) /\ Z.of_nat (length (raw_data r)) < 65536.

Lemma enc_raws_app l l' : enc_raws (l ++ l') = enc_raws l ++ enc_raws l'.
Proof. unfold enc_raws. by rewrite fmap_app, concat_app. Qed.

Section written.
Context {B : Type} `{BuilderLaws B}.

(** The extensions that a statement writes. *)
Definition yields (f : B -> B) (l : list rawExtension) : Prop :=
  exists r, appends f r /\ forall z, r = Some z -> z = enc_raws l /\ Forall raw_ok l.

(** The bytes of a statement. *)
Definition body_of (f : B -> B) : bytes := match Bytes (f NewBuilder) with Ret y => y | _ => [] end.
Definition raws_when (c : bool) (typ : Z) (f : B -> B) : list rawExtension := if c then [mkRaw typ (body_of f)] else [].

Lemma prefixed_put n y : Z.of_nat (length y) < 256 ^ Z.of_nat n ->
  prefixed n (Some y) = Some (be_put n (Z.of_nat (length y)) ++ y).
Proof. intros Hl. unfold prefixed. cbn [mbind option_bind]. by rewrite (proj2 (Z.ltb_lt _ _)). Qed.

Lemma body_of_appends f y : appends f (Some y) -> body_of f = y.
Proof. intros Hf. unfold body_of. by rewrite (proj2 (appends_new f (Some y) y Hf) eq_refl). Qed.

Lemma yields_then f g l1 l2 : yields f l1 -> yields g l2 -> yields (f ;> g) (l1 ++ l2).
Proof.
  intros (r1 & Hf & H1) (r2 & Hg & H2). exists (oapp r1 r2). split; [by apply appends_then|].
  intros z (x & y & Hx & Hy & ->)%oapp_Some. destruct (H1 x Hx) as [-> ?], (H2 y Hy) as [-> ?].
  rewrite enc_raws_app. split; [done|]. by apply Forall_app.
Qed.

Lemma yields_ext typ (f : B -> B) r : is_u16 typ -> appends f r -> yields (ext typ f) [mkRaw typ (body_of f)].
Proof.
  intros Ht Hf. exists (enc_ext typ r). split; [by apply appends_ext|].
  intros z Hz. unfold enc_ext in Hz. apply oapp_Some in Hz as (x & y & Hx & Hy & ->). apply Some_inj in Hx as <-. apply prefixed_Some in Hy as (d & -> & Hl & ->).
  apply body_of_appends in Hf. rewrite Hf. unfold enc_raws. cbn. rewrite app_nil_r. split; [done|]. by constructor.
Qed.

Lemma yields_when c (f : B -> B) l : yields f l -> yields (when c f) (if c then l else []).
Proof.
  intros (r & Hf & Hr). exists (if c then r else Some []). split; [by apply appends_when|].
  destruct c; [done|]. by intros z [= <-].
Qed.

Lemma yields_raws_when c typ (f : B -> B) r : is_u16 typ -> appends f r -> yields (when c (ext typ f)) (raws_when c typ f).
Proof. intros Ht Hf. by eapply yields_when, yields_ext. Qed.

Lemma yields_ext0 c typ : is_u16 typ -> yields (when c (ext0 typ : B -> B)) (if c then [mkRaw typ []] else []).
Proof.
  intros Ht. apply yields_when. exists (enc_ext typ (Some [])). split; [apply appends_ext0|].
  intros z Hz. unfold enc_ext in Hz. apply oapp_Some in Hz as (x & y & Hx & Hy & ->). apply Some_inj in Hx as <-. apply prefixed_Some in Hy as (d & [= <-] & Hl & ->).
  unfold enc_raws. cbn. rewrite !app_nil_r. split; [done|]. by constructor.
Qed.

Lemma yields_each {T} (f : T -> B -> B) (g : T -> list rawExtension) l :
  Forall (fun x => yields (f x) (g x)) l -> yields (for_each f l) (concat (g <$> l)).
Proof.
  induction 1 as [|x l Hx _ IH]; [|by apply (yields_then (f x) (for_each f l))].
  exists (Some []). split; [apply appends_id|]. by intros z [= <-].
Qed.

Lemma yields_Bytes f l z : yields f l -> Bytes (f NewBuilder) = Ret z -> z = enc_raws l /\ Forall raw_ok l.
Proof. intros (r & Hf & Hr) Hz. apply (appends_new f r z Hf) in Hz. by apply Hr. Qed.

Lemma nonempty_list_spec {T} (l : list T) : nonempty_list l = true <-> l <> [].
Proof. by destruct l. Qed.

(** ** The extensions of a ClientHello *)

Definition front_raws (e : bool) (m : clientHelloMsg.t) : list rawExtension :=
  raws_when (nonempty_list (clientHelloMsg.serverName m)) extensionServerName (AddUint16LengthPrefixed
      (AddUint8 0 ;> AddUint16LengthPrefixed (AddBytes (clientHelloMsg.serverName m)))) ++
  raws_when (nonempty_list (clientHelloMsg.supportedPoints m) && negb e) extensionSupportedPoints
    (AddUint8LengthPrefixed (AddBytes (clientHelloMsg.supportedPoints m))) ++
  raws_when (clientHelloMsg.ticketSupported m && negb e) extensionSessionTicket (AddBytes (clientHelloMsg.sessionTicket m)) ++
  raws_when (clientHelloMsg.secureRenegotiationSupported m && negb e) extensionRenegotiationInfo
    (AddUint8LengthPrefixed (AddBytes (clientHelloMsg.secureRenegotiation m))) ++
  (if clientHelloMsg.extendedMasterSecret m && negb e then [mkRaw extensionExtendedMasterSecret []] else []) ++
  (if clientHelloMsg.scts m then [mkRaw extensionSCT []] else []) ++
  (if clientHelloMsg.earlyData m then [mkRaw extensionEarlyData []] else []) ++
  raws_when (match clientHelloMsg.quicTransportParameters m with Some _ => true | None => false end) extensionQUICTransportParameters
    (AddBytes (default [] (clientHelloMsg.quicTransportParameters m))) ++
  raws_when (nonempty_list (clientHelloMsg.encryptedClientHello m)) extensionEncryptedClientHello
    (AddBytes (clientHelloMsg.encryptedClientHello m)).

Definition mid_raws (m : clientHelloMsg.t) : list rawExtension :=
  concat ((fun '(typ, present, body) => raws_when present typ body) <$> clientHelloMsg.compressible B m).

Definition ref_raws (m : clientHelloMsg.t) : list rawExtension :=
  raws_when (nonempty_list (clientHelloMsg.echOuterExts B m)) extensionECHOuterExtensions
    (AddUint8LengthPrefixed (addUint16s (clientHelloMsg.echOuterExts B m))).

Definition back_raws (m : clientHelloMsg.t) : list rawExtension :=
  raws_when (nonempty_list (clientHelloMsg.pskIdentities m)) extensionPreSharedKey
      (AddUint16LengthPrefixed (for_each (fun psk =>
         AddUint16LengthPrefixed (AddBytes (label psk)) ;> AddUint32 (obfuscatedTicketAge psk))
         (clientHelloMsg.pskIdentities m)) ;>
       AddUint16LengthPrefixed (addUint8LengthPrefixeds (clientHelloMsg.pskBinders m))).

Definition hello_raws (e : bool) (m : clientHelloMsg.t) : list rawExtension :=
  front_raws e m ++ (if e then ref_raws m else mid_raws m) ++ back_raws m.

Ltac yields_one := first [apply yields_ext0; done | eapply yields_raws_when; [done|appends_tac]].

Lemma marshal_exts_yields e m : yields (clientHelloMsg.marshal_exts B e m) (hello_raws e m).
Proof.
  unfold clientHelloMsg.marshal_exts, hello_raws, front_raws. rewrite <- !app_assoc.
  do 9 (apply yields_then; [yields_one|]).
  assert (Hmid : yields (for_each (fun '(typ, present, body) => when (present && negb e) (ext typ body)) (clientHelloMsg.compressible B m))
    (if e then [] else mid_raws m)).
  { assert (Hc : concat ((fun '(typ, present, body) => raws_when (present && negb e) typ body) <$> clientHelloMsg.compressible B m) =
      if e then [] else mid_raws m).
    { unfold mid_raws, clientHelloMsg.compressible. destruct e; cbn [negb fmap list_fmap concat]; by rewrite ?andb_false_r, ?andb_true_r. }
    rewrite <- Hc. apply yields_each. unfold clientHelloMsg.compressible. repeat constructor; yields_one. }
  assert (Href : yields (when (nonempty_list (clientHelloMsg.echOuterExts B m) && e)
      (ext extensionECHOuterExtensions (AddUint8LengthPrefixed (addUint16s (clientHelloMsg.echOuterExts B m)))))
    (if e then ref_raws m else [])).
  { assert (Hc : raws_when (nonempty_list (clientHelloMsg.echOuterExts B m) && e) extensionECHOuterExtensions
      (AddUint8LengthPrefixed (addUint16s (clientHelloMsg.echOuterExts B m))) = if e then ref_raws m else []).
    { unfold ref_raws. destruct e; by rewrite ?andb_true_r, ?andb_false_r. }
    rewrite <- Hc. yields_one. }
  assert (Hback : yields (when (nonempty_list (clientHelloMsg.pskIdentities m)) (ext extensionPreSharedKey
      (AddUint16LengthPrefixed (for_each (fun psk =>
         AddUint16LengthPrefixed (AddBytes (label psk)) ;> AddUint32 (obfuscatedTicketAge psk)) (clientHelloMsg.pskIdentities m)) ;>
       AddUint16LengthPrefixed (addUint8LengthPrefixeds (clientHelloMsg.pskBinders m))))) (back_raws m)) by yields_one.
  pose proof (yields_then _ _ _ _ Hmid (yields_then _ _ _ _ Href Hback)) as Hall. by destruct e.
Qed.
End written.

(** ** Reading the extensions *)

Section read.
Context `{CryptoStringLaws}.

Lemma read_raw_enc r s : raw_ok r -> read_raw (enc_raw r ++ s) = Some (r, s).
Proof.
  intros [Ht Hl]. unfold read_raw, enc_raw. destruct r as [typ d]. cbn [extType raw_data] in *.
  reads. reflexivity.
Qed.

Lemma length_enc_raw r : (4 <= length (enc_raw r))%nat.
Proof. unfold enc_raw. rewrite !length_app, !length_be_put. lia. Qed.

Lemma read_raws l acc : Forall raw_ok l -> read_list read_raw (enc_raws l) acc = Some (acc ++ l).
Proof.
  intros Hl. apply (read_list_put read_raw (fun r => Some (enc_raw r))).
  - intros s x s'. unfold read_raw. rewrite ReadUint16_spec. destruct (read_uint 2 s) as [[t s1]|] eqn:E1; [|done].
    cbn [mbind option_bind]. rewrite ReadUint16LengthPrefixed_spec. destruct (read_prefixed 2 s1) as [[d s2]|] eqn:E2; [|done].
    intros [= _ <-]. apply read_uint_length in E1. apply read_prefixed_length in E2. lia.
  - eapply Forall_impl; [exact Hl|]. intros r Hr y s [= <-]. split; [by intros E; pose proof (length_enc_raw r); rewrite E in *; cbn in *; lia|].
    by apply read_raw_enc.
  - unfold enc_raws. clear Hl. induction l as [|r l IH]; [done|]. cbn in IH |- *. unfold oapp in *. by rewrite IH.
Qed.

Lemma skip8_put x s : Z.of_nat (length x) < 256 ->
  skipUint8LengthPrefixed ((be_put 1 (Z.of_nat (length x)) ++ x) ++ s) = Some s.
Proof.
  intros Hl. unfold skipUint8LengthPrefixed. rewrite <- app_assoc, ReadUint8_spec, read_uint_put by (split; [lia|exact Hl]).
  cbn [mbind option_bind]. apply Skip_app. lia.
Qed.
Lemma skip16_put x s : Z.of_nat (length x) < 65536 ->
  skipUint16LengthPrefixed ((be_put 2 (Z.of_nat (length x)) ++ x) ++ s) = Some s.
Proof.
  intros Hl. unfold skipUint16LengthPrefixed. rewrite <- app_assoc, ReadUint16_spec, read_uint_put by (split; [lia|exact Hl]).
  cbn [mbind option_bind]. apply Skip_app. lia.
Qed.

(** The types of an ech_outer_extensions extension, as bytes. *)
Definition enc_types (l : list rawExtension) : bytes := concat ((fun r => be_put 2 (extType r)) <$> l).

Lemma seek_app typ p x l : Forall (fun r => extType r <> typ) p -> extType x = typ -> seek typ (p ++ x :: l) = x :: l.
Proof.
  intros Hp Hx. induction Hp as [|r p Hr _ IH]; cbn [app seek].
  - by rewrite Hx, Z.eqb_refl.
  - by rewrite (proj2 (Z.eqb_neq _ _) Hr).
Qed.

Lemma outer_refs_spec stuck fuel l p q acc : (length (enc_types l) <= fuel)%nat ->
  Forall (fun r => is_u16 (extType r) /\ extType r <> extensionEncryptedClientHello) l ->
  NoDup (extType <$> l) -> Forall (fun r => extType r ∉ extType <$> l) p ->
  outer_refs stuck fuel (enc_types l) (p ++ l ++ q) acc = (acc ++ l, None).
Proof.
  revert fuel p acc. induction l as [|x l IH]; intros fuel p acc Hf Hl Hn Hp.
  { unfold enc_types. cbn. rewrite app_nil_r. by destruct fuel. }
  apply Forall_cons in Hl as [[Hu He] Hl]. cbn in Hn. apply NoDup_cons in Hn as [Hx Hn].
  unfold enc_types in *. cbn [fmap list_fmap concat] in *. rewrite length_app, length_be_put in Hf.
  destruct fuel as [|fuel]; [lia|]. cbn [outer_refs].
  assert (Hne : Empty (be_put 2 (extType x) ++ concat ((fun r => be_put 2 (extType r)) <$> l)) = false).
  { unfold Empty. by rewrite length_app, length_be_put. }
  rewrite Hne. rewrite ReadUint16_spec, read_uint_put by done. cbn [mbind option_bind].
  rewrite (proj2 (Z.eqb_neq _ _) He). cbn [app].
  rewrite (seek_app (extType x) p x (l ++ q)); [|eapply Forall_impl; [exact Hp|]; intros r Hr E; apply Hr; rewrite E; left|done].
  rewrite (IH fuel [x]); [by rewrite <- app_assoc|lia|done|done|by constructor].
Qed.

Lemma inner_exts_raws stuck fuel raws l s acc : (length (enc_raws l ++ s) <= fuel)%nat -> Forall raw_ok l ->
  Forall (fun r => extType r <> extensionECHOuterExtensions) l ->
  exists fuel', (length s <= fuel')%nat /\ inner_exts stuck fuel raws (enc_raws l ++ s) acc = inner_exts stuck fuel' raws s (acc ++ l).
Proof.
  revert fuel acc. induction l as [|x l IH]; intros fuel acc Hf Hok Hn.
  { exists fuel. by rewrite app_nil_r. }
  apply Forall_cons in Hok as [Hx Hok]. apply Forall_cons in Hn as [Hnx Hn].
  unfold enc_raws in *. cbn [fmap list_fmap concat] in *. rewrite <- app_assoc in *.
  pose proof (length_enc_raw x). rewrite !length_app in Hf. destruct fuel as [|fuel]; [lia|].
  destruct (IH fuel (acc ++ [x])) as (fuel' & Hf' & E); [rewrite length_app; lia|done|done|].
  exists fuel'. split; [done|]. cbn [inner_exts].
  assert (Hne : Empty (enc_raw x ++ concat (enc_raw <$> l) ++ s) = false).
  { unfold Empty. apply Nat.eqb_neq. rewrite length_app. lia. }
  rewrite Hne, read_raw_enc by done. destruct x as [typ d]. cbn in Hnx. rewrite (proj2 (Z.eqb_neq _ _) Hnx).
  rewrite E. by rewrite <- app_assoc.
Qed.

(** The reference to the extensions [mid] of the outer hello. *)
Lemma inner_exts_ref stuck fuel p mid q s acc :
  let ref := mkRaw extensionECHOuterExtensions (be_put 1 (Z.of_nat (length (enc_types mid))) ++ enc_types mid) in
  (length (enc_raw ref ++ s) <= fuel)%nat -> Z.of_nat (length (enc_types mid)) < 256 -> 
  Forall (fun r => is_u16 (extType r) /\ extType r <> extensionEncryptedClientHello) mid ->
  NoDup (extType <$> mid) -> Forall (fun r => extType r ∉ extType <$> mid) p ->
  exists fuel', (length s <= fuel')%nat /\
    inner_exts stuck fuel (p ++ mid ++ q) (enc_raw ref ++ s) acc = inner_exts stuck fuel' (p ++ mid ++ q) s (acc ++ mid).
Proof.
  intros ref Hf Hl Hm Hn Hp. pose proof (length_enc_raw ref). rewrite length_app in Hf.
  destruct fuel as [|fuel]; [lia|]. exists fuel. split; [lia|]. cbn [inner_exts].
  assert (Hne : Empty (enc_raw ref ++ s) = false) by (unfold Empty; apply Nat.eqb_neq; rewrite length_app; lia).
  rewrite Hne, read_raw_enc.
  2: { split; [done|]. unfold ref. cbn [raw_data]. rewrite length_app, length_be_put. lia. }
  unfold ref. rewrite Z.eqb_refl, ReadUint8LengthPrefixed_spec, read_prefixed_put_nil by (done || lia).
  by rewrite outer_refs_spec.
Qed.
End read.

(** ** The inner hello *)

Section inner.
Context {B : Type} `{CryptoStringLaws} `{BuilderLaws B}.
Abbreviation mid m := (mid_raws (B:=B) m).

(** An inner hello and an outer hello that a client makes of one. *)
Record ech_pair (outer inner : clientHelloMsg.t) : Prop := {
  ep_outer : clientHello_ok outer;
  ep_inner : clientHello_ok inner;
  ep_session : clientHelloMsg.sessionId outer = clientHelloMsg.sessionId inner;
  ep_status : clientHelloMsg.ocspStapling outer = clientHelloMsg.ocspStapling inner;
  ep_curves : clientHelloMsg.supportedCurves outer = clientHelloMsg.supportedCurves inner;
  ep_algs : clientHelloMsg.supportedSignatureAlgorithms outer = clientHelloMsg.supportedSignatureAlgorithms inner;
  ep_algsCert : clientHelloMsg.supportedSignatureAlgorithmsCert outer = clientHelloMsg.supportedSignatureAlgorithmsCert inner;
  ep_alpn : clientHelloMsg.alpnProtocols outer = clientHelloMsg.alpnProtocols inner;
  ep_versions : clientHelloMsg.supportedVersions outer = clientHelloMsg.supportedVersions inner;
  ep_cookie : clientHelloMsg.cookie outer = clientHelloMsg.cookie inner;
  ep_shares : clientHelloMsg.keyShares outer = clientHelloMsg.keyShares inner;
  ep_modes : clientHelloMsg.pskModes outer = clientHelloMsg.pskModes inner;
  (* no extension that TLS 1.3 does not have *)
  ep_points : clientHelloMsg.supportedPoints inner = [];
  ep_ticket : clientHelloMsg.ticketSupported inner = false;
  ep_reneg : clientHelloMsg.secureRenegotiationSupported inner = false;
  ep_ems : clientHelloMsg.extendedMasterSecret inner = false;
  ep_ech : clientHelloMsg.encryptedClientHello inner = [innerECHExt];
  ep_tls13 : check_versions (clientHelloMsg.supportedVersions inner) = Ret tt
}.

Lemma mid_same outer inner : ech_pair outer inner -> mid outer = mid inner.
Proof.
  intros [_ _ _ E1 E2 E3 E4 E5 E6 E7 E8 E9 _ _ _ _ _ _]. unfold mid_raws, clientHelloMsg.compressible.
  by rewrite E1, E2, E3, E4, E5, E6, E7, E8, E9.
Qed.

Definition compressible_types : list Z := [extensionStatusRequest; extensionSupportedCurves; extensionSignatureAlgorithms;
  extensionSignatureAlgorithmsCert; extensionALPN; extensionSupportedVersions; extensionCookie; extensionKeyShare; extensionPSKModes].
Definition front_types : list Z := [extensionServerName; extensionSupportedPoints; extensionSessionTicket;
  extensionRenegotiationInfo; extensionExtendedMasterSecret; extensionSCT; extensionEarlyData; extensionQUICTransportParameters;
  extensionEncryptedClientHello].

Lemma raws_types (l : list (Z * bool * (B -> B))) :
  extType <$> concat ((fun '(typ, present, body) => raws_when present typ body) <$> l) =
  (fun e => fst (fst e)) <$> filter (fun e => snd (fst e) = true) l.
Proof.
  induction l as [|[[typ c] body] l IH]; [done|]. rewrite fmap_cons. cbn [concat]. rewrite fmap_app, IH, filter_cons.
  by destruct c.
Qed.
Lemma mid_types m : extType <$> mid m = clientHelloMsg.echOuterExts B m.
Proof. apply raws_types. Qed.

Lemma mid_sublist m : sublist (extType <$> mid m) compressible_types.
Proof.
  rewrite mid_types. unfold clientHelloMsg.echOuterExts.
  assert (E : compressible_types = (fun e => fst (fst e)) <$> clientHelloMsg.compressible B m) by reflexivity.
  rewrite E. apply fmap_sublist, sublist_filter.
Qed.

Lemma mid_in m : Forall (fun r => extType r ∈ compressible_types) (mid m).
Proof.
  apply Forall_forall. intros r Hr. eapply elem_of_submseteq; [by apply list_elem_of_fmap_2|].
  apply sublist_submseteq, mid_sublist.
Qed.

Lemma mid_NoDup m : NoDup (extType <$> mid m).
Proof. eapply sublist_NoDup; [|apply mid_sublist]. compute_decide. Qed.

Lemma front_in e m : Forall (fun r => extType r ∈ front_types) (front_raws (B:=B) e m).
Proof.
  unfold front_raws, raws_when.
  repeat apply Forall_app_2; match goal with |- Forall _ (if ?c then _ else _) => destruct c end; repeat constructor; compute_decide.
Qed.

Lemma back_in m : Forall (fun r => extType r = extensionPreSharedKey) (back_raws (B:=B) m).
Proof. unfold back_raws, raws_when. destruct (nonempty_list _); by repeat constructor. Qed.

Lemma types_disjoint x : x ∈ front_types -> x ∉ compressible_types.
Proof.
  assert (Hd : Forall (fun x => x ∉ compressible_types) front_types) by compute_decide.
  intros Hx. rewrite Forall_forall in Hd. by apply Hd.
Qed.

Lemma front_mid e m l : Forall (fun r => extType r ∉ extType <$> mid l) (front_raws (B:=B) e m).
Proof.
  eapply Forall_impl; [apply front_in|]. intros r Hr%types_disjoint Hm. apply Hr.
  eapply elem_of_submseteq; [exact Hm|]. apply sublist_submseteq, mid_sublist.
Qed.

Lemma mid_usable m : Forall (fun r => is_u16 (extType r) /\ extType r <> extensionEncryptedClientHello) (mid m).
Proof.
  eapply Forall_impl; [apply mid_in|]. intros r Hr.
  assert (Hd : Forall (fun x => (0 <= x < 65536) /\ x <> extensionEncryptedClientHello) compressible_types) by compute_decide.
  rewrite Forall_forall in Hd. by apply Hd.
Qed.

Lemma mid_length m : Z.of_nat (length (enc_types (mid m))) < 256.
Proof.
  assert (E : length (enc_types (mid m)) = (2 * length (mid m))%nat).
  { unfold enc_types. induction (mid m) as [|r l IH]; [done|]. cbn [fmap list_fmap concat]. rewrite length_app, length_be_put.
    cbn [length]. cbn [fmap list_fmap] in IH. lia. }
  pose proof (mid_sublist m) as Hs. apply sublist_length in Hs. rewrite length_fmap in Hs. change (length compressible_types) with 9%nat in Hs. lia.
Qed.

(** What the reference says: the types of the extensions that are left out. *)
Lemma ref_raws_mid m : ref_raws (B:=B) m = [] /\ mid m = [] \/
  ref_raws (B:=B) m = [mkRaw extensionECHOuterExtensions (be_put 1 (Z.of_nat (length (enc_types (mid m)))) ++ enc_types (mid m))].
Proof.
  unfold ref_raws, raws_when. rewrite <- mid_types. destruct (mid m) as [|r l] eqn:E; [by left|right]. rewrite <- E.
  rewrite (proj2 (nonempty_list_spec _)) by (by rewrite E). f_equal. f_equal. apply body_of_appends.
  assert (Ha : appends (B:=B) (AddUint8LengthPrefixed (addUint16s (extType <$> mid m)))
    (prefixed 1 (oconcat ((fun v => Some (be_put 2 v)) <$> (extType <$> mid m))))) by appends_tac.
  assert (Ho : oconcat ((fun v => Some (be_put 2 v)) <$> (extType <$> mid m)) = Some (enc_types (mid m))).
  { unfold enc_types. clear. induction (mid m) as [|r l IH]; [done|]. cbn in IH |- *. unfold oapp in *. by rewrite IH. }
  rewrite Ho in Ha. unfold prefixed in Ha. cbn [mbind option_bind] in Ha. pose proof (mid_length m).
  change (256 ^ Z.of_nat 1) with 256 in Ha. rewrite (proj2 (Z.ltb_lt _ _)) in Ha by lia. exact Ha.
Qed.

Lemma front_raws_e m e : clientHelloMsg.supportedPoints m = [] -> clientHelloMsg.ticketSupported m = false ->
  clientHelloMsg.secureRenegotiationSupported m = false -> clientHelloMsg.extendedMasterSecret m = false ->
  front_raws (B:=B) e m = front_raws false m.
Proof. intros E1 E2 E3 E4. unfold front_raws. by rewrite E1, E2, E3, E4. Qed.

Lemma not_reference l : Forall (fun r => extType r ∈ front_types) l \/ Forall (fun r => extType r = extensionPreSharedKey) l ->
  Forall (fun r => extType r <> extensionECHOuterExtensions) l.
Proof.
  assert (Hd : Forall (fun x => x <> extensionECHOuterExtensions) front_types) by compute_decide.
  intros [Hl|Hl]; (eapply Forall_impl; [exact Hl|]); intros r Hr; [|by rewrite Hr]. rewrite Forall_forall in Hd. by apply Hd.
Qed.

(** The extensions that the encoded inner hello stands for. *)
Lemma inner_exts_hello outer inner : ech_pair outer inner -> Forall raw_ok (hello_raws (B:=B) true inner) ->
  inner_exts no_fuel (length (enc_raws (hello_raws (B:=B) true inner))) (hello_raws (B:=B) false outer)
    (enc_raws (hello_raws (B:=B) true inner)) [] = (hello_raws (B:=B) false inner, None).
Proof.
  intros Hp Hok. unfold hello_raws in *. rewrite (mid_same outer inner Hp), (front_raws_e inner true) in * by apply Hp.
  apply Forall_app in Hok as [Hf [Hr Hb]%Forall_app]. rewrite !enc_raws_app.
  destruct (inner_exts_raws no_fuel _ (front_raws (B:=B) false outer ++ mid inner ++ back_raws (B:=B) outer)
    (front_raws (B:=B) false inner) (enc_raws (ref_raws inner) ++ enc_raws (back_raws (B:=B) inner)) [] (le_n _) Hf) as (f1 & Hf1 & ->);
    [apply not_reference; left; apply front_in|].
  assert (Hmid : exists f2, (length (enc_raws (back_raws (B:=B) inner)) <= f2)%nat /\
    inner_exts no_fuel f1 (front_raws (B:=B) false outer ++ mid inner ++ back_raws (B:=B) outer)
      (enc_raws (ref_raws inner) ++ enc_raws (back_raws (B:=B) inner)) ([] ++ front_raws false inner) =
    inner_exts no_fuel f2 (front_raws (B:=B) false outer ++ mid inner ++ back_raws (B:=B) outer)
      (enc_raws (back_raws (B:=B) inner)) (([] ++ front_raws false inner) ++ mid inner)).
  { destruct (ref_raws_mid inner) as [[E1 E2]|E]; rewrite ?E1, ?E2, ?E in *.
    - exists f1. rewrite app_nil_r. split; [|done]. unfold enc_raws in Hf1. cbn in Hf1. exact Hf1.
    - assert (Ee : forall x, enc_raws [x] = enc_raw x) by (intros x; apply app_nil_r). rewrite Ee in *.
      apply inner_exts_ref; [done|apply mid_length|apply mid_usable|apply mid_NoDup|apply front_mid]. }
  destruct Hmid as (f2 & Hf2 & ->). rewrite <- (app_nil_r (enc_raws (back_raws (B:=B) inner))) in Hf2 |- *.
  destruct (inner_exts_raws no_fuel _ (front_raws (B:=B) false outer ++ mid inner ++ back_raws (B:=B) outer)
    (back_raws (B:=B) inner) [] (([] ++ front_raws (B:=B) false inner) ++ mid inner) Hf2 Hb) as (f3 & _ & ->);
    [apply not_reference; right; apply back_in|].
  cbn [app]. rewrite <- app_assoc. by destruct f3.
Qed.

(** The parts of a ClientHello as it is marshaled. *)
Definition hello_body (e : bool) (m : clientHelloMsg.t) (suites exts : bytes) : bytes :=
  let sid := if e then [] else clientHelloMsg.sessionId m in
  be_put 2 (clientHelloMsg.vers m) ++ clientHelloMsg.random m ++
  (be_put 1 (Z.of_nat (length sid)) ++ sid) ++
  (be_put 2 (Z.of_nat (length suites)) ++ suites) ++
  (be_put 1 (Z.of_nat (length (clientHelloMsg.compressionMethods m))) ++ clientHelloMsg.compressionMethods m) ++
  (if nonempty_list exts then be_put 2 (Z.of_nat (length exts)) ++ exts else []).
Record hello_parts (e : bool) (m : clientHelloMsg.t) (suites exts data : bytes) : Prop := {
  hp_exts : exts = enc_raws (hello_raws (B:=B) e m) /\ Forall raw_ok (hello_raws (B:=B) e m);
  hp_suites : oconcat ((fun v => Some (be_put 2 v)) <$> clientHelloMsg.cipherSuites m) = Some suites;
  hp_random : length (clientHelloMsg.random m) = 32%nat;
  hp_sid : Z.of_nat (length (if e then [] else clientHelloMsg.sessionId m)) < 256;
  hp_suites_len : Z.of_nat (length suites) < 65536;
  hp_compression : Z.of_nat (length (clientHelloMsg.compressionMethods m)) < 256;
  hp_exts_len : Z.of_nat (length exts) < 65536;
  hp_data : data = be_put 1 typeClientHello ++ be_put 3 (Z.of_nat (length (hello_body e m suites exts))) ++ hello_body e m suites exts;
  hp_data_len : Z.of_nat (length (hello_body e m suites exts)) < 256 ^ 3
}.

Lemma marshalMsg_parts e m data : clientHelloMsg.marshalMsg B e m = Ret data -> exists suites exts, hello_parts e m suites exts data.
Proof.
  unfold clientHelloMsg.marshalMsg.
  destruct (Bytes (clientHelloMsg.marshal_exts B e m NewBuilder)) as [exts|er|w] eqn:Hx; [|done..]. cbn [obind]. intros Hm.
  apply (yields_Bytes _ _ _ (marshal_exts_yields e m)) in Hx as [Hx Hok].
  subst exts. built Hm. inv_enc. set (exts := enc_raws (hello_raws (B:=B) e m)) in *.
  match goal with Q : (if (_ =? 32)%nat then _ else _) = Some ?x |- _ => rename Q into Hr, x into xr end.
  match goal with Q : (if negb e then _ else _) = Some ?x |- _ => rename Q into Hsid, x into xs end.
  match goal with Q : oconcat _ = Some ?x |- _ => rename Q into Hsu, x into xc end.
  match goal with Q : (if nonempty_list exts then _ else _) = Some ?x |- _ => rename Q into Hex, x into xe end.
  destruct (Nat.eqb_spec (length (clientHelloMsg.random m)) 32) as [Hrl|]; [|done]. apply Some_inj in Hr as <-.
  assert (Es : xs = if e then [] else clientHelloMsg.sessionId m) by (destruct e; by injection Hsid as <-). subst xs.
  assert (Ee : xe = (if nonempty_list exts then be_put 2 (Z.of_nat (length exts)) ++ exts else []) /\ Z.of_nat (length exts) < 65536).
  { destruct (nonempty_list exts) eqn:En.
    - apply prefixed_Some in Hex as (y & [= <-] & Hl & ->). by split.
    - injection Hex as <-. apply nonempty_list_false in En as ->. by split. }
  destruct Ee as [-> Hel]. exists xc, exts. by constructor.
Qed.

Lemma drop_header e m suites exts data : hello_parts e m suites exts data -> drop 4 data = hello_body e m suites exts.
Proof.
  intros Hp. rewrite (hp_data _ _ _ _ _ Hp), app_assoc. apply drop_app_length'.
  by rewrite length_app, !length_be_put.
Qed.

Lemma has_ech_raw e m : clientHelloMsg.encryptedClientHello m <> [] -> enc_raws (hello_raws (B:=B) e m) <> [].
Proof.
  intros He. assert (Hl : hello_raws (B:=B) e m <> []).
  { unfold hello_raws, front_raws, raws_when. rewrite (proj2 (nonempty_list_spec _) He). intros E.
    repeat match goal with Q : _ ++ _ = [] |- _ => apply app_eq_nil in Q as [? ?] end. done. }
  destruct (hello_raws e m) as [|r l]; [done|]. unfold enc_raws. cbn [fmap list_fmap concat]. intros E%(f_equal length).
  pose proof (length_enc_raw r). rewrite length_app in E. cbn in E. lia.
Qed.

Lemma read_encoded_body m suites exts data pad : hello_parts true m suites exts data -> exts <> [] ->
  read_encoded (hello_body true m suites exts ++ pad) =
    Some (be_put 2 (clientHelloMsg.vers m) ++ clientHelloMsg.random m, suites, clientHelloMsg.compressionMethods m, exts, pad).
Proof.
  intros [_ _ Hr Hs Hsl Hc Hel _ _] He. unfold read_encoded, hello_body. rewrite (proj2 (nonempty_list_spec exts) He).
  rewrite <- !app_assoc. rewrite (app_assoc (be_put 2 (clientHelloMsg.vers m))).
  rewrite ReadBytes_spec, read_bytes_app by (by rewrite length_app, length_be_put, Hr).
  cbn [mbind option_bind length Z.of_nat]. rewrite <- ?app_assoc. cbn [app]. reads. reflexivity.
Qed.

Lemma extract_raws m suites exts data : hello_parts false m suites exts data -> exts <> [] ->
  extractRawExtensions (clientHelloMsg.set_original (Some data) m) = Ret (hello_raws (B:=B) false m).
Proof.
  intros Hp He. pose proof (drop_header _ _ _ _ _ Hp) as Hd. destruct Hp as [[Hx Hok] _ Hr Hs Hsl Hc Hel Hdata _].
  unfold extractRawExtensions. change (default [] _) with data.
  assert (E : data = (be_put 1 typeClientHello ++ be_put 3 (Z.of_nat (length (hello_body false m suites exts))) ++
      be_put 2 (clientHelloMsg.vers m) ++ clientHelloMsg.random m) ++
    (be_put 1 (Z.of_nat (length (clientHelloMsg.sessionId m))) ++ clientHelloMsg.sessionId m) ++
    (be_put 2 (Z.of_nat (length suites)) ++ suites) ++
    (be_put 1 (Z.of_nat (length (clientHelloMsg.compressionMethods m))) ++ clientHelloMsg.compressionMethods m) ++
    be_put 2 (Z.of_nat (length exts)) ++ exts).
  { rewrite Hdata. unfold hello_body at 2. rewrite (proj2 (nonempty_list_spec exts) He). by rewrite <- !app_assoc. }
  rewrite E, Skip_app by (rewrite !length_app, !length_be_put, Hr; reflexivity). cbn [mbind option_bind].
  rewrite skip8_put by done. cbn [mbind option_bind]. rewrite skip16_put by done. cbn [mbind option_bind].
  rewrite skip8_put by done. cbn [mbind option_bind].
  rewrite ReadUint16LengthPrefixed_spec, read_prefixed_put_nil by (done || lia). cbn [mbind option_bind or_err obind].
  by rewrite Hx, read_raws.
Qed.

(** The message is built again from its parts. *)
Lemma reconstruct_parts m suites exts data : hello_parts false m suites exts data -> exts <> [] ->
  reconstruct (B:=B) (be_put 2 (clientHelloMsg.vers m) ++ clientHelloMsg.random m) (clientHelloMsg.sessionId m) suites
    (clientHelloMsg.compressionMethods m) (hello_raws (B:=B) false m, None) = Ret data.
Proof.
  intros [[Hx Hok] _ Hr Hs Hsl Hc Hel Hdata Hdl] He. unfold reconstruct. cbn [fst snd].
  assert (Hraws : appends (for_each (add_raw (B:=B)) (hello_raws (B:=B) false m)) (Some exts)).
  { rewrite Hx. clear - Hok H2. induction Hok as [|r l [Ht Hl] _ IH]; [apply appends_id|].
    pose proof (appends_then _ _ _ _ (appends_ext (extType r) (AddBytes (raw_data r)) _ (AddBytes_spec (raw_data r))) IH) as Ha.
    unfold enc_ext in Ha. rewrite prefixed_put in Ha by exact Hl. exact Ha. }
  apply (fun Q => appends_then _ _ _ _ Q appends_id) in Hraws. unfold oapp in Hraws. cbn [mbind option_bind] in Hraws.
  rewrite app_nil_r in Hraws. set (stmt := for_each _ _ ;> _) in *. clearbody stmt.
  eapply appends_new; [appends_tac|]. rewrite !prefixed_put by done.
  unfold oapp. cbn [mbind option_bind]. 
  assert (Eb : (be_put 2 (clientHelloMsg.vers m) ++ clientHelloMsg.random m) ++
    (be_put 1 (Z.of_nat (length (clientHelloMsg.sessionId m))) ++ clientHelloMsg.sessionId m) ++
    (be_put 2 (Z.of_nat (length suites)) ++ suites) ++
    (be_put 1 (Z.of_nat (length (clientHelloMsg.compressionMethods m))) ++ clientHelloMsg.compressionMethods m) ++
    be_put 2 (Z.of_nat (length exts)) ++ exts = hello_body false m suites exts).
  { unfold hello_body. rewrite (proj2 (nonempty_list_spec exts) He). by rewrite <- !app_assoc. }
  rewrite Eb, prefixed_put by exact Hdl. cbn [mbind option_bind]. by rewrite Hdata.
Qed.

Lemma marshal_ok_unmarshal outer od : clientHello_ok outer -> clientHelloMsg.marshal B outer = Ret od ->
  clientHelloMsg.unmarshal od = Some (received od outer).
Proof. apply clientHello_roundtrip. Qed.

Lemma replicate_zero n : existsb (fun p => negb (p =? 0)) (replicate n 0) = false.
Proof. by induction n. Qed.

(** The server reconstructs the bytes of the inner hello. *)
Lemma decode_encode outer inner od enc d n : ech_pair outer inner -> clientHelloMsg.encryptedClientHello outer <> [] ->
  clientHelloMsg.marshal B outer = Ret od -> clientHelloMsg.marshal B inner = Ret d ->
  encodeInnerClientHello (B:=B) inner n = Ret enc ->
  decodeInnerClientHello (B:=B) (received od outer) enc = Ret (received d inner).
Proof.
  intros Hp Heo Ho Hi Henc. unfold encodeInnerClientHello in Henc.
  destruct (clientHelloMsg.marshalMsg B true inner) as [h| |] eqn:Hh; [|done..]. cbn [obind] in Henc.
  set (pad := replicate _ 0) in Henc. injection Henc as <-.
  apply marshalMsg_parts in Hh as (suites & exts & Hh). apply marshalMsg_parts in Hi as Hi'. destruct Hi' as (suites' & exts' & Hi').
  apply marshalMsg_parts in Ho as Ho'. destruct Ho' as (suites_o & exts_o & Ho').
  assert (Es : suites' = suites).
  { pose proof (hp_suites _ _ _ _ _ Hh) as Q. rewrite (hp_suites _ _ _ _ _ Hi') in Q. by injection Q. }
  subst suites'. pose proof (ep_ech _ _ Hp) as Hech.
  assert (Hne : exts <> [] /\ exts' <> [] /\ exts_o <> []).
  { rewrite (proj1 (hp_exts _ _ _ _ _ Hh)), (proj1 (hp_exts _ _ _ _ _ Hi')), (proj1 (hp_exts _ _ _ _ _ Ho')).
    split_and!; apply has_ech_raw; congruence. }
  destruct Hne as (Hne & Hne' & Hneo). rewrite (drop_header _ _ _ _ _ Hh).
  unfold decodeInnerClientHello. rewrite (read_encoded_body _ _ _ _ pad Hh Hne). cbn [or_err obind].
  unfold pad. rewrite replicate_zero.
  assert (Ex : extractRawExtensions (received od outer) = Ret (hello_raws (B:=B) false outer)) by exact (extract_raws _ _ _ _ Ho' Hneo).
  rewrite Ex. cbn [obind]. change (clientHelloMsg.sessionId (received od outer)) with (clientHelloMsg.sessionId outer).
  rewrite (ep_session _ _ Hp). destruct (hp_exts _ _ _ _ _ Hh) as [-> Hok]. rewrite (inner_exts_hello outer inner Hp Hok).
  rewrite (reconstruct_parts _ _ _ _ Hi' Hne'). cbn [obind].
  rewrite (clientHello_roundtrip inner d (ep_inner _ _ Hp) Hi).
  change (clientHelloMsg.encryptedClientHello (received d inner)) with (clientHelloMsg.encryptedClientHello inner).
  rewrite Hech, bool_decide_eq_true_2 by done. cbn [negb].
  change (clientHelloMsg.supportedVersions (received d inner)) with (clientHelloMsg.supportedVersions inner).
  by rewrite (ep_tls13 _ _ Hp).
Qed.
End inner.
