(* ===== verification/EchAccept.v ===== *)
(** * The server accepts what the client encrypted

    The outer hello that [computeAndUpdateOuterECHExtension] makes, and
    [processECHClientHello] on it. *)

From stdpp Require Import sets.
From S2P Require Import Prelude Common HalfConn Cryptobyte Hello Messages WireProofs HelloProofs WireTheorems Kdf KdfProofs Hpke HpkeProofs Conn.
From S2P Require Import RealityHandshake Ech EchProofs.

Open Scope go_scope.
#[local] Opaque be_put.

(** ** [bytes.Replace] *)

(** The first occurrence of [x] in [p ++ x ++ q] is behind [p]. *)
Definition first_after (p x q : bytes) : Prop :=
  forall p' q', p ++ x ++ q = p' ++ x ++ q' -> (length p <= length p')%nat.

Lemma replace_first_spec p x q new : x <> [] -> first_after p x q -> replace_first (p ++ x ++ q) x new = p ++ new ++ q.
Proof.
  intros Hx. induction p as [|c p IH]; intros Hf; cbn [app].
  - destruct (x ++ q) as [|y s] eqn:E; [by destruct x|]. cbn [replace_first].
    rewrite bool_decide_eq_true_2 by (rewrite <- E; apply take_app_length).
    by rewrite <- E, drop_app_length.
  - cbn [replace_first]. rewrite bool_decide_eq_false_2.
    + f_equal. apply IH. intros p' q' E. specialize (Hf (c :: p') q'). cbn in Hf. rewrite E in Hf. specialize (Hf eq_refl). lia.
    + intros E. specialize (Hf [] (drop (length x) (c :: p ++ x ++ q))). cbn [app length] in Hf.
      rewrite <- E in Hf at 2. rewrite take_drop in Hf. specialize (Hf eq_refl). lia.
Qed.

(** ** The extension of the outer hello *)

Section outer.
Context {B : Type} `{CryptoStringLaws} `{BuilderLaws B}.

Definition with_ech (e : bytes) (m : clientHelloMsg.t) : clientHelloMsg.t := clientHelloMsg.set_encryptedClientHello e m.

Lemma body_of_bytes e : body_of (B:=B) (AddBytes e) = e.
Proof. apply body_of_appends, AddBytes_spec. Qed.

(** The extensions around it. *)
Lemma hello_raws_around m (e : bytes) : e <> [] ->
  hello_raws (B:=B) false (with_ech e m) =
    front_raws (B:=B) false (with_ech [] m) ++ mkRaw extensionEncryptedClientHello e :: mid_raws (B:=B) m ++ back_raws (B:=B) m.
Proof.
  intros He. assert (Ef : front_raws (B:=B) false (with_ech e m) = front_raws (B:=B) false (with_ech [] m) ++ [mkRaw extensionEncryptedClientHello e]).
  { unfold front_raws. rewrite <- !app_assoc. do 8 f_equal. cbn [with_ech clientHelloMsg.set_encryptedClientHello clientHelloMsg.encryptedClientHello].
    rewrite (proj2 (nonempty_list_spec e) He). unfold raws_when. cbn [nonempty_list app]. by rewrite body_of_bytes. }
  unfold hello_raws. rewrite Ef, <- app_assoc. done.
Qed.

(** A ClientHello before its extensions, which have [n] bytes. *)
Definition body_head (m : clientHelloMsg.t) (suites : bytes) (n : nat) : bytes :=
  be_put 2 (clientHelloMsg.vers m) ++ clientHelloMsg.random m ++
  (be_put 1 (Z.of_nat (length (clientHelloMsg.sessionId m))) ++ clientHelloMsg.sessionId m) ++
  (be_put 2 (Z.of_nat (length suites)) ++ suites) ++
  (be_put 1 (Z.of_nat (length (clientHelloMsg.compressionMethods m))) ++ clientHelloMsg.compressionMethods m) ++
  be_put 2 (Z.of_nat n).
Lemma body_split m suites exts : exts <> [] -> hello_body false m suites exts = body_head m suites (length exts) ++ exts.
Proof. intros He. unfold hello_body, body_head. rewrite (proj2 (nonempty_list_spec exts) He). by rewrite <- !app_assoc. Qed.

(** The bytes before and behind the extension do not depend on it but for its
    length. *)
Lemma marshal_around m e e' data data' : length e = length e' -> e <> [] -> e' <> [] ->
  clientHelloMsg.marshal B (with_ech e m) = Ret data -> clientHelloMsg.marshal B (with_ech e' m) = Ret data' ->
  exists p q, drop 4 data = p ++ e ++ q /\ drop 4 data' = p ++ e' ++ q.
Proof.
  intros Hl He He' Hm Hm'. apply marshalMsg_parts in Hm as (su & ex & Hm). apply marshalMsg_parts in Hm' as (su' & ex' & Hm').
  rewrite (drop_header _ _ _ _ _ Hm), (drop_header _ _ _ _ _ Hm').
  assert (Es : su' = su).
  { pose proof (hp_suites _ _ _ _ _ Hm) as Q. change (clientHelloMsg.cipherSuites (with_ech e m)) with (clientHelloMsg.cipherSuites (with_ech e' m)) in Q.
    rewrite (hp_suites _ _ _ _ _ Hm') in Q. by injection Q. }
  subst su'. set (l := front_raws (B:=B) false (with_ech [] m)) in *. set (r := mid_raws (B:=B) m ++ back_raws (B:=B) m) in *.
  destruct (hp_exts _ _ _ _ _ Hm) as [Ex _], (hp_exts _ _ _ _ _ Hm') as [Ex' _]. rewrite hello_raws_around in Ex, Ex' by done. fold l r in Ex, Ex'.
  set (pre := enc_raws l ++ be_put 2 extensionEncryptedClientHello ++ be_put 2 (Z.of_nat (length e))).
  assert (Ee : ex = pre ++ e ++ enc_raws r /\ ex' = pre ++ e' ++ enc_raws r).
  { rewrite Ex, Ex'. unfold pre. rewrite !enc_raws_app. unfold enc_raws at 2 5. cbn [fmap list_fmap concat]. unfold enc_raw. cbn [extType raw_data].
    rewrite Hl, <- !app_assoc. by split. }
  destruct Ee as [-> ->].
  assert (Hn : forall x y : bytes, x <> [] -> pre ++ x ++ y <> []).
  { intros x y Hx E. apply app_eq_nil in E as [_ E]. by apply app_eq_nil in E as [? _]. }
  assert (Hlen : length (pre ++ e' ++ enc_raws r) = length (pre ++ e ++ enc_raws r)) by (rewrite !length_app; lia).
  rewrite !body_split, Hlen by auto. exists (body_head m su (length (pre ++ e ++ enc_raws r)) ++ pre), (enc_raws r).
  by rewrite <- !app_assoc.
Qed.

(** The extension as bytes, before its payload. *)
Definition ech_header (id kdf aead : Z) (encap : bytes) (n : Z) : bytes :=
  be_put 1 0 ++ be_put 2 kdf ++ be_put 2 aead ++ be_put 1 id ++
  (be_put 2 (Z.of_nat (length encap)) ++ encap) ++ be_put 2 n.

Lemma generate_Ret id kdf aead encap payload e : generateOuterECHExt (B:=B) id kdf aead encap payload = Ret e ->
  e = ech_header id kdf aead encap (Z.of_nat (length payload)) ++ payload /\
  Z.of_nat (length encap) < 65536 /\ Z.of_nat (length payload) < 65536.
Proof.
  unfold generateOuterECHExt. intros Q. built Q. inv_enc. split_and!; [|done|done].
  unfold ech_header. by rewrite <- ?app_assoc.
Qed.

Lemma parse_generated id kdf aead encap payload : is_u8 id -> is_u16 kdf -> is_u16 aead ->
  Z.of_nat (length encap) < 65536 -> Z.of_nat (length payload) < 65536 ->
  parseECHExt (ech_header id kdf aead encap (Z.of_nat (length payload)) ++ payload) =
    Ret (outerECHExt, mkEchCipher kdf aead, id, encap, payload).
Proof.
  intros Hi Hk Ha Hl Hp. unfold parseECHExt, ech_header. rewrite <- !app_assoc.
  rewrite ReadUint8_spec, read_uint_put by done. cbn [or_err obind]. eval_eqb. cbn [negb].
  rewrite ReadUint16_spec, read_uint_put by done. cbn [or_err obind].
  rewrite ReadUint16_spec, read_uint_put by done. cbn [or_err obind].
  rewrite ReadUint8_spec, read_uint_put by done. cbn [or_err obind].
  rewrite ReadUint16LengthPrefixed_spec, read_prefixed_put_app by done. cbn [or_err obind].
  rewrite ReadUint16LengthPrefixed_spec, read_prefixed_put_nil by done. done.
Qed.
End outer.

(** ** Acceptance *)

Section accept.
Context `{HashesLaws} `{hpke.X25519} {Block T : Type} `{hpke.cipherAEAD T} {B : Type} `{CryptoStringLaws} `{BuilderLaws B}.
Context {S A C K : Type} `{Stream S} `{RecordAEAD A} `{CbcMode C} `{MacFun K}.
Context (aes_NewCipher : bytes -> outcome conn_error Block) (cipher_NewGCM : Block -> outcome conn_error T).
Context (chacha20poly1305_New : bytes -> outcome conn_error T).
(** X25519 agrees and keeps encodings; the AEADs open what they seal, and their
    tags have 16 bytes. *)
Hypothesis ecdh_commutes : forall a b, hpke.ECDH a (hpke.Public b) = hpke.ECDH b (hpke.Public a).
Hypothesis NewPublicKey_Bytes : forall p, hpke.NewPublicKey (hpke.PublicKey_Bytes p) = Ret p.
Hypothesis Open_Seal : forall (a : T) nonce p ad c, hpke.aead_Seal a nonce p ad = Ret c -> hpke.aead_Open a nonce c ad = Ret p.
Hypothesis tag_length : forall (a : T) nonce p ad c, hpke.aead_Seal a nonce p ad = Ret c -> length c = (length p + 16)%nat.

(** What the update does: the hello is marshaled with zeros in the place of the
    payload, which then replaces them. *)
Lemma update_Ret outer inner config ctx enc kdf aead outer' ech' :
  computeAndUpdateOuterECHExtension (B:=B) outer inner (mkEchClient config ctx enc kdf aead) true = Ret (outer', ech') ->
  exists encoded ser payload, let h := ech_header (echConfig.ConfigID config) kdf aead enc (Z.of_nat (length payload)) in
    encodeInnerClientHello (B:=B) inner (echConfig.MaxNameLength config) = Ret encoded /\
    length payload = (length encoded + 16)%nat /\ Z.of_nat (length enc) < 65536 /\ Z.of_nat (length payload) < 65536 /\
    clientHelloMsg.marshal B (with_ech (h ++ replicate (length payload) 0) outer) = Ret ser /\
    hpke.Seal ctx (drop 4 ser) encoded = (Ret payload, ecc_hpkeContext ech') /\
    outer' = with_ech (h ++ payload) outer.
Proof.
  unfold computeAndUpdateOuterECHExtension. cbn [ecc_config ecc_hpkeContext encapsulatedKey ecc_kdfID ecc_aeadID].
  destruct (encodeInnerClientHello _ _) as [encoded| |] eqn:Henc; [|done..]. cbn [obind].
  destruct (generateOuterECHExt _ _ _ _ (replicate _ 0)) as [e0| |] eqn:He0; [|done..]. cbn [obind].
  destruct (clientHelloMsg.marshal _ _) as [ser| |] eqn:Hser; [|done..]. cbn [obind].
  destruct (hpke.Seal _ _ _) as [[payload| |] ctx'] eqn:Hseal; [|done..]. cbn [obind].
  destruct (generateOuterECHExt _ _ _ _ payload) as [e1| |] eqn:He1; [|done..]. cbn [obind]. intros [= <- <-].
  apply generate_Ret in He0 as (-> & _ & _). apply generate_Ret in He1 as (-> & Hl & Hp).
  assert (Hlen : length payload = (length encoded + 16)%nat).
  { pose proof (Seal_Ret _ _ _ _ _ Hseal) as (nonce & _ & Hs & _). by eapply tag_length. }
  exists encoded, ser, payload. rewrite length_replicate in Hser. rewrite Hlen. split_and!; try done. by rewrite <- Hlen.
Qed.

Lemma ech_pair_with e outer inner : ech_pair outer inner -> ech_pair (with_ech e outer) inner.
Proof. intros [[] ]. by constructor; [constructor|..]. Qed.

(** The payload occurs in the outer hello for the first time where it is. *)
Definition payload_once (outer : clientHelloMsg.t) (od : bytes) : Prop :=
  forall t cs id enc payload p q, parseECHExt (clientHelloMsg.encryptedClientHello outer) = Ret (t, cs, id, enc, payload) ->
    drop 4 od = p ++ payload ++ q -> first_after p payload q.

(** C26: What a client encrypts the server accepts: with a key whose
    configuration the client has used, [processECHClientHello] opens the payload
    of the outer hello that [computeAndUpdateOuterECHExtension] made, and
    reconstructs the inner hello byte by byte, the extensions that were left out
    of it included; the HPKE contexts of both ends agree, for a second hello.  It
    holds as long as the bytes of the payload do not occur earlier in the outer
    hello, as the server looks for them with [bytes.Replace]. *)
Theorem ech_accepted k rest config priv kdf aead generated enc ctx outer inner outer' ech' d od dyn_off rand (c : Conn S A C K) :
  parseECHConfig (ech_Config k) = Ret (false, config) ->
  hpke.ParseHPKEPrivateKey (echConfig.KemID config) (ech_PrivateKey k) = Ret priv ->
  is_u8 (echConfig.ConfigID config) -> is_u16 kdf -> is_u16 aead ->
  hpke.SetupSender aes_NewCipher cipher_NewGCM chacha20poly1305_New hpke.DHKEM_X25519_HKDF_SHA256 kdf aead generated
    (hpke.Public priv) (str "tls ech" ++ [0] ++ ech_Config k) = Ret (enc, ctx) ->
  ech_pair outer inner ->
  computeAndUpdateOuterECHExtension (B:=B) outer inner (mkEchClient config ctx enc kdf aead) true = Ret (outer', ech') ->
  clientHelloMsg.marshal B inner = Ret d -> clientHelloMsg.marshal B outer' = Ret od -> payload_once outer' od ->
  clientHelloMsg.unmarshal od = Some (received od outer') /\
  processECHClientHello (B:=B) aes_NewCipher cipher_NewGCM chacha20poly1305_New dyn_off rand (k :: rest) (received od outer') c =
    (Ret (received d inner,
          Some (mkEchServer (Some (ecc_hpkeContext ech')) (echConfig.ConfigID config) (mkEchCipher kdf aead) false), true), c).
Proof.
  intros Hconf Hpriv Hid Hkdf Haead Hset Hpair Hup Hd Hod Honce.
  apply update_Ret in Hup as (encoded & ser & payload & Henc & Hlen & Hle & Hlp & Hser & Hseal & Hout).
  cbv zeta in *. set (h := ech_header _ _ _ _ _) in *.
  assert (Hpair' : ech_pair outer' inner) by (rewrite Hout; by apply ech_pair_with).
  split; [by apply clientHello_roundtrip; [apply (ep_outer _ _ Hpair')|]|].
  assert (Hne : payload <> [] /\ h <> []).
  { split; [intros E; by rewrite E, Nat.add_comm in Hlen|]. unfold h, ech_header. intros E%(f_equal length). by rewrite length_app, length_be_put in E. }
  destruct Hne as [Hne Hneh].
  assert (Hparse : parseECHExt (clientHelloMsg.encryptedClientHello outer') = Ret (outerECHExt, mkEchCipher kdf aead, echConfig.ConfigID config, enc, payload)).
  { rewrite Hout. by apply parse_generated. }
  assert (Har : exists p q, drop 4 od = p ++ payload ++ q /\ drop 4 ser = p ++ replicate (length payload) 0 ++ q).
  { rewrite Hout in Hod. destruct (marshal_around outer (h ++ payload) (h ++ replicate (length payload) 0) od ser) as (p & q & -> & ->);
      try done; [by rewrite !length_app, length_replicate|by intros [? _]%app_eq_nil..|].
    exists (p ++ h), q. by rewrite <- !app_assoc. }
  destruct Har as (p & q & Hpq & Hzq).
  assert (Hdec : decryptECHPayload ctx od payload = (Ret encoded, ecc_hpkeContext ech')).
  { unfold decryptECHPayload. destruct (Nat.ltb_spec (length od) 4) as [Hl|_].
    { rewrite drop_ge in Hpq by lia. symmetry in Hpq. apply app_eq_nil in Hpq as [_ [? _]%app_eq_nil]. done. }
    rewrite Hpq, replace_first_spec, <- Hzq; [|done|by eapply Honce]. by apply Open_sealed. }
  assert (Hne' : clientHelloMsg.encryptedClientHello outer' <> []).
  { rewrite Hout. cbn. by intros [? _]%app_eq_nil. }
  pose proof (decode_encode (B:=B) _ _ _ _ _ _ Hpair' Hne' Hod Hd Henc) as Hdecode.
  unfold processECHClientHello, ech_outcome.
  change (clientHelloMsg.encryptedClientHello (received od outer')) with (clientHelloMsg.encryptedClientHello outer').
  rewrite Hparse. cbn [try_keys]. change (outerECHExt =? innerECHExt) with false. cbv iota.
  unfold try_key. rewrite Hconf, Hpriv. cbn [KDFID AEADID].
  rewrite (Setup_agree _ _ _ ecdh_commutes NewPublicKey_Bytes _ _ _ _ _ _ _ _ Hset).
  change (default [] (clientHelloMsg.original (received od outer'))) with od.
  by rewrite Hdec, Hdecode.
Qed.
End accept.
