(* ===== verification/EchConfigs.v ===== *)
(** * Encrypted Client Hello: lists of configurations, and padding

    Where the parser of configuration lists ends, a list on which it does not,
    and what the padding of an inner hello leaves visible. *)

From S2P Require Import Prelude Common HalfConn Cryptobyte Hello Messages Kdf Hpke Conn RealityHandshake Ech.

Open Scope go_scope.

Section configs.
Context `{CryptoStringLaws}.

(** The length of a configuration, as both functions read it. *)
Lemma read_length s v len s1 s2 : bytes_ok s -> ReadUint16 s = Some (v, s1) -> ReadUint16 s1 = Some (len, s2) ->
  (nth_byte s 2 ≪ 8) ||| nth_byte s 3 = len /\ 0 <= len < 65536 /\ (4 <= length s)%nat.
Proof.
  rewrite !ReadUint16_spec. intros Hs E1 E2. unfold read_uint in *.
  destruct (read_bytes 2 s) as [[a r]|] eqn:Ea; [|done]. injection E1 as _ <-.
  destruct (read_bytes 2 r) as [[b r']|] eqn:Eb; [|done]. injection E2 as <- _.
  apply read_bytes_length in Ea as (Hl1 & Ha & ->). apply read_bytes_length in Eb as (Hl2 & Hb & ->).
  destruct a as [|a0 [|a1 [|]]]; try done. destruct b as [|b0 [|b1 [|]]]; try done.
  apply Forall_app in Hs as [_ Hs]. apply Forall_app in Hs as [[Hb0 [Hb1 _]%Forall_cons]%Forall_cons _].
  unfold nth_byte. cbn [nth app]. rewrite lor_shiftl_add by (unfold is_byte in *; lia).
  unfold be_get. cbn [fold_left length app]. unfold is_byte in *. split_and!; lia.
Qed.

(** What was parsed has its length, and fits. *)
Lemma parseECHConfig_length s r : bytes_ok s -> parseECHConfig s = Ret r ->
  let len := (nth_byte s 2 ≪ 8) ||| nth_byte s 3 in 0 <= len < 65536 /\ len + 4 <= Z.of_nat (length s).
Proof.
  intros Hs. unfold parseECHConfig. destruct (ReadUint16 s) as [[v s1]|] eqn:E1; [|done]. cbn [or_err obind].
  destruct (ReadUint16 s1) as [[len s2]|] eqn:E2; [|done]. cbn [or_err obind].
  destruct (Z.ltb_spec (Z.of_nat (length s)) (len + 4)); [done|]. intros _.
  destruct (read_length s v len s1 s2 Hs E1 E2) as (-> & Hr & _). cbn zeta. lia.
Qed.

Lemma parse_configs_end stuck stuck' f f' s acc : bytes_ok s -> Z.of_nat (length s) <= 65535 ->
  (length s <= f)%nat -> (length s <= f')%nat -> parse_configs stuck f s acc = parse_configs stuck' f' s acc.
Proof.
  revert f' s acc. induction f as [|f IH]; intros f' s acc Hs Hl Hf Hf'.
  { destruct s; [by destruct f'|cbn in Hf; lia]. }
  destruct s as [|x s]; [by destruct f'|]. destruct f' as [|f']; [cbn in Hf'; lia|]. cbn [parse_configs].
  destruct (_ <? 4)%nat; [done|]. destruct (parseECHConfig (x :: s)) as [[skip ec]|e|w] eqn:Hp; [|done..]. cbn [obind].
  destruct (parseECHConfig_length _ _ Hs Hp) as [Hr Hle]. set (len := (nth_byte _ 2 ≪ 8) ||| _) in *.
  assert (Hn : Z.to_nat (u16 (len + 4)) = Z.to_nat (len + 4)) by (unfold u16; rewrite Z.mod_small; lia). rewrite Hn.
  destruct (_ <? _)%nat; [done|]. apply IH; [by apply Forall_drop|rewrite length_drop; lia..].
Qed.

(** A list that is longer than its length can say: one configuration of another
    version whose length is 65532. *)
Definition endless_list : bytes := [0; 0; 0xfe; 0x0a; 0xff; 0xfc] ++ replicate (Z.to_nat 65532) 0.

Lemma endless_header (r : bytes) : length r = Z.to_nat 65532 -> let s := [0xfe; 0x0a; 0xff; 0xfc] ++ r in
  parseECHConfig s = Ret (true, echConfig.zero) /\ (nth_byte s 2 ≪ 8) ||| nth_byte s 3 = 65532.
Proof.
  intros Hr. cbn zeta. split; [|done]. unfold parseECHConfig.
  change ([254; 10; 255; 252] ++ r) with (be_put 2 65034 ++ be_put 2 65532 ++ r).
  rewrite ReadUint16_spec, read_uint_put by done. cbn [or_err obind].
  rewrite ReadUint16_spec, read_uint_put by done. cbn [or_err obind].
  rewrite !length_app, !length_be_put, Hr, !Nat2Z.inj_add, Z2Nat.id by done. done.
Qed.

Lemma endless stuck fuel (r : bytes) acc : length r = Z.to_nat 65532 -> parse_configs stuck fuel ([0xfe; 0x0a; 0xff; 0xfc] ++ r) acc = stuck.
Proof.
  intros Hr. revert acc. induction fuel as [|fuel IH]; intros acc; [done|]. cbn [app parse_configs].
  destruct (endless_header r Hr) as [Hp Hn]. cbn [app] in Hp, Hn. rewrite Hn, Hp. cbn [obind length].
  change (Z.to_nat (u16 (65532 + 4))) with 0%nat. apply IH.
Qed.

(** C28: The parser of configuration lists ends on every list that its 16-bit
    length can describe, within as many passes as the list has bytes.  The checks
    of the length are modulo 2^16, though: a list of 65538 bytes that says it is
    empty passes, the length of its configuration plus four is zero as a
    [uint16], and the loop never ends. *)
Theorem configList_ends : (forall data stuck fuel, bytes_ok data -> Z.of_nat (length data) <= 65537 -> (length data <= fuel)%nat ->
    parseECHConfigList stuck fuel data = parseECHConfigList (Panic "out of fuel") (length data) data) /\
  bytes_ok endless_list /\ Z.of_nat (length endless_list) = 65538 /\
  forall stuck fuel, parseECHConfigList stuck fuel endless_list = stuck.
Proof.
  split_and!.
  - intros data stuck fuel Hd Hl Hf. unfold parseECHConfigList. rewrite ReadUint16_spec.
    destruct (read_uint 2 data) as [[len s]|] eqn:E; [|done]. destruct (negb _); [done|].
    unfold read_uint in E. destruct (read_bytes 2 data) as [[a r]|] eqn:Ea; [|done]. injection E as _ <-.
    apply read_bytes_length in Ea as (Hl1 & _ & ->). apply Forall_app in Hd as [_ Hd]. apply parse_configs_end; [done|lia..].
  - unfold endless_list. apply Forall_app. split; [compute_decide|]. by apply Forall_replicate.
  - unfold endless_list. by rewrite length_app, length_replicate, Nat2Z.inj_add, Z2Nat.id.
  - intros stuck fuel. unfold parseECHConfigList, endless_list. set (r := replicate (Z.to_nat 65532) 0).
    assert (Hr : length r = Z.to_nat 65532) by apply length_replicate. clearbody r.
    change ([0; 0; 254; 10; 255; 252] ++ r) with (be_put 2 0 ++ [254; 10; 255; 252] ++ r).
    rewrite ReadUint16_spec, read_uint_put by done. rewrite !length_app, length_be_put, Hr, !Nat2Z.inj_add, Z2Nat.id by done. by apply endless.
Qed.
End configs.

(** ** Padding *)

Section padding.
Context {B : Type} `{Builder B}.

(** The padding of an encoded inner hello does not hide the length of the
    name: the padded message with the padding that the name should get is a
    multiple of 32 bytes, but that padding is not added, so that names of
    different lengths, within the maximum of the configuration, are told apart. *)
Theorem padding_leaks inner inner' n enc enc' h h' :
  clientHelloMsg.marshalMsg B true inner = Ret h -> clientHelloMsg.marshalMsg B true inner' = Ret h' ->
  let name m := length (clientHelloMsg.serverName m) in
  (0 < name inner)%nat -> (0 < name inner')%nat -> Z.of_nat (name inner) <= n -> Z.of_nat (name inner') <= n ->
  (length h - name inner = length h' - name inner')%nat -> (name inner + 4 <= length h)%nat -> (name inner' + 4 <= length h')%nat ->
  encodeInnerClientHello (B:=B) inner n = Ret enc -> encodeInnerClientHello (B:=B) inner' n = Ret enc' ->
  Z.of_nat (length enc) - Z.of_nat (length enc') = Z.of_nat (name inner) - Z.of_nat (name inner').
Proof.
  cbn zeta. intros Hh Hh' H0 H1 Hn Hn' Hd Hl Hl'. unfold encodeInnerClientHello. rewrite Hh, Hh'. cbn [obind].
  rewrite !(proj2 (Nat.eqb_neq _ _)) by lia. cbn [negb]. rewrite !Z.max_r by lia.
  intros Q Q'. apply Ret_inj in Q as <-. apply Ret_inj in Q' as <-. rewrite !length_app, !length_replicate, !length_drop.
  replace (Z.of_nat (length h' - 4) + (n - Z.of_nat (length (clientHelloMsg.serverName inner'))) - 1)
    with (Z.of_nat (length h - 4) + (n - Z.of_nat (length (clientHelloMsg.serverName inner))) - 1) by lia.
  lia.
Qed.
End padding.

(** The fields of a configuration are read past its length: here it is zero, and
    [raw] has four bytes. *)
Definition overlong : bytes := [0xfe; 0x0d; 0; 0; 7; 0; 0x20; 0; 1; 9; 0; 0; 5; 0; 0; 0].
Lemma fields_past_length : exists ec, parseECHConfig overlong = Ret (false, ec) /\
  echConfig.Length ec = 0 /\ length (echConfig.raw ec) = 4%nat /\ echConfig.ConfigID ec = 7 /\ echConfig.PublicKey ec = [9].
Proof. eexists. vm_compute. split_and!; reflexivity. Qed.
