(* ===== verification/ClientRun.v ===== *)
(** * A run of a TLS 1.3 client against the REALITY server

    The theorems of the client's handshake at a concrete input: the messages of
    the server are those that the model of the server sends. *)

From S2P Require Import Prelude Common HalfConn HalfConnProofs RecordProofs RecordAead ConnProofs Cryptobyte Hello Messages.
From S2P Require Import Aes Gcm GcmNonces CipherSuites Kdf CipherSuitesProofs KdfProofs Conn Reality RealityAuth RealityScan.
From S2P Require Import Negotiation Auth KeyAgreement SessionCache Ticket RealityHandshake Post StreamProofs PostProofs RealityRun.
From S2P Require Import Client Client13 ClientStages ClientAuth ClientMake.

Open Scope go_scope.

#[local] Existing Instance low_hashes.
#[local] Existing Instance raw_cert.
#[local] Existing Instance sum_exchange.

(** The exchange by sums, as the client's packages have it. *)
#[local] Instance sum_client_curves : EcdhCurves := {|
  ecdhPrivateKey := bytes;
  ecdhPublicKey := bytes;
  CurveOf _ := ecdh_X25519;
  NewPublicKeyOn _ b := if (length b =? 32)%nat then Ret b else Err (EText "not a point");
  PublicOf k := k;
  PublicBytes p := match p with [] => [0] | _ => p end;
  ECDHWith k p := Ret (zip_with (fun a b => u8 (a + b)) p k)
|}.
#[local] Instance no_mlkem : Decapsulation := {|
  DecapsulationKey768 := unit;
  NewDecapsulationKey768 _ := Ret tt;
  EncapsulationKey_Bytes _ := [];
  Decapsulate _ _ := Err (EText "no ML-KEM")
|}.
#[local] Instance fives_verifiers : Verifiers unit := {|
  ecdsa_VerifyASN1 _ _ _ := false;
  ed25519_Verify _ _ s := bool_decide (s = replicate 64 5);
  rsa_VerifyPKCS1v15 _ _ _ _ := Some (EText "not RSA");
  rsa_VerifyPSS _ _ _ _ := Some (EText "not RSA")
|}.
(** Every certificate is that of the right name. *)
#[local] Instance one_root : CertificateChains bytes unit := {|
  CertPool := unit;
  cert_PublicKey _ := PubEd25519 tt;
  PublicKeyAlgorithm_RSA _ := false;
  N_BitLen _ := 0;
  NotAfter _ := 0;
  RawIssuer _ := [];
  x509_VerifyHostname _ _ := None;
  x509_Verify c _ := Ret [[c]]
|}.

(** A target that echoes the session id. *)
Definition a_hello : serverHelloMsg.t := serverHelloMsg.mk None VersionTLS12 (replicate 32 5)
  (clientHelloMsg.sessionId knock_message) TLS_AES_128_GCM_SHA256 compressionNone false false false [] false [] [] VersionTLS13
  (mkKeyShare X25519 (replicate 32 9)) false 0 [] None false [] 0.
Definition a_lens : list Z := [127; 6; 400; 0; 0; 0; 0].

(** What the server sends, and the ServerHello of it. *)
Abbreviation a_server :=
  (handshake (B:=plain_builder) false (fun _ => w_rand) w_aead r_priv r_cert r_Sign r_ctr false r_config r_info
    knock_message a_hello (r_conn a_lens (Some []))).
Definition a_sent : bytes := net_out (snd a_server).
Definition a_m : serverHelloMsg.t := default serverHelloMsg.zero (serverHelloMsg.unmarshal (drop 5 (take 127 a_sent))).

Definition a_config : clientConfig bytes unit CertPool :=
  mkClientConfig _ _ _ None 0 0 [] (str "example.com") false [] None None None None [] 0 true None 0.
Definition a_key : bytes := ks_data (nth 0 (clientHelloMsg.keyShares knock_message) (mkKeyShare 0 [])).
Abbreviation a_client := (client xor_stream (xorNonceAEAD.t ForTLS13.t) xor_cbc Z bytes (lruSessionCache (CS:=SessionState.t bytes))).
Definition a_conn : a_client :=
  mkClient (mkConn VersionTLS13 true false (w_fresh VersionTLS13 []) (w_fresh VersionTLS13 []) None [] [] [] false []
    0 0 0 0 false None 0 None [(drop 127 a_sent, None)] [] [] false 0)
   (ClientConn.mk r_info false false [] 0 [] [] false false None None None).
Definition a_keys : keySharePrivateKeys := mkKeySharePrivateKeys X25519 a_key None.
Abbreviation a_run := (handshake13 (B:=plain_builder) (S:=xor_stream) (C:=xor_cbc) (K:=Z) false (fun _ => w_rand) (fun _ _ => Err (EText "no more keys")) w_aead
  (fun _ _ _ _ _ => Err (EText "no key")) false a_config knock_message (Some a_keys) a_m None None []
  a_conn).

Lemma returned {R Q} (f : R -> bool) (o : outcome conn_error R * Q) :
  (match fst o with Ret r => f r | _ => false end) = true -> exists r c, o = (Ret r, c) /\ f r = true.
Proof. destruct o as [[r|e|w] c]; [|done..]. intros Hf. by exists r, c. Qed.

Lemma a_run_returns : exists hs c, a_run = (Ret hs, c) /\ negb (clientHandshakeStateTLS13.usingPSK hs) = true.
Proof. apply returned. vm_cast_no_check (eq_refl true). Qed.

Lemma client_authenticates_witness : exists (hs : clientHandshakeStateTLS13.t bytes) (c' : a_client) pre sh ee req ce cv fin,
  fst a_run = Ret hs /\ isHandshakeComplete (conn c') = true /\
  server_verified (B:=plain_builder) false a_config hs VersionTLS13 c' pre sh ee req ce cv fin.
Proof.
  destruct a_run_returns as (hs & c' & Hrun & Hpsk).
  destruct (client_authenticates (B:=plain_builder) (S:=xor_stream) (C:=xor_cbc) (K:=Z) false (fun _ => w_rand)
    (fun _ _ => Err (EText "no more keys")) w_aead (fun _ _ _ _ _ => Err (EText "no key")) false a_config knock_message
    a_keys a_m None None [] a_conn hs c' Hrun (proj1 (negb_true_iff _) Hpsk))
    as (pre & sh & ee & req & ce & cv & fin & _ & _ & Hc & Hv).
  exists hs, c', pre, sh, ee, req, ce, cv, fin. split; [by rewrite Hrun|]. split; [exact Hc|exact Hv].
Defined.

(** A configuration that offers TLS 1.3 and TLS 1.2, and one protocol. *)
Definition m_config : clientConfig bytes unit CertPool :=
  mkClientConfig _ _ _ None VersionTLS12 0 [X25519] (str "example.com.") false [str "h2"] None None None None [] 0 true None 0.
Definition m_generated (n : nat) (c : ecdh_Curve) : outcome conn_error (ecdhPrivateKey (EcdhCurves:=sum_client_curves)) :=
  Ret (replicate 32 8).
Abbreviation m_run := (makeClientHello (fun _ => w_rand) m_generated (fun _ => false) false true m_config a_conn).
Definition m_read (r : clientHelloMsg.t * option keySharePrivateKeys) : bool :=
  match marshal_message plain_builder (ClientHello (fst r)) with
  | Ret data => bool_decide (clientHelloMsg.serverName <$> clientHelloMsg.unmarshal data = Some (str "example.com"))
  | _ => false
  end.
Lemma m_returns : exists r c, m_run = (Ret r, c) /\ m_read r = true.
Proof. apply returned. vm_cast_no_check (eq_refl true). Qed.
Lemma m_marshals r : m_read r = true -> exists data, marshal_message plain_builder (ClientHello (fst r)) = Ret data.
Proof. unfold m_read. destruct (marshal_message _ _) as [data| |]; [|done..]. by exists data. Qed.

Lemma public_nonempty (k : ecdhPrivateKey) : PublicBytes (PublicOf k) <> [].
Proof. by destruct k. Qed.
Lemma rand_lengths (k n : nat) b : w_rand n = Some b -> length b = n.
Proof. intros [= <-]. apply length_replicate. Qed.

Lemma clientHello_made_witness : exists hello keys data, fst m_run = Ret (hello, keys) /\
  hello_made false true m_config hello keys /\
  marshal_message plain_builder (ClientHello hello) = Ret data /\
  unmarshal_message VersionTLS13 data = Some (ClientHello (HelloProofs.received data hello)).
Proof.
  destruct m_returns as ([hello keys] & c & Hrun & Hr). destruct (m_marshals _ Hr) as (data & Hd).
  destruct (clientHello_made (B:=plain_builder) (fun _ => w_rand) m_generated (fun _ => false) false true m_config
    public_nonempty rand_lengths a_conn hello keys c Hrun) as [Hm Hu].
  exists hello, keys, data. split; [by rewrite Hrun|]. split; [exact Hm|]. split; [exact Hd|exact (Hu data VersionTLS13 Hd)].
Defined.
