(* ===== verification/EchRun.v ===== *)
(** * A run of Encrypted Client Hello

    The theorems of [EchAccept] and [EchConfigs] at a concrete input: a key, a
    configuration, two hellos, and plain functions in the place of X25519, the
    hash and the AEAD. *)

From S2P Require Import Prelude Common HalfConn HalfConnProofs RecordProofs RecordAead ConnProofs Cryptobyte Hello Messages WireProofs HelloProofs.
From S2P Require Import Kdf KdfProofs Hpke HpkeProofs Conn RealityHandshake Ech EchProofs EchAccept EchConfigs.

Open Scope go_scope.

#[local] Existing Instance low_hashes.
#[local] Existing Instance low_hashes_laws.
#[local] Existing Instance sum_X25519.

(** An AEAD whose tag is the nonce and the sum of the data. *)
Definition e_tag (nonce ad : bytes) : bytes := take 16 (be_put 4 (fold_right Z.add 0 ad) ++ nonce ++ replicate 16 0).
#[local] Instance tag_aead : hpke.cipherAEAD bytes := {|
  hpke.NonceSize _ := 12%nat;
  hpke.aead_Seal _ nonce p ad := Ret (p ++ e_tag nonce ad);
  hpke.aead_Open _ nonce c ad :=
    let n := (length c - 16)%nat in
    if bool_decide (drop n c = e_tag nonce ad) then Ret (take n c) else Err (EText "forged")
|}.

Lemma e_tag_length nonce ad : length (e_tag nonce ad) = 16%nat.
Proof. unfold e_tag. rewrite length_take, !length_app, length_be_put, length_replicate. lia. Qed.
Lemma e_open (a nonce p ad c : bytes) : hpke.aead_Seal (T:=bytes) a nonce p ad = Ret c -> hpke.aead_Open (T:=bytes) a nonce c ad = Ret p.
Proof.
  intros [= <-]. cbn [hpke.aead_Open tag_aead]. rewrite length_app, e_tag_length, Nat.add_sub, drop_app_length, take_app_length.
  by rewrite bool_decide_eq_true_2.
Qed.
Lemma e_seal_length (a nonce p ad c : bytes) : hpke.aead_Seal (T:=bytes) a nonce p ad = Ret c -> length c = (length p + 16)%nat.
Proof. intros [= <-]. by rewrite length_app, e_tag_length. Qed.
Lemma e_NewPublicKey (p : bytes) : hpke.NewPublicKey (hpke.PublicKey_Bytes p) = Ret p.
Proof. done. Qed.

(** The configuration of X25519 and AES-128-GCM, with the id 7. *)
Definition e_config : bytes := [0xfe; 0x0d; 0; 32; 7; 0; 0x20; 0; 3; 4; 5; 6; 0; 4; 0; 1; 0; 1; 32; 14] ++ str "public.example" ++ [0; 0].
Definition e_key : EncryptedClientHelloKey := mkEchKey e_config [4; 5; 6] true.
Definition e_parsed : echConfig.t :=
  echConfig.mk e_config extensionEncryptedClientHello 32 7 0x20 [4; 5; 6] [mkEchCipher 1 1] 32 (str "public.example") [].

Definition e_hello (name random ech : bytes) : clientHelloMsg.t :=
  clientHelloMsg.mk None VersionTLS12 random (replicate 32 2) [0x1301] [0] name true [X25519] [] false [] [Ed25519] []
    false [] false [str "h2"] false [VersionTLS13] [] [mkKeyShare X25519 (replicate 32 3)] false [1] [] [] None ech [].
Definition e_inner : clientHelloMsg.t := e_hello (str "secret.example") (replicate 32 4) [1].
Definition e_outer : clientHelloMsg.t := e_hello (str "public.example") (replicate 32 5) [].

Lemma e_hello_ok name random ech : clientHelloMsg.HasSuffix_dot name = false -> clientHello_ok (e_hello name random ech).
Proof. intros Hn. constructor; cbn; try done; try (by intros ?%list_elem_of_singleton); repeat constructor; done. Qed.
Lemma e_pair : ech_pair e_outer e_inner.
Proof. constructor; try done; by apply e_hello_ok. Qed.

(** The first occurrence, by search. *)
Definition occurs_at (x s : bytes) (i : nat) : bool := bool_decide (take (length x) (drop i s) = x).
(** The only occurrence. *)
Definition occurs_once (x s : bytes) : bool := (length (List.filter (occurs_at x s) (List.seq 0 (S (length s)))) <=? 1)%nat.
Lemma occurs_once_first p x q : occurs_once x (p ++ x ++ q) = true -> first_after p x q.
Proof.
  intros Ho p' q' E. assert (Hin : forall p q, p ++ x ++ q = p' ++ x ++ q' ->
    In (length p) (List.filter (occurs_at x (p' ++ x ++ q')) (List.seq 0 (S (length (p' ++ x ++ q')))))).
  { intros a b Ea. apply filter_In. rewrite <- Ea. split; [apply in_seq; rewrite !length_app; lia|].
    unfold occurs_at. rewrite drop_app_length, take_app_length. by apply bool_decide_eq_true_2. }
  unfold occurs_once in Ho. rewrite E in Ho. apply Nat.leb_le in Ho. pose proof (Hin p q E) as H1. pose proof (Hin p' q' eq_refl) as H2.
  destruct (List.filter _ _) as [|i [|]]; [done| |cbn in Ho; lia]. destruct H1 as [<-|[]], H2 as [->|[]]. done.
Qed.

Definition e_generated : outcome conn_error (@hpke.PrivateKey sum_X25519) := Ret [1; 2; 3].
Definition e_priv : @hpke.PrivateKey sum_X25519 := [4; 5; 6].
(** The whole run: what the client makes, and the two messages as bytes. *)
Abbreviation e_setup := (hpke.SetupSender (Block:=unit) (fun _ => Ret tt) (fun _ => Ret [0]) Ret hpke.DHKEM_X25519_HKDF_SHA256
  hpke.KDF_HKDF_SHA256 hpke.AEAD_AES_128_GCM e_generated (hpke.Public e_priv)
  (str "tls ech" ++ [0] ++ ech_Config e_key)).
Abbreviation e_update enc ctx := (computeAndUpdateOuterECHExtension (B:=plain_builder) e_outer e_inner (mkEchClient e_parsed ctx enc 1 1) true).
Definition e_once (outer : clientHelloMsg.t) (od : bytes) : bool :=
  match parseECHExt (clientHelloMsg.encryptedClientHello outer) with
  | Ret (_, _, _, _, payload) => occurs_once payload (drop 4 od)
  | _ => false
  end.
Lemma all_returned {E X Y V W} (o1 : outcome E X) (o2 : X -> outcome E Y) (o3 : outcome E V) (o4 : Y -> outcome E W) (f : Y -> W -> bool) :
  match o1 with
  | Ret x => match o2 x with
             | Ret y => match o3, o4 y with Ret _, Ret w => f y w | _, _ => false end
             | _ => false
             end
  | _ => false
  end = true -> exists x y v w, o1 = Ret x /\ o2 x = Ret y /\ o3 = Ret v /\ o4 y = Ret w /\ f y w = true.
Proof.
  destruct o1 as [x| |]; [|done..]. destruct (o2 x) as [y| |] eqn:E2; [|done..]. destruct o3 as [v| |]; [|done..].
  destruct (o4 y) as [w| |] eqn:E4; [|done..]. intros Hf. by exists x, y, v, w.
Qed.

Lemma e_run : exists x y d od, e_setup = Ret x /\ e_update (fst x) (snd x) = Ret y /\
  clientHelloMsg.marshal plain_builder e_inner = Ret d /\ clientHelloMsg.marshal plain_builder (fst y) = Ret od /\ e_once (fst y) od = true.
Proof. apply all_returned with (o2 := fun x => e_update (fst x) (snd x)). vm_cast_no_check (eq_refl true). Qed.

Lemma e_once_ok outer od : e_once outer od = true -> payload_once outer od.
Proof.
  unfold e_once, payload_once. intros Ho t cs id enc payload p q Hp E. rewrite Hp, E in Ho. by apply occurs_once_first.
Qed.
Lemma e_config_ok : parseECHConfig (ech_Config e_key) = Ret (false, e_parsed).
Proof. vm_compute. reflexivity. Qed.
Lemma e_is_u8 : is_u8 7.
Proof. done. Qed.
Lemma e_is_u16 : is_u16 1.
Proof. done. Qed.

Abbreviation e_accept outer' od := (processECHClientHello (T:=bytes) (Block:=unit) (B:=plain_builder) (fun _ => Ret tt) (fun _ => Ret [0]) Ret
  false (fun _ => w_rand) [e_key] (received od outer') (w_Conn [])).
Lemma ech_accepted_witness : exists d od outer' (ech' : echClientContext (T:=bytes)),
  clientHelloMsg.marshal plain_builder e_inner = Ret d /\ clientHelloMsg.unmarshal od = Some (received od outer') /\
  e_accept outer' od =
    (Ret (received d e_inner, Some (mkEchServer (Some (ecc_hpkeContext ech')) 7 (mkEchCipher 1 1) false), true), w_Conn []).
Proof.
  destruct e_run as ([enc ctx] & [outer' ech'] & d & od & Hset & Hup & Hd & Hod & Ho).
  destruct (ech_accepted (T:=bytes) (Block:=unit) (B:=plain_builder) (fun _ => Ret tt) (fun _ => Ret [0]) Ret
    w_ecdh e_NewPublicKey e_open e_seal_length e_key [] e_parsed e_priv 1 1 e_generated enc ctx e_outer e_inner outer' ech' d od
    false (fun _ => w_rand) (w_Conn []) e_config_ok eq_refl e_is_u8 e_is_u16 e_is_u16 Hset e_pair Hup Hd Hod (e_once_ok _ _ Ho)) as [Hu Hp].
  exists d, od, outer', ech'. split; [exact Hd|]. split; [exact Hu|exact Hp].
Defined.

Lemma configList_ends_witness : parseECHConfigList (Err (EText "out of fuel")) 4 [0; 0] = Ret [] /\
  parseECHConfigList (Err (EText "out of fuel")) 1000 endless_list = Err (EText "out of fuel").
Proof.
  destruct configList_ends as (He & _ & _ & Hd). split; [|apply Hd].
  rewrite (He [0; 0] (Err (EText "out of fuel")) 4%nat); [reflexivity|compute_decide|compute_decide|by do 2 constructor].
Defined.
