(* ===== verification/ServerRun.v ===== *)
(** * Runs of the servers

    The theorems about the servers at concrete inputs. The TLS 1.2 conversation
    is between the model of the client and the model of the server: each end is
    run on what the other has sent so far. *)

From S2P Require Import Prelude Common HalfConn HalfConnProofs RecordProofs RecordAead ConnProofs Cryptobyte Hello Messages.
From S2P Require Import Aes Gcm GcmNonces CipherSuites Kdf CipherSuitesProofs KdfProofs Conn Reality RealityAuth RealityScan.
From S2P Require Import Negotiation Auth KeyAgreement SessionCache Ticket RealityHandshake Post StreamProofs PostProofs RealityRun.
From S2P Require Import Client Client13 Client12 ClientHandshake ClientStages ClientRun Hpke Ech EchRun Server Server12 Server13.
From S2P Require Import ServerStages Server12Stages Server12Proofs Server13Hello Server13Proofs ServerCertificates.

Open Scope go_scope.

#[local] Existing Instance low_hashes.
#[local] Existing Instance raw_cert.
#[local] Existing Instance sum_exchange.
#[local] Existing Instance sum_client_curves.
#[local] Existing Instance no_mlkem.
#[local] Existing Instance fives_verifiers.
#[local] Existing Instance one_root.
#[local] Existing Instance tag_aead.

#[local] Instance one_root_server : ServerX509 bytes unit := {|
  x509_VerifyClient c _ := Ret [[c]];
  is_UnknownAuthorityError _ := false;
  is_ExpiredError _ := false;
  Subjects _ := [];
  DNSNames _ := [];
  CommonName _ := []
|}.
#[local] Instance fives_keys : CertificateKeys unit := {|
  Decrypt48 _ _ := Err (EText "not RSA");
  EncryptPKCS1v15 _ _ := Err (EText "not RSA");
  Sign _ _ _ _ := Ret (replicate 64 5)
|}.

(** ** A TLS 1.2 handshake with a certificate of the client *)

Definition t_certificate (der : bytes) : clientCertificate bytes unit :=
  mkClientCertificate (mkCertificate [der] None None) (mkCertKey (mkPrivateKey (Some (PubEd25519 tt)) None false) None) (Some der).
Definition t_base (certs : list (clientCertificate bytes unit)) (max : Z) : clientConfig bytes unit CertPool :=
  mkClientConfig _ _ _ (Some [TLS_ECDHE_ECDSA_WITH_CHACHA20_POLY1305]) VersionTLS12 max [X25519] (str "example.com") false [] None None None None
    certs 0 true None 0.
Definition t_config : ServerConfig.t bytes unit CertPool :=
  ServerConfig.mk (t_base [t_certificate (replicate 200 1)] 0) None None None RequireAndVerifyClientCert (Some tt) None None []
    (mkTicketConfig true [] [] []).

Abbreviation t_client := (client xor_stream (xorNonceAEAD.t ForTLS13.t) xor_cbc Z bytes (lruSessionCache (CS:=SessionState.t bytes))).
Definition t_conn (v : Z) (input : list bytes) : t_client :=
  mkClient (mkConn v (negb (v =? 0)) false (w_fresh v []) (w_fresh v []) None [] [] [] false []
    0 0 0 0 false None 0 None ((fun b => (b, None)) <$> input) [] [] false 0)
   (ClientConn.mk (mkConnInfo [] [] [] false [] [] None None [] 0) false false [] 0 [] [] false false None None None).

Definition t_key (k : Z) (n : nat) (c : ecdh_Curve) : outcome conn_error (ecdhPrivateKey (EcdhCurves:=sum_client_curves)) :=
  Ret (replicate 32 k).
Definition t_cipher (f : cipher_fn) (key iv : bytes) (b : bool) : cipher_state xor_stream (xorNonceAEAD.t ForTLS13.t) xor_cbc :=
  CStream (XorStream 0).
Definition t_aead (f : aead_fn) (key iv : bytes) : outcome conn_error (xorNonceAEAD.t ForTLS13.t) := aeadAESGCMTLS13 key iv.
Definition t_mac (f : mac_fn) (key : bytes) : Hash Z := mkHash 0 [].
Abbreviation t_client_run input :=
  (clientHandshake (B:=plain_builder) false (fun _ => w_rand) (t_key 8) t_aead t_cipher t_mac (fun _ => fives_keys) (fun _ => false) None
    false true (t_base [t_certificate (replicate 100 2)] VersionTLS12) (t_conn 0 input)).
Definition t_flight1 : bytes := net_out (conn (snd (t_client_run []))).
Definition t_hello : clientHelloMsg.t := default clientHelloMsg.zero (clientHelloMsg.unmarshal (drop 5 t_flight1)).

Abbreviation t_server_run input :=
  (server_handshake12 (B:=plain_builder) false (fun _ => w_rand) (t_key 9) t_aead t_cipher t_mac (fun _ => fives_keys) r_ctr (fun name => name)
    false true t_config t_hello (t_conn VersionTLS12 input)).
Definition t_flight2 : bytes := net_out (conn (snd (t_server_run []))).
Definition t_flight3 : bytes := drop (length t_flight1) (net_out (conn (snd (t_client_run [t_flight2])))).

Abbreviation t_run := (t_server_run [t_flight3]).
Lemma t_run_returns : exists hs c, t_run = (Ret hs, c) /\ negb (bool_decide (is_Some (serverHandshakeState.sessionState hs))) = true.
Proof. apply returned. vm_cast_no_check (eq_refl true). Qed.

(** The client ends with what the server sends last. *)
Definition t_flight4 : bytes := drop (length t_flight2) (net_out (conn (snd t_run))).
Lemma t_client_returns : exists u c, t_client_run [t_flight2 ++ t_flight4] = (Ret u, c) /\ true = true.
Proof. apply returned. vm_cast_no_check (eq_refl true). Qed.

Lemma server_authenticates_witness : exists hs (c' : t_client) msgs, fst t_run = Ret hs /\ isHandshakeComplete (conn c') = true /\
  full_handshake (B:=plain_builder) (fun _ => fives_keys) false t_config VersionTLS12 hs (t_conn VersionTLS12 [t_flight3]) c' msgs.
Proof.
  destruct t_run_returns as (hs & c' & Hrun & Hs).
  destruct (server_authenticates (B:=plain_builder) false (fun _ => w_rand) (t_key 9) t_aead t_cipher t_mac (fun _ => fives_keys) r_ctr
    (fun name => name) false true t_config t_hello (t_conn VersionTLS12 [t_flight3]) hs c' Hrun)
    as (Hc & _ & sh & cert & uses & msgs & fh & fin & _ & _ & _ & Hcase).
  destruct (serverHandshakeState.sessionState hs); [discriminate Hs|]. destruct Hcase as (_ & _ & _ & _ & Hfull).
  exists hs, c', msgs. split; [by rewrite Hrun|]. split; [exact Hc|exact Hfull].
Defined.

(** ** A TLS 1.3 ClientHello with a retry *)

Definition h_base (no_tickets : bool) (curves : list Z) : clientConfig bytes unit CertPool :=
  mkClientConfig _ _ _ None VersionTLS13 0 curves (str "example.com") false [str "h2"] None None None None [] 0 no_tickets None 0.
Definition h_config (no_tickets : bool) : ServerConfig.t bytes unit CertPool :=
  ServerConfig.mk (h_base no_tickets [CurveP256]) None None None NoClientCert None None None [] (mkTicketConfig no_tickets [] [] []).
Abbreviation h_client_run input :=
  (clientHandshake (B:=plain_builder) false (fun _ => w_rand) (t_key 8) t_aead t_cipher t_mac (fun _ => fives_keys) (fun _ => false) None
    false true (h_base true [CurveP256; X25519]) (t_conn 0 input)).
Definition h_flight1 : bytes := net_out (conn (snd (h_client_run []))).
Definition h_hello : clientHelloMsg.t := default clientHelloMsg.zero (clientHelloMsg.unmarshal (drop 5 h_flight1)).
Abbreviation h_server_run input :=
  (processClientHello13 (B:=plain_builder) false (fun _ => w_rand) (t_key 9) false true (h_config true) h_hello None (t_conn VersionTLS13 input)).
Definition h_retry : bytes := net_out (conn (snd (h_server_run []))).
Definition h_flight3 : bytes := drop (length h_flight1) (net_out (conn (snd (h_client_run [h_retry])))).
Abbreviation h_run := (h_server_run [h_flight3]).

Lemma h_run_returns : exists hs c, h_run = (Ret hs, c) /\ negb (contains CurveP256 (group <$> clientHelloMsg.keyShares h_hello)) = true.
Proof. apply returned. vm_cast_no_check (eq_refl true). Qed.

Lemma hello_answered_witness : exists hs (c' : t_client) random ks own pre, fst h_run = Ret hs /\
  hello_used (B:=plain_builder) (serverState13.suite hs) (server_hello13 VersionTLS13 h_hello random (serverState13.suite hs)) (group ks)
    h_hello (serverState13.clientHello hs) ks pre (ClientConn.didHRR (cl c')) /\
  exchanged (t_key 9) ks own (serverState13.sharedKey hs).
Proof.
  destruct h_run_returns as (hs & c' & Hrun & _).
  destruct (hello_answered (B:=plain_builder) false (fun _ => w_rand) (t_key 9) false true (h_config true) h_hello None
    (t_conn VersionTLS13 [h_flight3]) hs c' Hrun)
    as (random & ks & own & pre & retry & _ & _ & _ & Hused & _ & _ & Hex & _ & _ & _ & _ & _ & _ & _ & Hretry & _).
  exists hs, c', random, ks, own, pre. split; [by rewrite Hrun|]. split; [|exact Hex].
  assert (E : ClientConn.didHRR (cl c') = retry) by (rewrite Hretry; apply orb_false_r). rewrite E. exact Hused.
Defined.

(** ** A resumption *)

Definition p_session : SessionState.t bytes :=
  SessionState.mk [] false VersionTLS13 false TLS_AES_128_GCM_SHA256 0 (replicate 32 6) true [] [] None None [] [] 0 0 [] X25519.
Definition p_keys : list ticketKey := [mkTicketKey (replicate 16 1) (replicate 16 2) 0].
Definition p_ticket : bytes :=
  match SessionState.Bytes (B:=plain_builder) p_session with
  | Ret b => match encryptTicket r_ctr (Some (replicate 16 3)) b p_keys with Ret t => t | _ => [] end
  | _ => []
  end.
Definition p_hello (binder : bytes) : clientHelloMsg.t :=
  let m := clientHelloMsg.set_pskBinders [binder] (clientHelloMsg.set_pskIdentities [mkPskIdentity p_ticket 0]
    (clientHelloMsg.set_pskModes [pskModeDHE] (clientHelloMsg.set_original None h_hello))) in
  match marshal_message plain_builder (ClientHello m) with
  | Ret data => default clientHelloMsg.zero (clientHelloMsg.unmarshal data)
  | _ => m
  end.
Definition p_suite : cipherSuiteTLS13 := default (mkSuite13 0 0 fnAESGCMTLS13 SHA256) (cipherSuiteTLS13ByID TLS_AES_128_GCM_SHA256).
Definition p_state (binder : bytes) : serverState13.t (echServerContext (T:=bytes)) :=
  serverState13.mk (p_hello binder) serverHelloMsg.zero false false p_suite None [] (new_digest (suite_hash p_suite)) None.
Definition p_binder : bytes :=
  match tls13.ResumptionBinderKey (E:=conn_error) (tls13.NewEarlySecret (suite_hash p_suite) (Some (replicate 32 6))),
    clientHelloMsg.marshalWithoutBinders plain_builder (p_hello (replicate 32 0)) with
  | Ret key, Ret partial =>
      match suite_finishedHash (E:=conn_error) p_suite key (d_Write partial (new_digest (suite_hash p_suite))) with Ret b => b | _ => [] end
  | _, _ => []
  end.
Definition p_conn : t_client :=
  mkClient (conn (t_conn VersionTLS13 [])) (ClientConn.set_info (set_ticketKeys p_keys) (cl (t_conn VersionTLS13 []))).
Abbreviation p_run := (checkForResumption13 (B:=plain_builder) false (fun _ => w_rand) r_ctr (h_config false) false (p_state p_binder) p_conn).

Lemma p_run_returns : exists hs c, p_run = (Ret hs, c) /\ serverState13.usingPSK hs = true.
Proof. apply returned. vm_cast_no_check (eq_refl true). Qed.

Lemma resumption_sound_witness : exists hs i identity binder s, fst p_run = Ret hs /\
  clientHelloMsg.pskIdentities (serverState13.clientHello (p_state p_binder)) !! i = Some identity /\
  ticket_opens r_ctr (h_config false) false p_conn (label identity) s /\ session_fits (h_config false) (p_state p_binder) s /\
  binder_ok (B:=plain_builder) (p_state p_binder) s binder.
Proof.
  destruct p_run_returns as (hs & c' & Hrun & Hpsk).
  destruct (resumption_sound (B:=plain_builder) false (fun _ => w_rand) r_ctr (h_config false) false (p_state p_binder) p_conn hs c' Hrun)
    as [(-> & _)|(_ & _ & _ & i & identity & binder & s & _ & Hi & _ & _ & Ho & Hf & Hbi & _)]; [discriminate Hpsk|].
  exists hs, i, identity, binder, s. split; [by rewrite Hrun|]. split; [exact Hi|]. split; [exact Ho|]. split; [exact Hf|exact Hbi].
Defined.

(** ** The choice between two certificates *)

(** The first one has no key of a supported type. *)
Definition u_config : ServerConfig.t bytes unit CertPool :=
  ServerConfig.mk (t_base [mkClientCertificate (mkCertificate [[1]] None None) (mkCertKey (mkPrivateKey None None false) None) None;
      t_certificate (replicate 200 1)] 0) None None None NoClientCert None None None [] (mkTicketConfig true [] [] []).

Lemma usable_certificate_found_witness : exists c,
  getCertificate (fun name => name) false u_config (clientHelloInfo t_hello) = Ret c /\ usable false u_config t_hello VersionTLS12 c.
Proof.
  destruct (usable_certificate_found (fun name => name) false u_config t_hello VersionTLS12 (t_certificate (replicate 200 1)))
    as ((c & Hc & _ & Hu) & _).
  - reflexivity.
  - reflexivity.
  - vm_compute. reflexivity.
  - constructor; [|constructor; [|constructor]]; constructor; try (intros ?; discriminate); intros ? ? [=].
  - right. left. reflexivity.
  - vm_compute. reflexivity.
  - exists c. split; [exact Hc|exact Hu].
Defined.

(** ** A hybrid exchange *)

Module Shares.
(** Keys are bits, with their curve; the exchange is the exclusive or. *)
#[local] Instance bit_curves : EcdhCurves := {|
  ecdhPrivateKey := ecdh_Curve * bool;
  ecdhPublicKey := ecdh_Curve * bool;
  CurveOf := fst;
  NewPublicKeyOn c b := match b with [] => Err (EText "no point") | x :: _ => Ret (c, x =? 1) end;
  PublicOf k := k;
  PublicBytes p := replicate 32 (if snd p : bool then 1 else 0);
  ECDHWith k p := Ret [if xorb (snd k) (snd p) then 1 else 0]
|}.
#[local] Instance one_mlkem : Decapsulation := {|
  DecapsulationKey768 := unit;
  NewDecapsulationKey768 _ := Ret tt;
  EncapsulationKey_Bytes _ := replicate 1184 7;
  Decapsulate _ _ := Ret (replicate 32 4)
|}.
Definition s_generated (b : bool) (n : nat) (c : ecdh_Curve) : outcome conn_error (ecdhPrivateKey (EcdhCurves:=bit_curves)) := Ret (c, b).
Definition s_curves : list Z := [X25519MLKEM768; X25519].
Abbreviation s_make := (make_keyShares (fun _ => w_rand) (s_generated true) s_curves (t_conn 0 [])).
Definition s_shares : list keyShare := match fst s_make with Ret (l, _) => l | _ => [] end.

Lemma bit_New k : NewPublicKeyOn (EcdhCurves:=bit_curves) (CurveOf k) (PublicBytes (PublicOf k)) = Ret (PublicOf k).
Proof. by destruct k as [c []]. Qed.
Lemma bit_commutes (a b : ecdhPrivateKey (EcdhCurves:=bit_curves)) : CurveOf a = CurveOf b -> ECDHWith a (PublicOf b) = ECDHWith b (PublicOf a).
Proof. destruct a as [c x], b as [d y]. cbn. intros _. by rewrite xorb_comm. Qed.
Lemma one_mlkem_correct (seed : bytes) (dk : DecapsulationKey768 (Decapsulation:=one_mlkem)) : NewDecapsulationKey768 seed = Ret dk ->
  length (EncapsulationKey_Bytes dk) = EncapsulationKeySize768 /\ exists ek, NewEncapsulationKey768 (EncapsulationKey_Bytes dk) = Some ek /\
  forall ss ct, Encapsulate ek = (ss, ct) -> length ct = CiphertextSize768 /\ Decapsulate dk ct = Ret ss.
Proof. intros _. split; [done|]. eexists. split; [reflexivity|]. by intros ss ct [= <- <-]. Qed.

Definition s_keys : keySharePrivateKeys := mkKeySharePrivateKeys X25519MLKEM768 ((ecdh_X25519, true) : ecdhPrivateKey) (Some (tt : DecapsulationKey768)).
Definition s_share : keyShare := mkKeyShare X25519MLKEM768 (replicate 1184 7 ++ replicate 32 1).

Lemma shares_agree_witness : exists shared own,
  fst (server_exchange false (fun _ => w_rand) (s_generated false) (group s_share) s_share (t_conn VersionTLS13 [])) = Ret (shared, own) /\
  forall k : t_client, client_shared false (fun _ => w_rand) s_keys own k = (Ret shared, k).
Proof.
  destruct (shares_agree (S:=xor_stream) (A:=xorNonceAEAD.t ForTLS13.t) (C:=xor_cbc) (K:=Z) (T:=lruSessionCache (CS:=SessionState.t bytes)) (X:=bytes) false (fun _ => w_rand) (fun _ => w_rand)
    (s_generated true) (s_generated false)) with (curves := s_curves) (c0 := t_conn 0 []) (shares := s_shares) (keys := s_keys)
    (c1 := snd s_make) (ks := s_share) (c := t_conn VersionTLS13 []) (n := 0%nat) (key := (ecdh_X25519, false)) (x := [1])
    as (shared & own & Hrun & _ & _ & Hk).
  - by intros n c k [= <-].
  - by intros n c k [= <-].
  - apply bit_New.
  - apply bit_commutes.
  - intros k _. apply length_replicate.
  - apply one_mlkem_correct.
  - vm_compute. reflexivity.
  - left. vm_compute. reflexivity.
  - reflexivity.
  - reflexivity.
  - reflexivity.
  - exists shared, own. split; [by rewrite Hrun|exact Hk].
Defined.
End Shares.
