(* ===== verification/Listener.v ===== *)
(** * tls.go: the listener

    [NewListener] starts one goroutine that accepts connections from the inner
    listener, and one for each connection that runs [Server] on it; a connection
    whose handshake has succeeded is sent on the unbuffered channel [conns], from
    which [Accept] receives.  The goroutines and the callers of [Accept] interleave:
    a run of the listener is a list of actions, [advance] is one of them. *)

From S2P Require Import Prelude Cryptobyte.

Open Scope go_scope.

Section listener.
(** The connections of the inner listener, [*Conn], [error]. *)
Context {C T E : Type}.

(** The goroutine of a connection. *)
Inductive routine :=
| Serving (c : C)                  (* in [Server] *)
| Sending (t : T)                  (* at [l.conns <- c] *)
| Ended.

(** What [Accept] has returned. *)
Inductive accepted :=
| Accepted (t : T)
| Refused (e : option E).

(** The loop of the inner goroutine has ended when [conns] is closed.
    [died]: an unrecovered panic has ended the process.  [returned] records what the
    calls of [Accept] have returned, [established] the connections that [Server]
    has returned. *)
Record listener := mkListener {
  l_err : option E;
  conns_closed : bool;
  routines : list routine;
  died : option string;
  returned : list accepted;
  established : list T
}.

Definition NewListener : listener := mkListener None false [] None [] [].

Definition set_routine (i : nat) (r : routine) (l : listener) : listener :=
  mkListener (l_err l) (conns_closed l) (<[i := r]> (routines l)) (died l) (returned l) (established l).
Definition die (w : string) (l : listener) : listener :=
  mkListener (l_err l) (conns_closed l) (routines l) (Some w) (returned l) (established l).
Definition returns (a : accepted) (l : listener) : listener :=
  mkListener (l_err l) (conns_closed l) (routines l) (died l) (returned l ++ [a]) (established l).

Inductive action :=
| InnerAccept (r : outcome E C)              (* [l.Listener.Accept()] returns [r] *)
| ServerReturns (i : nat) (r : outcome E T)  (* [Server] returns [r] in goroutine [i] *)
| Receive (i : nat)                          (* [Accept] receives from goroutine [i] *)
| ReceiveClosed                              (* [Accept] finds [conns] closed *)
| SendClosed (i : nat).                      (* goroutine [i] sends and finds [conns] closed *)

(** [None]: the action cannot happen.  [defer recover()] recovers nothing: [recover]
    is then the deferred function, it is not called by one. *)
Definition advance (a : action) (l : listener) : option listener :=
  match died l with
  | Some _ => None
  | None =>
      match a with
      | InnerAccept r =>
          if conns_closed l then None
          else match r with
               | Err e => Some (mkListener (Some e) true (routines l) None (returned l) (established l))
               | Ret c => Some (mkListener (l_err l) false (routines l ++ [Serving c]) None (returned l) (established l))
               | Panic w => Some (die w l)
               end
      | ServerReturns i r =>
          match routines l !! i with
          | Some (Serving _) =>
              match r with
              | Ret t =>
                  Some (set_routine i (Sending t) (mkListener (l_err l) (conns_closed l) (routines l) None (returned l) (established l ++ [t])))
              | Err _ => Some (set_routine i Ended l)
              | Panic w => Some (die w l)
              end
          | _ => None
          end
      | Receive i =>
          match routines l !! i with
          | Some (Sending t) => if conns_closed l then None else Some (set_routine i Ended (returns (Accepted t) l))
          | _ => None
          end
      | ReceiveClosed => if conns_closed l then Some (returns (Refused (l_err l)) l) else None
      | SendClosed i =>
          match routines l !! i with
          | Some (Sending _) => if conns_closed l then Some (die "send on closed channel" l) else None
          | _ => None
          end
      end
  end.

Fixpoint advance_all (l : list action) (s : listener) : option listener :=
  match l with
  | [] => Some s
  | a :: l => let? s := advance a s in advance_all l s
  end.

(** ** Theorems *)

Definition delivered (l : listener) : list T :=
  omap (fun a => match a with Accepted t => Some t | Refused _ => None end) (returned l).
Definition sending (r : routine) : option T := match r with Sending t => Some t | _ => None end.
Definition waiting (l : listener) : list T :=
  omap sending (routines l).

(** A list in which one element changes. *)
Lemma omap_insert {A B} (f : A -> option B) (l : list A) i x y : l !! i = Some x ->
  omap f (<[i := y]> l) ++ option_list (f x) ≡ₚ omap f l ++ option_list (f y).
Proof.
  intros Hi. apply list_elem_of_split_length in Hi as (l1 & l2 & -> & ->).
  rewrite insert_app_r_alt, Nat.sub_diag by done. cbn [insert list_insert]. rewrite !omap_app. cbn [omap list_omap].
  destruct (f x) as [a|], (f y) as [b|]; cbn; rewrite ?app_nil_r, <- ?Permutation_cons_append, <- ?Permutation_middle; try done.
  apply Permutation_swap.
Qed.

(** What every action keeps. *)
Record sound (l : listener) : Prop := {
  so_once : delivered l ++ waiting l ≡ₚ established l;
  so_error : conns_closed l = bool_decide (is_Some (l_err l));
  so_refused e : Refused e ∈ returned l -> conns_closed l = true /\ e = l_err l
}.

Lemma waiting_set i x y l : routines l !! i = Some x ->
  waiting (set_routine i y l) ++ option_list (sending x) ≡ₚ waiting l ++ option_list (sending y).
Proof. apply omap_insert. Qed.

Lemma advance_sound a l l' : sound l -> advance a l = Some l' -> sound l'.
Proof.
  intros [Ho He Hr] Q. unfold advance in Q. destruct (died l); [done|]. destruct a as [r|i r|i| |i].
  - destruct (conns_closed l) eqn:Hc; [done|]. destruct r as [c|e|w]; injection Q as <-; constructor; cbn; try done.
    + unfold delivered, waiting in *. cbn. by rewrite omap_app, app_nil_r.
    + intros e' Hin. by destruct (Hr e' Hin).
    + by rewrite Hc.
    + by rewrite Hc.
  - destruct (routines l !! i) as [[c| |]|] eqn:Hi; [|done..]. destruct r as [t|e|w]; injection Q as <-; constructor; cbn; try done.
    + pose proof (waiting_set _ _ (Sending t) _ Hi) as Hp. cbn in Hp. rewrite app_nil_r in Hp. unfold delivered, waiting in *. cbn. by rewrite Hp, app_assoc, Ho.
    + pose proof (waiting_set _ _ Ended _ Hi) as Hp. cbn in Hp. rewrite !app_nil_r in Hp. unfold delivered, waiting in *. cbn. by rewrite Hp.
  - destruct (routines l !! i) as [[|t|]|] eqn:Hi; [done| |done..]. destruct (conns_closed l) eqn:Hc; [done|]. injection Q as <-.
    constructor; cbn; [|by rewrite Hc|].
    + pose proof (waiting_set _ _ Ended _ Hi) as Hp. cbn in Hp. rewrite app_nil_r, <- Permutation_cons_append in Hp. unfold delivered, waiting in *. cbn.
      rewrite omap_app, <- Ho, <- Hp, <- app_assoc. done.
    + intros e [Hin|Hin]%elem_of_app; [by destruct (Hr e Hin); congruence|]. by apply list_elem_of_singleton in Hin.
  - destruct (conns_closed l) eqn:Hc; [|done]. injection Q as <-. constructor; cbn; [|by rewrite Hc|].
    + unfold delivered, waiting in *. cbn. by rewrite omap_app, app_nil_r.
    + intros e [Hin|Hin]%elem_of_app; [destruct (Hr e Hin) as [_ ->]; by rewrite Hc|]. apply list_elem_of_singleton in Hin. by injection Hin as ->.
  - destruct (routines l !! i) as [[|t|]|]; [done| |done..]. destruct (conns_closed l) eqn:Hc; [|done]. injection Q as <-.
    constructor; cbn; [done|by rewrite Hc|]. intros e Hin. destruct (Hr e Hin) as [_ ->]. by rewrite Hc.
Qed.
Lemma advance_all_snoc acts a s : advance_all (acts ++ [a]) s = let? s := advance_all acts s in advance a s.
Proof.
  revert s. induction acts as [|b acts IH]; intros s; cbn [advance_all app].
  - cbn. by destruct (advance a s).
  - destruct (advance b s) as [s1|]; [|done]. cbn [mbind option_bind]. apply IH.
Qed.

(** Where an error of [Accept] and the end of the process come from. *)
Record explained (acts : list action) (l : listener) : Prop := {
  ex_error e : l_err l = Some e -> InnerAccept (Err e) ∈ acts;
  ex_death w : died l = Some w -> (exists i, ServerReturns i (Panic w) ∈ acts) \/ InnerAccept (Panic w) ∈ acts \/
    (conns_closed l = true /\ waiting l <> [])
}.

Lemma waiting_In i t l : routines l !! i = Some (Sending t) -> t ∈ waiting l.
Proof. intros Hi. apply list_elem_of_omap. exists (Sending t). split; [by apply list_elem_of_lookup_2 in Hi|done]. Qed.

Lemma advance_explained acts a l l' : explained acts l -> advance a l = Some l' -> explained (acts ++ [a]) l'.
Proof.
  intros [He Hd] Q. assert (Hl : forall x, x ∈ acts -> x ∈ acts ++ [a]) by (intros x Hx; apply elem_of_app; by left).
  assert (Ha : a ∈ acts ++ [a]) by (apply elem_of_app; right; by apply list_elem_of_singleton).
  unfold advance in Q. destruct (died l) eqn:Hdied; [done|]. destruct a as [r|i r|i| |i].
  - destruct (conns_closed l) eqn:Hc; [done|]. destruct r as [c|e|w]; injection Q as <-; constructor; cbn; try done; auto.
    + by intros e' [= ->].
    + intros w' [= ->]. by right; left.
  - destruct (routines l !! i) as [[c| |]|]; [|done..]. destruct r as [t|e|w]; injection Q as <-; constructor; cbn; auto; try done; try (by rewrite Hdied).
    intros w' [= ->]. left. by exists i.
  - destruct (routines l !! i) as [[|t|]|]; [done| |done..]. destruct (conns_closed l); [done|]. injection Q as <-.
    constructor; cbn; [auto|by rewrite Hdied].
  - destruct (conns_closed l); [|done]. injection Q as <-. constructor; cbn; [auto|by rewrite Hdied].
  - destruct (routines l !! i) as [[|t|]|] eqn:Hi; [done| |done..]. destruct (conns_closed l) eqn:Hc; [|done]. injection Q as <-.
    constructor; cbn; [auto|]. intros w' _. right; right. split; [done|]. apply waiting_In in Hi. intros Hnil.
    change (waiting l = []) in Hnil. rewrite Hnil in Hi. by apply not_elem_of_nil in Hi.
Qed.

Lemma advance_all_keeps acts l : advance_all acts NewListener = Some l -> sound l /\ explained acts l.
Proof.
  revert l. induction acts as [|a acts IH] using rev_ind; intros l.
  - intros [= <-]. split; constructor; cbn; try done; intros e He; by apply not_elem_of_nil in He.
  - rewrite advance_all_snoc. destruct (advance_all acts NewListener) as [l1|] eqn:Hl1; [|done]. cbn [mbind option_bind]. intros Q.
    destruct (IH l1 eq_refl) as [Hs Hx]. split; [by eapply advance_sound|by eapply advance_explained].
Qed.

(** C10: The listener hands every connection over once. However the goroutines and
    the callers of [Accept] interleave, the connections that [Accept] has returned
    and those that wait for it are the connections that [Server] has returned; an error
    of [Accept] is the error of the inner listener; and as long as that has not
    failed every connection that waits can be accepted.  Once it has failed every
    [Accept] returns its error, but a handshake that ends then, or has ended
    without an [Accept], sends on a closed channel: this panic, like one of [Server], is
    not recovered and ends the process; it has no other way to die. *)
Theorem accept_delivers acts l : advance_all acts NewListener = Some l ->
  delivered l ++ waiting l ≡ₚ established l /\
  (forall e, Refused e ∈ returned l -> exists x, e = Some x /\ InnerAccept (Err x) ∈ acts) /\
  (forall w, died l = Some w -> (exists i, ServerReturns i (Panic w) ∈ acts) \/ InnerAccept (Panic w) ∈ acts \/
    (conns_closed l = true /\ waiting l <> [])) /\
  (died l = None ->
    (conns_closed l = false -> forall t, t ∈ waiting l ->
       exists i l', advance (Receive i) l = Some l' /\ returned l' = returned l ++ [Accepted t]) /\
    (conns_closed l = true ->
       (exists l', advance ReceiveClosed l = Some l' /\ returned l' = returned l ++ [Refused (l_err l)]) /\
       forall t, t ∈ waiting l -> exists i l', advance (SendClosed i) l = Some l' /\ died l' = Some "send on closed channel"%string)).
Proof.
  intros Q. apply advance_all_keeps in Q as [[Ho He Hr] [Hx Hd]]. split_and!; [done| |done|].
  - intros e Hin. apply Hr in Hin as [Hc ->]. rewrite Hc in He. symmetry in He. apply bool_decide_eq_true in He as [x Hl].
    exists x. split; [done|by apply Hx].
  - intros Hdied. assert (Hw : forall t, t ∈ waiting l -> exists i, routines l !! i = Some (Sending t)).
    { intros t (r & [i Hi]%list_elem_of_lookup & Ht)%list_elem_of_omap. exists i. by destruct r; simplify_eq/=. }
    split; intros Hc; [|split].
    + intros t [i Hi]%Hw. exists i. unfold advance. rewrite Hdied, Hi, Hc. by eexists.
    + unfold advance. rewrite Hdied, Hc. by eexists.
    + intros t [i Hi]%Hw. exists i. unfold advance. rewrite Hdied, Hi, Hc. by eexists.
Qed.
End listener.

(** ** A run

    Three connections; the second handshake fails, the first is accepted before the
    inner listener fails with error 7, the third ends after that. *)
Definition demo_acts : list (action (C:=nat) (T:=nat) (E:=nat)) :=
  [InnerAccept (Ret 1%nat); InnerAccept (Ret 2%nat); ServerReturns 1 (Err 3%nat); ServerReturns 0 (Ret 10%nat); InnerAccept (Ret 3%nat);
   Receive 0; InnerAccept (Err 7%nat); ReceiveClosed; ServerReturns 2 (Ret 30%nat); SendClosed 2].

Lemma accept_delivers_witness : exists l, advance_all demo_acts NewListener = Some l /\
  returned l = [Accepted 10%nat; Refused (Some 7%nat)] /\ died l = Some "send on closed channel"%string /\
  delivered l ++ waiting l ≡ₚ established l.
Proof. eexists. split; [reflexivity|]. split; [reflexivity|]. split; [reflexivity|]. by apply (accept_delivers demo_acts). Defined.
