(* ===== verification/KeyPair.v ===== *)
(** * tls.go: a certificate chain and its key from PEM files

    [X509KeyPair] takes the certificates of one PEM input and the first private
    key of another, and checks that the key belongs to the first certificate.
    Decoding PEM ([pem.Decode]) and parsing DER (crypto/x509) are the standard
    library's: they are parameters, keys are what the code compares of them. *)

From S2P Require Import Prelude Common HalfConn CipherSuites Kdf.

Open Scope go_scope.

(** [x509.Certificate.PublicKey]: the modulus, the point, the bytes. *)
Inductive public_key :=
| RSAPublicKey (N : Z)
| ECDSAPublicKey (X Y : Z)
| Ed25519PublicKey (b : bytes)
| OtherPublicKey.
#[export] Instance public_key_eq_dec : EqDecision public_key.
Proof. solve_decision. Defined.

Section keypair.
(** What else a private key holds; [*x509.Certificate]. *)
Context {K X : Type}.

(** [crypto.PrivateKey], with its public half. *)
Inductive private_key :=
| RSAPrivateKey (N : Z) (k : K)
| ECDSAPrivateKey (X Y : Z) (k : K)
| Ed25519PrivateKey (Public : bytes) (k : K)
| OtherPrivateKey (k : K).

(** A [pem.Block]; [nil] is the answer [None], with the rest of the input. *)
Record pem_block := mkPem { pem_Type : bytes; pem_Bytes : bytes }.
Context (Decode : bytes -> option pem_block * bytes).
Context (ParseCertificate : bytes -> outcome conn_error X) (PublicKey : X -> public_key).
Context (ParsePKCS1PrivateKey : bytes -> option (Z * K)) (ParsePKCS8PrivateKey : bytes -> option private_key)
  (ParseECPrivateKey : bytes -> option (Z * Z * K)).

Definition HasSuffix (s suffix : bytes) : bool :=
  (length suffix <=? length s)%nat && bool_decide (drop (length s - length suffix) s = suffix).
Definition CERTIFICATE : bytes := str "CERTIFICATE".
Definition PRIVATE_KEY : bytes := str "PRIVATE KEY".
Definition is_key_block (b : pem_block) : bool :=
  bool_decide (pem_Type b = PRIVATE_KEY) || HasSuffix (pem_Type b) (str " PRIVATE KEY").
Definition is_certificate_block (b : pem_block) : bool := bool_decide (pem_Type b = CERTIFICATE).

(** The results of [X509KeyPair]; the text of an error names the skipped types. *)
Inductive keypair_error :=
| EPlain (msg : string)
| ESkipped (msg : string) (types : list bytes)
| EOther (e : conn_error).

Record key_pair := mkKeyPair { kp_Certificate : list bytes; kp_PrivateKey : private_key; kp_Leaf : X }.

Definition parsePrivateKey (der : bytes) : outcome keypair_error private_key :=
  match ParsePKCS1PrivateKey der with
  | Some (n, k) => Ret (RSAPrivateKey n k)
  | None =>
      match ParsePKCS8PrivateKey der with
      | Some (OtherPrivateKey _) => Err (EPlain "tls: found unknown private key type in PKCS#8 wrapping")
      | Some key => Ret key
      | None =>
          match ParseECPrivateKey der with
          | Some (x, y, k) => Ret (ECDSAPrivateKey x y k)
          | None => Err (EPlain "tls: failed to parse private key")
          end
      end
  end.

(** The loop over the blocks of the certificate input: the certificates and the
    types that are skipped. *)
Fixpoint certificates (fuel : nat) (input : bytes) (certs types : list bytes) : list bytes * list bytes :=
  match fuel with
  | O => (certs, types)
  | Datatypes.S fuel =>
      match Decode input with
      | (None, _) => (certs, types)
      | (Some b, rest) =>
          if is_certificate_block b then certificates fuel rest (certs ++ [pem_Bytes b]) types
          else certificates fuel rest certs (types ++ [pem_Type b])
      end
  end.

(** The loop for the block of the key. *)
Fixpoint key_block (fuel : nat) (input : bytes) (types : list bytes) : outcome keypair_error pem_block :=
  match Decode input with
  | (None, _) =>
      if (length types =? 0)%nat then Err (EPlain "tls: failed to find any PEM data in key input")
      else if bool_decide (types = [CERTIFICATE]) then
        Err (EPlain "tls: found a certificate rather than a key in the PEM for the private key")
      else Err (ESkipped "tls: failed to find PEM block with type ending in PRIVATE KEY in key input after skipping PEM blocks of the following types" types)
  | (Some b, rest) =>
      if is_key_block b then Ret b
      else match fuel with
           | O => Panic "no fuel"
           | Datatypes.S fuel => key_block fuel rest (types ++ [pem_Type b])
           end
  end.

Definition mismatch_type {A} : outcome keypair_error A := Err (EPlain "tls: private key type does not match public key type").
Definition mismatch {A} : outcome keypair_error A := Err (EPlain "tls: private key does not match public key").

(** The [switch] on the type of the public key. *)
Definition check_pair (pub : public_key) (priv : private_key) : outcome keypair_error unit :=
  match pub with
  | RSAPublicKey n =>
      match priv with RSAPrivateKey n' _ => if n =? n' then Ret tt else mismatch | _ => mismatch_type end
  | ECDSAPublicKey x y =>
      match priv with ECDSAPrivateKey x' y' _ => if (x =? x') && (y =? y') then Ret tt else mismatch | _ => mismatch_type end
  | Ed25519PublicKey b =>
      match priv with Ed25519PrivateKey b' _ => if bool_decide (b' = b) then Ret tt else mismatch | _ => mismatch_type end
  | OtherPublicKey => Err (EPlain "tls: unknown public key algorithm")
  end.

Definition X509KeyPair (certPEMBlock keyPEMBlock : bytes) : outcome keypair_error key_pair :=
  let '(certs, skipped) := certificates (length certPEMBlock) certPEMBlock [] [] in
  match certs with
  | [] =>
      match skipped with
      | [] => Err (EPlain "tls: failed to find any PEM data in certificate input")
      | [t] =>
          if HasSuffix t PRIVATE_KEY then
            Err (EPlain "tls: failed to find certificate PEM data in certificate input, but did find a private key; PEM inputs may have been switched")
          else Err (ESkipped "tls: failed to find CERTIFICATE PEM block in certificate input after skipping PEM blocks of the following types" skipped)
      | _ => Err (ESkipped "tls: failed to find CERTIFICATE PEM block in certificate input after skipping PEM blocks of the following types" skipped)
      end
  | leaf :: _ =>
      let! b := key_block (length keyPEMBlock) keyPEMBlock [] in
      match ParseCertificate leaf with
      | Ret x509Cert =>
          let! key := parsePrivateKey (pem_Bytes b) in
          let! _ := check_pair (PublicKey x509Cert) key in
          Ret (mkKeyPair certs key x509Cert)
      | Err e => Err (EOther e)
      | Panic w => Panic w
      end
  end.
Context (ReadFile : bytes -> outcome conn_error bytes).
Definition read_file (name : bytes) : outcome keypair_error bytes :=
  match ReadFile name with Ret b => Ret b | Err e => Err (EOther e) | Panic w => Panic w end.
Definition LoadX509KeyPair (certFile keyFile : bytes) : outcome keypair_error key_pair :=
  let! certPEMBlock := read_file certFile in
  let! keyPEMBlock := read_file keyFile in
  X509KeyPair certPEMBlock keyPEMBlock.

(** ** What is accepted

    [pem.Decode] goes forward. *)
Context (Hdecode : forall input b rest, Decode input = (Some b, rest) -> (length rest < length input)%nat).

(** The blocks of an input. *)
Inductive blocks : bytes -> list pem_block -> Prop :=
| blocks_none input rest : Decode input = (None, rest) -> blocks input []
| blocks_some input b rest l : Decode input = (Some b, rest) -> blocks rest l -> blocks input (b :: l).

Lemma blocks_unique input l1 l2 : blocks input l1 -> blocks input l2 -> l1 = l2.
Proof. intros Hb. revert l2. induction Hb; inversion 1; try congruence. f_equal; [congruence|]. apply IHHb. congruence. Qed.

Lemma blocks_total input : exists l, blocks input l.
Proof.
  remember (length input) as n eqn:Hn. revert input Hn. induction (lt_wf n) as [n _ IH]. intros input ->.
  destruct (Decode input) as [[b|] rest] eqn:Hd; [|by exists []; econstructor].
  destruct (IH _ (Hdecode _ _ _ Hd) rest eq_refl) as [l Hl]. exists (b :: l). by econstructor.
Qed.

Lemma certificates_spec input l : blocks input l -> forall fuel certs types, (length input <= fuel)%nat ->
  certificates fuel input certs types =
  (certs ++ (pem_Bytes <$> filter is_certificate_block l), types ++ (pem_Type <$> filter (fun b => negb (is_certificate_block b)) l)).
Proof.
  induction 1 as [input rest Hd|input b rest l Hd Hb IH]; intros fuel certs types Hf.
  - destruct fuel; cbn [certificates]; rewrite ?Hd; cbn; by rewrite !app_nil_r.
  - pose proof (Hdecode _ _ _ Hd) as Hlt. destruct fuel as [|fuel]; [lia|]. cbn [certificates]. rewrite Hd, !filter_cons.
    destruct (is_certificate_block b); cbn; rewrite IH by lia; by rewrite <- app_assoc.
Qed.

Lemma key_block_spec input l : blocks input l -> forall fuel types, (length input <= fuel)%nat ->
  match key_block fuel input types with
  | Ret b => List.find is_key_block l = Some b
  | Err _ => List.find is_key_block l = None
  | Panic _ => False
  end.
Proof.
  induction 1 as [input rest Hd|input b rest l Hd Hb IH]; intros fuel types Hf.
  - destruct fuel; cbn [key_block]; rewrite Hd; by repeat case_match.
  - pose proof (Hdecode _ _ _ Hd) as Hlt. destruct fuel as [|fuel]; cbn [key_block List.find]; rewrite Hd;
      destruct (is_key_block b); [done|lia|done|]. apply IH. lia.
Qed.

Definition public_half (k : private_key) : public_key :=
  match k with
  | RSAPrivateKey n _ => RSAPublicKey n
  | ECDSAPrivateKey x y _ => ECDSAPublicKey x y
  | Ed25519PrivateKey b _ => Ed25519PublicKey b
  | OtherPrivateKey _ => OtherPublicKey
  end.

Lemma check_pair_spec pub priv : check_pair pub priv = Ret tt <-> pub = public_half priv /\ pub <> OtherPublicKey.
Proof.
  destruct pub as [n|x y|b|], priv as [n' k|x' y' k|b' k|k]; cbn; try (split; [done|intros [? ?]; congruence]).
  - destruct (Z.eqb_spec n n') as [->|]; [done|]. split; [done|intros [? ?]; congruence].
  - destruct (Z.eqb_spec x x') as [->|]; cbn; [|by split; [|intros [? ?]; congruence]].
    destruct (Z.eqb_spec y y') as [->|]; [done|]. split; [done|intros [? ?]; congruence].
  - destruct (bool_decide_reflect (b' = b)) as [->|]; [done|]. split; [done|intros [? ?]; congruence].
Qed.

(** A pair is accepted exactly when the first certificate is for the first key. *)
Theorem X509KeyPair_accepts certPEM keyPEM p : X509KeyPair certPEM keyPEM = Ret p <->
  exists certs keys leaf b,
    blocks certPEM certs /\ kp_Certificate p = pem_Bytes <$> filter is_certificate_block certs /\ head (kp_Certificate p) = Some leaf /\
    blocks keyPEM keys /\ List.find is_key_block keys = Some b /\ parsePrivateKey (pem_Bytes b) = Ret (kp_PrivateKey p) /\
    ParseCertificate leaf = Ret (kp_Leaf p) /\ PublicKey (kp_Leaf p) = public_half (kp_PrivateKey p) /\ PublicKey (kp_Leaf p) <> OtherPublicKey.
Proof.
  destruct (blocks_total certPEM) as [certs Hc], (blocks_total keyPEM) as [keys Hk]. unfold X509KeyPair.
  rewrite (certificates_spec _ _ Hc) by lia. cbn [app]. pose proof (key_block_spec _ _ Hk (length keyPEM) [] ltac:(lia)) as Hb.
  split.
  - destruct (pem_Bytes <$> filter is_certificate_block certs) as [|leaf more] eqn:Hcerts; [by repeat case_match|].
    destruct (key_block _ _ _) as [b| |]; cbn [obind]; [|done..]. destruct (ParseCertificate leaf) as [x| |] eqn:Hx; [|done..].
    destruct (parsePrivateKey _) as [key| |] eqn:Hkey; cbn; [|done..]. destruct (check_pair _ _) as [[]| |] eqn:Hp; cbn; [|done..].
    intros [= <-]. apply check_pair_spec in Hp as [? ?]. exists certs, keys, leaf, b. by rewrite Hcerts.
  - intros (certs' & keys' & leaf & b & Hc' & Hcerts & Hhead & Hk' & Hfind & Hkey & Hx & Hpub & Hother).
    rewrite (blocks_unique _ _ _ Hc' Hc) in Hcerts. rewrite (blocks_unique _ _ _ Hk' Hk) in Hfind. rewrite <- Hcerts.
    destruct p as [cs key x]. cbn in *. destruct cs as [|leaf' more]; [done|]. injection Hhead as ->.
    destruct (key_block _ _ _) as [b'| |]; [|congruence|done]. cbn. rewrite Hx. rewrite Hb in Hfind. injection Hfind as ->.
    rewrite Hkey. cbn. assert (E : check_pair (PublicKey x) key = Ret tt) by by apply check_pair_spec. by rewrite E.
Qed.
End keypair.
