(* ===== verification/Quic.v ===== *)
(** * quic.go: a TLS connection over QUIC

    The methods of [QUICConn] run on the application's goroutine and the handshake
    on one of its own; at most one of the two runs at a time.  They hand over to
    each other on two unbuffered channels: the application receives from
    [blockedc], on which the handshake sends when it must wait, and from
    [signalc], on which the handshake sends when it is to go on; both are closed
    when the handshake is over.

    The handshake is a program over the methods of [Conn] that quic.go gives it
    ([prog]); it is a tree, what the connection does between these calls is not
    visible here.  A state of the goroutine is one of its waits.  [run] takes it to
    the next wait or to its end, so that a method of [QUICConn] is one function of
    the state; [None] is a method that blocks for ever.

    The context of the handshake may be cancelled between two methods
    ([cancel]).  A wait that begins once the context is done is left at once: both
    channels of its [select] may be ready, and Go would choose either; if it sends on
    [blockedc] first, the second [select] is left in the same way, and the method only
    returns before the goroutine has ended.  Not modelled: what [NextEvent] writes over the data of an event
    (it does so after it has cleared the event, so never). *)

From S2P Require Import Prelude Common HalfConn Cryptobyte.

Open Scope go_scope.

(** [QUICEncryptionLevel], [QUICEventKind] *)
Definition QUICEncryptionLevelInitial : Z := 0.
Definition QUICEncryptionLevelEarly : Z := 1.
Definition QUICEncryptionLevelHandshake : Z := 2.
Definition QUICEncryptionLevelApplication : Z := 3.

Inductive QUICEventKind :=
| QUICNoEvent | QUICSetReadSecret | QUICSetWriteSecret | QUICWriteData | QUICTransportParameters
| QUICTransportParametersRequired | QUICRejectedEarlyData | QUICHandshakeDone | QUICResumeSession | QUICStoreSession.
#[export] Instance QUICEventKind_eq_dec : EqDecision QUICEventKind.
Proof. solve_decision. Defined.

(** [quicError]: an error with an [AlertError]; [None]: it wraps none. *)
Record quic_error := mkQuicError { qe_err : conn_error; qe_alert : option Z }.
Definition as_alert (e : conn_error) : option Z :=
  match e with EAlert a | ELocal a | ERemote a => Some a | _ => None end.
Definition quicError (e : quic_error) : quic_error :=
  match qe_alert e with
  | Some _ => e
  | None => mkQuicError (qe_err e) (Some (default alertInternalError (as_alert (qe_err e))))
  end.
Definition plain (e : conn_error) : quic_error := mkQuicError e None.

Section quic.
(** [*SessionState] *)
Context {SS : Type}.

Record QUICEvent := mkQUICEvent {
  Kind : QUICEventKind;
  Level : Z;
  Data : bytes;
  Suite : Z;
  ev_SessionState : option SS
}.
Definition no_event : QUICEvent := mkQUICEvent QUICNoEvent 0 [] 0 None.
Definition bare_event (k : QUICEventKind) : QUICEvent := mkQUICEvent k 0 [] 0 None.

(** [quicState], with what quic.go reads of its [Conn]; [emitted] and
    [consumed] record, for the statements, what the handshake has announced and
    the bytes it has read. *)
Record qconn := mkQconn {
  events : list QUICEvent;
  nextEvent : nat;
  started : bool;
  waitingForDrain : bool;
  readbuf : bytes;
  transportParams : option bytes;
  hand : bytes;
  in_level : Z;
  in_err : option conn_error;
  in_secret : bytes;
  out_level : Z;
  out_err : option conn_error;
  q_cipherSuite : Z;
  complete : bool;                  (* [isHandshakeComplete] *)
  q_handshakeErr : option quic_error;
  cancelled : bool;
  sessionTicketSent : bool;
  emitted : list QUICEvent;
  consumed : bytes
}.

Implicit Types c : qconn.
Definition set_events l n c := mkQconn l n (started c) (waitingForDrain c) (readbuf c) (transportParams c) (hand c) (in_level c) (in_err c)
  (in_secret c) (out_level c) (out_err c) (q_cipherSuite c) (complete c) (q_handshakeErr c) (cancelled c) (sessionTicketSent c) (emitted c) (consumed c).
Definition set_emitted l c := mkQconn (events c) (nextEvent c) (started c) (waitingForDrain c) (readbuf c) (transportParams c) (hand c)
  (in_level c) (in_err c) (in_secret c) (out_level c) (out_err c) (q_cipherSuite c) (complete c) (q_handshakeErr c) (cancelled c)
  (sessionTicketSent c) l (consumed c).
Definition set_started c := mkQconn (events c) (nextEvent c) true (waitingForDrain c) (readbuf c) (transportParams c) (hand c) (in_level c)
  (in_err c) (in_secret c) (out_level c) (out_err c) (q_cipherSuite c) (complete c) (q_handshakeErr c) (cancelled c) (sessionTicketSent c)
  (emitted c) (consumed c).
Definition set_waitingForDrain b c := mkQconn (events c) (nextEvent c) (started c) b (readbuf c) (transportParams c) (hand c) (in_level c)
  (in_err c) (in_secret c) (out_level c) (out_err c) (q_cipherSuite c) (complete c) (q_handshakeErr c) (cancelled c) (sessionTicketSent c)
  (emitted c) (consumed c).
Definition set_readbuf b c := mkQconn (events c) (nextEvent c) (started c) (waitingForDrain c) b (transportParams c) (hand c) (in_level c)
  (in_err c) (in_secret c) (out_level c) (out_err c) (q_cipherSuite c) (complete c) (q_handshakeErr c) (cancelled c) (sessionTicketSent c)
  (emitted c) (consumed c).
Definition set_transportParams p c := mkQconn (events c) (nextEvent c) (started c) (waitingForDrain c) (readbuf c) (Some p) (hand c) (in_level c)
  (in_err c) (in_secret c) (out_level c) (out_err c) (q_cipherSuite c) (complete c) (q_handshakeErr c) (cancelled c) (sessionTicketSent c)
  (emitted c) (consumed c).
Definition set_hand h r c := mkQconn (events c) (nextEvent c) (started c) (waitingForDrain c) (readbuf c) (transportParams c) h (in_level c)
  (in_err c) (in_secret c) (out_level c) (out_err c) (q_cipherSuite c) (complete c) (q_handshakeErr c) (cancelled c) (sessionTicketSent c)
  (emitted c) r.
Definition set_in l s c := mkQconn (events c) (nextEvent c) (started c) (waitingForDrain c) (readbuf c) (transportParams c) (hand c) l
  (in_err c) s (out_level c) (out_err c) (q_cipherSuite c) (complete c) (q_handshakeErr c) (cancelled c) (sessionTicketSent c)
  (emitted c) (consumed c).
Definition set_out_level l c := mkQconn (events c) (nextEvent c) (started c) (waitingForDrain c) (readbuf c) (transportParams c) (hand c) (in_level c)
  (in_err c) (in_secret c) l (out_err c) (q_cipherSuite c) (complete c) (q_handshakeErr c) (cancelled c) (sessionTicketSent c)
  (emitted c) (consumed c).
Definition set_in_error e c := mkQconn (events c) (nextEvent c) (started c) (waitingForDrain c) (readbuf c) (transportParams c) (hand c) (in_level c)
  (Some e) (in_secret c) (out_level c) (out_err c) (q_cipherSuite c) (complete c) (q_handshakeErr c) (cancelled c) (sessionTicketSent c)
  (emitted c) (consumed c).
Definition set_out_error e c := mkQconn (events c) (nextEvent c) (started c) (waitingForDrain c) (readbuf c) (transportParams c) (hand c) (in_level c)
  (in_err c) (in_secret c) (out_level c) (Some e) (q_cipherSuite c) (complete c) (q_handshakeErr c) (cancelled c) (sessionTicketSent c)
  (emitted c) (consumed c).
Definition set_cipherSuite s c := mkQconn (events c) (nextEvent c) (started c) (waitingForDrain c) (readbuf c) (transportParams c) (hand c) (in_level c)
  (in_err c) (in_secret c) (out_level c) (out_err c) s (complete c) (q_handshakeErr c) (cancelled c) (sessionTicketSent c)
  (emitted c) (consumed c).
Definition set_complete c := mkQconn (events c) (nextEvent c) (started c) (waitingForDrain c) (readbuf c) (transportParams c) (hand c) (in_level c)
  (in_err c) (in_secret c) (out_level c) (out_err c) (q_cipherSuite c) true (q_handshakeErr c) (cancelled c) (sessionTicketSent c)
  (emitted c) (consumed c).
Definition set_handshakeErr e c := mkQconn (events c) (nextEvent c) (started c) (waitingForDrain c) (readbuf c) (transportParams c) (hand c) (in_level c)
  (in_err c) (in_secret c) (out_level c) (out_err c) (q_cipherSuite c) (complete c) e (cancelled c) (sessionTicketSent c)
  (emitted c) (consumed c).
Definition set_cancelled c := mkQconn (events c) (nextEvent c) (started c) (waitingForDrain c) (readbuf c) (transportParams c) (hand c) (in_level c)
  (in_err c) (in_secret c) (out_level c) (out_err c) (q_cipherSuite c) (complete c) (q_handshakeErr c) true (sessionTicketSent c)
  (emitted c) (consumed c).
Definition set_sessionTicketSent c := mkQconn (events c) (nextEvent c) (started c) (waitingForDrain c) (readbuf c) (transportParams c) (hand c)
  (in_level c) (in_err c) (in_secret c) (out_level c) (out_err c) (q_cipherSuite c) (complete c) (q_handshakeErr c) (cancelled c) true
  (emitted c) (consumed c).

(** ** What the handshake calls *)

(** [c.quic.events = append(c.quic.events, e)] *)
Definition emit (e : QUICEvent) c : qconn := set_emitted (emitted c ++ [e]) (set_events (events c ++ [e]) (nextEvent c) c).

Definition quicSetReadSecret (level suite : Z) (secret : bytes) : qconn -> qconn :=
  emit (mkQUICEvent QUICSetReadSecret level secret suite None).
Definition quicSetWriteSecret (level suite : Z) (secret : bytes) : qconn -> qconn :=
  emit (mkQUICEvent QUICSetWriteSecret level secret suite None).
Definition quicStoreSession (s : SS) : qconn -> qconn := emit (mkQUICEvent QUICStoreSession 0 [] 0 (Some s)).
Definition quicSetTransportParameters (p : bytes) : qconn -> qconn := emit (mkQUICEvent QUICTransportParameters 0 p 0 None).
Definition quicHandshakeComplete : qconn -> qconn := emit (bare_event QUICHandshakeDone).
Definition quicRejectedEarlyData : qconn -> qconn := emit (bare_event QUICRejectedEarlyData).

(** The data is added to the last event if that is data of the same level. *)
Definition quicWriteCryptoData (level : Z) (data : bytes) c : qconn :=
  let e := mkQUICEvent QUICWriteData level data 0 None in
  set_emitted (emitted c ++ [e])
    match last (events c) with
    | Some l =>
        if bool_decide (Kind l = QUICWriteData) && (Level l =? level)
        then set_events (removelast (events c) ++ [mkQUICEvent QUICWriteData level (Data l ++ data) (Suite l) (ev_SessionState l)]) (nextEvent c) c
        else set_events (events c ++ [e]) (nextEvent c) c
    | None => set_events [e] (nextEvent c) c
    end.

(** The calls that do not wait. [CryptoData]: [writeRecordLocked]; [InSecret],
    [OutLevel]: what [setTrafficSecret] sets. *)
Inductive call :=
| ReadSecret (level suite : Z) (secret : bytes)
| WriteSecret (level suite : Z) (secret : bytes)
| CryptoData (data : bytes)
| Store (s : SS)
| PeerParameters (p : bytes)
| RejectedEarlyData
| InSecret (level : Z) (secret : bytes)
| OutLevel (level : Z)
| CipherSuite (id : Z)
| AlertSent (a : Z)
| HandshakeComplete.

Definition do_call (f : call) : qconn -> qconn :=
  match f with
  | ReadSecret level suite secret => quicSetReadSecret level suite secret
  | WriteSecret level suite secret => quicSetWriteSecret level suite secret
  | CryptoData data => fun c => quicWriteCryptoData (out_level c) data c
  | Store s => quicStoreSession s
  | PeerParameters p => quicSetTransportParameters p
  | RejectedEarlyData => quicRejectedEarlyData
  | InSecret level secret => set_in level secret
  | OutLevel level => set_out_level level
  | CipherSuite id => set_cipherSuite id
  | AlertSent a => set_out_error (ELocal a)
  | HandshakeComplete => set_complete
  end.

Inductive prog :=
| Exit (r : option conn_error)                                 (* [handshakeFn] returns *)
| Call (f : call) (k : prog)
| Next (n : nat) (k : bytes -> prog)                           (* [c.hand.Next(n)] *)
| ReadHandshakeBytes (n : nat) (k : option conn_error -> prog)
| ResumeSession (s : SS) (k : option conn_error -> prog)
| GetTransportParameters (k : outcome conn_error bytes -> prog).

(** The loops that wait, by what they wait for. *)
Inductive waiting :=
| ForBytes (n : nat) (k : option conn_error -> prog)
| ForDrain (k : option conn_error -> prog)
| ForParameters (k : outcome conn_error bytes -> prog).

Inductive routine :=
| NotStarted (p : prog)
| Blocked (w : waiting)
| Exited
| Crashed (w : string).

(** ** The handshake *)

(** [quicWaitForSignal] when the context is cancelled. *)
Definition interruption : conn_error := ELocal alertCloseNotify.

(** The end of [handshakeContext]. *)
Definition finish (r : option conn_error) c : routine * qconn :=
  let r := match r with
           | None => if complete c then None else Some (EText "tls: internal error: handshake should have had a result")
           | _ => r
           end in
  match r with
  | None =>
      (Exited, set_handshakeErr None (quicSetReadSecret QUICEncryptionLevelApplication (q_cipherSuite c) (in_secret c) (quicHandshakeComplete c)))
  | Some e =>
      if complete c then (Crashed "tls: internal error: handshake returned an error but is marked successful", c)
      else
        let a := match out_err c with Some oe => default alertInternalError (as_alert oe) | None => alertInternalError end in
        (Exited, set_handshakeErr (Some (mkQuicError e (Some a))) c)
  end.

Definition next_bytes (n : nat) c : bytes * qconn :=
  let b := take n (hand c) in (b, set_hand (drop n (hand c)) (consumed c ++ b) c).

(** To the next wait, or to the end. *)
Fixpoint run (p : prog) c : routine * qconn :=
  match p with
  | Exit r => finish r c
  | Call f k => run k (do_call f c)
  | Next n k => let '(b, c) := next_bytes n c in run (k b) c
  | ReadHandshakeBytes n k =>
      if (n <=? length (hand c))%nat then run (k None) c
      else if cancelled c then run (k (Some interruption)) (set_out_error interruption c)
      else (Blocked (ForBytes n k), c)
  | ResumeSession s k =>
      let c := set_waitingForDrain true (emit (mkQUICEvent QUICResumeSession 0 [] 0 (Some s)) c) in
      if cancelled c then run (k (Some interruption)) (set_out_error interruption c)
      else (Blocked (ForDrain k), c)
  | GetTransportParameters k =>
      match transportParams c with
      | Some p => run (k (Ret p)) c
      | None =>
          let c := emit (bare_event QUICTransportParametersRequired) c in
          if cancelled c then run (k (Err interruption)) (set_out_error interruption c)
          else (Blocked (ForParameters k), c)
      end
  end.

(** The loop of a wait, once more. *)
Definition again (w : waiting) c : routine * qconn :=
  match w with
  | ForBytes n k => if (n <=? length (hand c))%nat then run (k None) c else (Blocked w, c)
  | ForDrain k => if waitingForDrain c then (Blocked w, c) else run (k None) c
  | ForParameters k => match transportParams c with Some p => run (k (Ret p)) c | None => (Blocked w, c) end
  end.
Definition interrupted (w : waiting) c : routine * qconn :=
  let c := set_out_error interruption c in
  match w with
  | ForBytes _ k | ForDrain k => run (k (Some interruption)) c
  | ForParameters k => run (k (Err interruption)) c
  end.

(** [<-c.quic.signalc; <-c.quic.blockedc]: a goroutine that waits takes
    [readbuf], looks again, and blocks or ends. *)
Definition signal (s : routine * qconn) : option (routine * qconn) :=
  let '(r, c) := s in
  match r with
  | NotStarted _ | Crashed _ => None
  | Exited => Some s
  | Blocked w => Some (again w (set_readbuf [] (set_hand (hand c ++ readbuf c) (consumed c) c)))
  end.

(** The context is done. *)
Definition cancel (s : routine * qconn) : routine * qconn :=
  let '(r, c) := s in
  let c := set_cancelled c in
  match r with Blocked w => interrupted w c | _ => (r, c) end.

(** ** The methods of [QUICConn] *)

Context (MinVersion : Z) (isClient : bool).
(** [handlePostHandshakeMessage] on a message that is there, and
    [sendSessionTicket]: the calls that they make and their error. *)
Context (post : bytes -> qconn -> list call * option conn_error).
Context (ticket : bool -> list bytes -> qconn -> list call * option conn_error).
(** [c.clientSessionCacheKey()] *)
Context (cacheKey : bytes).

Definition newQUICConn (params : option bytes) (p : prog) : routine * qconn :=
  (NotStarted p, mkQconn [] 0 false false [] params [] QUICEncryptionLevelInitial None [] QUICEncryptionLevelInitial None 0 false None false
     false [] []).

Definition Start (s : routine * qconn) : option (option quic_error * (routine * qconn)) :=
  let '(r, c) := s in
  if started c then Some (Some (quicError (plain (EText "tls: Start called more than once"))), s)
  else
    let c := set_started c in
    if MinVersion <? VersionTLS13 then Some (Some (quicError (plain (EText "tls: Config MinVersion must be at least TLS 1.3"))), (r, c))
    else
      match r with
      | NotStarted p =>
          let '(r, c) := run p c in
          match r with
          | Crashed _ => None
          | Exited => Some (q_handshakeErr c, (r, c))
          | _ => Some (None, (r, c))
          end
      | _ => None
      end.

Definition NextEvent (s : routine * qconn) : option (QUICEvent * (routine * qconn)) :=
  let c := snd s in
  let? s := (if (length (events c) <=? nextEvent c)%nat && waitingForDrain c
             then signal (fst s, set_waitingForDrain false c) else Some s) in
  let '(r, c) := s in
  match events c !! nextEvent c with
  | None => Some (no_event, (r, set_events [] 0 c))
  | Some e => Some (e, (r, set_events (<[nextEvent c := no_event]> (events c)) (nextEvent c + 1) c))
  end.

Definition Close (s : routine * qconn) : option (option quic_error * (routine * qconn)) :=
  match fst s with
  | NotStarted _ => Some (None, s)
  | _ => let s := cancel s in match fst s with Crashed _ => None | _ => Some (q_handshakeErr (snd s), s) end
  end.

(** The loop over the messages after the handshake. *)
Definition message_length (b : bytes) : Z := (nth_byte b 1 ≪ 16) ||| (nth_byte b 2 ≪ 8) ||| nth_byte b 3.
Fixpoint post_messages (fuel : nat) c : qconn :=
  match fuel with
  | O => c
  | Datatypes.S fuel =>
      if (4 <=? length (hand c))%nat && negb (bool_decide (is_Some (q_handshakeErr c))) then
        let n := message_length (hand c) in
        if maxHandshake <? n then
          set_handshakeErr (Some (plain (EText "tls: handshake message of length %d bytes exceeds maximum of %d bytes"))) c
        else if Z.of_nat (length (hand c)) <? 4 + n then c
        else
          let '(msg, c) := next_bytes (Z.to_nat (4 + n)) c in
          let '(calls, err) := post msg c in
          let c := fold_left (fun c f => do_call f c) calls c in
          post_messages fuel (match err with Some e => set_handshakeErr (Some (plain e)) c | None => c end)
      else c
  end.

Definition HandleData (level : Z) (data : bytes) (s : routine * qconn) : option (option quic_error * (routine * qconn)) :=
  let '(r, c) := s in
  if negb (in_level c =? level) then
    let e := EText "tls: handshake data received at wrong level" in
    Some (Some (quicError (plain e)), (r, set_in_error e c))
  else
    let? s := signal (r, set_readbuf data c) in
    let '(r, c) := s in
    match r with
    | Blocked _ => Some (None, (r, c))
    | Exited =>
        let c := set_readbuf [] (set_hand (hand c ++ readbuf c) (consumed c) c) in
        let c := post_messages (length (hand c)) c in
        Some (quicError <$> q_handshakeErr c, (r, c))
    | _ => None
    end.

Definition SendSessionTicket (EarlyData : bool) (Extra : list bytes) (s : routine * qconn) : option quic_error * (routine * qconn) :=
  let '(r, c) := s in
  if negb (complete c) then (Some (quicError (plain (EText "tls: SendSessionTicket called before handshake completed"))), s)
  else if isClient then (Some (quicError (plain (EText "tls: SendSessionTicket called on the client"))), s)
  else if sessionTicketSent c then (Some (quicError (plain (EText "tls: SendSessionTicket called multiple times"))), s)
  else
    let c := set_sessionTicketSent c in
    let '(calls, err) := ticket EarlyData Extra c in
    ((fun e => quicError (plain e)) <$> err, (r, fold_left (fun c f => do_call f c) calls c)).

(** The session that is put into the cache, with its key. *)
Definition StoreSession (session : SS) : outcome quic_error (option (bytes * SS)) :=
  if negb isClient then Err (quicError (plain (EText "tls: StoreSessionTicket called on the server")))
  else if (length cacheKey =? 0)%nat then Ret None
  else Ret (Some (cacheKey, session)).

Definition SetTransportParameters (params : bytes) (s : routine * qconn) : option (routine * qconn) :=
  let '(r, c) := s in
  let c := set_transportParams params c in
  if started c then signal (r, c) else Some (r, c).
End quic.

(** * Theorems

    Whatever the handshake does, and however the methods of [QUICConn] and the
    cancellation of its context interleave, the transport gets every event once
    and in order, and the handshake reads the bytes of [HandleData] in order. *)

Section proofs.
Context {SS : Type}.
Abbreviation event := (QUICEvent (SS:=SS)).
Abbreviation qc := (qconn (SS:=SS)).
Abbreviation state := (routine (SS:=SS) * qc)%type.
Implicit Types c : qc.

Context (MinVersion : Z) (isClient : bool).
Context (post : bytes -> qc -> list (call (SS:=SS)) * option conn_error).
Context (ticket : bool -> list bytes -> qc -> list (call (SS:=SS)) * option conn_error).

(** ** What the events tell *)

(** Handshake data is a stream of bytes at each level: its pieces may be put
    together. *)
Inductive item := Byte (level b : Z) | Event (e : event).
Definition items_of (e : event) : list item :=
  match Kind e with
  | QUICNoEvent => []
  | QUICWriteData => Byte (Level e) <$> Data e
  | _ => [Event e]
  end.
Definition items (l : list event) : list item := concat (items_of <$> l).
#[local] Arguments items : simpl never.

Lemma items_app l1 l2 : items (l1 ++ l2) = items l1 ++ items l2.
Proof. unfold items. by rewrite fmap_app, concat_app. Qed.
Lemma items_one e : items [e] = items_of e.
Proof. unfold items. cbn. by rewrite app_nil_r. Qed.

(** [d]: the events that were returned; [r]: the bytes that were handled. *)
Record consistent (d : list event) (r : bytes) c : Prop := {
  co_events : items d ++ items (events c) = items (emitted c);
  co_next : (nextEvent c <= length (events c))%nat /\ Forall (fun e => e = no_event) (take (nextEvent c) (events c));
  co_pending : Forall (fun e => Kind e <> QUICNoEvent) (drop (nextEvent c) (events c));
  co_read : readbuf c = [] /\ consumed c ++ hand c = r
}.

Lemma cleared_items l : Forall (fun e : event => e = no_event) l -> items l = [].
Proof. induction 1 as [|e l -> _ IH]; [done|]. by unfold items in *. Qed.

Lemma emit_consistent d r e c : Kind e <> QUICNoEvent -> consistent d r c -> consistent d r (emit e c).
Proof.
  intros He [Hev [Hn Hcl] Hp Hr]. constructor; [|split| |exact Hr]; cbn.
  - by rewrite !items_app, app_assoc, Hev.
  - rewrite length_app. lia.
  - by rewrite take_app_le.
  - rewrite drop_app_le by done. apply Forall_app. by split; [|constructor].
Qed.

Lemma write_consistent d r level data c : consistent d r c -> consistent d r (quicWriteCryptoData level data c).
Proof.
  intros Hc. unfold quicWriteCryptoData. set (e := mkQUICEvent QUICWriteData level data 0 None).
  destruct (last (events c)) as [l|] eqn:Hl.
  2: { apply last_None in Hl. pose proof (emit_consistent d r e c ltac:(done) Hc) as Hm. unfold emit in Hm. by rewrite Hl in Hm. }
  destruct (bool_decide (Kind l = QUICWriteData) && (Level l =? level)) eqn:Hm; [|by apply (emit_consistent d r e)].
  apply andb_true_iff in Hm as [Hk%bool_decide_eq_true Hlev%Z.eqb_eq]. apply last_Some in Hl as (l' & Hl).
  destruct Hc as [Hev [Hn Hcl] Hp Hr]. rewrite Hl in *. rewrite length_app in Hn. cbn [length] in Hn.
  assert (Hn' : (nextEvent c <= length l')%nat).
  { destruct (decide (nextEvent c <= length l')%nat); [done|]. rewrite take_ge in Hcl by (rewrite length_app; cbn; lia).
    apply Forall_app in Hcl as [_ Hcl]. apply Forall_cons in Hcl as [-> _]. done. }
  rewrite removelast_last. constructor; [|split| |exact Hr]; cbn.
  - rewrite !items_app in *. rewrite <- Hev, !items_one, <- !app_assoc. f_equal. f_equal.
    unfold items_of. cbn. by rewrite Hk, Hlev, fmap_app.
  - rewrite length_app. cbn. lia.
  - rewrite take_app_le in * by done. done.
  - rewrite drop_app_le in * by done. apply Forall_app in Hp as [Hp _]. apply Forall_app. split; [done|]. by constructor.
Qed.

Lemma call_consistent d r f c : consistent d r c -> consistent d r (do_call f c).
Proof.
  intros Hc. destruct f; cbn [do_call]; try (by apply emit_consistent); try (by apply write_consistent); by destruct Hc.
Qed.

Lemma next_consistent d r n c : consistent d r c -> consistent d r (snd (next_bytes n c)).
Proof.
  intros [Hev Hn Hp [Hb Hr]]. constructor; cbn; [done..|]. split; [done|]. by rewrite <- app_assoc, take_drop.
Qed.

Lemma finish_consistent d r res c : consistent d r c -> consistent d r (snd (finish res c)).
Proof.
  intros Hc. unfold finish. destruct res as [e|].
  - destruct (complete c); [done|]. by destruct Hc.
  - destruct (complete c) eqn:Hd.
    + cbn [snd]. assert (Hq : consistent d r (quicSetReadSecret QUICEncryptionLevelApplication (q_cipherSuite c) (in_secret c)
        (quicHandshakeComplete c))) by (by apply emit_consistent; [|apply emit_consistent]). by destruct Hq.
    + cbn [snd]. by destruct Hc.
Qed.

Lemma run_consistent d r p c : consistent d r c -> consistent d r (snd (run p c)).
Proof.
  revert c. induction p as [res|f k IH|n k IH|n k IH|s k IH|k IH]; intros c Hc; cbn [run].
  - by apply finish_consistent.
  - by apply IH, call_consistent.
  - apply (next_consistent _ _ n) in Hc. destruct (next_bytes n c). by apply IH.
  - destruct (_ <=? _)%nat; [by apply IH|]. destruct (cancelled c); [|done]. apply IH. by destruct Hc.
  - set (c1 := set_waitingForDrain true _). assert (Hc1 : consistent d r c1).
    { assert (Hq : consistent d r (emit (mkQUICEvent QUICResumeSession 0 [] 0 (Some s)) c)) by by apply emit_consistent. by destruct Hq. }
    destruct (cancelled c1); [|done]. apply IH. by destruct Hc1.
  - destruct (transportParams c) as [p|]; [by apply IH|].
    assert (Hc1 : consistent d r (emit (bare_event QUICTransportParametersRequired) c)) by by apply emit_consistent.
    destruct (cancelled _); [|done]. apply IH. by destruct Hc1.
Qed.

(** The methods keep a state consistent; a signal moves [readbuf]. *)
Lemma again_consistent d r w c : consistent d r c -> consistent d r (snd (again w c)).
Proof.
  intros Hc. destruct w as [n k|k|k]; cbn [again].
  - destruct (_ <=? _)%nat; [by apply run_consistent|done].
  - destruct (waitingForDrain c); [done|by apply run_consistent].
  - destruct (transportParams c); [by apply run_consistent|done].
Qed.

Lemma interrupted_consistent d r w c : consistent d r c -> consistent d r (snd (interrupted w c)).
Proof. intros Hc. assert (consistent d r (set_out_error interruption c)) by by destruct Hc. by destruct w; apply run_consistent. Qed.

Lemma signal_consistent d r (s s' : state) : consistent d r (snd s) -> signal s = Some s' -> consistent d r (snd s').
Proof.
  destruct s as [[p|w| |w] c]; cbn [snd signal]; intros Hc; [done| |by intros [= <-]|done].
  intros Q. apply (inj Some) in Q as <-. apply again_consistent. destruct Hc as [Hev Hn Hp [Hb Hr]].
  constructor; cbn; [done..|]. by rewrite Hb, app_nil_r.
Qed.

Lemma calls_consistent d r l c : consistent d r c -> consistent d r (fold_left (fun c f => do_call f c) l c).
Proof. revert c. induction l as [|f l IH]; intros c Hc; [done|]. by apply IH, call_consistent. Qed.

Lemma post_consistent d r fuel c : consistent d r c -> consistent d r (post_messages post fuel c).
Proof.
  revert c. induction fuel as [|fuel IH]; intros c Hc; cbn [post_messages]; [done|].
  destruct (_ && _); [|done]. destruct (maxHandshake <? _); [by destruct Hc|]. destruct (_ <? _); [done|].
  apply (next_consistent _ _ (Z.to_nat (4 + message_length (hand c)))) in Hc.
  destruct (next_bytes _ c) as [msg c1]. destruct (post msg c1) as [calls err]. apply IH.
  apply (calls_consistent _ _ calls) in Hc. destruct err; [by destruct Hc|done].
Qed.

(** ** The methods *)

Lemma NextEvent_consistent d r (s s' : state) e : consistent d r (snd s) -> NextEvent s = Some (e, s') ->
  consistent (d ++ [e]) r (snd s') /\ (Kind e = QUICNoEvent -> items d = items (emitted (snd s'))).
Proof.
  unfold NextEvent. intros Hc Q.
  assert (H1' : exists s1, (if (length (events (snd s)) <=? nextEvent (snd s))%nat && waitingForDrain (snd s)
    then signal (fst s, set_waitingForDrain false (snd s)) else Some s) = Some s1 /\ consistent d r (snd s1)).
  { destruct (_ && _); [|by exists s]. destruct (signal _) as [s1|] eqn:Hs; [|done]. exists s1. split; [done|].
    eapply signal_consistent; [|exact Hs]. by destruct Hc. }
  destruct H1' as (s1 & E & Hc1). rewrite E in Q. cbn [mbind option_bind] in Q. destruct s1 as [r1 c1]. cbn [snd] in Hc1.
  destruct Hc1 as [Hev [Hn Hcl] Hp Hr]. destruct (events c1 !! nextEvent c1) as [e1|] eqn:Hlook.
  - injection Q as <- <-. cbn [snd].
    assert (Hsplit : events c1 = take (nextEvent c1) (events c1) ++ e1 :: drop (Datatypes.S (nextEvent c1)) (events c1)) by by rewrite take_drop_middle.
    assert (Hlt : (nextEvent c1 < length (events c1))%nat) by by apply lookup_lt_Some in Hlook.
    rewrite Hsplit, drop_app_length' in Hp by (rewrite length_take; lia). apply Forall_cons in Hp as [Hk Hp].
    split; [|done]. rewrite Hsplit in Hev. rewrite items_app, (cleared_items (take _ _)) in Hev by done.
    set (pre := take (nextEvent c1) (events c1)) in *. set (rest := drop (Datatypes.S (nextEvent c1)) (events c1)) in *.
    assert (Hl : length pre = nextEvent c1) by (unfold pre; rewrite length_take; lia).
    assert (Hins : <[nextEvent c1:=no_event]> (events c1) = pre ++ no_event :: rest).
    { rewrite Hsplit, <- Hl. by rewrite insert_app_r_alt, Nat.sub_diag by lia. }
    constructor; [|split| |exact Hr]; cbn.
    + rewrite Hins, !items_app, (cleared_items pre) by done. rewrite <- Hev, items_one, <- app_assoc. done.
    + rewrite length_insert. lia.
    + rewrite Hins. rewrite <- Hl. replace (length pre + 1)%nat with (length (pre ++ [no_event (SS:=SS)])) by by rewrite length_app.
      change (no_event :: rest) with ([no_event (SS:=SS)] ++ rest). rewrite app_assoc, take_app_length. apply Forall_app. split; [done|by constructor].
    + rewrite Hins. rewrite <- Hl. replace (length pre + 1)%nat with (length (pre ++ [no_event (SS:=SS)])) by by rewrite length_app.
      change (no_event :: rest) with ([no_event (SS:=SS)] ++ rest). by rewrite app_assoc, drop_app_length.
  - injection Q as <- <-. cbn [snd]. apply lookup_ge_None in Hlook. rewrite take_ge in Hcl by done.
    rewrite (cleared_items (events c1)), app_nil_r in Hev by done. split; [|by intros _].
    constructor; cbn; [|by split|done|exact Hr]. by rewrite items_app, app_nil_r, app_nil_r.
Qed.

Lemma Start_consistent d r (s s' : state) e : consistent d r (snd s) -> Start MinVersion s = Some (e, s') -> consistent d r (snd s').
Proof.
  destruct s as [g c]. unfold Start. cbn [snd]. intros Hc. destruct (started c); [by intros [= _ <-]|].
  assert (Hc1 : consistent d r (set_started c)) by by destruct Hc.
  destruct (_ <? _); [by intros [= _ <-]|]. destruct g as [p| | |]; [|done..].
  pose proof (run_consistent _ _ p _ Hc1) as Hr. destruct (run p (set_started c)) as [g' c'].
  destruct g'; intros Q; try done; by injection Q as _ <-.
Qed.

Lemma cancel_consistent d r (s : state) : consistent d r (snd s) -> consistent d r (snd (cancel s)).
Proof.
  destruct s as [g c]. cbn [cancel snd]. intros Hc. assert (Hc1 : consistent d r (set_cancelled c)) by by destruct Hc.
  destruct g; [done|by apply interrupted_consistent|done..].
Qed.

(** A method of the data: the bytes count when they are not refused for their
    level. *)
Lemma HandleData_consistent d r level data (s s' : state) e : consistent d r (snd s) ->
  HandleData post level data s = Some (e, s') ->
  consistent d (if in_level (snd s) =? level then r ++ data else r) (snd s').
Proof.
  destruct s as [g c]. unfold HandleData. cbn [snd]. intros Hc. destruct (in_level c =? level); cbn [negb].
  2: { intros [= _ <-]. by destruct Hc. }
  destruct Hc as [Hev Hn Hp [Hb Hr]]. destruct g as [p|w| |w]; cbn [signal mbind option_bind]; [done| | |done].
  - set (c1 := set_readbuf [] _). assert (Hc1 : consistent d (r ++ data) c1).
    { constructor; cbn; [done..|]. split; [done|]. by rewrite app_assoc, Hr. }
    apply (again_consistent _ _ w) in Hc1. destruct (again w c1) as [[p|w'| |w'] c2]; cbn [snd] in Hc1; intros Q; try done.
    + by injection Q as _ <-.
    + injection Q as _ <-. apply post_consistent. destruct Hc1 as [Hev1 Hn1 Hp1 [Hb1 Hr1]].
      constructor; cbn; [done..|]. by rewrite Hb1, app_nil_r.
  - intros [= _ <-]. apply post_consistent. constructor; cbn; [done..|]. split; [done|]. by rewrite app_assoc, Hr.
Qed.

Lemma SendSessionTicket_consistent d r early extra (s : state) : consistent d r (snd s) ->
  consistent d r (snd (snd (SendSessionTicket isClient ticket early extra s))).
Proof.
  destruct s as [g c]. unfold SendSessionTicket. intros Hc. destruct (negb _); [done|]. destruct isClient; [done|].
  destruct (sessionTicketSent c); [done|]. destruct (ticket early extra _) as [calls err]. apply calls_consistent. by destruct Hc.
Qed.

Lemma SetTransportParameters_consistent d r p (s s' : state) : consistent d r (snd s) ->
  SetTransportParameters p s = Some s' -> consistent d r (snd s').
Proof.
  destruct s as [g c]. unfold SetTransportParameters. intros Hc. assert (Hc1 : consistent d r (set_transportParams p c)) by by destruct Hc.
  cbn zeta. destruct (started (set_transportParams p c)); [by apply signal_consistent|]. intros Q. by apply (inj Some) in Q as <-.
Qed.

(** ** All of them, in any order *)

Inductive op :=
| OpStart | OpNextEvent | OpClose | OpCancel
| OpHandleData (level : Z) (data : bytes)
| OpSendSessionTicket (early : bool) (extra : list bytes)
| OpSetTransportParameters (p : bytes).

(** The events that have been returned, the bytes that have been handled, and
    the state; [None]: a method does not return. *)
Definition exec (o : op) (x : list event * bytes * state) : option (list event * bytes * state) :=
  let '(d, r, s) := x in
  match o with
  | OpStart => let? (_, s) := Start MinVersion s in Some (d, r, s)
  | OpNextEvent => let? (e, s) := NextEvent s in Some (d ++ [e], r, s)
  | OpClose => let? (_, s) := Close s in Some (d, r, s)
  | OpCancel => Some (d, r, cancel s)
  | OpHandleData level data =>
      let? (_, s') := HandleData post level data s in Some (d, if in_level (snd s) =? level then r ++ data else r, s')
  | OpSendSessionTicket early extra => Some (d, r, snd (SendSessionTicket isClient ticket early extra s))
  | OpSetTransportParameters p => let? s := SetTransportParameters p s in Some (d, r, s)
  end.
Fixpoint exec_all (ops : list op) (x : list event * bytes * state) : option (list event * bytes * state) :=
  match ops with
  | [] => Some x
  | o :: ops => let? x := exec o x in exec_all ops x
  end.

Definition consistent_run (x : list event * bytes * state) : Prop := consistent x.1.1 x.1.2 (snd x.2).

Lemma exec_consistent o x x' : consistent_run x -> exec o x = Some x' -> consistent_run x'.
Proof.
  destruct x as [[d r] s]. unfold consistent_run. cbn [fst snd]. intros Hc. destruct o; cbn [exec].
  - destruct (Start _ _) as [[e s']|] eqn:Hs; [|done]. intros [= <-]. by eapply Start_consistent.
  - destruct (NextEvent s) as [[e s']|] eqn:Hs; [|done]. intros [= <-]. by eapply NextEvent_consistent.
  - unfold Close. destruct (fst s) eqn:Hg; [by intros [= <-]| | |]; cbn zeta; destruct (fst (cancel s)); try done;
      intros [= <-]; by apply cancel_consistent.
  - intros [= <-]. by apply cancel_consistent.
  - destruct (HandleData _ _ _ _) as [[e s']|] eqn:Hs; [|done]. intros [= <-]. by eapply HandleData_consistent.
  - intros [= <-]. by apply SendSessionTicket_consistent.
  - destruct (SetTransportParameters _ _) as [s'|] eqn:Hs; [|done]. intros [= <-]. by eapply SetTransportParameters_consistent.
Qed.

Lemma exec_all_consistent ops x x' : consistent_run x -> exec_all ops x = Some x' -> consistent_run x'.
Proof.
  revert x. induction ops as [|o ops IH]; intros x Hc; cbn [exec_all]; [by intros [= <-]|].
  destruct (exec o x) as [x1|] eqn:Ho; [|done]. cbn [mbind option_bind]. apply IH. by eapply exec_consistent.
Qed.

(** The bytes that wait bound the messages in them: more fuel changes nothing. *)
Lemma call_hand f c : hand (do_call f c) = hand c.
Proof.
  destruct f; try done. cbn [do_call]. unfold quicWriteCryptoData. destruct (last _) as [l|]; [|done]. by destruct (_ && _).
Qed.
Lemma calls_hand l c : hand (fold_left (fun c f => do_call f c) l c) = hand c.
Proof. revert c. induction l as [|f l IH]; intros c; [done|]. cbn. by rewrite IH, call_hand. Qed.

Lemma message_length_nonneg b : bytes_ok b -> 0 <= message_length b.
Proof.
  intros Hb. assert (Hn : forall i, 0 <= nth_byte b i).
  { intros i. unfold nth_byte. destruct (nth_in_or_default i b 0) as [Hi| ->]; [|done].
    rewrite List.Forall_forall in Hb. by apply Hb in Hi as [? _]. }
  unfold message_length. rewrite !Z.lor_nonneg, !Z.shiftl_nonneg. auto.
Qed.

Lemma post_messages_enough fuel more c : bytes_ok (hand c) -> (length (hand c) <= fuel)%nat ->
  post_messages post (fuel + more) c = post_messages post fuel c.
Proof.
  revert c. induction fuel as [|fuel IH]; intros c Hb Hl; cbn [post_messages Nat.add].
  - destruct (hand c) eqn:Hc; [|by cbn in Hl; lia]. destruct more; [done|]. cbn [post_messages]. by rewrite Hc.
  - destruct (_ && _) eqn:Hg; [|done]. destruct (maxHandshake <? _); [done|].
    destruct (_ <? _) eqn:Hn; [done|]. unfold next_bytes.
    apply andb_true_iff in Hg as [Hg%Nat.leb_le _]. pose proof (message_length_nonneg (hand c) Hb).
    destruct (post _ _) as [calls err]. destruct err; (apply IH; cbn; rewrite calls_hand; cbn; [by apply Forall_drop|]);
      rewrite length_drop; lia.
Qed.

(** A goroutine that has started always answers: after a signal it waits again
    or has ended, unless it panics. *)
Definition alive (g : routine (SS:=SS)) : Prop := match g with Blocked _ | Exited => True | _ => False end.
Definition panicked (g : routine (SS:=SS)) : Prop := match g with Crashed _ => True | _ => False end.

Lemma run_answers p c : alive (fst (run p c)) \/ panicked (fst (run p c)).
Proof.
  revert c. induction p as [res|f k IH|n k IH|n k IH|s k IH|k IH]; intros c; cbn [run]; auto.
  - unfold finish. destruct res; [|destruct (complete c)]; [destruct (complete c)|..]; cbn; auto.
  - destruct (next_bytes n c). auto.
  - destruct (_ <=? _)%nat; [auto|]. destruct (cancelled c); [auto|by left].
  - destruct (cancelled _); [auto|by left].
  - destruct (transportParams c); [auto|]. destruct (cancelled _); [auto|by left].
Qed.

Lemma again_answers w c : alive (fst (again w c)) \/ panicked (fst (again w c)).
Proof.
  destruct w as [n k|k|k]; cbn [again].
  - destruct (_ <=? _)%nat; [apply run_answers|by left].
  - destruct (waitingForDrain c); [by left|apply run_answers].
  - destruct (transportParams c); [apply run_answers|by left].
Qed.

Lemma signal_answers (s : state) : alive (fst s) -> exists s', signal s = Some s' /\ (alive (fst s') \/ panicked (fst s')).
Proof.
  destruct s as [[p|w| |w] c]; cbn; try done; intros _; [|by eexists; split; [done|left]].
  eexists. split; [done|]. apply again_answers.
Qed.

Lemma HandleData_returns level data (s : state) : alive (fst s) ->
  HandleData post level data s = None -> exists s', signal (fst s, set_readbuf data (snd s)) = Some s' /\ panicked (fst s').
Proof.
  destruct s as [g c]. unfold HandleData. cbn [fst snd]. intros Ha. destruct (negb _); [done|].
  destruct (signal_answers (g, set_readbuf data c) Ha) as ([g' c'] & E & H'). rewrite E. cbn [mbind option_bind].
  destruct g' as [| | |w]; try done; [by destruct H'|]. intros _. by exists (Crashed w, c').
Qed.

Lemma NextEvent_returns (s : state) : alive (fst s) -> exists e s', NextEvent s = Some (e, s').
Proof.
  intros Ha. unfold NextEvent.
  assert (H1' : exists s1, (if (length (events (snd s)) <=? nextEvent (snd s))%nat && waitingForDrain (snd s)
    then signal (fst s, set_waitingForDrain false (snd s)) else Some s) = Some s1).
  { destruct (_ && _); [|by eexists]. destruct (signal_answers (fst s, set_waitingForDrain false (snd s)) Ha) as (s1 & E & _). by exists s1. }
  destruct H1' as ([g1 c1] & E). rewrite E. cbn [mbind option_bind]. destruct (_ !! _); by eexists _, _.
Qed.

(** C24: The QUIC transport loses and reorders nothing. However the application
    calls the methods of a [QUICConn], its context is cancelled, and whatever the
    handshake does: the events that [NextEvent] has returned, followed by those that
    wait, are what the handshake has announced, in order (pieces of handshake data
    of one level may have been put together, no byte moves); an answer
    [QUICNoEvent] says that all of them have been returned; and what the handshake
    has read, followed by what waits for it, is the data of the calls of
    [HandleData] that were at the right level. Once started, [NextEvent] always
    returns, and [HandleData] does unless the handshake panics. *)
Theorem quic_in_order params p ops d r (s : state) :
  exec_all ops ([], [], newQUICConn params p) = Some (d, r, s) ->
  let c := snd s in
  items d ++ items (drop (nextEvent c) (events c)) = items (emitted c) /\ consumed c ++ hand c = r /\
  (forall e s', NextEvent s = Some (e, s') -> Kind e = QUICNoEvent -> items d = items (emitted (snd s'))) /\
  (alive (fst s) -> (exists e s', NextEvent s = Some (e, s')) /\
    forall level data, HandleData post level data s = None ->
      exists s', signal (fst s, set_readbuf data c) = Some s' /\ panicked (fst s')).
Proof.
  intros Q. apply exec_all_consistent in Q; [|by constructor; [|split|..]]. unfold consistent_run in Q. cbn [fst snd] in Q.
  cbn zeta. split_and!.
  - destruct Q as [Hev [_ Hcl] _ _]. rewrite <- (take_drop (nextEvent (snd s)) (events (snd s))) in Hev.
    by rewrite items_app, (cleared_items (take _ _)) in Hev.
  - apply Q.
  - intros e s' Hn. by eapply NextEvent_consistent.
  - intros Ha. split; [by apply NextEvent_returns|]. intros level data. by apply HandleData_returns.
Qed.
End proofs.

(** ** A run

    A server reads a message that comes in two pieces, answers, asks for its
    transport parameters and completes the handshake; data of a wrong level is
    refused, a message after the handshake is handled. *)
Section run.

Definition demo_end (o : outcome conn_error bytes) : prog (SS:=nat) :=
  match o with
  | Ret p =>
      Call (CryptoData p) (Call (OutLevel 2) (Call (WriteSecret 2 0x1301 [6]) (Call (CryptoData [8])
      (Call (InSecret 3 [7]) (Call (CipherSuite 0x1301) (Call HandshakeComplete (Exit None)))))))
  | _ => Exit (Some interruption)
  end.
Definition demo_handshake : prog (SS:=nat) :=
  ReadHandshakeBytes 5 (fun e =>
    match e with
    | Some e => Exit (Some e)
    | None => Next 5 (fun b => Call (CryptoData b) (Call (PeerParameters [3]) (Call (CryptoData [9]) (GetTransportParameters demo_end))))
    end).
Definition demo_post (_ : bytes) (_ : qconn (SS:=nat)) : list (call (SS:=nat)) * option conn_error := ([Store 5%nat], None).
Definition demo_ops : list op :=
  [OpStart; OpNextEvent; OpHandleData 0 [1; 0; 0]; OpHandleData 0 [1; 20]; OpHandleData 2 [1]; OpNextEvent;
   OpSetTransportParameters [5]; OpNextEvent; OpNextEvent; OpHandleData 3 [4; 0; 0; 1; 3; 24]; OpCancel; OpNextEvent; OpNextEvent; OpNextEvent;
   OpNextEvent; OpNextEvent; OpNextEvent; OpNextEvent; OpNextEvent].
Abbreviation demo_run := (exec_all VersionTLS13 false demo_post (fun _ _ _ => ([], None)) demo_ops ([], [], newQUICConn None demo_handshake)).

Example demo_events :
  (let? x := demo_run in Some (map Kind x.1.1, map Data x.1.1, x.1.2, hand (snd x.2))) =
  Some ([QUICNoEvent; QUICWriteData; QUICTransportParameters; QUICWriteData; QUICTransportParametersRequired; QUICWriteData;
         QUICSetWriteSecret; QUICWriteData; QUICHandshakeDone; QUICSetReadSecret; QUICStoreSession; QUICNoEvent],
        [[]; [1; 0; 0; 1; 20]; [3]; [9]; []; [5]; [6]; [8]; []; [7]; []; []], [1; 0; 0; 1; 20; 4; 0; 0; 1; 3; 24], [24]).
Proof. vm_compute. reflexivity. Qed.

Lemma demo_returns : is_Some demo_run.
Proof. assert (E : bool_decide (is_Some demo_run) = true) by (vm_compute; reflexivity). by apply bool_decide_eq_true in E. Qed.

Lemma quic_in_order_witness : exists d r s, demo_run = Some (d, r, s) /\
  items d ++ items (drop (nextEvent (snd s)) (events (snd s))) = items (emitted (snd s)) /\
  consumed (snd s) ++ hand (snd s) = r /\
  (alive (fst s) -> exists e s', NextEvent s = Some (e, s')).
Proof.
  destruct demo_returns as [[[d r] s] Hr]. exists d, r, s. split; [exact Hr|].
  pose proof (quic_in_order _ _ _ _ _ _ _ _ _ _ Hr) as (He & Hb & _ & Ha). split; [exact He|]. split; [exact Hb|].
  intros Hs. exact (proj1 (Ha Hs)).
Defined.
End run.
